(* ===== verification/_CoqProject ===== *)
-Q . S2P
Prelude.v
Mem.v
KString.v
Riscv.v
State.v
Sched.v
Ring.v
Uart.v
Format.v
Printf.v
Kalloc.v
Vm.v
PtRep.v
Uvm.v
Uspace.v
Ucopy.v
Pool.v
Ufree.v
CopyUser.v
VmProps.v
Bio.v
Bcache.v
Log.v
Commit.v
Crash.v
LogOps.v
LogProps.v
Spinlock.v
Proc.v
ProcMem.v
ProcProps.v
Console.v
ConsoleProps.v
Pipe.v
PipeProps.v
Fs.v
File.v
Kvm.v
ProcFs.v
Fork.v
Wait.v
Exec.v
Sysfile.v
Syscall.v
Asm.v
PgAccess.v
Virtio.v
VirtioProps.v
Trap.v
Boot.v
FsTx.v
FsAlloc.v
FsFile.v
FsInode.v
FsDinode.v
FsBmap.v
FsWrite.v
FsDir.v
FsProps.v
Usys.v
Ulib.v
Grep.v
Uprogs.v
Sh.v
ShParse.v
ShRun.v
Umalloc.v
Utest.v
Tests.v
TestsFs.v
TestsProc.v
GrindGo.v
Pgtbltest.v
Usertests.v
Mkfs.v
MkfsProps.v
MkfsImage.v
