(* ===== verification/Prelude.v ===== *)
(** * A verification development for xv6

    The program is xv6 for RISC-V with the page-table lab (conf/lab.mk:
    LAB=pgtbl): a Unix-like kernel (src/kernel), its user library and programs
    (src/user) and the program that builds the first disk (src/mkfs).

    ** The parts and how they interact

    A user program reaches the kernel by a trap: trampoline.S saves its registers
    in the trapframe, trap.c and syscall.c dispatch, sysproc.c and sysfile.c fetch
    the arguments and call the process code (proc.c, exec.c) or the file layers.
    These are, from the top: file.c and pipe.c, path names, directories, inodes and
    the block allocator (fs.c), the write-ahead log (log.c), the buffer cache
    (bio.c) and the disk driver (virtio_disk.c).  Memory comes from kalloc.c and is
    mapped by vm.c.  spinlock.c and sleeplock.c protect shared data, proc.c's sleep,
    wakeup and scheduler and swtch.S move harts between threads, and uart.c,
    console.c, printf.c and plic.c drive the devices.

    ** How the code is modelled

    - Integers are [Z] with wrap-around written out ([u8] .. [u64], [s32], ... below).
      RAM is a map from addresses to bytes (Mem.v), page tables and the free list
      live in it; other C structs are records and arrays are lists (State.v).  The
      global variables, RAM, the disk and the device registers are the fields of one
      record, [kstate].
    - Kernel code is in a state monad with resumptions, [K]: a function returns
      ([Ret]), panics or faults ([Stop]), or suspends in sleep, yield or a wait loop
      with the code that goes on from any later state ([Sleep]).  So theorems about
      a function that sleeps say with which state it sleeps, and what it does from
      every state in which it may be resumed.  C loops are [loop] with fuel; each
      loop's fuel is computed from the data that bounds it (a length, a size, a
      count) and the theorems show that it is enough: they conclude with [Ret].
      Loops that C does not bound either take their fuel from the state ([k_fuel]).
    - User programs are trees of system calls (Usys.v), run by any kernel that
      satisfies the classes the theorems name (reads and writes, sbrk, fork).
    - Assembly is a list of instructions over a small machine (Asm.v).

    ** The files, the code they model and what is proved

    Basics: Prelude.v (integers, the monad, loops, little-endian bytes, tactics),
    Mem.v (RAM), KString.v (kernel/string.c), Riscv.v (riscv.h, memlayout.h), State.v
    (proc.h, buf.h, file.h, fs.h, ... and the global state), Sched.v (locks as seen
    by one thread, sleep, wakeup, sleeplock.c), Ring.v (counters that wrap).

    Memory: Kalloc.v (kalloc.c), Vm.v and Kvm.v (vm.c); PtRep.v relates page tables in
    RAM to the map they represent, Uvm.v, Uspace.v, Ucopy.v, Ufree.v and CopyUser.v
    work on address spaces, Pool.v on the free pages next to address spaces that a
    function does not touch; VmProps.v has the properties: fork's copy of memory gives
    the child the parent's bytes in pages of its own, growing, shrinking and freeing
    lose no page and fail only for want of free pages, copyout, copyin and copyinstr touch exactly what the user may
    touch.  PgAccess.v: the system call of the page-table lab.

    Disk: Bio.v and Bcache.v (bio.c), Log.v (log.c), Commit.v, Crash.v, LogOps.v and
    LogProps.v: a crash at any disk write of a commit, and at any write of any number
    of recoveries after it, leaves all or nothing of the transaction.  Virtio.v and
    VirtioProps.v (virtio_disk.c): driver, device, interrupt handler and scheduler
    together perform the transfer that the buffer cache assumes.

    File system: Fs.v (fs.c), File.v (file.c), Sysfile.v (sysfile.c, arguments of
    syscall.c); FsTx.v, FsAlloc.v, FsFile.v, FsInode.v, FsDinode.v, FsWrite.v, FsDir.v
    and FsProps.v: what writei stores readi returns, inodes keep what iupdate stored,
    balloc and bfree on the bitmap, reference counts of the inode table, directory
    lookup, splitting of paths.

    Devices: Uart.v (uart.c), Format.v (the characters the two printfs produce), Printf.v
    (printf.c), Console.v and ConsoleProps.v (console.c): no byte lost or reordered
    on the wire, and the line editor as a refinement.

    Processes: Spinlock.v (spinlock.c on several harts: mutual exclusion over all
    interleavings), Proc.v, ProcFs.v and ProcProps.v (proc.c), ProcMem.v, Fork.v and
    Wait.v (what fork and wait do to the process table, to memory and to the open
    files: a child with the parent's memory, registers and files, or nothing changed;
    a zombie reaped with all its pages free, or a sleep), Pipe.v and PipeProps.v (pipe.c), Exec.v (exec.c), Syscall.v (sysproc.c and the dispatch), Trap.v (trap.c,
    plic.c), Boot.v (start.c, main.c).  Asm.v (trampoline.S, swtch.S, kernelvec.S,
    entry.S, initcode.S, the stubs of usys.pl and usys.S): a trap and its return restore every
    register, swtch resumes a thread where it stopped, kernelvec is transparent.

    User: Usys.v, Ulib.v (ulib.c), Grep.v (grep.c: the matcher decides the language of
    its pattern, grep prints the matching lines), Uprogs.v (cat, wc, echo, rm, mkdir,
    ln, kill, zombie, init, ls), Sh.v, ShParse.v and ShRun.v (sh.c: the parser accepts
    exactly a grammar, and what runs with which descriptors), Umalloc.v (umalloc.c:
    malloc and free against a sorted ring of disjoint blocks), Utest.v (forktest,
    stressfs, grind's random numbers) and GrindGo.v (grind's system calls).  The tests
    of usertests.c are programs in Tests.v (addresses, memory), TestsFs.v (files) and
    TestsProc.v (processes, pipes); Usertests.v has the tables and the driver, with
    what it reports for the statuses of its children and what its count of free pages
    is.  Pgtbltest.v (pgtbltest.c): the program cannot pass on this kernel, which has no
    superpages.

    mkfs: Mkfs.v, MkfsProps.v and MkfsImage.v: the kernel reads back from the image the
    superblock, the bitmap and every file byte for byte.

    ** Parameters

    The device side of the disk is a class of VirtioProps.v, the UART's and PLIC's
    registers answer from scripts in the state, uninitialised stack memory and link
    addresses are the classes [Uninit] (Fs.v) and [Layout] (State.v), the page-table walk of
    the hardware, symbol addresses and called C functions are parameters of Asm.v, the
    host's files of Mkfs.v.  Every property with hypotheses has a witness, an instance
    on a concrete state.

    ** Not modelled

    Memory barriers, TLB flushes and caches (the model has neither weak memory nor a
    TLB); the timing of interrupts inside kernel code, except where a function sleeps
    (Spinlock.v has the interleavings of the lock code itself); the accessors of single
    control registers in riscv.h, one instruction each; linker scripts, Makefile, the
    grading scripts.  That the tests of usertests.c pass on the kernel model is not
    proved: a run needs every system call of a test composed from the trap to the
    disk, and evaluating the model on a full machine is out of reach of the kernel's
    conversion. *)

From stdpp Require Import base list gmap strings.
From Stdlib Require Import ZArith Lia.

Open Scope Z_scope.
Set Default Goal Selector "!".

(** ** Machine integers

    C's fixed-width integers are [Z] with the wrap-around written out:
    [u32 x] is the value of the C expression [(uint)x], [s32 x] of [(int)x]. *)

Definition u8 (x : Z) : Z := x mod 2 ^ 8.
Definition u16 (x : Z) : Z := x mod 2 ^ 16.
Definition u32 (x : Z) : Z := x mod 2 ^ 32.
Definition u64 (x : Z) : Z := x mod 2 ^ 64.

Definition signed (w x : Z) : Z :=
  let y := x mod 2 ^ w in if y <? 2 ^ (w - 1) then y else y - 2 ^ w.
Definition s8 (x : Z) : Z := signed 8 x.
Definition s16 (x : Z) : Z := signed 16 x.
Definition s32 (x : Z) : Z := signed 32 x.
Definition s64 (x : Z) : Z := signed 64 x.

(** ** Outcomes of kernel code

    Running a C function from a state either returns, stops (a [panic], an
    access the C code must not make, or the fuel of an unbounded loop runs
    out), or gives up the CPU in the middle ([sched] was called): then the rest
    of the function is a continuation from the state other threads leave. *)

Inductive stop :=
| SPanic (msg : string)
| SFault (why : string)
| SFuel.

Inductive out (S A : Type) :=
| Ret (a : A) (s : S)
| Stop (r : stop) (s : S)
| Sleep (s : S) (k : S -> out S A).
Arguments Ret {S A} a s.
Arguments Stop {S A} r s.
Arguments Sleep {S A} s k.

Definition M (S A : Type) : Type := S -> out S A.

Fixpoint out_bind {S A B} (f : A -> M S B) (o : out S A) : out S B :=
  match o with
  | Ret a s => f a s
  | Stop r s => Stop r s
  | Sleep s k => Sleep s (fun s' => out_bind f (k s'))
  end.

#[global] Instance m_ret {S} : MRet (M S) := fun A a s => Ret a s.
#[global] Instance m_bind {S} : MBind (M S) := fun A B f m s => out_bind f (m s).

Section Ops.
Context {S : Type}.

Definition gets {A} (f : S -> A) : M S A := fun s => Ret (f s) s.
Definition modify (f : S -> S) : M S unit := fun s => Ret tt (f s).
Definition panic {A} (msg : string) : M S A := fun s => Stop (SPanic msg) s.
Definition fault {A} (why : string) : M S A := fun s => Stop (SFault why) s.
Definition nofuel {A} : M S A := fun s => Stop SFuel s.
Definition skip : M S unit := mret tt.
(** Give up the CPU; resume in whatever state the others leave. *)
Definition suspend : M S unit := fun s => Sleep s (fun s' => Ret tt s').

Definition need {A} (why : string) (o : option A) : M S A :=
  match o with Some a => mret a | None => fault why end.

(** C loops: [inl a] goes round again with the loop variables [a],
    [inr b] leaves the loop with [b]. *)
Fixpoint loop {A B} (fuel : nat) (step : A -> M S (A + B)) (a : A) : M S B :=
  match fuel with
  | O => nofuel
  | Datatypes.S n => r ← step a;
           match r with inl a' => loop n step a' | inr b => mret b end
  end.

(** [for(x in l) body x] *)
Fixpoint for_each {A} (l : list A) (body : A -> M S unit) : M S unit :=
  match l with
  | [] => skip
  | x :: l' => body x ;; for_each l' body
  end.
End Ops.

(** The outcome of a run satisfies [Q] however often it gives up the CPU, when
    the other threads move the state only along [R]. *)
Fixpoint wp {S A} (R : S -> S -> Prop) (Q : A -> S -> Prop) (o : out S A) : Prop :=
  match o with
  | Ret a s => Q a s
  | Stop _ _ => False
  | Sleep s k => forall s', R s s' -> wp R Q (k s')
  end.

Definition returns {S A} (o : out S A) (a : A) (s : S) : Prop := o = Ret a s.

(** The final state and value of a run that returned. *)
Definition out_state {S A} (o : out S A) (d : S) : S :=
  match o with Ret _ s => s | _ => d end.
Definition out_val {S A} (o : out S A) (d : A) : A :=
  match o with Ret a _ => a | _ => d end.

(** ** Running sequences of operations *)

Lemma bind_Ret {S A B} (m : M S A) (f : A -> M S B) s a s' :
  m s = Ret a s' -> mbind f m s = f a s'.
Proof. intros H. unfold mbind, m_bind. rewrite H. reflexivity. Qed.

Lemma bind_Stop {S A B} (m : M S A) (f : A -> M S B) s r s' :
  m s = Stop r s' -> mbind f m s = Stop r s'.
Proof. intros H. unfold mbind, m_bind. rewrite H. reflexivity. Qed.

Lemma bind_Sleep {S A B} (m : M S A) (f : A -> M S B) s s' k :
  m s = Sleep s' k -> mbind f m s = Sleep s' (fun t => out_bind f (k t)).
Proof. intros H. unfold mbind, m_bind. rewrite H. reflexivity. Qed.

Lemma bind_inv_Ret {S A B} (m : M S A) (f : A -> M S B) s b s' :
  mbind f m s = Ret b s' ->
  exists a s1, m s = Ret a s1 /\ f a s1 = Ret b s'.
Proof.
  unfold mbind, m_bind. destruct (m s) as [a s1 | r s1 | s1 k]; simpl; intros H.
  - eauto.
  - discriminate.
  - discriminate.
Qed.

Lemma loop_S {S A B} n (step : A -> M S (A + B)) a s :
  loop (Datatypes.S n) step a s =
  out_bind (fun r => match r with inl a' => loop n step a' | inr b => mret b end)
           (step a s).
Proof. reflexivity. Qed.

Lemma loop_continue {S A B} n (step : A -> M S (A + B)) a s a' s' :
  step a s = Ret (inl a') s' -> loop (Datatypes.S n) step a s = loop n step a' s'.
Proof. intros H. rewrite loop_S, H. reflexivity. Qed.

Lemma loop_break {S A B} n (step : A -> M S (A + B)) a s b s' :
  step a s = Ret (inr b) s' -> loop (Datatypes.S n) step a s = Ret b s'.
Proof. intros H. rewrite loop_S, H. reflexivity. Qed.

Lemma loop_stop {S A B} n (step : A -> M S (A + B)) a s r s' :
  step a s = Stop r s' -> loop (Datatypes.S n) step a s = Stop r s'.
Proof. intros H. rewrite loop_S, H. reflexivity. Qed.

Lemma loop_sleep {S A B} n (step : A -> M S (A + B)) a s s' k :
  step a s = Sleep s' k -> exists k', loop (Datatypes.S n) step a s = Sleep s' k'.
Proof. intros H. rewrite loop_S, H. eauto. Qed.

(** More fuel never changes a run that returned. *)
Lemma loop_mono {S A B} n m (step : A -> M S (A + B)) a s b s' :
  (n <= m)%nat -> loop n step a s = Ret b s' -> loop m step a s = Ret b s'.
Proof.
  revert m a s. induction n as [|n IH]; intros m a s Hnm H; [discriminate|].
  destruct m as [|m]; [lia|].
  rewrite loop_S in *. destruct (step a s) as [[a'|b'] s1|r s1|s1 k]; simpl in *;
    try discriminate; [|exact H].
  apply IH; [lia|exact H].
Qed.

(** Consequence and sequencing for [wp]. *)
Lemma wp_mono {S A} (R : S -> S -> Prop) (Q Q' : A -> S -> Prop) o :
  (forall a s, Q a s -> Q' a s) -> wp R Q o -> wp R Q' o.
Proof. intros HQ. induction o; simpl; eauto. Qed.

Lemma wp_bind {S A B} (R : S -> S -> Prop) (Q : B -> S -> Prop)
    (f : A -> M S B) (m : M S A) s :
  wp R (fun a s' => wp R Q (f a s')) (m s) -> wp R Q (mbind f m s).
Proof.
  unfold mbind, m_bind. generalize (m s). clear.
  induction o; simpl; intros Hw; auto.
Qed.

Ltac mstep H := first [ rewrite (bind_Ret _ _ _ _ _ H)
                      | rewrite (bind_Stop _ _ _ _ _ H)
                      | rewrite (bind_Sleep _ _ _ _ _ H) ].

(** The first operation of a run, by its equation. *)
Ltac kstep_by H := erewrite bind_Ret; [|eapply H]; cbn beta iota.

(** Unfold the primitive operations at the head of a run. *)
Ltac mred :=
  cbv [mbind m_bind mret m_ret gets modify panic fault nofuel skip need suspend] in *;
  cbn [out_bind] in *.

(** [lia] on goals with division or remainder by constants. *)
Ltac divlia := Z.to_euclidean_division_equations; lia.

(** Case analysis on every [decide] of the goal; contradictory cases by [lia]. *)
Ltac dec_cases := repeat case_decide; first [ done | exfalso; naive_solver lia ].

(** ** Arithmetic shared by the components *)

Lemma u64_small x : 0 <= x < 2 ^ 64 -> u64 x = x.
Proof. apply Z.mod_small. Qed.
Lemma u32_small x : 0 <= x < 2 ^ 32 -> u32 x = x.
Proof. apply Z.mod_small. Qed.
Lemma u16_small x : 0 <= x < 2 ^ 16 -> u16 x = x.
Proof. apply Z.mod_small. Qed.
Lemma u8_small x : 0 <= x < 2 ^ 8 -> u8 x = x.
Proof. apply Z.mod_small. Qed.
Lemma u8_range x : 0 <= u8 x < 256.
Proof. apply Z.mod_pos_bound. lia. Qed.
Lemma u32_range x : 0 <= u32 x < 2 ^ 32.
Proof. apply Z.mod_pos_bound. lia. Qed.
Lemma u64_range x : 0 <= u64 x < 2 ^ 64.
Proof. apply Z.mod_pos_bound. lia. Qed.
Lemma u8_u8 x : u8 (u8 x) = u8 x.
Proof. apply u8_small, u8_range. Qed.
Lemma u32_u32 x : u32 (u32 x) = u32 x.
Proof. apply u32_small, u32_range. Qed.
Lemma u64_u64 x : u64 (u64 x) = u64 x.
Proof. apply u64_small, u64_range. Qed.

Lemma s32_range x : - 2 ^ 31 <= s32 x < 2 ^ 31.
Proof.
  unfold s32, signed. pose proof (Z.mod_pos_bound x (2 ^ 32) ltac:(lia)). change (32 - 1) with 31.
  destruct (Z.ltb_spec (x mod 2 ^ 32) (2 ^ 31)); lia.
Qed.
Lemma s32_add_l x y : s32 (s32 x + y) = s32 (x + y).
Proof.
  assert (E : s32 x mod 2 ^ 32 = x mod 2 ^ 32).
  { unfold s32, signed. destruct (_ <? _); [apply Z.mod_mod; lia|].
    replace (x mod 2 ^ 32 - 2 ^ 32) with (x mod 2 ^ 32 + (-1) * 2 ^ 32) by lia. rewrite Z_mod_plus_full. apply Z.mod_mod. lia. }
  unfold s32 at 1, signed. rewrite <- Zplus_mod_idemp_l, E, Zplus_mod_idemp_l. done.
Qed.
Lemma signed_small w x : 0 < w -> - 2 ^ (w - 1) <= x < 2 ^ (w - 1) -> signed w x = x.
Proof.
  intros Hw H. unfold signed. assert (E : 2 ^ w = 2 * 2 ^ (w - 1)) by (rewrite <- Z.pow_succ_r by lia; f_equal; lia).
  set (h := 2 ^ (w - 1)) in *. rewrite E. destruct (decide (0 <= x)) as [Hx|Hx].
  - rewrite Z.mod_small by lia. destruct (Z.ltb_spec x h); lia.
  - assert (x mod (2 * h) = x + 2 * h) as ->.
    { replace x with ((x + 2 * h) + (-1) * (2 * h)) at 1 by ring. rewrite Z.mod_add by lia. apply Z.mod_small. lia. }
    destruct (Z.ltb_spec (x + 2 * h) h); lia.
Qed.
Lemma s32_small x : - 2 ^ 31 <= x < 2 ^ 31 -> s32 x = x.
Proof. by apply (signed_small 32). Qed.
Lemma s64_small x : - 2 ^ 63 <= x < 2 ^ 63 -> s64 x = x.
Proof. by apply (signed_small 64). Qed.

(** ** Little-endian byte strings *)

Fixpoint le_bytes (n : nat) (v : Z) : list Z :=
  match n with
  | O => []
  | S n => v mod 256 :: le_bytes n (v / 256)
  end.

Fixpoint le_val (l : list Z) : Z :=
  match l with
  | [] => 0
  | b :: l => b + 256 * le_val l
  end.

Definition bytes (l : list Z) : Prop := Forall (fun b => 0 <= b < 256) l.

Lemma length_le_bytes n v : length (le_bytes n v) = n.
Proof. revert v. induction n; simpl; auto. Qed.

Lemma le_bytes_bytes n v : bytes (le_bytes n v).
Proof.
  revert v. induction n as [|n IH]; intros v; simpl; constructor.
  - apply Z.mod_pos_bound. lia.
  - apply IH.
Qed.

Lemma le_val_le_bytes n v : le_val (le_bytes n v) = v mod 256 ^ Z.of_nat n.
Proof.
  revert v. induction n as [|n IH]; intros v.
  - simpl. now rewrite Z.mod_1_r.
  - cbn [le_bytes le_val]. rewrite IH, Nat2Z.inj_succ, Z.pow_succ_r by lia.
    rewrite Z.rem_mul_r by lia. lia.
Qed.

Lemma le_val_range l : bytes l -> 0 <= le_val l < 256 ^ Z.of_nat (length l).
Proof.
  induction 1 as [|b l Hb Hl IH]; cbn [le_val length].
  - simpl. lia.
  - rewrite Nat2Z.inj_succ, Z.pow_succ_r by lia. lia.
Qed.

Lemma le_bytes_le_val l : bytes l -> le_bytes (length l) (le_val l) = l.
Proof.
  induction 1 as [|b l Hb Hl IH]; cbn [le_val length le_bytes]; [reflexivity|].
  rewrite (Z.mul_comm 256), Z.mod_add, Z.div_add by lia.
  rewrite Z.mod_small, Z.div_small, Z.add_0_l by lia. now rewrite IH.
Qed.

(** ** Lists as C arrays *)

Lemma lookup_insert_case {A} (l : list A) i j x :
  (j < length l)%nat ->
  <[j := x]> l !! i = if decide (i = j) then Some x else l !! i.
Proof.
  intros Hj. destruct (decide (i = j)) as [->|Hne].
  - now apply list_lookup_insert_eq.
  - now apply list_lookup_insert_ne.
Qed.

Lemma Forall_insert_lookup {A} (P : A -> Prop) (l : list A) i x :
  Forall P l -> P x -> Forall P (<[i := x]> l).
Proof. intros Hl Hx. apply Forall_insert; auto. Qed.

#[global] Arguments u8 : simpl never.
#[global] Arguments u16 : simpl never.
#[global] Arguments u32 : simpl never.
#[global] Arguments u64 : simpl never.
#[global] Arguments s16 : simpl never.
#[global] Arguments s32 : simpl never.
#[global] Arguments s64 : simpl never.

(** Removing what is not there. *)
Lemma filter_out {A} `{EqDecision A} (l : A) (h : list A) : l ∉ h -> filter (fun x => x <> l) h = h.
Proof.
  induction h as [|x h IH]; intros Hn; [done|]. rewrite not_elem_of_cons in Hn.
  rewrite filter_cons_True by naive_solver. f_equal. apply IH. naive_solver.
Qed.

(** Replacing one element changes the count of those with a property by that
    element only. *)
Lemma count_insert {A} (P : A -> Prop) `{!forall x, Decision (P x)} (l : list A) i x y :
  l !! i = Some x ->
  (length (filter P (<[i := y]> l)) + (if decide (P x) then 1 else 0) =
   length (filter P l) + (if decide (P y) then 1 else 0))%nat.
Proof.
  intros Hx. pose proof (lookup_lt_Some _ _ _ Hx) as Hlt.
  rewrite insert_take_drop by done. rewrite <- (take_drop_middle l i x Hx) at 3.
  rewrite !filter_app, !length_app, !filter_cons. repeat case_decide; cbn [length]; lia.
Qed.

(** ** Fields of a block: [n] bytes at offset [off] *)

Definition get_at (d : list Z) (off n : nat) : list Z := take n (drop off d).
Definition put_at (off : nat) (bs d : list Z) : list Z := list_inserts off bs d.

Definition get16 (d : list Z) (off : nat) : Z := le_val (get_at d off 2).
Definition get32 (d : list Z) (off : nat) : Z := le_val (get_at d off 4).
Definition put16 (off : nat) (v : Z) (d : list Z) : list Z := put_at off (le_bytes 2 v) d.
Definition put32 (off : nat) (v : Z) (d : list Z) : list Z := put_at off (le_bytes 4 v) d.

Lemma get_at_lookup d off n i : (i < n)%nat -> get_at d off n !! i = d !! (off + i)%nat.
Proof. intros Hi. unfold get_at. by rewrite lookup_take_lt, lookup_drop. Qed.

Lemma length_get_at d off n : (off + n <= length d)%nat -> length (get_at d off n) = n.
Proof. intros H. unfold get_at. rewrite length_take, length_drop. lia. Qed.

Lemma get_at_ext d d' off off' n :
  (forall i, (i < n)%nat -> d !! (off + i)%nat = d' !! (off' + i)%nat) ->
  get_at d off n = get_at d' off' n.
Proof.
  intros H. apply list_eq. intros i. destruct (decide (i < n)%nat).
  - rewrite !get_at_lookup by done. auto.
  - unfold get_at. rewrite !lookup_take_ge by lia. done.
Qed.

Lemma length_put_at off bs d : length (put_at off bs d) = length d.
Proof. apply length_inserts. Qed.

Lemma lookup_put_at off bs d i :
  (off + length bs <= length d)%nat ->
  put_at off bs d !! i = if decide (off <= i < off + length bs)%nat then bs !! (i - off)%nat else d !! i.
Proof.
  intros H. unfold put_at. case_decide.
  - by rewrite list_lookup_inserts by lia.
  - destruct (decide (i < off)%nat); [by rewrite list_lookup_inserts_lt|].
    by rewrite list_lookup_inserts_ge by lia.
Qed.

Lemma get_put_same off bs d :
  (off + length bs <= length d)%nat -> get_at (put_at off bs d) off (length bs) = bs.
Proof.
  intros H. apply list_eq. intros i. destruct (decide (i < length bs)%nat).
  - rewrite get_at_lookup, lookup_put_at, decide_True by lia. f_equal. lia.
  - unfold get_at. rewrite lookup_take_ge, lookup_ge_None_2 by lia. done.
Qed.

Lemma get_put_other off bs d off' n :
  (off + length bs <= length d)%nat -> (off' + n <= off \/ off + length bs <= off')%nat ->
  get_at (put_at off bs d) off' n = get_at d off' n.
Proof.
  intros H Hd. apply get_at_ext. intros i Hi. rewrite lookup_put_at by done.
  by rewrite decide_False by lia.
Qed.

Lemma put_at_bytes off bs d :
  (off + length bs <= length d)%nat -> bytes bs -> bytes d -> bytes (put_at off bs d).
Proof.
  intros H Hb Hd. apply Forall_lookup. intros i x. rewrite lookup_put_at by done.
  unfold bytes in *. case_decide; intros Hx; [exact (Forall_lookup_1 _ bs _ _ Hb Hx)|exact (Forall_lookup_1 _ d _ _ Hd Hx)].
Qed.

Lemma get32_put32 off v d : (off + 4 <= length d)%nat -> get32 (put32 off v d) off = u32 v.
Proof.
  intros H. unfold get32, put32. rewrite <- (length_le_bytes 4 v) at 2.
  rewrite get_put_same by (rewrite length_le_bytes; done). apply le_val_le_bytes.
Qed.

Lemma get32_put32_ne off v d off' :
  (off + 4 <= length d)%nat -> (off' + 4 <= off \/ off + 4 <= off')%nat ->
  get32 (put32 off v d) off' = get32 d off'.
Proof.
  intros H Hd. unfold get32, put32. rewrite get_put_other; [done|..]; rewrite length_le_bytes; done.
Qed.

Lemma put32_ok off v d n :
  (off + 4 <= n)%nat -> length d = n /\ bytes d -> length (put32 off v d) = n /\ bytes (put32 off v d).
Proof.
  intros H [Hl Hb]. unfold put32. rewrite length_put_at. split; [done|].
  apply put_at_bytes; [rewrite length_le_bytes; lia|apply le_bytes_bytes|done].
Qed.
