(* ===== verification/Mem.v ===== *)
(** * Physical memory as bytes

    RAM is a finite map from physical addresses to bytes; the kernel runs with
    a direct map, so a kernel pointer is a physical address.  An address that
    was never written reads as 0: RAM is finite, so every content of it is a
    value of [mem].  64-bit words are little-endian, as on RISC-V. *)

From stdpp Require Import base list gmap.
From Stdlib Require Import ZArith Lia.
From S2P Require Import Prelude.
Open Scope Z_scope.

Abbreviation mem := (gmap Z Z).

Definition mget (m : mem) (a : Z) : Z := u8 (default 0 (m !! a)).
Definition mset (m : mem) (a b : Z) : mem := <[a := u8 b]> m.

Fixpoint mwrite (m : mem) (a : Z) (l : list Z) : mem :=
  match l with
  | [] => m
  | b :: l => mwrite (mset m a b) (a + 1) l
  end.

Definition mread (m : mem) (a : Z) (n : nat) : list Z :=
  (fun i => mget m (a + Z.of_nat i)) <$> seq 0 n.

Definition load (n : nat) (m : mem) (a : Z) : Z := le_val (mread m a n).
Definition store (n : nat) (m : mem) (a v : Z) : mem := mwrite m a (le_bytes n v).
Abbreviation load32 := (load 4).
Abbreviation store32 := (store 4).
Abbreviation load64 := (load 8).
Abbreviation store64 := (store 8).

(** [within x a n]: the address [x] lies in [[a, a+n)]. *)
Definition within (x a n : Z) : bool := (a <=? x) && (x <? a + n).

Lemma within_spec x a n : BoolSpec (a <= x < a + n) (~ (a <= x < a + n)) (within x a n).
Proof.
  unfold within. destruct (Z.leb_spec a x), (Z.ltb_spec x (a + n)); simpl; constructor; lia.
Qed.

Lemma mget_range m a : 0 <= mget m a < 256.
Proof. apply u8_range. Qed.

Lemma u8_mget m a : u8 (mget m a) = mget m a.
Proof. apply u8_u8. Qed.

Lemma mget_mset m a b x : mget (mset m a b) x = if x =? a then u8 b else mget m x.
Proof.
  unfold mget, mset. destruct (Z.eqb_spec x a) as [->|Hne].
  - rewrite lookup_insert_eq. simpl. apply u8_u8.
  - rewrite lookup_insert_ne by congruence. reflexivity.
Qed.

Lemma mget_mwrite m a l x :
  mget (mwrite m a l) x =
  if within x a (Z.of_nat (length l)) then u8 (default 0 (l !! Z.to_nat (x - a)))
  else mget m x.
Proof.
  revert m a. induction l as [|b l IH]; intros m a; cbn [mwrite length].
  - destruct (within_spec x a (Z.of_nat 0)); [lia|reflexivity].
  - rewrite IH, mget_mset.
    destruct (within_spec x (a + 1) (Z.of_nat (length l))),
             (within_spec x a (Z.of_nat (S (length l)))); try lia.
    + replace (Z.to_nat (x - a)) with (S (Z.to_nat (x - (a + 1)))) by lia. reflexivity.
    + destruct (Z.eqb_spec x a) as [->|]; [|lia]. rewrite Z.sub_diag. reflexivity.
    + destruct (Z.eqb_spec x a) as [->|]; [lia|reflexivity].
Qed.

Lemma mget_mwrite_out m a l x :
  x < a \/ a + Z.of_nat (length l) <= x -> mget (mwrite m a l) x = mget m x.
Proof. intros H. rewrite mget_mwrite. destruct (within_spec x a (Z.of_nat (length l))); [lia|done]. Qed.

Lemma length_mread m a n : length (mread m a n) = n.
Proof. unfold mread. now rewrite length_fmap, length_seq. Qed.

Lemma lookup_mread m a n i :
  (i < n)%nat -> mread m a n !! i = Some (mget m (a + Z.of_nat i)).
Proof. intros H. unfold mread. rewrite list_lookup_fmap, lookup_seq_lt by lia. reflexivity. Qed.

Lemma mread_ext m m' a a' n :
  (forall i, 0 <= i < Z.of_nat n -> mget m (a + i) = mget m' (a' + i)) ->
  mread m a n = mread m' a' n.
Proof.
  intros H. apply list_eq_same_length with n; [now rewrite length_mread..|].
  intros i x y Hi. rewrite !lookup_mread by lia.
  intros [= <-] [= <-]. apply H. lia.
Qed.

Lemma mread_0 m a : mread m a 0 = [].
Proof. done. Qed.

Lemma mread_S m a n : mread m a (S n) = mget m a :: mread m (a + 1) n.
Proof.
  apply list_eq_same_length with (S n); [cbn [length]; by rewrite length_mread|by rewrite length_mread|].
  intros [|i] x y Hi; rewrite lookup_mread by lia; cbn [lookup list_lookup].
  - intros [= <-] [= <-]. f_equal. lia.
  - rewrite lookup_mread by lia. intros [= <-] [= <-]. f_equal. lia.
Qed.

Lemma mread_app m a n k : mread m a (n + k) = mread m a n ++ mread m (a + Z.of_nat n) k.
Proof.
  revert a. induction n as [|n IH]; intros a; cbn [Nat.add].
  - by rewrite Z.add_0_r.
  - rewrite !mread_S, IH. cbn [app]. do 3 f_equal. lia.
Qed.

Lemma mread_bytes m a n : bytes (mread m a n).
Proof. apply Forall_fmap, Forall_true. intros i. apply mget_range. Qed.

Lemma mread_mwrite m a l : bytes l -> mread (mwrite m a l) a (length l) = l.
Proof.
  intros Hl. apply list_eq_same_length with (length l); [done|now rewrite length_mread|].
  intros i x y Hi. rewrite lookup_mread by lia. intros [= <-] Hy.
  rewrite mget_mwrite. destruct (within_spec (a + Z.of_nat i) a (Z.of_nat (length l))); [|lia].
  replace (Z.to_nat (a + Z.of_nat i - a)) with i by lia. rewrite Hy. simpl.
  apply u8_small. apply Forall_lookup_1 with (1 := Hl) in Hy. lia.
Qed.

Lemma mread_mwrite_disjoint m a l b n :
  a + Z.of_nat (length l) <= b \/ b + Z.of_nat n <= a ->
  mread (mwrite m a l) b n = mread m b n.
Proof. intros H. apply mread_ext. intros i Hi. apply mget_mwrite_out. lia. Qed.

Lemma load_ext n m m' a a' :
  (forall i, 0 <= i < Z.of_nat n -> mget m (a + i) = mget m' (a' + i)) ->
  load n m a = load n m' a'.
Proof. intros H. unfold load. f_equal. now apply mread_ext. Qed.

Lemma load_store n m a v : load n (store n m a v) a = v mod 256 ^ Z.of_nat n.
Proof.
  unfold load, store.
  pose proof (mread_mwrite m a (le_bytes n v) (le_bytes_bytes n v)) as H.
  rewrite length_le_bytes in H. rewrite H. apply le_val_le_bytes.
Qed.

Lemma load_store_disjoint n k m a v b :
  a + Z.of_nat n <= b \/ b + Z.of_nat k <= a ->
  load k (store n m a v) b = load k m b.
Proof.
  intros H. unfold load, store. f_equal. apply mread_mwrite_disjoint.
  rewrite length_le_bytes. lia.
Qed.

Lemma load_range n m a : 0 <= load n m a < 256 ^ Z.of_nat n.
Proof.
  pose proof (le_val_range _ (mread_bytes m a n)) as H.
  rewrite length_mread in H. exact H.
Qed.

Lemma load64_store64 m a v : load64 (store64 m a v) a = u64 v.
Proof. rewrite load_store. reflexivity. Qed.

(** Two distinct 8-aligned words do not overlap. *)
Lemma load64_store64_ne m a v b :
  a mod 8 = 0 -> b mod 8 = 0 -> a <> b -> load64 (store64 m a v) b = load64 m b.
Proof.
  intros Ha Hb Hne. apply load_store_disjoint. simpl.
  apply Z.div_exact in Ha, Hb; lia.
Qed.

Lemma mget_store n m a v x :
  x < a \/ a + Z.of_nat n <= x -> mget (store n m a v) x = mget m x.
Proof. intros H. apply mget_mwrite_out. rewrite length_le_bytes. lia. Qed.

Lemma mget_store_zero n m a x : a <= x < a + Z.of_nat n -> mget (store n m a 0) x = 0.
Proof.
  intros H. unfold store. rewrite mget_mwrite, length_le_bytes. destruct (within_spec x a (Z.of_nat n)); [|lia].
  assert (E : forall k i, u8 (default 0 (le_bytes k 0 !! i)) = 0).
  { induction k as [|k IH]; intros i; [done|]. destruct i as [|i]; [done|]. apply IH. }
  apply E.
Qed.

Lemma le_val_zero l : Forall (fun b => b = 0) l -> le_val l = 0.
Proof. induction 1 as [|b l -> Hl IH]; cbn [le_val]; lia. Qed.

Lemma load_zero n m a :
  (forall i, 0 <= i < Z.of_nat n -> mget m (a + i) = 0) -> load n m a = 0.
Proof.
  intros H. apply le_val_zero. apply Forall_lookup. intros i x Hx.
  assert (i < n)%nat by (rewrite <- (length_mread m a n); eapply lookup_lt_Some; eauto).
  rewrite lookup_mread in Hx by lia. injection Hx as <-. apply H. lia.
Qed.

#[global] Arguments load : simpl never.
#[global] Arguments store : simpl never.
#[global] Arguments mget : simpl never.
#[global] Arguments mset : simpl never.
#[global] Arguments mread : simpl never.
#[global] Arguments le_bytes : simpl never.
#[global] Arguments le_val : simpl never.
#[global] Opaque load store mget mset mread mwrite.
