(* ===== verification/KString.v ===== *)
(** * kernel/string.c

    The [mem*] functions work on physical memory ([Mem.v]); the [str*]
    functions, which the kernel only applies to its own character arrays, work
    on the bytes from the pointer on, as a list ([hd0] is the dereference).
    [char] is unsigned on RISC-V. *)

From stdpp Require Import base list gmap.
From Stdlib Require Import ZArith Lia.
From S2P Require Import Prelude Mem.
Open Scope Z_scope.

(** ** Definitions *)

Fixpoint memset_loop (m : mem) (cdst c : Z) (n : nat) (i : Z) : mem :=
  match n with
  | O => m
  | S n => memset_loop (mset m (cdst + i) c) cdst c n (i + 1)
  end.
Definition memset (m : mem) (dst c n : Z) : mem := memset_loop m dst c (Z.to_nat n) 0.

Fixpoint memcmp (m : mem) (s1 s2 : Z) (n : nat) : Z :=
  match n with
  | O => 0
  | S n =>
      if negb (mget m s1 =? mget m s2) then mget m s1 - mget m s2
      else memcmp m (s1 + 1) (s2 + 1) n
  end.

(** [while(n-- > 0) *--d = *--s;] *)
Fixpoint memmove_down (m : mem) (d s : Z) (n : nat) : mem :=
  match n with
  | O => m
  | S n => memmove_down (mset m (d - 1) (mget m (s - 1))) (d - 1) (s - 1) n
  end.
(** [while(n-- > 0) *d++ = *s++;] *)
Fixpoint memmove_up (m : mem) (d s : Z) (n : nat) : mem :=
  match n with
  | O => m
  | S n => memmove_up (mset m d (mget m s)) (d + 1) (s + 1) n
  end.
Definition memmove (m : mem) (dst src n : Z) : mem :=
  if n =? 0 then m
  else if (src <? dst) && (dst <? src + n)
       then memmove_down m (dst + n) (src + n) (Z.to_nat n)
       else memmove_up m dst src (Z.to_nat n).

Definition memcpy (m : mem) (dst src n : Z) : mem := memmove m dst src n.

Definition hd0 (p : list Z) : Z := match p with [] => 0 | c :: _ => c end.

Fixpoint strncmp (p q : list Z) (n : nat) : Z :=
  match n with
  | O => 0
  | S n =>
      if negb (hd0 p =? 0) && (hd0 p =? hd0 q)
      then strncmp (tail p) (tail q) n
      else u8 (hd0 p) - u8 (hd0 q)
  end.

(** First loop of [strncpy]: the bytes written and what is left of [n]. *)
Fixpoint strncpy_copy (t : list Z) (n : nat) : list Z * nat :=
  match n with
  | O => ([], O)
  | S n =>
      if hd0 t =? 0 then ([0], n)
      else let (w, r) := strncpy_copy (tail t) n in (hd0 t :: w, r)
  end.
Definition strncpy (s t : list Z) (n : Z) : list Z :=
  let (w, r) := strncpy_copy t (Z.to_nat n) in
  list_inserts 0 (w ++ replicate r 0) s.

(** [while(--n > 0 && ( *s++ = *t++) != 0);], [n] being already decremented. *)
Fixpoint safestrcpy_copy (t : list Z) (n : nat) : list Z :=
  match n with
  | O => []
  | S n => if hd0 t =? 0 then [0] else hd0 t :: safestrcpy_copy (tail t) n
  end.
Definition safestrcpy (s t : list Z) (n : Z) : list Z :=
  if n <=? 0 then s
  else list_inserts 0 (safestrcpy_copy t (Z.to_nat (n - 1)) ++ [0]) s.

Fixpoint strlen (s : list Z) : Z :=
  match s with
  | [] => 0
  | c :: s => if c =? 0 then 0 else 1 + strlen s
  end.

(** The string a C pointer denotes: the bytes before the first NUL. *)
Fixpoint cstr (s : list Z) : list Z :=
  match s with
  | [] => []
  | c :: s => if c =? 0 then [] else c :: cstr s
  end.

(** ** memset, memmove, memcmp *)

Lemma mget_memset_loop m dst c n i x :
  mget (memset_loop m dst c n i) x =
  if within x (dst + i) (Z.of_nat n) then u8 c else mget m x.
Proof.
  revert m i. induction n as [|n IH]; intros m i; cbn [memset_loop].
  - destruct (within_spec x (dst + i) (Z.of_nat 0)); [lia|done].
  - rewrite IH, mget_mset.
    destruct (within_spec x (dst + (i + 1)) (Z.of_nat n)),
             (within_spec x (dst + i) (Z.of_nat (S n))),
             (Z.eqb_spec x (dst + i)); try lia; done.
Qed.

Lemma mget_memset m dst c n x :
  0 <= n -> mget (memset m dst c n) x = if within x dst n then u8 c else mget m x.
Proof.
  intros Hn. unfold memset. rewrite mget_memset_loop, Z.add_0_r, Z2Nat.id by lia. done.
Qed.

Lemma load_memset_zero k m dst n a :
  0 <= n -> dst <= a -> a + Z.of_nat k <= dst + n -> load k (memset m dst 0 n) a = 0.
Proof.
  intros Hn Hlo Hhi. apply load_zero. intros i Hi. rewrite mget_memset by done.
  destruct (within_spec (a + i) dst n); [done|lia].
Qed.

Lemma load_memset_out k m dst c n a :
  0 <= n -> a + Z.of_nat k <= dst \/ dst + n <= a ->
  load k (memset m dst c n) a = load k m a.
Proof.
  intros Hn H. apply load_ext. intros i Hi. rewrite mget_memset by done.
  destruct (within_spec (a + i) dst n); [lia|done].
Qed.

Lemma mget_memmove_up m d s n x :
  ~ (s < d < s + Z.of_nat n) ->
  mget (memmove_up m d s n) x =
  if within x d (Z.of_nat n) then mget m (s + (x - d)) else mget m x.
Proof.
  revert m d s. induction n as [|n IH]; intros m d s H; cbn [memmove_up].
  - destruct (within_spec x d (Z.of_nat 0)); [lia|done].
  - rewrite IH by lia. rewrite !mget_mset.
    destruct (within_spec x (d + 1) (Z.of_nat n)), (within_spec x d (Z.of_nat (S n))); try lia.
    + replace (s + 1 + (x - (d + 1))) with (s + (x - d)) by lia.
      destruct (Z.eqb_spec (s + (x - d)) d); [lia|done].
    + destruct (Z.eqb_spec x d) as [->|]; [|lia].
      rewrite Z.sub_diag, Z.add_0_r. apply u8_mget.
    + destruct (Z.eqb_spec x d); [lia|done].
Qed.

Lemma mget_memmove_down m d s n x :
  ~ (d - Z.of_nat n < s - Z.of_nat n < d) ->
  mget (memmove_down m d s n) x =
  if within x (d - Z.of_nat n) (Z.of_nat n) then mget m (s + (x - d)) else mget m x.
Proof.
  revert m d s. induction n as [|n IH]; intros m d s H; cbn [memmove_down].
  - destruct (within_spec x (d - Z.of_nat 0) (Z.of_nat 0)); [lia|done].
  - rewrite IH by lia. rewrite !mget_mset.
    destruct (within_spec x (d - 1 - Z.of_nat n) (Z.of_nat n)),
             (within_spec x (d - Z.of_nat (S n)) (Z.of_nat (S n))); try lia.
    + replace (s - 1 + (x - (d - 1))) with (s + (x - d)) by lia.
      destruct (Z.eqb_spec (s + (x - d)) (d - 1)); [lia|done].
    + destruct (Z.eqb_spec x (d - 1)) as [->|]; [|lia].
      replace (s + (d - 1 - d)) with (s - 1) by lia. apply u8_mget.
    + destruct (Z.eqb_spec x (d - 1)); [lia|done].
Qed.

(** [memmove] copies the original bytes of the source, whatever the overlap. *)
Lemma mget_memmove m dst src n x :
  0 <= n ->
  mget (memmove m dst src n) x =
  if within x dst n then mget m (src + (x - dst)) else mget m x.
Proof.
  intros Hn. unfold memmove. destruct (Z.eqb_spec n 0) as [->|Hn0].
  { destruct (within_spec x dst 0); [lia|done]. }
  destruct (Z.ltb_spec src dst), (Z.ltb_spec dst (src + n)); simpl;
    first [ rewrite mget_memmove_down by lia | rewrite mget_memmove_up by lia ];
    rewrite ?Z2Nat.id by lia;
    [replace (dst + n - n) with dst by lia
    | done | done | done].
  replace (src + n + (x - (dst + n))) with (src + (x - dst)) by lia. done.
Qed.

Lemma mread_memmove m dst src n :
  0 <= n -> mread (memmove m dst src n) dst (Z.to_nat n) = mread m src (Z.to_nat n).
Proof.
  intros Hn. apply mread_ext. intros i Hi. rewrite mget_memmove by done.
  destruct (within_spec (dst + i) dst n); [|lia]. f_equal. lia.
Qed.

Lemma memcmp_zero m s1 s2 n :
  memcmp m s1 s2 n = 0 <->
  forall i, 0 <= i < Z.of_nat n -> mget m (s1 + i) = mget m (s2 + i).
Proof.
  revert s1 s2. induction n as [|n IH]; intros s1 s2; cbn [memcmp].
  - split; [lia|done].
  - destruct (Z.eqb_spec (mget m s1) (mget m s2)) as [Heq|Hne]; simpl.
    + rewrite IH. split; intros H i Hi.
      * destruct (decide (i = 0)) as [->|]; [by rewrite !Z.add_0_r|].
        specialize (H (i - 1)). rewrite <- !Z.add_assoc in H.
        replace (1 + (i - 1)) with i in H by lia. apply H. lia.
      * rewrite <- !Z.add_assoc. apply H. lia.
    + split; [lia|]. intros H. specialize (H 0). rewrite !Z.add_0_r in H. lia.
Qed.

(** ** str* *)

Lemma strncmp_zero p q n :
  bytes p -> bytes q ->
  strncmp p q n = 0 <-> take n (cstr p) = take n (cstr q).
Proof.
  revert p q. induction n as [|n IH]; intros p q Hp Hq; [done|]. cbn [strncmp].
  destruct p as [|c p], q as [|d q]; cbn [hd0 cstr take tail].
  - done.
  - inversion Hq; subst. rewrite (u8_small d) by lia. change (u8 0) with 0.
    cbn. destruct (Z.eqb_spec d 0); split; intros; try lia; done.
  - inversion Hp; subst. rewrite (u8_small c) by lia. change (u8 0) with 0.
    destruct (Z.eqb_spec c 0); cbn; split; intros; try done; lia.
  - inversion Hp; inversion Hq; subst. rewrite !u8_small by lia.
    destruct (Z.eqb_spec c 0) as [->|Hc]; cbn.
    + destruct (Z.eqb_spec d 0) as [->|Hd]; split; intros; try done; lia.
    + destruct (Z.eqb_spec c d) as [->|Hcd]; cbn.
      * destruct (Z.eqb_spec d 0); [done|]. rewrite IH by done.
        split; [intros ->; done|intros [= H']; done].
      * split; [lia|]. destruct (Z.eqb_spec d 0); [done|]. intros [= ? ?]. done.
Qed.

Lemma strlen_cstr s : strlen s = Z.of_nat (length (cstr s)).
Proof.
  induction s as [|c s IH]; [done|]. cbn [strlen cstr]. destruct (c =? 0); [done|].
  rewrite IH. cbn [length]. lia.
Qed.

Lemma cstr_nonzero s : Forall (fun c => c <> 0) (cstr s).
Proof.
  induction s as [|c s IH]; cbn [cstr]; [constructor|].
  destruct (Z.eqb_spec c 0); constructor; auto.
Qed.
Lemma cstr_app0 e l : Forall (fun c => c <> 0) e -> cstr (e ++ 0 :: l) = e.
Proof. induction 1 as [|c e Hc He IH]; [done|]. cbn. rewrite (proj2 (Z.eqb_neq c 0)) by done. by rewrite IH. Qed.

Lemma cstr_id e : Forall (fun c => c <> 0) e -> cstr e = e.
Proof. induction 1 as [|c e Hc He IH]; [done|]. cbn. rewrite (proj2 (Z.eqb_neq c 0)) by done. by rewrite IH. Qed.

Lemma strncpy_copy_spec t n w r :
  strncpy_copy t n = (w, r) ->
  w ++ replicate r 0 = take n (cstr t) ++ replicate (n - length (cstr t)) 0.
Proof.
  revert t w r. induction n as [|n IH]; intros t w r; cbn [strncpy_copy].
  - intros [= <- <-]. done.
  - destruct t as [|c t]; cbn [hd0 tail cstr].
    + intros [= <- <-]. done.
    + destruct (Z.eqb_spec c 0) as [->|Hc].
      * intros [= <- <-]. done.
      * destruct (strncpy_copy t n) as [w' r'] eqn:E. intros [= <- <-].
        specialize (IH _ _ _ E). cbn. f_equal. exact IH.
Qed.

(** The first [n] bytes become the string, truncated to [n] and padded with
    NULs; the rest of the array is kept. *)
Lemma strncpy_spec s t n :
  0 <= n <= Z.of_nat (length s) ->
  strncpy s t n =
  (take (Z.to_nat n) (cstr t) ++ replicate (Z.to_nat n - length (cstr t)) 0)
    ++ drop (Z.to_nat n) s.
Proof.
  intros Hn. unfold strncpy. destruct (strncpy_copy t (Z.to_nat n)) as [w r] eqn:E.
  rewrite (strncpy_copy_spec _ _ _ _ E).
  assert (Hlen : length (take (Z.to_nat n) (cstr t)
      ++ replicate (Z.to_nat n - length (cstr t)) 0) = Z.to_nat n).
  { rewrite length_app, length_take, length_replicate. lia. }
  rewrite <- (take_drop (Z.to_nat n) s) at 1. apply list_inserts_0_r.
  rewrite Hlen, length_take. lia.
Qed.

Lemma safestrcpy_copy_spec t n :
  safestrcpy_copy t n = take n (cstr t) ++ (if decide (length (cstr t) < n)%nat then [0] else []).
Proof.
  revert t. induction n as [|n IH]; intros t; [done|]. cbn [safestrcpy_copy].
  destruct t as [|c t]; cbn [hd0 tail cstr].
  - done.
  - destruct (Z.eqb_spec c 0) as [->|Hc]; [done|]. rewrite IH. cbn [take app length]. f_equal.
    f_equal. repeat case_decide; try done; lia.
Qed.

(** At most [n] bytes of the array change, and it then holds the string cut to
    [n-1] bytes, NUL-terminated. *)
Lemma safestrcpy_cstr s t n :
  0 < n <= Z.of_nat (length s) ->
  cstr (safestrcpy s t n) = take (Z.to_nat (n - 1)) (cstr t) /\
  drop (Z.to_nat n) (safestrcpy s t n) = drop (Z.to_nat n) s /\
  length (safestrcpy s t n) = length s.
Proof.
  intros Hn. unfold safestrcpy. destruct (Z.leb_spec n 0); [lia|].
  rewrite safestrcpy_copy_spec. set (k := Z.to_nat (n - 1)).
  set (w := take k (cstr t) ++ _) in *.
  assert (Hw : (length (w ++ [0%Z]) <= Z.to_nat n)%nat).
  { subst w k. rewrite !length_app, length_take. case_decide; simpl; lia. }
  rewrite <- (take_drop (length (w ++ [0])) s) at 1 2.
  rewrite list_inserts_0_r by (rewrite length_take; lia).
  split_and!.
  - assert (Hc : forall l r, Forall (fun c => c <> 0) l -> cstr (l ++ 0 :: r) = l).
    { intros l r. induction 1 as [|c l Hc _ IH]; [done|]. cbn.
      destruct (Z.eqb_spec c 0); [done|]. by rewrite IH. }
    subst w. case_decide; rewrite <- !app_assoc; cbn [app]; apply Hc, Forall_take, cstr_nonzero.
  - rewrite drop_app_ge by lia. rewrite drop_drop. f_equal. lia.
  - apply length_inserts.
Qed.

#[global] Arguments memset : simpl never.
#[global] Arguments memmove : simpl never.
#[global] Opaque memset memmove memmove_up memmove_down.
