(* ===== verification/Riscv.v ===== *)
(** * kernel/riscv.h and kernel/memlayout.h

    The address arithmetic of the Sv39 page tables and of the memory layout:
    page rounding, the fields of a page-table entry, the three 9-bit indices of
    a virtual address, and where the kernel stacks lie. *)

From stdpp Require Import base list.
From Stdlib Require Import ZArith Lia.
From S2P Require Import Prelude.
Open Scope Z_scope.

(** ** Constants *)

Definition PGSIZE : Z := 4096.
Definition PGSHIFT : Z := 12.
Definition PTE_V : Z := Z.shiftl 1 0.
Definition PTE_R : Z := Z.shiftl 1 1.
Definition PTE_W : Z := Z.shiftl 1 2.
Definition PTE_X : Z := Z.shiftl 1 3.
Definition PTE_U : Z := Z.shiftl 1 4.
Definition PTE_A : Z := Z.shiftl 1 6.
Definition PXMASK : Z := 0x1FF.
Definition MAXVA : Z := Z.shiftl 1 (9 + 9 + 9 + 12 - 1).

Definition KERNBASE : Z := 0x80000000.
Definition PHYSTOP : Z := KERNBASE + 128 * 1024 * 1024.
Definition UART0 : Z := 0x10000000.
Definition VIRTIO0 : Z := 0x10001000.
Definition PLIC : Z := 0x0c000000.
Definition TRAMPOLINE : Z := MAXVA - PGSIZE.
Definition TRAPFRAME : Z := TRAMPOLINE - PGSIZE.
Definition KSTACK (p : Z) : Z := TRAMPOLINE - p * 2 * PGSIZE - 3 * PGSIZE.

(** ** Macros *)

Definition PGROUNDUP (sz : Z) : Z := Z.land (u64 (sz + PGSIZE - 1)) (Z.lnot (PGSIZE - 1)).
Definition PGROUNDDOWN (a : Z) : Z := Z.land a (Z.lnot (PGSIZE - 1)).
Definition PTE_LEAF (pte : Z) : Z :=
  Z.lor (Z.lor (Z.land pte PTE_R) (Z.land pte PTE_W)) (Z.land pte PTE_X).
Definition PA2PTE (pa : Z) : Z := u64 (Z.shiftl (Z.shiftr pa 12) 10).
Definition PTE2PA (pte : Z) : Z := u64 (Z.shiftl (Z.shiftr pte 10) 12).
Definition PTE_FLAGS (pte : Z) : Z := Z.land pte 0x3FF.
Definition PXSHIFT (level : Z) : Z := PGSHIFT + 9 * level.
Definition PX (level va : Z) : Z := Z.land (Z.shiftr va (PXSHIFT level)) PXMASK.
Definition SATP_SV39 : Z := Z.shiftl 8 60.
Definition MAKE_SATP (pagetable : Z) : Z := Z.lor SATP_SV39 (Z.shiftr pagetable 12).

(** [x & bit] as a C condition. *)
Definition has (x bit : Z) : bool := negb (Z.land x bit =? 0).

(** Arithmetic with the layout constants as numbers. *)
Ltac consts :=
  change MAXVA with 274877906944 in *; change PGSIZE with 4096 in *;
  change KERNBASE with 2147483648 in *; change PHYSTOP with 2281701376 in *;
  change TRAMPOLINE with 274877902848 in *; change TRAPFRAME with 274877898752 in *.
Ltac vlia := consts; lia.
Ltac vdivlia := consts; divlia.

(** ** Bit facts *)

Lemma land_low_high_0 a k f : 0 <= k -> 0 <= f < 2 ^ k -> Z.land (a * 2 ^ k) f = 0.
Proof.
  intros Hk Hf. apply Z.bits_inj'. intros n Hn. rewrite Z.land_spec, Z.bits_0.
  destruct (Z.lt_ge_cases n k).
  - rewrite Z.mul_pow2_bits_low by lia. done.
  - destruct (decide (f = 0)) as [->|]; [rewrite Z.bits_0; apply andb_false_r|].
    rewrite (Z.bits_above_log2 f n); [apply andb_false_r|lia|].
    apply Z.log2_lt_pow2; [lia|]. eapply Z.lt_le_trans; [apply Hf|].
    apply Z.pow_le_mono_r; lia.
Qed.

Lemma lor_add_low a k f : 0 <= k -> 0 <= f < 2 ^ k -> Z.lor (a * 2 ^ k) f = a * 2 ^ k + f.
Proof.
  intros Hk Hf. pose proof (land_low_high_0 a k f Hk Hf) as H.
  rewrite Z.add_nocarry_lxor by done. symmetry. by apply Z.lxor_lor.
Qed.

Lemma lor_bound a b k : 0 <= k -> 0 <= a < 2 ^ k -> 0 <= b < 2 ^ k -> 0 <= Z.lor a b < 2 ^ k.
Proof.
  intros Hk Ha Hb. rewrite <- (Z.mod_small a (2 ^ k)), <- (Z.mod_small b (2 ^ k)) by done.
  rewrite <- !Z.land_ones, <- Z.land_lor_distr_l, Z.land_ones by done.
  apply Z.mod_pos_bound. lia.
Qed.

Lemma land_mask_down x k : 0 <= k -> Z.land x (Z.lnot (2 ^ k - 1)) = x / 2 ^ k * 2 ^ k.
Proof.
  intros Hk. replace (2 ^ k - 1) with (Z.ones k) by (rewrite Z.ones_equiv; lia).
  rewrite <- Z.ldiff_land, Z.ldiff_ones_r by done.
  by rewrite Z.shiftr_div_pow2, Z.shiftl_mul_pow2.
Qed.

Lemma has_testbit x n : 0 <= n -> has x (Z.shiftl 1 n) = Z.testbit x n.
Proof.
  intros Hn. unfold has. rewrite Z.shiftl_1_l.
  destruct (Z.testbit x n) eqn:E; destruct (Z.eqb_spec (Z.land x (2 ^ n)) 0) as [H|H]; try done.
  - apply (f_equal (fun y => Z.testbit y n)) in H.
    rewrite Z.land_spec, Z.pow2_bits_true, E, Z.bits_0 in H by done. done.
  - exfalso. apply H. apply Z.bits_inj'. intros i Hi. rewrite Z.land_spec, Z.bits_0.
    destruct (decide (i = n)) as [->|Hne]; [by rewrite E|].
    rewrite Z.pow2_bits_false by lia. apply andb_false_r.
Qed.

(** ** Page rounding *)

Lemma PGROUNDUP_eq sz :
  0 <= sz <= 2 ^ 64 - PGSIZE -> PGROUNDUP sz = (sz + (PGSIZE - 1)) / PGSIZE * PGSIZE.
Proof.
  unfold PGROUNDUP, PGSIZE. intros H. rewrite u64_small by lia.
  change (4096 - 1) with (2 ^ 12 - 1). rewrite land_mask_down by lia.
  change (2 ^ 12) with 4096. by replace (sz + 4096 - 1) with (sz + (4096 - 1)) by lia.
Qed.

Lemma PGROUNDDOWN_eq a : PGROUNDDOWN a = a / PGSIZE * PGSIZE.
Proof.
  unfold PGROUNDDOWN, PGSIZE. change (4096 - 1) with (2 ^ 12 - 1).
  by rewrite land_mask_down by lia.
Qed.

Lemma PGROUNDUP_bounds sz :
  0 <= sz <= 2 ^ 64 - PGSIZE ->
  sz <= PGROUNDUP sz < sz + PGSIZE /\ PGROUNDUP sz mod PGSIZE = 0.
Proof.
  intros H. rewrite PGROUNDUP_eq by done. unfold PGSIZE. split.
  - pose proof (Z.mod_pos_bound (sz + (4096 - 1)) 4096 ltac:(lia)).
    pose proof (Z.div_mod (sz + (4096 - 1)) 4096 ltac:(lia)). lia.
  - apply Z.mod_mul. lia.
Qed.

Lemma PGROUNDDOWN_bounds a :
  PGROUNDDOWN a <= a < PGROUNDDOWN a + PGSIZE /\ PGROUNDDOWN a mod PGSIZE = 0.
Proof.
  rewrite PGROUNDDOWN_eq. unfold PGSIZE. split.
  - pose proof (Z.mod_pos_bound a 4096 ltac:(lia)).
    pose proof (Z.div_mod a 4096 ltac:(lia)). lia.
  - apply Z.mod_mul. lia.
Qed.

Lemma PGROUNDUP_aligned a :
  0 <= a <= 2 ^ 64 - PGSIZE -> a mod PGSIZE = 0 -> PGROUNDUP a = a.
Proof.
  intros H Ha. destruct (PGROUNDUP_bounds a H) as [H1 H2]. unfold PGSIZE in *.
  apply Z.div_exact in Ha, H2; lia.
Qed.

Lemma PGROUNDDOWN_aligned a : a mod PGSIZE = 0 -> PGROUNDDOWN a = a.
Proof.
  intros Ha. destruct (PGROUNDDOWN_bounds a) as [H1 H2]. unfold PGSIZE in *.
  apply Z.div_exact in Ha, H2; lia.
Qed.

(** ** Page-table entries *)

Lemma PA2PTE_eq pa : 0 <= pa < 2 ^ 56 -> PA2PTE pa = pa / PGSIZE * 2 ^ 10.
Proof.
  intros H. unfold PA2PTE. rewrite Z.shiftl_mul_pow2, Z.shiftr_div_pow2 by lia.
  change (2 ^ 12) with 4096. apply u64_small. unfold PGSIZE.
  pose proof (Z.div_pos pa 4096). pose proof (Z.div_lt_upper_bound pa 4096 (2 ^ 44)). lia.
Qed.

Lemma pte_eq pa f :
  0 <= pa < 2 ^ 56 -> 0 <= f < 2 ^ 10 -> Z.lor (PA2PTE pa) f = pa / PGSIZE * 2 ^ 10 + f.
Proof. intros Hpa Hf. rewrite PA2PTE_eq by done. apply lor_add_low; lia. Qed.

(** Packing a page address and flags into a PTE and unpacking them again. *)
Lemma PTE2PA_pte pa f :
  0 <= pa < 2 ^ 56 -> pa mod PGSIZE = 0 -> 0 <= f < 2 ^ 10 ->
  PTE2PA (Z.lor (PA2PTE pa) f) = pa.
Proof.
  intros Hpa Ha Hf. rewrite pte_eq by done. unfold PTE2PA.
  rewrite Z.shiftl_mul_pow2, Z.shiftr_div_pow2 by lia.
  rewrite Z.div_add_l, (Z.div_small f), Z.add_0_r by lia.
  unfold PGSIZE in *. apply Z.div_exact in Ha; [|lia].
  change (2 ^ 12) with 4096. rewrite u64_small; lia.
Qed.

Lemma PTE_FLAGS_pte pa f :
  0 <= pa < 2 ^ 56 -> 0 <= f < 2 ^ 10 -> PTE_FLAGS (Z.lor (PA2PTE pa) f) = f.
Proof.
  intros Hpa Hf. rewrite pte_eq by done. unfold PTE_FLAGS.
  change 0x3FF with (Z.ones 10). rewrite Z.land_ones by lia.
  rewrite Z.add_comm, Z.mod_add by lia. apply Z.mod_small. lia.
Qed.

Lemma testbit_pte pa f n :
  0 <= pa < 2 ^ 56 -> 0 <= f < 2 ^ 10 -> 0 <= n < 10 ->
  Z.testbit (Z.lor (PA2PTE pa) f) n = Z.testbit f n.
Proof.
  intros Hpa Hf Hn. rewrite Z.lor_spec, PA2PTE_eq, Z.mul_pow2_bits_low by lia. done.
Qed.

(** ** Virtual addresses *)

Lemma PX_eq level va : 0 <= level -> PX level va = va / 2 ^ (12 + 9 * level) mod 512.
Proof.
  intros H. unfold PX, PXSHIFT, PXMASK, PGSHIFT. change 0x1FF with (Z.ones 9).
  rewrite Z.land_ones, Z.shiftr_div_pow2 by lia. done.
Qed.

Lemma PX_range level va : 0 <= level -> 0 <= PX level va < 512.
Proof. intros H. rewrite PX_eq by done. apply Z.mod_pos_bound. lia. Qed.

Lemma PX2_low va : 0 <= va < MAXVA -> PX 2 va < 256.
Proof. intros H. rewrite PX_eq by lia. change (2 ^ (12 + 9 * 2)) with 1073741824. vdivlia. Qed.

Lemma PX_make i j k :
  0 <= i < 256 -> 0 <= j < 512 -> 0 <= k < 512 ->
  let va := i * 1073741824 + j * 2097152 + k * 4096 in
  0 <= va < MAXVA /\ va mod PGSIZE = 0 /\ PX 2 va = i /\ PX 1 va = j /\ PX 0 va = k.
Proof.
  intros Hi Hj Hk va. unfold va. rewrite !PX_eq by lia. change (2 ^ (12 + 9 * 2)) with 1073741824.
  change (2 ^ (12 + 9 * 1)) with 2097152. change (2 ^ (12 + 9 * 0)) with 4096.
  split_and!; vdivlia.
Qed.

(** The three indices and the page offset determine the address. *)
Lemma va_split va :
  0 <= va < MAXVA ->
  va = PX 2 va * 2 ^ 30 + PX 1 va * 2 ^ 21 + PX 0 va * PGSIZE + va mod PGSIZE.
Proof.
  intros H. rewrite !PX_eq by lia. unfold MAXVA, PGSIZE in *. change (Z.shiftl 1 _) with (2 ^ 38) in H.
  change (12 + 9 * 2) with 30. change (12 + 9 * 1) with 21. change (12 + 9 * 0) with 12.
  rewrite (Z.mod_small (va / 2 ^ 30) 512).
  2: { split; [apply Z.div_pos; lia|apply Z.div_lt_upper_bound; lia]. }
  change (2 ^ 30) with (2 ^ 12 * 2 ^ 9 * 2 ^ 9). change (2 ^ 21) with (2 ^ 12 * 2 ^ 9).
  change 512 with (2 ^ 9). change 4096 with (2 ^ 12).
  rewrite <- !Z.div_div by lia.
  pose proof (Z.div_mod va (2 ^ 12) ltac:(lia)).
  pose proof (Z.div_mod (va / 2 ^ 12) (2 ^ 9) ltac:(lia)).
  pose proof (Z.div_mod (va / 2 ^ 12 / 2 ^ 9) (2 ^ 9) ltac:(lia)). lia.
Qed.

Lemma PX_inj va va' :
  0 <= va < MAXVA -> 0 <= va' < MAXVA -> va mod PGSIZE = 0 -> va' mod PGSIZE = 0 ->
  PX 2 va = PX 2 va' -> PX 1 va = PX 1 va' -> PX 0 va = PX 0 va' -> va = va'.
Proof.
  intros H H' Ha Ha' H2 H1 H0. rewrite (va_split va H), (va_split va' H'). congruence.
Qed.

(** Kernel stacks of different processes are at least a guard page apart, and
    all lie in the page-aligned space below the trampoline. *)
Lemma KSTACK_guard p q :
  0 <= p < q -> KSTACK q + PGSIZE + PGSIZE <= KSTACK p.
Proof. unfold KSTACK, PGSIZE. lia. Qed.

Lemma KSTACK_range p :
  0 <= p < 64 -> 0 <= KSTACK p /\ KSTACK p + PGSIZE < TRAPFRAME /\ KSTACK p mod PGSIZE = 0.
Proof.
  intros H. unfold KSTACK, TRAPFRAME, TRAMPOLINE, PGSIZE.
  change MAXVA with (67108864 * 4096). split; [lia|]. split; [lia|].
  replace (67108864 * 4096 - 4096 - p * 2 * 4096 - 3 * 4096)
    with ((67108864 - 1 - p * 2 - 3) * 4096) by lia.
  apply Z.mod_mul. lia.
Qed.

#[global] Arguments PGROUNDUP : simpl never.
#[global] Arguments PGROUNDDOWN : simpl never.
#[global] Arguments PA2PTE : simpl never.
#[global] Arguments PTE2PA : simpl never.
#[global] Arguments PTE_FLAGS : simpl never.
#[global] Arguments PX : simpl never.
#[global] Arguments KSTACK : simpl never.
#[global] Arguments has : simpl never.
