(* ===== verification/State.v ===== *)
(** * The kernel's data structures and global state

    One record per C struct, and [kstate], which holds the kernel's global
    variables, RAM, the disk and the device registers the code touches.  Arrays
    are lists; a pointer into an array of structs ([struct proc *], [struct buf *],
    [struct inode *], [struct file *]) is the index of the element, [None] is 0.
    Flags the code only sets to 0 and 1 are [bool].

    Locks: [k_held] lists the spinlocks this hart holds.  [Spinlock.v] has the
    real lock words, interrupt state and per-CPU counters and shows that they
    implement the [acquire]/[release] of [Sched.v], which work on [k_held]. *)

From stdpp Require Import base list gmap strings.
From Stdlib Require Import ZArith.
From S2P Require Import Prelude Mem Riscv.
Open Scope Z_scope.

(** ** kernel/param.h, kernel/fs.h *)

Definition NPROC : nat := 64.
Definition NOFILE : nat := 16.
Definition NFILE : nat := 100.
Definition NINODE : nat := 50.
Definition NDEV : Z := 10.
Definition ROOTDEV : Z := 1.
Definition MAXARG : Z := 32.
Definition MAXOPBLOCKS : Z := 10.
Definition LOGSIZE : Z := MAXOPBLOCKS * 3.
Definition NBUF : nat := 30.
Definition FSSIZE : Z := 2000.
Definition MAXPATH : Z := 128.
Definition USERSTACK : Z := 1.

Definition ROOTINO : Z := 1.
Definition BSIZE : Z := 1024.
Definition FSMAGIC : Z := 0x10203040.
Definition NDIRECT : Z := 12.
Definition NINDIRECT : Z := BSIZE / 4.
Definition MAXFILE : Z := NDIRECT + NINDIRECT.
Definition IPB : Z := BSIZE / 64.
Definition BPB : Z := BSIZE * 8.
Definition DIRSIZ : Z := 14.
Definition T_DIR : Z := 1.
Definition T_FILE : Z := 2.
Definition T_DEVICE : Z := 3.

(** ** Symbols of kernel/kernel.ld and kernel/trampoline.S

    The addresses the linker chooses: parameters of the model. *)

Class Layout := {
  kend : Z;         (** [end]: first address after the kernel *)
  etext : Z;        (** end of kernel code *)
  trampoline : Z;   (** physical address of the trampoline page *)
  l_uservec : Z;    (** offset of uservec in the trampoline page *)
  l_userret : Z;    (** offset of userret in the trampoline page *)
  l_kernelvec : Z;
  l_usertrap : Z;
  l_forkret : Z
}.

(** What the linker script guarantees of them. *)
Class LayoutOk (L : Layout) : Prop := {
  etext_lo : KERNBASE < etext;
  kend_lo : etext <= kend;
  kend_hi : kend <= PHYSTOP;
  etext_page : etext mod PGSIZE = 0;
  trampoline_lo : KERNBASE <= trampoline;
  trampoline_hi : trampoline + PGSIZE <= etext;
  trampoline_page : trampoline mod PGSIZE = 0
}.

(** The addresses in the kernel image of this repository (kernel/kernel.sym). *)
#[global] Instance xv6_layout : Layout := {
  kend := 0x800237e0; etext := 0x80007000; trampoline := 0x80006000;
  l_uservec := 0; l_userret := 0x9c; l_kernelvec := 0x800048b0;
  l_usertrap := 0x80001ab8; l_forkret := 0x80000e88
}.

(** ** Names of locks and sleep channels *)

Inductive sleepid := SL_buf (i : nat) | SL_inode (i : nat).
Inductive lockid :=
| L_kmem | L_pid | L_wait | L_proc (i : nat) | L_bcache | L_sleep (sl : sleepid)
| L_log | L_itable | L_ftable | L_pipe (pi : Z) | L_cons | L_uart | L_pr
| L_ticks | L_vdisk.
Inductive chan :=
| Ch_proc (i : nat) | Ch_sleep (sl : sleepid) | Ch_log
| Ch_nread (pi : Z) | Ch_nwrite (pi : Z) | Ch_cons_r | Ch_uart_tx_r | Ch_ticks
| Ch_disk_free | Ch_buf (i : nat).

#[global] Instance sleepid_eq : EqDecision sleepid.
Proof. solve_decision. Defined.
#[global] Instance lockid_eq : EqDecision lockid.
Proof. solve_decision. Defined.
#[global] Instance chan_eq : EqDecision chan.
Proof. solve_decision. Defined.

Inductive procstate := UNUSED | USED | SLEEPING | RUNNABLE | RUNNING | ZOMBIE.
#[global] Instance procstate_eq : EqDecision procstate.
Proof. solve_decision. Defined.

(** The addresses the disk driver puts into descriptors: an element of [disk.ops],
    the data of a buffer, the status byte of an element of [disk.info]. *)
Inductive daddr := A_null | A_op (i : Z) | A_data (b : nat) | A_status (i : Z).
#[global] Instance daddr_eq : EqDecision daddr.
Proof. solve_decision. Defined.

Inductive fdtype := FD_NONE | FD_PIPE | FD_INODE | FD_DEVICE.
#[global] Instance fdtype_eq : EqDecision fdtype.
Proof. solve_decision. Defined.

(** kernel/sleeplock.h: struct sleeplock. *)
Record sleeplock := mk_sleeplock {
  sl_locked : bool;
  sl_pid : Z
}.
Definition set_sl_locked (v : bool) (x : sleeplock) : sleeplock :=
  mk_sleeplock v (sl_pid x).
Definition set_sl_pid (v : Z) (x : sleeplock) : sleeplock :=
  mk_sleeplock (sl_locked x) v.

(** kernel/proc.h: struct context; [c_s] is s0..s11. *)
Record context := mk_context {
  c_ra : Z;
  c_sp : Z;
  c_s : list Z
}.
Definition set_c_ra (v : Z) (x : context) : context :=
  mk_context v (c_sp x) (c_s x).
Definition set_c_sp (v : Z) (x : context) : context :=
  mk_context (c_ra x) v (c_s x).
Definition set_c_s (v : list Z) (x : context) : context :=
  mk_context (c_ra x) (c_sp x) v.

(** kernel/proc.h: struct proc. *)
Record proc := mk_proc {
  p_state : procstate;
  p_chan : option chan;
  p_killed : Z;
  p_xstate : Z;
  p_pid : Z;
  p_parent : option nat;
  p_kstack : Z;
  p_sz : Z;
  p_pagetable : Z;
  p_trapframe : Z;
  p_context : context;
  p_ofile : list (option nat);
  p_cwd : option nat;
  p_name : list Z
}.
Definition set_p_state (v : procstate) (x : proc) : proc :=
  mk_proc v (p_chan x) (p_killed x) (p_xstate x) (p_pid x) (p_parent x) (p_kstack x) (p_sz x)
    (p_pagetable x) (p_trapframe x) (p_context x) (p_ofile x) (p_cwd x) (p_name x).
Definition set_p_chan (v : option chan) (x : proc) : proc :=
  mk_proc (p_state x) v (p_killed x) (p_xstate x) (p_pid x) (p_parent x) (p_kstack x) (p_sz x)
    (p_pagetable x) (p_trapframe x) (p_context x) (p_ofile x) (p_cwd x) (p_name x).
Definition set_p_killed (v : Z) (x : proc) : proc :=
  mk_proc (p_state x) (p_chan x) v (p_xstate x) (p_pid x) (p_parent x) (p_kstack x) (p_sz x)
    (p_pagetable x) (p_trapframe x) (p_context x) (p_ofile x) (p_cwd x) (p_name x).
Definition set_p_xstate (v : Z) (x : proc) : proc :=
  mk_proc (p_state x) (p_chan x) (p_killed x) v (p_pid x) (p_parent x) (p_kstack x) (p_sz x)
    (p_pagetable x) (p_trapframe x) (p_context x) (p_ofile x) (p_cwd x) (p_name x).
Definition set_p_pid (v : Z) (x : proc) : proc :=
  mk_proc (p_state x) (p_chan x) (p_killed x) (p_xstate x) v (p_parent x) (p_kstack x) (p_sz x)
    (p_pagetable x) (p_trapframe x) (p_context x) (p_ofile x) (p_cwd x) (p_name x).
Definition set_p_parent (v : option nat) (x : proc) : proc :=
  mk_proc (p_state x) (p_chan x) (p_killed x) (p_xstate x) (p_pid x) v (p_kstack x) (p_sz x)
    (p_pagetable x) (p_trapframe x) (p_context x) (p_ofile x) (p_cwd x) (p_name x).
Definition set_p_kstack (v : Z) (x : proc) : proc :=
  mk_proc (p_state x) (p_chan x) (p_killed x) (p_xstate x) (p_pid x) (p_parent x) v (p_sz x)
    (p_pagetable x) (p_trapframe x) (p_context x) (p_ofile x) (p_cwd x) (p_name x).
Definition set_p_sz (v : Z) (x : proc) : proc :=
  mk_proc (p_state x) (p_chan x) (p_killed x) (p_xstate x) (p_pid x) (p_parent x) (p_kstack x)
    v (p_pagetable x) (p_trapframe x) (p_context x) (p_ofile x) (p_cwd x) (p_name x).
Definition set_p_pagetable (v : Z) (x : proc) : proc :=
  mk_proc (p_state x) (p_chan x) (p_killed x) (p_xstate x) (p_pid x) (p_parent x) (p_kstack x)
    (p_sz x) v (p_trapframe x) (p_context x) (p_ofile x) (p_cwd x) (p_name x).
Definition set_p_trapframe (v : Z) (x : proc) : proc :=
  mk_proc (p_state x) (p_chan x) (p_killed x) (p_xstate x) (p_pid x) (p_parent x) (p_kstack x)
    (p_sz x) (p_pagetable x) v (p_context x) (p_ofile x) (p_cwd x) (p_name x).
Definition set_p_context (v : context) (x : proc) : proc :=
  mk_proc (p_state x) (p_chan x) (p_killed x) (p_xstate x) (p_pid x) (p_parent x) (p_kstack x)
    (p_sz x) (p_pagetable x) (p_trapframe x) v (p_ofile x) (p_cwd x) (p_name x).
Definition set_p_ofile (v : list (option nat)) (x : proc) : proc :=
  mk_proc (p_state x) (p_chan x) (p_killed x) (p_xstate x) (p_pid x) (p_parent x) (p_kstack x)
    (p_sz x) (p_pagetable x) (p_trapframe x) (p_context x) v (p_cwd x) (p_name x).
Definition set_p_cwd (v : option nat) (x : proc) : proc :=
  mk_proc (p_state x) (p_chan x) (p_killed x) (p_xstate x) (p_pid x) (p_parent x) (p_kstack x)
    (p_sz x) (p_pagetable x) (p_trapframe x) (p_context x) (p_ofile x) v (p_name x).
Definition set_p_name (v : list Z) (x : proc) : proc :=
  mk_proc (p_state x) (p_chan x) (p_killed x) (p_xstate x) (p_pid x) (p_parent x) (p_kstack x)
    (p_sz x) (p_pagetable x) (p_trapframe x) (p_context x) (p_ofile x) (p_cwd x) v.

(** kernel/buf.h: struct buf. *)
Record buf := mk_buf {
  b_valid : bool;
  b_disk : bool;
  b_dev : Z;
  b_blockno : Z;
  b_lock : sleeplock;
  b_refcnt : Z;
  b_prev : nat;
  b_next : nat;
  b_data : list Z
}.
Definition set_b_valid (v : bool) (x : buf) : buf :=
  mk_buf v (b_disk x) (b_dev x) (b_blockno x) (b_lock x) (b_refcnt x) (b_prev x) (b_next x)
    (b_data x).
Definition set_b_disk (v : bool) (x : buf) : buf :=
  mk_buf (b_valid x) v (b_dev x) (b_blockno x) (b_lock x) (b_refcnt x) (b_prev x) (b_next x)
    (b_data x).
Definition set_b_dev (v : Z) (x : buf) : buf :=
  mk_buf (b_valid x) (b_disk x) v (b_blockno x) (b_lock x) (b_refcnt x) (b_prev x) (b_next x)
    (b_data x).
Definition set_b_blockno (v : Z) (x : buf) : buf :=
  mk_buf (b_valid x) (b_disk x) (b_dev x) v (b_lock x) (b_refcnt x) (b_prev x) (b_next x)
    (b_data x).
Definition set_b_lock (v : sleeplock) (x : buf) : buf :=
  mk_buf (b_valid x) (b_disk x) (b_dev x) (b_blockno x) v (b_refcnt x) (b_prev x) (b_next x)
    (b_data x).
Definition set_b_refcnt (v : Z) (x : buf) : buf :=
  mk_buf (b_valid x) (b_disk x) (b_dev x) (b_blockno x) (b_lock x) v (b_prev x) (b_next x)
    (b_data x).
Definition set_b_prev (v : nat) (x : buf) : buf :=
  mk_buf (b_valid x) (b_disk x) (b_dev x) (b_blockno x) (b_lock x) (b_refcnt x) v (b_next x)
    (b_data x).
Definition set_b_next (v : nat) (x : buf) : buf :=
  mk_buf (b_valid x) (b_disk x) (b_dev x) (b_blockno x) (b_lock x) (b_refcnt x) (b_prev x) v
    (b_data x).
Definition set_b_data (v : list Z) (x : buf) : buf :=
  mk_buf (b_valid x) (b_disk x) (b_dev x) (b_blockno x) (b_lock x) (b_refcnt x) (b_prev x)
    (b_next x) v.

(** kernel/log.c: struct logheader. *)
Record logheader := mk_logheader {
  lh_n : Z;
  lh_block : list Z
}.
Definition set_lh_n (v : Z) (x : logheader) : logheader :=
  mk_logheader v (lh_block x).
Definition set_lh_block (v : list Z) (x : logheader) : logheader :=
  mk_logheader (lh_n x) v.

(** kernel/log.c: struct log. *)
Record log := mk_log {
  lg_start : Z;
  lg_size : Z;
  lg_outstanding : Z;
  lg_committing : bool;
  lg_dev : Z;
  lg_lh : logheader
}.
Definition set_lg_start (v : Z) (x : log) : log :=
  mk_log v (lg_size x) (lg_outstanding x) (lg_committing x) (lg_dev x) (lg_lh x).
Definition set_lg_size (v : Z) (x : log) : log :=
  mk_log (lg_start x) v (lg_outstanding x) (lg_committing x) (lg_dev x) (lg_lh x).
Definition set_lg_outstanding (v : Z) (x : log) : log :=
  mk_log (lg_start x) (lg_size x) v (lg_committing x) (lg_dev x) (lg_lh x).
Definition set_lg_committing (v : bool) (x : log) : log :=
  mk_log (lg_start x) (lg_size x) (lg_outstanding x) v (lg_dev x) (lg_lh x).
Definition set_lg_dev (v : Z) (x : log) : log :=
  mk_log (lg_start x) (lg_size x) (lg_outstanding x) (lg_committing x) v (lg_lh x).
Definition set_lg_lh (v : logheader) (x : log) : log :=
  mk_log (lg_start x) (lg_size x) (lg_outstanding x) (lg_committing x) (lg_dev x) v.

(** kernel/fs.h: struct superblock. *)
Record superblock := mk_superblock {
  sb_magic : Z;
  sb_size : Z;
  sb_nblocks : Z;
  sb_ninodes : Z;
  sb_nlog : Z;
  sb_logstart : Z;
  sb_inodestart : Z;
  sb_bmapstart : Z
}.
Definition set_sb_magic (v : Z) (x : superblock) : superblock :=
  mk_superblock v (sb_size x) (sb_nblocks x) (sb_ninodes x) (sb_nlog x) (sb_logstart x)
    (sb_inodestart x) (sb_bmapstart x).
Definition set_sb_size (v : Z) (x : superblock) : superblock :=
  mk_superblock (sb_magic x) v (sb_nblocks x) (sb_ninodes x) (sb_nlog x) (sb_logstart x)
    (sb_inodestart x) (sb_bmapstart x).
Definition set_sb_nblocks (v : Z) (x : superblock) : superblock :=
  mk_superblock (sb_magic x) (sb_size x) v (sb_ninodes x) (sb_nlog x) (sb_logstart x)
    (sb_inodestart x) (sb_bmapstart x).
Definition set_sb_ninodes (v : Z) (x : superblock) : superblock :=
  mk_superblock (sb_magic x) (sb_size x) (sb_nblocks x) v (sb_nlog x) (sb_logstart x)
    (sb_inodestart x) (sb_bmapstart x).
Definition set_sb_nlog (v : Z) (x : superblock) : superblock :=
  mk_superblock (sb_magic x) (sb_size x) (sb_nblocks x) (sb_ninodes x) v (sb_logstart x)
    (sb_inodestart x) (sb_bmapstart x).
Definition set_sb_logstart (v : Z) (x : superblock) : superblock :=
  mk_superblock (sb_magic x) (sb_size x) (sb_nblocks x) (sb_ninodes x) (sb_nlog x) v
    (sb_inodestart x) (sb_bmapstart x).
Definition set_sb_inodestart (v : Z) (x : superblock) : superblock :=
  mk_superblock (sb_magic x) (sb_size x) (sb_nblocks x) (sb_ninodes x) (sb_nlog x) (sb_logstart
    x) v (sb_bmapstart x).
Definition set_sb_bmapstart (v : Z) (x : superblock) : superblock :=
  mk_superblock (sb_magic x) (sb_size x) (sb_nblocks x) (sb_ninodes x) (sb_nlog x) (sb_logstart
    x) (sb_inodestart x) v.

(** kernel/file.h: struct inode. *)
Record inode := mk_inode {
  i_dev : Z;
  i_inum : Z;
  i_ref : Z;
  i_lock : sleeplock;
  i_valid : bool;
  i_type : Z;
  i_major : Z;
  i_minor : Z;
  i_nlink : Z;
  i_size : Z;
  i_addrs : list Z
}.
Definition set_i_dev (v : Z) (x : inode) : inode :=
  mk_inode v (i_inum x) (i_ref x) (i_lock x) (i_valid x) (i_type x) (i_major x) (i_minor x)
    (i_nlink x) (i_size x) (i_addrs x).
Definition set_i_inum (v : Z) (x : inode) : inode :=
  mk_inode (i_dev x) v (i_ref x) (i_lock x) (i_valid x) (i_type x) (i_major x) (i_minor x)
    (i_nlink x) (i_size x) (i_addrs x).
Definition set_i_ref (v : Z) (x : inode) : inode :=
  mk_inode (i_dev x) (i_inum x) v (i_lock x) (i_valid x) (i_type x) (i_major x) (i_minor x)
    (i_nlink x) (i_size x) (i_addrs x).
Definition set_i_lock (v : sleeplock) (x : inode) : inode :=
  mk_inode (i_dev x) (i_inum x) (i_ref x) v (i_valid x) (i_type x) (i_major x) (i_minor x)
    (i_nlink x) (i_size x) (i_addrs x).
Definition set_i_valid (v : bool) (x : inode) : inode :=
  mk_inode (i_dev x) (i_inum x) (i_ref x) (i_lock x) v (i_type x) (i_major x) (i_minor x)
    (i_nlink x) (i_size x) (i_addrs x).
Definition set_i_type (v : Z) (x : inode) : inode :=
  mk_inode (i_dev x) (i_inum x) (i_ref x) (i_lock x) (i_valid x) v (i_major x) (i_minor x)
    (i_nlink x) (i_size x) (i_addrs x).
Definition set_i_major (v : Z) (x : inode) : inode :=
  mk_inode (i_dev x) (i_inum x) (i_ref x) (i_lock x) (i_valid x) (i_type x) v (i_minor x)
    (i_nlink x) (i_size x) (i_addrs x).
Definition set_i_minor (v : Z) (x : inode) : inode :=
  mk_inode (i_dev x) (i_inum x) (i_ref x) (i_lock x) (i_valid x) (i_type x) (i_major x) v
    (i_nlink x) (i_size x) (i_addrs x).
Definition set_i_nlink (v : Z) (x : inode) : inode :=
  mk_inode (i_dev x) (i_inum x) (i_ref x) (i_lock x) (i_valid x) (i_type x) (i_major x)
    (i_minor x) v (i_size x) (i_addrs x).
Definition set_i_size (v : Z) (x : inode) : inode :=
  mk_inode (i_dev x) (i_inum x) (i_ref x) (i_lock x) (i_valid x) (i_type x) (i_major x)
    (i_minor x) (i_nlink x) v (i_addrs x).
Definition set_i_addrs (v : list Z) (x : inode) : inode :=
  mk_inode (i_dev x) (i_inum x) (i_ref x) (i_lock x) (i_valid x) (i_type x) (i_major x)
    (i_minor x) (i_nlink x) (i_size x) v.

(** kernel/file.h: struct file. *)
Record file := mk_file {
  f_type : fdtype;
  f_ref : Z;
  f_readable : bool;
  f_writable : bool;
  f_pipe : Z;
  f_ip : option nat;
  f_off : Z;
  f_major : Z
}.
Definition set_f_type (v : fdtype) (x : file) : file :=
  mk_file v (f_ref x) (f_readable x) (f_writable x) (f_pipe x) (f_ip x) (f_off x) (f_major x).
Definition set_f_ref (v : Z) (x : file) : file :=
  mk_file (f_type x) v (f_readable x) (f_writable x) (f_pipe x) (f_ip x) (f_off x) (f_major x).
Definition set_f_readable (v : bool) (x : file) : file :=
  mk_file (f_type x) (f_ref x) v (f_writable x) (f_pipe x) (f_ip x) (f_off x) (f_major x).
Definition set_f_writable (v : bool) (x : file) : file :=
  mk_file (f_type x) (f_ref x) (f_readable x) v (f_pipe x) (f_ip x) (f_off x) (f_major x).
Definition set_f_pipe (v : Z) (x : file) : file :=
  mk_file (f_type x) (f_ref x) (f_readable x) (f_writable x) v (f_ip x) (f_off x) (f_major x).
Definition set_f_ip (v : option nat) (x : file) : file :=
  mk_file (f_type x) (f_ref x) (f_readable x) (f_writable x) (f_pipe x) v (f_off x) (f_major x).
Definition set_f_off (v : Z) (x : file) : file :=
  mk_file (f_type x) (f_ref x) (f_readable x) (f_writable x) (f_pipe x) (f_ip x) v (f_major x).
Definition set_f_major (v : Z) (x : file) : file :=
  mk_file (f_type x) (f_ref x) (f_readable x) (f_writable x) (f_pipe x) (f_ip x) (f_off x) v.

(** kernel/pipe.c: struct pipe. *)
Record pipe := mk_pipe {
  pi_data : list Z;
  pi_nread : Z;
  pi_nwrite : Z;
  pi_readopen : bool;
  pi_writeopen : bool
}.
Definition set_pi_data (v : list Z) (x : pipe) : pipe :=
  mk_pipe v (pi_nread x) (pi_nwrite x) (pi_readopen x) (pi_writeopen x).
Definition set_pi_nread (v : Z) (x : pipe) : pipe :=
  mk_pipe (pi_data x) v (pi_nwrite x) (pi_readopen x) (pi_writeopen x).
Definition set_pi_nwrite (v : Z) (x : pipe) : pipe :=
  mk_pipe (pi_data x) (pi_nread x) v (pi_readopen x) (pi_writeopen x).
Definition set_pi_readopen (v : bool) (x : pipe) : pipe :=
  mk_pipe (pi_data x) (pi_nread x) (pi_nwrite x) v (pi_writeopen x).
Definition set_pi_writeopen (v : bool) (x : pipe) : pipe :=
  mk_pipe (pi_data x) (pi_nread x) (pi_nwrite x) (pi_readopen x) v.

(** kernel/console.c: cons. *)
Record cons := mk_cons {
  cs_buf : list Z;
  cs_r : Z;
  cs_w : Z;
  cs_e : Z
}.
Definition set_cs_buf (v : list Z) (x : cons) : cons :=
  mk_cons v (cs_r x) (cs_w x) (cs_e x).
Definition set_cs_r (v : Z) (x : cons) : cons :=
  mk_cons (cs_buf x) v (cs_w x) (cs_e x).
Definition set_cs_w (v : Z) (x : cons) : cons :=
  mk_cons (cs_buf x) (cs_r x) v (cs_e x).
Definition set_cs_e (v : Z) (x : cons) : cons :=
  mk_cons (cs_buf x) (cs_r x) (cs_w x) v.

(** kernel/uart.c: the transmit buffer, and the device: [ut_busy] is whether the
    transmit holding register (THR) still has a byte, [ut_lsr] what successive reads of the
    line status register find while it has one, [ut_rx] the bytes waiting in the receive
    register, [ut_out] the bytes sent, [ut_cfg] the writes to the configuration registers. *)
Record uart := mk_uart {
  ut_buf : list Z;
  ut_w : Z;
  ut_r : Z;
  ut_busy : bool;
  ut_lsr : list Z;
  ut_rx : list Z;
  ut_out : list Z;
  ut_cfg : list (Z * Z)
}.
Definition set_ut_buf (v : list Z) (x : uart) : uart :=
  mk_uart v (ut_w x) (ut_r x) (ut_busy x) (ut_lsr x) (ut_rx x) (ut_out x) (ut_cfg x).
Definition set_ut_w (v : Z) (x : uart) : uart :=
  mk_uart (ut_buf x) v (ut_r x) (ut_busy x) (ut_lsr x) (ut_rx x) (ut_out x) (ut_cfg x).
Definition set_ut_r (v : Z) (x : uart) : uart :=
  mk_uart (ut_buf x) (ut_w x) v (ut_busy x) (ut_lsr x) (ut_rx x) (ut_out x) (ut_cfg x).
Definition set_ut_busy (v : bool) (x : uart) : uart :=
  mk_uart (ut_buf x) (ut_w x) (ut_r x) v (ut_lsr x) (ut_rx x) (ut_out x) (ut_cfg x).
Definition set_ut_lsr (v : list Z) (x : uart) : uart :=
  mk_uart (ut_buf x) (ut_w x) (ut_r x) (ut_busy x) v (ut_rx x) (ut_out x) (ut_cfg x).
Definition set_ut_rx (v : list Z) (x : uart) : uart :=
  mk_uart (ut_buf x) (ut_w x) (ut_r x) (ut_busy x) (ut_lsr x) v (ut_out x) (ut_cfg x).
Definition set_ut_out (v : list Z) (x : uart) : uart :=
  mk_uart (ut_buf x) (ut_w x) (ut_r x) (ut_busy x) (ut_lsr x) (ut_rx x) v (ut_cfg x).
Definition set_ut_cfg (v : list (Z * Z)) (x : uart) : uart :=
  mk_uart (ut_buf x) (ut_w x) (ut_r x) (ut_busy x) (ut_lsr x) (ut_rx x) (ut_out x) v.

(** the control and status registers the trap code reads and writes. *)
Record csrs := mk_csrs {
  r_sstatus : Z;
  r_stvec : Z;
  r_sepc : Z;
  r_scause : Z;
  r_stval : Z;
  r_satp : Z;
  r_tp : Z;
  r_stimecmp : Z;
  r_time : Z
}.
Definition set_r_sstatus (v : Z) (x : csrs) : csrs :=
  mk_csrs v (r_stvec x) (r_sepc x) (r_scause x) (r_stval x) (r_satp x) (r_tp x) (r_stimecmp x)
    (r_time x).
Definition set_r_stvec (v : Z) (x : csrs) : csrs :=
  mk_csrs (r_sstatus x) v (r_sepc x) (r_scause x) (r_stval x) (r_satp x) (r_tp x) (r_stimecmp
    x) (r_time x).
Definition set_r_sepc (v : Z) (x : csrs) : csrs :=
  mk_csrs (r_sstatus x) (r_stvec x) v (r_scause x) (r_stval x) (r_satp x) (r_tp x) (r_stimecmp
    x) (r_time x).
Definition set_r_scause (v : Z) (x : csrs) : csrs :=
  mk_csrs (r_sstatus x) (r_stvec x) (r_sepc x) v (r_stval x) (r_satp x) (r_tp x) (r_stimecmp x)
    (r_time x).
Definition set_r_stval (v : Z) (x : csrs) : csrs :=
  mk_csrs (r_sstatus x) (r_stvec x) (r_sepc x) (r_scause x) v (r_satp x) (r_tp x) (r_stimecmp
    x) (r_time x).
Definition set_r_satp (v : Z) (x : csrs) : csrs :=
  mk_csrs (r_sstatus x) (r_stvec x) (r_sepc x) (r_scause x) (r_stval x) v (r_tp x) (r_stimecmp
    x) (r_time x).
Definition set_r_tp (v : Z) (x : csrs) : csrs :=
  mk_csrs (r_sstatus x) (r_stvec x) (r_sepc x) (r_scause x) (r_stval x) (r_satp x) v
    (r_stimecmp x) (r_time x).
Definition set_r_stimecmp (v : Z) (x : csrs) : csrs :=
  mk_csrs (r_sstatus x) (r_stvec x) (r_sepc x) (r_scause x) (r_stval x) (r_satp x) (r_tp x) v
    (r_time x).
Definition set_r_time (v : Z) (x : csrs) : csrs :=
  mk_csrs (r_sstatus x) (r_stvec x) (r_sepc x) (r_scause x) (r_stval x) (r_satp x) (r_tp x)
    (r_stimecmp x) v.

(** kernel/virtio.h: struct virtq_desc. *)
Record virtq_desc := mk_virtq_desc {
  vq_addr : daddr;
  vq_len : Z;
  vq_flags : Z;
  vq_next : Z
}.
Definition set_vq_addr (v : daddr) (x : virtq_desc) : virtq_desc :=
  mk_virtq_desc v (vq_len x) (vq_flags x) (vq_next x).
Definition set_vq_len (v : Z) (x : virtq_desc) : virtq_desc :=
  mk_virtq_desc (vq_addr x) v (vq_flags x) (vq_next x).
Definition set_vq_flags (v : Z) (x : virtq_desc) : virtq_desc :=
  mk_virtq_desc (vq_addr x) (vq_len x) v (vq_next x).
Definition set_vq_next (v : Z) (x : virtq_desc) : virtq_desc :=
  mk_virtq_desc (vq_addr x) (vq_len x) (vq_flags x) v.

(** kernel/virtio.h: struct virtio_blk_req. *)
Record blk_req := mk_blk_req {
  rq_type : Z;
  rq_reserved : Z;
  rq_sector : Z
}.
Definition set_rq_type (v : Z) (x : blk_req) : blk_req :=
  mk_blk_req v (rq_reserved x) (rq_sector x).
Definition set_rq_reserved (v : Z) (x : blk_req) : blk_req :=
  mk_blk_req (rq_type x) v (rq_sector x).
Definition set_rq_sector (v : Z) (x : blk_req) : blk_req :=
  mk_blk_req (rq_type x) (rq_reserved x) v.

(** kernel/virtio_disk.c: struct disk.  [vd_desc], [vd_avail_ring], [vd_avail_idx],
    [vd_used_ring] and [vd_used_end] are the queue pages the driver shares with the device
    (the last two are [used->ring[..].id] and [used->idx]); [vd_pages] their addresses;
    [vd_info_b] and [vd_info_st] the array [info].  [vd_regs] are the device's
    registers, [vd_accept] the bits of its status register it agrees to set. *)
Record vdisk := mk_vdisk {
  vd_pages : list Z;
  vd_desc : list virtq_desc;
  vd_avail_ring : list Z;
  vd_avail_idx : Z;
  vd_used_ring : list Z;
  vd_used_end : Z;
  vd_free : list bool;
  vd_used_idx : Z;
  vd_info_b : list (option nat);
  vd_info_st : list Z;
  vd_ops : list blk_req;
  vd_regs : gmap Z Z;
  vd_accept : Z
}.
Definition set_vd_pages (v : list Z) (x : vdisk) : vdisk :=
  mk_vdisk v (vd_desc x) (vd_avail_ring x) (vd_avail_idx x) (vd_used_ring x) (vd_used_end x)
    (vd_free x) (vd_used_idx x) (vd_info_b x) (vd_info_st x) (vd_ops x) (vd_regs x) (vd_accept
    x).
Definition set_vd_desc (v : list virtq_desc) (x : vdisk) : vdisk :=
  mk_vdisk (vd_pages x) v (vd_avail_ring x) (vd_avail_idx x) (vd_used_ring x) (vd_used_end x)
    (vd_free x) (vd_used_idx x) (vd_info_b x) (vd_info_st x) (vd_ops x) (vd_regs x) (vd_accept
    x).
Definition set_vd_avail_ring (v : list Z) (x : vdisk) : vdisk :=
  mk_vdisk (vd_pages x) (vd_desc x) v (vd_avail_idx x) (vd_used_ring x) (vd_used_end x)
    (vd_free x) (vd_used_idx x) (vd_info_b x) (vd_info_st x) (vd_ops x) (vd_regs x) (vd_accept
    x).
Definition set_vd_avail_idx (v : Z) (x : vdisk) : vdisk :=
  mk_vdisk (vd_pages x) (vd_desc x) (vd_avail_ring x) v (vd_used_ring x) (vd_used_end x)
    (vd_free x) (vd_used_idx x) (vd_info_b x) (vd_info_st x) (vd_ops x) (vd_regs x) (vd_accept
    x).
Definition set_vd_used_ring (v : list Z) (x : vdisk) : vdisk :=
  mk_vdisk (vd_pages x) (vd_desc x) (vd_avail_ring x) (vd_avail_idx x) v (vd_used_end x)
    (vd_free x) (vd_used_idx x) (vd_info_b x) (vd_info_st x) (vd_ops x) (vd_regs x) (vd_accept
    x).
Definition set_vd_used_end (v : Z) (x : vdisk) : vdisk :=
  mk_vdisk (vd_pages x) (vd_desc x) (vd_avail_ring x) (vd_avail_idx x) (vd_used_ring x) v
    (vd_free x) (vd_used_idx x) (vd_info_b x) (vd_info_st x) (vd_ops x) (vd_regs x) (vd_accept
    x).
Definition set_vd_free (v : list bool) (x : vdisk) : vdisk :=
  mk_vdisk (vd_pages x) (vd_desc x) (vd_avail_ring x) (vd_avail_idx x) (vd_used_ring x)
    (vd_used_end x) v (vd_used_idx x) (vd_info_b x) (vd_info_st x) (vd_ops x) (vd_regs x)
    (vd_accept x).
Definition set_vd_used_idx (v : Z) (x : vdisk) : vdisk :=
  mk_vdisk (vd_pages x) (vd_desc x) (vd_avail_ring x) (vd_avail_idx x) (vd_used_ring x)
    (vd_used_end x) (vd_free x) v (vd_info_b x) (vd_info_st x) (vd_ops x) (vd_regs x)
    (vd_accept x).
Definition set_vd_info_b (v : list (option nat)) (x : vdisk) : vdisk :=
  mk_vdisk (vd_pages x) (vd_desc x) (vd_avail_ring x) (vd_avail_idx x) (vd_used_ring x)
    (vd_used_end x) (vd_free x) (vd_used_idx x) v (vd_info_st x) (vd_ops x) (vd_regs x)
    (vd_accept x).
Definition set_vd_info_st (v : list Z) (x : vdisk) : vdisk :=
  mk_vdisk (vd_pages x) (vd_desc x) (vd_avail_ring x) (vd_avail_idx x) (vd_used_ring x)
    (vd_used_end x) (vd_free x) (vd_used_idx x) (vd_info_b x) v (vd_ops x) (vd_regs x)
    (vd_accept x).
Definition set_vd_ops (v : list blk_req) (x : vdisk) : vdisk :=
  mk_vdisk (vd_pages x) (vd_desc x) (vd_avail_ring x) (vd_avail_idx x) (vd_used_ring x)
    (vd_used_end x) (vd_free x) (vd_used_idx x) (vd_info_b x) (vd_info_st x) v (vd_regs x)
    (vd_accept x).
Definition set_vd_regs (v : gmap Z Z) (x : vdisk) : vdisk :=
  mk_vdisk (vd_pages x) (vd_desc x) (vd_avail_ring x) (vd_avail_idx x) (vd_used_ring x)
    (vd_used_end x) (vd_free x) (vd_used_idx x) (vd_info_b x) (vd_info_st x) (vd_ops x) v
    (vd_accept x).
Definition set_vd_accept (v : Z) (x : vdisk) : vdisk :=
  mk_vdisk (vd_pages x) (vd_desc x) (vd_avail_ring x) (vd_avail_idx x) (vd_used_ring x)
    (vd_used_end x) (vd_free x) (vd_used_idx x) (vd_info_b x) (vd_info_st x) (vd_ops x)
    (vd_regs x) v.

(** the interrupt controller: what successive claims return, and the registers written. *)
Record plic := mk_plic {
  pl_claims : list Z;
  pl_regs : gmap Z Z
}.
Definition set_pl_claims (v : list Z) (x : plic) : plic :=
  mk_plic v (pl_regs x).
Definition set_pl_regs (v : gmap Z Z) (x : plic) : plic :=
  mk_plic (pl_claims x) v.

(** The kernel's globals.  [k_cur] is [mycpu()->proc]; [k_writes] records the
    block writes the disk performed, oldest first (the disk after a crash holds a
    prefix of them); [k_fuel] bounds how often a thread is woken from one [sleep]
    loop only to find its condition still false. *)
Record kstate := mk_kstate {
  k_held : list lockid;
  k_cur : option nat;
  k_procs : list proc;
  k_nextpid : Z;
  k_initproc : option nat;
  k_ticks : Z;
  k_mem : mem;
  k_freelist : Z;
  k_bufs : list buf;
  k_disk : gmap Z (list Z);
  k_writes : list (Z * list Z);
  k_log : log;
  k_sb : superblock;
  k_inodes : list inode;
  k_files : list file;
  k_pipes : gmap Z pipe;
  k_devsw : list Z;
  k_cons : cons;
  k_uart : uart;
  k_csrs : csrs;
  k_first : bool;
  k_panicked : bool;
  k_locking : bool;
  k_vdisk : vdisk;
  k_plic : plic;
  k_kpgtbl : Z;
  k_started : bool;
  k_fuel : nat
}.
Definition set_k_held (v : list lockid) (x : kstate) : kstate :=
  mk_kstate v (k_cur x) (k_procs x) (k_nextpid x) (k_initproc x) (k_ticks x) (k_mem x)
    (k_freelist x) (k_bufs x) (k_disk x) (k_writes x) (k_log x) (k_sb x) (k_inodes x) (k_files
    x) (k_pipes x) (k_devsw x) (k_cons x) (k_uart x) (k_csrs x) (k_first x) (k_panicked x)
    (k_locking x) (k_vdisk x) (k_plic x) (k_kpgtbl x) (k_started x) (k_fuel x).
Definition set_k_cur (v : option nat) (x : kstate) : kstate :=
  mk_kstate (k_held x) v (k_procs x) (k_nextpid x) (k_initproc x) (k_ticks x) (k_mem x)
    (k_freelist x) (k_bufs x) (k_disk x) (k_writes x) (k_log x) (k_sb x) (k_inodes x) (k_files
    x) (k_pipes x) (k_devsw x) (k_cons x) (k_uart x) (k_csrs x) (k_first x) (k_panicked x)
    (k_locking x) (k_vdisk x) (k_plic x) (k_kpgtbl x) (k_started x) (k_fuel x).
Definition set_k_procs (v : list proc) (x : kstate) : kstate :=
  mk_kstate (k_held x) (k_cur x) v (k_nextpid x) (k_initproc x) (k_ticks x) (k_mem x)
    (k_freelist x) (k_bufs x) (k_disk x) (k_writes x) (k_log x) (k_sb x) (k_inodes x) (k_files
    x) (k_pipes x) (k_devsw x) (k_cons x) (k_uart x) (k_csrs x) (k_first x) (k_panicked x)
    (k_locking x) (k_vdisk x) (k_plic x) (k_kpgtbl x) (k_started x) (k_fuel x).
Definition set_k_nextpid (v : Z) (x : kstate) : kstate :=
  mk_kstate (k_held x) (k_cur x) (k_procs x) v (k_initproc x) (k_ticks x) (k_mem x) (k_freelist
    x) (k_bufs x) (k_disk x) (k_writes x) (k_log x) (k_sb x) (k_inodes x) (k_files x) (k_pipes
    x) (k_devsw x) (k_cons x) (k_uart x) (k_csrs x) (k_first x) (k_panicked x) (k_locking x)
    (k_vdisk x) (k_plic x) (k_kpgtbl x) (k_started x) (k_fuel x).
Definition set_k_initproc (v : option nat) (x : kstate) : kstate :=
  mk_kstate (k_held x) (k_cur x) (k_procs x) (k_nextpid x) v (k_ticks x) (k_mem x) (k_freelist
    x) (k_bufs x) (k_disk x) (k_writes x) (k_log x) (k_sb x) (k_inodes x) (k_files x) (k_pipes
    x) (k_devsw x) (k_cons x) (k_uart x) (k_csrs x) (k_first x) (k_panicked x) (k_locking x)
    (k_vdisk x) (k_plic x) (k_kpgtbl x) (k_started x) (k_fuel x).
Definition set_k_ticks (v : Z) (x : kstate) : kstate :=
  mk_kstate (k_held x) (k_cur x) (k_procs x) (k_nextpid x) (k_initproc x) v (k_mem x)
    (k_freelist x) (k_bufs x) (k_disk x) (k_writes x) (k_log x) (k_sb x) (k_inodes x) (k_files
    x) (k_pipes x) (k_devsw x) (k_cons x) (k_uart x) (k_csrs x) (k_first x) (k_panicked x)
    (k_locking x) (k_vdisk x) (k_plic x) (k_kpgtbl x) (k_started x) (k_fuel x).
Definition set_k_mem (v : mem) (x : kstate) : kstate :=
  mk_kstate (k_held x) (k_cur x) (k_procs x) (k_nextpid x) (k_initproc x) (k_ticks x) v
    (k_freelist x) (k_bufs x) (k_disk x) (k_writes x) (k_log x) (k_sb x) (k_inodes x) (k_files
    x) (k_pipes x) (k_devsw x) (k_cons x) (k_uart x) (k_csrs x) (k_first x) (k_panicked x)
    (k_locking x) (k_vdisk x) (k_plic x) (k_kpgtbl x) (k_started x) (k_fuel x).
Definition set_k_freelist (v : Z) (x : kstate) : kstate :=
  mk_kstate (k_held x) (k_cur x) (k_procs x) (k_nextpid x) (k_initproc x) (k_ticks x) (k_mem x)
    v (k_bufs x) (k_disk x) (k_writes x) (k_log x) (k_sb x) (k_inodes x) (k_files x) (k_pipes
    x) (k_devsw x) (k_cons x) (k_uart x) (k_csrs x) (k_first x) (k_panicked x) (k_locking x)
    (k_vdisk x) (k_plic x) (k_kpgtbl x) (k_started x) (k_fuel x).
Definition set_k_bufs (v : list buf) (x : kstate) : kstate :=
  mk_kstate (k_held x) (k_cur x) (k_procs x) (k_nextpid x) (k_initproc x) (k_ticks x) (k_mem x)
    (k_freelist x) v (k_disk x) (k_writes x) (k_log x) (k_sb x) (k_inodes x) (k_files x)
    (k_pipes x) (k_devsw x) (k_cons x) (k_uart x) (k_csrs x) (k_first x) (k_panicked x)
    (k_locking x) (k_vdisk x) (k_plic x) (k_kpgtbl x) (k_started x) (k_fuel x).
Definition set_k_disk (v : gmap Z (list Z)) (x : kstate) : kstate :=
  mk_kstate (k_held x) (k_cur x) (k_procs x) (k_nextpid x) (k_initproc x) (k_ticks x) (k_mem x)
    (k_freelist x) (k_bufs x) v (k_writes x) (k_log x) (k_sb x) (k_inodes x) (k_files x)
    (k_pipes x) (k_devsw x) (k_cons x) (k_uart x) (k_csrs x) (k_first x) (k_panicked x)
    (k_locking x) (k_vdisk x) (k_plic x) (k_kpgtbl x) (k_started x) (k_fuel x).
Definition set_k_writes (v : list (Z * list Z)) (x : kstate) : kstate :=
  mk_kstate (k_held x) (k_cur x) (k_procs x) (k_nextpid x) (k_initproc x) (k_ticks x) (k_mem x)
    (k_freelist x) (k_bufs x) (k_disk x) v (k_log x) (k_sb x) (k_inodes x) (k_files x) (k_pipes
    x) (k_devsw x) (k_cons x) (k_uart x) (k_csrs x) (k_first x) (k_panicked x) (k_locking x)
    (k_vdisk x) (k_plic x) (k_kpgtbl x) (k_started x) (k_fuel x).
Definition set_k_log (v : log) (x : kstate) : kstate :=
  mk_kstate (k_held x) (k_cur x) (k_procs x) (k_nextpid x) (k_initproc x) (k_ticks x) (k_mem x)
    (k_freelist x) (k_bufs x) (k_disk x) (k_writes x) v (k_sb x) (k_inodes x) (k_files x)
    (k_pipes x) (k_devsw x) (k_cons x) (k_uart x) (k_csrs x) (k_first x) (k_panicked x)
    (k_locking x) (k_vdisk x) (k_plic x) (k_kpgtbl x) (k_started x) (k_fuel x).
Definition set_k_sb (v : superblock) (x : kstate) : kstate :=
  mk_kstate (k_held x) (k_cur x) (k_procs x) (k_nextpid x) (k_initproc x) (k_ticks x) (k_mem x)
    (k_freelist x) (k_bufs x) (k_disk x) (k_writes x) (k_log x) v (k_inodes x) (k_files x)
    (k_pipes x) (k_devsw x) (k_cons x) (k_uart x) (k_csrs x) (k_first x) (k_panicked x)
    (k_locking x) (k_vdisk x) (k_plic x) (k_kpgtbl x) (k_started x) (k_fuel x).
Definition set_k_inodes (v : list inode) (x : kstate) : kstate :=
  mk_kstate (k_held x) (k_cur x) (k_procs x) (k_nextpid x) (k_initproc x) (k_ticks x) (k_mem x)
    (k_freelist x) (k_bufs x) (k_disk x) (k_writes x) (k_log x) (k_sb x) v (k_files x) (k_pipes
    x) (k_devsw x) (k_cons x) (k_uart x) (k_csrs x) (k_first x) (k_panicked x) (k_locking x)
    (k_vdisk x) (k_plic x) (k_kpgtbl x) (k_started x) (k_fuel x).
Definition set_k_files (v : list file) (x : kstate) : kstate :=
  mk_kstate (k_held x) (k_cur x) (k_procs x) (k_nextpid x) (k_initproc x) (k_ticks x) (k_mem x)
    (k_freelist x) (k_bufs x) (k_disk x) (k_writes x) (k_log x) (k_sb x) (k_inodes x) v
    (k_pipes x) (k_devsw x) (k_cons x) (k_uart x) (k_csrs x) (k_first x) (k_panicked x)
    (k_locking x) (k_vdisk x) (k_plic x) (k_kpgtbl x) (k_started x) (k_fuel x).
Definition set_k_pipes (v : gmap Z pipe) (x : kstate) : kstate :=
  mk_kstate (k_held x) (k_cur x) (k_procs x) (k_nextpid x) (k_initproc x) (k_ticks x) (k_mem x)
    (k_freelist x) (k_bufs x) (k_disk x) (k_writes x) (k_log x) (k_sb x) (k_inodes x) (k_files
    x) v (k_devsw x) (k_cons x) (k_uart x) (k_csrs x) (k_first x) (k_panicked x) (k_locking x)
    (k_vdisk x) (k_plic x) (k_kpgtbl x) (k_started x) (k_fuel x).
Definition set_k_devsw (v : list Z) (x : kstate) : kstate :=
  mk_kstate (k_held x) (k_cur x) (k_procs x) (k_nextpid x) (k_initproc x) (k_ticks x) (k_mem x)
    (k_freelist x) (k_bufs x) (k_disk x) (k_writes x) (k_log x) (k_sb x) (k_inodes x) (k_files
    x) (k_pipes x) v (k_cons x) (k_uart x) (k_csrs x) (k_first x) (k_panicked x) (k_locking x)
    (k_vdisk x) (k_plic x) (k_kpgtbl x) (k_started x) (k_fuel x).
Definition set_k_cons (v : cons) (x : kstate) : kstate :=
  mk_kstate (k_held x) (k_cur x) (k_procs x) (k_nextpid x) (k_initproc x) (k_ticks x) (k_mem x)
    (k_freelist x) (k_bufs x) (k_disk x) (k_writes x) (k_log x) (k_sb x) (k_inodes x) (k_files
    x) (k_pipes x) (k_devsw x) v (k_uart x) (k_csrs x) (k_first x) (k_panicked x) (k_locking x)
    (k_vdisk x) (k_plic x) (k_kpgtbl x) (k_started x) (k_fuel x).
Definition set_k_uart (v : uart) (x : kstate) : kstate :=
  mk_kstate (k_held x) (k_cur x) (k_procs x) (k_nextpid x) (k_initproc x) (k_ticks x) (k_mem x)
    (k_freelist x) (k_bufs x) (k_disk x) (k_writes x) (k_log x) (k_sb x) (k_inodes x) (k_files
    x) (k_pipes x) (k_devsw x) (k_cons x) v (k_csrs x) (k_first x) (k_panicked x) (k_locking x)
    (k_vdisk x) (k_plic x) (k_kpgtbl x) (k_started x) (k_fuel x).
Definition set_k_csrs (v : csrs) (x : kstate) : kstate :=
  mk_kstate (k_held x) (k_cur x) (k_procs x) (k_nextpid x) (k_initproc x) (k_ticks x) (k_mem x)
    (k_freelist x) (k_bufs x) (k_disk x) (k_writes x) (k_log x) (k_sb x) (k_inodes x) (k_files
    x) (k_pipes x) (k_devsw x) (k_cons x) (k_uart x) v (k_first x) (k_panicked x) (k_locking x)
    (k_vdisk x) (k_plic x) (k_kpgtbl x) (k_started x) (k_fuel x).
Definition set_k_first (v : bool) (x : kstate) : kstate :=
  mk_kstate (k_held x) (k_cur x) (k_procs x) (k_nextpid x) (k_initproc x) (k_ticks x) (k_mem x)
    (k_freelist x) (k_bufs x) (k_disk x) (k_writes x) (k_log x) (k_sb x) (k_inodes x) (k_files
    x) (k_pipes x) (k_devsw x) (k_cons x) (k_uart x) (k_csrs x) v (k_panicked x) (k_locking x)
    (k_vdisk x) (k_plic x) (k_kpgtbl x) (k_started x) (k_fuel x).
Definition set_k_panicked (v : bool) (x : kstate) : kstate :=
  mk_kstate (k_held x) (k_cur x) (k_procs x) (k_nextpid x) (k_initproc x) (k_ticks x) (k_mem x)
    (k_freelist x) (k_bufs x) (k_disk x) (k_writes x) (k_log x) (k_sb x) (k_inodes x) (k_files
    x) (k_pipes x) (k_devsw x) (k_cons x) (k_uart x) (k_csrs x) (k_first x) v (k_locking x)
    (k_vdisk x) (k_plic x) (k_kpgtbl x) (k_started x) (k_fuel x).
Definition set_k_locking (v : bool) (x : kstate) : kstate :=
  mk_kstate (k_held x) (k_cur x) (k_procs x) (k_nextpid x) (k_initproc x) (k_ticks x) (k_mem x)
    (k_freelist x) (k_bufs x) (k_disk x) (k_writes x) (k_log x) (k_sb x) (k_inodes x) (k_files
    x) (k_pipes x) (k_devsw x) (k_cons x) (k_uart x) (k_csrs x) (k_first x) (k_panicked x) v
    (k_vdisk x) (k_plic x) (k_kpgtbl x) (k_started x) (k_fuel x).
Definition set_k_vdisk (v : vdisk) (x : kstate) : kstate :=
  mk_kstate (k_held x) (k_cur x) (k_procs x) (k_nextpid x) (k_initproc x) (k_ticks x) (k_mem x)
    (k_freelist x) (k_bufs x) (k_disk x) (k_writes x) (k_log x) (k_sb x) (k_inodes x) (k_files
    x) (k_pipes x) (k_devsw x) (k_cons x) (k_uart x) (k_csrs x) (k_first x) (k_panicked x)
    (k_locking x) v (k_plic x) (k_kpgtbl x) (k_started x) (k_fuel x).
Definition set_k_plic (v : plic) (x : kstate) : kstate :=
  mk_kstate (k_held x) (k_cur x) (k_procs x) (k_nextpid x) (k_initproc x) (k_ticks x) (k_mem x)
    (k_freelist x) (k_bufs x) (k_disk x) (k_writes x) (k_log x) (k_sb x) (k_inodes x) (k_files
    x) (k_pipes x) (k_devsw x) (k_cons x) (k_uart x) (k_csrs x) (k_first x) (k_panicked x)
    (k_locking x) (k_vdisk x) v (k_kpgtbl x) (k_started x) (k_fuel x).
Definition set_k_kpgtbl (v : Z) (x : kstate) : kstate :=
  mk_kstate (k_held x) (k_cur x) (k_procs x) (k_nextpid x) (k_initproc x) (k_ticks x) (k_mem x)
    (k_freelist x) (k_bufs x) (k_disk x) (k_writes x) (k_log x) (k_sb x) (k_inodes x) (k_files
    x) (k_pipes x) (k_devsw x) (k_cons x) (k_uart x) (k_csrs x) (k_first x) (k_panicked x)
    (k_locking x) (k_vdisk x) (k_plic x) v (k_started x) (k_fuel x).
Definition set_k_started (v : bool) (x : kstate) : kstate :=
  mk_kstate (k_held x) (k_cur x) (k_procs x) (k_nextpid x) (k_initproc x) (k_ticks x) (k_mem x)
    (k_freelist x) (k_bufs x) (k_disk x) (k_writes x) (k_log x) (k_sb x) (k_inodes x) (k_files
    x) (k_pipes x) (k_devsw x) (k_cons x) (k_uart x) (k_csrs x) (k_first x) (k_panicked x)
    (k_locking x) (k_vdisk x) (k_plic x) (k_kpgtbl x) v (k_fuel x).
Definition set_k_fuel (v : nat) (x : kstate) : kstate :=
  mk_kstate (k_held x) (k_cur x) (k_procs x) (k_nextpid x) (k_initproc x) (k_ticks x) (k_mem x)
    (k_freelist x) (k_bufs x) (k_disk x) (k_writes x) (k_log x) (k_sb x) (k_inodes x) (k_files
    x) (k_pipes x) (k_devsw x) (k_cons x) (k_uart x) (k_csrs x) (k_first x) (k_panicked x)
    (k_locking x) (k_vdisk x) (k_plic x) (k_kpgtbl x) (k_started x) v.

Abbreviation K := (M kstate).

(** ** Access to the arrays of structs *)

Definition get_proc (i : nat) : K proc :=
  fun s => match k_procs s !! i with Some p => Ret p s | None => Stop (SFault "proc") s end.
Definition mod_proc (i : nat) (f : proc -> proc) : K unit :=
  modify (fun s => set_k_procs (alter f i (k_procs s)) s).
Definition get_buf (i : nat) : K buf :=
  fun s => match k_bufs s !! i with Some b => Ret b s | None => Stop (SFault "buf") s end.
Definition mod_buf (i : nat) (f : buf -> buf) : K unit :=
  modify (fun s => set_k_bufs (alter f i (k_bufs s)) s).
Definition get_inode (i : nat) : K inode :=
  fun s => match k_inodes s !! i with Some p => Ret p s | None => Stop (SFault "inode") s end.
Definition mod_inode (i : nat) (f : inode -> inode) : K unit :=
  modify (fun s => set_k_inodes (alter f i (k_inodes s)) s).
Definition get_file (i : nat) : K file :=
  fun s => match k_files s !! i with Some p => Ret p s | None => Stop (SFault "file") s end.
Definition mod_file (i : nat) (f : file -> file) : K unit :=
  modify (fun s => set_k_files (alter f i (k_files s)) s).
Definition get_pipe (pi : Z) : K pipe :=
  fun s => match k_pipes s !! pi with Some p => Ret p s | None => Stop (SFault "pipe") s end.
Definition mod_pipe (pi : Z) (f : pipe -> pipe) : K unit :=
  modify (fun s => set_k_pipes (alter f pi (k_pipes s)) s).
Definition mod_log (f : log -> log) : K unit := modify (fun s => set_k_log (f (k_log s)) s).
Definition mod_cons (f : cons -> cons) : K unit := modify (fun s => set_k_cons (f (k_cons s)) s).
Definition mod_uart (f : uart -> uart) : K unit := modify (fun s => set_k_uart (f (k_uart s)) s).
Definition mod_vdisk (f : vdisk -> vdisk) : K unit := modify (fun s => set_k_vdisk (f (k_vdisk s)) s).
Definition mod_csrs (f : csrs -> csrs) : K unit := modify (fun s => set_k_csrs (f (k_csrs s)) s).

(** Words of RAM. *)
Definition ld64 (a : Z) : K Z := gets (fun s => load64 (k_mem s) a).
Definition st64 (a v : Z) : K unit := modify (fun s => set_k_mem (store64 (k_mem s) a v) s).
Definition mod_mem (f : mem -> mem) : K unit := modify (fun s => set_k_mem (f (k_mem s)) s).

(** ** The state the kernel starts in: zeroed globals, [nextpid] and [first] set *)

Definition sleeplock0 : sleeplock := mk_sleeplock false 0.
Definition context0 : context := mk_context 0 0 (replicate 12 0).
Definition proc0 : proc :=
  mk_proc UNUSED None 0 0 0 None 0 0 0 0 context0 (replicate NOFILE None) None (replicate 16 0).
Definition buf0 : buf := mk_buf false false 0 0 sleeplock0 0 0 0 (replicate (Z.to_nat BSIZE) 0).
Definition log0 : log := mk_log 0 0 0 false 0 (mk_logheader 0 (replicate (Z.to_nat LOGSIZE) 0)).
Definition superblock0 : superblock := mk_superblock 0 0 0 0 0 0 0 0.
Definition inode0 : inode := mk_inode 0 0 0 sleeplock0 false 0 0 0 0 0 (replicate 13 0).
Definition file0 : file := mk_file FD_NONE 0 false false 0 None 0 0.
Definition cons0 : cons := mk_cons (replicate 128 0) 0 0 0.
Definition uart0 : uart := mk_uart (replicate 32 0) 0 0 false [] [] [] [].
Definition csrs0 : csrs := mk_csrs 0 0 0 0 0 0 0 0 0.
Definition vdisk0 : vdisk :=
  mk_vdisk [] (replicate 8 (mk_virtq_desc A_null 0 0 0)) (replicate 8 0) 0 (replicate 8 0) 0
    (replicate 8 false) 0 (replicate 8 None) (replicate 8 0) (replicate 8 (mk_blk_req 0 0 0)) ∅ 0.
Definition plic0 : plic := mk_plic [] ∅.
Definition boot_state : kstate :=
  mk_kstate [] None (replicate NPROC proc0) 1 None 0 ∅ 0 (replicate (S NBUF) buf0) ∅ [] log0
    superblock0 (replicate NINODE inode0) (replicate NFILE file0) ∅ (replicate 10 0) cons0 uart0
    csrs0 true false false vdisk0 plic0 0 false 1.
