(* ===== verification/Sched.v ===== *)
(** * Spinlocks, sleep/wakeup and sleeping locks, as seen by one kernel thread

    kernel/spinlock.c ([acquire], [release], [holding] on the set of locks this
    hart holds), kernel/proc.c ([myproc], [sched], [yield], [sleep], [wakeup],
    [kill], [killed], [setkilled]) and kernel/sleeplock.c.  [sched] is where a
    thread gives up the CPU: the rest of it runs later, from the state the other
    threads leave. *)

From stdpp Require Import base list gmap strings.
From Stdlib Require Import ZArith Lia.
From S2P Require Import Prelude Mem Riscv State.
Open Scope Z_scope.

(** ** Spinlocks *)

Definition holding (l : lockid) : K bool := gets (fun s => bool_decide (l ∈ k_held s)).

Definition acquire (l : lockid) : K unit :=
  h ← holding l;
  if h : bool then panic "acquire"
  else modify (fun s => set_k_held (l :: k_held s) s).

Definition release (l : lockid) : K unit :=
  h ← holding l;
  if negb h then panic "release"
  else modify (fun s => set_k_held (filter (fun x => x <> l) (k_held s)) s).

(** ** Processes *)

Definition myproc : K (option nat) := gets k_cur.
(** [myproc()] where the result is dereferenced. *)
Definition myproc' : K nat :=
  fun s => match k_cur s with Some p => Ret p s | None => Stop (SFault "myproc") s end.

(** [mycpu()->noff] is the number of spinlocks held, and [intr_get()] the SIE bit
    unless one is held, for then interrupts are off.  [Spinlock.v] has the counters and
    [mycpu()->intena], which [sched] keeps for the process across [swtch]. *)
Definition SSTATUS_SIE : Z := Z.shiftl 1 1.
Definition sched : K unit :=
  p ← myproc';
  h ← holding (L_proc p);
  if negb h then panic "sched p->lock" else
  n ← gets (fun s => length (k_held s));
  if negb (n =? 1)%nat then panic "sched locks" else
  pr ← get_proc p;
  if decide (p_state pr = RUNNING) then panic "sched running" else
  i ← gets (fun s => has (r_sstatus (k_csrs s)) SSTATUS_SIE && bool_decide (k_held s = []));
  if i : bool then panic "sched interruptible" else
  suspend.

Definition yield : K unit :=
  p ← myproc';
  acquire (L_proc p) ;;
  mod_proc p (set_p_state RUNNABLE) ;;
  sched ;;
  release (L_proc p).

Definition sleep (c : chan) (lk : lockid) : K unit :=
  p ← myproc';
  acquire (L_proc p) ;;
  release lk ;;
  mod_proc p (set_p_chan (Some c)) ;;
  mod_proc p (set_p_state SLEEPING) ;;
  sched ;;
  mod_proc p (set_p_chan None) ;;
  release (L_proc p) ;;
  acquire lk.

(** The body of [wakeup]'s loop. *)
Definition wakeup_one (c : chan) (p : nat) : K unit :=
  me ← myproc;
  if decide (Some p = me) then skip else
  acquire (L_proc p) ;;
  pr ← get_proc p;
  (if decide (p_state pr = SLEEPING /\ p_chan pr = Some c)
   then mod_proc p (set_p_state RUNNABLE) else skip) ;;
  release (L_proc p).
Definition wakeup (c : chan) : K unit := for_each (seq 0 NPROC) (wakeup_one c).

(** One turn of [kill]'s scan of the table. *)
Definition kill_step (pid : Z) (p : nat) : K (nat + Z) :=
  if (p <? NPROC)%nat then
    acquire (L_proc p) ;;
    pr ← get_proc p;
    if p_pid pr =? pid then
      mod_proc p (set_p_killed 1) ;;
      (if decide (p_state pr = SLEEPING)
       then mod_proc p (set_p_state RUNNABLE) else skip) ;;
      release (L_proc p) ;;
      mret (inr 0)
    else
      release (L_proc p) ;;
      mret (inl (S p))
  else mret (inr (-1)).
Definition kill (pid : Z) : K Z := loop (S NPROC) (kill_step pid) O.

Definition setkilled (p : nat) : K unit :=
  acquire (L_proc p) ;;
  mod_proc p (set_p_killed 1) ;;
  release (L_proc p).

Definition killed (p : nat) : K Z :=
  acquire (L_proc p) ;;
  pr ← get_proc p;
  release (L_proc p) ;;
  mret (p_killed pr).

(** ** Sleeping locks *)

Definition get_sl (sl : sleepid) : K sleeplock :=
  match sl with
  | SL_buf i => b ← get_buf i; mret (b_lock b)
  | SL_inode i => ip ← get_inode i; mret (i_lock ip)
  end.
Definition mod_sl (sl : sleepid) (f : sleeplock -> sleeplock) : K unit :=
  match sl with
  | SL_buf i => mod_buf i (fun b => set_b_lock (f (b_lock b)) b)
  | SL_inode i => mod_inode i (fun ip => set_i_lock (f (i_lock ip)) ip)
  end.

Definition initsleeplock (sl : sleepid) : K unit :=
  mod_sl sl (set_sl_locked false) ;; mod_sl sl (set_sl_pid 0).

Definition acquiresleep (sl : sleepid) : K unit :=
  acquire (L_sleep sl) ;;
  fuel ← gets k_fuel;
  loop fuel (fun _ =>
    lk ← get_sl sl;
    if sl_locked lk then sleep (Ch_sleep sl) (L_sleep sl) ;; mret (inl tt)
    else mret (inr tt)) tt ;;
  mod_sl sl (set_sl_locked true) ;;
  p ← myproc';
  pr ← get_proc p;
  mod_sl sl (set_sl_pid (p_pid pr)) ;;
  release (L_sleep sl).

Definition releasesleep (sl : sleepid) : K unit :=
  acquire (L_sleep sl) ;;
  mod_sl sl (set_sl_locked false) ;;
  mod_sl sl (set_sl_pid 0) ;;
  wakeup (Ch_sleep sl) ;;
  release (L_sleep sl).

Definition holdingsleep (sl : sleepid) : K bool :=
  acquire (L_sleep sl) ;;
  lk ← get_sl sl;
  p ← myproc';
  pr ← get_proc p;
  release (L_sleep sl) ;;
  mret (sl_locked lk && (sl_pid lk =? p_pid pr)).

(** ** Running lock operations *)

Lemma set_held_id s : set_k_held (k_held s) s = s.
Proof. by destruct s. Qed.
Lemma set_procs_id s : set_k_procs (k_procs s) s = s.
Proof. by destruct s. Qed.
Lemma set_mem_id s : set_k_mem (k_mem s) s = s.
Proof. by destruct s. Qed.
Lemma set_mem_mem m m' s : set_k_mem m (set_k_mem m' s) = set_k_mem m s.
Proof. done. Qed.
Lemma freelist_set_mem m s : k_freelist (set_k_mem m s) = k_freelist s.
Proof. done. Qed.
Lemma set_held_held h h' s : set_k_held h (set_k_held h' s) = set_k_held h s.
Proof. done. Qed.
Lemma set_procs_procs h h' s : set_k_procs h (set_k_procs h' s) = set_k_procs h s.
Proof. done. Qed.

Lemma acquire_ok l s :
  l ∉ k_held s -> acquire l s = Ret tt (set_k_held (l :: k_held s) s).
Proof. intros H. unfold acquire, holding. mred. by rewrite bool_decide_eq_false_2. Qed.

Lemma acquire_held l s : l ∈ k_held s -> acquire l s = Stop (SPanic "acquire") s.
Proof. intros H. unfold acquire, holding. mred. by rewrite bool_decide_eq_true_2. Qed.

Lemma release_ok l s :
  l ∈ k_held s ->
  release l s = Ret tt (set_k_held (filter (fun x => x <> l) (k_held s)) s).
Proof. intros H. unfold release, holding. mred. by rewrite bool_decide_eq_true_2. Qed.

Lemma release_not_held l s : l ∉ k_held s -> release l s = Stop (SPanic "release") s.
Proof. intros H. unfold release, holding. mred. by rewrite bool_decide_eq_false_2. Qed.

Lemma release_top l h s :
  k_held s = l :: h -> l ∉ h -> release l s = Ret tt (set_k_held h s).
Proof.
  intros Hh Hl. rewrite release_ok by (rewrite Hh; set_solver).
  rewrite Hh, filter_cons_False by naive_solver. by rewrite filter_out.
Qed.

Lemma get_proc_ok i p s : k_procs s !! i = Some p -> get_proc i s = Ret p s.
Proof. intros H. unfold get_proc. by rewrite H. Qed.
Lemma get_buf_ok i p s : k_bufs s !! i = Some p -> get_buf i s = Ret p s.
Proof. intros H. unfold get_buf. by rewrite H. Qed.
Lemma get_inode_ok i p s : k_inodes s !! i = Some p -> get_inode i s = Ret p s.
Proof. intros H. unfold get_inode. by rewrite H. Qed.
Lemma get_file_ok i p s : k_files s !! i = Some p -> get_file i s = Ret p s.
Proof. intros H. unfold get_file. by rewrite H. Qed.
Lemma get_pipe_ok i p s : k_pipes s !! i = Some p -> get_pipe i s = Ret p s.
Proof. intros H. unfold get_pipe. by rewrite H. Qed.
Lemma myproc_ok p s : k_cur s = Some p -> myproc' s = Ret p s.
Proof. intros H. unfold myproc'. by rewrite H. Qed.

Create HintDb kernel.
#[export] Hint Resolve acquire_ok release_top get_proc_ok get_buf_ok get_inode_ok
  get_file_ok get_pipe_ok myproc_ok : kernel.

(** One operation of a run: rewrite its result, then simplify. *)
Ltac kside := cbn; first [ eassumption | done | set_solver | lia | idtac ].
Ltac kprim :=
  lazymatch goal with
  | |- acquire _ _ = _ => eapply acquire_ok; kside
  | |- release _ _ = _ =>
      first [ eapply release_top; [reflexivity | kside] | eapply release_top; kside ]
  | |- get_proc _ _ = _ => eapply get_proc_ok; kside
  | |- get_buf _ _ = _ => eapply get_buf_ok; kside
  | |- get_inode _ _ = _ => eapply get_inode_ok; kside
  | |- get_file _ _ = _ => eapply get_file_ok; kside
  | |- get_pipe _ _ = _ => eapply get_pipe_ok; kside
  | |- myproc' _ = _ => eapply myproc_ok; kside
  | |- _ => reflexivity
  end.
Ltac kstep := erewrite bind_Ret; [|kprim]; cbn beta iota.

(** ** wakeup *)

Definition wake1 (c : chan) (p : proc) : proc :=
  if decide (p_state p = SLEEPING /\ p_chan p = Some c) then set_p_state RUNNABLE p else p.
Definition wake_procs (c : chan) (me : option nat) (l : list proc) : list proc :=
  imap (fun i p => if decide (Some i = me) then p else wake1 c p) l.

(** The locks a caller of [wakeup] may hold: no process lock but its own. *)
Definition no_plock (s : kstate) : Prop :=
  forall i, L_proc i ∈ k_held s -> Some i = k_cur s.

Lemma alter_lookup_set {A} (f : A -> A) i (l : list A) x :
  l !! i = Some x -> alter f i l = <[i := f x]> l.
Proof.
  intros H. apply list_eq. intros j. destruct (decide (i = j)) as [<-|Hne].
  - rewrite list_lookup_alter_eq, H. symmetry. apply list_lookup_insert_eq.
    eapply lookup_lt_Some; eauto.
  - by rewrite list_lookup_alter_ne, list_lookup_insert_ne.
Qed.

Lemma wakeup_one_ok c k p s :
  no_plock s -> k_procs s !! k = Some p ->
  wakeup_one c k s =
  Ret tt (set_k_procs (<[k := if decide (Some k = k_cur s) then p else wake1 c p]>
                         (k_procs s)) s).
Proof.
  intros Hno Hp. unfold wakeup_one, myproc. kstep.
  destruct (decide (Some k = k_cur s)) as [Hme|Hme].
  - unfold skip, mret, m_ret. by rewrite list_insert_id, set_procs_id.
  - kstep. kstep.
    erewrite (bind_Ret _ _ _ tt (set_k_held (L_proc k :: k_held s)
       (set_k_procs (<[k := wake1 c p]> (k_procs s)) s))).
    + erewrite release_top; [|done|intros Hin; by apply Hno in Hin].
      done.
    + unfold wake1. case_decide.
      * unfold mod_proc, modify. cbn. by rewrite (alter_lookup_set _ _ _ p).
      * rewrite list_insert_id by done. unfold skip, mret, m_ret. by destruct s.
Qed.

Lemma wakeup_loop c s k n :
  no_plock s -> (k + n <= length (k_procs s))%nat ->
  for_each (seq k n) (wakeup_one c) s =
  Ret tt (set_k_procs (imap (fun i p =>
    if decide ((k <= i < k + n)%nat /\ Some i <> k_cur s) then wake1 c p else p)
    (k_procs s)) s).
Proof.
  revert s k. induction n as [|n IH]; intros s k Hno Hlen; cbn [seq for_each].
  - unfold skip, mret, m_ret. f_equal. symmetry. etrans; [|apply set_procs_id]. f_equal.
    apply list_eq. intros i. rewrite list_lookup_imap.
    destruct (k_procs s !! i); [|done]. simpl. rewrite decide_False by lia. done.
  - destruct (lookup_lt_is_Some_2 (k_procs s) k ltac:(lia)) as [p Hp].
    kstep_by wakeup_one_ok; [|done|done].
    rewrite IH; cbn; [|done|rewrite length_insert; lia].
    f_equal. rewrite set_procs_procs. f_equal.
    apply list_eq. intros i. rewrite !list_lookup_imap.
    destruct (decide (i = k)) as [->|Hik].
    + rewrite list_lookup_insert_eq by lia. rewrite Hp. simpl. f_equal.
      dec_cases.
    + rewrite list_lookup_insert_ne by done. destruct (k_procs s !! i); [|done]. simpl. f_equal.
      dec_cases.
Qed.

(** [wakeup(chan)] makes exactly the other processes sleeping on [chan]
    runnable and changes nothing else. *)
Lemma wakeup_ok c s :
  no_plock s -> length (k_procs s) = NPROC ->
  wakeup c s = Ret tt (set_k_procs (wake_procs c (k_cur s) (k_procs s)) s).
Proof.
  intros Hno Hlen. unfold wakeup. rewrite wakeup_loop by (done || lia). do 2 f_equal.
  apply list_eq. intros i. unfold wake_procs. rewrite !list_lookup_imap.
  destruct (k_procs s !! i) as [p|] eqn:E; [|done]. simpl. f_equal.
  apply lookup_lt_Some in E. dec_cases.
Qed.

Lemma length_wake_procs c me l : length (wake_procs c me l) = length l.
Proof. apply length_imap. Qed.

Lemma lookup_wake_procs c me l i :
  wake_procs c me l !! i = (fun p => if decide (Some i = me) then p else wake1 c p) <$> l !! i.
Proof. unfold wake_procs. by rewrite list_lookup_imap. Qed.

Lemma lookup_wake_procs_me c i l : wake_procs c (Some i) l !! i = l !! i.
Proof. rewrite lookup_wake_procs. destruct (l !! i); simpl; [|done]. by rewrite decide_True. Qed.

(** ** Sleeping locks: what an operation does to the state *)

Definition sl_lookup (s : kstate) (sl : sleepid) : option sleeplock :=
  match sl with
  | SL_buf i => b_lock <$> k_bufs s !! i
  | SL_inode i => i_lock <$> k_inodes s !! i
  end.
Definition upd_sl (sl : sleepid) (v : sleeplock) (s : kstate) : kstate :=
  match sl with
  | SL_buf i => set_k_bufs (alter (set_b_lock v) i (k_bufs s)) s
  | SL_inode i => set_k_inodes (alter (set_i_lock v) i (k_inodes s)) s
  end.

Lemma get_sl_ok sl lk s : sl_lookup s sl = Some lk -> get_sl sl s = Ret lk s.
Proof.
  destruct sl; simpl; intros H; apply fmap_Some in H as (b & Hb & ->).
  - by kstep.
  - by kstep.
Qed.

Lemma alter_ext_lookup {A} (f g : A -> A) i (l : list A) :
  (forall x, l !! i = Some x -> f x = g x) -> alter f i l = alter g i l.
Proof.
  intros H. apply list_eq. intros j. destruct (decide (i = j)) as [<-|Hne].
  - rewrite !list_lookup_alter_eq. destruct (l !! i) eqn:E; simpl; [|done]. by rewrite H.
  - by rewrite !list_lookup_alter_ne.
Qed.

Lemma alter_alter {A} (f g : A -> A) i (l : list A) :
  alter f i (alter g i l) = alter (f ∘ g) i l.
Proof.
  apply list_eq. intros j. destruct (decide (i = j)) as [<-|Hne].
  - rewrite !list_lookup_alter_eq. by destruct (l !! i).
  - by rewrite !list_lookup_alter_ne.
Qed.

(** Two successive [mod_sl] that together fix both fields. *)
Lemma mod_sl_both sl b pid s :
  (mod_sl sl (set_sl_locked b) ;; mod_sl sl (set_sl_pid pid)) s =
  Ret tt (upd_sl sl (mk_sleeplock b pid) s).
Proof.
  destruct sl as [i|i]; unfold mod_sl, mod_buf, mod_inode; kstep; unfold modify; cbn;
    f_equal; rewrite alter_alter; (destruct s; cbn; f_equal;
    apply alter_ext_lookup; intros x _; by destruct x).
Qed.

Lemma holdingsleep_ok sl lk p pr s :
  sl_lookup s sl = Some lk -> L_sleep sl ∉ k_held s ->
  k_cur s = Some p -> k_procs s !! p = Some pr ->
  holdingsleep sl s = Ret (sl_locked lk && (sl_pid lk =? p_pid pr)) s.
Proof.
  intros Hlk Hh Hp Hpr. unfold holdingsleep. kstep.
  kstep_by get_sl_ok; [|destruct sl; exact Hlk]. kstep. kstep. kstep.
  unfold mret, m_ret. f_equal. by destruct s.
Qed.

Lemma acquiresleep_ok sl lk p pr s :
  sl_lookup s sl = Some lk -> sl_locked lk = false ->
  L_sleep sl ∉ k_held s -> (0 < k_fuel s)%nat ->
  k_cur s = Some p -> k_procs s !! p = Some pr ->
  acquiresleep sl s = Ret tt (upd_sl sl (mk_sleeplock true (p_pid pr)) s).
Proof.
  intros Hlk Hfree Hh Hfuel Hp Hpr. unfold acquiresleep. kstep. kstep. cbn.
  destruct (k_fuel s) as [|fuel] eqn:Ef; [lia|].
  erewrite bind_Ret.
  2: { eapply loop_break. kstep_by get_sl_ok; [|destruct sl; exact Hlk]. rewrite Hfree. done. }
  cbn beta.
  assert (Hm : forall f s0, exists s1, mod_sl sl f s0 = Ret tt s1 /\
      k_cur s1 = k_cur s0 /\ k_procs s1 = k_procs s0)
    by (intros f s0; destruct sl; eexists; done).
  pose proof (mod_sl_both sl true (p_pid pr) (set_k_held (L_sleep sl :: k_held s) s)) as Hb.
  destruct (Hm (set_sl_locked true) (set_k_held (L_sleep sl :: k_held s) s))
    as (s1 & H1 & Hc1 & Hp1).
  rewrite (bind_Ret _ _ _ _ _ H1) in Hb. rewrite (bind_Ret _ _ _ _ _ H1).
  kstep_by myproc_ok; [|by rewrite Hc1]. kstep_by get_proc_ok; [|by rewrite Hp1].
  rewrite (bind_Ret _ _ _ _ _ Hb).
  erewrite release_top; [|by destruct sl|done]. f_equal. by destruct sl.
Qed.

Lemma releasesleep_ok sl s :
  L_sleep sl ∉ k_held s -> no_plock s -> length (k_procs s) = NPROC ->
  releasesleep sl s =
  Ret tt (set_k_procs (wake_procs (Ch_sleep sl) (k_cur s) (k_procs s))
           (upd_sl sl (mk_sleeplock false 0) s)).
Proof.
  intros Hh Hno Hlen. unfold releasesleep. kstep.
  pose proof (mod_sl_both sl false 0 (set_k_held (L_sleep sl :: k_held s) s)) as Hb.
  assert (Hm : exists s1, mod_sl sl (set_sl_locked false)
      (set_k_held (L_sleep sl :: k_held s) s) = Ret tt s1) by (destruct sl; eexists; done).
  destruct Hm as [s1 H1].
  rewrite (bind_Ret _ _ _ _ _ H1) in Hb. rewrite (bind_Ret _ _ _ _ _ H1).
  rewrite (bind_Ret _ _ _ _ _ Hb).
  kstep_by wakeup_ok.
  - erewrite release_top; [|by destruct sl|done]. f_equal. by destruct sl.
  - intros i. destruct sl; cbn; rewrite elem_of_cons; (intros [?|?]; [done|auto]).
  - by destruct sl.
Qed.

(** ** Going to sleep: the process gives up the CPU marked as sleeping on the
    channel, with no lock but its own. *)

Definition asleep_on (c : chan) (p : nat) (s : kstate) : Prop :=
  (exists pr, k_procs s !! p = Some pr /\ p_state pr = SLEEPING /\ p_chan pr = Some c) /\ k_held s = [L_proc p].

(** A run that gives up the CPU in the state [s1], and what is left to do. *)
Definition parks {A} (m : K A) (s s1 : kstate) (r : K A) : Prop := exists k, m s = Sleep s1 k /\ forall t, k t = r t.

Lemma parks_bind {A B} (m : K A) (f : A -> K B) s s1 r : parks m s s1 r -> parks (mbind f m) s s1 (mbind f r).
Proof.
  intros (k & H & Hk). eexists. split; [by apply bind_Sleep|]. intros t. cbn beta. by rewrite Hk.
Qed.

Lemma parks_ret {A B} (m : K A) (f : A -> K B) s a s0 s1 r : m s = Ret a s0 -> parks (f a) s0 s1 r -> parks (mbind f m) s s1 r.
Proof. intros H (k & Hf & Hk). exists k. split; [|done]. by rewrite (bind_Ret _ _ _ _ _ H). Qed.

Lemma parks_loop {A B} n (step : A -> K (A + B)) a s s1 r :
  parks (step a) s s1 r ->
  parks (loop (S n) step a) s s1 (x ← r; match x with inl a' => loop n step a' | inr b => mret b end).
Proof. intros H. by apply parks_bind. Qed.

Lemma sched_parks s p pr :
  k_cur s = Some p -> k_procs s !! p = Some pr -> p_state pr <> RUNNING -> k_held s = [L_proc p] -> parks sched s s skip.
Proof.
  intros Hc Hp Hs Hh. unfold sched. eapply parks_ret; [by apply myproc_ok|]. eapply parks_ret; [reflexivity|].
  rewrite Hh, bool_decide_eq_true_2 by set_solver. cbn [negb]. eapply parks_ret; [reflexivity|]. rewrite Hh. cbn [length Nat.eqb negb].
  eapply parks_ret; [by apply get_proc_ok|]. rewrite decide_False by done.
  eapply parks_ret; [reflexivity|]. rewrite Hh, (bool_decide_eq_false_2 (_ = [])) by done. rewrite andb_false_r. by eexists.
Qed.

(** [p] asleep on [c], as the scheduler sees it; and [p] back from [sleep]. *)
Definition fall_asleep (c : chan) (p : nat) (s : kstate) : kstate :=
  set_k_held [L_proc p] (set_k_procs (alter (fun pr => set_p_state SLEEPING (set_p_chan (Some c) pr)) p (k_procs s)) s).
Definition woken (lk : lockid) (p : nat) (s : kstate) : kstate :=
  set_k_held [lk] (set_k_procs (alter (set_p_chan None) p (k_procs s)) s).

Lemma sleep_parks s p pr c lk :
  k_cur s = Some p -> k_procs s !! p = Some pr -> k_held s = [lk] -> lk <> L_proc p ->
  parks (sleep c lk) s (fall_asleep c p s) (skip ;; mod_proc p (set_p_chan None) ;; release (L_proc p) ;; acquire lk).
Proof.
  intros Hc Hp Hh Hne. unfold sleep.
  eapply parks_ret; [by apply myproc_ok|]. eapply parks_ret; [apply acquire_ok; rewrite Hh; set_solver|].
  eapply parks_ret; [apply release_ok; cbn; rewrite Hh; set_solver|]. cbn [k_held set_k_held].
  rewrite Hh, filter_cons_True, filter_cons_False, filter_nil by naive_solver.
  do 2 (eapply parks_ret; [reflexivity|]). cbn [k_procs set_k_procs set_k_held].
  rewrite alter_alter. apply parks_bind. eapply (sched_parks _ p (set_p_state SLEEPING (set_p_chan (Some c) pr))); [done| |done|done].
  cbn. by rewrite list_lookup_alter_eq, Hp.
Qed.

(** A process is resumed with its lock held; [sleep] then gives it up for the lock it was called with. *)
Lemma sleep_resumes s p lk : k_held s = [L_proc p] -> lk <> L_proc p ->
  (skip ;; mod_proc p (set_p_chan None) ;; release (L_proc p) ;; acquire lk) s = Ret tt (woken lk p s).
Proof.
  intros Hh Hne. kstep. unfold mod_proc. kstep.
  kstep_by release_ok; [|cbn; rewrite Hh; set_solver]. cbn [k_held set_k_procs]. rewrite Hh, filter_cons_False, filter_nil by naive_solver.
  rewrite acquire_ok by (cbn; set_solver). done.
Qed.

Lemma sleep_wakes s p pr c lk :
  k_cur s = Some p -> k_procs s !! p = Some pr -> k_held s = [lk] -> lk <> L_proc p ->
  exists k, sleep c lk s = Sleep (fall_asleep c p s) k /\ forall s2, k_held s2 = [L_proc p] -> k s2 = Ret tt (woken lk p s2).
Proof.
  intros Hc Hp Hh Hne. destruct (sleep_parks s p pr c lk Hc Hp Hh Hne) as (k & E & Hk). exists k. split; [done|].
  intros s2 Hh2. rewrite Hk. by apply sleep_resumes.
Qed.

Lemma fall_asleep_on c p pr s : k_procs s !! p = Some pr -> asleep_on c p (fall_asleep c p s).
Proof. intros Hp. split; [|done]. eexists. split; [cbn; by rewrite list_lookup_alter_eq, Hp|done]. Qed.
