(* ===== verification/Ring.v ===== *)
(** * Circular buffers indexed by free-running counters

    pipe.c, console.c and uart.c keep a read and a write counter that wrap at
    the width of their type (2^32 or 2^64) and index the buffer modulo its size,
    a power of two.  [ring] is the queue such a buffer holds. *)

From stdpp Require Import base list.
From Stdlib Require Import ZArith Lia.
From S2P Require Import Prelude.
Open Scope Z_scope.

(** Buffer size [N], counters modulo [M]. *)
Class RingSize (N M : Z) : Prop := {
  rs_pos : 0 < N;
  rs_lt : N < M;
  rs_div : (N | M)
}.

Definition ring (N M : Z) (buf : list Z) (r w : Z) : list Z :=
  (fun i => default 0 (buf !! Z.to_nat ((r + Z.of_nat i) mod N))) <$> seq 0 (Z.to_nat ((w - r) mod M)).

Section Ring.
Context {N M : Z} `{!RingSize N M}.

Lemma mod_mod_ring x : (x mod M) mod N = x mod N.
Proof.
  pose proof rs_pos. pose proof rs_lt. destruct rs_div as [k Hk]. symmetry.
  rewrite (Z.div_mod x M) at 1 by lia. rewrite Hk at 1.
  replace (k * N * (x / M) + x mod M) with (x mod M + k * (x / M) * N) by lia. apply Z.mod_add. lia.
Qed.

Lemma length_ring buf r w : Z.of_nat (length (ring N M buf r w)) = (w - r) mod M.
Proof.
  pose proof rs_pos. pose proof rs_lt. unfold ring. rewrite length_fmap, length_seq.
  pose proof (Z.mod_pos_bound (w - r) M). lia.
Qed.

Lemma lookup_ring buf r w i :
  Z.of_nat i < (w - r) mod M -> ring N M buf r w !! i = Some (default 0 (buf !! Z.to_nat ((r + Z.of_nat i) mod N))).
Proof. intros Hi. unfold ring. by rewrite list_lookup_fmap, lookup_seq_lt by lia. Qed.

Lemma ring_empty buf r : ring N M buf r r = [].
Proof. unfold ring. by rewrite Z.sub_diag, Zmod_0_l. Qed.

(** Two states of the counters are told apart by the number of elements. *)
Lemma ring_nil_iff buf r w : 0 <= r < M -> 0 <= w < M -> ring N M buf r w = [] <-> r = w.
Proof.
  intros Hr Hw. pose proof rs_pos. pose proof rs_lt. split; [|intros ->; apply ring_empty].
  intros E. pose proof (length_ring buf r w) as Hl. rewrite E in Hl. cbn in Hl.
  destruct (decide (r <= w)); [rewrite Z.mod_small in Hl by lia; lia|].
  rewrite <- (Z.mod_add _ 1) in Hl by lia. rewrite Z.mod_small in Hl by lia. lia.
Qed.

Lemma ring_full_iff buf r w :
  0 <= r < M -> 0 <= w < M -> w = (r + N) mod M <-> Z.of_nat (length (ring N M buf r w)) = N.
Proof.
  intros Hr Hw. pose proof rs_pos. pose proof rs_lt. rewrite length_ring. split.
  - intros ->. rewrite Zminus_mod_idemp_l. rewrite Z.mod_small; lia.
  - intros E. rewrite <- E at 1. rewrite Zplus_mod_idemp_r. replace (r + (w - r)) with w by lia.
    symmetry. by apply Z.mod_small.
Qed.

Lemma sub_mod_S r w : 0 <= (w - r) mod M -> (w - r) mod M < N -> ((w + 1) mod M - r) mod M = (w - r) mod M + 1.
Proof.
  intros H0 H1. pose proof rs_pos. pose proof rs_lt. rewrite Zminus_mod_idemp_l.
  replace (w + 1 - r) with ((w - r) + 1) by lia. rewrite <- Zplus_mod_idemp_l. apply Z.mod_small. lia.
Qed.

Lemma ring_push buf r w c :
  length buf = Z.to_nat N -> (w - r) mod M < N ->
  ring N M (<[Z.to_nat (w mod N) := c]> buf) r ((w + 1) mod M) = ring N M buf r w ++ [c].
Proof.
  intros Hl Hn. pose proof rs_pos. pose proof rs_lt. pose proof (Z.mod_pos_bound (w - r) M ltac:(lia)) as Hb.
  pose proof (sub_mod_S r w ltac:(lia) Hn) as Hs. apply list_eq. intros i.
  pose proof (length_ring buf r w) as Hlen.
  assert (Hw : (r + (w - r) mod M) mod N = w mod N).
  { rewrite <- (mod_mod_ring (r + (w - r) mod M)), Zplus_mod_idemp_r, mod_mod_ring. f_equal. lia. }
  pose proof (Z.mod_pos_bound w N ltac:(lia)).
  destruct (decide (Z.of_nat i < (w - r) mod M)) as [Hi|Hi]; [|destruct (decide (Z.of_nat i = (w - r) mod M)) as [Hi'|Hi']].
  - rewrite lookup_ring, lookup_app_l, lookup_ring by lia. do 2 f_equal. apply list_lookup_insert_ne.
    rewrite <- Hw. pose proof (Z.mod_pos_bound (r + Z.of_nat i) N ltac:(lia)).
    pose proof (Z.mod_pos_bound (r + (w - r) mod M) N ltac:(lia)). intros E. apply Z2Nat.inj in E; [|lia|lia].
    assert (Hd : ((r + (w - r) mod M) - (r + Z.of_nat i)) mod N = 0) by (rewrite Zminus_mod, E, Z.sub_diag; done).
    rewrite Z.mod_small in Hd by lia. lia.
  - rewrite lookup_ring by lia. rewrite lookup_app_r by lia. rewrite Hi', Hw, list_lookup_insert_eq by lia.
    replace (i - length (ring N M buf r w))%nat with 0%nat by lia. done.
  - rewrite !lookup_ge_None_2; [done|rewrite length_app; cbn; lia|].
    pose proof (length_ring (<[Z.to_nat (w mod N) := c]> buf) r ((w + 1) mod M)). lia.
Qed.

Lemma ring_pop buf r w :
  0 <= r < M -> 0 < (w - r) mod M ->
  ring N M buf r w = default 0 (buf !! Z.to_nat (r mod N)) :: ring N M buf ((r + 1) mod M) w.
Proof.
  intros Hr Hn. pose proof rs_pos. pose proof rs_lt. pose proof (Z.mod_pos_bound (w - r) M ltac:(lia)) as Hb.
  assert (Hs : (w - (r + 1) mod M) mod M = (w - r) mod M - 1).
  { rewrite Zminus_mod_idemp_r. replace (w - (r + 1)) with ((w - r) - 1) by lia.
    rewrite <- Zminus_mod_idemp_l. apply Z.mod_small. lia. }
  apply list_eq. intros [|i]; cbn.
  - rewrite lookup_ring by lia. by rewrite Z.add_0_r.
  - destruct (decide (Z.of_nat (S i) < (w - r) mod M)).
    + rewrite !lookup_ring by lia. do 3 f_equal. f_equal.
      rewrite <- (mod_mod_ring ((r + 1) mod M + _)), Zplus_mod_idemp_l, mod_mod_ring. f_equal. lia.
    + pose proof (length_ring buf r w). pose proof (length_ring buf ((r + 1) mod M) w).
      rewrite lookup_ge_None_2 by lia. symmetry. apply lookup_ge_None_2. lia.
Qed.

(** The newest element, and the queue without it. *)
Lemma ring_unpush buf r e :
  0 < (e - r) mod M ->
  ring N M buf r e = ring N M buf r ((e - 1) mod M) ++ [default 0 (buf !! Z.to_nat (((e - 1) mod M) mod N))].
Proof.
  intros Hn. pose proof rs_pos. pose proof rs_lt. pose proof (Z.mod_pos_bound (e - r) M ltac:(lia)) as Hb.
  assert (Hs : ((e - 1) mod M - r) mod M = (e - r) mod M - 1).
  { rewrite Zminus_mod_idemp_l. replace (e - 1 - r) with ((e - r) - 1) by lia.
    rewrite <- Zminus_mod_idemp_l. apply Z.mod_small. lia. }
  pose proof (length_ring buf r e). pose proof (length_ring buf r ((e - 1) mod M)).
  apply list_eq. intros i. destruct (decide (Z.of_nat i < (e - r) mod M - 1)); [|destruct (decide (Z.of_nat i = (e - r) mod M - 1)) as [Hi|]].
  - rewrite lookup_app_l, !lookup_ring by lia. done.
  - rewrite lookup_ring by lia. rewrite lookup_app_r by lia.
    replace (i - length (ring N M buf r ((e - 1) mod M)))%nat with 0%nat by lia. cbn. do 4 f_equal.
    rewrite Hi, <- (mod_mod_ring (r + _)). f_equal. rewrite Z.add_sub_assoc, <- Zminus_mod_idemp_l, Zplus_mod_idemp_r, Zminus_mod_idemp_l.
    f_equal. lia.
  - rewrite !lookup_ge_None_2; [done| |lia]. rewrite length_app. cbn. lia.
Qed.

(** A queue of which the first part is up to [w]. *)
Lemma ring_app buf r w e :
  (w - r) mod M + (e - w) mod M < M -> ring N M buf r e = ring N M buf r w ++ ring N M buf w e.
Proof.
  intros Hn. pose proof rs_pos. pose proof rs_lt.
  pose proof (Z.mod_pos_bound (w - r) M ltac:(lia)). pose proof (Z.mod_pos_bound (e - w) M ltac:(lia)).
  assert (Hs : (e - r) mod M = (w - r) mod M + (e - w) mod M).
  { replace (e - r) with ((w - r) + (e - w)) by lia. rewrite Zplus_mod. apply Z.mod_small. lia. }
  pose proof (length_ring buf r w). pose proof (length_ring buf w e). pose proof (length_ring buf r e).
  apply list_eq. intros i. destruct (decide (Z.of_nat i < (w - r) mod M)); [|destruct (decide (Z.of_nat i < (e - r) mod M))].
  - rewrite lookup_app_l, !lookup_ring by lia. done.
  - rewrite lookup_ring by lia. rewrite lookup_app_r, lookup_ring by lia. do 3 f_equal. f_equal.
    replace (Z.of_nat (i - length (ring N M buf r w))) with (Z.of_nat i - (w - r) mod M) by lia.
    rewrite <- (mod_mod_ring (w + _)). rewrite Z.add_sub_assoc, Zminus_mod_idemp_r, mod_mod_ring. f_equal. lia.
  - rewrite !lookup_ge_None_2; [done| |lia]. rewrite length_app. lia.
Qed.
End Ring.
