(* ===== verification/Uart.v ===== *)
(** * kernel/uart.c: the UART driver's output side

    The device: a byte written to the free transmit holding register (THR) is sent
    ([ut_out]) and keeps the register busy; a byte written while it is busy is lost.  The line
    status register says whether THR is free: while it is busy [ut_lsr] foretells, read
    by read, when it becomes free (once that list is used up it has).  It also says
    whether input waits in [ut_rx].  The interrupt handler is in [Console.v]. *)

From stdpp Require Import base list gmap strings.
From Stdlib Require Import ZArith Lia.
From S2P Require Import Prelude Mem Riscv State Sched Ring.
Open Scope Z_scope.

Definition LSR_RX_READY : Z := Z.shiftl 1 0.
Definition LSR_TX_IDLE : Z := Z.shiftl 1 5.
Definition UART_TX_BUF_SIZE : Z := 32.

(** [ReadReg(LSR)], [ReadReg(RHR)] and [WriteReg(THR, c)] *)
Definition read_lsr : K Z := fun s =>
  let u := k_uart s in
  let rx := if decide (ut_rx u = []) then 0 else LSR_RX_READY in
  let '(busy, l) :=
    if ut_busy u then match ut_lsr u with v :: l => (negb (has v LSR_TX_IDLE), l) | [] => (false, []) end
    else (false, ut_lsr u) in
  Ret (Z.lor (if busy then 0 else LSR_TX_IDLE) rx) (set_k_uart (set_ut_busy busy (set_ut_lsr l u)) s).
Definition read_rhr : K Z := fun s =>
  let u := k_uart s in
  match ut_rx u with
  | c :: l => Ret c (set_k_uart (set_ut_rx l u) s)
  | [] => Ret 0 s
  end.
Definition write_thr (c : Z) : K unit :=
  mod_uart (fun u => if ut_busy u then u else set_ut_busy true (set_ut_out (ut_out u ++ [u8 c]) u)).

(** [WriteReg] of the registers that configure the device, in the order written. *)
Definition write_reg (reg v : Z) : K unit := mod_uart (fun u => set_ut_cfg (ut_cfg u ++ [(reg, v)]) u).
Definition uartinit : K unit :=
  write_reg 1 0x00 ;;
  write_reg 3 (Z.shiftl 1 7) ;;
  write_reg 0 0x03 ;;
  write_reg 1 0x00 ;;
  write_reg 3 (Z.shiftl 3 0) ;;
  write_reg 2 (Z.lor (Z.shiftl 1 0) (Z.shiftl 3 1)) ;;
  write_reg 1 (Z.lor (Z.shiftl 1 1) (Z.shiftl 1 0)).

(** One turn of [uartstart]'s loop. *)
Definition uartstart_step (_ : unit) : K (unit + unit) :=
  u ← gets k_uart;
  if ut_w u =? ut_r u then mret (inr tt) else
  lsr ← read_lsr;
  if Z.land lsr LSR_TX_IDLE =? 0 then mret (inr tt) else
  let c := default 0 (ut_buf u !! Z.to_nat (ut_r u mod UART_TX_BUF_SIZE)) in
  mod_uart (fun u => set_ut_r (u64 (ut_r u + 1)) u) ;;
  wakeup Ch_uart_tx_r ;;
  write_thr c ;;
  mret (inl tt).
Definition uartstart : K unit :=
  u ← gets k_uart;
  loop (S (Z.to_nat (u64 (ut_w u - ut_r u)))) uartstart_step tt.

(** [while(uart_tx_w == uart_tx_r + UART_TX_BUF_SIZE) sleep(...)] *)
Definition uart_wait (_ : unit) : K (unit + unit) :=
  u ← gets k_uart;
  if ut_w u =? u64 (ut_r u + UART_TX_BUF_SIZE) then
    sleep Ch_uart_tx_r L_uart ;; mret (inl tt)
  else mret (inr tt).

(** After a panic the loop [for(;;);] never ends. *)
Definition uartputc (c : Z) : K unit :=
  acquire L_uart ;;
  panicked ← gets k_panicked;
  if panicked : bool then nofuel else
  fuel ← gets k_fuel;
  loop fuel uart_wait tt ;;
  mod_uart (fun u => set_ut_buf (<[Z.to_nat (ut_w u mod UART_TX_BUF_SIZE) := u8 c]> (ut_buf u)) u) ;;
  mod_uart (fun u => set_ut_w (u64 (ut_w u + 1)) u) ;;
  uartstart ;;
  release L_uart.

(** Interrupts are off around it ([push_off], [pop_off]); no other state of the
    hart is touched. *)
Definition uartputc_sync (c : Z) : K unit :=
  panicked ← gets k_panicked;
  if panicked : bool then nofuel else
  n ← gets (fun s => length (ut_lsr (k_uart s)));
  loop (S n) (fun _ : unit =>
    lsr ← read_lsr;
    if Z.land lsr LSR_TX_IDLE =? 0 then mret (inl tt) else mret (inr tt)) tt ;;
  write_thr c.

Definition uartgetc : K Z :=
  lsr ← read_lsr;
  if has lsr 0x01 then read_rhr else mret (-1).

(** ** The transmit queue *)

#[global] Instance uart_ring : RingSize 32 (2 ^ 64).
Proof. split; [lia|lia|]. by exists (2 ^ 59). Qed.

Definition uart_pending (u : uart) : list Z := ring 32 (2 ^ 64) (ut_buf u) (ut_r u) (ut_w u).

Record uart_ok (u : uart) : Prop := {
  uo_len : length (ut_buf u) = 32%nat;
  uo_w : 0 <= ut_w u < 2 ^ 64;
  uo_r : 0 <= ut_r u < 2 ^ 64;
  uo_fit : (length (uart_pending u) <= 32)%nat;
  uo_bytes : bytes (ut_buf u)
}.

(** What has been sent and what is still to be sent, in order. *)
Definition uart_stream (u : uart) : list Z := ut_out u ++ uart_pending u.

(** Only the uart and the states of sleeping processes change. *)
Record uart_frame (s s' : kstate) : Prop := {
  uf_only : s' = set_k_procs (k_procs s') (set_k_uart (k_uart s') s);
  uf_len : length (k_procs s') = length (k_procs s);
  uf_me : forall p, k_cur s = Some p -> k_procs s' !! p = k_procs s !! p
}.
#[global] Instance uart_frame_preorder : PreOrder uart_frame.
Proof.
  split; [intros s; by split; [destruct s|..]|]. intros s1 s2 s3 [A1 A2 A3] [B1 B2 B3]. split.
  - rewrite B1, A1. by destruct s1.
  - congruence.
  - intros p Hp. rewrite B3, A3; [done..|]. by rewrite A1.
Qed.

Lemma uart_frame_mod f s : uart_frame s (set_k_uart f s).
Proof. by split; [destruct s|..]. Qed.

Lemma uart_frame_wake c s : uart_frame s (set_k_procs (wake_procs c (k_cur s) (k_procs s)) s).
Proof.
  split; [by destruct s|apply length_wake_procs|]. intros p Hp. cbn. rewrite Hp. apply lookup_wake_procs_me.
Qed.

Lemma no_plock_frame s s' : uart_frame s s' -> no_plock s -> no_plock s'.
Proof. intros [H _ _] Hn i. rewrite H. apply Hn. Qed.

(** The line status register: when it says idle, THR is free; otherwise one of the reads foretold is used up. *)
Definition with_lsr (b : bool) (l : list Z) (u : uart) : uart := set_ut_busy b (set_ut_lsr l u).

Lemma read_lsr_ok s :
  exists v b l, read_lsr s = Ret v (set_k_uart (with_lsr b l (k_uart s)) s) /\ has v LSR_TX_IDLE = negb b /\
    (b = true -> ut_busy (k_uart s) = true /\ (length l < length (ut_lsr (k_uart s)))%nat) /\
    (length l <= length (ut_lsr (k_uart s)))%nat /\
    has v LSR_RX_READY = (if decide (ut_rx (k_uart s) = []) then false else true).
Proof.
  unfold read_lsr. set (p := if ut_busy (k_uart s) then _ else _).
  assert (Hp : (p.1 = true -> ut_busy (k_uart s) = true /\ (length p.2 < length (ut_lsr (k_uart s)))%nat) /\ (length p.2 <= length (ut_lsr (k_uart s)))%nat).
  { unfold p. destruct (ut_busy (k_uart s)); [|done]. destruct (ut_lsr (k_uart s)); cbn; [done|]. split; [|lia]. intros _. split; [done|lia]. }
  destruct p as [b l]. eexists _, b, l. split; [reflexivity|]. destruct Hp as [Hp1 Hp2].
  split; [by destruct b, (decide (ut_rx (k_uart s) = []))|]. split; [done|]. split; [done|]. by destruct b, (decide (ut_rx (k_uart s) = [])).
Qed.

Definition sent (u : uart) : uart :=
  set_ut_busy true (set_ut_out (ut_out u ++ [default 0 (ut_buf u !! Z.to_nat (ut_r u mod 32))]) (set_ut_r (u64 (ut_r u + 1)) u)).

Lemma sent_ok u : uart_ok u -> ut_r u <> ut_w u -> uart_ok (sent u) /\ uart_stream (sent u) = uart_stream u /\
  length (uart_pending u) = S (length (uart_pending (sent u))).
Proof.
  intros [H1 H2 H3 H4 H5] Hne.
  assert (Hpos : 0 < (ut_w u - ut_r u) mod 2 ^ 64).
  { pose proof (Z.mod_pos_bound (ut_w u - ut_r u) (2 ^ 64) ltac:(lia)).
    destruct (decide (ring 32 (2 ^ 64) (ut_buf u) (ut_r u) (ut_w u) = [])) as [E|E].
    - apply ring_nil_iff in E; [done|done|done].
    - pose proof (length_ring (N := 32) (M := 2 ^ 64) (ut_buf u) (ut_r u) (ut_w u)) as Hl.
      destruct (ring _ _ _ _ _); [done|]. cbn [length] in Hl. lia. }
  pose proof (ring_pop (N := 32) (M := 2 ^ 64) (ut_buf u) (ut_r u) (ut_w u) H3 Hpos) as Hpop.
  fold (u64 (ut_r u + 1)) in Hpop. pose proof (u64_range (ut_r u + 1)).
  unfold uart_stream, uart_pending in *. cbn [sent ut_out ut_buf ut_r ut_w set_ut_out set_ut_r set_ut_busy]. split_and!.
  - split; cbn [sent ut_out ut_buf ut_r ut_w set_ut_out set_ut_r set_ut_busy]; try done. unfold uart_pending.
    cbn [sent ut_out ut_buf ut_r ut_w set_ut_out set_ut_r set_ut_busy]. rewrite Hpop in H4. cbn in H4. lia.
  - rewrite Hpop. by rewrite <- app_assoc.
  - by rewrite Hpop.
Qed.

Lemma uart_ok_lsr b l u : uart_ok u -> uart_ok (with_lsr b l u).
Proof. intros []. done. Qed.

Lemma buf_byte u i : uart_ok u -> u8 (default 0 (ut_buf u !! i)) = default 0 (ut_buf u !! i).
Proof.
  intros Hu. destruct (ut_buf u !! i) as [c|] eqn:E; [|done]. cbn. apply u8_small.
  exact (Forall_lookup_1 _ _ _ _ (uo_bytes _ Hu) E).
Qed.

(** No byte waits for a device that is idle. *)
Definition driven (u : uart) : Prop := uart_pending u = [] \/ ut_busy u = true.

Lemma uartstart_loop n s :
  uart_ok (k_uart s) -> no_plock s -> length (k_procs s) = NPROC -> length (uart_pending (k_uart s)) = n ->
  exists s', loop (S n) uartstart_step tt s = Ret tt s' /\ uart_frame s s' /\ uart_ok (k_uart s') /\
    uart_stream (k_uart s') = uart_stream (k_uart s) /\ driven (k_uart s').
Proof.
  revert s. induction n as [|n IH]; intros s Hu Hp Hl Hn.
  all: destruct (Z.eqb_spec (ut_w (k_uart s)) (ut_r (k_uart s))) as [Heq|Hne].
  1, 3: (exists s; split_and!; try done;
    [apply loop_break; unfold uartstart_step; kstep; by rewrite (proj2 (Z.eqb_eq _ _))
    |left; unfold uart_pending; rewrite Heq; apply ring_empty]).
  - apply nil_length_inv in Hn. apply ring_nil_iff in Hn; [congruence|apply Hu..].
  - destruct (read_lsr_ok s) as (v & b & l & R1 & Hv & Hb & _).
    set (u1 := with_lsr b l (k_uart s)) in *. pose proof (uart_ok_lsr b l _ Hu) as Hu1. fold u1 in Hu1.
    assert (Ev : (Z.land v LSR_TX_IDLE =? 0) = b) by (unfold has in Hv; destruct (_ =? 0), b; done).
    destruct b.
    { exists (set_k_uart u1 s). split_and!; [|apply uart_frame_mod|done|done|by right].
      apply loop_break. unfold uartstart_step. kstep. rewrite (proj2 (Z.eqb_neq _ _)) by done. kstep_by R1. by rewrite Ev. }
    set (s2 := set_k_procs (wake_procs Ch_uart_tx_r (k_cur s) (k_procs s)) (set_k_uart (sent u1) s)).
    destruct (sent_ok u1 Hu1) as (Hu2 & Hs2 & Hlen); [cbn; congruence|].
    assert (F2 : uart_frame s s2) by (etrans; [apply (uart_frame_mod (sent u1))|exact (uart_frame_wake Ch_uart_tx_r (set_k_uart (sent u1) s))]).
    destruct (IH s2) as (s' & Hrun & F' & Hu' & Hs' & Hempty); [done|by eapply no_plock_frame|by rewrite (uf_len _ _ F2)| |].
    { change (uart_pending u1) with (uart_pending (k_uart s)) in Hlen. cbn. lia. }
    exists s'. split_and!; [|by etrans|done| |done].
    + rewrite <- Hrun. refine (loop_continue _ _ _ _ _ _ _). unfold uartstart_step.
      kstep. rewrite (proj2 (Z.eqb_neq _ _)) by done. kstep_by R1. rewrite Ev. unfold mod_uart. kstep.
      kstep_by wakeup_ok; [|exact Hp|done].
      unfold write_thr, mod_uart. kstep. unfold mret, m_ret. f_equal. cbn. unfold s2, sent, UART_TX_BUF_SIZE. by rewrite buf_byte by done.
    + rewrite Hs'. exact Hs2.
Qed.

Lemma uartstart_ok s :
  uart_ok (k_uart s) -> no_plock s -> length (k_procs s) = NPROC ->
  exists s', uartstart s = Ret tt s' /\ uart_frame s s' /\ uart_ok (k_uart s') /\
    uart_stream (k_uart s') = uart_stream (k_uart s) /\ driven (k_uart s').
Proof.
  intros Hu Hp Hl. destruct (uartstart_loop (length (uart_pending (k_uart s))) s) as (s' & H); try done.
  exists s'. unfold uartstart. kstep. pose proof (length_ring (N := 32) (M := 2 ^ 64) (ut_buf (k_uart s)) (ut_r (k_uart s)) (ut_w (k_uart s))) as E.
  fold (uart_pending (k_uart s)) in E. unfold u64. rewrite <- E, Nat2Z.id. done.
Qed.

Definition queued (c : Z) (u : uart) : uart :=
  set_ut_w (u64 (ut_w u + 1)) (set_ut_buf (<[Z.to_nat (ut_w u mod 32) := u8 c]> (ut_buf u)) u).

Lemma queued_ok c u : uart_ok u -> (length (uart_pending u) < 32)%nat ->
  uart_ok (queued c u) /\ uart_stream (queued c u) = uart_stream u ++ [u8 c].
Proof.
  intros [H1 H2 H3 H4 H5] Hlt. pose proof (length_ring (N := 32) (M := 2 ^ 64) (ut_buf u) (ut_r u) (ut_w u)) as Hl.
  fold (uart_pending u) in Hl.
  assert (Hpush : uart_pending (queued c u) = uart_pending u ++ [u8 c]).
  { apply (ring_push (N := 32) (M := 2 ^ 64)); [done|].
    change ((ut_w u - ut_r u) mod 2 ^ 64 < 32). rewrite <- Hl. lia. }
  split.
  - split; rewrite ?Hpush; cbn; try done.
    + by rewrite length_insert.
    + apply u64_range.
    + rewrite length_app. cbn. lia.
    + apply Forall_insert; [done|]. apply u8_range.
  - unfold uart_stream. rewrite Hpush. cbn. by rewrite app_assoc.
Qed.

Lemma not_full_test u : uart_ok u -> (ut_w u =? u64 (ut_r u + 32)) = bool_decide (length (uart_pending u) = 32%nat).
Proof.
  intros [H1 H2 H3 H4 H5]. pose proof (ring_full_iff (N := 32) (M := 2 ^ 64) (ut_buf u) (ut_r u) (ut_w u) H3 H2) as Hf.
  fold (uart_pending u) in Hf. unfold u64. destruct (Z.eqb_spec (ut_w u) ((ut_r u + 32) mod 2 ^ 64)) as [E|E].
  - rewrite bool_decide_eq_true_2; [done|]. apply Hf in E. lia.
  - rewrite bool_decide_eq_false_2; [done|]. intros E'. apply E, Hf. lia.
Qed.

(** What is left of [uartputc] in its loop. *)
Definition putc_rest (c : Z) (n : nat) : K unit :=
  loop n uart_wait tt ;;
  mod_uart (fun u => set_ut_buf (<[Z.to_nat (ut_w u mod UART_TX_BUF_SIZE) := u8 c]> (ut_buf u)) u) ;;
  mod_uart (fun u => set_ut_w (u64 (ut_w u + 1)) u) ;; uartstart ;; release L_uart.

(** The process [p] in [uartputc]'s loop, and back from [sched]. *)
Record uart_waiter (p : nat) (lk : lockid) (s : kstate) : Prop := {
  uw_uart : uart_ok (k_uart s);
  uw_cur : k_cur s = Some p;
  uw_proc : is_Some (k_procs s !! p);
  uw_len : length (k_procs s) = NPROC;
  uw_held : k_held s = [lk]
}.

(** The runs of [uartputc c] by [p] from the test of its loop, which may put it to sleep [n] times: with room in the
    buffer the byte is queued, once, behind those sent and to be sent, and the call returns; with none the process
    sleeps, and from whatever state it is resumed in it is in the loop again. *)
Inductive putc_runs (c : Z) (p : nat) : nat -> kstate -> out kstate unit -> Prop :=
| putc_room n s s' :
    (length (uart_pending (k_uart s)) < 32)%nat -> uart_ok (k_uart s') -> uart_stream (k_uart s') = uart_stream (k_uart s) ++ [u8 c] ->
    driven (k_uart s') -> uart_frame (set_k_held [] s) s' -> putc_runs c p (S n) s (Ret tt s')
| putc_full n s k :
    length (uart_pending (k_uart s)) = 32%nat ->
    (forall s2, uart_waiter p (L_proc p) s2 -> putc_runs c p n (woken L_uart p s2) (k s2)) ->
    putc_runs c p (S n) s (Sleep (fall_asleep Ch_uart_tx_r p s) k)
| putc_spent s : putc_runs c p 0 s (Stop SFuel s).

Lemma woken_waiter p s : uart_waiter p (L_proc p) s -> uart_waiter p L_uart (woken L_uart p s).
Proof.
  intros [H1 H2 [pr H3] H4 H5]. split; cbn; try done; [|by rewrite length_alter].
  rewrite list_lookup_alter_eq, H3. by eexists.
Qed.

Lemma putc_queues c n s : uart_ok (k_uart s) -> length (k_procs s) = NPROC -> k_held s = [L_uart] -> (length (uart_pending (k_uart s)) < 32)%nat ->
  exists s', putc_rest c (S n) s = Ret tt s' /\ uart_ok (k_uart s') /\ uart_stream (k_uart s') = uart_stream (k_uart s) ++ [u8 c] /\
    driven (k_uart s') /\ uart_frame (set_k_held [] s) s'.
Proof.
  intros Hu Hl Hh Hlt. pose proof (not_full_test (k_uart s) Hu) as Htest. rewrite bool_decide_eq_false_2 in Htest by lia.
  destruct (queued_ok c (k_uart s) Hu Hlt) as [Hq Hqs].
  destruct (uartstart_ok (set_k_uart (queued c (k_uart s)) s)) as (s' & R & F & Hu' & Hs' & Hd); [done| |done|].
  { intros i. cbn. rewrite Hh. by intros ?%list_elem_of_singleton. }
  exists (set_k_held [] s'). split_and!; [|done|cbn; rewrite Hs'; exact Hqs|done|].
  - unfold putc_rest. erewrite bind_Ret; [|apply loop_break; unfold uart_wait; kstep; unfold UART_TX_BUF_SIZE; rewrite Htest; reflexivity].
    cbn beta. unfold mod_uart. kstep. kstep. kstep_by R. erewrite release_top; [done| |apply not_elem_of_nil].
    rewrite (uf_only _ _ F). cbn. by rewrite Hh.
  - destruct F as [F1 F2 F3]. split; [|done|done]. rewrite F1. by destruct s.
Qed.

Lemma putc_rest_runs c p n : forall s, uart_waiter p L_uart s -> putc_runs c p n s (putc_rest c n s).
Proof.
  induction n as [|n IH]; intros s [Hu Hc [pr Hp] Hl Hh]; [apply putc_spent|].
  pose proof (uo_fit _ Hu) as Hfit. destruct (decide (length (uart_pending (k_uart s)) < 32)%nat) as [Hlt|Hlt].
  - destruct (putc_queues c n s Hu Hl Hh Hlt) as (s' & R & ? & ? & ? & ?). rewrite R. by apply putc_room.
  - pose proof (not_full_test (k_uart s) Hu) as Htest. rewrite bool_decide_eq_true_2 in Htest by lia.
    destruct (sleep_wakes s p pr Ch_uart_tx_r L_uart) as (k & Hk & Hk2); [done..|].
    unfold putc_rest. erewrite bind_Sleep.
    2: { rewrite loop_S. unfold uart_wait. rewrite (bind_Ret (gets k_uart) _ s (k_uart s) s) by done.
         unfold UART_TX_BUF_SIZE. rewrite Htest, (bind_Sleep _ _ _ _ _ Hk). reflexivity. }
    apply putc_full; [lia|]. intros s2 Hw. cbn beta. rewrite Hk2 by apply Hw. exact (IH _ (woken_waiter _ _ Hw)).
Qed.

(** C31: The UART's output is a FIFO.  [uartputc] of a byte when the buffer has room returns with that byte appended,
    once, to the stream of bytes sent and to be sent, nothing else in the stream changed, and leaves no byte waiting for an
    idle device.  While the buffer is full the process sleeps with the stream unchanged; resumed in any state, it tests
    the buffer again, and sleeps or queues the byte as before. *)
Theorem uartputc_fifo s p c :
  uart_waiter p L_uart (set_k_held [L_uart] s) -> k_held s = [] -> k_panicked s = false ->
  putc_runs c p (k_fuel s) (set_k_held [L_uart] s) (uartputc c s).
Proof.
  intros Hw Hh Hpa.
  replace (uartputc c s) with (putc_rest c (k_fuel s) (set_k_held [L_uart] s)); [by apply putc_rest_runs|].
  unfold uartputc. kstep_by acquire_ok; [|rewrite Hh; apply not_elem_of_nil]. rewrite Hh. kstep. cbn [k_panicked set_k_held].
  rewrite Hpa. kstep. done.
Qed.

(** A full buffer, after as many bytes as would be negative in 64 bits. *)
Lemma uartputc_fifo_witness :
  let s := set_k_uart (set_ut_r (2 ^ 64 - 16) (set_ut_w 16 uart0)) (set_k_cur (Some 0%nat) boot_state) in
  putc_runs 65 0 (k_fuel s) (set_k_held [L_uart] s) (uartputc 65 s).
Proof.
  intros s. apply (uartputc_fifo s 0 65); [|reflexivity|reflexivity]. split.
  - split; [reflexivity|cbn; lia|cbn; lia|vm_compute; lia|]. apply Forall_replicate. lia.
  - reflexivity.
  - by exists proc0.
  - reflexivity.
  - reflexivity.
Defined.
