(* ===== verification/Format.v ===== *)
(** * Formatted output: kernel/printf.c and user/printf.c

    What the two [printf]s print for a number and a pointer, what the user library's
    prints for a whole format, and what a format means ([formats]); the loop of the kernel's is in [Printf.v].
    [printint] fills a 16-byte array on the stack: [None] means it wrote past its end.  Arguments are the 64-bit registers
    [va_arg] reads; strings are the bytes before their NUL. *)

From stdpp Require Import base list strings.
From Stdlib Require Import ZArith Lia.
From S2P Require Import Prelude.
Open Scope Z_scope.

Definition chars (s : string) : list Z := (fun a => Z.of_nat (Ascii.nat_of_ascii a)) <$> String.list_ascii_of_string s.

Inductive arg := ANum (v : Z) | AStr (s : option (list Z)).

(** The [do ... while((x /= base) != 0)] loop; [fuel] bounds the number of digits. *)
Fixpoint print_digits (fuel : nat) (digits : list Z) (base x : Z) : list Z :=
  match fuel with
  | O => []
  | S fuel =>
      let c := default 0 (digits !! Z.to_nat (x mod base)) in
      if x / base =? 0 then [c] else c :: print_digits fuel digits base (x / base)
  end.

(** [char buf[16]], printed backwards. *)
Definition buf16 (l : list Z) : option (list Z) := if (length l <=? 16)%nat then Some (reverse l) else None.

Fixpoint nibbles (n : nat) (digits : list Z) (x : Z) : list Z :=
  match n with
  | O => []
  | S n => default 0 (digits !! Z.to_nat (Z.shiftr x 60)) :: nibbles n digits (u64 (Z.shiftl x 4))
  end.

Definition nth0 (l : list Z) (i : nat) : Z := default 0 (l !! i).

(** [va_arg(ap, int)], [va_arg(ap, uint64)] and a string argument: an argument
    of the wrong kind, or none, is undefined. *)
Definition va_int (args : list arg) : option (Z * list arg) :=
  match args with ANum v :: args => Some (s32 v, args) | _ => None end.
Definition va_u64 (args : list arg) : option (Z * list arg) :=
  match args with ANum v :: args => Some (u64 v, args) | _ => None end.
Definition va_str (args : list arg) : option (option (list Z) * list arg) :=
  match args with AStr s :: args => Some (s, args) | _ => None end.

Definition seq_out (a b : option (list Z)) : option (list Z) := x ← a; y ← b; Some (x ++ y).

Module KPrintf.
Definition digits : list Z := chars "0123456789abcdef".

(** [long long xx] *)
Definition printint (xx base : Z) (sign : bool) : option (list Z) :=
  let neg := sign && (xx <? 0) in
  let x := u64 (if neg then - xx else xx) in
  buf16 (print_digits 64 digits base x ++ (if neg then [45] else [])).

Definition printptr (x : Z) : list Z := [48; 120] ++ nibbles 16 digits x.

End KPrintf.

Module UPrintf.
Definition digits : list Z := chars "0123456789ABCDEF".

(** [int xx], [uint x] *)
Definition printint (xx base : Z) (sgn : bool) : option (list Z) :=
  let neg := sgn && (xx <? 0) in
  let x := u32 (if neg then - xx else xx) in
  buf16 (print_digits 64 digits base x ++ (if neg then [45] else [])).

Definition printptr (x : Z) : list Z := [48; 120] ++ nibbles 16 digits x.

(** One turn of [vprintf]'s loop is one character; [state] is whether a ['%'] was
    read.  [printint]'s first parameter is an [int], so the 64-bit arguments of
    the [l] forms are cut to 32 bits. *)
Fixpoint vprintf_loop (fuel : nat) (state : bool) (fmt : list Z) (args : list arg) : option (list Z) :=
  match fuel with
  | O => Some []
  | S fuel =>
      let c0 := nth0 fmt 0 in
      if c0 =? 0 then Some [] else
      if negb state then
        if c0 =? 37 then vprintf_loop fuel true (drop 1 fmt) args
        else seq_out (Some [c0]) (vprintf_loop fuel false (drop 1 fmt) args)
      else
      let c1 := if c0 =? 0 then 0 else nth0 fmt 1 in
      let c2 := if c1 =? 0 then 0 else nth0 fmt 2 in
      let int_arg base sgn := '(v, args) ← va_int args; seq_out (printint v base sgn) (vprintf_loop fuel false (drop 1 fmt) args) in
      let long_arg skip base sgn :=
        '(v, args) ← va_u64 args; seq_out (printint (s32 v) base sgn) (vprintf_loop fuel false (drop skip fmt) args) in
      if c0 =? 100 then int_arg 10 true
      else if (c0 =? 108) && (c1 =? 100) then long_arg 2%nat 10 true
      else if (c0 =? 108) && (c1 =? 108) && (c2 =? 100) then long_arg 3%nat 10 true
      else if c0 =? 117 then int_arg 10 false
      else if (c0 =? 108) && (c1 =? 117) then long_arg 2%nat 10 false
      else if (c0 =? 108) && (c1 =? 108) && (c2 =? 117) then long_arg 3%nat 10 false
      else if c0 =? 120 then int_arg 16 false
      else if (c0 =? 108) && (c1 =? 120) then long_arg 2%nat 16 false
      else if (c0 =? 108) && (c1 =? 108) && (c2 =? 120) then long_arg 3%nat 16 false
      else if c0 =? 112 then
        '(v, args) ← va_u64 args; seq_out (Some (printptr v)) (vprintf_loop fuel false (drop 1 fmt) args)
      else if c0 =? 115 then
        '(s, args) ← va_str args; seq_out (Some (default (chars "(null)") s)) (vprintf_loop fuel false (drop 1 fmt) args)
      else if c0 =? 37 then seq_out (Some [37]) (vprintf_loop fuel false (drop 1 fmt) args)
      else seq_out (Some [37; c0]) (vprintf_loop fuel false (drop 1 fmt) args)
  end.
Definition vprintf (fmt : list Z) (args : list arg) : option (list Z) :=
  vprintf_loop (S (length fmt)) false fmt args.
End UPrintf.

(** ** Reading a number back *)

Definition digit_val (c : Z) : Z := if c <=? 57 then c - 48 else if c <=? 70 then c - 55 else c - 87.
(** Least significant digit first. *)
Fixpoint digits_val (base : Z) (l : list Z) : Z :=
  match l with [] => 0 | c :: l => digit_val c + base * digits_val base l end.
(** An optional minus sign and digits, most significant first. *)
Definition parse_int (base : Z) (l : list Z) : Z :=
  match l with
  | c :: l' => if c =? 45 then - digits_val base (reverse l') else digits_val base (reverse l)
  | [] => 0
  end.

Definition is_digits (digits : list Z) : Prop :=
  forall d, 0 <= d < 16 -> digit_val (default 0 (digits !! Z.to_nat d)) = d /\ default 0 (digits !! Z.to_nat d) <> 45.

Lemma digits_ok_of (digits : list Z) :
  forallb (fun i => (digit_val (default 0 (digits !! i)) =? Z.of_nat i) && negb (default 0 (digits !! i) =? 45)) (seq 0 16) = true ->
  is_digits digits.
Proof.
  intros H d Hd. rewrite forallb_forall in H. specialize (H (Z.to_nat d)).
  rewrite andb_true_iff, Z.eqb_eq, negb_true_iff, Z.eqb_neq in H. destruct H as [H1 H2]; [apply in_seq; lia|]. split; [lia|done].
Qed.
Lemma kdigits_ok : is_digits KPrintf.digits.
Proof. apply digits_ok_of. by vm_compute. Qed.
Lemma udigits_ok : is_digits UPrintf.digits.
Proof. apply digits_ok_of. by vm_compute. Qed.

Section Digits.
Context (digits : list Z) (base : Z).
Hypothesis Hd : is_digits digits.
Hypothesis Hb : 2 <= base <= 16.

Lemma print_digits_val n x :
  0 <= x < base ^ Z.of_nat n -> (0 < n)%nat ->
  digits_val base (print_digits n digits base x) = x /\ 45 ∉ print_digits n digits base x.
Proof.
  revert x. induction n as [|n IH]; intros x Hx Hn; [lia|]. cbn [print_digits].
  pose proof (Z.mod_pos_bound x base ltac:(lia)) as Hm. destruct (Hd (x mod base) ltac:(lia)) as [H1 H2].
  pose proof (Z.div_mod x base ltac:(lia)) as Hdm. pose proof (Z.div_pos x base ltac:(lia) ltac:(lia)).
  destruct (Z.eqb_spec (x / base) 0) as [E|E].
  - cbn [digits_val]. rewrite H1. split; [lia|]. intros ?%list_elem_of_singleton. congruence.
  - assert (Hlt : x / base < base ^ Z.of_nat n).
    { apply Z.div_lt_upper_bound; [lia|]. rewrite Nat2Z.inj_succ, Z.pow_succ_r in Hx by lia. lia. }
    assert (Hn' : (0 < n)%nat) by (destruct n; [cbn in Hlt; lia|lia]).
    destruct (IH (x / base) ltac:(lia) Hn') as [IH1 IH2]. cbn [digits_val]. rewrite H1, IH1. split; [lia|].
    rewrite not_elem_of_cons. by split; [congruence|].
Qed.

Lemma print_digits_length n x k :
  0 <= x < base ^ Z.of_nat n -> (0 < n)%nat -> (0 < k)%nat ->
  (length (print_digits n digits base x) <= k)%nat <-> x < base ^ Z.of_nat k.
Proof.
  revert x k. induction n as [|n IH]; intros x k Hx Hn Hk; [lia|]. cbn [print_digits].
  pose proof (Z.div_pos x base ltac:(lia) ltac:(lia)). destruct k as [|k]; [lia|].
  rewrite (Nat2Z.inj_succ k), Z.pow_succ_r by lia.
  pose proof (Z.pow_pos_nonneg base (Z.of_nat k) ltac:(lia) ltac:(lia)) as Hp.
  destruct (Z.eqb_spec (x / base) 0) as [E|E].
  - cbn [length]. apply Z.div_small_iff in E; [|lia]. split; [nia|lia].
  - assert (Hlt : x / base < base ^ Z.of_nat n).
    { apply Z.div_lt_upper_bound; [lia|]. rewrite Nat2Z.inj_succ, Z.pow_succ_r in Hx by lia. lia. }
    assert (Hn' : (0 < n)%nat) by (destruct n; [cbn in Hlt; lia|lia]). cbn [length].
    assert (Hge : base <= x) by (destruct (Z.le_gt_cases base x); [done|rewrite Z.div_small in E; lia]).
    destruct k as [|k].
    + split; [intros Hl|nia]. exfalso. destruct n; [lia|]. cbn [print_digits] in Hl. destruct (_ =? 0); cbn in Hl; lia.
    + rewrite <- Nat.succ_le_mono, IH by lia. split; intros Hl.
      * pose proof (Z.div_mod x base ltac:(lia)). pose proof (Z.mod_pos_bound x base ltac:(lia)). nia.
      * apply Z.div_lt_upper_bound; lia.
Qed.
End Digits.

Lemma parse_rev base l (neg : bool) : 45 ∉ l -> l <> [] ->
  parse_int base (reverse (l ++ if neg then [45] else [])) = if neg then - digits_val base l else digits_val base l.
Proof.
  intros Hn Hne. destruct neg.
  - rewrite reverse_snoc. cbn. by rewrite reverse_involutive.
  - rewrite app_nil_r. destruct (reverse l) as [|c r] eqn:E.
    + apply (f_equal length) in E. rewrite length_reverse in E. by destruct l.
    + change (parse_int base (c :: r)) with (if c =? 45 then - digits_val base (reverse r) else digits_val base (reverse (c :: r))).
      rewrite <- E, reverse_involutive. destruct (Z.eqb_spec c 45) as [->|]; [|done].
      exfalso. apply Hn. apply elem_of_reverse. rewrite E. apply list_elem_of_here.
Qed.

Lemma print_digits_cons n digits base x : (0 < n)%nat -> print_digits n digits base x <> [].
Proof. destruct n; [lia|]. intros _. cbn. by destruct (_ =? 0). Qed.

(** What both [printint]s do with the digits. *)
Lemma buf16_spec digits base x (neg : bool) :
  is_digits digits -> 2 <= base <= 16 -> 0 <= x < 2 ^ 64 ->
  match buf16 (print_digits 64 digits base x ++ (if neg then [45] else [])) with
  | Some l => parse_int base l = (if neg then - x else x)
  | None => base ^ (if neg then 15 else 16) <= x
  end /\ (base ^ (if neg then 15 else 16) <= x -> buf16 (print_digits 64 digits base x ++ (if neg then [45] else [])) = None).
Proof.
  intros Hd Hb Hx.
  assert (Hx' : 0 <= x < base ^ Z.of_nat 64).
  { split; [lia|]. assert (2 ^ 64 <= base ^ 64) by (apply Z.pow_le_mono_l; lia). lia. }
  destruct (print_digits_val digits base Hd Hb 64 x Hx' ltac:(lia)) as [Hv Hn].
  pose proof (print_digits_length digits base Hb 64 x (if neg then 15 else 16) Hx' ltac:(lia) ltac:(destruct neg; lia)) as Hl.
  pose proof (parse_rev base (print_digits 64 digits base x) neg Hn (print_digits_cons 64 digits base x ltac:(lia))) as Hp.
  rewrite Hv in Hp. unfold buf16. destruct (Nat.leb_spec (length (print_digits 64 digits base x ++ if neg then [45] else [])) 16) as [H1|H1];
    rewrite length_app in H1; (split; [|intros Hge]); try done; destruct neg; cbn [length] in H1; rewrite ?Nat.add_0_r in H1; change (Z.of_nat 15) with 15 in Hl; change (Z.of_nat 16) with 16 in Hl; lia.
Qed.

(** C33: The kernel's [printint] on any 64-bit value: what it prints reads back as that value, unless it overruns its
    16-byte buffer, which in decimal happens exactly from 10^16 on, and for negative numbers from -10^15 down. *)
Theorem kprintint_decimal xx :
  - 2 ^ 63 <= xx < 2 ^ 63 ->
  match KPrintf.printint xx 10 true with
  | Some l => parse_int 10 l = xx /\ - 10 ^ 15 < xx < 10 ^ 16
  | None => xx <= - 10 ^ 15 \/ 10 ^ 16 <= xx
  end.
Proof.
  intros Hx. unfold KPrintf.printint. cbn [andb]. destruct (Z.ltb_spec xx 0).
  - rewrite u64_small by lia. destruct (buf16_spec KPrintf.digits 10 (- xx) true kdigits_ok ltac:(lia) ltac:(lia)) as [H1 H2].
    destruct (buf16 _); [|lia]. split; [lia|]. split; [|lia]. destruct (Z.le_gt_cases (10 ^ 15) (- xx)); [by apply H2 in H0|lia].
  - rewrite u64_small by lia. destruct (buf16_spec KPrintf.digits 10 xx false kdigits_ok ltac:(lia) ltac:(lia)) as [H1 H2].
    destruct (buf16 _); [|lia]. split; [lia|]. split; [lia|]. destruct (Z.le_gt_cases (10 ^ 16) xx); [by apply H2 in H0|lia].
Qed.

Lemma kprintint_decimal_witness :
  KPrintf.printint (10 ^ 16) 10 true = None /\
  match KPrintf.printint (- 42) 10 true with
  | Some l => parse_int 10 l = - 42 /\ - 10 ^ 15 < - 42 < 10 ^ 16
  | None => - 42 <= - 10 ^ 15 \/ 10 ^ 16 <= - 42
  end.
Proof. split; [by vm_compute|]. apply (kprintint_decimal (- 42)). lia. Defined.

Lemma uprintint_ok w : - 2 ^ 31 <= w < 2 ^ 31 -> exists l, UPrintf.printint w 10 true = Some l /\ parse_int 10 l = w.
Proof.
  intros Hw. unfold UPrintf.printint. cbn [andb]. destruct (Z.ltb_spec w 0); rewrite u32_small by lia.
  - destruct (buf16_spec UPrintf.digits 10 (- w) true udigits_ok ltac:(lia) ltac:(lia)) as [H1 _].
    destruct (buf16 _) as [l|]; [|lia]. exists l. split; [done|lia].
  - destruct (buf16_spec UPrintf.digits 10 w false udigits_ok ltac:(lia) ltac:(lia)) as [H1 _].
    destruct (buf16 _) as [l|]; [|lia]. exists l. split; [done|lia].
Qed.

(** The user library's [printint] never overruns its buffer; but [printf("%ld")] prints only the low 32 bits of its
    argument, as a signed number. *)
Theorem uprintf_ld v :
  exists l, UPrintf.vprintf (chars "%ld") [ANum v] = Some l /\ parse_int 10 l = s32 (u64 v).
Proof.
  assert (E : UPrintf.vprintf (chars "%ld") [ANum v] = seq_out (UPrintf.printint (s32 (u64 v)) 10 true) (Some [])) by reflexivity.
  rewrite E. destruct (uprintint_ok (s32 (u64 v)) (s32_range _)) as (l & -> & Hl). exists l. cbn. by rewrite app_nil_r.
Qed.

(** The user library's [printint] fits its buffer for every [int] in the bases [vprintf] uses. *)
Lemma uprintint_total w base sgn : base = 10 \/ base = 16 -> exists l, UPrintf.printint w base sgn = Some l.
Proof.
  intros Hb. unfold UPrintf.printint. set (neg := sgn && _). set (x := u32 _). pose proof (u32_range (if neg then - w else w)) as Hx. fold x in Hx.
  destruct (buf16_spec UPrintf.digits base x neg udigits_ok ltac:(lia) ltac:(lia)) as [H1 _].
  destruct (buf16 _) as [l|]; [by exists l|]. exfalso. destruct neg, Hb as [-> | ->]; lia.
Qed.

(** The arguments are those the format asks for, in kind and number. *)
Fixpoint args_ok (fuel : nat) (state : bool) (fmt : list Z) (args : list arg) : bool :=
  match fuel with
  | O => true
  | S fuel =>
      let c0 := nth0 fmt 0 in
      if c0 =? 0 then true else
      if negb state then args_ok fuel (c0 =? 37) (drop 1 fmt) args else
      let c1 := nth0 fmt 1 in
      let c2 := if c1 =? 0 then 0 else nth0 fmt 2 in
      let num skip := match args with ANum _ :: args => args_ok fuel false (drop skip fmt) args | _ => false end in
      if c0 =? 100 then num 1%nat
      else if (c0 =? 108) && (c1 =? 100) then num 2%nat
      else if (c0 =? 108) && (c1 =? 108) && (c2 =? 100) then num 3%nat
      else if c0 =? 117 then num 1%nat
      else if (c0 =? 108) && (c1 =? 117) then num 2%nat
      else if (c0 =? 108) && (c1 =? 108) && (c2 =? 117) then num 3%nat
      else if c0 =? 120 then num 1%nat
      else if (c0 =? 108) && (c1 =? 120) then num 2%nat
      else if (c0 =? 108) && (c1 =? 108) && (c2 =? 120) then num 3%nat
      else if c0 =? 112 then num 1%nat
      else if c0 =? 115 then match args with AStr _ :: args => args_ok fuel false (drop 1 fmt) args | _ => false end
      else args_ok fuel false (drop 1 fmt) args
  end.

Lemma seq_out_total a b : (exists l, a = Some l) -> (exists l, b = Some l) -> exists l, seq_out a b = Some l.
Proof. intros [l ->] [l' ->]. by eexists. Qed.

(** [vprintf] prints something for every format and the arguments it asks for. *)
Lemma vprintf_total fuel : forall state fmt args, args_ok fuel state fmt args = true -> exists out, UPrintf.vprintf_loop fuel state fmt args = Some out.
Proof.
  induction fuel as [|fuel IH]; intros state fmt args H; [by exists []|]. cbn [UPrintf.vprintf_loop args_ok] in *.
  set (c0 := nth0 fmt 0) in *. set (c1 := nth0 fmt 1) in *. set (c2 := nth0 fmt 2) in *.
  destruct (c0 =? 0) eqn:E0; [by exists []|]. destruct (negb state).
  { destruct (c0 =? 37); [by apply IH|]. apply seq_out_total; [by eexists|by apply IH]. }
  repeat match type of H with (if ?b then _ else _) = true => destruct b end;
    try (destruct args as [|[v|v] rest]; [done| |]; try done; cbn [va_int va_u64 va_str mbind option_bind]);
    try destruct (c0 =? 37); apply seq_out_total; try (by apply IH); try (by eexists); apply uprintint_total; auto.
Qed.

(** ** What a format means *)

(** The numeral of a number in a base, most significant digit first and without leading zeros; and its [n] low digits. *)
Definition digit_char (d : Z) : Z := if d <? 10 then 48 + d else 87 + d.
Inductive numeral (base : Z) : Z -> list Z -> Prop :=
| numeral_digit d : 0 <= d < base -> numeral base d [digit_char d]
| numeral_snoc x l d : 0 < x -> numeral base x l -> 0 <= d < base -> numeral base (base * x + d) (l ++ [digit_char d]).
Inductive padded (base : Z) : nat -> Z -> list Z -> Prop :=
| padded_nil : padded base 0 0 []
| padded_cons n d x l : 0 <= d < base -> padded base n x l -> padded base (S n) (d * base ^ Z.of_nat n + x) (digit_char d :: l).
Definition signed_numeral (x : Z) (l : list Z) : Prop :=
  (0 <= x /\ numeral 10 x l) \/ (x < 0 /\ exists l', l = 45 :: l' /\ numeral 10 (- x) l').

(** What may follow a ['%']. *)
Definition directives : list (list Z) :=
  chars <$> ["d"; "ld"; "lld"; "u"; "lu"; "llu"; "x"; "lx"; "llx"; "p"; "s"; "%"]%string.
Definition chr (c : Z) : Prop := 0 < c < 256.

(** [formats fmt args l]: the characters [l] are what [fmt] says of [args].  [%d] is an [int] in decimal and its long
    forms a 64-bit number; [%u] and [%x] and theirs are that number taken as unsigned, in decimal and hexadecimal;
    [%p] is the 16 hexadecimal digits of a pointer.  A number has at most 16 characters, which is what [printint] has
    room for. *)
Inductive formats : list Z -> list arg -> list Z -> Prop :=
| formats_nil args : formats [] args []
| formats_char c fmt args l : chr c -> c <> 37 -> formats fmt args l -> formats (c :: fmt) args (c :: l)
| formats_d v n fmt args l : signed_numeral (s32 v) n -> formats fmt args l -> formats (chars "%d" ++ fmt) (ANum v :: args) (n ++ l)
| formats_ld d v n fmt args l : d ∈ ["%ld"; "%lld"]%string -> signed_numeral (s64 v) n -> (length n <= 16)%nat ->
    formats fmt args l -> formats (chars d ++ fmt) (ANum v :: args) (n ++ l)
| formats_u v n fmt args l : numeral 10 (u64 (s32 v)) n -> (length n <= 16)%nat ->
    formats fmt args l -> formats (chars "%u" ++ fmt) (ANum v :: args) (n ++ l)
| formats_lu d v n fmt args l : d ∈ ["%lu"; "%llu"]%string -> numeral 10 (u64 v) n -> (length n <= 16)%nat ->
    formats fmt args l -> formats (chars d ++ fmt) (ANum v :: args) (n ++ l)
| formats_x v n fmt args l : numeral 16 (u64 (s32 v)) n -> formats fmt args l -> formats (chars "%x" ++ fmt) (ANum v :: args) (n ++ l)
| formats_lx d v n fmt args l : d ∈ ["%lx"; "%llx"]%string -> numeral 16 (u64 v) n ->
    formats fmt args l -> formats (chars d ++ fmt) (ANum v :: args) (n ++ l)
| formats_p v n fmt args l : padded 16 16 (u64 v) n -> formats fmt args l ->
    formats (chars "%p" ++ fmt) (ANum v :: args) (chars "0x" ++ n ++ l)
| formats_s t fmt args l : Forall chr t -> formats fmt args l -> formats (chars "%s" ++ fmt) (AStr (Some t) :: args) (t ++ l)
| formats_null fmt args l : formats fmt args l -> formats (chars "%s" ++ fmt) (AStr None :: args) (chars "(null)" ++ l)
| formats_percent fmt args l : formats fmt args l -> formats (chars "%%" ++ fmt) args (37 :: l)
| formats_unknown c fmt args l : chr c -> Forall (fun d => ~ d `prefix_of` c :: fmt) directives ->
    formats fmt args l -> formats (37 :: c :: fmt) args (37 :: c :: l)
| formats_end args : formats [37] args [].

Lemma digit_char_digits d : 0 <= d < 16 -> default 0 (KPrintf.digits !! Z.to_nat d) = digit_char d /\ chr (digit_char d).
Proof.
  intros Hd. assert (Hall : forallb (fun i => (default 0 (KPrintf.digits !! i) =? digit_char (Z.of_nat i)) && (0 <? digit_char (Z.of_nat i)) && (digit_char (Z.of_nat i) <? 256)) (seq 0 16) = true)
    by (vm_compute; reflexivity).
  rewrite forallb_forall in Hall. specialize (Hall (Z.to_nat d) ltac:(apply in_seq; lia)). rewrite Z2Nat.id in Hall by lia.
  unfold chr. lia.
Qed.
Lemma numeral_chr base x l : 2 <= base <= 16 -> numeral base x l -> Forall chr l.
Proof.
  intros Hb. induction 1 as [d Hd|x l d Hx Hn IH Hd]; rewrite ?Forall_app, Forall_singleton; [|split; [done|]]; apply digit_char_digits; lia.
Qed.
Lemma padded_chr n x l : padded 16 n x l -> Forall chr l /\ 0 <= x < 16 ^ Z.of_nat n.
Proof.
  induction 1 as [|n d x l Hd Hp [IH Hx]]; [by split|]. split; [constructor; [by apply digit_char_digits|done]|].
  rewrite Nat2Z.inj_succ, Z.pow_succ_r by lia. nia.
Qed.

(** The digits are collected backwards. *)
Lemma print_digits_numeral base x l : 2 <= base <= 16 -> numeral base x l -> forall n, (length l <= n)%nat ->
  print_digits n KPrintf.digits base x = reverse l.
Proof.
  intros Hb. induction 1 as [d Hd|x l d Hx Hn IH Hd]; intros n Hl.
  - destruct n as [|n]; [cbn in Hl; lia|]. cbn [print_digits]. rewrite Z.mod_small, Z.div_small by lia. change (0 =? 0) with true. cbv iota.
    by rewrite (proj1 (digit_char_digits d ltac:(lia))).
  - rewrite length_app in Hl. cbn [length] in Hl. destruct n as [|n]; [lia|]. cbn [print_digits]. rewrite (Z.mul_comm base x).
    rewrite Z.div_add_l, (Z.div_small d), Z.add_0_r by lia. rewrite Z.add_comm, Z.mod_add, Z.mod_small by lia.
    rewrite (proj2 (Z.eqb_neq x 0)), IH, reverse_snoc by lia. by rewrite (proj1 (digit_char_digits d ltac:(lia))).
Qed.

Lemma numeral_length base x l k : 2 <= base -> numeral base x l -> (0 < k)%nat -> x < base ^ Z.of_nat k -> (length l <= k)%nat.
Proof.
  intros Hb Hn. revert k. induction Hn as [d Hd|x l d Hx Hn IH Hd]; intros k Hk Hlt; [cbn; lia|]. rewrite length_app. cbn [length].
  destruct k as [|k]; [lia|]. rewrite Nat2Z.inj_succ, Z.pow_succ_r in Hlt by lia. assert (x < base ^ Z.of_nat k) by nia.
  destruct k as [|k]; [cbn in *; lia|]. specialize (IH (S k) ltac:(lia) ltac:(done)). lia.
Qed.

Lemma printint_unsigned base x l : 2 <= base <= 16 -> numeral base (u64 x) l -> (length l <= 16)%nat -> KPrintf.printint x base false = Some l.
Proof.
  intros Hb Hn Hl. unfold KPrintf.printint, buf16. cbn [andb]. rewrite (print_digits_numeral _ _ _ Hb Hn) by lia.
  rewrite app_nil_r, length_reverse, (proj2 (Nat.leb_le _ _) Hl). by rewrite reverse_involutive.
Qed.
Lemma printint_signed x l : - 2 ^ 63 <= x < 2 ^ 63 -> signed_numeral x l -> (length l <= 16)%nat -> KPrintf.printint x 10 true = Some l.
Proof.
  intros Hx Hn Hl. unfold KPrintf.printint, buf16. cbn [andb]. destruct Hn as [[Hp Hn]|(Hp & l' & -> & Hn)].
  - rewrite (proj2 (Z.ltb_ge x 0)), u64_small, (print_digits_numeral 10 _ _ ltac:(lia) Hn) by lia.
    rewrite app_nil_r, length_reverse, (proj2 (Nat.leb_le _ _) Hl). by rewrite reverse_involutive.
  - cbn [length] in Hl. rewrite (proj2 (Z.ltb_lt x 0)), u64_small, (print_digits_numeral 10 _ _ ltac:(lia) Hn) by lia.
    rewrite length_app, length_reverse. cbn [length]. rewrite (proj2 (Nat.leb_le _ _)) by lia. by rewrite reverse_snoc, reverse_involutive.
Qed.
Lemma signed_numeral_32 x l : - 2 ^ 31 <= x < 2 ^ 31 -> signed_numeral x l -> (length l <= 16)%nat.
Proof.
  intros Hx [[Hp Hn]|(Hp & l' & -> & Hn)]; [apply (numeral_length 10 x _ 16); try lia; done|].
  pose proof (numeral_length 10 (- x) _ 15 ltac:(lia) Hn ltac:(lia) ltac:(lia)). cbn. lia.
Qed.
Lemma signed_numeral_chr x l : signed_numeral x l -> Forall chr l.
Proof. intros [[Hp Hn]|(Hp & l' & -> & Hn)]; [|constructor; [unfold chr; lia|]]; (eapply numeral_chr; [|exact Hn]; lia). Qed.

Lemma nibbles_padded n x l k : padded 16 n x l -> (n + k = 16)%nat -> nibbles n KPrintf.digits (x * 16 ^ Z.of_nat k) = l.
Proof.
  intros Hp. revert k. induction Hp as [|n d x l Hd Hp IH]; intros k Hk; [done|]. destruct (padded_chr _ _ _ Hp) as [_ Hx].
  assert (E : (d * 16 ^ Z.of_nat n + x) * 16 ^ Z.of_nat k = d * 2 ^ 60 + x * 16 ^ Z.of_nat k).
  { rewrite Z.mul_add_distr_r, <- Z.mul_assoc, <- Z.pow_add_r by lia. replace (Z.of_nat n + Z.of_nat k) with 15 by lia. done. }
  assert (Hlow : 0 <= x * 16 ^ Z.of_nat k < 2 ^ 60).
  { assert (16 ^ Z.of_nat n * 16 ^ Z.of_nat k = 2 ^ 60) by (rewrite <- Z.pow_add_r by lia; by replace (Z.of_nat n + Z.of_nat k) with 15 by lia).
    pose proof (Z.pow_pos_nonneg 16 (Z.of_nat k) ltac:(lia) ltac:(lia)). nia. }
  cbn [nibbles]. rewrite E, Z.shiftr_div_pow2, Z.div_add_l, (Z.div_small (x * _)), Z.add_0_r by lia. f_equal; [by apply digit_char_digits|].
  rewrite <- (IH (S k)) by lia. f_equal. unfold u64. rewrite Z.shiftl_mul_pow2, Nat2Z.inj_succ, Z.pow_succ_r by lia.
  replace ((d * 2 ^ 60 + x * 16 ^ Z.of_nat k) * 2 ^ 4) with (x * (16 * 16 ^ Z.of_nat k) + d * 2 ^ 64) by lia.
  rewrite Z.mod_add, Z.mod_small by lia. done.
Qed.
Lemma printptr_padded x l : padded 16 16 x l -> KPrintf.printptr x = chars "0x" ++ l.
Proof. intros Hp. unfold KPrintf.printptr. by rewrite <- (nibbles_padded 16 x l 0 Hp eq_refl), Z.mul_1_r. Qed.

Lemma formats_chr fmt args l : formats fmt args l -> Forall chr l.
Proof.
  assert (H0 : forall t, forallb (fun c => (0 <? c) && (c <? 256)) (chars t) = true -> Forall chr (chars t)).
  { intros t Ht. apply Forall_forall. intros c Hc. rewrite forallb_forall in Ht. specialize (Ht c ltac:(by apply list_elem_of_In)). unfold chr. lia. }
  induction 1; rewrite ?Forall_app, ?Forall_cons; split_and?; try done; try (by eapply signed_numeral_chr); try (by unfold chr; lia).
  1-4: (eapply numeral_chr; [|eassumption]; lia).
  - by apply H0.
  - by eapply padded_chr.
  - by apply H0.
Qed.
