(* ===== verification/Printf.v ===== *)
(** * kernel/printf.c and [consputc]: kernel messages

    [printf] sends characters to the UART, byte by byte as it reads the format, under
    [pr.lock]; what they are is said by [formats] in [Format.v].  A [printint] that
    overruns its stack buffer is a fault, and so is a missing argument.  Elsewhere
    in the development a kernel panic is the outcome [Stop (SPanic msg)];
    [kpanic] is the function of printf.c, which prints before it stops. *)

From stdpp Require Import base list gmap strings.
From Stdlib Require Import ZArith Lia.
From S2P Require Import Prelude Mem Riscv State Sched Ring Uart Format.
Open Scope Z_scope.

Definition BACKSPACE : Z := 0x100.

Definition consputc (c : Z) : K unit :=
  if c =? BACKSPACE then uartputc_sync 8 ;; uartputc_sync 32 ;; uartputc_sync 8
  else uartputc_sync c.

(** [printint] with the digits sent. *)
Definition put_int (xx base : Z) (sign : bool) : K unit :=
  match KPrintf.printint xx base sign with Some l => for_each l consputc | None => fault "printint" end.

(** The loop over the format; ['%'] = 37, ['d'] = 100, ['l'] = 108, ['u'] = 117,
    ['x'] = 120, ['p'] = 112, ['s'] = 115. *)
Fixpoint printf_loop (fuel : nat) (fmt : list Z) (args : list arg) : K unit :=
  match fuel with
  | O => nofuel
  | S fuel =>
      let cx := nth0 fmt 0 in
      if cx =? 0 then skip else
      if negb (cx =? 37) then consputc cx ;; printf_loop fuel (drop 1 fmt) args else
      let fmt := drop 1 fmt in
      let c0 := nth0 fmt 0 in
      let c1 := if c0 =? 0 then 0 else nth0 fmt 1 in
      let c2 := if c1 =? 0 then 0 else nth0 fmt 2 in
      let int_arg base sign := '(v, args) ← need "va_arg" (va_int args); put_int v base sign ;; printf_loop fuel (drop 1 fmt) args in
      let long_arg skip base sign :=
        '(v, args) ← need "va_arg" (va_u64 args); put_int (s64 v) base sign ;; printf_loop fuel (drop skip fmt) args in
      if c0 =? 100 then int_arg 10 true
      else if (c0 =? 108) && (c1 =? 100) then long_arg 2%nat 10 true
      else if (c0 =? 108) && (c1 =? 108) && (c2 =? 100) then long_arg 3%nat 10 true
      else if c0 =? 117 then int_arg 10 false
      else if (c0 =? 108) && (c1 =? 117) then long_arg 2%nat 10 false
      else if (c0 =? 108) && (c1 =? 108) && (c2 =? 117) then long_arg 3%nat 10 false
      else if c0 =? 120 then int_arg 16 false
      else if (c0 =? 108) && (c1 =? 120) then long_arg 2%nat 16 false
      else if (c0 =? 108) && (c1 =? 108) && (c2 =? 120) then long_arg 3%nat 16 false
      else if c0 =? 112 then
        '(v, args) ← need "va_arg" (va_u64 args); for_each (KPrintf.printptr v) consputc ;; printf_loop fuel (drop 1 fmt) args
      else if c0 =? 115 then
        '(t, args) ← need "va_arg" (va_str args); for_each (default (chars "(null)") t) consputc ;; printf_loop fuel (drop 1 fmt) args
      else if c0 =? 37 then consputc 37 ;; printf_loop fuel (drop 1 fmt) args
      else if c0 =? 0 then skip
      else consputc 37 ;; consputc c0 ;; printf_loop fuel (drop 1 fmt) args
  end.

Definition printf (fmt : list Z) (args : list arg) : K Z :=
  locking ← gets k_locking;
  (if locking : bool then acquire L_pr else skip) ;;
  printf_loop (S (length fmt)) fmt args ;;
  (if locking : bool then release L_pr else skip) ;;
  mret 0.

Definition kpanic {A} (msg : string) : K A :=
  modify (set_k_locking false) ;;
  printf (chars "panic: ") [] ;;
  printf (chars "%s" ++ [10]) [AStr (Some (chars msg))] ;;
  modify (set_k_panicked true) ;;
  panic msg.

Definition printfinit : K unit := modify (set_k_locking true).

(** ** What reaches the wire *)

(** From [s] to [s'] exactly the bytes [l] have been sent, and nothing else has happened. *)
Record sends (s s' : kstate) (l : list Z) : Prop := {
  se_frame : uart_frame s s';
  se_procs : k_procs s' = k_procs s;
  se_out : ut_out (k_uart s') = ut_out (k_uart s) ++ l;
  se_pending : uart_pending (k_uart s') = uart_pending (k_uart s)
}.

Lemma sends_nil s : sends s s [].
Proof. split; try done. by rewrite app_nil_r. Qed.
Lemma sends_app s1 s2 s3 l1 l2 : sends s1 s2 l1 -> sends s2 s3 l2 -> sends s1 s3 (l1 ++ l2).
Proof.
  intros [A1 A2 A3 A4] [B1 B2 B3 B4]. split; [by etrans|congruence| |congruence]. by rewrite B3, A3, app_assoc.
Qed.
Lemma sends_panicked s s' l : sends s s' l -> k_panicked s' = k_panicked s.
Proof. intros [[H _ _] _ _ _]. by rewrite H. Qed.

(** The UART waits until it can send, so every byte is sent, in order. *)
Lemma putc_wait_ok n s :
  (length (ut_lsr (k_uart s)) <= n)%nat ->
  exists l, loop (S n) (fun _ : unit =>
    lsr ← read_lsr; if Z.land lsr LSR_TX_IDLE =? 0 then mret (inl tt) else mret (inr tt)) tt s =
    Ret tt (set_k_uart (with_lsr false l (k_uart s)) s).
Proof.
  revert s. induction n as [|n IH]; intros s Hl; destruct (read_lsr_ok s) as (v & b & l & R & Hv & Hb & Hle & _).
  all: assert (Ev : (Z.land v LSR_TX_IDLE =? 0) = b) by (unfold has in Hv; destruct (_ =? 0), b; done).
  - destruct b; [destruct (Hb eq_refl); lia|]. exists l. apply loop_break. kstep_by R. by rewrite Ev.
  - destruct b; [|exists l; apply loop_break; kstep_by R; by rewrite Ev].
    destruct (Hb eq_refl) as [_ Hlt]. destruct (IH (set_k_uart (with_lsr true l (k_uart s)) s)) as (l' & R'); [cbn; lia|].
    exists l'. etrans; [|exact R']. refine (loop_continue _ _ _ _ _ _ _). kstep_by R. by rewrite Ev.
Qed.

Lemma uartputc_sync_ok c s : k_panicked s = false -> exists s', uartputc_sync c s = Ret tt s' /\ sends s s' [u8 c].
Proof.
  intros Hp. destruct (putc_wait_ok (length (ut_lsr (k_uart s))) s ltac:(lia)) as (l & R).
  eexists. split; [unfold uartputc_sync; kstep; rewrite Hp; kstep; kstep_by R; reflexivity|]. split; [by split; [destruct s|..]|done|done|done].
Qed.

(** What [consputc] sends for a character. *)
Definition con_bytes (c : Z) : list Z := if c =? BACKSPACE then [8; 32; 8] else [u8 c].

Lemma consputc_ok c s : k_panicked s = false -> exists s', consputc c s = Ret tt s' /\ sends s s' (con_bytes c).
Proof.
  intros Hp. unfold consputc, con_bytes. destruct (c =? BACKSPACE); [|by apply uartputc_sync_ok].
  destruct (uartputc_sync_ok 8 s Hp) as (s1 & R1 & S1).
  destruct (uartputc_sync_ok 32 s1) as (s2 & R2 & S2); [by rewrite (sends_panicked _ _ _ S1)|].
  destruct (uartputc_sync_ok 8 s2) as (s3 & R3 & S3); [by rewrite (sends_panicked _ _ _ S2), (sends_panicked _ _ _ S1)|].
  exists s3. split; [kstep_by R1; kstep_by R2; exact R3|]. exact (sends_app _ _ _ _ _ S1 (sends_app _ _ _ _ _ S2 S3)).
Qed.

Lemma consputc_chr c s : chr c -> k_panicked s = false -> exists s', consputc c s = Ret tt s' /\ sends s s' [c].
Proof.
  intros Hc Hp. destruct (consputc_ok c s Hp) as (s' & R & S). exists s'. split; [done|]. unfold con_bytes in S. unfold chr in Hc.
  rewrite (proj2 (Z.eqb_neq c BACKSPACE)), u8_small in S by (unfold BACKSPACE; lia). done.
Qed.
Lemma consputc_all l s : Forall chr l -> k_panicked s = false -> exists s', for_each l consputc s = Ret tt s' /\ sends s s' l.
Proof.
  intros Hl. revert s. induction Hl as [|c l Hc Hl IH]; intros s Hp; cbn [for_each]; [exists s; split; [done|apply sends_nil]|].
  destruct (consputc_chr c s Hc Hp) as (s1 & R1 & S1). destruct (IH s1) as (s2 & R2 & S2); [by rewrite (sends_panicked _ _ _ S1)|].
  exists s2. split; [kstep_by R1; exact R2|]. exact (sends_app _ _ _ _ _ S1 S2).
Qed.

(** One turn of the loop sends [n], what is left of the format says [l]. *)
Definition will_send (r : K unit) (l : list Z) : Prop := forall s, k_panicked s = false -> exists s', r s = Ret tt s' /\ sends s s' l.

Lemma will_send_bind (m r : K unit) n l : will_send m n -> will_send r l -> will_send (m ;; r) (n ++ l).
Proof.
  intros Hm Hr s Hp. destruct (Hm s Hp) as (s1 & R1 & S1). destruct (Hr s1) as (s2 & R2 & S2); [by rewrite (sends_panicked _ _ _ S1)|].
  exists s2. split; [by kstep_by R1|by eapply sends_app].
Qed.
Lemma will_send_char c r l : chr c -> will_send r l -> will_send (consputc c ;; r) (c :: l).
Proof. intros Hc Hr. apply (will_send_bind _ _ [c]); [|done]. intros s Hp. by apply consputc_chr. Qed.
Lemma will_send_all n r l : Forall chr n -> will_send r l -> will_send (for_each n consputc ;; r) (n ++ l).
Proof. intros Hn. apply will_send_bind. intros s Hp. by apply consputc_all. Qed.
Lemma will_send_int x base sign n r l : KPrintf.printint x base sign = Some n -> Forall chr n -> will_send r l ->
  will_send (put_int x base sign ;; r) (n ++ l).
Proof. intros E Hn. apply will_send_bind. intros s Hp. unfold put_int. rewrite E. by apply consputc_all. Qed.

(** The tests of [printf_loop] on a sequence that is no directive. *)
Lemma unknown_tests c fmt : chr c -> Forall (fun d => ~ d `prefix_of` c :: fmt) directives ->
  forall (A : Type) (a1 a2 a3 a4 a5 a6 a7 a8 a9 a10 a11 a12 a13 b : A),
  let c1 := if c =? 0 then 0 else nth0 (c :: fmt) 1 in
  let c2 := if c1 =? 0 then 0 else nth0 (c :: fmt) 2 in
  (if c =? 100 then a1 else if (c =? 108) && (c1 =? 100) then a2 else if (c =? 108) && (c1 =? 108) && (c2 =? 100) then a3
   else if c =? 117 then a4 else if (c =? 108) && (c1 =? 117) then a5 else if (c =? 108) && (c1 =? 108) && (c2 =? 117) then a6
   else if c =? 120 then a7 else if (c =? 108) && (c1 =? 120) then a8 else if (c =? 108) && (c1 =? 108) && (c2 =? 120) then a9
   else if c =? 112 then a10 else if c =? 115 then a11 else if c =? 37 then a12 else if c =? 0 then a13 else b) = b.
Proof.
  intros Hc Hd A. intros. assert (Hpre : forall d, d ∈ directives -> ~ d `prefix_of` c :: fmt) by (by apply Forall_forall).
  assert (H1 : forall x, [x] ∈ directives -> (c =? x) = false).
  { intros x Hx. apply Z.eqb_neq. intros ->. apply (Hpre _ Hx). by exists fmt. }
  assert (H2 : forall x, 0 < x -> [108; x] ∈ directives -> (c =? 108) && (c1 =? x) = false).
  { intros x Hx0 Hx. apply andb_false_iff. destruct (Z.eqb_spec c 108) as [->|]; [right|by left]. apply Z.eqb_neq. unfold c1. cbn. intros E.
    apply (Hpre _ Hx). destruct fmt as [|y fmt]; cbn in E; [lia|]. subst y. by exists fmt. }
  assert (H3 : forall x, 0 < x -> [108; 108; x] ∈ directives -> (c =? 108) && (c1 =? 108) && (c2 =? x) = false).
  { intros x Hx0 Hx. apply andb_false_iff. destruct (Z.eqb_spec c 108) as [->|]; [|by left]. unfold c2, c1. cbn.
    destruct fmt as [|y [|z fmt]]; cbn; [by left| |].
    - right. apply Z.eqb_neq. destruct (y =? 0); lia.
    - destruct (Z.eqb_spec y 108) as [->|]; [right|by left]. apply Z.eqb_neq. cbn. intros ->. apply (Hpre _ Hx). by exists fmt. }
  unfold chr in Hc. rewrite (H1 100), (H1 117), (H1 120), (H1 112), (H1 115), (H1 37), (H2 100), (H2 117), (H2 120), (H3 100), (H3 117), (H3 120),
    (proj2 (Z.eqb_neq c 0)) by first [lia | apply list_elem_of_In; vm_compute; tauto]. done.
Qed.

Lemma s64_u64 v : s64 (u64 v) = s64 v.
Proof. unfold s64, u64, signed. by rewrite Z.mod_mod. Qed.
Lemma u64_s64 v : u64 (s64 v) = u64 v.
Proof.
  unfold s64, u64, signed. destruct (_ <? _); [by apply Z.mod_mod|]. rewrite Zminus_mod_idemp_l.
  replace (v - 2 ^ 64) with (v + (-1) * 2 ^ 64) by lia. by rewrite Z.mod_add.
Qed.
Lemma s64_range v : - 2 ^ 63 <= s64 v < 2 ^ 63.
Proof.
  unfold s64, signed. pose proof (Z.mod_pos_bound v (2 ^ 64) ltac:(lia)). change (64 - 1) with 63.
  destruct (Z.ltb_spec (v mod 2 ^ 64) (2 ^ 63)); lia.
Qed.

(** By cases of [H : d ∈ [...]]. *)
Ltac each_of H tac := repeat (apply elem_of_cons in H as [->|H]; [tac|]); by apply not_elem_of_nil in H.

Lemma printf_sends fmt args l : formats fmt args l -> forall fuel, (length fmt < fuel)%nat -> will_send (printf_loop fuel fmt args) l.
Proof.
  induction 1 as [args|c fmt args l Hc Hne Hf IH|v n fmt args l Hn Hf IH|d v n fmt args l Hd Hn Hl Hf IH|v n fmt args l Hn Hl Hf IH
    |d v n fmt args l Hd Hn Hl Hf IH|v n fmt args l Hn Hf IH|d v n fmt args l Hd Hn Hf IH|v n fmt args l Hn Hf IH|t fmt args l Ht Hf IH
    |fmt args l Hf IH|fmt args l Hf IH|c fmt args l Hc Hd Hf IH|args]; intros fuel Hfu; destruct fuel as [|fuel]; try lia.
  all: try (rewrite length_app in Hfu); cbn [length] in Hfu.
  - intros s Hp. exists s. split; [done|apply sends_nil].
  - cbn [printf_loop]. change (nth0 (c :: fmt) 0) with c. change (drop 1 (c :: fmt)) with fmt.
    unfold chr in Hc. rewrite (proj2 (Z.eqb_neq c 0)), (proj2 (Z.eqb_neq c 37)) by lia. cbn [negb]. apply will_send_char; [done|]. apply IH. lia.
  - apply (will_send_int (s32 v) 10 true n (printf_loop fuel fmt args)); [|by eapply signed_numeral_chr|apply IH; cbn in Hfu; lia].
    pose proof (s32_range v). apply printint_signed; [lia|done|]. by eapply signed_numeral_32.
  - assert (Hd0 : length (chars d) <> 0%nat) by each_of Hd ltac:(done).
    assert (Hi : will_send (put_int (s64 (u64 v)) 10 true ;; printf_loop fuel fmt args) (n ++ l)).
    { rewrite s64_u64. apply will_send_int; [|by eapply signed_numeral_chr|apply IH; lia]. pose proof (s64_range v). by apply printint_signed. }
    each_of Hd ltac:(exact Hi).
  - apply (will_send_int (s32 v) 10 false n (printf_loop fuel fmt args)); [|eapply numeral_chr; [|exact Hn]; lia|apply IH; cbn in Hfu; lia].
    by apply printint_unsigned.
  - assert (Hd0 : length (chars d) <> 0%nat) by each_of Hd ltac:(done).
    assert (Hi : will_send (put_int (s64 (u64 v)) 10 false ;; printf_loop fuel fmt args) (n ++ l)).
    { apply will_send_int; [|eapply numeral_chr; [|exact Hn]; lia|apply IH; lia]. apply printint_unsigned; [lia| |done]. by rewrite u64_s64, u64_u64. }
    each_of Hd ltac:(exact Hi).
  - apply (will_send_int (s32 v) 16 false n (printf_loop fuel fmt args)); [|eapply numeral_chr; [|exact Hn]; lia|apply IH; cbn in Hfu; lia].
    pose proof (u64_range (s32 v)). apply printint_unsigned; [lia|done|]. apply (numeral_length 16 _ _ 16 ltac:(lia) Hn ltac:(lia)). change (16 ^ Z.of_nat 16) with (2 ^ 64). lia.
  - assert (Hd0 : length (chars d) <> 0%nat) by each_of Hd ltac:(done).
    assert (Hi : will_send (put_int (s64 (u64 v)) 16 false ;; printf_loop fuel fmt args) (n ++ l)).
    { apply will_send_int; [|eapply numeral_chr; [|exact Hn]; lia|apply IH; lia]. pose proof (u64_range v).
      apply printint_unsigned; [lia|by rewrite u64_s64, u64_u64|]. apply (numeral_length 16 _ _ 16 ltac:(lia) Hn ltac:(lia)). change (16 ^ Z.of_nat 16) with (2 ^ 64). lia. }
    each_of Hd ltac:(exact Hi).
  - rewrite app_assoc, <- (printptr_padded (u64 v) n Hn). apply (will_send_all (KPrintf.printptr (u64 v)) (printf_loop fuel fmt args)); [|apply IH; cbn in Hfu; lia].
    rewrite (printptr_padded (u64 v) n Hn). apply Forall_app. split; [repeat constructor|by eapply padded_chr].
  - apply (will_send_all t (printf_loop fuel fmt args)); [done|apply IH; cbn in Hfu; lia].
  - apply (will_send_all (chars "(null)") (printf_loop fuel fmt args)); [repeat constructor|apply IH; cbn in Hfu; lia].
  - apply (will_send_char 37 (printf_loop fuel fmt args)); [done|apply IH; cbn in Hfu; lia].
  - assert (Hi : will_send (consputc 37 ;; consputc c ;; printf_loop fuel fmt args) (37 :: c :: l)).
    { apply will_send_char; [done|]. apply will_send_char; [done|]. apply IH. lia. }
    cbn [printf_loop]. change (nth0 (37 :: c :: fmt) 0) with 37. cbn [drop Z.eqb Pos.eqb negb]. change (nth0 (c :: fmt) 0) with c.
    by rewrite (unknown_tests c fmt Hc Hd).
  - intros s Hp. exists s. split; [done|apply sends_nil].
Qed.

Lemma kprintf_ok fmt args s l :
  k_panicked s = false -> L_pr ∉ k_held s -> formats fmt args l -> exists s', printf fmt args s = Ret 0 s' /\ sends s s' l.
Proof.
  intros Hp Hh Hf. pose proof (printf_sends _ _ _ Hf (S (length fmt)) ltac:(lia)) as Hs. unfold printf. kstep. destruct (k_locking s).
  - destruct (Hs (set_k_held (L_pr :: k_held s) s) Hp) as (s1 & R1 & [F1 P1 O1 Q1]).
    exists (set_k_held (k_held s) s1). split.
    + kstep_by acquire_ok; [|done]. kstep_by R1. kstep_by release_top; [done|by rewrite (uf_only _ _ F1)|done].
    + destruct F1 as [A1 A2 A3]. split; try done. split; try done. rewrite A1. by destruct s.
  - destruct (Hs s Hp) as (s1 & R1 & S1). exists s1. split; [|done]. kstep. kstep_by R1. done.
Qed.

(** Text without a directive. *)
Lemma formats_text t args : Forall (fun c => chr c /\ c <> 37) t -> formats t args t.
Proof. induction 1 as [|c t [Hc Hne] Ht IH]; [constructor|by constructor]. Qed.

(** C32: Kernel [printf] sends over the wire exactly what the format says of its arguments, in order and uninterleaved:
    numbers as their numerals in the right base and signedness, pointers with all their digits, strings, [%%], and unknown sequences
    as they are; it returns 0 and leaves buffered output and everything else alone. *)
Theorem kprintf_spec fmt args s l :
  k_panicked s = false -> L_pr ∉ k_held s -> formats fmt args l -> exists s', printf fmt args s = Ret 0 s' /\ sends s s' l.
Proof. apply kprintf_ok. Qed.

(** ["pid %d: 100%% %s %x"] of -17, a null string and 255. *)
Lemma kprintf_spec_witness :
  exists s', printf (chars "pid %d: 100%% %s %x") [ANum (-17); AStr None; ANum 255] boot_state = Ret 0 s' /\
    sends boot_state s' (chars "pid -17: 100% (null) ff").
Proof.
  apply kprintf_spec; [reflexivity|apply not_elem_of_nil|].
  do 4 (apply formats_char; [done|done|]).
  apply (formats_d (-17) (chars "-17")).
  { right. split; [done|]. exists (chars "17"). split; [reflexivity|]. apply (numeral_snoc 10 1 [49] 7); [lia|by apply (numeral_digit 10 1)|lia]. }
  do 5 (apply formats_char; [done|done|]). apply formats_percent.
  apply formats_char; [done|done|]. apply formats_null. apply formats_char; [done|done|].
  apply (formats_x 255 (chars "ff")); [|constructor]. apply (numeral_snoc 16 15 [102] 15); [lia|by apply (numeral_digit 16 15)|lia].
Defined.
