(* ===== verification/Kalloc.v ===== *)
(** * kernel/kalloc.c: the physical page allocator

    The free list is threaded through the free pages themselves: the first
    word of a free page is the address of the next one.  [kmem_ok s l] relates
    that chain to the list [l] of free pages, which is what the callers need. *)

From stdpp Require Import base list gmap strings.
From Stdlib Require Import ZArith Lia.
From S2P Require Import Prelude Mem KString Riscv State Sched.
Open Scope Z_scope.

Section Kalloc.
Context {L : Layout}.

(** ** Definitions *)

Definition kfree (pa : Z) : K unit :=
  if negb (pa mod PGSIZE =? 0) || (pa <? kend) || (PHYSTOP <=? pa)
  then panic "kfree" else
  mod_mem (fun m => memset m pa 1 PGSIZE) ;;
  acquire L_kmem ;;
  fl ← gets k_freelist;
  st64 pa fl ;;
  modify (set_k_freelist pa) ;;
  release L_kmem.

Definition kalloc : K Z :=
  acquire L_kmem ;;
  r ← gets k_freelist;
  (if negb (r =? 0) then nxt ← ld64 r; modify (set_k_freelist nxt) else skip) ;;
  release L_kmem ;;
  (if negb (r =? 0) then mod_mem (fun m => memset m r 5 PGSIZE) else skip) ;;
  mret r.

Definition freerange (pa_start pa_end : Z) : K unit :=
  loop (S (Z.to_nat ((pa_end - PGROUNDUP pa_start) / PGSIZE))) (fun p =>
    if p + PGSIZE <=? pa_end then kfree p ;; mret (inl (p + PGSIZE))
    else mret (inr tt)) (PGROUNDUP pa_start).

Definition kinit : K unit := freerange kend PHYSTOP.

(** ** The free list *)

Definition page_ok (pa : Z) : Prop := pa mod PGSIZE = 0 /\ kend <= pa < PHYSTOP.

Fixpoint freelist_at (m : mem) (h : Z) (l : list Z) : Prop :=
  match l with
  | [] => h = 0
  | p :: l => h = p /\ freelist_at m (load64 m p) l
  end.

Record kmem_ok (s : kstate) (l : list Z) : Prop := {
  km_list : freelist_at (k_mem s) (k_freelist s) l;
  km_nodup : NoDup l;
  km_pages : Forall page_ok l
}.

Lemma pages_apart p q :
  p mod PGSIZE = 0 -> q mod PGSIZE = 0 -> p <> q -> p + PGSIZE <= q \/ q + PGSIZE <= p.
Proof.
  unfold PGSIZE. intros Hp Hq Hne. apply Z.div_exact in Hp, Hq; lia.
Qed.

(** The chain only depends on the first words of its pages. *)
Lemma freelist_frame m m' h l :
  (forall p, p ∈ l -> load64 m' p = load64 m p) ->
  freelist_at m h l -> freelist_at m' h l.
Proof.
  revert h. induction l as [|p l IH]; intros h Hm; cbn; [done|].
  intros [-> Hl]. split; [done|]. rewrite Hm by set_solver. apply IH; [|done].
  intros q Hq. apply Hm. set_solver.
Qed.

(** Writes into a page that is not free leave the free list alone. *)
Lemma kmem_ok_frame s s' l :
  k_freelist s' = k_freelist s ->
  (forall p i, p ∈ l -> 0 <= i < 8 -> mget (k_mem s') (p + i) = mget (k_mem s) (p + i)) ->
  kmem_ok s l -> kmem_ok s' l.
Proof.
  intros Hf Hm [Hl Hnd Hp]. split; [|done|done]. rewrite Hf.
  apply freelist_frame with (k_mem s); [|done].
  intros p Hin. apply load_ext. intros i Hi. apply Hm; done.
Qed.

Context `{!LayoutOk L}.

Lemma page_ok_pos p : page_ok p -> KERNBASE < p.
Proof. intros [_ H]. pose proof etext_lo. pose proof kend_lo. lia. Qed.

Lemma page_ok_range p : page_ok p -> KERNBASE < p /\ p + PGSIZE <= PHYSTOP /\ p mod PGSIZE = 0.
Proof.
  intros H. pose proof (page_ok_pos p H). destruct H as [Ha H].
  split; [done|]. split; [|done]. unfold PHYSTOP, KERNBASE, PGSIZE in *.
  apply Z.div_exact in Ha; lia.
Qed.

Lemma load64_memset_other m p c q :
  p mod PGSIZE = 0 -> q mod PGSIZE = 0 -> p <> q ->
  load64 (memset m p c PGSIZE) q = load64 m q.
Proof.
  intros Hp Hq Hne. apply load_memset_out; [done|].
  destruct (pages_apart p q Hp Hq Hne); unfold PGSIZE in *; lia.
Qed.

(** ** kalloc *)

Definition after_kalloc (p : Z) (s : kstate) : kstate :=
  set_k_mem (memset (k_mem s) p 5 PGSIZE) (set_k_freelist (load64 (k_mem s) p) s).

Lemma kalloc_some s p l :
  kmem_ok s (p :: l) -> L_kmem ∉ k_held s ->
  kalloc s = Ret p (after_kalloc p s) /\ kmem_ok (after_kalloc p s) l.
Proof.
  intros [[Hh Hl] Hnd Hp] Hlk. apply NoDup_cons in Hnd as [Hnin Hnd].
  apply Forall_cons in Hp as [Hp1 Hp2]. pose proof (page_ok_pos _ Hp1).
  unfold kalloc. split.
  - kstep. kstep. cbn [k_freelist set_k_held]. rewrite Hh.
    assert ((p =? 0) = false) as -> by (apply Z.eqb_neq; unfold KERNBASE in *; lia). cbn [negb].
    erewrite bind_Ret.
    2: { unfold ld64. kstep. unfold modify. reflexivity. }
    cbn beta. kstep. kstep. unfold mret, m_ret. by f_equal; destruct s.
  - split; [|done|done]. apply freelist_frame with (k_mem s); [|done]. cbn.
    intros q Hq. apply load64_memset_other.
    + apply Hp1.
    + rewrite Forall_forall in Hp2. by apply Hp2.
    + intros ->. done.
Qed.

Lemma kalloc_none s :
  kmem_ok s [] -> L_kmem ∉ k_held s -> kalloc s = Ret 0 s.
Proof.
  intros [Hh _ _] Hlk. cbn in Hh. unfold kalloc. kstep. kstep. cbn [k_freelist set_k_held].
  rewrite Hh. cbn [Z.eqb negb]. kstep. kstep. kstep. unfold mret, m_ret. by f_equal; destruct s.
Qed.

(** ** kfree *)

Definition after_kfree (p : Z) (s : kstate) : kstate :=
  set_k_freelist p
    (set_k_mem (store64 (memset (k_mem s) p 1 PGSIZE) p (k_freelist s)) s).

Lemma freelist_head_range m h l :
  Forall page_ok l -> freelist_at m h l -> 0 <= h < 2 ^ 64.
Proof.
  destruct l as [|p l]; cbn; intros Hp.
  - intros ->. lia.
  - intros [-> _]. inversion Hp as [|? ? Hp1 _]; subst.
    pose proof (page_ok_range _ Hp1). unfold KERNBASE, PHYSTOP, KERNBASE, PGSIZE in *. lia.
Qed.

Lemma kfree_ok s p l :
  kmem_ok s l -> page_ok p -> p ∉ l -> L_kmem ∉ k_held s ->
  kfree p s = Ret tt (after_kfree p s) /\ kmem_ok (after_kfree p s) (p :: l).
Proof.
  intros Hok Hp Hnin Hlk. destruct Hok as [Hl Hnd Hpg]. pose proof Hp as [Ha Hr].
  unfold kfree. split.
  - rewrite Ha. cbn [Z.eqb negb orb].
    destruct (Z.ltb_spec p kend); [lia|]. destruct (Z.leb_spec PHYSTOP p); [lia|]. cbn [orb].
    kstep. kstep. kstep. kstep. kstep. erewrite release_top; [|done|done]. by f_equal; destruct s.
  - split; [|by constructor|by constructor]. cbn. split; [done|].
    rewrite load64_store64, u64_small by (eapply freelist_head_range; eauto).
    apply freelist_frame with (k_mem s); [|done].
    intros q Hq. rewrite Forall_forall in Hpg. destruct (Hpg q Hq) as [Hqa _].
    assert (p <> q) by (intros ->; done).
    rewrite load_store_disjoint; [by apply load64_memset_other|].
    destruct (pages_apart p q); unfold PGSIZE in *; lia.
Qed.

Lemma kfree_panic s p : ~ page_ok p -> kfree p s = Stop (SPanic "kfree") s.
Proof.
  intros Hn. unfold kfree, page_ok in *.
  destruct (Z.eqb_spec (p mod PGSIZE) 0), (Z.ltb_spec p kend), (Z.leb_spec PHYSTOP p);
    cbn; try done. exfalso. apply Hn. lia.
Qed.

(** ** freerange *)

(** The pages from [p] on, [n] of them, in the order they end up on the list. *)
Fixpoint pages_from (p : Z) (n : nat) : list Z :=
  match n with O => [] | S n => p :: pages_from (p + PGSIZE) n end.

Lemma elem_of_pages_from p n q :
  q ∈ pages_from p n <-> exists i, (i < n)%nat /\ q = p + Z.of_nat i * PGSIZE.
Proof.
  revert p. induction n as [|n IH]; intros p; cbn [pages_from].
  - rewrite elem_of_nil. naive_solver lia.
  - rewrite elem_of_cons, IH. split.
    + intros [->|(i & Hi & ->)]; [exists O; lia|exists (S i); lia].
    + intros ([|i] & Hi & ->); [left; lia|right; exists i; lia].
Qed.

Lemma freerange_loop s p pa_end n l :
  kmem_ok s l -> L_kmem ∉ k_held s -> p mod PGSIZE = 0 -> kend <= p -> pa_end <= PHYSTOP ->
  (forall q, q ∈ pages_from p n -> q ∉ l) ->
  p + Z.of_nat n * PGSIZE <= pa_end < p + (Z.of_nat n + 1) * PGSIZE ->
  exists s', loop (S n) (fun p =>
    if p + PGSIZE <=? pa_end then kfree p ;; mret (inl (p + PGSIZE))
    else mret (inr tt)) p s = Ret tt s' /\
    kmem_ok s' (rev (pages_from p n) ++ l) /\ k_held s' = k_held s.
Proof.
  revert s p l. induction n as [|n IH]; intros s p l Hok Hlk Ha Hlo Hhi Hnin Hn.
  - exists s. split_and!; [|done|done]. apply loop_break.
    destruct (Z.leb_spec (p + PGSIZE) pa_end); [lia|done].
  - assert (Hp : page_ok p) by (split; [done|unfold PGSIZE in *; lia]).
    destruct (kfree_ok s p l Hok Hp) as [Hrun Hok'].
    { apply Hnin. cbn. set_solver. } { done. }
    destruct (IH (after_kfree p s) (p + PGSIZE) (p :: l)) as (s' & Hloop & Hok2 & Hh).
    + done.
    + done.
    + unfold PGSIZE in *. rewrite Z.add_mod, Ha by lia. done.
    + unfold PGSIZE in *. lia.
    + done.
    + intros q Hq. rewrite not_elem_of_cons. split.
      * apply elem_of_pages_from in Hq as (i & Hi & ->). unfold PGSIZE. lia.
      * apply Hnin. cbn. set_solver.
    + lia.
    + exists s'. split_and!; [|by cbn; rewrite <- app_assoc|by rewrite Hh].
      erewrite loop_continue; [exact Hloop|].
      destruct (Z.leb_spec (p + PGSIZE) pa_end); [|unfold PGSIZE in *; lia].
      kstep_by Hrun. done.
Qed.

End Kalloc.
