(* ===== verification/Vm.v ===== *)
(** * kernel/vm.c: page tables and user memory

    Definitions only; [PtRep.v], [Uvm.v] and [CopyUser.v] hold the theorems.
    Page tables live in RAM, as in the kernel: a table is the physical address
    of a page of 512 little-endian PTEs.  A kernel-side buffer handed to
    [copyout] is a list of bytes, and [copyin]/[copyinstr] return the bytes they
    stored next to their status.  The build defines LAB_PGTBL. *)

From stdpp Require Import base list gmap strings.
From Stdlib Require Import ZArith Lia.
From S2P Require Import Prelude Mem KString Riscv State Sched Kalloc Format Printf.
Open Scope Z_scope.

Section Vm.
Context {L : Layout}.

(** One round of [walk]'s loop: the next table ([inl]), or the result ([inr]). *)
Definition walk_step (alloc : bool) (va level pagetable : Z) : K (Z + Z) :=
  let pte := pagetable + 8 * PX level va in
  v ← ld64 pte;
  if has v PTE_V then
    if negb (PTE_LEAF v =? 0) then mret (inr pte) else mret (inl (PTE2PA v))
  else if negb alloc then mret (inr 0) else
    p ← kalloc;
    if p =? 0 then mret (inr 0) else
    mod_mem (fun m => memset m p 0 PGSIZE) ;;
    st64 pte (Z.lor (PA2PTE p) PTE_V) ;;
    mret (inl p).

Fixpoint walk_loop (alloc : bool) (va : Z) (level : nat) (pagetable : Z) : K Z :=
  match level with
  | O => mret (pagetable + 8 * PX 0 va)
  | S level' =>
      r ← walk_step alloc va (Z.of_nat level) pagetable;
      match r with
      | inl pagetable' => walk_loop alloc va level' pagetable'
      | inr a => mret a
      end
  end.

Definition walk (pagetable va : Z) (alloc : bool) : K Z :=
  if MAXVA <=? va then panic "walk" else walk_loop alloc va 2 pagetable.

Definition walkaddr (pagetable va : Z) : K Z :=
  if MAXVA <=? va then mret 0 else
  pte ← walk pagetable va false;
  if pte =? 0 then mret 0 else
  v ← ld64 pte;
  if negb (has v PTE_V) then mret 0 else
  if negb (has v PTE_U) then mret 0 else
  mret (PTE2PA v).

(** The body of [mappages]'s loop, for one page. *)
Definition mappages_step (pagetable last perm : Z) (apa : Z * Z) : K (Z * Z + Z) :=
  let '(a, pa) := apa in
  pte ← walk pagetable a true;
  if pte =? 0 then mret (inr (-1)) else
  v ← ld64 pte;
  if has v PTE_V then panic "mappages: remap" else
  st64 pte (Z.lor (Z.lor (PA2PTE pa) perm) PTE_V) ;;
  if a =? last then mret (inr 0)
  else mret (inl (u64 (a + PGSIZE), u64 (pa + PGSIZE))).

Definition mappages (pagetable va size pa perm : Z) : K Z :=
  if negb (va mod PGSIZE =? 0) then panic "mappages: va not aligned" else
  if negb (size mod PGSIZE =? 0) then panic "mappages: size not aligned" else
  if size =? 0 then panic "mappages: size" else
  let last := u64 (va + size - PGSIZE) in
  loop (Z.to_nat (size / PGSIZE)) (mappages_step pagetable last perm) (va, pa).

Definition kvmmap (kpgtbl va pa sz perm : Z) : K unit :=
  r ← mappages kpgtbl va sz pa perm;
  if negb (r =? 0) then panic "kvmmap" else skip.

Definition uvmunmap_step (pagetable stop_ : Z) (do_free : bool) (a : Z) : K (Z + unit) :=
  if a <? stop_ then
    pte ← walk pagetable a false;
    if pte =? 0 then panic "uvmunmap: walk" else
    v ← ld64 pte;
    if negb (has v PTE_V) then
      printf (chars "va=%ld pte=%ld" ++ [10]) [ANum a; ANum v] ;;
      panic "uvmunmap: not mapped" else
    if PTE_FLAGS v =? PTE_V then panic "uvmunmap: not a leaf" else
    (if do_free then kfree (PTE2PA v) else skip) ;;
    st64 pte 0 ;;
    mret (inl (u64 (a + PGSIZE)))
  else mret (inr tt).

Definition uvmunmap (pagetable va npages : Z) (do_free : bool) : K unit :=
  if negb (va mod PGSIZE =? 0) then panic "uvmunmap: not aligned" else
  loop (S (Z.to_nat npages))
       (uvmunmap_step pagetable (u64 (va + npages * PGSIZE)) do_free) va.

Definition uvmcreate : K Z :=
  pagetable ← kalloc;
  if pagetable =? 0 then mret 0 else
  mod_mem (fun m => memset m pagetable 0 PGSIZE) ;;
  mret pagetable.

(** [kalloc]'s result is not checked: address 0 faults. *)
Definition uvmfirst (pagetable : Z) (src : list Z) : K unit :=
  if PGSIZE <=? Z.of_nat (length src) then panic "uvmfirst: more than a page" else
  mem ← kalloc;
  if mem =? 0 then fault "uvmfirst: memset(0)" else
  mod_mem (fun m => memset m mem 0 PGSIZE) ;;
  mappages pagetable 0 PGSIZE mem (Z.lor (Z.lor (Z.lor PTE_W PTE_R) PTE_X) PTE_U) ;;
  mod_mem (fun m => mwrite m mem src).

Definition uvmdealloc (pagetable oldsz newsz : Z) : K Z :=
  if oldsz <=? newsz then mret oldsz else
  (if PGROUNDUP newsz <? PGROUNDUP oldsz then
     let npages := s32 ((PGROUNDUP oldsz - PGROUNDUP newsz) / PGSIZE) in
     uvmunmap pagetable (PGROUNDUP newsz) (u64 npages) true
   else skip) ;;
  mret newsz.

Definition uvmalloc_step (pagetable oldsz newsz xperm a : Z) : K (Z + Z) :=
  if a <? newsz then
    mem ← kalloc;
    if mem =? 0 then
      uvmdealloc pagetable a oldsz ;; mret (inr 0)
    else
    mod_mem (fun m => memset m mem 0 PGSIZE) ;;
    r ← mappages pagetable a PGSIZE mem (Z.lor (Z.lor PTE_R PTE_U) xperm);
    if negb (r =? 0) then
      kfree mem ;; uvmdealloc pagetable a oldsz ;; mret (inr 0)
    else mret (inl (u64 (a + PGSIZE)))
  else mret (inr newsz).

Definition uvmalloc (pagetable oldsz newsz xperm : Z) : K Z :=
  if newsz <? oldsz then mret oldsz else
  let oldsz := PGROUNDUP oldsz in
  loop (S (S (Z.to_nat ((newsz - oldsz) / PGSIZE))))
       (uvmalloc_step pagetable oldsz newsz xperm) oldsz.

(** The body of [freewalk]'s loop, for entry [i]; [rec] is the recursive call. *)
Definition freewalk_entry (rec : Z -> K unit) (pagetable : Z) (i : nat) : K unit :=
  let a := pagetable + 8 * Z.of_nat i in
  pte ← ld64 a;
  if has pte PTE_V && (Z.land pte (Z.lor (Z.lor PTE_R PTE_W) PTE_X) =? 0) then
    rec (PTE2PA pte) ;;
    st64 a 0
  else if has pte PTE_V then panic "freewalk: leaf" else skip.

(** [fuel] is the depth of the tree: 3 for an Sv39 table. *)
Fixpoint freewalk (fuel : nat) (pagetable : Z) : K unit :=
  match fuel with
  | O => nofuel
  | S fuel' =>
      for_each (seq 0 512) (freewalk_entry (freewalk fuel') pagetable) ;;
      kfree pagetable
  end.

Definition uvmfree (pagetable sz : Z) : K unit :=
  (if 0 <? sz then uvmunmap pagetable 0 (PGROUNDUP sz / PGSIZE) true else skip) ;;
  freewalk 3 pagetable.

Definition uvmcopy_step (old new sz i : Z) : K (Z + Z) :=
  let err := uvmunmap new 0 (i / PGSIZE) true ;; mret (inr (-1)) in
  if i <? sz then
    pte ← walk old i false;
    if pte =? 0 then panic "uvmcopy: pte should exist" else
    v ← ld64 pte;
    if negb (has v PTE_V) then panic "uvmcopy: page not present" else
    let pa := PTE2PA v in
    let flags := PTE_FLAGS v in
    mem ← kalloc;
    if mem =? 0 then err else
    mod_mem (fun m => memmove m mem pa PGSIZE) ;;
    r ← mappages new i PGSIZE mem flags;
    if negb (r =? 0) then kfree mem ;; err
    else mret (inl (u64 (i + PGSIZE)))
  else mret (inr 0).

Definition uvmcopy (old new sz : Z) : K Z :=
  loop (S (S (Z.to_nat (sz / PGSIZE)))) (uvmcopy_step old new sz) 0.

Definition uvmclear (pagetable va : Z) : K unit :=
  pte ← walk pagetable va false;
  if pte =? 0 then panic "uvmclear" else
  v ← ld64 pte;
  st64 pte (Z.land v (Z.lnot PTE_U)).

(** One page of [copyout]: the loop variables are [dstva] and what is left of
    [src]. *)
Definition copyout_step (pagetable : Z) (st : Z * list Z) : K (Z * list Z + Z) :=
  let '(dstva, src) := st in
  let len := Z.of_nat (length src) in
  if 0 <? len then
    let va0 := PGROUNDDOWN dstva in
    if MAXVA <=? va0 then mret (inr (-1)) else
    pte ← walk pagetable va0 false;
    if pte =? 0 then mret (inr (-1)) else
    v ← ld64 pte;
    if negb (has v PTE_W) then mret (inr (-1)) else
    pa0 ← walkaddr pagetable va0;
    if pa0 =? 0 then mret (inr (-1)) else
    let n := PGSIZE - (dstva - va0) in
    let n := if len <? n then len else n in
    mod_mem (fun m => mwrite m (pa0 + (dstva - va0)) (take (Z.to_nat n) src)) ;;
    mret (inl (u64 (va0 + PGSIZE), drop (Z.to_nat n) src))
  else mret (inr 0).

Definition copyout (pagetable dstva : Z) (src : list Z) : K Z :=
  loop (S (length src)) (copyout_step pagetable) (dstva, src).

(** One page of [copyin]: the loop variables are [srcva], [len] and the bytes
    already in [dst]. *)
Definition copyin_step (pagetable : Z) (st : Z * Z * list Z)
    : K (Z * Z * list Z + Z * list Z) :=
  let '(srcva, len, dst) := st in
  if 0 <? len then
    let va0 := PGROUNDDOWN srcva in
    pa0 ← walkaddr pagetable va0;
    if pa0 =? 0 then mret (inr (-1, dst)) else
    let n := PGSIZE - (srcva - va0) in
    let n := if len <? n then len else n in
    bs ← gets (fun s => mread (k_mem s) (pa0 + (srcva - va0)) (Z.to_nat n));
    mret (inl (u64 (va0 + PGSIZE), len - n, dst ++ bs))
  else mret (inr (0, dst)).

Definition copyin (pagetable srcva len : Z) : K (Z * list Z) :=
  loop (S (Z.to_nat len)) (copyin_step pagetable) (srcva, len, []).

(** [copyinstr]'s inner loop: up to [n] bytes from [p], and whether it met the
    NUL (which it copies). *)
Fixpoint copyinstr_page (m : mem) (p : Z) (n : nat) : list Z * bool :=
  match n with
  | O => ([], false)
  | S n =>
      if mget m p =? 0 then ([0], true)
      else let (l, got_null) := copyinstr_page m (p + 1) n in (mget m p :: l, got_null)
  end.

Definition copyinstr_step (pagetable : Z) (st : Z * Z * list Z * bool)
    : K (Z * Z * list Z * bool + Z * list Z) :=
  let '(srcva, max, dst, got_null) := st in
  if negb got_null && (0 <? max) then
    let va0 := PGROUNDDOWN srcva in
    pa0 ← walkaddr pagetable va0;
    if pa0 =? 0 then mret (inr (-1, dst)) else
    let n := PGSIZE - (srcva - va0) in
    let n := if max <? n then max else n in
    r ← gets (fun s => copyinstr_page (k_mem s) (pa0 + (srcva - va0)) (Z.to_nat n));
    let (l, got) := r : list Z * bool in
    mret (inl (u64 (va0 + PGSIZE), max - n, dst ++ l, got))
  else mret (inr (if got_null then 0 else -1, dst)).

Definition copyinstr (pagetable srcva max : Z) : K (Z * list Z) :=
  loop (S (S (Z.to_nat max))) (copyinstr_step pagetable) (srcva, max, [], false).

Definition pgpte (pagetable va : Z) : K Z := walk pagetable va false.

(** ** The kernel's own page table *)

(** kernel/proc.c: [proc_mapstacks] *)
Definition proc_mapstacks (kpgtbl : Z) : K unit :=
  for_each (seq 0 NPROC) (fun p =>
    pa ← kalloc;
    if pa =? 0 then panic "kalloc" else
    kvmmap kpgtbl (KSTACK (Z.of_nat p)) pa PGSIZE (Z.lor PTE_R PTE_W)).

Definition kvmmake : K Z :=
  kpgtbl ← kalloc;
  if kpgtbl =? 0 then fault "kvmmake: memset(0)" else
  mod_mem (fun m => memset m kpgtbl 0 PGSIZE) ;;
  kvmmap kpgtbl UART0 UART0 PGSIZE (Z.lor PTE_R PTE_W) ;;
  kvmmap kpgtbl VIRTIO0 VIRTIO0 PGSIZE (Z.lor PTE_R PTE_W) ;;
  kvmmap kpgtbl PLIC PLIC 0x4000000 (Z.lor PTE_R PTE_W) ;;
  kvmmap kpgtbl KERNBASE KERNBASE (etext - KERNBASE) (Z.lor PTE_R PTE_X) ;;
  kvmmap kpgtbl etext etext (PHYSTOP - etext) (Z.lor PTE_R PTE_W) ;;
  kvmmap kpgtbl TRAMPOLINE trampoline PGSIZE (Z.lor PTE_R PTE_X) ;;
  proc_mapstacks kpgtbl ;;
  mret kpgtbl.

End Vm.
