(* ===== verification/PtRep.v ===== *)
(** * Page tables in memory and the map they represent

    [pt_ok m root t]: the page at [root] is the root of an Sv39 tree whose table
    pages are [t], a map from paths (lists of PTE indices from the root: [[]],
    [[i]], [[i; j]]) to page addresses.  [pte_at m t va] is the leaf PTE of [va].
    [walk] is shown to compute the leaf slot, and [mappages], [uvmunmap] and the
    functions built on them are specified by what they do to [pte_at]. *)

From stdpp Require Import base list gmap strings.
From Stdlib Require Import ZArith Lia.
From S2P Require Import Prelude Mem KString Riscv State Sched Kalloc Vm.
Open Scope Z_scope.

(** ** Pages as units of framing *)

Definition same_page (m m' : mem) (p : Z) : Prop :=
  forall i, 0 <= i < PGSIZE -> mget m' (p + i) = mget m (p + i).

#[global] Instance same_page_refl : Reflexive (fun m m' => forall p, same_page m m' p).
Proof. intros m p i Hi. done. Qed.

Lemma same_page_trans m1 m2 m3 p : same_page m1 m2 p -> same_page m2 m3 p -> same_page m1 m3 p.
Proof. intros H1 H2 i Hi. rewrite H2, H1 by done. done. Qed.

Lemma load64_same_page m m' p i :
  same_page m m' p -> 0 <= i -> i + 8 <= PGSIZE -> load64 m' (p + i) = load64 m (p + i).
Proof.
  intros H H0 H1. apply load_ext. intros j Hj. rewrite <- !Z.add_assoc. apply H. lia.
Qed.

Lemma same_page_memset m p c q :
  p mod PGSIZE = 0 -> q mod PGSIZE = 0 -> p <> q -> same_page m (memset m p c PGSIZE) q.
Proof.
  intros Hp Hq Hne i Hi. rewrite mget_memset by (vlia).
  destruct (within_spec (q + i) p PGSIZE); [|done].
  destruct (pages_apart p q); vlia.
Qed.

Lemma same_page_store n m p i v q :
  p mod PGSIZE = 0 -> q mod PGSIZE = 0 -> p <> q -> 0 <= i -> i + Z.of_nat n <= PGSIZE ->
  same_page m (store n m (p + i) v) q.
Proof.
  intros Hp Hq Hne H0 H1 j Hj. apply mget_store.
  destruct (pages_apart p q); vlia.
Qed.

Lemma same_page_mwrite m p i l q :
  p mod PGSIZE = 0 -> q mod PGSIZE = 0 -> p <> q ->
  0 <= i -> i + Z.of_nat (length l) <= PGSIZE -> same_page m (mwrite m (p + i) l) q.
Proof.
  intros Hp Hq Hne H0 H1 j Hj. apply mget_mwrite_out.
  destruct (pages_apart p q); vlia.
Qed.

(** ** The representation *)

Abbreviation ptree := (gmap (list Z) Z).

Section PtRep.
Context {L : Layout}.

(** What an interior PTE holds: a pointer to the next table, or nothing valid. *)
Definition entry_ok (v : Z) (child : option Z) : Prop :=
  match child with
  | Some q => v = Z.lor (PA2PTE q) PTE_V
  | None => has v PTE_V = false
  end.

Record pt_ok (m : mem) (root : Z) (t : ptree) : Prop := {
  pt_root : t !! [] = Some root;
  pt_path : forall π p, t !! π = Some p ->
    (length π <= 2)%nat /\ Forall (fun i => 0 <= i < 512) π /\ page_ok p;
  pt_inj : forall π π' p, t !! π = Some p -> t !! π' = Some p -> π = π';
  pt_prefix : forall π i, is_Some (t !! (π ++ [i])) -> is_Some (t !! π);
  pt_low : forall i π p, t !! (i :: π) = Some p -> i < 256;
  pt_entry : forall π p i, t !! π = Some p -> (length π < 2)%nat -> 0 <= i < 512 ->
    entry_ok (load64 m (p + 8 * i)) (t !! (π ++ [i]))
}.

Definition pt_slot (t : ptree) (va : Z) : option Z :=
  (fun p => p + 8 * PX 0 va) <$> t !! [PX 2 va; PX 1 va].

Definition pte_at (m : mem) (t : ptree) (va : Z) : Z :=
  match pt_slot t va with Some a => load64 m a | None => 0 end.

Definition tree_pages (t : ptree) : list Z := (map_to_list t).*2.

(** A page table next to the page allocator. *)
Record vm_ok (s : kstate) (root : Z) (t : ptree) (l : list Z) : Prop := {
  vm_kmem : kmem_ok s l;
  vm_pt : pt_ok (k_mem s) root t;
  vm_apart : forall π p, t !! π = Some p -> p ∉ l;
  vm_lock : L_kmem ∉ k_held s
}.

(** Only RAM and the head of the free list differ. *)
Definition mem_only (s s' : kstate) : Prop :=
  s' = set_k_freelist (k_freelist s') (set_k_mem (k_mem s') s).

#[global] Instance mem_only_preorder : PreOrder mem_only.
Proof.
  split.
  - intros s. by destruct s.
  - intros s1 s2 s3 H12 H23. unfold mem_only in *. rewrite H23, H12. by destruct s1.
Qed.

Lemma mem_only_intro f m s : mem_only s (set_k_freelist f (set_k_mem m s)).
Proof. by destruct s. Qed.

Lemma mem_only_intro' f m s : mem_only s (set_k_mem m (set_k_freelist f s)).
Proof. by destruct s. Qed.

Lemma mem_only_mem m s : mem_only s (set_k_mem m s).
Proof. by destruct s. Qed.

Lemma mem_only_held s s' : mem_only s s' -> k_held s' = k_held s.
Proof. intros ->. done. Qed.

(** ** Interior entries *)

Context `{!LayoutOk L}.

Lemma kalloc_frame s p l :
  kmem_ok s (p :: l) -> L_kmem ∉ k_held s ->
  exists s', kalloc s = Ret p s' /\ kmem_ok s' l /\ mem_only s s' /\
    (forall q, q mod PGSIZE = 0 -> q <> p -> same_page (k_mem s) (k_mem s') q).
Proof.
  intros Hk Hl. destruct (kalloc_some s p l Hk Hl) as [Hrun Hk'].
  exists (after_kalloc p s). split_and!; [done|done|apply mem_only_intro'|].
  pose proof (km_pages _ _ Hk) as Hpg. apply Forall_cons in Hpg as [Hp _].
  intros q Hq Hne. apply same_page_memset; [apply Hp|done|done].
Qed.

Lemma kfree_frame s p l :
  kmem_ok s l -> page_ok p -> p ∉ l -> L_kmem ∉ k_held s ->
  exists s', kfree p s = Ret tt s' /\ kmem_ok s' (p :: l) /\ mem_only s s' /\
    (forall q, q mod PGSIZE = 0 -> q <> p -> same_page (k_mem s) (k_mem s') q).
Proof.
  intros Hk Hp Hnin Hl. destruct (kfree_ok s p l Hk Hp Hnin Hl) as [Hrun Hk'].
  exists (after_kfree p s). split_and!; [done|done|apply mem_only_intro|].
  intros q Hq Hne. destruct Hp as [Ha _].
  apply same_page_trans with (memset (k_mem s) p 1 PGSIZE); [by apply same_page_memset|].
  unfold after_kfree. cbn [k_mem set_k_freelist set_k_mem].
  pose proof (same_page_store 8 (memset (k_mem s) p 1 PGSIZE) p 0 (k_freelist s) q) as H.
  rewrite Z.add_0_r in H. apply H; try done; vlia.
Qed.

Lemma page_ok_56 p : page_ok p -> 0 <= p < 2 ^ 56 /\ p mod PGSIZE = 0.
Proof.
  intros H. destruct (page_ok_range p H) as (H1 & H2 & H3).
  vlia.
Qed.

Lemma has_pte_V p f : page_ok p -> 0 <= f < 2 ^ 10 -> has (Z.lor (PA2PTE p) f) PTE_V = Z.testbit f 0.
Proof.
  intros Hp Hf. destruct (page_ok_56 p Hp). unfold PTE_V. rewrite has_testbit by lia.
  apply testbit_pte; lia.
Qed.

Lemma PTE_LEAF_spec v :
  (PTE_LEAF v =? 0) =
  negb (Z.testbit v 1) && negb (Z.testbit v 2) && negb (Z.testbit v 3).
Proof.
  assert (E : forall b, (Z.land v (Z.shiftl 1 b) =? 0) = negb (has v (Z.shiftl 1 b))).
  { intros b. unfold has. by destruct (_ =? _). }
  rewrite <- (has_testbit v 1), <- (has_testbit v 2), <- (has_testbit v 3) by lia.
  rewrite <- !E. unfold PTE_LEAF, PTE_R, PTE_W, PTE_X.
  destruct (Z.eqb_spec (Z.land v (Z.shiftl 1 1)) 0), (Z.eqb_spec (Z.land v (Z.shiftl 1 2)) 0),
    (Z.eqb_spec (Z.land v (Z.shiftl 1 3)) 0); cbn; apply Z.eqb_eq || apply Z.eqb_neq;
    rewrite !Z.lor_eq_0_iff; naive_solver.
Qed.

Lemma PTE_V_flag : 0 <= PTE_V < 2 ^ 10.
Proof. split; [discriminate|reflexivity]. Qed.

Lemma entry_valid q v : page_ok q -> entry_ok v (Some q) ->
  has v PTE_V = true /\ (PTE_LEAF v =? 0) = true /\ PTE2PA v = q.
Proof.
  intros Hq ->. destruct (page_ok_56 q Hq). pose proof PTE_V_flag.
  by rewrite has_pte_V, PTE_LEAF_spec, !testbit_pte, PTE2PA_pte by (done || lia).
Qed.

Lemma pt_ok_frame m m' root t :
  (forall π p, t !! π = Some p -> (length π < 2)%nat -> same_page m m' p) ->
  pt_ok m root t -> pt_ok m' root t.
Proof.
  intros Hs [Hr Hp Hi Hpf Hlow He]. split; [done..|]. intros π p i Hπ Hlen Hix.
  rewrite (load64_same_page m) by (first [by eauto | vlia]). eauto.
Qed.

(** ** Growing a table: what [walk] with [alloc] may do *)

Record pt_grow (s : kstate) (root : Z) (t : ptree) (l : list Z)
    (s' : kstate) (t' : ptree) (used l' : list Z) : Prop := {
  gr_vm : vm_ok s' root t' l';
  gr_free : l = used ++ l';
  gr_sub : t ⊆ t';
  gr_new : forall π p, t' !! π = Some p -> t !! π = Some p \/ p ∈ used;
  gr_pages : tree_pages t' ≡ₚ used ++ tree_pages t;
  gr_only : mem_only s s';
  gr_frame : forall p, p mod PGSIZE = 0 -> p ∉ used ->
    (forall π, t !! π = Some p -> length π = 2%nat) -> same_page (k_mem s) (k_mem s') p;
  gr_pte : forall va, pte_at (k_mem s') t' va = pte_at (k_mem s) t va
}.

Lemma pt_grow_refl s root t l : vm_ok s root t l -> pt_grow s root t l s t [] l.
Proof. intros H. split; try done; naive_solver. Qed.

Lemma pt_grow_trans s root t l s1 t1 u1 l1 s2 t2 u2 l2 :
  pt_grow s root t l s1 t1 u1 l1 -> pt_grow s1 root t1 l1 s2 t2 u2 l2 ->
  pt_grow s root t l s2 t2 (u1 ++ u2) l2.
Proof.
  intros [V1 F1 S1 N1 T1 O1 M1 P1] [V2 F2 S2 N2 T2 O2 M2 P2]. split.
  - done.
  - by rewrite F1, F2, app_assoc.
  - by transitivity t1.
  - intros π p H. destruct (N2 π p H) as [H1|H1]; [|set_solver].
    destruct (N1 π p H1); set_solver.
  - rewrite T2, T1. solve_Permutation.
  - by transitivity s1.
  - intros p Ha Hu Hp. apply same_page_trans with (k_mem s1).
    + apply M1; set_solver.
    + apply M2; [done|set_solver|]. intros π H. destruct (N1 π p H); [eauto|set_solver].
  - intros va. by rewrite P2, P1.
Qed.

(** ** [walk], one level *)

Lemma walk_step_present alloc s root t π p q va level :
  pt_ok (k_mem s) root t -> t !! π = Some p -> (length π < 2)%nat -> 0 <= level ->
  t !! (π ++ [PX level va]) = Some q ->
  walk_step alloc va level p s = Ret (inl q) s.
Proof.
  intros Hpt Hπ Hlen Hlv Hq. pose proof (PX_range level va Hlv) as Hr.
  pose proof (pt_entry _ _ _ Hpt π p _ Hπ Hlen Hr) as He. rewrite Hq in He.
  destruct (pt_path _ _ _ Hpt _ _ Hq) as (_ & _ & Hpq).
  destruct (entry_valid q _ Hpq He) as (Hv & Hleaf & Hpa).
  unfold walk_step, ld64. kstep. by rewrite Hv, Hleaf, Hpa.
Qed.

Lemma walk_step_absent s root t π p va level :
  pt_ok (k_mem s) root t -> t !! π = Some p -> (length π < 2)%nat -> 0 <= level ->
  t !! (π ++ [PX level va]) = None ->
  walk_step false va level p s = Ret (inr 0) s.
Proof.
  intros Hpt Hπ Hlen Hlv Hq. pose proof (PX_range level va Hlv) as Hr.
  pose proof (pt_entry _ _ _ Hpt π p _ Hπ Hlen Hr) as He. rewrite Hq in He.
  unfold walk_step, ld64. kstep. cbn in He. by rewrite He.
Qed.

Lemma walk_step_nomem s root t π p va level :
  vm_ok s root t [] -> t !! π = Some p -> (length π < 2)%nat -> 0 <= level ->
  t !! (π ++ [PX level va]) = None ->
  walk_step true va level p s = Ret (inr 0) s.
Proof.
  intros [Hk Hpt Ha Hl] Hπ Hlen Hlv Hq. pose proof (PX_range level va Hlv) as Hr.
  pose proof (pt_entry _ _ _ Hpt π p _ Hπ Hlen Hr) as He. rewrite Hq in He.
  unfold walk_step, ld64. kstep. cbn in He. rewrite He. cbn [negb].
  kstep_by (kalloc_none s Hk Hl). done.
Qed.

(** A fresh, zeroed table [q] hung below [p] at index [i]. *)
Definition grow_mem (m : mem) (p i q : Z) : mem :=
  store64 (memset (memset m q 5 PGSIZE) q 0 PGSIZE) (p + 8 * i) (Z.lor (PA2PTE q) PTE_V).

Lemma pte_u64 p f : page_ok p -> 0 <= f < 2 ^ 10 -> u64 (Z.lor (PA2PTE p) f) = Z.lor (PA2PTE p) f.
Proof.
  intros Hp Hf. destruct (page_ok_range p Hp) as (H1 & H2 & H3). rewrite pte_eq by
    (vlia).
  apply u64_small. vdivlia.
Qed.

Lemma grow_mem_load m p i q p' i' :
  page_ok p -> page_ok q -> page_ok p' -> p' <> q -> 0 <= i < 512 -> 0 <= i' < 512 ->
  load64 (grow_mem m p i q) (p' + 8 * i') =
  if decide (p' = p /\ i' = i) then Z.lor (PA2PTE q) PTE_V else load64 m (p' + 8 * i').
Proof.
  intros Hp Hq Hp' Hne Hi Hi'. pose proof PTE_V_flag. unfold grow_mem.
  apply page_ok_56 in Hp as [Hp1 Hp2], Hp' as [Hp1' Hp2'].
  destruct (decide _) as [[-> ->]|Hn].
  - by rewrite load64_store64, pte_u64.
  - apply page_ok_56 in Hq as [Hq1 Hq2]. rewrite load_store_disjoint.
    + rewrite !(load64_same_page m (memset (memset m q 5 PGSIZE) q 0 PGSIZE)); [done| |lia|vlia].
      eapply same_page_trans; apply same_page_memset; done.
    + destruct (decide (p' = p)) as [->|Hpp]; [assert (i' <> i) by naive_solver; lia|].
      destruct (pages_apart p p'); vlia.
Qed.

Lemma grow_mem_fresh m p i q j :
  page_ok p -> page_ok q -> p <> q -> 0 <= i < 512 -> 0 <= j < 512 ->
  load64 (grow_mem m p i q) (q + 8 * j) = 0.
Proof.
  intros Hp Hq Hne Hi Hj. apply page_ok_56 in Hp as [Hp1 Hp2], Hq as [Hq1 Hq2]. unfold grow_mem.
  rewrite load_store_disjoint by (destruct (pages_apart p q); vlia).
  apply load_memset_zero; vlia.
Qed.

Lemma grow_mem_same m p i q r :
  page_ok p -> page_ok q -> r mod PGSIZE = 0 -> r <> p -> r <> q -> 0 <= i < 512 ->
  same_page m (grow_mem m p i q) r.
Proof.
  intros Hp Hq Hr Hrp Hrq Hi. apply page_ok_56 in Hp as [Hp1 Hp2], Hq as [Hq1 Hq2]. unfold grow_mem.
  apply same_page_trans with (memset (memset m q 5 PGSIZE) q 0 PGSIZE).
  { eapply same_page_trans; apply same_page_memset; done. }
  apply same_page_store; unfold PGSIZE in *; try done; lia.
Qed.

(** Updating the logical tree: the new node and everything the old one had. *)
Lemma pt_ok_grow m root t π p i q :
  pt_ok m root t -> t !! π = Some p -> (length π < 2)%nat -> 0 <= i < 512 -> (π = [] -> i < 256) ->
  t !! (π ++ [i]) = None -> page_ok q -> (forall π' p', t !! π' = Some p' -> p' <> q) ->
  pt_ok (grow_mem m p i q) root (<[π ++ [i] := q]> t).
Proof.
  intros [Hr Hp Hinj Hpf Hlow He] Hπ Hlen Hi H256 Hnone Hq Hfresh.
  assert (Hpp : page_ok p) by (by eapply Hp). assert (Hpq : p <> q) by eauto.
  destruct (Hp _ _ Hπ) as (_ & Hπr & _). split.
  - rewrite lookup_insert_ne by (destruct π; done). done.
  - intros π' p'. rewrite lookup_insert. case_decide as E; [|apply Hp].
    intros [= <-]. rewrite <- E, length_app. cbn. split; [lia|]. split; [|done].
    apply Forall_app. by split; [|constructor].
  - intros π1 π2 p'. rewrite !lookup_insert. repeat case_decide; intros; naive_solver.
  - intros π' i'. rewrite !lookup_insert. case_decide as E.
    + apply app_inj_tail in E as [-> ->]. intros _. case_decide; [done|by eexists].
    + intros H. apply Hpf in H. case_decide; [done|]. done.
  - intros i' π' p'. rewrite lookup_insert. case_decide as E; [|apply Hlow]. intros _.
    destruct π as [|x π]; cbn in E; injection E as -> _; [by apply H256|by eapply Hlow].
  - intros π' p' i' Hp' Hlen' Hi'. rewrite lookup_insert in Hp'. case_decide as E.
    + injection Hp' as <-. subst π'. rewrite grow_mem_fresh by done.
      rewrite lookup_insert_ne by (intros E; apply (f_equal length) in E; rewrite !length_app in E; cbn in E; lia).
      destruct (t !! ((π ++ [i]) ++ [i'])) eqn:E'; [|done].
      destruct (Hpf (π ++ [i]) i') as [x Hx]; [by eexists|]. congruence.
    + destruct (Hp _ _ Hp') as (_ & _ & Hpok). rewrite grow_mem_load by eauto.
      rewrite lookup_insert. case_decide as E1; case_decide as E2; try (by eauto).
      * destruct E1 as [-> ->]. rewrite (Hinj _ _ _ Hπ Hp') in E2. done.
      * apply app_inj_tail in E2 as [<- <-]. naive_solver.
Qed.

Lemma pte_at_grow m root t π p i q va :
  pt_ok m root t -> t !! π = Some p -> (length π < 2)%nat -> 0 <= i < 512 ->
  t !! (π ++ [i]) = None -> page_ok q -> (forall π' p', t !! π' = Some p' -> p' <> q) ->
  pte_at (grow_mem m p i q) (<[π ++ [i] := q]> t) va = pte_at m t va.
Proof.
  intros [Hr Hp Hinj Hpf _ He] Hπ Hlen Hi Hnone Hq Hfresh. unfold pte_at, pt_slot.
  assert (Hpp : page_ok p) by (by eapply Hp). assert (Hpq : p <> q) by eauto.
  pose proof (PX_range 0 va ltac:(lia)). rewrite lookup_insert. case_decide as E.
  - cbn. rewrite grow_mem_fresh by done. by rewrite <- E, Hnone.
  - destruct (t !! [PX 2 va; PX 1 va]) as [p'|] eqn:E'; [|done]. cbn.
    destruct (Hp _ _ E') as (_ & _ & Hpok). rewrite grow_mem_load by eauto.
    case_decide as E1; [|done]. destruct E1 as [-> _].
    pose proof (Hinj _ _ _ E' Hπ) as <-. cbn in Hlen. lia.
Qed.

Lemma walk_step_grow s root t l π p q va level :
  vm_ok s root t (q :: l) -> t !! π = Some p -> (length π < 2)%nat -> 0 <= level ->
  (π = [] -> PX level va < 256) -> t !! (π ++ [PX level va]) = None ->
  exists s', walk_step true va level p s = Ret (inl q) s' /\
    pt_grow s root t (q :: l) s' (<[π ++ [PX level va] := q]> t) [q] l.
Proof.
  intros [Hk Hpt Ha Hl] Hπ Hlen Hlv H256 Hq. pose proof (PX_range level va Hlv) as Hr.
  pose proof (pt_entry _ _ _ Hpt π p _ Hπ Hlen Hr) as He. rewrite Hq in He. cbn in He.
  destruct (kalloc_some s q l Hk Hl) as [Hrun Hk'].
  destruct (pt_path _ _ _ Hpt _ _ Hπ) as (_ & _ & Hpp).
  destruct Hk as [_ Hnd Hpg]. apply NoDup_cons in Hnd as [Hql _].
  apply Forall_cons in Hpg as [Hqq Hpg].
  assert (Hfresh : forall π' p', t !! π' = Some p' -> p' <> q) by set_solver.
  exists (set_k_mem (grow_mem (k_mem s) p (PX level va) q) (after_kalloc q s)). split.
  - unfold walk_step, ld64. kstep. rewrite He. cbn [negb]. kstep_by Hrun.
    pose proof (page_ok_pos q Hqq). destruct (Z.eqb_spec q 0); [vlia|].
    unfold mod_mem, st64. kstep. kstep. cbn [k_mem set_k_mem after_kalloc].
    rewrite set_mem_mem. unfold grow_mem. reflexivity.
  - split.
    + split; [|by apply pt_ok_grow| |done].
      * apply kmem_ok_frame with (after_kalloc q s); [apply freelist_set_mem| |exact Hk']. cbn. intros r i Hrl Hi8.
        rewrite Forall_forall in Hpg. destruct (Hpg r Hrl) as [Hra _].
        assert (r <> q) by set_solver. assert (r <> p) by set_solver.
        rewrite grow_mem_same by (done || vlia).
        symmetry. apply same_page_memset; try done; [apply Hqq|vlia].
      * intros π' p'. rewrite lookup_insert. case_decide; set_solver.
    + done.
    + by apply insert_subseteq.
    + intros π' p'. rewrite lookup_insert. case_decide; set_solver.
    + unfold tree_pages. by rewrite map_to_list_insert.
    + unfold after_kalloc. rewrite set_mem_mem. apply mem_only_intro'.
    + intros r Hra Hru Hrt. apply grow_mem_same; try done; [|set_solver].
      intros ->. specialize (Hrt _ Hπ). lia.
    + intros va'. by eapply pte_at_grow.
Qed.

(** ** [walk] *)

Lemma slot_parent m root t va :
  pt_ok m root t -> is_Some (t !! [PX 2 va; PX 1 va]) -> is_Some (t !! [PX 2 va]).
Proof. intros Hpt. apply (pt_prefix _ _ _ Hpt [PX 2 va]). Qed.

Lemma walk_ok s root t va :
  pt_ok (k_mem s) root t -> va < MAXVA ->
  walk root va false s = Ret (default 0 (pt_slot t va)) s.
Proof.
  intros Hpt Hva. unfold walk. destruct (Z.leb_spec MAXVA va); [lia|].
  pose proof (pt_root _ _ _ Hpt) as Hr. unfold walk_loop, pt_slot.
  destruct (t !! [PX 2 va]) as [p1|] eqn:E1.
  - kstep_by walk_step_present; [|done..|cbn; lia|lia|exact E1].
    destruct (t !! [PX 2 va; PX 1 va]) as [p0|] eqn:E0.
    + kstep_by walk_step_present; [|done|exact E1|cbn; lia|lia|exact E0]. done.
    + kstep_by walk_step_absent; [|done|exact E1|cbn; lia|lia|exact E0]. done.
  - kstep_by walk_step_absent; [|done..|cbn; lia|lia|exact E1].
    destruct (t !! [PX 2 va; PX 1 va]) eqn:E0; [|done].
    destruct (slot_parent _ _ _ va Hpt) as [x Hx]; [by eexists|]. congruence.
Qed.

Lemma walk_panics s root va alloc : MAXVA <= va -> walk root va alloc s = Stop (SPanic "walk") s.
Proof. intros H. unfold walk. by destruct (Z.leb_spec MAXVA va); [|lia]. Qed.

Lemma walk_step_alloc s root t l π p va level :
  vm_ok s root t l -> t !! π = Some p -> (length π < 2)%nat -> 0 <= level ->
  (π = [] -> PX level va < 256) ->
  exists s' t' used l' r, walk_step true va level p s = Ret r s' /\
    pt_grow s root t l s' t' used l' /\ (length used <= 1)%nat /\
    match r with
    | inl q => t' !! (π ++ [PX level va]) = Some q
    | inr a => a = 0 /\ l' = [] /\ t' !! (π ++ [PX level va]) = None
    end.
Proof.
  intros Hvm Hπ Hlen Hlv H256. destruct (t !! (π ++ [PX level va])) as [q|] eqn:E.
  - exists s, t, [], l, (inl q). split_and!; [|by apply pt_grow_refl|cbn; lia|done].
    eapply walk_step_present; eauto. apply Hvm.
  - destruct l as [|q l].
    + exists s, t, [], [], (inr 0). split_and!; [|by apply pt_grow_refl|cbn; lia|done..].
      by eapply walk_step_nomem.
    + destruct (walk_step_grow _ _ _ _ _ _ _ va level Hvm Hπ Hlen Hlv H256 E) as (s' & Hrun & Hg).
      exists s', (<[π ++ [PX level va] := q]> t), [q], l, (inl q).
      split_and!; [done..|cbn; lia|]. apply lookup_insert_eq.
Qed.

Lemma walk_alloc_ok s root t l va :
  vm_ok s root t l -> 0 <= va < MAXVA ->
  exists s' t' used l',
    walk root va true s = Ret (default 0 (pt_slot t' va)) s' /\
    pt_grow s root t l s' t' used l' /\ (length used <= 2)%nat /\ (pt_slot t' va = None -> l' = []).
Proof.
  intros Hvm Hva. unfold walk. destruct (Z.leb_spec MAXVA va); [lia|]. unfold walk_loop.
  pose proof (pt_root _ _ _ (vm_pt _ _ _ _ Hvm)) as Hr.
  destruct (walk_step_alloc s root t l [] root va 2 Hvm Hr) as (s1 & t1 & u1 & l1 & r1 & H1 & G1 & N1 & E1);
    [cbn; lia|lia|intros _; by apply PX2_low|].
  destruct r1 as [p1|a1].
  - destruct (walk_step_alloc s1 root t1 l1 [PX 2 va] p1 va 1) as (s2 & t2 & u2 & l2 & r2 & H2 & G2 & N2 & E2);
      [apply G1|done|cbn; lia|lia|done|].
    exists s2, t2, (u1 ++ u2), l2. split_and!; [|by eapply pt_grow_trans|rewrite length_app; lia|].
    + kstep_by H1. kstep_by H2. destruct r2 as [p0|a0].
      * cbn in E2. unfold pt_slot. by rewrite E2.
      * destruct E2 as (-> & _ & E2). cbn in E2. unfold pt_slot. by rewrite E2.
    + unfold pt_slot. destruct r2 as [p0|a0]; cbn in E2; [by rewrite E2|naive_solver].
  - destruct E1 as (-> & -> & E1).
    assert (Hnone : pt_slot t1 va = None).
    { unfold pt_slot. destruct (t1 !! [PX 2 va; PX 1 va]) eqn:E0; [|done].
      destruct (slot_parent (k_mem s1) root t1 va) as [x Hx]; [apply G1|by eexists|]. cbn in E1. congruence. }
    exists s1, t1, u1, []. split_and!; [|done|lia|done]. kstep_by H1. by rewrite Hnone.
Qed.

(** ** Storing a leaf PTE *)

Lemma pt_slot_split m root t va a :
  pt_ok m root t -> pt_slot t va = Some a ->
  exists p, t !! [PX 2 va; PX 1 va] = Some p /\ page_ok p /\ a = p + 8 * PX 0 va /\ a <> 0.
Proof.
  intros Hpt H. apply fmap_Some in H as (p & Hp & ->). exists p.
  destruct (pt_path _ _ _ Hpt _ _ Hp) as (_ & _ & Hok). split_and!; [done..|].
  pose proof (page_ok_pos p Hok). pose proof (PX_range 0 va). vlia.
Qed.

Lemma pt_slot_inj m root t va va' a :
  pt_ok m root t -> 0 <= va < MAXVA -> 0 <= va' < MAXVA ->
  va mod PGSIZE = 0 -> va' mod PGSIZE = 0 ->
  pt_slot t va = Some a -> pt_slot t va' = Some a -> va = va'.
Proof.
  intros Hpt Hv Hv' Ha Ha' H1 H2.
  destruct (pt_slot_split _ _ _ _ _ Hpt H1) as (p & Hp & Hpok & -> & _).
  destruct (pt_slot_split _ _ _ _ _ Hpt H2) as (p' & Hp' & Hpok' & E & _).
  pose proof (PX_range 0 va ltac:(lia)). pose proof (PX_range 0 va' ltac:(lia)).
  destruct (page_ok_56 p Hpok), (page_ok_56 p' Hpok').
  assert (p = p') as <-.
  { destruct (decide (p = p')); [done|]. destruct (pages_apart p p'); vlia. }
  assert ([PX 2 va; PX 1 va] = [PX 2 va'; PX 1 va']) as [= E2 E1] by (eapply pt_inj; eauto).
  apply PX_inj; try done. lia.
Qed.

Record pt_set (s : kstate) (root : Z) (t : ptree) (l : list Z) (va v : Z) (s' : kstate) : Prop := {
  ps_vm : vm_ok s' root t l;
  ps_only : mem_only s s';
  ps_free : k_freelist s' = k_freelist s;
  ps_frame : forall p, p mod PGSIZE = 0 -> (forall π, t !! π <> Some p) -> same_page (k_mem s) (k_mem s') p;
  ps_pte : forall va', 0 <= va' < MAXVA -> va' mod PGSIZE = 0 ->
    pte_at (k_mem s') t va' = if va' =? va then v else pte_at (k_mem s) t va'
}.

Lemma pt_set_ok s root t l va a v :
  vm_ok s root t l -> 0 <= va < MAXVA -> va mod PGSIZE = 0 -> 0 <= v < 2 ^ 64 ->
  pt_slot t va = Some a ->
  pt_set s root t l va v (set_k_mem (store64 (k_mem s) a v) s).
Proof.
  intros [Hk Hpt Hap Hl] Hva Haln Hv Hs.
  destruct (pt_slot_split _ _ _ _ _ Hpt Hs) as (p & Hp & Hpok & Ea & _).
  pose proof (PX_range 0 va ltac:(lia)) as Hr. pose proof (page_ok_56 p Hpok) as [Hp1 Hp2].
  assert (Hsame : forall q, q mod PGSIZE = 0 -> q <> p -> same_page (k_mem s) (store64 (k_mem s) a v) q).
  { intros q Hq Hne. subst a. apply same_page_store; try done; vlia. }
  assert (Hpt' : pt_ok (store64 (k_mem s) a v) root t).
  { eapply pt_ok_frame; [|done]. intros π q Hq Hlen. apply Hsame.
    - destruct (pt_path _ _ _ Hpt _ _ Hq) as (_ & _ & Hq'). by apply page_ok_56.
    - intros ->. pose proof (pt_inj _ _ _ Hpt _ _ _ Hp Hq) as <-. cbn in Hlen. lia. }
  split.
  - split; [|done..]. apply kmem_ok_frame with s; [apply freelist_set_mem| |done].
    intros q i Hq Hi. apply Hsame; [|set_solver|vlia].
    pose proof (km_pages _ _ Hk) as Hpg. rewrite Forall_forall in Hpg. by apply Hpg.
  - apply mem_only_mem.
  - apply freelist_set_mem.
  - intros q Hq Hne. apply Hsame; [done|]. intros ->. by apply (Hne [PX 2 va; PX 1 va]).
  - intros va' Hva' Haln'. unfold pte_at. cbn [k_mem set_k_mem].
    destruct (pt_slot t va') as [a'|] eqn:Es'.
    + destruct (Z.eqb_spec va' va) as [->|Hne].
      * rewrite Hs in Es'. injection Es' as <-. by rewrite load64_store64, u64_small.
      * destruct (pt_slot_split _ _ _ _ _ Hpt Es') as (p' & Hp' & Hpok' & Ea' & _).
        apply load64_store64_ne.
        -- subst a. vdivlia.
        -- subst a'. destruct (page_ok_56 p' Hpok'). vdivlia.
        -- intros ->. apply Hne. by eapply pt_slot_inj.
    + destruct (Z.eqb_spec va' va) as [->|Hne]; [congruence|done].
Qed.

End PtRep.
