(* ===== verification/Uvm.v ===== *)
(** * Mappings: [mappages], [uvmunmap] and user address spaces

    [mappages] and [uvmunmap] are specified by their effect on the leaf PTEs
    ([pte_at]).  On top of that, [as_ok s root t l um] says that a page table
    realises the user address space [um], a map from page-aligned addresses to
    physical pages and flags, and [uvmalloc], [uvmdealloc], [uvmcopy] and
    [uvmfree] are specified by their effect on [um] and on the free pages. *)

From stdpp Require Import base list gmap strings.
From Stdlib Require Import ZArith Lia.
From S2P Require Import Prelude Mem KString Riscv State Sched Kalloc Vm PtRep.
Open Scope Z_scope.

(** A user address space: page-aligned address to physical page and flags. *)
Abbreviation umap := (gmap Z (Z * Z)).

Section Uvm.
Context {L : Layout} `{!LayoutOk L}.

(** ** A change of the leaf PTEs *)

Record vm_upd (s : kstate) (root : Z) (t : ptree) (l : list Z)
    (s' : kstate) (t' : ptree) (used l' : list Z) (f : Z -> option Z) : Prop := {
  up_vm : vm_ok s' root t' l';
  up_free : l = used ++ l';
  up_sub : t ⊆ t';
  up_new : forall π p, t' !! π = Some p -> t !! π = Some p \/ p ∈ used;
  up_pages : tree_pages t' ≡ₚ used ++ tree_pages t;
  up_only : mem_only s s';
  up_frame : forall p, p mod PGSIZE = 0 -> p ∉ used -> (forall π, t !! π <> Some p) ->
    same_page (k_mem s) (k_mem s') p;
  up_pte : forall va, 0 <= va < MAXVA -> va mod PGSIZE = 0 ->
    pte_at (k_mem s') t' va = default (pte_at (k_mem s) t va) (f va)
}.

Lemma vm_upd_grow s root t l s' t' used l' :
  pt_grow s root t l s' t' used l' -> vm_upd s root t l s' t' used l' (fun _ => None).
Proof.
  intros [V F S N T O M P]. split; try done. intros p Ha Hu Hp. apply M; naive_solver.
Qed.

Lemma vm_upd_set s root t l va v s' :
  pt_set s root t l va v s' ->
  vm_upd s root t l s' t [] l (fun va' => if va' =? va then Some v else None).
Proof.
  intros [V O F M P]. split; try done; [naive_solver|naive_solver|].
  intros va' H H'. rewrite P by done. by destruct (va' =? va).
Qed.

Lemma vm_upd_trans s root t l s1 t1 u1 l1 f1 s2 t2 u2 l2 f2 :
  vm_upd s root t l s1 t1 u1 l1 f1 -> vm_upd s1 root t1 l1 s2 t2 u2 l2 f2 ->
  vm_upd s root t l s2 t2 (u1 ++ u2) l2
    (fun va => match f2 va with Some v => Some v | None => f1 va end).
Proof.
  intros [V1 F1 S1 N1 T1 O1 M1 P1] [V2 F2 S2 N2 T2 O2 M2 P2]. split.
  - done.
  - by rewrite F1, F2, app_assoc.
  - by transitivity t1.
  - intros π p H. destruct (N2 π p H) as [H1|H1]; [destruct (N1 π p H1)|]; set_solver.
  - rewrite T2, T1. solve_Permutation.
  - by transitivity s1.
  - intros p Ha Hu Hp. apply same_page_trans with (k_mem s1); [apply M1; set_solver|].
    apply M2; [done|set_solver|]. intros π H. destruct (N1 π p H); set_solver.
  - intros va H H'. rewrite P2, P1 by done. by destruct (f2 va).
Qed.

Lemma vm_upd_ext s root t l s' t' used l' f g :
  (forall va, 0 <= va < MAXVA -> va mod PGSIZE = 0 -> f va = g va) ->
  vm_upd s root t l s' t' used l' f -> vm_upd s root t l s' t' used l' g.
Proof.
  intros E [V F S N T O M P]. split; try done. intros va H H'. rewrite P, E by done. done.
Qed.

(** ** mappages *)

(** The PTEs of [n] pages from [va], mapped to [pa] on. *)
Definition map_ptes (va pa perm : Z) (n : nat) (va' : Z) : option Z :=
  if within va' va (Z.of_nat n * PGSIZE)
  then Some (Z.lor (Z.lor (PA2PTE (pa + (va' - va))) perm) PTE_V) else None.

Definition unmapped (m : mem) (t : ptree) (va : Z) (n : nat) : Prop :=
  forall va', va <= va' < va + Z.of_nat n * PGSIZE -> va' mod PGSIZE = 0 ->
    has (pte_at m t va') PTE_V = false.

Lemma pte_perm_u64 pa perm :
  0 <= pa < 2 ^ 56 -> 0 <= perm < 2 ^ 10 ->
  0 <= Z.lor (Z.lor (PA2PTE pa) perm) PTE_V < 2 ^ 64.
Proof.
  intros Hpa Hp. pose proof (lor_bound perm PTE_V 10 ltac:(lia) Hp PTE_V_flag) as H.
  rewrite <- Z.lor_assoc, pte_eq by done. vdivlia.
Qed.

Lemma mappages_step_ok s root t l last va pa perm :
  vm_ok s root t l -> 0 <= va < MAXVA -> va mod PGSIZE = 0 ->
  0 <= pa < 2 ^ 56 -> 0 <= perm < 2 ^ 10 -> has (pte_at (k_mem s) t va) PTE_V = false ->
  exists s' t' used l', (length used <= 2)%nat /\
    ((mappages_step root last perm (va, pa) s = Ret (inr (-1)) s' /\
      vm_upd s root t l s' t' used l' (fun _ => None) /\ l' = []) \/
     (mappages_step root last perm (va, pa) s =
        Ret (if va =? last then inr 0 else inl (u64 (va + PGSIZE), u64 (pa + PGSIZE))) s' /\
      vm_upd s root t l s' t' used l' (map_ptes va pa perm 1))).
Proof.
  intros Hvm Hva Haln Hpa Hperm Hun.
  destruct (walk_alloc_ok s root t l va Hvm) as (s1 & t1 & u1 & l1 & Hw & Hg & Hlen & Hnone); [lia|].
  unfold mappages_step. destruct (pt_slot t1 va) as [a|] eqn:Es.
  - destruct (pt_slot_split (k_mem s1) root t1 va a) as (p & _ & _ & _ & Ha0); [apply Hg|done|].
    set (v := Z.lor (Z.lor (PA2PTE pa) perm) PTE_V).
    exists (set_k_mem (store64 (k_mem s1) a v) s1), t1, u1, l1. split; [done|]. right. split.
    + kstep_by Hw. change (default 0 (Some a)) with a. destruct (Z.eqb_spec a 0); [done|].
      unfold ld64, st64, mod_mem. kstep.
      assert (load64 (k_mem s1) a = pte_at (k_mem s) t va) as ->.
      { rewrite <- (gr_pte _ _ _ _ _ _ _ _ Hg). unfold pte_at. by rewrite Es. }
      rewrite Hun. kstep. fold v. by destruct (va =? last).
    + rewrite <- (app_nil_r u1). eapply vm_upd_ext; cycle 1.
      { eapply vm_upd_trans; [by apply vm_upd_grow|].
        apply vm_upd_set, (pt_set_ok _ _ _ _ va); try done; [apply Hg|by apply pte_perm_u64]. }
      intros va' Hv' Ha'. cbn. unfold map_ptes.
      destruct (within_spec va' va (Z.of_nat 1 * PGSIZE)), (Z.eqb_spec va' va); try done.
      * subst. by rewrite Z.sub_diag, Z.add_0_r.
      * vdivlia.
      * vlia.
  - exists s1, t1, u1, l1. split; [done|]. left. split_and!; [|by apply vm_upd_grow|by apply Hnone].
    kstep_by Hw. done.
Qed.

Lemma mappages_loop root perm n :
  forall s t l va pa, vm_ok s root t l -> 0 <= va -> va mod PGSIZE = 0 ->
  va + (Z.of_nat n + 1) * PGSIZE <= MAXVA -> 0 <= pa -> pa + (Z.of_nat n + 1) * PGSIZE < 2 ^ 56 ->
  0 <= perm < 2 ^ 10 -> unmapped (k_mem s) t va (S n) ->
  exists s' t' used l' k,
    loop (S n) (mappages_step root (va + Z.of_nat n * PGSIZE) perm) (va, pa) s =
      Ret (if decide (k = S n) then 0 else -1) s' /\
    vm_upd s root t l s' t' used l' (map_ptes va pa perm k) /\
    (k <= S n)%nat /\ ((k < S n)%nat -> l' = []) /\ (length used <= 2 * S n)%nat.
Proof.
  induction n as [|n IH]; intros s t l va pa Hvm H0 Haln Hhi Hpa0 Hpa Hperm Hun.
  - destruct (mappages_step_ok s root t l (va + Z.of_nat 0 * PGSIZE) va pa perm)
      as (s' & t' & u & l' & Hlen & [(Hrun & Hu & ->)|(Hrun & Hu)]); try done; [vlia..| | |].
    + apply Hun; [vlia|done].
    + exists s', t', u, [], O. split_and!; [by apply loop_break| |lia|done|lia].
      eapply vm_upd_ext; [|done]. intros va' _ _. unfold map_ptes.
      destruct (within_spec va' va (Z.of_nat 0 * PGSIZE)); [lia|done].
    + exists s', t', u, l', 1%nat. split_and!; [|done|lia|lia|lia].
      rewrite decide_True by done. apply loop_break. rewrite Hrun.
      destruct (Z.eqb_spec va (va + Z.of_nat 0 * PGSIZE)); [done|lia].
  - destruct (mappages_step_ok s root t l (va + Z.of_nat (S n) * PGSIZE) va pa perm)
      as (s1 & t1 & u1 & l1 & Hlen & [(Hrun & Hu & ->)|(Hrun & Hu)]); try done; [vlia..| | |].
    + apply Hun; [vlia|done].
    + exists s1, t1, u1, [], O. split_and!; [by apply loop_break| |lia|done|lia].
      eapply vm_upd_ext; [|done]. intros va' _ _. unfold map_ptes.
      destruct (within_spec va' va (Z.of_nat 0 * PGSIZE)); [lia|done].
    + destruct (IH s1 t1 l1 (va + PGSIZE) (pa + PGSIZE)) as (s2 & t2 & u2 & l2 & k & Hl & Hu2 & Hk & Hkl & Hlen2);
        try (apply Hu || done || vlia).
      { vdivlia. }
      { intros va' Hr Ha'. rewrite (up_pte _ _ _ _ _ _ _ _ _ Hu) by (vlia).
        unfold map_ptes. destruct (within_spec va' va (Z.of_nat 1 * PGSIZE)); cbn; [vlia|].
        apply Hun; [vlia|done]. }
      exists s2, t2, (u1 ++ u2), l2, (S k). split_and!.
      * erewrite loop_continue; [|rewrite Hrun].
        2: { destruct (Z.eqb_spec va (va + Z.of_nat (S n) * PGSIZE)); [vlia|].
             rewrite !u64_small by (vlia). reflexivity. }
        replace (va + Z.of_nat (S n) * PGSIZE) with (va + PGSIZE + Z.of_nat n * PGSIZE) by lia.
        rewrite Hl. repeat case_decide; try done; lia.
      * eapply vm_upd_ext; [|by eapply vm_upd_trans]. intros va' Hv' Ha'. unfold map_ptes.
        destruct (within_spec va' (va + PGSIZE) (Z.of_nat k * PGSIZE)),
          (within_spec va' va (Z.of_nat 1 * PGSIZE)), (within_spec va' va (Z.of_nat (S k) * PGSIZE));
          try done; try (vlia).
        do 4 f_equal. lia.
      * lia.
      * intros ?. apply Hkl. lia.
      * rewrite length_app. lia.
Qed.

(** ** User address spaces *)

Definition um_pages (um : umap) : list Z := ((map_to_list um).*2).*1.

(** The pages a process's memory is made of, and the free ones: [a_own] are
    pages the running code has allocated and not yet mapped. *)
Record aspace := mk_aspace {
  a_tree : ptree;
  a_free : list Z;
  a_um : umap;
  a_own : list Z
}.

Definition a_pages (A : aspace) : list Z :=
  a_own A ++ a_free A ++ tree_pages (a_tree A) ++ um_pages (a_um A).

Record as_ok (s : kstate) (root : Z) (A : aspace) : Prop := {
  as_vm : vm_ok s root (a_tree A) (a_free A);
  as_dom : forall va pa f, a_um A !! va = Some (pa, f) ->
    0 <= va < TRAPFRAME /\ va mod PGSIZE = 0 /\ 0 <= f < 2 ^ 10 /\ Z.testbit f 0 = true /\ f <> PTE_V;
  as_pte : forall va, 0 <= va < TRAPFRAME -> va mod PGSIZE = 0 ->
    match a_um A !! va with
    | Some (pa, f) => pte_at (k_mem s) (a_tree A) va = Z.lor (PA2PTE pa) f
    | None => has (pte_at (k_mem s) (a_tree A) va) PTE_V = false
    end;
  as_pages : Forall page_ok (a_pages A);
  as_nodup : NoDup (a_pages A)
}.

Lemma elem_tree_pages t p : p ∈ tree_pages t <-> exists π, t !! π = Some p.
Proof.
  unfold tree_pages. rewrite list_elem_of_fmap. split.
  - intros ([π q] & -> & H). exists π. by apply elem_of_map_to_list.
  - intros [π H]. exists (π, p). by rewrite elem_of_map_to_list.
Qed.

Lemma elem_um_pages um p : p ∈ um_pages um <-> exists va f, um !! va = Some (p, f).
Proof.
  unfold um_pages. rewrite list_elem_of_fmap. split.
  - intros ([q f] & -> & H). apply list_elem_of_fmap in H as ([va x] & E & H). cbn in E. subst.
    exists va, f. by apply elem_of_map_to_list.
  - intros (va & f & H). exists (p, f). split; [done|]. apply list_elem_of_fmap.
    exists (va, (p, f)). by rewrite elem_of_map_to_list.
Qed.

Lemma um_pages_insert um va pa f :
  um !! va = None -> um_pages (<[va := (pa, f)]> um) ≡ₚ pa :: um_pages um.
Proof. intros H. unfold um_pages. by rewrite map_to_list_insert. Qed.

Lemma um_pages_delete um va pa f :
  um !! va = Some (pa, f) -> um_pages um ≡ₚ pa :: um_pages (delete va um).
Proof.
  intros H. rewrite <- (insert_delete_id um va (pa, f) H) at 1.
  apply um_pages_insert, lookup_delete_eq.
Qed.

Record as_step (root : Z) (s : kstate) (A : aspace) (s' : kstate) (A' : aspace) : Prop := {
  st_ok : as_ok s' root A';
  st_pages : a_pages A' ≡ₚ a_pages A;
  st_only : mem_only s s';
  st_frame : forall p, p mod PGSIZE = 0 -> p ∉ a_free A -> p ∉ a_free A' ->
    p ∉ tree_pages (a_tree A) -> same_page (k_mem s) (k_mem s') p;
  st_tree : forall p, p ∈ tree_pages (a_tree A') -> p ∈ tree_pages (a_tree A) \/ p ∈ a_free A;
  st_high : forall va, TRAPFRAME <= va < MAXVA -> va mod PGSIZE = 0 ->
    pte_at (k_mem s') (a_tree A') va = pte_at (k_mem s) (a_tree A) va
}.

Lemma as_step_refl root s A : as_ok s root A -> as_step root s A s A.
Proof. intros H. split; try done; auto. Qed.

(** A page is in one place only. *)
Lemma a_nodup_free A p : NoDup (a_pages A) -> p ∈ a_free A ->
  (p ∉ a_own A) /\ (p ∉ tree_pages (a_tree A)) /\ (p ∉ um_pages (a_um A)).
Proof.
  unfold a_pages. intros H Hp. apply NoDup_app in H as (_ & H1 & H2).
  apply NoDup_app in H2 as (_ & H2 & _). specialize (H2 p Hp).
  split; [|set_solver]. intros Ho. apply (H1 p Ho). set_solver.
Qed.

Lemma a_nodup_tree A p : NoDup (a_pages A) -> p ∈ tree_pages (a_tree A) ->
  (p ∉ a_own A) /\ (p ∉ a_free A) /\ (p ∉ um_pages (a_um A)).
Proof.
  unfold a_pages. intros H Hp. apply NoDup_app in H as (_ & H1 & H2).
  apply NoDup_app in H2 as (_ & H2 & H3). apply NoDup_app in H3 as (_ & H3 & _).
  split_and!; [intros Ho; apply (H1 p Ho); set_solver|intros Ho; apply (H2 p Ho); set_solver|by apply H3].
Qed.

Lemma as_step_trans root s A s1 A1 s2 A2 :
  (forall p, p ∈ a_free A1 -> p ∈ a_free A \/ p ∈ a_free A2) ->
  as_step root s A s1 A1 -> as_step root s1 A1 s2 A2 -> as_step root s A s2 A2.
Proof.
  intros Hf [K1 P1 O1 M1 T1 H1] [K2 P2 O2 M2 T2 H2]. split.
  - done.
  - by rewrite P2, P1.
  - by transitivity s1.
  - intros p Ha Hp Hp' Ht. apply same_page_trans with (k_mem s1).
    + apply M1; naive_solver.
    + apply M2; naive_solver.
  - intros p Hp. pose proof (a_nodup_tree A2 p (as_nodup _ _ _ K2) Hp) as (_ & Hn & _).
    apply T2 in Hp as [Hp|Hp]; naive_solver.
  - intros va Hva Ha. by rewrite H2, H1.
Qed.

(** ** Steps *)

Lemma pte_at_frame m m' root t va :
  pt_ok m root t -> (forall p, p ∈ tree_pages t -> same_page m m' p) ->
  pte_at m' t va = pte_at m t va.
Proof.
  intros Hpt Hs. unfold pte_at. destruct (pt_slot t va) as [a|] eqn:E; [|done].
  destruct (pt_slot_split _ _ _ _ _ Hpt E) as (p & Hp & Hok & -> & _).
  pose proof (PX_range 0 va ltac:(lia)). apply load64_same_page; [|vlia..].
  apply Hs, elem_tree_pages. by eexists.
Qed.

(** Memory outside the table and free pages does not matter to [as_ok]. *)
Lemma as_ok_frame s s' root A :
  k_freelist s' = k_freelist s -> k_held s' = k_held s ->
  (forall p, p ∈ a_free A \/ p ∈ tree_pages (a_tree A) -> same_page (k_mem s) (k_mem s') p) ->
  as_ok s root A -> as_ok s' root A.
Proof.
  intros Hf Hh Hs [[Hk Hpt Hap Hl] Hd Hpte Hpg Hnd].
  assert (Hp : forall va, pte_at (k_mem s') (a_tree A) va = pte_at (k_mem s) (a_tree A) va).
  { intros va. eapply pte_at_frame; [done|]. naive_solver. }
  split; [|done| |done..].
  - split; [| |done|by rewrite Hh].
    + eapply kmem_ok_frame; [done| |done]. intros p i Hin Hi. apply Hs; [by left|vlia].
    + eapply pt_ok_frame; [|done]. intros π p Hπ _. apply Hs. right. apply elem_tree_pages. by eexists.
  - intros va Hva Ha. rewrite Hp. by apply Hpte.
Qed.

Lemma as_kalloc s root A p l :
  as_ok s root A -> a_free A = p :: l ->
  exists s', kalloc s = Ret p s' /\
  as_step root s A s' (mk_aspace (a_tree A) l (a_um A) (p :: a_own A)).
Proof.
  intros Hok Hl. pose proof Hok as [[Hk Hpt Hap Hlk] Hd Hpte Hpg Hnd]. rewrite Hl in Hk, Hap.
  destruct (kalloc_frame s p l Hk Hlk) as (s' & Hrun & Hk' & Ho & Hs). exists s'. split; [done|].
  assert (Hperm : a_pages (mk_aspace (a_tree A) l (a_um A) (p :: a_own A)) ≡ₚ a_pages A).
  { unfold a_pages. cbn. rewrite Hl. solve_Permutation. }
  assert (Ht : forall q, q ∈ tree_pages (a_tree A) -> same_page (k_mem s) (k_mem s') q).
  { intros q Hq. apply elem_tree_pages in Hq as [π Hπ]. apply Hs; [|set_solver].
    destruct (pt_path _ _ _ Hpt _ _ Hπ) as (_ & _ & Hq). by apply page_ok_56. }
  assert (Hp : forall va, pte_at (k_mem s') (a_tree A) va = pte_at (k_mem s) (a_tree A) va).
  { intros va. by eapply pte_at_frame. }
  split; cbn [a_tree a_free a_um a_own].
  - split; cbn [a_tree a_free a_um a_own]; [|done| |by rewrite Hperm..].
    + split; [done| | |by rewrite (mem_only_held _ _ Ho)].
      * eapply pt_ok_frame; [|done]. intros π q Hπ _. apply Ht, elem_tree_pages. by eexists.
      * set_solver.
    + intros va Hva Ha. rewrite Hp. by apply Hpte.
  - done.
  - done.
  - intros q Hq Hn _ _. rewrite Hl, not_elem_of_cons in Hn. destruct Hn. by apply Hs.
  - auto.
  - intros va _ _. apply Hp.
Qed.

Lemma as_aligned s root A p : as_ok s root A -> p ∈ a_pages A -> page_ok p /\ p mod PGSIZE = 0.
Proof.
  intros Hok Hp. pose proof (as_pages _ _ _ Hok) as H. rewrite Forall_forall in H.
  specialize (H p Hp). split; [done|apply H].
Qed.

(** Writing into a page that is neither free nor a table. *)
Lemma as_write s root A p m' :
  as_ok s root A -> p ∈ a_own A \/ p ∈ um_pages (a_um A) ->
  (forall q, q mod PGSIZE = 0 -> q <> p -> same_page (k_mem s) m' q) ->
  as_ok (set_k_mem m' s) root A.
Proof.
  intros Hok Hp Hs. apply as_ok_frame with s; [apply freelist_set_mem|done| |done].
  pose proof (as_nodup _ _ _ Hok) as Hnd. cbn [k_mem set_k_mem]. intros q Hq. apply Hs.
  - eapply as_aligned; [done|]. unfold a_pages. rewrite !elem_of_app. tauto.
  - intros ->. destruct Hq as [Hq|Hq]; [apply (a_nodup_free A p Hnd) in Hq|apply (a_nodup_tree A p Hnd) in Hq];
      tauto.
Qed.

Lemma as_kfree s root t l um own p :
  as_ok s root (mk_aspace t l um (p :: own)) ->
  exists s', kfree p s = Ret tt s' /\
  as_step root s (mk_aspace t l um (p :: own)) s' (mk_aspace t (p :: l) um own).
Proof.
  intros Hok. pose proof Hok as [[Hk Hpt Hap Hlk] Hd Hpte Hpg Hnd]. cbn in Hk, Hap, Hpt, Hlk, Hd, Hpte.
  assert (Hp : page_ok p) by (by apply Forall_cons in Hpg as [? _]).
  assert (Hpa : p ∉ own ++ l ++ tree_pages t ++ um_pages um) by (by apply NoDup_cons in Hnd as [? _]).
  rewrite !not_elem_of_app in Hpa. destruct Hpa as (Hpo & Hpl & Hpt' & Hpu).
  destruct (kfree_frame s p l Hk Hp Hpl Hlk) as (s' & Hrun & Hk' & Ho & Hs).
  exists s'. split; [done|].
  assert (Hperm : a_pages (mk_aspace t (p :: l) um own) ≡ₚ a_pages (mk_aspace t l um (p :: own))).
  { unfold a_pages. cbn. solve_Permutation. }
  assert (Ht : forall q, q ∈ tree_pages t -> same_page (k_mem s) (k_mem s') q).
  { intros q Hq. apply Hs; [|congruence]. apply elem_tree_pages in Hq as [π Hπ].
    destruct (pt_path _ _ _ Hpt _ _ Hπ) as (_ & _ & Hq). by apply page_ok_56. }
  assert (Hpe : forall va, pte_at (k_mem s') t va = pte_at (k_mem s) t va).
  { intros va. by eapply pte_at_frame. }
  split; cbn [a_tree a_free a_um a_own].
  - split; cbn [a_tree a_free a_um a_own]; [|done| |by rewrite Hperm..].
    + split; [done| | |by rewrite (mem_only_held _ _ Ho)].
      * eapply pt_ok_frame; [|done]. intros π q Hπ _. apply Ht, elem_tree_pages. by eexists.
      * intros π q Hq. rewrite not_elem_of_cons. split; [|eauto].
        intros ->. apply Hpt', elem_tree_pages. by eexists.
    + intros va Hva Ha. rewrite Hpe. by apply Hpte.
  - done.
  - done.
  - intros q Hq Hn Hn' _. rewrite not_elem_of_cons in Hn'. destruct Hn'. by apply Hs.
  - auto.
  - intros va _ _. apply Hpe.
Qed.

(** A PTE update seen at the level of address spaces. *)
Lemma as_of_upd s root t l um own s' t' used l' f um' own' :
  as_ok s root (mk_aspace t l um own) -> vm_upd s root t l s' t' used l' f ->
  um_pages um' ++ own' ≡ₚ um_pages um ++ own ->
  (forall va pa fl, um' !! va = Some (pa, fl) ->
    0 <= va < TRAPFRAME /\ va mod PGSIZE = 0 /\ 0 <= fl < 2 ^ 10 /\ Z.testbit fl 0 = true /\ fl <> PTE_V) ->
  (forall va, 0 <= va < TRAPFRAME -> va mod PGSIZE = 0 ->
    match um' !! va with
    | Some (pa, fl) => default (pte_at (k_mem s) t va) (f va) = Z.lor (PA2PTE pa) fl
    | None => has (default (pte_at (k_mem s) t va) (f va)) PTE_V = false
    end) ->
  (forall va, TRAPFRAME <= va -> f va = None) ->
  as_step root s (mk_aspace t l um own) s' (mk_aspace t' l' um' own').
Proof.
  intros [Hvm Hd Hpte Hpg Hnd] [V F S N T O M P] Hperm Hd' Hpte' Hhi. cbn in Hvm, Hd, Hpte.
  assert (Hall : a_pages (mk_aspace t' l' um' own') ≡ₚ a_pages (mk_aspace t l um own)).
  { unfold a_pages. cbn. rewrite T, F.
    transitivity (used ++ l' ++ tree_pages t ++ (um_pages um' ++ own')); [solve_Permutation|].
    rewrite Hperm. solve_Permutation. }
  split; cbn [a_tree a_free a_um a_own]; [|done|done| | |].
  - split; cbn [a_tree a_free a_um a_own]; [done|done| |by rewrite Hall..].
    intros va Hva Ha. rewrite P by (done || vlia). by apply Hpte'.
  - intros p Hp Hl Hl' Ht. apply M; [done| |].
    + intros Hu. apply Hl. rewrite F. apply elem_of_app. by left.
    + intros π Hπ. apply Ht, elem_tree_pages. by eexists.
  - intros p Hp. rewrite T, elem_of_app in Hp. rewrite F, elem_of_app. tauto.
  - intros va Hva Ha. rewrite P by (done || vlia). by rewrite Hhi by lia.
Qed.

Lemma map_ptes_1 va pa perm va' :
  va mod PGSIZE = 0 -> va' mod PGSIZE = 0 ->
  map_ptes va pa perm 1 va' =
  if va' =? va then Some (Z.lor (PA2PTE pa) (Z.lor perm PTE_V)) else None.
Proof.
  intros Ha Ha'. unfold map_ptes. rewrite <- Z.lor_assoc.
  destruct (within_spec va' va (Z.of_nat 1 * PGSIZE)), (Z.eqb_spec va' va); try done.
  - subst. by rewrite Z.sub_diag, Z.add_0_r.
  - vdivlia.
  - vlia.
Qed.

Lemma flag_range perm : 0 <= perm < 2 ^ 10 -> 0 <= Z.lor perm PTE_V < 2 ^ 10 /\ Z.testbit (Z.lor perm PTE_V) 0 = true.
Proof.
  intros Hp. split; [|by rewrite Z.lor_spec, orb_true_r].
  apply lor_bound; [lia|done|apply PTE_V_flag].
Qed.

Lemma as_map s root t l um own va pa perm :
  as_ok s root (mk_aspace t l um (pa :: own)) ->
  0 <= va < TRAPFRAME -> va mod PGSIZE = 0 -> um !! va = None ->
  0 <= perm < 2 ^ 10 -> Z.lor perm PTE_V <> PTE_V ->
  exists r s' t' l' um' own', mappages root va PGSIZE pa perm s = Ret r s' /\
    as_step root s (mk_aspace t l um (pa :: own)) s' (mk_aspace t' l' um' own') /\
    (exists used, l = used ++ l' /\ (length used <= 2)%nat) /\
    ((r = 0 /\ um' = <[va := (pa, Z.lor perm PTE_V)]> um /\ own' = own) \/
     (r = -1 /\ um' = um /\ own' = pa :: own /\ l' = [])).
Proof.
  intros Hok Hva Haln Hnone Hperm HpV. pose proof Hok as [Hvm Hd Hpte Hpg Hnd]. cbn in Hvm, Hd, Hpte.
  assert (Hpae : page_ok pa) by (by apply Forall_cons in Hpg as [? _]).
  destruct (page_ok_56 pa Hpae) as [Hpa1 Hpa2], (page_ok_range _ Hpae) as (_ & Hpa3 & _).
  pose proof (Hpte va Hva Haln) as Hun. rewrite Hnone in Hun.
  destruct (mappages_loop root perm 0 s t l va pa) as (s' & t' & u & l' & k & Hrun & Hup & Hk & Hl' & Hlen);
    try done; try vlia.
  { intros va' Hr Ha. assert (va' = va) as -> by vdivlia. done. }
  assert (Hm : mappages root va PGSIZE pa perm s = Ret (if decide (k = 1%nat) then 0 else -1) s').
  { unfold mappages. rewrite Haln. cbn [Z.eqb negb]. change (PGSIZE mod PGSIZE) with 0.
    change (PGSIZE =? 0) with false. cbn [Z.eqb negb]. change (Z.to_nat (PGSIZE / PGSIZE)) with 1%nat.
    rewrite u64_small by vlia. replace (va + PGSIZE - PGSIZE) with (va + Z.of_nat 0 * PGSIZE) by lia.
    exact Hrun. }
  rewrite Hm. destruct (decide (k = 1%nat)) as [->|Hk1].
  - exists 0, s', t', l', (<[va := (pa, Z.lor perm PTE_V)]> um), own. split_and!; [done| |by exists u; split; [apply Hup|]|by left].
    eapply as_of_upd; [done|done|rewrite um_pages_insert by done; solve_Permutation| | |].
    + intros va' pa' fl. rewrite lookup_insert. case_decide as E; [|apply Hd].
      intros [= <- <-]. subst. destruct (flag_range perm Hperm). done.
    + intros va' Hva' Ha'. rewrite map_ptes_1, lookup_insert by done.
      case_decide as E; [subst; by rewrite Z.eqb_refl|].
      destruct (Z.eqb_spec va' va); [congruence|]. by apply Hpte.
    + intros va' Hva'. unfold map_ptes. destruct (within_spec va' va (Z.of_nat 1 * PGSIZE)); [|done].
      exfalso. vdivlia.
  - assert (k = O) as -> by lia. exists (-1), s', t', l', um, (pa :: own).
    split_and!; [done| |by exists u; split; [apply Hup|]|right; split_and!; try done; apply Hl'; lia].
    assert (E : forall va', map_ptes va pa perm 0 va' = None).
    { intros va'. unfold map_ptes. destruct (within_spec va' va (Z.of_nat 0 * PGSIZE)); [lia|done]. }
    eapply as_of_upd; [done|done|done|done| |done]. intros va' Hva' Ha'. rewrite E. by apply Hpte.
Qed.

End Uvm.
