(* ===== verification/Uspace.v ===== *)
(** * User address spaces: growing, shrinking, copying and freeing them

    [uvmunmap], [uvmdealloc], [uvmalloc], [uvmcopy], [freewalk] and [uvmfree]
    against the address-space maps of [Uvm.v]. *)

From stdpp Require Import base list gmap strings.
From Stdlib Require Import ZArith Lia.
From S2P Require Import Prelude Mem KString Riscv State Sched Kalloc Vm PtRep Uvm.
Open Scope Z_scope.

Section Uspace.
Context {L : Layout} `{!LayoutOk L}.

Lemma has_0 b : has 0 b = false.
Proof. unfold has. by rewrite Z.land_0_l. Qed.

(** ** uvmunmap *)

Lemma as_slot s root A va pa f :
  as_ok s root A -> a_um A !! va = Some (pa, f) ->
  exists a, pt_slot (a_tree A) va = Some a /\ a <> 0 /\
    load64 (k_mem s) a = Z.lor (PA2PTE pa) f /\ page_ok pa.
Proof.
  intros Hok Hum. destruct (as_dom _ _ _ Hok va pa f Hum) as (Hva & Ha & Hf & Hb & _).
  pose proof (as_pte _ _ _ Hok va Hva Ha) as Hp. rewrite Hum in Hp.
  assert (Hpa : page_ok pa).
  { eapply as_aligned; [done|]. unfold a_pages. rewrite !elem_of_app.
    do 3 right. apply elem_um_pages. eauto. }
  unfold pte_at in Hp. destruct (pt_slot (a_tree A) va) as [a|] eqn:E.
  - exists a. split_and!; try done.
    by destruct (pt_slot_split _ _ _ _ _ (vm_pt _ _ _ _ (as_vm _ _ _ Hok)) E) as (? & _ & _ & _ & ?).
  - exfalso. pose proof (has_pte_V pa f Hpa Hf) as H. rewrite <- Hp, has_0, Hb in H. done.
Qed.

Lemma as_unmap1 s root t l um own va pa f stop_ :
  as_ok s root (mk_aspace t l um own) -> um !! va = Some (pa, f) -> va < stop_ ->
  exists s', uvmunmap_step root stop_ true va s = Ret (inl (va + PGSIZE)) s' /\
  as_step root s (mk_aspace t l um own) s' (mk_aspace t (pa :: l) (delete va um) own).
Proof.
  intros Hok Hum Hstop. destruct (as_slot _ _ _ va pa f Hok Hum) as (a & Ea & Ha0 & Hld & Hpa).
  pose proof Hok as [[Hk Hpt Hap Hlk] Hd Hpte Hpg Hnd]. cbn [a_tree a_free a_um a_own] in *.
  destruct (Hd _ _ _ Hum) as (Hva & Haln & Hf & Hb & HfV).
  assert (Hperm : a_pages (mk_aspace t (pa :: l) (delete va um) own) ≡ₚ a_pages (mk_aspace t l um own)).
  { unfold a_pages. cbn. rewrite (um_pages_delete um va pa f Hum). solve_Permutation. }
  assert (Hnd' : NoDup (a_pages (mk_aspace t (pa :: l) (delete va um) own))) by (by rewrite Hperm).
  pose proof (a_nodup_free _ pa Hnd' ltac:(by left)) as (_ & Hpt' & _). cbn in Hpt'.
  assert (Hpl : pa ∉ l).
  { intros Hl. apply (a_nodup_free _ pa Hnd) in Hl as (_ & _ & Hl). apply Hl, elem_um_pages. eauto. }
  destruct (kfree_frame s pa l Hk Hpa Hpl Hlk) as (s1 & Hrun & Hk1 & Ho1 & Hs1).
  assert (Ht : forall q, q ∈ tree_pages t -> same_page (k_mem s) (k_mem s1) q).
  { intros q Hq. apply Hs1; [|congruence]. apply elem_tree_pages in Hq as [π Hπ].
    destruct (pt_path _ _ _ Hpt _ _ Hπ) as (_ & _ & Hq). by apply page_ok_56. }
  assert (Hpe : forall va, pte_at (k_mem s1) t va = pte_at (k_mem s) t va).
  { intros va'. by eapply pte_at_frame. }
  assert (Hvm1 : vm_ok s1 root t (pa :: l)).
  { split; [done| | |by rewrite (mem_only_held _ _ Ho1)].
    - eapply pt_ok_frame; [|done]. intros π q Hπ _. apply Ht, elem_tree_pages. by eexists.
    - intros π q Hq. rewrite not_elem_of_cons. split; [|eauto].
      intros ->. apply Hpt', elem_tree_pages. by eexists. }
  destruct (pt_set_ok s1 root t (pa :: l) va a 0 Hvm1) as [V O F M P]; try done; [vlia|].
  exists (set_k_mem (store64 (k_mem s1) a 0) s1). split.
  - unfold uvmunmap_step. destruct (Z.ltb_spec va stop_); [|lia].
    kstep_by (walk_ok s root t va Hpt); [|vlia]. rewrite Ea. change (default 0 (Some a)) with a.
    destruct (Z.eqb_spec a 0); [done|]. unfold ld64, st64, mod_mem. kstep. rewrite Hld.
    rewrite has_pte_V, Hb by done. cbn [negb]. destruct (page_ok_56 pa Hpa).
    rewrite PTE_FLAGS_pte by done. destruct (Z.eqb_spec f PTE_V); [done|].
    rewrite PTE2PA_pte by done. kstep_by Hrun. kstep. rewrite u64_small by vlia. done.
  - split; cbn [a_tree a_free a_um a_own]; [|done| | |by auto|].
    + split; cbn [a_tree a_free a_um a_own]; [done| | |by rewrite Hperm..].
      * intros va' pa' f'. rewrite lookup_delete. case_decide; [done|]. apply Hd.
      * intros va' Hva' Ha'. rewrite P by (done || vlia). rewrite lookup_delete.
        destruct (Z.eqb_spec va' va); case_decide; try congruence; [apply has_0|].
        rewrite Hpe. by apply Hpte.
    + transitivity s1; done.
    + intros q Hq Hl Hl' Htq. rewrite not_elem_of_cons in Hl'.
      apply same_page_trans with (k_mem s1); [apply Hs1; tauto|].
      apply M; [done|]. intros π Hπ. apply Htq, elem_tree_pages. by eexists.
    + intros va' Hva' Ha'. rewrite P by (done || vlia).
      destruct (Z.eqb_spec va' va); [lia|]. apply Hpe.
Qed.

Fixpoint um_del (um : umap) (va : Z) (n : nat) : umap :=
  match n with O => um | S n => um_del (delete va um) (va + PGSIZE) n end.

Lemma lookup_um_del um va n va' :
  um_del um va n !! va' = if decide (va' ∈ pages_from va n) then None else um !! va'.
Proof.
  revert um va. induction n as [|n IH]; intros um va; cbn [um_del pages_from].
  - by rewrite decide_False by apply not_elem_of_nil.
  - rewrite IH, lookup_delete. repeat case_decide; set_solver.
Qed.

Lemma uvmunmap_loop root t own n : forall s l um va,
  as_ok s root (mk_aspace t l um own) ->
  (forall i, (i < n)%nat -> is_Some (um !! (va + Z.of_nat i * PGSIZE))) ->
  exists s' l', loop (S n) (uvmunmap_step root (va + Z.of_nat n * PGSIZE) true) va s = Ret tt s' /\
    as_step root s (mk_aspace t l um own) s' (mk_aspace t l' (um_del um va n) own) /\
    (forall p, p ∈ l -> p ∈ l').
Proof.
  induction n as [|n IH]; intros s l um va Hok Hm.
  - exists s, l. split_and!; [|by apply as_step_refl|done]. apply loop_break.
    unfold uvmunmap_step. destruct (Z.ltb_spec va (va + Z.of_nat 0 * PGSIZE)); [lia|done].
  - destruct (Hm O) as [[pa f] Hum]; [lia|]. rewrite Z.add_0_r in Hum.
    destruct (as_unmap1 s root t l um own va pa f (va + Z.of_nat (S n) * PGSIZE))
      as (s1 & Hrun & Hst); [done|done|vlia|].
    destruct (IH s1 (pa :: l) (delete va um) (va + PGSIZE)) as (s2 & l2 & Hl & Hst2 & Hsub);
      [apply Hst| |].
    { intros i Hi. rewrite lookup_delete_ne by vlia. destruct (Hm (S i)) as [x Hx]; [lia|].
      exists x. rewrite <- Hx. f_equal. lia. }
    exists s2, l2. split_and!.
    + erewrite loop_continue by exact Hrun.
      replace (va + Z.of_nat (S n) * PGSIZE) with (va + PGSIZE + Z.of_nat n * PGSIZE) by lia. done.
    + eapply as_step_trans; [|done|done]. cbn. auto.
    + intros p Hp. apply Hsub. by right.
Qed.

Lemma uvmunmap_ok root t own n s l um va :
  as_ok s root (mk_aspace t l um own) -> va mod PGSIZE = 0 -> 0 <= va ->
  va + Z.of_nat n * PGSIZE <= MAXVA ->
  (forall i, (i < n)%nat -> is_Some (um !! (va + Z.of_nat i * PGSIZE))) ->
  exists s' l', uvmunmap root va (Z.of_nat n) true s = Ret tt s' /\
    as_step root s (mk_aspace t l um own) s' (mk_aspace t l' (um_del um va n) own) /\
    (forall p, p ∈ l -> p ∈ l').
Proof.
  intros Hok Ha H0 Hhi Hm. unfold uvmunmap. rewrite Ha. cbn [Z.eqb negb].
  rewrite Nat2Z.id, u64_small by vlia. by apply uvmunmap_loop.
Qed.

(** ** uvmdealloc *)

(** The part of an address space below [b]. *)
Definition um_below (um : umap) (b : Z) : umap := filter (fun x => x.1 < b) um.

(** The mapped pages are those from 0 up to [sz]. *)
Definition um_cov (um : umap) (sz : Z) : Prop :=
  forall va, is_Some (um !! va) <-> 0 <= va < sz /\ va mod PGSIZE = 0.

Lemma lookup_um_below um b va : um_below um b !! va = if decide (va < b) then um !! va else None.
Proof.
  apply option_eq. intros x. unfold um_below. rewrite map_lookup_filter_Some. cbn.
  case_decide; naive_solver.
Qed.

Lemma um_below_cov um a : um_cov um a -> um_below um a = um.
Proof.
  intros H. apply map_eq. intros va. rewrite lookup_um_below. case_decide; [done|].
  destruct (um !! va) eqn:E; [|done]. destruct (proj1 (H va)) as [? _]; [by eexists|lia].
Qed.

Lemma um_del_below um a b n :
  um_cov um a -> 0 <= b -> b mod PGSIZE = 0 -> a = b + Z.of_nat n * PGSIZE ->
  um_del um b n = um_below um b.
Proof.
  intros Hc Hb Ha ->. apply map_eq. intros va. rewrite lookup_um_del, lookup_um_below.
  destruct (um !! va) as [x|] eqn:E; [|by repeat case_decide].
  destruct (proj1 (Hc va)) as [Hr Hal]; [by eexists|].
  case_decide as H; case_decide as H'; try done.
  - apply elem_of_pages_from in H as (i & Hi & ->). exfalso. vlia.
  - exfalso. apply H, elem_of_pages_from. exists (Z.to_nat ((va - b) / PGSIZE)). vdivlia.
Qed.

Lemma um_cov_below um a b : um_cov um a -> b <= a -> um_cov (um_below um b) b.
Proof.
  intros H Hb va. rewrite lookup_um_below. case_decide.
  - rewrite (H va). lia.
  - split; [intros [? ?]; done|lia].
Qed.

Lemma uvmdealloc_ok root t own s l um oldsz newsz :
  as_ok s root (mk_aspace t l um own) -> um_cov um (PGROUNDUP oldsz) ->
  0 <= newsz <= oldsz -> oldsz <= MAXVA ->
  exists s' l', uvmdealloc root oldsz newsz s = Ret newsz s' /\
    as_step root s (mk_aspace t l um own) s'
      (mk_aspace t l' (um_below um (PGROUNDUP newsz)) own) /\
    (forall p, p ∈ l -> p ∈ l').
Proof.
  intros Hok Hc Hn Ho. destruct (PGROUNDUP_bounds newsz) as [Hn1 Hn2]; [vlia|].
  destruct (PGROUNDUP_bounds oldsz) as [Ho1 Ho2]; [vlia|].
  assert (Hle : PGROUNDUP newsz <= PGROUNDUP oldsz).
  { rewrite !PGROUNDUP_eq by vlia. vdivlia. }
  assert (Hmax : PGROUNDUP oldsz <= MAXVA).
  { rewrite PGROUNDUP_eq by vlia. vdivlia. }
  assert (Hbelow : PGROUNDUP newsz = PGROUNDUP oldsz -> um_below um (PGROUNDUP newsz) = um).
  { intros ->. by apply um_below_cov. }
  unfold uvmdealloc. destruct (Z.leb_spec oldsz newsz).
  - assert (oldsz = newsz) as <- by lia. exists s, l. rewrite Hbelow by done.
    split_and!; [done|by apply as_step_refl|done].
  - destruct (Z.ltb_spec (PGROUNDUP newsz) (PGROUNDUP oldsz)) as [Hlt|Hge].
    + set (n := Z.to_nat ((PGROUNDUP oldsz - PGROUNDUP newsz) / PGSIZE)).
      assert (Hnn : PGROUNDUP oldsz = PGROUNDUP newsz + Z.of_nat n * PGSIZE) by (unfold n; vdivlia).
      assert (Hnr : (PGROUNDUP oldsz - PGROUNDUP newsz) / PGSIZE = Z.of_nat n) by (unfold n; vdivlia).
      rewrite Hnr, s32_small, u64_small by vlia.
      destruct (uvmunmap_ok root t own n s l um (PGROUNDUP newsz)) as (s' & l' & Hrun & Hst & Hsub);
        try done; try vlia.
      { intros i Hi. apply Hc. vdivlia. }
      exists s', l'. split_and!; [|by erewrite <- um_del_below by (done || lia)|done].
      kstep_by Hrun. done.
    + exists s, l. rewrite Hbelow by lia. split_and!; [by kstep|by apply as_step_refl|done].
Qed.

(** ** uvmalloc *)

Definition zero_page (m : mem) (p : Z) : Prop := forall i, 0 <= i < PGSIZE -> mget m (p + i) = 0.

Lemma zero_page_memset m p : zero_page (memset m p 0 PGSIZE) p.
Proof.
  intros i Hi. rewrite mget_memset by vlia. destruct (within_spec (p + i) p PGSIZE); [done|lia].
Qed.

Lemma zero_page_same m m' p : same_page m m' p -> zero_page m p -> zero_page m' p.
Proof. intros Hs Hz i Hi. rewrite Hs by done. by apply Hz. Qed.

Lemma as_step_write root s A s1 A1 p m' :
  as_step root s A s1 A1 -> p ∈ a_own A1 -> p ∈ a_free A ->
  (forall q, q mod PGSIZE = 0 -> q <> p -> same_page (k_mem s1) m' q) ->
  as_step root s A (set_k_mem m' s1) A1.
Proof.
  intros [K P O M T H] Ho Hf Hs. pose proof (as_nodup _ _ _ K) as Hnd. split; try done.
  - eapply as_write; eauto.
  - etransitivity; [done|apply mem_only_mem].
  - intros q Hq Hn Hn' Ht. apply same_page_trans with (k_mem s1); [by apply M|].
    apply Hs; [done|]. congruence.
  - intros va Hva Ha. rewrite <- H by done. eapply pte_at_frame; [apply K|].
    intros q Hq. apply Hs.
    + eapply as_aligned; [done|]. unfold a_pages. rewrite !elem_of_app. auto.
    + intros ->. by apply (a_nodup_tree A1 p Hnd) in Hq as [? _].
Qed.

Lemma as_um_page s root A va pa f :
  as_ok s root A -> a_um A !! va = Some (pa, f) ->
  pa mod PGSIZE = 0 /\ (pa ∉ a_free A) /\ (pa ∉ tree_pages (a_tree A)).
Proof.
  intros Hok Hum. pose proof (as_nodup _ _ _ Hok) as Hnd.
  assert (Hin : pa ∈ um_pages (a_um A)) by (apply elem_um_pages; eauto).
  split_and!.
  - eapply as_aligned; [done|]. unfold a_pages. rewrite !elem_of_app. auto.
  - intros H. by apply (a_nodup_free A pa Hnd) in H as (_ & _ & ?).
  - intros H. by apply (a_nodup_tree A pa Hnd) in H as (_ & _ & ?).
Qed.

(** A page that stays mapped keeps its contents. *)
Lemma as_step_um root s A s' A' va pa f va' f' :
  as_step root s A s' A' -> as_ok s root A ->
  a_um A !! va = Some (pa, f) -> a_um A' !! va' = Some (pa, f') ->
  same_page (k_mem s) (k_mem s') pa.
Proof.
  intros Hst Hok H1 H2. destruct (as_um_page _ _ _ _ _ _ Hok H1) as (Ha & Hf & Ht).
  destruct (as_um_page _ _ _ _ _ _ (st_ok _ _ _ _ _ Hst) H2) as (_ & Hf' & _).
  by apply (st_frame _ _ _ _ _ Hst).
Qed.

Lemma um_cov_insert um a x :
  um_cov um a -> a mod PGSIZE = 0 -> 0 <= a -> um_cov (<[a := x]> um) (a + PGSIZE).
Proof.
  intros H Ha H0 va. rewrite lookup_insert. case_decide; [subst; split; [vlia|by eexists]|].
  rewrite (H va). vdivlia.
Qed.

(** Allocate a page, fill it and map it at [va]: the common part of [uvmalloc]
    and [uvmcopy]. *)
Lemma as_alloc_map s root t p l um own va perm fill :
  as_ok s root (mk_aspace t (p :: l) um own) -> um !! va = None ->
  0 <= va < TRAPFRAME -> va mod PGSIZE = 0 -> 0 <= perm < 2 ^ 10 -> Z.lor perm PTE_V <> PTE_V ->
  (forall m q, q mod PGSIZE = 0 -> q <> p -> same_page m (fill m) q) ->
  exists r s1 s2 t' l' um' own', kalloc s = Ret p s1 /\ p <> 0 /\
    (forall q, q mod PGSIZE = 0 -> q <> p -> same_page (k_mem s) (k_mem s1) q) /\
    mappages root va PGSIZE p perm (set_k_mem (fill (k_mem s1)) s1) = Ret r s2 /\
    as_step root s (mk_aspace t (p :: l) um own) s2 (mk_aspace t' l' um' own') /\
    (forall q, q ∈ l' -> q ∈ l) /\ (length l <= 2 + length l')%nat /\
    ((r = 0 /\ um' = <[va := (p, Z.lor perm PTE_V)]> um /\ own' = own /\
      same_page (fill (k_mem s1)) (k_mem s2) p) \/
     (r = -1 /\ um' = um /\ own' = p :: own /\ l' = [])).
Proof.
  intros Hok Hnone Hva Ha Hperm HpV Hfill.
  destruct (as_kalloc s root _ p l Hok eq_refl) as (s1 & Hrun1 & Hst1). cbn [a_tree a_um a_own] in Hst1.
  assert (Hpp : page_ok p) by (eapply as_aligned; [apply Hst1|by left]).
  assert (Hst2 := as_step_write _ _ _ _ _ p (fill (k_mem s1)) Hst1 ltac:(by left) ltac:(by left)
    (Hfill (k_mem s1))).
  destruct (as_map (set_k_mem (fill (k_mem s1)) s1) root t l um own va p perm)
    as (r & s3 & t3 & l3 & um3 & own3 & Hrun3 & Hst3 & (used & Hused & Hlen) & Hr); [apply Hst2|done..|].
  exists r, s1, s3, t3, l3, um3, own3. split_and!; [done| | |done| | |rewrite Hused, length_app; lia|].
  - pose proof (page_ok_pos p Hpp). vlia.
  - destruct (kalloc_frame s p l) as (s1' & Hrun1' & _ & _ & Hs); [apply Hok|apply Hok|].
    rewrite Hrun1 in Hrun1'. injection Hrun1' as <-. done.
  - eapply as_step_trans; [|exact Hst2|exact Hst3]. cbn. intros q Hq. left. by right.
  - intros q Hq. rewrite Hused. apply elem_of_app. by right.
  - destruct Hr as [(-> & -> & ->)|Hr]; [left; split_and!; try done|by right].
    destruct (as_um_page s3 root _ va p _ (st_ok _ _ _ _ _ Hst3) (lookup_insert_eq _ _ _)) as (_ & Hf & _).
    pose proof (as_nodup _ _ _ (st_ok _ _ _ _ _ Hst2)) as Hnd.
    apply (st_frame _ _ _ _ _ Hst3); [apply Hpp| |done|]; intros Hl.
    + by apply (a_nodup_free _ p Hnd) in Hl as [[]%not_elem_of_cons _].
    + by apply (a_nodup_tree _ p Hnd) in Hl as [[]%not_elem_of_cons _].
Qed.

Lemma um_cov_next um a : um_cov um a -> um !! a = None.
Proof.
  intros Hc. destruct (um !! a) eqn:E; [|done]. destruct (proj1 (Hc a)); [by eexists|lia].
Qed.

Lemma uvmalloc_step_ok s root t l um own a oldsz newsz xperm :
  as_ok s root (mk_aspace t l um own) -> um_cov um a ->
  0 <= oldsz <= a -> a mod PGSIZE = 0 -> oldsz mod PGSIZE = 0 -> a < newsz <= TRAPFRAME ->
  0 <= xperm < 2 ^ 10 ->
  exists s' t' l' um', as_step root s (mk_aspace t l um own) s' (mk_aspace t' l' um' own) /\
    ((uvmalloc_step root oldsz newsz xperm a s = Ret (inl (a + PGSIZE)) s' /\
      (forall p, p ∈ l' -> p ∈ l) /\ (length l <= 3 + length l')%nat /\
      exists pa, pa ∈ l /\ zero_page (k_mem s') pa /\
        um' = <[a := (pa, Z.lor (Z.lor (Z.lor PTE_R PTE_U) xperm) PTE_V)]> um) \/
     (uvmalloc_step root oldsz newsz xperm a s = Ret (inr 0) s' /\ um' = um_below um oldsz /\ (length l <= 3)%nat)).
Proof.
  intros Hok Hc Hold Haa Hoa Hnew Hx. unfold uvmalloc_step.
  destruct (Z.ltb_spec a newsz); [|lia].
  assert (Hround : PGROUNDUP a = a /\ PGROUNDUP oldsz = oldsz) by (split; apply PGROUNDUP_aligned; vlia).
  destruct Hround as [Hra Hro].
  assert (Hdeal : forall s t l, as_ok s root (mk_aspace t l um own) -> exists s' l',
    uvmdealloc root a oldsz s = Ret oldsz s' /\
    as_step root s (mk_aspace t l um own) s' (mk_aspace t l' (um_below um oldsz) own)).
  { intros s0 t0 l0 H0. destruct (uvmdealloc_ok root t0 own s0 l0 um a oldsz) as (s' & l' & ? & ? & _);
      rewrite ?Hra; try done; [vlia|]. rewrite Hro in *. by exists s', l'. }
  destruct l as [|p l].
  - destruct (Hdeal s t [] Hok) as (s' & l' & Hrun & Hst).
    exists s', t, l', (um_below um oldsz). split; [done|]. right. split; [|split; [done|cbn; lia]].
    kstep_by kalloc_none; [|apply Hok|apply Hok]. cbn [Z.eqb]. kstep_by Hrun. done.
  - destruct (as_alloc_map s root t p l um own a (Z.lor (Z.lor PTE_R PTE_U) xperm)
      (fun m => memset m p 0 PGSIZE)) as (r & s1 & s2 & t2 & l2 & um2 & own2 & Hk & Hp0 & _ & Hm & Hst & Hl & Hlen & Hr).
    { done. } { by apply um_cov_next. } { vlia. } { done. } { apply lor_bound; [lia|done|done]. }
    { intros E. apply (f_equal (fun z => Z.testbit z 1)) in E. by rewrite !Z.lor_spec in E. }
    { intros m q Hq Hne. apply same_page_memset; [|done|done].
      eapply as_aligned; [done|]. unfold a_pages. cbn. set_solver. }
    kstep_by Hk. destruct (Z.eqb_spec p 0); [done|].
    destruct Hr as [(-> & -> & -> & Hs)|(-> & -> & -> & ->)].
    + exists s2, t2, l2. eexists. split; [exact Hst|]. left. split_and!.
      * unfold mod_mem. kstep. kstep_by Hm. cbn. by rewrite u64_small by vlia.
      * intros q Hq. right. auto.
      * cbn. lia.
      * exists p. split_and!; [by left| |done]. eapply zero_page_same; [done|apply zero_page_memset].
    + destruct (as_kfree s2 root t2 [] um own p) as (s4 & Hrun4 & Hst4); [apply Hst|].
      destruct (Hdeal s4 t2 [p]) as (s5 & l5 & Hrun5 & Hst5); [apply Hst4|].
      exists s5, t2, l5, (um_below um oldsz). split; [|right; split; [|split; [done|cbn in *; lia]]].
      * eapply as_step_trans; [|eapply as_step_trans; [|exact Hst|exact Hst4]|exact Hst5]; cbn;
          intros q Hq; left; set_solver.
      * unfold mod_mem. kstep. kstep_by Hm. cbn [Z.eqb negb]. kstep_by Hrun4. kstep_by Hrun5. done.
Qed.

(** The whole loop, from [a] up to [newsz]. *)
Lemma uvmalloc_loop root own oldsz newsz xperm n : forall s t l um a,
  as_ok s root (mk_aspace t l um own) -> um_cov um a ->
  0 <= oldsz <= a -> a mod PGSIZE = 0 -> oldsz mod PGSIZE = 0 ->
  newsz <= a + Z.of_nat n * PGSIZE -> (n <> O -> a + Z.of_nat n * PGSIZE < newsz + PGSIZE) ->
  newsz <= TRAPFRAME -> 0 <= xperm < 2 ^ 10 ->
  exists r s' t' l' um', loop (S n) (uvmalloc_step root oldsz newsz xperm) a s = Ret r s' /\
    as_step root s (mk_aspace t l um own) s' (mk_aspace t' l' um' own) /\
    ((r = newsz /\ um ⊆ um' /\ um_cov um' (a + Z.of_nat n * PGSIZE) /\
      (forall p, p ∈ l' -> p ∈ l) /\ (length l <= 3 * n + length l')%nat /\
      forall va pa f, um' !! va = Some (pa, f) -> um !! va = None ->
        zero_page (k_mem s') pa /\ f = Z.lor (Z.lor (Z.lor PTE_R PTE_U) xperm) PTE_V) \/
     (r = 0 /\ um' = um_below um oldsz /\ (length l <= 3 * n)%nat)).
Proof.
  induction n as [|n IH]; intros s t l um a Hok Hc Hold Haa Hoa Hn1 Hn2 Htop Hx.
  - exists newsz, s, t, l, um. split_and!; [|by apply as_step_refl|].
    + apply loop_break. unfold uvmalloc_step. destruct (Z.ltb_spec a newsz); [lia|done].
    + left. rewrite Z.add_0_r. split_and!; try done. intros va pa f H1 H2. congruence.
  - destruct (uvmalloc_step_ok s root t l um own a oldsz newsz xperm)
      as (s1 & t1 & l1 & um1 & Hst & [(Hrun & Hl & Hlen & pa & Hpl & Hz & ->)|(Hrun & -> & Hlen)]); try done; try vlia.
    + pose proof (um_cov_next _ _ Hc) as Hnone.
      destruct (IH s1 t1 l1 _ (a + PGSIZE) (st_ok _ _ _ _ _ Hst))
        as (r & s2 & t2 & l2 & um2 & Hl2 & Hst2 & Hr); try done; try vlia.
      { apply um_cov_insert; [done..|lia]. } { vdivlia. }
      exists r, s2, t2, l2, um2. split_and!; [by erewrite loop_continue| |].
      { eapply as_step_trans; [|done|done]. cbn. auto. }
      destruct Hr as [(-> & Hsub & Hcov & Hll & Hlen2 & Hnew)|(-> & -> & Hlen2)]; [left|right].
      * split_and!; [done| | |by auto|lia|].
        -- etransitivity; [|done]. by apply insert_subseteq.
        -- replace (a + Z.of_nat (S n) * PGSIZE) with (a + PGSIZE + Z.of_nat n * PGSIZE) by lia. done.
        -- intros va pa' f Hva Hn. destruct (decide (va = a)) as [->|Hne].
           ++ assert (Hi := lookup_weaken _ _ a _ (lookup_insert_eq um a _) Hsub).
              rewrite Hi in Hva. injection Hva as <- <-. split; [|done].
              eapply zero_page_same; [|done]. eapply as_step_um; [done|apply Hst|apply lookup_insert_eq|done].
           ++ apply (Hnew va); [done|]. by rewrite lookup_insert_ne.
      * split; [done|]. split; [|lia]. apply map_eq. intros va. rewrite !lookup_um_below. case_decide; [|done].
        apply lookup_insert_ne. lia.
    + exists 0, s1, t1, l1, (um_below um oldsz). split_and!; [by apply loop_break|done|right; split_and!; try done; lia].
Qed.

Lemma uvmalloc_ok root t own s l um oldsz newsz xperm :
  as_ok s root (mk_aspace t l um own) -> um_cov um (PGROUNDUP oldsz) ->
  0 <= oldsz <= newsz -> newsz <= TRAPFRAME -> 0 <= xperm < 2 ^ 10 ->
  exists r s' t' l' um', uvmalloc root oldsz newsz xperm s = Ret r s' /\
    as_step root s (mk_aspace t l um own) s' (mk_aspace t' l' um' own) /\
    ((r = newsz /\ um ⊆ um' /\ um_cov um' (PGROUNDUP newsz) /\
      Z.of_nat (length l) <= 3 * ((PGROUNDUP newsz - PGROUNDUP oldsz) / PGSIZE) + Z.of_nat (length l') /\
      forall va pa f, um' !! va = Some (pa, f) -> um !! va = None ->
        zero_page (k_mem s') pa /\ f = Z.lor (Z.lor (Z.lor PTE_R PTE_U) xperm) PTE_V) \/
     (r = 0 /\ um' = um /\ Z.of_nat (length l) <= 3 * ((PGROUNDUP newsz - PGROUNDUP oldsz) / PGSIZE))).
Proof.
  intros Hok Hc Hsz Htop Hx. unfold uvmalloc. destruct (Z.ltb_spec newsz oldsz); [lia|].
  destruct (PGROUNDUP_bounds newsz) as [Hn1 Hn2]; [vlia|].
  destruct (PGROUNDUP_bounds oldsz) as [Ho1 Ho2]; [vlia|].
  assert (Hle : PGROUNDUP oldsz <= PGROUNDUP newsz) by (rewrite !PGROUNDUP_eq by vlia; vdivlia).
  set (n := Z.to_nat ((PGROUNDUP newsz - PGROUNDUP oldsz) / PGSIZE)).
  destruct (uvmalloc_loop root own (PGROUNDUP oldsz) newsz xperm n s t l um (PGROUNDUP oldsz))
    as (r & s' & t' & l' & um' & Hrun & Hst & Hr); try done; try (unfold n; vdivlia).
  exists r, s', t', l', um'. split_and!; [|done|].
  - assert (Hf : (S n <= S (S (Z.to_nat ((newsz - PGROUNDUP oldsz) / PGSIZE))))%nat) by (unfold n; vdivlia).
    by apply (loop_mono (S n)).
  - destruct Hr as [(-> & Hsub & Hcov & _ & Hlen & Hnew)|(-> & -> & Hlen)];
      [left|right; rewrite um_below_cov by done; split_and!; try done; unfold n in Hlen; vdivlia].
    split_and!; try done; [|unfold n in Hlen; vdivlia]. by replace (PGROUNDUP newsz) with (PGROUNDUP oldsz + Z.of_nat n * PGSIZE) by
      (unfold n; vdivlia).
Qed.

End Uspace.
