(* ===== verification/Ucopy.v ===== *)
(** * fork's memory: [uvmcopy]

    The parent's table and pages are read while the child's are built.  The
    parent is given by a [pview], the part of [as_ok] that does not mention the
    free list, and its pages are listed among the child's [a_own], so that they
    are apart from everything the copy allocates. *)

From stdpp Require Import base list gmap strings.
From Stdlib Require Import ZArith Lia.
From S2P Require Import Prelude Mem KString Riscv State Sched Kalloc Vm PtRep Uvm Uspace.
Open Scope Z_scope.

Section Ucopy.
Context {L : Layout} `{!LayoutOk L}.

Record pview (m : mem) (root : Z) (t : ptree) (um : umap) : Prop := {
  pv_pt : pt_ok m root t;
  pv_map : forall va pa f, um !! va = Some (pa, f) ->
    0 <= va < TRAPFRAME /\ va mod PGSIZE = 0 /\ 0 <= f < 2 ^ 10 /\ Z.testbit f 0 = true /\
    f <> PTE_V /\ page_ok pa /\ pte_at m t va = Z.lor (PA2PTE pa) f
}.

Lemma as_pview s root A : as_ok s root A -> pview (k_mem s) root (a_tree A) (a_um A).
Proof.
  intros Hok. split; [apply Hok|]. intros va pa f Hum.
  destruct (as_dom _ _ _ Hok va pa f Hum) as (? & ? & ? & ? & ?). split_and!; try done; try lia.
  - eapply as_aligned; [done|]. unfold a_pages. rewrite !elem_of_app, elem_um_pages. eauto 10.
  - pose proof (as_pte _ _ _ Hok va) as H'. rewrite Hum in H'. auto.
Qed.

Lemma pview_frame m m' root t um :
  (forall p, p ∈ tree_pages t -> same_page m m' p) -> pview m root t um -> pview m' root t um.
Proof.
  intros Hs [Hpt Hm]. split.
  - eapply pt_ok_frame; [|done]. intros π p Hπ _. apply Hs, elem_tree_pages. by eexists.
  - intros va pa f H. rewrite (pte_at_frame m m' root) by done. by apply Hm.
Qed.

Lemma flag_id f : Z.testbit f 0 = true -> Z.lor f PTE_V = f.
Proof.
  intros H. apply Z.bits_inj'. intros n Hn. rewrite Z.lor_spec.
  change (Z.testbit PTE_V n) with (Z.testbit 1 n). destruct (Z.eq_dec n 0) as [->|Hn0].
  - by rewrite H.
  - rewrite (Z.bits_above_log2 1 n) by (cbn; lia). apply orb_false_r.
Qed.

Definition copied (m m' : mem) (pa pa' : Z) : Prop :=
  forall i, 0 <= i < PGSIZE -> mget m' (pa' + i) = mget m (pa + i).

(** What has been copied of [ump] below [i]. *)
Definition copy_of (m m' : mem) (ump um : umap) (i : Z) : Prop :=
  um_cov um i /\
  forall va pa f, ump !! va = Some (pa, f) -> va < i ->
    exists pa', um !! va = Some (pa', f) /\ copied m m' pa pa'.

(** Pages of the parent are untouched by a step of the child. *)
Lemma as_step_own root s A s' A' p :
  as_step root s A s' A' -> as_ok s root A -> p ∈ a_own A -> p ∈ a_own A' ->
  same_page (k_mem s) (k_mem s') p.
Proof.
  intros Hst Hok Hp Hp'. apply (st_frame _ _ _ _ _ Hst).
  - eapply as_aligned; [done|]. unfold a_pages. set_solver.
  - intros H. by apply (a_nodup_free _ p (as_nodup _ _ _ Hok)) in H as [? _].
  - intros H. by apply (a_nodup_free _ p (as_nodup _ _ _ (st_ok _ _ _ _ _ Hst))) in H as [? _].
  - intros H. by apply (a_nodup_tree _ p (as_nodup _ _ _ Hok)) in H as [? _].
Qed.

(** The error exit: everything mapped so far is unmapped and freed. *)
Lemma uvmcopy_undo s new t l um own i :
  as_ok s new (mk_aspace t l um own) -> um_cov um i -> 0 <= i <= TRAPFRAME -> i mod PGSIZE = 0 ->
  exists s' l', uvmunmap new 0 (i / PGSIZE) true s = Ret tt s' /\
    as_step new s (mk_aspace t l um own) s' (mk_aspace t l' ∅ own).
Proof.
  intros Hok Hc Hi Hia. set (n := Z.to_nat (i / PGSIZE)).
  replace (i / PGSIZE) with (Z.of_nat n) by (unfold n; vdivlia).
  destruct (uvmunmap_ok new t own n s l um 0) as (s' & l' & Hrun & Hst & _); try done.
  { unfold n. vdivlia. } { intros j Hj. apply Hc. unfold n in *. vdivlia. }
  exists s', l'. split; [done|]. replace ∅ with (um_del um 0 n); [done|].
  rewrite (um_del_below um i) by (try done; unfold n; vdivlia).
  apply map_eq. intros va. rewrite lookup_um_below, lookup_empty. case_decide; [|done].
  destruct (um !! va) eqn:E; [|done]. destruct (proj1 (Hc va)); [by eexists|lia].
Qed.

(** The pages of the parent are among those the child's construction leaves alone. *)
Definition parent_in (tp : ptree) (ump : umap) (own : list Z) : Prop := forall p, p ∈ tree_pages tp ++ um_pages ump -> p ∈ own.

Lemma uvmcopy_step_run s old new tp ump own t l um i sz pa f :
  pview (k_mem s) old tp ump -> parent_in tp ump own -> as_ok s new (mk_aspace t l um own) ->
  um_cov um i -> 0 <= i < sz -> ump !! i = Some (pa, f) ->
  exists s' t' l' um',
    as_step new s (mk_aspace t l um own) s' (mk_aspace t' l' um' own) /\
    ((uvmcopy_step old new sz i s = Ret (inl (i + PGSIZE)) s' /\
      (forall p, p ∈ l' -> p ∈ l) /\ (length l <= 3 + length l')%nat /\
      exists p, um' = <[i := (p, f)]> um /\ copied (k_mem s) (k_mem s') pa p) \/
     (uvmcopy_step old new sz i s = Ret (inr (-1)) s' /\ um' = ∅ /\ (length l <= 3)%nat)).
Proof.
  intros Hpv Hsub Hok Hc Hi Hum.
  destruct (pv_map _ _ _ _ Hpv i pa f Hum) as (Hir & Hia & Hf & Hb & HfV & Hpok & Hpte).
  pose proof (fun s t l => uvmcopy_undo s new t l um own i) as Herr.
  unfold uvmcopy_step. destruct (Z.ltb_spec i sz); [|lia].
  pose proof (pv_pt _ _ _ _ Hpv) as Hpt. unfold pte_at in Hpte.
  destruct (pt_slot tp i) as [a|] eqn:Ea.
  2: { exfalso. pose proof (has_pte_V pa f Hpok Hf) as Hv. by rewrite <- Hpte, has_0, Hb in Hv. }
  destruct (pt_slot_split _ _ _ _ _ Hpt Ea) as (_ & _ & _ & _ & Ha0). destruct (page_ok_56 pa Hpok).
  kstep_by (walk_ok s old tp i Hpt); [|vlia]. rewrite Ea. change (default 0 (Some a)) with a.
  destruct (Z.eqb_spec a 0); [done|]. unfold ld64. kstep. rewrite Hpte, has_pte_V, Hb by done.
  cbn [negb]. rewrite PTE2PA_pte, PTE_FLAGS_pte by done. destruct l as [|p l].
  - destruct (Herr s t [] Hok Hc ltac:(vlia) Hia) as (s' & l' & Hrun & Hst). exists s', t, l', ∅. split; [done|]. right.
    split; [|split; [done|cbn; lia]]. kstep_by kalloc_none; [|apply Hok|apply Hok]. cbn [Z.eqb]. kstep_by Hrun. done.
  - assert (Hpp : p mod PGSIZE = 0) by (eapply as_aligned; [exact Hok|]; unfold a_pages; set_solver).
    destruct (as_alloc_map s new t p l um own i f (fun m => memmove m p pa PGSIZE))
      as (r & s1 & s2 & t2 & l2 & um2 & own2 & Hk & Hp0 & Hsame & Hm & Hst & Hl & Hlen & Hr);
      try done; [by apply um_cov_next|by rewrite flag_id| |].
    { intros m q Hq Hne j Hj. rewrite mget_memmove by vlia.
      destruct (within_spec (q + j) p PGSIZE); [|done]. destruct (pages_apart p q); vlia. }
    rewrite flag_id in Hr by done. kstep_by Hk. destruct (Z.eqb_spec p 0); [done|].
    destruct Hr as [(-> & -> & -> & Hs)|(-> & -> & -> & ->)].
    + exists s2, t2, l2, (<[i := (p, f)]> um). split; [done|]. left. split_and!.
      * unfold mod_mem. kstep. kstep_by Hm. cbn. by rewrite u64_small by vlia.
      * intros q Hq. right. auto.
      * cbn. lia.
      * exists p. split; [done|]. intros j Hj. rewrite Hs by done. rewrite mget_memmove by vlia.
        destruct (within_spec (p + j) p PGSIZE); [|lia].
        replace (pa + (p + j - p)) with (pa + j) by lia. apply Hsame; [done| |done].
        intros ->. destruct (a_nodup_free _ p (as_nodup _ _ _ Hok)) as [Hno _]; [by left|].
        apply Hno, Hsub, elem_of_app. right. apply elem_um_pages. eauto.
    + destruct (as_kfree s2 new t2 [] um own p) as (s4 & Hrun4 & Hst4); [apply Hst|].
      destruct (Herr s4 t2 [p]) as (s5 & l5 & Hrun5 & Hst5); [apply Hst4|done|vlia|done|].
      exists s5, t2, l5, ∅. split; [|right; split; [|split; [done|cbn in *; lia]]].
      * eapply as_step_trans; [|eapply as_step_trans; [|exact Hst|exact Hst4]|exact Hst5]; cbn;
          intros q Hq; left; set_solver.
      * unfold mod_mem. kstep. kstep_by Hm. cbn [Z.eqb negb]. kstep_by Hrun4. kstep_by Hrun5. done.
Qed.

Lemma copied_same m m1 m' pa pa' :
  copied m m1 pa pa' -> same_page m1 m' pa' -> copied m m' pa pa'.
Proof. intros Hc Hs j Hj. rewrite Hs by done. by apply Hc. Qed.

Lemma copied_from m m1 m' pa pa' :
  same_page m m1 pa -> copied m1 m' pa pa' -> copied m m' pa pa'.
Proof. intros Hs Hc j Hj. rewrite Hc by done. by apply Hs. Qed.

(** One more page: the earlier copies survive, the parent is as it was. *)
Lemma copy_of_step new s0 s A s1 A1 ump i pa f p :
  as_step new s A s1 A1 -> as_ok s new A -> a_own A = a_own A1 ->
  (forall va q g, ump !! va = Some (q, g) -> q ∈ a_own A /\ va mod PGSIZE = 0 /\ same_page (k_mem s0) (k_mem s) q) ->
  ump !! i = Some (pa, f) -> a_um A1 = <[i := (p, f)]> (a_um A) -> 0 <= i ->
  copied (k_mem s) (k_mem s1) pa p ->
  copy_of (k_mem s0) (k_mem s) ump (a_um A) i -> copy_of (k_mem s0) (k_mem s1) ump (a_um A1) (i + PGSIZE).
Proof.
  intros Hst Hok Ho Hpar Hi Hum H0 Hcp [Hcov Hcop].
  destruct (Hpar _ _ _ Hi) as (_ & Hia & Hsi). split.
  - rewrite Hum. by apply um_cov_insert.
  - intros va q g Hva Hlt. destruct (Hpar _ _ _ Hva) as (_ & Hva2 & Hsq). rewrite Hum.
    destruct (decide (va = i)) as [->|Hne].
    + rewrite Hi in Hva. injection Hva as <- <-. exists p. split; [apply lookup_insert_eq|].
      by eapply copied_from.
    + destruct (Hcop va q g Hva) as (q' & Hq' & Hcq); [vdivlia|].
      exists q'. rewrite lookup_insert_ne by done. split; [done|].
      eapply copied_same; [done|]. eapply as_step_um; [done|done|done|].
      rewrite Hum. by rewrite lookup_insert_ne.
Qed.

Lemma uvmcopy_loop old new tp ump own sz n : parent_in tp ump own -> forall s0 s t l um i,
  pview (k_mem s) old tp ump -> as_ok s new (mk_aspace t l um own) ->
  (forall p, p ∈ own -> same_page (k_mem s0) (k_mem s) p) ->
  copy_of (k_mem s0) (k_mem s) ump um i -> um_cov ump (i + Z.of_nat n * PGSIZE) ->
  0 <= i -> i mod PGSIZE = 0 ->
  sz <= i + Z.of_nat n * PGSIZE -> (n <> O -> i + Z.of_nat n * PGSIZE < sz + PGSIZE) ->
  exists r s' t' l' um', loop (S n) (uvmcopy_step old new sz) i s = Ret r s' /\
    as_step new s (mk_aspace t l um own) s' (mk_aspace t' l' um' own) /\
    ((r = 0 /\ copy_of (k_mem s0) (k_mem s') ump um' (i + Z.of_nat n * PGSIZE) /\
      (forall p, p ∈ l' -> p ∈ l)) \/
     (r = -1 /\ um' = ∅ /\ (length l <= 3 * n)%nat)).
Proof.
  intros Hsub. induction n as [|n IH]; intros s0 s t l um i Hpv Hok Hs0 Hcp Hcov H0 Hia Hn1 Hn2.
  - exists 0, s, t, l, um. split_and!; [|by apply as_step_refl|].
    + apply loop_break. unfold uvmcopy_step. destruct (Z.ltb_spec i sz); [lia|done].
    + left. by rewrite Z.add_0_r.
  - destruct (proj2 (Hcov i)) as [[pa f] Hum]; [vlia|]. pose proof Hcp as [Hc _].
    destruct (uvmcopy_step_run s old new tp ump own t l um i sz pa f)
      as (s1 & t1 & l1 & um1 & Hst & [(Hrun & Hl & Hlen & p & -> & Hc1)|(Hrun & -> & Hlen)]); try done; [vlia|..].
    + assert (Hown : forall q, q ∈ own -> same_page (k_mem s) (k_mem s1) q).
      { intros q Hq. by eapply as_step_own. }
      destruct (IH s0 s1 t1 l1 (<[i := (p, f)]> um) (i + PGSIZE))
        as (r & s2 & t2 & l2 & um2 & Hl2 & Hst2 & Hr); try done; try vlia.
      * eapply pview_frame; [|done]. intros q Hq. apply Hown, Hsub, elem_of_app. by left.
      * apply Hst.
      * intros q Hq. eapply same_page_trans; eauto.
      * pose proof (copy_of_step new s0 s _ s1 _ ump i pa f p Hst Hok eq_refl) as Hcs.
        cbn [a_own a_um] in Hcs. apply Hcs; try done.
        intros va q g Hva. destruct (pv_map _ _ _ _ Hpv _ _ _ Hva) as (_ & ? & _).
        assert (q ∈ own) by (apply Hsub, elem_of_app; right; apply elem_um_pages; eauto). auto.
      * by replace (i + PGSIZE + Z.of_nat n * PGSIZE) with (i + Z.of_nat (S n) * PGSIZE) by lia.
      * vdivlia.
      * exists r, s2, t2, l2, um2. split_and!; [by erewrite loop_continue| |].
        { eapply as_step_trans; [|done|done]. cbn. auto. }
        destruct Hr as [(-> & Hcp2 & Hl')|(-> & -> & Hlen2)]; [left|right; split_and!; try done; lia].
        replace (i + Z.of_nat (S n) * PGSIZE) with (i + PGSIZE + Z.of_nat n * PGSIZE) by lia. eauto.
    + exists (-1), s1, t1, l1, ∅. split_and!; [by apply loop_break|done|right; split_and!; try done; lia].
Qed.

Lemma uvmcopy_ok old new tp ump own sz s t l :
  pview (k_mem s) old tp ump -> parent_in tp ump own -> as_ok s new (mk_aspace t l ∅ own) ->
  um_cov ump (PGROUNDUP sz) -> 0 <= sz <= TRAPFRAME ->
  exists r s' t' l' um', uvmcopy old new sz s = Ret r s' /\
    as_step new s (mk_aspace t l ∅ own) s' (mk_aspace t' l' um' own) /\
    ((r = 0 /\ copy_of (k_mem s) (k_mem s') ump um' (PGROUNDUP sz)) \/ (r = -1 /\ um' = ∅ /\ Z.of_nat (length l) <= 3 * (PGROUNDUP sz / PGSIZE))).
Proof.
  intros Hpv Hsub Hok Hcov Hsz. destruct (PGROUNDUP_bounds sz) as [Hn1 Hn2]; [vlia|].
  set (n := Z.to_nat (PGROUNDUP sz / PGSIZE)).
  assert (En : PGROUNDUP sz = 0 + Z.of_nat n * PGSIZE) by (unfold n; vdivlia).
  destruct (uvmcopy_loop old new tp ump own sz n Hsub s s t l ∅ 0) as (r & s' & t' & l' & um' & Hrun & Hst & Hr);
    try done; try vlia; try by rewrite <- En.
  - split; [intros va; rewrite lookup_empty; split; [by intros []|vlia]|].
    intros va pa f H Hlt. destruct (pv_map _ _ _ _ Hpv _ _ _ H). lia.
  - exists r, s', t', l', um'. split_and!; [|done|].
    + unfold uvmcopy. apply (loop_mono (S n)); [unfold n; vdivlia|done].
    + rewrite En. destruct Hr as [(-> & ? & _)|(-> & -> & Hlen)]; [by left|]. right. split_and!; try done. vdivlia.
Qed.

End Ucopy.
