(* ===== verification/Pool.v ===== *)
(** * Free pages and pages in use

    A view of physical memory without a page table: the free list, and pages
    in use that the running code leaves alone.  [uvmcreate] takes a page from
    it and makes an empty address space. *)

From stdpp Require Import base list gmap strings.
From Stdlib Require Import ZArith Lia.
From S2P Require Import Prelude Mem KString Riscv State Sched Kalloc Vm PtRep Uvm Uspace Ucopy.
Open Scope Z_scope.

Section Pool.
Context {L : Layout} `{!LayoutOk L}.

(** ** Free pages and pages in use *)

Record pool (s : kstate) (own l : list Z) : Prop := {
  po_kmem : kmem_ok s l;
  po_pages : Forall page_ok (own ++ l);
  po_nodup : NoDup (own ++ l);
  po_lock : L_kmem ∉ k_held s
}.

(** A step that leaves the pages [own] alone. *)
Record keeps (s s' : kstate) (own : list Z) : Prop := {
  ke_only : mem_only s s';
  ke_own : forall p, p ∈ own -> same_page (k_mem s) (k_mem s') p
}.

Lemma keeps_refl s own : keeps s s own.
Proof. split; done. Qed.
Lemma keeps_trans s s1 s2 own : keeps s s1 own -> keeps s1 s2 own -> keeps s s2 own.
Proof. intros [O1 M1] [O2 M2]. split; [by transitivity s1|]. intros p Hp. eapply same_page_trans; eauto. Qed.
Lemma keeps_sub s s' own own' : (forall p, p ∈ own' -> p ∈ own) -> keeps s s' own -> keeps s s' own'.
Proof. intros Hs [O1 M1]. split; auto. Qed.

Lemma as_pool s root t l um own : as_ok s root (mk_aspace t l um own) -> pool s (own ++ tree_pages t ++ um_pages um) l.
Proof.
  intros [[Hk _ _ Hl] _ _ Hpg Hnd]. unfold a_pages in *. cbn [a_own a_free a_tree a_um a_pages] in *.
  assert (E : (own ++ tree_pages t ++ um_pages um) ++ l ≡ₚ own ++ l ++ tree_pages t ++ um_pages um) by solve_Permutation.
  split; [done|by rewrite E|by rewrite E|done].
Qed.

Lemma as_step_keeps root s A s' A' own : as_step root s A s' A' -> as_ok s root A -> a_own A = own -> a_own A' = own -> keeps s s' own.
Proof.
  intros Hst Hok <- E. split; [apply Hst|]. intros p Hp. apply (as_step_own root s A s' A' p Hst Hok Hp). by rewrite E.
Qed.

(** Only memory, the free list and the allocator's lock matter. *)
Lemma pool_same s s' own l : k_mem s' = k_mem s -> k_freelist s' = k_freelist s -> L_kmem ∉ k_held s' -> pool s own l -> pool s' own l.
Proof.
  intros E1 E2 H [Hk Hpg Hnd _]. split; [|done..]. eapply kmem_ok_frame; [done| |exact Hk]. intros; by rewrite E1.
Qed.
Lemma as_ok_moved s s' root A : k_mem s' = k_mem s -> k_freelist s' = k_freelist s -> L_kmem ∉ k_held s' -> as_ok s root A -> as_ok s' root A.
Proof.
  intros E1 E2 E3 [[Hk Ht Hd Hh] H1 H2 H3 H4]. split; rewrite ?E1; try done. split; rewrite ?E1; try done.
  destruct Hk. split; rewrite ?E1, ?E2; done.
Qed.
Lemma pool_perm s own own' l : own ≡ₚ own' -> pool s own l -> pool s own' l.
Proof. intros E [Hk Hpg Hnd Hl]. split; [done|by rewrite <- E..|done]. Qed.

Lemma pool_kalloc s own p l : pool s own (p :: l) -> exists s', kalloc s = Ret p s' /\ p <> 0 /\ page_ok p /\ pool s' (p :: own) l /\ keeps s s' own.
Proof.
  intros [Hk Hpg Hnd Hl]. destruct (kalloc_frame s p l Hk Hl) as (s1 & R & Hk1 & O1 & M1).
  assert (E : own ++ p :: l ≡ₚ (p :: own) ++ l) by solve_Permutation. rewrite E in Hpg, Hnd.
  pose proof Hpg as Hpg0. apply Forall_cons in Hpg0 as [Hp Hpo]. pose proof Hnd as Hnd0. apply NoDup_cons in Hnd0 as [Hn _].
  exists s1. split; [done|]. split; [pose proof (page_ok_pos p Hp); vlia|]. split; [done|]. split.
  - split; [done..|]. by rewrite (mem_only_held _ _ O1).
  - split; [done|]. intros q Hq. assert (Hqi : q ∈ own ++ l) by (apply elem_of_app; by left). apply M1.
    + rewrite Forall_forall in Hpo. apply (Hpo q Hqi).
    + by intros ->.
Qed.

Lemma pool_kfree s own p l : pool s (p :: own) l -> exists s', kfree p s = Ret tt s' /\ pool s' own (p :: l) /\ keeps s s' own.
Proof.
  intros [Hk Hpg Hnd Hl]. pose proof Hpg as Hpg0. apply Forall_cons in Hpg0 as [Hp Hpo]. pose proof Hnd as Hnd0. apply NoDup_cons in Hnd0 as [Hn _].
  destruct (kfree_frame s p l Hk Hp) as (s1 & R & Hk1 & O1 & M1); [intros Hin; apply Hn, elem_of_app; by right|done|].
  assert (E : own ++ p :: l ≡ₚ (p :: own) ++ l) by solve_Permutation. exists s1. split; [done|]. split.
  - split; [done|by rewrite E..|]. by rewrite (mem_only_held _ _ O1).
  - split; [done|]. intros q Hq. assert (Hqi : q ∈ own ++ l) by (apply elem_of_app; by left). apply M1.
    + rewrite Forall_forall in Hpo. apply (Hpo q Hqi).
    + by intros ->.
Qed.

(** ** Taking a page for a page table *)

Lemma tree_pages_singleton (p : Z) : tree_pages {[ [] := p ]} = [p].
Proof. unfold tree_pages. by rewrite map_to_list_singleton. Qed.
Lemma um_pages_empty : um_pages ∅ = [].
Proof. unfold um_pages. by rewrite map_to_list_empty. Qed.

Lemma fresh_as s own l p : pool s (p :: own) l -> zero_page (k_mem s) p -> as_ok s p (mk_aspace {[ [] := p ]} l ∅ own).
Proof.
  intros [Hk Hpg Hnd Hl] Hz. pose proof Hpg as Hpg0. apply Forall_cons in Hpg0 as [Hp _].
  assert (Ea : a_pages (mk_aspace {[ [] := p ]} l ∅ own) ≡ₚ (p :: own) ++ l).
  { unfold a_pages. cbn [a_own a_free a_tree a_um]. rewrite tree_pages_singleton, um_pages_empty. solve_Permutation. }
  split; cbn [a_tree a_free a_um a_own]; [|done| |by rewrite Ea..].
  - split; [done| | |done].
    + split.
      * apply lookup_singleton_eq.
      * intros π q [<- <-]%lookup_singleton_Some. split_and!; [cbn; lia|constructor|done].
      * intros π π' q [<- _]%lookup_singleton_Some [<- _]%lookup_singleton_Some. done.
      * intros π i [x Hx]. apply lookup_singleton_Some in Hx as [Hx _]. by destruct π.
      * intros i π q Hx. by apply lookup_singleton_Some in Hx as [Hx _].
      * intros π q i [<- <-]%lookup_singleton_Some _ Hi. rewrite lookup_singleton_ne by done.
        assert (load64 (k_mem s) (p + 8 * i) = 0) as ->; [|apply has_0].
        apply load_zero. intros j Hj. rewrite <- Z.add_assoc. apply Hz. vlia.
    + intros π q [<- <-]%lookup_singleton_Some Hin. cbn in Hnd. apply NoDup_cons in Hnd as [Hn _]. apply Hn, elem_of_app. by right.
  - intros va _ _. rewrite lookup_empty. unfold pte_at, pt_slot. by rewrite lookup_singleton_ne.
Qed.

Lemma uvmcreate_ok s own l : pool s own l ->
  match l with
  | [] => uvmcreate s = Ret 0 s
  | p :: l' => exists s', uvmcreate s = Ret p s' /\ p <> 0 /\ as_ok s' p (mk_aspace {[ [] := p ]} l' ∅ own) /\ keeps s s' own
  end.
Proof.
  intros [Hk Hpg Hnd Hl]. destruct l as [|p l].
  - unfold uvmcreate. by kstep_by kalloc_none.
  - destruct (kalloc_frame s p l Hk Hl) as (s1 & R & Hk1 & O1 & M1). pose proof (mem_only_held _ _ O1) as Hh1.
    assert (Eo : own ++ p :: l ≡ₚ (p :: own) ++ l) by solve_Permutation. rewrite Eo in Hpg, Hnd.
    pose proof Hpg as Hpg0. cbn in Hpg0, Hnd. apply Forall_cons in Hpg0 as [Hp Hpgo]. pose proof Hnd as Hnd0. apply NoDup_cons in Hnd0 as [Hn Hnd1].
    pose proof (page_ok_pos p Hp) as Hpos. destruct (page_ok_56 p Hp) as [_ Hal].
    set (m2 := memset (k_mem s1) p 0 PGSIZE).
    assert (Hm2 : forall q, q mod PGSIZE = 0 -> q <> p -> same_page (k_mem s1) m2 q).
    { intros q Hq Hne i Hi. unfold m2. rewrite mget_memset by vlia. destruct (within_spec (q + i) p PGSIZE); [|done]. destruct (pages_apart p q); vlia. }
    assert (Hapart : forall q, q ∈ own ++ l -> q mod PGSIZE = 0 /\ q <> p).
    { intros q Hq. split; [|intros ->; done]. rewrite Forall_forall in Hpgo. apply (Hpgo q Hq). }
    exists (set_k_mem m2 s1). split_and!.
    + unfold uvmcreate. kstep_by R. rewrite (proj2 (Z.eqb_neq p 0)) by vlia. reflexivity.
    + vlia.
    + apply fresh_as; [|apply zero_page_memset]. split; [|done|done|cbn; by rewrite Hh1].
      eapply kmem_ok_frame; [| |exact Hk1]; [done|]. intros q i Hq Hi. cbn [k_mem set_k_mem].
      destruct (Hapart q) as [H1 H2]; [apply elem_of_app; by right|]. apply Hm2; [done|done|vlia].
    + split; [transitivity s1; [done|apply mem_only_mem]|]. intros q Hq. destruct (Hapart q) as [H1 H2]; [apply elem_of_app; by left|].
      eapply same_page_trans; [by apply M1|]. by apply Hm2.
Qed.

(** An address space whose own pages are as they were, with another free list. *)
Lemma as_of_pool s s' root t l l' um own rest :
  as_ok s root (mk_aspace t l um own) -> pool s' (rest ++ tree_pages t ++ um_pages um) l' ->
  (forall p, p ∈ tree_pages t -> same_page (k_mem s) (k_mem s') p) -> as_ok s' root (mk_aspace t l' um rest).
Proof.
  intros Hok [Hk Hpg Hnd Hl] Hs. pose proof Hok as [[_ Hpt _ _] Hd Hpte _ _]. cbn in Hpt, Hd, Hpte.
  assert (E : a_pages (mk_aspace t l' um rest) ≡ₚ (rest ++ tree_pages t ++ um_pages um) ++ l') by (unfold a_pages; cbn; solve_Permutation).
  assert (Hp : forall va, pte_at (k_mem s') t va = pte_at (k_mem s) t va) by (intros va; by eapply pte_at_frame).
  split; cbn [a_tree a_free a_um a_own]; [|done| |by rewrite E..].
  - split; [done| | |done].
    + eapply pt_ok_frame; [|done]. intros π p Hπ _. apply Hs, elem_tree_pages. by eexists.
    + intros π p Hπ Hin. apply NoDup_app in Hnd as (_ & Hdis & _). apply (Hdis p); [|done]. rewrite !elem_of_app. right. left. apply elem_tree_pages. by eexists.
  - intros va Hva Ha. rewrite Hp. by apply Hpte.
Qed.
End Pool.
