(* ===== verification/Ufree.v ===== *)
(** * Tearing an address space down: [freewalk] and [uvmfree]

    [uvmfree] gives back every page of the process: its user pages and the
    pages of its page table. *)

From stdpp Require Import base list gmap strings.
From Stdlib Require Import ZArith Lia.
From S2P Require Import Prelude Mem KString Riscv State Sched Kalloc Vm PtRep Uvm Uspace Ucopy.
Open Scope Z_scope.

Section Ufree.
Context {L : Layout} `{!LayoutOk L}.

(** The table pages at and below [π], [d] levels deep. *)
Fixpoint sub_pages (t : ptree) (d : nat) (π : list Z) : list Z :=
  match t !! π with
  | None => []
  | Some p =>
      p :: match d with
           | O => []
           | S d => seq 0 512 ≫= fun i => sub_pages t d (π ++ [Z.of_nat i])
           end
  end.

(** The tables at and below [π] are in memory, with no valid leaf. *)
Fixpoint sub_ok (m : mem) (t : ptree) (d : nat) (π : list Z) : Prop :=
  match t !! π with
  | None => True
  | Some p =>
      match d with
      | O => forall i, 0 <= i < 512 -> has (load64 m (p + 8 * i)) PTE_V = false
      | S d => forall i, 0 <= i < 512 ->
          entry_ok (load64 m (p + 8 * i)) (t !! (π ++ [i])) /\ sub_ok m t d (π ++ [i])
      end
  end.

Lemma sub_ok_frame m m' t d π :
  (forall p, p ∈ sub_pages t d π -> same_page m m' p) -> sub_ok m t d π -> sub_ok m' t d π.
Proof.
  revert π. induction d as [|d IH]; intros π Hs; cbn [sub_ok sub_pages] in *;
    destruct (t !! π) as [p|]; try done.
  - intros H i Hi. rewrite (load64_same_page m) by (first [by apply Hs; left|vlia]). by apply H.
  - intros H i Hi. destruct (H i Hi) as [H1 H2]. split.
    + rewrite (load64_same_page m) by (first [by apply Hs; left|vlia]). done.
    + apply IH; [|done]. intros q Hq. apply Hs. right. apply list_elem_of_bind.
      exists (Z.to_nat i). rewrite Z2Nat.id by lia. split; [done|]. apply elem_of_seq. lia.
Qed.

Lemma elem_sub_pages t d π q :
  q ∈ sub_pages t d π -> exists ρ, (length ρ <= d)%nat /\ t !! (π ++ ρ) = Some q.
Proof.
  revert π. induction d as [|d IH]; intros π; cbn [sub_pages]; destruct (t !! π) as [p|] eqn:E;
    rewrite ?elem_of_cons, ?elem_of_nil; try done.
  - intros [->|[]]. exists []. by rewrite app_nil_r.
  - intros [->|H]; [exists []; rewrite app_nil_r; split; [cbn; lia|done]|].
    apply list_elem_of_bind in H as (i & Hi & _). apply IH in Hi as (ρ & Hl & Hρ).
    exists (Z.of_nat i :: ρ). rewrite <- app_assoc in Hρ. split; [cbn; lia|done].
Qed.

Lemma sub_pages_elem m root t d π ρ q :
  pt_ok m root t -> (length ρ <= d)%nat -> t !! (π ++ ρ) = Some q -> q ∈ sub_pages t d π.
Proof.
  intros Hpt. revert π ρ. induction d as [|d IH]; intros π ρ Hl Hq.
  - destruct ρ; [|cbn in Hl; lia]. rewrite app_nil_r in Hq. cbn. rewrite Hq. by left.
  - assert (Hsome : is_Some (t !! π)).
    { clear -Hpt Hq. revert q Hq. induction ρ as [|x ρ IHr] using rev_ind; intros q Hq.
      - rewrite app_nil_r in Hq. by eexists.
      - rewrite app_assoc in Hq. destruct (pt_prefix _ _ _ Hpt (π ++ ρ) x) as [y Hy]; [by eexists|]. eauto. }
    destruct Hsome as [p Hp]. cbn [sub_pages]. rewrite Hp. destruct ρ as [|i ρ].
    + rewrite app_nil_r in Hq. rewrite Hp in Hq. injection Hq as <-. by left.
    + right. apply list_elem_of_bind. exists (Z.to_nat i).
      destruct (pt_path _ _ _ Hpt _ _ Hq) as (_ & Hr & _).
      apply Forall_app in Hr as [_ Hr]. apply Forall_cons in Hr as [Hi _].
      split; [|apply elem_of_seq; lia]. rewrite Z2Nat.id by lia.
      apply (IH _ ρ); [cbn in Hl; lia|]. by rewrite <- app_assoc.
Qed.

Lemma NoDup_sub_pages m root t d π : pt_ok m root t -> NoDup (sub_pages t d π).
Proof.
  intros Hpt. revert π. induction d as [|d IH]; intros π; cbn [sub_pages];
    destruct (t !! π) as [p|] eqn:E; try (by constructor; [apply not_elem_of_nil|constructor]);
    try by constructor.
  constructor.
  - intros H. apply list_elem_of_bind in H as (i & Hi & _). apply elem_sub_pages in Hi as (ρ & _ & Hρ).
    rewrite <- app_assoc in Hρ. pose proof (pt_inj _ _ _ Hpt _ _ _ E Hρ) as H.
    apply (f_equal length) in H. rewrite length_app in H. cbn in H. lia.
  - apply NoDup_bind; [|intros; apply IH|apply NoDup_seq].
    intros i j q _ _ Hi Hj. apply elem_sub_pages in Hi as (ρ & _ & Hi), Hj as (ρ' & _ & Hj).
    pose proof (pt_inj _ _ _ Hpt _ _ _ Hi Hj) as H. rewrite <- !app_assoc in H.
    apply app_inv_head in H. cbn in H. injection H. lia.
Qed.

Lemma sub_pages_all m root t : pt_ok m root t -> sub_pages t 2 [] ≡ₚ tree_pages t.
Proof.
  intros Hpt. apply NoDup_Permutation.
  - by eapply NoDup_sub_pages.
  - unfold tree_pages. apply NoDup_fmap_2_strong; [|apply NoDup_map_to_list].
    intros [π1 p1] [π2 p2] H1 H2 Heq. cbn in Heq. subst.
    apply elem_of_map_to_list in H1, H2. by rewrite (pt_inj _ _ _ Hpt _ _ _ H1 H2).
  - intros q. rewrite elem_tree_pages. split.
    + intros H. apply elem_sub_pages in H as (ρ & _ & H). by exists ρ.
    + intros [π Hπ]. eapply (sub_pages_elem _ _ _ 2 [] π); [done| |done].
      by apply (pt_path _ _ _ Hpt π q).
Qed.

(** ** freewalk *)

Record fw_step (s : kstate) (l : list Z) (s' : kstate) (l' ps : list Z) : Prop := {
  fw_kmem : kmem_ok s' l';
  fw_pages : l' ≡ₚ l ++ ps;
  fw_only : mem_only s s';
  fw_frame : forall q, q mod PGSIZE = 0 -> q ∉ l -> q ∉ ps -> same_page (k_mem s) (k_mem s') q
}.

Definition fw_pre (s : kstate) (l ps : list Z) : Prop :=
  kmem_ok s l /\ (L_kmem ∉ k_held s) /\ NoDup (ps ++ l) /\ Forall page_ok ps.

Lemma fw_kfree s l p :
  fw_pre s l [p] -> exists s' l', kfree p s = Ret tt s' /\ fw_step s l s' l' [p].
Proof.
  intros (Hk & Hl & Hnd & Hp). apply NoDup_cons in Hnd as [Hn _]. apply Forall_cons in Hp as [Hp _].
  destruct (kfree_frame s p l Hk Hp Hn Hl) as (s' & Hrun & Hk' & Ho & Hs).
  exists s', (p :: l). split; [done|]. split; [done|solve_Permutation|done|].
  intros q Hq _ Hne. apply Hs; [done|]. set_solver.
Qed.

Lemma entry_invalid v : entry_ok v None -> has v PTE_V = false.
Proof. done. Qed.

Lemma land_rwx v : Z.land v (Z.lor (Z.lor PTE_R PTE_W) PTE_X) = PTE_LEAF v.
Proof. unfold PTE_LEAF. by rewrite !Z.land_lor_distr_r. Qed.

Lemma freewalk_empty rec p is_ s :
  (forall i, i ∈ is_ -> has (load64 (k_mem s) (p + 8 * Z.of_nat i)) PTE_V = false) ->
  for_each is_ (freewalk_entry rec p) s = Ret tt s.
Proof.
  induction is_ as [|i is_ IH]; intros H; [done|]. cbn [for_each].
  erewrite bind_Ret; [apply IH; intros j Hj; apply H; by right|].
  unfold freewalk_entry, ld64. kstep. rewrite H by left. done.
Qed.

Lemma fw_step_trans s l s1 l1 ps1 s2 l2 ps2 :
  fw_step s l s1 l1 ps1 -> fw_step s1 l1 s2 l2 ps2 -> fw_step s l s2 l2 (ps1 ++ ps2).
Proof.
  intros [K1 P1 O1 F1] [K2 P2 O2 F2]. split; [done| |by transitivity s1|].
  - rewrite P2, P1. by rewrite app_assoc.
  - intros q Hq Hl Hn. rewrite not_elem_of_app in Hn. destruct Hn.
    apply same_page_trans with (k_mem s1); [by apply F1|]. apply F2; try done.
    rewrite P1, not_elem_of_app. done.
Qed.

Lemma fw_step_refl s l : kmem_ok s l -> fw_step s l s l [].
Proof. intros H. split; try done. by rewrite app_nil_r. Qed.

(** Clearing a word of an allocated page. *)
Lemma fw_store s l s1 l1 ps p i :
  fw_step s l s1 l1 ps -> p mod PGSIZE = 0 -> p ∉ l1 -> 0 <= i < 512 ->
  kmem_ok (set_k_mem (store64 (k_mem s1) (p + 8 * i) 0) s1) l1.
Proof.
  intros Hst Hp Hn Hi. apply kmem_ok_frame with s1; [apply freelist_set_mem| |apply Hst].
  intros q j Hq Hj. pose proof (km_pages _ _ (fw_kmem _ _ _ _ _ Hst)) as Hpg.
  rewrite Forall_forall in Hpg. apply same_page_store; [done|apply Hpg; done|congruence|vlia..].
Qed.

(** Freeing below one entry: pages [C] join the free list, and in the table
    [p] itself only this entry changes. *)
Record fw_entry (s : kstate) (l : list Z) (s' : kstate) (l' C : list Z) (p : Z) (is_ : list nat) : Prop := {
  fe_kmem : kmem_ok s' l';
  fe_pages : l' ≡ₚ l ++ C;
  fe_only : mem_only s s';
  fe_frame : forall q, q mod PGSIZE = 0 -> q <> p -> q ∉ l' -> same_page (k_mem s) (k_mem s') q;
  fe_rest : forall j, j ∉ is_ -> (j < 512)%nat ->
    load64 (k_mem s') (p + 8 * Z.of_nat j) = load64 (k_mem s) (p + 8 * Z.of_nat j)
}.

Definition frees (rec : Z -> K unit) (t : ptree) (d : nat) (π : list Z) : Prop :=
  forall q s l, t !! π = Some q -> fw_pre s l (sub_pages t d π) -> sub_ok (k_mem s) t d π ->
    exists s' l', rec q s = Ret tt s' /\ fw_step s l s' l' (sub_pages t d π).

Lemma freewalk_entry_ok t d π p rec i s l :
  frees rec t d (π ++ [Z.of_nat i]) -> page_ok p -> (i < 512)%nat ->
  fw_pre s l (sub_pages t d (π ++ [Z.of_nat i])) ->
  p ∉ l ++ sub_pages t d (π ++ [Z.of_nat i]) ->
  entry_ok (load64 (k_mem s) (p + 8 * Z.of_nat i)) (t !! (π ++ [Z.of_nat i])) ->
  sub_ok (k_mem s) t d (π ++ [Z.of_nat i]) ->
  exists s' l', freewalk_entry rec p i s = Ret tt s' /\
    fw_entry s l s' l' (sub_pages t d (π ++ [Z.of_nat i])) p [i].
Proof.
  intros Hrec Hp Hi Hpre Hpn He Hs. unfold freewalk_entry, ld64, st64, mod_mem.
  destruct (t !! (π ++ [Z.of_nat i])) as [q|] eqn:E.
  - destruct (Hrec q s l E Hpre Hs) as (s1 & l1 & Hrun & Hst).
    assert (Hq : page_ok q).
    { destruct Hpre as (_ & _ & _ & H). rewrite Forall_forall in H. apply H.
      destruct d; cbn [sub_pages]; rewrite E; by left. }
    destruct (entry_valid q _ Hq He) as (Hv & Hleaf & Hpa).
    assert (Hp1 : p ∉ l1) by (by rewrite (fw_pages _ _ _ _ _ Hst)).
    rewrite not_elem_of_app in Hpn. destruct (page_ok_56 p Hp) as [_ Hpa'].
    assert (Hsp : same_page (k_mem s) (k_mem s1) p) by (apply (fw_frame _ _ _ _ _ Hst); tauto).
    exists (set_k_mem (store64 (k_mem s1) (p + 8 * Z.of_nat i) 0) s1), l1. split.
    + kstep. rewrite Hv, land_rwx, Hleaf, Hpa. cbn [andb]. kstep_by Hrun. done.
    + split; [|apply Hst| | |].
      * eapply fw_store; [done..|lia].
      * etransitivity; [apply Hst|apply mem_only_mem].
      * intros r Hr Hne Hrn. apply same_page_trans with (k_mem s1).
        -- rewrite (fw_pages _ _ _ _ _ Hst), not_elem_of_app in Hrn. apply (fw_frame _ _ _ _ _ Hst); tauto.
        -- apply same_page_store; try done; try vlia.
      * intros j Hj Hlt. rewrite list_elem_of_singleton in Hj. cbn [k_mem set_k_mem].
        rewrite load_store_disjoint by lia. apply load64_same_page; [done|vlia..].
  - exists s, l. split.
    + kstep. cbn in He. by rewrite He.
    + assert (Hnil : sub_pages t d (π ++ [Z.of_nat i]) = []) by (destruct d; cbn [sub_pages]; by rewrite E).
      rewrite Hnil. split; try done; [apply Hpre|by rewrite app_nil_r].
Qed.

Lemma freewalk_children t d π p rec is_ : forall s l,
  (forall i, i ∈ is_ -> frees rec t d (π ++ [Z.of_nat i])) ->
  NoDup is_ -> (forall i, i ∈ is_ -> (i < 512)%nat) -> page_ok p ->
  fw_pre s l (is_ ≫= fun i => sub_pages t d (π ++ [Z.of_nat i])) ->
  p ∉ l ++ (is_ ≫= fun i => sub_pages t d (π ++ [Z.of_nat i])) ->
  (forall i, i ∈ is_ -> entry_ok (load64 (k_mem s) (p + 8 * Z.of_nat i)) (t !! (π ++ [Z.of_nat i])) /\
     sub_ok (k_mem s) t d (π ++ [Z.of_nat i])) ->
  exists s' l', for_each is_ (freewalk_entry rec p) s = Ret tt s' /\
    fw_entry s l s' l' (is_ ≫= fun i => sub_pages t d (π ++ [Z.of_nat i])) p is_.
Proof.
  induction is_ as [|i is_ IH]; intros s l Hrec Hnd Hlt Hp Hpre Hpn Hent.
  { exists s, l. split; [done|]. split; try done; [apply Hpre|by rewrite app_nil_r]. }
  set (f := fun i : nat => sub_pages t d (π ++ [Z.of_nat i])) in *.
  change ((i :: is_) ≫= f) with (f i ++ (is_ ≫= f)) in *.
  destruct Hpre as (Hk & Hlk & Hnd2 & Hok).
  apply NoDup_cons in Hnd as [Hi Hnd]. apply Forall_app in Hok as [HokC HokR].
  rewrite <- app_assoc in Hnd2. rewrite !not_elem_of_app in Hpn. destruct Hpn as (Hp1 & Hp2 & Hp3).
  destruct (Hent i) as [He Hs]; [by left|].
  destruct (freewalk_entry_ok t d π p rec i s l) as (s1 & l1 & Hrun & [K1 P1 O1 F1 R1]); try done.
  { apply Hrec. by left. } { apply Hlt. by left. }
  { split_and!; try done. eapply sublist_NoDup; [done|]. apply sublist_app; [done|by apply sublist_inserts_l]. }
  { by rewrite not_elem_of_app. }
  fold (f i) in P1.
  assert (Hnd3 : NoDup ((is_ ≫= f) ++ l1)).
  { assert (E : (is_ ≫= f) ++ l1 ≡ₚ f i ++ (is_ ≫= f) ++ l) by (rewrite P1; solve_Permutation).
    by rewrite E. }
  assert (Hp1' : p ∉ l1) by (rewrite P1, not_elem_of_app; done).
  destruct (IH s1 l1) as (s2 & l2 & Hrun2 & [K2 P2 O2 F2 R2]); try done.
  { intros j Hj. apply Hrec. by right. } { intros j Hj. apply Hlt. by right. }
  { split_and!; try done. by rewrite (mem_only_held _ _ O1). } { by rewrite not_elem_of_app. }
  { intros j Hj. destruct (Hent j) as [Hej Hsj]; [by right|]. split.
    - rewrite R1; [done| |apply Hlt; by right]. rewrite list_elem_of_singleton. congruence.
    - eapply sub_ok_frame; [|done]. intros q Hq.
      assert (Hqf : q ∈ is_ ≫= f) by (apply list_elem_of_bind; by exists j).
      apply F1; [rewrite Forall_forall in HokR; apply HokR, Hqf|congruence|].
      apply NoDup_app in Hnd3 as (_ & Hd & _). auto. }
  exists s2, l2. split; [cbn [for_each]; by kstep_by Hrun|]. split; [done| |by transitivity s1| |].
  - rewrite P2, P1. by rewrite app_assoc.
  - intros q Hq Hne Hn. assert (q ∉ l1) by (rewrite P2, not_elem_of_app in Hn; tauto).
    apply same_page_trans with (k_mem s1); auto.
  - intros j Hj Hjl. rewrite not_elem_of_cons in Hj. rewrite R2, R1; try tauto.
    rewrite list_elem_of_singleton. tauto.
Qed.

Lemma freewalk_ok m0 root t d : forall π, pt_ok m0 root t -> frees (freewalk (S d)) t d π.
Proof.
  induction d as [|d IH]; intros π Hpt q s l Hq Hpre Hs; cbn [freewalk sub_ok sub_pages] in *;
    rewrite Hq in *.
  - rewrite (bind_Ret _ _ _ tt s).
    + by apply fw_kfree.
    + apply freewalk_empty. intros i Hi. apply elem_of_seq in Hi. apply Hs. lia.
  - set (f := fun i : nat => sub_pages t d (π ++ [Z.of_nat i])) in *.
    destruct Hpre as (Hk & Hlk & Hnd & Hok). apply Forall_cons in Hok as [Hqok Hok].
    pose proof (freewalk_children t d π q (freewalk (S d)) (seq 0 512) s l) as Hch. fold f in Hch.
    remember (seq 0 512 ≫= f) as C eqn:EC. rewrite <- app_comm_cons in Hnd.
    apply NoDup_cons in Hnd as [Hqn Hnd]. rewrite not_elem_of_app in Hqn.
    destruct Hch as (s1 & l1 & Hrun & [K1 P1 O1 F1 _]); try done.
    { intros i Hi. by apply IH. } { apply NoDup_seq. } { intros i Hi. apply elem_of_seq in Hi. lia. }
    { rewrite not_elem_of_app. tauto. }
    { intros i Hi. apply elem_of_seq in Hi. apply Hs. lia. }
    assert (Hq1 : q ∉ l1) by (rewrite P1, not_elem_of_app; tauto).
    destruct (fw_kfree s1 l1 q) as (s2 & l2 & Hrun2 & [K2 P2 O2 F2]).
    { split_and!; [done|by rewrite (mem_only_held _ _ O1)| |by constructor].
      constructor; [done|]. apply K1. }
    exists s2, l2. split; [by kstep_by Hrun|]. split; [done| |by transitivity s1|].
    + rewrite P2, P1. solve_Permutation.
    + intros r Hr Hrl Hrn. rewrite not_elem_of_cons in Hrn.
      assert (r ∉ l1) by (rewrite P1, not_elem_of_app; tauto).
      apply same_page_trans with (k_mem s1); [apply F1; tauto|]. apply F2; try done.
      rewrite list_elem_of_singleton. tauto.
Qed.

(** ** uvmfree *)

Lemma sub_ok_unmapped m root t :
  pt_ok m root t ->
  (forall va, 0 <= va < MAXVA -> va mod PGSIZE = 0 -> has (pte_at m t va) PTE_V = false) ->
  sub_ok m t 2 [].
Proof.
  intros Hpt Hun. cbn [sub_ok]. rewrite (pt_root _ _ _ Hpt). intros i Hi. split.
  { apply (pt_entry _ _ _ Hpt [] root); [apply Hpt|cbn; lia|done]. }
  cbn [app]. destruct (t !! [i]) as [p1|] eqn:E1; [|done]. intros j Hj. split.
  { apply (pt_entry _ _ _ Hpt [i] p1); [done|cbn; lia|done]. }
  cbn [app]. destruct (t !! [i; j]) as [p0|] eqn:E0; [|done]. intros k Hk.
  pose proof (pt_low _ _ _ Hpt i _ _ E0) as Hlow.
  destruct (PX_make i j k) as (Hva & Ha & H2 & H1 & H0); [lia|done|done|].
  rewrite <- (Hun _ Hva Ha). unfold pte_at, pt_slot. by rewrite H2, H1, H0, E0.
Qed.

Lemma uvmfree_ok s root t l um own sz :
  as_ok s root (mk_aspace t l um own) -> um_cov um (PGROUNDUP sz) -> 0 <= sz <= TRAPFRAME ->
  (forall va, TRAPFRAME <= va < MAXVA -> va mod PGSIZE = 0 ->
     has (pte_at (k_mem s) t va) PTE_V = false) ->
  exists s' l', uvmfree root sz s = Ret tt s' /\ kmem_ok s' l' /\ mem_only s s' /\
    l' ≡ₚ l ++ tree_pages t ++ um_pages um /\
    (forall q, q mod PGSIZE = 0 -> q ∉ l' -> same_page (k_mem s) (k_mem s') q).
Proof.
  intros Hok Hc Hsz Hhi. destruct (PGROUNDUP_bounds sz) as [Hn1 Hn2]; [vlia|].
  assert (Hun : exists s1 l1,
    (if 0 <? sz then uvmunmap root 0 (PGROUNDUP sz / PGSIZE) true else skip) s = Ret tt s1 /\
    as_step root s (mk_aspace t l um own) s1 (mk_aspace t l1 ∅ own)).
  { destruct (Z.ltb_spec 0 sz).
    - destruct (uvmcopy_undo s root t l um own (PGROUNDUP sz)) as (s1 & l1 & ? & ?); eauto.
      rewrite PGROUNDUP_eq by vlia. vdivlia.
    - assert (um = ∅) as ->; [|exists s, l; split; [done|by apply as_step_refl]].
      apply map_eq. intros va. rewrite lookup_empty. destruct (um !! va) eqn:E; [|done].
      destruct (proj1 (Hc va)); [by eexists|]. assert (sz = 0) as -> by lia. change (PGROUNDUP 0) with 0 in *. lia. }
  destruct Hun as (s1 & l1 & Hrun1 & Hst1). unfold uvmfree. kstep_by Hrun1.
  pose proof (st_ok _ _ _ _ _ Hst1) as Hok1.
  pose proof Hok1 as [[Hk1 Hpt1 Hap1 Hlk1] Hd1 Hpte1 Hpg1 Hnd1]. cbn [a_tree a_free a_um a_own] in *.
  pose proof (sub_pages_all _ _ _ Hpt1) as Hsub.
  destruct (freewalk_ok (k_mem s1) root t 2 [] Hpt1 root s1 l1) as (s2 & l2 & Hrun2 & [K2 P2 O2 F2]).
  { apply Hpt1. }
  { assert (E : a_pages (mk_aspace t l1 ∅ own) ≡ₚ own ++ tree_pages t ++ l1)
      by (unfold a_pages, um_pages; cbn; rewrite map_to_list_empty; cbn; solve_Permutation).
    rewrite E in Hnd1, Hpg1. split_and!; [done|done| |].
    - rewrite Hsub. by apply NoDup_app in Hnd1 as (_ & _ & ?).
    - rewrite Hsub. apply Forall_app in Hpg1 as [_ Hpg1]. by apply Forall_app in Hpg1 as [? _]. }
  { eapply sub_ok_unmapped; [done|]. intros va Hva Ha. destruct (Z.lt_ge_cases va TRAPFRAME).
    - pose proof (Hpte1 va ltac:(lia) Ha) as H'. by rewrite lookup_empty in H'.
    - rewrite (st_high _ _ _ _ _ Hst1) by (done || lia). apply Hhi; [lia|done]. }
  assert (Hl1 : l1 ≡ₚ l ++ um_pages um).
  { pose proof (st_pages _ _ _ _ _ Hst1) as Hp. unfold a_pages in Hp. cbn in Hp.
    apply (Permutation_app_inv_l own), (Permutation_app_inv_r (tree_pages t)).
    unfold um_pages in Hp at 1. rewrite map_to_list_empty in Hp. cbn in Hp.
    rewrite app_nil_r in Hp. rewrite <- app_assoc, Hp. solve_Permutation. }
  exists s2, l2. split_and!; [done|done|by transitivity s1; [apply Hst1|]| |].
  - rewrite P2, Hsub, Hl1. solve_Permutation.
  - intros q Hq Hn. rewrite P2, Hsub, not_elem_of_app in Hn. destruct Hn as [Hn1' Hn2'].
    apply same_page_trans with (k_mem s1).
    + apply (st_frame _ _ _ _ _ Hst1); try done. rewrite Hl1, not_elem_of_app in Hn1'. tauto.
    + apply F2; try done. by rewrite Hsub.
Qed.

End Ufree.
