(* ===== verification/CopyUser.v ===== *)
(** * Moving data between the kernel and user memory

    [copyin], [copyinstr] and [copyout] against the byte view of a user address
    space: [ubyte m t va] is the byte a user program would read at [va]. *)

From stdpp Require Import base list gmap strings.
From Stdlib Require Import ZArith Lia.
From S2P Require Import Prelude Mem KString Riscv State Sched Kalloc Vm PtRep Uvm Uspace.
Open Scope Z_scope.

Section CopyUser.
Context {L : Layout} `{!LayoutOk L}.

(** The physical page user code may access at [va] (page-aligned), 0 if none. *)
Definition uaddr (m : mem) (t : ptree) (va : Z) : Z :=
  if (va <? MAXVA) && has (pte_at m t va) PTE_V && has (pte_at m t va) PTE_U
  then PTE2PA (pte_at m t va) else 0.

Definition ubyte (m : mem) (t : ptree) (va : Z) : option Z :=
  let va0 := PGROUNDDOWN va in
  if uaddr m t va0 =? 0 then None else Some (mget m (uaddr m t va0 + (va - va0))).

(** The [n] user bytes from [va], if all of them are accessible. *)
Fixpoint ubytes (m : mem) (t : ptree) (va : Z) (n : nat) : option (list Z) :=
  match n with
  | O => Some []
  | S n => match ubyte m t va, ubytes m t (va + 1) n with
           | Some b, Some bs => Some (b :: bs)
           | _, _ => None
           end
  end.

Lemma pt_slot_0 m root t va : pt_ok m root t -> pt_slot t va <> Some 0.
Proof.
  intros Hpt H. by destruct (pt_slot_split _ _ _ _ _ Hpt H) as (_ & _ & _ & _ & ?).
Qed.

Lemma walkaddr_ok s root t va :
  pt_ok (k_mem s) root t -> walkaddr root va s = Ret (uaddr (k_mem s) t va) s.
Proof.
  intros Hpt. unfold walkaddr, uaddr. destruct (Z.leb_spec MAXVA va), (Z.ltb_spec va MAXVA); try lia.
  { done. }
  cbn [andb]. kstep_by walk_ok; [|done|done]. unfold pte_at.
  destruct (pt_slot t va) as [a|] eqn:E.
  - change (default 0 (Some a)) with a. destruct (Z.eqb_spec a 0) as [->|]; [by destruct (pt_slot_0 _ _ _ va Hpt)|].
    unfold ld64. kstep. by destruct (has _ PTE_V), (has _ PTE_U).
  - change (default 0 None) with 0. by rewrite has_0.
Qed.

Lemma ubytes_app m t va n k :
  ubytes m t va (n + k) =
  match ubytes m t va n, ubytes m t (va + Z.of_nat n) k with
  | Some a, Some b => Some (a ++ b)
  | _, _ => None
  end.
Proof.
  revert va. induction n as [|n IH]; intros va; cbn [Nat.add ubytes].
  - rewrite Z.add_0_r. by destruct (ubytes m t va k).
  - rewrite IH. replace (va + Z.of_nat (S n)) with (va + 1 + Z.of_nat n) by lia.
    destruct (ubyte m t va); [|done]. destruct (ubytes m t (va + 1) n); [|done].
    by destruct (ubytes _ _ _ k).
Qed.

Lemma PGROUNDDOWN_off va va0 j : va0 = PGROUNDDOWN va -> 0 <= j -> va - va0 + j < PGSIZE ->
  PGROUNDDOWN (va + j) = va0.
Proof.
  intros -> Hj H. rewrite !PGROUNDDOWN_eq in *. vdivlia.
Qed.

(** Within a page the bytes are those of the physical page. *)
Lemma ubytes_page m t va n va0 :
  va0 = PGROUNDDOWN va -> uaddr m t va0 <> 0 -> va - va0 + Z.of_nat n <= PGSIZE ->
  ubytes m t va n = Some (mread m (uaddr m t va0 + (va - va0)) n).
Proof.
  intros Hva0 Hu. revert va Hva0. induction n as [|n IH]; intros va Hva0 Hn; [done|].
  cbn [ubytes]. assert (ubyte m t va = Some (mget m (uaddr m t va0 + (va - va0)))) as ->.
  { unfold ubyte. rewrite <- Hva0. by destruct (Z.eqb_spec (uaddr m t va0) 0). }
  rewrite mread_S. destruct n as [|n]; [done|].
  rewrite IH; [|symmetry; apply PGROUNDDOWN_off; [done|lia|lia]|lia]. do 3 f_equal. lia.
Qed.

(** ** copyin *)

(** How many of [n] bytes at [va] lie in its page. *)
Definition chunk (va n : Z) : Z :=
  let r := PGSIZE - (va - PGROUNDDOWN va) in if n <? r then n else r.

Lemma chunk_spec va n : 0 < n ->
  0 < chunk va n <= n /\ va - PGROUNDDOWN va + chunk va n <= PGSIZE /\
  (chunk va n < n -> va + chunk va n = PGROUNDDOWN va + PGSIZE).
Proof.
  intros Hn. destruct (PGROUNDDOWN_bounds va) as [Hb _]. unfold chunk.
  destruct (Z.ltb_spec n (PGSIZE - (va - PGROUNDDOWN va))); lia.
Qed.

Lemma uaddr_low m t va : uaddr m t va <> 0 -> va < MAXVA.
Proof. unfold uaddr. destruct (Z.ltb_spec va MAXVA); done. Qed.

Lemma ubyte_None m t va n : uaddr m t (PGROUNDDOWN va) = 0 -> (0 < n)%nat -> ubytes m t va n = None.
Proof. intros H Hn. destruct n; [lia|]. cbn [ubytes]. unfold ubyte. by rewrite H. Qed.

(** The bytes split at the end of the page. *)
Lemma ubytes_chunk m t va n c :
  (0 < n)%nat -> 0 <= va -> uaddr m t (PGROUNDDOWN va) <> 0 -> c = Z.to_nat (chunk va (Z.of_nat n)) ->
  ubytes m t va n =
  match ubytes m t (u64 (PGROUNDDOWN va + PGSIZE)) (n - c) with
  | Some bs => Some (mread m (uaddr m t (PGROUNDDOWN va) + (va - PGROUNDDOWN va)) c ++ bs)
  | None => None
  end.
Proof.
  intros Hn Hva Hu ->. set (c := Z.to_nat (chunk va (Z.of_nat n))).
  destruct (chunk_spec va (Z.of_nat n)) as (H1 & H2 & H3); [lia|].
  destruct (PGROUNDDOWN_bounds va) as [Hb _]. pose proof (uaddr_low _ _ _ Hu) as Hlow.
  replace n with (c + (n - c))%nat at 1 by lia.
  rewrite ubytes_app, (ubytes_page _ _ va _ (PGROUNDDOWN va)) by (done || lia).
  destruct (decide (n = c)) as [Hne|Hne]; [by replace (n - c)%nat with O by lia|].
  rewrite u64_small by vlia. replace (va + Z.of_nat c) with (PGROUNDDOWN va + PGSIZE) by lia. done.
Qed.

Lemma copyin_step_ok s root t va n acc :
  pt_ok (k_mem s) root t -> 0 < n ->
  copyin_step root (va, n, acc) s =
  Ret (let pa0 := uaddr (k_mem s) t (PGROUNDDOWN va) in
       if pa0 =? 0 then inr (-1, acc)
       else inl (u64 (PGROUNDDOWN va + PGSIZE), n - chunk va n,
                 acc ++ mread (k_mem s) (pa0 + (va - PGROUNDDOWN va)) (Z.to_nat (chunk va n)))) s.
Proof.
  intros Hpt Hn. unfold copyin_step. destruct (Z.ltb_spec 0 n); [|lia].
  kstep_by walkaddr_ok; [|done]. cbn zeta. destruct (_ =? 0); [done|]. by kstep.
Qed.

Lemma copyin_loop s root t : pt_ok (k_mem s) root t -> forall n fuel va acc,
  (n < fuel)%nat -> 0 <= va < 2 ^ 64 ->
  exists r dst, loop fuel (copyin_step root) (va, Z.of_nat n, acc) s = Ret (r, dst) s /\
    match ubytes (k_mem s) t va n with
    | Some bs => r = 0 /\ dst = acc ++ bs
    | None => r = -1
    end.
Proof.
  intros Hpt n. induction (lt_wf n) as [n _ IH]. intros fuel va acc Hf Hva.
  destruct fuel as [|fuel]; [lia|]. destruct (decide (n = O)) as [->|Hn].
  { exists 0, acc. cbn [ubytes]. rewrite app_nil_r. split; [|done]. by apply loop_break. }
  pose proof (copyin_step_ok s root t va (Z.of_nat n) acc Hpt ltac:(lia)) as Hrun. cbn zeta in Hrun.
  destruct (Z.eqb_spec (uaddr (k_mem s) t (PGROUNDDOWN va)) 0) as [Hz|Hnz].
  - exists (-1), acc. split; [by apply loop_break|]. by rewrite ubyte_None by (done || lia).
  - destruct (chunk_spec va (Z.of_nat n)) as (H1 & H2 & H3); [lia|].
    rewrite (ubytes_chunk _ _ va n _ ltac:(lia) ltac:(lia) Hnz eq_refl).
    destruct (IH (n - Z.to_nat (chunk va (Z.of_nat n)))%nat ltac:(lia) fuel
      (u64 (PGROUNDDOWN va + PGSIZE))
      (acc ++ mread (k_mem s) (uaddr (k_mem s) t (PGROUNDDOWN va) + (va - PGROUNDDOWN va))
                (Z.to_nat (chunk va (Z.of_nat n))))) as (r & dst & Hl & Hr); [lia|apply u64_range|].
    exists r, dst. split.
    + rewrite (loop_continue _ _ _ _ _ _ Hrun).
      by replace (Z.of_nat n - chunk va (Z.of_nat n)) with (Z.of_nat (n - Z.to_nat (chunk va (Z.of_nat n)))) by lia.
    + destruct (ubytes _ _ _ (n - _)); [|done]. by rewrite app_assoc.
Qed.

(** ** copyinstr *)

(** The user string at [va]: its bytes up to and including the NUL, within
    [max] bytes. *)
Fixpoint ustring (m : mem) (t : ptree) (va : Z) (max : nat) : option (list Z) :=
  match max with
  | O => None
  | S max =>
      match ubyte m t va with
      | None => None
      | Some b => if b =? 0 then Some [0] else (b ::.) <$> ustring m t (va + 1) max
      end
  end.

Lemma copyinstr_page_ustring m t va va0 n k :
  va0 = PGROUNDDOWN va -> uaddr m t va0 <> 0 -> va - va0 + Z.of_nat n <= PGSIZE ->
  let (l, got) := copyinstr_page m (uaddr m t va0 + (va - va0)) n in
  ustring m t va (n + k) =
  if got then Some l else (l ++.) <$> ustring m t (va + Z.of_nat n) k.
Proof.
  intros Hva0 Hu. revert va Hva0. induction n as [|n IH]; intros va Hva0 Hn; cbn [copyinstr_page].
  { rewrite Z.add_0_r. cbn. by destruct (ustring m t va k). }
  cbn [Nat.add ustring].
  assert (ubyte m t va = Some (mget m (uaddr m t va0 + (va - va0)))) as ->.
  { unfold ubyte. rewrite <- Hva0. by destruct (Z.eqb_spec (uaddr m t va0) 0). }
  destruct (mget _ _ =? 0); [done|]. destruct n as [|n].
  { cbn [copyinstr_page Nat.add]. replace (va + Z.of_nat 1) with (va + 1) by lia. done. }
  specialize (IH (va + 1)). replace (va + 1 - va0) with (va - va0 + 1) in IH by lia.
  rewrite Z.add_assoc in IH. destruct (copyinstr_page m _ (S n)) as [l got].
  rewrite IH; [|symmetry; apply PGROUNDDOWN_off; [done|lia|lia]|lia].
  destruct got; [done|]. replace (va + 1 + Z.of_nat (S n)) with (va + Z.of_nat (S (S n))) by lia.
  by destruct (ustring m t (va + Z.of_nat (S (S n))) k).
Qed.

Lemma copyinstr_step_ok s root t va n acc :
  pt_ok (k_mem s) root t -> 0 < n ->
  copyinstr_step root (va, n, acc, false) s =
  Ret (let pa0 := uaddr (k_mem s) t (PGROUNDDOWN va) in
       if pa0 =? 0 then inr (-1, acc)
       else let (l, got) := copyinstr_page (k_mem s) (pa0 + (va - PGROUNDDOWN va)) (Z.to_nat (chunk va n)) in
            inl (u64 (PGROUNDDOWN va + PGSIZE), n - chunk va n, acc ++ l, got)) s.
Proof.
  intros Hpt Hn. unfold copyinstr_step. destruct (Z.ltb_spec 0 n); [|lia]. cbn [negb andb].
  kstep_by walkaddr_ok; [|done]. cbn zeta. destruct (_ =? 0); [done|]. kstep. fold (chunk va n).
  by destruct (copyinstr_page _ _ _).
Qed.

Lemma ustring_None m t va n : uaddr m t (PGROUNDDOWN va) = 0 -> ustring m t va n = None.
Proof. intros H. destruct n; [done|]. cbn [ustring]. unfold ubyte. by rewrite H. Qed.

Lemma copyinstr_loop s root t : pt_ok (k_mem s) root t -> forall n fuel va acc,
  (S n < fuel)%nat -> 0 <= va < 2 ^ 64 ->
  exists r dst, loop fuel (copyinstr_step root) (va, Z.of_nat n, acc, false) s = Ret (r, dst) s /\
    match ustring (k_mem s) t va n with
    | Some bs => r = 0 /\ dst = acc ++ bs
    | None => r = -1
    end.
Proof.
  intros Hpt n. induction (lt_wf n) as [n _ IH]. intros fuel va acc Hf Hva.
  destruct fuel as [|fuel]; [lia|]. destruct (decide (n = O)) as [->|Hn].
  { exists (-1), acc. split; [|done]. by apply loop_break. }
  pose proof (copyinstr_step_ok s root t va (Z.of_nat n) acc Hpt ltac:(lia)) as Hrun. cbn zeta in Hrun.
  destruct (Z.eqb_spec (uaddr (k_mem s) t (PGROUNDDOWN va)) 0) as [Hz|Hnz].
  { exists (-1), acc. split; [by apply loop_break|]. by rewrite ustring_None. }
  destruct (chunk_spec va (Z.of_nat n)) as (H1 & H2 & H3); [lia|].
  destruct (PGROUNDDOWN_bounds va) as [Hb _]. pose proof (uaddr_low _ _ _ Hnz) as Hlow.
  set (c := Z.to_nat (chunk va (Z.of_nat n))) in *.
  pose proof (copyinstr_page_ustring (k_mem s) t va _ c (n - c) eq_refl Hnz ltac:(lia)) as Hu.
  destruct (copyinstr_page _ _ c) as [l got]. replace (c + (n - c))%nat with n in Hu by lia.
  rewrite Hu. destruct got.
  - exists 0, (acc ++ l). split; [|done]. rewrite (loop_continue _ _ _ _ _ _ Hrun).
    destruct fuel as [|fuel]; [lia|]. by apply loop_break.
  - destruct (IH (n - c)%nat ltac:(lia) fuel (u64 (PGROUNDDOWN va + PGSIZE)) (acc ++ l))
      as (r & dst & Hl & Hr); [lia|apply u64_range|].
    exists r, dst. split.
    + rewrite (loop_continue _ _ _ _ _ _ Hrun).
      by replace (Z.of_nat n - chunk va (Z.of_nat n)) with (Z.of_nat (n - c)) by lia.
    + destruct (decide (n = c)) as [Hc|Hc].
      { replace (n - c)%nat with O in * by lia. done. }
      rewrite u64_small in Hr by vlia. replace (va + Z.of_nat c) with (PGROUNDDOWN va + PGSIZE) by lia.
      destruct (ustring (k_mem s) t (PGROUNDDOWN va + PGSIZE) (n - c)); [|exact Hr]. cbn. by rewrite app_assoc.
Qed.

(** ** copyout *)

Definition uwritable (m : mem) (t : ptree) (va : Z) : bool :=
  let va0 := PGROUNDDOWN va in
  (va0 <? MAXVA) && has (pte_at m t va0) PTE_W && negb (uaddr m t va0 =? 0).

(** The trampoline and the trapframe are not accessible to user code. *)
Definition no_high_user (m : mem) (t : ptree) : Prop :=
  forall va, TRAPFRAME <= va < MAXVA -> va mod PGSIZE = 0 -> has (pte_at m t va) PTE_U = false.

Lemma um_inj um va va' p f f' :
  NoDup (um_pages um) -> um !! va = Some (p, f) -> um !! va' = Some (p, f') -> va = va'.
Proof.
  intros Hnd H H'. destruct (decide (va = va')) as [|Hne]; [done|]. exfalso.
  rewrite (um_pages_delete um va p f H) in Hnd. apply NoDup_cons in Hnd as [Hn _].
  apply Hn, elem_um_pages. exists va', f'. by rewrite lookup_delete_ne.
Qed.

Lemma as_um_nodup s root A : as_ok s root A -> NoDup (um_pages (a_um A)).
Proof.
  intros Hok. pose proof (as_nodup _ _ _ Hok) as H. unfold a_pages in H.
  apply NoDup_app in H as (_ & _ & H). apply NoDup_app in H as (_ & _ & H).
  by apply NoDup_app in H as (_ & _ & H).
Qed.

Lemma as_uaddr s root A va :
  as_ok s root A -> no_high_user (k_mem s) (a_tree A) -> 0 <= va -> va mod PGSIZE = 0 ->
  uaddr (k_mem s) (a_tree A) va <> 0 ->
  exists f, a_um A !! va = Some (uaddr (k_mem s) (a_tree A) va, f).
Proof.
  intros Hok Hhi Hva Ha Hu. pose proof (uaddr_low _ _ _ Hu) as Hlow. unfold uaddr in *.
  destruct (Z.ltb_spec va MAXVA); [|lia]. cbn [andb] in *.
  destruct (has _ PTE_V) eqn:EV; [|done]. destruct (has _ PTE_U) eqn:EU; [|done]. cbn [andb] in *.
  destruct (Z.lt_ge_cases va TRAPFRAME).
  - pose proof (as_pte _ _ _ Hok va ltac:(lia) Ha) as Hp. destruct (a_um A !! va) as [[pa f]|] eqn:E.
    + exists f. destruct (as_dom _ _ _ Hok _ _ _ E) as (_ & _ & Hf & _).
      destruct (as_slot _ _ _ _ _ _ Hok E) as (_ & _ & _ & _ & Hpa). destruct (page_ok_56 pa Hpa).
      by rewrite Hp, PTE2PA_pte.
    + congruence.
  - rewrite Hhi in EU by (done || lia). done.
Qed.

Lemma uaddr_ext m m' t va : pte_at m' t va = pte_at m t va -> uaddr m' t va = uaddr m t va.
Proof. unfold uaddr. by intros ->. Qed.

Lemma as_write_bytes s root A va l :
  as_ok s root A -> no_high_user (k_mem s) (a_tree A) -> 0 <= va -> bytes l ->
  uaddr (k_mem s) (a_tree A) (PGROUNDDOWN va) <> 0 ->
  va - PGROUNDDOWN va + Z.of_nat (length l) <= PGSIZE ->
  let m' := mwrite (k_mem s) (uaddr (k_mem s) (a_tree A) (PGROUNDDOWN va) + (va - PGROUNDDOWN va)) l in
  as_ok (set_k_mem m' s) root A /\
  (forall va', pte_at m' (a_tree A) va' = pte_at (k_mem s) (a_tree A) va') /\
  (forall q, q mod PGSIZE = 0 -> q ∉ um_pages (a_um A) -> same_page (k_mem s) m' q) /\
  (forall va', 0 <= va' -> ubyte m' (a_tree A) va' =
    if within va' va (Z.of_nat (length l)) then l !! Z.to_nat (va' - va)
    else ubyte (k_mem s) (a_tree A) va').
Proof.
  intros Hok Hhi Hva Hl Hu Hlen m'. destruct (PGROUNDDOWN_bounds va) as [Hb Ha].
  assert (Hva0 : 0 <= PGROUNDDOWN va) by (rewrite PGROUNDDOWN_eq in *; vdivlia).
  destruct (as_uaddr _ _ _ (PGROUNDDOWN va) Hok Hhi Hva0 Ha Hu) as [f Hum].
  set (pa := uaddr (k_mem s) (a_tree A) (PGROUNDDOWN va)) in *.
  destruct (as_um_page _ _ _ _ _ _ Hok Hum) as (Hpa & _ & _).
  assert (Hin : pa ∈ um_pages (a_um A)) by (apply elem_um_pages; eauto).
  assert (Hsame : forall q, q mod PGSIZE = 0 -> q <> pa -> same_page (k_mem s) m' q).
  { intros q Hq Hne. apply same_page_mwrite; try done; lia. }
  assert (Hpte : forall va', pte_at m' (a_tree A) va' = pte_at (k_mem s) (a_tree A) va').
  { intros va'. eapply pte_at_frame; [apply Hok|]. intros q Hq. apply Hsame.
    - eapply as_aligned; [done|]. unfold a_pages. rewrite !elem_of_app. auto.
    - intros ->. by apply (a_nodup_tree _ pa (as_nodup _ _ _ Hok)) in Hq as (_ & _ & ?). }
  split_and!; [eapply as_write; eauto|done|intros q Hq Hn; apply Hsame; congruence|].
  intros va' Hva'. unfold ubyte. rewrite (uaddr_ext (k_mem s) m') by apply Hpte.
  destruct (PGROUNDDOWN_bounds va') as [Hb' Ha'].
  destruct (decide (PGROUNDDOWN va' = PGROUNDDOWN va)) as [E|Hne].
  - rewrite E. fold pa. destruct (Z.eqb_spec pa 0); [done|].
    unfold m'. rewrite mget_mwrite. fold pa.
    destruct (within_spec va' va (Z.of_nat (length l))), (within_spec (pa + (va' - PGROUNDDOWN va))
      (pa + (va - PGROUNDDOWN va)) (Z.of_nat (length l))); try lia; [|done].
    replace (pa + (va' - PGROUNDDOWN va) - (pa + (va - PGROUNDDOWN va))) with (va' - va) by lia.
    destruct (l !! Z.to_nat (va' - va)) as [b|] eqn:Eb; [|apply lookup_ge_None in Eb; lia].
    cbn. f_equal. apply u8_small. unfold bytes in Hl. rewrite Forall_forall in Hl. 
    apply Hl. by eapply list_elem_of_lookup_2.
  - destruct (within_spec va' va (Z.of_nat (length l))).
    { exfalso. apply Hne. rewrite !PGROUNDDOWN_eq in *. vdivlia. }
    destruct (Z.eqb_spec (uaddr (k_mem s) (a_tree A) (PGROUNDDOWN va')) 0) as [|Hu']; [done|].
    assert (Hva0' : 0 <= PGROUNDDOWN va') by (rewrite PGROUNDDOWN_eq in *; vdivlia).
    destruct (as_uaddr _ _ _ _ Hok Hhi Hva0' Ha' Hu') as [f' Hum'].
    f_equal. apply Hsame; [by apply (as_um_page _ _ _ _ _ _ Hok Hum')| |lia].
    intros Hpp. apply Hne. rewrite Hpp in Hum'. by eapply um_inj; [eapply as_um_nodup|done|done].
Qed.

Lemma copyout_step_ok s root t va src :
  pt_ok (k_mem s) root t -> (0 < length src)%nat ->
  copyout_step root (va, src) s =
  if uwritable (k_mem s) t va then
    let c := Z.to_nat (chunk va (Z.of_nat (length src))) in
    Ret (inl (u64 (PGROUNDDOWN va + PGSIZE), drop c src))
      (set_k_mem (mwrite (k_mem s) (uaddr (k_mem s) t (PGROUNDDOWN va) + (va - PGROUNDDOWN va))
                    (take c src)) s)
  else Ret (inr (-1)) s.
Proof.
  intros Hpt Hn. unfold copyout_step, uwritable. destruct (Z.ltb_spec 0 (Z.of_nat (length src))); [|lia].
  cbn zeta. destruct (Z.leb_spec MAXVA (PGROUNDDOWN va)), (Z.ltb_spec (PGROUNDDOWN va) MAXVA); try lia; [done|].
  cbn [andb]. kstep_by walk_ok; [|done|done].
  destruct (pt_slot t (PGROUNDDOWN va)) as [a|] eqn:E.
  - change (default 0 (Some a)) with a. destruct (Z.eqb_spec a 0) as [->|]; [by destruct (pt_slot_0 _ _ _ (PGROUNDDOWN va) Hpt)|].
    unfold ld64. kstep. assert (load64 (k_mem s) a = pte_at (k_mem s) t (PGROUNDDOWN va)) as ->.
    { unfold pte_at. by rewrite E. }
    destruct (has _ PTE_W); [|done]. cbn [negb andb]. kstep_by walkaddr_ok; [|done].
    destruct (_ =? 0); [done|]. cbn [negb]. unfold mod_mem. by kstep.
  - change (default 0 None) with 0. unfold pte_at. rewrite E. by rewrite has_0.
Qed.

Record wrote (s : kstate) (A : aspace) (s' : kstate) (va : Z) (l : list Z) : Prop := {
  wr_only : mem_only s s';
  wr_pte : forall va', pte_at (k_mem s') (a_tree A) va' = pte_at (k_mem s) (a_tree A) va';
  wr_frame : forall q, q mod PGSIZE = 0 -> q ∉ um_pages (a_um A) -> same_page (k_mem s) (k_mem s') q;
  wr_bytes : forall va', 0 <= va' -> ubyte (k_mem s') (a_tree A) va' =
    if within va' va (Z.of_nat (length l)) then l !! Z.to_nat (va' - va)
    else ubyte (k_mem s) (a_tree A) va';
  wr_writable : forall va', within va' va (Z.of_nat (length l)) = true -> uwritable (k_mem s) (a_tree A) va' = true
}.

Lemma uwritable_ext m m' t va : (forall va, pte_at m' t va = pte_at m t va) -> uwritable m' t va = uwritable m t va.
Proof. intros E. unfold uwritable, uaddr. by rewrite !E. Qed.

Lemma uwritable_page m t va va' : PGROUNDDOWN va' = PGROUNDDOWN va -> uwritable m t va' = uwritable m t va.
Proof. intros E. unfold uwritable. by rewrite E. Qed.

Lemma wrote_trans s A s1 s2 va l1 l2 :
  wrote s A s1 va l1 -> wrote s1 A s2 (va + Z.of_nat (length l1)) l2 -> wrote s A s2 va (l1 ++ l2).
Proof.
  intros [O1 P1 F1 B1 W1] [O2 P2 F2 B2 W2]. split.
  - by transitivity s1.
  - intros va'. by rewrite P2, P1.
  - intros q Hq Hn. eapply same_page_trans; eauto.
  - intros va' Hva'. rewrite B2, B1, length_app by done.
    destruct (within_spec va' (va + Z.of_nat (length l1)) (Z.of_nat (length l2))),
      (within_spec va' va (Z.of_nat (length l1))),
      (within_spec va' va (Z.of_nat (length l1 + length l2))); try lia; try done.
    + rewrite lookup_app_r by lia. f_equal. lia.
    + rewrite lookup_app_l by lia. done.
  - intros va'. rewrite length_app. specialize (W1 va'). specialize (W2 va'). rewrite (uwritable_ext _ _ _ va' P1) in W2.
    destruct (within_spec va' (va + Z.of_nat (length l1)) (Z.of_nat (length l2))),
      (within_spec va' va (Z.of_nat (length l1))), (within_spec va' va (Z.of_nat (length l1 + length l2))); auto; lia.
Qed.

Lemma within_nil x va : within x va (Z.of_nat (length (@nil Z))) = false.
Proof. by destruct (within_spec x va (Z.of_nat (length (@nil Z)))); [cbn in *; lia|]. Qed.

Lemma wrote_nil s A va : wrote s A s va [].
Proof. split; try done; intros va'; by rewrite within_nil. Qed.

Lemma wrote_nil_any s A s' va va' : wrote s A s' va [] -> wrote s A s' va' [].
Proof. intros [O P F B W]. split; try done; intros x; [intros Hx; rewrite B by done|]; by rewrite !within_nil. Qed.

Lemma no_high_ext m m' t :
  (forall va, pte_at m' t va = pte_at m t va) -> no_high_user m t -> no_high_user m' t.
Proof. intros E H va Hva Ha. rewrite E. by apply H. Qed.

Lemma copyout_loop root A n : forall fuel va src s,
  (length src <= n)%nat -> (n < fuel)%nat -> 0 <= va < 2 ^ 64 -> bytes src ->
  as_ok s root A -> no_high_user (k_mem s) (a_tree A) ->
  exists r s' k, loop fuel (copyout_step root) (va, src) s = Ret r s' /\
    as_ok s' root A /\ wrote s A s' va (take k src) /\
    ((r = 0 /\ k = length src) \/
     (r = -1 /\ (k < length src)%nat /\ uwritable (k_mem s) (a_tree A) (va + Z.of_nat k) = false)).
Proof.
  induction n as [|n IH]; intros [|fuel] va src s Hlen Hf Hva Hb Hok Hhi; try lia.
  { destruct src; [|cbn in Hlen; lia]. exists 0, s, O.
    split_and!; [by apply loop_break|done|apply wrote_nil|by left]. }
  destruct (decide (length src = O)) as [Hs|Hs].
  { destruct src; [|done]. exists 0, s, O. split_and!; [by apply loop_break|done|apply wrote_nil|by left]. }
  pose proof (copyout_step_ok s root (a_tree A) va src ltac:(apply Hok) ltac:(lia)) as Hrun.
  destruct (uwritable (k_mem s) (a_tree A) va) eqn:Ew; cbn zeta in Hrun.
  2: { exists (-1), s, O. split_and!; [by apply loop_break|done|apply wrote_nil|]. right.
       rewrite Z.add_0_r. split_and!; [done|lia|done]. }
  pose proof Ew as Ew'. unfold uwritable in Ew'. apply andb_true_iff in Ew' as [Ew1 Ew2].
  apply andb_true_iff in Ew1 as [Ew1 _]. apply negb_true_iff, Z.eqb_neq in Ew2. apply Z.ltb_lt in Ew1.
  destruct (chunk_spec va (Z.of_nat (length src))) as (H1 & H2 & H3); [lia|].
  destruct (PGROUNDDOWN_bounds va) as [Hbd _].
  set (c := Z.to_nat (chunk va (Z.of_nat (length src)))) in *.
  assert (Hct : length (take c src) = c) by (rewrite length_take; lia).
  destruct (as_write_bytes s root A va (take c src)) as (Hok1 & Hp1 & Hf1 & Hb1); try done; try lia.
  { by apply Forall_take. }
  set (s1 := set_k_mem _ s) in *. change (mwrite _ _ _) with (k_mem s1) in Hp1, Hf1, Hb1.
  assert (Hw1 : wrote s A s1 va (take c src)).
  { split; [apply mem_only_mem|done..|]. intros va' Hin. destruct (within_spec va' va (Z.of_nat (length (take c src)))); [|done].
    rewrite <- Ew. apply uwritable_page. replace va' with (va + (va' - va)) by lia. apply PGROUNDDOWN_off; [done|lia|lia]. }
  destruct (IH fuel (u64 (PGROUNDDOWN va + PGSIZE)) (drop c src) s1) as (r & s2 & k & Hl & Hok2 & Hw2 & Hr).
  { rewrite length_drop. lia. } { lia. } { apply u64_range. } { by apply Forall_drop. } { done. }
  { by eapply no_high_ext. }
  exists r, s2, (c + k)%nat. rewrite length_drop in Hr. split_and!; [by erewrite loop_continue|done| |].
  - rewrite <- take_take_drop. eapply wrote_trans; [done|]. rewrite Hct.
    destruct (decide (c = length src)) as [Hc|Hc].
    + rewrite drop_ge, take_nil in * by lia. by eapply wrote_nil_any.
    + rewrite u64_small in Hw2 by vlia. by replace (va + Z.of_nat c) with (PGROUNDDOWN va + PGSIZE) by lia.
  - destruct Hr as [[-> ->]|(-> & Hk & Hu)]; [left; lia|right]. split_and!; [done|lia|].
    rewrite u64_small in Hu by vlia. rewrite <- Hu. unfold uwritable, uaddr. rewrite !Hp1.
    by replace (va + Z.of_nat (c + k)) with (PGROUNDDOWN va + PGSIZE + Z.of_nat k) by lia.
Qed.

End CopyUser.
