(* ===== verification/VmProps.v ===== *)
(** * What the page allocator and the virtual memory code promise

    The theorems a reader of kernel/kalloc.c and kernel/vm.c is after, stated
    with the vocabulary of the component files: the free pages, the leaf PTEs
    ([pte_at]) and the bytes a user program sees ([ubyte]). *)

From stdpp Require Import base list gmap strings.
From Stdlib Require Import ZArith Lia.
From S2P Require Import Prelude Mem KString Riscv State Sched Kalloc Vm PtRep Uvm Uspace Ucopy Pool Ufree CopyUser.
Open Scope Z_scope.

#[global] Instance xv6_layout_ok : LayoutOk xv6_layout.
Proof. by split. Qed.

(** ** A small machine to run the theorems on: page [pg 0] is a page table,
    [pg 1] .. [pg 6] are free. *)

Definition pg (i : Z) : Z := 0x80100000 + i * PGSIZE.
Definition sample_free : list Z := [pg 1; pg 2; pg 3; pg 4; pg 5; pg 6].
Definition sample_mem : mem :=
  store64 (store64 (store64 (store64 (store64 ∅ (pg 1) (pg 2)) (pg 2) (pg 3)) (pg 3) (pg 4)) (pg 4) (pg 5))
    (pg 5) (pg 6).
Definition sample : kstate := set_k_freelist (pg 1) (set_k_mem sample_mem boot_state).
Definition sample_as : aspace := mk_aspace {[ [] := pg 0 ]} sample_free ∅ [].

Section VmProps.
Context {L : Layout} `{!LayoutOk L}.

Lemma ubyte_pview m root t um va pa f :
  pview m root t um -> um !! PGROUNDDOWN va = Some (pa, f) ->
  ubyte m t va =
  if Z.testbit f 4 then Some (mget m (pa + (va - PGROUNDDOWN va))) else None.
Proof.
  intros Hpv Hum. destruct (pv_map _ _ _ _ Hpv _ _ _ Hum) as (Hva & Ha & Hf & Hb & _ & Hpa & Hpte).
  destruct (page_ok_56 pa Hpa) as [H56 Hal]. pose proof (page_ok_pos pa Hpa).
  assert (Hu : uaddr m t (PGROUNDDOWN va) = if Z.testbit f 4 then pa else 0).
  { unfold uaddr. destruct (Z.ltb_spec (PGROUNDDOWN va) MAXVA); [|vlia].
    rewrite Hpte, has_pte_V, Hb, PTE2PA_pte by done. unfold PTE_U.
    rewrite has_testbit, testbit_pte by lia. by destruct (Z.testbit f 4). }
  unfold ubyte. rewrite Hu. destruct (Z.testbit f 4); [|done].
  destruct (Z.eqb_spec pa 0); [vlia|done].
Qed.

(** [kfree] puts a page of allocatable RAM at the head of the free list, and
    panics on anything else (unaligned, below [end] or above PHYSTOP). *)
Theorem kfree_spec s p l :
  kmem_ok s l -> p ∉ l -> L_kmem ∉ k_held s ->
  (page_ok p -> exists s', kfree p s = Ret tt s' /\ kmem_ok s' (p :: l) /\ mem_only s s' /\
     forall q, q mod PGSIZE = 0 -> q <> p -> same_page (k_mem s) (k_mem s') q) /\
  (~ page_ok p -> kfree p s = Stop (SPanic "kfree") s).
Proof.
  intros Hk Hn Hl. split; [intros Hp; by apply kfree_frame|apply kfree_panic].
Qed.

(** [kinit] puts every whole page of RAM between [end] and PHYSTOP on the
    free list, once. *)
Theorem kinit_spec s :
  k_freelist s = 0 -> L_kmem ∉ k_held s ->
  exists s' l, kinit s = Ret tt s' /\ kmem_ok s' l /\ forall p, p ∈ l <-> page_ok p.
Proof.
  intros Hf Hl. pose proof kend_lo as Hke. pose proof etext_lo as Hte. pose proof kend_hi as Hkh.
  destruct (PGROUNDUP_bounds kend) as [Hb Ha]; [vlia|].
  assert (Htop : PGROUNDUP kend <= PHYSTOP) by (rewrite PGROUNDUP_eq in * by vlia; vdivlia).
  set (n := Z.to_nat ((PHYSTOP - PGROUNDUP kend) / PGSIZE)).
  destruct (freerange_loop s (PGROUNDUP kend) PHYSTOP n []) as (s' & Hrun & Hok & _).
  { by split; [|constructor..]. } { done. } { done. } { lia. } { lia. } { intros q _. apply not_elem_of_nil. }
  { unfold n. vdivlia. }
  exists s', (rev (pages_from (PGROUNDUP kend) n) ++ []). split_and!; [exact Hrun|done|].
  intros p. rewrite app_nil_r, list_elem_of_In, <- in_rev, <- list_elem_of_In, elem_of_pages_from. unfold page_ok. split.
  - intros (i & Hi & ->). unfold n in Hi. vdivlia.
  - intros [Hp Hr]. exists (Z.to_nat ((p - PGROUNDUP kend) / PGSIZE)). unfold n. vdivlia.
Qed.

(** [mappages] over [n] unmapped pages either maps all of them and returns 0,
    or runs out of memory for table pages after the first [k] and returns -1.
    No other leaf PTE changes, whatever tables had to be created. *)
Theorem mappages_spec s root t l va n pa perm :
  vm_ok s root t l -> (0 < n)%nat -> 0 <= va -> va mod PGSIZE = 0 ->
  va + Z.of_nat n * PGSIZE <= MAXVA -> 0 <= pa -> pa + Z.of_nat n * PGSIZE < 2 ^ 56 ->
  0 <= perm < 2 ^ 10 -> unmapped (k_mem s) t va n ->
  exists s' t' l' k,
    mappages root va (Z.of_nat n * PGSIZE) pa perm s = Ret (if decide (k = n) then 0 else -1) s' /\
    vm_ok s' root t' l' /\ mem_only s s' /\ (k <= n)%nat /\ ((k < n)%nat -> l' = []) /\
    forall va', 0 <= va' < MAXVA -> va' mod PGSIZE = 0 ->
      pte_at (k_mem s') t' va' =
      if within va' va (Z.of_nat k * PGSIZE)
      then Z.lor (Z.lor (PA2PTE (pa + (va' - va))) perm) PTE_V else pte_at (k_mem s) t va'.
Proof.
  intros Hvm Hn Hva Ha Hhi Hpa Hpa' Hperm Hun. destruct n as [|n]; [lia|].
  destruct (mappages_loop root perm n s t l va pa) as (s' & t' & u & l' & k & Hrun & Hup & Hk & Hl & _);
    try done; try vlia.
  exists s', t', l', k. split_and!; [|apply Hup|apply Hup|done|done|].
  - unfold mappages. rewrite Ha. rewrite Z.mod_mul by done. cbn [Z.eqb negb].
    destruct (Z.eqb_spec (Z.of_nat (S n) * PGSIZE) 0); [vlia|].
    rewrite Z.div_mul, Nat2Z.id, u64_small by vlia.
    by replace (va + Z.of_nat (S n) * PGSIZE - PGSIZE) with (va + Z.of_nat n * PGSIZE) by lia.
  - intros va' Hva' Ha'. rewrite (up_pte _ _ _ _ _ _ _ _ _ Hup) by done. unfold map_ptes.
    by destruct (within va' va (Z.of_nat k * PGSIZE)).
Qed.

Lemma cov_page um sz va :
  um_cov um sz -> sz mod PGSIZE = 0 -> 0 <= va < sz -> exists pa f, um !! PGROUNDDOWN va = Some (pa, f).
Proof.
  intros Hc Hs Hva. destruct (PGROUNDDOWN_bounds va) as [Hb Ha].
  destruct (proj2 (Hc (PGROUNDDOWN va))) as [[pa f] H]; [|by eauto].
  split; [|done]. rewrite PGROUNDDOWN_eq in *. vdivlia.
Qed.

(** A mapped page whose contents did not change reads the same. *)
Lemma ubyte_same m m' root t t' um um' va pa f :
  pview m root t um -> pview m' root t' um' ->
  um !! PGROUNDDOWN va = Some (pa, f) -> um' !! PGROUNDDOWN va = Some (pa, f) ->
  same_page m m' pa -> ubyte m' t' va = ubyte m t va.
Proof.
  intros H1 H2 E1 E2 Hs. rewrite (ubyte_pview m root t um va pa f), (ubyte_pview m' root t' um' va pa f) by done.
  destruct (Z.testbit f 4); [|done]. f_equal. apply Hs. destruct (PGROUNDDOWN_bounds va). lia.
Qed.

(** C28: growing a process with [uvmalloc]: on success the address space covers
    the new size, the new bytes are user-accessible and zero; on failure it is
    what it was, and there were no more than three free pages for each page asked for. Either way the old bytes are unchanged, the page table is well
    formed, and no page is lost or handed out twice. *)
Theorem uvmalloc_spec s root t l um own oldsz newsz xperm :
  as_ok s root (mk_aspace t l um own) -> um_cov um (PGROUNDUP oldsz) ->
  0 <= oldsz <= newsz -> newsz <= TRAPFRAME -> 0 <= xperm < 2 ^ 10 ->
  exists r s' A', uvmalloc root oldsz newsz xperm s = Ret r s' /\
    as_ok s' root A' /\ a_pages A' ≡ₚ a_pages (mk_aspace t l um own) /\ mem_only s s' /\
    (forall va, 0 <= va < PGROUNDUP oldsz ->
       ubyte (k_mem s') (a_tree A') va = ubyte (k_mem s) t va) /\
    ((r = newsz /\ um_cov (a_um A') (PGROUNDUP newsz) /\
      forall va, PGROUNDUP oldsz <= va < PGROUNDUP newsz -> ubyte (k_mem s') (a_tree A') va = Some 0) \/
     (r = 0 /\ a_um A' = um /\ Z.of_nat (length l) <= 3 * ((PGROUNDUP newsz - PGROUNDUP oldsz) / PGSIZE))).
Proof.
  intros Hok Hc Hsz Htop Hx.
  destruct (PGROUNDUP_bounds oldsz) as [Ho1 Ho2]; [vlia|]. destruct (PGROUNDUP_bounds newsz) as [Hn1 Hn2]; [vlia|].
  destruct (uvmalloc_ok root t own s l um oldsz newsz xperm) as (r & s' & t' & l' & um' & Hrun & Hst & Hr); try done.
  pose proof (as_pview _ _ _ Hok) as Hpv. pose proof (as_pview _ _ _ (st_ok _ _ _ _ _ Hst)) as Hpv'.
  exists r, s', (mk_aspace t' l' um' own). split_and!; [done|apply Hst|apply Hst|apply Hst| |].
  - intros va Hva. destruct (cov_page um _ va Hc Ho2 Hva) as (pa & f & Hum).
    assert (Hum' : um' !! PGROUNDDOWN va = Some (pa, f)).
    { destruct Hr as [(_ & Hsub & _)|(_ & -> & _)]; [by eapply lookup_weaken|done]. }
    eapply (ubyte_same _ _ root t t' um um'); [done|done|done|done|]. by eapply as_step_um.
  - destruct Hr as [(-> & Hsub & Hcov & _ & Hnew)|(-> & -> & Hlen)]; [left|by right]. split_and!; [done|done|].
    intros va Hva. destruct (cov_page um' _ va Hcov Hn2) as (pa & f & Hum'); [lia|].
    destruct (Hnew _ _ _ Hum') as [Hz ->].
    { destruct (um !! PGROUNDDOWN va) eqn:E; [|done]. destruct (proj1 (Hc (PGROUNDDOWN va))); [by eexists|].
      rewrite PGROUNDDOWN_eq in *. vdivlia. }
    cbn [a_tree]. rewrite (ubyte_pview _ root t' um' va _ _ Hpv' Hum'), !Z.lor_spec, !orb_true_r. cbn [orb].
    f_equal. apply Hz. destruct (PGROUNDDOWN_bounds va). lia.
Qed.

(** A copy of the pages of [ump] is a copy of the bytes the user sees. *)
Lemma copy_image m m' old new tp ump t um sz :
  pview m old tp ump -> pview m' new t um -> um_cov ump (PGROUNDUP sz) -> 0 <= sz -> sz <= TRAPFRAME -> copy_of m m' ump um (PGROUNDUP sz) ->
  forall va, 0 <= va < PGROUNDUP sz -> ubyte m' t va = ubyte m tp va.
Proof.
  intros Hpv Hpv' Hc Hsz Htop [Hcov Hcp] va Hva. destruct (PGROUNDUP_bounds sz) as [Hs1 Hs2]; [vlia|].
  destruct (cov_page ump _ va Hc Hs2 Hva) as (pa & f & Hum). destruct (PGROUNDDOWN_bounds va) as [Hb _].
  destruct (Hcp _ _ _ Hum) as (pa' & Hum' & Hcpd); [lia|].
  rewrite (ubyte_pview _ new t um va pa' f), (ubyte_pview _ old tp ump va pa f) by done.
  destruct (Z.testbit f 4); [|done]. f_equal. apply Hcpd. lia.
Qed.

(** C6: [uvmcopy] gives the child, on success, exactly the bytes of the parent at
    every address below [sz], in pages of its own; on failure the child is left
    with no user pages, and there were no more than three free pages for each page to copy. The parent's memory is unchanged either way, and every
    page is accounted for. *)
Theorem uvmcopy_spec old new tp ump own sz s t l :
  pview (k_mem s) old tp ump -> parent_in tp ump own -> as_ok s new (mk_aspace t l ∅ own) ->
  um_cov ump (PGROUNDUP sz) -> 0 <= sz <= TRAPFRAME ->
  exists r s' A', uvmcopy old new sz s = Ret r s' /\ as_ok s' new A' /\
    a_own A' = own /\ a_pages A' ≡ₚ a_pages (mk_aspace t l ∅ own) /\ mem_only s s' /\
    (forall va, 0 <= va < PGROUNDUP sz -> ubyte (k_mem s') tp va = ubyte (k_mem s) tp va) /\
    ((r = 0 /\ um_cov (a_um A') (PGROUNDUP sz) /\
      forall va, 0 <= va < PGROUNDUP sz -> ubyte (k_mem s') (a_tree A') va = ubyte (k_mem s) tp va) \/
     (r = -1 /\ a_um A' = ∅ /\ Z.of_nat (length l) <= 3 * (PGROUNDUP sz / PGSIZE))).
Proof.
  intros Hpv Hsub Hok Hc Hsz. destruct (PGROUNDUP_bounds sz) as [Hs1 Hs2]; [vlia|].
  destruct (uvmcopy_ok old new tp ump own sz s t l) as (r & s' & t' & l' & um' & Hrun & Hst & Hr); try done.
  exists r, s', (mk_aspace t' l' um' own).
  split_and!; [done|apply Hst|done|apply Hst|apply Hst| |].
  - intros va Hva. destruct (cov_page ump _ va Hc Hs2 Hva) as (pa & f & Hum).
    assert (Hown : forall p, p ∈ tree_pages tp ++ um_pages ump -> same_page (k_mem s) (k_mem s') p).
    { intros p Hp%Hsub. by eapply as_step_own. }
    eapply (ubyte_same _ _ old tp tp ump ump); [done| |done|done|].
    + eapply pview_frame; [|done]. intros p Hp. apply Hown, elem_of_app. by left.
    + apply Hown, elem_of_app. right. apply elem_um_pages. eauto.
  - destruct Hr as [[-> Hcp]|(-> & -> & Hlen)]; [left|by right]. split_and!; [done|apply Hcp|].
    apply (copy_image _ _ old new tp ump t' um' sz); try done; try lia. apply (as_pview _ _ _ (st_ok _ _ _ _ _ Hst)).
Qed.

(** C7: [uvmfree] returns to the free list exactly the process's user pages and
    all the pages of its page table, each once, and touches no other memory. *)
Theorem uvmfree_spec s root t l um own sz :
  as_ok s root (mk_aspace t l um own) -> um_cov um (PGROUNDUP sz) -> 0 <= sz <= TRAPFRAME ->
  (forall va, TRAPFRAME <= va < MAXVA -> va mod PGSIZE = 0 ->
     has (pte_at (k_mem s) t va) PTE_V = false) ->
  exists s' l', uvmfree root sz s = Ret tt s' /\ kmem_ok s' l' /\ mem_only s s' /\
    l' ≡ₚ l ++ tree_pages t ++ um_pages um /\
    (forall q, q mod PGSIZE = 0 -> q ∉ l' -> same_page (k_mem s) (k_mem s') q).
Proof. apply uvmfree_ok. Qed.

(** C27: [copyin] succeeds exactly when all [len] bytes are mapped for the user,
    and then returns those bytes; the kernel state does not change. *)
Theorem copyin_spec s root t srcva len :
  pt_ok (k_mem s) root t -> 0 <= srcva < 2 ^ 64 -> 0 <= len ->
  exists r dst, copyin root srcva len s = Ret (r, dst) s /\
    match ubytes (k_mem s) t srcva (Z.to_nat len) with
    | Some bs => r = 0 /\ dst = bs
    | None => r = -1
    end.
Proof.
  intros Hpt Hva Hlen. unfold copyin.
  destruct (copyin_loop s root t Hpt (Z.to_nat len) (S (Z.to_nat len)) srcva []) as (r & dst & Hrun & Hr);
    [lia|done|]. rewrite Z2Nat.id in Hrun by done. by exists r, dst.
Qed.

(** C26: [copyinstr] succeeds exactly when a NUL-terminated string is mapped for
    the user within the first [max] bytes, and then returns it with its NUL. *)
Theorem copyinstr_spec s root t srcva max :
  pt_ok (k_mem s) root t -> 0 <= srcva < 2 ^ 64 -> 0 <= max ->
  exists r dst, copyinstr root srcva max s = Ret (r, dst) s /\
    match ustring (k_mem s) t srcva (Z.to_nat max) with
    | Some bs => r = 0 /\ dst = bs
    | None => r = -1
    end.
Proof.
  intros Hpt Hva Hmax. unfold copyinstr.
  destruct (copyinstr_loop s root t Hpt (Z.to_nat max) (S (S (Z.to_nat max))) srcva []) as (r & dst & Hrun & Hr);
    [lia|done|]. rewrite Z2Nat.id in Hrun by done. by exists r, dst.
Qed.

(** C8: [copyout] writes the longest prefix of [src] that fits in user-writable
    memory: every byte it writes is at an address the user may write (present, user
    and writable); it writes all of [src] when it returns 0, and up to the first
    byte that is not writable when it returns -1. No other user byte, no page table,
    no free page and no page of anyone else changes. *)
Theorem copyout_spec s root A dstva src :
  as_ok s root A -> no_high_user (k_mem s) (a_tree A) -> 0 <= dstva < 2 ^ 64 -> bytes src ->
  exists r s' k, copyout root dstva src s = Ret r s' /\ as_ok s' root A /\
    wrote s A s' dstva (take k src) /\
    (forall j, (j < k)%nat -> uwritable (k_mem s) (a_tree A) (dstva + Z.of_nat j) = true) /\
    ((r = 0 /\ k = length src) \/
     (r = -1 /\ (k < length src)%nat /\
      uwritable (k_mem s) (a_tree A) (dstva + Z.of_nat k) = false)).
Proof.
  intros Hok Hhi Hva Hb. destruct (copyout_loop root A (length src) (S (length src)) dstva src s) as (r & s' & k & R & Hok' & Hw & Hr); try done; try lia.
  exists r, s', k. split; [done|]. split; [done|]. split; [done|]. split; [|done]. intros j Hj. apply (wr_writable _ _ _ _ _ Hw).
  rewrite length_take. destruct (within_spec (dstva + Z.of_nat j) dstva (Z.of_nat (k `min` length src))); [done|]. destruct Hr as [[_ ->]|[_ [? _]]]; lia.
Qed.

End VmProps.

Lemma sample_mem_low a : pg 0 <= a -> a + 8 <= pg 1 -> load64 sample_mem a = 0.
Proof.
  intros H1 H2. unfold sample_mem, pg in *. rewrite !load_store_disjoint by vlia.
  by apply load_zero.
Qed.

Lemma sample_kmem : kmem_ok sample sample_free.
Proof.
  split.
  - vm_compute. by repeat split.
  - apply (bool_decide_unpack _). by vm_compute.
  - repeat constructor; by vm_compute.
Qed.

Lemma sample_pt : pt_ok sample_mem (pg 0) {[ [] := pg 0 ]}.
Proof.
  split.
  - apply lookup_singleton_eq.
  - intros π p [<- <-]%lookup_singleton_Some. split_and!; [cbn; lia|constructor|]. by vm_compute.
  - intros π π' p [<- _]%lookup_singleton_Some [<- _]%lookup_singleton_Some. done.
  - intros π i [x Hx]. apply lookup_singleton_Some in Hx as [Hx _]. by destruct π.
  - intros i π p Hx. by apply lookup_singleton_Some in Hx as [Hx _].
  - intros π p i [<- <-]%lookup_singleton_Some _ Hi.
    rewrite sample_mem_low by (unfold pg; vlia). rewrite lookup_singleton_ne by done. done.
Qed.

Lemma sample_ok : as_ok sample (pg 0) sample_as.
Proof.
  split.
  - split; [apply sample_kmem|apply sample_pt| |].
    + intros π p H. cbn [a_tree sample_as] in H. apply lookup_singleton_Some in H as [<- <-]. by apply (bool_decide_unpack _); vm_compute.
    + apply not_elem_of_nil.
  - intros va pa f H. done.
  - intros va _ _. cbn. unfold pte_at, pt_slot. rewrite lookup_singleton_ne by done. done.
  - repeat constructor; by vm_compute.
  - apply (bool_decide_unpack _). by vm_compute.
Qed.

(** ** The theorems at work *)

(** The sample machine after growing the process by a page. *)
Definition grown : kstate := out_state (uvmalloc (pg 0) 0 4096 PTE_W sample) sample.

Lemma grown_r : out_val (uvmalloc (pg 0) 0 4096 PTE_W sample) 0 = 4096.
Proof. vm_compute. reflexivity. Qed.

Lemma cov_empty : um_cov ∅ 0.
Proof. intros va. rewrite lookup_empty. split; [by intros []|lia]. Qed.

Lemma grown_ok : exists t l um, as_ok grown (pg 0) (mk_aspace t l um []) /\ um_cov um 4096 /\
  forall va, TRAPFRAME <= va < MAXVA -> va mod PGSIZE = 0 -> pte_at (k_mem grown) t va = 0.
Proof.
  destruct (uvmalloc_ok (pg 0) {[ [] := pg 0 ]} [] sample sample_free ∅ 0 4096 PTE_W)
    as (r & s' & t' & l' & um' & Hrun & Hst & Hr).
  { apply sample_ok. } { apply cov_empty. } { lia. } { vlia. } { by split. }
  pose proof grown_r as Hg. unfold grown. rewrite Hrun in *. cbn in Hg. subst r.
  destruct Hr as [(_ & _ & Hcov & _)|(? & _)]; [|done]. exists t', l', um'.
  split_and!; [apply Hst|exact Hcov|]. intros va Hva Ha. rewrite (st_high _ _ _ _ _ Hst) by done.
  unfold pte_at, pt_slot. cbn [a_tree]. by rewrite lookup_singleton_ne.
Qed.

Lemma kfree_spec_witness : exists s', kfree (pg 9) sample = Ret tt s' /\ kmem_ok s' (pg 9 :: sample_free).
Proof.
  destruct (kfree_spec sample (pg 9) sample_free sample_kmem) as [H _].
  { apply (bool_decide_unpack _). by vm_compute. } { apply not_elem_of_nil. }
  destruct H as (s' & H1 & H2 & _); [by vm_compute|]. exists s'. split; [exact H1|exact H2].
Defined.

Lemma kinit_spec_witness : exists s' l, kinit boot_state = Ret tt s' /\ kmem_ok s' l /\
  forall p, p ∈ l <-> page_ok p.
Proof. apply (kinit_spec boot_state); [reflexivity|apply not_elem_of_nil]. Defined.

Lemma mappages_spec_witness : exists s' t' l' k,
  mappages (pg 0) (3 * PGSIZE) (Z.of_nat 2 * PGSIZE) (pg 8) PTE_R sample =
    Ret (if decide (k = 2%nat) then 0 else -1) s' /\ vm_ok s' (pg 0) t' l' /\ (k <= 2)%nat.
Proof.
  destruct (mappages_spec sample (pg 0) {[ [] := pg 0 ]} sample_free (3 * PGSIZE) 2 (pg 8) PTE_R)
    as (s' & t' & l' & k & H1 & H2 & _ & H4 & _); try (unfold pg; vlia).
  - apply sample_ok.
  - by vm_compute.
  - by split.
  - intros va _ _. unfold pte_at, pt_slot. by rewrite lookup_singleton_ne.
  - exists s', t', l', k. auto.
Defined.

Lemma uvmalloc_spec_witness : exists r s' A', uvmalloc (pg 0) 0 4096 PTE_W sample = Ret r s' /\
  as_ok s' (pg 0) A' /\ a_pages A' ≡ₚ a_pages sample_as.
Proof.
  destruct (uvmalloc_spec sample (pg 0) {[ [] := pg 0 ]} sample_free ∅ [] 0 4096 PTE_W)
    as (r & s' & A' & H1 & H2 & H3 & _).
  - apply sample_ok.
  - apply cov_empty.
  - lia.
  - vlia.
  - by split.
  - exists r, s', A'. auto.
Defined.

(** A page table for a child of the grown sample process, in page 7. *)
Lemma sample_zero7 : zero_page (k_mem sample) (pg 7).
Proof.
  intros i Hi. cbn [k_mem sample set_k_freelist set_k_mem]. unfold sample_mem, pg. rewrite !mget_store by vlia. reflexivity.
Qed.

Lemma sample_page7 : page_ok (pg 7).
Proof. by vm_compute. Qed.

Lemma grown_child : exists t l um, pview (k_mem grown) (pg 0) t um /\ um_cov um 4096 /\
  as_ok grown (pg 7) (mk_aspace {[ [] := pg 7 ]} l ∅ (tree_pages t ++ um_pages um)).
Proof.
  destruct (uvmalloc_ok (pg 0) {[ [] := pg 0 ]} [] sample sample_free ∅ 0 4096 PTE_W)
    as (r & s' & t' & l' & um' & Hrun & Hst & Hr).
  { apply sample_ok. } { apply cov_empty. } { lia. } { vlia. } { by split. }
  pose proof grown_r as Hg. unfold grown. rewrite Hrun in *. cbn in Hg. subst r.
  destruct Hr as [(_ & _ & Hcov & _)|(? & _)]; [|done]. exists t', l', um'. pose proof (st_ok _ _ _ _ _ Hst) as Hok.
  split; [apply (as_pview _ _ _ Hok)|]. split; [exact Hcov|].
  pose proof (st_pages _ _ _ _ _ Hst) as E. unfold a_pages in E. cbn [a_own a_free a_tree a_um app] in E.
  assert (H7 : pg 7 ∉ sample_free ++ tree_pages {[ [] := pg 0 ]} ++ um_pages ∅) by (apply (bool_decide_unpack _); by vm_compute).
  assert (H7' : pg 7 ∉ l' ++ tree_pages t' ++ um_pages um') by (by rewrite E). rewrite !not_elem_of_app in H7, H7'.
  apply fresh_as.
  - pose proof (as_pool _ _ _ _ _ _ Hok) as [Hk Hpg Hnd Hl]. split; [exact Hk| | |exact Hl]; cbn [app] in *.
    + apply Forall_cons. split; [exact sample_page7|exact Hpg].
    + apply NoDup_cons. split; [|exact Hnd]. rewrite !not_elem_of_app. tauto.
  - eapply zero_page_same; [|apply sample_zero7]. apply (st_frame _ _ _ _ _ Hst).
    + reflexivity.
    + apply H7.
    + apply H7'.
    + apply H7.
Qed.

Lemma uvmcopy_spec_witness : exists r s' A', uvmcopy (pg 0) (pg 7) 4096 grown = Ret r s' /\
  as_ok s' (pg 7) A'.
Proof.
  destruct grown_child as (t & l & um & Hpv & Hc & Hok).
  destruct (uvmcopy_spec (pg 0) (pg 7) t um (tree_pages t ++ um_pages um) 4096 grown {[ [] := pg 7 ]} l)
    as (r & s' & A' & H1 & H2 & _).
  - exact Hpv.
  - intros p Hp. exact Hp.
  - exact Hok.
  - exact Hc.
  - vlia.
  - exists r, s', A'. auto.
Defined.

Lemma uvmfree_spec_witness : exists s' l', uvmfree (pg 0) 4096 grown = Ret tt s' /\ kmem_ok s' l'.
Proof.
  destruct grown_ok as (t & l & um & Hok & Hc & Hhi).
  destruct (uvmfree_spec grown (pg 0) t l um [] 4096) as (s' & l' & H1 & H2 & _).
  - exact Hok.
  - exact Hc.
  - vlia.
  - intros va Hva Ha. rewrite Hhi by assumption. apply has_0.
  - exists s', l'. auto.
Defined.

Lemma copyin_spec_witness : exists r dst s, copyin (pg 0) 4090 6 grown = Ret (r, dst) s.
Proof.
  destruct grown_ok as (t & l & um & Hok & Hc & Hhi).
  destruct (copyin_spec grown (pg 0) t 4090 6) as (r & dst & H & _).
  - apply Hok.
  - lia.
  - lia.
  - exists r, dst, grown. exact H.
Defined.

Lemma copyinstr_spec_witness : exists r dst s, copyinstr (pg 0) 4090 128 grown = Ret (r, dst) s.
Proof.
  destruct grown_ok as (t & l & um & Hok & Hc & Hhi).
  destruct (copyinstr_spec grown (pg 0) t 4090 128) as (r & dst & H & _).
  - apply Hok.
  - lia.
  - lia.
  - exists r, dst, grown. exact H.
Defined.

Lemma copyout_spec_witness : exists r s', copyout (pg 0) 4094 [1; 2; 3] grown = Ret r s'.
Proof.
  destruct grown_ok as (t & l & um & Hok & Hc & Hhi).
  destruct (copyout_spec grown (pg 0) (mk_aspace t l um []) 4094 [1; 2; 3]) as (r & s' & k & H & _).
  - exact Hok.
  - intros va Hva Ha. cbn [a_tree]. rewrite Hhi by assumption. apply has_0.
  - lia.
  - repeat constructor; lia.
  - exists r, s'. exact H.
Defined.
