(* ===== verification/Bio.v ===== *)
(** * kernel/bio.c: the buffer cache

    The buffers sit on a ring of [prev]/[next] pointers through [bcache.head],
    most recently used first; here a pointer is an index into [k_bufs], with the
    head at index [NBUF].  [bio_ok s o] says the ring is well formed and lists
    the buffers in the order [o], that a block is cached at most once, and that
    unreferenced buffers agree with the disk.  [blk s bn] is the contents of a
    block as the kernel sees it: cached if it is, else on disk.

    [virtio_disk_rw] appears here as the transfer it performs ([disk_rw]);
    [Virtio.v] has the driver. *)

From stdpp Require Import base list gmap strings.
From Stdlib Require Import ZArith Lia.
From S2P Require Import Prelude Mem Riscv State Sched.
Open Scope Z_scope.

Definition HEAD : nat := NBUF.

Definition disk_get (d : gmap Z (list Z)) (bn : Z) : list Z :=
  default (replicate (Z.to_nat BSIZE) 0) (d !! bn).

(** ** Definitions *)

(** One block transfer between buffer [b] and the disk. *)
Definition disk_rw (b : nat) (write : bool) : K unit :=
  bf ← get_buf b;
  if write then
    modify (fun s => set_k_disk (<[b_blockno bf := b_data bf]> (k_disk s)) s) ;;
    modify (fun s => set_k_writes (k_writes s ++ [(b_blockno bf, b_data bf)]) s)
  else
    d ← gets (fun s => disk_get (k_disk s) (b_blockno bf));
    mod_buf b (set_b_data d).

Definition binit : K unit :=
  mod_buf HEAD (set_b_prev HEAD) ;;
  mod_buf HEAD (set_b_next HEAD) ;;
  for_each (seq 0 NBUF) (fun b =>
    h ← get_buf HEAD;
    mod_buf b (set_b_next (b_next h)) ;;
    mod_buf b (set_b_prev HEAD) ;;
    initsleeplock (SL_buf b) ;;
    h ← get_buf HEAD;
    mod_buf (b_next h) (set_b_prev b) ;;
    mod_buf HEAD (set_b_next b)).

(** "Is the block already cached?", one buffer. *)
Definition bget_cached (dev blockno : Z) (b : nat) : K (nat + option nat) :=
  if (b =? HEAD)%nat then mret (inr None) else
  bf ← get_buf b;
  if (b_dev bf =? dev) && (b_blockno bf =? blockno) then
    mod_buf b (fun bf => set_b_refcnt (u32 (b_refcnt bf + 1)) bf) ;;
    release L_bcache ;;
    acquiresleep (SL_buf b) ;;
    mret (inr (Some b))
  else mret (inl (b_next bf)).

(** "Recycle the least recently used unused buffer", one buffer. *)
Definition bget_recycle (dev blockno : Z) (b : nat) : K (nat + option nat) :=
  if (b =? HEAD)%nat then mret (inr None) else
  bf ← get_buf b;
  if b_refcnt bf =? 0 then
    mod_buf b (set_b_dev dev) ;;
    mod_buf b (set_b_blockno blockno) ;;
    mod_buf b (set_b_valid false) ;;
    mod_buf b (set_b_refcnt 1) ;;
    release L_bcache ;;
    acquiresleep (SL_buf b) ;;
    mret (inr (Some b))
  else mret (inl (b_prev bf)).

Definition bget (dev blockno : Z) : K nat :=
  acquire L_bcache ;;
  h ← get_buf HEAD;
  r ← loop (S NBUF) (bget_cached dev blockno) (b_next h);
  match r with
  | Some b => mret b
  | None =>
      h ← get_buf HEAD;
      r ← loop (S NBUF) (bget_recycle dev blockno) (b_prev h);
      match r with
      | Some b => mret b
      | None => panic "bget: no buffers"
      end
  end.

Definition bread (dev blockno : Z) : K nat :=
  b ← bget dev blockno;
  bf ← get_buf b;
  (if negb (b_valid bf) then
     disk_rw b false ;;
     mod_buf b (set_b_valid true)
   else skip) ;;
  mret b.

Definition bwrite (b : nat) : K unit :=
  h ← holdingsleep (SL_buf b);
  if negb h then panic "bwrite" else disk_rw b true.

Definition brelse (b : nat) : K unit :=
  h ← holdingsleep (SL_buf b);
  if negb h then panic "brelse" else
  releasesleep (SL_buf b) ;;
  acquire L_bcache ;;
  mod_buf b (fun bf => set_b_refcnt (u32 (b_refcnt bf - 1)) bf) ;;
  bf ← get_buf b;
  (if b_refcnt bf =? 0 then
     mod_buf (b_next bf) (set_b_prev (b_prev bf)) ;;
     bf ← get_buf b;
     mod_buf (b_prev bf) (set_b_next (b_next bf)) ;;
     h ← get_buf HEAD;
     mod_buf b (set_b_next (b_next h)) ;;
     mod_buf b (set_b_prev HEAD) ;;
     h ← get_buf HEAD;
     mod_buf (b_next h) (set_b_prev b) ;;
     mod_buf HEAD (set_b_next b)
   else skip) ;;
  release L_bcache.

Definition bpin (b : nat) : K unit :=
  acquire L_bcache ;;
  mod_buf b (fun bf => set_b_refcnt (u32 (b_refcnt bf + 1)) bf) ;;
  release L_bcache.

Definition bunpin (b : nat) : K unit :=
  acquire L_bcache ;;
  mod_buf b (fun bf => set_b_refcnt (u32 (b_refcnt bf - 1)) bf) ;;
  release L_bcache.

(** ** The ring *)

Definition nx (l : list buf) (b : nat) : nat := default 0%nat (b_next <$> l !! b).
Definition pv (l : list buf) (b : nat) : nat := default 0%nat (b_prev <$> l !! b).

(** From [x] through [o] to [y], linked both ways. *)
Fixpoint dll (l : list buf) (x : nat) (o : list nat) (y : nat) : Prop :=
  match o with
  | [] => nx l x = y /\ pv l y = x
  | z :: o => nx l x = z /\ pv l z = x /\ dll l z o y
  end.

Lemma dll_ext l l' x o y :
  (forall b, b ∈ x :: o -> nx l' b = nx l b) -> (forall b, b ∈ o ++ [y] -> pv l' b = pv l b) ->
  dll l x o y -> dll l' x o y.
Proof.
  revert x. induction o as [|z o IH]; intros x Hn Hp; cbn [dll app] in *.
  - rewrite Hn, Hp by set_solver. done.
  - intros (H1 & H2 & H3). rewrite Hn, Hp by set_solver. split_and!; [done|done|].
    apply IH; [| |done]; set_solver.
Qed.

Lemma dll_app l x o1 z o2 y : dll l x (o1 ++ z :: o2) y <-> dll l x o1 z /\ dll l z o2 y.
Proof.
  revert x. induction o1 as [|w o1 IH]; intros x; cbn [app dll]; [naive_solver|].
  rewrite IH. naive_solver.
Qed.

Lemma dll_next l x o y : dll l x o y -> nx l x = hd y o.
Proof. destruct o; naive_solver. Qed.

Lemma dll_prev l x o y : dll l x o y -> pv l y = default x (last o).
Proof.
  revert x. induction o as [|z o IH]; intros x; cbn [dll]; [naive_solver|].
  intros (_ & _ & H). rewrite (IH z H). destruct o as [|w o]; [done|].
  change (last (z :: w :: o)) with (last (w :: o)).
  by destruct (last (w :: o)) eqn:E; [|apply last_None in E].
Qed.

Lemma nx_alter f l i b :
  (forall x, b_next (f x) = b_next x) -> nx (alter f i l) b = nx l b.
Proof.
  intros Hf. unfold nx. destruct (decide (i = b)) as [->|Hne].
  - rewrite list_lookup_alter_eq. destruct (l !! b); cbn; [|done]. apply Hf.
  - by rewrite list_lookup_alter_ne.
Qed.

Lemma pv_alter f l i b :
  (forall x, b_prev (f x) = b_prev x) -> pv (alter f i l) b = pv l b.
Proof.
  intros Hf. unfold pv. destruct (decide (i = b)) as [->|Hne].
  - rewrite list_lookup_alter_eq. destruct (l !! b); cbn; [|done]. apply Hf.
  - by rewrite list_lookup_alter_ne.
Qed.

Lemma nx_set_next l i v b :
  (i < length l)%nat -> nx (alter (set_b_next v) i l) b = if decide (b = i) then v else nx l b.
Proof.
  intros Hi. unfold nx. case_decide as E.
  - subst. rewrite list_lookup_alter_eq. destruct (lookup_lt_is_Some_2 l i Hi) as [x ->]. done.
  - by rewrite list_lookup_alter_ne.
Qed.

Lemma pv_set_prev l i v b :
  (i < length l)%nat -> pv (alter (set_b_prev v) i l) b = if decide (b = i) then v else pv l b.
Proof.
  intros Hi. unfold pv. case_decide as E.
  - subst. rewrite list_lookup_alter_eq. destruct (lookup_lt_is_Some_2 l i Hi) as [x ->]. done.
  - by rewrite list_lookup_alter_ne.
Qed.

(** The pointer surgery of [brelse]. *)
Definition unlink (l : list buf) (b : nat) : list buf :=
  alter (set_b_next (nx l b)) (pv l b) (alter (set_b_prev (pv l b)) (nx l b) l).
Definition push_front (l : list buf) (b : nat) : list buf :=
  alter (set_b_next b) HEAD
    (alter (set_b_prev b) (nx l HEAD)
       (alter (set_b_prev HEAD) b (alter (set_b_next (nx l HEAD)) b l))).

Lemma unlink_ptrs l b x :
  (nx l b < length l)%nat -> (pv l b < length l)%nat ->
  nx (unlink l b) x = (if decide (x = pv l b) then nx l b else nx l x) /\
  pv (unlink l b) x = (if decide (x = nx l b) then pv l b else pv l x).
Proof.
  intros Hn Hp. unfold unlink. split.
  - by rewrite nx_set_next, nx_alter by (rewrite ?length_alter; done).
  - by rewrite pv_alter, pv_set_prev by done.
Qed.

Lemma push_ptrs l b x :
  (b < length l)%nat -> (HEAD < length l)%nat -> (nx l HEAD < length l)%nat ->
  nx (push_front l b) x =
    (if decide (x = HEAD) then b else if decide (x = b) then nx l HEAD else nx l x) /\
  pv (push_front l b) x =
    (if decide (x = nx l HEAD) then b else if decide (x = b) then HEAD else pv l x).
Proof.
  intros Hb Hh Hn. unfold push_front. split.
  - rewrite nx_set_next by (by rewrite !length_alter). case_decide; [done|].
    rewrite !nx_alter by done. by rewrite nx_set_next.
  - rewrite pv_alter by done. rewrite pv_set_prev by (by rewrite !length_alter). case_decide; [done|].
    rewrite pv_set_prev by (by rewrite length_alter). case_decide; [done|]. by rewrite pv_alter.
Qed.

Lemma dll_mem_lt l x o y b n :
  Forall (fun b => (b < n)%nat) (x :: o ++ [y]) -> dll l x o y -> b ∈ x :: o -> (nx l b < n)%nat.
Proof.
  revert x. induction o as [|z o IH]; intros x Hf Hd Hb; cbn [dll app] in *.
  - apply list_elem_of_singleton in Hb. destruct Hd as [H1 _]. subst.
    by apply Forall_cons in Hf as [_ [H _]%Forall_cons].
  - apply Forall_cons in Hf as [Hx Hf]. destruct Hd as (H1 & H2 & H3).
    apply elem_of_cons in Hb as [->|Hb]; [|by apply (IH z)].
    rewrite H1. by apply Forall_cons in Hf as [? _].
Qed.

(** The first link of a path moved to another start. *)
Lemma dll_restart l l' x x' o y :
  dll l x o y -> NoDup (o ++ [y]) -> x' ∉ o ->
  nx l' x' = nx l x -> pv l' (nx l x) = x' ->
  (forall b, b ∈ o -> nx l' b = nx l b) ->
  (forall b, b ∈ o ++ [y] -> b <> nx l x -> pv l' b = pv l b) ->
  dll l' x' o y.
Proof.
  intros Hd Hnd Hx' Hn Hp Hnx Hpv. destruct o as [|z o]; cbn [dll app] in *.
  - destruct Hd as [H1 H2]. rewrite H1 in *. done.
  - destruct Hd as (H1 & H2 & H3). rewrite H1 in *. split_and!; [done|done|].
    apply NoDup_cons in Hnd as [Hz Hnd]. eapply dll_ext; [| |done].
    + intros b Hb. by apply Hnx.
    + intros b Hb. apply Hpv; [by right|]. congruence.
Qed.

Lemma unlink_dll l o1 b o2 :
  dll l HEAD (o1 ++ b :: o2) HEAD -> NoDup (HEAD :: o1 ++ b :: o2) ->
  (HEAD < length l)%nat -> Forall (fun b => (b < length l)%nat) (o1 ++ b :: o2) ->
  dll (unlink l b) HEAD (o1 ++ o2) HEAD.
Proof.
  intros Hd Hnd HH Hlt. apply dll_app in Hd as [Hd1 Hd2].
  pose proof (dll_prev _ _ _ _ Hd1) as Hp. pose proof (dll_next _ _ _ _ Hd2) as Hn.
  rewrite NoDup_cons, NoDup_app, NoDup_cons in Hnd. destruct Hnd as (HHn & Hnd1 & Hnd2 & Hnd3 & Hnd4).
  rewrite Forall_app, Forall_cons in Hlt. destruct Hlt as (Hl1 & Hlb & Hl2).
  assert (Hp_lt : (pv l b < length l)%nat).
  { rewrite Hp. destruct (last o1) as [p|] eqn:E; [|done]. cbn.
    rewrite Forall_forall in Hl1. apply Hl1. by apply last_Some_elem_of. }
  assert (Hn_lt : (nx l b < length l)%nat).
  { rewrite Hn. destruct o2; [done|]. by apply Forall_cons in Hl2 as [? _]. }
  pose proof (fun x => unlink_ptrs l b x Hn_lt Hp_lt) as HU.
  assert (Hnin : nx l b ∈ o2 ++ [HEAD]) by (rewrite Hn; destruct o2; set_solver).
  assert (Htail : dll (unlink l b) (pv l b) o2 HEAD).
  { eapply dll_restart; [exact Hd2| | | | | |].
    - apply NoDup_app. split_and!; [done|set_solver|apply NoDup_singleton].
    - rewrite Hp. destruct (last o1) as [p|] eqn:E; cbn; [apply last_Some_elem_of in E|]; set_solver.
    - destruct (HU (pv l b)) as [-> _]. by rewrite decide_True.
    - destruct (HU (nx l b)) as [_ ->]. by rewrite decide_True.
    - intros x Hx. destruct (HU x) as [-> _]. rewrite decide_False; [done|].
      intros ->. rewrite Hp in Hx. destruct (last o1) as [p|] eqn:E; cbn in Hx; [apply last_Some_elem_of in E|]; set_solver.
    - intros x Hx Hne. destruct (HU x) as [_ ->]. by rewrite decide_False. }
  destruct o1 as [|p o1 _] using rev_ind; [by rewrite Hp in Htail|].
  rewrite last_snoc in Hp. cbn in Hp. rewrite <- app_assoc. cbn [app]. apply dll_app in Hd1 as [Hd0 _].
  apply dll_app. rewrite Hp in *. split; [|done]. eapply dll_ext; [| |exact Hd0].
  - intros x Hx. destruct (HU x) as [-> _]. rewrite decide_False; [done|].
    intros ->. apply NoDup_app in Hnd1 as (_ & Hd & _). set_solver.
  - intros x Hx. destruct (HU x) as [_ ->]. rewrite decide_False; [done|]. intros ->.
    apply elem_of_app in Hnin as [H|H%list_elem_of_singleton]; [apply (Hnd2 _ Hx); by right|].
    apply HHn, elem_of_app. left. by rewrite <- H.
Qed.

Lemma push_dll l o b :
  dll l HEAD o HEAD -> NoDup (HEAD :: b :: o) -> (HEAD < length l)%nat -> (b < length l)%nat ->
  Forall (fun b => (b < length l)%nat) o ->
  dll (push_front l b) HEAD (b :: o) HEAD.
Proof.
  intros Hd Hnd HH Hb Hlt. rewrite !NoDup_cons, not_elem_of_cons in Hnd.
  destruct Hnd as ([HHb HHo] & Hbo & Hnd). pose proof (dll_next _ _ _ _ Hd) as Hn.
  assert (Hn_lt : (nx l HEAD < length l)%nat).
  { rewrite Hn. destruct o; [done|]. by apply Forall_cons in Hlt as [? _]. }
  assert (Hnin : nx l HEAD ∈ o ++ [HEAD]) by (rewrite Hn; destruct o; set_solver).
  pose proof (fun x => push_ptrs l b x Hb HH Hn_lt) as HU. cbn [dll]. split_and!.
  - destruct (HU HEAD) as [-> _]. by rewrite decide_True.
  - destruct (HU b) as [_ ->]. rewrite decide_False by set_solver. by rewrite decide_True.
  - eapply dll_restart; [exact Hd| |done| | | |].
    + apply NoDup_app. split_and!; [done|set_solver|apply NoDup_singleton].
    + destruct (HU b) as [-> _]. rewrite decide_False by done. by rewrite decide_True.
    + destruct (HU (nx l HEAD)) as [_ ->]. by rewrite decide_True.
    + intros x Hx. destruct (HU x) as [-> _]. rewrite !decide_False by set_solver. done.
    + intros x Hx Hne. destruct (HU x) as [_ ->]. rewrite !decide_False by set_solver. done.
Qed.
