(* ===== verification/Bcache.v ===== *)
(** * What the buffer cache does

    [bread], [bwrite], [brelse], [bpin] and [bunpin] on a well-formed cache,
    called by a process that holds no spinlock. *)

From stdpp Require Import base list gmap strings.
From Stdlib Require Import ZArith Lia.
From S2P Require Import Prelude Mem Riscv State Sched Bio.
Open Scope Z_scope.

(** ** The running process *)

Record env_ok (s : kstate) (p : nat) (pr : proc) : Prop := {
  env_cur : k_cur s = Some p;
  env_proc : k_procs s !! p = Some pr;
  env_len : length (k_procs s) = NPROC;
  env_held : k_held s = [];
  env_fuel : (0 < k_fuel s)%nat
}.

(** ** The cache *)

Record buf_ok (b : buf) : Prop := {
  bf_dev : (b_dev b = 0 /\ b_valid b = false) \/ b_dev b = ROOTDEV;
  bf_ref : 0 <= b_refcnt b < 2 ^ 31;
  bf_lock : sl_locked (b_lock b) = true -> 0 < b_refcnt b;
  bf_size : length (b_data b) = Z.to_nat BSIZE;
  bf_bytes : bytes (b_data b)
}.

Record bio_ok (s : kstate) (o : list nat) : Prop := {
  bo_len : length (k_bufs s) = S NBUF;
  bo_perm : o ≡ₚ seq 0 NBUF;
  bo_ring : dll (k_bufs s) HEAD o HEAD;
  bo_buf : forall i b, (i < NBUF)%nat -> k_bufs s !! i = Some b -> buf_ok b;
  bo_uniq : forall i j bi bj, (i < NBUF)%nat -> (j < NBUF)%nat ->
    k_bufs s !! i = Some bi -> k_bufs s !! j = Some bj ->
    b_dev bi = ROOTDEV -> b_dev bj = ROOTDEV -> b_blockno bi = b_blockno bj -> i = j;
  bo_clean : forall i b, (i < NBUF)%nat -> k_bufs s !! i = Some b ->
    b_valid b = true -> b_refcnt b = 0 -> b_data b = disk_get (k_disk s) (b_blockno b);
  bo_disk : forall bn d, k_disk s !! bn = Some d -> length d = Z.to_nat BSIZE /\ bytes d
}.

(** The buffer that caches block [bn]. *)
Definition holds (bn : Z) (b : buf) : bool := (b_dev b =? ROOTDEV) && (b_blockno b =? bn).
Definition cached (bufs : list buf) (bn : Z) : option buf :=
  snd <$> list_find (fun b => holds bn b) (take NBUF bufs).

(** The contents of a block as the kernel sees it. *)
Definition blk (s : kstate) (bn : Z) : list Z :=
  match cached (k_bufs s) bn with
  | Some b => if b_valid b then b_data b else disk_get (k_disk s) bn
  | None => disk_get (k_disk s) bn
  end.

Lemma holds_spec bn b : holds bn b = true <-> b_dev b = ROOTDEV /\ b_blockno b = bn.
Proof. unfold holds. rewrite andb_true_iff, !Z.eqb_eq. done. Qed.

Lemma cached_Some s o bn i b :
  bio_ok s o -> (i < NBUF)%nat -> k_bufs s !! i = Some b -> b_dev b = ROOTDEV -> b_blockno b = bn ->
  cached (k_bufs s) bn = Some b.
Proof.
  intros Hok Hi Hb Hd Hbn. unfold cached.
  assert (Hfind : list_find (fun b => holds bn b) (take NBUF (k_bufs s)) = Some (i, b)).
  { apply list_find_Some. rewrite lookup_take_lt by done. split_and!; [done| |].
    - apply Is_true_eq_left, holds_spec. done.
    - intros j y Hj Hji Hh. apply lookup_take_Some in Hj as [Hj HjN].
      apply Is_true_eq_true, holds_spec in Hh as [Hd' Hbn'].
      assert (j = i); [|lia]. by eapply (bo_uniq _ _ Hok); eauto; congruence. }
  by rewrite Hfind.
Qed.

Lemma cached_None bufs bn :
  cached bufs bn = None <->
  forall i b, (i < NBUF)%nat -> bufs !! i = Some b -> ~ (b_dev b = ROOTDEV /\ b_blockno b = bn).
Proof.
  unfold cached. rewrite fmap_None, list_find_None, Forall_forall. split.
  - intros H i b Hi Hb Hh. apply (H b).
    + apply list_elem_of_lookup. exists i. by rewrite lookup_take_lt.
    + by apply Is_true_eq_left, holds_spec.
  - intros H b Hb Hh. apply list_elem_of_lookup in Hb as [i Hi].
    apply lookup_take_Some in Hi as [Hi HN]. apply (H i b); [done|done|].
    by apply Is_true_eq_true, holds_spec in Hh.
Qed.

Lemma cached_inv s o bn b :
  bio_ok s o -> cached (k_bufs s) bn = Some b ->
  exists i, (i < NBUF)%nat /\ k_bufs s !! i = Some b /\ b_dev b = ROOTDEV /\ b_blockno b = bn.
Proof.
  intros Hok H. unfold cached in H. apply fmap_Some in H as ([i b'] & H & ->).
  apply list_find_Some in H as (Hi & Hh & _). apply lookup_take_Some in Hi as [Hi HN].
  exists i. apply Is_true_eq_true, holds_spec in Hh. naive_solver.
Qed.

Lemma disk_get_size s o bn : bio_ok s o -> length (disk_get (k_disk s) bn) = Z.to_nat BSIZE /\ bytes (disk_get (k_disk s) bn).
Proof.
  intros Hok. unfold disk_get. destruct (k_disk s !! bn) as [d|] eqn:E; cbn [default from_option id].
  - by eapply bo_disk.
  - split; [apply length_replicate|]. apply Forall_replicate. lia.
Qed.

(** ** Scanning the ring *)

Lemma scan_next s dev bn o1 b o2 x fuel :
  dll (k_bufs s) x (o1 ++ b :: o2) HEAD -> (forall c, c ∈ o1 -> (c < NBUF)%nat) ->
  length (k_bufs s) = S NBUF ->
  (forall c bf, c ∈ o1 -> k_bufs s !! c = Some bf -> ~ (b_dev bf = dev /\ b_blockno bf = bn)) ->
  loop (length o1 + fuel) (bget_cached dev bn) (hd HEAD (o1 ++ b :: o2)) s =
  loop fuel (bget_cached dev bn) b s.
Proof.
  intros Hd Hlt Hlen. revert x Hd. induction o1 as [|c o1 IH]; intros x Hd Hno; [done|].
  cbn [app hd length Nat.add]. destruct Hd as (_ & _ & Hd).
  assert (Hc : (c < NBUF)%nat) by (apply Hlt; by left).
  destruct (lookup_lt_is_Some_2 (k_bufs s) c ltac:(lia)) as [bf Hbf].
  assert (Hs : bget_cached dev bn c s = Ret (inl (hd HEAD (o1 ++ b :: o2))) s).
  { unfold bget_cached. destruct (Nat.eqb_spec c HEAD) as [->|]; [unfold HEAD in *; lia|].
    kstep. destruct (Z.eqb_spec (b_dev bf) dev), (Z.eqb_spec (b_blockno bf) bn); cbn [andb].
    1: { exfalso. by eapply (Hno c bf); [left|..]. }
    all: unfold mret, m_ret; do 2 f_equal; rewrite <- (dll_next _ _ _ _ Hd); unfold nx; by rewrite Hbf. }
  rewrite (loop_continue _ _ _ _ _ _ Hs).
  apply (IH ltac:(intros; apply Hlt; by right) c Hd). intros c' bf' Hc'. apply Hno. by right.
Qed.


Lemma scan_prev s dev bn o1 b o2 y fuel :
  dll (k_bufs s) HEAD (o2 ++ b :: o1) y -> (forall c, c ∈ o1 -> (c < NBUF)%nat) ->
  length (k_bufs s) = S NBUF ->
  (forall c bf, c ∈ o1 -> k_bufs s !! c = Some bf -> b_refcnt bf <> 0) ->
  loop (length o1 + fuel) (bget_recycle dev bn) (default HEAD (last (o2 ++ b :: o1))) s =
  loop fuel (bget_recycle dev bn) b s.
Proof.
  intros Hd Hlt Hlen. revert y Hd. induction o1 as [|c o1 IH] using rev_ind; intros y Hd Hno.
  { by rewrite last_snoc. }
  rewrite app_comm_cons, app_assoc, last_snoc, length_app. cbn [length default from_option id].
  rewrite app_comm_cons, app_assoc in Hd. apply dll_app in Hd as [Hd _].
  assert (Hc : (c < NBUF)%nat) by (apply Hlt, elem_of_app; right; by left).
  destruct (lookup_lt_is_Some_2 (k_bufs s) c ltac:(lia)) as [bf Hbf].
  assert (Hs : bget_recycle dev bn c s = Ret (inl (default HEAD (last (o2 ++ b :: o1)))) s).
  { unfold bget_recycle. destruct (Nat.eqb_spec c HEAD) as [->|]; [unfold HEAD in *; lia|].
    kstep. destruct (Z.eqb_spec (b_refcnt bf) 0).
    1: { exfalso. eapply (Hno c bf); [|done|done]. apply elem_of_app. right. by left. }
    unfold mret, m_ret. do 2 f_equal. rewrite <- (dll_prev _ _ _ _ Hd). unfold pv. by rewrite Hbf. }
  replace (length o1 + 1 + fuel)%nat with (S (length o1 + fuel)) by lia.
  rewrite (loop_continue _ _ _ _ _ _ Hs). apply (IH ltac:(intros; apply Hlt, elem_of_app; by left) c Hd).
  intros c' bf' Hc'. apply Hno, elem_of_app. by left.
Qed.

(** ** bget *)

Definition grab (pid : Z) (b : buf) : buf :=
  set_b_lock (mk_sleeplock true pid) (set_b_refcnt (u32 (b_refcnt b + 1)) b).
Definition recycle (dev bn pid : Z) (b : buf) : buf :=
  set_b_lock (mk_sleeplock true pid)
    (set_b_refcnt 1 (set_b_valid false (set_b_blockno bn (set_b_dev dev b)))).

Lemma held_elem s p pr l : env_ok s p pr -> l ∉ k_held s.
Proof. intros H. rewrite (env_held _ _ _ H). apply not_elem_of_nil. Qed.

Lemma order_lt s o c : bio_ok s o -> c ∈ o <-> (c < NBUF)%nat.
Proof. intros H. rewrite (bo_perm _ _ H), elem_of_seq. lia. Qed.

Lemma set_bufs_bufs a b s : set_k_bufs a (set_k_bufs b s) = set_k_bufs a s.
Proof. done. Qed.

(** Take the sleep lock of a buffer nobody holds, dropping [bcache.lock]. *)
Lemma grab_lock s p pr b bf f :
  env_ok s p pr -> k_bufs s !! b = Some bf -> sl_locked (b_lock (f bf)) = false ->
  ((release L_bcache ;; acquiresleep (SL_buf b) ;; mret (inr (Some b))) : K (nat + option nat))
    (set_k_bufs (alter f b (k_bufs s)) (set_k_held [L_bcache] s)) =
  Ret (inr (Some b))
    (set_k_bufs (alter (fun x => set_b_lock (mk_sleeplock true (p_pid pr)) (f x)) b (k_bufs s)) s).
Proof.
  intros Henv Hb Hl. kstep_by release_top; [|done|apply not_elem_of_nil].
  kstep_by (acquiresleep_ok (SL_buf b) (b_lock (f bf)) p pr); [| |done|..].
  - unfold mret, m_ret. f_equal. cbn [upd_sl k_bufs set_k_held set_k_bufs]. rewrite alter_alter.
    destruct Henv as [_ _ _ Hh _]. destruct s. cbn in *. subst. done.
  - cbn. rewrite list_lookup_alter_eq, Hb. done.
  - cbn. apply not_elem_of_nil.
  - apply Henv.
  - apply Henv.
  - apply Henv.
Qed.

(** The ring seen from its head. *)
Lemma ring_facts s o :
  bio_ok s o -> exists h, k_bufs s !! HEAD = Some h /\ b_next h = hd HEAD o /\
    b_prev h = default HEAD (last o) /\ NoDup o /\ length o = NBUF.
Proof.
  intros Hok. destruct (lookup_lt_is_Some_2 (k_bufs s) HEAD) as [h Hh].
  { rewrite (bo_len _ _ Hok). unfold HEAD. lia. }
  exists h. pose proof (bo_ring _ _ Hok) as Hr. split_and!; [done| | | |].
  - rewrite <- (dll_next _ _ _ _ Hr). unfold nx. by rewrite Hh.
  - rewrite <- (dll_prev _ _ _ _ Hr). unfold pv. by rewrite Hh.
  - rewrite (bo_perm _ _ Hok). apply NoDup_seq.
  - rewrite (bo_perm _ _ Hok). apply length_seq.
Qed.

Lemma bget_hit s o p pr b bf bn :
  env_ok s p pr -> bio_ok s o -> (b < NBUF)%nat -> k_bufs s !! b = Some bf ->
  b_dev bf = ROOTDEV -> b_blockno bf = bn -> sl_locked (b_lock bf) = false ->
  bget ROOTDEV bn s = Ret b (set_k_bufs (alter (grab (p_pid pr)) b (k_bufs s)) s).
Proof.
  intros Henv Hok HbN Hb Hbd Hbn Hl. unfold bget.
  kstep_by acquire_ok; [|by eapply held_elem]. rewrite (env_held _ _ _ Henv).
  destruct (ring_facts s o Hok) as (h & Hh & Hnx & _ & Hnd & Hlen).
  kstep. assert (Hin : b ∈ o) by (by apply (order_lt s)).
  apply list_elem_of_split in Hin as (o1 & o2 & Ho).
  set (s1 := set_k_held [L_bcache] s).
  assert (Hloop : loop (S NBUF) (bget_cached ROOTDEV bn) (b_next h) s1 =
    Ret (Some b) (set_k_bufs (alter (grab (p_pid pr)) b (k_bufs s)) s)).
  { rewrite Hnx, Ho. assert (Hl1 : (length o1 < NBUF)%nat) by (rewrite Ho, length_app in Hlen; cbn in Hlen; lia).
    replace (S NBUF) with (length o1 + S (NBUF - length o1))%nat by lia.
    rewrite (scan_next s1 ROOTDEV bn o1 b o2 HEAD).
    - apply loop_break. unfold bget_cached. destruct (Nat.eqb_spec b HEAD); [unfold HEAD in *; lia|].
      kstep. rewrite Hbd, Hbn, !Z.eqb_refl. cbn [andb]. unfold mod_buf. kstep.
      exact (grab_lock s p pr b bf (fun bf => set_b_refcnt (u32 (b_refcnt bf + 1)) bf) Henv Hb Hl).
    - rewrite <- Ho. apply Hok.
    - intros c Hc. apply (order_lt s o); [done|]. rewrite Ho. set_solver.
    - apply Hok.
    - intros c bf' Hc Hbf' [Hd Hn]. assert (c = b) as ->.
      { eapply (bo_uniq _ _ Hok c b bf' bf); try done; [|congruence].
        apply (order_lt s o); [done|]. rewrite Ho. set_solver. }
      rewrite Ho in Hnd. apply NoDup_app in Hnd as (_ & Hd' & _). by apply (Hd' b Hc); left. }
  rewrite (bind_Ret _ _ _ _ _ Hloop). done.
Qed.

Lemma scan_none s o bn :
  bio_ok s o -> cached (k_bufs s) bn = None ->
  loop (S NBUF) (bget_cached ROOTDEV bn) (hd HEAD o) s = Ret None s.
Proof.
  intros Hok Hc. destruct (ring_facts s o Hok) as (h & Hh & _ & _ & Hnd & Hlen).
  rewrite cached_None in Hc.
  assert (Hgen : forall o' x fuel, dll (k_bufs s) x o' HEAD -> (forall c, c ∈ o' -> (c < NBUF)%nat) ->
    (length o' < fuel)%nat -> loop fuel (bget_cached ROOTDEV bn) (hd HEAD o') s = Ret None s).
  { intros o'. induction o' as [|c o' IH]; intros x [|fuel] Hd Hlt Hf; cbn [length] in Hf; try lia.
    - apply loop_break. unfold bget_cached. cbn [hd]. by rewrite Nat.eqb_refl.
    - cbn [dll hd] in *. destruct Hd as (_ & _ & Hd). assert (Hcn : (c < NBUF)%nat) by (apply Hlt; by left).
      destruct (lookup_lt_is_Some_2 (k_bufs s) c) as [bf Hbf]; [rewrite (bo_len _ _ Hok); lia|].
      rewrite (loop_continue _ _ _ _ (hd HEAD o') s).
      + apply (IH c); [done| |lia]. intros; apply Hlt; by right.
      + unfold bget_cached. destruct (Nat.eqb_spec c HEAD) as [->|]; [unfold HEAD in *; lia|].
        kstep. specialize (Hc c bf Hcn Hbf).
        destruct (Z.eqb_spec (b_dev bf) ROOTDEV), (Z.eqb_spec (b_blockno bf) bn); cbn [andb]; [tauto|..];
          unfold mret, m_ret; do 2 f_equal; rewrite <- (dll_next _ _ _ _ Hd); unfold nx; by rewrite Hbf. }
  apply (Hgen o HEAD); [apply Hok| |lia]. intros c. by apply (order_lt s).
Qed.

(** The least recently used buffer nobody references. *)
Definition lru_victim (bufs : list buf) (o : list nat) (b : nat) : Prop :=
  exists o2 o1 bf, o = o2 ++ b :: o1 /\ bufs !! b = Some bf /\ b_refcnt bf = 0 /\
    forall c bf', c ∈ o1 -> bufs !! c = Some bf' -> b_refcnt bf' <> 0.

Lemma bget_miss s o p pr b bn :
  env_ok s p pr -> bio_ok s o -> cached (k_bufs s) bn = None -> lru_victim (k_bufs s) o b ->
  bget ROOTDEV bn s = Ret b (set_k_bufs (alter (recycle ROOTDEV bn (p_pid pr)) b (k_bufs s)) s).
Proof.
  intros Henv Hok Hnone (o2 & o1 & bf & Ho & Hb & Href & Hno). unfold bget.
  kstep_by acquire_ok; [|by eapply held_elem]. rewrite (env_held _ _ _ Henv).
  destruct (ring_facts s o Hok) as (h & Hh & Hnx & Hpv & Hnd & Hlen).
  set (s1 := set_k_held [L_bcache] s).
  assert (Hok1 : bio_ok s1 o) by (destruct Hok; by split).
  assert (Hbo : b ∈ o) by (rewrite Ho; set_solver). assert (HbN : (b < NBUF)%nat) by (by apply (order_lt s o)).
  kstep. rewrite Hnx. kstep_by scan_none; [|done|done]. kstep. rewrite Hpv.
  assert (Hloop : loop (S NBUF) (bget_recycle ROOTDEV bn) (default HEAD (last o)) s1 =
    Ret (Some b) (set_k_bufs (alter (recycle ROOTDEV bn (p_pid pr)) b (k_bufs s)) s)).
  { rewrite Ho. assert (Hl1 : (length o1 < NBUF)%nat) by (rewrite Ho, length_app in Hlen; cbn in Hlen; lia).
    replace (S NBUF) with (length o1 + S (NBUF - length o1))%nat by lia.
    rewrite (scan_prev s1 ROOTDEV bn o1 b o2 HEAD).
    - apply loop_break. unfold bget_recycle. destruct (Nat.eqb_spec b HEAD); [unfold HEAD in *; lia|].
      kstep. rewrite Href. cbn [Z.eqb]. unfold mod_buf. kstep. kstep. kstep. kstep.
      cbn [k_bufs set_k_bufs set_k_held s1]. rewrite !set_bufs_bufs, !alter_alter.
      pose proof (grab_lock s p pr b bf (set_b_refcnt 1 ∘ (set_b_valid false ∘ (set_b_blockno bn ∘ set_b_dev ROOTDEV)))
        Henv Hb) as Hg. apply Hg. cbn. destruct (sl_locked (b_lock bf)) eqn:El; [|done].
      pose proof (bf_lock _ (bo_buf _ _ Hok b bf HbN Hb) El). lia.
    - rewrite <- Ho. apply Hok.
    - intros c Hc. apply (order_lt s o); [done|]. rewrite Ho. set_solver.
    - apply Hok.
    - intros c bf' Hc. by apply Hno. }
  rewrite (bind_Ret _ _ _ _ _ Hloop). done.
Qed.

(** ** The cache as its clients see it *)

(** References to block [bn] and the process that has it locked. *)
Definition ref (s : kstate) (bn : Z) : Z := default 0 (b_refcnt <$> cached (k_bufs s) bn).
Definition lockedby (s : kstate) (bn : Z) : option Z :=
  match cached (k_bufs s) bn with
  | Some b => if sl_locked (b_lock b) then Some (sl_pid (b_lock b)) else None
  | None => None
  end.

(** Buffers nobody references. *)
Definition free_bufs (s : kstate) : nat :=
  length (filter (fun b => b_refcnt b = 0) (take NBUF (k_bufs s))).

(** Buffer [i] is block [bn], up to date and locked by [pid]. *)
Definition own (s : kstate) (pid : Z) (i : nat) (bn : Z) : Prop :=
  exists b, (i < NBUF)%nat /\ k_bufs s !! i = Some b /\ b_dev b = ROOTDEV /\ b_blockno b = bn /\
    b_valid b = true /\ b_lock b = mk_sleeplock true pid.

(** What one operation on buffer [i] leaves alone. *)
Record bio_frame (s s' : kstate) : Prop := {
  fr_only : s' = set_k_bufs (k_bufs s') (set_k_procs (k_procs s')
              (set_k_disk (k_disk s') (set_k_writes (k_writes s') s)));
  fr_len : length (k_procs s') = length (k_procs s);
  fr_me : forall p, k_cur s = Some p -> k_procs s' !! p = k_procs s !! p
}.

#[global] Instance bio_frame_preorder : PreOrder bio_frame.
Proof.
  split.
  - intros s. split; [by destruct s|done..].
  - intros s1 s2 s3 [A1 B1 C1] [A2 B2 C2]. split.
    + rewrite A2, A1. by destruct s1.
    + by rewrite B2.
    + intros p Hp. rewrite C2, C1; [done..|]. rewrite A1. done.
Qed.

Lemma bio_frame_bufs l s : bio_frame s (set_k_bufs l s).
Proof. by split; [destruct s|..]. Qed.

Lemma frame_env s s' p pr : bio_frame s s' -> env_ok s p pr -> env_ok s' p pr.
Proof.
  intros [Ho Hl Hm] [H1 H2 H3 H4 H5]. split.
  - rewrite Ho. done.
  - rewrite Hm by done. done.
  - by rewrite Hl.
  - rewrite Ho. done.
  - rewrite Ho. done.
Qed.

(** ** Changing one buffer *)

Lemma insert_take_lt {A} (l : list A) i n x : (i < n)%nat -> take n (<[i := x]> l) = <[i := x]> (take n l).
Proof. intros H. apply take_insert_lt. done. Qed.

Lemma dll_insert l x o y i b b' :
  l !! i = Some b -> b_next b' = b_next b -> b_prev b' = b_prev b ->
  dll l x o y -> dll (<[i := b']> l) x o y.
Proof.
  intros Hi Hn Hp. pose proof (lookup_lt_Some _ _ _ Hi) as Hlt. apply dll_ext; intros c _; unfold nx, pv;
    rewrite lookup_insert_case by done; case_decide; subst; rewrite ?Hi; cbn; congruence.
Qed.

Lemma bio_ok_insert s o i b b' :
  bio_ok s o -> (i < NBUF)%nat -> k_bufs s !! i = Some b ->
  b_next b' = b_next b -> b_prev b' = b_prev b -> buf_ok b' ->
  (b_dev b' = ROOTDEV -> (b_dev b = ROOTDEV /\ b_blockno b' = b_blockno b) \/
     cached (k_bufs s) (b_blockno b') = None) ->
  (b_valid b' = true -> b_refcnt b' = 0 -> b_data b' = disk_get (k_disk s) (b_blockno b')) ->
  bio_ok (set_k_bufs (<[i := b']> (k_bufs s)) s) o.
Proof.
  intros [Hlen Hperm Hring Hbuf Huniq Hclean Hdisk] Hi Hb Hn Hp Hok Hu Hc.
  pose proof (lookup_lt_Some _ _ _ Hb) as Hlt.
  split; cbn [k_bufs k_disk set_k_bufs]; [by rewrite length_insert|done|by eapply dll_insert|..|done].
  - intros j c Hj. rewrite lookup_insert_case by done. case_decide; [naive_solver|eauto].
  - intros j k bj bk Hj Hk. rewrite !lookup_insert_case by done.
    repeat case_decide; intros Hbj Hbk Hdj Hdk Hbn; subst; try done; simplify_eq.
    + destruct (Hu Hdj) as [[Hd Hbn']|Hno]; [eapply (Huniq i k b bk); eauto; congruence|].
      rewrite cached_None in Hno. exfalso. eapply (Hno k bk); eauto.
    + destruct (Hu Hdk) as [[Hd Hbn']|Hno]; [eapply (Huniq j i bj b); eauto; congruence|].
      rewrite cached_None in Hno. exfalso. eapply (Hno j bj); eauto.
    + eauto.
  - intros j c Hj. rewrite lookup_insert_case by done. case_decide; [naive_solver|eauto].
Qed.

Lemma cached_other s o s' o' i bn :
  bio_ok s o -> bio_ok s' o' ->
  (forall j, j <> i -> (j < NBUF)%nat -> k_bufs s' !! j = k_bufs s !! j) ->
  (forall b, k_bufs s !! i = Some b -> ~ (b_dev b = ROOTDEV /\ b_blockno b = bn)) ->
  (forall b, k_bufs s' !! i = Some b -> ~ (b_dev b = ROOTDEV /\ b_blockno b = bn)) ->
  cached (k_bufs s') bn = cached (k_bufs s) bn.
Proof.
  intros Hok Hok' Hj Hi Hi'. destruct (cached (k_bufs s) bn) as [c|] eqn:E.
  - destruct (cached_inv _ _ _ _ Hok E) as (j & HjN & Hb & Hd & Hbn).
    assert (j <> i) by (intros ->; by apply (Hi c)).
    eapply cached_Some; [done|done|by rewrite Hj|done|done].
  - rewrite cached_None in *. intros j b HjN Hb. destruct (decide (j = i)) as [->|Hne]; [by apply Hi'|].
    rewrite Hj in Hb by done. eauto.
Qed.

(** ** bread *)

(** The buffer [bread] returns, from the one [bget] found. *)
Definition filled (d : gmap Z (list Z)) (b : buf) : buf :=
  if b_valid b then b else set_b_valid true (set_b_data (disk_get d (b_blockno b)) b).

Lemma bread_of_bget s i b1 bn :
  bget ROOTDEV bn s = Ret i (set_k_bufs (<[i := b1]> (k_bufs s)) s) -> (i < length (k_bufs s))%nat ->
  bread ROOTDEV bn s = Ret i (set_k_bufs (<[i := filled (k_disk s) b1]> (k_bufs s)) s).
Proof.
  intros Hrun Hlt. unfold bread. rewrite (bind_Ret _ _ _ _ _ Hrun).
  kstep_by get_buf_ok; [|apply list_lookup_insert_eq; done]. unfold filled.
  destruct (b_valid b1) eqn:Ev; cbn [negb]; [by kstep|].
  unfold disk_rw, mod_buf. erewrite bind_Ret; [reflexivity|].
  erewrite bind_Ret; [|kstep_by get_buf_ok; [|apply list_lookup_insert_eq; done]; by kstep].
  unfold modify. cbn beta. f_equal. cbn [k_bufs set_k_bufs k_disk].
  rewrite !set_bufs_bufs. f_equal.
  rewrite alter_alter, (alter_lookup_set _ i _ b1) by (apply list_lookup_insert_eq; done).
  by rewrite list_insert_insert_eq.
Qed.

Lemma lru_exists s o : bio_ok s o -> (0 < free_bufs s)%nat -> exists b, lru_victim (k_bufs s) o b.
Proof.
  intros Hok Hf. unfold free_bufs in Hf.
  destruct (filter (fun b => b_refcnt b = 0) (take NBUF (k_bufs s))) as [|bf fl] eqn:E; [cbn in Hf; lia|].
  assert (Hin : bf ∈ bf :: fl) by left. rewrite <- E in Hin. apply list_elem_of_filter in Hin as [Hr Hin].
  apply list_elem_of_lookup in Hin as [i Hi]. apply lookup_take_Some in Hi as [Hi HN].
  assert (Hio : i ∈ o) by (by apply (order_lt s o)).
  assert (Hgen : forall o1 o2, o = o2 ++ o1 ->
    (forall c bf', c ∈ o1 -> k_bufs s !! c = Some bf' -> b_refcnt bf' <> 0) ->
    exists b, lru_victim (k_bufs s) o b).
  { intros o1 o2. revert o1. induction o2 as [|c o2 IH] using rev_ind; intros o1 Ho Hno.
    - cbn in Ho. subst. exfalso. by eapply Hno.
    - assert (Hc : (c < NBUF)%nat) by (apply (order_lt s o); [done|]; rewrite Ho; set_solver).
      destruct (lookup_lt_is_Some_2 (k_bufs s) c) as [b Hb]; [rewrite (bo_len _ _ Hok); lia|].
      destruct (decide (b_refcnt b = 0)) as [Hz|Hnz].
      + exists c, o2, o1, b. rewrite Ho, <- app_assoc. done.
      + apply (IH (c :: o1)); [by rewrite Ho, <- app_assoc|].
        intros c' bf' Hc' Hbf'. apply elem_of_cons in Hc' as [->|Hc']; [congruence|eauto]. }
  apply (Hgen [] o); [by rewrite app_nil_r|]. intros c bf' Hc. by apply not_elem_of_nil in Hc.
Qed.

Lemma cached_insert s o o' i b b' bn :
  bio_ok s o -> bio_ok (set_k_bufs (<[i := b']> (k_bufs s)) s) o' -> (i < NBUF)%nat ->
  k_bufs s !! i = Some b ->
  cached (<[i := b']> (k_bufs s)) bn =
  if decide (b_dev b' = ROOTDEV /\ b_blockno b' = bn) then Some b'
  else if decide (b_dev b = ROOTDEV /\ b_blockno b = bn) then None else cached (k_bufs s) bn.
Proof.
  intros Hok Hok' Hi Hb. pose proof (lookup_lt_Some _ _ _ Hb) as Hlt.
  change (<[i := b']> (k_bufs s)) with (k_bufs (set_k_bufs (<[i := b']> (k_bufs s)) s)).
  set (s' := set_k_bufs (<[i := b']> (k_bufs s)) s) in *.
  assert (Hi' : k_bufs s' !! i = Some b') by (by apply list_lookup_insert_eq).
  assert (Hj : forall j, j <> i -> k_bufs s' !! j = k_bufs s !! j) by (intros j Hne; by apply list_lookup_insert_ne).
  destruct (decide (b_dev b' = ROOTDEV /\ b_blockno b' = bn)) as [[H1 H2]|Hn1]; [by eapply cached_Some|].
  destruct (decide (b_dev b = ROOTDEV /\ b_blockno b = bn)) as [[H1 H2]|Hn2].
  - apply cached_None. intros j c HjN Hc [Hd Hbn]. destruct (decide (j = i)) as [->|Hne]; [naive_solver|].
    rewrite Hj in Hc by done. apply Hne. eapply (bo_uniq _ _ Hok j i c b); eauto; congruence.
  - eapply cached_other; [done|done|intros j Hne _; by apply Hj|naive_solver|naive_solver].
Qed.

(** An operation on block [bn] as clients see it. *)
Record view_step (s s' : kstate) (bn dref : Z) (lk : option Z) : Prop := {
  vs_frame : bio_frame s s';
  vs_disk : k_disk s' = k_disk s;
  vs_writes : k_writes s' = k_writes s;
  vs_blk : forall bn', blk s' bn' = blk s bn';
  vs_ref : forall bn', ref s' bn' = if bn' =? bn then ref s bn + dref else ref s bn';
  vs_lock : forall bn', lockedby s' bn' = if bn' =? bn then lk else lockedby s bn';
  vs_own : forall pid j bn', bn' <> bn -> own s pid j bn' -> own s' pid j bn'
}.

Lemma free_insert s i b b' :
  (i < NBUF)%nat -> k_bufs s !! i = Some b ->
  (free_bufs (set_k_bufs (<[i := b']> (k_bufs s)) s) + (if decide (b_refcnt b = 0%Z) then 1 else 0) =
   free_bufs s + (if decide (b_refcnt b' = 0%Z) then 1 else 0))%nat.
Proof.
  intros Hi Hb. unfold free_bufs. cbn [k_bufs set_k_bufs]. rewrite take_insert_lt by done.
  pose proof (count_insert (fun b => b_refcnt b = 0) (take NBUF (k_bufs s)) i b b') as H.
  apply H. by rewrite lookup_take_lt.
Qed.

Lemma filled_fields d b :
  b_dev (filled d b) = b_dev b /\ b_blockno (filled d b) = b_blockno b /\
  b_refcnt (filled d b) = b_refcnt b /\ b_lock (filled d b) = b_lock b /\
  b_next (filled d b) = b_next b /\ b_prev (filled d b) = b_prev b /\ b_valid (filled d b) = true /\
  b_data (filled d b) = if b_valid b then b_data b else disk_get d (b_blockno b).
Proof. unfold filled. by destruct (b_valid b) eqn:E. Qed.

(** What both ways through [bget] have in common. *)
Lemma bget_ok s o p pr bn :
  env_ok s p pr -> bio_ok s o -> lockedby s bn = None -> ref s bn < 2 ^ 31 - 1 ->
  (ref s bn = 0 -> (0 < free_bufs s)%nat) ->
  exists i b b1, (i < NBUF)%nat /\ k_bufs s !! i = Some b /\
    bget ROOTDEV bn s = Ret i (set_k_bufs (<[i := b1]> (k_bufs s)) s) /\
    ((cached (k_bufs s) bn = Some b /\ b1 = grab (p_pid pr) b) \/
     (cached (k_bufs s) bn = None /\ b_refcnt b = 0 /\ b1 = recycle ROOTDEV bn (p_pid pr) b)).
Proof.
  intros Henv Hok Hlk Href Hfree. destruct (cached (k_bufs s) bn) as [b|] eqn:E.
  - destruct (cached_inv _ _ _ _ Hok E) as (i & Hi & Hb & Hd & Hbn).
    exists i, b, (grab (p_pid pr) b). split_and!; [done|done| |by left].
    rewrite <- (alter_lookup_set _ i _ b Hb). eapply bget_hit; try done.
    unfold lockedby in Hlk. rewrite E in Hlk. by destruct (sl_locked (b_lock b)).
  - destruct (lru_exists s o Hok) as [i Hv].
    { apply Hfree. unfold ref. by rewrite E. }
    pose proof Hv as (o2 & o1 & b & Ho & Hb & Hr & _).
    assert (Hi : (i < NBUF)%nat) by (apply (order_lt s o); [done|]; rewrite Ho; set_solver).
    exists i, b, (recycle ROOTDEV bn (p_pid pr) b). split_and!; [done|done| |by right].
    rewrite <- (alter_lookup_set _ i _ b Hb). by eapply bget_miss.
Qed.

Lemma bread_ok s o p pr bn :
  env_ok s p pr -> bio_ok s o -> lockedby s bn = None -> ref s bn < 2 ^ 31 - 1 ->
  (ref s bn = 0 -> (0 < free_bufs s)%nat) ->
  exists i s', bread ROOTDEV bn s = Ret i s' /\ bio_ok s' o /\ own s' (p_pid pr) i bn /\
    view_step s s' bn 1 (Some (p_pid pr)) /\
    (free_bufs s' + (if Z.eqb (ref s bn) 0 then 1 else 0) = free_bufs s)%nat.
Proof.
  intros Henv Hok Hlk Href Hfree.
  destruct (bget_ok s o p pr bn) as (i & b & b1 & Hi & Hb & Hrun & Hcase); try done.
  pose proof (lookup_lt_Some _ _ _ Hb) as Hlt. pose proof (bo_buf _ _ Hok i b Hi Hb) as Hbok.
  pose proof (bread_of_bget s i b1 bn Hrun Hlt) as Hread.
  destruct (filled_fields (k_disk s) b1) as (Fd & Fb & Fr & Fl & Fn & Fp & Fv & Fdata).
  set (b2 := filled (k_disk s) b1) in *.
  assert (H1 : b_dev b1 = ROOTDEV /\ b_blockno b1 = bn /\ b_lock b1 = mk_sleeplock true (p_pid pr) /\
    b_next b1 = b_next b /\ b_prev b1 = b_prev b /\ b_refcnt b1 = ref s bn + 1 /\ 0 <= ref s bn /\
    b_data b1 = b_data b /\ (b_refcnt b = 0 <-> ref s bn = 0) /\ b_data b2 = blk s bn).
  { unfold ref, blk. rewrite Fdata. destruct Hcase as [[Ec ->]|(Ec & Hr & ->)]; rewrite Ec; cbn.
    - destruct (cached_inv _ _ _ _ Hok Ec) as (_ & _ & _ & Hd & Hbn).
      pose proof (bf_ref _ Hbok). unfold ref in Href. rewrite Ec in Href. cbn in Href.
      rewrite u32_small by lia. rewrite Hbn. split_and!; try done; lia.
    - split_and!; try done; lia. }
  destruct H1 as (D1 & B1 & L1 & N1 & P1 & R1 & R0 & Dt & Rz & Blk).
  assert (Hok' : bio_ok (set_k_bufs (<[i := b2]> (k_bufs s)) s) o).
  { eapply bio_ok_insert; [done|done|done|congruence|congruence| | |].
    - split; rewrite ?Fd, ?Fr, ?Fl, ?D1, ?R1; [by right|lia|lia|..].
      + rewrite Fdata, Dt. destruct (b_valid b1); [apply Hbok|apply (disk_get_size s o _ Hok)].
      + rewrite Fdata, Dt. destruct (b_valid b1); [apply Hbok|apply (disk_get_size s o _ Hok)].
    - intros _. rewrite Fb, B1. destruct Hcase as [[Ec _]|(Ec & _)]; [left|by right].
      destruct (cached_inv _ _ _ _ Hok Ec) as (_ & _ & _ & ? & ?). done.
    - rewrite Fr, R1. lia. }
  set (s' := set_k_bufs (<[i := b2]> (k_bufs s)) s) in *. exists i, s'. split_and!; [done|done| | |].
  - exists b2. split_and!; [done|by apply list_lookup_insert_eq|congruence..].
  - assert (Hc' : forall bn', cached (k_bufs s') bn' = if bn' =? bn then Some b2
      else if decide (b_dev b = ROOTDEV /\ b_blockno b = bn') then None else cached (k_bufs s) bn').
    { intros bn'. unfold s' at 1. cbn [k_bufs set_k_bufs]. rewrite (cached_insert s o o i b b2) by done.
      rewrite Fd, Fb, D1, B1. destruct (Z.eqb_spec bn' bn) as [->|]; [by rewrite decide_True|].
      rewrite decide_False by (intros [_ ?]; congruence). done. }
    (* a block other than [bn] that was in the buffer was not in use *)
    assert (Hev : forall bn', bn' <> bn -> b_dev b = ROOTDEV -> b_blockno b = bn' ->
      b_refcnt b = 0 /\ cached (k_bufs s) bn' = Some b /\ sl_locked (b_lock b) = false).
    { intros bn' Hne Hd Hbn. destruct Hcase as [[Ec _]|(Ec & Hr & _)].
      - destruct (cached_inv _ _ _ _ Hok Ec) as (_ & _ & _ & _ & ?). congruence.
      - split_and!; [done|by eapply cached_Some|]. destruct (sl_locked (b_lock b)) eqn:El; [|done].
        pose proof (bf_lock _ Hbok El). lia. }
    split; [apply bio_frame_bufs|done|done|..].
    + intros bn'. unfold blk at 1. rewrite Hc'. cbn [k_disk s' set_k_bufs].
      destruct (Z.eqb_spec bn' bn) as [->|Hne]; [by rewrite Fv|].
      destruct (decide (b_dev b = ROOTDEV /\ b_blockno b = bn')) as [E|E]; [|done]. destruct (Hev bn' Hne (proj1 E) (proj2 E)) as (Hr & Ec & _).
      unfold blk. rewrite Ec. destruct (b_valid b) eqn:Ev; [|done].
      destruct E as [_ <-]. symmetry. by apply (bo_clean _ _ Hok i).
    + intros bn'. unfold ref at 1. rewrite Hc'. destruct (Z.eqb_spec bn' bn) as [->|Hne].
      * cbn. by rewrite Fr, R1.
      * destruct (decide (b_dev b = ROOTDEV /\ b_blockno b = bn')) as [E|E]; [|done]. destruct (Hev bn' Hne (proj1 E) (proj2 E)) as (Hr & Ec & _).
        unfold ref. by rewrite Ec.
    + intros bn'. unfold lockedby at 1. rewrite Hc'. destruct (Z.eqb_spec bn' bn) as [->|Hne].
      * by rewrite Fl, L1.
      * destruct (decide (b_dev b = ROOTDEV /\ b_blockno b = bn')) as [E|E]; [|done]. destruct (Hev bn' Hne (proj1 E) (proj2 E)) as (_ & Ec & Hl).
        unfold lockedby. by rewrite Ec, Hl.
    + intros pid j bn' Hne (c & HjN & Hc & Hd & Hbn & Hv & Hl). exists c. split_and!; try done.
      unfold s'. cbn [k_bufs set_k_bufs]. rewrite list_lookup_insert_ne; [done|]. intros ->.
      rewrite Hb in Hc. injection Hc as <-. destruct (Hev bn' Hne Hd Hbn) as (_ & _ & Hul). by rewrite Hl in Hul.
  - pose proof (free_insert s i b b2 Hi Hb) as Hf. fold s' in Hf. rewrite Fr, R1 in Hf.
    rewrite (decide_False (P := ref s bn + 1 = 0)) in Hf by lia.
    destruct (Z.eqb_spec (ref s bn) 0) as [Hz|Hz]; [rewrite decide_True in Hf by tauto; lia|].
    rewrite decide_False in Hf by tauto. lia.
Qed.

(** ** Buffers up to their place on the ring *)

Definition core (b : buf) : buf := set_b_next 0 (set_b_prev 0 b).

Lemma cached_core (l l' : list buf) bn :
  core <$> l' = core <$> l -> core <$> cached l' bn = core <$> cached l bn.
Proof.
  assert (H : forall l, core <$> cached l bn = snd <$> list_find (fun b => holds bn b) (take NBUF (core <$> l))).
  { intros l0. unfold cached. rewrite <- fmap_take, list_find_fmap.
    change (list_find ((fun b => holds bn b) ∘ core)) with (list_find (fun b => holds bn b)).
    rewrite <- !option_fmap_compose. by destruct (list_find _ _). }
  intros E. by rewrite !H, E.
Qed.

Lemma core_lookup (l l' : list buf) j b :
  core <$> l' = core <$> l -> l !! j = Some b -> exists b', l' !! j = Some b' /\ core b' = core b.
Proof.
  intros E Hb. assert (H : (core <$> l') !! j = Some (core b)) by (rewrite E, list_lookup_fmap, Hb; done).
  rewrite list_lookup_fmap in H. apply fmap_Some in H as (b' & H1 & H2). by exists b'.
Qed.

Lemma core_fields b b' : core b' = core b ->
  b_valid b' = b_valid b /\ b_dev b' = b_dev b /\ b_blockno b' = b_blockno b /\ b_lock b' = b_lock b /\
  b_refcnt b' = b_refcnt b /\ b_data b' = b_data b.
Proof. destruct b, b'. unfold core. cbn. by intros [= -> -> -> -> -> -> ->]. Qed.

Lemma core_free (l l' : list buf) : core <$> l' = core <$> l ->
  length (filter (fun b => b_refcnt b = 0) (take NBUF l')) = length (filter (fun b => b_refcnt b = 0) (take NBUF l)).
Proof.
  intros E. assert (H : forall l, length (filter (fun b => b_refcnt b = 0) l) =
    length (filter (fun b => b_refcnt b = 0) (core <$> l))).
  { induction l0 as [|b l0 IH]; [done|]. cbn [fmap list_fmap]. rewrite !filter_cons.
    change (b_refcnt (core b)) with (b_refcnt b). case_decide; cbn [length]; by rewrite IH. }
  rewrite H, (H (take NBUF l)), !fmap_take. by rewrite E.
Qed.

Lemma core_view s s' :
  core <$> k_bufs s' = core <$> k_bufs s -> k_disk s' = k_disk s ->
  (forall bn, blk s' bn = blk s bn /\ ref s' bn = ref s bn /\ lockedby s' bn = lockedby s bn) /\
  (forall pid j bn, own s pid j bn -> own s' pid j bn) /\ free_bufs s' = free_bufs s.
Proof.
  intros E Hd. split_and!.
  - intros bn. pose proof (cached_core _ _ bn E) as Hc. unfold blk, ref, lockedby. rewrite Hd.
    destruct (cached (k_bufs s') bn) as [b'|], (cached (k_bufs s) bn) as [b|]; cbn in Hc; try done.
    apply (inj Some) in Hc. apply core_fields in Hc as (H1 & H2 & H3 & H4 & H5 & H6). cbn.
    by rewrite H1, H4, H5, H6.
  - intros pid j bn (b & Hj & Hb & H). destruct (core_lookup _ _ _ _ E Hb) as (b' & Hb' & Hc).
    apply core_fields in Hc as (H1 & H2 & H3 & H4 & H5 & H6). exists b'. rewrite H1, H2, H3, H4. tauto.
  - by apply core_free.
Qed.

Lemma bio_ok_core s s' o o' :
  bio_ok s o -> core <$> k_bufs s' = core <$> k_bufs s -> k_disk s' = k_disk s ->
  o' ≡ₚ o -> dll (k_bufs s') HEAD o' HEAD -> bio_ok s' o'.
Proof.
  intros [Hlen Hperm Hring Hbuf Huniq Hclean Hdisk] E Hd Ho Hr. symmetry in E.
  split; rewrite ?Hd; [|by rewrite Ho|done|..|done].
  - apply (f_equal length) in E. rewrite !length_fmap in E. lia.
  - intros i b Hi Hb. destruct (core_lookup _ _ _ _ E Hb) as (b' & Hb' & Hc).
    pose proof (Hbuf i b' Hi Hb') as [? ? ? ? ?]. apply core_fields in Hc as (H1 & H2 & H3 & H4 & H5 & H6).
    rewrite H1, H2, H4, H5, H6 in *. done.
  - intros i j bi bj Hi Hj Hbi Hbj.
    destruct (core_lookup _ _ _ _ E Hbi) as (bi' & Hbi' & (_ & Hdi & Hni & _)%core_fields).
    destruct (core_lookup _ _ _ _ E Hbj) as (bj' & Hbj' & (_ & Hdj & Hnj & _)%core_fields).
    rewrite <- Hdi, <- Hni, <- Hdj, <- Hnj. by apply Huniq.
  - intros i b Hi Hb. destruct (core_lookup _ _ _ _ E Hb) as (b' & Hb' & Hc).
    apply core_fields in Hc as (H1 & H2 & H3 & H4 & H5 & H6). rewrite <- H1, <- H3, <- H5, <- H6. eauto.
Qed.

Lemma core_alter f i (l : list buf) : (forall b, core (f b) = core b) -> core <$> alter f i l = core <$> l.
Proof.
  intros Hf. apply list_eq. intros j. rewrite !list_lookup_fmap.
  destruct (decide (i = j)) as [->|Hne]; [|by rewrite list_lookup_alter_ne].
  rewrite list_lookup_alter_eq. destruct (l !! j); [|done]. cbn. by rewrite Hf.
Qed.

Lemma core_move l b : core <$> push_front (unlink l b) b = core <$> l.
Proof.
  unfold push_front, unlink. by rewrite !core_alter by (intros x; by destruct x).
Qed.

(** ** An update of one locked buffer *)

Lemma view_insert s o o' i b b' dref lk :
  bio_ok s o -> bio_ok (set_k_bufs (<[i := b']> (k_bufs s)) s) o' -> (i < NBUF)%nat ->
  k_bufs s !! i = Some b -> b_dev b = ROOTDEV ->
  b_dev b' = ROOTDEV -> b_blockno b' = b_blockno b -> b_valid b' = b_valid b -> b_data b' = b_data b ->
  b_refcnt b' = b_refcnt b + dref ->
  lk = (if sl_locked (b_lock b') then Some (sl_pid (b_lock b')) else None) ->
  view_step s (set_k_bufs (<[i := b']> (k_bufs s)) s) (b_blockno b) dref lk.
Proof.
  intros Hok Hok' Hi Hb Hd Hd' Hbn Hv Hdt Hr ->.
  assert (Hc : forall bn', cached (<[i := b']> (k_bufs s)) bn' =
    if bn' =? b_blockno b then Some b' else cached (k_bufs s) bn').
  { intros bn'. rewrite (cached_insert s o o' i b b') by done. rewrite Hd', Hd, Hbn.
    destruct (Z.eqb_spec bn' (b_blockno b)) as [->|Hne]; [by rewrite decide_True|].
    rewrite !decide_False by (intros [_ ?]; congruence). done. }
  assert (Hcb : cached (k_bufs s) (b_blockno b) = Some b) by (by eapply cached_Some).
  split; [apply bio_frame_bufs|done|done|..].
  - intros bn'. unfold blk at 1. cbn [k_bufs k_disk set_k_bufs]. rewrite Hc.
    destruct (Z.eqb_spec bn' (b_blockno b)) as [->|]; [|done]. unfold blk. by rewrite Hcb, Hv, Hdt.
  - intros bn'. unfold ref at 1. cbn [k_bufs set_k_bufs]. rewrite Hc.
    destruct (Z.eqb_spec bn' (b_blockno b)) as [->|]; [|done]. unfold ref. by rewrite Hcb.
  - intros bn'. unfold lockedby at 1. cbn [k_bufs set_k_bufs]. rewrite Hc. by destruct (bn' =? b_blockno b).
  - intros pid j bn' Hne (c & HjN & Hcj & Hdj & Hbnj & Hrest). exists c. split_and!; try tauto.
    cbn [k_bufs set_k_bufs]. rewrite list_lookup_insert_ne; [done|]. congruence.
Qed.

(** ** bwrite, brelse, bpin, bunpin *)

Lemma own_facts s o pid i bn :
  bio_ok s o -> own s pid i bn ->
  exists b, (i < NBUF)%nat /\ k_bufs s !! i = Some b /\ b_dev b = ROOTDEV /\ b_blockno b = bn /\
    b_valid b = true /\ b_lock b = mk_sleeplock true pid /\ cached (k_bufs s) bn = Some b /\
    blk s bn = b_data b /\ ref s bn = b_refcnt b /\ 0 < b_refcnt b < 2 ^ 31.
Proof.
  intros Hok (b & Hi & Hb & Hd & Hbn & Hv & Hl). exists b.
  assert (Hc : cached (k_bufs s) bn = Some b) by (by eapply cached_Some).
  destruct (bo_buf _ _ Hok i b Hi Hb) as [_ Hr Hlk _ _].
  split_and!; try done; [unfold blk; by rewrite Hc, Hv|unfold ref; by rewrite Hc|apply Hlk; by rewrite Hl|lia].
Qed.

Lemma own_holding s o p pr i bn :
  env_ok s p pr -> bio_ok s o -> own s (p_pid pr) i bn -> holdingsleep (SL_buf i) s = Ret true s.
Proof.
  intros Henv Hok Hown. destruct (own_facts _ _ _ _ _ Hok Hown) as (b & Hi & Hb & _ & _ & _ & Hl & _).
  erewrite (holdingsleep_ok (SL_buf i) (mk_sleeplock true (p_pid pr))); [|cbn; by rewrite Hb, <- Hl|by eapply held_elem|apply Henv..].
  cbn. by rewrite Z.eqb_refl.
Qed.

Lemma bwrite_ok s o p pr i bn :
  env_ok s p pr -> bio_ok s o -> own s (p_pid pr) i bn ->
  exists s', bwrite i s = Ret tt s' /\
    s' = set_k_writes (k_writes s ++ [(bn, blk s bn)]) (set_k_disk (<[bn := blk s bn]> (k_disk s)) s) /\
    bio_ok s' o /\ forall bn', blk s' bn' = blk s bn'.
Proof.
  intros Henv Hok Hown. eexists. split; [|split; [reflexivity|]].
  { unfold bwrite. kstep_by (own_holding s o p pr i bn Henv Hok Hown). cbn [negb]. unfold disk_rw.
    destruct (own_facts _ _ _ _ _ Hok Hown) as (b & Hi & Hb & _ & Hbn & _ & _ & _ & Hblk & _).
    kstep. kstep. unfold modify. rewrite Hbn, <- Hblk. done. }
  destruct (own_facts _ _ _ _ _ Hok Hown) as (b & Hi & Hb & Hd & Hbn & Hv & _ & Hc & Hblk & _ & Hr).
  assert (Hget : forall bn', bn' <> bn -> disk_get (<[bn := blk s bn]> (k_disk s)) bn' = disk_get (k_disk s) bn').
  { intros bn' Hne. unfold disk_get. by rewrite lookup_insert_ne. }
  split.
  - destruct Hok as [Hlen Hperm Hring Hbuf Huniq Hclean Hdisk]. split; try done.
    + cbn. intros j c Hj Hcj Hvc Hrc. rewrite Hget; [eauto|].
      intros Heq. assert (j = i) as ->; [|rewrite Hb in Hcj; injection Hcj as <-; lia].
      destruct (bf_dev _ (Hbuf j c Hj Hcj)) as [[_ ?]|Hdc]; [congruence|].
      eapply (Huniq j i c b); eauto; congruence.
    + cbn. intros bn' d. rewrite lookup_insert. case_decide; [intros [= <-]|apply Hdisk].
      rewrite Hblk. by destruct (Hbuf i b Hi Hb).
  - intros bn'. unfold blk at 1. cbn [k_bufs k_disk set_k_writes set_k_disk].
    destruct (decide (bn' = bn)) as [->|Hne]; [by rewrite Hc, Hv|].
    unfold blk. by rewrite Hget.
Qed.

Lemma move_run s (l : list buf) i bf :
  k_bufs s = l -> l !! i = Some bf -> i <> HEAD -> nx l i <> i -> (HEAD < length l)%nat ->
  (mod_buf (b_next bf) (set_b_prev (b_prev bf)) ;;
   bf ← get_buf i;
   mod_buf (b_prev bf) (set_b_next (b_next bf)) ;;
   h ← get_buf HEAD;
   mod_buf i (set_b_next (b_next h)) ;;
   mod_buf i (set_b_prev HEAD) ;;
   h ← get_buf HEAD;
   mod_buf (b_next h) (set_b_prev i) ;;
   mod_buf HEAD (set_b_next i)) s =
  Ret tt (set_k_bufs (push_front (unlink l i) i) s).
Proof.
  intros <- Hb HiH Hni HH. set (l := k_bufs s) in *.
  assert (Hn : b_next bf = nx l i) by (unfold nx; by rewrite Hb).
  assert (Hp : b_prev bf = pv l i) by (unfold pv; by rewrite Hb).
  unfold mod_buf. kstep. cbn [k_bufs set_k_bufs]. fold l. rewrite Hn, Hp.
  kstep_by (get_buf_ok i bf); [|by cbn; rewrite list_lookup_alter_ne].
  kstep. cbn [k_bufs set_k_bufs]. rewrite Hn, Hp, set_bufs_bufs. fold (unlink l i).
  set (l1 := unlink l i).
  assert (HH1 : (HEAD < length l1)%nat) by (unfold l1, unlink; by rewrite !length_alter).
  destruct (lookup_lt_is_Some_2 l1 HEAD HH1) as [h Hh].
  assert (Hhn : b_next h = nx l1 HEAD) by (unfold nx; by rewrite Hh).
  kstep_by (get_buf_ok HEAD h); [|done]. kstep. kstep. cbn [k_bufs set_k_bufs]. rewrite !set_bufs_bufs.
  kstep_by (get_buf_ok HEAD h); [|by cbn; rewrite !list_lookup_alter_ne by done].
  kstep. unfold modify. cbn [k_bufs set_k_bufs]. rewrite !set_bufs_bufs, Hhn. done.
Qed.

Lemma nx_ne s o i : bio_ok s o -> (i < NBUF)%nat -> nx (k_bufs s) i <> i.
Proof.
  intros Hok Hi. destruct (ring_facts s o Hok) as (_ & _ & _ & _ & Hnd & _).
  assert (Hio : i ∈ o) by (by apply (order_lt s o)). apply list_elem_of_split in Hio as (o1 & o2 & Ho).
  pose proof (bo_ring _ _ Hok) as Hr. rewrite Ho in Hr. apply dll_app in Hr as [_ Hr].
  rewrite (dll_next _ _ _ _ Hr). rewrite Ho in Hnd. apply NoDup_app in Hnd as (_ & _ & Hnd).
  apply NoDup_cons in Hnd as [Hni _]. destruct o2; cbn; [unfold HEAD; lia|set_solver].
Qed.

(** The order after a buffer is released for good: it becomes the most recently
    used one. *)
Definition mru (i : nat) (o : list nat) : list nat := i :: filter (fun j => j <> i) o.

Lemma filter_ne_split (o1 : list nat) i o2 :
  NoDup (o1 ++ i :: o2) -> filter (fun j => j <> i) (o1 ++ i :: o2) = o1 ++ o2.
Proof.
  intros Hnd. apply NoDup_app in Hnd as (_ & Hd & Hnd). apply NoDup_cons in Hnd as [Hi _].
  rewrite filter_app, filter_cons_False by naive_solver.
  f_equal; apply filter_out; [|done]. intros H. by apply (Hd i H); left.
Qed.

Lemma move_ring s o i :
  bio_ok s o -> (i < NBUF)%nat ->
  mru i o ≡ₚ o /\ dll (push_front (unlink (k_bufs s) i) i) HEAD (mru i o) HEAD.
Proof.
  intros Hok Hi. destruct (ring_facts s o Hok) as (h & Hh & _ & _ & Hnd & _).
  pose proof (bo_len _ _ Hok) as Hlen.
  assert (Hio : i ∈ o) by (by apply (order_lt s o)). apply list_elem_of_split in Hio as (o1 & o2 & Ho).
  assert (Hlt : Forall (fun b => (b < length (k_bufs s))%nat) o).
  { apply Forall_forall. intros c Hc. apply (order_lt s o c Hok) in Hc. lia. }
  assert (HH : HEAD ∉ o) by (intros H; apply (order_lt s o _ Hok) in H; unfold HEAD in *; lia).
  pose proof (bo_ring _ _ Hok) as Hr. unfold mru. rewrite Ho in *. rewrite filter_ne_split by done.
  split; [solve_Permutation|]. rewrite Forall_app, Forall_cons in Hlt. destruct Hlt as (Hl1 & Hl2 & Hl3).
  assert (Hul : length (unlink (k_bufs s) i) = length (k_bufs s)) by (unfold unlink; by rewrite !length_alter).
  apply push_dll; rewrite ?Hul; [|..|by rewrite Forall_app].
  - apply unlink_dll; [done|by constructor|unfold HEAD; lia|by rewrite Forall_app, Forall_cons].
  - rewrite !NoDup_cons. rewrite not_elem_of_app, not_elem_of_cons in HH.
    apply NoDup_app in Hnd as (Hn1 & Hd & Hn2). apply NoDup_cons in Hn2 as [Hi2 Hn2].
    split_and!; [rewrite not_elem_of_cons, not_elem_of_app; tauto| |].
    + rewrite not_elem_of_app. split; [|done]. intros H. by apply (Hd i H); left.
    + apply NoDup_app. split_and!; [done| |done]. intros c Hc H2. apply (Hd c Hc). by right.
  - unfold HEAD. lia.
  - done.
Qed.

Lemma wake_frame c s l : bio_frame s (set_k_procs (wake_procs c (k_cur s) (k_procs s)) (set_k_bufs l s)).
Proof.
  split.
  - by destruct s.
  - apply length_wake_procs.
  - intros p Hp. cbn [k_procs set_k_procs]. rewrite Hp. apply lookup_wake_procs_me.
Qed.

(** The buffer after [brelse]. *)
Definition dropped (b : buf) : buf := set_b_refcnt (u32 (b_refcnt b - 1)) (set_b_lock (mk_sleeplock false 0) b).

Lemma brelse_run s o p pr i bn b :
  env_ok s p pr -> bio_ok s o -> own s (p_pid pr) i bn -> k_bufs s !! i = Some b ->
  let l := <[i := dropped b]> (k_bufs s) in
  brelse i s = Ret tt (set_k_procs (wake_procs (Ch_sleep (SL_buf i)) (k_cur s) (k_procs s))
    (set_k_bufs (if b_refcnt b =? 1 then push_front (unlink l i) i else l) s)).
Proof.
  intros Henv Hok Hown Hb l. pose proof (own_facts _ _ _ _ _ Hok Hown) as
    (b0 & Hi & Hb0 & _ & _ & _ & _ & _ & _ & _ & Hr). rewrite Hb in Hb0. injection Hb0 as <-.
  pose proof (lookup_lt_Some _ _ _ Hb) as Hlt.
  unfold brelse. kstep_by (own_holding s o p pr i bn Henv Hok Hown). cbn [negb].
  kstep_by releasesleep_ok; [|by eapply held_elem|intros j; rewrite (env_held _ _ _ Henv); set_solver|apply Henv].
  cbn [upd_sl]. set (s1 := set_k_procs _ _).
  assert (Hh1 : k_held s1 = []) by apply Henv.
  kstep_by acquire_ok; [|by rewrite Hh1; apply not_elem_of_nil].
  unfold mod_buf at 1. kstep. cbn [k_bufs set_k_bufs set_k_held s1 set_k_procs]. rewrite alter_alter.
  rewrite (alter_lookup_set _ i _ b Hb). change (<[i := (_ ∘ _) b]> (k_bufs s)) with l.
  kstep_by (get_buf_ok i (dropped b)); [|by apply list_lookup_insert_eq].
  assert (Hz : (b_refcnt (dropped b) =? 0) = (b_refcnt b =? 1)).
  { cbn. rewrite u32_small by lia. by destruct (Z.eqb_spec (b_refcnt b - 1) 0), (Z.eqb_spec (b_refcnt b) 1); lia. }
  rewrite Hz. destruct (Z.eqb_spec (b_refcnt b) 1) as [E|E].
  - kstep_by (move_run (set_k_bufs l (set_k_held (L_bcache :: k_held s1) s1)) l i (dropped b)).
    + erewrite release_top; [|reflexivity|rewrite Hh1; apply not_elem_of_nil].
      by destruct s.
    + done.
    + by apply list_lookup_insert_eq.
    + unfold HEAD. lia.
    + unfold nx, l. rewrite list_lookup_insert_eq by done. cbn.
      pose proof (nx_ne s o i Hok Hi) as H. unfold nx in H. by rewrite Hb in H.
    + unfold l. rewrite length_insert, (bo_len _ _ Hok). unfold HEAD. lia.
  - kstep. erewrite release_top; [|reflexivity|rewrite Hh1; apply not_elem_of_nil].
    by destruct s.
Qed.

Lemma view_step_after s s1 s2 bn dref lk :
  view_step s s1 bn dref lk -> bio_frame s s2 -> k_disk s2 = k_disk s1 -> k_writes s2 = k_writes s1 ->
  (forall bn', blk s2 bn' = blk s1 bn' /\ ref s2 bn' = ref s1 bn' /\ lockedby s2 bn' = lockedby s1 bn') ->
  (forall pid j bn', own s1 pid j bn' -> own s2 pid j bn') -> view_step s s2 bn dref lk.
Proof.
  intros [F D W B R Lk O] F2 D2 W2 HV HO. split; [done|congruence|congruence|..].
  - intros bn'. destruct (HV bn') as (-> & _). apply B.
  - intros bn'. destruct (HV bn') as (_ & -> & _). apply R.
  - intros bn'. destruct (HV bn') as (_ & _ & ->). apply Lk.
  - intros pid j bn' Hne H. apply HO. by apply O.
Qed.

Lemma brelse_ok s o p pr i bn :
  env_ok s p pr -> bio_ok s o -> own s (p_pid pr) i bn ->
  (ref s bn = 1 -> blk s bn = disk_get (k_disk s) bn) ->
  exists s' o', brelse i s = Ret tt s' /\ bio_ok s' o' /\ view_step s s' bn (-1) None /\
    free_bufs s' = (free_bufs s + (if Z.eqb (ref s bn) 1 then 1 else 0))%nat /\
    o' = if ref s bn =? 1 then mru i o else o.
Proof.
  intros Henv Hok Hown Hcl. pose proof (own_facts _ _ _ _ _ Hok Hown) as
    (b & Hi & Hb & Hd & Hbn & Hv & Hl & Hc & Hblk & Href & Hr).
  rewrite (brelse_run s o p pr i bn b Henv Hok Hown Hb). cbn zeta. rewrite Href in *.
  set (l := <[i := dropped b]> (k_bufs s)). pose proof (bo_buf _ _ Hok i b Hi Hb) as Hbok.
  assert (Hok1 : bio_ok (set_k_bufs l s) o).
  { eapply bio_ok_insert; try done.
    - destruct Hbok as [? ? ? ? ?]. split; cbn; rewrite ?u32_small by lia; try done; lia.
    - intros _. left. done.
    - intros _. cbn. rewrite u32_small by lia. intros H. rewrite Hbn, <- Hblk. apply Hcl. lia. }
  assert (Hv1 : view_step s (set_k_bufs l s) bn (-1) None).
  { rewrite <- Hbn. eapply view_insert; try done. cbn. rewrite u32_small by lia. lia. }
  assert (Hf1 : free_bufs (set_k_bufs l s) = (free_bufs s + (if Z.eqb (b_refcnt b) 1 then 1 else 0))%nat).
  { pose proof (free_insert s i b (dropped b) Hi Hb) as Hf. fold l in Hf. cbn [b_refcnt dropped set_b_refcnt] in Hf.
    rewrite u32_small in Hf by lia. rewrite (decide_False (P := b_refcnt b = 0)) in Hf by lia.
    destruct (Z.eqb_spec (b_refcnt b) 1); [rewrite decide_True in Hf by lia|rewrite decide_False in Hf by lia]; lia. }
  set (l2 := if b_refcnt b =? 1 then push_front (unlink l i) i else l).
  set (s2 := set_k_procs _ (set_k_bufs l2 s)). exists s2, (if b_refcnt b =? 1 then mru i o else o).
  assert (Hcore : core <$> k_bufs s2 = core <$> l).
  { cbn [k_bufs s2 set_k_procs set_k_bufs]. unfold l2. destruct (b_refcnt b =? 1); [apply core_move|done]. }
  destruct (move_ring (set_k_bufs l s) o i Hok1 Hi) as [Hperm Hring]. cbn [k_bufs set_k_bufs] in Hring.
  destruct (core_view (set_k_bufs l s) s2 Hcore eq_refl) as (Hvw & Hown' & Hfree).
  split_and!; [done| | |by rewrite Hfree|done].
  - eapply bio_ok_core; [exact Hok1|exact Hcore|done| |]; cbn [k_bufs s2 set_k_procs set_k_bufs]; unfold l2;
      destruct (b_refcnt b =? 1); try done. apply Hok1.
  - eapply view_step_after; [exact Hv1|apply wake_frame|done|done|done|done].
Qed.

(** Changing the data of a buffer one has locked. *)
Lemma bset_ok s o pid i bn f :
  bio_ok s o -> own s pid i bn -> length (f (blk s bn)) = Z.to_nat BSIZE -> bytes (f (blk s bn)) ->
  exists s', mod_buf i (fun b => set_b_data (f (b_data b)) b) s = Ret tt s' /\ bio_ok s' o /\ own s' pid i bn /\
    bio_frame s s' /\ k_disk s' = k_disk s /\ k_writes s' = k_writes s /\ free_bufs s' = free_bufs s /\
    (forall bn', blk s' bn' = if bn' =? bn then f (blk s bn) else blk s bn') /\
    (forall bn', ref s' bn' = ref s bn' /\ lockedby s' bn' = lockedby s bn') /\
    (forall pid' j bn', own s pid' j bn' -> own s' pid' j bn').
Proof.
  intros Hok Hown Hlen Hby. destruct (own_facts _ _ _ _ _ Hok Hown) as
    (b & Hi & Hb & Hd & Hbn & Hv & Hl & Hc & Hblk & Href & Hr). rewrite Hblk in *.
  pose proof (lookup_lt_Some _ _ _ Hb) as Hlt. pose proof (bo_buf _ _ Hok i b Hi Hb) as Hbok.
  set (b' := set_b_data (f (b_data b)) b).
  assert (Hok' : bio_ok (set_k_bufs (<[i := b']> (k_bufs s)) s) o).
  { eapply bio_ok_insert; try done.
    - destruct Hbok. by split.
    - intros _. by left.
    - cbn. lia. }
  exists (set_k_bufs (<[i := b']> (k_bufs s)) s).
  assert (Hc' : forall bn', cached (<[i := b']> (k_bufs s)) bn' = if bn' =? bn then Some b' else cached (k_bufs s) bn').
  { intros bn'. rewrite (cached_insert s o o i b b') by done. cbn [b_dev b_blockno b' set_b_data]. rewrite Hd, Hbn.
    destruct (Z.eqb_spec bn' bn) as [->|Hne]; [by rewrite decide_True|].
    rewrite !decide_False by (intros [_ ?]; congruence). done. }
  split_and!; try done.
  - unfold mod_buf, modify. by rewrite (alter_lookup_set _ i _ b Hb).
  - exists b'. split_and!; try done. by apply list_lookup_insert_eq.
  - pose proof (free_insert s i b b' Hi Hb) as Hf. cbn [b' b_refcnt set_b_data] in Hf. lia.
  - intros bn'. unfold blk at 1. cbn [k_bufs k_disk set_k_bufs]. rewrite Hc'.
    destruct (bn' =? bn); [|done]. cbn. by rewrite Hv.
  - intros bn'. unfold ref, lockedby. cbn [k_bufs set_k_bufs]. rewrite Hc'.
    destruct (Z.eqb_spec bn' bn) as [->|]; [|done]. by rewrite Hc.
  - intros pid' j bn' (c & Hj & Hcj & Hrest). destruct (decide (j = i)) as [->|Hne].
    + rewrite Hb in Hcj. injection Hcj as <-. exists b'. split_and!; try tauto; try apply Hrest.
      by apply list_lookup_insert_eq.
    + exists c. split_and!; try tauto. cbn [k_bufs set_k_bufs]. by rewrite list_lookup_insert_ne.
Qed.

(** Pinning: one reference more or less, on a block that stays cached. *)
Lemma pin_ok s o i bn b d (h : list lockid) :
  bio_ok s o -> (i < NBUF)%nat -> k_bufs s !! i = Some b -> b_dev b = ROOTDEV -> b_blockno b = bn ->
  0 < b_refcnt b + d < 2 ^ 31 -> k_held s = h -> L_bcache ∉ h ->
  exists s', ((acquire L_bcache ;; mod_buf i (fun bf => set_b_refcnt (u32 (b_refcnt bf + d)) bf) ;;
     release L_bcache) : K unit) s = Ret tt s' /\ bio_ok s' o /\
    view_step s s' bn d (lockedby s bn) /\ (forall pid, own s pid i bn -> own s' pid i bn) /\
    (0 < b_refcnt b -> free_bufs s' = free_bufs s).
Proof.
  intros Hok Hi Hb Hd Hbn Hr Hh HL. pose proof (bo_buf _ _ Hok i b Hi Hb) as Hbok.
  pose proof (lookup_lt_Some _ _ _ Hb) as Hlt. set (b' := set_b_refcnt (u32 (b_refcnt b + d)) b).
  assert (Hr' : b_refcnt b' = b_refcnt b + d) by (cbn; apply u32_small; lia).
  assert (Hok' : bio_ok (set_k_bufs (<[i := b']> (k_bufs s)) s) o).
  { eapply bio_ok_insert; try done.
    - destruct Hbok as [? ? ? ? ?]. split; rewrite ?Hr'; try done; lia.
    - intros _. by left.
    - rewrite Hr'. lia. }
  assert (Hc : cached (k_bufs s) bn = Some b) by (by eapply cached_Some).
  exists (set_k_bufs (<[i := b']> (k_bufs s)) s). split_and!; try done.
  - kstep_by acquire_ok; [|by rewrite Hh]. unfold mod_buf. kstep.
    cbn [k_bufs set_k_held]. rewrite (alter_lookup_set _ i _ b Hb).
    erewrite release_top; [|reflexivity|by rewrite Hh]. by destruct s.
  - rewrite <- Hbn. eapply view_insert; try done. unfold lockedby. by rewrite Hbn, Hc.
  - intros pid (c & _ & Hcj & Hrest). rewrite Hb in Hcj. injection Hcj as <-. exists b'.
    split_and!; try tauto; try apply Hrest. by apply list_lookup_insert_eq.
  - intros Hpos. pose proof (free_insert s i b b' Hi Hb) as Hf. rewrite Hr' in Hf.
    rewrite !decide_False in Hf by lia. lia.
Qed.
