(* ===== verification/Log.v ===== *)
(** * kernel/log.c: the write-ahead log

    The in-memory header [log.lh] names the home block of each logged block;
    the log area of the disk is a header block at [log.start] followed by the
    logged contents.  On disk the header is an [int] count followed by an array
    of [int] block numbers, read and written through the buffer's bytes. *)

From stdpp Require Import base list gmap strings.
From Stdlib Require Import ZArith Lia.
From S2P Require Import Prelude Mem Riscv State Sched Bio.
Open Scope Z_scope.

Definition mod_lh (f : logheader -> logheader) : K unit :=
  mod_log (fun l => set_lg_lh (f (lg_lh l)) l).

(** [log.lh.block[i]], which has LOGSIZE elements. *)
Definition get_lh_block (i : Z) : K Z :=
  lh ← gets (fun s => lg_lh (k_log s));
  need "log.lh.block" (lh_block lh !! Z.to_nat i).
Definition set_lh_block_at (i v : Z) : K unit :=
  if decide (i < LOGSIZE) then mod_lh (fun lh => set_lh_block (<[Z.to_nat i := v]> (lh_block lh)) lh)
  else fault "log.lh.block".

(** [hb->n] and [hb->block[i]] of a header in a block's data. *)
Definition hdr_n (d : list Z) : Z := s32 (get32 d 0).
Definition hdr_off (i : Z) : nat := (4 + 4 * Z.to_nat i)%nat.
Definition hdr_block (d : list Z) (i : Z) : Z := s32 (get32 d (hdr_off i)).

(** [memmove(dst->data, src->data, BSIZE)] *)
Definition copy_block (dst src : nat) : K unit :=
  bf ← get_buf src;
  mod_buf dst (set_b_data (b_data bf)).

Definition install_step (recovering : bool) (tail : Z) : K (Z + unit) :=
  l ← gets k_log;
  if tail <? lh_n (lg_lh l) then
    lbuf ← bread (u32 (lg_dev l)) (u32 (lg_start l + tail + 1));
    bn ← get_lh_block tail;
    dbuf ← bread (u32 (lg_dev l)) (u32 bn);
    copy_block dbuf lbuf ;;
    bwrite dbuf ;;
    (if recovering then skip else bunpin dbuf) ;;
    brelse lbuf ;;
    brelse dbuf ;;
    mret (inl (tail + 1))
  else mret (inr tt).
Definition install_trans (recovering : bool) : K unit :=
  n ← gets (fun s => lh_n (lg_lh (k_log s)));
  loop (S (Z.to_nat n)) (install_step recovering) 0.

Definition read_head_step (buf : nat) (i : Z) : K (Z + unit) :=
  n ← gets (fun s => lh_n (lg_lh (k_log s)));
  if i <? n then
    bf ← get_buf buf;
    set_lh_block_at i (hdr_block (b_data bf) i) ;;
    mret (inl (i + 1))
  else mret (inr tt).
Definition read_head : K unit :=
  l ← gets k_log;
  buf ← bread (u32 (lg_dev l)) (u32 (lg_start l));
  bf ← get_buf buf;
  mod_lh (set_lh_n (hdr_n (b_data bf))) ;;
  loop (S (Z.to_nat (hdr_n (b_data bf)))) (read_head_step buf) 0 ;;
  brelse buf.

Definition write_head_step (buf : nat) (i : Z) : K (Z + unit) :=
  n ← gets (fun s => lh_n (lg_lh (k_log s)));
  if i <? n then
    bn ← get_lh_block i;
    mod_buf buf (fun bf => set_b_data (put32 (hdr_off i) bn (b_data bf)) bf) ;;
    mret (inl (i + 1))
  else mret (inr tt).
Definition write_head : K unit :=
  l ← gets k_log;
  buf ← bread (u32 (lg_dev l)) (u32 (lg_start l));
  mod_buf buf (fun bf => set_b_data (put32 0 (lh_n (lg_lh l)) (b_data bf)) bf) ;;
  loop (S (Z.to_nat (lh_n (lg_lh l)))) (write_head_step buf) 0 ;;
  bwrite buf ;;
  brelse buf.

Definition recover_from_log : K unit :=
  read_head ;;
  install_trans true ;;
  mod_lh (set_lh_n 0) ;;
  write_head.

(** [sizeof(struct logheader)] *)
Definition sizeof_logheader : Z := 4 + 4 * LOGSIZE.

Definition initlog (dev : Z) (sb : superblock) : K unit :=
  if sizeof_logheader >=? BSIZE then panic "initlog: too big logheader" else
  mod_log (set_lg_start (s32 (sb_logstart sb))) ;;
  mod_log (set_lg_size (s32 (sb_nlog sb))) ;;
  mod_log (set_lg_dev dev) ;;
  recover_from_log.

Definition begin_op_step (_ : unit) : K (unit + unit) :=
  l ← gets k_log;
  if lg_committing l then
    sleep Ch_log L_log ;; mret (inl tt)
  else if lh_n (lg_lh l) + (lg_outstanding l + 1) * MAXOPBLOCKS >? LOGSIZE then
    sleep Ch_log L_log ;; mret (inl tt)
  else
    mod_log (fun l => set_lg_outstanding (lg_outstanding l + 1) l) ;;
    release L_log ;;
    mret (inr tt).
Definition begin_op : K unit :=
  acquire L_log ;;
  fuel ← gets k_fuel;
  loop fuel begin_op_step tt.

Definition write_log_step (tail : Z) : K (Z + unit) :=
  l ← gets k_log;
  if tail <? lh_n (lg_lh l) then
    to ← bread (u32 (lg_dev l)) (u32 (lg_start l + tail + 1));
    bn ← get_lh_block tail;
    from ← bread (u32 (lg_dev l)) (u32 bn);
    copy_block to from ;;
    bwrite to ;;
    brelse from ;;
    brelse to ;;
    mret (inl (tail + 1))
  else mret (inr tt).
Definition write_log : K unit :=
  n ← gets (fun s => lh_n (lg_lh (k_log s)));
  loop (S (Z.to_nat n)) write_log_step 0.

Definition commit : K unit :=
  n ← gets (fun s => lh_n (lg_lh (k_log s)));
  if n >? 0 then
    write_log ;;
    write_head ;;
    install_trans false ;;
    mod_lh (set_lh_n 0) ;;
    write_head
  else skip.

Definition end_op : K unit :=
  acquire L_log ;;
  mod_log (fun l => set_lg_outstanding (lg_outstanding l - 1) l) ;;
  l ← gets k_log;
  if lg_committing l then panic "log.committing" else
  (if lg_outstanding l =? 0 then mod_log (set_lg_committing true)
   else wakeup Ch_log) ;;
  release L_log ;;
  if lg_outstanding l =? 0 then
    commit ;;
    acquire L_log ;;
    mod_log (set_lg_committing false) ;;
    wakeup Ch_log ;;
    release L_log
  else skip.

(** [for (i = 0; i < log.lh.n; i++) if (log.lh.block[i] == b->blockno) break;] *)
Fixpoint log_slot (blocks : list Z) (n : nat) (blockno : Z) (i : nat) {struct n} : nat :=
  match n with
  | O => i
  | S n =>
      match blocks with
      | b :: blocks => if u32 b =? blockno then i else log_slot blocks n blockno (S i)
      | [] => i
      end
  end.

Definition log_write (b : nat) : K unit :=
  acquire L_log ;;
  l ← gets k_log;
  if (lh_n (lg_lh l) >=? LOGSIZE) || (lh_n (lg_lh l) >=? lg_size l - 1)
  then panic "too big a transaction" else
  if lg_outstanding l <? 1 then panic "log_write outside of trans" else
  bf ← get_buf b;
  let i := Z.of_nat (log_slot (lh_block (lg_lh l)) (Z.to_nat (lh_n (lg_lh l))) (b_blockno bf) 0) in
  set_lh_block_at i (s32 (b_blockno bf)) ;;
  (if i =? lh_n (lg_lh l) then
     bpin b ;;
     mod_lh (fun lh => set_lh_n (lh_n lh + 1) lh)
   else skip) ;;
  release L_log.
