(* ===== verification/Commit.v ===== *)
(** * What the log does to the disk

    The effect of [write_log], [write_head], [install_trans] and so of [commit]
    and recovery, as sequences of block writes, when the blocks they touch are
    not locked by anybody. *)

From stdpp Require Import base list gmap strings.
From Stdlib Require Import ZArith Lia.
From S2P Require Import Prelude Mem Riscv State Sched Bio Bcache Log.
Open Scope Z_scope.

Lemma blk_clean s o bn : bio_ok s o -> ref s bn = 0 -> blk s bn = disk_get (k_disk s) bn.
Proof.
  intros Hok. unfold ref, blk. destruct (cached (k_bufs s) bn) as [b|] eqn:E; [|done]. cbn.
  intros Hr. destruct (cached_inv _ _ _ _ Hok E) as (i & Hi & Hb & Hd & Hbn).
  destruct (b_valid b) eqn:Hv; [|done]. rewrite (bo_clean _ _ Hok i b Hi Hb Hv Hr). by rewrite Hbn.
Qed.

Lemma ref_pos s o bn : bio_ok s o -> 0 <= ref s bn.
Proof.
  intros Hok. unfold ref. destruct (cached (k_bufs s) bn) as [b|] eqn:E; [|done]. cbn.
  destruct (cached_inv _ _ _ _ Hok E) as (i & Hi & Hb & _). by apply (bo_buf _ _ Hok i b Hi Hb).
Qed.

Lemma blk_size s o bn : bio_ok s o -> length (blk s bn) = Z.to_nat BSIZE /\ bytes (blk s bn).
Proof.
  intros Hok. pose proof (disk_get_size s o bn Hok). unfold blk.
  destruct (cached (k_bufs s) bn) as [b|] eqn:E; [|done].
  destruct (cached_inv _ _ _ _ Hok E) as (i & Hi & Hb & _).
  destruct (bo_buf _ _ Hok i b Hi Hb). by destruct (b_valid b).
Qed.

(** The running process can take the blocks in [B], two at a time. *)
Record calm (B : Z -> Prop) (s : kstate) (p : nat) (pr : proc) : Prop := {
  c_env : env_ok s p pr;
  c_bio : exists o, bio_ok s o;
  c_unl : forall bn, B bn -> lockedby s bn = None;
  c_ref : forall bn, B bn -> ref s bn < 2 ^ 31 - 1;
  c_free : (2 <= free_bufs s)%nat
}.

(** Block [dst] was written with contents [v]; its pins changed by [dref]. *)
Record blk_step (s s' : kstate) (dst : Z) (v : list Z) (dref : Z) : Prop := {
  bs_frame : bio_frame s s';
  bs_disk : k_disk s' = <[dst := v]> (k_disk s);
  bs_writes : k_writes s' = k_writes s ++ [(dst, v)];
  bs_blk : forall bn, blk s' bn = if bn =? dst then v else blk s bn;
  bs_ref : forall bn, ref s' bn = if bn =? dst then ref s bn + dref else ref s bn
}.

Lemma calm_after B s s' p pr dst v dref :
  calm B s p pr -> blk_step s s' dst v dref -> (exists o, bio_ok s' o) -> dref <= 0 ->
  (forall bn, lockedby s' bn = lockedby s bn) -> (free_bufs s <= free_bufs s')%nat -> calm B s' p pr.
Proof.
  intros [H1 H2 H3 H4 H5] [F1 _ _ _ F5] Hb Hd Hl Hf. split; [by eapply frame_env|done| | |lia].
  - intros bn HB. rewrite Hl. auto.
  - intros bn HB. rewrite F5. specialize (H4 bn HB). destruct (bn =? dst); lia.
Qed.

Section Two.
Context (p : nat) (pr : proc).
Abbreviation pid := (p_pid pr).

(** Two blocks were taken, nothing else changed. *)
Record taken (s s2 : kstate) (i : nat) (x : Z) (j : nat) (y : Z) (o : list nat) : Prop := {
  tk_bio : bio_ok s2 o;
  tk_i : own s2 pid i x;
  tk_j : own s2 pid j y;
  tk_frame : bio_frame s s2;
  tk_disk : k_disk s2 = k_disk s;
  tk_writes : k_writes s2 = k_writes s;
  tk_blk : forall bn, blk s2 bn = blk s bn;
  tk_ref : forall bn, ref s2 bn = if (bn =? x) || (bn =? y) then ref s bn + 1 else ref s bn;
  tk_lock : forall bn, lockedby s2 bn = if (bn =? x) || (bn =? y) then Some pid else lockedby s bn;
  tk_free : (free_bufs s2 + (if Z.eqb (ref s x) 0 then 1 else 0) + (if Z.eqb (ref s y) 0 then 1 else 0) = free_bufs s)%nat
}.

Lemma taken_sym s s2 i x j y o : taken s s2 i x j y o -> taken s s2 j y i x o.
Proof.
  intros []. split; try done; [intros bn; rewrite orb_comm; auto..|lia].
Qed.

Lemma take_two B s x y :
  calm B s p pr -> B x -> B y -> x <> y ->
  exists i j s1 s2 o, bread ROOTDEV x s = Ret i s1 /\ bread ROOTDEV y s1 = Ret j s2 /\
    bio_frame s s1 /\ taken s s2 i x j y o.
Proof.
  intros [He [o Ho] Hl Hr Hf] HBx HBy Hne.
  destruct (bread_ok s o p pr x) as (i & s1 & R1 & O1 & W1 & V1 & F1); [done|done|auto|auto|lia|].
  pose proof (frame_env _ _ _ _ (vs_frame _ _ _ _ _ V1) He) as He1.
  pose proof (vs_ref _ _ _ _ _ V1 y) as Ry. pose proof (vs_lock _ _ _ _ _ V1 y) as Ly.
  rewrite (proj2 (Z.eqb_neq y x)) in Ry, Ly by done.
  destruct (bread_ok s1 o p pr y) as (j & s2 & R2 & O2 & W2 & V2 & F2).
  { done. } { done. } { rewrite Ly. auto. } { rewrite Ry. auto. }
  { intros _. destruct (ref s x =? 0); lia. }
  exists i, j, s1, s2, o. destruct V1 as [A1 A2 A3 A4 A5 A6 A7], V2 as [B1 B2 B3 B4 B5 B6 B7].
  split_and!; try done. split; try done; try congruence.
  - apply B7; done.
  - by etrans.
  - intros bn. rewrite B5, !A5. destruct (Z.eqb_spec bn y), (Z.eqb_spec bn x), (Z.eqb_spec y x); subst; cbn; try lia.
  - intros bn. rewrite B6, !A6. destruct (Z.eqb_spec bn y), (Z.eqb_spec bn x); by subst.
  - rewrite Ry in F2. lia.
Qed.

(** [bunpin] by the process that has the block locked. *)
Lemma bunpin_own s o i bn :
  env_ok s p pr -> bio_ok s o -> own s pid i bn -> 1 < ref s bn ->
  exists s', bunpin i s = Ret tt s' /\ bio_ok s' o /\ own s' pid i bn /\
    view_step s s' bn (-1) (lockedby s bn) /\ free_bufs s' = free_bufs s.
Proof.
  intros He Hok Hown Hr. destruct (own_facts _ _ _ _ _ Hok Hown) as
    (b & Hi & Hb & Hd & Hbn & _ & _ & _ & _ & Href & Hrr).
  destruct (pin_ok s o i bn b (-1) [] Hok Hi Hb Hd Hbn) as (s' & R & O & V & W & F); [lia|apply He|set_solver|].
  exists s'. split_and!; try done; [auto|apply F; lia].
Qed.

(** Copying the contents of one owned buffer to the other and writing that. *)
Lemma copy_write s o i j src dst :
  env_ok s p pr -> bio_ok s o -> own s pid i src -> own s pid j dst ->
  exists s1 s2, copy_block j i s = Ret tt s1 /\ bwrite j s1 = Ret tt s2 /\ bio_ok s2 o /\
    blk_step s s2 dst (blk s src) 0 /\ own s2 pid i src /\ own s2 pid j dst /\
    (forall bn, lockedby s2 bn = lockedby s bn) /\ free_bufs s2 = free_bufs s.
Proof.
  intros He Hok Hi Hj. destruct (own_facts _ _ _ _ _ Hok Hi) as (b & Hib & Hb & _ & _ & _ & _ & _ & Hblk & _).
  destruct (blk_size s o src Hok) as [Hsz Hby].
  destruct (bset_ok s o pid j dst (fun _ => blk s src)) as
    (s1 & R1 & O1 & W1 & F1 & D1 & Wr1 & Fr1 & B1 & RL1 & Own1); [done..|].
  destruct (bwrite_ok s1 o p pr j dst) as (s2 & R2 & E2 & O2 & B2); [by eapply frame_env|done|done|].
  assert (Hv : blk s1 dst = blk s src) by (by rewrite B1, Z.eqb_refl). rewrite Hv in *.
  assert (Hown2 : forall pid' k bn, own s1 pid' k bn -> own s2 pid' k bn) by (rewrite E2; done).
  exists s1, s2. split_and!; [|done|done| |auto|auto| |].
  - unfold copy_block. kstep. rewrite <- Hblk. exact R1.
  - split.
    + etrans; [exact F1|]. rewrite E2. by split; [destruct s1|..].
    + rewrite E2. cbn. by rewrite D1.
    + rewrite E2. cbn. by rewrite Wr1.
    + intros bn. rewrite B2, B1. done.
    + intros bn. transitivity (ref s1 bn); [by rewrite E2|]. rewrite (proj1 (RL1 bn)).
      destruct (bn =? dst); lia.
  - intros bn. transitivity (lockedby s1 bn); [by rewrite E2|apply RL1].
  - rewrite <- Fr1. by rewrite E2.
Qed.

(** Letting go of the two buffers. *)
Lemma release_two s o i j x y :
  env_ok s p pr -> bio_ok s o -> own s pid i x -> own s pid j y -> x <> y ->
  (ref s x = 1 -> blk s x = disk_get (k_disk s) x) -> (ref s y = 1 -> blk s y = disk_get (k_disk s) y) ->
  exists s1 s2 o', brelse i s = Ret tt s1 /\ brelse j s1 = Ret tt s2 /\ bio_ok s2 o' /\ bio_frame s s2 /\
    k_disk s2 = k_disk s /\ k_writes s2 = k_writes s /\ (forall bn, blk s2 bn = blk s bn) /\
    (forall bn, ref s2 bn = if (bn =? x) || (bn =? y) then ref s bn - 1 else ref s bn) /\
    (forall bn, lockedby s2 bn = if (bn =? x) || (bn =? y) then None else lockedby s bn) /\
    (free_bufs s2 = free_bufs s + (if Z.eqb (ref s x) 1 then 1 else 0) + (if Z.eqb (ref s y) 1 then 1 else 0))%nat.
Proof.
  intros He Hok Hi Hj Hne Hx Hy.
  destruct (brelse_ok s o p pr i x He Hok Hi Hx) as (s1 & o1 & R1 & O1 & V1 & F1 & _).
  destruct V1 as [A1 A2 A3 A4 A5 A6 A7]. pose proof (A5 y) as Ry.
  rewrite (proj2 (Z.eqb_neq y x)) in Ry by done.
  destruct (brelse_ok s1 o1 p pr j y) as (s2 & o2 & R2 & O2 & V2 & F2 & _).
  { by eapply frame_env. } { done. } { apply A7; done. } { rewrite Ry, A4, A2. done. }
  destruct V2 as [B1 B2 B3 B4 B5 B6 B7]. exists s1, s2, o2. split_and!; try done; try congruence.
  - by etrans.
  - intros bn. rewrite B5, !A5. destruct (Z.eqb_spec bn y), (Z.eqb_spec bn x), (Z.eqb_spec y x); subst; cbn; lia.
  - intros bn. rewrite B6, A6. destruct (Z.eqb_spec bn y), (Z.eqb_spec bn x); by subst.
  - rewrite Ry in F2. lia.
Qed.

(** Copying, writing, unpinning when asked to, releasing: the rest of an
    iteration of [install_trans] and of [write_log]. *)
Lemma move_two (unpin : bool) B s s2 o i j src dst :
  calm B s p pr -> B src -> B dst -> src <> dst -> (unpin = true -> 1 <= ref s dst) -> taken s s2 i src j dst o ->
  exists s3 s4 s5 s6 s', copy_block j i s2 = Ret tt s3 /\ bwrite j s3 = Ret tt s4 /\
    (if unpin then bunpin j else skip) s4 = Ret tt s5 /\ brelse i s5 = Ret tt s6 /\ brelse j s6 = Ret tt s' /\
    calm B s' p pr /\ blk_step s s' dst (blk s src) (if unpin then -1 else 0).
Proof.
  intros Hc HBs HBd Hne Hpin [T1 T2 T3 T4 T5 T6 T7 T8 T9 T10]. pose proof Hc as [He [o0 Ho] Hl Hr Hf].
  pose proof (frame_env _ _ _ _ T4 He) as He2. pose proof (ref_pos s o0 src Ho). pose proof (ref_pos s o0 dst Ho).
  destruct (copy_write s2 o i j src dst He2 T1 T2 T3) as (s3 & s4 & R3 & R4 & O4 & [F4 D4 W4 B4 Rf4] & I4 & J4 & L4 & Fr4).
  pose proof (frame_env _ _ _ _ F4 He2) as He4. rewrite T7 in *.
  assert (Hsd : (src =? dst) = false) by lia. assert (Hds : (dst =? src) = false) by lia.
  assert (H5 : exists s5, (if unpin then bunpin j else skip) s4 = Ret tt s5 /\ bio_ok s5 o /\ own s5 pid i src /\
    own s5 pid j dst /\ view_step s4 s5 dst (if unpin then -1 else 0) (lockedby s4 dst) /\ free_bufs s5 = free_bufs s4).
  { destruct unpin.
    - destruct (bunpin_own s4 o j dst He4 O4 J4) as (s5 & R5 & O5 & J5 & V5 & Fr5).
      { rewrite Rf4, T8, Z.eqb_refl, orb_true_r. specialize (Hpin eq_refl). lia. }
      exists s5. split_and!; try done. by apply (vs_own _ _ _ _ _ V5).
    - exists s4. split_and!; try done. split; try done; intros bn; destruct (Z.eqb_spec bn dst); subst; try done; lia. }
  destruct H5 as (s5 & R5 & O5 & I5 & J5 & [A1 A2 A3 A4 A5 A6 _] & Fr5). pose proof (frame_env _ _ _ _ A1 He4) as He5.
  assert (Hr5s : ref s5 src = ref s src + 1) by (rewrite A5, Hsd, Rf4, Hsd, T8, Z.eqb_refl; done).
  assert (Hr5d : ref s5 dst = ref s dst + 1 + (if unpin then -1 else 0))
    by (rewrite A5, Rf4, T8, Z.eqb_refl, orb_true_r; lia).
  assert (Hd5 : k_disk s5 = <[dst := blk s src]> (k_disk s)) by congruence.
  destruct (release_two s5 o i j src dst He5 O5 I5 J5 Hne) as (s6 & s' & o' & R6 & R7 & O7 & F7 & D7 & W7 & B7 & Rf7 & L7 & Fr7).
  { intros H1. rewrite Hd5, A4, B4, Hsd, T7. unfold disk_get. rewrite lookup_insert_ne by done.
    apply (blk_clean s o0); [done|lia]. }
  { intros _. rewrite Hd5, A4, B4, Z.eqb_refl. unfold disk_get. by rewrite lookup_insert_eq. }
  assert (Hstep : blk_step s s' dst (blk s src) (if unpin then -1 else 0)).
  { split; [by etrans; [|etrans; [|etrans]]|congruence|congruence|..].
    - intros bn. rewrite B7, A4, B4, T7. done.
    - intros bn. rewrite Rf7, A5, !Rf4, !T8.
      destruct (Z.eqb_spec bn src), (Z.eqb_spec bn dst); subst; rewrite ?Z.eqb_refl, ?orb_true_r; cbn; try lia. }
  exists s3, s4, s5, s6, s'. split_and!; try done. eapply calm_after; try done; [eauto|destruct unpin; lia|..].
  - intros bn. rewrite L7, A6, !L4, !T9. destruct (Z.eqb_spec bn src), (Z.eqb_spec bn dst); subst; cbn; try done; by rewrite Hl.
  - rewrite Hr5s, Hr5d in Fr7. repeat case_match; lia.
Qed.

End Two.

(** ** Sequences of block writes *)

Definition wr_get (f : Z -> list Z) (W : list (Z * list Z)) : Z -> list Z :=
  foldl (fun f w bn => if bn =? w.1 then w.2 else f bn) f W.
Definition apply_writes (d : gmap Z (list Z)) (W : list (Z * list Z)) : gmap Z (list Z) :=
  foldl (fun d w => <[w.1 := w.2]> d) d W.

Lemma wr_get_ext f g W bn : (forall b, f b = g b) -> wr_get f W bn = wr_get g W bn.
Proof.
  revert f g. induction W as [|w W IH]; intros f g H; cbn; [done|]. apply IH. intros b. by rewrite H.
Qed.

Lemma disk_get_insert d dst v bn : disk_get (<[dst := v]> d) bn = if bn =? dst then v else disk_get d bn.
Proof.
  unfold disk_get. destruct (Z.eqb_spec bn dst) as [->|]; [by rewrite lookup_insert_eq|by rewrite lookup_insert_ne].
Qed.

Lemma disk_get_apply d W bn : disk_get (apply_writes d W) bn = wr_get (disk_get d) W bn.
Proof.
  revert d. induction W as [|w W IH]; intros d; [done|]. cbn. etrans; [apply IH|].
  apply wr_get_ext. intros b. apply disk_get_insert.
Qed.

Lemma wr_get_app f W1 W2 bn : wr_get f (W1 ++ W2) bn = wr_get (wr_get f W1) W2 bn.
Proof. unfold wr_get. by rewrite foldl_app. Qed.

Lemma wr_get_other f W bn : bn ∉ W.*1 -> wr_get f W bn = f bn.
Proof.
  revert f. induction W as [|w W IH]; intros f H; [done|]. cbn in *. apply not_elem_of_cons in H as [H1 H2].
  rewrite IH by done. by rewrite (proj2 (Z.eqb_neq bn (w.1))).
Qed.

(** The writes [W] were made, and one pin dropped for each block of [D]. *)
Record wrote_all (s s' : kstate) (W : list (Z * list Z)) (D : list Z) : Prop := {
  wa_frame : bio_frame s s';
  wa_disk : k_disk s' = apply_writes (k_disk s) W;
  wa_writes : k_writes s' = k_writes s ++ W;
  wa_blk : forall bn, blk s' bn = wr_get (blk s) W bn;
  wa_ref : forall bn, ref s' bn = ref s bn - Z.of_nat (length (filter (fun b => b = bn) D))
}.

Lemma wrote_all_nil s : wrote_all s s [] [].
Proof. split; [done|done|by rewrite app_nil_r|done|]. intros. cbn. lia. Qed.

Lemma wrote_all_trans s1 s2 s3 W1 W2 D1 D2 :
  wrote_all s1 s2 W1 D1 -> wrote_all s2 s3 W2 D2 -> wrote_all s1 s3 (W1 ++ W2) (D1 ++ D2).
Proof.
  intros [A1 A2 A3 A4 A5] [B1 B2 B3 B4 B5]. split.
  - by etrans.
  - rewrite B2, A2. unfold apply_writes. by rewrite foldl_app.
  - by rewrite B3, A3, app_assoc.
  - intros bn. rewrite B4, wr_get_app. by apply wr_get_ext.
  - intros bn. rewrite B5, A5, filter_app, length_app. lia.
Qed.

Lemma wrote_step s s' dst v (unpin : bool) :
  blk_step s s' dst v (if unpin then -1 else 0) -> wrote_all s s' [(dst, v)] (if unpin then [dst] else []).
Proof.
  intros [A1 A2 A3 A4 A5]. split; [done|done|done|done|]. intros bn. rewrite A5.
  destruct unpin; [rewrite filter_cons, filter_nil|rewrite filter_nil]; destruct (Z.eqb_spec bn dst); cbn;
    try case_decide; cbn; try lia; congruence.
Qed.

Lemma frame_log s s' : bio_frame s s' -> k_log s' = k_log s.
Proof. intros [-> _ _]. done. Qed.

(** ** The log's data *)

Definition lblocks (l : log) : list Z := take (Z.to_nat (lh_n (lg_lh l))) (lh_block (lg_lh l)).
Definition in_log (l : log) (bn : Z) : Prop := lg_start l <= bn < lg_start l + lg_size l.

Record log_wf (l : log) : Prop := {
  lw_dev : lg_dev l = ROOTDEV;
  lw_start : 0 <= lg_start l;
  lw_end : lg_start l + lg_size l < 2 ^ 31;
  lw_n : 0 <= lh_n (lg_lh l) <= LOGSIZE;
  lw_fit : lh_n (lg_lh l) < lg_size l;
  lw_len : length (lh_block (lg_lh l)) = Z.to_nat LOGSIZE;
  lw_nodup : NoDup (lblocks l);
  lw_home : forall b, b ∈ lblocks l -> 0 <= b < 2 ^ 31 /\ ~ in_log l b
}.

Lemma length_lblocks l : log_wf l -> length (lblocks l) = Z.to_nat (lh_n (lg_lh l)).
Proof. intros [? ? ? ? ? Hl ? ?]. unfold lblocks. rewrite length_take, Hl. lia. Qed.

(** The writes of [install_trans] and [write_log] from the [k]th block on. *)
Fixpoint inst_writes (f : Z -> list Z) (st k : Z) (bs : list Z) : list (Z * list Z) :=
  match bs with
  | [] => []
  | b :: bs => (b, f (st + k + 1)) :: inst_writes f st (k + 1) bs
  end.
Fixpoint log_writes (f : Z -> list Z) (st k : Z) (bs : list Z) : list (Z * list Z) :=
  match bs with
  | [] => []
  | b :: bs => (st + k + 1, f b) :: log_writes f st (k + 1) bs
  end.

Lemma inst_writes_ext f g st k bs :
  (forall i, k <= i < k + Z.of_nat (length bs) -> f (st + i + 1) = g (st + i + 1)) ->
  inst_writes f st k bs = inst_writes g st k bs.
Proof.
  revert k. induction bs as [|b bs IH]; intros k H; [done|]. cbn [inst_writes length] in *. f_equal.
  - rewrite H by lia. done.
  - apply IH. intros i Hi. apply H. lia.
Qed.
Lemma log_writes_ext f g st k bs :
  (forall b, b ∈ bs -> f b = g b) -> log_writes f st k bs = log_writes g st k bs.
Proof.
  revert k. induction bs as [|b bs IH]; intros k H; [done|]. cbn [log_writes]. f_equal.
  - rewrite H by set_solver. done.
  - apply IH. set_solver.
Qed.

Lemma drop_lblocks l tail b bs :
  drop (Z.to_nat tail) (lblocks l) = b :: bs -> 0 <= tail ->
  lblocks l !! Z.to_nat tail = Some b /\ drop (Z.to_nat (tail + 1)) (lblocks l) = bs.
Proof.
  intros H Ht. split.
  - rewrite <- (Nat.add_0_r (Z.to_nat tail)), <- lookup_drop, H. done.
  - replace (Z.to_nat (tail + 1)) with (S (Z.to_nat tail)) by lia.
    replace (S (Z.to_nat tail)) with (Z.to_nat tail + 1)%nat by lia. by rewrite <- drop_drop, H.
Qed.

Lemma get_lh_block_ok s tail b :
  lblocks (k_log s) !! Z.to_nat tail = Some b -> get_lh_block tail s = Ret b s.
Proof.
  intros H. unfold get_lh_block. kstep. unfold lblocks in H.
  apply lookup_take_Some in H as [H _]. by rewrite H.
Qed.

(** ** The loops *)

Section Loops.
Context (p : nat) (pr : proc) (B : Z -> Prop) (l : log).
Hypothesis Hwf : log_wf l.
Hypothesis HBlog : forall bn, in_log l bn -> B bn.
Hypothesis HBhome : forall b, b ∈ lblocks l -> B b.

Lemma slot_facts tail b :
  0 <= tail -> lblocks l !! Z.to_nat tail = Some b ->
  (tail <? lh_n (lg_lh l)) = true /\ u32 (lg_dev l) = ROOTDEV /\
  u32 (lg_start l + tail + 1) = lg_start l + tail + 1 /\ u32 b = b /\
  in_log l (lg_start l + tail + 1) /\ b <> lg_start l + tail + 1 /\ b ∈ lblocks l.
Proof.
  intros Ht Hb. pose proof (length_lblocks l Hwf) as Hlen. pose proof (lookup_lt_Some _ _ _ Hb).
  apply list_elem_of_lookup_2 in Hb as Hin. destruct (lw_home l Hwf b Hin) as [Hr Hn].
  destruct Hwf. unfold in_log in *. rewrite lw_dev0. split_and!; try done; try apply u32_small; lia.
Qed.

Lemma end_loop_cond tail :
  0 <= tail -> drop (Z.to_nat tail) (lblocks l) = [] -> (tail <? lh_n (lg_lh l)) = false.
Proof.
  intros Ht Hd. pose proof (length_lblocks l Hwf) as Hlen. apply (f_equal length) in Hd.
  rewrite length_drop in Hd. cbn in Hd. pose proof (lw_n l Hwf). lia.
Qed.

Lemma install_loop recovering bs s tail :
  calm B s p pr -> k_log s = l -> 0 <= tail -> drop (Z.to_nat tail) (lblocks l) = bs ->
  (recovering = false -> forall b, b ∈ bs -> 1 <= ref s b) ->
  exists s', loop (S (length bs)) (install_step recovering) tail s = Ret tt s' /\ calm B s' p pr /\
    wrote_all s s' (inst_writes (blk s) (lg_start l) tail bs) (if recovering then [] else bs).
Proof.
  revert s tail. induction bs as [|b bs IH]; intros s tail Hc Hl Ht Hd Hpin.
  { exists s. split_and!; [|done|destruct recovering; apply wrote_all_nil]. apply loop_break.
    unfold install_step. kstep. rewrite Hl. by rewrite end_loop_cond. }
  destruct (drop_lblocks l tail b bs Hd Ht) as [Hb Hbs].
  destruct (slot_facts tail b Ht Hb) as (E1 & E2 & E3 & E4 & Hin & Hne & Hel).
  set (src := lg_start l + tail + 1) in *.
  destruct (take_two p pr B s src b Hc) as (i & j & s1 & s2 & o & R1 & R2 & F1 & T); [auto|auto|auto|].
  destruct (move_two p pr (negb recovering) B s s2 o i j src b) as
    (s3 & s4 & s5 & s6 & s7 & R3 & R4 & R5 & R6 & R7 & Hc7 & Hstep); [done|auto|auto|auto| |done|].
  { destruct recovering; [done|]. intros _. apply Hpin; [done|set_solver]. }
  destruct (IH s7 (tail + 1)) as (s' & Hrun & Hc' & Hw).
  { done. } { rewrite (frame_log s s7); [done|apply Hstep]. } { lia. } { done. }
  { intros Hr c Hcc. rewrite (bs_ref _ _ _ _ _ Hstep). subst recovering. cbn [negb].
    assert (c <> b).
    { intros ->. pose proof (lw_nodup l Hwf) as Hnd. rewrite <- (take_drop (Z.to_nat tail) (lblocks l)), Hd in Hnd.
      apply NoDup_app in Hnd as (_ & _ & Hnd). apply NoDup_cons in Hnd as [Hnd _]. done. }
    rewrite (proj2 (Z.eqb_neq c b)) by done. apply Hpin; [done|set_solver]. }
  exists s'. split_and!; [|done|].
  - assert (Hone : install_step recovering tail s = Ret (inl (tail + 1)) s7).
    { unfold install_step. kstep. rewrite Hl, E1, E2. fold src. rewrite E3. kstep_by R1.
      kstep_by get_lh_block_ok; [|by rewrite (frame_log s s1), Hl]. rewrite E4. kstep_by R2. kstep_by R3. kstep_by R4.
      erewrite bind_Ret; [|destruct recovering; exact R5]. cbn beta. kstep_by R6. kstep_by R7. done. }
    rewrite <- Hrun. exact (loop_continue _ _ _ _ _ _ Hone).
  - cbn [inst_writes]. rewrite (inst_writes_ext (blk s) (blk s7)).
    + pose proof (wrote_all_trans _ _ _ _ _ _ _ (wrote_step _ _ _ _ _ Hstep) Hw) as H. by destruct recovering.
    + intros k Hk. rewrite (bs_blk _ _ _ _ _ Hstep).
      rewrite (proj2 (Z.eqb_neq (lg_start l + k + 1) b)); [done|]. intros Heq.
      apply (lw_home l Hwf b Hel). apply (f_equal length) in Hbs. rewrite length_drop, length_lblocks in Hbs by done.
      destruct Hwf. unfold in_log. lia.
Qed.

Lemma write_log_loop bs s tail :
  calm B s p pr -> k_log s = l -> 0 <= tail -> drop (Z.to_nat tail) (lblocks l) = bs ->
  exists s', loop (S (length bs)) write_log_step tail s = Ret tt s' /\ calm B s' p pr /\
    wrote_all s s' (log_writes (blk s) (lg_start l) tail bs) [].
Proof.
  revert s tail. induction bs as [|b bs IH]; intros s tail Hc Hl Ht Hd.
  { exists s. split_and!; [|done|apply wrote_all_nil]. apply loop_break.
    unfold write_log_step. kstep. rewrite Hl. by rewrite end_loop_cond. }
  destruct (drop_lblocks l tail b bs Hd Ht) as [Hb Hbs].
  destruct (slot_facts tail b Ht Hb) as (E1 & E2 & E3 & E4 & Hin & Hne & Hel).
  set (dst := lg_start l + tail + 1) in *.
  destruct (take_two p pr B s dst b Hc) as (i & j & s1 & s2 & o & R1 & R2 & F1 & T); [auto|auto|auto|].
  apply taken_sym in T.
  destruct (move_two p pr false B s s2 o j i b dst) as
    (s3 & s4 & s5 & s6 & s7 & R3 & R4 & R5 & R6 & R7 & Hc7 & Hstep); [done|auto|auto|auto|done|done|].
  injection R5 as <-.
  destruct (IH s7 (tail + 1)) as (s' & Hrun & Hc' & Hw).
  { done. } { rewrite (frame_log s s7); [done|apply Hstep]. } { lia. } { done. }
  exists s'. split_and!; [|done|].
  - assert (Hone : write_log_step tail s = Ret (inl (tail + 1)) s7).
    { unfold write_log_step. kstep. rewrite Hl, E1, E2. fold dst. rewrite E3. kstep_by R1.
      kstep_by get_lh_block_ok; [|by rewrite (frame_log s s1), Hl]. rewrite E4. kstep_by R2. kstep_by R3. kstep_by R4.
      kstep_by R6. kstep_by R7. done. }
    rewrite <- Hrun. exact (loop_continue _ _ _ _ _ _ Hone).
  - cbn [log_writes]. rewrite (log_writes_ext (blk s) (blk s7)).
    + exact (wrote_all_trans _ _ _ _ _ _ _ (wrote_step _ _ _ _ false Hstep) Hw).
    + intros c Hcc. rewrite (bs_blk _ _ _ _ _ Hstep). rewrite (proj2 (Z.eqb_neq c dst)); [done|]. intros ->.
      apply (lw_home l Hwf dst); [|done]. rewrite <- Hbs in Hcc.
      rewrite <- (take_drop (Z.to_nat (tail + 1)) (lblocks l)). apply elem_of_app. by right.
Qed.

End Loops.

(** ** The header block *)

Fixpoint put_blocks (i : Z) (bs : list Z) (d : list Z) : list Z :=
  match bs with
  | [] => d
  | b :: bs => put_blocks (i + 1) bs (put32 (hdr_off i) b d)
  end.
Definition put_hdr (l : log) (d : list Z) : list Z :=
  put_blocks 0 (lblocks l) (put32 0 (lh_n (lg_lh l)) d).

Definition is_block (d : list Z) : Prop := length d = Z.to_nat BSIZE /\ bytes d.

Lemma hdr_off_fits i : i < LOGSIZE -> (hdr_off i + 4 <= Z.to_nat BSIZE)%nat.
Proof. unfold hdr_off, LOGSIZE, MAXOPBLOCKS, BSIZE. lia. Qed.

Lemma put_blocks_get i bs d off :
  0 <= i -> i + Z.of_nat (length bs) <= LOGSIZE -> is_block d ->
  is_block (put_blocks i bs d) /\
  ((off + 4 <= hdr_off i)%nat -> get32 (put_blocks i bs d) off = get32 d off).
Proof.
  revert i d. induction bs as [|b bs IH]; intros i d Hi Hn Hd; cbn [put_blocks length] in *; [done|].
  pose proof (hdr_off_fits i ltac:(lia)) as Hoff.
  destruct (IH (i + 1) (put32 (hdr_off i) b d)) as [H1 H2]; [lia|lia|by apply put32_ok|].
  split; [done|]. intros Ho. rewrite H2 by (unfold hdr_off in *; lia).
  apply get32_put32_ne; [by rewrite (proj1 Hd)|lia].
Qed.

Lemma put_blocks_block i bs d k b :
  0 <= i -> i + Z.of_nat (length bs) <= LOGSIZE -> is_block d -> bs !! k = Some b -> 0 <= b < 2 ^ 31 ->
  hdr_block (put_blocks i bs d) (i + Z.of_nat k) = b.
Proof.
  revert i d k. induction bs as [|b0 bs IH]; intros i d k Hi Hn Hd Hk Hb; [done|]. cbn [put_blocks length] in *.
  pose proof (hdr_off_fits i ltac:(lia)) as Hoff. destruct k as [|k]; cbn in Hk.
  - injection Hk as ->. unfold hdr_block. rewrite Z.add_0_r.
    rewrite (proj2 (put_blocks_get (i + 1) bs _ (hdr_off i) ltac:(lia) ltac:(lia) ltac:(by apply put32_ok)))
      by (unfold hdr_off; lia).
    rewrite get32_put32 by (by rewrite (proj1 Hd)). rewrite u32_small, s32_small by lia. done.
  - replace (i + Z.of_nat (S k)) with (i + 1 + Z.of_nat k) by lia.
    apply IH; [lia|lia|by apply put32_ok|done|done].
Qed.

(** What [read_head] finds is what [write_head] put there. *)
Lemma put_hdr_ok l d :
  log_wf l -> is_block d ->
  is_block (put_hdr l d) /\ hdr_n (put_hdr l d) = lh_n (lg_lh l) /\
  forall k b, lblocks l !! k = Some b -> hdr_block (put_hdr l d) (Z.of_nat k) = b.
Proof.
  intros Hwf Hd. pose proof (length_lblocks l Hwf) as Hlen. pose proof (lw_n l Hwf) as Hn.
  assert (Hd' : is_block (put32 0 (lh_n (lg_lh l)) d)) by (by apply put32_ok; [unfold BSIZE; lia|]).
  destruct (put_blocks_get 0 (lblocks l) _ 0 ltac:(lia) ltac:(lia) Hd') as [H1 H2]. split_and!.
  - done.
  - unfold hdr_n, put_hdr. rewrite H2 by (unfold hdr_off; lia).
    rewrite get32_put32 by (rewrite (proj1 Hd); unfold BSIZE; lia).
    unfold LOGSIZE, MAXOPBLOCKS in Hn. rewrite u32_small, s32_small by lia. done.
  - intros k b Hk. apply (put_blocks_block 0); [lia|lia|done|done|].
    apply (lw_home l Hwf). by eapply list_elem_of_lookup_2.
Qed.

(** The data of one owned buffer changed. *)
Record edited (s s' : kstate) (bn : Z) (v : list Z) : Prop := {
  ed_frame : bio_frame s s';
  ed_disk : k_disk s' = k_disk s;
  ed_writes : k_writes s' = k_writes s;
  ed_free : free_bufs s' = free_bufs s;
  ed_blk : forall bn', blk s' bn' = if bn' =? bn then v else blk s bn';
  ed_rl : forall bn', ref s' bn' = ref s bn' /\ lockedby s' bn' = lockedby s bn'
}.

Lemma edit_ok s o pid i bn f :
  bio_ok s o -> own s pid i bn -> is_block (f (blk s bn)) ->
  exists s', mod_buf i (fun b => set_b_data (f (b_data b)) b) s = Ret tt s' /\ bio_ok s' o /\ own s' pid i bn /\
    edited s s' bn (f (blk s bn)).
Proof.
  intros Hok Hown [H1 H2]. destruct (bset_ok s o pid i bn f Hok Hown H1 H2) as (s' & H). exists s'.
  destruct H as (? & ? & ? & ? & ? & ? & ? & ? & ? & _). by split_and!.
Qed.

Lemma edited_trans s1 s2 s3 bn v w : edited s1 s2 bn v -> edited s2 s3 bn w -> edited s1 s3 bn w.
Proof.
  intros [A1 A2 A3 A4 A5 A6] [B1 B2 B3 B4 B5 B6]. split; try congruence.
  - by etrans.
  - intros b. rewrite B5, A5. by destruct (b =? bn).
  - intros b. destruct (A6 b), (B6 b). split; congruence.
Qed.

Section Header.
Context (p : nat) (pr : proc) (B : Z -> Prop).
Abbreviation pid := (p_pid pr).

(** One buffer: taken, edited by [m], written, released. *)
Lemma edit_write s x v (m : nat -> K unit) :
  calm B s p pr -> B x ->
  (forall i s1 o, bio_ok s1 o -> own s1 pid i x -> bio_frame s s1 -> blk s1 x = blk s x ->
     exists s2, m i s1 = Ret tt s2 /\ bio_ok s2 o /\ own s2 pid i x /\ edited s1 s2 x v) ->
  exists i s1 s2 s3 s', bread ROOTDEV x s = Ret i s1 /\ m i s1 = Ret tt s2 /\ bwrite i s2 = Ret tt s3 /\
    brelse i s3 = Ret tt s' /\ calm B s' p pr /\ wrote_all s s' [(x, v)] [].
Proof.
  intros Hc HB Hm. pose proof Hc as [He [o Ho] Hl Hr Hf]. pose proof (ref_pos s o x Ho).
  destruct (bread_ok s o p pr x) as (i & s1 & R1 & O1 & W1 & [A1 A2 A3 A4 A5 A6 _] & F1); [done|done|auto|auto|lia|].
  destruct (Hm i s1 o O1 W1 A1 (A4 x)) as (s2 & R2 & O2 & W2 & [E1 E2 E3 E4 E5 E6]).
  assert (F02 : bio_frame s s2) by (by etrans).
  destruct (bwrite_ok s2 o p pr i x) as (s3 & R3 & Es3 & O3 & B3); [by eapply frame_env|done|done|].
  assert (Hv : blk s2 x = v) by (by rewrite E5, Z.eqb_refl). rewrite Hv in *.
  assert (Hp : forall bn, ref s3 bn = ref s2 bn /\ lockedby s3 bn = lockedby s2 bn) by (by rewrite Es3).
  assert (F3 : bio_frame s s3) by (etrans; [exact F02|]; rewrite Es3; by split; [destruct s2|..]).
  destruct (brelse_ok s3 o p pr i x) as (s' & o' & R4 & O4 & [C1 C2 C3 C4 C5 C6 _] & F4 & _).
  { by eapply frame_env. } { done. } { by rewrite Es3. }
  { intros _. rewrite B3, Hv, Es3. cbn. rewrite disk_get_insert, Z.eqb_refl. done. }
  assert (Hstep : blk_step s s' x v 0).
  { split.
    - by etrans.
    - rewrite C2, Es3. cbn. congruence.
    - rewrite C3, Es3. cbn. congruence.
    - intros bn. rewrite C4, B3, E5, A4. done.
    - intros bn. rewrite C5, !(proj1 (Hp _)), !(proj1 (E6 _)), !A5.
      destruct (Z.eqb_spec bn x); subst; rewrite ?Z.eqb_refl; lia. }
  exists i, s1, s2, s3, s'. split_and!; try done; [|exact (wrote_step _ _ _ _ false Hstep)].
  eapply calm_after; try done; [eauto|..].
  - intros bn. rewrite C6, (proj2 (Hp _)), (proj2 (E6 _)), A6. destruct (Z.eqb_spec bn x); subst; [by rewrite Hl|done].
  - rewrite (proj1 (Hp x)), (proj1 (E6 x)), A5, Z.eqb_refl in F4.
    assert (free_bufs s3 = free_bufs s2) by (by rewrite Es3). repeat case_match; lia.
Qed.

Lemma write_head_loop l bs i k s o :
  log_wf l -> bio_ok s o -> own s pid i (lg_start l) -> k_log s = l -> 0 <= k ->
  drop (Z.to_nat k) (lblocks l) = bs ->
  exists s', loop (S (length bs)) (write_head_step i) k s = Ret tt s' /\ bio_ok s' o /\ own s' pid i (lg_start l) /\
    edited s s' (lg_start l) (put_blocks k bs (blk s (lg_start l))).
Proof.
  intros Hwf. revert k s. induction bs as [|b bs IH]; intros k s Hok Hown Hl Hk Hd.
  { exists s. split_and!; [|done|done|split; try done]. 
    - apply loop_break. unfold write_head_step. kstep. rewrite Hl. by rewrite end_loop_cond.
    - intros bn. cbn. by destruct (Z.eqb_spec bn (lg_start l)) as [->|]. }
  destruct (drop_lblocks l k b bs Hd Hk) as [Hb Hbs]. pose proof (length_lblocks l Hwf) as Hlen.
  pose proof (lookup_lt_Some _ _ _ Hb) as Hlt. pose proof (lw_n l Hwf) as Hn.
  destruct (edit_ok s o pid i (lg_start l) (put32 (hdr_off k) b) Hok Hown) as (s1 & R1 & O1 & W1 & E1).
  { apply put32_ok; [apply hdr_off_fits; lia|by eapply blk_size]. }
  destruct (IH (k + 1) s1) as (s' & Hrun & O2 & W2 & E2); [done|done|by rewrite (frame_log s s1) by apply E1|lia|done|].
  exists s'. split_and!; [|done|done|].
  - rewrite <- Hrun. refine (loop_continue _ _ _ _ _ _ _). unfold write_head_step. kstep. rewrite Hl.
    rewrite (proj2 (Z.ltb_lt k _)) by lia. kstep_by get_lh_block_ok; [|by rewrite Hl]. kstep_by R1. done.
  - cbn [put_blocks]. rewrite (ed_blk _ _ _ _ E1), Z.eqb_refl in E2. by eapply edited_trans.
Qed.

Lemma write_head_ok s l :
  calm B s p pr -> k_log s = l -> log_wf l -> B (lg_start l) ->
  exists s', write_head s = Ret tt s' /\ calm B s' p pr /\
    wrote_all s s' [(lg_start l, put_hdr l (blk s (lg_start l)))] [].
Proof.
  intros Hc Hl Hwf HB. pose proof (c_bio _ _ _ _ Hc) as [o0 Ho0].
  destruct (edit_write s (lg_start l) (put_hdr l (blk s (lg_start l))) (fun i =>
    mod_buf i (fun bf => set_b_data (put32 0 (lh_n (lg_lh l)) (b_data bf)) bf) ;;
    loop (S (Z.to_nat (lh_n (lg_lh l)))) (write_head_step i) 0) Hc HB)
    as (i & s1 & s2 & s3 & s' & R1 & R2 & R3 & R4 & Hc' & Hw).
  { intros i s1 o O1 W1 F1 Hb1.
    destruct (edit_ok s1 o pid i (lg_start l) (put32 0 (lh_n (lg_lh l))) O1 W1) as (s2 & R2 & O2 & W2 & E2).
    { apply put32_ok; [unfold BSIZE; lia|by eapply blk_size]. }
    destruct (write_head_loop l (lblocks l) i 0 s2 o) as (s3 & R3 & O3 & W3 & E3); try done.
    { rewrite (frame_log s1 s2), (frame_log s s1); [done|done|apply E2]. }
    exists s3. split_and!; [|done|done|].
    - kstep_by R2. rewrite length_lblocks in R3 by done. done.
    - rewrite (ed_blk _ _ _ _ E2), Z.eqb_refl, Hb1 in E3. by eapply edited_trans. }
  exists s'. split_and!; [|done|done].
  unfold write_head. kstep. rewrite Hl. destruct Hwf as [Hdev ? ? ? ? ? ? ?].
  rewrite Hdev, (u32_small (lg_start l)) by lia. change (u32 ROOTDEV) with ROOTDEV. kstep_by R1.
  apply bind_inv_Ret in R2 as ([] & s1' & R2a & R2b). kstep_by R2a. kstep_by R2b. kstep_by R3. done.
Qed.

End Header.

(** ** Commit *)

Lemma bio_ok_log l s o : bio_ok s o -> bio_ok (set_k_log l s) o.
Proof. intros []. by split. Qed.
Lemma env_ok_log l s p pr : env_ok s p pr -> env_ok (set_k_log l s) p pr.
Proof. intros []. by split. Qed.
Lemma calm_log l B s p pr : calm B s p pr -> calm B (set_k_log l s) p pr.
Proof.
  intros [H1 [o H2] H3 H4 H5]. split; try done; [by apply env_ok_log|]. exists o. by apply bio_ok_log.
Qed.

(** A run from a state that differs in [log] only. *)
Lemma wrote_log l s s' W D :
  wrote_all (set_k_log l s) s' W D ->
  wrote_all s (set_k_log (k_log s) s') W D /\ s' = set_k_log l (set_k_log (k_log s) s').
Proof.
  intros [[A1 A2 A3] B1 C1 D1 E1]. split.
  - split; try done. split; try done. rewrite A1 at 1. by destruct s, s'.
  - rewrite A1 at 1. rewrite A1. by destruct s.
Qed.

Definition cleared (l : log) : log := set_lg_lh (set_lh_n 0 (lg_lh l)) l.

Lemma cleared_wf l : log_wf l -> log_wf (cleared l).
Proof.
  intros []. split; try done; cbn; try lia.
  - constructor.
  - intros b Hb. by apply not_elem_of_nil in Hb.
Qed.

(** The blocks of the transaction and where they end up. *)
Definition homes (s : kstate) (bs : list Z) : list (Z * list Z) := (fun b => (b, blk s b)) <$> bs.

Lemma log_writes_fst f st k bs x : x ∈ (log_writes f st k bs).*1 -> st + k + 1 <= x < st + k + 1 + Z.of_nat (length bs).
Proof.
  revert k. induction bs as [|b bs IH]; intros k; cbn [log_writes length fmap list_fmap fst].
  - intros H. by apply not_elem_of_nil in H.
  - intros [->|H]%elem_of_cons; [lia|]. apply IH in H. lia.
Qed.

Lemma log_writes_get f g st k bs i b :
  bs !! i = Some b -> wr_get g (log_writes f st k bs) (st + k + Z.of_nat i + 1) = f b.
Proof.
  revert g k i. induction bs as [|b0 bs IH]; intros g k i Hi; [done|]. cbn [log_writes wr_get foldl fst snd].
  destruct i as [|i]; cbn in Hi.
  - injection Hi as ->. change (foldl _ _ _) with (wr_get (fun bn => if bn =? st + k + 1 then f b else g bn) (log_writes f st (k + 1) bs)).
    rewrite wr_get_other by (intros H; apply log_writes_fst in H; lia).
    by rewrite Z.add_0_r, Z.eqb_refl.
  - replace (st + k + Z.of_nat (S i) + 1) with (st + (k + 1) + Z.of_nat i + 1) by lia. by apply IH.
Qed.

(** Installing what was just logged puts each block home. *)
Lemma inst_after_log f g st k bs :
  (forall i b, bs !! i = Some b -> g (st + k + Z.of_nat i + 1) = f b) ->
  inst_writes g st k bs = (fun b => (b, f b)) <$> bs.
Proof.
  revert k. induction bs as [|b bs IH]; intros k H; [done|]. cbn [inst_writes fmap list_fmap]. f_equal.
  - f_equal. rewrite <- (H 0%nat b) by done. f_equal. lia.
  - apply IH. intros i c Hc. rewrite <- (H (S i) c) by done. f_equal. lia.
Qed.

Definition commit_writes (s : kstate) (l : log) (h h0 : list Z) : list (Z * list Z) :=
  log_writes (blk s) (lg_start l) 0 (lblocks l) ++ [(lg_start l, h)] ++ homes s (lblocks l) ++ [(lg_start l, h0)].

Lemma commit_ok B s p pr l :
  calm B s p pr -> k_log s = l -> log_wf l -> 0 < lh_n (lg_lh l) ->
  (forall bn, in_log l bn -> B bn) -> (forall b, b ∈ lblocks l -> B b /\ 1 <= ref s b) ->
  exists s' h h0, commit s = Ret tt (set_k_log (cleared l) s') /\ calm B s' p pr /\
    wrote_all s s' (commit_writes s l h h0) (lblocks l) /\ is_block h0 /\ hdr_n h0 = 0 /\
    is_block h /\ hdr_n h = lh_n (lg_lh l) /\ forall k b, lblocks l !! k = Some b -> hdr_block h (Z.of_nat k) = b.
Proof.
  intros Hc Hl Hwf Hn HBl HBh. pose proof (length_lblocks l Hwf) as Hlen.
  assert (HBst : B (lg_start l)) by (apply HBl; unfold in_log; destruct Hwf; lia).
  destruct (write_log_loop p pr B l Hwf HBl (fun b Hb => proj1 (HBh b Hb)) (lblocks l) s 0) as (s1 & R1 & C1 & W1); [done..|].
  assert (Hl1 : k_log s1 = l) by (by rewrite (frame_log s s1); [|apply W1]).
  destruct (write_head_ok p pr B s1 l C1 Hl1 Hwf HBst) as (s2 & R2 & C2 & W2).
  assert (Hl2 : k_log s2 = l) by (by rewrite (frame_log s1 s2); [|apply W2]).
  pose proof (wrote_all_trans _ _ _ _ _ _ _ W1 W2) as W12. cbn [app] in W12.
  assert (HP : forall b, b ∈ lblocks l -> 1 <= ref s2 b).
  { intros b Hb. rewrite (wa_ref _ _ _ _ W12), filter_nil. cbn [length]. destruct (HBh b Hb). lia. }
  destruct (install_loop p pr B l Hwf HBl (fun b Hb => proj1 (HBh b Hb)) false (lblocks l) s2 0) as (s3 & R3 & C3 & W3); [done..|].
  assert (Hl3 : k_log s3 = l) by (by rewrite (frame_log s2 s3); [|apply W3]).
  pose proof (wrote_all_trans _ _ _ _ _ _ _ W12 W3) as W123.
  destruct (write_head_ok p pr B (set_k_log (cleared l) s3) (cleared l)) as (s4 & R4 & C4 & W4).
  { by apply calm_log. } { done. } { by apply cleared_wf. } { done. }
  destruct (wrote_log _ _ _ _ _ W4) as [W4' E4]. rewrite Hl3 in *.
  pose proof (wrote_all_trans _ _ _ _ _ _ _ W123 W4') as W.
  pose proof (c_bio _ _ _ _ C1) as [o1 O1]. pose proof (c_bio _ _ _ _ C3) as [o3 O3].
  destruct (put_hdr_ok l (blk s1 (lg_start l)) Hwf) as (P1 & P2 & P3); [by eapply blk_size|].
  destruct (put_hdr_ok (cleared l) (blk s3 (lg_start l)) (cleared_wf l Hwf)) as (Q1 & Q2 & _); [by eapply blk_size|].
  exists (set_k_log l s4), (put_hdr l (blk s1 (lg_start l))), (put_hdr (cleared l) (blk s3 (lg_start l))).
  split_and!; try done; [|by apply calm_log|].
  - unfold commit. kstep. rewrite Hl, (proj2 (Z.gtb_lt _ 0)) by done.
    erewrite bind_Ret; [|unfold write_log; kstep; rewrite Hl, <- Hlen; exact R1]. cbn beta.
    kstep_by R2. erewrite bind_Ret; [|unfold install_trans; kstep; rewrite Hl2, <- Hlen; exact R3]. cbn beta.
    unfold mod_lh, mod_log. kstep. rewrite Hl3. rewrite <- E4. exact R4.
  - rewrite app_nil_r in W. rewrite (inst_after_log (blk s)) in W.
    { unfold commit_writes, homes. rewrite <- !app_assoc in W. exact W. }
    intros i b Hi. rewrite (wa_blk _ _ _ _ W12), wr_get_app. cbn.
    rewrite (proj2 (Z.eqb_neq _ (lg_start l))) by lia. rewrite <- (log_writes_get (blk s) (blk s) (lg_start l) 0 _ i b Hi). done.
Qed.
