(* ===== verification/Crash.v ===== *)
(** * Crashes and recovery

    What a disk holds once recovery has run over it ([recovered]), the run of
    [initlog], and why a crash at any write of a commit or of a recovery leaves
    a disk that recovers to all of the transaction or to none of it. *)

From stdpp Require Import base list gmap strings.
From Stdlib Require Import ZArith Lia.
From S2P Require Import Prelude Mem Riscv State Sched Bio Bcache Log Commit.
Open Scope Z_scope.

(** ** Reading the header *)

Fixpoint hdr_from (h : list Z) (k : Z) (n : nat) : list Z :=
  match n with O => [] | S n => hdr_block h k :: hdr_from h (k + 1) n end.
Definition hdr_blocks (h : list Z) : list Z := hdr_from h 0 (Z.to_nat (hdr_n h)).

Fixpoint rd_blocks (h : list Z) (k : Z) (n : nat) (bl : list Z) : list Z :=
  match n with O => bl | S n => rd_blocks h (k + 1) n (<[Z.to_nat k := hdr_block h k]> bl) end.
Definition rd_hdr (h : list Z) (l : log) : log :=
  set_lg_lh (mk_logheader (hdr_n h) (rd_blocks h 0 (Z.to_nat (hdr_n h)) (lh_block (lg_lh l)))) l.

Lemma length_rd_blocks h k n bl : length (rd_blocks h k n bl) = length bl.
Proof. revert k bl. induction n as [|n IH]; intros k bl; [done|]. cbn. by rewrite IH, length_insert. Qed.

Lemma take_rd_blocks h k n bl :
  0 <= k -> (Z.to_nat k + n <= length bl)%nat ->
  take (Z.to_nat k + n) (rd_blocks h k n bl) = take (Z.to_nat k) bl ++ hdr_from h k n.
Proof.
  revert k bl. induction n as [|n IH]; intros k bl Hk Hn; cbn [rd_blocks hdr_from].
  - by rewrite Nat.add_0_r, app_nil_r.
  - replace (Z.to_nat k + S n)%nat with (Z.to_nat (k + 1) + n)%nat by lia.
    rewrite IH by (rewrite ?length_insert; lia).
    replace (Z.to_nat (k + 1)) with (S (Z.to_nat k)) by lia.
    rewrite (take_S_r _ _ (hdr_block h k)) by (apply list_lookup_insert_eq; lia).
    rewrite take_insert_ge by lia. by rewrite <- app_assoc.
Qed.

(** A header that names at most LOGSIZE distinct blocks, none in the log. *)
Record hdr_wf (st size : Z) (h : list Z) : Prop := {
  hw_n : 0 <= hdr_n h <= LOGSIZE;
  hw_fit : hdr_n h < size;
  hw_nodup : NoDup (hdr_blocks h);
  hw_home : forall b, b ∈ hdr_blocks h -> 0 <= b < 2 ^ 31 /\ ~ (st <= b < st + size)
}.

Lemma rd_hdr_wf h l :
  hdr_wf (lg_start l) (lg_size l) h -> lg_dev l = ROOTDEV -> 0 <= lg_start l -> lg_start l + lg_size l < 2 ^ 31 ->
  length (lh_block (lg_lh l)) = Z.to_nat LOGSIZE ->
  log_wf (rd_hdr h l) /\ lblocks (rd_hdr h l) = hdr_blocks h.
Proof.
  intros [Hn Hf Hnd Hh] Hd Hs He Hl.
  assert (Hb : lblocks (rd_hdr h l) = hdr_blocks h).
  { unfold lblocks. cbn. pose proof (take_rd_blocks h 0 (Z.to_nat (hdr_n h)) (lh_block (lg_lh l))) as H.
    cbn [Z.to_nat Nat.add take app] in H. apply H; lia. }
  split; [|done]. split; rewrite ?Hb; cbn; try done. by rewrite length_rd_blocks.
Qed.

Lemma read_head_loop i bf n k l s :
  k_bufs s !! i = Some bf -> 0 <= k -> k + Z.of_nat n = lh_n (lg_lh l) -> lh_n (lg_lh l) <= LOGSIZE ->
  loop (S n) (read_head_step i) k (set_k_log l s) =
  Ret tt (set_k_log (set_lg_lh (set_lh_block (rd_blocks (b_data bf) k n (lh_block (lg_lh l))) (lg_lh l)) l) s).
Proof.
  intros Hb. revert k l. induction n as [|n IH]; intros k l Hk Hn Hm.
  - apply loop_break. unfold read_head_step. kstep. cbn [k_log set_k_log].
    rewrite (proj2 (Z.ltb_ge k _)) by lia. unfold mret, m_ret. do 2 f_equal. destruct l as [? ? ? ? ? []]. done.
  - set (l1 := set_lg_lh (set_lh_block (<[Z.to_nat k := hdr_block (b_data bf) k]> (lh_block (lg_lh l))) (lg_lh l)) l).
    assert (H1 : read_head_step i k (set_k_log l s) = Ret (inl (k + 1)) (set_k_log l1 s)).
    { unfold read_head_step. kstep. cbn [k_log set_k_log]. rewrite (proj2 (Z.ltb_lt k _)) by lia.
      kstep. unfold set_lh_block_at. rewrite decide_True by lia. unfold mod_lh, mod_log. kstep. done. }
    rewrite (loop_continue _ _ _ _ _ _ H1), (IH (k + 1) l1); [done|lia|cbn; lia|cbn; lia].
Qed.

Lemma frame_swap l s s' :
  bio_frame (set_k_log l s) s' ->
  bio_frame s (set_k_log (k_log s) s') /\ s' = set_k_log l (set_k_log (k_log s) s').
Proof.
  intros [A1 A2 A3]. split.
  - split; try done. rewrite A1 at 1. by destruct s, s'.
  - rewrite A1 at 1. rewrite A1. by destruct s.
Qed.

Lemma read_head_ok B s p pr l :
  calm B s p pr -> k_log s = l -> lg_dev l = ROOTDEV -> 0 <= lg_start l < 2 ^ 31 -> B (lg_start l) ->
  0 <= hdr_n (blk s (lg_start l)) <= LOGSIZE ->
  exists s', read_head s = Ret tt (set_k_log (rd_hdr (blk s (lg_start l)) l) s') /\ calm B s' p pr /\ wrote_all s s' [] [].
Proof.
  intros Hc Hl Hdev Hst HB Hn. pose proof Hc as [He [o Ho] Hlk Hr Hf]. pose proof (ref_pos s o (lg_start l) Ho).
  set (x := lg_start l) in *.
  destruct (bread_ok s o p pr x) as (i & s1 & R1 & O1 & W1 & [A1 A2 A3 A4 A5 A6 _] & F1); [done|done|auto|auto|lia|].
  destruct (own_facts _ _ _ _ _ O1 W1) as (bf & Hi & Hb & _ & _ & _ & _ & _ & Hblk & _).
  set (l' := rd_hdr (blk s x) l). assert (Hl1 : k_log s1 = l) by (by rewrite (frame_log s s1)).
  destruct (brelse_ok (set_k_log l' s1) o p pr i x) as (s2 & o2 & R2 & O2 & [C1 C2 C3 C4 C5 C6 _] & F2 & _).
  { apply env_ok_log. by eapply frame_env. } { by apply bio_ok_log. } { done. }
  { intros H1. change (ref s1 x = 1) in H1. change (blk s1 x = disk_get (k_disk s1) x).
    rewrite A5, Z.eqb_refl in H1. rewrite A4, A2. apply (blk_clean s o); [done|lia]. }
  destruct (frame_swap _ _ _ C1) as [F' E2]. rewrite Hl1 in *.
  exists (set_k_log l s2). assert (Hw : wrote_all s (set_k_log l s2) [] []).
  { split.
    - by etrans.
    - etrans; [exact C2|exact A2].
    - rewrite app_nil_r. etrans; [exact C3|exact A3].
    - intros bn. etrans; [exact (C4 bn)|]. apply A4.
    - intros bn. etrans; [exact (C5 bn)|]. change (ref (set_k_log l' s1)) with (ref s1). rewrite !A5, filter_nil.
      cbn [length]. destruct (Z.eqb_spec bn x); subst; rewrite ?Z.eqb_refl; lia. }
  split_and!; [|split|done].
  - unfold read_head. kstep. rewrite Hl, Hdev. change (u32 ROOTDEV) with ROOTDEV.
    rewrite (u32_small (lg_start l)) by lia. kstep_by R1. kstep. unfold mod_lh, mod_log. kstep.
    rewrite Hl1, <- Hblk, A4.
    pose proof (read_head_loop i bf (Z.to_nat (hdr_n (blk s x))) 0
      (set_lg_lh (set_lh_n (hdr_n (blk s x)) (lg_lh l)) l) s1 Hb) as Hloop.
    rewrite <- Hblk, A4 in Hloop. cbn in Hloop. kstep_by Hloop; [|lia..].
    rewrite <- E2. exact R2.
  - eapply frame_env; [apply Hw|done].
  - exists o2. by apply bio_ok_log.
  - intros bn HBn. etrans; [exact (C6 bn)|]. change (lockedby (set_k_log l' s1)) with (lockedby s1). rewrite A6.
    destruct (bn =? x); auto.
  - intros bn HBn. rewrite (wa_ref _ _ _ _ Hw), filter_nil. cbn [length]. specialize (Hr bn HBn). lia.
  - change (2 <= free_bufs s2)%nat. change (ref (set_k_log l' s1) x) with (ref s1 x) in F2.
    change (free_bufs (set_k_log l' s1)) with (free_bufs s1) in F2. rewrite A5, Z.eqb_refl in F2.
    repeat case_match; lia.
Qed.

(** ** Recovery *)

(** What the blocks of disk [d] hold once the log of header [st] is installed. *)
Definition recovered (st : Z) (d : gmap Z (list Z)) : Z -> list Z :=
  wr_get (disk_get d) (inst_writes (disk_get d) st 0 (hdr_blocks (disk_get d st))).

Definition recovery_writes (st : Z) (d : gmap Z (list Z)) (h0 : list Z) : list (Z * list Z) :=
  inst_writes (disk_get d) st 0 (hdr_blocks (disk_get d st)) ++ [(st, h0)].

Lemma length_hdr_from h k n : length (hdr_from h k n) = n.
Proof. revert k. induction n as [|n IH]; intros k; [done|]. cbn. by rewrite IH. Qed.

(** Nothing is cached but what the disk holds, as after a reboot. *)
Definition uncached (s : kstate) : Prop := forall bn, blk s bn = disk_get (k_disk s) bn.

Lemma recover_ok B s p pr l :
  calm B s p pr -> uncached s -> k_log s = l -> lg_dev l = ROOTDEV -> 0 <= lg_start l ->
  lg_start l + lg_size l < 2 ^ 31 -> length (lh_block (lg_lh l)) = Z.to_nat LOGSIZE ->
  let h := disk_get (k_disk s) (lg_start l) in
  hdr_wf (lg_start l) (lg_size l) h ->
  (forall bn, in_log l bn -> B bn) -> (forall b, b ∈ hdr_blocks h -> B b) ->
  exists s' h0, recover_from_log s = Ret tt (set_k_log (cleared (rd_hdr h l)) s') /\ calm B s' p pr /\
    wrote_all s s' (recovery_writes (lg_start l) (k_disk s) h0) [] /\ is_block h0 /\ hdr_n h0 = 0.
Proof.
  intros Hc Hu Hl Hdev Hst Hend Hlen h Hh HBl HBh. pose proof Hh as [Hn Hfit _ _].
  assert (HBst : B (lg_start l)) by (apply HBl; unfold in_log; lia).
  destruct (rd_hdr_wf h l Hh Hdev Hst Hend Hlen) as [Hwf Hbs]. set (l1 := rd_hdr h l) in *.
  destruct (read_head_ok B s p pr l Hc Hl Hdev) as (s1 & R1 & C1 & W1).
  { unfold LOGSIZE in *. lia. } { done. } { by rewrite Hu. } rewrite Hu in R1. fold h l1 in R1.
  assert (Hdrop : drop (Z.to_nat 0) (lblocks l1) = hdr_blocks h) by (rewrite Hbs; done).
  assert (HBh1 : forall b, b ∈ lblocks l1 -> B b) by (rewrite Hbs; done).
  destruct (install_loop p pr B l1 Hwf HBl HBh1 true (hdr_blocks h) (set_k_log l1 s1) 0) as (s2 & R2 & C2 & W2);
    [by apply calm_log|done|done|done|done|].
  destruct (wrote_log _ _ _ _ _ W2) as [W2' E2]. pose proof (wrote_all_trans _ _ _ _ _ _ _ W1 W2') as W12.
  destruct (write_head_ok p pr B (set_k_log (cleared l1) s2) (cleared l1)) as (s3 & R3 & C3 & W3).
  { by apply calm_log. } { done. } { by apply cleared_wf. } { done. }
  assert (W3' : wrote_all (set_k_log (k_log s1) s2) (set_k_log (k_log s1) s3)
     [(lg_start (cleared l1), put_hdr (cleared l1) (blk s2 (lg_start (cleared l1))))] []).
  { apply (proj1 (wrote_log (cleared l1) (set_k_log (k_log s1) s2) s3 _ _ W3)). }
  pose proof (wrote_all_trans _ _ _ _ _ _ _ W12 W3') as W.
  pose proof (c_bio _ _ _ _ C2) as [o2 O2].
  destruct (put_hdr_ok (cleared l1) (blk s2 (lg_start l1)) (cleared_wf l1 Hwf)) as (Q1 & Q2 & _); [by eapply blk_size|].
  exists (set_k_log (k_log s1) s3), (put_hdr (cleared l1) (blk s2 (lg_start l1))).
  split_and!; try done; [|by apply calm_log|].
  - unfold recover_from_log. kstep_by R1.
    erewrite bind_Ret.
    2: { unfold install_trans. kstep. change (lh_n (lg_lh (k_log (set_k_log l1 s1)))) with (hdr_n h).
         rewrite <- (length_hdr_from h 0 (Z.to_nat (hdr_n h))). exact R2. }
    cbn beta. unfold mod_lh, mod_log. kstep.
    assert (k_log s2 = l1) as -> by (by rewrite E2).
    change (write_head (set_k_log (cleared l1) s2) = Ret tt (set_k_log (cleared l1) (set_k_log (k_log s1) s3))).
    rewrite R3. f_equal. apply (wrote_log (cleared l1) s2 s3 _ _ W3).
  - rewrite (inst_writes_ext _ (disk_get (k_disk s))) in W; [exact W|].
    intros i _. change (blk (set_k_log l1 s1)) with (blk s1). rewrite (wa_blk _ _ _ _ W1). apply Hu.
Qed.

(** ** Disks after a crash *)

Lemma wr_get_in f g W bn : bn ∈ W.*1 -> wr_get f W bn = wr_get g W bn.
Proof.
  revert f g. induction W as [|w W IH]; intros f g H; [by apply not_elem_of_nil in H|].
  cbn [fmap list_fmap] in H. change (wr_get f (w :: W) bn) with (wr_get (fun x => if x =? w.1 then w.2 else f x) W bn).
  change (wr_get g (w :: W) bn) with (wr_get (fun x => if x =? w.1 then w.2 else g x) W bn).
  destruct (decide (bn ∈ W.*1)) as [Hin|Hn]; [by apply IH|].
  apply elem_of_cons in H as [->|?]; [|done]. rewrite !wr_get_other by done. by rewrite Z.eqb_refl.
Qed.

Lemma inst_writes_fst f st k bs : (inst_writes f st k bs).*1 = bs.
Proof. revert k. induction bs as [|b bs IH]; intros k; [done|]. cbn. by rewrite IH. Qed.

Lemma disk_get_block_other d W bn : bn ∉ W.*1 -> disk_get (apply_writes d W) bn = disk_get d bn.
Proof. intros H. rewrite disk_get_apply. by apply wr_get_other. Qed.

Lemma prefix_fst (W1 W : list (Z * list Z)) bn : W1 `prefix_of` W -> bn ∈ W1.*1 -> bn ∈ W.*1.
Proof. intros [k ->] H. rewrite fmap_app. apply elem_of_app. by left. Qed.

Lemma hdr_blocks_length h : 0 <= hdr_n h -> Z.of_nat (length (hdr_blocks h)) = hdr_n h.
Proof. intros H. unfold hdr_blocks. rewrite length_hdr_from. lia. Qed.

Lemma hdr_from_lookup h k n i : (i < n)%nat -> hdr_from h k n !! i = Some (hdr_block h (k + Z.of_nat i)).
Proof.
  revert k i. induction n as [|n IH]; intros k i Hi; [lia|]. cbn [hdr_from]. destruct i as [|i]; cbn.
  - by rewrite Z.add_0_r.
  - rewrite IH by lia. do 2 f_equal. lia.
Qed.

Lemma hdr_blocks_eq h bs :
  hdr_n h = Z.of_nat (length bs) -> (forall k b, bs !! k = Some b -> hdr_block h (Z.of_nat k) = b) ->
  hdr_blocks h = bs.
Proof.
  intros Hn Hb. unfold hdr_blocks. rewrite Hn, Nat2Z.id. apply list_eq. intros i.
  destruct (bs !! i) as [b|] eqn:E.
  - rewrite hdr_from_lookup by (by eapply lookup_lt_Some). f_equal. by apply Hb.
  - apply lookup_ge_None. rewrite length_hdr_from. by apply lookup_ge_None.
Qed.

Section Disks.
Context (st size : Z).
Definition home (bn : Z) : Prop := ~ (st <= bn < st + size).

Lemma recovered_empty d bn : hdr_n (disk_get d st) = 0 -> recovered st d bn = disk_get d bn.
Proof. intros H. unfold recovered, hdr_blocks. by rewrite H. Qed.

(** Part of an installation changes nothing for the next recovery. *)
Lemma recovered_install d W1 bn :
  hdr_wf st size (disk_get d st) -> W1 `prefix_of` inst_writes (disk_get d) st 0 (hdr_blocks (disk_get d st)) ->
  recovered st (apply_writes d W1) bn = recovered st d bn /\ disk_get (apply_writes d W1) st = disk_get d st.
Proof.
  intros [Hn Hf _ Hh] Hp.
  assert (Hout : forall x, st <= x < st + size -> disk_get (apply_writes d W1) x = disk_get d x).
  { intros x Hx. apply disk_get_block_other. intros Hin. apply (prefix_fst _ _ _ Hp) in Hin.
    rewrite inst_writes_fst in Hin. by destruct (Hh x Hin) as [_ ?]. }
  assert (Hst : disk_get (apply_writes d W1) st = disk_get d st) by (apply Hout; lia).
  split; [|done]. unfold recovered. rewrite Hst.
  rewrite (inst_writes_ext (disk_get (apply_writes d W1)) (disk_get d)).
  2: { intros i Hi. apply Hout. rewrite hdr_blocks_length in Hi by lia. lia. }
  set (W := inst_writes _ _ _ _) in *. destruct (decide (bn ∈ W.*1)) as [Hin|Hni]; [by apply wr_get_in|].
  rewrite !wr_get_other by done. apply disk_get_block_other. intros Hin. by apply (prefix_fst _ W) in Hin.
Qed.

Lemma prefix_snoc_case {A} (W1 W : list A) x : W1 `prefix_of` W ++ [x] -> W1 `prefix_of` W \/ W1 = W ++ [x].
Proof.
  intros Hp. destruct (decide (length W1 <= length W)%nat) as [Hl|Hl].
  - left. destruct Hp as [k Hk]. exists (drop (length W1) W).
    rewrite <- (take_drop (length W1) W) at 1. f_equal.
    apply (f_equal (take (length W1))) in Hk. rewrite take_app_le, take_app_length in Hk by done. done.
  - right. apply prefix_length_eq; [done|]. rewrite length_app. cbn. lia.
Qed.

Definition empty_hdr (h : list Z) : Prop := hdr_n h = 0.

Lemma empty_hdr_wf h : 0 < size -> empty_hdr h -> hdr_wf st size h.
Proof.
  intros Hs H. assert (hdr_blocks h = []) as E by (unfold hdr_blocks; by rewrite H).
  split; rewrite ?H, ?E; [unfold LOGSIZE, MAXOPBLOCKS; lia|done|constructor|].
  intros b Hb. by apply not_elem_of_nil in Hb.
Qed.

(** A crash during recovery: the next recovery does the same. *)
Lemma recovery_prefix d h0 W1 :
  hdr_wf st size (disk_get d st) -> empty_hdr h0 -> W1 `prefix_of` recovery_writes st d h0 ->
  hdr_wf st size (disk_get (apply_writes d W1) st) /\
  forall bn, home bn -> recovered st (apply_writes d W1) bn = recovered st d bn.
Proof.
  intros Hwf Hh0 Hp. pose proof Hwf as [Hn Hf _ Hh]. apply prefix_snoc_case in Hp as [Hp| ->].
  - split; [by rewrite (proj2 (recovered_install d W1 0 Hwf Hp))|]. intros bn _. by apply recovered_install.
  - assert (Hst : disk_get (apply_writes d (inst_writes (disk_get d) st 0 (hdr_blocks (disk_get d st)) ++ [(st, h0)])) st = h0).
    { rewrite disk_get_apply, wr_get_app. cbn. by rewrite Z.eqb_refl. }
    split; [rewrite Hst; apply empty_hdr_wf; [lia|done]|]. intros bn Hbn.
    rewrite recovered_empty by (by rewrite Hst). rewrite disk_get_apply, wr_get_app. cbn.
    unfold home in Hbn. rewrite (proj2 (Z.eqb_neq bn st)) by lia. done.
Qed.

Lemma recovery_done d h0 bn :
  hdr_wf st size (disk_get d st) -> home bn ->
  disk_get (apply_writes d (recovery_writes st d h0)) bn = recovered st d bn.
Proof.
  intros [Hn Hf _ _] Hbn. unfold recovery_writes. rewrite disk_get_apply, wr_get_app. cbn.
  unfold home in Hbn. rewrite (proj2 (Z.eqb_neq bn st)) by lia. done.
Qed.
End Disks.

Lemma prefix_mid {A} (W1 W2 : list A) x W : W1 `prefix_of` W2 ++ x :: W ->
  W1 `prefix_of` W2 \/ exists W3, W1 = W2 ++ x :: W3 /\ W3 `prefix_of` W.
Proof.
  revert W1. induction W2 as [|y W2 IH]; intros [|z W1] Hp.
  - left. done.
  - right. cbn in Hp. apply prefix_cons_inv_1 in Hp as Hz. apply prefix_cons_inv_2 in Hp. subst. by exists W1.
  - left. apply prefix_nil.
  - cbn in Hp. apply prefix_cons_inv_1 in Hp as Hz. apply prefix_cons_inv_2 in Hp. subst.
    destruct (IH W1 Hp) as [H|(W3 & -> & H)]; [left; by apply prefix_cons|right; by exists W3].
Qed.

Lemma homes_get f s bs bn : bn ∈ bs -> wr_get f (homes s bs) bn = blk s bn.
Proof.
  revert f. induction bs as [|b bs IH]; intros f H; [by apply not_elem_of_nil in H|].
  destruct (decide (bn ∈ bs)) as [Hin|Hni]; [by apply IH|].
  apply elem_of_cons in H as [->|?]; [|done].
  change (wr_get (fun x => if x =? b then blk s b else f x) (homes s bs) b = blk s b).
  rewrite wr_get_other; [by rewrite Z.eqb_refl|].
  unfold homes. rewrite <- list_fmap_compose. cbn. by rewrite list_fmap_id.
Qed.

Section CommitCrash.
Context (s : kstate) (l : log) (h h0 : list Z).
Abbreviation st := (lg_start l).
Abbreviation d := (k_disk s).
Hypothesis Hwf : log_wf l.
Hypothesis Hold : empty_hdr (disk_get d st).
Hypothesis Hn : hdr_n h = lh_n (lg_lh l).
Hypothesis Hb : forall k b, lblocks l !! k = Some b -> hdr_block h (Z.of_nat k) = b.
Hypothesis Hh0 : empty_hdr h0.

Definition committed (bn : Z) : list Z := if decide (bn ∈ lblocks l) then blk s bn else disk_get d bn.
Definition logged_disk : gmap Z (list Z) :=
  apply_writes d (log_writes (blk s) st 0 (lblocks l) ++ [(st, h)]).

Lemma logged_st : disk_get logged_disk st = h.
Proof. unfold logged_disk. rewrite disk_get_apply, wr_get_app. cbn. by rewrite Z.eqb_refl. Qed.

Lemma logged_hdr : hdr_blocks h = lblocks l /\ hdr_wf st (lg_size l) h.
Proof.
  pose proof (length_lblocks l Hwf) as Hlen. destruct Hwf.
  assert (E : hdr_blocks h = lblocks l) by (apply hdr_blocks_eq; [rewrite Hn, Hlen; lia|done]).
  split; [done|]. split; rewrite ?E, ?Hn; done.
Qed.

Lemma logged_inst : recovery_writes st logged_disk h0 = homes s (lblocks l) ++ [(st, h0)].
Proof.
  unfold recovery_writes. f_equal. rewrite logged_st, (proj1 logged_hdr). apply inst_after_log.
  intros i b Hi. unfold logged_disk. rewrite disk_get_apply, wr_get_app. cbn.
  rewrite (proj2 (Z.eqb_neq _ st)) by lia. apply (log_writes_get (blk s) _ st 0 _ i b Hi).
Qed.

Lemma logged_recovers bn : home st (lg_size l) bn -> recovered st logged_disk bn = committed bn.
Proof.
  intros Hbn. unfold home in Hbn. pose proof (length_lblocks l Hwf) as Hlen. destruct Hwf.
  rewrite <- (recovery_done st (lg_size l) _ h0 bn) by (rewrite ?logged_st; first [done|apply logged_hdr]).
  rewrite logged_inst, disk_get_apply, wr_get_app. cbn. rewrite (proj2 (Z.eqb_neq bn st)) by lia.
  unfold committed. case_decide as Hin; [by apply homes_get|].
  rewrite wr_get_other.
  2: { unfold homes. rewrite <- list_fmap_compose. cbn. by rewrite list_fmap_id. }
  unfold logged_disk. rewrite disk_get_apply, wr_get_app. cbn. rewrite (proj2 (Z.eqb_neq bn st)) by lia.
  apply wr_get_other. intros Hw. apply log_writes_fst in Hw. lia.
Qed.

Lemma length_log_writes f k bs : length (log_writes f st k bs) = length bs.
Proof. revert k. induction bs as [|b bs IH]; intros k; [done|]. cbn. by rewrite IH. Qed.

(** After any number of the commit's writes the disk recovers to the old
    contents, up to the header write, or to all of the new ones, after it. *)
Lemma commit_prefix W1 :
  W1 `prefix_of` commit_writes s l h h0 ->
  hdr_wf st (lg_size l) (disk_get (apply_writes d W1) st) /\
  forall bn, home st (lg_size l) bn -> recovered st (apply_writes d W1) bn =
    if decide (length W1 <= length (lblocks l))%nat then disk_get d bn else committed bn.
Proof.
  intros Hp. pose proof (length_lblocks l Hwf) as Hlen.
  unfold commit_writes in Hp. apply prefix_mid in Hp as [Hp|(W3 & -> & Hp)].
  - assert (Hout : forall x, home st (lg_size l) x \/ x = st -> disk_get (apply_writes d W1) x = disk_get d x).
    { intros x Hx. apply disk_get_block_other. intros Hin. apply (prefix_fst _ _ _ Hp) in Hin.
      apply log_writes_fst in Hin. destruct Hwf. unfold home in Hx. lia. }
    assert (Hst : disk_get (apply_writes d W1) st = disk_get d st) by (apply Hout; by right).
    split; [rewrite Hst; apply empty_hdr_wf; [destruct Hwf; lia|done]|]. intros bn Hbn.
    apply prefix_length in Hp. rewrite length_log_writes in Hp. rewrite decide_True by done.
    rewrite recovered_empty by (by rewrite Hst). apply Hout. by left.
  - assert (E : apply_writes d (log_writes (blk s) st 0 (lblocks l) ++ (st, h) :: W3) = apply_writes logged_disk W3).
    { unfold logged_disk, apply_writes. by rewrite <- foldl_app, <- app_assoc. }
    rewrite E. rewrite <- logged_inst in Hp.
    destruct (recovery_prefix st (lg_size l) logged_disk h0 W3) as [H1 H2]; [rewrite logged_st; apply logged_hdr|done|done|].
    split; [done|]. intros bn Hbn. rewrite H2, logged_recovers by done.
    rewrite decide_False; [done|]. rewrite length_app, length_log_writes. cbn. lia.
Qed.
End CommitCrash.
