(* ===== verification/LogOps.v ===== *)
(** * begin_op, log_write, end_op

    What a file-system operation does to the log, and [initlog] at boot. *)

From stdpp Require Import base list gmap strings.
From Stdlib Require Import ZArith Lia.
From S2P Require Import Prelude Mem Riscv State Sched Bio Bcache Log Commit Crash.
Open Scope Z_scope.

(** ** log_write *)

Lemma log_slot_spec bl n bn i :
  (n <= length bl)%nat -> (forall b, b ∈ take n bl -> u32 b = b) ->
  let k := log_slot bl n bn i in
  (exists j, k = (i + j)%nat /\ (j < n)%nat /\ bl !! j = Some bn) \/
  (k = (i + n)%nat /\ bn ∉ take n bl).
Proof.
  revert bl i. induction n as [|n IH]; intros bl i Hl Hu; cbn zeta; cbn [log_slot].
  - right. split; [lia|]. cbn. apply not_elem_of_nil.
  - destruct bl as [|b bl]; cbn in Hl; [lia|]. cbn [take] in Hu. rewrite (Hu b) by set_solver.
    destruct (Z.eqb_spec b bn) as [->|Hne].
    + left. exists 0%nat. split_and!; [lia|lia|done].
    + destruct (IH bl (S i)) as [(j & Hk & Hj & Hb)|[Hk Hn]]; [lia|set_solver| |].
      * left. exists (S j). split_and!; [lia|lia|done].
      * right. split; [lia|]. cbn [take]. apply not_elem_of_cons. by split; [congruence|].
Qed.

Definition logged (l : log) (bn : Z) : log :=
  set_lg_lh (mk_logheader (lh_n (lg_lh l) + 1) (<[Z.to_nat (lh_n (lg_lh l)) := bn]> (lh_block (lg_lh l)))) l.

Lemma logged_lblocks l bn :
  log_wf l -> lh_n (lg_lh l) < LOGSIZE -> lblocks (logged l bn) = lblocks l ++ [bn].
Proof.
  intros [] Hn. unfold lblocks. cbn. replace (Z.to_nat (lh_n (lg_lh l) + 1)) with (S (Z.to_nat (lh_n (lg_lh l)))) by lia.
  rewrite (take_S_r _ _ bn) by (apply list_lookup_insert_eq; lia). by rewrite take_insert_ge by lia.
Qed.

Lemma logged_wf l bn :
  log_wf l -> lh_n (lg_lh l) < LOGSIZE -> lh_n (lg_lh l) < lg_size l - 1 ->
  bn ∉ lblocks l -> 0 <= bn < 2 ^ 31 -> ~ in_log l bn -> log_wf (logged l bn).
Proof.
  intros Hwf Hn Hs Hni Hr Hh. pose proof (logged_lblocks l bn Hwf Hn) as Hlb. destruct Hwf. split; try done; cbn; try lia.
  - by rewrite length_insert.
  - rewrite Hlb. apply NoDup_app. split_and!; [done| |apply NoDup_singleton]. intros x Hx ->%list_elem_of_singleton. done.
  - intros b. rewrite Hlb. intros [Hb| ->%list_elem_of_singleton]%elem_of_app; [by apply lw_home|done].
Qed.

(** Unlike [frame_swap], for the spinlocks a caller holds. *)
Lemma bio_ok_held h s o : bio_ok s o -> bio_ok (set_k_held h s) o.
Proof. intros []. by split. Qed.

(** The state of a process between two file-system calls of its own. *)
Lemma log_write_ok s o p pr i bn l :
  env_ok s p pr -> bio_ok s o -> own s (p_pid pr) i bn -> k_log s = l -> log_wf l ->
  0 <= bn < 2 ^ 31 -> ~ in_log l bn -> ref s bn < 2 ^ 31 - 1 ->
  1 <= lg_outstanding l -> lh_n (lg_lh l) < LOGSIZE -> lh_n (lg_lh l) < lg_size l - 1 ->
  exists s', log_write i s = Ret tt (set_k_log (if decide (bn ∈ lblocks l) then l else logged l bn) s') /\
    bio_ok s' o /\ own s' (p_pid pr) i bn /\ free_bufs s' = free_bufs s /\
    view_step s s' bn (if decide (bn ∈ lblocks l) then 0 else 1) (lockedby s bn).
Proof.
  intros He Hok Hown Hl Hwf Hbn Hhome Href Hout Hn Hs.
  destruct (own_facts _ _ _ _ _ Hok Hown) as (b & Hi & Hb & Hd & Hblkno & _ & _ & _ & _ & Hr & Hrr).
  destruct (log_slot_spec (lh_block (lg_lh l)) (Z.to_nat (lh_n (lg_lh l))) bn 0) as [(j & Hk & Hj & Hbj)|[Hk Hni]].
  { destruct Hwf. lia. } { intros c Hc. apply u32_small. destruct (lw_home l Hwf c Hc). lia. }
  - (* the block is in the log already *)
    assert (Hin : bn ∈ lblocks l).
    { apply (list_elem_of_lookup_2 _ j). unfold lblocks. rewrite lookup_take_lt; done. }
    rewrite !decide_True by done. exists s. split_and!; [|done|done|done|].
    + unfold log_write. kstep_by acquire_ok; [|rewrite (env_held _ _ _ He); set_solver]. kstep. cbn [k_log set_k_held].
      rewrite Hl.
      destruct (lh_n (lg_lh l) >=? LOGSIZE) eqn:E1; [lia|]. destruct (lh_n (lg_lh l) >=? lg_size l - 1) eqn:E2; [lia|].
      cbn [orb]. rewrite (proj2 (Z.ltb_ge _ 1)) by lia. kstep. rewrite Hblkno, Hk.
      unfold set_lh_block_at. rewrite decide_True by lia. unfold mod_lh, mod_log. kstep.
      rewrite (proj2 (Z.eqb_neq (Z.of_nat (0 + j)) _)) by (destruct Hwf; lia). kstep.
      erewrite release_top; [|reflexivity|rewrite (env_held _ _ _ He); set_solver].
      cbn [k_log set_k_held set_k_log]. rewrite Hl, Nat.add_0_l, Nat2Z.id, s32_small, list_insert_id by (done || lia).
      f_equal. destruct l as [? ? ? ? ? []]. by destruct s.
    + split; try done; intros bn'; destruct (Z.eqb_spec bn' bn); subst; try done; lia.
  - rewrite !decide_False by done. set (l' := logged l bn).
    pose proof (env_held _ _ _ He) as Hheld.
    destruct (pin_ok (set_k_log (set_lg_lh (set_lh_block (<[Z.to_nat (lh_n (lg_lh l)) := bn]> (lh_block (lg_lh l))) (lg_lh l)) l)
       (set_k_held [L_log] s)) o i bn b 1 [L_log]) as (s1 & R1 & O1 & V1 & W1 & F1); try done; try lia.
    { by apply bio_ok_log, bio_ok_held. } { set_solver. }
    assert (Hs1 : k_log s1 = set_lg_lh (set_lh_block (<[Z.to_nat (lh_n (lg_lh l)) := bn]> (lh_block (lg_lh l))) (lg_lh l)) l
       /\ k_held s1 = [L_log]) by (by rewrite (fr_only _ _ (vs_frame _ _ _ _ _ V1))).
    exists (set_k_log l (set_k_held [] s1)). split_and!.
    + unfold log_write. kstep_by acquire_ok; [|rewrite Hheld; set_solver]. kstep. cbn [k_log set_k_held]. rewrite Hl.
      destruct (lh_n (lg_lh l) >=? LOGSIZE) eqn:E1; [lia|]. destruct (lh_n (lg_lh l) >=? lg_size l - 1) eqn:E2; [lia|].
      cbn [orb]. rewrite (proj2 (Z.ltb_ge _ 1)) by lia. kstep. rewrite Hblkno, Hk, Nat.add_0_l, Z2Nat.id by (destruct Hwf; lia).
      unfold set_lh_block_at. rewrite decide_True by lia. unfold mod_lh, mod_log. kstep. rewrite Z.eqb_refl.
      erewrite bind_Ret.
      2: { cbn [k_log set_k_held]. rewrite Hl, Hheld, s32_small by lia. kstep_by R1. unfold modify. reflexivity. }
      cbn beta. erewrite release_top; [|cbn; apply Hs1|set_solver]. f_equal. rewrite (proj1 Hs1). destruct s1. done.
    + by apply bio_ok_log, bio_ok_held.
    + by apply W1.
    + apply F1. lia.
    + destruct V1 as [A1 A2 A3 A4 A5 A6 A7]. split; try done. destruct A1 as [P1 P2 P3]. split; try done.
      rewrite P1. destruct s. cbn in *. by subst.
Qed.

(** ** begin_op *)

Definition has_room (l : log) : Prop :=
  lg_committing l = false /\ lh_n (lg_lh l) + (lg_outstanding l + 1) * MAXOPBLOCKS <= LOGSIZE.

Lemma begin_op_room s p pr l :
  env_ok s p pr -> k_log s = l -> has_room l ->
  begin_op s = Ret tt (set_k_log (set_lg_outstanding (lg_outstanding l + 1) l) s).
Proof.
  intros He Hl [Hc Hr]. unfold begin_op. pose proof (env_held _ _ _ He) as Hh. pose proof (env_fuel _ _ _ He) as Hf.
  kstep_by acquire_ok; [|rewrite Hh; set_solver]. kstep. cbn [k_fuel set_k_held].
  destruct (k_fuel s) as [|f] eqn:Ef; [lia|]. apply loop_break. unfold begin_op_step. kstep. cbn [k_log set_k_held].
  rewrite Hl, Hc. destruct (_ >? LOGSIZE) eqn:E; [lia|]. unfold mod_log. kstep.
  erewrite bind_Ret; [|eapply release_top; [reflexivity|cbn; rewrite Hh; set_solver]]. cbn beta.
  unfold mret, m_ret. f_equal. destruct s. cbn in *. by subst.
Qed.

(** With no room the process gives up the CPU, asleep on the log, with no
    spinlock but its own held. *)
Lemma begin_op_full s p pr l :
  env_ok s p pr -> k_log s = l -> ~ has_room l ->
  exists s' k, begin_op s = Sleep s' k /\ asleep_on Ch_log p s' /\ k_log s' = l.
Proof.
  intros He Hl Hn. pose proof (env_held _ _ _ He) as Hh. pose proof (env_fuel _ _ _ He) as Hf.
  pose proof (env_proc _ _ _ He) as Hp.
  destruct (sleep_wakes (set_k_held [L_log] s) p pr Ch_log L_log) as (k & Hk & _); [apply He|done|done|done|].
  destruct (k_fuel s) as [|f] eqn:Ef; [lia|]. eexists _, _. split.
  - unfold begin_op. kstep_by acquire_ok; [|rewrite Hh; set_solver]. kstep. cbn [k_fuel set_k_held].
    rewrite Ef, loop_S.
    assert (Hstep : begin_op_step tt (set_k_held (L_log :: k_held s) s) =
      (sleep Ch_log L_log ;; mret (inl tt)) (set_k_held [L_log] s)).
    { unfold begin_op_step. kstep. cbn [k_log set_k_held]. rewrite Hl, Hh.
      destruct (lg_committing l) eqn:Ec; [done|]. destruct (_ >? LOGSIZE) eqn:E; [done|].
      exfalso. apply Hn. split; [done|lia]. }
    rewrite Hstep. erewrite bind_Sleep; [|exact Hk]. reflexivity.
  - split; [|done]. by eapply fall_asleep_on.
Qed.

(** ** end_op *)

Lemma wakeup_env s c h :
  no_plock s -> length (k_procs s) = NPROC -> (forall i, L_proc i ∉ h) ->
  wakeup c (set_k_held h s) = Ret tt (set_k_procs (wake_procs c (k_cur s) (k_procs s)) (set_k_held h s)).
Proof. intros Hn Hl Hh. rewrite wakeup_ok; [done| |done]. intros i Hi. by apply Hh in Hi. Qed.

Lemma end_op_more s p pr l :
  env_ok s p pr -> k_log s = l -> lg_committing l = false -> lg_outstanding l <> 1 ->
  end_op s = Ret tt (set_k_procs (wake_procs Ch_log (k_cur s) (k_procs s))
    (set_k_log (set_lg_outstanding (lg_outstanding l - 1) l) s)).
Proof.
  intros He Hl Hc Ho. pose proof (env_held _ _ _ He) as Hh. unfold end_op.
  kstep_by acquire_ok; [|rewrite Hh; set_solver]. unfold mod_log. kstep. kstep.
  cbn [k_log set_k_log set_k_held]. rewrite Hl. cbn [lg_committing lg_outstanding set_lg_outstanding]. rewrite Hc.
  destruct (Z.eqb_spec (lg_outstanding l - 1) 0); [lia|].
  erewrite bind_Ret.
  2: { apply wakeup_ok; [|apply He]. intros i. cbn. rewrite Hh. intros ?%list_elem_of_singleton. done. }
  cbn beta. kstep_by release_top; [|reflexivity|cbn; rewrite Hh; set_solver].
  unfold skip, mret, m_ret. by destruct s.
Qed.

(** The last operation of the transaction commits it. *)
Lemma end_op_last B s p pr l :
  calm B s p pr -> k_log s = l -> log_wf l -> lg_committing l = false -> lg_outstanding l = 1 ->
  (forall bn, in_log l bn -> B bn) -> (forall b, b ∈ lblocks l -> B b /\ 1 <= ref s b) -> 0 < lh_n (lg_lh l) ->
  exists s' h h0, end_op s = Ret tt s' /\ k_log s' = set_lg_outstanding 0 (cleared l) /\
    k_disk s' = apply_writes (k_disk s) (commit_writes s l h h0) /\
    k_writes s' = k_writes s ++ commit_writes s l h h0 /\
    (forall bn, ref s' bn = ref s bn - Z.of_nat (length (filter (fun b => b = bn) (lblocks l)))) /\
    is_block h0 /\ hdr_n h0 = 0 /\ is_block h /\ hdr_n h = lh_n (lg_lh l) /\
    forall k b, lblocks l !! k = Some b -> hdr_block h (Z.of_nat k) = b.
Proof.
  intros Hc Hl Hwf Hcm Ho HBl HBh Hn. pose proof (c_env _ _ _ _ Hc) as He. pose proof (env_held _ _ _ He) as Hh.
  set (l1 := set_lg_committing true (set_lg_outstanding 0 l)).
  assert (Hwf1 : log_wf l1) by (destruct Hwf; by split).
  destruct (commit_ok B (set_k_log l1 s) p pr l1) as (s1 & h & h0 & R & C1 & W1 & H1 & H2 & H3 & H4 & H5);
    [by apply calm_log|done..|].
  pose proof (c_env _ _ _ _ C1) as He1. pose proof (env_held _ _ _ He1) as Hh1.
  eexists _, h, h0. split_and!; [ | | | | |done..].
  - unfold end_op. kstep_by acquire_ok; [|rewrite Hh; set_solver]. unfold mod_log. kstep. kstep.
    cbn [k_log set_k_log set_k_held]. rewrite Hl. cbn [lg_committing lg_outstanding set_lg_outstanding]. rewrite Hcm, Ho.
    change (1 - 1 =? 0) with true. cbn iota. kstep. kstep_by release_top; [|reflexivity|cbn; rewrite Hh; set_solver].
    erewrite bind_Ret.
    2: { match goal with |- commit ?x = _ => replace x with (set_k_log l1 s) end; [exact R|].
         destruct s. cbn in *. by subst. }
    cbn beta. kstep_by acquire_ok; [|cbn; rewrite Hh1; set_solver]. kstep.
    erewrite bind_Ret.
    2: { apply wakeup_ok; [|apply He1]. intros i. cbn. rewrite Hh1. intros ?%list_elem_of_singleton. done. }
    cbn beta. eapply release_top; [reflexivity|cbn; rewrite Hh1; set_solver].
  - cbn. unfold cleared, l1. rewrite <- Hcm. by destruct l.
  - cbn. rewrite (wa_disk _ _ _ _ W1). done.
  - cbn. rewrite (wa_writes _ _ _ _ W1). done.
  - intros bn. etrans; [exact (wa_ref _ _ _ _ W1 bn)|]. done.
Qed.

(** ** Boot *)

(** A machine that has just booted with disk [d]: a process to run [fsinit], an
    empty buffer cache. *)
Definition boot_ok (s : kstate) (d : gmap Z (list Z)) : Prop :=
  exists p pr, calm (fun _ => True) s p pr /\ uncached s /\ k_disk s = d /\
    length (lh_block (lg_lh (k_log s))) = Z.to_nat LOGSIZE.

Definition sb_ok (sb : superblock) : Prop :=
  0 <= sb_logstart sb /\ 0 < sb_nlog sb /\ sb_logstart sb + sb_nlog sb < 2 ^ 31.

Lemma initlog_ok s d sb :
  boot_ok s d -> sb_ok sb -> hdr_wf (sb_logstart sb) (sb_nlog sb) (disk_get d (sb_logstart sb)) ->
  exists s' h0, initlog ROOTDEV sb s = Ret tt s' /\ empty_hdr h0 /\
    k_disk s' = apply_writes d (recovery_writes (sb_logstart sb) d h0) /\
    k_writes s' = k_writes s ++ recovery_writes (sb_logstart sb) d h0 /\
    log_wf (k_log s') /\ lblocks (k_log s') = [].
Proof.
  intros (p & pr & Hc & Hu & <- & Hlen) (Hs & Hn & He) Hh.
  set (l := set_lg_dev ROOTDEV (set_lg_size (sb_nlog sb) (set_lg_start (sb_logstart sb) (k_log s)))).
  destruct (recover_ok (fun _ => True) (set_k_log l s) p pr l) as (s' & h0 & R & C & W & H1 & H2); try done.
  { by apply calm_log. }
  destruct (rd_hdr_wf _ l Hh) as [Hwf _]; try done.
  eexists _, h0. split_and!; [|done|..].
  - unfold initlog. change (sizeof_logheader >=? BSIZE) with false. cbn iota. unfold mod_log. kstep. kstep. kstep.
    cbn [k_log set_k_log]. rewrite !s32_small by lia. exact R.
  - apply (wa_disk _ _ _ _ W).
  - apply (wa_writes _ _ _ _ W).
  - by apply cleared_wf.
  - done.
Qed.

(** Booting, and crashing again before recovery is done, any number of times. *)
Inductive reboots (sb : superblock) : gmap Z (list Z) -> gmap Z (list Z) -> Prop :=
| reboots_none d : reboots sb d d
| reboots_crash d d1 s s' W W1 :
    reboots sb d d1 -> boot_ok s d1 -> initlog ROOTDEV sb s = Ret tt s' -> k_writes s' = k_writes s ++ W ->
    W1 `prefix_of` W -> reboots sb d (apply_writes d1 W1).

Lemma reboots_recovered sb d d' :
  sb_ok sb -> hdr_wf (sb_logstart sb) (sb_nlog sb) (disk_get d (sb_logstart sb)) -> reboots sb d d' ->
  hdr_wf (sb_logstart sb) (sb_nlog sb) (disk_get d' (sb_logstart sb)) /\
  forall bn, home (sb_logstart sb) (sb_nlog sb) bn ->
    recovered (sb_logstart sb) d' bn = recovered (sb_logstart sb) d bn.
Proof.
  intros Hsb Hwf Hr. induction Hr as [d|d d1 s s' W W1 Hr IH Hb Hi Hw Hp]; [done|].
  destruct (IH Hwf) as [Hwf1 Hrec]. destruct (initlog_ok s d1 sb Hb Hsb Hwf1) as (s2 & h0 & R & E0 & _ & HW & _).
  rewrite Hi in R. injection R as <-. rewrite Hw in HW. apply app_inv_head in HW. subst W.
  destruct (recovery_prefix _ _ d1 h0 W1 Hwf1 E0 Hp) as [H1 H2]. split; [done|].
  intros bn Hbn. rewrite H2, Hrec by done. done.
Qed.
