(* ===== verification/LogProps.v ===== *)
(** * The buffer cache and the log: the properties

    The theorems about [bio.c] and [log.c], each followed by an instance on a
    small machine: one process, an empty cache, a disk of zeroes with a log of
    30 blocks at block 2. *)

From stdpp Require Import base list gmap strings.
From Stdlib Require Import ZArith Lia.
From S2P Require Import Prelude Mem Riscv State Sched Bio Bcache Log Commit Crash LogOps.
Open Scope Z_scope.

(** ** The sample machine *)

Definition boot_bufs : list buf := k_bufs (out_state (binit boot_state) boot_state).
Definition init_proc : proc := set_p_state RUNNING (set_p_pid 1 proc0).
Definition fs_boot : kstate :=
  set_k_bufs boot_bufs (set_k_cur (Some 0%nat) (set_k_procs (init_proc :: replicate 63 proc0) boot_state)).
Definition boot_order : list nat := rev (seq 0 NBUF).

Lemma binit_run s : k_bufs s = replicate (S NBUF) buf0 -> binit s = Ret tt (set_k_bufs boot_bufs s).
Proof. destruct s. cbn. intros ->. vm_compute. reflexivity. Qed.

Lemma boot_bufs_shape i b : boot_bufs !! i = Some b -> core b = core buf0.
Proof.
  intros H. assert (Hall : Forall (fun b => core b = core buf0) boot_bufs) by (by vm_compute; repeat constructor).
  exact (Forall_lookup_1 _ _ _ _ Hall H).
Qed.

Lemma boot_bufs_fields i b : boot_bufs !! i = Some b ->
  b_valid b = false /\ b_dev b = 0 /\ b_refcnt b = 0 /\ b_lock b = sleeplock0 /\ b_data b = replicate (Z.to_nat BSIZE) 0.
Proof. intros H. apply boot_bufs_shape in H. destruct b. cbn in H. by simplify_eq. Qed.

Lemma boot_bio s : k_bufs s = boot_bufs -> (forall bn d, k_disk s !! bn = Some d -> is_block d) -> bio_ok s boot_order.
Proof.
  intros E Hd. split; rewrite ?E.
  - by vm_compute.
  - symmetry. apply Permutation_rev.
  - vm_compute. repeat split.
  - intros i b _ Hb. destruct (boot_bufs_fields i b Hb) as (H1 & H2 & H3 & H4 & H5).
    split; [left; by split|rewrite H3; lia|by rewrite H4|..]; rewrite H5; clear.
    + apply length_replicate.
    + apply Forall_replicate. lia.
  - intros i j bi bj _ _ Hb _ Hd1. destruct (boot_bufs_fields i bi Hb) as (_ & H2 & _). rewrite H2 in Hd1. done.
  - intros i b _ Hb Hv. destruct (boot_bufs_fields i b Hb) as (H1 & _). congruence.
  - done.
Qed.

Lemma boot_cached bn : cached boot_bufs bn = None.
Proof.
  apply cached_None. intros i b _ Hb [Hd _]. destruct (boot_bufs_fields i b Hb) as (_ & H2 & _). rewrite H2 in Hd. done.
Qed.

#[local] Opaque boot_bufs.

Lemma fs_boot_env : env_ok fs_boot 0 init_proc.
Proof. split; try done. cbn. lia. Qed.

Lemma fs_boot_bio : bio_ok fs_boot boot_order.
Proof. apply boot_bio; [done|]. intros bn d H. cbn in H. by rewrite lookup_empty in H. Qed.

Lemma fs_boot_calm B : calm B fs_boot 0 init_proc.
Proof.
  split; [apply fs_boot_env|exists boot_order; apply fs_boot_bio|..].
  - intros bn _. unfold lockedby. cbn [fs_boot k_bufs set_k_bufs]. by rewrite boot_cached.
  - intros bn _. unfold ref. cbn [fs_boot k_bufs set_k_bufs]. by rewrite boot_cached.
  - vm_compute. lia.
Qed.

(** A transaction about to end: block 40, all sevens, logged and pinned. *)
Definition tx_data : list Z := replicate (Z.to_nat BSIZE) 7.
Definition tx_buf (lk : sleeplock) (r : Z) : buf :=
  set_b_data tx_data (set_b_valid true (set_b_dev ROOTDEV (set_b_blockno 40 (set_b_lock lk (set_b_refcnt r (nth 0 boot_bufs buf0)))))).
Definition tx_log : log := mk_log 2 30 1 false ROOTDEV (mk_logheader 1 (40 :: replicate 29 0)).
Definition tx (lk : sleeplock) (r : Z) : kstate :=
  set_k_log tx_log (set_k_bufs (<[0%nat := tx_buf lk r]> (k_bufs fs_boot)) fs_boot).

Lemma boot_bufs_0 : boot_bufs !! 0%nat = Some (nth 0 boot_bufs buf0).
Proof. by vm_compute. Qed.

Lemma tx_bio0 lk r : 0 < r < 2 ^ 31 -> bio_ok (set_k_bufs (<[0%nat := tx_buf lk r]> (k_bufs fs_boot)) fs_boot) boot_order.
Proof.
  intros Hr. eapply bio_ok_insert; [apply fs_boot_bio|unfold NBUF; lia|exact boot_bufs_0|done|done|..].
  - split; cbn [tx_buf b_dev b_refcnt b_lock b_data b_valid set_b_data set_b_valid set_b_dev set_b_blockno set_b_lock set_b_refcnt].
    + by right.
    + lia.
    + intros _. lia.
    + apply length_replicate.
    + apply Forall_replicate. lia.
  - intros _. right. apply boot_cached.
  - intros _. cbn. lia.
Qed.

Lemma tx_cached lk r bn : 0 < r < 2 ^ 31 ->
  cached (k_bufs (tx lk r)) bn = if decide (bn = 40) then Some (tx_buf lk r) else None.
Proof.
  intros Hr. cbn [tx k_bufs set_k_log set_k_bufs].
  rewrite (cached_insert fs_boot boot_order boot_order 0 (nth 0 boot_bufs buf0)).
  - change (b_dev (tx_buf lk r)) with ROOTDEV. change (b_blockno (tx_buf lk r)) with 40.
    destruct (decide (bn = 40)) as [->|Hne]; [by rewrite decide_True|]. rewrite !decide_False.
    + apply boot_cached.
    + destruct (boot_bufs_fields _ _ boot_bufs_0) as (_ & Hd & _). rewrite Hd. by intros [? _].
    + intros [_ ?]. congruence.
  - apply fs_boot_bio.
  - by apply tx_bio0.
  - unfold NBUF. lia.
  - exact boot_bufs_0.
Qed.

Lemma tx_log_wf : log_wf tx_log.
Proof.
  split; try done; cbn; try lia.
  - vm_compute. apply NoDup_singleton.
  - intros b ->%list_elem_of_singleton. unfold in_log. cbn. lia.
Qed.

Lemma tx_env lk r : env_ok (tx lk r) 0 init_proc.
Proof. split; try done. cbn. lia. Qed.

Lemma free_bufs_log l s : free_bufs (set_k_log l s) = free_bufs s.
Proof. done. Qed.

Lemma free_boot : free_bufs fs_boot = 30%nat.
Proof. by vm_compute. Qed.

Lemma free_tx lk r : 0 < r < 2 ^ 31 -> free_bufs (tx lk r) = 29%nat.
Proof.
  intros Hr. pose proof (free_insert fs_boot 0 (nth 0 boot_bufs buf0) (tx_buf lk r)) as H.
  rewrite free_boot in H. specialize (H ltac:(unfold NBUF; lia) boot_bufs_0).
  destruct (boot_bufs_fields _ _ boot_bufs_0) as (_ & _ & E & _). rewrite E in H.
  change (b_refcnt (tx_buf lk r)) with r in H. rewrite decide_True, decide_False in H by lia.
  unfold tx. rewrite free_bufs_log. lia.
Qed.

Lemma tx_calm r : 0 < r < 2 ^ 31 - 1 -> calm (fun _ => True) (tx sleeplock0 r) 0 init_proc.
Proof.
  intros Hr. split; [apply tx_env|exists boot_order; apply bio_ok_log, tx_bio0; lia|..].
  - intros bn _. unfold lockedby. rewrite tx_cached by lia. by case_decide.
  - intros bn _. unfold ref. rewrite tx_cached by lia. case_decide; cbn; lia.
  - rewrite free_tx by lia. lia.
Qed.

(** ** The buffer cache *)

(** Reading a block that is not cached recycles the least recently used buffer nobody references, and returns it
    locked by the reader with the disk's contents; no block's contents change and the block is now cached once. *)
Theorem bread_miss_spec s o p pr bn :
  env_ok s p pr -> bio_ok s o -> cached (k_bufs s) bn = None -> (0 < free_bufs s)%nat ->
  exists i s', lru_victim (k_bufs s) o i /\ bread ROOTDEV bn s = Ret i s' /\ bio_ok s' o /\ own s' (p_pid pr) i bn /\
    blk s' bn = disk_get (k_disk s) bn /\ (forall bn', blk s' bn' = blk s bn') /\
    k_disk s' = k_disk s /\ (free_bufs s' + 1 = free_bufs s)%nat.
Proof.
  intros He Hok Hc Hf. destruct (lru_exists s o Hok Hf) as [v Hv].
  assert (Hr : ref s bn = 0) by (unfold ref; by rewrite Hc).
  assert (Hl : lockedby s bn = None) by (unfold lockedby; by rewrite Hc).
  destruct (bread_ok s o p pr bn He Hok Hl) as (i & s' & R & O & W & [A1 A2 A3 A4 A5 A6 _] & F); [lia|auto|].
  pose proof Hv as (o2 & o1 & b & Ho & Hb & _). pose proof (lookup_lt_Some _ _ _ Hb) as Hlt.
  pose proof (bget_miss s o p pr v bn He Hok Hc Hv) as Hg.
  assert (i = v) as ->.
  { rewrite (alter_lookup_set _ v _ b Hb) in Hg. rewrite (bread_of_bget s v _ bn Hg Hlt) in R. by injection R. }
  exists v, s'. split_and!; try done.
  - rewrite A4. unfold blk. by rewrite Hc.
  - rewrite Hr, Z.eqb_refl in F. lia.
Qed.

Lemma bread_miss_spec_witness :
  exists i s', lru_victim (k_bufs fs_boot) boot_order i /\ bread ROOTDEV 40 fs_boot = Ret i s' /\ bio_ok s' boot_order /\
    own s' (p_pid init_proc) i 40 /\ blk s' 40 = disk_get (k_disk fs_boot) 40 /\
    (forall bn', blk s' bn' = blk fs_boot bn') /\ k_disk s' = k_disk fs_boot /\ (free_bufs s' + 1 = free_bufs fs_boot)%nat.
Proof.
  apply (bread_miss_spec fs_boot boot_order 0 init_proc 40).
  - apply fs_boot_env.
  - apply fs_boot_bio.
  - apply boot_cached.
  - rewrite free_boot. lia.
Defined.

Lemma tx_own r : own (tx (mk_sleeplock true 1) r) 1 0 40.
Proof.
  exists (tx_buf (mk_sleeplock true 1) r). split_and!; try done.
  unfold NBUF. lia.
Qed.

Lemma tx_ref lk r : 0 < r < 2 ^ 31 -> ref (tx lk r) 40 = r.
Proof. intros Hr. unfold ref. by rewrite tx_cached by lia. Qed.

(** ** The log *)

(** C1: Crash safety.  The last operation of a transaction ends: [end_op] returns, and if the machine dies after any
    number of the disk writes it makes, reboots, dies again in recovery any number of times and finally completes
    [initlog], then every block outside the log has its old contents (when the header had not been written) or every
    block has what the transaction gave it (from the header write on). *)
Theorem end_op_crash_safe s p pr sb :
  let l := k_log s in let st := sb_logstart sb in
  calm (fun _ => True) s p pr -> log_wf l -> lg_committing l = false -> lg_outstanding l = 1 ->
  0 < lh_n (lg_lh l) -> (forall b, b ∈ lblocks l -> 1 <= ref s b) -> empty_hdr (disk_get (k_disk s) st) ->
  lg_start l = st -> lg_size l = sb_nlog sb ->
  exists s' W, end_op s = Ret tt s' /\ k_writes s' = k_writes s ++ W /\
    forall W1 d s1, W1 `prefix_of` W -> reboots sb (apply_writes (k_disk s) W1) d -> boot_ok s1 d ->
    exists s2, initlog ROOTDEV sb s1 = Ret tt s2 /\
      forall bn, home st (sb_nlog sb) bn -> disk_get (k_disk s2) bn =
        if decide (length W1 <= length (lblocks l))%nat then disk_get (k_disk s) bn else committed s l bn.
Proof.
  intros l st Hc Hwf Hcm Ho Hn Hpin Hold Hst Hsz.
  destruct (end_op_last (fun _ => True) s p pr l) as (s' & h & h0 & R & _ & _ & Hw & _ & H1 & H2 & H3 & H4 & H5);
    try done; [auto|].
  exists s', (commit_writes s l h h0). split_and!; [done|done|]. intros W1 d s1 Hp Hr Hb.
  assert (Hsb : sb_ok sb) by (destruct Hwf; unfold sb_ok; lia).
  destruct (commit_prefix s l h h0 Hwf) with (W1 := W1) as [Hwf1 Hrec]; try done; [by rewrite Hst|].
  rewrite Hst, Hsz in Hwf1, Hrec. destruct (reboots_recovered sb _ d Hsb Hwf1 Hr) as [Hwf2 Hrec2].
  destruct (initlog_ok s1 d sb Hb Hsb Hwf2) as (s2 & h1 & R2 & E2 & D2 & _).
  exists s2. split; [done|]. intros bn Hbn. rewrite D2, (recovery_done _ (sb_nlog sb)), Hrec2, Hrec by done. done.
Qed.

Definition sample_sb : superblock := mk_superblock 0x10203040 2000 1954 200 30 2 32 45.

Lemma tx_empty_hdr : empty_hdr (disk_get (k_disk (tx sleeplock0 1)) 2).
Proof. by vm_compute. Qed.

Lemma end_op_crash_safe_witness :
  let s := tx sleeplock0 1 in
  exists s' W, end_op s = Ret tt s' /\ k_writes s' = k_writes s ++ W /\
    forall W1 d s1, W1 `prefix_of` W -> reboots sample_sb (apply_writes (k_disk s) W1) d -> boot_ok s1 d ->
    exists s2, initlog ROOTDEV sample_sb s1 = Ret tt s2 /\
      forall bn, home 2 30 bn -> disk_get (k_disk s2) bn =
        if decide (length W1 <= length (lblocks (k_log s)))%nat then disk_get (k_disk s) bn else committed s (k_log s) bn.
Proof.
  intros s. apply (end_op_crash_safe s 0 init_proc sample_sb).
  - apply tx_calm. lia.
  - apply tx_log_wf.
  - reflexivity.
  - reflexivity.
  - cbn. lia.
  - intros b ->%list_elem_of_singleton. unfold s. rewrite tx_ref; lia.
  - apply tx_empty_hdr.
  - reflexivity.
  - reflexivity.
Defined.

(** [log_write] of a locked block: a block already in the transaction is absorbed (the log stays as it is), a new
    one is appended and pinned; the log stays well formed, and neither the disk nor any block's contents change. *)
Theorem log_write_spec s o p pr i bn :
  let l := k_log s in
  env_ok s p pr -> bio_ok s o -> own s (p_pid pr) i bn -> log_wf l -> 0 <= bn < 2 ^ 31 -> ~ in_log l bn ->
  ref s bn < 2 ^ 31 - 1 -> 1 <= lg_outstanding l -> lh_n (lg_lh l) < LOGSIZE -> lh_n (lg_lh l) < lg_size l - 1 ->
  exists s', log_write i s = Ret tt s' /\ bio_ok s' o /\ own s' (p_pid pr) i bn /\ log_wf (k_log s') /\
    lblocks (k_log s') = (if decide (bn ∈ lblocks l) then lblocks l else lblocks l ++ [bn]) /\
    (forall bn', ref s' bn' = ref s bn' + (if decide (bn' = bn /\ bn ∉ lblocks l) then 1 else 0)) /\
    (forall bn', blk s' bn' = blk s bn') /\ k_disk s' = k_disk s /\ k_writes s' = k_writes s.
Proof.
  intros l He Hok Hown Hwf Hbn Hh Hr Ho Hn Hs.
  destruct (log_write_ok s o p pr i bn l) as (s' & R & O & W & _ & [A1 A2 A3 A4 A5 _ _]); try done.
  eexists. split_and!; [exact R|by apply bio_ok_log|done| | | |exact A4|done|done].
  - cbn. case_decide; [done|]. by apply logged_wf.
  - cbn. case_decide; [done|]. by apply logged_lblocks.
  - intros bn'. etrans; [exact (A5 bn')|]. destruct (Z.eqb_spec bn' bn) as [->|Hne].
    + destruct (decide (bn ∈ lblocks l)); [rewrite decide_False|rewrite decide_True]; naive_solver lia.
    + rewrite decide_False by naive_solver. lia.
Qed.

Lemma own_log l s pid i bn : own s pid i bn -> own (set_k_log l s) pid i bn.
Proof. done. Qed.
Lemma ref_log l s bn : ref (set_k_log l s) bn = ref s bn.
Proof. done. Qed.

Lemma log_write_spec_witness :
  let s := set_k_log (cleared tx_log) (tx (mk_sleeplock true 1) 1) in
  exists s', log_write 0 s = Ret tt s' /\ bio_ok s' boot_order /\ own s' 1 0 40 /\ log_wf (k_log s') /\
    lblocks (k_log s') = [40] /\
    (forall bn', ref s' bn' = ref s bn' + (if decide (bn' = 40 /\ 40 ∉ @nil Z) then 1 else 0)) /\
    (forall bn', blk s' bn' = blk s bn') /\ k_disk s' = k_disk s /\ k_writes s' = k_writes s.
Proof.
  intros s. apply (log_write_spec s boot_order 0 init_proc 0 40).
  - apply env_ok_log, tx_env.
  - apply bio_ok_log, bio_ok_log, tx_bio0. lia.
  - apply own_log, tx_own.
  - apply cleared_wf, tx_log_wf.
  - lia.
  - unfold in_log. cbn. lia.
  - unfold s. rewrite ref_log, tx_ref; lia.
  - cbn. lia.
  - cbn. unfold LOGSIZE, MAXOPBLOCKS. lia.
  - cbn. lia.
Defined.

(** [begin_op] admits an operation exactly when no commit is running and the log can hold MAXOPBLOCKS more blocks
    for it and for each operation admitted before; otherwise the process is asleep on the log, holding no lock but its
    own. *)
Theorem begin_op_spec s p pr :
  let l := k_log s in env_ok s p pr ->
  (has_room l /\ exists s', begin_op s = Ret tt s' /\ lg_outstanding (k_log s') = lg_outstanding l + 1 /\
     lh_n (lg_lh (k_log s')) + lg_outstanding (k_log s') * MAXOPBLOCKS <= LOGSIZE) \/
  (~ has_room l /\ exists s' k, begin_op s = Sleep s' k /\ asleep_on Ch_log p s' /\ k_log s' = l).
Proof.
  intros l He. assert (Hd : has_room l \/ ~ has_room l).
  { unfold has_room. destruct (lg_committing l); [right; by intros [? _]|].
    destruct (Z.le_gt_cases (lh_n (lg_lh l) + (lg_outstanding l + 1) * MAXOPBLOCKS) LOGSIZE); [by left|right; lia]. }
  destruct Hd as [Hr|Hr]; [left|right]; (split; [done|]).
  - eexists. split; [by apply (begin_op_room s p pr l)|]. cbn. destruct Hr. by split; [|lia].
  - by eapply begin_op_full.
Qed.

Lemma begin_op_spec_witness :
  (has_room tx_log /\ exists s', begin_op (tx sleeplock0 1) = Ret tt s' /\ lg_outstanding (k_log s') = 2 /\
     lh_n (lg_lh (k_log s')) + lg_outstanding (k_log s') * MAXOPBLOCKS <= LOGSIZE) \/
  (~ has_room tx_log /\ exists s' k, begin_op (tx sleeplock0 1) = Sleep s' k /\ asleep_on Ch_log 0 s' /\ k_log s' = tx_log).
Proof. apply (begin_op_spec (tx sleeplock0 1) 0 init_proc). apply tx_env. Defined.

(** When [log_write] gives up: outside a transaction, and when the log is full.  A log of LOGSIZE blocks (what mkfs
    makes) is full at LOGSIZE - 1 logged blocks, although [begin_op] admits operations up to LOGSIZE. *)
Theorem log_write_panics s p pr i :
  let l := k_log s in env_ok s p pr ->
  (lg_outstanding l < 1 -> lh_n (lg_lh l) < LOGSIZE -> lh_n (lg_lh l) < lg_size l - 1 ->
     log_write i s = Stop (SPanic "log_write outside of trans") (set_k_held [L_log] s)) /\
  (lg_size l = LOGSIZE -> lh_n (lg_lh l) = LOGSIZE - 1 ->
     log_write i s = Stop (SPanic "too big a transaction") (set_k_held [L_log] s)).
Proof.
  intros l He. pose proof (env_held _ _ _ He) as Hh.
  split; intros H1 H2; [intros H3|]; unfold log_write; (kstep_by acquire_ok; [|rewrite Hh; set_solver]); kstep; cbn [k_log set_k_held];
    fold l; rewrite Hh.
  - destruct (lh_n (lg_lh l) >=? LOGSIZE) eqn:E1; [lia|]. destruct (lh_n (lg_lh l) >=? lg_size l - 1) eqn:E2; [lia|].
    cbn [orb]. by rewrite (proj2 (Z.ltb_lt _ 1)) by lia.
  - destruct (lh_n (lg_lh l) >=? LOGSIZE) eqn:E1; [lia|]. destruct (lh_n (lg_lh l) >=? lg_size l - 1) eqn:E2; [done|lia].
Qed.

(** Three operations within their reservations, 29 blocks logged. *)
Definition full_log : log := mk_log 2 30 3 false ROOTDEV (mk_logheader 29 (seqZ 100 30)).

Lemma log_write_panics_witness :
  let s := set_k_log full_log fs_boot in
  lh_n (lg_lh full_log) <= lg_outstanding full_log * MAXOPBLOCKS <= LOGSIZE /\
  (lg_outstanding full_log < 1 -> lh_n (lg_lh full_log) < LOGSIZE -> lh_n (lg_lh full_log) < lg_size full_log - 1 ->
     log_write 0 s = Stop (SPanic "log_write outside of trans") (set_k_held [L_log] s)) /\
  (lg_size full_log = LOGSIZE -> lh_n (lg_lh full_log) = LOGSIZE - 1 ->
     log_write 0 s = Stop (SPanic "too big a transaction") (set_k_held [L_log] s)).
Proof.
  intros s. split; [by vm_compute|]. apply (log_write_panics s 0 init_proc 0). apply env_ok_log, fs_boot_env.
Defined.

(** What [write_head] puts on disk, [read_head] gets back: the same blocks in the same order, whatever the
    in-memory header held in between. *)
Theorem head_roundtrip B s p pr l' :
  let l := k_log s in
  calm B s p pr -> log_wf l -> B (lg_start l) -> lg_start l' = lg_start l -> lg_size l' = lg_size l ->
  lg_dev l' = ROOTDEV -> length (lh_block (lg_lh l')) = Z.to_nat LOGSIZE ->
  exists s1 s2, write_head s = Ret tt s1 /\ read_head (set_k_log l' s1) = Ret tt s2 /\
    lblocks (k_log s2) = lblocks l /\ log_wf (k_log s2).
Proof.
  intros l Hc Hwf HB E1 E2 E3 E4. pose proof (lw_n l Hwf) as Hn. pose proof (c_bio _ _ _ _ Hc) as [o Ho].
  destruct (write_head_ok p pr B s l Hc eq_refl Hwf HB) as (s1 & R1 & C1 & W1).
  destruct (put_hdr_ok l (blk s (lg_start l)) Hwf) as (P1 & P2 & P3); [by eapply blk_size|].
  set (h := put_hdr l (blk s (lg_start l))) in *.
  assert (Hb : blk s1 (lg_start l) = h) by (rewrite (wa_blk _ _ _ _ W1); cbn; by rewrite Z.eqb_refl).
  destruct (logged_hdr l h Hwf P2 P3) as [Hbs Hhw].
  destruct (read_head_ok B (set_k_log l' s1) p pr l') as (s2 & R2 & _ & _).
  { by apply calm_log. } { done. } { done. } { rewrite E1. destruct Hwf. unfold LOGSIZE, MAXOPBLOCKS in *. lia. }
  { by rewrite E1. } { rewrite E1. change (blk (set_k_log l' s1)) with (blk s1). rewrite Hb, P2. lia. }
  rewrite E1 in R2. change (blk (set_k_log l' s1)) with (blk s1) in R2. rewrite Hb in R2.
  destruct (rd_hdr_wf h l') as [Hw Hl]; rewrite ?E1, ?E2; try done; try apply Hwf.
  eexists s1, _. split_and!; [done|exact R2| |done]. cbn. by rewrite Hl, Hbs.
Qed.

Lemma head_roundtrip_witness :
  exists s1 s2, write_head (tx sleeplock0 1) = Ret tt s1 /\
    read_head (set_k_log (set_lg_lh (mk_logheader 5 (replicate 30 3)) tx_log) s1) = Ret tt s2 /\
    lblocks (k_log s2) = [40] /\ log_wf (k_log s2).
Proof.
  apply (head_roundtrip (fun _ => True) (tx sleeplock0 1) 0 init_proc).
  - apply tx_calm. lia.
  - apply tx_log_wf.
  - exact I.
  - reflexivity.
  - reflexivity.
  - reflexivity.
  - reflexivity.
Defined.
