(* ===== verification/Spinlock.v ===== *)
(** * kernel/spinlock.c: spinlocks on several harts

    The lock words, the per-hart interrupt state and the steps of [acquire] and
    [release] at the granularity at which harts interleave: the atomic swap, the
    store to [lk->cpu], and the hart-local [push_off]/[pop_off].  The kernel
    thread model of [Sched.v] uses locks as the set a hart holds; the theorems
    here are what makes that set meaningful. *)

From stdpp Require Import base list functions strings.
From Stdlib Require Import ZArith Lia.
From S2P Require Import Prelude.
Open Scope Z_scope.

Module Spin.

(** struct spinlock and the part of struct cpu that locking uses, with the
    hart's sstatus.SIE. *)
Record spinlock := mk_spinlock { locked : Z; lcpu : option nat }.
Record cpu := mk_cpu { noff : Z; intena : bool; sie : bool }.

(** Where a hart is in [acquire] or [release]. *)
Inductive pc :=
| Run
| AcqCheck (l : nat) | AcqSwap (l : nat) | AcqMark (l : nat)
| RelClear (l : nat) | RelUnlock (l : nat) | RelPop
| Panicked (msg : string).

(** [bare h] is how many calls of [push_off] outside of [acquire] hart [h] has
    not undone yet (those of [myproc] and [uartputc_sync]). *)
Record mach := mk_mach { locks : nat -> spinlock; cpus : nat -> cpu; pcs : nat -> pc; bare : nat -> nat }.

Definition initlock (l : nat) (m : mach) : mach :=
  mk_mach (<[l := mk_spinlock 0 None]> (locks m)) (cpus m) (pcs m) (bare m).

Definition holding (m : mach) (h l : nat) : bool :=
  negb (locked (locks m l) =? 0) && bool_decide (lcpu (locks m l) = Some h).

Definition push_off (c : cpu) : cpu :=
  let old := sie c in
  mk_cpu (noff c + 1) (if noff c =? 0 then old else intena c) false.

Definition pop_off (c : cpu) : string + cpu :=
  if sie c then inl "pop_off - interruptible"%string else
  if noff c <? 1 then inl "pop_off"%string else
  let n := noff c - 1 in
  inr (mk_cpu n (intena c) (if (n =? 0) && intena c then true else sie c)).

Definition goto (h : nat) (p : pc) (m : mach) : mach := mk_mach (locks m) (cpus m) (<[h := p]> (pcs m)) (bare m).
Definition set_lock (l : nat) (v : spinlock) (m : mach) : mach := mk_mach (<[l := v]> (locks m)) (cpus m) (pcs m) (bare m).
Definition set_cpu (h : nat) (c : cpu) (m : mach) : mach := mk_mach (locks m) (<[h := c]> (cpus m)) (pcs m) (bare m).
Definition set_bare (h n : nat) (m : mach) : mach := mk_mach (locks m) (cpus m) (pcs m) (<[h := n]> (bare m)).

(** One step of hart [h] that is inside [acquire] or [release]. *)
Definition acquire_release_step (h : nat) (m : mach) : mach :=
  match pcs m h with
  | AcqCheck l => if holding m h l then goto h (Panicked "acquire") m else goto h (AcqSwap l) m
  | AcqSwap l =>
      let old := locked (locks m l) in
      let m' := set_lock l (mk_spinlock 1 (lcpu (locks m l))) m in
      if old =? 0 then goto h (AcqMark l) m' else m'
  | AcqMark l => goto h Run (set_lock l (mk_spinlock (locked (locks m l)) (Some h)) m)
  | RelClear l => goto h (RelUnlock l) (set_lock l (mk_spinlock (locked (locks m l)) None) m)
  | RelUnlock l => goto h RelPop (set_lock l (mk_spinlock 0 (lcpu (locks m l))) m)
  | RelPop =>
      match pop_off (cpus m h) with
      | inl msg => goto h (Panicked msg) m
      | inr c => goto h Run (set_cpu h c m)
      end
  | Run | Panicked _ => m
  end.

(** The kernel running on hart [h] calls [acquire] or [release], or [push_off]
    and later [pop_off] on its own; it turns interrupts on or off outside of any
    critical section; and [sched], which runs with one lock held, puts back the
    [intena] of the thread that goes on. *)
Definition call_acquire (h l : nat) (m : mach) : mach := goto h (AcqCheck l) (set_cpu h (push_off (cpus m h)) m).
Definition call_release (h l : nat) (m : mach) : mach :=
  if negb (holding m h l) then goto h (Panicked "release") m else goto h (RelClear l) m.

Definition call_push_off (h : nat) (m : mach) : mach := set_bare h (S (bare m h)) (set_cpu h (push_off (cpus m h)) m).
Definition call_pop_off (h : nat) (m : mach) : mach :=
  match pop_off (cpus m h) with
  | inl msg => goto h (Panicked msg) m
  | inr c => set_bare h (pred (bare m h)) (set_cpu h c m)
  end.

Inductive step : mach -> mach -> Prop :=
| step_in h m : step m (acquire_release_step h m)
| step_acquire h l m : pcs m h = Run -> step m (call_acquire h l m)
| step_release h l m : pcs m h = Run -> step m (call_release h l m)
| step_intr h b m : pcs m h = Run -> noff (cpus m h) = 0 ->
    step m (set_cpu h (mk_cpu (noff (cpus m h)) (intena (cpus m h)) b) m)
| step_push_off h m : pcs m h = Run -> step m (call_push_off h m)
| step_pop_off h m : pcs m h = Run -> bare m h <> O -> step m (call_pop_off h m)
| step_sched h b m : pcs m h = Run -> noff (cpus m h) = 1 ->
    step m (set_cpu h (mk_cpu (noff (cpus m h)) b (sie (cpus m h))) m).

Definition init : mach :=
  mk_mach (fun _ => mk_spinlock 0 None) (fun _ => mk_cpu 0 false false) (fun _ => Run) (fun _ => O).

Inductive reachable : mach -> Prop :=
| reach_init : reachable init
| reach_step m m' : reachable m -> step m m' -> reachable m'.

(** Hart [h] has lock [l]: from the swap that took it to the store that frees it. *)
Definition mid (p : pc) : option nat :=
  match p with AcqMark l | RelUnlock l => Some l | _ => None end.
Definition owns (m : mach) (h l : nat) : Prop := lcpu (locks m l) = Some h \/ mid (pcs m h) = Some l.

Definition in_lock (p : pc) : Z :=
  match p with AcqCheck _ | AcqSwap _ | AcqMark _ | RelUnlock _ | RelPop => 1 | _ => 0 end.

(** ** The invariant *)

Record inv (m : mach) : Prop := {
  i_cpu : forall h l, lcpu (locks m l) = Some h -> locked (locks m l) = 1;
  i_mid : forall h l, mid (pcs m h) = Some l -> locked (locks m l) = 1 /\ lcpu (locks m l) = None;
  i_clear : forall h l, pcs m h = RelClear l -> lcpu (locks m l) = Some h;
  i_uniq : forall h h' l, mid (pcs m h) = Some l -> mid (pcs m h') = Some l -> h = h'
}.

(** The locks each hart holds, and what its nesting count and interrupt flag are then. *)
Record inv_off (m : mach) (H : nat -> list nat) : Prop := {
  o_nodup : forall h, NoDup (H h);
  o_held : forall h l, l ∈ H h <-> lcpu (locks m l) = Some h;
  o_noff : forall h, (forall msg, pcs m h <> Panicked msg) -> noff (cpus m h) = Z.of_nat (length (H h)) + in_lock (pcs m h) + Z.of_nat (bare m h);
  o_sie : forall h, noff (cpus m h) > 0 -> sie (cpus m h) = false;
  o_pos : forall h, 0 <= noff (cpus m h)
}.

Ltac fn_case :=
  repeat first
  [ progress rewrite ?fn_lookup_insert in *
  | match goal with
    | H : context [<[?i := ?x]> ?f ?j] |- _ => destruct (decide (i = j)) as [<-|?];
        [|rewrite (fn_lookup_insert_ne f i j x) in * by done]
    | |- context [<[?i := ?x]> ?f ?j] => destruct (decide (i = j)) as [<-|?];
        [|rewrite (fn_lookup_insert_ne f i j x) in * by done]
    | H : ?i <> ?i |- _ => by destruct H
    end ].

Lemma inv_init : inv init.
Proof. by split. Qed.

(** A lock somebody is taking or freeing is locked and marked by nobody; one
    that is marked is being freed by its owner only. *)
Ltac use_inv :=
  repeat match goal with
  | I : forall h l, mid (pcs ?m h) = Some l -> _, H : mid (pcs ?m ?h) = Some ?l |- _ =>
      lazymatch goal with
      | _ : locked (locks m l) = 1 /\ lcpu (locks m l) = None |- _ => fail
      | |- _ => pose proof (I h l H)
      end
  | I : forall h l, lcpu (locks ?m l) = Some h -> _, H : lcpu (locks ?m ?l) = Some ?h |- _ =>
      lazymatch goal with
      | _ : locked (locks m l) = 1 |- _ => fail
      | |- _ => pose proof (I h l H)
      end
  end.
Ltac solve_inv :=
  split; cbn; intros; fn_case; cbn in *; simplify_eq; use_inv; destruct_and?; try done; eauto; try congruence; try (exfalso; naive_solver).

Lemma inv_step m m' : inv m -> step m m' -> inv m'.
Proof.
  intros [I1 I2 I3 I4] Hs. destruct Hs as [h m|h l m Hr|h l m Hr|h b m Hr Hn|h m Hr|h m Hr Hb|h b m Hr Hn].
  - assert (Hmid : forall l, pcs m h = AcqMark l \/ pcs m h = RelUnlock l -> mid (pcs m h) = Some l) by (intros l [-> | ->]; done).
    assert (Hother : forall l h', mid (pcs m h) = Some l -> mid (pcs m h') = Some l -> h' = h) by eauto.
    assert (Hclr : forall l h', mid (pcs m h) = Some l -> pcs m h' = RelClear l -> False).
    { intros l h' Hm Hc. apply I3 in Hc. destruct (I2 _ _ Hm). congruence. }
    unfold acquire_release_step. destruct (pcs m h) eqn:Hpc; try done;
      [destruct (holding m h l)|destruct (Z.eqb_spec (locked (locks m l)) 0) as [E|E]| | | |destruct (pop_off (cpus m h))].
    + solve_inv.
    + solve_inv.
    + assert (lcpu (locks m l) = None) by (destruct (lcpu (locks m l)) eqn:Ec; [apply I1 in Ec; congruence|done]). solve_inv.
    + solve_inv.
    + pose proof (Hmid l (or_introl eq_refl)) as Hml. rewrite <- Hpc in Hml. use_inv. solve_inv.
    + pose proof (I3 h l Hpc). solve_inv.
    + pose proof (Hmid l (or_intror eq_refl)) as Hml. rewrite <- Hpc in Hml. use_inv. solve_inv.
    + solve_inv.
    + solve_inv.
  - solve_inv.
  - unfold call_release, holding. destruct (negb _) eqn:E; [solve_inv|].
    apply negb_false_iff, andb_prop in E as [_ E%bool_decide_eq_true]. solve_inv.
  - solve_inv.
  - solve_inv.
  - unfold call_pop_off. destruct (pop_off (cpus m h)); solve_inv.
  - solve_inv.
Qed.

Lemma reachable_inv m : reachable m -> inv m.
Proof. induction 1; [apply inv_init|by eapply inv_step]. Qed.
(** ** Nesting of critical sections *)

Lemma off_goto m H h p :
  inv_off m H -> (forall msg, p <> Panicked msg) -> (forall msg, pcs m h <> Panicked msg) ->
  in_lock p = in_lock (pcs m h) -> inv_off (goto h p m) H.
Proof.
  intros [O1 O2 O3 O4 O5] Hp Hq Hl. split; try done. intros h' Hh'. cbn in *. fn_case; [rewrite Hl|]; eauto.
Qed.

Lemma off_panic m H h msg : inv_off m H -> inv_off (goto h (Panicked msg) m) H.
Proof. intros [O1 O2 O3 O4 O5]. split; try done. intros h' Hh'. cbn in *. fn_case; [naive_solver|eauto]. Qed.

Lemma off_lock m H l v : inv_off m H -> lcpu v = lcpu (locks m l) -> inv_off (set_lock l v m) H.
Proof. intros [O1 O2 O3 O4 O5] Hv. split; try done. intros h' l'. cbn. fn_case; [rewrite Hv|]; auto. Qed.

Lemma pop_off_ok m H h : inv_off m H -> pcs m h = RelPop \/ pcs m h = Run /\ bare m h <> O ->
  exists c, pop_off (cpus m h) = inr c /\ noff c = noff (cpus m h) - 1 /\ (noff c > 0 -> sie c = false).
Proof.
  intros [O1 O2 O3 O4 O5] Hpc. assert (Hn : 1 <= noff (cpus m h)).
  { rewrite O3 by (by destruct Hpc as [-> | [-> _]]). destruct Hpc as [-> | [-> ?]]; cbn; lia. }
  unfold pop_off. rewrite (O4 h) by lia. rewrite (proj2 (Z.ltb_ge _ 1)) by lia.
  eexists. split_and!; [done|done|]. cbn. destruct (Z.eqb_spec (noff (cpus m h) - 1) 0); cbn; [lia|done].
Qed.

Lemma off_cpu m H h c p :
  inv_off m H -> noff c = Z.of_nat (length (H h)) + in_lock p + Z.of_nat (bare m h) -> (noff c > 0 -> sie c = false) -> 0 <= noff c ->
  inv_off (goto h p (set_cpu h c m)) H.
Proof.
  intros [O1 O2 O3 O4 O5] Hn Hs Hp. split; try done; intros h'; cbn; fn_case; auto.
Qed.

Lemma off_bare m H h c n :
  inv_off m H -> noff c = Z.of_nat (length (H h)) + in_lock (pcs m h) + Z.of_nat n -> (noff c > 0 -> sie c = false) -> 0 <= noff c ->
  inv_off (set_bare h n (set_cpu h c m)) H.
Proof.
  intros [O1 O2 O3 O4 O5] Hn Hs Hp. split; try done; intros h'; cbn; fn_case; auto.
Qed.

Lemma off_local m H h c :
  inv_off m H -> noff c = Z.of_nat (length (H h)) + in_lock (pcs m h) + Z.of_nat (bare m h) -> (noff c > 0 -> sie c = false) -> 0 <= noff c ->
  inv_off (set_cpu h c m) H.
Proof.
  intros [O1 O2 O3 O4 O5] Hn Hs Hp. split; try done; intros h'; cbn; fn_case; auto.
Qed.

Lemma off_mark m H h l :
  inv_off m H -> pcs m h = AcqMark l -> lcpu (locks m l) = None ->
  inv_off (goto h Run (set_lock l (mk_spinlock (locked (locks m l)) (Some h)) m)) (<[h := l :: H h]> H).
Proof.
  intros [O1 O2 O3 O4 O5] Hpc Hl. assert (Hni : forall h', l ∉ H h') by (intros h'; rewrite O2; congruence).
  pose proof (O3 h) as Hn. rewrite Hpc in Hn. specialize (Hn ltac:(done)). cbn in Hn. split; cbn; try done.
  - intros h'. fn_case; [by constructor|done].
  - intros h' l'. pose proof (Hni h') as Hx. rewrite O2 in Hx. fn_case; cbn; rewrite ?elem_of_cons, ?O2; naive_solver.
  - intros h' Hh'. fn_case; cbn [length in_lock]; [lia|auto].
Qed.

Lemma off_clear m H h l :
  inv_off m H -> pcs m h = RelClear l -> lcpu (locks m l) = Some h ->
  inv_off (goto h (RelUnlock l) (set_lock l (mk_spinlock (locked (locks m l)) None) m))
    (<[h := filter (fun x => x <> l) (H h)]> H).
Proof.
  intros [O1 O2 O3 O4 O5] Hpc Hl. pose proof (O3 h) as Hn. rewrite Hpc in Hn. specialize (Hn ltac:(done)). cbn in Hn.
  assert (Hlen : length (H h) = S (length (filter (fun x => x <> l) (H h)))).
  { assert (Hin : l ∈ H h) by (by apply O2). apply list_elem_of_split in Hin as (l1 & l2 & E). pose proof (O1 h) as Hnd.
    rewrite E in *. apply NoDup_app in Hnd as (_ & H12 & Hnd). apply NoDup_cons in Hnd as [Hnd _].
    rewrite filter_app, filter_cons_False by naive_solver. rewrite !length_app. cbn. f_equal.
    rewrite !filter_out; [lia|done|]. intros Hx. by apply (H12 l Hx), list_elem_of_here. }
  split; cbn; try done.
  - intros h'. fn_case; [by apply NoDup_filter|done].
  - intros h' l'. fn_case; cbn; rewrite ?list_elem_of_filter, ?O2; naive_solver.
  - intros h' Hh'. fn_case; cbn [in_lock]; [lia|auto].
Qed.

Lemma off_step m m' H : inv m -> inv_off m H -> step m m' -> exists H', inv_off m' H'.
Proof.
  intros HI HO Hs. destruct Hs as [h m|h l m Hr|h l m Hr|h b m Hr Hn|h m Hr|h m Hr Hb|h b m Hr Hn].
  - unfold acquire_release_step. destruct (pcs m h) eqn:Hpc; try (by exists H).
    + destruct (holding m h l); exists H; [by apply off_panic|]. by apply off_goto; rewrite ?Hpc.
    + destruct (locked (locks m l) =? 0); exists H; [|by apply off_lock].
      apply off_goto; cbn; rewrite ?Hpc; try done. by apply off_lock.
    + eexists. apply off_mark; [done|done|]. by apply (i_mid _ HI h); rewrite Hpc.
    + eexists. apply off_clear; [done|done|]. by apply (i_clear _ HI).
    + exists H. apply off_goto; cbn; rewrite ?Hpc; try done. by apply off_lock.
    + destruct (pop_off_ok m H h HO (or_introl Hpc)) as (c & -> & H1 & H2). exists H.
      pose proof (o_noff _ _ HO h) as Hn. rewrite Hpc in Hn. specialize (Hn ltac:(done)). cbn in Hn.
      apply off_cpu; [done|cbn; lia|done|lia].
  - exists H. pose proof (o_noff _ _ HO h) as Hn. rewrite Hr in Hn. specialize (Hn ltac:(done)). cbn in Hn.
    unfold call_acquire. apply off_cpu; cbn; [done|lia|done|lia].
  - unfold call_release. destruct (negb _); exists H; [by apply off_panic|]. by apply off_goto; rewrite ?Hr.
  - exists H. apply off_local; cbn; [done|by rewrite (o_noff _ _ HO) by (by rewrite Hr)|lia|lia].
  - exists H. pose proof (o_noff _ _ HO h) as Hn. rewrite Hr in Hn. specialize (Hn ltac:(done)). cbn in Hn.
    apply (off_bare m H h (push_off (cpus m h))); cbn; rewrite ?Hr; [done|cbn; lia|done|lia].
  - unfold call_pop_off. destruct (pop_off_ok m H h HO (or_intror (conj Hr Hb))) as (c & -> & H1 & H2). exists H.
    pose proof (o_noff _ _ HO h) as Hn. rewrite Hr in Hn. specialize (Hn ltac:(done)). cbn in Hn. apply off_bare; rewrite ?Hr; [done|cbn; lia|done|lia].
  - exists H. apply off_local; cbn; [done|by rewrite (o_noff _ _ HO) by (by rewrite Hr)|intros _; by apply HO; lia|lia].
Qed.

Lemma reachable_off m : reachable m -> exists H, inv_off m H.
Proof.
  induction 1 as [|m m' Hr [H HO] Hs]; [|eapply off_step; [by apply reachable_inv|done|done]].
  exists (fun _ => []). split; try done; cbn; [constructor|]. intros h l. split; [by intros ?%not_elem_of_nil|done].
Qed.

(** ** Properties *)

(** C9: Mutual exclusion.  However the harts interleave, no two of them have the same lock at once, from the swap that
    takes it to the store that frees it. *)
Theorem spinlock_mutex m h h' l : reachable m -> owns m h l -> owns m h' l -> h = h'.
Proof.
  intros Hr [H1|H1] [H2|H2]; apply reachable_inv in Hr as [I1 I2 I3 I4].
  - congruence.
  - destruct (I2 _ _ H2). congruence.
  - destruct (I2 _ _ H1). congruence.
  - eauto.
Qed.

Definition sample_run : mach :=
  acquire_release_step 0 (acquire_release_step 1 (acquire_release_step 0 (acquire_release_step 1
    (acquire_release_step 0 (call_acquire 1 7 (call_acquire 0 7 init)))))).

Lemma sample_reachable : reachable sample_run.
Proof.
  unfold sample_run. do 5 (eapply reach_step; [|apply step_in]).
  eapply reach_step; [|by apply step_acquire]. eapply reach_step; [apply reach_init|by apply step_acquire].
Qed.

Lemma spinlock_mutex_witness : owns sample_run 0 7 /\ pcs sample_run 1 = AcqSwap 7 /\ (owns sample_run 1 7 -> 0%nat = 1%nat).
Proof.
  assert (H0 : owns sample_run 0 7) by (left; by vm_compute).
  split; [exact H0|]. split; [by vm_compute|]. intros H1.
  exact (spinlock_mutex sample_run 0 1 7 sample_reachable H0 H1).
Defined.

(** C30: A hart's [noff] is the number of locks it holds, plus the one it is taking or giving back, plus its calls of
    [push_off] that are not undone; whenever it is positive the hart's interrupts are off.  So [pop_off], in [release] and
    on its own, never panics, and it turns interrupts on only when the last lock is gone and the last [push_off] undone. *)
Theorem interrupts_off_while_locked m h :
  reachable m -> (forall msg, pcs m h <> Panicked msg) ->
  exists held, NoDup held /\ (forall l, l ∈ held <-> holding m h l = true) /\
    noff (cpus m h) = Z.of_nat (length held) + in_lock (pcs m h) + Z.of_nat (bare m h) /\
    (held <> [] \/ bare m h <> O -> sie (cpus m h) = false) /\
    (pcs m h = RelPop \/ pcs m h = Run /\ bare m h <> O ->
     exists c, pop_off (cpus m h) = inr c /\ (sie c = true -> held = [] /\ noff c = 0)).
Proof.
  intros Hr Hp. destruct (reachable_off m Hr) as [H HO]. pose proof (reachable_inv m Hr) as HI. exists (H h). split_and!.
  - apply HO.
  - intros l. rewrite (o_held _ _ HO). unfold holding. rewrite andb_true_iff, bool_decide_eq_true. split; [|by intros [_ ?]].
    intros E. split; [|done]. by rewrite (i_cpu _ HI h l E).
  - by apply HO.
  - intros Hne. apply (o_sie _ _ HO). rewrite (o_noff _ _ HO) by done. assert (0 <= in_lock (pcs m h)) by (by destruct (pcs m h)).
    destruct Hne as [Hne|Hne]; [|lia]. destruct (H h); [done|]. cbn [length]. lia.
  - intros Hpc. destruct (pop_off_ok m H h HO Hpc) as (c & H1 & H2 & H3). exists c. split; [done|]. intros Hs.
    pose proof (o_pos _ _ HO h) as Hpos. pose proof (o_noff _ _ HO h Hp) as Hn.
    assert (Hc : noff c = 0) by (destruct (decide (noff c > 0)) as [Hg|]; [by rewrite (H3 Hg) in Hs|];
      unfold pop_off in H1; destruct (sie (cpus m h)); [done|]; destruct (Z.ltb_spec (noff (cpus m h)) 1); [done|lia]).
    split; [|done]. apply length_zero_iff_nil. destruct Hpc as [Hpc|[Hpc Hb]]; rewrite Hpc in Hn; cbn in Hn; lia.
Qed.

(** A hart that calls [myproc] while it holds a lock. *)
Definition sample_push : mach := call_push_off 0 sample_run.
Lemma sample_push_reachable : reachable sample_push.
Proof. eapply reach_step; [exact sample_reachable|]. apply step_push_off. by vm_compute. Qed.

Lemma interrupts_off_while_locked_witness :
  noff (cpus sample_push 0) = 2 /\
  exists held, NoDup held /\ (forall l, l ∈ held <-> holding sample_push 0 l = true) /\
    noff (cpus sample_push 0) = Z.of_nat (length held) + in_lock (pcs sample_push 0) + Z.of_nat (bare sample_push 0) /\
    (held <> [] \/ bare sample_push 0 <> O -> sie (cpus sample_push 0) = false) /\
    (pcs sample_push 0 = RelPop \/ pcs sample_push 0 = Run /\ bare sample_push 0 <> O ->
     exists c, pop_off (cpus sample_push 0) = inr c /\ (sie c = true -> held = [] /\ noff c = 0)).
Proof. split; [by vm_compute|]. apply (interrupts_off_while_locked sample_push 0 sample_push_reachable). intros msg. vm_compute. discriminate. Defined.

(** [acquire] panics exactly on a lock the same hart already holds, and [release] exactly on one it does not. *)
Theorem lock_panics m h l :
  reachable m -> pcs m h = Run ->
  (pcs (acquire_release_step h (call_acquire h l m)) h = Panicked "acquire" <-> lcpu (locks m l) = Some h) /\
  (pcs (call_release h l m) h = Panicked "release" <-> lcpu (locks m l) <> Some h).
Proof.
  intros Hr Hpc. pose proof (reachable_inv m Hr) as HI.
  assert (Hh : holding m h l = bool_decide (lcpu (locks m l) = Some h)).
  { unfold holding. case_bool_decide as E; [|by rewrite andb_false_r]. by rewrite (i_cpu _ HI h l E). }
  split.
  - unfold acquire_release_step. cbn. rewrite fn_lookup_insert. fold (holding m h l).
    change (holding (call_acquire h l m) h l) with (holding m h l). rewrite Hh.
    case_bool_decide; cbn; rewrite fn_lookup_insert; naive_solver.
  - unfold call_release. rewrite Hh. case_bool_decide; cbn; rewrite fn_lookup_insert; naive_solver.
Qed.

Lemma lock_panics_witness :
  (pcs (acquire_release_step 0 (call_acquire 0 7 sample_run)) 0 = Panicked "acquire" <-> lcpu (locks sample_run 7) = Some 0%nat) /\
  (pcs (call_release 0 7 sample_run) 0 = Panicked "release" <-> lcpu (locks sample_run 7) <> Some 0%nat).
Proof. apply (lock_panics sample_run 0 7 sample_reachable). vm_compute. reflexivity. Defined.

End Spin.
