(* ===== verification/Proc.v ===== *)
(** * kernel/proc.c: the process table

    Allocation and teardown of processes, their memory size, the scheduler's
    round, and the copies to or from user or kernel addresses.  [fork], [exit],
    [wait] and [userinit], which use the file system, are in [ProcFs.v]; the
    sleep, wakeup and kill code is in [Sched.v].  A process's trapframe is a page
    of RAM at [p->trapframe]. *)

From stdpp Require Import base list gmap strings.
From Stdlib Require Import ZArith Lia.
From S2P Require Import Prelude Mem KString Riscv State Sched Kalloc Vm Ring Uart Format Printf.
Open Scope Z_scope.

(** struct trapframe: offsets of its fields. *)
Definition tf_kernel_satp : Z := 0.
Definition tf_kernel_sp : Z := 8.
Definition tf_kernel_trap : Z := 16.
Definition tf_epc : Z := 24.
Definition tf_kernel_hartid : Z := 32.
Definition tf_ra : Z := 40.
Definition tf_sp : Z := 48.
Definition tf_a0 : Z := 112.
Definition tf_a1 : Z := 120.
Definition tf_a2 : Z := 128.
Definition tf_a7 : Z := 168.
Definition sizeof_trapframe : Z := 288.

(** riscv.h: intr_on, intr_off, intr_get *)
Definition SSTATUS_SPP : Z := Z.shiftl 1 8.
Definition SSTATUS_SPIE : Z := Z.shiftl 1 5.
Definition intr_on : K unit := mod_csrs (fun c => set_r_sstatus (Z.lor (r_sstatus c) SSTATUS_SIE) c).
Definition intr_off : K unit := mod_csrs (fun c => set_r_sstatus (Z.land (r_sstatus c) (Z.lnot SSTATUS_SIE)) c).
Definition intr_get : K bool := gets (fun s => has (r_sstatus (k_csrs s)) SSTATUS_SIE).

Definition cpuid : K Z := gets (fun s => s32 (r_tp (k_csrs s))).

Section Proc.
Context {L : Layout}.

Definition procinit : K unit :=
  for_each (seq 0 NPROC) (fun p =>
    mod_proc p (set_p_state UNUSED) ;;
    mod_proc p (set_p_kstack (KSTACK (Z.of_nat p)))).

Definition allocpid : K Z :=
  acquire L_pid ;;
  pid ← gets k_nextpid;
  modify (fun s => set_k_nextpid (s32 (k_nextpid s + 1)) s) ;;
  release L_pid ;;
  mret pid.

Definition proc_pagetable (p : nat) : K Z :=
  pagetable ← uvmcreate;
  if pagetable =? 0 then mret 0 else
  r ← mappages pagetable TRAMPOLINE PGSIZE trampoline (Z.lor PTE_R PTE_X);
  if r <? 0 then uvmfree pagetable 0 ;; mret 0 else
  pr ← get_proc p;
  r ← mappages pagetable TRAPFRAME PGSIZE (p_trapframe pr) (Z.lor PTE_R PTE_W);
  if r <? 0 then
    uvmunmap pagetable TRAMPOLINE 1 false ;;
    uvmfree pagetable 0 ;;
    mret 0
  else mret pagetable.

Definition proc_freepagetable (pagetable sz : Z) : K unit :=
  uvmunmap pagetable TRAMPOLINE 1 false ;;
  uvmunmap pagetable TRAPFRAME 1 false ;;
  uvmfree pagetable sz.

Definition freeproc (p : nat) : K unit :=
  pr ← get_proc p;
  (if negb (p_trapframe pr =? 0) then kfree (p_trapframe pr) else skip) ;;
  mod_proc p (set_p_trapframe 0) ;;
  pr ← get_proc p;
  (if negb (p_pagetable pr =? 0) then proc_freepagetable (p_pagetable pr) (p_sz pr) else skip) ;;
  mod_proc p (set_p_pagetable 0) ;;
  mod_proc p (set_p_sz 0) ;;
  mod_proc p (set_p_pid 0) ;;
  mod_proc p (set_p_parent None) ;;
  mod_proc p (fun pr => set_p_name (<[0%nat := 0]> (p_name pr)) pr) ;;
  mod_proc p (set_p_chan None) ;;
  mod_proc p (set_p_killed 0) ;;
  mod_proc p (set_p_xstate 0) ;;
  mod_proc p (set_p_state UNUSED).

(** The scan for an UNUSED slot, which leaves its lock held. *)
Definition allocproc_scan (p : nat) : K (nat + option nat) :=
  if (p <? NPROC)%nat then
    acquire (L_proc p) ;;
    pr ← get_proc p;
    if decide (p_state pr = UNUSED) then mret (inr (Some p))
    else release (L_proc p) ;; mret (inl (S p))
  else mret (inr None).

Definition allocproc : K (option nat) :=
  r ← loop (S NPROC) allocproc_scan O;
  match r with
  | None => mret None
  | Some p =>
      pid ← allocpid;
      mod_proc p (set_p_pid pid) ;;
      mod_proc p (set_p_state USED) ;;
      tf ← kalloc;
      mod_proc p (set_p_trapframe tf) ;;
      if tf =? 0 then freeproc p ;; release (L_proc p) ;; mret None else
      pagetable ← proc_pagetable p;
      mod_proc p (set_p_pagetable pagetable) ;;
      if pagetable =? 0 then freeproc p ;; release (L_proc p) ;; mret None else
      mod_proc p (set_p_context context0) ;;
      mod_proc p (fun pr => set_p_context (set_c_ra l_forkret (p_context pr)) pr) ;;
      mod_proc p (fun pr => set_p_context (set_c_sp (u64 (p_kstack pr + PGSIZE)) (p_context pr)) pr) ;;
      mret (Some p)
  end.

Definition growproc (n : Z) : K Z :=
  p ← myproc';
  pr ← get_proc p;
  let sz := p_sz pr in
  if 0 <? n then
    sz ← uvmalloc (p_pagetable pr) sz (u64 (sz + n)) PTE_W;
    if sz =? 0 then mret (-1) else
    mod_proc p (set_p_sz sz) ;; mret 0
  else if n <? 0 then
    sz ← uvmdealloc (p_pagetable pr) sz (u64 (sz + n));
    mod_proc p (set_p_sz sz) ;; mret 0
  else mod_proc p (set_p_sz sz) ;; mret 0.

(** A kernel destination or source is physical memory: the kernel maps RAM
    one to one. *)
Definition either_copyout (user_dst : bool) (dst : Z) (src : list Z) : K Z :=
  if user_dst then p ← myproc'; pr ← get_proc p; copyout (p_pagetable pr) dst src
  else mod_mem (fun m => mwrite m dst src) ;; mret 0.

Definition either_copyin (user_src : bool) (src len : Z) : K (Z * list Z) :=
  if user_src then p ← myproc'; pr ← get_proc p; copyin (p_pagetable pr) src len
  else bs ← gets (fun s => mread (k_mem s) src (Z.to_nat len)); mret (0, bs).

(** One process of the scheduler's round; [swtch] to it is where this hart's
    scheduler thread gives up the CPU.  The result says whether it ran. *)
Definition scheduler_one (p : nat) : K bool :=
  acquire (L_proc p) ;;
  pr ← get_proc p;
  found ← (if decide (p_state pr = RUNNABLE) then
    mod_proc p (set_p_state RUNNING) ;;
    modify (set_k_cur (Some p)) ;;
    suspend ;;
    modify (set_k_cur None) ;;
    mret true
  else mret false);
  release (L_proc p) ;;
  mret found.

(** One turn of the scheduler's [for(;;)]; the idle hart waits for an interrupt
    ([wfi]), that is, until the rest of the system moves on. *)
Definition scheduler_round : K unit :=
  intr_on ;;
  r ← loop (S NPROC) (fun '(p, found) =>
    if (p <? NPROC)%nat then
      ran ← scheduler_one p;
      mret (inl (S p, found || ran))
    else mret (inr found)) (O, false);
  if negb r then intr_on ;; suspend else skip.

Definition scheduler (rounds : nat) : K unit :=
  modify (set_k_cur None) ;;
  for_each (seq 0 rounds) (fun _ => scheduler_round).

(** The label [procdump] prints for a state; the enumeration has no other values. *)
Definition state_name (st : procstate) : list Z :=
  chars (match st with
         | UNUSED => "unused" | USED => "used" | SLEEPING => "sleep "
         | RUNNABLE => "runble" | RUNNING => "run   " | ZOMBIE => "zombie"
         end).

Definition procdump : K unit :=
  printf [10] [] ;;
  for_each (seq 0 NPROC) (fun p =>
    pr ← get_proc p;
    if decide (p_state pr = UNUSED) then skip else
    printf (chars "%d %s %s") [ANum (p_pid pr); AStr (Some (state_name (p_state pr))); AStr (Some (cstr (p_name pr)))] ;;
    printf [10] [] ;;
    skip).

End Proc.
