(* ===== verification/ProcMem.v ===== *)
(** * The memory of a process: page table, trampoline and trapframe

    [proc_pagetable] and [proc_freepagetable] on address spaces.  The two pages
    above the user part, TRAPFRAME and TRAMPOLINE, are mapped to the process's
    trapframe and to the kernel's trampoline code. *)

From stdpp Require Import base list gmap strings.
From Stdlib Require Import ZArith Lia.
From S2P Require Import Prelude Mem KString Riscv State Sched Kalloc Vm PtRep Uvm Uspace Ucopy Pool Ufree Proc.
Open Scope Z_scope.

Section ProcMem.
Context {L : Layout} `{!LayoutOk L}.

(** ** The pages above the user part *)

(** A change of the PTEs above the user part is none of the address space. *)
Lemma high_of_upd s root t l um own s' t' used l' f :
  as_ok s root (mk_aspace t l um own) -> vm_upd s root t l s' t' used l' f -> (forall va, 0 <= va < TRAPFRAME -> va mod PGSIZE = 0 -> f va = None) ->
  as_ok s' root (mk_aspace t' l' um own) /\ a_pages (mk_aspace t' l' um own) ≡ₚ a_pages (mk_aspace t l um own) /\ keeps s s' own.
Proof.
  intros Hok [V F S N T O M P] Hlow. pose proof Hok as [Hvm Hd Hpte Hpg Hnd]. cbn in Hvm, Hd, Hpte.
  assert (Hall : a_pages (mk_aspace t' l' um own) ≡ₚ a_pages (mk_aspace t l um own)).
  { unfold a_pages. cbn. rewrite T, F. solve_Permutation. }
  split; [|split; [done|]].
  - split; cbn [a_tree a_free a_um a_own]; [done|done| |by rewrite Hall..]. intros va Hva Ha. rewrite P by (done || vlia). rewrite Hlow by done. by apply Hpte.
  - split; [done|]. intros p Hp. apply M.
    + apply (as_aligned _ _ _ p Hok). unfold a_pages. cbn. set_solver.
    + intros Hu. destruct (a_nodup_free _ p Hnd) as [Hno _]; [cbn; rewrite F; set_solver|]. by apply Hno.
    + intros π Hπ. destruct (a_nodup_tree _ p Hnd) as [Hno _]; [apply elem_tree_pages; by eexists|]. by apply Hno.
Qed.

(** The PTEs of a table, as a function. *)
Definition ptes (s : kstate) (t : ptree) (f : Z -> Z) : Prop := forall va, 0 <= va < MAXVA -> va mod PGSIZE = 0 -> pte_at (k_mem s) t va = f va.

Lemma map_high s root t l um own va pa perm :
  as_ok s root (mk_aspace t l um own) -> TRAPFRAME <= va -> va + PGSIZE <= MAXVA -> va mod PGSIZE = 0 ->
  0 <= pa -> pa + PGSIZE < 2 ^ 56 -> 0 <= perm < 2 ^ 10 -> has (pte_at (k_mem s) t va) PTE_V = false ->
  exists r s' t' l', mappages root va PGSIZE pa perm s = Ret r s' /\ as_ok s' root (mk_aspace t' l' um own) /\
    a_pages (mk_aspace t' l' um own) ≡ₚ a_pages (mk_aspace t l um own) /\ keeps s s' own /\ (length l <= 2 + length l')%nat /\
    ((r = 0 /\ ptes s' t' (fun va' => if va' =? va then Z.lor (PA2PTE pa) (Z.lor perm PTE_V) else pte_at (k_mem s) t va')) \/
     (r = -1 /\ l' = [] /\ ptes s' t' (pte_at (k_mem s) t))).
Proof.
  intros Hok Hlo Hhi Haln Hpa0 Hpa Hperm Hun.
  destruct (mappages_loop root perm 0 s t l va pa) as (s' & t' & u & l' & k & Hrun & Hup & Hk & Hl' & Hlen); try done; try vlia.
  { apply Hok. } { intros va' Hr Ha. assert (va' = va) as -> by vdivlia. done. }
  assert (Hm : mappages root va PGSIZE pa perm s = Ret (if decide (k = 1%nat) then 0 else -1) s').
  { unfold mappages. rewrite Haln. change (negb (0 =? 0)) with false. change (PGSIZE mod PGSIZE) with 0. change (PGSIZE =? 0) with false.
    cbn [negb Z.eqb]. change (Z.to_nat (PGSIZE / PGSIZE)) with 1%nat. rewrite u64_small by vlia. replace (va + PGSIZE - PGSIZE) with (va + Z.of_nat 0 * PGSIZE) by lia. exact Hrun. }
  destruct (high_of_upd s root t l um own s' t' u l' _ Hok Hup) as (Hok' & Hpg' & Hke).
  { intros va' Hva' Ha'. unfold map_ptes. destruct (within_spec va' va (Z.of_nat k * PGSIZE)); [vlia|done]. }
  exists (if decide (k = 1%nat) then 0 else -1), s', t', l'. do 4 (split; [done|]). split; [rewrite (up_free _ _ _ _ _ _ _ _ _ Hup), length_app; lia|]. destruct (decide (k = 1%nat)) as [->|Hk1]; [left|right]; (split; [done|]).
  - intros va' Hva' Ha'. rewrite (up_pte _ _ _ _ _ _ _ _ _ Hup) by done. rewrite map_ptes_1 by done. by destruct (va' =? va).
  - assert (k = O) as -> by lia. split; [apply Hl'; lia|]. intros va' Hva' Ha'. rewrite (up_pte _ _ _ _ _ _ _ _ _ Hup) by done. unfold map_ptes.
    destruct (within_spec va' va (Z.of_nat 0 * PGSIZE)); [lia|done].
Qed.

Lemma unmap_high s root t l um own va pa f :
  as_ok s root (mk_aspace t l um own) -> TRAPFRAME <= va -> va + PGSIZE <= MAXVA -> va mod PGSIZE = 0 ->
  0 <= pa < 2 ^ 56 -> 0 <= f < 2 ^ 10 -> Z.testbit f 0 = true -> f <> PTE_V -> pte_at (k_mem s) t va = Z.lor (PA2PTE pa) f ->
  exists s', uvmunmap root va 1 false s = Ret tt s' /\ as_ok s' root (mk_aspace t l um own) /\ keeps s s' own /\
    ptes s' t (fun va' => if va' =? va then 0 else pte_at (k_mem s) t va').
Proof.
  intros Hok Hlo Hhi Haln Hpa Hf Hb HfV Hpte. pose proof Hok as [Hvm _ _ _ _]. cbn in Hvm. pose proof (vm_pt _ _ _ _ Hvm) as Hpt.
  assert (HV : has (Z.lor (PA2PTE pa) f) PTE_V = true) by (unfold PTE_V; rewrite has_testbit, testbit_pte by lia; done).
  destruct (pt_slot t va) as [a|] eqn:Ea; [|unfold pte_at in Hpte; rewrite Ea in Hpte; by rewrite <- Hpte, has_0 in HV].
  destruct (pt_slot_split _ _ _ _ _ Hpt Ea) as (_ & _ & _ & _ & Ha0).
  pose proof (pt_set_ok s root t l va a 0 Hvm ltac:(vlia) Haln ltac:(lia) Ea) as Hset.
  destruct (high_of_upd s root t l um own _ t [] l _ Hok (vm_upd_set _ _ _ _ _ _ _ Hset)) as (Hok' & _ & Hke).
  { intros va' Hva' _. destruct (Z.eqb_spec va' va); [vlia|done]. }
  exists (set_k_mem (store64 (k_mem s) a 0) s). split; [|split; [done|split; [done|]]].
  - unfold uvmunmap. rewrite Haln. cbn [Z.eqb negb]. change (Z.to_nat 1) with 1%nat. rewrite u64_small by vlia.
    erewrite loop_continue; [apply loop_break|].
    + unfold uvmunmap_step. rewrite (proj2 (Z.ltb_ge (va + PGSIZE) (va + 1 * PGSIZE))) by vlia. reflexivity.
    + unfold uvmunmap_step. rewrite (proj2 (Z.ltb_lt va (va + 1 * PGSIZE))) by vlia. kstep_by (walk_ok s root t va Hpt); [|vlia]. rewrite Ea. change (default 0 (Some a)) with a.
      rewrite (proj2 (Z.eqb_neq a 0) Ha0). unfold ld64, st64, mod_mem. kstep. unfold pte_at in Hpte. rewrite Ea in Hpte. rewrite Hpte, HV. cbn [negb].
      rewrite PTE_FLAGS_pte by done. rewrite (proj2 (Z.eqb_neq f PTE_V) HfV). kstep. kstep. rewrite u64_small by vlia. reflexivity.
  - intros va' Hva' Ha'. destruct (vm_upd_set _ _ _ _ _ _ _ Hset) as [_ _ _ _ _ _ _ P]. rewrite P by done. by destruct (va' =? va).
Qed.

(** ** proc_pagetable *)

Definition tramp_pte : Z := Z.lor (PA2PTE trampoline) (Z.lor (Z.lor PTE_R PTE_X) PTE_V).
Definition frame_pte (tf : Z) : Z := Z.lor (PA2PTE tf) (Z.lor (Z.lor PTE_R PTE_W) PTE_V).
Definition fixed (s : kstate) (t : ptree) (tf : Z) : Prop :=
  pte_at (k_mem s) t TRAMPOLINE = tramp_pte /\ pte_at (k_mem s) t TRAPFRAME = frame_pte tf.

Lemma high_pages va : TRAPFRAME <= va < MAXVA -> va mod PGSIZE = 0 -> va = TRAPFRAME \/ va = TRAMPOLINE.
Proof. intros Hva Ha. vdivlia. Qed.
Lemma trampoline_56 : 0 <= trampoline /\ trampoline + PGSIZE < 2 ^ 56.
Proof. pose proof trampoline_lo. pose proof trampoline_hi. pose proof kend_lo. pose proof kend_hi. vlia. Qed.

(** Freeing a table with nothing mapped above the user part gives the pages back. *)
Lemma free_user s root t l um own sz :
  as_ok s root (mk_aspace t l um own) -> um_cov um (PGROUNDUP sz) -> 0 <= sz <= TRAPFRAME ->
  (forall va, TRAPFRAME <= va < MAXVA -> va mod PGSIZE = 0 -> has (pte_at (k_mem s) t va) PTE_V = false) ->
  exists s' l', uvmfree root sz s = Ret tt s' /\ pool s' own l' /\ keeps s s' own /\ l' ≡ₚ l ++ tree_pages t ++ um_pages um.
Proof.
  intros Hok Hc Hsz Hhi. destruct (uvmfree_ok s root t l um own sz Hok Hc Hsz Hhi) as (s' & l' & R & Hk & O & Hl & M).
  pose proof Hok as [[_ _ _ Hlk] _ _ Hpg Hnd].
  assert (E : a_pages (mk_aspace t l um own) ≡ₚ own ++ l') by (unfold a_pages; cbn; by rewrite Hl).
  rewrite E in Hpg, Hnd. exists s', l'. split; [done|]. split; [split; try done; cbn in Hlk; by rewrite (mem_only_held _ _ O)|]. split; [|done].
  split; [done|]. intros p Hp. apply M.
  - rewrite Forall_forall in Hpg. apply (Hpg p). apply elem_of_app. by left.
  - intros Hin. apply NoDup_app in Hnd as (_ & Hd & _). by apply (Hd p).
Qed.

Lemma cov_none sz : PGROUNDUP sz = 0 -> um_cov ∅ (PGROUNDUP sz).
Proof. intros ->. intros va. rewrite lookup_empty. split; [by intros []|lia]. Qed.

Lemma free_empty s root t l own :
  as_ok s root (mk_aspace t l ∅ own) -> (forall va, TRAPFRAME <= va < MAXVA -> va mod PGSIZE = 0 -> has (pte_at (k_mem s) t va) PTE_V = false) ->
  exists s' l', uvmfree root 0 s = Ret tt s' /\ pool s' own l' /\ keeps s s' own /\ l' ≡ₚ l ++ tree_pages t.
Proof.
  intros Hok Hhi. destruct (free_user s root t l ∅ own 0 Hok ltac:(by apply cov_none) ltac:(vlia) Hhi) as (s' & l' & R & Hp & Hk & Hl).
  exists s', l'. rewrite um_pages_empty, app_nil_r in Hl. done.
Qed.

(** What [proc_pagetable] returns: nothing, with all pages free again, or a table with the two pages mapped. *)
Definition pagetable_made (s s' : kstate) (own l : list Z) (tf r : Z) : Prop :=
  (r = 0 /\ (length l <= 5)%nat /\ exists l', pool s' own l' /\ l' ≡ₚ l) \/
  (r <> 0 /\ exists t l', (length (tree_pages t) <= 5)%nat /\ as_ok s' r (mk_aspace t l' ∅ own) /\ fixed s' t tf /\ l' ++ tree_pages t ≡ₚ l).

Lemma free_of_pages own l l' t : a_pages (mk_aspace t l' ∅ own) ≡ₚ own ++ l -> l' ++ tree_pages t ≡ₚ l.
Proof.
  unfold a_pages. cbn. rewrite um_pages_empty, app_nil_r. apply Permutation_app_inv_l.
Qed.

Lemma proc_pagetable_ok s p pr own l :
  k_procs s !! p = Some pr -> page_ok (p_trapframe pr) -> pool s own l ->
  exists r s', proc_pagetable p s = Ret r s' /\ keeps s s' own /\ pagetable_made s s' own l (p_trapframe pr) r.
Proof.
  intros Hp Htf Hpool. pose proof (uvmcreate_ok s own l Hpool) as Hc. unfold proc_pagetable. destruct l as [|root l].
  { exists 0, s. split; [by kstep_by Hc|]. split; [apply keeps_refl|]. left. split; [done|]. split; [cbn; lia|]. eauto. }
  destruct Hc as (s1 & R1 & Hr0 & Hok1 & K1). kstep_by R1. rewrite (proj2 (Z.eqb_neq root 0) Hr0). pose proof trampoline_56 as [Ht1 Ht2].
  assert (H0 : forall va, pte_at (k_mem s1) {[ [] := root ]} va = 0) by (intros va; unfold pte_at, pt_slot; by rewrite lookup_singleton_ne).
  assert (U1 : has (pte_at (k_mem s1) {[ [] := root ]} TRAMPOLINE) PTE_V = false) by (by rewrite H0, has_0).
  destruct (map_high s1 root {[ [] := root ]} l ∅ own TRAMPOLINE trampoline (Z.lor PTE_R PTE_X) Hok1)
    as (r2 & s2 & t2 & l2 & R2 & Hok2 & Hpg2 & K2 & N2 & Hr2); try done; try vlia. kstep_by R2.
  assert (E1 : a_pages (mk_aspace {[ [] := root ]} l ∅ own) ≡ₚ own ++ root :: l) by (unfold a_pages; cbn; rewrite tree_pages_singleton, um_pages_empty; solve_Permutation).
  rewrite E1 in Hpg2. destruct Hr2 as [[-> P2]|(-> & -> & P2)]; cbn [Z.ltb Z.compare].
  2: { destruct (free_empty s2 root t2 [] own Hok2) as (s3 & l3 & R3 & Hp3 & K3 & Hl3); [intros va Hva Ha; rewrite P2 by (done || vlia); by rewrite H0, has_0|].
       exists 0, s3. split; [by kstep_by R3|]. split; [eapply keeps_trans; [exact K1|]; by eapply keeps_trans|]. left. split; [done|]. split; [cbn [length] in N2 |- *; lia|]. exists l3. split; [done|].
       rewrite Hl3. by apply (free_of_pages own). }
  assert (Hp2 : k_procs s2 !! p = Some pr).
  { pose proof (ke_only _ _ _ (keeps_trans _ _ _ _ K1 K2)) as ->. done. }
  destruct (page_ok_range _ Htf) as (_ & Hb & _). destruct (page_ok_56 _ Htf) as [[Hb0 _] _]. kstep. fold (p_trapframe pr).
  assert (U2 : has (pte_at (k_mem s2) t2 TRAPFRAME) PTE_V = false) by (rewrite P2 by (done || vlia); by rewrite H0, has_0).
  destruct (map_high s2 root t2 l2 ∅ own TRAPFRAME (p_trapframe pr) (Z.lor PTE_R PTE_W) Hok2)
    as (r4 & s4 & t4 & l4 & R4 & Hok4 & Hpg4 & K4 & N4 & Hr4); try done; try vlia. kstep_by R4.
  rewrite Hpg2 in Hpg4. pose proof (keeps_trans _ _ _ _ K1 (keeps_trans _ _ _ _ K2 K4)) as K. destruct Hr4 as [[-> P4]|(-> & -> & P4)]; cbn [Z.ltb Z.compare].
  - exists root, s4. split; [done|]. split; [done|]. right. split; [done|]. exists t4, l4. pose proof (free_of_pages own _ _ _ Hpg4) as Hl4.
    split; [apply Permutation_length in Hl4; rewrite length_app in Hl4; cbn [length] in Hl4; lia|]. split; [done|]. split; [|by apply (free_of_pages own)].
    split; rewrite P4 by (done || vlia); [rewrite P2 by (done || vlia)|]; done.
  - assert (U4 : pte_at (k_mem s4) t4 TRAMPOLINE = tramp_pte) by (rewrite P4, P2 by (done || vlia); done).
    destruct (unmap_high s4 root t4 [] ∅ own TRAMPOLINE trampoline (Z.lor (Z.lor PTE_R PTE_X) PTE_V) Hok4)
      as (s5 & R5 & Hok5 & K5 & P5); try done; try vlia. kstep_by R5.
    destruct (free_empty s5 root t4 [] own Hok5) as (s6 & l6 & R6 & Hp6 & K6 & Hl6).
    { intros va Hva Ha. rewrite P5, P4, P2 by (done || vlia). destruct (high_pages va Hva Ha) as [->| ->]; by rewrite ?H0, has_0. }
    exists 0, s6. split; [by kstep_by R6|]. split; [by do 2 (eapply keeps_trans; [eassumption|])|]. left. split; [done|]. split; [cbn [length] in N4 |- *; lia|]. exists l6. split; [done|].
    rewrite Hl6. by apply (free_of_pages own).
Qed.

Lemma proc_freepagetable_ok s root t l um own sz tf :
  as_ok s root (mk_aspace t l um own) -> fixed s t tf -> page_ok tf -> um_cov um (PGROUNDUP sz) -> 0 <= sz <= TRAPFRAME ->
  exists s' l', proc_freepagetable root sz s = Ret tt s' /\ pool s' own l' /\ keeps s s' own /\ l' ≡ₚ l ++ tree_pages t ++ um_pages um.
Proof.
  intros Hok [F1 F2] Htf Hc Hsz. pose proof trampoline_56 as [Ht1 Ht2]. destruct (page_ok_56 _ Htf) as [Hb0 _]. unfold proc_freepagetable.
  destruct (unmap_high s root t l um own TRAMPOLINE trampoline (Z.lor (Z.lor PTE_R PTE_X) PTE_V) Hok) as (s1 & R1 & Hok1 & K1 & P1); try done; try vlia.
  assert (U1 : pte_at (k_mem s1) t TRAPFRAME = frame_pte tf) by (by rewrite P1 by (done || vlia)).
  destruct (unmap_high s1 root t l um own TRAPFRAME tf (Z.lor (Z.lor PTE_R PTE_W) PTE_V) Hok1) as (s2 & R2 & Hok2 & K2 & P2); try done; try vlia.
  destruct (free_user s2 root t l um own sz Hok2 Hc Hsz) as (s3 & l3 & R3 & Hp3 & K3 & Hl3).
  { intros va Hva Ha. rewrite P2, P1 by (done || vlia). destruct (high_pages va Hva Ha) as [->| ->]; apply has_0. }
  exists s3, l3. split; [kstep_by R1; kstep_by R2; exact R3|]. split; [done|]. split; [|done]. eapply keeps_trans; [exact K1|]. by eapply keeps_trans.
Qed.
End ProcMem.
