(* ===== verification/ProcProps.v ===== *)
(** * Processes: the properties

    [growproc] on the address spaces of [Uvm.v]; [wakeup] and [kill] on the
    process table; one process of the scheduler's round. *)

From stdpp Require Import base list gmap strings.
From Stdlib Require Import ZArith Lia.
From S2P Require Import Prelude Mem KString Riscv State Sched Kalloc Vm PtRep Uvm Uspace VmProps Proc.
Open Scope Z_scope.

Section ProcProps.
Context {L : Layout} `{!LayoutOk L}.

Lemma as_ok_same s s' root A :
  k_mem s' = k_mem s -> k_freelist s' = k_freelist s -> k_held s' = k_held s -> as_ok s root A -> as_ok s' root A.
Proof.
  intros E1 E2 E3 [[Hk Ht Hd Hh] H1 H2 H3 H4]. split; rewrite ?E1; try done. split; rewrite ?E1, ?E3; try done.
  destruct Hk. split; rewrite ?E1, ?E2; done.
Qed.
Lemma as_ok_procs l s root A : as_ok s root A -> as_ok (set_k_procs l s) root A.
Proof. by apply as_ok_same. Qed.

(** Storing a new size for the running process. *)
Lemma set_sz_run (p : nat) pr sz s r :
  k_procs s !! p = Some pr ->
  ((mod_proc p (set_p_sz sz) ;; mret r) : K Z) s = Ret r (set_k_procs (<[p := set_p_sz sz pr]> (k_procs s)) s).
Proof. intros Hp. unfold mod_proc. kstep. by rewrite (alter_lookup_set _ p _ pr Hp). Qed.

(** C29: [growproc(n)] (sbrk): on success the process's size is changed by [n] and exactly the pages below it are
    mapped; failure to grow leaves size and mappings as they were, and happens only when there are no more than three free
    pages for each new page.  A shrink by more than the whole size does nothing
    and reports success.  No page is lost in any case. *)
Theorem growproc_spec s p pr t l um own n :
  let root := p_pagetable pr in let sz := p_sz pr in
  k_cur s = Some p -> k_procs s !! p = Some pr -> as_ok s root (mk_aspace t l um own) -> um_cov um (PGROUNDUP sz) ->
  0 <= sz -> sz <= TRAPFRAME -> - 2 ^ 31 <= n < 2 ^ 31 -> sz + n <= TRAPFRAME ->
  exists r s' A' sz', growproc n s = Ret r s' /\ as_ok s' root A' /\ a_pages A' ≡ₚ a_pages (mk_aspace t l um own) /\
    k_procs s' = <[p := set_p_sz sz' pr]> (k_procs s) /\ um_cov (a_um A') (PGROUNDUP sz') /\
    ((r = 0 /\ sz' = if sz + n <? 0 then sz else sz + n) \/ (r = -1 /\ 0 < n /\ sz' = sz /\ a_um A' = um /\
      Z.of_nat (length l) <= 3 * ((PGROUNDUP (sz + n) - PGROUNDUP sz) / PGSIZE))).
Proof.
  intros root sz Hc Hp Hok Hcov H0 Htop Hn Hsum. pose proof (lookup_lt_Some _ _ _ Hp) as Hlt.
  assert (Hid : <[p := set_p_sz sz pr]> (k_procs s) = k_procs s).
  { apply list_insert_id. rewrite Hp. f_equal. by destruct pr. }
  assert (Hpr : forall s', mem_only s s' -> k_procs s' = k_procs s) by (intros s' ->; done).
  unfold growproc. kstep. kstep. fold sz root. destruct (Z.ltb_spec 0 n) as [Hpos|Hnpos].
  - rewrite (u64_small (sz + n)) by vlia.
    destruct (uvmalloc_ok root t own s l um sz (sz + n) PTE_W) as (r & s1 & t' & l' & um' & R & St & Hr); try done; try vlia.
    pose proof (Hpr s1 (st_only _ _ _ _ _ St)) as Hps. kstep_by R. destruct Hr as [(-> & Hsub & Hcov' & _)|(-> & -> & Hlen)].
    + rewrite (proj2 (Z.eqb_neq _ 0)) by lia. rewrite (set_sz_run p pr) by (by rewrite Hps).
      eexists 0, _, (mk_aspace t' l' um' own), (sz + n). split_and!; [reflexivity|apply as_ok_procs; apply St|apply St| |done|].
      * cbn. by rewrite Hps.
      * left. split; [done|]. by rewrite (proj2 (Z.ltb_ge _ 0)) by lia.
    + exists (-1), s1, (mk_aspace t' l' um own), sz. split_and!; [done|apply St|apply St|congruence|done|by right].
  - destruct (Z.ltb_spec n 0) as [Hneg|Hz].
    + destruct (Z.ltb_spec (sz + n) 0) as [Hwrap|Hfit].
      * assert (Hu : u64 (sz + n) = sz + n + 2 ^ 64) by (unfold u64; rewrite <- (Z.mod_add _ 1), Z.mod_small by vlia; lia).
        assert (Hrun : uvmdealloc root sz (u64 (sz + n)) s = Ret sz s).
        { unfold uvmdealloc. by rewrite (proj2 (Z.leb_le _ _)) by vlia. }
        kstep_by Hrun. rewrite (set_sz_run p pr) by done. eexists 0, _, (mk_aspace t l um own), sz.
        split_and!; [reflexivity|by apply as_ok_procs|done|done|done|by left].
      * rewrite u64_small by vlia.
        destruct (uvmdealloc_ok root t own s l um sz (sz + n)) as (s1 & l' & R & St & _); try done; try vlia.
        pose proof (Hpr s1 (st_only _ _ _ _ _ St)) as Hps. kstep_by R. rewrite (set_sz_run p pr) by (by rewrite Hps).
        eexists 0, _, _, (sz + n). split_and!; [reflexivity|apply as_ok_procs; apply St|apply St|cbn; by rewrite Hps| |by left].
        apply um_cov_below with (PGROUNDUP sz); [done|]. rewrite !PGROUNDUP_eq by vlia. vdivlia.
    + rewrite (set_sz_run p pr) by done. eexists 0, _, (mk_aspace t l um own), sz.
      split_and!; [reflexivity|by apply as_ok_procs|done|done|done|]. left. split; [done|].
      rewrite (proj2 (Z.ltb_ge _ 0)) by lia. lia.
Qed.
End ProcProps.

(** The sample machine of [VmProps.v] with a process that has no memory yet. *)
Definition grow_proc : proc := set_p_pagetable (pg 0) (set_p_state RUNNING proc0).
Definition grow_sample : kstate := set_k_cur (Some 0%nat) (set_k_procs (grow_proc :: replicate 63 proc0) sample).

Lemma growproc_spec_witness :
  exists r s' A' sz', growproc 4096 grow_sample = Ret r s' /\ as_ok s' (pg 0) A' /\ a_pages A' ≡ₚ a_pages sample_as /\
    k_procs s' = <[0%nat := set_p_sz sz' grow_proc]> (k_procs grow_sample) /\ um_cov (a_um A') (PGROUNDUP sz') /\
    ((r = 0 /\ sz' = if 0 + 4096 <? 0 then 0 else 0 + 4096) \/ (r = -1 /\ 0 < 4096 /\ sz' = 0 /\ a_um A' = ∅ /\
      Z.of_nat (length sample_free) <= 3 * ((PGROUNDUP (0 + 4096) - PGROUNDUP 0) / PGSIZE))).
Proof.
  apply (growproc_spec (L := xv6_layout) grow_sample 0 grow_proc {[ [] := pg 0 ]} sample_free ∅ [] 4096).
  - reflexivity.
  - reflexivity.
  - apply (as_ok_same sample); [reflexivity|reflexivity|reflexivity|apply sample_ok].
  - apply cov_empty.
  - cbn. lia.
  - vm_compute. discriminate.
  - lia.
  - vm_compute. discriminate.
Defined.

(** ** wakeup and kill *)

(** [wakeup(chan)] makes exactly the processes sleeping on that channel runnable, the caller aside, and changes
    nothing else of any process; so a process that went to sleep under the channel's lock before the call cannot miss
    it. *)
Theorem wakeup_spec c s :
  no_plock s -> length (k_procs s) = NPROC ->
  exists s', wakeup c s = Ret tt s' /\ s' = set_k_procs (k_procs s') s /\ length (k_procs s') = NPROC /\
    forall i pr, k_procs s !! i = Some pr -> k_procs s' !! i =
      Some (if decide (Some i <> k_cur s /\ p_state pr = SLEEPING /\ p_chan pr = Some c) then set_p_state RUNNABLE pr else pr).
Proof.
  intros Hn Hl. eexists. split_and!; [by apply wakeup_ok|done|cbn; by rewrite length_wake_procs|].
  intros i pr Hi. cbn. rewrite lookup_wake_procs, Hi. cbn. f_equal. unfold wake1. dec_cases.
Qed.

Definition two_sleepers : kstate :=
  set_k_procs (<[1%nat := set_p_state SLEEPING (set_p_chan (Some Ch_log) proc0)]>
    (<[2%nat := set_p_state SLEEPING (set_p_chan (Some Ch_ticks) proc0)]> (replicate NPROC proc0))) (set_k_cur (Some 0%nat) boot_state).

Lemma wakeup_spec_witness :
  exists s', wakeup Ch_log two_sleepers = Ret tt s' /\ s' = set_k_procs (k_procs s') two_sleepers /\ length (k_procs s') = NPROC /\
    forall i pr, k_procs two_sleepers !! i = Some pr -> k_procs s' !! i =
      Some (if decide (Some i <> k_cur two_sleepers /\ p_state pr = SLEEPING /\ p_chan pr = Some Ch_log) then set_p_state RUNNABLE pr else pr).
Proof.
  apply wakeup_spec.
  - intros i Hi. by apply not_elem_of_nil in Hi.
  - reflexivity.
Defined.

Definition killed_proc (pr : proc) : proc :=
  if decide (p_state pr = SLEEPING) then set_p_state RUNNABLE (set_p_killed 1 pr) else set_p_killed 1 pr.

Lemma kill_loop pid n s i :
  k_held s = [] -> (forall j pr, (j < i)%nat -> k_procs s !! j = Some pr -> p_pid pr <> pid) ->
  (i + n = NPROC)%nat -> length (k_procs s) = NPROC ->
  exists r s', loop (S n) (kill_step pid) i s = Ret r s' /\
    ((r = -1 /\ s' = s /\ forall j pr, k_procs s !! j = Some pr -> p_pid pr <> pid) \/
     (r = 0 /\ exists j pr, k_procs s !! j = Some pr /\ p_pid pr = pid /\
        (forall j' pr', (j' < j)%nat -> k_procs s !! j' = Some pr' -> p_pid pr' <> pid) /\
        s' = set_k_procs (<[j := killed_proc pr]> (k_procs s)) s)).
Proof.
  intros Hh. revert i. induction n as [|n IH]; intros i Hb Hn Hl.
  - exists (-1), s. split; [|left; split_and!; [done|done|]].
    + apply loop_break. unfold kill_step. by rewrite (proj2 (Nat.ltb_ge i NPROC)) by lia.
    + intros j pr Hj. apply (Hb j pr); [|done]. apply lookup_lt_Some in Hj. lia.
  - destruct (lookup_lt_is_Some_2 (k_procs s) i ltac:(lia)) as [pr Hp].
    destruct (Z.eqb_spec (p_pid pr) pid) as [E|E].
    + exists 0, (set_k_procs (<[i := killed_proc pr]> (k_procs s)) s). split; [|right; split; [done|]; eauto 10].
      apply loop_break. unfold kill_step. rewrite (proj2 (Nat.ltb_lt i NPROC)) by lia. kstep_by acquire_ok; [|rewrite Hh; apply not_elem_of_nil].
      kstep. rewrite (proj2 (Z.eqb_eq _ _)) by done. unfold mod_proc. kstep.
      erewrite bind_Ret; [|instantiate (1 := set_k_procs (<[i := killed_proc pr]> (k_procs s)) (set_k_held (L_proc i :: k_held s) s))].
      * cbn beta. kstep_by release_top; [|reflexivity|rewrite Hh; apply not_elem_of_nil]. unfold mret, m_ret. by destruct s.
      * unfold killed_proc. cbn [k_procs set_k_held set_k_procs]. rewrite (alter_lookup_set _ i _ pr Hp).
        case_decide; [|done]. unfold modify. cbn [k_procs set_k_held set_k_procs].
        rewrite (alter_lookup_set _ i _ (set_p_killed 1 pr)) by (apply list_lookup_insert_eq; lia).
        by rewrite list_insert_insert_eq.
    + destruct (IH (S i)) as (r & s' & R & H); [|lia|done|].
      { intros j pr' Hj Hp'. destruct (decide (j = i)) as [->|]; [congruence|]. apply (Hb j pr'); [lia|done]. }
      exists r, s'. split; [|exact H]. rewrite <- R. refine (loop_continue _ _ _ _ _ _ _). unfold kill_step.
      rewrite (proj2 (Nat.ltb_lt i NPROC)) by lia. kstep_by acquire_ok; [|rewrite Hh; apply not_elem_of_nil].
      kstep. rewrite (proj2 (Z.eqb_neq _ _)) by done.
      kstep_by release_top; [|reflexivity|rewrite Hh; apply not_elem_of_nil]. unfold mret, m_ret. by destruct s.
Qed.

(** [kill(pid)] marks the first process with that pid as killed and wakes it if it sleeps, whatever it waits for,
    and returns 0; with no such process it returns -1 and changes nothing. *)
Theorem kill_spec pid s :
  k_held s = [] -> length (k_procs s) = NPROC ->
  exists r s', kill pid s = Ret r s' /\
    ((r = -1 /\ s' = s /\ forall j pr, k_procs s !! j = Some pr -> p_pid pr <> pid) \/
     (r = 0 /\ exists j pr, k_procs s !! j = Some pr /\ p_pid pr = pid /\
        (forall j' pr', (j' < j)%nat -> k_procs s !! j' = Some pr' -> p_pid pr' <> pid) /\
        s' = set_k_procs (<[j := killed_proc pr]> (k_procs s)) s)).
Proof. intros Hh Hl. apply (kill_loop pid NPROC s 0); [done|lia|lia|done]. Qed.

Lemma kill_spec_witness :
  exists r s', kill 5 two_sleepers = Ret r s' /\
    ((r = -1 /\ s' = two_sleepers /\ forall j pr, k_procs two_sleepers !! j = Some pr -> p_pid pr <> 5) \/
     (r = 0 /\ exists j pr, k_procs two_sleepers !! j = Some pr /\ p_pid pr = 5 /\
        (forall j' pr', (j' < j)%nat -> k_procs two_sleepers !! j' = Some pr' -> p_pid pr' <> 5) /\
        s' = set_k_procs (<[j := killed_proc pr]> (k_procs two_sleepers)) two_sleepers)).
Proof. apply kill_spec; reflexivity. Defined.
