(* ===== verification/Console.v ===== *)
(** * kernel/console.c: the console

    Line-at-a-time input: the interrupt handler edits the line between [cons.w]
    and [cons.e] and moves [cons.w] when it is complete; [consoleread] takes bytes
    between [cons.r] and [cons.w].  Also [uartintr], which calls [consoleintr]. *)

From stdpp Require Import base list gmap strings.
From Stdlib Require Import ZArith Lia.
From S2P Require Import Prelude Mem Riscv State Sched Kalloc Vm Ring Uart Format Printf Proc.
Open Scope Z_scope.

Definition INPUT_BUF_SIZE : Z := 128.
Definition CONSOLE : nat := 1.

Definition cons_at (c : cons) (i : Z) : Z := default 0 (cs_buf c !! Z.to_nat (i mod INPUT_BUF_SIZE)).

(** [while(cons.r == cons.w){ ... sleep }]; [inr true] when the process was killed. *)
Definition cons_wait (_ : unit) : K (unit + bool) :=
  c ← gets k_cons;
  if cs_r c =? cs_w c then
    p ← myproc';
    k ← killed p;
    if negb (k =? 0) then mret (inr true)
    else sleep Ch_cons_r L_cons ;; mret (inl tt)
  else mret (inr false).

(** One byte of [consoleread]; [inr None] is the return of -1 for a killed
    process, [inr (Some n)] leaves the loop with [n] bytes still wanted. *)
Definition consoleread_step (user_dst : bool) (target : Z) (st : Z * Z) : K (Z * Z + option Z) :=
  let '(dst, n) := st in
  if 0 <? n then
    fuel ← gets k_fuel;
    k ← loop fuel cons_wait tt;
    if k : bool then mret (inr None) else
    cs ← gets k_cons;
    let c := cons_at cs (cs_r cs) in
    mod_cons (fun cs => set_cs_r (u32 (cs_r cs + 1)) cs) ;;
    if c =? 4 then
      (if u32 n <? target then mod_cons (fun cs => set_cs_r (u32 (cs_r cs - 1)) cs) else skip) ;;
      mret (inr (Some n))
    else
    r ← either_copyout user_dst dst [c];
    if r =? -1 then mret (inr (Some n)) else
    if c =? 10 then mret (inr (Some (n - 1)))
    else mret (inl (u64 (dst + 1), n - 1))
  else mret (inr (Some n)).

Definition consoleread (user_dst : bool) (dst n : Z) : K Z :=
  let target := u32 n in
  acquire L_cons ;;
  r ← loop (S (Z.to_nat n)) (consoleread_step user_dst target) (dst, n);
  release L_cons ;;
  match r with
  | None => mret (-1)
  | Some n => mret (s32 (target - n))
  end.

Definition consolewrite_step (user_src : bool) (src n i : Z) : K (Z + Z) :=
  if i <? n then
    '(r, bs) ← either_copyin user_src (u64 (src + i)) 1;
    if r =? -1 then mret (inr i) else
    uartputc (default 0 (bs !! 0%nat)) ;;
    mret (inl (i + 1))
  else mret (inr i).
Definition consolewrite (user_src : bool) (src n : Z) : K Z :=
  loop (S (Z.to_nat n)) (consolewrite_step user_src src n) 0.

(** [cons.e--; consputc(BACKSPACE)] *)
Definition erase : K unit :=
  mod_cons (fun cs => set_cs_e (u32 (cs_e cs - 1)) cs) ;; consputc BACKSPACE.

Definition kill_line_step (_ : unit) : K (unit + unit) :=
  cs ← gets k_cons;
  if negb (cs_e cs =? cs_w cs) && negb (cons_at cs (u32 (cs_e cs - 1)) =? 10)
  then erase ;; mret (inl tt) else mret (inr tt).

Definition consoleintr_default (c : Z) : K unit :=
  cs ← gets k_cons;
  if negb (c =? 0) && (u32 (cs_e cs - cs_r cs) <? INPUT_BUF_SIZE) then
    let c := if c =? 13 then 10 else c in
    consputc c ;;
    mod_cons (fun cs => set_cs_buf (<[Z.to_nat (cs_e cs mod INPUT_BUF_SIZE) := u8 c]> (cs_buf cs)) cs) ;;
    mod_cons (fun cs => set_cs_e (u32 (cs_e cs + 1)) cs) ;;
    cs ← gets k_cons;
    if (c =? 10) || (c =? 4) || (u32 (cs_e cs - cs_r cs) =? INPUT_BUF_SIZE) then
      mod_cons (fun cs => set_cs_w (cs_e cs) cs) ;;
      wakeup Ch_cons_r
    else skip
  else skip.

Definition consoleintr (c : Z) : K unit :=
  acquire L_cons ;;
  (if c =? 16 then procdump
   else if c =? 21 then
     n ← gets (fun s => Z.to_nat (u32 (cs_e (k_cons s) - cs_w (k_cons s))));
     loop (S n) kill_line_step tt
   else if (c =? 8) || (c =? 0x7f) then
     cs ← gets k_cons;
     if negb (cs_e cs =? cs_w cs) then erase else skip
   else consoleintr_default c) ;;
  release L_cons.

Definition uartintr_step (_ : unit) : K (unit + unit) :=
  c ← uartgetc;
  if c =? -1 then mret (inr tt) else
  consoleintr c ;; mret (inl tt).
Definition uartintr : K unit :=
  n ← gets (fun s => length (ut_rx (k_uart s)));
  loop (S n) uartintr_step tt ;;
  acquire L_uart ;;
  uartstart ;;
  release L_uart.

(** [devsw[CONSOLE].read] and [.write] are set: entry 1 stands for the console's
    pair of functions. *)
Definition consoleinit : K unit :=
  uartinit ;;
  modify (fun s => set_k_devsw (<[CONSOLE := 1]> (k_devsw s)) s).
