(* ===== verification/ConsoleProps.v ===== *)
(** * The console's line discipline

    [consoleintr] refines an editor on two lists: the input that is ready to be
    read and the line being typed. *)

From stdpp Require Import base list gmap strings.
From Stdlib Require Import ZArith Lia.
From S2P Require Import Prelude Mem Riscv State Sched Kalloc Vm Ring Uart Format Printf Proc Console.
Open Scope Z_scope.

#[global] Instance cons_ring : RingSize 128 (2 ^ 32).
Proof. split; [lia|lia|]. by exists (2 ^ 25). Qed.

(** ** The specification *)

Record tty := mk_tty { ready : list Z; line : list Z }.

Definition tty_input (c : Z) (t : tty) : tty :=
  if c =? 16 then t
  else if c =? 21 then mk_tty (ready t) []
  else if (c =? 8) || (c =? 127) then mk_tty (ready t) (take (pred (length (line t))) (line t))
  else if negb (c =? 0) && (Z.of_nat (length (ready t) + length (line t)) <? 128) then
    let c := if c =? 13 then 10 else c in
    if (c =? 10) || (c =? 4) || (Z.of_nat (length (ready t) + length (line t)) + 1 =? 128)
    then mk_tty (ready t ++ line t ++ [c]) [] else mk_tty (ready t) (line t ++ [c])
  else t.

Definition tty_of (c : cons) : tty :=
  mk_tty (ring 128 (2 ^ 32) (cs_buf c) (cs_r c) (cs_w c)) (ring 128 (2 ^ 32) (cs_buf c) (cs_w c) (cs_e c)).

Record cons_ok (c : cons) : Prop := {
  co_len : length (cs_buf c) = 128%nat;
  co_r : 0 <= cs_r c < 2 ^ 32;
  co_w : 0 <= cs_w c < 2 ^ 32;
  co_e : 0 <= cs_e c < 2 ^ 32;
  co_fit : (length (ready (tty_of c)) + length (line (tty_of c)) <= 128)%nat;
  co_line : 10 ∉ line (tty_of c)
}.

(** ** Counters and lists *)

Lemma cons_counts c : cons_ok c ->
  (cs_w c - cs_r c) mod 2 ^ 32 = Z.of_nat (length (ready (tty_of c))) /\
  (cs_e c - cs_w c) mod 2 ^ 32 = Z.of_nat (length (line (tty_of c))) /\
  (cs_e c - cs_r c) mod 2 ^ 32 = Z.of_nat (length (ready (tty_of c)) + length (line (tty_of c))).
Proof.
  intros [H1 H2 H3 H4 H5 H6].
  pose proof (length_ring (N := 128) (M := 2 ^ 32) (cs_buf c) (cs_r c) (cs_w c)) as E1.
  pose proof (length_ring (N := 128) (M := 2 ^ 32) (cs_buf c) (cs_w c) (cs_e c)) as E2. cbn [tty_of ready line] in *.
  split_and!; [lia|lia|]. replace (cs_e c - cs_r c) with ((cs_w c - cs_r c) + (cs_e c - cs_w c)) by lia.
  rewrite Zplus_mod, <- E1, <- E2, Z.mod_small by lia. lia.
Qed.

Lemma line_empty c : cons_ok c -> (cs_e c =? cs_w c) = bool_decide (line (tty_of c) = []).
Proof.
  intros [H1 H2 H3 H4 H5 H6]. cbn [tty_of line]. pose proof (ring_nil_iff (N := 128) (M := 2 ^ 32) (cs_buf c) (cs_w c) (cs_e c) H3 H4) as Hn.
  destruct (Z.eqb_spec (cs_e c) (cs_w c)) as [E|E].
  - rewrite bool_decide_eq_true_2; [done|]. apply Hn. done.
  - rewrite bool_decide_eq_false_2; [done|]. intros ?%Hn. congruence.
Qed.

(** Erasing the last character of the line. *)
Lemma erase_tty c : cons_ok c -> line (tty_of c) <> [] ->
  let c' := set_cs_e (u32 (cs_e c - 1)) c in
  cons_ok c' /\ ready (tty_of c') = ready (tty_of c) /\
  line (tty_of c) = line (tty_of c') ++ [cons_at c (u32 (cs_e c - 1))].
Proof.
  intros Hok Hne c'. pose proof (cons_counts c Hok) as (_ & E2 & _). destruct Hok as [H1 H2 H3 H4 H5 H6].
  assert (Hpos : 0 < (cs_e c - cs_w c) mod 2 ^ 32) by (rewrite E2; destruct (line (tty_of c)); [done|cbn; lia]).
  pose proof (ring_unpush (N := 128) (M := 2 ^ 32) (cs_buf c) (cs_w c) (cs_e c) Hpos) as Hu.
  assert (Hl : line (tty_of c) = line (tty_of c') ++ [cons_at c (u32 (cs_e c - 1))]) by exact Hu.
  split_and!; [|done|done]. rewrite Hl in *. rewrite length_app in H5. cbn [length] in H5. split; try done.
  - apply u32_range.
  - change (ready (tty_of c')) with (ready (tty_of c)). lia.
  - intros Hin. apply H6, elem_of_app. by left.
Qed.

(** Appending a character to the line. *)
Lemma append_tty c ch : cons_ok c -> (length (ready (tty_of c)) + length (line (tty_of c)) < 128)%nat ->
  let c' := set_cs_e (u32 (cs_e c + 1)) (set_cs_buf (<[Z.to_nat (cs_e c mod 128) := ch]> (cs_buf c)) c) in
  ready (tty_of c') = ready (tty_of c) /\ line (tty_of c') = line (tty_of c) ++ [ch] /\ length (cs_buf c') = 128%nat /\
  0 <= cs_e c' < 2 ^ 32.
Proof.
  intros Hok Hlt c'. pose proof (cons_counts c Hok) as (E1 & E2 & E3). destruct Hok as [H1 H2 H3 H4 H5 H6].
  assert (Hline : line (tty_of c') = line (tty_of c) ++ [ch]).
  { apply (ring_push (N := 128) (M := 2 ^ 32)); [done|]. change ((cs_e c - cs_w c) mod 2 ^ 32 < 128). lia. }
  assert (Hall : ring 128 (2 ^ 32) (cs_buf c') (cs_r c) (cs_e c') = ring 128 (2 ^ 32) (cs_buf c) (cs_r c) (cs_e c) ++ [ch]).
  { apply (ring_push (N := 128) (M := 2 ^ 32)); [done|]. change ((cs_e c - cs_r c) mod 2 ^ 32 < 128). lia. }
  assert (E2' : (cs_e c' - cs_w c) mod 2 ^ 32 = (cs_e c - cs_w c) mod 2 ^ 32 + 1).
  { apply (sub_mod_S (N := 128)); lia. }
  rewrite (ring_app _ _ (cs_w c)), (ring_app (cs_buf c) _ (cs_w c)) in Hall by lia.
  fold (ready (tty_of c')) (line (tty_of c')) (ready (tty_of c)) (line (tty_of c)) in Hall.
  change (ring 128 (2 ^ 32) (cs_buf c') (cs_w c) (cs_e c')) with (line (tty_of c')) in Hall.
  rewrite Hline, <- app_assoc in Hall. apply app_inv_tail in Hall.
  split_and!; [exact Hall|done|cbn; by rewrite length_insert|apply u32_range..].
Qed.

(** Handing the line over to the readers. *)
Lemma commit_tty c : length (cs_buf c) = 128%nat -> 0 <= cs_r c < 2 ^ 32 -> 0 <= cs_e c < 2 ^ 32 ->
  (length (ready (tty_of c)) + length (line (tty_of c)) <= 128)%nat ->
  cons_ok (set_cs_w (cs_e c) c) /\ tty_of (set_cs_w (cs_e c) c) = mk_tty (ready (tty_of c) ++ line (tty_of c)) [].
Proof.
  intros H1 H2 H4 H5.
  pose proof (length_ring (N := 128) (M := 2 ^ 32) (cs_buf c) (cs_r c) (cs_w c)) as E1.
  pose proof (length_ring (N := 128) (M := 2 ^ 32) (cs_buf c) (cs_w c) (cs_e c)) as E2.
  assert (Ht : tty_of (set_cs_w (cs_e c) c) = mk_tty (ready (tty_of c) ++ line (tty_of c)) []).
  { unfold tty_of. cbn [cs_buf cs_r cs_w cs_e set_cs_w ready line]. rewrite ring_empty. f_equal.
    apply ring_app. cbn [tty_of ready line] in H5. lia. }
  split; [|done]. split; try done; rewrite Ht; cbn [ready line].
  - by rewrite length_app, Nat.add_0_r.
  - apply not_elem_of_nil.
Qed.

(** ** The handler *)

(** Only the console, the uart and sleeping processes change. *)
Record con_frame (s s' : kstate) : Prop := {
  cf_only : s' = set_k_procs (k_procs s') (set_k_uart (k_uart s') (set_k_cons (k_cons s') s));
  cf_len : length (k_procs s') = length (k_procs s)
}.
#[global] Instance con_frame_preorder : PreOrder con_frame.
Proof.
  split; [intros s; by split; [destruct s|]|]. intros s1 s2 s3 [A1 A2] [B1 B2]. split; [|congruence].
  rewrite B1, A1. by destruct s1.
Qed.

Lemma con_frame_cons c s : con_frame s (set_k_cons c s).
Proof. by split; [destruct s|]. Qed.
Lemma con_frame_uart s s' : uart_frame s s' -> con_frame s s' /\ k_cons s' = k_cons s.
Proof.
  intros [E1 E2 E3]. assert (k_cons s' = k_cons s) as Hc by (by rewrite E1). split; [|done]. split; [|done].
  rewrite E1 at 1. rewrite Hc. by destruct s.
Qed.

Lemma erase_run s : k_panicked s = false ->
  exists s', erase s = Ret tt s' /\ con_frame s s' /\ k_cons s' = set_cs_e (u32 (cs_e (k_cons s) - 1)) (k_cons s).
Proof.
  intros Hp. destruct (consputc_ok BACKSPACE (set_k_cons (set_cs_e (u32 (cs_e (k_cons s) - 1)) (k_cons s)) s) Hp)
    as (s' & R & [F _ _ _]). exists s'. apply con_frame_uart in F as [F Hc].
  split_and!; [unfold erase, mod_cons; kstep; exact R|etrans; [apply con_frame_cons|exact F]|done].
Qed.

Lemma kill_line_loop n s : k_panicked s = false -> cons_ok (k_cons s) -> length (line (tty_of (k_cons s))) = n ->
  exists s', loop (S n) kill_line_step tt s = Ret tt s' /\ con_frame s s' /\ cons_ok (k_cons s') /\
    tty_of (k_cons s') = mk_tty (ready (tty_of (k_cons s))) [].
Proof.
  revert s. induction n as [|n IH]; intros s Hp Hok Hn; pose proof (line_empty _ Hok) as He.
  - apply nil_length_inv in Hn. rewrite (bool_decide_eq_true_2 _ Hn) in He. exists s. split_and!; [|done|done|].
    + apply loop_break. unfold kill_line_step. kstep. by rewrite He.
    + rewrite <- Hn. done.
  - assert (Hne : line (tty_of (k_cons s)) <> []) by (intros E; by rewrite E in Hn).
    rewrite (bool_decide_eq_false_2 _ Hne) in He. destruct (erase_run s Hp) as (s1 & R1 & F1 & C1).
    destruct (erase_tty _ Hok Hne) as (Hok1 & Hr1 & Hl1). rewrite <- C1 in *.
    destruct (IH s1) as (s' & R' & F' & Hok' & Ht'); [by rewrite (cf_only _ _ F1)|done| |].
    { rewrite Hl1, length_app in Hn. cbn [length] in Hn. lia. }
    exists s'. split_and!; [|by etrans|done|by rewrite Ht', Hr1].
    rewrite <- R'. refine (loop_continue _ _ _ _ _ _ _). unfold kill_line_step. kstep. rewrite He. cbn [negb andb].
    rewrite (proj2 (Z.eqb_neq (cons_at _ _) 10)); [cbn [negb]; kstep_by R1; done|].
    intros E. apply (co_line _ Hok). rewrite Hl1, E. apply elem_of_app. right. by apply list_elem_of_singleton.
Qed.

Lemma consoleintr_default_ok c s :
  k_panicked s = false -> cons_ok (k_cons s) -> no_plock s -> length (k_procs s) = NPROC ->
  0 <= c < 256 -> c <> 16 -> c <> 21 -> c <> 8 -> c <> 127 ->
  exists s', consoleintr_default c s = Ret tt s' /\ con_frame s s' /\ cons_ok (k_cons s') /\
    tty_of (k_cons s') = tty_input c (tty_of (k_cons s)).
Proof.
  intros Hp Hok Hnp Hlen Hc H16 H21 H8 H127. pose proof (cons_counts _ Hok) as (_ & _ & Etot0). pose proof Etot0 as Etot.
  unfold consoleintr_default, tty_input. kstep. fold (u32 (cs_e (k_cons s) - cs_r (k_cons s))) in Etot. rewrite Etot.
  rewrite (proj2 (Z.eqb_neq c 16) H16), (proj2 (Z.eqb_neq c 21) H21), (proj2 (Z.eqb_neq c 8) H8), (proj2 (Z.eqb_neq c 127) H127).
  unfold INPUT_BUF_SIZE. cbn [orb].
  destruct (negb (c =? 0) && (Z.of_nat (length (ready (tty_of (k_cons s))) + length (line (tty_of (k_cons s)))) <? 128)) eqn:Eg;
    [|exists s; done]. apply andb_prop in Eg as [_ Elt%Z.ltb_lt].
  set (ch := if c =? 13 then 10 else c). assert (Hch : u8 ch = ch) by (apply u8_small; unfold ch; destruct (c =? 13); lia).
  destruct (consputc_ok ch s Hp) as (s1 & R1 & [F1 _ _ _]). apply con_frame_uart in F1 as [F1 C1]. kstep_by R1.
  destruct (append_tty (k_cons s) ch Hok ltac:(lia)) as (Hr & Hl & Hbl & Her).
  set (c2 := set_cs_e _ _) in Hr, Hl, Hbl, Her. unfold mod_cons. kstep. kstep. kstep.
  set (s2 := set_k_cons _ (set_k_cons _ s1)).
  assert (E2 : k_cons s2 = c2) by (unfold s2; cbn; by rewrite C1, Hch).
  assert (F2 : con_frame s s2) by (etrans; [exact F1|]; etrans; apply con_frame_cons). rewrite E2.
  assert (Hlen2 : length (k_procs s2) = NPROC) by (by rewrite (cf_len _ _ F2)).
  assert (Hnp2 : no_plock s2) by (intros i Hi; rewrite (cf_only _ _ F2) in Hi |- *; by apply Hnp).
  assert (Etot2 : u32 (cs_e c2 - cs_r c2) = Z.of_nat (length (ready (tty_of (k_cons s))) + length (line (tty_of (k_cons s)))) + 1).
  { rewrite <- Etot. apply (sub_mod_S (N := 128) (M := 2 ^ 32) (cs_r (k_cons s)) (cs_e (k_cons s))); rewrite Etot0; lia. }
  rewrite Etot2.
  destruct ((ch =? 10) || (ch =? 4) || (Z.of_nat (length (ready (tty_of (k_cons s))) + length (line (tty_of (k_cons s)))) + 1 =? 128)) eqn:Ecm.
  - destruct (commit_tty c2) as [Hok3 Ht3]; [done|apply Hok|done|rewrite Hr, Hl, length_app; cbn [length]; lia|].
    kstep. rewrite wakeup_ok; [|exact Hnp2|exact Hlen2].
    eexists. split_and!; [reflexivity| | |].
    + etrans; [exact F2|]. split; [by destruct s2|exact (length_wake_procs _ _ _)].
    + cbn. by rewrite C1, Hch.
    + rewrite Hr, Hl, app_assoc in Ht3. cbn. rewrite C1, Hch. rewrite <- app_assoc in Ht3. exact Ht3.
  - exists s2. split_and!; [done|done| |].
    + rewrite E2. split; try done; try apply Hok.
      * rewrite Hr, Hl, length_app. cbn [length]. lia.
      * rewrite Hl. intros [Hin| Hin%list_elem_of_singleton]%elem_of_app; [by apply (co_line _ Hok)|].
        apply orb_false_elim in Ecm as [[E10 _]%orb_false_elim _]. lia.
    + rewrite E2. unfold tty_of at 1. fold (ready (tty_of c2)) (line (tty_of c2)). 
      change (mk_tty (ready (tty_of c2)) (line (tty_of c2)) = mk_tty (ready (tty_of (k_cons s))) (line (tty_of (k_cons s)) ++ [ch])).
      by rewrite Hr, Hl.
Qed.

(** C18: The console's line discipline: whatever character arrives (control-P apart, which only prints), the handler
    returns, keeps the input buffer well formed, and does to the ready input and the line being typed what an editor on
    two lists does: append, erase, kill the line, or hand the line over at newline, control-D or a full buffer. *)
Theorem consoleintr_refines c s :
  k_panicked s = false -> cons_ok (k_cons s) -> k_held s = [] -> length (k_procs s) = NPROC -> 0 <= c < 256 -> c <> 16 ->
  exists s', consoleintr c s = Ret tt s' /\ con_frame s s' /\ cons_ok (k_cons s') /\
    tty_of (k_cons s') = tty_input c (tty_of (k_cons s)).
Proof.
  intros Hp Hok Hh Hlen Hc H16. set (s0 := set_k_held [L_cons] s).
  assert (Hnp : no_plock s0) by (intros i; cbn; by intros ?%list_elem_of_singleton).
  assert (Hbody : exists s1, (if c =? 21 then
      n ← gets (fun s => Z.to_nat (u32 (cs_e (k_cons s) - cs_w (k_cons s)))); loop (S n) kill_line_step tt
     else if (c =? 8) || (c =? 0x7f) then cs ← gets k_cons; if negb (cs_e cs =? cs_w cs) then erase else skip
     else consoleintr_default c) s0 = Ret tt s1 /\ con_frame s0 s1 /\ cons_ok (k_cons s1) /\
     tty_of (k_cons s1) = tty_input c (tty_of (k_cons s))).
  { pose proof (cons_counts _ Hok) as (_ & E2 & _). pose proof (line_empty _ Hok) as He.
    destruct (Z.eqb_spec c 21) as [->|H21].
    - destruct (kill_line_loop _ s0 Hp Hok eq_refl) as (s1 & R & F & Hok1 & Ht). exists s1. split_and!; try done.
      kstep. unfold u32. change (k_cons s0) with (k_cons s). rewrite E2, Nat2Z.id. exact R.
    - destruct ((c =? 8) || (c =? 0x7f)) eqn:Eb.
      + assert (Et : tty_input c (tty_of (k_cons s)) = mk_tty (ready (tty_of (k_cons s))) (take (pred (length (line (tty_of (k_cons s))))) (line (tty_of (k_cons s))))).
        { unfold tty_input. by rewrite (proj2 (Z.eqb_neq c 16) H16), (proj2 (Z.eqb_neq c 21) H21), Eb. }
        kstep. change (k_cons s0) with (k_cons s). rewrite He, Et. case_bool_decide as Hne; cbn [negb].
        * exists s0. split_and!; try done. change (k_cons s0) with (k_cons s).
          destruct (tty_of (k_cons s)) as [rd ln]. cbn in *. by subst.
        * destruct (erase_run s0 Hp) as (s1 & R1 & F1 & C1). destruct (erase_tty _ Hok Hne) as (Hok1 & Hr1 & Hl1).
          change (k_cons s0) with (k_cons s) in C1. rewrite <- C1 in *. exists s1. split_and!; try done.
          rewrite Hl1, length_app. cbn [length]. replace (pred (length (line (tty_of (k_cons s1))) + 1)) with (length (line (tty_of (k_cons s1)))) by lia.
          rewrite take_app_length, <- Hr1. done.
      + apply orb_false_elim in Eb as [E8 E127].
        destruct (consoleintr_default_ok c s0) as (s1 & H); try done; try lia. by exists s1. }
  destruct Hbody as (s1 & R & F & Hok1 & Ht). exists (set_k_held [] s1). split_and!; try done.
  - unfold consoleintr. kstep_by acquire_ok; [|rewrite Hh; apply not_elem_of_nil]. rewrite Hh.
    rewrite (proj2 (Z.eqb_neq c 16)) by done. kstep_by R. apply release_top; [|apply not_elem_of_nil].
    by rewrite (cf_only _ _ F).
  - destruct F as [F1 F2]. split; [|done]. rewrite F1. destruct s. cbn in *. by subst.
Qed.

Lemma consoleintr_refines_witness :
  exists s', consoleintr 97 boot_state = Ret tt s' /\ con_frame boot_state s' /\ cons_ok (k_cons s') /\
    tty_of (k_cons s') = tty_input 97 (tty_of (k_cons boot_state)).
Proof.
  apply (consoleintr_refines 97 boot_state).
  - reflexivity.
  - split; [reflexivity|cbn; lia|cbn; lia|cbn; lia|vm_compute; lia|vm_compute; apply not_elem_of_nil].
  - reflexivity.
  - reflexivity.
  - lia.
  - lia.
Defined.
