(* ===== verification/Pipe.v ===== *)
(** * kernel/pipe.c: pipes

    A pipe lives in a page of its own; [k_pipes] maps that page's address to the
    struct.  [pipealloc], which needs the file table, is in [File.v]. *)

From stdpp Require Import base list gmap strings.
From Stdlib Require Import ZArith Lia.
From S2P Require Import Prelude Mem Riscv State Sched Kalloc Vm Ring Proc.
Open Scope Z_scope.

Definition PIPESIZE : Z := 512.

Section Pipe.
Context {L : Layout}.

(** The page goes back to the allocator: the struct is gone. *)
Definition pipeclose (pi : Z) (writable : bool) : K unit :=
  acquire (L_pipe pi) ;;
  (if writable then
     mod_pipe pi (set_pi_writeopen false) ;;
     wakeup (Ch_nread pi)
   else
     mod_pipe pi (set_pi_readopen false) ;;
     wakeup (Ch_nwrite pi)) ;;
  pp ← get_pipe pi;
  if negb (pi_readopen pp) && negb (pi_writeopen pp) then
    release (L_pipe pi) ;;
    modify (fun s => set_k_pipes (delete pi (k_pipes s)) s) ;;
    kfree pi
  else release (L_pipe pi).

(** One turn of [pipewrite]'s loop; [inr None] is the return of -1. *)
Definition pipewrite_step (pi : Z) (pr : nat) (addr n i : Z) : K (Z + option Z) :=
  if i <? n then
    pp ← get_pipe pi;
    k ← (if negb (pi_readopen pp) then mret 1 else killed pr);
    if negb (k =? 0) then release (L_pipe pi) ;; mret (inr None) else
    pp ← get_pipe pi;
    if pi_nwrite pp =? u32 (pi_nread pp + PIPESIZE) then
      wakeup (Ch_nread pi) ;;
      sleep (Ch_nwrite pi) (L_pipe pi) ;;
      mret (inl i)
    else
      p ← get_proc pr;
      '(r, bs) ← copyin (p_pagetable p) (u64 (addr + i)) 1;
      if r =? -1 then mret (inr (Some i)) else
      mod_pipe pi (fun pp => set_pi_data (<[Z.to_nat (pi_nwrite pp mod PIPESIZE) := default 0 (bs !! 0%nat)]> (pi_data pp)) pp) ;;
      mod_pipe pi (fun pp => set_pi_nwrite (u32 (pi_nwrite pp + 1)) pp) ;;
      mret (inl (i + 1))
  else mret (inr (Some i)).

Definition pipewrite (pi addr n : Z) : K Z :=
  pr ← myproc';
  acquire (L_pipe pi) ;;
  fuel ← gets k_fuel;
  r ← loop (S (Z.to_nat n) * S fuel) (pipewrite_step pi pr addr n) 0;
  match r with
  | None => mret (-1)
  | Some i => wakeup (Ch_nread pi) ;; release (L_pipe pi) ;; mret i
  end.

(** [while(pi->nread == pi->nwrite && pi->writeopen)]; [inr true] when killed. *)
Definition pipe_wait (pi : Z) (pr : nat) (_ : unit) : K (unit + bool) :=
  pp ← get_pipe pi;
  if (pi_nread pp =? pi_nwrite pp) && pi_writeopen pp then
    k ← killed pr;
    if negb (k =? 0) then mret (inr true)
    else sleep (Ch_nread pi) (L_pipe pi) ;; mret (inl tt)
  else mret (inr false).

Definition piperead_step (pi : Z) (pr : nat) (addr n i : Z) : K (Z + Z) :=
  if i <? n then
    pp ← get_pipe pi;
    if pi_nread pp =? pi_nwrite pp then mret (inr i) else
    let ch := default 0 (pi_data pp !! Z.to_nat (pi_nread pp mod PIPESIZE)) in
    mod_pipe pi (fun pp => set_pi_nread (u32 (pi_nread pp + 1)) pp) ;;
    p ← get_proc pr;
    r ← copyout (p_pagetable p) (u64 (addr + i)) [ch];
    if r =? -1 then mret (inr i) else mret (inl (i + 1))
  else mret (inr i).

Definition piperead (pi addr n : Z) : K Z :=
  pr ← myproc';
  acquire (L_pipe pi) ;;
  fuel ← gets k_fuel;
  k ← loop fuel (pipe_wait pi pr) tt;
  if k : bool then release (L_pipe pi) ;; mret (-1) else
  i ← loop (S (Z.to_nat n)) (piperead_step pi pr addr n) 0;
  wakeup (Ch_nwrite pi) ;;
  release (L_pipe pi) ;;
  mret i.

End Pipe.

(** ** The queue *)

#[global] Instance pipe_ring : RingSize 512 (2 ^ 32).
Proof. split; [lia|lia|]. by exists (2 ^ 23). Qed.

Definition queue (pp : pipe) : list Z := ring 512 (2 ^ 32) (pi_data pp) (pi_nread pp) (pi_nwrite pp).

Record pipe_ok (pp : pipe) : Prop := {
  pp_len : length (pi_data pp) = 512%nat;
  pp_r : 0 <= pi_nread pp < 2 ^ 32;
  pp_w : 0 <= pi_nwrite pp < 2 ^ 32;
  pp_fit : (length (queue pp) <= 512)%nat;
  pp_bytes : bytes (pi_data pp)
}.

Definition pushed (ch : Z) (pp : pipe) : pipe :=
  set_pi_nwrite (u32 (pi_nwrite pp + 1)) (set_pi_data (<[Z.to_nat (pi_nwrite pp mod 512) := ch]> (pi_data pp)) pp).
Definition popped (pp : pipe) : pipe := set_pi_nread (u32 (pi_nread pp + 1)) pp.

Lemma queue_length pp : Z.of_nat (length (queue pp)) = (pi_nwrite pp - pi_nread pp) mod 2 ^ 32.
Proof. apply (length_ring (N := 512) (M := 2 ^ 32)). Qed.

Lemma pushed_ok pp ch : pipe_ok pp -> (length (queue pp) < 512)%nat -> 0 <= ch < 256 ->
  pipe_ok (pushed ch pp) /\ queue (pushed ch pp) = queue pp ++ [ch].
Proof.
  intros [H1 H2 H3 H4 H5] Hlt Hc.
  assert (Hq : queue (pushed ch pp) = queue pp ++ [ch]).
  { apply (ring_push (N := 512) (M := 2 ^ 32) (pi_data pp) (pi_nread pp) (pi_nwrite pp) ch); [done|]. rewrite <- queue_length. lia. }
  split; [|done]. split; rewrite ?Hq; cbn [pushed pi_data pi_nread pi_nwrite set_pi_nwrite set_pi_data]; try done.
  - by rewrite length_insert.
  - apply u32_range.
  - rewrite length_app. cbn [length]. lia.
  - by apply Forall_insert.
Qed.

Lemma popped_ok pp : pipe_ok pp -> pi_nread pp <> pi_nwrite pp ->
  pipe_ok (popped pp) /\ queue pp = default 0 (pi_data pp !! Z.to_nat (pi_nread pp mod 512)) :: queue (popped pp).
Proof.
  intros [H1 H2 H3 H4 H5] Hne.
  assert (Hq : queue pp <> []) by (intros E; apply (ring_nil_iff (N := 512) (M := 2 ^ 32)) in E; done).
  assert (Hpop : queue pp = default 0 (pi_data pp !! Z.to_nat (pi_nread pp mod 512)) :: queue (popped pp)).
  { apply (ring_pop (N := 512) (M := 2 ^ 32)); [done|]. rewrite <- queue_length. destruct (queue pp); [done|]. cbn [length] in *. lia. }
  split; [|done]. rewrite Hpop in H4. cbn [length] in H4. split; try done; [apply u32_range|lia].
Qed.

Lemma full_test pp : pipe_ok pp -> (pi_nwrite pp =? u32 (pi_nread pp + 512)) = bool_decide (length (queue pp) = 512%nat).
Proof.
  intros [H1 H2 H3 H4 H5]. pose proof (ring_full_iff (N := 512) (M := 2 ^ 32) (pi_data pp) (pi_nread pp) (pi_nwrite pp) H2 H3) as Hf.
  fold (queue pp) in Hf. unfold u32. destruct (Z.eqb_spec (pi_nwrite pp) ((pi_nread pp + 512) mod 2 ^ 32)) as [E|E].
  - rewrite bool_decide_eq_true_2; [done|]. apply Hf in E. lia.
  - rewrite bool_decide_eq_false_2; [done|]. intros E'. apply E, Hf. lia.
Qed.

Lemma empty_test pp : pipe_ok pp -> (pi_nread pp =? pi_nwrite pp) = bool_decide (queue pp = []).
Proof.
  intros [H1 H2 H3 H4 H5]. pose proof (ring_nil_iff (N := 512) (M := 2 ^ 32) (pi_data pp) (pi_nread pp) (pi_nwrite pp) H2 H3) as Hn.
  destruct (Z.eqb_spec (pi_nread pp) (pi_nwrite pp)) as [E|E].
  - by rewrite bool_decide_eq_true_2 by (by apply Hn).
  - rewrite bool_decide_eq_false_2; [done|]. intros E'. by apply E, Hn.
Qed.
