(* ===== verification/PipeProps.v ===== *)
(** * Pipes: the properties

    A pipe is a first-in first-out queue of bytes: [pipewrite] appends user
    bytes at its end, [piperead] takes them from its front. *)

From stdpp Require Import base list gmap strings.
From Stdlib Require Import ZArith Lia.
From S2P Require Import Prelude Mem Riscv State Sched Kalloc Vm PtRep Uvm CopyUser VmProps Ring Proc ProcProps Pipe.
Open Scope Z_scope.

Definition upd_pipe (pi : Z) (pp : pipe) (s : kstate) : kstate := set_k_pipes (<[pi := pp]> (k_pipes s)) s.

Lemma upd_pipe_twice pi pp pp' s : upd_pipe pi pp' (upd_pipe pi pp s) = upd_pipe pi pp' s.
Proof. unfold upd_pipe. cbn. by rewrite insert_insert_eq. Qed.
Lemma upd_pipe_id pi pp s : k_pipes s !! pi = Some pp -> upd_pipe pi pp s = s.
Proof. intros H. unfold upd_pipe. rewrite insert_id by done. by destruct s. Qed.
Lemma get_upd_pipe pi pp s : k_pipes (upd_pipe pi pp s) !! pi = Some pp.
Proof. cbn. apply lookup_insert_eq. Qed.

Lemma mod_pipe_run pi f pp s : mod_pipe pi f (upd_pipe pi pp s) = Ret tt (upd_pipe pi (f pp) s).
Proof. unfold mod_pipe, modify, upd_pipe. cbn. rewrite alter_insert_eq. by destruct s. Qed.

Lemma killed_ok p pr s : k_procs s !! p = Some pr -> L_proc p ∉ k_held s -> killed p s = Ret (p_killed pr) s.
Proof.
  intros Hp Hh. unfold killed. kstep_by acquire_ok; [|done]. kstep_by get_proc_ok; [|done].
  kstep_by release_top; [|done|done]. unfold mret, m_ret. f_equal. by destruct s.
Qed.

Lemma ubyte_range m t va b : ubyte m t va = Some b -> 0 <= b < 256.
Proof. unfold ubyte. destruct (_ =? 0); [done|]. intros [= <-]. apply mget_range. Qed.

Section PipeProps.
Context {L : Layout} `{!LayoutOk L}.
Implicit Types s : kstate.

Lemma copyin_byte s root t va : pt_ok (k_mem s) root t -> 0 <= va < 2 ^ 64 ->
  match ubyte (k_mem s) t va with
  | Some b => copyin root va 1 s = Ret (0, [b]) s
  | None => exists d, copyin root va 1 s = Ret (-1, d) s
  end.
Proof.
  intros Hpt Hva. destruct (copyin_loop s root t Hpt 1 2 va [] ltac:(lia) Hva) as (r & d & Hrun & Hr).
  cbn [ubytes] in Hr. destruct (ubyte _ _ va); [|by exists d; rewrite <- Hr].
  destruct Hr as [-> ->]. done.
Qed.

(** One turn of the writer, on a pipe with room: the byte is appended, or the copy ends at an address the user cannot
    read. *)
Lemma pipewrite_turn s pi pp pr p t addr n i :
  k_procs s !! pr = Some p -> L_proc pr ∉ k_held s -> p_killed p = 0 -> pt_ok (k_mem s) (p_pagetable p) t ->
  pipe_ok pp -> pi_readopen pp = true -> (length (queue pp) < 512)%nat -> i < n -> 0 <= addr + i < 2 ^ 64 ->
  pipewrite_step pi pr addr n i (upd_pipe pi pp s) =
  match ubyte (k_mem s) t (addr + i) with
  | Some b => Ret (inl (i + 1)) (upd_pipe pi (pushed b pp) s)
  | None => Ret (inr (Some i)) (upd_pipe pi pp s)
  end.
Proof.
  intros Hp Hh Hk Hpt Hpp Ho Hq Hi Ha. unfold pipewrite_step. rewrite (proj2 (Z.ltb_lt i n)) by done.
  kstep_by get_pipe_ok; [|apply get_upd_pipe]. rewrite Ho. cbn [negb]. kstep_by (killed_ok pr p); [|done|done].
  rewrite Hk. cbn [Z.eqb negb]. kstep_by get_pipe_ok; [|apply get_upd_pipe]. unfold PIPESIZE. rewrite full_test by done.
  rewrite bool_decide_eq_false_2 by lia. kstep_by (get_proc_ok pr p); [|done]. rewrite u64_small by done.
  pose proof (copyin_byte (upd_pipe pi pp s) (p_pagetable p) t (addr + i) Hpt Ha) as Hc.
  change (k_mem (upd_pipe pi pp s)) with (k_mem s) in Hc. destruct (ubyte _ _ _) as [b|].
  - kstep_by Hc. cbn [Z.eqb]. kstep_by mod_pipe_run. kstep_by mod_pipe_run. done.
  - destruct Hc as [d Hc]. kstep_by Hc. done.
Qed.

(** The bytes of [n] from [va] that the user can read. *)
Fixpoint uprefix (m : mem) (t : ptree) (va : Z) (n : nat) : list Z :=
  match n with
  | O => []
  | S n => match ubyte m t va with Some b => b :: uprefix m t (va + 1) n | None => [] end
  end.

(** [m] turns on a pipe with room for as many bytes. *)
Lemma pipewrite_fill s pi pr p t addr n m : forall pp i fuel,
  k_procs s !! pr = Some p -> L_proc pr ∉ k_held s -> p_killed p = 0 -> pt_ok (k_mem s) (p_pagetable p) t ->
  pipe_ok pp -> pi_readopen pp = true -> (length (queue pp) + m <= 512)%nat ->
  0 <= i -> Z.of_nat m <= n - i -> 0 <= addr -> addr + n <= 2 ^ 64 ->
  let bs := uprefix (k_mem s) t (addr + i) m in
  exists pp', pipe_ok pp' /\ pi_readopen pp' = true /\ queue pp' = queue pp ++ bs /\
    loop (m + fuel) (pipewrite_step pi pr addr n) i (upd_pipe pi pp s) =
    if decide (length bs = m) then loop fuel (pipewrite_step pi pr addr n) (i + Z.of_nat m) (upd_pipe pi pp' s)
    else Ret (Some (i + Z.of_nat (length bs))) (upd_pipe pi pp' s).
Proof.
  induction m as [|m IH]; intros pp i fuel Hp Hh Hk Hpt Hpp Ho Hq Hi Hn Ha Ha'; cbn [uprefix].
  - exists pp. cbn [length]. by rewrite Z.add_0_r, app_nil_r.
  - pose proof (pipewrite_turn s pi pp pr p t addr n i Hp Hh Hk Hpt Hpp Ho ltac:(lia) ltac:(lia) ltac:(lia)) as Hrun.
    destruct (ubyte (k_mem s) t (addr + i)) as [b|] eqn:Eb.
    + destruct (pushed_ok pp b Hpp ltac:(lia) (ubyte_range _ _ _ _ Eb)) as [Hpp' Hq'].
      destruct (IH (pushed b pp) (i + 1) fuel) as (pp' & Hok & Ho' & Hqq & Hl); try done; try lia.
      { rewrite Hq', length_app. cbn [length]. lia. }
      rewrite Z.add_assoc in Hl, Hqq. exists pp'. split_and!; [done|done|by rewrite Hqq, Hq', <- app_assoc|].
      cbn [Nat.add]. rewrite (loop_continue _ _ _ _ _ _ Hrun), Hl. cbn [length]. set (bs := uprefix _ _ _ m).
      destruct (decide (length bs = m)) as [E|E]; [rewrite (decide_True (P := S _ = S m)) by lia|rewrite (decide_False (P := S _ = S m)) by lia];
        [f_equal|do 2 f_equal]; lia.
    + exists pp. cbn [length]. rewrite Z.add_0_r, app_nil_r, decide_False by lia. split_and!; try done. by apply loop_break.
Qed.


(** What is left of [pipewrite] in its loop. *)
Definition pipewrite_from (pi : Z) (pr : nat) (addr n : Z) (fuel : nat) (i : Z) : K Z :=
  r ← loop fuel (pipewrite_step pi pr addr n) i;
  match r with
  | None => mret (-1)
  | Some i => wakeup (Ch_nread pi) ;; release (L_pipe pi) ;; mret i
  end.

(** The process [pr] in [pipewrite]'s loop ([lk] is the pipe's lock), and back from [sched] ([lk] is its own). *)
Record writer (pi : Z) (pr : nat) (lk : lockid) (s : kstate) (pp : pipe) (p : proc) (t : ptree) : Prop := {
  pw_cur : k_cur s = Some pr;
  pw_proc : k_procs s !! pr = Some p;
  pw_held : k_held s = [lk];
  pw_len : length (k_procs s) = NPROC;
  pw_pt : pt_ok (k_mem s) (p_pagetable p) t;
  pw_pipe : k_pipes s !! pi = Some pp;
  pw_ok : pipe_ok pp
}.

Definition open_alive (pp : pipe) (p : proc) : Prop := pi_readopen pp = true /\ p_killed p = 0.
#[local] Instance open_alive_dec pp p : Decision (open_alive pp p).
Proof. unfold open_alive. apply _. Defined.
Definition room (pp : pipe) : nat := 512 - length (queue pp).
(** [m] bytes at [va]: those the process may read fit, or the pipe is full before. *)
Definition all_fit (s : kstate) (t : ptree) (pp : pipe) (va : Z) (m : nat) : Prop :=
  (m <= room pp \/ length (uprefix (k_mem s) t va m) < room pp)%nat.

(** The runs of [pipewrite] by [pr] when [i] of the [n] bytes at [addr] are written, over [f] sleeps. *)
Inductive write_runs (pi : Z) (pr : nat) (addr n : Z) : nat -> Z -> kstate -> out kstate Z -> Prop :=
| write_gone f i s pp p t : writer pi pr (L_pipe pi) s pp p t -> i < n -> ~ open_alive pp p ->
    write_runs pi pr addr n f i s (Ret (-1) (set_k_held [] s))
| write_done f i s pp p t pp' : writer pi pr (L_pipe pi) s pp p t -> (i < n -> open_alive pp p) ->
    let bs := uprefix (k_mem s) t (addr + i) (Z.to_nat (n - i)) in
    all_fit s t pp (addr + i) (Z.to_nat (n - i)) -> pipe_ok pp' -> queue pp' = queue pp ++ bs ->
    write_runs pi pr addr n f i s
      (Ret (i + Z.of_nat (length bs)) (set_k_held [] (set_k_procs (wake_procs (Ch_nread pi) (Some pr) (k_procs s)) (upd_pipe pi pp' s))))
| write_full f i s pp p t pp' k : writer pi pr (L_pipe pi) s pp p t -> i < n -> open_alive pp p ->
    ~ all_fit s t pp (addr + i) (Z.to_nat (n - i)) ->
    let bs := uprefix (k_mem s) t (addr + i) (room pp) in
    length bs = room pp -> pipe_ok pp' -> queue pp' = queue pp ++ bs ->
    (forall s2 pp2 p2 t2, writer pi pr (L_proc pr) s2 pp2 p2 t2 ->
       write_runs pi pr addr n f (i + Z.of_nat (room pp)) (woken (L_pipe pi) pr s2) (k s2)) ->
    write_runs pi pr addr n (S f) i s
      (Sleep (fall_asleep (Ch_nwrite pi) pr (set_k_procs (wake_procs (Ch_nread pi) (Some pr) (k_procs s)) (upd_pipe pi pp' s))) k)
| write_beyond i s pp p t o : writer pi pr (L_pipe pi) s pp p t -> i < n -> open_alive pp p ->
    ~ all_fit s t pp (addr + i) (Z.to_nat (n - i)) -> write_runs pi pr addr n 0 i s o.

Lemma uprefix_length m t va n : (length (uprefix m t va n) <= n)%nat.
Proof. revert va. induction n as [|n IH]; intros va; cbn; [lia|]. destruct (ubyte m t va); cbn; [|lia]. specialize (IH (va + 1)). lia. Qed.
Lemma uprefix_more m t va n k : (n <= k)%nat ->
  if decide (length (uprefix m t va n) = n) then (n <= length (uprefix m t va k))%nat else uprefix m t va k = uprefix m t va n.
Proof.
  revert va k. induction n as [|n IH]; intros va k Hk; cbn [uprefix]; [rewrite decide_True by done; lia|]. destruct k as [|k]; [lia|]. cbn [uprefix].
  destruct (ubyte m t va); [|by rewrite decide_False by (cbn; lia)]. specialize (IH (va + 1) k ltac:(lia)). cbn [length].
  destruct (decide (length (uprefix m t (va + 1) n) = n)); [rewrite decide_True by lia; lia|rewrite decide_False by lia; by rewrite IH].
Qed.

Lemma woken_writer pi pr s pp p t : writer pi pr (L_proc pr) s pp p t -> writer pi pr (L_pipe pi) (woken (L_pipe pi) pr s) pp (set_p_chan None p) t.
Proof.
  intros [H1 H2 H3 H4 H5 H6 H7]. split; cbn; try done; [|by rewrite length_alter]. by rewrite list_lookup_alter_eq, H2.
Qed.

(** The test at the top of the loop fails. *)
Lemma pipewrite_gone pi pr addr n fuel i s pp p t : writer pi pr (L_pipe pi) s pp p t -> i < n -> ~ open_alive pp p ->
  pipewrite_from pi pr addr n (S fuel) i s = Ret (-1) (set_k_held [] s).
Proof.
  intros [Hc Hp Hh Hl Hpt Hpi Hpp] Hi Hno.
  assert (Hend : (release (L_pipe pi) ;; mret (inr None) : K (Z + option Z)) s = Ret (inr None) (set_k_held [] s)).
  { kstep_by release_top; [done|exact Hh|apply not_elem_of_nil]. }
  unfold pipewrite_from. rewrite (bind_Ret _ _ _ None (set_k_held [] s)); [done|]. apply loop_break. unfold pipewrite_step. rewrite (proj2 (Z.ltb_lt i n)) by done.
  kstep_by get_pipe_ok; [|done]. destruct (pi_readopen pp) eqn:Eo; cbn [negb]; [|by kstep].
  kstep_by (killed_ok pr p); [|done|rewrite Hh, list_elem_of_singleton; done].
  destruct (Z.eqb_spec (p_killed p) 0); [by destruct Hno|done].
Qed.

(** The turn that finds the pipe full. *)
Lemma pipewrite_sleeps pi pr addr n fuel i s pp p t : writer pi pr (L_pipe pi) s pp p t -> i < n -> open_alive pp p -> room pp = 0%nat ->
  exists k, pipewrite_from pi pr addr n (S fuel) i s =
    Sleep (fall_asleep (Ch_nwrite pi) pr (set_k_procs (wake_procs (Ch_nread pi) (Some pr) (k_procs s)) s)) k /\
    forall s2, k_held s2 = [L_proc pr] -> k s2 = pipewrite_from pi pr addr n fuel i (woken (L_pipe pi) pr s2).
Proof.
  intros [Hc Hp Hh Hl Hpt Hpi Hpp] Hi [Ho Hk] Hr. unfold room in Hr. pose proof (pp_fit _ Hpp).
  set (s1 := set_k_procs (wake_procs (Ch_nread pi) (Some pr) (k_procs s)) s).
  destruct (sleep_wakes s1 pr p (Ch_nwrite pi) (L_pipe pi)) as (k & Hs & Hk2); [done|cbn; by rewrite lookup_wake_procs_me|done|done|].
  assert (Hstep : pipewrite_step pi pr addr n i s = (sleep (Ch_nwrite pi) (L_pipe pi) ;; mret (inl i)) s1).
  { unfold pipewrite_step. rewrite (proj2 (Z.ltb_lt i n)) by done. kstep_by get_pipe_ok; [|done]. rewrite Ho. cbn [negb].
    kstep_by (killed_ok pr p); [|done|rewrite Hh, list_elem_of_singleton; done]. rewrite Hk. cbn [Z.eqb negb]. kstep_by get_pipe_ok; [|done].
    unfold PIPESIZE. rewrite full_test, bool_decide_eq_true_2 by (done || lia).
    kstep_by wakeup_ok; [by rewrite Hc|intros j; rewrite Hh; by intros ?%list_elem_of_singleton|done]. }
  eexists. split.
  - unfold pipewrite_from. erewrite bind_Sleep; [reflexivity|]. rewrite loop_S, Hstep, (bind_Sleep _ _ _ _ _ Hs). reflexivity.
  - intros s2 H2. cbn beta. by rewrite Hk2.
Qed.

Lemma pipewrite_ends pi pr s pp p t pp' (r : Z) : writer pi pr (L_pipe pi) s pp p t ->
  (wakeup (Ch_nread pi) ;; release (L_pipe pi) ;; mret r) (upd_pipe pi pp' s) =
  Ret r (set_k_held [] (set_k_procs (wake_procs (Ch_nread pi) (Some pr) (k_procs s)) (upd_pipe pi pp' s))).
Proof.
  intros [Hc Hp Hh Hl _ _ _]. kstep_by wakeup_ok; [|intros j; cbn; rewrite Hh; by intros ?%list_elem_of_singleton|done].
  kstep_by release_top; [|exact Hh|apply not_elem_of_nil]. cbn [k_cur upd_pipe set_k_pipes]. by rewrite Hc.
Qed.

(** As many turns as the pipe has room for, or as there are bytes. *)
Lemma pipewrite_from_fill pi pr addr n fuel i s pp p t : let m := (Z.to_nat (n - i) `min` room pp)%nat in
  writer pi pr (L_pipe pi) s pp p t -> 0 <= i <= n -> (i < n -> open_alive pp p) -> 0 <= addr -> addr + n <= 2 ^ 64 -> (m < fuel)%nat ->
  let bs := uprefix (k_mem s) t (addr + i) m in
  exists pp', pipe_ok pp' /\ (i < n -> pi_readopen pp' = true) /\ queue pp' = queue pp ++ bs /\
    pipewrite_from pi pr addr n fuel i s =
    if decide (length bs = m /\ i + Z.of_nat m < n) then pipewrite_from pi pr addr n (fuel - m) (i + Z.of_nat m) (upd_pipe pi pp' s)
    else Ret (i + Z.of_nat (length bs)) (set_k_held [] (set_k_procs (wake_procs (Ch_nread pi) (Some pr) (k_procs s)) (upd_pipe pi pp' s))).
Proof.
  intros m Hw Hi Hgo Ha Ha' Hf bs. pose proof Hw as [Hc Hp Hh Hl Hpt Hpi Hpp]. pose proof (pp_fit _ Hpp) as Hfit.
  assert (Hbreak : forall c s, loop (S c) (pipewrite_step pi pr addr n) n s = Ret (Some n) s).
  { intros c s0. apply loop_break. unfold pipewrite_step. by rewrite (proj2 (Z.ltb_ge n n)) by lia. }
  assert (Hfill : exists pp', pipe_ok pp' /\ (i < n -> pi_readopen pp' = true) /\ queue pp' = queue pp ++ bs /\
    loop fuel (pipewrite_step pi pr addr n) i s =
    if decide (length bs = m) then loop (fuel - m) (pipewrite_step pi pr addr n) (i + Z.of_nat m) (upd_pipe pi pp' s)
    else Ret (Some (i + Z.of_nat (length bs))) (upd_pipe pi pp' s)).
  { destruct (decide (i = n)) as [->|Hne].
    - exists pp. assert (m = O) as Em by (unfold m; lia). unfold bs. rewrite Em. cbn [uprefix length Z.of_nat].
      rewrite app_nil_r, Z.add_0_r, Nat.sub_0_r, decide_True, (upd_pipe_id pi pp s Hpi) by done. split_and!; [done|lia|done|done].
    - destruct (Hgo ltac:(lia)) as [Ho Hk].
      destruct (pipewrite_fill s pi pr p t addr n m pp i (fuel - m)) as (pp' & H1 & H2 & H3 & H4); try done; try (unfold m, room; lia).
      { rewrite Hh, list_elem_of_singleton. done. }
      exists pp'. rewrite (upd_pipe_id pi pp s Hpi) in H4. replace (m + (fuel - m))%nat with fuel in H4 by lia. done. }
  destruct Hfill as (pp' & H1 & H2 & H3 & H4). exists pp'. split_and!; try done. unfold pipewrite_from.
  destruct (decide (length bs = m)) as [E|E]; [destruct (decide (i + Z.of_nat m < n)) as [E2|E2]|].
  - rewrite decide_True by done. unfold mbind, m_bind. by rewrite H4.
  - rewrite decide_False by tauto. assert (i + Z.of_nat m = n) as E3 by (unfold m in *; lia). rewrite E3 in H4.
    replace (fuel - m)%nat with (S (fuel - m - 1)) in H4 by lia. rewrite Hbreak in H4. rewrite (bind_Ret _ _ _ _ _ H4), E, E3. by eapply pipewrite_ends.
  - rewrite decide_False by tauto. rewrite (bind_Ret _ _ _ _ _ H4). by eapply pipewrite_ends.
Qed.

Lemma writer_upd pi pr s pp p t pp' : pipe_ok pp' -> writer pi pr (L_pipe pi) s pp p t -> writer pi pr (L_pipe pi) (upd_pipe pi pp' s) pp' p t.
Proof. intros Hok [H1 H2 H3 H4 H5 H6 H7]. split; try done. apply get_upd_pipe. Qed.

Lemma pipewrite_from_runs pi pr addr n f : forall i s pp p t fuel, writer pi pr (L_pipe pi) s pp p t -> 0 <= i <= n -> 0 <= addr -> addr + n <= 2 ^ 64 ->
  (Z.to_nat (n - i) + f < fuel)%nat -> write_runs pi pr addr n f i s (pipewrite_from pi pr addr n fuel i s).
Proof.
  induction f as [f IH] using lt_wf_ind; intros i s pp p t fuel Hw Hi Ha Ha' Hf.
  destruct (decide (i < n /\ ~ open_alive pp p)) as [[Hlt Hno]|Hcase].
  { destruct fuel as [|fuel]; [lia|]. erewrite pipewrite_gone by done. by eapply write_gone. }
  assert (Hgo : i < n -> open_alive pp p) by (intros ?; destruct (decide (open_alive pp p)); [done|by destruct Hcase]).
  set (m := (Z.to_nat (n - i) `min` room pp)%nat).
  destruct (pipewrite_from_fill pi pr addr n fuel i s pp p t Hw Hi Hgo Ha Ha' ltac:(lia)) as (pp' & H1 & H2 & H3 & H4).
  fold m in H3, H4. set (bs := uprefix (k_mem s) t (addr + i) m) in *.
  pose proof (uprefix_more (k_mem s) t (addr + i) m (Z.to_nat (n - i)) ltac:(unfold m; lia)) as Hmore. fold bs in Hmore.
  destruct (decide (length bs = m /\ i + Z.of_nat m < n)) as [[E E2]|E].
  - rewrite decide_True in Hmore by done. assert (m = room pp) as Em by (unfold m in *; lia).
    assert (Hnf : ~ all_fit s t pp (addr + i) (Z.to_nat (n - i))) by (unfold all_fit; lia).
    destruct f as [|f]; [by eapply write_beyond; [exact Hw|lia|apply Hgo; lia|done]|].
    replace (fuel - m)%nat with (S (fuel - m - 1)) in H4 by lia.
    destruct (pipewrite_sleeps pi pr addr n (fuel - m - 1) (i + Z.of_nat m) (upd_pipe pi pp' s) pp' p t) as (k & Hs & Hk).
    { by eapply writer_upd. } { done. } { split; [apply H2; lia|apply Hgo; lia]. } { unfold room in *. rewrite H3, length_app. lia. }
    change (k_procs (upd_pipe pi pp' s)) with (k_procs s) in Hs. rewrite H4, Hs. apply (write_full _ _ _ _ f i s pp p t pp' k); [exact Hw|lia|apply Hgo; lia|done|fold m; unfold bs in *; rewrite <- Em; exact E|done|rewrite <- Em; done|].
    intros s2 pp2 p2 t2 Hw2. rewrite Hk by apply Hw2. rewrite <- Em. eapply IH; [lia|by apply woken_writer|lia|done|done|lia].
  - assert (Hbs : uprefix (k_mem s) t (addr + i) (Z.to_nat (n - i)) = bs).
    { destruct (decide (length bs = m)) as [E1|E1]; [|done]. unfold bs. f_equal. unfold m in *. lia. }
    rewrite H4. rewrite <- Hbs. eapply write_done; [exact Hw|done| |done|by rewrite Hbs].
    unfold all_fit. rewrite Hbs. pose proof (uprefix_length (k_mem s) t (addr + i) m). fold bs in H. unfold m in *. lia.
Qed.

Lemma writer_start s pi pr pp p t : k_cur s = Some pr -> k_procs s !! pr = Some p -> length (k_procs s) = NPROC ->
  pt_ok (k_mem s) (p_pagetable p) t -> k_pipes s !! pi = Some pp -> pipe_ok pp -> writer pi pr (L_pipe pi) (set_k_held [L_pipe pi] s) pp p t.
Proof. by split. Qed.

(** C24: [pipewrite] appends the user's bytes at the end of the queue, in order.  With the read side closed or the writer
    killed it fails and leaves the queue alone; otherwise it appends as many of the bytes not yet written as fit.  When
    those are all, up to the first one the process may not read, the readers are woken and the number written
    since the call began is returned.  When the pipe is full before, the readers are woken and the writer sleeps until the pipe has
    been read; from whatever state it is resumed in, it goes on in the same way with the bytes that are left. *)
Theorem pipewrite_spec s pi pp pr p t addr n :
  writer pi pr (L_pipe pi) (set_k_held [L_pipe pi] s) pp p t -> k_held s = [] -> 0 <= n -> 0 <= addr -> addr + n <= 2 ^ 64 ->
  write_runs pi pr addr n (k_fuel s) 0 (set_k_held [L_pipe pi] s) (pipewrite pi addr n s).
Proof.
  intros Hw Hh Hn Ha Ha'.
  replace (pipewrite pi addr n s) with (pipewrite_from pi pr addr n (S (Z.to_nat n) * S (k_fuel s)) 0 (set_k_held [L_pipe pi] s)).
  - eapply pipewrite_from_runs; [exact Hw|lia|done|done|lia].
  - unfold pipewrite. kstep_by myproc_ok; [|apply (pw_cur _ _ _ _ _ _ _ Hw)]. kstep_by acquire_ok; [|rewrite Hh; apply not_elem_of_nil].
    rewrite Hh. kstep. done.
Qed.

(** ** Reading *)

Lemma as_ok_held s s' root A :
  k_mem s' = k_mem s -> k_freelist s' = k_freelist s -> L_kmem ∉ k_held s' -> as_ok s root A -> as_ok s' root A.
Proof.
  intros E1 E2 E3 [[Hk Ht Hd Hh] H1 H2 H3 H4]. split; rewrite ?E1; try done. split; rewrite ?E1; try done.
  destruct Hk. split; rewrite ?E1, ?E2; done.
Qed.





End PipeProps.

(** ** Samples: a process with one page of memory and a pipe holding two bytes *)

Definition user_proc : proc := set_p_sz 4096 grow_proc.
Definition sample_pipe : pipe := mk_pipe (<[0%nat := 66]> (<[511%nat := 65]> (replicate 512 0))) 511 513 true true.
Definition with_pipe (s : kstate) : kstate :=
  set_k_pipes {[ pg 7 := sample_pipe ]} (set_k_fuel 1 (set_k_held [] (set_k_cur (Some 0%nat)
    (set_k_procs (user_proc :: replicate 63 proc0) s)))).
Definition piped : kstate := with_pipe grown.

Lemma with_pipe_mem s : k_mem (with_pipe s) = k_mem s.
Proof. reflexivity. Qed.

Lemma with_pipe_ok s root A :
  as_ok s root A -> (forall va, TRAPFRAME <= va < MAXVA -> va mod PGSIZE = 0 -> pte_at (k_mem s) (a_tree A) va = 0) ->
  as_ok (with_pipe s) root A /\ no_high_user (k_mem (with_pipe s)) (a_tree A).
Proof.
  intros Hok Hhi. split.
  - apply (as_ok_held s); [apply with_pipe_mem|reflexivity|apply not_elem_of_nil|done].
  - rewrite with_pipe_mem. intros va Hva Ha. rewrite (Hhi va Hva Ha). reflexivity.
Qed.

Lemma sample_pipe_ok : pipe_ok sample_pipe.
Proof.
  assert (Hf : Forall (fun b => 0 <= b < 256) (pi_data sample_pipe)).
  { apply Forall_insert; [apply Forall_insert; [apply Forall_replicate|]|]; lia. }
  split; [reflexivity|cbn; lia|cbn; lia|apply Nat.leb_le; reflexivity|exact Hf].
Qed.


Lemma piped_ok : exists A, as_ok piped (pg 0) A /\ no_high_user (k_mem piped) (a_tree A).
Proof.
  destruct grown_ok as (t & l & um & Hok & Hc & Hhi). exists (mk_aspace t l um []). exact (with_pipe_ok grown _ _ Hok Hhi).
Qed.

Lemma pipewrite_spec_witness :
  write_runs (pg 7) 0 4090 600 (k_fuel piped) 0 (set_k_held [L_pipe (pg 7)] piped) (pipewrite (pg 7) 4090 600 piped).
Proof.
  destruct piped_ok as (A & Hok & _).
  apply (pipewrite_spec piped (pg 7) sample_pipe 0 user_proc (a_tree A) 4090 600); [apply writer_start|reflexivity|lia|lia|lia].
  - reflexivity.
  - reflexivity.
  - reflexivity.
  - apply Hok.
  - reflexivity.
  - apply sample_pipe_ok.
Defined.

