(* ===== verification/Fs.v ===== *)
(** * kernel/fs.c: the file system above the log

    Block allocator, inodes and their contents, directories and path names.
    Inode pointers are indices of the in-memory table; on-disk inodes and
    directory entries are bytes of a block.  A path is the list of its bytes, the
    NUL being the end of the list.

    [readi] and [writei] move bytes between a file and memory.  Where the kernel
    passes the address of a local variable ([&de], [&elf]), the copy cannot fail
    and the variable is the list of bytes read or written: [readi_local],
    [writei_local]. *)

From stdpp Require Import base list gmap strings.
From Stdlib Require Import ZArith Lia.
From S2P Require Import Prelude Mem KString Riscv State Sched Bio Log Kalloc Vm Format Printf Proc.
Open Scope Z_scope.

(** The bytes of automatic variables before the code writes them: whatever the
    stack held. *)
Class Uninit := uninit : nat -> list Z.
Class UninitOk (U : Uninit) : Prop := {
  length_uninit : forall n, length (uninit n) = n;
  uninit_bytes : forall n, bytes (uninit n)
}.
#[global] Instance zero_stack : Uninit := fun n => replicate n 0.

(** ** Layout of the disk (kernel/fs.h) *)

Definition IBLOCK (i : Z) (sb : superblock) : Z := u32 (i / IPB + sb_inodestart sb).
Definition BBLOCK (b : Z) (sb : superblock) : Z := u32 (b / BPB + sb_bmapstart sb).

Definition sb_of_bytes (d : list Z) : superblock :=
  mk_superblock (get32 d 0) (get32 d 4) (get32 d 8) (get32 d 12) (get32 d 16) (get32 d 20) (get32 d 24) (get32 d 28).

(** struct dinode, 64 bytes: the offset of inode [inum] in its block, and its fields. *)
Definition dip_off (inum : Z) : nat := (64 * Z.to_nat (inum mod IPB))%nat.
Definition di_type (d : list Z) (o : nat) : Z := s16 (get16 d o).
Definition di_major (d : list Z) (o : nat) : Z := s16 (get16 d (o + 2)).
Definition di_minor (d : list Z) (o : nat) : Z := s16 (get16 d (o + 4)).
Definition di_nlink (d : list Z) (o : nat) : Z := s16 (get16 d (o + 6)).
Definition di_size (d : list Z) (o : nat) : Z := get32 d (o + 8).
Definition di_addrs (d : list Z) (o : nat) : list Z :=
  (fun i => get32 d (o + 12 + 4 * i)) <$> seq 0 13.
Definition put_addrs (o : nat) (l : list Z) (d : list Z) : list Z := put_at (o + 12) (concat (le_bytes 4 <$> l)) d.

Definition edit_buf (b : nat) (f : list Z -> list Z) : K unit := mod_buf b (fun bf => set_b_data (f (b_data bf)) bf).

Definition readsb (dev : Z) : K unit :=
  bp ← bread dev 1;
  bf ← get_buf bp;
  modify (set_k_sb (sb_of_bytes (b_data bf))) ;;
  brelse bp.

Definition fsinit (dev : Z) : K unit :=
  readsb dev ;;
  sb ← gets k_sb;
  if negb (sb_magic sb =? FSMAGIC) then panic "invalid file system" else
  initlog dev sb.

(** ** Blocks *)

Definition bzero (dev bno : Z) : K unit :=
  bp ← bread dev (u32 bno);
  edit_buf bp (fun _ => replicate (Z.to_nat BSIZE) 0) ;;
  log_write bp ;;
  brelse bp.

(** Bit [bi] of a bitmap block. *)
Definition bit_set (d : list Z) (bi : Z) : bool :=
  negb (Z.land (default 0 (d !! Z.to_nat (bi / 8))) (Z.shiftl 1 (bi mod 8)) =? 0).
Definition set_bit (bi : Z) (d : list Z) : list Z :=
  alter (fun x => Z.lor x (Z.shiftl 1 (bi mod 8))) (Z.to_nat (bi / 8)) d.
Definition clear_bit (bi : Z) (d : list Z) : list Z :=
  alter (fun x => u8 (Z.land x (Z.lnot (Z.shiftl 1 (bi mod 8))))) (Z.to_nat (bi / 8)) d.

(** The inner loop of [balloc], on one bitmap block; it ends with the number of
    the block it marked. *)
Definition balloc_bit (b : Z) (bp : nat) (bi : Z) : K (Z + option Z) :=
  sb ← gets k_sb;
  if (bi <? BPB) && (b + bi <? sb_size sb) then
    bf ← get_buf bp;
    if negb (bit_set (b_data bf) bi) then
      edit_buf bp (set_bit bi) ;;
      mret (inr (Some bi))
    else mret (inl (bi + 1))
  else mret (inr None).

Definition balloc_block (dev b : Z) : K (Z + option Z) :=
  sb ← gets k_sb;
  if b <? sb_size sb then
    bp ← bread dev (BBLOCK b sb);
    r ← loop (S (Z.to_nat BPB)) (balloc_bit b bp) 0;
    match r with
    | Some bi =>
        log_write bp ;;
        brelse bp ;;
        bzero dev (b + bi) ;;
        mret (inr (Some (b + bi)))
    | None => brelse bp ;; mret (inl (b + BPB))
    end
  else mret (inr None).

Definition balloc (dev : Z) : K Z :=
  sb ← gets k_sb;
  r ← loop (S (S (Z.to_nat (sb_size sb / BPB)))) (balloc_block dev) 0;
  match r with
  | Some b => mret b
  | None => printf (chars "balloc: out of blocks" ++ [10]) [] ;; mret 0
  end.

Definition bfree (dev b : Z) : K unit :=
  sb ← gets k_sb;
  bp ← bread dev (BBLOCK b sb);
  let bi := b mod BPB in
  bf ← get_buf bp;
  if negb (bit_set (b_data bf) bi) then panic "freeing free block" else
  edit_buf bp (clear_bit bi) ;;
  log_write bp ;;
  brelse bp.

(** ** Inodes *)

Definition iinit : K unit := for_each (seq 0 NINODE) (fun i => initsleeplock (SL_inode i)).

(** [iget]'s scan: [inr (inl i)] is a hit, [inr (inr e)] the first empty slot. *)
Definition iget_scan (dev inum : Z) (a : nat * option nat) : K ((nat * option nat) + (nat + option nat)) :=
  let (i, empty) := a in
  if (i <? NINODE)%nat then
    ip ← get_inode i;
    if (0 <? i_ref ip) && (i_dev ip =? dev) && (i_inum ip =? inum) then mret (inr (inl i))
    else mret (inl (S i, if decide (empty = None) then (if i_ref ip =? 0 then Some i else empty) else empty))
  else mret (inr (inr empty)).

Definition iget (dev inum : Z) : K nat :=
  acquire L_itable ;;
  r ← loop (S NINODE) (iget_scan dev inum) (O, None);
  match r with
  | inl i =>
      mod_inode i (fun ip => set_i_ref (i_ref ip + 1) ip) ;;
      release L_itable ;;
      mret i
  | inr None => panic "iget: no inodes"
  | inr (Some i) =>
      mod_inode i (set_i_dev dev) ;;
      mod_inode i (set_i_inum inum) ;;
      mod_inode i (set_i_ref 1) ;;
      mod_inode i (set_i_valid false) ;;
      release L_itable ;;
      mret i
  end.

Definition ialloc_step (dev type inum : Z) : K (Z + option nat) :=
  sb ← gets k_sb;
  if inum <? sb_ninodes sb then
    bp ← bread dev (IBLOCK inum sb);
    bf ← get_buf bp;
    if di_type (b_data bf) (dip_off inum) =? 0 then
      edit_buf bp (put_at (dip_off inum) (replicate 64 0)) ;;
      edit_buf bp (put16 (dip_off inum) type) ;;
      log_write bp ;;
      brelse bp ;;
      i ← iget dev inum;
      mret (inr (Some i))
    else
      brelse bp ;;
      mret (inl (inum + 1))
  else mret (inr None).

Definition ialloc (dev type : Z) : K (option nat) :=
  sb ← gets k_sb;
  r ← loop (S (Z.to_nat (sb_ninodes sb))) (ialloc_step dev type) 1;
  match r with
  | Some i => mret (Some i)
  | None => printf (chars "ialloc: no inodes" ++ [10]) [] ;; mret None
  end.

(** The stores of [iupdate] into the on-disk inode. *)
Definition put_dinode (ip : inode) (d : list Z) : list Z :=
  let o := dip_off (i_inum ip) in
  put_addrs o (i_addrs ip) (put32 (o + 8) (i_size ip) (put16 (o + 6) (i_nlink ip)
    (put16 (o + 4) (i_minor ip) (put16 (o + 2) (i_major ip) (put16 o (i_type ip) d))))).

Definition iupdate (i : nat) : K unit :=
  ip ← get_inode i;
  sb ← gets k_sb;
  bp ← bread (i_dev ip) (IBLOCK (i_inum ip) sb);
  ip ← get_inode i;
  edit_buf bp (put_dinode ip) ;;
  log_write bp ;;
  brelse bp.

Definition idup (i : nat) : K nat :=
  acquire L_itable ;;
  mod_inode i (fun ip => set_i_ref (i_ref ip + 1) ip) ;;
  release L_itable ;;
  mret i.

(** The loads of [ilock] from the on-disk inode. *)
Definition load_dinode (d : list Z) (ip : inode) : inode :=
  let o := dip_off (i_inum ip) in
  set_i_addrs (di_addrs d o) (set_i_size (di_size d o) (set_i_nlink (di_nlink d o)
    (set_i_minor (di_minor d o) (set_i_major (di_major d o) (set_i_type (di_type d o) ip))))).

Definition ilock (p : option nat) : K unit :=
  match p with
  | None => panic "ilock"
  | Some i =>
      ip ← get_inode i;
      if i_ref ip <? 1 then panic "ilock" else
      acquiresleep (SL_inode i) ;;
      ip ← get_inode i;
      if i_valid ip then skip else
      sb ← gets k_sb;
      bp ← bread (i_dev ip) (IBLOCK (i_inum ip) sb);
      bf ← get_buf bp;
      mod_inode i (load_dinode (b_data bf)) ;;
      brelse bp ;;
      mod_inode i (set_i_valid true) ;;
      ip ← get_inode i;
      if i_type ip =? 0 then panic "ilock: no type" else skip
  end.

Definition iunlock (p : option nat) : K unit :=
  match p with
  | None => panic "iunlock"
  | Some i =>
      h ← holdingsleep (SL_inode i);
      if negb h then panic "iunlock" else
      ip ← get_inode i;
      if i_ref ip <? 1 then panic "iunlock" else
      releasesleep (SL_inode i)
  end.

(** ** Contents *)

(** [a[bn]] of an indirect block. *)
Definition ind_at (d : list Z) (bn : Z) : Z := get32 d (4 * Z.to_nat bn).

Definition set_addr (i : nat) (k addr : Z) : K unit :=
  mod_inode i (fun ip => set_i_addrs (<[Z.to_nat k := addr]> (i_addrs ip)) ip).

Definition bmap (i : nat) (bn : Z) : K Z :=
  ip ← get_inode i;
  if bn <? NDIRECT then
    addr ← need "addrs" (i_addrs ip !! Z.to_nat bn);
    if addr =? 0 then
      addr ← balloc (i_dev ip);
      if addr =? 0 then mret 0 else
      set_addr i bn addr ;;
      mret addr
    else mret addr
  else
  let bn := bn - NDIRECT in
  if bn <? NINDIRECT then
    addr ← need "addrs" (i_addrs ip !! Z.to_nat NDIRECT);
    addr ← (if addr =? 0 then
              addr ← balloc (i_dev ip);
              (if addr =? 0 then skip else set_addr i NDIRECT addr) ;;
              mret addr
            else mret addr);
    if addr =? 0 then mret 0 else
    bp ← bread (i_dev ip) addr;
    bf ← get_buf bp;
    let addr := ind_at (b_data bf) bn in
    addr ← (if addr =? 0 then
              addr ← balloc (i_dev ip);
              (if negb (addr =? 0) then
                 edit_buf bp (put32 (4 * Z.to_nat bn) addr) ;;
                 log_write bp
               else skip) ;;
              mret addr
            else mret addr);
    brelse bp ;;
    mret addr
  else panic "bmap: out of range".

Definition itrunc_direct (i : nat) (k : nat) : K unit :=
  ip ← get_inode i;
  addr ← need "addrs" (i_addrs ip !! k);
  if addr =? 0 then skip else
  bfree (i_dev ip) addr ;;
  set_addr i (Z.of_nat k) 0.

Definition itrunc_indirect (i bp : nat) (j : nat) : K unit :=
  ip ← get_inode i;
  bf ← get_buf bp;
  let a := ind_at (b_data bf) (Z.of_nat j) in
  if a =? 0 then skip else bfree (i_dev ip) a.

Definition itrunc (i : nat) : K unit :=
  for_each (seq 0 (Z.to_nat NDIRECT)) (itrunc_direct i) ;;
  ip ← get_inode i;
  addr ← need "addrs" (i_addrs ip !! Z.to_nat NDIRECT);
  (if addr =? 0 then skip else
   bp ← bread (i_dev ip) addr;
   for_each (seq 0 (Z.to_nat NINDIRECT)) (itrunc_indirect i bp) ;;
   brelse bp ;;
   bfree (i_dev ip) addr ;;
   set_addr i NDIRECT 0) ;;
  mod_inode i (set_i_size 0) ;;
  iupdate i.

Definition iput (i : nat) : K unit :=
  acquire L_itable ;;
  ip ← get_inode i;
  (if (i_ref ip =? 1) && i_valid ip && (i_nlink ip =? 0) then
     acquiresleep (SL_inode i) ;;
     release L_itable ;;
     itrunc i ;;
     mod_inode i (set_i_type 0) ;;
     iupdate i ;;
     mod_inode i (set_i_valid false) ;;
     releasesleep (SL_inode i) ;;
     acquire L_itable
   else skip) ;;
  mod_inode i (fun ip => set_i_ref (i_ref ip - 1) ip) ;;
  release L_itable.

Definition iunlockput (i : nat) : K unit := iunlock (Some i) ;; iput i.

(** kernel/stat.h: struct stat; [st_pad] are the four bytes of padding before [size]. *)
Record stat := mk_stat { st_dev : Z; st_ino : Z; st_type : Z; st_nlink : Z; st_pad : list Z; st_size : Z }.

Definition stati (i : nat) (st : stat) : K stat :=
  ip ← get_inode i;
  mret (mk_stat (i_dev ip) (i_inum ip) (i_type ip) (i_nlink ip) (st_pad st) (i_size ip)).

(** [m = min(n - tot, BSIZE - off%BSIZE)] *)
Definition piece (n tot off : Z) : Z := Z.min (n - tot) (BSIZE - off mod BSIZE).

(** One turn of [readi]'s loop; [copy tot bs] stores [bs] at [dst + tot].  [acc] is
    what has been read. *)
Definition readi_step (copy : Z -> list Z -> K Z) (i : nat) (n : Z) (a : Z * Z * list Z) : K ((Z * Z * list Z) + (Z * list Z)) :=
  let '(tot, off, acc) := a in
  if tot <? n then
    addr ← bmap i (off / BSIZE);
    if addr =? 0 then mret (inr (tot, acc)) else
    ip ← get_inode i;
    bp ← bread (i_dev ip) addr;
    let m := piece n tot off in
    bf ← get_buf bp;
    let bs := get_at (b_data bf) (Z.to_nat (off mod BSIZE)) (Z.to_nat m) in
    r ← copy tot bs;
    if r =? -1 then brelse bp ;; mret (inr (-1, acc)) else
    brelse bp ;;
    mret (inl (u32 (tot + m), u32 (off + m), acc ++ bs))
  else mret (inr (tot, acc)).

Definition readi_gen (copy : Z -> list Z -> K Z) (i : nat) (off n : Z) : K (Z * list Z) :=
  ip ← get_inode i;
  if (i_size ip <? off) || (u32 (off + n) <? off) then mret (0, []) else
  let n := if i_size ip <? u32 (off + n) then i_size ip - off else n in
  loop (S (Z.to_nat n)) (readi_step copy i n) (0, off, []).

Definition readi {L : Layout} (i : nat) (user_dst : bool) (dst off n : Z) : K Z :=
  '(r, _) ← readi_gen (fun tot bs => either_copyout user_dst (u64 (dst + tot)) bs) i off n;
  mret r.

Definition readi_local (i : nat) (off n : Z) : K (Z * list Z) := readi_gen (fun _ _ => mret 0) i off n.

(** [writei]: [copy tot m] fetches [m] bytes from [src + tot], and says which
    it got when it fails.  They are in the buffer either way. *)
Definition writei_step (copy : Z -> Z -> K (Z * list Z)) (i : nat) (n : Z) (a : Z * Z) : K ((Z * Z) + (Z * Z)) :=
  let '(tot, off) := a in
  if tot <? n then
    addr ← bmap i (off / BSIZE);
    if addr =? 0 then mret (inr (tot, off)) else
    ip ← get_inode i;
    bp ← bread (i_dev ip) addr;
    let m := piece n tot off in
    '(r, bs) ← copy tot m;
    edit_buf bp (put_at (Z.to_nat (off mod BSIZE)) bs) ;;
    if r =? -1 then brelse bp ;; mret (inr (tot, off)) else
    log_write bp ;;
    brelse bp ;;
    mret (inl (u32 (tot + m), u32 (off + m)))
  else mret (inr (tot, off)).

Definition writei_gen (copy : Z -> Z -> K (Z * list Z)) (i : nat) (off n : Z) : K Z :=
  ip ← get_inode i;
  if (i_size ip <? off) || (u32 (off + n) <? off) then mret (-1) else
  if MAXFILE * BSIZE <? u32 (off + n) then mret (-1) else
  '(tot, off) ← loop (S (Z.to_nat n)) (writei_step copy i n) (0, off);
  ip ← get_inode i;
  (if i_size ip <? off then mod_inode i (set_i_size off) else skip) ;;
  iupdate i ;;
  mret tot.

Definition writei {L : Layout} (i : nat) (user_src : bool) (src off n : Z) : K Z :=
  writei_gen (fun tot m => either_copyin user_src (u64 (src + tot)) m) i off n.

Definition writei_local (i : nat) (bs : list Z) (off : Z) : K Z :=
  writei_gen (fun tot m => mret (0, get_at bs (Z.to_nat tot) (Z.to_nat m))) i off (Z.of_nat (length bs)).

(** ** Directories *)

Definition namecmp (s t : list Z) : Z := strncmp s t (Z.to_nat DIRSIZ).

(** struct dirent, 16 bytes. *)
Definition sizeof_dirent : Z := 16.
Definition de_inum (de : list Z) : Z := get16 de 0.
Definition de_name (de : list Z) : list Z := drop 2 de.

Definition dirlookup_step (d : nat) (name : list Z) (off : Z) : K (Z + option (nat * Z)) :=
  dp ← get_inode d;
  if off <? i_size dp then
    '(r, de) ← readi_local d off sizeof_dirent;
    if negb (r =? sizeof_dirent) then panic "dirlookup read" else
    if de_inum de =? 0 then mret (inl (u32 (off + sizeof_dirent))) else
    if namecmp name (de_name de) =? 0 then
      i ← iget (i_dev dp) (de_inum de);
      mret (inr (Some (i, off)))
    else mret (inl (u32 (off + sizeof_dirent)))
  else mret (inr None).

(** The entry's inode and the offset stored to [*poff]. *)
Definition dirlookup (d : nat) (name : list Z) : K (option (nat * Z)) :=
  dp ← get_inode d;
  if negb (i_type dp =? T_DIR) then panic "dirlookup not DIR" else
  loop (S (S (Z.to_nat (i_size dp / sizeof_dirent)))) (dirlookup_step d name) 0.

(** [dirlink]'s search for a free entry: where it is, and what [de] holds. *)
Definition dirlink_scan (d : nat) (a : Z * list Z) : K ((Z * list Z) + (Z * list Z)) :=
  let '(off, de) := a in
  dp ← get_inode d;
  if off <? i_size dp then
    '(r, de) ← readi_local d off sizeof_dirent;
    if negb (r =? sizeof_dirent) then panic "dirlink read" else
    if de_inum de =? 0 then mret (inr (off, de)) else mret (inl (off + sizeof_dirent, de))
  else mret (inr (off, de)).

Definition dirlink `{Uninit} (d : nat) (name : list Z) (inum : Z) : K Z :=
  r ← dirlookup d name;
  match r with
  | Some (i, _) => iput i ;; mret (-1)
  | None =>
      dp ← get_inode d;
      '(off, de) ← loop (S (S (Z.to_nat (i_size dp / sizeof_dirent)))) (dirlink_scan d) (0, uninit 16);
      let de := le_bytes 2 inum ++ strncpy (de_name de) name DIRSIZ in
      r ← writei_local d de off;
      if negb (r =? sizeof_dirent) then mret (-1) else mret 0
  end.

(** ** Paths *)

(** [while( *path == '/') path++;] *)
Fixpoint skip_slashes (path : list Z) : list Z :=
  match path with
  | c :: p => if c =? 47 then skip_slashes p else path
  | [] => []
  end.

(** [while( *path != '/' && *path != 0) path++;]: the element and what follows. *)
Fixpoint take_elem (path : list Z) : list Z * list Z :=
  match path with
  | c :: p => if (c =? 47) || (c =? 0) then ([], path) else let (e, r) := take_elem p in (c :: e, r)
  | [] => ([], [])
  end.

(** The rest of the path and the updated [name], or 0. *)
Definition skipelem (path name : list Z) : option (list Z * list Z) :=
  let s := skip_slashes path in
  if hd0 s =? 0 then None else
  let (e, path) := take_elem s in
  let len := Z.of_nat (length e) in
  let name := if DIRSIZ <=? len then put_at 0 (take (Z.to_nat DIRSIZ) e) name
              else put_at 0 (e ++ [0]) name in
  Some (skip_slashes path, name).

Definition namex_step (nameiparent : bool) (a : nat * list Z * list Z) :
    K ((nat * list Z * list Z) + (bool * option nat * list Z)) :=
  let '(i, path, name) := a in
  match skipelem path name with
  | None => mret (inr (false, Some i, name))
  | Some (path, name) =>
      ilock (Some i) ;;
      ip ← get_inode i;
      if negb (i_type ip =? T_DIR) then iunlockput i ;; mret (inr (true, None, name)) else
      if nameiparent && (hd0 path =? 0) then iunlock (Some i) ;; mret (inr (true, Some i, name)) else
      r ← dirlookup i name;
      match r with
      | None => iunlockput i ;; mret (inr (true, None, name))
      | Some (next, _) => iunlockput i ;; mret (inl (next, path, name))
      end
  end.

(** The loop says whether it returned ([true]) or fell off its end. *)
Definition namex (path : list Z) (nameiparent : bool) (name : list Z) : K (option nat * list Z) :=
  i ← (if hd0 path =? 47 then iget ROOTDEV ROOTINO
       else p ← myproc'; pr ← get_proc p; cwd ← need "cwd" (p_cwd pr); idup cwd);
  '(returned, r, name) ← loop (S (length path)) (namex_step nameiparent) (i, path, name);
  if returned : bool then mret (r, name) else
  match r with
  | Some i => if nameiparent then iput i ;; mret (None, name) else mret (Some i, name)
  | None => mret (None, name)
  end.

Definition namei `{Uninit} (path : list Z) : K (option nat) :=
  '(r, _) ← namex path false (uninit (Z.to_nat DIRSIZ));
  mret r.
Definition nameiparent (path name : list Z) : K (option nat * list Z) := namex path true name.
