(* ===== verification/File.v ===== *)
(** * kernel/file.c and [pipealloc]: open files

    The table of open files, and the dispatch of reads and writes to pipes,
    devices and inodes. *)

From stdpp Require Import base list gmap strings.
From Stdlib Require Import ZArith Lia.
From S2P Require Import Prelude Mem Riscv State Sched Kalloc Vm Bio Log Proc Console Pipe Fs.
Open Scope Z_scope.

Section File.
Context {L : Layout} {U : Uninit}.

Definition filealloc_step (f : nat) : K (nat + option nat) :=
  if (f <? NFILE)%nat then
    fl ← get_file f;
    if f_ref fl =? 0 then
      mod_file f (set_f_ref 1) ;;
      release L_ftable ;;
      mret (inr (Some f))
    else mret (inl (S f))
  else
    release L_ftable ;;
    mret (inr None).
Definition filealloc : K (option nat) :=
  acquire L_ftable ;;
  loop (S NFILE) filealloc_step O.

Definition filedup (f : nat) : K nat :=
  acquire L_ftable ;;
  fl ← get_file f;
  if f_ref fl <? 1 then panic "filedup" else
  mod_file f (fun fl => set_f_ref (f_ref fl + 1) fl) ;;
  release L_ftable ;;
  mret f.

Definition fileclose (f : nat) : K unit :=
  acquire L_ftable ;;
  fl ← get_file f;
  if f_ref fl <? 1 then panic "fileclose" else
  mod_file f (fun fl => set_f_ref (f_ref fl - 1) fl) ;;
  ff ← get_file f;
  if 0 <? f_ref ff then release L_ftable else
  mod_file f (set_f_ref 0) ;;
  mod_file f (set_f_type FD_NONE) ;;
  release L_ftable ;;
  match f_type ff with
  | FD_PIPE => pipeclose (f_pipe ff) (f_writable ff)
  | FD_INODE | FD_DEVICE =>
      begin_op ;;
      ip ← need "ip" (f_ip ff);
      iput ip ;;
      end_op
  | FD_NONE => skip
  end.

(** The bytes of a struct stat. *)
Definition stat_bytes (st : stat) : list Z :=
  le_bytes 4 (st_dev st) ++ le_bytes 4 (st_ino st) ++ le_bytes 2 (st_type st) ++ le_bytes 2 (st_nlink st) ++
  st_pad st ++ le_bytes 8 (st_size st).

Definition filestat (f : nat) (addr : Z) : K Z :=
  p ← myproc';
  fl ← get_file f;
  match f_type fl with
  | FD_INODE | FD_DEVICE =>
      ilock (f_ip fl) ;;
      ip ← need "ip" (f_ip fl);
      st ← stati ip (mk_stat 0 0 0 0 (uninit 4) 0);
      iunlock (f_ip fl) ;;
      pr ← get_proc p;
      r ← copyout (p_pagetable pr) addr (stat_bytes st);
      if r <? 0 then mret (-1) else mret 0
  | _ => mret (-1)
  end.

(** [devsw[major].read] and [.write], when set (see [consoleinit]). *)
Definition dev_set (major : Z) : K bool :=
  gets (fun s => (0 <=? major) && (major <? NDEV) && negb (default 0 (k_devsw s !! Z.to_nat major) =? 0)).

Definition fileread (f : nat) (addr n : Z) : K Z :=
  fl ← get_file f;
  if negb (f_readable fl) then mret (-1) else
  match f_type fl with
  | FD_PIPE => piperead (f_pipe fl) addr n
  | FD_DEVICE =>
      d ← dev_set (f_major fl);
      if negb d then mret (-1) else consoleread true addr n
  | FD_INODE =>
      ilock (f_ip fl) ;;
      ip ← need "ip" (f_ip fl);
      fl ← get_file f;
      r ← readi ip true addr (f_off fl) (u32 n);
      (if 0 <? r then mod_file f (fun fl => set_f_off (u32 (f_off fl + r)) fl) else skip) ;;
      iunlock (f_ip fl) ;;
      mret r
  | FD_NONE => panic "fileread"
  end.

Definition write_max : Z := ((MAXOPBLOCKS - 1 - 1 - 2) / 2) * BSIZE.

(** One transaction of [filewrite]; the loop ends with [i]. *)
Definition filewrite_step (f : nat) (addr n i : Z) : K (Z + Z) :=
  if i <? n then
    let n1 := if write_max <? n - i then write_max else n - i in
    fl ← get_file f;
    begin_op ;;
    ilock (f_ip fl) ;;
    ip ← need "ip" (f_ip fl);
    fl ← get_file f;
    r ← writei ip true (u64 (addr + i)) (f_off fl) n1;
    (if 0 <? r then mod_file f (fun fl => set_f_off (u32 (f_off fl + r)) fl) else skip) ;;
    iunlock (f_ip fl) ;;
    end_op ;;
    if negb (r =? n1) then mret (inr i) else mret (inl (i + r))
  else mret (inr i).

Definition filewrite (f : nat) (addr n : Z) : K Z :=
  fl ← get_file f;
  if negb (f_writable fl) then mret (-1) else
  match f_type fl with
  | FD_PIPE => pipewrite (f_pipe fl) addr n
  | FD_DEVICE =>
      d ← dev_set (f_major fl);
      if negb d then mret (-1) else consolewrite true addr n
  | FD_INODE =>
      i ← loop (S (Z.to_nat n)) (filewrite_step f addr n) 0;
      mret (if i =? n then n else -1)
  | FD_NONE => panic "filewrite"
  end.

(** ** kernel/pipe.c: pipealloc *)

Definition pipealloc_bad (pi : Z) (f0 f1 : option nat) : K (option (nat * nat)) :=
  (if pi =? 0 then skip else kfree pi) ;;
  match f0 with Some f => fileclose f | None => skip end ;;
  match f1 with Some f => fileclose f | None => skip end ;;
  mret None.

(** The struct's lock takes the first 24 bytes of the page; [data] is what [kalloc]
    left there. *)
Definition pipealloc : K (option (nat * nat)) :=
  f0 ← filealloc;
  match f0 with
  | None => pipealloc_bad 0 None None
  | Some f0 =>
  f1 ← filealloc;
  match f1 with
  | None => pipealloc_bad 0 (Some f0) None
  | Some f1 =>
  pi ← kalloc;
  if pi =? 0 then pipealloc_bad 0 (Some f0) (Some f1) else
  modify (fun s => set_k_pipes (<[pi := mk_pipe (mread (k_mem s) (pi + 24) (Z.to_nat PIPESIZE)) 0 0 true true]> (k_pipes s)) s) ;;
  mod_file f0 (set_f_type FD_PIPE) ;;
  mod_file f0 (set_f_readable true) ;;
  mod_file f0 (set_f_writable false) ;;
  mod_file f0 (set_f_pipe pi) ;;
  mod_file f1 (set_f_type FD_PIPE) ;;
  mod_file f1 (set_f_readable false) ;;
  mod_file f1 (set_f_writable true) ;;
  mod_file f1 (set_f_pipe pi) ;;
  mret (Some (f0, f1))
  end end.

End File.
