(* ===== verification/Kvm.v ===== *)
(** * kernel/vm.c: [vmprint] and the switch to the kernel's page table *)

From stdpp Require Import base list gmap strings.
From Stdlib Require Import ZArith Lia.
From S2P Require Import Prelude Mem Riscv State Sched Kalloc Vm Format Printf.
Open Scope Z_scope.

Section Kvm.
Context {L : Layout}.

Definition kvminit : K unit :=
  t ← kvmmake;
  modify (set_k_kpgtbl t).

(** The TLB flushes around it have no counterpart: the model has no TLB. *)
Definition kvminithart : K unit :=
  t ← gets k_kpgtbl;
  mod_csrs (set_r_satp (MAKE_SATP t)).

(** The body of [vmprint_helper]'s loop for entry [i]. *)
Definition vmprint_entry (rec : Z -> K unit) (pagetable level : Z) (i : nat) : K unit :=
  pte ← ld64 (pagetable + 8 * Z.of_nat i);
  if has pte PTE_V then
    let pa := PTE2PA pte in
    for_each (seq 0 (Z.to_nat level)) (fun _ => printf (chars " ..") [] ;; skip) ;;
    printf (chars "%d: -> pte %p pa %p" ++ [10]) [ANum (Z.of_nat i); ANum pte; ANum pa] ;;
    if Z.land pte (Z.lor (Z.lor PTE_R PTE_W) PTE_X) =? 0 then rec pa else skip
  else skip.

(** [depth] bounds the recursion: a call chain of 64 frames fills the kernel's
    one-page stack.  On a page table the kernel built there are three. *)
Fixpoint vmprint_helper (depth : nat) (pagetable level : Z) : K unit :=
  match depth with
  | O => fault "vmprint: stack overflow"
  | S depth =>
      if pagetable =? 0 then skip else
      for_each (seq 0 512) (vmprint_entry (fun pa => vmprint_helper depth pa (level + 1)) pagetable level)
  end.

Definition vmprint (pagetable : Z) : K unit :=
  printf (chars "page table %p" ++ [10]) [ANum pagetable] ;;
  vmprint_helper 64 pagetable 1.

End Kvm.
