(* ===== verification/ProcFs.v ===== *)
(** * kernel/proc.c: creation, exit and reaping of processes

    [userinit], [fork], [reparent], [exit], [wait] and the file-system part of
    [forkret], which ends in [usertrapret] (Trap.v). *)

From stdpp Require Import base list gmap strings.
From Stdlib Require Import ZArith Lia.
From S2P Require Import Prelude Mem KString Riscv State Sched Kalloc Vm Bio Log Format Printf Proc Fs File.
Open Scope Z_scope.

Section ProcFs.
Context {L : Layout} {U : Uninit}.

Definition initcode : list Z :=
  [0x17; 0x05; 0x00; 0x00; 0x13; 0x05; 0x45; 0x02;
   0x97; 0x05; 0x00; 0x00; 0x93; 0x85; 0x35; 0x02;
   0x93; 0x08; 0x70; 0x00; 0x73; 0x00; 0x00; 0x00;
   0x93; 0x08; 0x20; 0x00; 0x73; 0x00; 0x00; 0x00;
   0xef; 0xf0; 0x9f; 0xff; 0x2f; 0x69; 0x6e; 0x69;
   0x74; 0x00; 0x00; 0x24; 0x00; 0x00; 0x00; 0x00;
   0x00; 0x00; 0x00; 0x00].

Definition userinit : K unit :=
  np ← allocproc;
  modify (set_k_initproc np) ;;
  p ← need "userinit" np;
  pr ← get_proc p;
  uvmfirst (p_pagetable pr) initcode ;;
  mod_proc p (set_p_sz PGSIZE) ;;
  st64 (p_trapframe pr + tf_epc) 0 ;;
  st64 (p_trapframe pr + tf_sp) PGSIZE ;;
  mod_proc p (fun pr => set_p_name (safestrcpy (p_name pr) (chars "initcode") 16) pr) ;;
  cwd ← namei (chars "/");
  mod_proc p (set_p_cwd cwd) ;;
  mod_proc p (set_p_state RUNNABLE) ;;
  release (L_proc p).

(** The child's copy of descriptor [i]. *)
Definition fork_fd (p np i : nat) : K unit :=
  pr ← get_proc p;
  match default None (p_ofile pr !! i) with
  | Some f =>
      f ← filedup f;
      mod_proc np (fun q => set_p_ofile (<[i := Some f]> (p_ofile q)) q)
  | None => skip
  end.

(** [fork] once the memory is copied. *)
Definition fork_rest (p np : nat) (pr q : proc) : K Z :=
  mod_proc np (set_p_sz (p_sz pr)) ;;
  mod_mem (fun m => mwrite m (p_trapframe q) (mread m (p_trapframe pr) (Z.to_nat sizeof_trapframe))) ;;
  st64 (p_trapframe q + tf_a0) 0 ;;
  for_each (seq 0 NOFILE) (fork_fd p np) ;;
  cwd ← need "cwd" (p_cwd pr);
  cwd ← idup cwd;
  mod_proc np (set_p_cwd (Some cwd)) ;;
  mod_proc np (fun q => set_p_name (safestrcpy (p_name q) (p_name pr) 16) q) ;;
  q ← get_proc np;
  let pid := p_pid q in
  release (L_proc np) ;;
  acquire L_wait ;;
  mod_proc np (set_p_parent (Some p)) ;;
  release L_wait ;;
  acquire (L_proc np) ;;
  mod_proc np (set_p_state RUNNABLE) ;;
  release (L_proc np) ;;
  mret pid.

Definition fork : K Z :=
  p ← myproc';
  r ← allocproc;
  match r with
  | None => mret (-1)
  | Some np =>
      pr ← get_proc p;
      q ← get_proc np;
      c ← uvmcopy (p_pagetable pr) (p_pagetable q) (p_sz pr);
      if c <? 0 then
        freeproc np ;;
        release (L_proc np) ;;
        mret (-1)
      else
      fork_rest p np pr q
  end.

(** [wakeup] on a pointer to a process; no process sleeps on 0. *)
Definition wakeup_proc (o : option nat) : K unit :=
  match o with Some q => wakeup (Ch_proc q) | None => skip end.

Definition reparent_one (p pp : nat) : K unit :=
  q ← get_proc pp;
  if decide (p_parent q = Some p) then
    init ← gets k_initproc;
    mod_proc pp (set_p_parent init) ;;
    wakeup_proc init
  else skip.
Definition reparent (p : nat) : K unit := for_each (seq 0 NPROC) (reparent_one p).

Definition exit_fd (p fd : nat) : K unit :=
  pr ← get_proc p;
  match default None (p_ofile pr !! fd) with
  | Some f =>
      fileclose f ;;
      mod_proc p (fun pr => set_p_ofile (<[fd := None]> (p_ofile pr)) pr)
  | None => skip
  end.

Definition exit (status : Z) : K unit :=
  p ← myproc';
  init ← gets k_initproc;
  if decide (Some p = init) then panic "init exiting" else
  for_each (seq 0 NOFILE) (exit_fd p) ;;
  begin_op ;;
  pr ← get_proc p;
  cwd ← need "cwd" (p_cwd pr);
  iput cwd ;;
  end_op ;;
  mod_proc p (set_p_cwd None) ;;
  acquire L_wait ;;
  reparent p ;;
  pr ← get_proc p;
  wakeup_proc (p_parent pr) ;;
  acquire (L_proc p) ;;
  mod_proc p (set_p_xstate status) ;;
  mod_proc p (set_p_state ZOMBIE) ;;
  release L_wait ;;
  sched ;;
  panic "zombie exit".

(** [wait]'s scan of the table; [inr (inl r)] is a return, [inr (inr havekids)]
    the end of the scan. *)
Definition wait_scan (p : nat) (addr : Z) (a : nat * bool) : K ((nat * bool) + (Z + bool)) :=
  let (pp, havekids) := a in
  if (pp <? NPROC)%nat then
    q ← get_proc pp;
    if decide (p_parent q = Some p) then
      acquire (L_proc pp) ;;
      q ← get_proc pp;
      if decide (p_state q = ZOMBIE) then
        pr ← get_proc p;
        r ← (if addr =? 0 then mret 0 else copyout (p_pagetable pr) addr (le_bytes 4 (p_xstate q)));
        if r <? 0 then
          release (L_proc pp) ;;
          release L_wait ;;
          mret (inr (inl (-1)))
        else
          freeproc pp ;;
          release (L_proc pp) ;;
          release L_wait ;;
          mret (inr (inl (p_pid q)))
      else
        release (L_proc pp) ;;
        mret (inl (S pp, true))
    else mret (inl (S pp, havekids))
  else mret (inr (inr havekids)).

Definition wait_step (p : nat) (addr : Z) (_ : unit) : K (unit + Z) :=
  r ← loop (S NPROC) (wait_scan p addr) (O, false);
  match r with
  | inl v => mret (inr v)
  | inr havekids =>
      k ← (if negb havekids then mret 1 else killed p);
      if negb (k =? 0) then
        release L_wait ;;
        mret (inr (-1))
      else
        sleep (Ch_proc p) L_wait ;;
        mret (inl tt)
  end.

Definition wait (addr : Z) : K Z :=
  p ← myproc';
  acquire L_wait ;;
  fuel ← gets k_fuel;
  loop fuel (wait_step p addr) tt.

(** [forkret] up to its call of [usertrapret]. *)
Definition forkret_init : K unit :=
  p ← myproc';
  release (L_proc p) ;;
  first ← gets k_first;
  if first : bool then
    fsinit ROOTDEV ;;
    modify (set_k_first false)
  else skip.

End ProcFs.
