(* ===== verification/Fork.v ===== *)
(** * fork: a new process from an old one

    [allocproc], [freeproc] and [fork] of kernel/proc.c over the process table,
    physical memory, the open files and the in-memory inodes at once. *)

From stdpp Require Import base list gmap strings.
From Stdlib Require Import ZArith Lia.
From S2P Require Import Prelude Mem KString Riscv State Sched Kalloc Vm PtRep Uvm Uspace Ucopy Pool Ufree CopyUser VmProps Proc ProcMem Fs File ProcFs.
Open Scope Z_scope.

(** ** Updates of a slot of the process table *)

Definition setp (p : nat) (pr : proc) (s : kstate) : kstate := set_k_procs (<[p := pr]> (k_procs s)) s.

Lemma mod_proc_run p pr f s : k_procs s !! p = Some pr -> mod_proc p f s = Ret tt (setp p (f pr) s).
Proof. intros Hp. unfold mod_proc, modify, setp. by rewrite (alter_lookup_set _ p _ pr Hp). Qed.
Lemma setp_setp p a b s : setp p a (setp p b s) = setp p a s.
Proof. unfold setp. cbn [k_procs set_k_procs]. by rewrite list_insert_insert_eq. Qed.
Lemma lookup_setp p pr s : (p < length (k_procs s))%nat -> k_procs (setp p pr s) !! p = Some pr.
Proof. intros H. by apply list_lookup_insert_eq. Qed.
Lemma lookup_setp_ne p i pr s : p <> i -> k_procs (setp p pr s) !! i = k_procs s !! i.
Proof. intros H. by apply list_lookup_insert_ne. Qed.
Lemma length_setp p pr s : length (k_procs (setp p pr s)) = length (k_procs s).
Proof. apply length_insert. Qed.
Lemma setp_held p pr h s : setp p pr (set_k_held h s) = set_k_held h (setp p pr s).
Proof. done. Qed.
Lemma mem_only_procs s s' : mem_only s s' -> k_procs s' = k_procs s.
Proof. by intros ->. Qed.

(** One assignment to a field of slot [p]. *)
Ltac pset H := kstep_by mod_proc_run; [|apply lookup_setp; exact H]; rewrite setp_setp.

(** The parts of the kernel the process code changes. *)
Definition proc_only (s s' : kstate) : Prop :=
  s' = set_k_held (k_held s') (set_k_procs (k_procs s') (set_k_nextpid (k_nextpid s')
    (set_k_freelist (k_freelist s') (set_k_mem (k_mem s') s)))).
#[global] Instance proc_only_preorder : PreOrder proc_only.
Proof.
  split.
  - intros s. by destruct s.
  - intros s1 s2 s3 H12 H23. unfold proc_only in *. rewrite H23, H12. by destruct s1.
Qed.
Lemma mem_proc_only s s' : mem_only s s' -> proc_only s s'.
Proof. unfold proc_only. intros ->. by destruct s. Qed.
Lemma setp_only p pr s : proc_only s (setp p pr s).
Proof. by destruct s. Qed.
Lemma held_only h s : proc_only s (set_k_held h s).
Proof. by destruct s. Qed.

(** The bytes of the pages [own]. *)
Definition kept (s s' : kstate) (own : list Z) : Prop := forall p, p ∈ own -> same_page (k_mem s) (k_mem s') p.
Lemma kept_refl s own : kept s s own.
Proof. done. Qed.
Lemma kept_trans s s1 s2 own : kept s s1 own -> kept s1 s2 own -> kept s s2 own.
Proof. intros H1 H2 p Hp. eapply same_page_trans; eauto. Qed.

Section Fork.
Context {L : Layout} `{!LayoutOk L} {U : Uninit}.

(** ** freeproc *)

(** The slot [freeproc] leaves. *)
Definition freed (pr : proc) : proc :=
  mk_proc UNUSED None 0 0 0 None (p_kstack pr) 0 0 0 (p_context pr) (p_ofile pr) (p_cwd pr) (<[0%nat := 0]> (p_name pr)).

(** The memory of a slot: none, a trapframe page, or that and an address space. *)
Inductive pmem (s : kstate) (own l : list Z) (pr : proc) : list Z -> Prop :=
| pm_none : p_trapframe pr = 0 -> p_pagetable pr = 0 -> pool s own l -> pmem s own l pr []
| pm_frame : p_trapframe pr <> 0 -> p_pagetable pr = 0 -> pool s (p_trapframe pr :: own) l -> pmem s own l pr [p_trapframe pr]
| pm_full t um : p_trapframe pr <> 0 -> p_pagetable pr <> 0 -> as_ok s (p_pagetable pr) (mk_aspace t l um (p_trapframe pr :: own)) ->
    fixed s t (p_trapframe pr) -> um_cov um (PGROUNDUP (p_sz pr)) -> 0 <= p_sz pr <= TRAPFRAME ->
    pmem s own l pr (p_trapframe pr :: tree_pages t ++ um_pages um).

Lemma keeps_kept s s' own : keeps s s' own -> kept s s' own.
Proof. by intros []. Qed.

(** The two steps that give memory back. *)
Lemma free_frame s own l pr pages :
  pmem s own l pr pages -> exists s1 l1 pages', (if negb (p_trapframe pr =? 0) then kfree (p_trapframe pr) else skip) s = Ret tt s1 /\
    keeps s s1 own /\ l1 ++ pages' ≡ₚ l ++ pages /\
    ((p_pagetable pr = 0 /\ pages' = [] /\ pool s1 own l1) \/
     (p_pagetable pr <> 0 /\ 0 <= p_sz pr <= TRAPFRAME /\ page_ok (p_trapframe pr) /\
      exists t um, as_ok s1 (p_pagetable pr) (mk_aspace t l1 um own) /\ fixed s1 t (p_trapframe pr) /\ um_cov um (PGROUNDUP (p_sz pr)) /\
        pages' = tree_pages t ++ um_pages um)).
Proof.
  intros [Ht Hp Hpool|Ht Hp Hpool|t um Ht Hp Hok Hf Hc Hsz].
  - rewrite Ht. exists s, l, []. split; [done|]. split; [apply keeps_refl|]. split; [done|]. by left.
  - rewrite (proj2 (Z.eqb_neq _ 0) Ht). cbn [negb]. destruct (pool_kfree _ _ _ _ Hpool) as (s1 & R & Hpool1 & K1).
    exists s1, (p_trapframe pr :: l), []. split; [done|]. split; [done|]. split; [solve_Permutation|]. by left.
  - rewrite (proj2 (Z.eqb_neq _ 0) Ht). cbn [negb]. destruct (as_kfree s (p_pagetable pr) t l um own (p_trapframe pr) Hok) as (s1 & R & Hst).
    exists s1, (p_trapframe pr :: l), (tree_pages t ++ um_pages um). split; [done|]. split; [|split; [solve_Permutation|right; split; [done|split; [done|split]]]].
    + split; [apply Hst|]. intros q Hq. apply (as_step_own _ _ _ _ _ q Hst Hok); [by right|done].
    + pose proof (as_pages _ _ _ Hok) as Hpg. unfold a_pages in Hpg. cbn in Hpg. by apply Forall_cons in Hpg as [? _].
    + exists t, um. split; [apply Hst|]. split; [|done]. destruct Hf as [F1 F2]. split; rewrite (st_high _ _ _ _ _ Hst) by (done || vlia); done.
Qed.

Lemma freeproc_ok s p pr own l pages :
  k_procs s !! p = Some pr -> pmem s own l pr pages ->
  exists s' l', freeproc p s = Ret tt s' /\ pool s' own l' /\ l' ≡ₚ l ++ pages /\ k_procs s' = <[p := freed pr]> (k_procs s) /\
    proc_only s s' /\ kept s s' own /\ k_held s' = k_held s /\ k_nextpid s' = k_nextpid s.
Proof.
  intros Hp Hm. pose proof (lookup_lt_Some _ _ _ Hp) as Hlt. destruct (free_frame s own l pr pages Hm) as (s1 & l1 & pages' & R1 & K1 & Hl1 & Hc).
  pose proof (mem_only_procs _ _ (ke_only _ _ _ K1)) as E1. pose proof (mem_only_held _ _ (ke_only _ _ _ K1)) as H1.
  set (s2 := setp p (set_p_trapframe 0 pr) s1).
  assert (exists s3 l3, (if negb (p_pagetable pr =? 0) then proc_freepagetable (p_pagetable pr) (p_sz pr) else skip) s2 = Ret tt s3 /\
    pool s3 own l3 /\ keeps s2 s3 own /\ l3 ≡ₚ l ++ pages) as (s3 & l3 & R3 & Hp3 & K3 & Hl3).
  { destruct Hc as [(-> & -> & Hpool)|(Hne & Hsz & Htf & t & um & Hok & Hf & Hcov & ->)].
    - exists s2, l1. split; [done|]. split; [apply (pool_same s1); try done; apply Hpool|]. split; [apply keeps_refl|]. by rewrite app_nil_r in Hl1.
    - rewrite (proj2 (Z.eqb_neq _ 0) Hne). cbn [negb].
      destruct (proc_freepagetable_ok s2 (p_pagetable pr) t l1 um own (p_sz pr) (p_trapframe pr)) as (s3 & l3 & R3 & Hp3 & K3 & Hl3); try done.
      { apply (as_ok_moved s1); try done. apply Hok. }
      exists s3, l3. split; [done|]. split; [done|]. split; [done|]. by rewrite Hl3. }
  assert (E2 : k_procs s2 !! p = Some (set_p_trapframe 0 pr)) by (apply lookup_setp; by rewrite E1).
  pose proof (mem_only_procs _ _ (ke_only _ _ _ K3)) as E3. pose proof (mem_only_held _ _ (ke_only _ _ _ K3)) as H3.
  assert (E4 : k_procs s3 !! p = Some (set_p_trapframe 0 pr)) by (by rewrite E3).
  assert (Hlt3 : (p < length (k_procs s3))%nat) by (by eapply lookup_lt_Some).
  exists (setp p (freed pr) s3), l3. split.
  { unfold freeproc. kstep. kstep_by R1. kstep_by mod_proc_run; [|rewrite E1; exact Hp]. fold s2. kstep_by (get_proc_ok _ _ _ E2).
    change (p_pagetable (set_p_trapframe 0 pr)) with (p_pagetable pr). change (p_sz (set_p_trapframe 0 pr)) with (p_sz pr).
    kstep_by R3. kstep_by mod_proc_run; [|exact E4]. do 7 pset Hlt3. rewrite (mod_proc_run _ _ _ _ (lookup_setp _ _ _ Hlt3)), setp_setp. by destruct pr. }
  split; [apply (pool_same s3); try done; apply Hp3|]. split; [done|].
  split. { unfold setp. cbn [k_procs set_k_procs]. rewrite E3. unfold s2, setp. cbn [k_procs set_k_procs]. by rewrite E1, list_insert_insert_eq. }
  split; [|split; [|split]].
  - etransitivity; [apply mem_proc_only, (ke_only _ _ _ K1)|]. etransitivity; [apply (setp_only p (set_p_trapframe 0 pr))|]. fold s2.
    etransitivity; [apply mem_proc_only, (ke_only _ _ _ K3)|]. apply setp_only.
  - eapply kept_trans; [apply keeps_kept, K1|]. apply (keeps_kept _ _ _ K3).
  - by rewrite <- H1.
  - change (k_nextpid s3 = k_nextpid s). rewrite (ke_only _ _ _ K3). cbn. by rewrite (ke_only _ _ _ K1).
Qed.

(** ** allocproc *)

Definition is_unused (o : option proc) : Prop := exists q, o = Some q /\ p_state q = UNUSED.

(** A slot that is not in use holds nothing. *)
Definition unused_ok (q : proc) : Prop := p_state q = UNUSED -> freed q = q /\ p_ofile q = replicate NOFILE None.

Lemma allocproc_scan_run n : forall i s, (i + n = NPROC)%nat -> length (k_procs s) = NPROC -> (forall j, L_proc j ∉ k_held s) ->
  exists r, loop (S n) allocproc_scan i s = Ret r (match r with Some p => set_k_held (L_proc p :: k_held s) s | None => s end) /\
    match r with
    | Some p => is_unused (k_procs s !! p)
    | None => forall j, (i <= j)%nat -> ~ is_unused (k_procs s !! j)
    end.
Proof.
  induction n as [|n IH]; intros i s Hi Hlen Hfree.
  - exists None. split; [apply loop_break; unfold allocproc_scan; by rewrite (proj2 (Nat.ltb_ge i NPROC)) by lia|].
    intros j Hj (q & Hq & _). apply lookup_lt_Some in Hq. lia.
  - destruct (lookup_lt_is_Some_2 (k_procs s) i) as [q Hq]; [lia|].
    assert (Hstep : forall X (k : proc -> K X), (acquire (L_proc i) ;; (get_proc i ≫= k)) s = k q (set_k_held (L_proc i :: k_held s) s)).
    { intros X k. kstep_by acquire_ok; [|apply Hfree]. by kstep_by (get_proc_ok i q (set_k_held (L_proc i :: k_held s) s) Hq). }
    destruct (decide (p_state q = UNUSED)) as [Hu|Hu].
    + exists (Some i). split; [|by exists q]. apply loop_break. unfold allocproc_scan. rewrite (proj2 (Nat.ltb_lt i NPROC)) by lia. rewrite Hstep. by rewrite decide_True.
    + destruct (IH (S i) s) as (r & R & Hr); [lia|done|done|]. exists r. split.
      * erewrite loop_continue; [exact R|]. unfold allocproc_scan. rewrite (proj2 (Nat.ltb_lt i NPROC)) by lia. rewrite Hstep, decide_False by done.
        kstep_by release_top; [|done|apply Hfree]. rewrite set_held_held, set_held_id. done.
      * destruct r; [done|]. intros j Hj (q' & Hq' & Hs'). destruct (decide (j = i)) as [->|]; [congruence|]. apply (Hr j); [lia|]. by exists q'.
Qed.

(** The slot [allocproc] returns: a number, a trapframe page, a page table, and
    a kernel stack on which the scheduler's switch enters [forkret]. *)
Definition used_proc (q : proc) (pid tf root : Z) : proc :=
  set_p_context (set_c_sp (u64 (p_kstack q + PGSIZE)) (set_c_ra l_forkret context0))
    (set_p_pagetable root (set_p_trapframe tf (set_p_state USED (set_p_pid pid q)))).

(** Slots that are the same, except that [freeproc] leaves the context of a slot it frees. *)
Definition same_slot (a b : proc) : Prop := a = b \/ (p_state a = UNUSED /\ exists c, b = set_p_context c a).

Lemma same_slots_refl (ps : list proc) : Forall2 same_slot ps ps.
Proof. apply Forall2_same_length_lookup. split; [done|]. intros i x y H1 H2. left. congruence. Qed.

Lemma same_slots_insert (ps : list proc) np q c :
  ps !! np = Some q -> p_state q = UNUSED -> Forall2 same_slot ps (<[np := set_p_context c q]> ps).
Proof.
  intros Hq Hu. rewrite <- (list_insert_id ps np q Hq) at 1. apply Forall2_insert; [apply same_slots_refl|]. right. eauto.
Qed.

(** What a failure leaves: table and memory as they were. *)
Definition alloc_failed (s s' : kstate) (own l : list Z) : Prop :=
  Forall2 same_slot (k_procs s) (k_procs s') /\ k_held s' = k_held s /\ exists l', pool s' own l' /\ l' ≡ₚ l.

Definition alloc_done (s s' : kstate) (own l : list Z) (np : nat) : Prop :=
  exists q tf root t l', k_procs s !! np = Some q /\ p_state q = UNUSED /\
    k_procs s' = <[np := used_proc q (k_nextpid s) tf root]> (k_procs s) /\ k_held s' = L_proc np :: k_held s /\
    root <> 0 /\ as_ok s' root (mk_aspace t l' ∅ (tf :: own)) /\ fixed s' t tf /\ tf :: l' ++ tree_pages t ≡ₚ l /\ (length (tree_pages t) <= 5)%nat.

(** The error exits of [allocproc] and [fork]: the slot is given up. *)
Lemma alloc_undone s s1 np q pr c own l l1 pages {X} (v : X) :
  k_procs s !! np = Some q -> p_state q = UNUSED -> freed q = q -> freed pr = set_p_context c (freed q) -> k_procs s1 = <[np := pr]> (k_procs s) ->
  k_held s1 = L_proc np :: k_held s -> L_proc np ∉ k_held s -> proc_only s s1 -> kept s s1 own ->
  pmem s1 own l1 pr pages -> l1 ++ pages ≡ₚ l ->
  exists s', (freeproc np ;; release (L_proc np) ;; mret v) s1 = Ret v s' /\ alloc_failed s s' own l /\ proc_only s s' /\ kept s s' own /\ k_nextpid s' = k_nextpid s1.
Proof.
  intros Hq Hu Hf Hpr Hps Hh Hfr Ho Hk Hm Hl. pose proof (lookup_lt_Some _ _ _ Hq) as Hlt.
  destruct (freeproc_ok s1 np pr own l1 pages) as (s2 & l2 & R & Hp2 & Hl2 & Hps2 & O2 & K2 & Hh2 & Hn2); [rewrite Hps; by apply list_lookup_insert_eq|done|].
  exists (set_k_held (k_held s) s2). split; [kstep_by R; by kstep_by release_top; [|rewrite Hh2; exact Hh|exact Hfr]|].
  split; [split; [|split; [done|]]|split; [|split]].
  - cbn [k_procs set_k_held]. rewrite Hps2, Hps, list_insert_insert_eq, Hpr, Hf. by apply same_slots_insert.
  - exists l2. split; [|by rewrite Hl2]. apply (pool_same s2); try done. pose proof (po_lock _ _ _ Hp2) as Hn. rewrite Hh2, Hh in Hn. cbn. set_solver.
  - etransitivity; [exact Ho|]. etransitivity; [exact O2|]. apply held_only.
  - eapply kept_trans; [exact Hk|]. exact K2.
  - exact Hn2.
Qed.

Lemma allocpid_run s : L_pid ∉ k_held s -> allocpid s = Ret (k_nextpid s) (set_k_nextpid (s32 (k_nextpid s + 1)) s).
Proof.
  intros H. unfold allocpid. kstep_by acquire_ok; [|done]. kstep. kstep. kstep_by release_top; [done|reflexivity|done].
Qed.

Lemma unused_empty q : unused_ok q -> p_state q = UNUSED -> freed q = q /\ p_trapframe q = 0 /\ p_pagetable q = 0 /\ p_sz q = 0.
Proof. intros H Hu. destruct (H Hu) as [E _]. split; [done|]. rewrite <- E. done. Qed.

Lemma held_free s np : (forall j, L_proc j ∉ k_held s) -> L_pid ∉ k_held s -> L_pid ∉ L_proc np :: k_held s.
Proof. intros _ H. apply not_elem_of_cons. split; [discriminate|done]. Qed.

Lemma allocproc_ok s own l :
  length (k_procs s) = NPROC -> (forall j, L_proc j ∉ k_held s) -> L_pid ∉ k_held s -> Forall unused_ok (k_procs s) -> pool s own l ->
  exists r s', allocproc s = Ret r s' /\ proc_only s s' /\ kept s s' own /\
    match r with
    | None => alloc_failed s s' own l /\ ((forall j, ~ is_unused (k_procs s !! j)) \/ (length l <= 6)%nat)
    | Some np => alloc_done s s' own l np
    end.
Proof.
  intros Hlen Hfree Hpid Hun Hpool. unfold allocproc.
  destruct (allocproc_scan_run NPROC O s) as (r & R & Hr); [done..|]. destruct r as [np|].
  2: { exists None, s. split; [by kstep_by R|]. split; [reflexivity|]. split; [apply kept_refl|]. split; [split; [apply same_slots_refl|split; [done|by exists l]]|].
       left. intros j. apply Hr. lia. }
  destruct Hr as (q & Hq & Hu). pose proof (lookup_lt_Some _ _ _ Hq) as Hlt.
  destruct (unused_empty q) as (Hf & Ht0 & Hr0 & _); [by apply (Forall_lookup_1 _ _ _ _ Hun Hq)|done|].
  kstep_by R. kstep_by allocpid_run; [|by apply held_free]. set (pid := k_nextpid (set_k_held (L_proc np :: k_held s) s)).
  set (s1 := set_k_nextpid _ _). assert (Hlt1 : (np < length (k_procs s1))%nat) by done.
  assert (O1 : proc_only s s1) by (by destruct s). assert (Hk1 : L_kmem ∉ k_held s1) by (apply not_elem_of_cons; split; [discriminate|apply Hpool]).
  kstep_by mod_proc_run; [|exact Hq]. pset Hlt1. set (q2 := set_p_state USED (set_p_pid pid q)).
  assert (Hp2 : pool (setp np q2 s1) own l) by (by apply (pool_same s)). destruct l as [|tf l].
  - kstep_by kalloc_none; [|apply Hp2|exact Hk1]. pset Hlt1. change (0 =? 0) with true. cbn iota.
    destruct (alloc_undone s (setp np (set_p_trapframe 0 q2) s1) np q (set_p_trapframe 0 q2) (p_context q) own [] [] [] (None : option nat)) as (s' & R' & Ha & O' & K' & _); try done.
    { by apply pm_none; [| |apply (pool_same s)]. }
    exists None, s'. split; [exact R'|]. split; [done|]. split; [done|]. split; [done|]. right. cbn. lia.
  - destruct (pool_kalloc _ _ _ _ Hp2) as (s3 & R3 & Htf0 & Htf & Hp3 & K3). kstep_by R3.
    pose proof (mem_only_procs _ _ (ke_only _ _ _ K3)) as E3. pose proof (mem_only_held _ _ (ke_only _ _ _ K3)) as H3.
    assert (Hlt3 : (np < length (k_procs s3))%nat) by (rewrite E3, length_setp; done).
    kstep_by mod_proc_run; [|rewrite E3; by apply lookup_setp]. rewrite (proj2 (Z.eqb_neq tf 0) Htf0).
    set (q3 := set_p_trapframe tf q2). set (s4 := setp np q3 s3).
    assert (Hp4 : pool s4 (tf :: own) l) by (apply (pool_same s3); try done; by rewrite H3 || (cbn; rewrite H3)).
    destruct (proc_pagetable_ok s4 np q3 (tf :: own) l) as (root & s5 & R5 & K5 & Hmade); [by apply lookup_setp|done|done|]. kstep_by R5.
    pose proof (mem_only_procs _ _ (ke_only _ _ _ K5)) as E5. pose proof (mem_only_held _ _ (ke_only _ _ _ K5)) as H5.
    assert (Hlt5 : (np < length (k_procs s5))%nat) by (rewrite E5; unfold s4; by rewrite length_setp).
    kstep_by mod_proc_run; [|rewrite E5; by apply lookup_setp]. set (q5 := set_p_pagetable root q3).
    assert (Hps : forall pr, k_procs (setp np pr s5) = <[np := pr]> (k_procs s)).
    { intros pr. unfold setp. cbn [k_procs set_k_procs]. rewrite E5. unfold s4, setp. cbn [k_procs set_k_procs]. rewrite E3. unfold setp. cbn [k_procs set_k_procs].
      by rewrite !list_insert_insert_eq. }
    assert (O5 : forall pr, proc_only s (setp np pr s5)).
    { intros pr. etransitivity; [exact O1|]. etransitivity; [apply setp_only|]. etransitivity; [apply mem_proc_only, (ke_only _ _ _ K3)|].
      etransitivity; [apply setp_only|]. fold s4. etransitivity; [apply mem_proc_only, (ke_only _ _ _ K5)|]. apply setp_only. }
    assert (K : kept s s5 own).
    { eapply kept_trans; [exact (keeps_kept _ _ _ K3)|]. intros p Hp. apply (ke_own _ _ _ K5). by right. }
    assert (Hh : k_held s5 = L_proc np :: k_held s) by (rewrite H5; exact H3).
    destruct Hmade as [(-> & Hn & l5 & Hp5 & Hl5)|(Hr & t & l5 & Hn & Hok & Hfx & Hl5)].
    + change (0 =? 0) with true. cbn iota.
      destruct (alloc_undone s (setp np q5 s5) np q q5 (p_context q) own (tf :: l) l5 [tf] (None : option nat)) as (s' & R' & Ha & O' & K' & _); try done.
      { by apply pm_frame; [done..|apply (pool_same s5); [done..|apply Hp5|done]]. } { rewrite Hl5. solve_Permutation. }
      exists None, s'. split; [exact R'|]. split; [done|]. split; [done|]. split; [done|]. right. cbn. lia.
    + rewrite (proj2 (Z.eqb_neq root 0) Hr). do 3 pset Hlt5. eexists (Some np), _. split; [reflexivity|]. split; [apply O5|]. split; [exact K|].
      exists q, tf, root, t, l5. split; [done|]. split; [done|]. split; [by rewrite Hps|]. split; [exact Hh|]. split; [done|].
      split; [apply (as_ok_moved s5); try done; apply Hok|]. split; [exact Hfx|]. by rewrite Hl5.
Qed.

(** ** The open files *)

Definition setf (f : nat) (fl : file) (s : kstate) : kstate := set_k_files (<[f := fl]> (k_files s)) s.

Lemma filedup_run f fl s :
  L_ftable ∉ k_held s -> k_files s !! f = Some fl -> 1 <= f_ref fl -> filedup f s = Ret f (setf f (set_f_ref (f_ref fl + 1) fl) s).
Proof.
  intros Hh Hf Hr. unfold filedup. kstep_by acquire_ok; [|done]. kstep_by get_file_ok; [|exact Hf]. rewrite (proj2 (Z.ltb_ge _ 1)) by lia.
  unfold mod_file. kstep. kstep_by release_top; [|reflexivity|done]. cbn [k_files set_k_held]. rewrite (alter_lookup_set _ f _ fl Hf). by destruct s.
Qed.

(** How many of a process's descriptors stand for file [f]. *)
Definition fd_count (f : nat) (l : list (option nat)) : Z := Z.of_nat (length (filter (fun o => o = Some f) l)).

Lemma fd_count_cons f o l : fd_count f (o :: l) = (if decide (o = Some f) then 1 else 0) + fd_count f l.
Proof. unfold fd_count. rewrite filter_cons. case_decide; cbn [length]; lia. Qed.

Definition files_open (s : kstate) (l : list (option nat)) : Prop := forall f, Some f ∈ l -> exists fl, k_files s !! f = Some fl /\ 1 <= f_ref fl.

Lemma set_files_setp fs np q q' f fl s :
  set_k_files fs (setp np q (setp np q' (setf f fl s))) = set_k_files fs (setp np q s).
Proof. rewrite setp_setp. by destruct s. Qed.

Lemma set_ofile_id q l : p_ofile q = l -> set_p_ofile l q = q.
Proof. intros <-. by destruct q. Qed.

Lemma fork_fds p np pr n : p <> np -> length (p_ofile pr) = NOFILE -> forall k s q, (k + n = NOFILE)%nat ->
  k_procs s !! p = Some pr -> k_procs s !! np = Some q -> L_ftable ∉ k_held s -> p_ofile q = take k (p_ofile pr) ++ replicate n None ->
  files_open s (p_ofile pr) ->
  exists fs, for_each (seq k n) (fork_fd p np) s = Ret tt (set_k_files fs (setp np (set_p_ofile (p_ofile pr) q) s)) /\
    (forall f fl, k_files s !! f = Some fl -> fs !! f = Some (set_f_ref (f_ref fl + fd_count f (drop k (p_ofile pr))) fl)).
Proof.
  intros Hne Hlen. induction n as [|n IH]; intros k s q Hk Hp Hq Hh Ho Hopen.
  - rewrite take_ge, app_nil_r in Ho by lia. exists (k_files s). cbn [seq for_each]. split.
    + rewrite set_ofile_id by done. unfold setp. rewrite list_insert_id by done. by destruct s.
    + intros f fl Hf. rewrite drop_ge by lia. change (fd_count f []) with 0. rewrite Z.add_0_r, Hf. by destruct fl.
  - destruct (lookup_lt_is_Some_2 (p_ofile pr) k) as [o Hok]; [lia|]. cbn [seq for_each].
    pose proof (lookup_lt_Some _ _ _ Hq) as Hlt. assert (Htk : take (S k) (p_ofile pr) = take k (p_ofile pr) ++ [o]) by (by apply take_S_r).
    assert (Hlk : length (take k (p_ofile pr)) = k) by (rewrite length_take; lia). rewrite (drop_S _ _ _ Hok). destruct o as [f|].
    + destruct (Hopen f) as (fl & Hf & Hr); [by eapply list_elem_of_lookup_2|]. set (q' := set_p_ofile (<[k := Some f]> (p_ofile q)) q).
      destruct (IH (S k) (setp np q' (setf f (set_f_ref (f_ref fl + 1) fl) s)) q') as (fs & R & Hfs).
      { lia. } { by rewrite lookup_setp_ne. } { by apply lookup_setp. } { done. }
      { cbn [p_ofile q' set_p_ofile]. rewrite Ho, Htk, <- app_assoc. cbn [replicate]. by rewrite insert_app_r_alt, Hlk, Nat.sub_diag by lia. }
      { intros g Hg. cbn [k_files setp setf set_k_procs set_k_files]. destruct (Hopen g Hg) as (gl & Hgl & Hgr). destruct (decide (f = g)) as [<-|Hn].
        - exists (set_f_ref (f_ref fl + 1) fl). split; [apply list_lookup_insert_eq; by eapply lookup_lt_Some|cbn; lia].
        - exists gl. by rewrite list_lookup_insert_ne. }
      exists fs. split.
      * assert (R0 : fork_fd p np k s = Ret tt (setp np q' (setf f (set_f_ref (f_ref fl + 1) fl) s))).
        { unfold fork_fd. kstep. rewrite Hok. cbn [default from_option id]. kstep_by filedup_run; [|done..]. by rewrite (mod_proc_run np q). }
        kstep_by R0. rewrite R. by rewrite set_files_setp.
      * intros g gl Hg. cbn [k_files setp setf set_k_procs set_k_files] in Hfs. rewrite fd_count_cons. destruct (decide (f = g)) as [<-|Hn].
        -- rewrite Hg in Hf. injection Hf as ->. rewrite decide_True by done. rewrite (Hfs f _ (list_lookup_insert_eq _ _ _ (lookup_lt_Some _ _ _ Hg))).
           f_equal. unfold set_f_ref. cbn. f_equal. lia.
        -- rewrite decide_False by congruence. rewrite (Hfs g gl) by (by rewrite list_lookup_insert_ne). by rewrite Z.add_0_l.
    + destruct (IH (S k) s q) as (fs & R & Hfs); try done; [lia|by rewrite Htk, <- app_assoc|]. exists fs. split.
      * assert (R0 : fork_fd p np k s = Ret tt s) by (unfold fork_fd; kstep; by rewrite Hok). kstep_by R0. exact R.
      * intros g gl Hg. rewrite fd_count_cons, decide_False by done. rewrite Z.add_0_l. by apply Hfs.
Qed.

(** ** The saved registers *)

Definition copy_frame (m : mem) (to from : Z) : mem :=
  store64 (mwrite m to (mread m from (Z.to_nat sizeof_trapframe))) (to + tf_a0) 0.

Lemma copy_frame_other m to from q : to mod PGSIZE = 0 -> q mod PGSIZE = 0 -> q <> to -> same_page m (copy_frame m to from) q.
Proof.
  intros Ht Hq Hne i Hi. unfold copy_frame, tf_a0. rewrite mget_store by (destruct (pages_apart to q); vlia).
  apply mget_mwrite_out. rewrite length_mread. change (Z.of_nat (Z.to_nat sizeof_trapframe)) with 288. destruct (pages_apart to q); vlia.
Qed.

(** The child's registers are the parent's, but for a0. *)
Lemma copy_frame_bytes m to from i : 0 <= i < sizeof_trapframe ->
  mget (copy_frame m to from) (to + i) = if within i tf_a0 8 then 0 else mget m (from + i).
Proof.
  intros Hi. unfold sizeof_trapframe in Hi. unfold copy_frame, tf_a0. destruct (within_spec i 112 8).
  - apply mget_store_zero. lia.
  - rewrite mget_store by lia. rewrite mget_mwrite, length_mread. change (Z.of_nat (Z.to_nat sizeof_trapframe)) with 288.
    destruct (within_spec (to + i) to 288); [|lia]. rewrite lookup_mread by (change (Z.to_nat sizeof_trapframe) with 288%nat; lia). cbn [default from_option id].
    rewrite u8_mget. f_equal. lia.
Qed.

(** ** fork *)

(** The child's slot, from the one [allocproc] returned. *)
Definition child_of (p : nat) (pr q : proc) : proc :=
  set_p_state RUNNABLE (set_p_parent (Some p) (set_p_name (safestrcpy (p_name q) (p_name pr) 16)
    (set_p_cwd (p_cwd pr) (set_p_ofile (p_ofile pr) (set_p_sz (p_sz pr) q))))).

Definition seti (i : nat) (ip : inode) (s : kstate) : kstate := set_k_inodes (<[i := ip]> (k_inodes s)) s.

Lemma idup_run i ip s : L_itable ∉ k_held s -> k_inodes s !! i = Some ip -> idup i s = Ret i (seti i (set_i_ref (i_ref ip + 1) ip) s).
Proof.
  intros Hh Hi. unfold idup. kstep_by acquire_ok; [|done]. unfold mod_inode. kstep. kstep_by release_top; [|reflexivity|done].
  cbn [k_inodes set_k_held]. rewrite (alter_lookup_set _ i _ ip Hi). by destruct s.
Qed.

Lemma fork_rest_run s p np pr q c ip :
  k_held s = [L_proc np] -> p <> np -> k_procs s !! p = Some pr -> k_procs s !! np = Some q ->
  length (p_ofile pr) = NOFILE -> p_ofile q = replicate NOFILE None -> files_open s (p_ofile pr) ->
  p_cwd pr = Some c -> k_inodes s !! c = Some ip ->
  exists fs, fork_rest p np pr q s = Ret (p_pid q) (set_k_held [] (setp np (child_of p pr q) (seti c (set_i_ref (i_ref ip + 1) ip)
      (set_k_files fs (set_k_mem (copy_frame (k_mem s) (p_trapframe q) (p_trapframe pr)) s))))) /\
    (forall f fl, k_files s !! f = Some fl -> fs !! f = Some (set_f_ref (f_ref fl + fd_count f (p_ofile pr)) fl)).
Proof.
  intros Hh Hne Hp Hq Hlen Ho Hopen Hc Hip. pose proof (lookup_lt_Some _ _ _ Hq) as Hlt. unfold fork_rest.
  kstep_by mod_proc_run; [|exact Hq]. unfold mod_mem, st64, mod_mem. kstep. kstep. rewrite set_mem_mem.
  set (m := copy_frame (k_mem s) (p_trapframe q) (p_trapframe pr)). set (q1 := set_p_sz (p_sz pr) q).
  change (store64 _ _ 0) with m. change (set_k_mem m (setp np q1 s)) with (setp np q1 (set_k_mem m s)).
  destruct (fork_fds p np pr NOFILE Hne Hlen O (setp np q1 (set_k_mem m s)) q1) as (fs & Rf & Hfs); try done.
  { by rewrite lookup_setp_ne. } { by apply lookup_setp. } { cbn. rewrite Hh. by apply not_elem_of_cons; split; [|apply not_elem_of_nil]. }
  exists fs. split; [|exact Hfs]. kstep_by Rf. rewrite setp_setp. set (q2 := set_p_ofile (p_ofile pr) q1). rewrite Hc.
  set (s3 := set_k_files fs (set_k_mem m s)). change (set_k_files fs (setp np q2 (set_k_mem m s))) with (setp np q2 s3). unfold need at 1. kstep.
  kstep_by idup_run; [|cbn; rewrite Hh; by apply not_elem_of_cons; split; [|apply not_elem_of_nil]|exact Hip].
  set (ip' := set_i_ref (i_ref ip + 1) ip). change (seti c ip' (setp np q2 s3)) with (setp np q2 (seti c ip' s3)). set (s4 := seti c ip' s3).
  assert (Hlt4 : (np < length (k_procs s4))%nat) by exact Hlt. do 2 pset Hlt4. kstep_by get_proc_ok; [|by apply lookup_setp].
  kstep_by release_top; [|exact Hh|apply not_elem_of_nil]. kstep_by acquire_ok; [|apply not_elem_of_nil].
  rewrite set_held_held, <- setp_held. pset Hlt4. rewrite setp_held. kstep_by release_top; [|reflexivity|apply not_elem_of_nil].
  kstep_by acquire_ok; [|apply not_elem_of_nil]. rewrite !set_held_held, <- setp_held. pset Hlt4. rewrite setp_held.
  kstep_by release_top; [|reflexivity|apply not_elem_of_nil]. rewrite set_held_held. unfold child_of. by rewrite Hc.
Qed.

(** Filling the child's trapframe leaves its address space alone. *)
Lemma frame_written s root t l um own tf from :
  as_ok s root (mk_aspace t l um (tf :: own)) ->
  let s' := set_k_mem (copy_frame (k_mem s) tf from) s in
  as_ok s' root (mk_aspace t l um (tf :: own)) /\ kept s s' own /\ (forall va, pte_at (k_mem s') t va = pte_at (k_mem s) t va) /\
  (forall va pa f, um !! va = Some (pa, f) -> same_page (k_mem s) (k_mem s') pa).
Proof.
  intros Hok s'. pose proof (as_nodup _ _ _ Hok) as Hnd. unfold a_pages in Hnd. cbn in Hnd. apply NoDup_cons in Hnd as [Hn _].
  assert (Hal : forall q, q ∈ tf :: own ++ l ++ tree_pages t ++ um_pages um -> q mod PGSIZE = 0) by (intros q Hq; by apply (as_aligned _ _ _ q Hok)).
  assert (Hs : forall q, q ∈ own ++ l ++ tree_pages t ++ um_pages um -> same_page (k_mem s) (k_mem s') q).
  { intros q Hq. apply copy_frame_other; [apply Hal; by left|apply Hal; by right|by intros ->]. }
  split; [|split; [|split]].
  - eapply as_write; [done|left; by left|]. intros q Hq Hne. apply copy_frame_other; [apply Hal; by left|done|done].
  - intros q Hq. apply Hs. rewrite elem_of_app. by left.
  - intros va. eapply pte_at_frame; [apply Hok|]. intros q Hq. apply Hs. rewrite !elem_of_app. auto.
  - intros va pa f Hum. apply Hs. rewrite !elem_of_app. right. right. right. apply elem_um_pages. eauto.
Qed.

(** A process that calls [fork]: no lock held, its memory and its files in order. *)
Record forkable (s : kstate) (p : nat) (pr : proc) (tp : ptree) (l : list Z) (ump : umap) (own : list Z) : Prop := {
  fk_cur : k_cur s = Some p;
  fk_proc : k_procs s !! p = Some pr;
  fk_used : p_state pr <> UNUSED;
  fk_held : k_held s = [];
  fk_len : length (k_procs s) = NPROC;
  fk_unused : Forall unused_ok (k_procs s);
  fk_as : as_ok s (p_pagetable pr) (mk_aspace tp l ump own);
  fk_cov : um_cov ump (PGROUNDUP (p_sz pr));
  fk_sz : 0 <= p_sz pr <= TRAPFRAME;
  fk_frame : p_trapframe pr ∈ own;
  fk_ofile : length (p_ofile pr) = NOFILE;
  fk_open : files_open s (p_ofile pr);
  fk_cwd : exists c ip, p_cwd pr = Some c /\ k_inodes s !! c = Some ip
}.

(** The child, in slot [np] that was [q], with trapframe page [tf], page table
    [root] and user pages [um]. *)
Record forked (s s' : kstate) (p : nat) (pr : proc) (tp : ptree) (own l : list Z) (r : Z)
    (np : nat) (q : proc) (tf root : Z) (t : ptree) (l' : list Z) (um : umap) : Prop := {
  fd_slot : k_procs s !! np = Some q /\ p_state q = UNUSED;
  fd_pid : r = k_nextpid s;
  fd_procs : k_procs s' = <[np := child_of p pr (used_proc q r tf root)]> (k_procs s);
  fd_as : as_ok s' root (mk_aspace t l' um (tf :: own));
  fd_fixed : fixed s' t tf;
  fd_cov : um_cov um (PGROUNDUP (p_sz pr));
  fd_image : forall va, 0 <= va < PGROUNDUP (p_sz pr) -> ubyte (k_mem s') t va = ubyte (k_mem s) tp va;
  fd_frame : forall i, 0 <= i < sizeof_trapframe ->
    mget (k_mem s') (tf + i) = if within i tf_a0 8 then 0 else mget (k_mem s) (p_trapframe pr + i);
  fd_files : forall f fl, k_files s !! f = Some fl -> k_files s' !! f = Some (set_f_ref (f_ref fl + fd_count f (p_ofile pr)) fl);
  fd_cwd : forall c ip, p_cwd pr = Some c -> k_inodes s !! c = Some ip -> k_inodes s' = <[c := set_i_ref (i_ref ip + 1) ip]> (k_inodes s);
  fd_pages : tf :: l' ++ tree_pages t ++ um_pages um ≡ₚ l
}.

(** Only files and inodes change besides. *)
Definition fork_only (s s' : kstate) : Prop := exists s1, proc_only s s1 /\ s' = set_k_inodes (k_inodes s') (set_k_files (k_files s') s1).

Lemma fork_success s s1 s2 p pr tp l ump own np q tf root t l1 t2 l2 um2 :
  let all := own ++ tree_pages tp ++ um_pages ump in let q1 := used_proc q (k_nextpid s) tf root in
  forkable s p pr tp l ump own -> proc_only s s1 -> kept s s1 all ->
  k_procs s !! np = Some q -> p_state q = UNUSED -> k_procs s1 = <[np := q1]> (k_procs s) -> k_held s1 = [L_proc np] ->
  as_ok s1 root (mk_aspace t l1 ∅ (tf :: all)) -> fixed s1 t tf -> tf :: l1 ++ tree_pages t ≡ₚ l ->
  as_step root s1 (mk_aspace t l1 ∅ (tf :: all)) s2 (mk_aspace t2 l2 um2 (tf :: all)) -> copy_of (k_mem s1) (k_mem s2) ump um2 (PGROUNDUP (p_sz pr)) ->
  exists s', fork_rest p np pr q1 s2 = Ret (k_nextpid s) s' /\ fork_only s s' /\ k_held s' = [] /\ kept s s' all /\
    forked s s' p pr tp all l (k_nextpid s) np q tf root t2 l2 um2.
Proof.
  intros all q1 [Kcur Kp Kused Kheld Klen Kun Kas Kcov Ksz Kfr Kof Kop (c & ip & Kc & Kip)] O1 K1 Hq Hu Hps Hh Hok1 Hfx Hl1 Hst [Hcov Hcp].
  pose proof (st_ok _ _ _ _ _ Hst) as Hok2. pose proof (st_only _ _ _ _ _ Hst) as M2. pose proof (mem_only_procs _ _ M2) as E2.
  assert (O2 : proc_only s s2) by (etransitivity; [exact O1|by apply mem_proc_only]).
  assert (Ef : k_files s2 = k_files s /\ k_inodes s2 = k_inodes s) by (by rewrite O2). destruct Ef as [Ef Ei].
  assert (Hne : p <> np) by (intros <-; congruence). pose proof (lookup_lt_Some _ _ _ Hq) as Hlt.
  assert (K2 : kept s s2 all) by (eapply kept_trans; [exact K1|]; intros x Hx; apply (as_step_own _ _ _ _ _ x Hst Hok1); by right).
  destruct (fork_rest_run s2 p np pr q1 c ip) as (fs & R & Hfs); try done.
  { by rewrite (mem_only_held _ _ M2). } { by rewrite E2, Hps, list_lookup_insert_ne. } { rewrite E2, Hps. by apply list_lookup_insert_eq. }
  { by apply (Forall_lookup_1 _ _ _ _ Kun Hq). } { unfold files_open. by rewrite Ef. } { by rewrite Ei. }
  destruct (frame_written s2 root t2 l2 um2 all tf (p_trapframe pr) Hok2) as (W1 & W2 & W3 & W4).
  change (p_trapframe q1) with tf in R. set (m := copy_frame (k_mem s2) tf (p_trapframe pr)) in *.
  set (s' := set_k_held [] _) in R. exists s'. split; [exact R|]. split; [|split; [done|split; [by eapply kept_trans|]]].
  { exists (set_k_held [] (setp np (child_of p pr q1) (set_k_mem m s2))). split; [|done]. etransitivity; [exact O2|].
    etransitivity; [apply mem_proc_only, (mem_only_mem m)|]. etransitivity; [apply setp_only|]. apply held_only. }
  assert (Hok' : as_ok s' root (mk_aspace t2 l2 um2 (tf :: all))) by (apply (as_ok_moved (set_k_mem m s2)); try done; apply not_elem_of_nil).
  split; try done.
  - change (k_procs s') with (<[np := child_of p pr q1]> (k_procs s2)). by rewrite E2, Hps, list_insert_insert_eq.
  - destruct Hfx as [F1 F2]. split; change (k_mem s') with (k_mem (set_k_mem m s2)); rewrite W3, (st_high _ _ _ _ _ Hst) by (done || vlia); done.
  - apply (copy_image _ _ (p_pagetable pr) root tp ump t2 um2); try done; try lia; [apply (as_pview _ _ _ Kas)|apply (as_pview _ _ _ Hok')|].
    split; [done|]. intros va pa f Hum Hva. destruct (Hcp va pa f Hum Hva) as (pa' & Hum' & Hcpd). exists pa'. split; [done|].
    eapply copied_same; [eapply copied_from; [|exact Hcpd]|by eapply W4]. apply K1. unfold all. rewrite !elem_of_app. right. right. apply elem_um_pages. eauto.
  - intros i Hi. change (k_mem s') with (copy_frame (k_mem s2) tf (p_trapframe pr)). rewrite copy_frame_bytes by done. destruct (within i tf_a0 8); [done|].
    apply K2; [unfold all; rewrite elem_of_app; by left|unfold sizeof_trapframe in Hi; vlia].
  - rewrite Ef in Hfs. exact Hfs.
  - intros c' ip0 Hc' Hip'. rewrite Kc in Hc'. injection Hc' as <-. rewrite Kip in Hip'. injection Hip' as <-. change (k_inodes s') with (<[c := set_i_ref (i_ref ip + 1) ip]> (k_inodes s2)). by rewrite Ei.
  - rewrite <- Hl1. pose proof (st_pages _ _ _ _ _ Hst) as Hpg. unfold a_pages in Hpg. cbn [a_own a_free a_tree a_um] in Hpg.
    rewrite um_pages_empty, app_nil_r in Hpg. apply Permutation_app_inv_l in Hpg. by constructor.
Qed.

(** No child: nothing of the parent, the slots in use, the files or the inodes changed,
    every page is free again, and slots or memory had run out. *)
Record fork_failed (s s' : kstate) (pr : proc) (own l : list Z) (r : Z) : Prop := {
  ff_result : r = -1;
  ff_same : alloc_failed s s' own l;
  ff_only : proc_only s s';
  ff_why : (forall j, ~ is_unused (k_procs s !! j)) \/ Z.of_nat (length l) <= 6 + 3 * (PGROUNDUP (p_sz pr) / PGSIZE)
}.

Lemma fork_nomem s s1 s2 p pr tp l ump own np q tf root t l1 t2 l2 :
  let all := own ++ tree_pages tp ++ um_pages ump in let q1 := used_proc q (k_nextpid s) tf root in
  forkable s p pr tp l ump own -> proc_only s s1 -> kept s s1 all ->
  k_procs s !! np = Some q -> p_state q = UNUSED -> k_procs s1 = <[np := q1]> (k_procs s) -> k_held s1 = [L_proc np] -> root <> 0 ->
  as_ok s1 root (mk_aspace t l1 ∅ (tf :: all)) -> fixed s1 t tf -> tf :: l1 ++ tree_pages t ≡ₚ l -> (length (tree_pages t) <= 5)%nat ->
  as_step root s1 (mk_aspace t l1 ∅ (tf :: all)) s2 (mk_aspace t2 l2 ∅ (tf :: all)) ->
  Z.of_nat (length l1) <= 3 * (PGROUNDUP (p_sz pr) / PGSIZE) ->
  exists s', (freeproc np ;; release (L_proc np) ;; mret (-1)) s2 = Ret (-1) s' /\ kept s s' all /\ fork_failed s s' pr all l (-1).
Proof.
  intros all q1 [Kcur Kp Kused Kheld Klen Kun Kas Kcov Ksz _ _ _ _] O1 K1 Hq Hu Hps Hh Hroot Hok1 Hfx Hl1 Ht5 Hst Hlen.
  pose proof (st_only _ _ _ _ _ Hst) as M2. pose proof (Forall_lookup_1 _ _ _ _ Kun Hq) as Huq.
  destruct (unused_empty q Huq Hu) as (Hf & _ & _ & Hsz). pose proof (st_pages _ _ _ _ _ Hst) as Hpg. unfold a_pages in Hpg. cbn [a_own a_free a_tree a_um] in Hpg.
  assert (P2 : k_procs s2 = <[np := q1]> (k_procs s)) by (by rewrite (mem_only_procs _ _ M2)).
  assert (H2 : k_held s2 = L_proc np :: k_held s) by (by rewrite (mem_only_held _ _ M2), Kheld).
  assert (N2 : L_proc np ∉ k_held s) by (rewrite Kheld; apply not_elem_of_nil).
  assert (O2 : proc_only s s2) by (etransitivity; [exact O1|by apply mem_proc_only]).
  assert (K2 : kept s s2 all) by (eapply kept_trans; [exact K1|]; intros x Hx; apply (as_step_own _ _ _ _ _ x Hst Hok1); by right).
  assert (PM : pmem s2 all l2 q1 (tf :: tree_pages t2 ++ um_pages ∅)).
  { apply (pm_full _ _ _ q1 t2 ∅); try done; [|apply Hst| | |].
    - pose proof (as_pages _ _ _ Hok1) as Hp. unfold a_pages in Hp. cbn in Hp. apply Forall_cons in Hp as [Hp _]. pose proof (page_ok_pos tf Hp). cbn. vlia.
    - destruct Hfx as [F1 F2]. split; rewrite (st_high _ _ _ _ _ Hst) by (done || vlia); done.
    - change (p_sz q1) with (p_sz q). rewrite Hsz. by apply cov_none.
    - change (p_sz q1) with (p_sz q). rewrite Hsz. vlia. }
  assert (Hl : l2 ++ tf :: tree_pages t2 ++ um_pages ∅ ≡ₚ l).
  { apply Permutation_app_inv_l in Hpg. rewrite um_pages_empty, !app_nil_r in *. rewrite <- Hl1, <- Hpg. solve_Permutation. }
  destruct (alloc_undone s s2 np q q1 (p_context q1) all l l2 _ (-1) Hq Hu Hf eq_refl P2 H2 N2 O2 K2 PM Hl) as (s' & R' & Ha & O' & K' & _).
  exists s'. split; [exact R'|]. split; [done|]. split; try done. right.
  apply Permutation_length in Hl1. cbn [length] in Hl1. rewrite length_app in Hl1. lia.
Qed.

(** C4: [fork]: either a child is made in an unused slot, with the next process id, which is the result; it is RUNNABLE,
    has the parent's open files (one more reference each per descriptor), current directory and name, in pages of its
    own the same bytes at every user address, and the parent's saved registers with a0 = 0; or -1 is returned, which
    happens only when no slot is free or memory is short, and then table, files and inodes are as before and every
    page taken on the way is free again.  No byte of any page in use changes in either case. *)
Theorem fork_spec s p pr tp l ump own :
  forkable s p pr tp l ump own ->
  exists r s', fork s = Ret r s' /\ fork_only s s' /\ k_held s' = [] /\ kept s s' (own ++ tree_pages tp ++ um_pages ump) /\
    ((exists np q tf root t l' um, forked s s' p pr tp (own ++ tree_pages tp ++ um_pages ump) l r np q tf root t l' um) \/
     fork_failed s s' pr (own ++ tree_pages tp ++ um_pages ump) l r).
Proof.
  intros Hfk. pose proof Hfk as [Kcur Kp Kused Kheld Klen Kun Kas Kcov Ksz _ _ _ _]. set (all := own ++ tree_pages tp ++ um_pages ump).
  assert (Hn : 0 <= PGROUNDUP (p_sz pr) / PGSIZE) by (destruct (PGROUNDUP_bounds (p_sz pr)); [vlia|]; vdivlia).
  assert (Hnone : forall s', proc_only s s' -> fork_only s s') by (intros s' O; exists s'; split; [done|]; by destruct s').
  destruct (allocproc_ok s all l) as (r & s1 & R1 & O1 & K1 & Hr); try done; [rewrite Kheld; intros; apply not_elem_of_nil|rewrite Kheld; apply not_elem_of_nil|apply (as_pool _ _ _ _ _ _ Kas)|].
  unfold fork. kstep_by (myproc_ok p s Kcur). kstep_by R1. destruct r as [np|].
  2: { destruct Hr as [Hf Hwhy]. exists (-1), s1. split; [done|]. split; [by apply Hnone|]. split; [destruct Hf as (_ & -> & _); done|]. split; [done|].
       right. split; try done. destruct Hwhy; [by left|right; lia]. }
  destruct Hr as (q & tf & root & t & l1 & Hq & Hu & Hps & Hh & Hroot & Hok1 & Hfx & Hl1 & Ht5). pose proof (lookup_lt_Some _ _ _ Hq) as Hlt. rewrite Kheld in Hh.
  set (q1 := used_proc q (k_nextpid s) tf root) in *. assert (Hne : p <> np) by (intros <-; congruence).
  kstep_by (get_proc_ok p pr); [|by rewrite Hps, list_lookup_insert_ne]. kstep_by (get_proc_ok np q1); [|rewrite Hps; by apply list_lookup_insert_eq].
  change (p_pagetable q1) with root.
  assert (Hpv : pview (k_mem s1) (p_pagetable pr) tp ump).
  { eapply pview_frame; [|apply (as_pview _ _ _ Kas)]. intros x Hx. apply K1. unfold all. rewrite !elem_of_app. auto. }
  destruct (uvmcopy_ok (p_pagetable pr) root tp ump (tf :: all) (p_sz pr) s1 t l1) as (c & s2 & t2 & l2 & um2 & R2 & Hst & Hc); try done.
  { intros x Hx. right. unfold all. rewrite elem_of_app. by right. } kstep_by R2. destruct Hc as [[-> Hcp]|(-> & -> & Hlen)]; cbn [Z.ltb Z.compare].
  - destruct (fork_success s s1 s2 p pr tp l ump own np q tf root t l1 t2 l2 um2) as (s' & R' & Hd); try done.
    exists (k_nextpid s), s'. split; [exact R'|]. destruct Hd as (Ho & Hhe & Hk & Hd). split; [done|]. split; [done|]. split; [done|]. left. by exists np, q, tf, root, t2, l2, um2.
  - destruct (fork_nomem s s1 s2 p pr tp l ump own np q tf root t l1 t2 l2) as (s' & R' & K' & Hf); try done.
    exists (-1), s'. split; [exact R'|]. pose proof (ff_same _ _ _ _ _ _ Hf) as (_ & Hh' & _).
    split; [apply Hnone, (ff_only _ _ _ _ _ _ Hf)|]. split; [by rewrite Hh'|]. split; [done|]. by right.
Qed.
End Fork.

(** ** A fork that succeeds *)

(** Fifteen free pages, a page table in page 0 and a trapframe in page 16. *)
Definition fork_pages : list Z := pg <$> seqZ 1 15.
Definition fork_free : kstate := out_state (for_each fork_pages kfree boot_state) boot_state.

Lemma free_pages {L : Layout} `{!LayoutOk L} own ps : forall s l, pool s (ps ++ own) l ->
  exists s' l', for_each ps kfree s = Ret tt s' /\ pool s' own l' /\ keeps s s' own /\ l' ≡ₚ ps ++ l.
Proof.
  induction ps as [|p ps IH]; intros s l Hp.
  - exists s, l. split; [done|]. split; [done|]. split; [apply keeps_refl|done].
  - destruct (pool_kfree s (ps ++ own) p l Hp) as (s1 & R1 & Hp1 & K1). destruct (IH s1 (p :: l) Hp1) as (s2 & l2 & R2 & Hp2 & K2 & Hl2).
    exists s2, l2. split; [cbn [for_each]; kstep_by R1; exact R2|]. split; [done|]. split; [|rewrite Hl2; solve_Permutation].
    eapply keeps_trans; [|exact K2]. eapply keeps_sub; [|exact K1]. intros x Hx. rewrite elem_of_app. by right.
Qed.

Lemma boot_pool : pool boot_state (fork_pages ++ [pg 0; pg 16]) [].
Proof.
  split; [split; [done|constructor|constructor]| | |apply not_elem_of_nil]; rewrite app_nil_r.
  - repeat constructor; by vm_compute.
  - apply (bool_decide_unpack _). by vm_compute.
Qed.

Lemma fork_free_ok : exists l, pool fork_free [pg 0; pg 16] l /\ keeps boot_state fork_free [pg 0; pg 16] /\ l ≡ₚ fork_pages.
Proof.
  destruct (free_pages [pg 0; pg 16] fork_pages boot_state [] boot_pool) as (s' & l' & R & Hp & K & Hl). rewrite app_nil_r in Hl.
  unfold fork_free. rewrite R. by exists l'.
Qed.

(** A page of user memory. *)
Definition fork_mem : kstate := out_state (uvmalloc (pg 0) 0 4096 PTE_W fork_free) fork_free.

Lemma grow_one s l :
  pool s [pg 0; pg 16] l -> zero_page (k_mem s) (pg 0) -> length l = 15%nat ->
  exists t l' um, as_ok (out_state (uvmalloc (pg 0) 0 4096 PTE_W s) s) (pg 0) (mk_aspace t l' um [pg 16]) /\ um_cov um 4096 /\ 12 <= Z.of_nat (length l') /\
    no_high_user (k_mem (out_state (uvmalloc (pg 0) 0 4096 PTE_W s) s)) t /\ mem_only s (out_state (uvmalloc (pg 0) 0 4096 PTE_W s) s).
Proof.
  intros Hp Hz Hl. destruct (uvmalloc_ok (pg 0) {[ [] := pg 0 ]} [pg 16] s l ∅ 0 4096 PTE_W) as (r & s' & t' & l' & um' & R & Hst & Hr).
  { by apply fresh_as. } { apply cov_empty. } { lia. } { vlia. } { by split. }
  rewrite Hl in Hr. change (3 * ((PGROUNDUP 4096 - PGROUNDUP 0) / PGSIZE)) with 3 in Hr.
  destruct Hr as [(-> & _ & Hc & Hlen & _)|(_ & _ & ?)]; [|lia]. exists t', l', um'. rewrite R. cbn [out_state].
  split; [apply Hst|]. split; [exact Hc|]. split; [lia|]. split; [|apply Hst].
  intros va Hva Ha. rewrite (st_high _ _ _ _ _ Hst) by done. unfold pte_at, pt_slot. cbn [a_tree]. by rewrite lookup_singleton_ne.
Qed.

Lemma fork_mem_ok : exists t l um, as_ok fork_mem (pg 0) (mk_aspace t l um [pg 16]) /\ um_cov um 4096 /\ 12 <= Z.of_nat (length l) /\
  no_high_user (k_mem fork_mem) t /\ mem_only boot_state fork_mem.
Proof.
  destruct fork_free_ok as (l & Hp & [K0 Kz] & Hl). apply Permutation_length in Hl.
  destruct (grow_one fork_free l Hp) as (t & l' & um & Hok & Hc & Hlen & Hhi & O); [|exact Hl|].
  - apply (zero_page_same (k_mem boot_state)); [apply Kz; by left|]. intros i Hi. reflexivity.
  - exists t, l', um. split; [exact Hok|]. split; [exact Hc|]. split; [exact Hlen|]. split; [exact Hhi|]. transitivity fork_free; [exact K0|exact O].
Qed.

(** The process: one page, descriptors 0 and 1 on the same file, the root directory. *)
Definition fork_parent : proc :=
  set_p_sz 4096 (set_p_pagetable (pg 0) (set_p_trapframe (pg 16) (set_p_cwd (Some 0%nat)
    (set_p_ofile (<[0%nat := Some 3%nat]> (<[1%nat := Some 3%nat]> (replicate NOFILE None))) (set_p_pid 1 (set_p_state RUNNING proc0)))))).
Definition with_parent (s : kstate) : kstate :=
  set_k_cur (Some 0%nat) (set_k_nextpid 2 (setp 0 fork_parent (setf 3 (set_f_ref 2 file0) (seti 0 (set_i_ref 1 inode0) s)))).

Lemma with_parent_ok s t l um :
  as_ok s (pg 0) (mk_aspace t l um [pg 16]) -> um_cov um 4096 -> mem_only boot_state s -> forkable (with_parent s) 0 fork_parent t l um [pg 16].
Proof.
  intros Hok Hc Ho.
  assert (E : k_held s = [] /\ k_procs s = replicate NPROC proc0 /\ k_files s = replicate NFILE file0 /\ k_inodes s = replicate NINODE inode0) by (by rewrite Ho).
  destruct E as (Eh & Ep & Ef & Ei).
  assert (Ep' : k_procs (with_parent s) = <[0%nat := fork_parent]> (replicate NPROC proc0)) by (cbn; by rewrite Ep).
  split; try done.
  - rewrite Ep'. reflexivity.
  - by rewrite Ep', length_insert, length_replicate.
  - rewrite Ep'. apply Forall_insert; [apply Forall_replicate; by split|done].
  - apply (as_ok_moved s); try done. cbn. rewrite Eh. apply not_elem_of_nil.
  - apply elem_of_cons. by left.
  - intros f Hf. assert (f = 3%nat) as ->.
    { change (p_ofile fork_parent) with (Some 3 :: Some 3 :: replicate 14 None)%nat in Hf.
      rewrite !elem_of_cons, elem_of_replicate in Hf. naive_solver. }
    exists (set_f_ref 2 file0). split; [|done]. cbn. rewrite Ef. reflexivity.
  - exists 0%nat, (set_i_ref 1 inode0). split; [done|]. cbn. rewrite Ei. reflexivity.
Qed.

Lemma with_parent_slot s : mem_only boot_state s -> is_unused (k_procs (with_parent s) !! 1%nat).
Proof.
  intros Ho. exists proc0. split; [|done].
  assert (Ep : k_procs (with_parent s) = <[0%nat := fork_parent]> (k_procs s)) by done. rewrite Ep, Ho. reflexivity.
Qed.

Lemma fork_spec_witness : exists s' np q tf root t t' l l' um um',
  fork (with_parent fork_mem) = Ret 2 s' /\
  forked (with_parent fork_mem) s' 0 fork_parent t ([pg 16] ++ tree_pages t ++ um_pages um) l 2 np q tf root t' l' um'.
Proof.
  destruct fork_mem_ok as (t & l & um & Hok & Hc & Hlen & _ & Ho).
  destruct (fork_spec (with_parent fork_mem) 0 fork_parent t l um [pg 16]) as (r & s' & R & _ & _ & _ & Hr).
  - apply with_parent_ok; [exact Hok|exact Hc|exact Ho].
  - destruct Hr as [(np & q & tf & root & t' & l' & um' & Hd)|Hf].
    + pose proof (fd_pid _ _ _ _ _ _ _ _ _ _ _ _ _ _ _ Hd) as Er. change (r = 2) in Er. subst r. exists s', np, q, tf, root, t, t', l, l', um, um'.
      split; [exact R|exact Hd].
    + exfalso. destruct (ff_why _ _ _ _ _ _ Hf) as [Hn|Hn]; [exact (Hn 1%nat (with_parent_slot _ Ho))|].
      change (6 + 3 * (PGROUNDUP (p_sz fork_parent) / PGSIZE)) with 9 in Hn. lia.
Defined.
