(* ===== verification/Wait.v ===== *)
(** * wait: reaping a child

    [wait] of kernel/proc.c: the scan for a zombie child, the copy of its exit
    status to the parent's memory, and the return of all its pages. *)

From stdpp Require Import base list gmap strings.
From Stdlib Require Import ZArith Lia.
From S2P Require Import Prelude Mem KString Riscv State Sched Kalloc Vm PtRep Uvm Uspace Ucopy Pool Ufree CopyUser VmProps Proc ProcMem PipeProps Fs File ProcFs Fork.
Open Scope Z_scope.

Section Wait.
Context {L : Layout} `{!LayoutOk L} {U : Uninit}.

(** ** The scan *)

Definition child_at (p : nat) (ps : list proc) (i : nat) : Prop := exists q, ps !! i = Some q /\ p_parent q = Some p.
Definition zombie_at (p : nat) (ps : list proc) (i : nat) : Prop := exists q, ps !! i = Some q /\ p_parent q = Some p /\ p_state q = ZOMBIE.

Lemma wait_skip p addr i h s q :
  (i < NPROC)%nat -> k_procs s !! i = Some q -> ~ zombie_at p (k_procs s) i -> L_proc i ∉ k_held s ->
  wait_scan p addr (i, h) s = Ret (inl (S i, if decide (p_parent q = Some p) then true else h)) s.
Proof.
  intros Hi Hq Hz Hl. unfold wait_scan. rewrite (proj2 (Nat.ltb_lt i NPROC) Hi). kstep_by (get_proc_ok i q s Hq). case_decide as Hp; [|done].
  kstep_by acquire_ok; [|done]. kstep_by (get_proc_ok i q (set_k_held (L_proc i :: k_held s) s) Hq). rewrite decide_False; [|intros Hs; apply Hz; by exists q].
  kstep_by release_top; [|done|done]. by rewrite set_held_held, set_held_id.
Qed.

Lemma wait_skips p addr k : forall i h s fuel,
  (i + k <= NPROC)%nat -> length (k_procs s) = NPROC -> (forall j, L_proc j ∉ k_held s) -> (forall j, (i <= j < i + k)%nat -> ~ zombie_at p (k_procs s) j) ->
  exists h', loop (k + fuel) (wait_scan p addr) (i, h) s = loop fuel (wait_scan p addr) ((i + k)%nat, h') s /\
    (h' = true <-> h = true \/ exists j, (i <= j < i + k)%nat /\ child_at p (k_procs s) j).
Proof.
  induction k as [|k IH]; intros i h s fuel Hi Hlen Hl Hz.
  - exists h. rewrite Nat.add_0_r. split; [done|]. split; [by left|]. intros [?|(j & Hj & _)]; [done|lia].
  - destruct (lookup_lt_is_Some_2 (k_procs s) i) as [q Hq]; [lia|]. set (h1 := if decide (p_parent q = Some p) then true else h).
    destruct (IH (S i) h1 s fuel) as (h' & R & Hh); [lia|done|done|intros j Hj; apply Hz; lia|]. exists h'. split.
    + cbn [Nat.add]. erewrite loop_continue; [|apply (wait_skip p addr i h s q); [lia|done|apply Hz; lia|apply Hl]]. fold h1. rewrite R. do 2 f_equal. lia.
    + rewrite Hh. unfold h1. split.
      * intros [Ht|(j & Hj & Hc)]; [|right; exists j; split; [lia|done]]. case_decide; [right; exists i; split; [lia|by exists q]|by left].
      * intros [->|(j & Hj & Hc)]; [left; by case_decide|]. destruct (decide (j = i)) as [->|]; [|right; exists j; split; [lia|done]].
        left. destruct Hc as (q' & Hq' & Hp'). rewrite Hq in Hq'. injection Hq' as <-. by rewrite decide_True.
Qed.

Lemma wait_scan_end p addr s h : wait_scan p addr (NPROC, h) s = Ret (inr (inr h)) s.
Proof. done. Qed.

(** ** One child *)

(** What the user sees depends on the table and the user pages only. *)
Lemma ubyte_frame s m' root A va :
  as_ok s root A -> no_high_user (k_mem s) (a_tree A) -> 0 <= va ->
  (forall p, p ∈ tree_pages (a_tree A) ++ um_pages (a_um A) -> same_page (k_mem s) m' p) -> ubyte m' (a_tree A) va = ubyte (k_mem s) (a_tree A) va.
Proof.
  intros Hok Hhi Hva Hs. destruct (PGROUNDDOWN_bounds va) as [Hb Ha].
  assert (Hva0 : 0 <= PGROUNDDOWN va) by (rewrite PGROUNDDOWN_eq in *; vdivlia).
  assert (Hp : pte_at m' (a_tree A) (PGROUNDDOWN va) = pte_at (k_mem s) (a_tree A) (PGROUNDDOWN va)).
  { eapply pte_at_frame; [apply Hok|]. intros p Hp. apply Hs, elem_of_app. by left. }
  unfold ubyte. rewrite (uaddr_ext _ _ _ _ Hp). destruct (Z.eqb_spec (uaddr (k_mem s) (a_tree A) (PGROUNDDOWN va)) 0) as [|Hne]; [done|].
  destruct (as_uaddr _ _ _ _ Hok Hhi Hva0 Ha Hne) as [f Hum]. f_equal. apply Hs; [|lia]. apply elem_of_app. right. apply elem_um_pages. eauto.
Qed.

Lemma pmem_frame s s' own l q pages :
  k_freelist s' = k_freelist s -> L_kmem ∉ k_held s' -> (forall p, p ∈ l ++ pages -> same_page (k_mem s) (k_mem s') p) ->
  pmem s own l q pages -> pmem s' own l q pages.
Proof.
  intros Hf Hl Hs Hm.
  assert (Hpool : forall own', pool s own' l -> pool s' own' l).
  { intros own' [Hk Hpg Hnd _]. split; [|done..]. eapply kmem_ok_frame; [done| |exact Hk]. intros p i Hp Hi. apply Hs; [|vlia]. apply elem_of_app. by left. }
  destruct Hm as [Ht Hp Hpl|Ht Hp Hpl|t um Ht Hp Hok Hfx Hc Hsz]; [apply pm_none; auto|apply pm_frame; auto|].
  assert (Hts : forall x, x ∈ tree_pages t -> same_page (k_mem s) (k_mem s') x) by (intros x Hx; apply Hs; rewrite elem_of_app, elem_of_cons, elem_of_app; auto).
  apply (pm_full s' own l q t um); try done.
  - eapply as_of_pool; [exact Hok| |exact Hts]. apply Hpool. apply (as_pool _ _ _ _ _ _ Hok).
  - destruct Hfx as [F1 F2]. split; rewrite (pte_at_frame (k_mem s) _ (p_pagetable q)) by (done || apply Hok); done.
Qed.

(** A process that waits: no lock held, its memory in order. *)
Record waiter (s : kstate) (p : nat) (pr : proc) (tp : ptree) (l : list Z) (ump : umap) (own : list Z) : Prop := {
  wt_cur : k_cur s = Some p;
  wt_proc : k_procs s !! p = Some pr;
  wt_state : p_state pr <> ZOMBIE;
  wt_held : k_held s = [];
  wt_len : length (k_procs s) = NPROC;
  wt_as : as_ok s (p_pagetable pr) (mk_aspace tp l ump own);
  wt_high : no_high_user (k_mem s) tp
}.

(** The exit status, if asked for. *)
Definition status_bytes (addr : Z) (q : proc) : list Z := if addr =? 0 then [] else le_bytes 4 (p_xstate q).

(** Child [q] of slot [np] is gone: its slot is free, its pages [pages] are, and
    its status is where the parent wants it. *)
Record reaped (s s' : kstate) (pr : proc) (tp : ptree) (l : list Z) (ump : umap) (rest pages : list Z) (addr : Z) (np : nat) (q : proc) : Prop := {
  rp_procs : k_procs s' = <[np := freed q]> (k_procs s);
  rp_only : proc_only s s';
  rp_nextpid : k_nextpid s' = k_nextpid s;
  rp_parent : exists l', as_ok s' (p_pagetable pr) (mk_aspace tp l' ump rest) /\ l' ≡ₚ l ++ pages;
  rp_status : forall va, 0 <= va -> ubyte (k_mem s') tp va =
    if within va addr (Z.of_nat (length (status_bytes addr q))) then status_bytes addr q !! Z.to_nat (va - addr) else ubyte (k_mem s) tp va;
  rp_rest : kept s s' rest
}.

(** The status cannot be stored: the child stays. *)
Record refused (s s' : kstate) (pr : proc) (tp : ptree) (l : list Z) (ump : umap) (own : list Z) (addr : Z) : Prop := {
  rf_addr : addr <> 0;
  rf_only : mem_only s s';
  rf_parent : as_ok s' (p_pagetable pr) (mk_aspace tp l ump own);
  rf_why : exists k, 0 <= k < 4 /\ uwritable (k_mem s) tp (addr + k) = false;
  rf_rest : kept s s' (own ++ tree_pages tp ++ l)
}.

Lemma store_status s root A addr q :
  as_ok s root A -> no_high_user (k_mem s) (a_tree A) -> 0 <= addr < 2 ^ 64 ->
  exists r s' bs, (if addr =? 0 then mret 0 else copyout root addr (le_bytes 4 (p_xstate q))) s = Ret r s' /\ as_ok s' root A /\ wrote s A s' addr bs /\
    ((r = 0 /\ bs = status_bytes addr q) \/ (r = -1 /\ addr <> 0 /\ exists k, 0 <= k < 4 /\ uwritable (k_mem s) (a_tree A) (addr + k) = false)).
Proof.
  intros Hok Hhi Ha. unfold status_bytes. destruct (Z.eqb_spec addr 0) as [->|Hne].
  - exists 0, s, []. split; [done|]. split; [done|]. split; [apply wrote_nil|]. by left.
  - destruct (copyout_loop root A 4 5 addr (le_bytes 4 (p_xstate q)) s) as (r & s' & k & R & Hok' & Hw & Hr); try done; try lia; [apply le_bytes_bytes|].
    exists r, s', (take k (le_bytes 4 (p_xstate q))). split; [unfold copyout; by rewrite length_le_bytes|]. split; [done|]. split; [done|].
    rewrite length_le_bytes in Hr. destruct Hr as [[-> ->]|(-> & Hk & Hu)]; [left|right].
    + split; [done|]. apply take_ge. by rewrite length_le_bytes.
    + split; [done|]. split; [done|]. exists (Z.of_nat k). split; [lia|done].
Qed.

Lemma free_head s s' l : kmem_ok s' l -> kmem_ok s l -> k_freelist s' = k_freelist s.
Proof. intros [H' _ _] [H _ _]. destruct l; cbn in *; [congruence|]. destruct H' as [-> _], H as [-> _]. done. Qed.

(** The scan's turn at a zombie child. *)
Lemma wait_reap s p pr tp l ump own addr np q h rest pages :
  waiter s p pr tp l ump own -> 0 <= addr < 2 ^ 64 -> k_procs s !! np = Some q -> p_parent q = Some p -> p_state q = ZOMBIE ->
  own ≡ₚ rest ++ pages -> pmem s (rest ++ tree_pages tp ++ um_pages ump) l q pages ->
  exists r s', wait_scan p addr (np, h) (set_k_held [L_wait] s) = Ret (inr (inl r)) s' /\ k_held s' = [] /\
    ((r = p_pid q /\ reaped s s' pr tp l ump rest pages addr np q) \/ (r = -1 /\ refused s s' pr tp l ump own addr)).
Proof.
  intros [Kcur Kp Kst Kheld Klen Kas Khi] Ha Hq Hpar Hz Hown Hm. pose proof (lookup_lt_Some _ _ _ Hq) as Hlt.
  set (s2 := set_k_held [L_proc np; L_wait] s).
  assert (Hkm : L_kmem ∉ [L_proc np; L_wait]) by (by rewrite !not_elem_of_cons; split_and!; [..|apply not_elem_of_nil]).
  assert (Hok2 : as_ok s2 (p_pagetable pr) (mk_aspace tp l ump own)) by (by apply (as_ok_moved s)).
  destruct (store_status s2 (p_pagetable pr) _ addr q Hok2 Khi Ha) as (r & s3 & bs & R3 & Hok3 & Hw & Hr). cbn [a_tree] in Hr.
  pose proof (mem_only_held _ _ (wr_only _ _ _ _ _ Hw)) as H3. pose proof (mem_only_procs _ _ (wr_only _ _ _ _ _ Hw)) as P3.
  assert (Hpg : forall x, x ∈ own ++ l ++ tree_pages tp -> same_page (k_mem s) (k_mem s3) x).
  { intros x Hx. pose proof (as_nodup _ _ _ Kas) as Hnd. unfold a_pages in Hnd. cbn in Hnd. rewrite !app_assoc in Hnd. apply NoDup_app in Hnd as (_ & Hd & _).
    rewrite !app_assoc in Hx. apply (wr_frame _ _ _ _ _ Hw); [|by apply Hd]. apply (as_aligned _ _ _ x Kas). unfold a_pages. cbn. rewrite !app_assoc. apply elem_of_app. by left. }
  unfold wait_scan. rewrite (proj2 (Nat.ltb_lt np NPROC)) by lia. kstep_by (get_proc_ok np q (set_k_held [L_wait] s) Hq). rewrite decide_True by done.
  assert (Hnw : L_proc np ∉ [L_wait]) by (by rewrite not_elem_of_cons; split; [|apply not_elem_of_nil]).
  kstep_by acquire_ok; [|exact Hnw]. kstep_by (get_proc_ok np q s2 Hq). rewrite decide_True by done.
  kstep_by (get_proc_ok p pr s2 Kp). kstep_by R3. destruct Hr as [[-> ->]|(-> & Hne & Hwhy)]; cbn [Z.ltb Z.compare].
  2: { eexists (-1), _. split; [kstep_by release_top; [|by rewrite H3|exact Hnw];
         kstep_by release_top; [|reflexivity|apply not_elem_of_nil]; rewrite set_held_held; reflexivity|]. split; [done|]. right. split; [done|]. split.
       - done.
       - unfold mem_only. rewrite (wr_only _ _ _ _ _ Hw). destruct s; cbn in Kheld; by subst.
       - apply (as_ok_moved s3); try done. apply not_elem_of_nil.
       - done.
       - intros x Hx. apply Hpg. rewrite !elem_of_app in *. tauto. }
  assert (Hm3 : pmem s3 (rest ++ tree_pages tp ++ um_pages ump) l q pages).
  { apply (pmem_frame s); [|by rewrite H3| |done].
    - apply (free_head _ _ _ (vm_kmem _ _ _ _ (as_vm _ _ _ Hok3)) (vm_kmem _ _ _ _ (as_vm _ _ _ Kas))).
    - intros x Hx. apply Hpg. rewrite Hown, !elem_of_app in *. tauto. }
  destruct (freeproc_ok s3 np q (rest ++ tree_pages tp ++ um_pages ump) l pages) as (s4 & l4 & R4 & Hp4 & Hl4 & P4 & O4 & K4 & H4 & N4); [by rewrite P3|exact Hm3|].
  set (s' := set_k_held [] s4). exists (p_pid q), s'. split; [|split; [done|left; split; [done|]]].
  { kstep_by R4. kstep_by release_top; [|by rewrite H4, H3|exact Hnw]. kstep_by release_top; [|reflexivity|apply not_elem_of_nil]. by rewrite set_held_held. }
  assert (Kt : forall x, x ∈ tree_pages tp ++ um_pages ump -> same_page (k_mem s3) (k_mem s') x) by (intros x Hx; apply K4, elem_of_app; by right).
  split.
  - change (k_procs s4 = <[np := freed q]> (k_procs s)). by rewrite P4, P3.
  - etransitivity; [apply (held_only [L_proc np; L_wait])|]. etransitivity; [apply mem_proc_only, (wr_only _ _ _ _ _ Hw)|]. etransitivity; [exact O4|apply held_only].
  - change (k_nextpid s4 = k_nextpid s). rewrite N4. by rewrite (wr_only _ _ _ _ _ Hw).
  - exists l4. split; [|done]. eapply as_of_pool; [exact Hok3| |]; [apply (pool_same s4); try done; apply not_elem_of_nil|].
    intros x Hx. apply Kt, elem_of_app. by left.
  - intros va Hva. rewrite (ubyte_frame s3 _ (p_pagetable pr) (mk_aspace tp l ump own)); [|done| |done|done]; [|eapply no_high_ext; [apply (wr_pte _ _ _ _ _ Hw)|exact Khi]].
    apply (wr_bytes _ _ _ _ _ Hw). done.
  - eapply kept_trans; [|intros x Hx; apply K4, elem_of_app; by left]. intros x Hx. apply Hpg. rewrite Hown, !elem_of_app. auto.
Qed.

(** ** wait *)

Lemma zombie_dec p ps i : zombie_at p ps i \/ ~ zombie_at p ps i.
Proof.
  unfold zombie_at. destruct (ps !! i) as [q|]; [|right; naive_solver].
  destruct (decide (p_parent q = Some p /\ p_state q = ZOMBIE)); [left|right]; naive_solver.
Qed.

Lemma first_zombie p ps n :
  (forall j, (j < n)%nat -> ~ zombie_at p ps j) \/ exists np, zombie_at p ps np /\ forall j, (j < np)%nat -> ~ zombie_at p ps j.
Proof.
  induction n as [|n [IH|IH]]; [left; intros j Hj; lia| |by right]. destruct (zombie_dec p ps n) as [Hz|Hz]; [right; by exists n|left].
  intros j Hj. destruct (decide (j = n)) as [->|]; [done|]. apply IH. lia.
Qed.

(** The state in which [wait] sleeps: on the parent's own slot, with the lock released; and the process back from it. *)
Definition wait_asleep (s : kstate) (p : nat) : kstate := fall_asleep (Ch_proc p) p s.
Definition wait_back (p : nat) (s : kstate) : kstate := set_k_held [] (set_k_procs (alter (set_p_chan None) p (k_procs s)) s).

(** The memory of the exited children is theirs. *)
Definition zombies_mem (s : kstate) (p : nat) (tp : ptree) (l : list Z) (ump : umap) (own : list Z) : Prop :=
  forall i q, k_procs s !! i = Some q -> p_parent q = Some p -> p_state q = ZOMBIE ->
    exists rest pages, own ≡ₚ rest ++ pages /\ pmem s (rest ++ tree_pages tp ++ um_pages ump) l q pages.

(** The runs of [wait] by [p] from the top of its loop in the state [s], with [n] turns to go: a child is reaped, there
    is none to wait for, or the process sleeps; then, resumed in whatever state, it is at the top of the loop again. *)
Inductive wait_runs (p : nat) (addr : Z) : nat -> kstate -> proc -> ptree -> list Z -> umap -> list Z -> out kstate Z -> Prop :=
| wait_child n s pr tp l ump own np q rest pages r s' :
    k_procs s !! np = Some q -> p_parent q = Some p -> p_state q = ZOMBIE -> (forall j, (j < np)%nat -> ~ zombie_at p (k_procs s) j) ->
    own ≡ₚ rest ++ pages -> k_held s' = [] ->
    (r = p_pid q /\ reaped s s' pr tp l ump rest pages addr np q) \/ (r = -1 /\ refused s s' pr tp l ump own addr) ->
    wait_runs p addr (S n) s pr tp l ump own (Ret r s')
| wait_none n s pr tp l ump own :
    (forall j, ~ zombie_at p (k_procs s) j) -> (forall j, ~ child_at p (k_procs s) j) \/ p_killed pr <> 0 ->
    wait_runs p addr (S n) s pr tp l ump own (Ret (-1) s)
| wait_sleeps n s pr tp l ump own k :
    (forall j, ~ zombie_at p (k_procs s) j) -> (exists j, child_at p (k_procs s) j) -> p_killed pr = 0 ->
    (forall s2 pr2 tp2 l2 ump2 own2, k_held s2 = [L_proc p] -> waiter (wait_back p s2) p pr2 tp2 l2 ump2 own2 ->
       zombies_mem (wait_back p s2) p tp2 l2 ump2 own2 -> wait_runs p addr n (wait_back p s2) pr2 tp2 l2 ump2 own2 (k s2)) ->
    wait_runs p addr (S n) s pr tp l ump own (Sleep (wait_asleep s p) k)
| wait_spent s pr tp l ump own : wait_runs p addr 0 s pr tp l ump own (Stop SFuel (set_k_held [L_wait] s)).

(** A turn of the loop that finds no exited child: [havekids] is whether there is a child. *)
Lemma wait_no_zombie p addr s : length (k_procs s) = NPROC -> (forall j, ~ zombie_at p (k_procs s) j) ->
  exists h, loop (S NPROC) (wait_scan p addr) (O, false) (set_k_held [L_wait] s) = Ret (inr h) (set_k_held [L_wait] s) /\
    (h = true <-> exists j, child_at p (k_procs s) j).
Proof.
  intros Klen Hno. set (s1 := set_k_held [L_wait] s).
  destruct (wait_skips p addr NPROC O false s1 1) as (h & R & Hh); [done|done| |intros j _; apply Hno|].
  { intros j. change (L_proc j ∉ [L_wait]). rewrite not_elem_of_cons. split; [done|apply not_elem_of_nil]. }
  rewrite Nat.add_0_l, (loop_break 0 _ _ _ _ _ (wait_scan_end p addr s1 h)) in R. exists h. split; [done|]. rewrite Hh. split.
  - intros [?|(j & _ & Hj)]; [done|by exists j].
  - intros [j Hj]. right. exists j. split; [|done]. destruct Hj as (q & Hq & _). apply lookup_lt_Some in Hq. cbn in Hq. lia.
Qed.

Lemma wait_turn_none p pr addr s n : k_held s = [] -> k_procs s !! p = Some pr -> length (k_procs s) = NPROC -> (forall j, ~ zombie_at p (k_procs s) j) ->
  (forall j, ~ child_at p (k_procs s) j) \/ p_killed pr <> 0 -> loop (S n) (wait_step p addr) tt (set_k_held [L_wait] s) = Ret (-1) s.
Proof.
  intros Kheld Kp Klen Hno Hwhy. destruct (wait_no_zombie p addr s Klen Hno) as (h & R & Hh). set (s1 := set_k_held [L_wait] s) in *.
  assert (Hk : exists k, negb (k =? 0) = true /\ (if negb h then mret 1 else killed p) s1 = Ret k s1).
  { destruct h; cbn [negb]; [|by exists 1]. destruct Hwhy as [Hn|Hk]; [destruct (proj1 Hh eq_refl) as [j Hj]; by destruct (Hn j)|].
    exists (p_killed pr). split; [by rewrite (proj2 (Z.eqb_neq _ 0) Hk)|]. apply killed_ok; [done|]. cbn. rewrite list_elem_of_singleton. done. }
  destruct Hk as (k & Hk & Rk). apply loop_break. unfold wait_step. kstep_by R. kstep_by Rk. rewrite Hk.
  kstep_by release_top; [|reflexivity|apply not_elem_of_nil]. unfold s1. rewrite set_held_held. f_equal. rewrite <- Kheld. apply set_held_id.
Qed.

Lemma wait_turn_sleeps p pr addr s n : k_cur s = Some p -> k_procs s !! p = Some pr -> length (k_procs s) = NPROC ->
  (forall j, ~ zombie_at p (k_procs s) j) -> (exists j, child_at p (k_procs s) j) -> p_killed pr = 0 ->
  exists k, loop (S n) (wait_step p addr) tt (set_k_held [L_wait] s) = Sleep (wait_asleep s p) k /\
    forall s2, k_held s2 = [L_proc p] -> k s2 = loop n (wait_step p addr) tt (set_k_held [L_wait] (wait_back p s2)).
Proof.
  intros Kcur Kp Klen Hno Hch Hk. destruct (wait_no_zombie p addr s Klen Hno) as (h & R & Hh). rewrite (proj2 Hh Hch) in R. set (s1 := set_k_held [L_wait] s) in *.
  destruct (sleep_wakes s1 p pr (Ch_proc p) L_wait) as (k & Hs & Hk2); [done..|].
  assert (Hk' : killed p s1 = Ret 0 s1) by (rewrite (killed_ok p pr); [by rewrite Hk|done|cbn; rewrite list_elem_of_singleton; done]).
  assert (Hst : wait_step p addr tt s1 = (sleep (Ch_proc p) L_wait ;; mret (inl tt)) s1) by (unfold wait_step; kstep_by R; cbn [negb]; by kstep_by Hk').
  eexists. split.
  - rewrite loop_S, Hst, (bind_Sleep _ _ _ _ _ Hs). reflexivity.
  - intros s2 H2. cbn beta. by rewrite Hk2.
Qed.

Lemma wait_loop_runs p addr n : 0 <= addr < 2 ^ 64 -> forall s pr tp l ump own, waiter s p pr tp l ump own -> zombies_mem s p tp l ump own ->
  wait_runs p addr n s pr tp l ump own (loop n (wait_step p addr) tt (set_k_held [L_wait] s)).
Proof.
  intros Ha. induction n as [|n IH]; intros s pr tp l ump own Hw Hmem; [apply wait_spent|].
  pose proof Hw as [Kcur Kp Kst Kheld Klen Kas Khi]. destruct (first_zombie p (k_procs s) NPROC) as [Hnone|(np & (q & Hq & Hpar & Hz) & Hmin)].
  - assert (Hno : forall j, ~ zombie_at p (k_procs s) j).
    { intros j Hj. apply (Hnone j); [|done]. destruct Hj as (q & Hq & _). apply lookup_lt_Some in Hq. lia. }
    destruct (wait_no_zombie p addr s Klen Hno) as (h & _ & Hh). destruct (decide (h = true /\ p_killed pr = 0)) as [[E Hk]|Hc].
    + destruct (wait_turn_sleeps p pr addr s n) as (k & -> & Hk2); try done; [by apply Hh|]. apply wait_sleeps; [done|by apply Hh|done|].
      intros s2 pr2 tp2 l2 ump2 own2 H2 Hw2 Hm2. rewrite Hk2 by done. by apply IH.
    + assert (Hwhy : (forall j, ~ child_at p (k_procs s) j) \/ p_killed pr <> 0).
      { destruct (decide (p_killed pr = 0)); [left|by right]. intros j Hj. apply Hc. split; [|done]. apply Hh. by exists j. }
      rewrite (wait_turn_none p pr) by done. by apply wait_none.
  - pose proof (lookup_lt_Some _ _ _ Hq) as Hlt. destruct (Hmem np q Hq Hpar Hz) as (rest & pages & Hown & Hm).
    destruct (wait_skips p addr np O false (set_k_held [L_wait] s) (S (NPROC - np))) as (h & R & _); [lia|done| |intros j Hj; apply Hmin; lia|].
    { intros j. change (L_proc j ∉ [L_wait]). rewrite not_elem_of_cons. split; [done|apply not_elem_of_nil]. }
    destruct (wait_reap s p pr tp l ump own addr np q h rest pages) as (r & s' & Rr & Hh' & Hr); try done.
    rewrite Nat.add_0_l, (loop_break _ _ _ _ _ _ Rr) in R. replace (np + S (NPROC - np))%nat with (S NPROC) in R by lia.
    erewrite loop_break; [|unfold wait_step; by kstep_by R]. by eapply wait_child.
Qed.

(** C5: [wait(addr)]: with an exited child, the one in the lowest slot is reaped: its process id is returned, its exit
    status is in the parent's memory at [addr] (unless 0), its slot is free and every page it had is free, and nothing
    else changes; if the status cannot be stored the result is -1 and the child stays.  With no child, or no exited one
    and the caller killed, the result is -1 and nothing changed.  Otherwise the caller sleeps on its own slot, the
    channel [exit] wakes, having released the lock that orders the two; and when it is resumed, in any state, it looks
    for an exited child again and does one of these things: a child that exits while it sleeps is reaped then. *)
Theorem wait_spec s p pr tp l ump own addr :
  waiter s p pr tp l ump own -> 0 <= addr < 2 ^ 64 -> zombies_mem s p tp l ump own ->
  wait_runs p addr (k_fuel s) s pr tp l ump own (wait addr s).
Proof.
  intros Hw Ha Hmem.
  replace (wait addr s) with (loop (k_fuel s) (wait_step p addr) tt (set_k_held [L_wait] s)); [by apply wait_loop_runs|].
  unfold wait. kstep_by myproc_ok; [|apply Hw]. kstep_by acquire_ok; [|rewrite (wt_held _ _ _ _ _ _ _ Hw); apply not_elem_of_nil]. kstep.
  by rewrite (wt_held _ _ _ _ _ _ _ Hw).
Qed.

(** ** A zombie to reap *)

(** The slot [allocproc] made, exited with status [x]. *)
Definition zombie_of (p : nat) (x : Z) (q : proc) : proc := set_p_state ZOMBIE (set_p_xstate x (set_p_parent (Some p) q)).

Lemma alloc_zombie s s' p pr tp l ump own np x :
  let all := own ++ tree_pages tp ++ um_pages ump in
  forkable s p pr tp l ump own -> no_high_user (k_mem s) tp -> p_state pr <> ZOMBIE -> Forall (fun q => p_state q <> ZOMBIE) (k_procs s) ->
  proc_only s s' -> kept s s' all -> alloc_done s s' all l np ->
  exists q l' own', k_procs s' !! np = Some q /\ p_pid q = k_nextpid s /\
    let z := set_k_held [] (setp np (zombie_of p x q) s') in
    waiter z p pr tp l' ump own' /\ zombie_at p (k_procs z) np /\
    forall i q, k_procs z !! i = Some q -> p_parent q = Some p -> p_state q = ZOMBIE -> i = np /\
      exists rest pages, own' ≡ₚ rest ++ pages /\ pmem z (rest ++ tree_pages tp ++ um_pages ump) l' q pages.
Proof.
  intros all [Kcur Kp Kused Kheld Klen Kun Kas Kcov Ksz _ _ _ _] Hhi Hnz Hall O1 K1 (q0 & tf & root & t & l' & Hq & Hu & Hps & Hh & Hroot & Hok & Hfx & Hl & _).
  pose proof (lookup_lt_Some _ _ _ Hq) as Hlt. assert (Hne : p <> np) by (intros <-; congruence). set (q := used_proc q0 (k_nextpid s) tf root) in *.
  destruct (unused_empty q0) as (_ & _ & _ & Hsz); [by apply (Forall_lookup_1 _ _ _ _ Kun Hq)|done|].
  exists q, l', (own ++ tf :: tree_pages t). split; [rewrite Hps; by apply list_lookup_insert_eq|]. split; [done|]. intros z.
  assert (Hz : k_procs z = <[np := zombie_of p x q]> (k_procs s)) by (change (<[np := zombie_of p x q]> (k_procs s') = <[np := zombie_of p x q]> (k_procs s)); by rewrite Hps, list_insert_insert_eq).
  assert (Htf : page_ok tf) by (pose proof (as_pages _ _ _ Hok) as Hpg; unfold a_pages in Hpg; cbn in Hpg; by apply Forall_cons in Hpg as [? _]).
  assert (Hokz : as_ok z root (mk_aspace t l' ∅ (tf :: all))) by (apply (as_ok_moved s'); try done; apply not_elem_of_nil).
  assert (Hts : forall y, y ∈ tree_pages tp -> same_page (k_mem s) (k_mem z) y) by (intros y Hy; apply K1; unfold all; rewrite !elem_of_app; auto).
  split; [split|split].
  - change (k_cur s' = Some p). by rewrite O1.
  - by rewrite Hz, list_lookup_insert_ne.
  - done.
  - done.
  - by rewrite Hz, length_insert.
  - eapply as_of_pool; [exact Kas| |exact Hts]. eapply pool_perm; [|apply (as_pool _ _ _ _ _ _ Hokz)]. rewrite um_pages_empty, app_nil_r. unfold all. solve_Permutation.
  - eapply no_high_ext; [|exact Hhi]. intros va. eapply pte_at_frame; [apply Kas|exact Hts].
  - exists (zombie_of p x q). split; [rewrite Hz; by apply list_lookup_insert_eq|done].
  - intros i q' Hi _ Hst. rewrite Hz in Hi. destruct (decide (i = np)) as [->|Hn].
    + rewrite list_lookup_insert_eq in Hi by done. injection Hi as <-. split; [done|]. exists own, (tf :: tree_pages t ++ um_pages ∅).
      split; [by rewrite um_pages_empty, app_nil_r|]. apply (pm_full _ _ _ (zombie_of p x q) t ∅); try done.
      * pose proof (page_ok_pos tf Htf). change (tf <> 0). vlia.
      * change (p_sz (zombie_of p x q)) with (p_sz q0). rewrite Hsz. by apply cov_none.
      * change (p_sz (zombie_of p x q)) with (p_sz q0). rewrite Hsz. vlia.
    + rewrite list_lookup_insert_ne in Hi by done. by destruct (Forall_lookup_1 _ _ _ _ Hall Hi).
Qed.
End Wait.

(** The machine of [fork_spec_witness] with a child that allocated its memory and exited with status 7. *)
Definition zombie_machine : kstate :=
  match allocproc (with_parent fork_mem) with
  | Ret (Some np) s' => set_k_held [] (setp np (zombie_of 0 7 (default proc0 (k_procs s' !! np))) s')
  | _ => boot_state
  end.

Lemma zombie_machine_ok s t l um :
  as_ok s (pg 0) (mk_aspace t l um [pg 16]) -> um_cov um 4096 -> 12 <= Z.of_nat (length l) -> no_high_user (k_mem s) t -> mem_only boot_state s ->
  exists s' np q l' own', allocproc (with_parent s) = Ret (Some np) s' /\ k_procs s' !! np = Some q /\ p_pid q = 2 /\
    let z := set_k_held [] (setp np (zombie_of 0 7 q) s') in
    waiter z 0 fork_parent t l' um own' /\ k_fuel z = 1%nat /\ zombie_at 0 (k_procs z) np /\
    forall i q, k_procs z !! i = Some q -> p_parent q = Some 0%nat -> p_state q = ZOMBIE -> i = np /\
      exists rest pages, own' ≡ₚ rest ++ pages /\ pmem z (rest ++ tree_pages t ++ um_pages um) l' q pages.
Proof.
  intros Hok Hc Hlen Hhi Ho. pose proof (with_parent_ok s t l um Hok Hc Ho) as Hfk. pose proof Hfk as [_ _ _ Kheld Klen Kun Kas _ _ _ _ _ _].
  destruct (allocproc_ok (with_parent s) ([pg 16] ++ tree_pages t ++ um_pages um) l) as (r & s' & R & O & K & Hr); try done;
    [intros j; rewrite Kheld; apply not_elem_of_nil|rewrite Kheld; apply not_elem_of_nil|apply (as_pool _ _ _ _ _ _ Kas)|].
  destruct r as [np|]; [|destruct Hr as (_ & [Hn|Hn]); [destruct (Hn 1%nat (with_parent_slot _ Ho))|lia]].
  assert (Hnz : Forall (fun q => p_state q <> ZOMBIE) (k_procs (with_parent s))).
  { assert (Ep : k_procs (with_parent s) = <[0%nat := fork_parent]> (k_procs s)) by done. rewrite Ep, Ho. apply Forall_insert; [by apply Forall_replicate|done]. }
  destruct (alloc_zombie (with_parent s) s' 0 fork_parent t l um [pg 16] np 7 Hfk Hhi ltac:(done) Hnz O K Hr) as (q & l' & own' & Hq & Hpid & Hw & Hza & Hz).
  exists s', np, q, l', own'. split; [done|]. split; [done|]. split; [done|]. split; [done|]. split; [|done].
  change (k_fuel s' = 1%nat). rewrite O. change (k_fuel s = 1%nat). by rewrite Ho.
Qed.

Lemma wait_spec_witness : exists s', wait 0 zombie_machine = Ret 2 s'.
Proof.
  destruct fork_mem_ok as (t & l & um & Hok & Hc & Hlen & Hhi & Ho).
  destruct (zombie_machine_ok fork_mem t l um Hok Hc Hlen Hhi Ho) as (s' & np & q & l' & own' & R & Hq & Hpid & Hw & Hf & Hza & Hz).
  assert (E : zombie_machine = set_k_held [] (setp np (zombie_of 0 7 q) s')) by (unfold zombie_machine; by rewrite R, Hq).
  rewrite E. set (z := set_k_held [] (setp np (zombie_of 0 7 q) s')) in *.
  assert (Hruns : wait_runs 0 0 (k_fuel z) z fork_parent t l' um own' (wait 0 z)).
  { apply (wait_spec z 0 fork_parent t l' um own' 0); [exact Hw|lia|]. intros i q' Hi Hp' Hs'. destruct (Hz i q' Hi Hp' Hs') as [_ Hm]. exact Hm. }
  rewrite Hf in Hruns. inversion Hruns as [n0 z0 pr0 tp0 l0 um0 own0 i q' rest pages r s2 Hi Hpar Hst _ _ _ Hr| n0 z0 pr0 tp0 l0 um0 own0 Hn|n0 z0 pr0 tp0 l0 um0 own0 k Hn|]; subst;
    [|destruct (Hn np Hza)|destruct (Hn np Hza)].
  destruct Hr as [[-> _]|[_ Hr]]; [|destruct (rf_addr _ _ _ _ _ _ _ _ Hr eq_refl)].
  destruct (Hz i q' Hi Hpar Hst) as [-> _]. exists s2. f_equal. clear Hz.
  assert (Hl : k_procs z !! np = Some (zombie_of 0 7 q)) by (apply (lookup_setp np (zombie_of 0 7 q) s'); by eapply lookup_lt_Some).
  rewrite Hl in Hi. injection Hi as <-. exact Hpid.
Defined.
