(* ===== verification/Exec.v ===== *)
(** * kernel/exec.c: replacing a process's image

    The ELF headers are bytes read into local variables; [argv] holds addresses
    of kernel pages with the argument strings. *)

From stdpp Require Import base list gmap strings.
From Stdlib Require Import ZArith Lia.
From S2P Require Import Prelude Mem KString Riscv State Sched Kalloc Vm Bio Log Proc Fs Kvm.
Open Scope Z_scope.

(** ** kernel/elf.h *)

Definition ELF_MAGIC : Z := 0x464C457F.
Definition ELF_PROG_LOAD : Z := 1.
Definition get64 (d : list Z) (off : nat) : Z := le_val (get_at d off 8).

Definition sizeof_elfhdr : Z := 64.
Definition elf_magic (e : list Z) : Z := get32 e 0.
Definition elf_entry (e : list Z) : Z := get64 e 24.
Definition elf_phoff (e : list Z) : Z := get64 e 32.
Definition elf_phnum (e : list Z) : Z := get16 e 56.

Definition sizeof_proghdr : Z := 56.
Definition ph_type (h : list Z) : Z := get32 h 0.
Definition ph_flags (h : list Z) : Z := get32 h 4.
Definition ph_off (h : list Z) : Z := get64 h 8.
Definition ph_vaddr (h : list Z) : Z := get64 h 16.
Definition ph_filesz (h : list Z) : Z := get64 h 32.
Definition ph_memsz (h : list Z) : Z := get64 h 40.

Definition flags2perm (flags : Z) : Z :=
  let perm := if has flags 1 then PTE_X else 0 in
  if has flags 2 then Z.lor perm PTE_W else perm.

Section Exec.
Context {L : Layout} {U : Uninit}.

Definition loadseg_step (pagetable va : Z) (ip : nat) (offset sz i : Z) : K (Z + Z) :=
  if i <? sz then
    pa ← walkaddr pagetable (u64 (va + i));
    if pa =? 0 then panic "loadseg: address should exist" else
    let n := if sz - i <? PGSIZE then sz - i else PGSIZE in
    r ← readi ip false pa (u32 (offset + i)) n;
    if negb (u32 r =? n) then mret (inr (-1)) else mret (inl (u32 (i + PGSIZE)))
  else mret (inr 0).
Definition loadseg (pagetable va : Z) (ip : nat) (offset sz : Z) : K Z :=
  loop (S (S (Z.to_nat (sz / PGSIZE)))) (loadseg_step pagetable va ip offset sz) 0.

(** The checks on a loadable segment before memory is allocated for it. *)
Definition ph_ok (ph : list Z) : bool :=
  negb (ph_memsz ph <? ph_filesz ph) && negb (u64 (ph_vaddr ph + ph_memsz ph) <? ph_vaddr ph) &&
  (ph_vaddr ph mod PGSIZE =? 0).

(** One program header: [inr (true, sz)] ends the loop, [inr (false, sz)] is
    [goto bad] with that [sz]. *)
Definition exec_load (pagetable : Z) (ip : nat) (elf : list Z) (a : Z * Z * Z) : K ((Z * Z * Z) + (bool * Z)) :=
  let '(i, off, sz) := a in
  if i <? elf_phnum elf then
    '(r, ph) ← readi_local ip (u32 off) sizeof_proghdr;
    if negb (r =? sizeof_proghdr) then mret (inr (false, sz)) else
    if negb (ph_type ph =? ELF_PROG_LOAD) then mret (inl (i + 1, off + sizeof_proghdr, sz)) else
    if negb (ph_ok ph) then mret (inr (false, sz)) else
    sz1 ← uvmalloc pagetable sz (u64 (ph_vaddr ph + ph_memsz ph)) (flags2perm (ph_flags ph));
    if sz1 =? 0 then mret (inr (false, sz)) else
    r ← loadseg pagetable (ph_vaddr ph) ip (u32 (ph_off ph)) (u32 (ph_filesz ph));
    if r <? 0 then mret (inr (false, sz1)) else
    mret (inl (i + 1, off + sizeof_proghdr, sz1))
  else mret (inr (true, sz)).

(** The string at a kernel address, which lies in one page. *)
Definition kstr (m : mem) (a : Z) : list Z := cstr (mread m a (Z.to_nat PGSIZE)).

(** One argument: [inr None] is [goto bad]. *)
Definition exec_push (pagetable stackbase : Z) (argv : list Z) (a : Z * Z * list Z) :
    K ((Z * Z * list Z) + option (Z * Z * list Z)) :=
  let '(argc, sp, ustack) := a in
  arg ← need "argv" (argv !! Z.to_nat argc);
  if arg =? 0 then mret (inr (Some (argc, sp, ustack))) else
  if MAXARG <=? argc then mret (inr None) else
  str ← gets (fun s => kstr (k_mem s) arg);
  let sp := u64 (sp - (Z.of_nat (length str) + 1)) in
  let sp := sp - sp mod 16 in
  if sp <? stackbase then mret (inr None) else
  r ← copyout pagetable sp (str ++ [0]);
  if r <? 0 then mret (inr None) else
  mret (inl (argc + 1, sp, ustack ++ [sp])).

Definition exec_bad (pagetable sz : Z) (ip : option nat) : K Z :=
  (if pagetable =? 0 then skip else proc_freepagetable pagetable sz) ;;
  match ip with
  | Some i => iunlockput i ;; end_op
  | None => skip
  end ;;
  mret (-1).

(** [for(last=s=path; *s; s++) if( *s == '/') last = s+1;] *)
Fixpoint last_elem (last s : list Z) : list Z :=
  match s with
  | [] => last
  | c :: s' => if c =? 0 then last else last_elem (if c =? 47 then s' else last) s'
  end.

(** From the stack on; nothing of the old image has been touched yet. *)
Definition exec_stack (p : nat) (path argv elf : list Z) (pagetable sz : Z) : K Z :=
  pr ← get_proc p;
  let oldsz := p_sz pr in
  let sz := PGROUNDUP sz in
  sz1 ← uvmalloc pagetable sz (u64 (sz + (USERSTACK + 1) * PGSIZE)) PTE_W;
  if sz1 =? 0 then exec_bad pagetable sz None else
  let sz := sz1 in
  uvmclear pagetable (sz - (USERSTACK + 1) * PGSIZE) ;;
  let sp := sz in
  let stackbase := sp - USERSTACK * PGSIZE in
  r ← loop (S (length argv)) (exec_push pagetable stackbase argv) (0, sp, []);
  match r with
  | None => exec_bad pagetable sz None
  | Some (argc, sp, ustack) =>
      let ustack := ustack ++ [0] in
      let sp := u64 (sp - (argc + 1) * 8) in
      let sp := sp - sp mod 16 in
      if sp <? stackbase then exec_bad pagetable sz None else
      r ← copyout pagetable sp (concat (le_bytes 8 <$> ustack));
      if r <? 0 then exec_bad pagetable sz None else
      pr ← get_proc p;
      st64 (p_trapframe pr + tf_a1) sp ;;
      mod_proc p (fun pr => set_p_name (safestrcpy (p_name pr) (last_elem path path) 16) pr) ;;
      let oldpagetable := p_pagetable pr in
      mod_proc p (set_p_pagetable pagetable) ;;
      mod_proc p (set_p_sz sz) ;;
      st64 (p_trapframe pr + tf_epc) (elf_entry elf) ;;
      st64 (p_trapframe pr + tf_sp) sp ;;
      proc_freepagetable oldpagetable oldsz ;;
      vmprint pagetable ;;
      mret argc
  end.

Definition exec (path argv : list Z) : K Z :=
  p ← myproc';
  begin_op ;;
  o ← namei path;
  match o with
  | None => end_op ;; mret (-1)
  | Some ip =>
      ilock (Some ip) ;;
      '(r, elf) ← readi_local ip 0 sizeof_elfhdr;
      if negb (r =? sizeof_elfhdr) then exec_bad 0 0 (Some ip) else
      if negb (elf_magic elf =? ELF_MAGIC) then exec_bad 0 0 (Some ip) else
      pagetable ← proc_pagetable p;
      if pagetable =? 0 then exec_bad 0 0 (Some ip) else
      '(ok, sz) ← loop (S (Z.to_nat (elf_phnum elf))) (exec_load pagetable ip elf) (0, s32 (elf_phoff elf), 0);
      if negb ok then exec_bad pagetable sz (Some ip) else
      iunlockput ip ;;
      end_op ;;
      exec_stack p path argv elf pagetable sz
  end.

End Exec.
