(* ===== verification/Sysfile.v ===== *)
(** * kernel/syscall.c (argument fetching) and kernel/sysfile.c

    The system calls on files.  A string argument is copied to a local array;
    the model has the string itself. *)

From stdpp Require Import base list gmap strings.
From Stdlib Require Import ZArith Lia.
From S2P Require Import Prelude Mem KString Riscv State Sched Kalloc Vm Bio Log Format Proc Pipe Fs File Exec.
Open Scope Z_scope.

Section Sysfile.
Context {L : Layout} {U : Uninit}.

(** ** kernel/syscall.c: arguments *)

Definition fetchaddr (addr : Z) : K (Z * Z) :=
  p ← myproc';
  pr ← get_proc p;
  if (p_sz pr <=? addr) || (p_sz pr <? u64 (addr + 8)) then mret (-1, 0) else
  '(r, bs) ← copyin (p_pagetable pr) addr 8;
  if negb (r =? 0) then mret (-1, 0) else mret (0, le_val bs).

(** The bytes put in [buf], and the result. *)
Definition fetchstr (addr max : Z) : K (Z * list Z) :=
  p ← myproc';
  pr ← get_proc p;
  '(r, bs) ← copyinstr (p_pagetable pr) addr max;
  if r <? 0 then mret (-1, bs) else mret (strlen bs, bs).

Definition argraw (n : Z) : K Z :=
  p ← myproc';
  pr ← get_proc p;
  if (0 <=? n) && (n <=? 5) then ld64 (p_trapframe pr + tf_a0 + 8 * n) else panic "argraw".
Definition argint (n : Z) : K Z := v ← argraw n; mret (s32 v).
Definition argaddr (n : Z) : K Z := argraw n.
Definition argstr (n max : Z) : K (Z * list Z) := addr ← argaddr n; fetchstr addr max.

(** A path argument: [None] on error. *)
Definition argpath (n : Z) : K (option (list Z)) :=
  '(r, bs) ← argstr n MAXPATH;
  if r <? 0 then mret None else mret (Some (cstr bs)).

(** ** kernel/sysfile.c *)

Definition argfd (n : Z) : K (option (nat * nat)) :=
  fd ← argint n;
  p ← myproc';
  pr ← get_proc p;
  if (fd <? 0) || (Z.of_nat NOFILE <=? fd) then mret None else
  match default None (p_ofile pr !! Z.to_nat fd) with
  | Some f => mret (Some (Z.to_nat fd, f))
  | None => mret None
  end.

Definition fdalloc_step (p f fd : nat) : K (nat + Z) :=
  if (fd <? NOFILE)%nat then
    pr ← get_proc p;
    match default None (p_ofile pr !! fd) with
    | None =>
        mod_proc p (fun pr => set_p_ofile (<[fd := Some f]> (p_ofile pr)) pr) ;;
        mret (inr (Z.of_nat fd))
    | Some _ => mret (inl (S fd))
    end
  else mret (inr (-1)).
Definition fdalloc (f : nat) : K Z :=
  p ← myproc';
  loop (S NOFILE) (fdalloc_step p f) O.

Definition sys_dup : K Z :=
  a ← argfd 0;
  match a with
  | None => mret (-1)
  | Some (_, f) =>
      fd ← fdalloc f;
      if fd <? 0 then mret (-1) else
      filedup f ;;
      mret fd
  end.

Definition sys_read : K Z :=
  p ← argaddr 1;
  n ← argint 2;
  a ← argfd 0;
  match a with None => mret (-1) | Some (_, f) => fileread f p n end.

Definition sys_write : K Z :=
  p ← argaddr 1;
  n ← argint 2;
  a ← argfd 0;
  match a with None => mret (-1) | Some (_, f) => filewrite f p n end.

Definition clear_fd (p fd : nat) : K unit :=
  mod_proc p (fun pr => set_p_ofile (<[fd := None]> (p_ofile pr)) pr).

Definition sys_close : K Z :=
  a ← argfd 0;
  match a with
  | None => mret (-1)
  | Some (fd, f) =>
      p ← myproc';
      clear_fd p fd ;;
      fileclose f ;;
      mret 0
  end.

Definition sys_fstat : K Z :=
  st ← argaddr 1;
  a ← argfd 0;
  match a with None => mret (-1) | Some (_, f) => filestat f st end.

Definition add_nlink (i : nat) (k : Z) : K unit := mod_inode i (fun ip => set_i_nlink (s16 (i_nlink ip + k)) ip).

Definition sys_link_bad (ip : nat) : K Z :=
  ilock (Some ip) ;;
  add_nlink ip (-1) ;;
  iupdate ip ;;
  iunlockput ip ;;
  end_op ;;
  mret (-1).

Definition sys_link : K Z :=
  o ← argpath 0;
  match o with None => mret (-1) | Some old =>
  o ← argpath 1;
  match o with None => mret (-1) | Some new =>
  begin_op ;;
  o ← namei old;
  match o with
  | None => end_op ;; mret (-1)
  | Some ip =>
  ilock (Some ip) ;;
  i ← get_inode ip;
  if i_type i =? T_DIR then
    iunlockput ip ;;
    end_op ;;
    mret (-1)
  else
  add_nlink ip 1 ;;
  iupdate ip ;;
  iunlock (Some ip) ;;
  '(o, name) ← nameiparent new (uninit (Z.to_nat DIRSIZ));
  match o with
  | None => sys_link_bad ip
  | Some dp =>
  ilock (Some dp) ;;
  d ← get_inode dp;
  i ← get_inode ip;
  r ← (if negb (i_dev d =? i_dev i) then mret (-1) else dirlink dp name (i_inum i));
  if r <? 0 then
    iunlockput dp ;;
    sys_link_bad ip
  else
  iunlockput dp ;;
  iput ip ;;
  end_op ;;
  mret 0
  end end end end.

Definition isdirempty_step (d : nat) (off : Z) : K (Z + bool) :=
  dp ← get_inode d;
  if off <? i_size dp then
    '(r, de) ← readi_local d off sizeof_dirent;
    if negb (r =? sizeof_dirent) then panic "isdirempty: readi" else
    if negb (de_inum de =? 0) then mret (inr false) else mret (inl (off + sizeof_dirent))
  else mret (inr true).
Definition isdirempty (d : nat) : K bool :=
  dp ← get_inode d;
  loop (S (Z.to_nat (i_size dp / sizeof_dirent))) (isdirempty_step d) (2 * sizeof_dirent).

Definition sys_unlink_bad (dp : nat) : K Z :=
  iunlockput dp ;;
  end_op ;;
  mret (-1).

Definition sys_unlink : K Z :=
  o ← argpath 0;
  match o with None => mret (-1) | Some path =>
  begin_op ;;
  '(o, name) ← nameiparent path (uninit (Z.to_nat DIRSIZ));
  match o with
  | None => end_op ;; mret (-1)
  | Some dp =>
  ilock (Some dp) ;;
  if (namecmp name (chars ".") =? 0) || (namecmp name (chars "..") =? 0) then sys_unlink_bad dp else
  o ← dirlookup dp name;
  match o with
  | None => sys_unlink_bad dp
  | Some (ip, off) =>
  ilock (Some ip) ;;
  i ← get_inode ip;
  if i_nlink i <? 1 then panic "unlink: nlink < 1" else
  busy ← (if i_type i =? T_DIR then e ← isdirempty ip; mret (negb e) else mret false);
  if busy : bool then
    iunlockput ip ;;
    sys_unlink_bad dp
  else
  r ← writei_local dp (replicate 16 0) off;
  if negb (r =? sizeof_dirent) then panic "unlink: writei" else
  i ← get_inode ip;
  (if i_type i =? T_DIR then
     add_nlink dp (-1) ;;
     iupdate dp
   else skip) ;;
  iunlockput dp ;;
  add_nlink ip (-1) ;;
  iupdate ip ;;
  iunlockput ip ;;
  end_op ;;
  mret 0
  end end end.

Definition create_fail (ip dp : nat) : K (option nat) :=
  mod_inode ip (set_i_nlink 0) ;;
  iupdate ip ;;
  iunlockput ip ;;
  iunlockput dp ;;
  mret None.

(** The entries of a new directory. *)
Definition create_dots (ip dp : nat) : K Z :=
  i ← get_inode ip;
  r ← dirlink ip (chars ".") (i_inum i);
  if r <? 0 then mret r else
  d ← get_inode dp;
  dirlink ip (chars "..") (i_inum d).

Definition create (path : list Z) (type major minor : Z) : K (option nat) :=
  '(o, name) ← nameiparent path (uninit (Z.to_nat DIRSIZ));
  match o with
  | None => mret None
  | Some dp =>
  ilock (Some dp) ;;
  o ← dirlookup dp name;
  match o with
  | Some (ip, _) =>
      iunlockput dp ;;
      ilock (Some ip) ;;
      i ← get_inode ip;
      if (type =? T_FILE) && ((i_type i =? T_FILE) || (i_type i =? T_DEVICE)) then mret (Some ip) else
      iunlockput ip ;;
      mret None
  | None =>
  d ← get_inode dp;
  o ← ialloc (i_dev d) type;
  match o with
  | None => iunlockput dp ;; mret None
  | Some ip =>
  ilock (Some ip) ;;
  mod_inode ip (set_i_major major) ;;
  mod_inode ip (set_i_minor minor) ;;
  mod_inode ip (set_i_nlink 1) ;;
  iupdate ip ;;
  r ← (if type =? T_DIR then create_dots ip dp else mret 0);
  if r <? 0 then create_fail ip dp else
  i ← get_inode ip;
  r ← dirlink dp name (i_inum i);
  if r <? 0 then create_fail ip dp else
  (if type =? T_DIR then
     add_nlink dp 1 ;;
     iupdate dp
   else skip) ;;
  iunlockput dp ;;
  mret (Some ip)
  end end end.

(** kernel/fcntl.h *)
Definition O_RDONLY : Z := 0x000.
Definition O_WRONLY : Z := 0x001.
Definition O_RDWR : Z := 0x002.
Definition O_CREATE : Z := 0x200.
Definition O_TRUNC : Z := 0x400.

(** The inode [sys_open] opens, locked; [None] when it returns -1 (the
    transaction is then over). *)
Definition open_inode (path : list Z) (omode : Z) : K (option nat) :=
  if has omode O_CREATE then
    o ← create path T_FILE 0 0;
    match o with
    | None => end_op ;; mret None
    | Some ip => mret (Some ip)
    end
  else
    o ← namei path;
    match o with
    | None => end_op ;; mret None
    | Some ip =>
        ilock (Some ip) ;;
        i ← get_inode ip;
        if (i_type i =? T_DIR) && negb (omode =? O_RDONLY) then
          iunlockput ip ;;
          end_op ;;
          mret None
        else mret (Some ip)
    end.

(** A new open file and its descriptor. *)
Definition open_file : K (option (nat * Z)) :=
  o ← filealloc;
  match o with
  | None => mret None
  | Some f =>
      fd ← fdalloc f;
      if fd <? 0 then fileclose f ;; mret None else mret (Some (f, fd))
  end.

Definition sys_open : K Z :=
  omode ← argint 1;
  o ← argpath 0;
  match o with None => mret (-1) | Some path =>
  begin_op ;;
  o ← open_inode path omode;
  match o with None => mret (-1) | Some ip =>
  i ← get_inode ip;
  if (i_type i =? T_DEVICE) && ((i_major i <? 0) || (NDEV <=? i_major i)) then
    iunlockput ip ;;
    end_op ;;
    mret (-1)
  else
  o ← open_file;
  match o with
  | None =>
      iunlockput ip ;;
      end_op ;;
      mret (-1)
  | Some (f, fd) =>
  i ← get_inode ip;
  (if i_type i =? T_DEVICE then
     mod_file f (set_f_type FD_DEVICE) ;;
     mod_file f (set_f_major (i_major i))
   else
     mod_file f (set_f_type FD_INODE) ;;
     mod_file f (set_f_off 0)) ;;
  mod_file f (set_f_ip (Some ip)) ;;
  mod_file f (set_f_readable (negb (has omode O_WRONLY))) ;;
  mod_file f (set_f_writable (has omode O_WRONLY || has omode O_RDWR)) ;;
  (if has omode O_TRUNC && (i_type i =? T_FILE) then itrunc ip else skip) ;;
  iunlock (Some ip) ;;
  end_op ;;
  mret fd
  end end end.

(** The end of [sys_mkdir] and [sys_mknod]. *)
Definition created (o : option nat) : K Z :=
  match o with
  | None => end_op ;; mret (-1)
  | Some ip => iunlockput ip ;; end_op ;; mret 0
  end.

Definition sys_mkdir : K Z :=
  begin_op ;;
  o ← argpath 0;
  match o with
  | None => end_op ;; mret (-1)
  | Some path => o ← create path T_DIR 0 0; created o
  end.

Definition sys_mknod : K Z :=
  begin_op ;;
  major ← argint 1;
  minor ← argint 2;
  o ← argpath 0;
  match o with
  | None => end_op ;; mret (-1)
  | Some path => o ← create path T_DEVICE (s16 major) (s16 minor); created o
  end.

Definition sys_chdir : K Z :=
  p ← myproc';
  begin_op ;;
  o ← argpath 0;
  match o with
  | None => end_op ;; mret (-1)
  | Some path =>
  o ← namei path;
  match o with
  | None => end_op ;; mret (-1)
  | Some ip =>
  ilock (Some ip) ;;
  i ← get_inode ip;
  if negb (i_type i =? T_DIR) then
    iunlockput ip ;;
    end_op ;;
    mret (-1)
  else
  iunlock (Some ip) ;;
  pr ← get_proc p;
  cwd ← need "cwd" (p_cwd pr);
  iput cwd ;;
  end_op ;;
  mod_proc p (set_p_cwd (Some ip)) ;;
  mret 0
  end end.

(** [sys_exec]'s fetch of the argument vector: the pages so far, and whether
    it reached the terminating 0 ([goto bad] otherwise). *)
Definition fetch_args (uargv : Z) (a : Z * list Z) : K ((Z * list Z) + (bool * list Z)) :=
  let (i, argv) := a in
  if MAXARG <=? i then mret (inr (false, argv)) else
  '(r, uarg) ← fetchaddr (u64 (uargv + 8 * i));
  if r <? 0 then mret (inr (false, argv)) else
  if uarg =? 0 then mret (inr (true, argv)) else
  pg ← kalloc;
  if pg =? 0 then mret (inr (false, argv)) else
  '(r, bs) ← fetchstr uarg PGSIZE;
  mod_mem (fun m => mwrite m pg bs) ;;
  if r <? 0 then mret (inr (false, argv ++ [pg])) else
  mret (inl (i + 1, argv ++ [pg])).

(** [argv] has MAXARG entries, those not set being 0. *)
Definition sys_exec : K Z :=
  uargv ← argaddr 1;
  o ← argpath 0;
  match o with
  | None => mret (-1)
  | Some path =>
      '(ok, argv) ← loop (S (Z.to_nat MAXARG)) (fetch_args uargv) (0, []);
      ret ← (if ok : bool then exec path (argv ++ replicate (Z.to_nat MAXARG - length argv) 0) else mret (-1));
      for_each argv kfree ;;
      mret ret
  end.

Definition sys_pipe : K Z :=
  p ← myproc';
  fdarray ← argaddr 0;
  o ← pipealloc;
  match o with
  | None => mret (-1)
  | Some (rf, wf) =>
  fd0 ← fdalloc rf;
  if fd0 <? 0 then
    fileclose rf ;;
    fileclose wf ;;
    mret (-1)
  else
  fd1 ← fdalloc wf;
  if fd1 <? 0 then
    clear_fd p (Z.to_nat fd0) ;;
    fileclose rf ;;
    fileclose wf ;;
    mret (-1)
  else
  pr ← get_proc p;
  r ← copyout (p_pagetable pr) fdarray (le_bytes 4 fd0);
  r ← (if r <? 0 then mret r else copyout (p_pagetable pr) (u64 (fdarray + 4)) (le_bytes 4 fd1));
  if r <? 0 then
    clear_fd p (Z.to_nat fd0) ;;
    clear_fd p (Z.to_nat fd1) ;;
    fileclose rf ;;
    fileclose wf ;;
    mret (-1)
  else mret 0
  end.

End Sysfile.
