(* ===== verification/Syscall.v ===== *)
(** * kernel/sysproc.c and the dispatch of kernel/syscall.c *)

From stdpp Require Import base list gmap strings.
From Stdlib Require Import ZArith Lia.
From S2P Require Import Prelude Mem KString Riscv State Sched Kalloc Vm Format Printf Proc Fs Kvm ProcFs Sysfile.
Open Scope Z_scope.

Section Syscall.
Context {L : Layout} {U : Uninit}.

(** ** kernel/sysproc.c *)

Definition sys_exit : K Z :=
  n ← argint 0;
  exit n ;;
  mret 0.

Definition sys_getpid : K Z :=
  p ← myproc';
  pr ← get_proc p;
  mret (p_pid pr).

Definition sys_fork : K Z := fork.

Definition sys_wait : K Z :=
  p ← argaddr 0;
  wait p.

Definition sys_sbrk : K Z :=
  n ← argint 0;
  p ← myproc';
  pr ← get_proc p;
  let addr := p_sz pr in
  r ← growproc n;
  if r <? 0 then mret (-1) else mret addr.

(** [while(ticks - ticks0 < n)]: the comparison is unsigned. *)
Definition sys_sleep_step (n ticks0 : Z) (_ : unit) : K (unit + Z) :=
  t ← gets k_ticks;
  if u32 (t - ticks0) <? n then
    p ← myproc';
    k ← killed p;
    if negb (k =? 0) then
      release L_ticks ;;
      mret (inr (-1))
    else
      sleep Ch_ticks L_ticks ;;
      mret (inl tt)
  else
    release L_ticks ;;
    mret (inr 0).

Definition sys_sleep : K Z :=
  n ← argint 0;
  let n := if n <? 0 then 0 else n in
  acquire L_ticks ;;
  ticks0 ← gets k_ticks;
  fuel ← gets k_fuel;
  loop fuel (sys_sleep_step n ticks0) tt.

(** The function returns [int]: the PTE is cut to 32 bits and sign-extended. *)
Definition sys_pgpte : K Z :=
  p ← myproc';
  va ← argaddr 0;
  pr ← get_proc p;
  pte ← pgpte (p_pagetable pr) va;
  if negb (pte =? 0) then v ← ld64 pte; mret (s32 v) else mret 0.

Definition sys_kpgtbl : K Z :=
  p ← myproc';
  pr ← get_proc p;
  vmprint (p_pagetable pr) ;;
  mret 0.

Definition sys_kill : K Z :=
  pid ← argint 0;
  kill pid.

Definition sys_uptime : K Z :=
  acquire L_ticks ;;
  xticks ← gets k_ticks;
  release L_ticks ;;
  mret xticks.

Definition sys_vmprint : K Z :=
  a ← argaddr 0;
  vmprint a ;;
  mret 0.

(** One page of [sys_pgaccess].  [i] and [i * PGSIZE] are ints, and a shift by 64 or more is undefined. *)
Definition pgaccess_step (pagetable start_va numpages : Z) (a : Z * Z) : K ((Z * Z) + Z) :=
  let (i, mask) := a in
  if i <? numpages then
    if 2 ^ 31 <=? i * PGSIZE then fault "i * PGSIZE" else
    pte ← walk pagetable (u64 (start_va + i * PGSIZE)) false;
    if pte =? 0 then mret (inl (i + 1, mask)) else
    v ← ld64 pte;
    if has v PTE_A then
      if 64 <=? i then fault "1ULL << i" else
      st64 pte (Z.land v (Z.lnot PTE_A)) ;;
      mret (inl (i + 1, Z.lor mask (Z.shiftl 1 i)))
    else mret (inl (i + 1, mask))
  else mret (inr mask).

(** The tests [start_va < 0 || ...] are on unsigned values: never true. *)
Definition sys_pgaccess : K Z :=
  start_va ← argaddr 0;
  numpages ← argaddr 1;
  mask_user ← argaddr 2;
  p ← myproc';
  pr ← get_proc p;
  mask ← loop (S (Z.to_nat numpages)) (pgaccess_step (p_pagetable pr) start_va numpages) (0, 0);
  r ← copyout (p_pagetable pr) mask_user (le_bytes 8 mask);
  if r <? 0 then mret (-1) else mret 0.

(** ** kernel/syscall.c: dispatch *)

(** The table [syscalls], by number. *)
Definition syscalls (num : Z) : option (K Z) :=
  match num with
  | 1 => Some sys_fork
  | 2 => Some sys_exit
  | 3 => Some sys_wait
  | 4 => Some sys_pipe
  | 5 => Some sys_read
  | 6 => Some sys_kill
  | 7 => Some sys_exec
  | 8 => Some sys_fstat
  | 9 => Some sys_chdir
  | 10 => Some sys_dup
  | 11 => Some sys_getpid
  | 12 => Some sys_sbrk
  | 13 => Some sys_sleep
  | 14 => Some sys_uptime
  | 15 => Some sys_open
  | 16 => Some sys_write
  | 17 => Some sys_mknod
  | 18 => Some sys_unlink
  | 19 => Some sys_link
  | 20 => Some sys_mkdir
  | 21 => Some sys_close
  | 33 => Some sys_pgpte
  | 34 => Some sys_kpgtbl
  | 35 => Some sys_vmprint
  | 36 => Some sys_pgaccess
  | _ => None
  end.

(** The trapframe keeps its address over the call: only [exec] changes the page
    table, nothing the page. *)
Definition syscall : K unit :=
  p ← myproc';
  pr ← get_proc p;
  a7 ← ld64 (p_trapframe pr + tf_a7);
  let num := s32 a7 in
  match syscalls num with
  | Some f =>
      r ← f;
      pr ← get_proc p;
      st64 (p_trapframe pr + tf_a0) r
  | None =>
      printf (chars "%d %s: unknown sys call %d" ++ [10]) [ANum (p_pid pr); AStr (Some (cstr (p_name pr))); ANum num] ;;
      st64 (p_trapframe pr + tf_a0) (-1)
  end.

End Syscall.
