(* ===== verification/Asm.v ===== *)
(** * The assembly code

    trampoline.S, swtch.S, kernelvec.S, entry.S, the system-call stubs of usys.S
    and initcode.S, as lists of instructions over a machine with registers, the
    control registers the code uses, and RAM behind address translation.

    The page-table walk of the hardware, the addresses the linker gives symbols
    and the functions that are called are parameters.  The model has no TLB, so
    [sfence.vma] does nothing. *)

From stdpp Require Import base list gmap strings.
From Stdlib Require Import ZArith Lia.
From S2P Require Import Prelude Mem Riscv State Proc Sysfile Exec Syscall.
Open Scope Z_scope.

Module Asm.

(** ** The machine *)

Inductive reg :=
| zero | ra | sp | gp | tp | t0 | t1 | t2 | s0 | s1 | a0 | a1 | a2 | a3 | a4 | a5 | a6 | a7
| s2 | s3 | s4 | s5 | s6 | s7 | s8 | s9 | s10 | s11 | t3 | t4 | t5 | t6.
#[global] Instance reg_eq_dec : EqDecision reg.
Proof. solve_decision. Defined.

Inductive csr := satp | sscratch | mhartid.
#[global] Instance csr_eq_dec : EqDecision csr.
Proof. solve_decision. Defined.

Inductive instr :=
| SD (r : reg) (off : Z) (base : reg)
| LD (r : reg) (off : Z) (base : reg)
| LI (r : reg) (v : Z)
| LA (r : reg) (symbol : string)
| ADDI (r x : reg) (v : Z)
| ADD (r x y : reg)
| MUL (r x y : reg)
| CSRW (c : csr) (r : reg)
| CSRR (r : reg) (c : csr)
| SFENCE
| CALL (symbol : string)
| J (symbol : string)
| JAL (symbol next : string)
| JR (r : reg)
| RET
| SRET
| ECALL.

Record machine := mk_machine { regs : reg -> Z; csrs : csr -> Z; ram : mem }.

Definition get (m : machine) (r : reg) : Z := if decide (r = zero) then 0 else regs m r.
Definition upd {K} `{EqDecision K} (k : K) (v : Z) (f : K -> Z) : K -> Z := fun x => if decide (x = k) then v else f x.
Definition set_reg (r : reg) (v : Z) (m : machine) : machine := mk_machine (upd r (u64 v) (regs m)) (csrs m) (ram m).
Definition set_csr (c : csr) (v : Z) (m : machine) : machine := mk_machine (regs m) (upd c (u64 v) (csrs m)) (ram m).
Definition set_ram (v : mem) (m : machine) : machine := mk_machine (regs m) (csrs m) v.

(** What ends a run: the end of the list, a jump, a return to the mode and the
    address of [sepc], a system call with what follows it, or a page fault. *)
Inductive result :=
| Next (m : machine)
| Jumped (pc : Z) (m : machine)
| Sret (m : machine)
| Ecalled (m : machine) (rest : list instr)
| Faulted.

Section Run.
(** Physical address of a virtual one under a value of [satp]. *)
Variable translate : Z -> Z -> option Z.
(** Addresses of symbols. *)
Variable address : string -> Z.
(** A call of a function, up to its return: the link register is set before it. *)
Variable function : string -> machine -> option machine.

Definition translated (m : machine) (base : reg) (off : Z) : option Z := translate (csrs m satp) (u64 (get m base + off)).

Fixpoint run (l : list instr) (m : machine) : result :=
  match l with
  | [] => Next m
  | SD r off base :: k => match translated m base off with Some pa => run k (set_ram (store64 (ram m) pa (get m r)) m) | None => Faulted end
  | LD r off base :: k => match translated m base off with Some pa => run k (set_reg r (load64 (ram m) pa) m) | None => Faulted end
  | LI r v :: k => run k (set_reg r v m)
  | LA r s :: k => run k (set_reg r (address s) m)
  | ADDI r x v :: k => run k (set_reg r (get m x + v) m)
  | ADD r x y :: k => run k (set_reg r (get m x + get m y) m)
  | MUL r x y :: k => run k (set_reg r (get m x * get m y) m)
  | CSRW c r :: k => run k (set_csr c (get m r) m)
  | CSRR r c :: k => run k (set_reg r (csrs m c) m)
  | SFENCE :: k => run k m
  | CALL s :: k => match function s m with Some m' => run k m' | None => Faulted end
  | J s :: _ => Jumped (address s) m
  | JAL s next :: _ => Jumped (address s) (set_reg ra (address next) m)
  | JR r :: _ => Jumped (get m r) m
  | RET :: _ => Jumped (get m ra) m
  | SRET :: _ => Sret m
  | ECALL :: k => Ecalled m k
  end.
End Run.

(** ** The code *)

Definition uservec : list instr :=
  [CSRW sscratch a0; LI a0 TRAPFRAME; SD ra 40 a0; SD sp 48 a0; SD gp 56 a0; SD tp 64 a0; SD t0 72 a0;
   SD t1 80 a0; SD t2 88 a0; SD s0 96 a0; SD s1 104 a0; SD a1 120 a0; SD a2 128 a0; SD a3 136 a0;
   SD a4 144 a0; SD a5 152 a0; SD a6 160 a0; SD a7 168 a0; SD s2 176 a0; SD s3 184 a0; SD s4 192 a0;
   SD s5 200 a0; SD s6 208 a0; SD s7 216 a0; SD s8 224 a0; SD s9 232 a0; SD s10 240 a0; SD s11 248 a0;
   SD t3 256 a0; SD t4 264 a0; SD t5 272 a0; SD t6 280 a0; CSRR t0 sscratch; SD t0 112 a0; LD sp 8 a0;
   LD tp 32 a0; LD t0 16 a0; LD t1 0 a0; SFENCE; CSRW satp t1; SFENCE; JR t0].

Definition userret : list instr :=
  [SFENCE; CSRW satp a0; SFENCE; LI a0 TRAPFRAME; LD ra 40 a0;
   LD sp 48 a0; LD gp 56 a0; LD tp 64 a0; LD t0 72 a0; LD t1 80 a0; LD t2 88 a0; LD s0 96 a0; LD s1 104 a0;
   LD a1 120 a0; LD a2 128 a0; LD a3 136 a0; LD a4 144 a0; LD a5 152 a0; LD a6 160 a0; LD a7 168 a0;
   LD s2 176 a0; LD s3 184 a0; LD s4 192 a0; LD s5 200 a0; LD s6 208 a0; LD s7 216 a0; LD s8 224 a0;
   LD s9 232 a0; LD s10 240 a0; LD s11 248 a0; LD t3 256 a0; LD t4 264 a0; LD t5 272 a0; LD t6 280 a0;
   LD a0 112 a0; SRET].

Definition swtch : list instr :=
  [SD ra 0 a0; SD sp 8 a0; SD s0 16 a0; SD s1 24 a0; SD s2 32 a0; SD s3 40 a0; SD s4 48 a0; SD s5 56 a0;
   SD s6 64 a0; SD s7 72 a0; SD s8 80 a0; SD s9 88 a0; SD s10 96 a0; SD s11 104 a0; LD ra 0 a1; LD sp 8 a1;
   LD s0 16 a1; LD s1 24 a1; LD s2 32 a1; LD s3 40 a1; LD s4 48 a1; LD s5 56 a1; LD s6 64 a1; LD s7 72 a1;
   LD s8 80 a1; LD s9 88 a1; LD s10 96 a1; LD s11 104 a1; RET].

Definition kernelvec : list instr :=
  [ADDI sp sp (-256); SD ra 0 sp; SD sp 8 sp; SD gp 16 sp; SD tp 24 sp; SD t0 32 sp; SD t1 40 sp;
   SD t2 48 sp; SD a0 72 sp; SD a1 80 sp; SD a2 88 sp; SD a3 96 sp; SD a4 104 sp; SD a5 112 sp; SD a6 120 sp;
   SD a7 128 sp; SD t3 216 sp; SD t4 224 sp; SD t5 232 sp; SD t6 240 sp; CALL "kerneltrap"; LD ra 0 sp;
   LD sp 8 sp; LD gp 16 sp; LD t0 32 sp; LD t1 40 sp; LD t2 48 sp; LD a0 72 sp; LD a1 80 sp; LD a2 88 sp;
   LD a3 96 sp; LD a4 104 sp; LD a5 112 sp; LD a6 120 sp; LD a7 128 sp; LD t3 216 sp; LD t4 224 sp;
   LD t5 232 sp; LD t6 240 sp; ADDI sp sp 256; SRET].

Definition _entry : list instr :=
  [LA sp "stack0"; LI a0 (1024 * 4); CSRR a1 mhartid; ADDI a1 a1 1; MUL a0 a0 a1; ADD sp sp a0; CALL "start"; J "spin"].

(** One stub of usys.S. *)
Definition stub (n : Z) : list instr := [LI a7 n; ECALL; RET].
Definition usys : list (string * Z) :=
  [("fork", 1); ("exit", 2); ("wait", 3); ("pipe", 4); ("read", 5); ("write", 16); ("close", 21); ("kill", 6); ("exec", 7);
   ("open", 15); ("mknod", 17); ("unlink", 18); ("fstat", 8); ("link", 19); ("mkdir", 20); ("chdir", 9); ("dup", 10);
   ("getpid", 11); ("sbrk", 12); ("sleep", 13); ("uptime", 14); ("bind", 29); ("unbind", 30); ("send", 31); ("recv", 32);
   ("pgpte", 33); ("kpgtbl", 34); ("pgaccess", 36)]%string.
(** The whole of usys.S: the code at each label. *)
Definition usys_S : list (string * list instr) := (fun '(name, n) => (name, stub n)) <$> usys.

(** initcode.S: [start], and the loop at [exit]; the string [init] follows the jump. *)
Definition start : list instr := [LA a0 "init"; LA a1 "argv"; LI a7 7; ECALL].
Definition exit : list instr := [LI a7 2; ECALL; JAL "exit" "init"].

(** ** Where registers are kept *)

(** The user registers in [struct trapframe]. *)
Definition frame : list (reg * Z) :=
  [(ra, 40); (sp, 48); (gp, 56); (tp, 64); (t0, 72); (t1, 80); (t2, 88); (s0, 96); (s1, 104); (a0, 112); (a1, 120); (a2, 128); (a3, 136);
   (a4, 144); (a5, 152); (a6, 160); (a7, 168); (s2, 176); (s3, 184); (s4, 192); (s5, 200); (s6, 208); (s7, 216); (s8, 224); (s9, 232);
   (s10, 240); (s11, 248); (t3, 256); (t4, 264); (t5, 272); (t6, 280)].
(** [struct context]. *)
Definition context_frame : list (reg * Z) :=
  [(ra, 0); (sp, 8); (s0, 16); (s1, 24); (s2, 32); (s3, 40); (s4, 48); (s5, 56); (s6, 64); (s7, 72); (s8, 80); (s9, 88); (s10, 96); (s11, 104)].

(** ** Saving and restoring *)

Definition saves (base : reg) (l : list (reg * Z)) : list instr := (fun x => SD x.1 x.2 base) <$> l.
Definition loads (base : reg) (l : list (reg * Z)) : list instr := (fun x => LD x.1 x.2 base) <$> l.
Definition save (pa : Z) (l : list (reg * Z)) (g : reg -> Z) (mm : mem) : mem := foldl (fun mm x => store64 mm (pa + x.2) (g x.1)) mm l.
Definition restore (pa : Z) (l : list (reg * Z)) (mm : mem) (g : reg -> Z) : reg -> Z := foldl (fun g x => upd x.1 (load64 mm (pa + x.2)) g) g l.

Lemma upd_eq {K} `{EqDecision K} (k : K) v f : upd k v f k = v.
Proof. unfold upd. by rewrite decide_True. Qed.
Lemma upd_ne {K} `{EqDecision K} (k : K) v f x : x <> k -> upd k v f x = f x.
Proof. intros H. unfold upd. by rewrite decide_False. Qed.

Definition aligned (l : list (reg * Z)) : Prop := Forall (fun x => x.2 mod 8 = 0) l.

Lemma save_other pa l g o : forall mm, pa mod 8 = 0 -> o mod 8 = 0 -> aligned l -> o ∉ l.*2 -> load64 (save pa l g mm) (pa + o) = load64 mm (pa + o).
Proof.
  induction l as [|[r o'] l IH]; intros mm Hp Ho Ha Hn; [done|]. apply Forall_cons in Ha as [Ha Hal]. cbn in Hn, Ha. apply not_elem_of_cons in Hn as [Hne Hn].
  cbn [save foldl fst snd]. unfold save in IH. rewrite IH by done. apply load64_store64_ne; [divlia|divlia|lia].
Qed.

Lemma save_get pa l g r o : forall mm, pa mod 8 = 0 -> aligned l -> NoDup l.*2 -> (r, o) ∈ l -> load64 (save pa l g mm) (pa + o) = u64 (g r).
Proof.
  induction l as [|[r' o'] l IH]; intros mm Hp Ha Hnd Hin; [by apply not_elem_of_nil in Hin|]. pose proof Ha as Ha'. apply Forall_cons in Ha as [Ha Hal].
  cbn in Hnd. apply NoDup_cons in Hnd as [Hn Hnd]. apply elem_of_cons in Hin as [[= -> ->]|Hin].
  - change (load64 (save pa l g (store64 mm (pa + o') (g r'))) (pa + o') = u64 (g r')). rewrite save_other by done. apply load64_store64.
  - exact (IH (store64 mm (pa + o') (g r')) Hp Hal Hnd Hin).
Qed.

Lemma save_out pa l g x : forall mm, (forall o, o ∈ l.*2 -> x < pa + o \/ pa + o + 8 <= x) -> mget (save pa l g mm) x = mget mm x.
Proof.
  induction l as [|[r o] l IH]; intros mm Hx; [done|]. change (mget (save pa l g (store64 mm (pa + o) (g r))) x = mget mm x).
  rewrite IH by (intros o' Ho'; apply Hx; by apply list_elem_of_further). apply mget_store. apply (Hx o). apply list_elem_of_here.
Qed.

Lemma restore_other pa l mm r : forall g, r ∉ l.*1 -> restore pa l mm g r = g r.
Proof.
  induction l as [|[r' o] l IH]; intros g Hn; [done|]. cbn in Hn. apply not_elem_of_cons in Hn as [Hne Hn].
  change (restore pa l mm (upd r' (load64 mm (pa + o)) g) r = g r). rewrite IH by done. by apply upd_ne.
Qed.

Lemma restore_get pa l mm r o : forall g, NoDup l.*1 -> (r, o) ∈ l -> restore pa l mm g r = load64 mm (pa + o).
Proof.
  induction l as [|[r' o'] l IH]; intros g Hnd Hin; [by apply not_elem_of_nil in Hin|]. cbn in Hnd. apply NoDup_cons in Hnd as [Hn Hnd].
  apply elem_of_cons in Hin as [[= -> ->]|Hin].
  - change (restore pa l mm (upd r' (load64 mm (pa + o')) g) r' = load64 mm (pa + o')). rewrite restore_other by done. apply upd_eq.
  - exact (IH (upd r' (load64 mm (pa + o')) g) Hnd Hin).
Qed.

Section Props.
Context (translate : Z -> Z -> option Z) (address : string -> Z) (function : string -> machine -> option machine).
Abbreviation run := (run translate address function).

(** The words at [base] of a structure at physical address [pa]. *)
Definition mapped (m : machine) (base : reg) (pa : Z) (l : list (reg * Z)) : Prop := Forall (fun x => translated translate m base x.2 = Some (pa + x.2)) l.

Lemma run_saves base pa l k : forall m, mapped m base pa l -> run (saves base l ++ k) m = run k (set_ram (save pa l (get m) (ram m)) m).
Proof.
  induction l as [|[r o] l IH]; intros m Hm; [by destruct m|]. apply Forall_cons in Hm as [Ho Hm]. cbn [fst snd] in Ho.
  cbn [saves fmap list_fmap app]. cbn [Asm.run fst snd]. rewrite Ho. fold (saves base l). rewrite IH; [done|]. exact Hm.
Qed.

Lemma run_loads base pa l k : forall m, mapped m base pa l -> base ∉ l.*1 ->
  run (loads base l ++ k) m = run k (mk_machine (restore pa l (ram m) (regs m)) (csrs m) (ram m)).
Proof.
  induction l as [|[r o] l IH]; intros m Hm Hb; [by destruct m|]. apply Forall_cons in Hm as [Ho Hm]. cbn [fst snd] in Ho.
  cbn [fmap list_fmap fst] in Hb. apply not_elem_of_cons in Hb as [Hne Hb]. cbn [loads fmap list_fmap app]. cbn [Asm.run fst snd]. rewrite Ho. fold (loads base l). rewrite IH; [|..].
  - cbn [set_reg regs csrs ram]. rewrite (u64_small (load64 _ _)); [done|]. apply (load_range 8).
  - eapply Forall_impl; [exact Hm|]. intros [r' o'] H. cbn [fst snd] in *. rewrite <- H. unfold translated, get. cbn [set_reg regs csrs].
    by rewrite (upd_ne r _ _ base) by done.
  - done.
Qed.

Lemma run_ld r off base k m pa : translated translate m base off = Some pa ->
  run (LD r off base :: k) m = run k (mk_machine (upd r (load64 (ram m) pa) (regs m)) (csrs m) (ram m)).
Proof. intros E. cbn [Asm.run]. rewrite E. unfold set_reg. rewrite u64_small; [done|]. apply (load_range 8). Qed.

Lemma run_addi r x v k m : run (ADDI r x v :: k) m = run k (set_reg r (get m x + v) m).
Proof. reflexivity. Qed.
Lemma run_call s k m m' : function s m = Some m' -> run (CALL s :: k) m = run k m'.
Proof. intros E. cbn [Asm.run]. by rewrite E. Qed.

(** ** Traps from user space *)

(** All but a0, which the code moves through sscratch. *)
Definition frame1 : list (reg * Z) := filter (fun x => x.1 <> a0) frame.

Lemma frame1_frame r o : (r, o) ∈ frame1 <-> (r, o) ∈ frame /\ r <> a0.
Proof. unfold frame1. rewrite list_elem_of_filter. cbn. tauto. Qed.
Lemma frame_offset r o : (r, o) ∈ frame -> 40 <= o /\ o + 8 <= 288 /\ o mod 8 = 0.
Proof.
  intros H. assert (Hall : Forall (fun x : reg * Z => 40 <= x.2 /\ x.2 + 8 <= 288 /\ x.2 mod 8 = 0) frame) by (repeat constructor; done).
  rewrite Forall_forall in Hall. exact (Hall _ H).
Qed.
Lemma frame_all r : r <> zero -> exists o, (r, o) ∈ frame.
Proof.
  intros Hr. exists (default 0 (snd ∘ snd <$> list_find (fun x => x.1 = r) frame)). apply (bool_decide_unpack _). destruct r; [done|vm_compute; exact I..].
Qed.

Definition enter : list instr :=
  [CSRR t0 sscratch; SD t0 112 a0; LD sp 8 a0; LD tp 32 a0; LD t0 16 a0; LD t1 0 a0; SFENCE; CSRW satp t1; SFENCE; JR t0].
Lemma uservec_eq : uservec = CSRW sscratch a0 :: LI a0 TRAPFRAME :: saves a0 frame1 ++ enter.
Proof. reflexivity. Qed.
Lemma userret_eq : userret = SFENCE :: CSRW satp a0 :: SFENCE :: LI a0 TRAPFRAME :: loads a0 frame1 ++ [LD a0 112 a0; SRET].
Proof. reflexivity. Qed.

Section Trap.
Context (us tf : Z).
Hypothesis Hus : 0 <= us < 2 ^ 64.
Hypothesis Htf : tf mod 8 = 0.
(** The page table of the process maps its trapframe at TRAPFRAME. *)
Hypothesis Hmap : forall o, 0 <= o < PGSIZE -> translate us (TRAPFRAME + o) = Some (tf + o).

Lemma at_trapframe m off : regs m a0 = TRAPFRAME -> csrs m satp = us -> 0 <= off < 4096 -> translated translate m a0 off = Some (tf + off).
Proof.
  intros Ha Hs Ho. unfold translated, get. rewrite decide_False by done. rewrite Ha, Hs, u64_small by (change TRAPFRAME with 274877898752; lia). by apply Hmap.
Qed.

Lemma frame1_mapped m : regs m a0 = TRAPFRAME -> csrs m satp = us -> mapped m a0 tf frame1.
Proof.
  intros Ha Hs. apply Forall_forall. intros [r o] Hin. apply frame1_frame in Hin as [Hin _]. apply frame_offset in Hin. cbn [snd]. apply at_trapframe; [done|done|lia].
Qed.

Definition saved_ram (m : machine) : mem := save tf (frame1 ++ [(a0, 112)]) (get m) (ram m).

Lemma uservec_run m : (forall r, 0 <= regs m r < 2 ^ 64) -> csrs m satp = us ->
  exists m1, run uservec m = Jumped (load64 (saved_ram m) (tf + 16)) m1 /\ ram m1 = saved_ram m /\
    regs m1 sp = load64 (saved_ram m) (tf + 8) /\ regs m1 tp = load64 (saved_ram m) (tf + 32) /\ csrs m1 satp = load64 (saved_ram m) (tf + 0).
Proof.
  intros Hr Hs. set (m0 := set_reg a0 TRAPFRAME (set_csr sscratch (get m a0) m)).
  rewrite uservec_eq. cbn [Asm.run]. fold m0. rewrite (run_saves a0 tf) by (apply frame1_mapped; done).
  set (M := save tf frame1 (get m0) (ram m0)). set (mC := set_ram (store64 M (tf + 112) (u64 (u64 (get m a0)))) (set_reg t0 (u64 (get m a0)) (set_ram M m0))).
  assert (Eram : ram mC = saved_ram m).
  { cbn [mC set_ram ram]. unfold saved_ram, save. rewrite foldl_app. cbn [foldl fst snd]. rewrite !u64_u64, u64_small by (unfold get; rewrite decide_False by done; apply Hr). reflexivity. }
  assert (Ha : regs mC a0 = TRAPFRAME) by reflexivity. assert (Hc : csrs mC satp = us) by exact Hs.
  assert (Etail : run enter (set_ram M m0) = run (drop 2 enter) mC).
  { unfold enter. cbn [Asm.run]. rewrite at_trapframe by done. reflexivity. }
  rewrite Etail. clearbody mC. cbn [enter drop]. rewrite (run_ld sp 8 a0 _ mC (tf + 8)) by (apply at_trapframe; done).
  rewrite (run_ld tp 32 a0 _ _ (tf + 32)) by (apply at_trapframe; done). rewrite (run_ld t0 16 a0 _ _ (tf + 16)) by (apply at_trapframe; done).
  rewrite (run_ld t1 0 a0 _ _ (tf + 0)) by (apply at_trapframe; done). cbn [ram regs csrs]. rewrite Eram.
  eexists. split; [reflexivity|]. split_and!; try reflexivity. cbn [set_csr csrs]. rewrite upd_eq. unfold get. rewrite decide_False by done. cbn [regs].
  rewrite upd_eq. apply u64_small. apply (load_range 8).
Qed.

Lemma userret_run m : regs m a0 = us ->
  exists m3, run userret m = Sret m3 /\ ram m3 = ram m /\ csrs m3 satp = us /\ forall r o, (r, o) ∈ frame -> regs m3 r = load64 (ram m) (tf + o).
Proof.
  intros Ha. set (m0 := set_reg a0 TRAPFRAME (set_csr satp (get m a0) m)).
  assert (Hc0 : csrs m0 satp = us) by (cbn [m0 set_reg set_csr csrs]; rewrite upd_eq; unfold get; rewrite decide_False by done; rewrite Ha; by apply u64_small).
  rewrite userret_eq. cbn [Asm.run]. fold m0. assert (Hn : a0 ∉ frame1.*1) by (apply (bool_decide_unpack _); vm_compute; exact I).
  rewrite (run_loads a0 tf); [|by apply frame1_mapped|done].
  rewrite (run_ld a0 112 a0 _ _ (tf + 112)); [|apply at_trapframe; [cbn [regs]; by rewrite restore_other by done|done|lia]].
  cbn [Asm.run regs csrs ram m0 set_reg set_csr]. eexists. split; [reflexivity|]. cbn [regs csrs ram]. split; [done|]. split; [exact Hc0|].
  intros r o Hin. destruct (decide (r = a0)) as [->|Hne].
  - rewrite upd_eq. assert (Ho : o = 112); [|by rewrite Ho]. unfold frame in Hin. repeat (apply elem_of_cons in Hin as [Hin|Hin]; [congruence|]). by apply not_elem_of_nil in Hin.
  - rewrite upd_ne by done. apply restore_get; [apply (bool_decide_unpack _); vm_compute; exact I|]. by apply frame1_frame.
Qed.

(** C11: a trap from user space loses nothing.  uservec saves the 31 registers of the user in the trapframe where struct trapframe
    has them, writes nowhere else, and enters the kernel at kernel_trap with the kernel's stack, hart id and page table; whatever
    the kernel then does with the other fields, userret, called with the page table of the process, returns to user mode with every
    register as it was but a0, which holds what the trapframe has for it (the result of a system call). *)
Theorem trap_roundtrip m : (forall r, 0 <= regs m r < 2 ^ 64) -> csrs m satp = us ->
  exists m1, run uservec m = Jumped (load64 (ram m) (tf + tf_kernel_trap)) m1 /\
    regs m1 sp = load64 (ram m) (tf + tf_kernel_sp) /\ regs m1 tp = load64 (ram m) (tf + tf_kernel_hartid) /\
    csrs m1 satp = load64 (ram m) (tf + tf_kernel_satp) /\
    (forall r o, (r, o) ∈ frame -> load64 (ram m1) (tf + o) = regs m r) /\
    (forall x, ~ (tf + 40 <= x < tf + 288) -> mget (ram m1) x = mget (ram m) x) /\
    forall m2, regs m2 a0 = us -> (forall r o, (r, o) ∈ frame -> r <> a0 -> load64 (ram m2) (tf + o) = load64 (ram m1) (tf + o)) ->
      exists m3, run userret m2 = Sret m3 /\ ram m3 = ram m2 /\ csrs m3 satp = us /\ regs m3 a0 = load64 (ram m2) (tf + tf_a0) /\
        forall r, r <> zero -> r <> a0 -> regs m3 r = regs m r.
Proof.
  intros Hr Hs. destruct (uservec_run m Hr Hs) as (m1 & R1 & Hram & Hsp & Htp & Hsatp).
  assert (Hk : forall o, o mod 8 = 0 -> o < 40 -> load64 (saved_ram m) (tf + o) = load64 (ram m) (tf + o)).
  { intros o Ho Hlt. apply save_other; [done|done|repeat constructor|]. intros Hin. apply list_elem_of_fmap in Hin as ([r o'] & -> & Hin).
    apply elem_of_app in Hin as [[Hin _]%frame1_frame|Hin%list_elem_of_singleton]; [apply frame_offset in Hin; cbn in Hlt; lia|by simplify_eq]. }
  assert (Hget : forall r o, (r, o) ∈ frame -> load64 (ram m1) (tf + o) = regs m r).
  { intros r o Hin. rewrite Hram. unfold saved_ram. rewrite (save_get tf _ (get m) r o); [|done|repeat constructor|apply (bool_decide_unpack _); vm_compute; exact I|].
    - unfold get. rewrite decide_False; [by apply u64_small|]. intros ->. unfold frame in Hin. repeat (apply elem_of_cons in Hin as [Hin|Hin]; [congruence|]). by apply not_elem_of_nil in Hin.
    - clear - Hin. unfold frame in Hin. repeat (apply elem_of_cons in Hin as [->|Hin]; [apply (bool_decide_unpack _); vm_compute; exact I|]). by apply not_elem_of_nil in Hin. }
  exists m1. rewrite R1, Hsp, Htp, Hsatp, !Hk by done. do 4 (split; [done|]). split; [done|]. split.
  - intros x Hx. rewrite Hram. apply save_out. intros o Hin. apply list_elem_of_fmap in Hin as ([r o'] & -> & Hin).
    apply elem_of_app in Hin as [[Hin _]%frame1_frame|Hin%list_elem_of_singleton]; [apply frame_offset in Hin; cbn [snd]; lia|simplify_eq; cbn [snd]; lia].
  - intros m2 Ha Hfr. destruct (userret_run m2 Ha) as (m3 & R3 & Hram3 & Hs3 & Hreg). exists m3. do 3 (split; [done|]). split.
    + apply Hreg. apply (bool_decide_unpack _); vm_compute; exact I.
    + intros r Hz Hne. destruct (frame_all r Hz) as [o Hin]. rewrite (Hreg r o Hin), (Hfr r o Hin Hne). by apply Hget.
Qed.
End Trap.

(** ** Context switches *)

(** [n] bytes at [a] are mapped at their own address, as in the kernel page table. *)
Definition direct (sat a n : Z) : Prop := forall o, 0 <= o < n -> translate sat (a + o) = Some (a + o).
(** A context at [c]: aligned, in the address space, mapped. *)
Record context_at (sat c : Z) : Prop := {
  ca_align : c mod 8 = 0;
  ca_range : 0 <= c < 2 ^ 64 - 112;
  ca_direct : direct sat c 112
}.
Definition apart (c c' : Z) : Prop := c + 112 <= c' \/ c' + 112 <= c.

Lemma context_offset r o : (r, o) ∈ context_frame -> 0 <= o /\ o + 8 <= 112 /\ o mod 8 = 0.
Proof.
  intros H. assert (Hall : Forall (fun x : reg * Z => 0 <= x.2 /\ x.2 + 8 <= 112 /\ x.2 mod 8 = 0) context_frame) by (repeat constructor; done).
  rewrite Forall_forall in Hall. exact (Hall _ H).
Qed.

Lemma context_mapped m base c : base <> zero -> regs m base = c -> context_at (csrs m satp) c -> mapped m base c context_frame.
Proof.
  intros Hb Hc [H1 H2 H3]. apply Forall_forall. intros [r o] Hin. apply context_offset in Hin. cbn [snd]. unfold translated, get.
  rewrite decide_False by done. rewrite Hc, u64_small by lia. apply H3. lia.
Qed.

Lemma swtch_eq : swtch = saves a0 context_frame ++ loads a1 context_frame ++ [RET].
Proof. reflexivity. Qed.

Lemma swtch_run m old new : (forall r, 0 <= regs m r < 2 ^ 64) -> regs m a0 = old -> regs m a1 = new ->
  context_at (csrs m satp) old -> context_at (csrs m satp) new -> apart old new ->
  exists m1, run swtch m = Jumped (load64 (ram m) new) m1 /\ csrs m1 = csrs m /\
    (forall r o, (r, o) ∈ context_frame -> regs m1 r = load64 (ram m) (new + o)) /\ (forall r, r ∉ context_frame.*1 -> regs m1 r = regs m r) /\
    (forall r o, (r, o) ∈ context_frame -> load64 (ram m1) (old + o) = regs m r) /\ (forall x, ~ (old <= x < old + 112) -> mget (ram m1) x = mget (ram m) x).
Proof.
  intros Hr H0 H1 Ho Hn Hap. rewrite swtch_eq, (run_saves a0 old) by (apply context_mapped; done).
  set (M := save old context_frame (get m) (ram m)). assert (Hout : forall x, ~ (old <= x < old + 112) -> mget M x = mget (ram m) x).
  { intros x Hx. apply save_out. intros o Hin. apply list_elem_of_fmap in Hin as ([r o'] & -> & Hin). apply context_offset in Hin. cbn [snd]. lia. }
  assert (Hnew : forall r o, (r, o) ∈ context_frame -> load64 M (new + o) = load64 (ram m) (new + o)).
  { intros r o Hin. apply context_offset in Hin. apply load_ext. intros i Hi. apply Hout. unfold apart in Hap. lia. }
  rewrite (run_loads a1 new); [|apply context_mapped; done|apply (bool_decide_unpack _); vm_compute; exact I]. cbn [set_ram regs csrs ram].
  assert (Hnd : NoDup context_frame.*1) by (apply (bool_decide_unpack _); vm_compute; exact I).
  assert (Hreg : forall r o, (r, o) ∈ context_frame -> restore new context_frame M (regs m) r = load64 (ram m) (new + o)).
  { intros r o Hin. rewrite (restore_get new _ M r o) by done. by apply (Hnew r). }
  eexists. split.
  - cbn [Asm.run]. unfold get. rewrite decide_False by done. cbn [regs]. rewrite (Hreg ra 0), Z.add_0_r by apply list_elem_of_here. reflexivity.
  - cbn [regs csrs ram]. split; [done|]. split; [done|]. split; [intros r Hin; by apply restore_other|]. split; [|done].
    intros r o Hin. unfold M. rewrite (save_get old _ (get m) r o); [|apply Ho|repeat constructor|apply (bool_decide_unpack _); vm_compute; exact I|done].
    unfold get. rewrite decide_False; [by apply u64_small|]. intros ->. assert (Hz : zero ∈ context_frame.*1) by (apply list_elem_of_fmap; by exists (zero, o)).
    revert Hz. apply (bool_decide_unpack _). vm_compute. exact I.
Qed.

(** C16: swtch suspends a thread of the kernel and resumes it.  It saves the return address, the stack pointer and the callee-saved
    registers in the old context, loads them from the new one, changes no other register and no other memory, and jumps to the new
    context's return address; when a later swtch from any other context is given that old context, unchanged in between, it returns
    to where the first one was called, with the stack pointer and the callee-saved registers of that time. *)
Theorem swtch_resumes m old new : (forall r, 0 <= regs m r < 2 ^ 64) -> regs m a0 = old -> regs m a1 = new ->
  context_at (csrs m satp) old -> context_at (csrs m satp) new -> apart old new ->
  exists m1, run swtch m = Jumped (load64 (ram m) new) m1 /\ csrs m1 = csrs m /\
    (forall r o, (r, o) ∈ context_frame -> regs m1 r = load64 (ram m) (new + o)) /\ (forall r, r ∉ context_frame.*1 -> regs m1 r = regs m r) /\
    (forall x, ~ (old <= x < old + 112) -> mget (ram m1) x = mget (ram m) x) /\
    forall m2 cur, (forall r, 0 <= regs m2 r < 2 ^ 64) -> regs m2 a0 = cur -> regs m2 a1 = old ->
      context_at (csrs m2 satp) cur -> context_at (csrs m2 satp) old -> apart cur old ->
      (forall x, old <= x < old + 112 -> mget (ram m2) x = mget (ram m1) x) ->
      exists m3, run swtch m2 = Jumped (regs m ra) m3 /\ forall r, r ∈ context_frame.*1 -> regs m3 r = regs m r.
Proof.
  intros Hr H0 H1 Ho Hn Hap. destruct (swtch_run m old new Hr H0 H1 Ho Hn Hap) as (m1 & R1 & Hc & Hnew & Hoth & Hold & Hout).
  exists m1. do 5 (split; [done|]). intros m2 cur Hr2 H02 H12 Hc2 Ho2 Hap2 Hsame.
  destruct (swtch_run m2 cur old Hr2 H02 H12 Hc2 Ho2 Hap2) as (m3 & R3 & _ & Hnew3 & _).
  assert (Hld : forall r o, (r, o) ∈ context_frame -> load64 (ram m2) (old + o) = regs m r).
  { intros r o Hin. rewrite <- (Hold r o Hin). apply context_offset in Hin. apply load_ext. intros i Hi. apply Hsame. lia. }
  exists m3. split.
  - rewrite R3. f_equal. rewrite <- (Z.add_0_r old). apply Hld. apply list_elem_of_here.
  - intros r Hin. apply list_elem_of_fmap in Hin as ([r' o] & -> & Hin). cbn [fst]. rewrite (Hnew3 _ _ Hin). by apply Hld.
Qed.

(** ** Traps from the kernel *)

Definition kv_saved : list (reg * Z) :=
  [(ra, 0); (sp, 8); (gp, 16); (tp, 24); (t0, 32); (t1, 40); (t2, 48); (a0, 72); (a1, 80); (a2, 88); (a3, 96); (a4, 104); (a5, 112); (a6, 120);
   (a7, 128); (t3, 216); (t4, 224); (t5, 232); (t6, 240)].
Definition kv_rest : list (reg * Z) := filter (fun x => x.1 <> ra /\ x.1 <> sp /\ x.1 <> tp) kv_saved.
Lemma kernelvec_eq : kernelvec = ADDI sp sp (-256) :: saves sp kv_saved ++ CALL "kerneltrap" :: loads sp [(ra, 0)] ++ LD sp 8 sp :: loads sp kv_rest ++ [ADDI sp sp 256; SRET].
Proof. reflexivity. Qed.

Lemma kv_offset r o : (r, o) ∈ kv_saved -> 0 <= o /\ o + 8 <= 256 /\ o mod 8 = 0.
Proof.
  intros H. assert (Hall : Forall (fun x : reg * Z => 0 <= x.2 /\ x.2 + 8 <= 256 /\ x.2 mod 8 = 0) kv_saved) by (repeat constructor; done).
  rewrite Forall_forall in Hall. exact (Hall _ H).
Qed.

(** What a C function keeps: the stack pointer, gp and the callee-saved registers. *)
Definition kept : list reg := [sp; gp; s0; s1; s2; s3; s4; s5; s6; s7; s8; s9; s10; s11].

Section KernelTrap.
Context (stack pa : Z) (m : machine).
Hypothesis Hwf : forall r, 0 <= regs m r < 2 ^ 64.
Hypothesis Hsp : regs m sp = stack + 256.
Hypothesis Hstack : 0 <= stack.
Hypothesis Hpa : pa mod 8 = 0.
(** The 256 bytes below the stack pointer are mapped, at [pa]. *)
Hypothesis Hmap : forall o, 0 <= o < 256 -> translate (csrs m satp) (stack + o) = Some (pa + o).
(** kerneltrap follows the calling convention, and keeps the frame of its caller. *)
Hypothesis Hkt : forall m0, regs m0 sp = stack -> exists m', function "kerneltrap" m0 = Some m' /\ csrs m' satp = csrs m0 satp /\
  (forall r, r ∈ kept -> regs m' r = regs m0 r) /\ forall x, pa <= x < pa + 256 -> mget (ram m') x = mget (ram m0) x.

Lemma on_stack m1 off : regs m1 sp = stack -> csrs m1 satp = csrs m satp -> 0 <= off -> off + 8 <= 256 -> translated translate m1 sp off = Some (pa + off).
Proof.
  intros H1 H2 H3 H4. unfold translated, get. rewrite decide_False by done. pose proof (Hwf sp). rewrite H1, H2, u64_small by lia. apply Hmap. lia.
Qed.
Lemma stack_mapped m1 l : regs m1 sp = stack -> csrs m1 satp = csrs m satp -> (forall x, x ∈ l -> x ∈ kv_saved) -> mapped m1 sp pa l.
Proof. intros H1 H2 Hl. apply Forall_forall. intros [r o] Hin. apply Hl, kv_offset in Hin. cbn [snd]. apply on_stack; try done; lia. Qed.

Definition kv_tail : list instr := loads sp [(ra, 0)] ++ LD sp 8 sp :: loads sp kv_rest ++ [ADDI sp sp 256; SRET].

Lemma kv_enter : let m00 := set_reg sp stack m in
  run kernelvec m = run (CALL "kerneltrap" :: kv_tail) (set_ram (save pa kv_saved (get m00) (ram m00)) m00).
Proof.
  intros m00. rewrite kernelvec_eq. fold kv_tail. assert (Eg : get m sp + -256 = stack) by (unfold get; rewrite decide_False by done; lia).
  rewrite run_addi, Eg. fold m00.
  apply (run_saves sp pa). apply stack_mapped; [|done|done]. cbn [m00 set_reg regs]. rewrite upd_eq. pose proof (Hwf sp). apply u64_small. lia.
Qed.

Lemma kv_leave m' : regs m' sp = stack -> csrs m' satp = csrs m satp -> load64 (ram m') (pa + 8) = stack ->
  let g := restore pa kv_rest (ram m') (upd sp stack (upd ra (load64 (ram m') (pa + 0)) (regs m'))) in
  run kv_tail m' = Sret (set_reg sp (stack + 256) (mk_machine g (csrs m') (ram m'))).
Proof.
  intros Hs Hc Hl g. unfold kv_tail. assert (Hspr : sp ∉ kv_rest.*1) by (apply (bool_decide_unpack _); vm_compute; exact I).
  rewrite (run_loads sp pa); [|apply stack_mapped; [done|done|intros x ->%list_elem_of_singleton; apply list_elem_of_here]|apply (bool_decide_unpack _); vm_compute; exact I].
  set (m1 := mk_machine _ _ _). assert (H1 : regs m1 sp = stack) by (cbn [m1 regs restore foldl fst snd]; by rewrite upd_ne by done).
  rewrite (run_ld sp 8 sp _ m1 (pa + 8)) by (apply on_stack; [done|done|lia|lia]). change (ram m1) with (ram m'). rewrite Hl.
  rewrite (run_loads sp pa); [|apply stack_mapped; [cbn [regs]; apply upd_eq|done|intros x Hx; unfold kv_rest in Hx; by apply list_elem_of_filter in Hx as [_ ?]]|done].
  cbn [csrs ram regs]. change (regs m1) with (upd ra (load64 (ram m') (pa + 0)) (regs m')). change (ram m1) with (ram m'). change (csrs m1) with (csrs m').
  fold g. set (m4 := mk_machine g (csrs m') (ram m')).
  assert (Eg : get m4 sp = stack) by (unfold get; rewrite decide_False by done; cbn [m4 regs]; unfold g; rewrite restore_other by done; apply upd_eq).
  rewrite run_addi, Eg. reflexivity.
Qed.

(** C17: an interrupt in the kernel is invisible to the code it interrupts.  kernelvec calls kerneltrap on the current stack, under
    the caller-saved registers it keeps there, and returns with every register as it was when the trap came but tp, the hart id,
    which is what kerneltrap left: the thread may continue on another hart. *)
Theorem kernelvec_transparent : exists m0 m' m3, function "kerneltrap" m0 = Some m' /\ run kernelvec m = Sret m3 /\ regs m0 sp = stack /\
  regs m3 tp = regs m' tp /\ ram m3 = ram m' /\ forall r, r <> zero -> r <> tp -> regs m3 r = regs m r.
Proof.
  set (m00 := set_reg sp stack m). set (m0 := set_ram (save pa kv_saved (get m00) (ram m00)) m00).
  assert (Es : u64 stack = stack) by (pose proof (Hwf sp); apply u64_small; lia).
  assert (Hs0 : regs m00 sp = stack) by (cbn [m00 set_reg regs]; by rewrite upd_eq).
  destruct (Hkt m0 Hs0) as (m' & R & Hc & Hk & Hm). assert (Hs' : regs m' sp = stack) by (rewrite Hk; [done|apply list_elem_of_here]).
  assert (Hc' : csrs m' satp = csrs m satp) by (by rewrite Hc).
  assert (Hld : forall r o, (r, o) ∈ kv_saved -> load64 (ram m') (pa + o) = regs m00 r).
  { intros r o Hin. transitivity (load64 (ram m0) (pa + o)); [apply load_ext; intros i Hi; apply Hm; apply kv_offset in Hin; lia|].
    unfold m0. cbn [set_ram ram]. rewrite (save_get pa _ (get m00) r o); [|done|repeat constructor|apply (bool_decide_unpack _); vm_compute; exact I|done].
    unfold get. assert (Hz : zero ∉ kv_saved.*1) by (apply (bool_decide_unpack _); vm_compute; exact I).
    rewrite decide_False by (intros ->; apply Hz, list_elem_of_fmap; by exists (zero, o)). apply u64_small. cbn [m00 set_reg regs]. unfold upd. case_decide; [apply u64_range|apply Hwf]. }
  set (g := restore pa kv_rest (ram m') (upd sp stack (upd ra (load64 (ram m') (pa + 0)) (regs m')))).
  set (m3 := set_reg sp (stack + 256) (mk_machine g (csrs m') (ram m'))).
  exists m0, m', m3. split; [done|]. split; [|split; [done|]].
  - rewrite kv_enter, (run_call _ _ _ _ R). apply kv_leave; [done|done|].
    rewrite (Hld sp 8); [done|]. apply (bool_decide_unpack _); vm_compute; exact I.
  - assert (Hreg : forall r, r <> sp -> regs m3 r = g r) by (intros r Hr; cbn [m3 set_reg regs]; by apply upd_ne).
    split; [rewrite Hreg by done; unfold g; by rewrite restore_other by (apply (bool_decide_unpack _); vm_compute; exact I)|]. split; [done|]. intros r Hz Ht.
    destruct (decide (r = sp)) as [->|Hnsp]; [cbn [m3 set_reg regs]; rewrite upd_eq, Hsp; apply u64_small; rewrite <- Hsp; apply Hwf|]. rewrite Hreg by done. unfold g.
    assert (Hm00 : regs m00 r = regs m r) by (cbn [m00 set_reg regs]; by apply upd_ne).
    destruct (decide (r ∈ kv_rest.*1)) as [Hin|Hnin].
    + apply list_elem_of_fmap in Hin as ([r' o] & -> & Hin). cbn [fst] in *. rewrite (restore_get pa _ _ r' o) by (first [done|apply (bool_decide_unpack _); vm_compute; exact I]).
      rewrite (Hld r' o) by (unfold kv_rest in Hin; by apply list_elem_of_filter in Hin as [_ ?]). done.
    + rewrite restore_other by done. rewrite upd_ne by done. destruct (decide (r = ra)) as [->|Hra]; [rewrite upd_eq, (Hld ra 0) by apply list_elem_of_here; done|].
      rewrite upd_ne by done. rewrite Hk; [exact Hm00|]. clear - Hz Ht Hnsp Hnin Hra. destruct r; try done; try (apply (bool_decide_unpack _); vm_compute; exact I);
        (destruct Hnin; apply (bool_decide_unpack _); vm_compute; exact I).
Qed.
End KernelTrap.

(** ** Boot and system-call stubs *)

(** Every hart gets a page of [stack0] of its own. *)
Lemma entry_stack m : 0 <= csrs m mhartid < 2 ^ 32 -> 0 <= address "stack0" < 2 ^ 63 ->
  exists m0, regs m0 sp = address "stack0" + 4096 * (csrs m mhartid + 1) /\
    run _entry m = match function "start" m0 with Some m' => Jumped (address "spin") m' | None => Faulted end.
Proof.
  intros Hh Hs. eexists. split; [|reflexivity].
  change (u64 (u64 (address "stack0") + u64 (u64 (1024 * 4) * u64 (u64 (csrs m mhartid) + 1))) = address "stack0" + 4096 * (csrs m mhartid + 1)).
  rewrite !(u64_small (csrs m mhartid)), !(u64_small (address _)), !(u64_small (1024 * 4)), (u64_small (csrs m mhartid + 1)) by lia. rewrite (u64_small (1024 * 4 * _)) by lia.
  rewrite u64_small by lia. lia.
Qed.

(** The stubs reach the system calls they are named after; the kernel has none for the last calls of the network. *)
Lemma usys_dispatch :
  Forall2 (fun x code => code.1 = x.1 /\ forall m, run code.2 m = Ecalled (set_reg a7 x.2 m) [RET]) usys usys_S /\
  (fun x => syscalls x.2) <$> usys =
    [Some sys_fork; Some sys_exit; Some sys_wait; Some sys_pipe; Some sys_read; Some sys_write; Some sys_close; Some sys_kill; Some sys_exec;
     Some sys_open; Some sys_mknod; Some sys_unlink; Some sys_fstat; Some sys_link; Some sys_mkdir; Some sys_chdir; Some sys_dup;
     Some sys_getpid; Some sys_sbrk; Some sys_sleep; Some sys_uptime; None; None; None; None; Some sys_pgpte; Some sys_kpgtbl; Some sys_pgaccess].
Proof. split; [|reflexivity]. apply Forall2_fmap_r, Forall_Forall2_diag, Forall_forall. by intros []. Qed.
End Props.

(** ** Sample machines *)

(** The trapframe of the sample process is at 0x5000; the rest is mapped at its own address. *)
Definition sample_translate (sat va : Z) : option Z := if (TRAPFRAME <=? va) && (va <? TRAPFRAME + PGSIZE) then Some (20480 + (va - TRAPFRAME)) else Some va.
Definition sample_machine : machine := mk_machine (fun r => match r with sp => 12288 | a0 => 24576 | a1 => 28672 | a7 => 5 | _ => 9 end) (fun _ => 1) ∅.
Definition sample_function (s : string) (m : machine) : option machine := Some (set_reg tp 1 (set_reg t0 77 (set_reg ra 88 m))).

Lemma sample_wf r : 0 <= regs sample_machine r < 2 ^ 64.
Proof. destruct r; cbn; lia. Qed.

Lemma sample_direct a n : 0 <= a -> a + n <= 2 ^ 30 -> direct sample_translate 1 a n.
Proof.
  intros Ha Hn o Ho. unfold sample_translate. rewrite (proj2 (Z.leb_gt TRAPFRAME (a + o))) by (change TRAPFRAME with 274877898752; lia). done.
Qed.

Lemma sample_context c : c mod 8 = 0 -> 0 <= c < 2 ^ 20 -> context_at sample_translate 1 c.
Proof. intros Hc Hr. split; [done|lia|]. apply sample_direct; lia. Qed.

Lemma trap_roundtrip_witness : exists m1,
  run sample_translate (fun _ => 0) sample_function uservec sample_machine = Jumped 0 m1 /\ load64 (ram m1) (20480 + 168) = 5.
Proof.
  destruct (trap_roundtrip sample_translate (fun _ => 0) sample_function 1 20480 ltac:(lia) eq_refl) with (m := sample_machine) as (m1 & R & _ & _ & _ & Hf & _).
  - intros o Ho. unfold sample_translate. rewrite (proj2 (Z.leb_le _ _)), (proj2 (Z.ltb_lt _ _)) by lia. cbn [andb]. f_equal. lia.
  - apply sample_wf.
  - done.
  - exists m1. split; [exact R|]. rewrite (Hf a7 168); [done|]. apply (bool_decide_unpack _). vm_compute. exact I.
Defined.

Lemma swtch_resumes_witness : exists m1,
  run sample_translate (fun _ => 0) sample_function swtch sample_machine = Jumped 0 m1 /\ regs m1 sp = 0 /\ regs m1 a7 = 5.
Proof.
  destruct (swtch_resumes sample_translate (fun _ => 0) sample_function sample_machine 24576 28672) as (m1 & R & _ & Hc & Ho & _).
  - apply sample_wf.
  - done.
  - done.
  - by apply sample_context.
  - by apply sample_context.
  - left. lia.
  - exists m1. split; [exact R|]. split.
    + rewrite (Hc sp 8); [done|]. apply (bool_decide_unpack _). vm_compute. exact I.
    + rewrite (Ho a7); [done|]. apply (bool_decide_unpack _). vm_compute. exact I.
Defined.

Lemma kernelvec_transparent_witness : exists m3,
  run sample_translate (fun _ => 0) sample_function kernelvec sample_machine = Sret m3 /\ regs m3 sp = 12288 /\ regs m3 a7 = 5 /\ regs m3 t0 = 9.
Proof.
  destruct (kernelvec_transparent sample_translate (fun _ => 0) sample_function 12032 12032 sample_machine) as (m0 & m' & m3 & _ & R & _ & _ & _ & H).
  - apply sample_wf.
  - done.
  - done.
  - done.
  - by apply sample_direct.
  - intros m0 _. eexists. split; [reflexivity|]. split; [done|]. split; [|done]. intros r Hr. cbn [set_reg regs].
    unfold kept in Hr. repeat (apply elem_of_cons in Hr as [->|Hr]; [done|]). by apply not_elem_of_nil in Hr.
  - exists m3. split; [exact R|]. split; [apply (H sp); done|]. split; [apply (H a7); done|apply (H t0); done].
Defined.
End Asm.
