(* ===== verification/PgAccess.v ===== *)
(** * The accessed-page system call

    [sys_pgaccess] reports which of a range of pages have been accessed, and
    clears their accessed bits. *)

From stdpp Require Import base list gmap strings.
From Stdlib Require Import ZArith Lia.
From S2P Require Import Prelude Mem KString Riscv State Sched Kalloc Vm PtRep Uvm Uspace CopyUser VmProps Proc Fs Sysfile Syscall.
Open Scope Z_scope.

Lemma PTE_A_bit : PTE_A = 2 ^ 6.
Proof. done. Qed.

Lemma clear_A_spec v i : 0 <= i -> Z.testbit (Z.land v (Z.lnot PTE_A)) i = Z.testbit v i && negb (i =? 6).
Proof.
  intros Hi. rewrite Z.land_spec, Z.lnot_spec, PTE_A_bit, Z.pow2_bits_eqb, Z.eqb_sym by lia. done.
Qed.

Lemma clear_A_id v : has v PTE_A = false -> Z.land v (Z.lnot PTE_A) = v.
Proof.
  intros H. apply Z.bits_inj'. intros i Hi. rewrite clear_A_spec by done. destruct (Z.eqb_spec i 6) as [->|]; [|by rewrite andb_true_r].
  rewrite andb_false_r. change PTE_A with (Z.shiftl 1 6) in H. by rewrite has_testbit in H.
Qed.

Lemma clear_A_range v k : 0 <= k -> 0 <= v < 2 ^ k -> 0 <= Z.land v (Z.lnot PTE_A) < 2 ^ k.
Proof.
  intros Hk Hv. assert (E : Z.land v (Z.lnot PTE_A) = Z.land v (Z.lnot PTE_A) mod 2 ^ k).
  { rewrite <- Z.land_ones, <- Z.land_assoc, (Z.land_comm (Z.lnot PTE_A)), Z.land_assoc, Z.land_ones, Z.mod_small by lia. done. }
  rewrite E. apply Z.mod_pos_bound. lia.
Qed.

(** The pages of the range, and whether page [i] has been accessed. *)
Definition pga_page (start_va i : Z) : Z := start_va + i * PGSIZE.
Definition accessed (m : mem) (t : ptree) (start_va i : Z) : bool := Z.testbit (pte_at m t (pga_page start_va i)) 6.

(** The new entries of pages [k] to [n] of the range. *)
Definition cleared_ptes (m : mem) (t : ptree) (start_va k n va : Z) : option Z :=
  if within va (pga_page start_va k) ((n - k) * PGSIZE) then Some (Z.land (pte_at m t va) (Z.lnot PTE_A)) else None.

(** The user pages with the accessed bits of the range cleared. *)
Definition um_clear (um : umap) (start_va n : Z) : umap :=
  map_imap (fun va x => Some (x.1, if within va start_va (n * PGSIZE) then Z.land x.2 (Z.lnot PTE_A) else x.2)) um.

Lemma um_pages_clear um start_va n : um_pages (um_clear um start_va n) ≡ₚ um_pages um.
Proof.
  induction um as [|va [pa f] um Hn IH] using map_ind; [done|]. unfold um_clear in *.
  erewrite map_imap_insert_Some by reflexivity. rewrite !um_pages_insert; [|done|by rewrite map_lookup_imap, Hn]. by rewrite IH.
Qed.

Lemma clear_A_pte p f : Z.land (Z.lor (PA2PTE p) f) (Z.lnot PTE_A) = Z.lor (PA2PTE p) (Z.land f (Z.lnot PTE_A)).
Proof.
  rewrite Z.land_lor_distr_l. f_equal. apply clear_A_id. change PTE_A with (Z.shiftl 1 6). rewrite has_testbit by lia.
  unfold PA2PTE, u64. rewrite Z.mod_pow2_bits_low by lia. apply Z.shiftl_spec_low. lia.
Qed.

Section PgAccess.
Context {L : Layout} `{!LayoutOk L}.

Lemma pga_step s root t l start_va n i mask :
  let va := pga_page start_va i in
  vm_ok s root t l -> 0 <= start_va -> start_va mod PGSIZE = 0 -> 0 <= i < n -> n <= 64 -> start_va + n * PGSIZE <= MAXVA ->
  exists s', pgaccess_step root start_va n (i, mask) s =
      Ret (inl (i + 1, if accessed (k_mem s) t start_va i then Z.lor mask (Z.shiftl 1 i) else mask)) s' /\
    vm_upd s root t l s' t [] l (fun va' => if va' =? va then Some (Z.land (pte_at (k_mem s) t va) (Z.lnot PTE_A)) else None).
Proof.
  intros va Hvm H0 Ha Hi Hn Hmax. assert (Hva : 0 <= va < MAXVA /\ va mod PGSIZE = 0) by (unfold va, pga_page; vdivlia).
  destruct Hva as [Hva Hal]. pose proof (vm_pt _ _ _ _ Hvm) as Hpt.
  assert (Hwalk : walk root (u64 (start_va + i * PGSIZE)) false s = Ret (default 0 (pt_slot t va)) s).
  { change (start_va + i * PGSIZE) with va. rewrite u64_small by vlia. apply walk_ok; [done|lia]. }
  assert (Hid : Z.land (pte_at (k_mem s) t va) (Z.lnot PTE_A) = pte_at (k_mem s) t va ->
    vm_upd s root t l s t [] l (fun va' => if va' =? va then Some (Z.land (pte_at (k_mem s) t va) (Z.lnot PTE_A)) else None)).
  { intros E. pose proof (vm_upd_grow _ _ _ _ _ _ _ _ (pt_grow_refl s root t l Hvm)) as [V F S N T O M P]. split; try done.
    intros va' H1 H2. destruct (Z.eqb_spec va' va) as [->|]; [by rewrite E|done]. }
  unfold pgaccess_step, accessed. fold va. rewrite (proj2 (Z.ltb_lt i n)) by lia.
  rewrite (proj2 (Z.leb_gt (2 ^ 31) _)) by vlia. destruct (pt_slot t va) as [a|] eqn:Es; cbn [default from_option id] in Hwalk.
  - destruct (pt_slot_split _ _ _ _ _ Hpt Es) as (_ & _ & _ & _ & Hne).
    assert (Epte : pte_at (k_mem s) t va = load64 (k_mem s) a) by (unfold pte_at; by rewrite Es).
    pose proof (load_range 8 (k_mem s) a) as Hr. change (256 ^ Z.of_nat 8) with (2 ^ 64) in Hr.
    rewrite Epte in *. change PTE_A with (Z.shiftl 1 6). rewrite <- has_testbit by lia. change (Z.shiftl 1 6) with PTE_A.
    destruct (has (load64 (k_mem s) a) PTE_A) eqn:EA.
    + eexists. split; [kstep_by Hwalk; rewrite (proj2 (Z.eqb_neq a 0)) by done; unfold ld64; kstep; rewrite EA;
        rewrite (proj2 (Z.leb_gt 64 i)) by lia; unfold st64; kstep; reflexivity|].
      apply vm_upd_set. by apply pt_set_ok; [..|apply clear_A_range|].
    + exists s. split; [|by apply Hid, clear_A_id]. kstep_by Hwalk. rewrite (proj2 (Z.eqb_neq a 0)) by done. unfold ld64. kstep.
      by rewrite EA.
  - assert (Epte : pte_at (k_mem s) t va = 0) by (unfold pte_at; by rewrite Es). rewrite Epte in *.
    exists s. split; [by kstep_by Hwalk|by apply Hid].
Qed.

Lemma pga_loop root t l start_va n m : 0 <= start_va -> start_va mod PGSIZE = 0 -> n <= 64 -> start_va + n * PGSIZE <= MAXVA ->
  forall s k mask fuel, vm_ok s root t l -> 0 <= k <= n -> n - k = Z.of_nat m -> (m < fuel)%nat ->
  exists s' mask', loop fuel (pgaccess_step root start_va n) (k, mask) s = Ret mask' s' /\
    vm_upd s root t l s' t [] l (cleared_ptes (k_mem s) t start_va k n) /\
    forall i, 0 <= i -> Z.testbit mask' i = Z.testbit mask i || (bool_decide (k <= i < n) && accessed (k_mem s) t start_va i).
Proof.
  intros H0 Ha Hn Hmax. induction m as [|m IH]; intros s k mask [|fuel] Hvm Hk Hm Hf; try lia.
  - exists s, mask. split_and!.
    + apply loop_break. unfold pgaccess_step. by rewrite (proj2 (Z.ltb_ge k n)) by lia.
    + eapply vm_upd_ext; [|apply vm_upd_grow, pt_grow_refl, Hvm]. intros va _ _. unfold cleared_ptes.
      replace n with k by lia. destruct (within_spec va (pga_page start_va k) ((k - k) * PGSIZE)); [lia|done].
    + intros i Hi. rewrite bool_decide_false by lia. by rewrite orb_false_r.
  - destruct (pga_step s root t l start_va n k mask Hvm H0 Ha ltac:(lia) Hn Hmax) as (s1 & R1 & U1).
    destruct (IH s1 (k + 1) (if accessed (k_mem s) t start_va k then Z.lor mask (Z.shiftl 1 k) else mask) fuel) as (s2 & mask' & R2 & U2 & M2);
      [apply U1|lia..|].
    assert (Epte : forall va, pga_page start_va (k + 1) <= va < MAXVA -> va mod PGSIZE = 0 -> pte_at (k_mem s1) t va = pte_at (k_mem s) t va).
    { intros va Hva Hal. rewrite (up_pte _ _ _ _ _ _ _ _ _ U1) by (unfold pga_page in *; vlia).
      rewrite (proj2 (Z.eqb_neq va _)) by (unfold pga_page in *; vlia). done. }
    exists s2, mask'. split_and!; [by rewrite (loop_continue _ _ _ _ _ _ R1)| |].
    + eapply vm_upd_ext; [|exact (vm_upd_trans _ _ _ _ _ _ _ _ _ _ _ _ _ _ U1 U2)]. intros va Hva Hal. unfold cleared_ptes.
      destruct (within_spec va (pga_page start_va (k + 1)) ((n - (k + 1)) * PGSIZE)) as [H1|H1],
        (within_spec va (pga_page start_va k) ((n - k) * PGSIZE)) as [H2|H2], (Z.eqb_spec va (pga_page start_va k)) as [E|E];
        subst; rewrite ?Epte by lia; try done; exfalso; unfold pga_page in *; vdivlia.
    + intros i Hi. rewrite M2 by done. unfold accessed in *.
      destruct (decide (i = k)) as [->|Hne].
      * rewrite (bool_decide_false (k + 1 <= k < n)), (bool_decide_true (k <= k < n)) by lia. cbn [andb].
        rewrite orb_false_r. destruct (Z.testbit (pte_at _ _ _) 6); [|by rewrite orb_false_r].
        rewrite Z.lor_spec, Z.shiftl_1_l, Z.pow2_bits_true by lia. done.
      * replace (bool_decide (k <= i < n)) with (bool_decide (k + 1 <= i < n)) by (apply bool_decide_ext; lia).
        assert (Em : Z.testbit (if Z.testbit (pte_at (k_mem s) t (pga_page start_va k)) 6 then Z.lor mask (Z.shiftl 1 k) else mask) i = Z.testbit mask i).
        { destruct (Z.testbit (pte_at _ _ _) 6); [|done]. rewrite Z.lor_spec, Z.shiftl_1_l, Z.pow2_bits_false by lia. by rewrite orb_false_r. }
        rewrite Em. destruct (bool_decide (k + 1 <= i < n)) eqn:Eb; [|done]. apply bool_decide_eq_true in Eb.
        rewrite Epte; [done|unfold pga_page; vlia|unfold pga_page; vdivlia].
Qed.

(** Argument [i] of the system call. *)
Definition arg (s : kstate) (pr : proc) (i : Z) : Z := load64 (k_mem s) (p_trapframe pr + tf_a0 + 8 * i).

Lemma argaddr_ok s p pr i :
  k_cur s = Some p -> k_procs s !! p = Some pr -> 0 <= i <= 5 -> argaddr i s = Ret (arg s pr i) s.
Proof.
  intros Hc Hp Hi. unfold argaddr, argraw, ld64, arg. kstep. kstep.
  rewrite (proj2 (Z.leb_le 0 i)), (proj2 (Z.leb_le i 5)) by lia. done.
Qed.

Lemma arg_range s pr i : 0 <= arg s pr i < 2 ^ 64.
Proof. apply (load_range 8). Qed.

(** User pages are not marked as interior entries once the accessed bit is off. *)
Definition leaf_flags (um : umap) : Prop := forall va pa f, um !! va = Some (pa, f) -> Z.land f (Z.lnot PTE_A) <> PTE_V.

Lemma pga_as s root A s' start_va n :
  as_ok s root A -> leaf_flags (a_um A) -> 0 <= n -> start_va + n * PGSIZE <= TRAPFRAME ->
  vm_upd s root (a_tree A) (a_free A) s' (a_tree A) [] (a_free A) (cleared_ptes (k_mem s) (a_tree A) start_va 0 n) ->
  as_step root s A s' (mk_aspace (a_tree A) (a_free A) (um_clear (a_um A) start_va n) (a_own A)).
Proof.
  intros Hok Hlf Hn Htop U. pose proof Hok as [_ Hd Hpte _ _]. destruct A as [t l um own]. cbn [a_tree a_free a_um a_own] in *.
  assert (Hw : forall va, within va (pga_page start_va 0) ((n - 0) * PGSIZE) = within va start_va (n * PGSIZE)).
  { intros va. unfold pga_page. f_equal; lia. }
  eapply as_of_upd; [exact Hok|exact U|by rewrite um_pages_clear|..].
  - intros va pa fl H. unfold um_clear in H. rewrite map_lookup_imap in H. destruct (um !! va) as [[pa0 f]|] eqn:E; [|done].
    cbn in H. simplify_eq. destruct (Hd va pa f E) as (H1 & H2 & H3 & H4 & H5). destruct (within va start_va (n * PGSIZE)); [|done].
    pose proof (clear_A_range f 10 ltac:(lia) H3). split_and!; try done; try lia; [|by eapply Hlf].
    by rewrite clear_A_spec, H4 by lia.
  - intros va Hva Hal. specialize (Hpte va Hva Hal). unfold um_clear, cleared_ptes. rewrite map_lookup_imap, Hw.
    destruct (um !! va) as [[pa f]|] eqn:E; cbn; destruct (within va start_va (n * PGSIZE)); cbn; try done; [by rewrite Hpte, clear_A_pte|].
    change PTE_V with (Z.shiftl 1 0) in *. rewrite has_testbit in * by lia. by rewrite clear_A_spec, Hpte by lia.
  - intros va Hva. unfold cleared_ptes. rewrite Hw. destruct (within_spec va start_va (n * PGSIZE)); [lia|done].
Qed.

(** C36: [sys_pgaccess] over at most 64 pages of user memory: bit [i] of the mask it stores at the user's address is
    the accessed bit of page [i] before the call, the accessed bits of exactly these pages are off afterwards, and
    nothing else of the page table or of memory changes.  It returns -1 exactly when the mask cannot be stored (the
    accessed bits are lost then). *)
Theorem sys_pgaccess_spec s p pr A :
  let root := p_pagetable pr in
  let start_va := arg s pr 0 in let n := arg s pr 1 in let dst := arg s pr 2 in
  let A' := mk_aspace (a_tree A) (a_free A) (um_clear (a_um A) start_va n) (a_own A) in
  k_cur s = Some p -> k_procs s !! p = Some pr -> as_ok s root A -> no_high_user (k_mem s) (a_tree A) -> leaf_flags (a_um A) ->
  start_va mod PGSIZE = 0 -> n <= 64 -> start_va + n * PGSIZE <= TRAPFRAME ->
  exists r s1 s' mask k, sys_pgaccess s = Ret r s' /\
    (forall i, 0 <= i -> Z.testbit mask i = bool_decide (i < n) && accessed (k_mem s) (a_tree A) start_va i) /\
    as_step root s A s1 A' /\ as_ok s' root A' /\ wrote s1 A' s' dst (take k (le_bytes 8 mask)) /\
    ((r = 0 /\ k = 8%nat) \/ (r = -1 /\ (k < 8)%nat /\ uwritable (k_mem s1) (a_tree A) (dst + Z.of_nat k) = false)).
Proof.
  intros root start_va n dst A' Hc Hp Hok Hhi Hlf Hal Hn Htop.
  pose proof (arg_range s pr 0) as Hr0. pose proof (arg_range s pr 1) as Hr1. pose proof (arg_range s pr 2) as Hr2.
  fold start_va in Hr0. fold n in Hr1. fold dst in Hr2.
  destruct (pga_loop root (a_tree A) (a_free A) start_va n (Z.to_nat n)) with (s := s) (k := 0) (mask := 0) (fuel := S (Z.to_nat n))
    as (s1 & mask & R1 & U1 & M1); try done; try vlia; [apply Hok|].
  pose proof (pga_as s root A s1 start_va n Hok Hlf ltac:(lia) Htop U1) as St. fold A' in St.
  assert (Hhi1 : no_high_user (k_mem s1) (a_tree A')).
  { intros va Hva Hal'. rewrite (st_high _ _ _ _ _ St va Hva Hal'). by apply Hhi. }
  destruct (copyout_loop root A' (length (le_bytes 8 mask)) (S (length (le_bytes 8 mask))) dst (le_bytes 8 mask) s1)
    as (r & s' & k & R2 & Ok2 & W2 & C2); try done; try lia; [apply le_bytes_bytes|apply St|].
  rewrite length_le_bytes in C2. exists r, s1, s', mask, k. split_and!; try done.
  - assert (Hargs : sys_pgaccess s = ((r0 ← copyout root dst (le_bytes 8 mask); if r0 <? 0 then mret (-1) else mret 0) : K Z) s1).
    { unfold sys_pgaccess. do 3 (kstep_by argaddr_ok; [|done|done|lia]). kstep. kstep. by kstep_by R1. }
    rewrite Hargs. kstep_by (R2 : copyout root dst (le_bytes 8 mask) s1 = Ret r s'). by destruct C2 as [(-> & _)|(-> & _)].
  - intros i Hi. rewrite M1, Z.testbit_0_l, orb_false_l by done. f_equal. apply bool_decide_ext. lia.
Qed.

(** C37: The start address comes from the user and is not checked: a call with an address of MAXVA or more stops the
    kernel in [walk]'s panic. *)
Theorem sys_pgaccess_panics s p pr :
  k_cur s = Some p -> k_procs s !! p = Some pr -> MAXVA <= arg s pr 0 -> 1 <= arg s pr 1 ->
  sys_pgaccess s = Stop (SPanic "walk") s.
Proof.
  intros Hc Hp Hva Hn. pose proof (arg_range s pr 0). unfold sys_pgaccess.
  do 3 (kstep_by argaddr_ok; [|done|done|lia]). kstep. kstep. apply bind_Stop, loop_stop. unfold pgaccess_step.
  rewrite (proj2 (Z.ltb_lt 0 _)) by lia. change (2 ^ 31 <=? 0 * PGSIZE) with false. cbv iota. apply bind_Stop.
  rewrite u64_small by lia. apply walk_panics. lia.
Qed.
End PgAccess.

(** ** A sample call *)

(** The process of [VmProps.v] with one page of memory asks about that page and wants the mask at address 8; its
    trapframe is at an address outside the pages of the allocator. *)
Definition pga_proc : proc := set_p_trapframe 4096 (set_p_pagetable (pg 0) (set_p_state RUNNING proc0)).
Definition pga_mem (m : mem) : mem := store64 (store64 (store64 m (4096 + tf_a0) 0) (4096 + tf_a0 + 8) 1) (4096 + tf_a0 + 16) 8.
Definition pga_state (s : kstate) : kstate :=
  set_k_cur (Some 0%nat) (set_k_procs (pga_proc :: replicate 63 proc0) (set_k_mem (pga_mem (k_mem s)) s)).

Lemma same_page_low m a v q : 4096 <= a -> a + 8 <= 8192 -> KERNBASE < q -> same_page m (store64 m a v) q.
Proof. intros H1 H2 Hq i Hi. apply mget_store. unfold KERNBASE in Hq. lia. Qed.

Lemma pga_mem_same m q : KERNBASE < q -> same_page m (pga_mem m) q.
Proof.
  intros Hq. unfold pga_mem. change tf_a0 with 112.
  eapply same_page_trans; [|by apply same_page_low; lia]. eapply same_page_trans; [|by apply same_page_low; lia].
  by apply same_page_low; lia.
Qed.

Lemma pga_state_args s : arg (pga_state s) pga_proc 0 = 0 /\ arg (pga_state s) pga_proc 1 = 1 /\ arg (pga_state s) pga_proc 2 = 8.
Proof.
  unfold arg. change (k_mem (pga_state s)) with (pga_mem (k_mem s)). change (p_trapframe pga_proc) with 4096.
  change tf_a0 with 112. unfold pga_mem. change tf_a0 with 112.
  split_and!.
  - rewrite !load_store_disjoint by lia. by rewrite load_store.
  - rewrite load_store_disjoint by lia. by rewrite load_store.
  - by rewrite load_store.
Qed.

Lemma pga_state_ok s A :
  as_ok (L := xv6_layout) s (pg 0) A -> k_held s = [] ->
  as_ok (L := xv6_layout) (pga_state s) (pg 0) A /\ forall va, pte_at (k_mem (pga_state s)) (a_tree A) va = pte_at (k_mem s) (a_tree A) va.
Proof.
  intros Hok Hh. assert (Hs : forall q, q ∈ a_free A \/ q ∈ tree_pages (a_tree A) -> same_page (k_mem s) (k_mem (pga_state s)) q).
  { intros q Hq. apply pga_mem_same. apply (page_ok_range (L := xv6_layout)). apply (as_aligned _ _ _ _ Hok). unfold a_pages. set_solver. }
  split; [by apply (as_ok_frame s)|]. intros va. eapply pte_at_frame; [apply Hok|]. auto.
Qed.

Lemma grown_user_page : Z.testbit (load64 (k_mem grown) (out_val (walk (pg 0) 0 false grown) 0)) 4 = true.
Proof. vm_compute. reflexivity. Qed.

Lemma leaf_flags_user s A :
  as_ok (L := xv6_layout) s (pg 0) A -> um_cov (a_um A) 4096 ->
  Z.testbit (load64 (k_mem s) (out_val (walk (pg 0) 0 false s) 0)) 4 = true -> leaf_flags (a_um A).
Proof.
  intros Hok Hc Hb va pa f Hum. assert (va = 0) as ->.
  { destruct (proj1 (Hc va)) as [Hva Hal]; [by eexists|]. vdivlia. }
  destruct (as_slot _ _ _ _ _ _ Hok Hum) as (a & Ha & _ & Hl & _).
  rewrite (walk_ok s (pg 0) (a_tree A) 0) in Hb by (apply Hok || vlia). cbn [out_val] in Hb. rewrite Ha in Hb.
  change (default 0 (Some a)) with a in Hb.
  rewrite Hl, Z.lor_spec in Hb. unfold PA2PTE, u64 in Hb. rewrite Z.mod_pow2_bits_low, Z.shiftl_spec_low, orb_false_l in Hb by lia.
  intros E. apply (f_equal (fun z => Z.testbit z 4)) in E. rewrite clear_A_spec, Hb in E by lia. done.
Qed.

Lemma sys_pgaccess_spec_witness : exists A r s1 s' mask k,
  let s := pga_state grown in
  let A' := mk_aspace (a_tree A) (a_free A) (um_clear (a_um A) 0 1) (a_own A) in
  sys_pgaccess s = Ret r s' /\
  (forall i, 0 <= i -> Z.testbit mask i = bool_decide (i < 1) && accessed (k_mem s) (a_tree A) 0 i) /\
  as_step (L := xv6_layout) (pg 0) s A s1 A' /\ as_ok (L := xv6_layout) s' (pg 0) A' /\ wrote s1 A' s' 8 (take k (le_bytes 8 mask)) /\
  ((r = 0 /\ k = 8%nat) \/ (r = -1 /\ (k < 8)%nat /\ uwritable (k_mem s1) (a_tree A) (8 + Z.of_nat k) = false)).
Proof.
  destruct grown_ok as (t & l & um & Hok & Hc & Hhi). destruct (pga_state_ok grown (mk_aspace t l um []) Hok) as [Hok' Hpte].
  { vm_compute. reflexivity. }
  pose proof (sys_pgaccess_spec (pga_state grown) 0 pga_proc (mk_aspace t l um [])) as H.
  destruct (pga_state_args grown) as (E0 & E1 & E2). cbv zeta in H. rewrite E0, E1, E2 in H.
  destruct H as (r & s1 & s' & mask & k & H).
  - reflexivity.
  - reflexivity.
  - exact Hok'.
  - intros va Hva Hal. rewrite Hpte. cbn [a_tree]. rewrite (Hhi va Hva Hal). reflexivity.
  - apply (leaf_flags_user grown _ Hok Hc). apply grown_user_page.
  - reflexivity.
  - lia.
  - vlia.
  - exists (mk_aspace t l um []), r, s1, s', mask, k. exact H.
Defined.

Definition pga_bad : kstate := set_k_mem (store64 (k_mem (pga_state boot_state)) (4096 + tf_a0) MAXVA) (pga_state boot_state).

Lemma sys_pgaccess_panics_witness : sys_pgaccess pga_bad = Stop (SPanic "walk") pga_bad.
Proof.
  apply (sys_pgaccess_panics pga_bad 0 pga_proc).
  - reflexivity.
  - reflexivity.
  - apply Z.leb_le. vm_compute. reflexivity.
  - apply Z.leb_le. vm_compute. reflexivity.
Defined.
