(* ===== verification/Virtio.v ===== *)
(** * kernel/virtio_disk.c: the disk driver

    A transfer is a chain of three descriptors (request header, data, status
    byte) whose head goes into the available ring; the device performs it and
    puts the head into the used ring; the interrupt handler then marks the
    buffer done and wakes the thread that waits for it.  [Bio.v] has the transfer
    as one step, [disk_rw]. *)

From stdpp Require Import base list gmap strings.
From Stdlib Require Import ZArith Lia.
From S2P Require Import Prelude Mem KString Riscv State Sched Kalloc.
Open Scope Z_scope.

(** ** kernel/virtio.h *)

Definition VIRTIO_MMIO_MAGIC_VALUE : Z := 0x000.
Definition VIRTIO_MMIO_VERSION : Z := 0x004.
Definition VIRTIO_MMIO_DEVICE_ID : Z := 0x008.
Definition VIRTIO_MMIO_VENDOR_ID : Z := 0x00c.
Definition VIRTIO_MMIO_DEVICE_FEATURES : Z := 0x010.
Definition VIRTIO_MMIO_DRIVER_FEATURES : Z := 0x020.
Definition VIRTIO_MMIO_QUEUE_SEL : Z := 0x030.
Definition VIRTIO_MMIO_QUEUE_NUM_MAX : Z := 0x034.
Definition VIRTIO_MMIO_QUEUE_NUM : Z := 0x038.
Definition VIRTIO_MMIO_QUEUE_READY : Z := 0x044.
Definition VIRTIO_MMIO_QUEUE_NOTIFY : Z := 0x050.
Definition VIRTIO_MMIO_INTERRUPT_STATUS : Z := 0x060.
Definition VIRTIO_MMIO_INTERRUPT_ACK : Z := 0x064.
Definition VIRTIO_MMIO_STATUS : Z := 0x070.
Definition VIRTIO_MMIO_QUEUE_DESC_LOW : Z := 0x080.
Definition VIRTIO_MMIO_QUEUE_DESC_HIGH : Z := 0x084.
Definition VIRTIO_MMIO_DRIVER_DESC_LOW : Z := 0x090.
Definition VIRTIO_MMIO_DRIVER_DESC_HIGH : Z := 0x094.
Definition VIRTIO_MMIO_DEVICE_DESC_LOW : Z := 0x0a0.
Definition VIRTIO_MMIO_DEVICE_DESC_HIGH : Z := 0x0a4.

Definition VIRTIO_CONFIG_S_ACKNOWLEDGE : Z := 1.
Definition VIRTIO_CONFIG_S_DRIVER : Z := 2.
Definition VIRTIO_CONFIG_S_DRIVER_OK : Z := 4.
Definition VIRTIO_CONFIG_S_FEATURES_OK : Z := 8.

(** VIRTIO_BLK_F_RO, _SCSI, _CONFIG_WCE, _MQ, VIRTIO_F_ANY_LAYOUT,
    VIRTIO_RING_F_EVENT_IDX, _INDIRECT_DESC: the features the driver declines. *)
Definition declined : list Z := [5; 7; 11; 12; 27; 29; 28].

Definition NUM : Z := 8.
Definition VRING_DESC_F_NEXT : Z := 1.
Definition VRING_DESC_F_WRITE : Z := 2.
Definition VIRTIO_BLK_T_IN : Z := 0.
Definition VIRTIO_BLK_T_OUT : Z := 1.

(** ** The device's registers *)

Definition read_R (r : Z) : K Z := gets (fun s => default 0 (vd_regs (k_vdisk s) !! r)).
(** The device keeps of a new status only the bits it accepts. *)
Definition write_R (r v : Z) : K unit :=
  mod_vdisk (fun d =>
    let v := if r =? VIRTIO_MMIO_STATUS then Z.land v (vd_accept d) else u32 v in
    set_vd_regs (<[r := v]> (vd_regs d)) d).

Section Virtio.
Context {L : Layout}.

Definition write_status (status : Z) : K unit := write_R VIRTIO_MMIO_STATUS status.

Definition virtio_disk_init : K unit :=
  magic ← read_R VIRTIO_MMIO_MAGIC_VALUE;
  version ← read_R VIRTIO_MMIO_VERSION;
  device ← read_R VIRTIO_MMIO_DEVICE_ID;
  vendor ← read_R VIRTIO_MMIO_VENDOR_ID;
  if negb (magic =? 0x74726976) || negb (version =? 2) || negb (device =? 2) || negb (vendor =? 0x554d4551)
  then panic "could not find virtio disk" else
  let status := 0 in
  write_status status ;;
  let status := Z.lor status VIRTIO_CONFIG_S_ACKNOWLEDGE in
  write_status status ;;
  let status := Z.lor status VIRTIO_CONFIG_S_DRIVER in
  write_status status ;;
  features ← read_R VIRTIO_MMIO_DEVICE_FEATURES;
  write_R VIRTIO_MMIO_DRIVER_FEATURES (foldl (fun f b => Z.land f (Z.lnot (Z.shiftl 1 b))) features declined) ;;
  write_status (Z.lor status VIRTIO_CONFIG_S_FEATURES_OK) ;;
  status ← read_R VIRTIO_MMIO_STATUS;
  if negb (has status VIRTIO_CONFIG_S_FEATURES_OK) then panic "virtio disk FEATURES_OK unset" else
  write_R VIRTIO_MMIO_QUEUE_SEL 0 ;;
  ready ← read_R VIRTIO_MMIO_QUEUE_READY;
  if negb (ready =? 0) then panic "virtio disk should not be ready" else
  max ← read_R VIRTIO_MMIO_QUEUE_NUM_MAX;
  if max =? 0 then panic "virtio disk has no queue 0" else
  if max <? NUM then panic "virtio disk max queue too short" else
  desc ← kalloc;
  avail ← kalloc;
  used ← kalloc;
  if (desc =? 0) || (avail =? 0) || (used =? 0) then panic "virtio disk kalloc" else
  mod_vdisk (set_vd_pages [desc; avail; used]) ;;
  mod_mem (fun m => memset m desc 0 PGSIZE) ;;
  mod_vdisk (set_vd_desc (replicate 8 (mk_virtq_desc A_null 0 0 0))) ;;
  mod_mem (fun m => memset m avail 0 PGSIZE) ;;
  mod_vdisk (fun d => set_vd_avail_idx 0 (set_vd_avail_ring (replicate 8 0) d)) ;;
  mod_mem (fun m => memset m used 0 PGSIZE) ;;
  mod_vdisk (fun d => set_vd_used_end 0 (set_vd_used_ring (replicate 8 0) d)) ;;
  write_R VIRTIO_MMIO_QUEUE_NUM NUM ;;
  write_R VIRTIO_MMIO_QUEUE_DESC_LOW desc ;;
  write_R VIRTIO_MMIO_QUEUE_DESC_HIGH (Z.shiftr desc 32) ;;
  write_R VIRTIO_MMIO_DRIVER_DESC_LOW avail ;;
  write_R VIRTIO_MMIO_DRIVER_DESC_HIGH (Z.shiftr avail 32) ;;
  write_R VIRTIO_MMIO_DEVICE_DESC_LOW used ;;
  write_R VIRTIO_MMIO_DEVICE_DESC_HIGH (Z.shiftr used 32) ;;
  write_R VIRTIO_MMIO_QUEUE_READY 0x1 ;;
  for_each (seq 0 8) (fun i => mod_vdisk (fun d => set_vd_free (<[i := true]> (vd_free d)) d)) ;;
  write_status (Z.lor status VIRTIO_CONFIG_S_DRIVER_OK).

(** ** Descriptors *)

Definition vdisk_free (i : Z) : K bool :=
  gets (fun s => default false (vd_free (k_vdisk s) !! Z.to_nat i)).
Definition set_free (i : Z) (v : bool) : K unit :=
  mod_vdisk (fun d => set_vd_free (<[Z.to_nat i := v]> (vd_free d)) d).
Definition get_desc (i : Z) : K virtq_desc :=
  d ← gets k_vdisk;
  need "disk.desc" (vd_desc d !! Z.to_nat i).
Definition mod_desc (i : Z) (f : virtq_desc -> virtq_desc) : K unit :=
  mod_vdisk (fun d => set_vd_desc (alter f (Z.to_nat i) (vd_desc d)) d).

Definition alloc_desc_step (i : Z) : K (Z + Z) :=
  if i <? NUM then
    f ← vdisk_free i;
    if f : bool then
      set_free i false ;;
      mret (inr i)
    else mret (inl (i + 1))
  else mret (inr (-1)).
Definition alloc_desc : K Z := loop (S (Z.to_nat NUM)) alloc_desc_step 0.

Definition free_desc (i : Z) : K unit :=
  if NUM <=? i then panic "free_desc 1" else
  f ← vdisk_free i;
  if f : bool then panic "free_desc 2" else
  mod_desc i (set_vq_addr A_null) ;;
  mod_desc i (set_vq_len 0) ;;
  mod_desc i (set_vq_flags 0) ;;
  mod_desc i (set_vq_next 0) ;;
  set_free i true ;;
  wakeup Ch_disk_free.

(** A chain has no more elements than there are descriptors: freeing one twice
    panics. *)
Definition free_chain_step (i : Z) : K (Z + unit) :=
  d ← get_desc i;
  free_desc i ;;
  if has (vq_flags d) VRING_DESC_F_NEXT then mret (inl (vq_next d)) else mret (inr tt).
Definition free_chain (i : Z) : K unit := loop (S (Z.to_nat NUM)) free_chain_step i.

Definition alloc3_step (a : Z * list Z) : K ((Z * list Z) + option (list Z)) :=
  let (i, idx) := a in
  if i <? 3 then
    d ← alloc_desc;
    if d <? 0 then
      for_each idx free_desc ;;
      mret (inr None)
    else mret (inl (i + 1, idx ++ [d]))
  else mret (inr (Some idx)).
Definition alloc3_desc : K (option (list Z)) := loop 4 alloc3_step (0, []).

(** ** Requests *)

Definition rw_wait (_ : unit) : K (unit + (Z * Z * Z)) :=
  r ← alloc3_desc;
  match r with
  | Some [i0; i1; i2] => mret (inr (i0, i1, i2))
  | _ => sleep Ch_disk_free L_vdisk ;; mret (inl tt)
  end.

(** The chain for one transfer, and its entry into the available ring. *)
Definition rw_submit (b : nat) (write : bool) (sector i0 i1 i2 : Z) : K unit :=
  mod_vdisk (fun d => set_vd_ops (<[Z.to_nat i0 := mk_blk_req (if write then VIRTIO_BLK_T_OUT else VIRTIO_BLK_T_IN) 0 sector]> (vd_ops d)) d) ;;
  mod_desc i0 (set_vq_addr (A_op i0)) ;;
  mod_desc i0 (set_vq_len 16) ;;
  mod_desc i0 (set_vq_flags VRING_DESC_F_NEXT) ;;
  mod_desc i0 (set_vq_next i1) ;;
  mod_desc i1 (set_vq_addr (A_data b)) ;;
  mod_desc i1 (set_vq_len BSIZE) ;;
  mod_desc i1 (set_vq_flags (if write then 0 else VRING_DESC_F_WRITE)) ;;
  mod_desc i1 (fun d => set_vq_flags (Z.lor (vq_flags d) VRING_DESC_F_NEXT) d) ;;
  mod_desc i1 (set_vq_next i2) ;;
  mod_vdisk (fun d => set_vd_info_st (<[Z.to_nat i0 := 0xff]> (vd_info_st d)) d) ;;
  mod_desc i2 (set_vq_addr (A_status i0)) ;;
  mod_desc i2 (set_vq_len 1) ;;
  mod_desc i2 (set_vq_flags VRING_DESC_F_WRITE) ;;
  mod_desc i2 (set_vq_next 0) ;;
  mod_buf b (set_b_disk true) ;;
  mod_vdisk (fun d => set_vd_info_b (<[Z.to_nat i0 := Some b]> (vd_info_b d)) d) ;;
  mod_vdisk (fun d => set_vd_avail_ring (<[Z.to_nat (vd_avail_idx d mod NUM) := i0]> (vd_avail_ring d)) d) ;;
  mod_vdisk (fun d => set_vd_avail_idx (u16 (vd_avail_idx d + 1)) d) ;;
  write_R VIRTIO_MMIO_QUEUE_NOTIFY 0.

Definition rw_done (b : nat) (_ : unit) : K (unit + unit) :=
  bf ← get_buf b;
  if b_disk bf then sleep (Ch_buf b) L_vdisk ;; mret (inl tt) else mret (inr tt).

Definition virtio_disk_rw (b : nat) (write : bool) : K unit :=
  bf ← get_buf b;
  let sector := u32 (b_blockno bf * (BSIZE / 512)) in
  acquire L_vdisk ;;
  fuel ← gets k_fuel;
  '(i0, i1, i2) ← loop fuel rw_wait tt;
  rw_submit b write sector i0 i1 i2 ;;
  loop (S fuel) (rw_done b) tt ;;
  mod_vdisk (fun d => set_vd_info_b (<[Z.to_nat i0 := None]> (vd_info_b d)) d) ;;
  free_chain i0 ;;
  release L_vdisk.

Definition intr_step (_ : unit) : K (unit + unit) :=
  d ← gets k_vdisk;
  if negb (vd_used_idx d =? vd_used_end d) then
    id ← need "used->ring" (vd_used_ring d !! Z.to_nat (vd_used_idx d mod NUM));
    st ← need "disk.info" (vd_info_st d !! Z.to_nat id);
    if negb (st =? 0) then panic "virtio_disk_intr status" else
    b ← need "disk.info" (mjoin (vd_info_b d !! Z.to_nat id));
    mod_buf b (set_b_disk false) ;;
    wakeup (Ch_buf b) ;;
    mod_vdisk (fun d => set_vd_used_idx (u16 (vd_used_idx d + 1)) d) ;;
    mret (inl tt)
  else mret (inr tt).

(** The counters are 16 bits wide: the loop ends within 2^16 turns of an idle device. *)
Definition virtio_disk_intr : K unit :=
  acquire L_vdisk ;;
  st ← read_R VIRTIO_MMIO_INTERRUPT_STATUS;
  write_R VIRTIO_MMIO_INTERRUPT_ACK (Z.land st 0x3) ;;
  d ← gets k_vdisk;
  loop (S (Z.to_nat (u16 (vd_used_end d - vd_used_idx d)))) intr_step tt ;;
  release L_vdisk.

End Virtio.
