(* ===== verification/VirtioProps.v ===== *)
(** * The disk driver and the device

    A transfer with [virtio_disk_rw], the device, the interrupt handler and the
    scheduler together is the transfer [disk_rw] of [Bio.v].  The device is a
    parameter: a class that says what the virtio specification promises. *)

From stdpp Require Import base list gmap strings.
From Stdlib Require Import ZArith Lia.
From S2P Require Import Prelude Mem Riscv State Sched Bio Proc Virtio.
Open Scope Z_scope.

(** ** The device *)

(** A chain of three descriptors, as virtio-blk has them: the request header, the data, the status byte. *)
Record chain := mk_chain { ch_head : Z; ch_op : blk_req; ch_buf : nat; ch_write : bool; ch_status : Z }.

Definition read_chain (d : vdisk) (head : Z) : option chain :=
  d0 ← vd_desc d !! Z.to_nat head;
  d1 ← vd_desc d !! Z.to_nat (vq_next d0);
  d2 ← vd_desc d !! Z.to_nat (vq_next d1);
  match vq_addr d0, vq_addr d1, vq_addr d2 with
  | A_op i, A_data b, A_status j =>
      op ← vd_ops d !! Z.to_nat i;
      if decide (vq_len d0 = 16 /\ vq_flags d0 = VRING_DESC_F_NEXT /\ vq_len d1 = BSIZE /\ has (vq_flags d1) VRING_DESC_F_NEXT = true /\
                 vq_len d2 = 1 /\ vq_flags d2 = VRING_DESC_F_WRITE)
      then Some (mk_chain head op b (has (vq_flags d1) VRING_DESC_F_WRITE) j) else None
  | _, _, _ => None
  end.

(** What the device does next: it takes the head from the available ring, transfers between the data buffer and the
    sectors the header names (a buffer it may write for a read, one it may read for a write), stores status 0 and puts
    the head into the used ring. *)
Definition serve (s : kstate) : option kstate :=
  let d := k_vdisk s in
  if decide (vd_avail_idx d = vd_used_end d) then None else
  head ← vd_avail_ring d !! Z.to_nat (vd_used_end d mod NUM);
  c ← read_chain d head;
  bf ← k_bufs s !! ch_buf c;
  let bn := rq_sector (ch_op c) / 2 in
  s1 ← (if decide (rq_type (ch_op c) = VIRTIO_BLK_T_OUT /\ ch_write c = false) then
          Some (set_k_writes (k_writes s ++ [(bn, b_data bf)]) (set_k_disk (<[bn := b_data bf]> (k_disk s)) s))
        else if decide (rq_type (ch_op c) = VIRTIO_BLK_T_IN /\ ch_write c = true) then
          Some (set_k_bufs (<[ch_buf c := set_b_data (disk_get (k_disk s) bn) bf]> (k_bufs s)) s)
        else None);
  Some (set_k_vdisk (set_vd_used_end (u16 (vd_used_end d + 1))
    (set_vd_used_ring (<[Z.to_nat (vd_used_end d mod NUM) := head]> (vd_used_ring d))
      (set_vd_info_st (<[Z.to_nat (ch_status c) := 0]> (vd_info_st d)) d))) s1).

Class VirtioDevice := {
  device : kstate -> kstate;
  device_serves : forall s s', serve s = Some s' -> device s = s'
}.

(** ** The driver's side *)

(** No request is in flight: every descriptor is free and the rings agree. *)
Record disk_idle (d : vdisk) : Prop := {
  di_free : vd_free d = replicate 8 true;
  di_desc : length (vd_desc d) = 8%nat;
  di_avail : length (vd_avail_ring d) = 8%nat;
  di_used : length (vd_used_ring d) = 8%nat;
  di_b : length (vd_info_b d) = 8%nat;
  di_st : length (vd_info_st d) = 8%nat;
  di_ops : length (vd_ops d) = 8%nat;
  di_sync : vd_used_idx d = vd_avail_idx d /\ vd_used_end d = vd_avail_idx d;
  di_range : 0 <= vd_avail_idx d < 2 ^ 16
}.

Definition with_vd (f : vdisk -> vdisk) (s : kstate) : kstate := set_k_vdisk (f (k_vdisk s)) s.

Lemma with_vd_vd f g s : with_vd f (with_vd g s) = with_vd (fun d => f (g d)) s.
Proof. done. Qed.

Lemma mod_vdisk_run f s : mod_vdisk f s = Ret tt (with_vd f s).
Proof. done. Qed.
Lemma mod_desc_run i f s : mod_desc i f s = Ret tt (with_vd (fun d => set_vd_desc (alter f (Z.to_nat i) (vd_desc d)) d) s).
Proof. done. Qed.

Lemma alloc_step_run s i : i < NUM ->
  alloc_desc_step i s = if default false (vd_free (k_vdisk s) !! Z.to_nat i)
    then Ret (inr i) (with_vd (fun d => set_vd_free (<[Z.to_nat i := false]> (vd_free d)) d) s) else Ret (inl (i + 1)) s.
Proof.
  intros Hi. unfold alloc_desc_step, vdisk_free, set_free. rewrite (proj2 (Z.ltb_lt i NUM)) by done. kstep.
  by destruct (default false _).
Qed.

Definition three_taken : list bool := [false; false; false; true; true; true; true; true].

Lemma alloc_desc_first s i n :
  vd_free (k_vdisk s) = replicate n false ++ replicate (8 - n) true -> (n < 3)%nat -> i = Z.of_nat n ->
  alloc_desc s = Ret i (with_vd (fun d => set_vd_free (replicate (S n) false ++ replicate (7 - n) true) d) s).
Proof.
  intros Hf Hn ->.
  assert (Hbits : forall j, (j < n)%nat -> alloc_desc_step (Z.of_nat j) s = Ret (inl (Z.of_nat j + 1)) s).
  { intros j Hj. rewrite alloc_step_run by (unfold NUM; lia). by rewrite Hf, Nat2Z.id, lookup_app_l, lookup_replicate_2 by (rewrite ?length_replicate; lia). }
  assert (Hlast : alloc_desc_step (Z.of_nat n) s =
    Ret (inr (Z.of_nat n)) (with_vd (fun d => set_vd_free (replicate (S n) false ++ replicate (7 - n) true) d) s)).
  { rewrite alloc_step_run by (unfold NUM; lia). rewrite Hf, Nat2Z.id. unfold with_vd. rewrite Hf.
    destruct n as [|[|[|n]]]; [done..|lia]. }
  unfold alloc_desc. change (S (Z.to_nat NUM)) with 9%nat.
  destruct n as [|[|[|n]]]; [by apply loop_break| | |lia].
  - rewrite (loop_continue _ _ _ _ _ _ (Hbits 0%nat ltac:(lia))). by apply loop_break.
  - rewrite (loop_continue _ _ _ _ _ _ (Hbits 0%nat ltac:(lia))), (loop_continue _ _ _ _ _ _ (Hbits 1%nat ltac:(lia))). by apply loop_break.
Qed.

Lemma alloc3_idle s :
  disk_idle (k_vdisk s) -> alloc3_desc s = Ret (Some [0; 1; 2]) (with_vd (set_vd_free three_taken) s).
Proof.
  intros [Hf _ _ _ _ _ _ _ _]. unfold alloc3_desc, alloc3_step.
  assert (E : forall n t, (n < 3)%nat -> vd_free (k_vdisk t) = replicate n false ++ replicate (8 - n) true ->
    (d ← alloc_desc; if d <? 0 then for_each (Z.of_nat <$> seq 0 n) free_desc ;; mret (inr None)
                     else mret (inl (Z.of_nat n + 1, (Z.of_nat <$> seq 0 n) ++ [d])) : K ((Z * list Z) + option (list Z))) t =
    Ret (inl (Z.of_nat (S n), Z.of_nat <$> seq 0 (S n))) (with_vd (fun d => set_vd_free (replicate (S n) false ++ replicate (7 - n) true) d) t)).
  { intros n t Hn Ht. kstep_by (alloc_desc_first t (Z.of_nat n) n Ht Hn eq_refl). rewrite (proj2 (Z.ltb_ge _ 0)) by lia.
    rewrite seq_S, fmap_app. cbn [fmap list_fmap]. by replace (Z.of_nat (S n)) with (Z.of_nat n + 1) by lia. }
  erewrite loop_continue; [|exact (E 0%nat s ltac:(lia) Hf)].
  erewrite loop_continue; [|apply (E 1%nat); [lia|reflexivity]].
  erewrite loop_continue; [|apply (E 2%nat); [lia|reflexivity]].
  by apply loop_break.
Qed.

(** The disk state with the chain 0, 1, 2 for one transfer. *)
Definition submitted (b : nat) (write : bool) (sector : Z) (d : vdisk) : vdisk :=
  set_vd_desc (<[0%nat := mk_virtq_desc (A_op 0) 16 VRING_DESC_F_NEXT 1]>
    (<[1%nat := mk_virtq_desc (A_data b) BSIZE (Z.lor (if write then 0 else VRING_DESC_F_WRITE) VRING_DESC_F_NEXT) 2]>
      (<[2%nat := mk_virtq_desc (A_status 0) 1 VRING_DESC_F_WRITE 0]> (vd_desc d))))
  (set_vd_ops (<[0%nat := mk_blk_req (if write then VIRTIO_BLK_T_OUT else VIRTIO_BLK_T_IN) 0 sector]> (vd_ops d))
  (set_vd_info_st (<[0%nat := 0xff]> (vd_info_st d))
  (set_vd_info_b (<[0%nat := Some b]> (vd_info_b d))
  (set_vd_avail_ring (<[Z.to_nat (vd_avail_idx d mod NUM) := 0]> (vd_avail_ring d))
  (set_vd_avail_idx (u16 (vd_avail_idx d + 1))
  (set_vd_regs (<[VIRTIO_MMIO_QUEUE_NOTIFY := u32 0]> (vd_regs d)) d)))))).

Lemma rw_submit_run s b bf write sector :
  length (vd_desc (k_vdisk s)) = 8%nat -> k_bufs s !! b = Some bf ->
  rw_submit b write sector 0 1 2 s =
    Ret tt (set_k_bufs (<[b := set_b_disk true bf]> (k_bufs s)) (with_vd (submitted b write sector) s)).
Proof.
  intros Hl Hb. rewrite <- (alter_lookup_set _ b _ bf Hb).
  destruct s as [h cu ps np ip ti me fl bu di wr lo sb ino fi pi dv co ua cs fs pa lk d pl kp st fu].
  destruct d as [pg l ar ai ur ue fr ui ib ist ops rg ac]. cbn [k_vdisk vd_desc] in Hl. do 3 (destruct l as [|? l]; [done|]).
  destruct write; reflexivity.
Qed.

(** The parts of the state a transfer changes. *)
Definition st (h : list lockid) (c : option nat) (ps : list proc) (bu : list buf) (di : gmap Z (list Z)) (wr : list (Z * list Z))
    (d : vdisk) (s : kstate) : kstate :=
  set_k_held h (set_k_cur c (set_k_procs ps (set_k_bufs bu (set_k_disk di (set_k_writes wr (set_k_vdisk d s)))))).

Lemma st_same s : st (k_held s) (k_cur s) (k_procs s) (k_bufs s) (k_disk s) (k_writes s) (k_vdisk s) s = s.
Proof. by destruct s. Qed.

Lemma st_disk wr' di' h c ps bu di wr d s : set_k_writes wr' (set_k_disk di' (st h c ps bu di wr d s)) = st h c ps bu di' wr' d s.
Proof. done. Qed.
Lemma st_bufs bu' h c ps bu di wr d s : set_k_bufs bu' (st h c ps bu di wr d s) = st h c ps bu' di wr d s.
Proof. done. Qed.
Lemma st_vdisk d' h c ps bu di wr d s : set_k_vdisk d' (st h c ps bu di wr d s) = st h c ps bu di wr d' s.
Proof. done. Qed.
Lemma st_held h' h c ps bu di wr d s : set_k_held h' (st h c ps bu di wr d s) = st h' c ps bu di wr d s.
Proof. done. Qed.
Lemma st_procs ps' h c ps bu di wr d s : set_k_procs ps' (st h c ps bu di wr d s) = st h c ps' bu di wr d s.
Proof. done. Qed.
Lemma st_cur c' h c ps bu di wr d s : set_k_cur c' (st h c ps bu di wr d s) = st h c' ps bu di wr d s.
Proof. done. Qed.

Lemma st_with_vd f h c ps bu di wr d s : with_vd f (st h c ps bu di wr d s) = st h c ps bu di wr (f d) s.
Proof. done. Qed.
Lemma st_lock h s : set_k_held h s = st h (k_cur s) (k_procs s) (k_bufs s) (k_disk s) (k_writes s) (k_vdisk s) s.
Proof. by destruct s. Qed.

Section StFields.
Context (h : list lockid) (c : option nat) (ps : list proc) (bu : list buf) (di : gmap Z (list Z)) (wr : list (Z * list Z)) (d : vdisk) (s : kstate).
Lemma k_vdisk_st : k_vdisk (st h c ps bu di wr d s) = d.
Proof. done. Qed.
Lemma k_bufs_st : k_bufs (st h c ps bu di wr d s) = bu.
Proof. done. Qed.
Lemma k_disk_st : k_disk (st h c ps bu di wr d s) = di.
Proof. done. Qed.
Lemma k_writes_st : k_writes (st h c ps bu di wr d s) = wr.
Proof. done. Qed.
Lemma k_procs_st : k_procs (st h c ps bu di wr d s) = ps.
Proof. done. Qed.
Lemma k_held_st : k_held (st h c ps bu di wr d s) = h.
Proof. done. Qed.
Lemma k_cur_st : k_cur (st h c ps bu di wr d s) = c.
Proof. done. Qed.
End StFields.

Lemma wakeup_st c h me ps bu di wr d s :
  (forall i, L_proc i ∈ h -> Some i = me) -> length ps = NPROC ->
  wakeup c (st h me ps bu di wr d s) = Ret tt (st h me (wake_procs c me ps) bu di wr d s).
Proof. intros Hh Hl. by rewrite wakeup_ok. Qed.

(** *** The interrupt handler *)

Definition intr_done (d : vdisk) : vdisk :=
  set_vd_used_idx (u16 (vd_used_idx d + 1))
    (set_vd_regs (<[VIRTIO_MMIO_INTERRUPT_ACK := u32 (Z.land (default 0 (vd_regs d !! VIRTIO_MMIO_INTERRUPT_STATUS)) 3)]> (vd_regs d)) d).

Lemma u16_next a : 0 <= a < 2 ^ 16 -> u16 (a + 1) <> a /\ u16 (u16 (a + 1) - a) = 1.
Proof. intros H. unfold u16. divlia. Qed.

Lemma intr_run ps bu di wr d s b bf id :
  vd_used_end d = u16 (vd_used_idx d + 1) -> 0 <= vd_used_idx d < 2 ^ 16 ->
  vd_used_ring d !! Z.to_nat (vd_used_idx d mod NUM) = Some id -> vd_info_st d !! Z.to_nat id = Some 0 ->
  vd_info_b d !! Z.to_nat id = Some (Some b) -> bu !! b = Some bf -> length ps = NPROC ->
  virtio_disk_intr (st [] None ps bu di wr d s) =
    Ret tt (st [] None (wake_procs (Ch_buf b) None ps) (<[b := set_b_disk false bf]> bu) di wr (intr_done d) s).
Proof.
  intros He Hr Hid Hst Hib Hb Hl. destruct (u16_next _ Hr) as [Hne Hd]. unfold virtio_disk_intr.
  kstep_by acquire_ok; [|apply not_elem_of_nil]. unfold read_R, write_R, mod_vdisk. kstep. kstep. kstep.
  cbn [st k_vdisk k_held set_k_held set_k_cur set_k_procs set_k_bufs set_k_disk set_k_writes set_k_vdisk vd_used_end vd_used_idx set_vd_regs vd_regs].
  change (VIRTIO_MMIO_INTERRUPT_ACK =? VIRTIO_MMIO_STATUS) with false. cbv iota.
  rewrite He, Hd. change (S (Z.to_nat 1)) with 2%nat.
  set (d1 := set_vd_regs _ d).
  change (set_k_vdisk d1 _) with (st [L_vdisk] None ps bu di wr d1 s).
  assert (Hstep : intr_step tt (st [L_vdisk] None ps bu di wr d1 s) =
    Ret (inl tt) (st [L_vdisk] None (wake_procs (Ch_buf b) None ps) (<[b := set_b_disk false bf]> bu) di wr (intr_done d) s)).
  { unfold intr_step. kstep. cbn [k_vdisk st set_k_held set_k_cur set_k_procs set_k_bufs set_k_disk set_k_writes set_k_vdisk].
    change (vd_used_idx d1) with (vd_used_idx d). change (vd_used_end d1) with (vd_used_end d). change (vd_used_ring d1) with (vd_used_ring d).
    change (vd_info_st d1) with (vd_info_st d). change (vd_info_b d1) with (vd_info_b d).
    rewrite He, (proj2 (Z.eqb_neq _ _)) by (intros E; by symmetry in E). cbn [negb]. rewrite Hid. kstep. rewrite Hst. kstep.
    change (negb (0 =? 0)) with false. cbv iota. rewrite Hib. cbn [mjoin option_join]. kstep. unfold mod_buf. kstep.
    cbn [k_bufs st set_k_held set_k_cur set_k_procs set_k_bufs set_k_disk set_k_writes set_k_vdisk]. rewrite (alter_lookup_set _ b _ bf Hb).
    change (set_k_bufs _ _) with (st [L_vdisk] None ps (<[b := set_b_disk false bf]> bu) di wr d1 s).
    kstep_by wakeup_st; [done| |done]. intros i Hi. by apply list_elem_of_singleton in Hi. }
  rewrite (bind_Ret _ _ _ tt (st [L_vdisk] None (wake_procs (Ch_buf b) None ps) (<[b := set_b_disk false bf]> bu) di wr (intr_done d) s)).
  - by rewrite (release_top L_vdisk []) by (done || apply not_elem_of_nil).
  - rewrite (loop_continue _ _ _ _ _ _ Hstep). apply loop_break. unfold intr_step. kstep.
    change (vd_used_idx (k_vdisk (st _ _ _ _ _ _ (intr_done d) s))) with (u16 (vd_used_idx d + 1)).
    change (vd_used_end (k_vdisk (st _ _ _ _ _ _ (intr_done d) s))) with (vd_used_end d). by rewrite He, Z.eqb_refl.
Qed.

(** *** Freeing the chain *)

Definition no_desc : virtq_desc := mk_virtq_desc A_null 0 0 0.
Definition free1 (i : Z) (d : vdisk) : vdisk :=
  set_vd_free (<[Z.to_nat i := true]> (vd_free d)) (set_vd_desc (alter (fun _ => no_desc) (Z.to_nat i) (vd_desc d)) d).

Lemma free_desc_run i h me ps bu di wr d s :
  i < NUM -> vd_free d !! Z.to_nat i = Some false -> (forall i, L_proc i ∈ h -> Some i = me) -> length ps = NPROC ->
  free_desc i (st h me ps bu di wr d s) = Ret tt (st h me (wake_procs Ch_disk_free me ps) bu di wr (free1 i d) s).
Proof.
  intros Hi Hf Hh Hl. unfold free_desc. rewrite (proj2 (Z.leb_gt NUM i)) by done. unfold vdisk_free. kstep.
  change (vd_free (k_vdisk (st h me ps bu di wr d s))) with (vd_free d). rewrite Hf. cbn [default from_option id].
  unfold set_free. do 4 (kstep_by mod_desc_run). kstep_by mod_vdisk_run.
  assert (E : with_vd (fun d => set_vd_free (<[Z.to_nat i := true]> (vd_free d)) d)
    (with_vd (fun d => set_vd_desc (alter (set_vq_next 0) (Z.to_nat i) (vd_desc d)) d)
    (with_vd (fun d => set_vd_desc (alter (set_vq_flags 0) (Z.to_nat i) (vd_desc d)) d)
    (with_vd (fun d => set_vd_desc (alter (set_vq_len 0) (Z.to_nat i) (vd_desc d)) d)
    (with_vd (fun d => set_vd_desc (alter (set_vq_addr A_null) (Z.to_nat i) (vd_desc d)) d) (st h me ps bu di wr d s))))) =
    st h me ps bu di wr (free1 i d) s).
  { unfold with_vd, free1. cbn [k_vdisk st set_k_held set_k_cur set_k_procs set_k_bufs set_k_disk set_k_writes set_k_vdisk
      vd_desc vd_free set_vd_desc set_vd_free]. rewrite !alter_alter. done. }
  rewrite E. by apply wakeup_st.
Qed.

Lemma free_chain_run h me ps bu di wr d s d0 d1 d2 l :
  vd_desc d = d0 :: d1 :: d2 :: l -> vd_free d = three_taken ->
  has (vq_flags d0) VRING_DESC_F_NEXT = true -> vq_next d0 = 1 -> has (vq_flags d1) VRING_DESC_F_NEXT = true -> vq_next d1 = 2 ->
  has (vq_flags d2) VRING_DESC_F_NEXT = false -> (forall i, L_proc i ∈ h -> Some i = me) -> length ps = NPROC ->
  exists ps', length ps' = NPROC /\
    free_chain 0 (st h me ps bu di wr d s) =
    Ret tt (st h me ps' bu di wr (set_vd_free (replicate 8 true) (set_vd_desc (no_desc :: no_desc :: no_desc :: l) d)) s).
Proof.
  intros Hd Hf F0 N0 F1 N1 F2 Hh Hl. set (w := fun ps => wake_procs Ch_disk_free me ps).
  assert (Hw : forall ps, length ps = NPROC -> length (w ps) = NPROC) by (intros q Hq; unfold w; by rewrite length_wake_procs).
  exists (w (w (w ps))). split; [by repeat apply Hw|]. unfold free_chain. change (S (Z.to_nat NUM)) with 9%nat.
  assert (Hone : forall i ps d x, i < NUM -> vd_desc d !! Z.to_nat i = Some x -> vd_free d !! Z.to_nat i = Some false -> length ps = NPROC ->
    free_chain_step i (st h me ps bu di wr d s) =
    Ret (if has (vq_flags x) VRING_DESC_F_NEXT then inl (vq_next x) else inr tt) (st h me (w ps) bu di wr (free1 i d) s)).
  { intros i q e x Hi Hx He Hq. unfold free_chain_step.
    rewrite (bind_Ret _ _ _ x (st h me q bu di wr e s)) by (unfold get_desc; kstep; cbn; by rewrite Hx). kstep_by free_desc_run; [|done..].
    destruct (has (vq_flags x) VRING_DESC_F_NEXT); reflexivity. }
  pose proof (Hone 0 ps d d0 eq_refl ltac:(by rewrite Hd) ltac:(by rewrite Hf) Hl) as S0. rewrite F0, N0 in S0.
  pose proof (Hone 1 (w ps) (free1 0 d) d1 eq_refl ltac:(cbn; by rewrite Hd) ltac:(cbn; by rewrite Hf) (Hw _ Hl)) as S1. rewrite F1, N1 in S1.
  pose proof (Hone 2 (w (w ps)) (free1 1 (free1 0 d)) d2 eq_refl ltac:(cbn; by rewrite Hd) ltac:(cbn; by rewrite Hf) (Hw _ (Hw _ Hl))) as S2.
  rewrite F2 in S2.
  rewrite (loop_continue _ _ _ _ _ _ S0), (loop_continue _ _ _ _ _ _ S1), (loop_break _ _ _ _ _ _ S2). do 2 f_equal.
  unfold free1. cbn [vd_desc vd_free set_vd_desc set_vd_free]. by rewrite Hd, Hf.
Qed.

(** *** The device takes the request *)

Definition served (d : vdisk) : vdisk :=
  set_vd_used_end (u16 (vd_used_end d + 1))
    (set_vd_used_ring (<[Z.to_nat (vd_used_end d mod NUM) := 0]> (vd_used_ring d)) (set_vd_info_st (<[0%nat := 0]> (vd_info_st d)) d)).

Lemma submitted_chain b write sector d :
  length (vd_desc d) = 8%nat -> length (vd_ops d) = 8%nat ->
  read_chain (submitted b write sector d) 0 =
    Some (mk_chain 0 (mk_blk_req (if write then VIRTIO_BLK_T_OUT else VIRTIO_BLK_T_IN) 0 sector) b (negb write) 0).
Proof.
  intros Hl Ho. destruct d as [pg l ar ai ur ue fr ui ib ist ops rg ac]. cbn [vd_desc vd_ops] in Hl, Ho.
  do 3 (destruct l as [|? l]; [done|]). destruct ops as [|o ops]; [done|]. by destruct write.
Qed.

Lemma serve_chain b bf (write : bool) (sector : Z) d ps bu di wr s :
  vd_avail_idx d <> vd_used_end d -> vd_avail_ring d !! Z.to_nat (vd_used_end d mod NUM) = Some 0 ->
  read_chain d 0 = Some (mk_chain 0 (mk_blk_req (if write then VIRTIO_BLK_T_OUT else VIRTIO_BLK_T_IN) 0 sector) b (negb write) 0) ->
  bu !! b = Some bf ->
  let bn := sector / 2 in
  serve (st [] None ps bu di wr d s) =
    Some (st [] None ps (if write then bu else <[b := set_b_data (disk_get di bn) bf]> bu)
            (if write then <[bn := b_data bf]> di else di) (if write then wr ++ [(bn, b_data bf)] else wr) (served d) s).
Proof.
  intros Hne Ha Hc Hb bn. unfold serve. rewrite k_vdisk_st, k_bufs_st, k_disk_st, k_writes_st.
  cbv zeta. rewrite decide_False by done. rewrite Ha. cbn [mbind option_bind]. rewrite Hc.
  cbn [mbind option_bind ch_buf ch_op rq_sector rq_type ch_write ch_status]. rewrite Hb. cbn [mbind option_bind].
  destruct write; cbn [negb].
  - rewrite decide_True by done. cbn [mbind option_bind]. by rewrite st_disk, st_vdisk.
  - rewrite decide_False by (by intros [? _]). rewrite decide_True by done. cbn [mbind option_bind]. by rewrite st_bufs, st_vdisk.
Qed.

(** *** The driver's side of a transfer *)

(** What is left of [virtio_disk_rw] when it sleeps. *)
Definition rw_rest (p b fuel : nat) : K unit :=
  (x ← ((skip ;; mod_proc p (set_p_chan None) ;; release (L_proc p) ;; acquire L_vdisk) ;; mret (inl tt) : K (unit + unit));
   match x with inl a => loop fuel (rw_done b) a | inr u => mret u end) ;;
  mod_vdisk (fun d => set_vd_info_b (<[0%nat := None]> (vd_info_b d)) d) ;;
  free_chain 0 ;;
  release L_vdisk.

Definition sector_of (bf : buf) : Z := u32 (b_blockno bf * (BSIZE / 512)).
Definition asking (b : nat) (write : bool) (bf : buf) (d : vdisk) : vdisk :=
  submitted b write (sector_of bf) (set_vd_free three_taken d).

Lemma rw_parks s p pr b bf write :
  k_cur s = Some p -> k_procs s !! p = Some pr -> k_held s = [] -> (0 < k_fuel s)%nat -> disk_idle (k_vdisk s) ->
  k_bufs s !! b = Some bf ->
  parks (virtio_disk_rw b write) s
    (st [L_proc p] (Some p) (<[p := set_p_state SLEEPING (set_p_chan (Some (Ch_buf b)) pr)]> (k_procs s))
      (<[b := set_b_disk true bf]> (k_bufs s)) (k_disk s) (k_writes s) (asking b write bf (k_vdisk s)) s)
    (rw_rest p b (k_fuel s)).
Proof.
  intros Hc Hp Hh Hf Hi Hb. destruct (k_fuel s) as [|fuel] eqn:Ef; [lia|]. unfold virtio_disk_rw.
  eapply parks_ret; [by apply get_buf_ok|]. fold (sector_of bf).
  eapply parks_ret; [apply acquire_ok; rewrite Hh; apply not_elem_of_nil|]. rewrite Hh, st_lock, Hc.
  eapply parks_ret; [reflexivity|]. change (k_fuel (st _ _ _ _ _ _ _ s)) with (k_fuel s). rewrite Ef.
  set (s0 := st _ _ _ _ _ _ _ s). eapply (parks_ret _ _ _ (0, 1, 2) (with_vd (set_vd_free three_taken) s0)).
  { apply loop_break. unfold rw_wait. kstep_by (alloc3_idle s0 Hi). done. }
  eapply parks_ret; [apply (rw_submit_run _ b bf); [apply Hi|exact Hb]|].
  unfold s0. rewrite !st_with_vd, k_bufs_st, st_bufs. fold (asking b write bf (k_vdisk s)). set (bd := set_b_disk true bf).
  apply parks_bind, parks_loop. unfold rw_done. eapply parks_ret.
  { apply get_buf_ok. rewrite k_bufs_st. apply list_lookup_insert_eq. by eapply lookup_lt_Some. }
  change (b_disk bd) with true. cbv iota. apply parks_bind.
  generalize (asking b write bf (k_vdisk s)). intros D. generalize (<[b := bd]> (k_bufs s)). intros bu.
  pose proof (sleep_parks (st [L_vdisk] (Some p) (k_procs s) bu (k_disk s) (k_writes s) D s) p pr (Ch_buf b) L_vdisk) as P.
  unfold fall_asleep in P. rewrite k_procs_st, (alter_lookup_set _ p _ pr Hp), st_procs, st_held in P. by apply P.
Qed.

(** Waking up to a finished transfer. *)
Lemma rw_resumes p b fuel ps bu di wr d s bf l d0 d1 d2 :
  (p < length ps)%nat -> length ps = NPROC -> bu !! b = Some bf -> b_disk bf = false -> (0 < fuel)%nat ->
  vd_desc d = d0 :: d1 :: d2 :: l -> vd_free d = three_taken ->
  has (vq_flags d0) VRING_DESC_F_NEXT = true -> vq_next d0 = 1 -> has (vq_flags d1) VRING_DESC_F_NEXT = true -> vq_next d1 = 2 ->
  has (vq_flags d2) VRING_DESC_F_NEXT = false ->
  exists ps', length ps' = NPROC /\ rw_rest p b fuel (st [L_proc p] (Some p) ps bu di wr d s) =
    Ret tt (st [] (Some p) ps' bu di wr (set_vd_free (replicate 8 true) (set_vd_desc (no_desc :: no_desc :: no_desc :: l)
      (set_vd_info_b (<[0%nat := None]> (vd_info_b d)) d))) s).
Proof.
  intros Hp Hl Hb Hd Hf Hds Hfr F0 N0 F1 N1 F2. destruct fuel as [|fuel]; [lia|].
  set (d' := set_vd_info_b (<[0%nat := None]> (vd_info_b d)) d). set (ps0 := alter (set_p_chan None) p ps).
  destruct (free_chain_run [L_vdisk] (Some p) ps0 bu di wr d' s d0 d1 d2 l) as (ps' & Hl' & R); try done.
  { intros i Hi. by apply list_elem_of_singleton in Hi. } { unfold ps0. by rewrite length_alter. }
  exists ps'. split; [done|]. unfold rw_rest.
  rewrite (bind_Ret _ _ _ tt (st [L_vdisk] (Some p) ps0 bu di wr d s)).
  - rewrite (bind_Ret _ _ _ tt (st [L_vdisk] (Some p) ps0 bu di wr d' s)) by done. kstep_by R.
    rewrite (release_top L_vdisk []) by (done || apply not_elem_of_nil). by rewrite st_held.
  - rewrite (bind_Ret _ _ _ (inl tt) (st [L_vdisk] (Some p) ps0 bu di wr d s)).
    + apply loop_break. unfold rw_done. kstep_by get_buf_ok; [|exact Hb]. by rewrite Hd.
    + rewrite (bind_Ret _ _ _ tt (st [L_vdisk] (Some p) ps0 bu di wr d s)); [done|]. kstep. unfold mod_proc. kstep.
      rewrite k_procs_st, st_procs. kstep_by release_top; [|reflexivity|apply not_elem_of_nil]. rewrite st_held.
      rewrite acquire_ok by apply not_elem_of_nil. by rewrite st_held.
Qed.

(** *** The scheduler *)

(** What the scheduler thread does when a process has switched to it: [c->proc = 0; release(&p->lock)]. *)
Definition switched (s : kstate) : kstate := set_k_cur None (set_k_held [] s).

Lemma scheduler_runs p q ps bu di wr d s :
  ps !! p = Some q -> p_state q = RUNNABLE ->
  exists k, scheduler_one p (st [] None ps bu di wr d s) =
    Sleep (st [L_proc p] (Some p) (<[p := set_p_state RUNNING q]> ps) bu di wr d s) k.
Proof.
  intros Hp Hq. unfold scheduler_one. kstep_by acquire_ok; [|apply not_elem_of_nil]. rewrite st_held.
  kstep_by get_proc_ok; [|rewrite k_procs_st; exact Hp]. rewrite decide_True by done. eexists. erewrite bind_Sleep; [reflexivity|].
  unfold mod_proc. kstep. rewrite k_procs_st, (alter_lookup_set _ _ _ _ Hp), st_procs. kstep. rewrite st_cur. reflexivity.
Qed.

(** *** The transfer *)

(** The disk state when the interrupt handler is done, and when the process is. *)
Definition completed (b : nat) (write : bool) (bf : buf) (d : vdisk) : vdisk := intr_done (served (asking b write bf d)).

Lemma completed_facts b write bf d :
  disk_idle d -> exists d0 d1 d2 l, vd_desc (completed b write bf d) = d0 :: d1 :: d2 :: l /\ length l = 5%nat /\
    vd_free (completed b write bf d) = three_taken /\
    has (vq_flags d0) VRING_DESC_F_NEXT = true /\ vq_next d0 = 1 /\ has (vq_flags d1) VRING_DESC_F_NEXT = true /\ vq_next d1 = 2 /\
    has (vq_flags d2) VRING_DESC_F_NEXT = false.
Proof.
  intros Hi. pose proof (di_desc _ Hi) as Hl. unfold completed, intr_done, served, asking, submitted.
  cbn [vd_desc vd_free set_vd_used_idx set_vd_regs set_vd_used_end set_vd_used_ring set_vd_info_st set_vd_desc set_vd_free set_vd_ops
    set_vd_info_b set_vd_avail_ring set_vd_avail_idx].
  destruct (vd_desc d) as [|x0 [|x1 [|x2 l]]]; try done. eexists _, _, _, l. split; [reflexivity|]. split; [by injection Hl|].
  by destruct write.
Qed.

Lemma idle_again b write bf d l :
  disk_idle d -> length l = 5%nat ->
  disk_idle (set_vd_free (replicate 8 true) (set_vd_desc (no_desc :: no_desc :: no_desc :: l)
    (set_vd_info_b (<[0%nat := None]> (vd_info_b (completed b write bf d))) (completed b write bf d)))).
Proof.
  intros [H1 H2 H3 H4 H5 H6 H7 [E1 E2] H9] Hl. unfold completed, intr_done, served, asking, submitted.
  split; cbn [vd_desc vd_free vd_avail_ring vd_used_ring vd_info_b vd_info_st vd_ops vd_used_idx vd_used_end vd_avail_idx
    set_vd_used_idx set_vd_regs set_vd_used_end set_vd_used_ring set_vd_info_st set_vd_desc set_vd_free set_vd_ops
    set_vd_info_b set_vd_avail_ring set_vd_avail_idx]; rewrite ?length_insert; try done.
  - cbn. by rewrite Hl.
  - by rewrite E1, E2.
  - unfold u16. apply Z.mod_pos_bound. lia.
Qed.

Lemma intr_completes b write bf d ps bu di wr s bd :
  disk_idle d -> bu !! b = Some bd -> length ps = NPROC ->
  virtio_disk_intr (st [] None ps bu di wr (served (asking b write bf d)) s) =
    Ret tt (st [] None (wake_procs (Ch_buf b) None ps) (<[b := set_b_disk false bd]> bu) di wr (completed b write bf d) s).
Proof.
  intros [H1 H2 H3 H4 H5 H6 H7 [E1 E2] H9] Hb Hl. pose proof (Z.mod_pos_bound (vd_avail_idx d) NUM ltac:(done)) as Hm. unfold NUM in Hm.
  apply (intr_run ps bu di wr (served (asking b write bf d)) s b bd 0);
    change (vd_used_idx (served (asking b write bf d))) with (vd_used_idx d); try done; rewrite ?E1; try done.
  - change (vd_used_end (served (asking b write bf d))) with (u16 (vd_used_end d + 1)). by rewrite E2.
  - change (vd_used_ring (served (asking b write bf d))) with (<[Z.to_nat (vd_used_end d mod NUM) := 0]> (vd_used_ring d)).
    rewrite E2. apply list_lookup_insert_eq. rewrite H4. unfold NUM. lia.
  - change (vd_info_st (served (asking b write bf d))) with (<[0%nat := 0]> (<[0%nat := 0xff]> (vd_info_st d))).
    apply list_lookup_insert_eq. rewrite length_insert. lia.
  - change (vd_info_b (served (asking b write bf d))) with (<[0%nat := Some b]> (vd_info_b d)). apply list_lookup_insert_eq. lia.
Qed.

Lemma serve_asking b bf bd write d ps bu di wr s :
  disk_idle d -> bu !! b = Some bd -> 0 <= b_blockno bf < 2 ^ 31 ->
  serve (st [] None ps bu di wr (asking b write bf d) s) =
    Some (st [] None ps (if write then bu else <[b := set_b_data (disk_get di (b_blockno bf)) bd]> bu)
            (if write then <[b_blockno bf := b_data bd]> di else di) (if write then wr ++ [(b_blockno bf, b_data bd)] else wr)
            (served (asking b write bf d)) s).
Proof.
  intros [H1 H2 H3 H4 H5 H6 H7 [E1 E2] H9] Hb Hbn. destruct (u16_next _ H9) as [Hne _].
  pose proof (Z.mod_pos_bound (vd_avail_idx d) NUM ltac:(done)) as Hm. unfold NUM in Hm.
  assert (Hsec : sector_of bf / 2 = b_blockno bf).
  { unfold sector_of. change (BSIZE / 512) with 2. rewrite u32_small by lia. by apply Z.div_mul. }
  rewrite <- Hsec. apply serve_chain; [| |by apply submitted_chain|done].
  - change (vd_avail_idx (asking b write bf d)) with (u16 (vd_avail_idx d + 1)).
    change (vd_used_end (asking b write bf d)) with (vd_used_end d). by rewrite E2.
  - change (vd_avail_ring (asking b write bf d)) with (<[Z.to_nat (vd_avail_idx d mod NUM) := 0]> (vd_avail_ring d)).
    change (vd_used_end (asking b write bf d)) with (vd_used_end d). rewrite E2. apply list_lookup_insert_eq. rewrite H3. unfold NUM. lia.
Qed.

Lemma buf_marks bf : b_disk bf = false -> set_b_disk false (set_b_disk true bf) = bf.
Proof. destruct bf. cbn. by intros ->. Qed.

Lemma buf_marks_data bf v : b_disk bf = false -> set_b_disk false (set_b_data v (set_b_disk true bf)) = set_b_data v bf.
Proof. destruct bf. cbn. by intros ->. Qed.

(** The buffers after a transfer are those [disk_rw] leaves. *)
Lemma transfer_bufs (b : nat) (bf : buf) (write : bool) (bu : list buf) (v : list Z) :
  bu !! b = Some bf -> b_disk bf = false ->
  let bd := set_b_disk true bf in
  let bu1 := if write then <[b := bd]> bu else <[b := set_b_data v bd]> (<[b := bd]> bu) in
  exists bd1, bu1 !! b = Some bd1 /\ <[b := set_b_disk false bd1]> bu1 = (if write then bu else <[b := set_b_data v bf]> bu) /\
    exists be, <[b := set_b_disk false bd1]> bu1 !! b = Some be /\ b_disk be = false.
Proof.
  intros Hb Hd bd bu1. pose proof (lookup_lt_Some _ _ _ Hb) as Hlt. destruct write.
  - exists bd. unfold bu1. rewrite list_lookup_insert_eq by done. rewrite !list_insert_insert_eq. unfold bd. rewrite buf_marks by done.
    rewrite list_insert_id by done. eauto.
  - exists (set_b_data v bd). unfold bu1. rewrite !list_insert_insert_eq, list_lookup_insert_eq by done. unfold bd.
    rewrite buf_marks_data by done. split_and!; [done|done|]. exists (set_b_data v bf). rewrite list_lookup_insert_eq by done.
    split; [done|]. by destruct bf.
Qed.

(** C3: A transfer with the disk driver is the transfer the buffer cache relies on.  On an idle disk [virtio_disk_rw]
    queues a request and sleeps; the device serves it and interrupts; the handler wakes the process, the scheduler
    runs it, and [virtio_disk_rw] returns with buffers and disk exactly as [disk_rw] leaves them, the disk idle again. *)
Theorem disk_transfer `{VirtioDevice} s p pr b bf write :
  k_cur s = Some p -> k_procs s !! p = Some pr -> length (k_procs s) = NPROC -> k_held s = [] -> (0 < k_fuel s)%nat ->
  disk_idle (k_vdisk s) -> k_bufs s !! b = Some bf -> b_disk bf = false -> 0 <= b_blockno bf < 2 ^ 31 ->
  exists s1 k s3 s4 k' s5 s6,
    virtio_disk_rw b write s = Sleep s1 k /\ asleep_on (Ch_buf b) p s1 /\
    virtio_disk_intr (device (switched s1)) = Ret tt s3 /\ scheduler_one p s3 = Sleep s4 k' /\ k s4 = Ret tt s5 /\
    disk_rw b write s = Ret tt s6 /\ k_bufs s5 = k_bufs s6 /\ k_disk s5 = k_disk s6 /\ k_writes s5 = k_writes s6 /\
    disk_idle (k_vdisk s5) /\ k_held s5 = [] /\ k_cur s5 = Some p.
Proof.
  intros Hc Hp Hn Hh Hf Hi Hb Hd Hbn. pose proof (lookup_lt_Some _ _ _ Hp) as Hlt.
  destruct (rw_parks s p pr b bf write Hc Hp Hh Hf Hi Hb) as (k & R1 & Hk).
  set (q := set_p_state SLEEPING (set_p_chan (Some (Ch_buf b)) pr)) in *. set (d := k_vdisk s) in *. set (bd := set_b_disk true bf) in *.
  set (ps := <[p := q]> (k_procs s)) in *. set (v := disk_get (k_disk s) (b_blockno bf)).
  assert (Hps : length ps = NPROC) by (unfold ps; by rewrite length_insert).
  assert (Hbd : <[b := bd]> (k_bufs s) !! b = Some bd) by (apply list_lookup_insert_eq; by eapply lookup_lt_Some).
  pose proof (serve_asking b bf bd write d ps (<[b := bd]> (k_bufs s)) (k_disk s) (k_writes s) s Hi Hbd Hbn) as R2.
  destruct (transfer_bufs b bf write (k_bufs s) v Hb Hd) as (bd1 & Hb1 & Ebu & be & Hbe & Hbed). fold bd in Hb1, Ebu, Hbe.
  set (bu1 := if write then _ else _) in Hb1, Ebu, Hbe. set (bu2 := <[b := set_b_disk false bd1]> bu1) in *.
  fold v in R2. change (if write then <[b := bd]> (k_bufs s) else <[b := set_b_data v bd]> (<[b := bd]> (k_bufs s))) with bu1 in R2.
  apply device_serves in R2. set (di := if write then _ else _) in R2. set (wr := if write then _ else _) in R2.
  pose proof (intr_completes b write bf d ps bu1 di wr s bd1 Hi Hb1 Hps) as R3. fold bu2 in R3.
  destruct (completed_facts b write bf d Hi) as (d0 & d1 & d2 & l & F1 & Hll & F2 & F3 & F4 & F5 & F6 & F7).
  set (dc := completed b write bf d) in *. set (ps3 := wake_procs (Ch_buf b) None ps) in *.
  assert (Hq3 : ps3 !! p = Some (set_p_state RUNNABLE q)).
  { unfold ps3. rewrite lookup_wake_procs. unfold ps. rewrite list_lookup_insert_eq by done. cbn.
    rewrite decide_False by done. unfold wake1. by rewrite decide_True by done. }
  destruct (scheduler_runs p (set_p_state RUNNABLE q) ps3 bu2 di wr dc s Hq3 eq_refl) as (k' & R4).
  set (ps4 := <[p := _]> ps3) in R4. assert (Hl4 : length ps4 = NPROC) by (unfold ps4, ps3; by rewrite length_insert, length_wake_procs).
  destruct (rw_resumes p b (k_fuel s) ps4 bu2 di wr dc s be l d0 d1 d2) as (ps5 & _ & R5); try done; [lia|].
  eexists _, k, _, _, k', _, _. split_and!; [exact R1| | |exact R4|by rewrite Hk; exact R5| | | | | | |].
  - split; [|done]. exists q. rewrite k_procs_st. split; [by apply list_lookup_insert_eq|done].
  - unfold switched. rewrite st_held, st_cur, R2. exact R3.
  - unfold disk_rw. kstep_by get_buf_ok; [|exact Hb]. instantiate (1 :=
      set_k_writes wr (set_k_disk di (set_k_bufs (if write then k_bufs s else <[b := set_b_data v bf]> (k_bufs s)) s))).
    unfold di, wr. destruct write; [by destruct s|]. kstep. unfold mod_buf, modify. rewrite (alter_lookup_set _ _ _ _ Hb). by destruct s.
  - rewrite k_bufs_st. exact Ebu.
  - done.
  - done.
  - rewrite k_vdisk_st. by apply idle_again.
  - done.
  - done.
Qed.

(** ** A sample transfer *)

#[refine] Instance spec_device : VirtioDevice := { device := fun s => default s (serve s) }.
Proof. intros s s' E. by rewrite E. Defined.

Definition vio_proc : proc := set_p_state RUNNING (set_p_pid 1 proc0).
Definition vio_buf : buf := set_b_blockno 40 buf0.
Definition vio_sample : kstate :=
  set_k_vdisk (set_vd_free (replicate 8 true) vdisk0) (set_k_bufs (replicate 31 vio_buf)
    (set_k_cur (Some 0%nat) (set_k_procs (vio_proc :: replicate 63 proc0) boot_state))).

Lemma vio_idle : disk_idle (k_vdisk vio_sample).
Proof. split; cbn; try done; lia. Qed.

Lemma disk_transfer_witness :
  let s := vio_sample in
  exists s1 k s3 s4 k' s5 s6,
    virtio_disk_rw 3 false s = Sleep s1 k /\ asleep_on (Ch_buf 3) 0 s1 /\
    virtio_disk_intr (device (switched s1)) = Ret tt s3 /\ scheduler_one 0 s3 = Sleep s4 k' /\ k s4 = Ret tt s5 /\
    disk_rw 3 false s = Ret tt s6 /\ k_bufs s5 = k_bufs s6 /\ k_disk s5 = k_disk s6 /\ k_writes s5 = k_writes s6 /\
    disk_idle (k_vdisk s5) /\ k_held s5 = [] /\ k_cur s5 = Some 0%nat.
Proof.
  intros s. apply (disk_transfer s 0 vio_proc 3 vio_buf false).
  - reflexivity.
  - reflexivity.
  - reflexivity.
  - reflexivity.
  - cbn. lia.
  - apply vio_idle.
  - reflexivity.
  - reflexivity.
  - cbn. lia.
Defined.
