(* ===== verification/Trap.v ===== *)
(** * kernel/trap.c and kernel/plic.c: traps and interrupts

    [usertrapret] ends with the jump to [userret] in trampoline.S, whose argument
    (the value for satp) is the result here. *)

From stdpp Require Import base list gmap strings.
From Stdlib Require Import ZArith Lia.
From S2P Require Import Prelude Mem Riscv State Sched Kalloc Format Printf Proc Console Fs ProcFs Syscall Virtio.
Open Scope Z_scope.

(** ** kernel/plic.c *)

Definition UART0_IRQ : Z := 10.
Definition VIRTIO0_IRQ : Z := 1.
Definition PLIC_SENABLE (hart : Z) : Z := PLIC + 0x2080 + hart * 0x100.
Definition PLIC_SPRIORITY (hart : Z) : Z := PLIC + 0x201000 + hart * 0x2000.
Definition PLIC_SCLAIM (hart : Z) : Z := PLIC + 0x201004 + hart * 0x2000.

Definition plic_write (a v : Z) : K unit :=
  modify (fun s => set_k_plic (set_pl_regs (<[a := v]> (pl_regs (k_plic s))) (k_plic s)) s).

Definition plicinit : K unit :=
  plic_write (PLIC + UART0_IRQ * 4) 1 ;;
  plic_write (PLIC + VIRTIO0_IRQ * 4) 1.

Definition plicinithart : K unit :=
  hart ← cpuid;
  plic_write (PLIC_SENABLE hart) (Z.lor (Z.shiftl 1 UART0_IRQ) (Z.shiftl 1 VIRTIO0_IRQ)) ;;
  plic_write (PLIC_SPRIORITY hart) 0.

(** Reading the claim register takes the next pending interrupt; 0 when none is. *)
Definition plic_claim : K Z :=
  fun s => match pl_claims (k_plic s) with
           | irq :: l => Ret (s32 irq) (set_k_plic (set_pl_claims l (k_plic s)) s)
           | [] => Ret 0 s
           end.

Definition plic_complete (irq : Z) : K unit :=
  hart ← cpuid;
  plic_write (PLIC_SCLAIM hart) irq.

Section Trap.
Context {L : Layout} {U : Uninit}.

(** ** kernel/trap.c *)

Definition trapinithart : K unit := mod_csrs (set_r_stvec l_kernelvec).

Definition clockintr : K unit :=
  id ← cpuid;
  (if id =? 0 then
     acquire L_ticks ;;
     modify (fun s => set_k_ticks (u32 (k_ticks s + 1)) s) ;;
     wakeup Ch_ticks ;;
     release L_ticks
   else skip) ;;
  mod_csrs (fun c => set_r_stimecmp (u64 (r_time c + 1000000)) c).

Definition devintr : K Z :=
  scause ← gets (fun s => r_scause (k_csrs s));
  if scause =? 0x8000000000000009 then
    irq ← plic_claim;
    (if irq =? UART0_IRQ then uartintr
     else if irq =? VIRTIO0_IRQ then virtio_disk_intr
     else if negb (irq =? 0) then printf (chars "unexpected interrupt irq=%d" ++ [10]) [ANum irq] ;; skip
     else skip) ;;
    (if negb (irq =? 0) then plic_complete irq else skip) ;;
    mret 1
  else if scause =? 0x8000000000000005 then
    clockintr ;;
    mret 2
  else mret 0.

Definition usertrapret : K Z :=
  p ← myproc';
  intr_off ;;
  mod_csrs (set_r_stvec (TRAMPOLINE + l_uservec)) ;;
  pr ← get_proc p;
  c ← gets k_csrs;
  st64 (p_trapframe pr + tf_kernel_satp) (r_satp c) ;;
  st64 (p_trapframe pr + tf_kernel_sp) (p_kstack pr + PGSIZE) ;;
  st64 (p_trapframe pr + tf_kernel_trap) l_usertrap ;;
  st64 (p_trapframe pr + tf_kernel_hartid) (r_tp c) ;;
  let x := r_sstatus c in
  let x := Z.land x (Z.lnot SSTATUS_SPP) in
  let x := Z.lor x SSTATUS_SPIE in
  mod_csrs (set_r_sstatus x) ;;
  epc ← ld64 (p_trapframe pr + tf_epc);
  mod_csrs (set_r_sepc epc) ;;
  mret (MAKE_SATP (p_pagetable pr)).

Definition usertrap : K Z :=
  c ← gets k_csrs;
  if has (r_sstatus c) SSTATUS_SPP then panic "usertrap: not from user mode" else
  mod_csrs (set_r_stvec l_kernelvec) ;;
  p ← myproc';
  pr ← get_proc p;
  sepc ← gets (fun s => r_sepc (k_csrs s));
  st64 (p_trapframe pr + tf_epc) sepc ;;
  scause ← gets (fun s => r_scause (k_csrs s));
  which_dev ← (if scause =? 8 then
      k ← killed p;
      (if negb (k =? 0) then exit (-1) else skip) ;;
      epc ← ld64 (p_trapframe pr + tf_epc);
      st64 (p_trapframe pr + tf_epc) (epc + 4) ;;
      intr_on ;;
      syscall ;;
      mret 0
    else
      d ← devintr;
      (if negb (d =? 0) then skip else
       c ← gets k_csrs;
       printf (chars "usertrap(): unexpected scause 0x%lx pid=%d" ++ [10]) [ANum (r_scause c); ANum (p_pid pr)] ;;
       printf (chars "            sepc=0x%lx stval=0x%lx" ++ [10]) [ANum (r_sepc c); ANum (r_stval c)] ;;
       setkilled p) ;;
      mret d);
  k ← killed p;
  (if negb (k =? 0) then exit (-1) else skip) ;;
  (if which_dev =? 2 then yield else skip) ;;
  usertrapret.

Definition kerneltrap : K unit :=
  c ← gets k_csrs;
  let sepc := r_sepc c in
  let sstatus := r_sstatus c in
  let scause := r_scause c in
  if negb (has sstatus SSTATUS_SPP) then panic "kerneltrap: not from supervisor mode" else
  i ← intr_get;
  if i : bool then panic "kerneltrap: interrupts enabled" else
  which_dev ← devintr;
  if which_dev =? 0 then
    c ← gets k_csrs;
    printf (chars "scause=0x%lx sepc=0x%lx stval=0x%lx" ++ [10]) [ANum scause; ANum (r_sepc c); ANum (r_stval c)] ;;
    panic "kerneltrap"
  else
  me ← myproc;
  (if (which_dev =? 2) && negb (bool_decide (me = None)) then yield else skip) ;;
  mod_csrs (set_r_sepc sepc) ;;
  mod_csrs (set_r_sstatus sstatus).

(** kernel/proc.c: [forkret] *)
Definition forkret : K Z :=
  forkret_init ;;
  usertrapret.

End Trap.
