(* ===== verification/Boot.v ===== *)
(** * kernel/start.c and kernel/main.c: booting *)

From stdpp Require Import base list gmap strings.
From Stdlib Require Import ZArith Lia.
From S2P Require Import Prelude Mem Riscv State Sched Kalloc Vm Bio Format Printf Proc Console Fs Kvm ProcFs Virtio Trap.
Open Scope Z_scope.

(** ** Machine mode *)

(** The registers [start] touches; [m_pc] is where execution goes on. *)
Record mcsrs := mk_mcsrs {
  m_mstatus : Z; m_mepc : Z; m_satp : Z; m_medeleg : Z; m_mideleg : Z; m_sie : Z;
  m_pmpaddr0 : Z; m_pmpcfg0 : Z; m_mie : Z; m_menvcfg : Z; m_mcounteren : Z;
  m_stimecmp : Z; m_time : Z; m_mhartid : Z; m_tp : Z; m_pc : option Z
}.

Definition MSTATUS_MPP_MASK : Z := Z.shiftl 3 11.
Definition MSTATUS_MPP_S : Z := Z.shiftl 1 11.
Definition SIE_SEIE : Z := Z.shiftl 1 9.
Definition SIE_STIE : Z := Z.shiftl 1 5.
Definition SIE_SSIE : Z := Z.shiftl 1 1.
Definition MIE_STIE : Z := Z.shiftl 1 5.

Definition timerinit (c : mcsrs) : mcsrs :=
  mk_mcsrs (m_mstatus c) (m_mepc c) (m_satp c) (m_medeleg c) (m_mideleg c) (m_sie c)
    (m_pmpaddr0 c) (m_pmpcfg0 c) (Z.lor (m_mie c) MIE_STIE) (Z.lor (m_menvcfg c) (Z.shiftl 1 63))
    (Z.lor (m_mcounteren c) 2) (u64 (m_time c + 1000000)) (m_time c) (m_mhartid c) (m_tp c) (m_pc c).

(** [mret] goes to [mepc] in the mode the MPP field names. *)
Definition start (main : Z) (c : mcsrs) : mcsrs :=
  let x := m_mstatus c in
  let x := Z.land x (Z.lnot MSTATUS_MPP_MASK) in
  let x := Z.lor x MSTATUS_MPP_S in
  let c := mk_mcsrs x main 0 0xffff 0xffff (Z.lor (Z.lor (Z.lor (m_sie c) SIE_SEIE) SIE_STIE) SIE_SSIE)
    0x3fffffffffffff 0xf (m_mie c) (m_menvcfg c) (m_mcounteren c) (m_stimecmp c) (m_time c) (m_mhartid c) (m_tp c) (m_pc c) in
  let c := timerinit c in
  mk_mcsrs (m_mstatus c) (m_mepc c) (m_satp c) (m_medeleg c) (m_mideleg c) (m_sie c)
    (m_pmpaddr0 c) (m_pmpcfg0 c) (m_mie c) (m_menvcfg c) (m_mcounteren c) (m_stimecmp c) (m_time c) (m_mhartid c)
    (s32 (m_mhartid c)) (Some (m_mepc c)).

(** ** main *)

Section Boot.
Context {L : Layout} {U : Uninit}.

(** [while(started == 0);] waits for hart 0. *)
Definition wait_started (_ : unit) : K (unit + unit) :=
  st ← gets k_started;
  if st : bool then mret (inr tt) else suspend ;; mret (inl tt).

Definition main (rounds : nat) : K unit :=
  id ← cpuid;
  (if id =? 0 then
     consoleinit ;;
     printfinit ;;
     printf [10] [] ;;
     printf (chars "xv6 kernel is booting" ++ [10]) [] ;;
     printf [10] [] ;;
     kinit ;;
     kvminit ;;
     kvminithart ;;
     procinit ;;
     trapinithart ;;
     plicinit ;;
     plicinithart ;;
     binit ;;
     iinit ;;
     virtio_disk_init ;;
     userinit ;;
     modify (set_k_started true)
   else
     fuel ← gets k_fuel;
     loop fuel wait_started tt ;;
     printf (chars "hart %d starting" ++ [10]) [ANum id] ;;
     kvminithart ;;
     trapinithart ;;
     plicinithart) ;;
  scheduler rounds.

End Boot.
