(* ===== verification/FsTx.v ===== *)
(** * Blocks inside a transaction

    File-system code works on blocks between [begin_op] and [end_op]: it takes a
    buffer, reads or edits it, logs what it edited and releases it.  [intx] is the
    state in which one process does that; [blk s bn], the contents of a block as
    the kernel sees it, is what the operations of [Fs.v] are specified on. *)

From stdpp Require Import base list gmap strings.
From Stdlib Require Import ZArith Lia.
From S2P Require Import Prelude Mem Riscv State Sched Bio Bcache Log Commit LogOps Fs.
Open Scope Z_scope.

(** What block operations leave alone: everything but the buffers, the list of
    logged blocks, and other processes they wake. *)
Record tx_frame (s s' : kstate) : Prop := {
  tf_only : s' = set_k_bufs (k_bufs s') (set_k_procs (k_procs s') (set_k_log (k_log s') s));
  tf_len : length (k_procs s') = length (k_procs s);
  tf_me : forall p, k_cur s = Some p -> k_procs s' !! p = k_procs s !! p;
  tf_geo : lg_start (k_log s') = lg_start (k_log s) /\ lg_size (k_log s') = lg_size (k_log s) /\
           lg_outstanding (k_log s') = lg_outstanding (k_log s)
}.

#[global] Instance tx_frame_preorder : PreOrder tx_frame.
Proof.
  split.
  - intros s. split; [by destruct s|done..].
  - intros s1 s2 s3 [A1 A2 A3 (A4 & A5 & A6)] [B1 B2 B3 (B4 & B5 & B6)]. split; [|congruence| |split_and!; congruence].
    + rewrite B1. cbn [k_bufs k_procs k_log set_k_bufs set_k_procs set_k_log]. rewrite A1. by destruct s1.
    + intros p Hp. rewrite B3; [by apply A3|]. by rewrite A1.
Qed.

Lemma tx_frame_bio s s' : bio_frame s s' -> k_disk s' = k_disk s -> k_writes s' = k_writes s -> tx_frame s s'.
Proof.
  intros [F1 F2 F3] Hd Hw. split; [|done|done|by rewrite F1].
  rewrite F1. cbn [k_bufs k_procs k_log set_k_bufs set_k_procs set_k_disk set_k_writes]. rewrite Hd, Hw. by destruct s.
Qed.

Lemma tx_frame_log s l :
  lg_start l = lg_start (k_log s) -> lg_size l = lg_size (k_log s) -> lg_outstanding l = lg_outstanding (k_log s) ->
  tx_frame s (set_k_log l s).
Proof. intros H1 H2 H3. split; [by destruct s|done|done|done]. Qed.

(** [H] are the blocks whose buffers the process holds; [n] more blocks may be
    logged.  No other thread holds a buffer. *)
Record intx (p : nat) (pr : proc) (H : list Z) (n : Z) (s : kstate) : Prop := {
  tx_env : env_ok s p pr;
  tx_bio : exists o, bio_ok s o;
  tx_log : log_wf (k_log s);
  tx_out : 1 <= lg_outstanding (k_log s);
  tx_n : 0 <= n;
  tx_room : lh_n (lg_lh (k_log s)) + n <= lg_size (k_log s) - 1 /\ lh_n (lg_lh (k_log s)) + n + 2 <= Z.of_nat NBUF;
  tx_ref : forall bn, ref s bn = (if decide (bn ∈ lblocks (k_log s)) then 1 else 0) + (if decide (bn ∈ H) then 1 else 0);
  tx_clean : forall bn, bn ∉ lblocks (k_log s) -> blk s bn = disk_get (k_disk s) bn;
  tx_unl : forall bn, bn ∉ H -> lockedby s bn = None;
  tx_nodup : NoDup H;
  tx_free : (NBUF <= free_bufs s + length (lblocks (k_log s)) + length (filter (fun b => b ∉ lblocks (k_log s)) H))%nat
}.

Definition same_blocks (s s' : kstate) : Prop := forall bn, blk s' bn = blk s bn.
Definition set_block (s s' : kstate) (x : Z) (v : list Z) : Prop := forall bn, blk s' bn = if bn =? x then v else blk s bn.

(** A block outside the log area, with a number the code can name. *)
Definition fs_block (s : kstate) (bn : Z) : Prop := 0 <= bn < 2 ^ 31 /\ ~ in_log (k_log s) bn.

Lemma fs_block_frame s s' bn : tx_frame s s' -> fs_block s bn -> fs_block s' bn.
Proof. intros [_ _ _ (E1 & E2 & _)] [H1 H2]. split; [done|]. unfold in_log. by rewrite E1, E2. Qed.

Section Tx.
Context (p : nat) (pr : proc).
Abbreviation pid := (p_pid pr).

Lemma tx_lb_le H n s : intx p pr H n s -> Z.of_nat (length (lblocks (k_log s))) = lh_n (lg_lh (k_log s)).
Proof. intros T. pose proof (tx_log _ _ _ _ _ T) as Hw. rewrite (length_lblocks _ Hw). destruct Hw. lia. Qed.

Lemma tx_bread H n s x :
  intx p pr H n s -> x ∉ H -> Z.of_nat (length H) <= n + 1 ->
  exists i s', bread ROOTDEV x s = Ret i s' /\ intx p pr (x :: H) n s' /\ own s' pid i x /\ same_blocks s s' /\ tx_frame s s' /\
    k_log s' = k_log s /\ (forall j y, y ∈ H -> own s pid j y -> own s' pid j y).
Proof.
  intros T Hx HH. pose proof (tx_lb_le _ _ _ T) as Hlb. destruct T as [He [o Ho] Hl Hout Hn [Hr1 Hr2] Href Hcl Hun Hnd Hfr].
  pose proof (Href x) as Hrx. rewrite (decide_False _ _ Hx) in Hrx.
  destruct (bread_ok s o p pr x He Ho (Hun x Hx)) as (i & s' & R & Ho' & Hown & [F D W B Rf Lk Ow] & Hf').
  { destruct (decide (x ∈ lblocks _)); lia. }
  { intros E. destruct (decide (x ∈ lblocks (k_log s))); [lia|].
    pose proof (length_filter (fun b => b ∉ lblocks (k_log s)) H). lia. }
  pose proof (frame_log s s' F) as El.
  exists i, s'. split_and!; [done| |done|done|by apply tx_frame_bio|done|].
  2: { intros j y Hy Hoy. apply Ow; [by intros ->|done]. }
  split; rewrite ?El; try done.
  - by eapply frame_env.
  - by exists o.
  - intros bn. rewrite Rf, !Href. destruct (Z.eqb_spec bn x) as [->|Hne].
    + rewrite (decide_False _ _ Hx), (decide_True (P := x ∈ x :: H)) by (by left). lia.
    + f_equal. destruct (decide (bn ∈ H)) as [Hi|Hi].
      * by rewrite decide_True by (by right).
      * rewrite decide_False; [done|]. intros [?|?]%elem_of_cons; done.
  - intros bn Hbn. rewrite B, D. by apply Hcl.
  - intros bn [H1 H2]%not_elem_of_cons. rewrite Lk. destruct (Z.eqb_spec bn x); [done|by apply Hun].
  - by constructor.
  - destruct (decide (x ∈ lblocks (k_log s))) as [Hi|Hi].
    + rewrite filter_cons_False by (intros Hnx; by apply Hnx). destruct (Z.eqb_spec (ref s x) 0); lia.
    + rewrite filter_cons_True by done. cbn [length]. destruct (ref s x =? 0); lia.
Qed.

Lemma tx_get H n s i x :
  intx p pr H n s -> own s pid i x -> exists bf, get_buf i s = Ret bf s /\ b_data bf = blk s x /\ b_blockno bf = x.
Proof.
  intros T Hown. destruct (tx_bio _ _ _ _ _ T) as [o Ho].
  destruct (own_facts _ _ _ _ _ Ho Hown) as (b & _ & Hb & _ & Hbn & _ & _ & _ & E & _).
  exists b. split; [by apply get_buf_ok|]. by rewrite E.
Qed.

Lemma tx_brelse H n s i x :
  intx p pr (x :: H) n s -> own s pid i x ->
  exists s', brelse i s = Ret tt s' /\ intx p pr H n s' /\ same_blocks s s' /\ tx_frame s s' /\ k_log s' = k_log s /\
    (forall j y, y ∈ H -> own s pid j y -> own s' pid j y).
Proof.
  intros T Hown. destruct T as [He [o Ho] Hl Hout Hn Hroom Href Hcl Hun Hnd Hfr].
  apply NoDup_cons in Hnd as [Hx Hnd].
  pose proof (Href x) as Hrx. rewrite (decide_True (P := x ∈ x :: H)) in Hrx by (by left).
  destruct (brelse_ok s o p pr i x He Ho Hown) as (s' & o' & R & Ho' & [F D W B Rf Lk Ow] & Hf' & _).
  { intros E. apply Hcl. intros Hi. rewrite decide_True in Hrx by done. lia. }
  pose proof (frame_log s s' F) as El.
  exists s'. split_and!; [done| |done|by apply tx_frame_bio|done|].
  2: { intros j y Hy Hoy. apply Ow; [by intros ->|done]. }
  split; rewrite ?El; try done.
  - by eapply frame_env.
  - by exists o'.
  - intros bn. rewrite Rf, !Href. destruct (Z.eqb_spec bn x) as [->|Hne].
    + rewrite (decide_False _ _ Hx), (decide_True (P := x ∈ x :: H)) by (by left). lia.
    + f_equal. destruct (decide (bn ∈ H)) as [Hi|Hi].
      * by rewrite decide_True by (by right).
      * rewrite decide_False; [done|]. intros [?|?]%elem_of_cons; done.
  - intros bn Hbn. rewrite B, D. by apply Hcl.
  - intros bn Hbn. rewrite Lk. destruct (Z.eqb_spec bn x); [done|]. apply Hun. by apply not_elem_of_cons.
  - rewrite Hf'. destruct (decide (x ∈ lblocks (k_log s))) as [Hi|Hi].
    + rewrite filter_cons_False in Hfr by (intros Hnx; by apply Hnx). lia.
    + rewrite filter_cons_True in Hfr by done. cbn [length] in Hfr. rewrite Hrx. change (0 + 1 =? 1) with true. cbv iota. lia.
Qed.

(** What does not touch the processes, locks, buffers, disk and log keeps the transaction. *)
Lemma intx_ext H n s s' :
  k_cur s' = k_cur s -> k_procs s' = k_procs s -> k_held s' = k_held s -> k_fuel s' = k_fuel s ->
  k_bufs s' = k_bufs s -> k_disk s' = k_disk s -> k_log s' = k_log s -> intx p pr H n s -> intx p pr H n s'.
Proof.
  intros E1 E2 E3 E4 E5 E6 E7 [[a1 a2 a3 a4 a5] [o [b1 b2 b3 b4 b5 b6 b7]] Hl Hout Hn Hr Href Hcl Hun Hnd Hfr].
  split; rewrite ?E7; try done.
  - split; congruence.
  - exists o. split; rewrite ?E5, ?E6; done.
  - intros bn. rewrite <- Href. unfold ref. by rewrite E5.
  - intros bn Hbn. rewrite E6, <- Hcl by done. unfold blk. by rewrite E5, E6.
  - intros bn Hbn. rewrite <- (Hun bn Hbn). unfold lockedby. by rewrite E5.
  - unfold free_bufs in *. by rewrite E5.
Qed.

Lemma tx_weaken H n m s : intx p pr H n s -> 0 <= m <= n -> intx p pr H m s.
Proof. intros [? ? ? ? ? ? ? ? ? ? ?] Hm. split; try done; lia. Qed.

Lemma in_app_one (x y : Z) l : (x ∈ l ++ [y]) <-> x ∈ l \/ x = y.
Proof. rewrite elem_of_app, list_elem_of_singleton. done. Qed.

(** [edit] the block and log it: what remains of the budget. *)
Definition left_after (l : log) (x n : Z) : Z := if decide (x ∈ lblocks l) then n else n - 1.

Lemma filter_not_in (lb H : list Z) x :
  x ∉ H -> filter (fun b => b ∉ lb ++ [x]) H = filter (fun b => b ∉ lb) H.
Proof.
  induction H as [|y H IH]; [done|]. intros [Hne Hx]%not_elem_of_cons. destruct (decide (y ∈ lb)) as [Hi|Hi].
  - rewrite !filter_cons_False; [by apply IH|tauto|]. rewrite in_app_one. tauto.
  - rewrite !filter_cons_True; [f_equal; by apply IH|done|]. rewrite in_app_one. intros [?|?]; [done|]. by apply Hne.
Qed.

Lemma filter_logged (lb H : list Z) x :
  NoDup H -> x ∈ H -> x ∉ lb ->
  length (filter (fun b => b ∉ lb) H) = S (length (filter (fun b => b ∉ lb ++ [x]) H)).
Proof.
  induction H as [|y H IH]; intros Hnd Hx Hlb; [by apply not_elem_of_nil in Hx|].
  apply NoDup_cons in Hnd as [Hy Hnd]. destruct (decide (y = x)) as [->|Hne].
  - rewrite filter_cons_True by done. rewrite (filter_cons_False (fun b => b ∉ lb ++ [x])) by (rewrite in_app_one; intros Hn; apply Hn; by right).
    cbn [length]. by rewrite filter_not_in.
  - apply elem_of_cons in Hx as [->|Hx]; [done|]. destruct (decide (y ∈ lb)) as [Hi|Hi].
    + rewrite !filter_cons_False; [by apply IH| |]; [rewrite in_app_one|]; tauto.
    + rewrite !filter_cons_True; [cbn [length]; f_equal; by apply IH| |]; [rewrite in_app_one; tauto|done].
Qed.

Lemma tx_edit H n s i x f :
  intx p pr H n s -> 1 <= n -> x ∈ H -> own s pid i x -> fs_block s x -> is_block (f (blk s x)) ->
  exists s', ((edit_buf i f ;; log_write i) : K unit) s = Ret tt s' /\ intx p pr H (left_after (k_log s) x n) s' /\
    own s' pid i x /\ set_block s s' x (f (blk s x)) /\ tx_frame s s' /\
    (forall b, b ∈ lblocks (k_log s') <-> b ∈ lblocks (k_log s) \/ b = x) /\
    (forall j y, y ∈ H -> y <> x -> own s pid j y -> own s' pid j y).
Proof.
  intros T Hn1 Hx Hown [Hb Hlog] Hblk. destruct T as [He [o Ho] Hl Hout Hn [Hr1 Hr2] Href Hcl Hun Hnd Hfr].
  destruct (edit_ok s o pid i x f Ho Hown Hblk) as (s1 & R1 & Ho1 & Hown1 & E).
  destruct (bset_ok s o pid i x f Ho Hown) as (s1' & R1' & _ & _ & _ & _ & _ & _ & _ & _ & Hoth); [apply Hblk..|].
  assert (s1' = s1) as -> by congruence.
  destruct E as [F D W Fr B RL]. pose proof (frame_log s s1 F) as El.
  destruct (log_write_ok s1 o p pr i x (k_log s)) as (s2 & R2 & Ho2 & Hown2 & Hfr2 & [F2 D2 W2 B2 Rf2 Lk2 Ow2]); try done.
  { by eapply frame_env. } { rewrite (proj1 (RL x)), Href. destruct (decide _), (decide _); lia. }
  { unfold LOGSIZE, MAXOPBLOCKS, NBUF in *. lia. } { lia. }
  set (l' := if decide (x ∈ lblocks (k_log s)) then k_log s else logged (k_log s) x) in *.
  assert (Hlb : forall b, b ∈ lblocks l' <-> b ∈ lblocks (k_log s) \/ b = x).
  { intros b. unfold l'. destruct (decide _) as [Hi|Hi]; [split; [tauto|]; by intros [?| ->]|].
    rewrite logged_lblocks, in_app_one; [done|done|]. unfold LOGSIZE, MAXOPBLOCKS, NBUF in *. lia. }
  assert (Hgeo : lg_start l' = lg_start (k_log s) /\ lg_size l' = lg_size (k_log s) /\ lg_outstanding l' = lg_outstanding (k_log s)).
  { unfold l'. by destruct (decide _). }
  assert (Hblk2 : forall bn, blk s2 bn = if bn =? x then f (blk s x) else blk s bn) by (intros; by rewrite B2, B).
  exists (set_k_log l' s2). split_and!.
  - unfold edit_buf. erewrite bind_Ret; [|exact R1]. exact R2.
  - unfold left_after. split; cbn [k_log set_k_log].
    + apply env_ok_log. eapply frame_env; [exact F2|]. by eapply frame_env.
    + exists o. by apply bio_ok_log.
    + unfold l'. destruct (decide _) as [Hi|Hi]; [done|]. apply logged_wf; try done; [|lia].
      unfold LOGSIZE, MAXOPBLOCKS, NBUF in *. lia.
    + destruct Hgeo as (_ & _ & ->). done.
    + destruct (decide _); lia.
    + unfold l'. destruct (decide _); [done|]. cbn. lia.
    + intros bn. change (ref (set_k_log l' s2) bn) with (ref s2 bn). rewrite Rf2, (proj1 (RL bn)), (proj1 (RL x)), !Href.
      destruct (Z.eqb_spec bn x) as [->|Hne].
      * rewrite (decide_True (P := x ∈ lblocks l')) by (apply Hlb; by right). destruct (decide (x ∈ lblocks (k_log s))); lia.
      * f_equal. destruct (decide (bn ∈ lblocks (k_log s))) as [Hi|Hi].
        -- by rewrite decide_True by (apply Hlb; by left).
        -- rewrite decide_False; [done|]. rewrite Hlb. tauto.
    + intros bn Hbn. rewrite Hlb in Hbn. change (blk (set_k_log l' s2) bn) with (blk s2 bn).
      change (k_disk (set_k_log l' s2)) with (k_disk s2). rewrite Hblk2, D2, D.
      destruct (Z.eqb_spec bn x); [tauto|]. apply Hcl. tauto.
    + intros bn Hbn. change (lockedby (set_k_log l' s2) bn) with (lockedby s2 bn). rewrite Lk2, (proj2 (RL x)), (proj2 (RL bn)).
      destruct (Z.eqb_spec bn x) as [->|]; [done|by apply Hun].
    + done.
    + change (free_bufs (set_k_log l' s2)) with (free_bufs s2). rewrite Hfr2, Fr. unfold l'.
      destruct (decide (x ∈ lblocks (k_log s))) as [Hi|Hi]; [done|].
      rewrite (logged_lblocks _ x Hl) by (unfold LOGSIZE, MAXOPBLOCKS, NBUF in *; lia).
      rewrite length_app. cbn [length]. rewrite (filter_logged (lblocks (k_log s)) H x) in Hfr by done. lia.
  - done.
  - exact Hblk2.
  - etrans; [apply (tx_frame_bio s s1 F D W)|]. etrans; [apply (tx_frame_bio s1 s2 F2 D2 W2)|].
    assert (E2 : k_log s2 = k_log s) by (rewrite <- El; by apply frame_log).
    apply tx_frame_log; rewrite E2; apply Hgeo.
  - exact Hlb.
  - intros j y Hy Hne Hoy. apply (Ow2 pid j y Hne). by apply Hoth.
Qed.
End Tx.
