(* ===== verification/FsAlloc.v ===== *)
(** * The block allocator

    [balloc], [bfree] and [bzero] on the bitmap of the disk, inside a transaction. *)

From stdpp Require Import base list gmap strings.
From Stdlib Require Import ZArith Lia.
From S2P Require Import Prelude Mem Riscv State Sched Bio Bcache Log Commit LogOps Fs FsTx.
Open Scope Z_scope.

(** ** Bits of a bitmap block *)

Lemma bit_set_testbit d bi :
  0 <= bi -> bit_set d bi = Z.testbit (default 0 (d !! Z.to_nat (bi / 8))) (bi mod 8).
Proof. intros H. unfold bit_set. fold (has (default 0 (d !! Z.to_nat (bi / 8))) (Z.shiftl 1 (bi mod 8))).
  apply has_testbit. pose proof (Z.mod_pos_bound bi 8). lia. Qed.

Lemma lor_bit_byte x k : 0 <= x < 256 -> 0 <= k < 8 -> 0 <= Z.lor x (Z.shiftl 1 k) < 256.
Proof.
  intros Hx Hk. rewrite Z.shiftl_1_l. assert (0 <= Z.lor x (2 ^ k)).
  { apply Z.lor_nonneg. split; [lia|]. apply Z.pow_nonneg. lia. }
  split; [done|]. destruct (decide (Z.lor x (2 ^ k) = 0)) as [->|Hne]; [lia|].
  change 256 with (2 ^ 8). apply Z.log2_lt_pow2; [lia|]. rewrite Z.log2_lor, Z.log2_pow2 by (try apply Z.pow_nonneg; lia).
  apply Z.max_lub_lt; [|lia]. destruct (decide (x = 0)) as [->|]; [done|]. apply Z.log2_lt_pow2; lia.
Qed.

Lemma byte_pos bi bj : 0 <= bi -> 0 <= bj -> Z.to_nat (bi / 8) = Z.to_nat (bj / 8) -> bi mod 8 = bj mod 8 -> bi = bj.
Proof. intros H1 H2 E1 E2. assert (bi / 8 = bj / 8) by (apply Z2Nat.inj; [apply Z.div_pos; lia..|done]).
  rewrite (Z.div_mod bi 8), (Z.div_mod bj 8) by lia. lia. Qed.

Lemma set_bit_spec d bi bj :
  0 <= bi < 8 * Z.of_nat (length d) -> 0 <= bj -> bit_set (set_bit bi d) bj = bool_decide (bi = bj) || bit_set d bj.
Proof.
  intros Hi Hj. rewrite !bit_set_testbit by lia. unfold set_bit.
  pose proof (Z.mod_pos_bound bi 8 ltac:(lia)) as Bi. pose proof (Z.mod_pos_bound bj 8 ltac:(lia)) as Bj.
  assert (Hlt : (Z.to_nat (bi / 8) < length d)%nat) by divlia.
  destruct (lookup_lt_is_Some_2 d _ Hlt) as [x Hx].
  destruct (Nat.eq_dec (Z.to_nat (bi / 8)) (Z.to_nat (bj / 8))) as [E|E].
  - rewrite <- E, list_lookup_alter_eq, Hx. cbn. rewrite Z.lor_spec, Z.shiftl_1_l, Z.pow2_bits_eqb by lia.
    destruct (Z.eqb_spec (bi mod 8) (bj mod 8)) as [E2|E2].
    + assert (bi = bj) as -> by (apply byte_pos; [lia..|done|done]). by rewrite bool_decide_eq_true_2, orb_true_r.
    + rewrite bool_decide_eq_false_2 by congruence. by rewrite orb_false_r.
  - rewrite list_lookup_alter_ne by done. rewrite bool_decide_eq_false_2 by congruence. done.
Qed.

Lemma clear_bit_spec d bi bj :
  bytes d -> 0 <= bi < 8 * Z.of_nat (length d) -> 0 <= bj ->
  bit_set (clear_bit bi d) bj = negb (bool_decide (bi = bj)) && bit_set d bj.
Proof.
  intros Hd Hi Hj. rewrite !bit_set_testbit by lia. unfold clear_bit.
  pose proof (Z.mod_pos_bound bi 8 ltac:(lia)) as Bi. pose proof (Z.mod_pos_bound bj 8 ltac:(lia)) as Bj.
  assert (Hlt : (Z.to_nat (bi / 8) < length d)%nat) by divlia.
  destruct (lookup_lt_is_Some_2 d _ Hlt) as [x Hx]. pose proof (Forall_lookup_1 _ _ _ _ Hd Hx) as Hb. cbn in Hb.
  destruct (Nat.eq_dec (Z.to_nat (bi / 8)) (Z.to_nat (bj / 8))) as [E|E].
  - rewrite <- E, list_lookup_alter_eq, Hx. cbn. unfold u8. rewrite Z.mod_pow2_bits_low by lia.
    rewrite Z.land_spec, Z.lnot_spec, Z.shiftl_1_l, Z.pow2_bits_eqb by lia.
    destruct (Z.eqb_spec (bi mod 8) (bj mod 8)) as [E2|E2].
    + assert (bi = bj) as -> by (apply byte_pos; [lia..|done|done]). by rewrite bool_decide_eq_true_2, andb_false_r.
    + rewrite bool_decide_eq_false_2 by congruence. by rewrite andb_true_r.
  - rewrite list_lookup_alter_ne by done. rewrite bool_decide_eq_false_2 by congruence. done.
Qed.

Lemma set_bit_block bi d : is_block d -> is_block (set_bit bi d).
Proof.
  intros [H1 H2]. split; unfold set_bit; [by rewrite length_alter|]. apply Forall_alter; [done|].
  intros x Hx Hb. pose proof (Z.mod_pos_bound bi 8 ltac:(lia)). by apply lor_bit_byte.
Qed.

Lemma clear_bit_block bi d : is_block d -> is_block (clear_bit bi d).
Proof.
  intros [H1 H2]. split; unfold clear_bit; [by rewrite length_alter|]. apply Forall_alter; [done|].
  intros x Hx Hb. apply u8_range.
Qed.

Lemma zero_block : is_block (replicate (Z.to_nat BSIZE) 0).
Proof. split; [apply length_replicate|]. apply Forall_replicate. lia. Qed.

(** ** The bitmap *)

Record bmap_wf (sb : superblock) : Prop := {
  bw_size : 0 <= sb_size sb < 2 ^ 31;
  bw_start : 0 <= sb_bmapstart sb;
  bw_end : sb_bmapstart sb + sb_size sb / BPB < 2 ^ 31
}.

(** Block [b] is marked as in use. *)
Definition used (s : kstate) (b : Z) : bool := bit_set (blk s (BBLOCK b (k_sb s))) (b mod BPB).

(** The blocks of the bitmap itself. *)
Definition is_bmap (sb : superblock) (bn : Z) : Prop := exists b, 0 <= b < sb_size sb /\ bn = BBLOCK b sb.

Lemma BBLOCK_eq sb b : bmap_wf sb -> 0 <= b < sb_size sb -> BBLOCK b sb = b / BPB + sb_bmapstart sb.
Proof.
  intros [H1 H2 H3] Hb. apply u32_small. assert (0 <= b / BPB <= sb_size sb / BPB); [|lia].
  unfold BPB, BSIZE. split; [apply Z.div_pos; lia|apply Z.div_le_mono; lia].
Qed.

Lemma bit_pos_eq b b' : b / BPB = b' / BPB -> b mod BPB = b' mod BPB -> b = b'.
Proof. intros E1 E2. rewrite (Z.div_mod b BPB), (Z.div_mod b' BPB) by done. lia. Qed.

Section Alloc.
Context (p : nat) (pr : proc).
Abbreviation pid := (p_pid pr).

(** The scan of one bitmap block from bit [bi] up to bit [t]. *)
Lemma balloc_scan b bp bf s t n : forall bi fuel,
  get_buf bp s = Ret bf s -> t - bi = Z.of_nat n -> (n < fuel)%nat -> 0 <= bi -> t <= BPB -> b + t <= sb_size (k_sb s) ->
  (forall j, bi <= j < t -> bit_set (b_data bf) j = true) ->
  loop fuel (balloc_bit b bp) bi s = loop (fuel - n) (balloc_bit b bp) t s.
Proof.
  induction n as [|n IH]; intros bi fuel Hg Hn Hf H0 Ht Hs Hall.
  { replace t with bi by lia. by rewrite Nat.sub_0_r. }
  destruct fuel as [|fuel]; [lia|].
  assert (Hstep : balloc_bit b bp bi s = Ret (inl (bi + 1)) s).
  { unfold balloc_bit. kstep. rewrite (proj2 (Z.ltb_lt bi BPB)), (proj2 (Z.ltb_lt (b + bi) _)) by lia. cbn [andb].
    kstep_by Hg. rewrite Hall by lia. done. }
  rewrite (loop_continue _ _ _ _ _ _ Hstep). apply IH; try done; try lia. intros j Hj. apply Hall. lia.
Qed.

Lemma balloc_hit b bp bf s t :
  get_buf bp s = Ret bf s -> 0 <= t < BPB -> b + t < sb_size (k_sb s) ->
  (forall j, 0 <= j < t -> bit_set (b_data bf) j = true) -> bit_set (b_data bf) t = false ->
  loop (S (Z.to_nat BPB)) (balloc_bit b bp) 0 s = (edit_buf bp (set_bit t) ;; mret (Some t)) s.
Proof.
  intros Hg Ht Hs Hall Hfree. rewrite (balloc_scan b bp bf s t (Z.to_nat t)) by (done || lia).
  destruct (S (Z.to_nat BPB) - Z.to_nat t)%nat as [|fuel] eqn:E; [lia|].
  assert (Hstep : balloc_bit b bp t s = Ret (inr (Some t)) (out_state (edit_buf bp (set_bit t) s) s)).
  { unfold balloc_bit. kstep. rewrite (proj2 (Z.ltb_lt t BPB)), (proj2 (Z.ltb_lt (b + t) _)) by lia. cbn [andb].
    kstep_by Hg. rewrite Hfree. done. }
  rewrite (loop_break _ _ _ _ _ _ Hstep). done.
Qed.

Lemma balloc_miss b bp bf s t :
  get_buf bp s = Ret bf s -> 0 <= t <= BPB -> b + t <= sb_size (k_sb s) -> t = BPB \/ b + t = sb_size (k_sb s) ->
  (forall j, 0 <= j < t -> bit_set (b_data bf) j = true) ->
  loop (S (Z.to_nat BPB)) (balloc_bit b bp) 0 s = Ret None s.
Proof.
  intros Hg Ht Hs Hend Hall. rewrite (balloc_scan b bp bf s t (Z.to_nat t)) by (done || lia).
  destruct (S (Z.to_nat BPB) - Z.to_nat t)%nat as [|fuel] eqn:E; [lia|]. apply loop_break.
  unfold balloc_bit. kstep. destruct (Z.ltb_spec t BPB), (Z.ltb_spec (b + t) (sb_size (k_sb s))); try done. lia.
Qed.

Lemma bzero_ok H n s b :
  intx p pr H n s -> 1 <= n -> b ∉ H -> Z.of_nat (length H) <= 1 -> fs_block s b ->
  exists s', bzero ROOTDEV b s = Ret tt s' /\ intx p pr H (n - 1) s' /\ set_block s s' b (replicate (Z.to_nat BSIZE) 0) /\
    tx_frame s s' /\ (forall c, c ∈ lblocks (k_log s') <-> c ∈ lblocks (k_log s) \/ c = b) /\
    (forall j y, y ∈ H -> own s pid j y -> own s' pid j y).
Proof.
  intros T Hn Hb HH Hfs. destruct (tx_bread p pr H n s b T Hb ltac:(lia)) as (i & s1 & R1 & T1 & O1 & B1 & F1 & L1 & W1).
  destruct (tx_edit p pr (b :: H) n s1 i b (fun _ => replicate (Z.to_nat BSIZE) 0)) as (s2 & R2 & T2 & O2 & B2 & F2 & L2 & W2); try done.
  { by left. } { by eapply fs_block_frame. } { apply zero_block. }
  destruct (tx_brelse p pr H _ s2 i b T2 O2) as (s3 & R3 & T3 & B3 & F3 & L3 & W3).
  exists s3. split_and!.
  - unfold bzero. rewrite u32_small by (destruct Hfs; lia). kstep_by R1.
    apply bind_inv_Ret in R2 as ([] & s1' & Ra & Rb). kstep_by Ra. kstep_by Rb. exact R3.
  - eapply tx_weaken; [exact T3|]. unfold left_after. destruct (decide _); lia.
  - intros bn. rewrite B3, B2. by destruct (bn =? b).
  - by repeat (etrans; [eassumption|]).
  - intros c. rewrite L3, L2, L1. done.
  - intros j y Hy Ho. apply W3; [done|]. apply W2; [by right|by intros ->|]. by apply W1.
Qed.

(** ** balloc *)

(** Where the bitmap is: its blocks are not in the log, and the process holds
    none of them. *)
Definition bmap_free (H : list Z) (s : kstate) : Prop := forall bn, is_bmap (k_sb s) bn -> fs_block s bn /\ bn ∉ H.

(** Block [fb] goes into use and is zeroed; no other block of the file system changes. *)
Record allocated (s s' : kstate) (fb : Z) : Prop := {
  al_frame : tx_frame s s';
  al_used : forall b, 0 <= b < sb_size (k_sb s) -> used s' b = bool_decide (b = fb) || used s b;
  al_zero : blk s' fb = replicate (Z.to_nat BSIZE) 0;
  al_other : forall bn, bn <> fb -> ~ is_bmap (k_sb s) bn -> blk s' bn = blk s bn;
  al_log : forall c, c ∈ lblocks (k_log s') <-> c ∈ lblocks (k_log s) \/ c = fb \/ c = BBLOCK fb (k_sb s)
}.

Lemma frame_sb s s' : tx_frame s s' -> k_sb s' = k_sb s.
Proof. intros F. by rewrite (tf_only _ _ F). Qed.

Lemma used_same s s' b : k_sb s' = k_sb s -> same_blocks s s' -> used s' b = used s b.
Proof. intros E B. unfold used. by rewrite E, B. Qed.

Lemma bmap_free_frame H s s' : tx_frame s s' -> bmap_free H s -> bmap_free H s'.
Proof.
  intros F Hf bn Hbn. rewrite (frame_sb _ _ F) in Hbn. destruct (Hf bn Hbn) as [H1 H2]. split; [|done]. by eapply fs_block_frame.
Qed.

(** Marking and zeroing [fb], whose bitmap block is held in buffer [i]. *)
Lemma take_block H n s1 i fb :
  let x := BBLOCK fb (k_sb s1) in
  bmap_wf (k_sb s1) -> bmap_free H s1 -> 0 <= fb < sb_size (k_sb s1) -> fs_block s1 fb -> fb ∉ H -> ~ is_bmap (k_sb s1) fb ->
  Z.of_nat (length H) <= 1 -> 2 <= n -> intx p pr (x :: H) n s1 -> own s1 pid i x ->
  exists s', ((edit_buf i (set_bit (fb mod BPB)) ;; log_write i ;; brelse i ;; bzero ROOTDEV fb) : K unit) s1 = Ret tt s' /\
    intx p pr H (n - 2) s' /\ allocated s1 s' fb /\ (forall j y, y ∈ H -> own s1 pid j y -> own s' pid j y).
Proof.
  intros x Hw Hbf Hfb Hfs HfH Hnb HH Hn T1 O1.
  assert (Hx : is_bmap (k_sb s1) x) by (exists fb; done). destruct (Hbf x Hx) as [Hxfs HxH].
  assert (Hne : fb <> x) by (by intros E; rewrite E in Hnb).
  destruct (tx_bio _ _ _ _ _ T1) as [o Ho]. pose proof (blk_size s1 o x Ho) as Hbs.
  destruct (tx_edit p pr (x :: H) n s1 i x (set_bit (fb mod BPB))) as (s2 & R2 & T2 & O2 & B2 & F2 & L2 & W2); try done.
  { lia. } { by left. } { by apply set_bit_block. }
  destruct (tx_brelse p pr H _ s2 i x T2 O2) as (s3 & R3 & T3 & B3 & F3 & L3 & W3).
  assert (F13 : tx_frame s1 s3) by (by etrans).
  destruct (bzero_ok H (n - 1) s3 fb) as (s4 & R4 & T4 & B4 & F4 & L4 & W4); try done; [|lia|by eapply fs_block_frame|].
  { eapply tx_weaken; [exact T3|]. unfold left_after. destruct (decide _); lia. }
  exists s4. split_and!.
  - apply bind_inv_Ret in R2 as ([] & s1' & Ra & Rb). kstep_by Ra. kstep_by Rb. kstep_by R3. exact R4.
  - replace (n - 2) with (n - 1 - 1) by lia. done.
  - split.
    + by etrans.
    + intros b Hb. unfold used. rewrite (frame_sb s1 s4) by (by etrans). rewrite B4, B3, B2. fold x.
      rewrite (proj2 (Z.eqb_neq _ fb)).
      2: { intros E. apply Hnb. rewrite <- E. by exists b. }
      destruct (Z.eqb_spec (BBLOCK b (k_sb s1)) x) as [E|E].
      * rewrite E, set_bit_spec; [|destruct Hbs as [-> _]; pose proof (Z.mod_pos_bound fb BPB ltac:(done)); unfold BPB in *; cbn; lia|
          pose proof (Z.mod_pos_bound b BPB ltac:(done)); lia].
        f_equal. apply bool_decide_ext. unfold x in E. rewrite !BBLOCK_eq in E by done. split; [|by intros ->].
        intros E2. symmetry. apply bit_pos_eq; [lia|done].
      * rewrite bool_decide_eq_false_2; [done|]. intros ->. by apply E.
    + by rewrite B4, Z.eqb_refl.
    + intros bn Hbn Hnbm. rewrite B4, B3, B2, (proj2 (Z.eqb_neq _ fb)), (proj2 (Z.eqb_neq _ x)); [done| |done].
      by intros ->.
    + intros c. rewrite L4, L3, L2. tauto.
  - intros j y Hy Hoy. apply W4; [done|]. apply W3; [done|]. apply W2; [by right|by intros ->|done].
Qed.

Lemma allocated_before s0 s s' fb :
  tx_frame s0 s -> same_blocks s0 s -> k_log s = k_log s0 -> allocated s s' fb -> allocated s0 s' fb.
Proof.
  intros F B El [A1 A2 A3 A4 A5]. pose proof (frame_sb _ _ F) as Es. rewrite Es, El in *. split; try done.
  - by etrans.
  - intros b Hb. rewrite A2, (used_same s0 s) by done. done.
  - intros bn H1 H2. rewrite <- B. by apply A4.
Qed.

Lemma bit_in_block k j : 0 <= j < BPB -> (k * BPB + j) / BPB = k /\ (k * BPB + j) mod BPB = j.
Proof.
  intros Hj. split.
  - rewrite Z.div_add_l, (Z.div_small j) by (done || lia). lia.
  - rewrite Z.add_comm, Z.mod_add by done. by apply Z.mod_small.
Qed.

(** Reading the bits of bitmap block [k] of the map. *)
Lemma used_in_block s k j :
  bmap_wf (k_sb s) -> 0 <= k -> 0 <= j < BPB -> k * BPB + j < sb_size (k_sb s) ->
  used s (k * BPB + j) = bit_set (blk s (BBLOCK (k * BPB) (k_sb s))) j.
Proof.
  intros Hw Hk Hj Hs. assert (0 <= k * BPB) by (apply Z.mul_nonneg_nonneg; done).
  unfold used. rewrite !BBLOCK_eq by (done || lia). destruct (bit_in_block k j Hj) as [-> ->].
  by rewrite Z.div_mul by done.
Qed.

(** One bitmap block without a free bit. *)
Lemma balloc_skip H n s k :
  intx p pr H n s -> bmap_wf (k_sb s) -> bmap_free H s -> Z.of_nat (length H) <= 1 -> 0 <= k -> k * BPB < sb_size (k_sb s) ->
  (forall j, 0 <= j < BPB -> k * BPB + j < sb_size (k_sb s) -> used s (k * BPB + j) = true) ->
  exists s', balloc_block ROOTDEV (k * BPB) s = Ret (inl ((k + 1) * BPB)) s' /\ intx p pr H n s' /\ same_blocks s s' /\
    tx_frame s s' /\ k_log s' = k_log s /\ (forall j y, y ∈ H -> own s pid j y -> own s' pid j y).
Proof.
  intros T Hw Hbf HH Hk Hlt Hall. assert (H0 : 0 <= k * BPB) by (apply Z.mul_nonneg_nonneg; done).
  set (x := BBLOCK (k * BPB) (k_sb s)). destruct (Hbf x) as [Hxfs HxH]; [exists (k * BPB); done|].
  pose proof (tx_n _ _ _ _ _ T).
  destruct (tx_bread p pr H n s x T HxH ltac:(lia)) as (i & s1 & R1 & T1 & O1 & B1 & F1 & L1 & W1).
  destruct (tx_get p pr _ _ _ _ _ T1 O1) as (bf & Hg & Hd & _).
  destruct (tx_brelse p pr H n s1 i x T1 O1) as (s2 & R2 & T2 & B2 & F2 & L2 & W2).
  pose proof (frame_sb _ _ F1) as Es.
  assert (Hm : loop (S (Z.to_nat BPB)) (balloc_bit (k * BPB) i) 0 s1 = Ret None s1).
  { assert (HB : BPB = 8192) by done. apply (balloc_miss _ _ bf s1 (Z.min BPB (sb_size (k_sb s) - k * BPB))); rewrite ?Es; try done; try lia.
    intros j Hj. rewrite Hd, B1. unfold x. rewrite <- used_in_block by (done || lia). apply Hall; lia. }
  exists s2. split_and!; [|done|intros bn; by rewrite B2, B1|by etrans|congruence|].
  - unfold balloc_block. kstep. rewrite (proj2 (Z.ltb_lt _ _)) by done. fold x. kstep_by R1. kstep_by Hm. kstep_by R2.
    replace ((k + 1) * BPB) with (k * BPB + BPB) by lia. done.
  - intros j y Hy Hoy. by apply W2, W1.
Qed.

(** The block with the first free bit. *)
Lemma balloc_here H n s fb :
  let k := fb / BPB in
  intx p pr H n s -> bmap_wf (k_sb s) -> bmap_free H s -> Z.of_nat (length H) <= 1 -> 2 <= n ->
  0 <= fb < sb_size (k_sb s) -> fs_block s fb -> fb ∉ H -> ~ is_bmap (k_sb s) fb ->
  used s fb = false -> (forall b, k * BPB <= b < fb -> used s b = true) ->
  exists s', balloc_block ROOTDEV (k * BPB) s = Ret (inr (Some fb)) s' /\ intx p pr H (n - 2) s' /\ allocated s s' fb /\
    (forall j y, y ∈ H -> own s pid j y -> own s' pid j y).
Proof.
  intros k T Hw Hbf HH Hn Hfb Hfs HfH Hnb Hfree Hall. pose proof (Z.mod_pos_bound fb BPB ltac:(done)) as Hm.
  pose proof (Z.div_mod fb BPB ltac:(done)) as Hdm. assert (Hk : 0 <= k) by (apply Z.div_pos; done || lia).
  assert (H0 : 0 <= k * BPB) by (apply Z.mul_nonneg_nonneg; done).
  set (x := BBLOCK fb (k_sb s)). assert (Hxk : BBLOCK (k * BPB) (k_sb s) = x).
  { unfold x. rewrite !BBLOCK_eq by (done || lia). by rewrite Z.div_mul by done. }
  destruct (Hbf x) as [Hxfs HxH]; [by exists fb|].
  destruct (tx_bread p pr H n s x T HxH ltac:(lia)) as (i & s1 & R1 & T1 & O1 & B1 & F1 & L1 & W1).
  destruct (tx_get p pr _ _ _ _ _ T1 O1) as (bf & Hg & Hd & _). pose proof (frame_sb _ _ F1) as Es.
  assert (Hhit : loop (S (Z.to_nat BPB)) (balloc_bit (k * BPB) i) 0 s1 = (edit_buf i (set_bit (fb mod BPB)) ;; mret (Some (fb mod BPB))) s1).
  { apply (balloc_hit _ _ bf); rewrite ?Es; try done; [lia| |].
    - intros j Hj. rewrite Hd, B1, <- Hxk, <- used_in_block by (done || lia). apply Hall. lia.
    - rewrite Hd, B1, <- Hxk, <- used_in_block by (done || lia). by replace (k * BPB + fb mod BPB) with fb by lia. }
  destruct (take_block H n s1 i fb) as (s' & R & T' & A & W'); rewrite ?Es; try done.
  { by eapply bmap_free_frame. } { by eapply fs_block_frame. }
  exists s'. split_and!; [|done|by eapply allocated_before|].
  - unfold balloc_block. kstep. rewrite (proj2 (Z.ltb_lt _ _)) by lia. rewrite Hxk. kstep_by R1.
    apply bind_inv_Ret in R as ([] & sa & Ra & R). apply bind_inv_Ret in R as ([] & sb & Rb & R).
    apply bind_inv_Ret in R as ([] & sc & Rc & R). erewrite bind_Ret; [|rewrite Hhit; kstep_by Ra; done].
    cbn beta iota. kstep_by Rb. kstep_by Rc. replace (k * BPB + fb mod BPB) with fb by lia. kstep_by R. done.
  - intros j y Hy Hoy. by apply W', W1.
Qed.

Lemma balloc_loop H n fb m : forall s k fuel,
  intx p pr H n s -> bmap_wf (k_sb s) -> bmap_free H s -> Z.of_nat (length H) <= 1 -> 2 <= n ->
  0 <= fb < sb_size (k_sb s) -> fs_block s fb -> fb ∉ H -> ~ is_bmap (k_sb s) fb ->
  used s fb = false -> 0 <= k -> fb / BPB - k = Z.of_nat m -> (m < fuel)%nat -> (forall b, k * BPB <= b < fb -> used s b = true) ->
  exists s', loop fuel (balloc_block ROOTDEV) (k * BPB) s = Ret (Some fb) s' /\ intx p pr H (n - 2) s' /\ allocated s s' fb /\
    (forall j y, y ∈ H -> own s pid j y -> own s' pid j y).
Proof.
  pose proof (Z.div_mod fb BPB ltac:(done)) as Hdm. pose proof (Z.mod_pos_bound fb BPB ltac:(done)) as Hmod.
  induction m as [|m IH]; intros s k [|fuel] T Hw Hbf HH Hn Hfb Hfs HfH Hnb Hfree Hk Hm Hfu Hall; try lia.
  - replace k with (fb / BPB) in * by lia.
    destruct (balloc_here H n s fb) as (s' & R & T' & A & W); try done. exists s'. split_and!; try done. by apply loop_break.
  - assert (Hkb : k * BPB + BPB <= fb) by (assert (k + 1 <= fb / BPB) by lia; unfold BPB in *; nia).
    destruct (balloc_skip H n s k) as (s1 & R1 & T1 & B1 & F1 & L1 & W1); try done; try lia.
    { intros j Hj Hjs. apply Hall. lia. }
    pose proof (frame_sb _ _ F1) as Es.
    destruct (IH s1 (k + 1) fuel) as (s' & R & T' & A & W); rewrite ?Es; try done; try lia.
    { by eapply bmap_free_frame. } { by eapply fs_block_frame. } { by rewrite (used_same s). }
    { intros b Hb. rewrite (used_same s) by done. apply Hall. lia. }
    exists s'. split_and!; [|done|by eapply allocated_before|intros j y Hy Hoy; by apply W, W1].
    by rewrite (loop_continue _ _ _ _ _ _ R1).
Qed.

Lemma balloc_ok H n s fb :
  intx p pr H n s -> bmap_wf (k_sb s) -> bmap_free H s -> Z.of_nat (length H) <= 1 -> 2 <= n ->
  0 <= fb < sb_size (k_sb s) -> fs_block s fb -> fb ∉ H -> ~ is_bmap (k_sb s) fb ->
  used s fb = false -> (forall b, 0 <= b < fb -> used s b = true) ->
  exists s', balloc ROOTDEV s = Ret fb s' /\ intx p pr H (n - 2) s' /\ allocated s s' fb /\
    (forall j y, y ∈ H -> own s pid j y -> own s' pid j y).
Proof.
  intros T Hw Hbf HH Hn Hfb Hfs HfH Hnb Hfree Hall.
  destruct (balloc_loop H n fb (Z.to_nat (fb / BPB)) s 0 (S (S (Z.to_nat (sb_size (k_sb s) / BPB))))) as (s' & R & T' & A & W); try done.
  { rewrite Z.sub_0_r, Z2Nat.id; [done|]. apply Z.div_pos; done || lia. }
  { assert (fb / BPB <= sb_size (k_sb s) / BPB) by (apply Z.div_le_mono; done || lia).
    assert (0 <= fb / BPB) by (apply Z.div_pos; done || lia). lia. }
  exists s'. split_and!; try done. unfold balloc. kstep. change (0 * BPB) with 0 in R. kstep_by R. done.
Qed.

(** ** bfree *)

(** Block [b] goes out of use; nothing but its bit changes. *)
Record freed (s s' : kstate) (b : Z) : Prop := {
  fe_frame : tx_frame s s';
  fe_used : forall b', 0 <= b' < sb_size (k_sb s) -> used s' b' = negb (bool_decide (b' = b)) && used s b';
  fe_other : forall bn, ~ is_bmap (k_sb s) bn -> blk s' bn = blk s bn;
  fe_log : forall c, c ∈ lblocks (k_log s') <-> c ∈ lblocks (k_log s) \/ c = BBLOCK b (k_sb s)
}.

Lemma bfree_take H n s b :
  intx p pr H n s -> bmap_free H s -> Z.of_nat (length H) <= 1 -> 0 <= b < sb_size (k_sb s) ->
  let x := BBLOCK b (k_sb s) in
  exists i s1 bf, bread ROOTDEV x s = Ret i s1 /\ intx p pr (x :: H) n s1 /\ own s1 pid i x /\ same_blocks s s1 /\
    tx_frame s s1 /\ k_log s1 = k_log s /\ (forall j y, y ∈ H -> own s pid j y -> own s1 pid j y) /\
    get_buf i s1 = Ret bf s1 /\ bit_set (b_data bf) (b mod BPB) = used s b.
Proof.
  intros T Hbf HH Hb x. destruct (Hbf x) as [_ HxH]; [by exists b|]. pose proof (tx_n _ _ _ _ _ T).
  destruct (tx_bread p pr H n s x T HxH ltac:(lia)) as (i & s1 & R1 & T1 & O1 & B1 & F1 & L1 & W1).
  destruct (tx_get p pr _ _ _ _ _ T1 O1) as (bf & Hg & Hd & _). exists i, s1, bf. split_and!; try done.
  unfold used. by rewrite Hd, B1.
Qed.

Lemma bfree_ok H n s b :
  intx p pr H n s -> bmap_wf (k_sb s) -> bmap_free H s -> Z.of_nat (length H) <= 1 -> 1 <= n -> 0 <= b < sb_size (k_sb s) ->
  used s b = true ->
  exists s', bfree ROOTDEV b s = Ret tt s' /\ intx p pr H (left_after (k_log s) (BBLOCK b (k_sb s)) n) s' /\ freed s s' b /\
    (forall j y, y ∈ H -> own s pid j y -> own s' pid j y).
Proof.
  intros T Hw Hbf HH Hn Hb Hu. set (x := BBLOCK b (k_sb s)). destruct (Hbf x) as [Hxfs HxH]; [by exists b|].
  destruct (bfree_take H n s b T Hbf HH Hb) as (i & s1 & bf & R1 & T1 & O1 & B1 & F1 & L1 & W1 & Hg & Hbit).
  destruct (tx_bio _ _ _ _ _ T1) as [o Ho]. pose proof (blk_size s1 o x Ho) as Hbs.
  destruct (tx_edit p pr (x :: H) n s1 i x (clear_bit (b mod BPB))) as (s2 & R2 & T2 & O2 & B2 & F2 & L2 & W2); try done.
  { by left. } { by eapply fs_block_frame. } { by apply clear_bit_block. }
  destruct (tx_brelse p pr H _ s2 i x T2 O2) as (s3 & R3 & T3 & B3 & F3 & L3 & W3). rewrite L1 in T3.
  assert (F : tx_frame s s3) by (by repeat (etrans; [eassumption|])).
  exists s3. split_and!; [|done| |intros j y Hy Hoy; apply W3; [done|]; apply W2; [by right|by intros ->|by apply W1]].
  - unfold bfree. kstep. kstep_by R1. kstep_by Hg. rewrite Hbit, Hu. cbn [negb].
    apply bind_inv_Ret in R2 as ([] & s1' & Ra & Rb). kstep_by Ra. kstep_by Rb. exact R3.
  - split; [done| | |intros c; by rewrite L3, L2, L1].
    + intros b' Hb'. unfold used. rewrite (frame_sb s s3) by done. rewrite B3, B2, B1.
      pose proof (Z.mod_pos_bound b BPB ltac:(done)). pose proof (Z.mod_pos_bound b' BPB ltac:(done)).
      destruct (Z.eqb_spec (BBLOCK b' (k_sb s)) x) as [E|E].
      * rewrite E, <- B1, clear_bit_spec; [|apply Hbs|destruct Hbs as [-> _]; unfold BPB in *; cbn; lia|lia].
        do 2 f_equal. apply bool_decide_ext. unfold x in E. rewrite !BBLOCK_eq in E by done. split; [|by intros ->].
        intros E2. symmetry. apply bit_pos_eq; [lia|done].
      * rewrite bool_decide_eq_false_2; [by rewrite B1|]. intros ->. by apply E.
    + intros bn Hbn. rewrite B3, B2, (proj2 (Z.eqb_neq _ x)); [by rewrite B1|]. intros ->. apply Hbn. by exists b.
Qed.

Lemma bfree_panic H n s b :
  intx p pr H n s -> bmap_free H s -> Z.of_nat (length H) <= 1 -> 0 <= b < sb_size (k_sb s) -> used s b = false ->
  exists s', bfree ROOTDEV b s = Stop (SPanic "freeing free block") s'.
Proof.
  intros T Hbf HH Hb Hu. destruct (bfree_take H n s b T Hbf HH Hb) as (i & s1 & bf & R1 & T1 & O1 & B1 & F1 & L1 & W1 & Hg & Hbit).
  exists s1. unfold bfree. kstep. kstep_by R1. kstep_by Hg. by rewrite Hbit, Hu.
Qed.

(** ** A full disk *)

Lemma balloc_none H n m : forall s k fuel,
  intx p pr H n s -> bmap_wf (k_sb s) -> bmap_free H s -> Z.of_nat (length H) <= 1 -> 0 <= k ->
  (sb_size (k_sb s) + BPB - 1) / BPB - k = Z.of_nat m -> (m < fuel)%nat ->
  (forall b, 0 <= b < sb_size (k_sb s) -> used s b = true) ->
  exists s', loop fuel (balloc_block ROOTDEV) (k * BPB) s = Ret None s' /\ intx p pr H n s' /\ same_blocks s s' /\ tx_frame s s' /\
    (forall j y, y ∈ H -> own s pid j y -> own s' pid j y).
Proof.
  assert (HB : BPB = 8192) by done.
  induction m as [|m IH]; intros s k [|fuel] T Hw Hbf HH Hk Hm Hfu Hall; try lia.
  - exists s. split_and!; try done. apply loop_break. unfold balloc_block. kstep.
    rewrite (proj2 (Z.ltb_ge _ _)); [done|]. rewrite HB in *. divlia.
  - destruct (balloc_skip H n s k) as (s1 & R1 & T1 & B1 & F1 & L1 & W1); try done.
    { rewrite HB in *. divlia. } { intros j Hj Hjs. apply Hall. assert (0 <= k * BPB) by (apply Z.mul_nonneg_nonneg; lia). lia. }
    pose proof (frame_sb _ _ F1) as Es.
    destruct (IH s1 (k + 1) fuel) as (s' & R & T' & B & F & W); rewrite ?Es; try done; try lia.
    { by eapply bmap_free_frame. } { intros b Hb. rewrite (used_same s) by done. by apply Hall. }
    exists s'. split_and!; [|done|intros bn; by rewrite B, B1|by etrans|intros j y Hy Hoy; by apply W, W1].
    by rewrite (loop_continue _ _ _ _ _ _ R1).
Qed.
End Alloc.
