(* ===== verification/FsFile.v ===== *)
(** * File contents

    [bmap], [readi] and [writei] on the bytes of a file, inside a transaction. *)

From stdpp Require Import base list gmap strings.
From Stdlib Require Import ZArith Lia.
From S2P Require Import Prelude Mem Riscv State Sched Bio Bcache Log Commit LogOps Fs FsTx FsAlloc.
Open Scope Z_scope.

(** ** The bytes of a file *)

(** The disk block that holds block [bn] of a file, 0 when there is none. *)
Definition faddr (s : kstate) (ip : inode) (bn : Z) : Z :=
  if bn <? NDIRECT then default 0 (i_addrs ip !! Z.to_nat bn)
  else let a := default 0 (i_addrs ip !! Z.to_nat NDIRECT) in
       if a =? 0 then 0 else ind_at (blk s a) (bn - NDIRECT).

(** Byte [k] of the file. *)
Definition fbyte (s : kstate) (ip : inode) (k : Z) : Z :=
  default 0 (blk s (faddr s ip (k / BSIZE)) !! Z.to_nat (k mod BSIZE)).
Definition fbytes (s : kstate) (ip : inode) (off : Z) (n : nat) : list Z :=
  (fun j => fbyte s ip (off + Z.of_nat j)) <$> seq 0 n.

Record file_ok (s : kstate) (ip : inode) : Prop := {
  fo_dev : i_dev ip = ROOTDEV;
  fo_addrs : length (i_addrs ip) = 13%nat;
  fo_size : 0 <= i_size ip <= MAXFILE * BSIZE;
  fo_mapped : forall bn, 0 <= bn -> bn * BSIZE < i_size ip -> faddr s ip bn <> 0
}.

Lemma faddr_same s s' ip bn : same_blocks s s' -> faddr s' ip bn = faddr s ip bn.
Proof. intros B. unfold faddr. destruct (bn <? NDIRECT); [done|]. cbn zeta. by rewrite B. Qed.

Lemma fbyte_same s s' ip k : same_blocks s s' -> fbyte s' ip k = fbyte s ip k.
Proof. intros B. unfold fbyte. by rewrite (faddr_same s s' ip _ B), B. Qed.

Lemma fbytes_same s s' ip off n : same_blocks s s' -> fbytes s' ip off n = fbytes s ip off n.
Proof. intros B. unfold fbytes. apply list_fmap_ext. intros j x _. by apply fbyte_same. Qed.

Lemma file_ok_same s s' ip : same_blocks s s' -> file_ok s ip -> file_ok s' ip.
Proof. intros B [H1 H2 H3 H4]. split; try done. intros bn Hb Hs. rewrite (faddr_same s s'); auto. Qed.

Lemma length_fbytes s ip off n : length (fbytes s ip off n) = n.
Proof. unfold fbytes. by rewrite length_fmap, length_seq. Qed.

Lemma fbytes_app s ip off n m : fbytes s ip off (n + m) = fbytes s ip off n ++ fbytes s ip (off + Z.of_nat n) m.
Proof.
  unfold fbytes. rewrite seq_app, fmap_app. f_equal. rewrite Nat.add_0_l. rewrite <- (Nat.add_0_r n) at 1.
  rewrite <- fmap_add_seq, <- list_fmap_compose. apply list_fmap_ext. intros j x _. cbn. f_equal. lia.
Qed.

(** One piece of a file lies in one block. *)
Lemma fbytes_piece s ip off n :
  0 <= off -> off mod BSIZE + Z.of_nat n <= BSIZE -> length (blk s (faddr s ip (off / BSIZE))) = Z.to_nat BSIZE ->
  fbytes s ip off n = get_at (blk s (faddr s ip (off / BSIZE))) (Z.to_nat (off mod BSIZE)) n.
Proof.
  intros Ho Hn Hl. assert (HB : BSIZE = 1024) by done. pose proof (Z.mod_pos_bound off BSIZE ltac:(done)) as Hm.
  apply list_eq. intros j. destruct (decide (j < n)%nat) as [Hj|Hj].
  - rewrite get_at_lookup by done. unfold fbytes. rewrite list_lookup_fmap, lookup_seq_lt by done. cbn. unfold fbyte.
    assert (E1 : (off + Z.of_nat j) / BSIZE = off / BSIZE) by (rewrite HB in *; divlia).
    assert (E2 : (off + Z.of_nat j) mod BSIZE = off mod BSIZE + Z.of_nat j) by (rewrite HB in *; divlia).
    rewrite E1, E2. replace (Z.to_nat (off mod BSIZE + Z.of_nat j)) with (Z.to_nat (off mod BSIZE) + j)%nat by lia.
    destruct (lookup_lt_is_Some_2 (blk s (faddr s ip (off / BSIZE))) (Z.to_nat (off mod BSIZE) + j)) as [x Hx]; [lia|].
    by rewrite Hx.
  - rewrite !lookup_ge_None_2; [done| |rewrite length_fbytes; lia]. rewrite length_get_at; lia.
Qed.

(** ** Looking a block up *)

Section File.
Context (p : nat) (pr : proc).
Abbreviation pid := (p_pid pr).

(** The state after reading: same blocks, same transaction. *)
Record looked (n : Z) (s s' : kstate) : Prop := {
  lo_tx : intx p pr [] n s';
  lo_blk : same_blocks s s';
  lo_frame : tx_frame s s';
  lo_log : k_log s' = k_log s
}.

Lemma looked_trans n s1 s2 s3 : looked n s1 s2 -> looked n s2 s3 -> looked n s1 s3.
Proof. intros [A1 A2 A3 A4] [B1 B2 B3 B4]. split; [done|intros b; by rewrite B2|by etrans|congruence]. Qed.

Lemma frame_inodes s s' : tx_frame s s' -> k_inodes s' = k_inodes s.
Proof. intros F. by rewrite (tf_only _ _ F). Qed.

(** Taking a buffer to look at it, and giving it back. *)
Lemma look_at n s x :
  intx p pr [] n s ->
  exists i s1 s2 bf, bread ROOTDEV x s = Ret i s1 /\ get_buf i s1 = Ret bf s1 /\ b_data bf = blk s x /\ brelse i s1 = Ret tt s2 /\
    k_inodes s1 = k_inodes s /\ looked n s s2.
Proof.
  intros T. pose proof (tx_n _ _ _ _ _ T).
  destruct (tx_bread p pr [] n s x T ltac:(apply not_elem_of_nil) ltac:(cbn; lia)) as (i & s1 & R1 & T1 & O1 & B1 & F1 & L1 & W1).
  destruct (tx_get p pr _ _ _ _ _ T1 O1) as (bf & Hg & Hd & _).
  destruct (tx_brelse p pr [] n s1 i x T1 O1) as (s2 & R2 & T2 & B2 & F2 & L2 & W2).
  exists i, s1, s2, bf. split_and!; try done; [by rewrite Hd|by apply frame_inodes|].
  split; [done|intros b; by rewrite B2|by etrans|congruence].
Qed.

Lemma bmap_hit n s i ip bn :
  intx p pr [] n s -> k_inodes s !! i = Some ip -> i_dev ip = ROOTDEV -> length (i_addrs ip) = 13%nat ->
  0 <= bn < MAXFILE -> faddr s ip bn <> 0 ->
  exists s', bmap i bn s = Ret (faddr s ip bn) s' /\ looked n s s'.
Proof.
  intros T Hi Hdev Hl Hbn Hne. unfold faddr in *. unfold bmap. assert (HN : NDIRECT = 12) by done.
  kstep_by get_inode_ok; [|exact Hi]. destruct (Z.ltb_spec bn NDIRECT) as [Hlt|Hge].
  - destruct (lookup_lt_is_Some_2 (i_addrs ip) (Z.to_nat bn) ltac:(lia)) as [a Ha]. rewrite Ha in *. cbn [default from_option id] in *.
    exists s. split; [|split; done]. kstep_by (eq_refl : need "addrs" (Some a) s = Ret a s).
    by rewrite (proj2 (Z.eqb_neq a 0)).
  - destruct (lookup_lt_is_Some_2 (i_addrs ip) (Z.to_nat NDIRECT) ltac:(rewrite HN; lia)) as [a Ha]. rewrite Ha in *.
    cbn [default from_option id] in *. cbn zeta in *. destruct (Z.eqb_spec a 0) as [|Ha0]; [done|].
    destruct (look_at n s a T) as (j & s1 & s2 & bf & R1 & Hg & Hd & R2 & _ & Hlk).
    exists s2. split; [|done]. rewrite (proj2 (Z.ltb_lt (bn - NDIRECT) NINDIRECT)).
    2: { unfold MAXFILE in Hbn. lia. }
    kstep_by (eq_refl : need "addrs" (Some a) s = Ret a s). rewrite (proj2 (Z.eqb_neq a 0)) by done. kstep.
    rewrite (proj2 (Z.eqb_neq a 0)) by done. rewrite Hdev. kstep_by R1. kstep_by Hg. rewrite Hd.
    rewrite (proj2 (Z.eqb_neq _ 0)) by done. kstep. kstep_by R2. done.
Qed.

(** ** readi into a local variable *)

Lemma readi_turn n s i ip N tot off acc :
  intx p pr [] n s -> k_inodes s !! i = Some ip -> file_ok s ip -> 0 <= tot < N -> N <= i_size ip ->
  0 <= off -> off + (N - tot) <= i_size ip ->
  let m := piece N tot off in
  exists s', readi_step (fun _ _ => mret 0) i N (tot, off, acc) s =
    Ret (inl (tot + m, off + m, acc ++ fbytes s ip off (Z.to_nat m))) s' /\ looked n s s' /\ 0 < m <= N - tot.
Proof.
  intros T Hi Hf Htot HN Hoff Hend m. assert (HB : BSIZE = 1024) by done. pose proof (Z.mod_pos_bound off BSIZE ltac:(done)) as Hm.
  assert (Hmb : 0 < m <= N - tot /\ off mod BSIZE + m <= BSIZE) by (unfold m, piece; lia).
  destruct Hf as [Hdev Haddr Hsz Hmap]. change (MAXFILE * BSIZE) with 274432 in Hsz.
  pose proof (Z.div_pos off BSIZE Hoff ltac:(done)) as Hq.
  assert (Hlt : off / BSIZE * BSIZE < i_size ip) by (rewrite HB in *; divlia).
  destruct (bmap_hit n s i ip (off / BSIZE)) as (s1 & R1 & K1); try done.
  { split; [done|]. apply Z.div_lt_upper_bound; [done|]. change (BSIZE * MAXFILE) with 274432. lia. } { by apply Hmap. }
  pose proof (frame_inodes _ _ (lo_frame _ _ _ K1)) as Ei. set (x := faddr s ip (off / BSIZE)) in *.
  destruct (look_at n s1 x (lo_tx _ _ _ K1)) as (j & s2 & s3 & bf & R2 & Hg & Hd & R3 & _ & K3).
  exists s3. split_and!; [|by eapply looked_trans|lia|lia].
  unfold readi_step. rewrite (proj2 (Z.ltb_lt tot N)) by lia. kstep_by R1. rewrite (proj2 (Z.eqb_neq x 0)) by (by apply Hmap).
  kstep_by get_inode_ok; [|rewrite Ei; exact Hi]. rewrite Hdev. kstep_by R2. kstep_by Hg. kstep. cbn [Z.eqb].
  kstep_by R3. fold m. rewrite !u32_small by lia. rewrite Hd, (lo_blk _ _ _ K1).
  rewrite fbytes_piece; [done|done|lia|]. destruct (tx_bio _ _ _ _ _ T) as [o Ho]. by apply (blk_size s o).
Qed.

Lemma readi_loop n i ip N m : forall s tot off acc fuel,
  intx p pr [] n s -> k_inodes s !! i = Some ip -> file_ok s ip -> 0 <= tot <= N -> N <= i_size ip ->
  0 <= off -> off + (N - tot) <= i_size ip -> N - tot = Z.of_nat m -> (m < fuel)%nat ->
  exists s', loop fuel (readi_step (fun _ _ => mret 0) i N) (tot, off, acc) s = Ret (N, acc ++ fbytes s ip off m) s' /\
    looked n s s'.
Proof.
  induction (lt_wf m) as [m _ IH]. intros s tot off acc [|fuel] T Hi Hf Htot HN Hoff Hend Hm Hfu; [lia|].
  destruct (decide (tot = N)) as [->|Hne].
  - exists s. replace m with O by lia. change (fbytes s ip off 0) with (@nil Z). rewrite app_nil_r. split; [|by split].
    apply loop_break. unfold readi_step. by rewrite (proj2 (Z.ltb_ge N N)) by lia.
  - destruct (readi_turn n s i ip N tot off acc) as (s1 & R1 & K1 & Hp); try done; [lia|].
    set (k := piece N tot off) in *.
    destruct (IH (m - Z.to_nat k)%nat ltac:(lia) s1 (tot + k) (off + k) (acc ++ fbytes s ip off (Z.to_nat k)) fuel)
      as (s' & R & K); try lia; [by apply K1| |by eapply file_ok_same; [apply K1|]|].
    { by rewrite (frame_inodes _ _ (lo_frame _ _ _ K1)). }
    exists s'. split; [|by eapply looked_trans]. rewrite (loop_continue _ _ _ _ _ _ R1), R.
    rewrite (fbytes_same s s1) by apply K1. rewrite <- app_assoc. f_equal. f_equal. f_equal.
    replace (off + k) with (off + Z.of_nat (Z.to_nat k)) by lia. rewrite <- fbytes_app. f_equal. lia.
Qed.

(** How many bytes a read of [n] bytes at [off] returns. *)
Definition read_count (sz off n : Z) : Z := if (sz <? off) || (2 ^ 32 <=? off + n) then 0 else Z.min n (sz - off).

Lemma readi_local_ok n s i ip off cnt :
  intx p pr [] n s -> k_inodes s !! i = Some ip -> file_ok s ip -> 0 <= off < 2 ^ 32 -> 0 <= cnt < 2 ^ 32 ->
  let k := read_count (i_size ip) off cnt in
  exists s', readi_local i off cnt s = Ret (k, fbytes s ip off (Z.to_nat k)) s' /\ looked n s s'.
Proof.
  intros T Hi Hf Hoff Hcnt k. pose proof (fo_size _ _ Hf) as Hsz. change (MAXFILE * BSIZE) with 274432 in Hsz.
  unfold readi_local, readi_gen. unfold k, read_count. destruct (Z.ltb_spec (i_size ip) off) as [Hbig|Hsm]; cbn [orb].
  { exists s. split; [|by split]. kstep_by get_inode_ok; [|exact Hi]. by rewrite (proj2 (Z.ltb_lt _ _)). }
  destruct (Z.leb_spec (2 ^ 32) (off + cnt)) as [Hov|Hok].
  { exists s. split; [|by split]. kstep_by get_inode_ok; [|exact Hi]. rewrite (proj2 (Z.ltb_ge _ _)) by lia.
    assert (u32 (off + cnt) = off + cnt - 2 ^ 32) as ->.
    { unfold u32. rewrite <- (Z.mod_add _ (-1)) by lia. apply Z.mod_small. lia. }
    by rewrite (proj2 (Z.ltb_lt (off + cnt - 2 ^ 32) off)) by lia. }
  set (N := Z.min cnt (i_size ip - off)).
  destruct (readi_loop n i ip N (Z.to_nat N) s 0 off [] (S (Z.to_nat N))) as (s' & R & K); try done; try lia.
  exists s'. split; [|done]. kstep_by get_inode_ok; [|exact Hi]. rewrite (proj2 (Z.ltb_ge (i_size ip) off)) by lia.
  rewrite (u32_small (off + cnt)), (proj2 (Z.ltb_ge (off + cnt) off)) by lia. cbn [orb].
  assert (EN : (if i_size ip <? off + cnt then i_size ip - off else cnt) = N) by (unfold N; destruct (Z.ltb_spec (i_size ip) (off + cnt)); lia).
  rewrite EN. exact R.
Qed.
End File.
