(* ===== verification/FsInode.v ===== *)
(** * The inode table

    [iget] and [idup] on the table of in-memory inodes: at most one entry per
    inode, counted references; and the on-disk form of an inode. *)

From stdpp Require Import base list gmap strings.
From Stdlib Require Import ZArith Lia.
From S2P Require Import Prelude Mem Riscv State Sched Bio Bcache Log Commit LogOps Fs FsTx FsAlloc FsFile.
Open Scope Z_scope.

(** ** The table *)

(** The entry in use for inode [inum] of [dev]. *)
Definition entry_for (dev inum : Z) (ip : inode) : Prop := 0 < i_ref ip /\ i_dev ip = dev /\ i_inum ip = inum.
#[global] Instance entry_for_dec dev inum ip : Decision (entry_for dev inum ip).
Proof. unfold entry_for. apply _. Defined.

Record itable_ok (l : list inode) : Prop := {
  it_len : length l = NINODE;
  it_ref : Forall (fun ip => 0 <= i_ref ip) l;
  it_uniq : forall i j a b, l !! i = Some a -> l !! j = Some b -> 0 < i_ref a ->
    entry_for (i_dev a) (i_inum a) b -> i = j
}.

Definition recycled (dev inum : Z) (ip : inode) : inode := set_i_valid false (set_i_ref 1 (set_i_inum inum (set_i_dev dev ip))).

(** The first slot without references among the first [i]. *)
Definition first_free (l : list inode) (i : nat) : option nat := fst <$> list_find (fun ip => i_ref ip = 0) (take i l).

Lemma take_S_lookup {A} (l : list A) i x : l !! i = Some x -> take (S i) l = take i l ++ [x].
Proof. intros H. by apply take_S_r. Qed.

Lemma first_free_S l i ip :
  l !! i = Some ip ->
  first_free l (S i) = if decide (first_free l i = None) then (if i_ref ip =? 0 then Some i else first_free l i) else first_free l i.
Proof.
  intros Hi. pose proof (lookup_lt_Some _ _ _ Hi) as Hlt. unfold first_free. rewrite (take_S_lookup l i ip Hi).
  destruct (list_find (fun ip => i_ref ip = 0) (take i l)) as [[j b]|] eqn:E.
  - rewrite (list_find_app_l _ _ _ _ _ E). by rewrite decide_False.
  - rewrite list_find_app_r by done. rewrite decide_True by done. cbn [list_find].
    destruct (Z.eqb_spec (i_ref ip) 0) as [E0|E0].
    + rewrite decide_True by done. cbn. f_equal. rewrite length_take. lia.
    + by rewrite decide_False.
Qed.

Section Scan.
Context (dev inum : Z).

Lemma iget_step_next s i ip :
  k_inodes s !! i = Some ip -> (i < NINODE)%nat -> ~ entry_for dev inum ip ->
  iget_scan dev inum (i, first_free (k_inodes s) i) s = Ret (inl (S i, first_free (k_inodes s) (S i))) s.
Proof.
  intros Hi Hlt Hno. unfold iget_scan. rewrite (proj2 (Nat.ltb_lt i NINODE)) by done. kstep_by get_inode_ok; [|exact Hi].
  assert ((0 <? i_ref ip) && (i_dev ip =? dev) && (i_inum ip =? inum) = false) as ->.
  { apply not_true_is_false. rewrite !andb_true_iff, Z.ltb_lt, !Z.eqb_eq. intros [[? ?] ?]. by apply Hno. }
  by rewrite (first_free_S _ _ _ Hi).
Qed.

Lemma iget_scan_loop s n : forall i fuel,
  length (k_inodes s) = NINODE -> (i + n = NINODE)%nat -> (n < fuel)%nat ->
  (forall j a, (j < i)%nat -> k_inodes s !! j = Some a -> ~ entry_for dev inum a) ->
  exists r, loop fuel (iget_scan dev inum) (i, first_free (k_inodes s) i) s = Ret r s /\
    match r with
    | inl j => (exists a, k_inodes s !! j = Some a /\ entry_for dev inum a) /\
        forall k a, (k < j)%nat -> k_inodes s !! k = Some a -> ~ entry_for dev inum a
    | inr e => (forall j a, k_inodes s !! j = Some a -> ~ entry_for dev inum a) /\ e = first_free (k_inodes s) NINODE
    end.
Proof.
  induction n as [|n IH]; intros i [|fuel] Hl Hn Hf Hno; try lia.
  - exists (inr (first_free (k_inodes s) i)). split.
    + apply loop_break. unfold iget_scan. by rewrite (proj2 (Nat.ltb_ge i NINODE)) by lia.
    + split; [|by replace i with NINODE by lia]. intros j a Hj. apply (Hno j a); [|done]. apply lookup_lt_Some in Hj. lia.
  - destruct (lookup_lt_is_Some_2 (k_inodes s) i ltac:(lia)) as [ip Hip].
    destruct (decide (entry_for dev inum ip)) as [He|He].
    + exists (inl i). split; [|split; [by exists ip|done]]. apply loop_break. unfold iget_scan.
      rewrite (proj2 (Nat.ltb_lt i NINODE)) by lia. kstep_by get_inode_ok; [|exact Hip]. destruct He as (H1 & H2 & H3).
      by rewrite (proj2 (Z.ltb_lt _ _)), (proj2 (Z.eqb_eq _ _)), (proj2 (Z.eqb_eq _ _)) by done.
    + destruct (IH (S i) fuel) as (r & R & Hr); try done; try lia.
      { intros j a Hj Ha. destruct (decide (j = i)) as [->|]; [by simplify_eq|]. apply (Hno j a); [lia|done]. }
      exists r. split; [|done]. rewrite <- R. apply loop_continue. eapply iget_step_next; [exact Hip|lia|done].
Qed.
End Scan.

Definition upd_inode (i : nat) (ip : inode) (s : kstate) : kstate := set_k_inodes (<[i := ip]> (k_inodes s)) s.

Lemma mod_inode_run i ip f s :
  k_inodes s !! i = Some ip -> mod_inode i f s = Ret tt (upd_inode i (f ip) s).
Proof. intros H. unfold mod_inode, modify, upd_inode. by rewrite (alter_lookup_set _ _ _ _ H). Qed.

Lemma upd_inode_twice i a b s : upd_inode i a (upd_inode i b s) = upd_inode i a s.
Proof. unfold upd_inode. cbn. by rewrite list_insert_insert_eq. Qed.

Lemma lookup_upd_inode i a s : (i < length (k_inodes s))%nat -> k_inodes (upd_inode i a s) !! i = Some a.
Proof. intros H. cbn. by apply list_lookup_insert_eq. Qed.

Lemma first_free_Some l i j : first_free l i = Some j -> exists a, l !! j = Some a /\ i_ref a = 0 /\ (j < i)%nat.
Proof.
  unfold first_free. intros ([k a] & E & ->)%fmap_Some. apply list_find_Some in E as (H & Ha & _).
  apply lookup_take_Some in H as [H Hlt]. by exists a.
Qed.

Lemma first_free_None l : length l = NINODE -> first_free l NINODE = None -> Forall (fun ip => i_ref ip <> 0) l.
Proof.
  intros Hl H. unfold first_free in H. apply fmap_None, list_find_None in H. by rewrite take_ge in H by lia.
Qed.

(** What [iget] does to the table. *)
Lemma iget_ok s dev inum :
  length (k_inodes s) = NINODE -> L_itable ∉ k_held s ->
  (exists i a, k_inodes s !! i = Some a /\ entry_for dev inum a /\
     iget dev inum s = Ret i (upd_inode i (set_i_ref (i_ref a + 1) a) s)) \/
  ((forall j a, k_inodes s !! j = Some a -> ~ entry_for dev inum a) /\
   ((exists i a, k_inodes s !! i = Some a /\ i_ref a = 0 /\ iget dev inum s = Ret i (upd_inode i (recycled dev inum a) s)) \/
    (Forall (fun ip => i_ref ip <> 0) (k_inodes s) /\ exists s', iget dev inum s = Stop (SPanic "iget: no inodes") s'))).
Proof.
  intros Hl Hh. set (s1 := set_k_held (L_itable :: k_held s) s).
  destruct (iget_scan_loop dev inum s1 NINODE 0 (S NINODE)) as (r & R & Hr); try done; try lia.
  assert (Hrel : forall (i : nat) l, (release L_itable ;; mret i) (set_k_inodes l s1) = Ret i (set_k_inodes l s)).
  { intros i l. kstep_by release_top; [|done|done]. done. }
  destruct r as [i|e].
  - left. destruct Hr as [(a & Ha & He) _]. exists i, a. split_and!; try done. unfold iget.
    kstep_by acquire_ok; [|done]. kstep_by R. kstep_by mod_inode_run; [|exact Ha]. apply Hrel.
  - right. destruct Hr as [Hno ->]. split; [done|]. destruct (first_free (k_inodes s1) NINODE) as [i|] eqn:E.
    + left. destruct (first_free_Some _ _ _ E) as (a & Ha & H0 & Hlt). exists i, a. split_and!; try done. unfold iget.
      assert (Hlen : (i < length (k_inodes s1))%nat) by (by eapply lookup_lt_Some).
      kstep_by acquire_ok; [|done]. kstep_by R. kstep_by mod_inode_run; [|exact Ha].
      kstep_by mod_inode_run; [|by apply lookup_upd_inode]. rewrite upd_inode_twice.
      kstep_by mod_inode_run; [|by apply lookup_upd_inode]. rewrite upd_inode_twice.
      kstep_by mod_inode_run; [|by apply lookup_upd_inode]. rewrite upd_inode_twice. apply Hrel.
    + right. split; [by apply first_free_None|]. exists s1. unfold iget. kstep_by acquire_ok; [|done]. kstep_by R. done.
Qed.

(** ** References *)

(** How many references the table counts to an inode. *)
Definition refs (l : list inode) (dev inum : Z) : Z :=
  default 0 ((fun x => i_ref x.2) <$> list_find (entry_for dev inum) l).

Lemma refs_entry l i a dev inum : itable_ok l -> l !! i = Some a -> entry_for dev inum a -> refs l dev inum = i_ref a.
Proof.
  intros Hok Ha He. unfold refs. destruct (list_find (entry_for dev inum) l) as [[j b]|] eqn:E.
  - apply list_find_Some in E as (Hb & Hbe & _). cbn. destruct Hbe as (H1 & H2 & H3).
    assert (j = i) as ->; [|by simplify_eq]. apply (it_uniq _ Hok j i b a); [done|done|done|]. by rewrite H2, H3.
  - exfalso. apply list_find_None in E. by apply (Forall_lookup_1 _ _ _ _ E Ha).
Qed.

Lemma refs_none l dev inum : (forall i a, l !! i = Some a -> ~ entry_for dev inum a) -> refs l dev inum = 0.
Proof.
  intros H. unfold refs. destruct (list_find (entry_for dev inum) l) as [[j b]|] eqn:E; [|done].
  apply list_find_Some in E as (Hb & Hbe & _). by destruct (H j b).
Qed.

(** Replacing one entry by another for the same inode, or a free one by an entry for an inode that has none. *)
Lemma itable_upd l i a b :
  itable_ok l -> l !! i = Some a -> 0 <= i_ref b ->
  (i_dev b = i_dev a /\ i_inum b = i_inum a /\ 0 < i_ref a \/
   (forall j c, l !! j = Some c -> ~ entry_for (i_dev b) (i_inum b) c)) ->
  itable_ok (<[i := b]> l).
Proof.
  intros [H1 H2 H3] Ha Hb Hcase. pose proof (lookup_lt_Some _ _ _ Ha) as Hlt. split.
  - by rewrite length_insert.
  - by apply Forall_insert.
  - intros x y c d Hc Hd Hpos (E1 & E2 & E3).
    apply list_lookup_insert_Some in Hc as [(<- & <- & _)|[Hx Hc]], Hd as [(<- & <- & _)|[Hy Hd]]; try done.
    + exfalso. destruct Hcase as [(Ed & Ei & Hra)|Hno]; [|by apply (Hno y d)].
      apply Hy. apply (H3 i y a d); try done. split_and!; congruence.
    + exfalso. destruct Hcase as [(Ed & Ei & Hra)|Hno].
      * apply Hx. symmetry. apply (H3 x i c a); try done. split_and!; congruence.
      * apply (Hno x c); [done|]. split_and!; congruence.
    + by apply (H3 x y c d).
Qed.

Lemma refs_upd l i a b dev inum :
  itable_ok l -> itable_ok (<[i := b]> l) -> l !! i = Some a ->
  (0 < i_ref a -> i_dev b = i_dev a /\ i_inum b = i_inum a) -> 0 < i_ref a \/ 0 < i_ref b -> 0 <= i_ref b ->
  refs (<[i := b]> l) dev inum = if decide (dev = i_dev b /\ inum = i_inum b) then i_ref b else refs l dev inum.
Proof.
  intros Hok Hok' Ha Hsame Hpos H0. pose proof (lookup_lt_Some _ _ _ Ha) as Hlt.
  assert (Hb : <[i := b]> l !! i = Some b) by (by apply list_lookup_insert_eq).
  destruct (decide (dev = i_dev b /\ inum = i_inum b)) as [[-> ->]|Hne].
  - destruct (decide (0 < i_ref b)) as [Hp|Hp]; [by rewrite (refs_entry _ i b) by done|].
    rewrite refs_none; [lia|]. intros j c Hc He. destruct (decide (j = i)) as [->|Hj].
    + rewrite Hb in Hc. simplify_eq. by destruct He.
    + rewrite list_lookup_insert_ne in Hc by done. destruct (Hsame ltac:(lia)) as [Ed Ei].
      apply Hj. symmetry. apply (it_uniq _ Hok i j a c); try done; [lia|]. by rewrite <- Ed, <- Ei.
  - destruct (list_find (entry_for dev inum) l) as [[j c]|] eqn:E.
    + apply list_find_Some in E as (Hc & He & _). assert (j <> i).
      { intros ->. simplify_eq. destruct He as (H1 & H2 & H3). destruct (Hsame H1). apply Hne. split; congruence. }
      rewrite (refs_entry l j c), (refs_entry (<[i := b]> l) j c); try done. by rewrite list_lookup_insert_ne.
    + apply list_find_None in E. rewrite !refs_none; [done| |].
      * intros j c Hc. by apply (Forall_lookup_1 _ _ _ _ E Hc).
      * intros j c Hc He. destruct (decide (j = i)) as [->|Hj].
        -- rewrite Hb in Hc. simplify_eq. apply Hne. by destruct He as (_ & ? & ?).
        -- rewrite list_lookup_insert_ne in Hc by done. by apply (Forall_lookup_1 _ _ _ _ E Hc).
Qed.

(** [refs] with one more or one less reference to an inode. *)
Definition refs_plus (l l' : list inode) (dev inum k : Z) : Prop :=
  forall d n, refs l' d n = refs l d n + if decide (d = dev /\ n = inum) then k else 0.

Lemma refs_add l i a k :
  itable_ok l -> l !! i = Some a -> 0 < i_ref a -> 0 <= i_ref a + k ->
  itable_ok (<[i := set_i_ref (i_ref a + k) a]> l) /\
  refs_plus l (<[i := set_i_ref (i_ref a + k) a]> l) (i_dev a) (i_inum a) k.
Proof.
  intros Hok Ha Hp Hk. set (b := set_i_ref (i_ref a + k) a).
  assert (Hok' : itable_ok (<[i := b]> l)) by (apply (itable_upd l i a); try done; by left).
  split; [done|]. intros d n. rewrite (refs_upd l i a b) by (done || by left). cbn.
  destruct (decide (d = i_dev a /\ n = i_inum a)) as [[-> ->]|]; [|lia]. by rewrite (refs_entry l i a).
Qed.

Lemma iget_counts s dev inum :
  itable_ok (k_inodes s) -> L_itable ∉ k_held s ->
  (exists i ip, iget dev inum s = Ret i (upd_inode i ip s) /\ entry_for dev inum ip /\
     itable_ok (<[i := ip]> (k_inodes s)) /\ refs_plus (k_inodes s) (<[i := ip]> (k_inodes s)) dev inum 1) \/
  (refs (k_inodes s) dev inum = 0 /\ Forall (fun ip => 0 < i_ref ip) (k_inodes s) /\
   exists s', iget dev inum s = Stop (SPanic "iget: no inodes") s').
Proof.
  intros Hok Hh. destruct (iget_ok s dev inum (it_len _ Hok) Hh) as [(i & a & Ha & He & R)|[Hno [(i & a & Ha & H0 & R)|[Hall R]]]].
  - left. destruct He as (H1 & <- & <-). destruct (refs_add (k_inodes s) i a 1 Hok Ha H1 ltac:(lia)) as [Hok' Hp].
    eexists i, _. split_and!; [exact R| |done|done]. split_and!; [cbn; lia|done|done].
  - left. eexists i, _. split; [exact R|]. split; [by split_and!|]. set (b := recycled dev inum a).
    assert (Hok' : itable_ok (<[i := b]> (k_inodes s))) by (apply (itable_upd _ i a); try done; by right).
    split; [done|]. intros d n. rewrite (refs_upd _ i a b) by (done || (right; done) || lia). cbn.
    destruct (decide (d = dev /\ n = inum)) as [[-> ->]|]; [|lia]. by rewrite refs_none.
  - right. split_and!; [by apply refs_none| |done]. pose proof (it_ref _ Hok) as Hr. apply Forall_lookup. intros i a Ha.
    pose proof (Forall_lookup_1 _ _ _ _ Hall Ha). pose proof (Forall_lookup_1 _ _ _ _ Hr Ha). cbn in *. lia.
Qed.

Lemma idup_counts s i a :
  itable_ok (k_inodes s) -> L_itable ∉ k_held s -> k_inodes s !! i = Some a -> 0 < i_ref a ->
  exists s', idup i s = Ret i s' /\ s' = upd_inode i (set_i_ref (i_ref a + 1) a) s /\
    itable_ok (k_inodes s') /\ refs_plus (k_inodes s) (k_inodes s') (i_dev a) (i_inum a) 1.
Proof.
  intros Hok Hh Ha Hp. destruct (refs_add (k_inodes s) i a 1 Hok Ha Hp ltac:(lia)) as [Hok' Hr].
  eexists. split_and!; [|reflexivity|done|done]. unfold idup. kstep_by acquire_ok; [|done].
  kstep_by mod_inode_run; [|exact Ha]. kstep_by release_top; [done|done|done].
Qed.

(** A reference that is not the last to an unlinked inode. *)
Lemma iput_counts s i a :
  itable_ok (k_inodes s) -> L_itable ∉ k_held s -> k_inodes s !! i = Some a -> 0 < i_ref a ->
  (i_ref a =? 1) && i_valid a && (i_nlink a =? 0) = false ->
  exists s', iput i s = Ret tt s' /\ s' = upd_inode i (set_i_ref (i_ref a - 1) a) s /\
    itable_ok (k_inodes s') /\ refs_plus (k_inodes s) (k_inodes s') (i_dev a) (i_inum a) (-1).
Proof.
  intros Hok Hh Ha Hp Hc. destruct (refs_add (k_inodes s) i a (-1) Hok Ha Hp ltac:(lia)) as [Hok' Hr].
  eexists. split_and!; [|reflexivity|done|done]. unfold iput. kstep_by acquire_ok; [|done].
  kstep_by get_inode_ok; [|exact Ha]. rewrite Hc. kstep. kstep_by mod_inode_run; [|exact Ha]. by erewrite release_top.
Qed.
