(* ===== verification/FsDinode.v ===== *)
(** * Inodes on disk

    [iupdate] stores an in-memory inode into its block, [ilock] loads it back. *)

From stdpp Require Import base list gmap strings.
From Stdlib Require Import ZArith Lia.
From S2P Require Import Prelude Mem Riscv State Sched Bio Bcache Log Commit LogOps Fs FsTx FsAlloc FsFile FsInode.
Open Scope Z_scope.

(** ** The 64 bytes of an inode *)

Definition dinode_bytes (ip : inode) : list Z :=
  le_bytes 2 (i_type ip) ++ le_bytes 2 (i_major ip) ++ le_bytes 2 (i_minor ip) ++ le_bytes 2 (i_nlink ip) ++
  le_bytes 4 (i_size ip) ++ concat (le_bytes 4 <$> i_addrs ip).

Lemma length_concat4 l : length (concat (le_bytes 4 <$> l)) = (4 * length l)%nat.
Proof. induction l as [|x l IH]; [done|]. cbn [fmap list_fmap concat]. rewrite length_app, IH, length_le_bytes. cbn [length]. lia. Qed.

Lemma length_dinode ip : length (i_addrs ip) = 13%nat -> length (dinode_bytes ip) = 64%nat.
Proof. intros H. unfold dinode_bytes. rewrite !length_app, !length_le_bytes, length_concat4, H. done. Qed.

Lemma put_at_app o k a b d :
  length a = k -> (o + k + length b <= length d)%nat -> put_at (o + k) b (put_at o a d) = put_at o (a ++ b) d.
Proof.
  intros <- H. apply list_eq. intros i. rewrite !lookup_put_at; rewrite ?length_put_at, ?length_app; try lia.
  destruct (decide (o + length a <= i < o + length a + length b)%nat) as [H1|H1].
  - rewrite decide_True by lia. rewrite lookup_app_r by lia. f_equal. lia.
  - destruct (decide (o <= i < o + length a)%nat) as [H2|H2].
    + rewrite decide_True by lia. by rewrite lookup_app_l by lia.
    + by rewrite decide_False by lia.
Qed.

Lemma put_dinode_eq ip d :
  length (i_addrs ip) = 13%nat -> (dip_off (i_inum ip) + 64 <= length d)%nat ->
  put_dinode ip d = put_at (dip_off (i_inum ip)) (dinode_bytes ip) d.
Proof.
  intros Ha Hd. unfold put_dinode, put_addrs, put32, put16, dinode_bytes. set (o := dip_off (i_inum ip)) in *.
  rewrite (put_at_app o 2) by (done || (rewrite !length_le_bytes; lia)).
  rewrite (put_at_app o 4) by (done || (rewrite !length_le_bytes; lia)).
  rewrite (put_at_app o 6) by (done || (rewrite !length_le_bytes; lia)).
  rewrite (put_at_app o 8) by (done || (rewrite !length_le_bytes; lia)).
  rewrite (put_at_app o 12) by (done || (rewrite length_concat4; lia)).
  by rewrite <- !app_assoc.
Qed.

Lemma get_in_put o bs d k n :
  (o + length bs <= length d)%nat -> (k + n <= length bs)%nat -> get_at (put_at o bs d) (o + k) n = get_at bs k n.
Proof.
  intros H Hk. apply get_at_ext. intros i Hi. rewrite lookup_put_at by done. rewrite decide_True by lia. f_equal. lia.
Qed.

Lemma get_concat4 l j x : l !! j = Some x -> get_at (concat (le_bytes 4 <$> l)) (4 * j) 4 = le_bytes 4 x.
Proof.
  revert j. induction l as [|y l IH]; intros [|j] H; [done..| |].
  - cbn in H. simplify_eq. done.
  - rewrite <- (IH j) by done. apply get_at_ext. intros i Hi. cbn [fmap list_fmap concat].
    rewrite lookup_app_r by (rewrite length_le_bytes; lia). rewrite length_le_bytes. f_equal. lia.
Qed.

(** The fields fit their types. *)
Record dinode_ok (ip : inode) : Prop := {
  do_type : - 2 ^ 15 <= i_type ip < 2 ^ 15;
  do_major : - 2 ^ 15 <= i_major ip < 2 ^ 15;
  do_minor : - 2 ^ 15 <= i_minor ip < 2 ^ 15;
  do_nlink : - 2 ^ 15 <= i_nlink ip < 2 ^ 15;
  do_size : 0 <= i_size ip < 2 ^ 32;
  do_len : length (i_addrs ip) = 13%nat;
  do_addrs : Forall (fun a => 0 <= a < 2 ^ 32) (i_addrs ip)
}.

Lemma s16_le x : - 2 ^ 15 <= x < 2 ^ 15 -> s16 (le_val (le_bytes 2 x)) = x.
Proof.
  intros H. rewrite le_val_le_bytes. change (256 ^ Z.of_nat 2) with (2 ^ 16). unfold s16, signed.
  rewrite Z.mod_mod by lia. change (2 ^ (16 - 1)) with (2 ^ 15). destruct (decide (0 <= x)).
  - rewrite Z.mod_small by lia. destruct (Z.ltb_spec x (2 ^ 15)); lia.
  - rewrite <- (Z.mod_add x 1), Z.mod_small by lia. destruct (Z.ltb_spec (x + 1 * 2 ^ 16) (2 ^ 15)); lia.
Qed.

Lemma u32_le x : 0 <= x < 2 ^ 32 -> le_val (le_bytes 4 x) = x.
Proof. intros H. rewrite le_val_le_bytes. by apply Z.mod_small. Qed.

(** Everything the disk keeps of [ip]. *)
Definition same_file (ip ip' : inode) : Prop :=
  i_type ip' = i_type ip /\ i_major ip' = i_major ip /\ i_minor ip' = i_minor ip /\ i_nlink ip' = i_nlink ip /\
  i_size ip' = i_size ip /\ i_addrs ip' = i_addrs ip.

Lemma same_file_valid ip c b : same_file ip c -> same_file ip (set_i_valid b c).
Proof. done. Qed.

Lemma load_put ip ip2 d :
  dinode_ok ip -> i_inum ip2 = i_inum ip -> (dip_off (i_inum ip) + 64 <= length d)%nat ->
  same_file ip (load_dinode (put_dinode ip d) ip2).
Proof.
  intros [H1 H2 H3 H4 H5 H6 H7] Hi Hd. rewrite put_dinode_eq by done. unfold load_dinode. rewrite Hi.
  set (o := dip_off (i_inum ip)) in *. pose proof (length_dinode ip H6) as Hl.
  assert (G : forall k n, (k + n <= 64)%nat -> get_at (put_at o (dinode_bytes ip) d) (o + k) n = get_at (dinode_bytes ip) k n).
  { intros k n Hk. apply get_in_put; lia. }
  unfold same_file, di_type, di_major, di_minor, di_nlink, di_size, di_addrs, get16, get32.
  cbn [i_type i_major i_minor i_nlink i_size i_addrs set_i_addrs set_i_size set_i_nlink set_i_minor set_i_major set_i_type].
  split_and!.
  - rewrite <- (Nat.add_0_r o) at 2. rewrite G by lia. by apply (s16_le (i_type ip)).
  - rewrite G by lia. by apply (s16_le (i_major ip)).
  - rewrite G by lia. by apply (s16_le (i_minor ip)).
  - rewrite G by lia. by apply (s16_le (i_nlink ip)).
  - rewrite G by lia. by apply (u32_le (i_size ip)).
  - apply list_eq. intros j. rewrite list_lookup_fmap. destruct (decide (j < 13)%nat) as [Hj|Hj].
    + rewrite lookup_seq_lt by done. destruct (lookup_lt_is_Some_2 (i_addrs ip) j ltac:(lia)) as [x Hx]. rewrite Hx. cbn [fmap option_fmap option_map].
      change (0 + j)%nat with j. f_equal. rewrite <- Nat.add_assoc, G by lia.
      assert (get_at (dinode_bytes ip) (12 + 4 * j) 4 = get_at (concat (le_bytes 4 <$> i_addrs ip)) (4 * j) 4) as ->.
      { apply get_at_ext. intros i _. unfold dinode_bytes. rewrite !lookup_app_r by (rewrite ?length_le_bytes; lia).
        rewrite !length_le_bytes. f_equal. lia. }
      rewrite (get_concat4 _ _ _ Hx). apply u32_le. exact (Forall_lookup_1 _ _ _ _ H7 Hx).
    + rewrite !lookup_ge_None_2 by (rewrite ?length_seq; lia). done.
Qed.

Lemma bytes_concat4 l : bytes (concat (le_bytes 4 <$> l)).
Proof. induction l as [|x l IH]; [constructor|]. cbn [fmap list_fmap concat]. apply Forall_app. split; [apply le_bytes_bytes|done]. Qed.

Lemma put_dinode_block ip d : length (i_addrs ip) = 13%nat -> 0 <= i_inum ip -> is_block d -> is_block (put_dinode ip d).
Proof.
  intros Ha Hi [H1 H2].
  assert (Ho : (dip_off (i_inum ip) + 64 <= length d)%nat).
  { rewrite H1. unfold dip_off, IPB, BSIZE. pose proof (Z.mod_pos_bound (i_inum ip) (1024 / 64) ltac:(done)).
    change (1024 / 64) with 16 in *. lia. }
  rewrite put_dinode_eq by done. split; [by rewrite length_put_at|]. apply put_at_bytes; [by rewrite length_dinode|..|done].
  unfold dinode_bytes. repeat (apply Forall_app; split); try apply le_bytes_bytes. apply bytes_concat4.
Qed.

(** ** iupdate and ilock *)

Section Dinode.
Context (p : nat) (pr : proc).
Abbreviation pid := (p_pid pr).

Lemma intx_inodes H n l s : intx p pr H n s -> intx p pr H n (set_k_inodes l s).
Proof. by apply intx_ext. Qed.

Lemma iupdate_ok n s i ip :
  let x := IBLOCK (i_inum ip) (k_sb s) in
  intx p pr [] n s -> 1 <= n -> k_inodes s !! i = Some ip -> i_dev ip = ROOTDEV -> 0 <= i_inum ip ->
  length (i_addrs ip) = 13%nat -> fs_block s x ->
  exists s', iupdate i s = Ret tt s' /\ intx p pr [] (left_after (k_log s) x n) s' /\
    set_block s s' x (put_dinode ip (blk s x)) /\ tx_frame s s' /\
    (forall b, b ∈ lblocks (k_log s') <-> b ∈ lblocks (k_log s) \/ b = x).
Proof.
  intros x T Hn Hi Hdev Hin Hlen Hfs.
  destruct (tx_bread p pr [] n s x T ltac:(apply not_elem_of_nil) ltac:(cbn; lia)) as (j & s1 & R1 & T1 & O1 & B1 & F1 & L1 & W1).
  destruct (tx_bio _ _ _ _ _ T) as [o Ho].
  destruct (tx_edit p pr [x] n s1 j x (put_dinode ip)) as (s2 & R2 & T2 & O2 & B2 & F2 & L2 & W2); try done.
  { by left. } { by eapply fs_block_frame. } { rewrite B1. apply put_dinode_block; [done|done|]. by apply (blk_size s o). }
  destruct (tx_brelse p pr [] _ s2 j x T2 O2) as (s3 & R3 & T3 & B3 & F3 & L3 & W3). rewrite L1 in T3.
  exists s3. split_and!; [|done| |by repeat (etrans; [eassumption|])|intros b; by rewrite L3, L2, L1].
  - unfold iupdate. kstep_by get_inode_ok; [|exact Hi]. kstep. fold x. rewrite Hdev. kstep_by R1.
    kstep_by get_inode_ok; [|rewrite (frame_inodes _ _ F1); exact Hi].
    apply bind_inv_Ret in R2 as ([] & s1' & Ra & Rb). kstep_by Ra. kstep_by Rb. exact R3.
  - intros b. rewrite B3, B2. destruct (b =? x); by rewrite B1.
Qed.

Definition locked (a : inode) : inode := set_i_lock (mk_sleeplock true pid) a.

(** Locking an entry that has not been read in yet. *)
Lemma ilock_load n s i a :
  let x := IBLOCK (i_inum a) (k_sb s) in
  let c := set_i_valid true (load_dinode (blk s x) (locked a)) in
  intx p pr [] n s -> k_inodes s !! i = Some a -> 1 <= i_ref a -> sl_locked (i_lock a) = false -> i_dev a = ROOTDEV ->
  i_valid a = false -> i_type c <> 0 ->
  exists s', ilock (Some i) s = Ret tt s' /\ k_inodes s' = <[i := c]> (k_inodes s) /\ same_blocks s s' /\ intx p pr [] n s'.
Proof.
  intros x c T Ha Href Hlk Hdev Hval Hty. pose proof (tx_env _ _ _ _ _ T) as He. pose proof (tx_n _ _ _ _ _ T).
  pose proof (lookup_lt_Some _ _ _ Ha) as Hlt.
  assert (R0 : acquiresleep (SL_inode i) s = Ret tt (upd_inode i (locked a) s)).
  { rewrite (acquiresleep_ok (SL_inode i) (i_lock a) p pr); [|cbn; by rewrite Ha|done|rewrite (env_held _ _ _ He); apply not_elem_of_nil|apply He..].
    cbn [upd_sl]. by rewrite (alter_lookup_set _ _ _ _ Ha). }
  set (s0 := upd_inode i (locked a) s). assert (T0 : intx p pr [] n s0) by (by apply intx_inodes).
  destruct (tx_bread p pr [] n s0 x T0 ltac:(apply not_elem_of_nil) ltac:(cbn; lia)) as (j & s1 & R1 & T1 & O1 & B1 & F1 & L1 & W1).
  destruct (tx_get p pr _ _ _ _ _ T1 O1) as (bf & Hg & Hd & _).
  assert (H1 : k_inodes s1 !! i = Some (locked a)) by (rewrite (frame_inodes _ _ F1); by apply lookup_upd_inode).
  set (s1' := upd_inode i (load_dinode (b_data bf) (locked a)) s1).
  destruct (tx_brelse p pr [] n s1' j x) as (s2 & R2 & T2 & B2 & F2 & L2 & W2); [by apply intx_inodes|exact O1|].
  assert (Hc : set_i_valid true (load_dinode (b_data bf) (locked a)) = c) by (unfold c; rewrite Hd, B1; done).
  assert (E2 : k_inodes s2 = <[i := load_dinode (b_data bf) (locked a)]> (k_inodes s)).
  { rewrite (frame_inodes _ _ F2). cbn. rewrite (frame_inodes _ _ F1). cbn. by rewrite list_insert_insert_eq. }
  assert (H2 : k_inodes s2 !! i = Some (load_dinode (b_data bf) (locked a))) by (rewrite E2; by apply list_lookup_insert_eq).
  exists (upd_inode i c s2). split_and!.
  - unfold ilock. kstep_by get_inode_ok; [|exact Ha]. rewrite (proj2 (Z.ltb_ge _ 1)) by lia. kstep_by R0.
    kstep_by get_inode_ok; [|by apply lookup_upd_inode]. cbn [i_valid locked set_i_lock]. rewrite Hval. kstep.
    change (k_sb (upd_inode i (locked a) s)) with (k_sb s). change (i_dev (locked a)) with (i_dev a).
    change (i_inum (locked a)) with (i_inum a). rewrite Hdev. fold x s0. kstep_by R1. kstep_by Hg.
    kstep_by mod_inode_run; [|exact H1]. fold s1'. kstep_by R2. kstep_by mod_inode_run; [|exact H2]. rewrite Hc.
    kstep_by get_inode_ok; [|apply lookup_upd_inode; by eapply lookup_lt_Some]. by rewrite (proj2 (Z.eqb_neq _ 0)).
  - cbn. by rewrite E2, list_insert_insert_eq.
  - intros b. change (blk (upd_inode i c s2) b) with (blk s2 b). rewrite B2. apply B1.
  - by apply intx_inodes.
Qed.

(** C20: What [iupdate] stores, [ilock] loads: an inode written out and later read into a fresh table entry has the same
    type, device numbers, link count, size and block addresses.  No block but the inode's own changes. *)
Theorem inode_roundtrip n s i ip a :
  let x := IBLOCK (i_inum ip) (k_sb s) in
  intx p pr [] n s -> 1 <= n -> k_inodes s !! i = Some ip -> i_dev ip = ROOTDEV -> 0 <= i_inum ip -> dinode_ok ip ->
  i_type ip <> 0 -> fs_block s x ->
  entry_for ROOTDEV (i_inum ip) a -> sl_locked (i_lock a) = false -> i_valid a = false ->
  exists s1 s2 ip', iupdate i s = Ret tt s1 /\ (forall b, b <> x -> blk s1 b = blk s b) /\
    ilock (Some i) (upd_inode i a s1) = Ret tt s2 /\ k_inodes s2 !! i = Some ip' /\ same_file ip ip' /\ same_blocks s1 s2.
Proof.
  intros x T Hn Hi Hdev Hin Hok Hty Hfs (Hr & Ed & Ei) Hlk Hval. pose proof (lookup_lt_Some _ _ _ Hi) as Hlt.
  destruct (iupdate_ok n s i ip T Hn Hi Hdev Hin (do_len _ Hok) Hfs) as (s1 & R1 & T1 & B1 & F1 & _). fold x in T1, B1.
  destruct (tx_bio _ _ _ _ _ T) as [o Ho]. destruct (blk_size s o x Ho) as [Hbl _].
  assert (Hoff : (dip_off (i_inum ip) + 64 <= length (blk s x))%nat).
  { rewrite Hbl. unfold dip_off. pose proof (Z.mod_pos_bound (i_inum ip) IPB ltac:(done)). change IPB with 16 in *. change BSIZE with 1024. lia. }
  assert (Hsame : same_file ip (load_dinode (blk s1 x) (locked a))) by (rewrite B1, Z.eqb_refl; by apply load_put).
  assert (Hlen1 : (i < length (k_inodes s1))%nat) by (by rewrite (frame_inodes _ _ F1)).
  destruct (ilock_load (left_after (k_log s) x n) (upd_inode i a s1) i a) as (s2 & R2 & E2 & B2 & T2); try done; try lia.
  { by apply intx_inodes. } { by apply lookup_upd_inode. }
  { change (k_sb (upd_inode i a s1)) with (k_sb s1). rewrite (frame_sb _ _ F1), Ei.
    change (blk (upd_inode i a s1)) with (blk s1). fold x.
    by rewrite (proj1 (same_file_valid _ _ true Hsame)). }
  eexists s1, s2, _. split_and!; [done| |done|rewrite E2; apply list_lookup_insert_eq; cbn; by rewrite length_insert| |done].
  - intros b Hb. by rewrite B1, (proj2 (Z.eqb_neq b x)).
  - change (k_sb (upd_inode i a s1)) with (k_sb s1). rewrite (frame_sb _ _ F1), Ei.
    change (blk (upd_inode i a s1)) with (blk s1). fold x. apply same_file_valid, Hsame.
Qed.
End Dinode.
