(* ===== verification/FsBmap.v ===== *)
(** * Mapping file blocks to disk blocks

    [balloc] in every case, and [bmap], which finds the disk block of a file block and
    allocates it, and the indirect block, when there is none. *)

From stdpp Require Import base list gmap strings.
From Stdlib Require Import ZArith Lia.
From S2P Require Import Prelude Mem Riscv State Sched Bio Bcache Log Commit LogOps Uart Format Printf Fs FsTx FsAlloc FsFile FsInode FsDinode.
Open Scope Z_scope.

(** ** The allocator *)

(** The bitmap and the log are marked as in use, as mkfs leaves them. *)
Definition meta_used (s : kstate) : Prop :=
  forall b, 0 <= b < sb_size (k_sb s) -> is_bmap (k_sb s) b \/ in_log (k_log s) b -> used s b = true.

Lemma first_unused s m :
  (exists fb, 0 <= fb < Z.of_nat m /\ used s fb = false /\ forall b, 0 <= b < fb -> used s b = true) \/
  (forall b, 0 <= b < Z.of_nat m -> used s b = true).
Proof.
  induction m as [|m [(fb & H1 & H2 & H3)|IH]]; [right; lia|left; exists fb; split_and!; auto; lia|].
  destruct (used s (Z.of_nat m)) eqn:E.
  - right. intros b Hb. destruct (decide (b = Z.of_nat m)) as [->|]; [done|]. apply IH. lia.
  - left. exists (Z.of_nat m). split_and!; auto; lia.
Qed.

Lemma uart_blocks s s' : uart_frame s s' -> same_blocks s s'.
Proof. intros [E _ _] bn. by rewrite E. Qed.

(** What all of this leaves alone: the superblock, where the log is, and whether the kernel has panicked. *)
Record wframe (s s' : kstate) : Prop := {
  wf_sb : k_sb s' = k_sb s;
  wf_panicked : k_panicked s' = k_panicked s;
  wf_geo : lg_start (k_log s') = lg_start (k_log s) /\ lg_size (k_log s') = lg_size (k_log s)
}.
#[global] Instance wframe_preorder : PreOrder wframe.
Proof. split; [by split|]. intros s1 s2 s3 [A1 A2 [A3 A4]] [B1 B2 [B3 B4]]. split; [congruence|congruence|split; congruence]. Qed.

Lemma tx_wframe s s' : tx_frame s s' -> wframe s s'.
Proof. intros [E _ _ (G1 & G2 & _)]. split; [by rewrite E|by rewrite E|done]. Qed.

Lemma in_log_w s s' b : wframe s s' -> in_log (k_log s') b <-> in_log (k_log s) b.
Proof. intros [_ _ [G1 G2]]. unfold in_log. by rewrite G1, G2. Qed.
Lemma fs_block_w s s' b : wframe s s' -> fs_block s b -> fs_block s' b.
Proof. intros W [H1 H2]. split; [done|]. by rewrite (in_log_w s). Qed.

Definition disk_full (s : kstate) : Prop := forall b, 0 <= b < sb_size (k_sb s) -> used s b = true.

Section Balloc.
Context (p : nat) (pr : proc).
Abbreviation pid := (p_pid pr).

Lemma balloc_cases H n s :
  intx p pr H n s -> 2 <= n -> Z.of_nat (length H) <= 1 -> bmap_wf (k_sb s) -> bmap_free H s -> meta_used s ->
  (forall y, y ∈ H -> used s y = true) -> k_panicked s = false ->
  (exists fb s', 0 <= fb < sb_size (k_sb s) /\ used s fb = false /\ (forall b, 0 <= b < fb -> used s b = true) /\
     balloc ROOTDEV s = Ret fb s' /\ allocated s s' fb /\ intx p pr H (n - 2) s' /\
     (forall j y, y ∈ H -> own s pid j y -> own s' pid j y)) \/
  (disk_full s /\ exists s', balloc ROOTDEV s = Ret 0 s' /\ same_blocks s s' /\ intx p pr H n s' /\ wframe s s' /\
     k_inodes s' = k_inodes s /\ (forall j y, y ∈ H -> own s pid j y -> own s' pid j y) /\
     ut_out (k_uart s') = ut_out (k_uart s) ++ chars "balloc: out of blocks" ++ [10]).
Proof.
  intros T Hn HH Hw Hbf Hm HHu Hp. pose proof (bw_size _ Hw) as Hsz.
  destruct (first_unused s (Z.to_nat (sb_size (k_sb s)))) as [(fb & H1 & H2 & H3)|Hfull]; rewrite Z2Nat.id in * by lia; [left|right].
  - assert (Hno : ~ (is_bmap (k_sb s) fb \/ in_log (k_log s) fb)) by (intros Hb; by rewrite (Hm fb) in H2).
    destruct (balloc_ok p pr H n s fb) as (s' & R & T' & A & W); try done.
    { split; [lia|tauto]. } { intros Hin. by rewrite (HHu fb Hin) in H2. } { tauto. }
    exists fb, s'. split_and!; try done; lia.
  - split; [done|]. assert (HB : BPB = 8192) by done.
    destruct (balloc_none p pr H n (Z.to_nat ((sb_size (k_sb s) + BPB - 1) / BPB)) s 0 (S (S (Z.to_nat (sb_size (k_sb s) / BPB)))))
      as (s1 & R1 & T1 & B1 & F1 & W1); try done.
    { rewrite Z.sub_0_r, Z2Nat.id; [done|]. rewrite HB. divlia. }
    { rewrite HB in *. divlia. }
    destruct (kprintf_ok (chars "balloc: out of blocks" ++ [10]) [] s1 (chars "balloc: out of blocks" ++ [10])) as (s2 & R2 & [F2 P2 O2 _]).
    { by rewrite (tf_only _ _ F1). } { rewrite (env_held _ _ _ (tx_env _ _ _ _ _ T1)). apply not_elem_of_nil. }
    { apply formats_text. repeat constructor; done. }
    pose proof (uf_only _ _ F2) as E2. exists s2. split_and!.
    + unfold balloc. kstep. change (0 * BPB) with 0 in R1. kstep_by R1. kstep_by R2. done.
    + intros bn. rewrite (uart_blocks _ _ F2). apply B1.
    + apply (intx_ext p pr H n s1); try done; by rewrite E2.
    + etrans; [by apply tx_wframe|]. split; by rewrite E2.
    + transitivity (k_inodes s1); [by rewrite E2|by apply frame_inodes].
    + intros j y Hy Hoy. apply W1 in Hoy; [|done]. unfold own in *. by rewrite E2.
    + rewrite O2. by rewrite (tf_only _ _ F1).
Qed.
End Balloc.

(** ** The blocks of a file *)

(** The allocator can work: the bitmap is where the superblock says, and what is not for files is marked as in use. *)
Record alloc_ok (s : kstate) : Prop := {
  ao_wf : bmap_wf (k_sb s);
  ao_free : bmap_free [] s;
  ao_meta : meta_used s;
  ao_zero : used s 0 = true;
  ao_panicked : k_panicked s = false
}.

(** A block in use for a file or an inode. *)
Definition data_block (s : kstate) (b : Z) : Prop :=
  0 < b < sb_size (k_sb s) /\ fs_block s b /\ ~ is_bmap (k_sb s) b /\ used s b = true.

Definition indirect (ip : inode) : Z := default 0 (i_addrs ip !! Z.to_nat NDIRECT).

(** The blocks of the file are in use, different from each other, from the indirect block and from the block [x] of the
    inode.  Blocks may be missing. *)
Record file_map (s : kstate) (ip : inode) (x : Z) : Prop := {
  fm_len : length (i_addrs ip) = 13%nat;
  fm_block : forall bn, 0 <= bn < MAXFILE -> faddr s ip bn <> 0 -> data_block s (faddr s ip bn) /\ faddr s ip bn <> x /\ faddr s ip bn <> indirect ip;
  fm_inj : forall bn bn', 0 <= bn < MAXFILE -> 0 <= bn' < MAXFILE -> faddr s ip bn <> 0 -> faddr s ip bn = faddr s ip bn' -> bn = bn';
  fm_ind : indirect ip <> 0 -> data_block s (indirect ip) /\ indirect ip <> x
}.

(** Marks are only added. *)
Definition used_mono (s s' : kstate) : Prop := forall b, 0 <= b < sb_size (k_sb s) -> used s b = true -> used s' b = true.

Lemma data_block_mono s s' b : wframe s s' -> used_mono s s' -> data_block s b -> data_block s' b.
Proof. intros W U (H1 & H2 & H3 & H4). unfold data_block. rewrite (wf_sb _ _ W). split_and!; try done; [lia..|by eapply fs_block_w|apply U; [lia|done]]. Qed.

Lemma alloc_ok_mono s s' : 0 < sb_size (k_sb s) -> wframe s s' -> used_mono s s' -> alloc_ok s -> alloc_ok s'.
Proof.
  intros Hs W U [H1 H2 H3 H4 H5]. pose proof (wf_sb _ _ W) as Es. split; rewrite ?Es; try done.
  - intros bn Hb. rewrite Es in Hb. destruct (H2 bn Hb). split; [by eapply fs_block_w|done].
  - intros b Hb Hm. rewrite Es in Hb, Hm. rewrite (in_log_w s) in Hm by done. apply U; [done|]. by apply H3.
  - apply U; [lia|done].
  - by rewrite (wf_panicked _ _ W).
Qed.

Lemma faddr_keep s s' ip bn : (indirect ip <> 0 -> blk s' (indirect ip) = blk s (indirect ip)) -> faddr s' ip bn = faddr s ip bn.
Proof.
  intros H. unfold faddr. destruct (bn <? NDIRECT); [done|]. cbn zeta. fold (indirect ip). destruct (Z.eqb_spec (indirect ip) 0); [done|]. by rewrite H.
Qed.

Lemma file_map_mono s s' ip x :
  wframe s s' -> used_mono s s' -> (indirect ip <> 0 -> blk s' (indirect ip) = blk s (indirect ip)) -> file_map s ip x -> file_map s' ip x.
Proof.
  intros W U B [H1 H2 H3 H4]. pose proof (fun bn => faddr_keep s s' ip bn B) as E. split; [done|intros bn|intros bn bn'|]; rewrite ?E.
  - intros Hb Hne. destruct (H2 bn Hb Hne) as (? & ? & ?). split_and!; try done. by eapply data_block_mono.
  - apply H3.
  - intros Hne. destruct (H4 Hne). split; [|done]. by eapply data_block_mono.
Qed.

Lemma used_blocks s s' : k_sb s' = k_sb s -> (forall bn, is_bmap (k_sb s) bn -> blk s' bn = blk s bn) -> forall b, 0 <= b < sb_size (k_sb s) -> used s' b = used s b.
Proof. intros E B b Hb. unfold used. rewrite E, B; [done|]. by exists b. Qed.

(** The inode with block [k] of its array set. *)
Definition with_addr (k a : Z) (ip : inode) : inode := set_i_addrs (<[Z.to_nat k := a]> (i_addrs ip)) ip.

Lemma indirect_with k a ip : length (i_addrs ip) = 13%nat -> 0 <= k <= NDIRECT -> indirect (with_addr k a ip) = if k =? NDIRECT then a else indirect ip.
Proof.
  intros Hl Hk. unfold indirect, with_addr. cbn. change NDIRECT with 12 in *. destruct (Z.eqb_spec k 12) as [->|Hne].
  - by rewrite list_lookup_insert_eq by lia.
  - by rewrite list_lookup_insert_ne by lia.
Qed.

(** A block just allocated: it is none of those in use, which keep their contents. *)
Lemma alloc_facts s s1 fb : alloc_ok s -> 0 <= fb < sb_size (k_sb s) -> used s fb = false -> allocated s s1 fb ->
  wframe s s1 /\ used_mono s s1 /\ alloc_ok s1 /\ data_block s1 fb /\ (forall b, data_block s b -> b <> fb /\ blk s1 b = blk s b).
Proof.
  intros Ha Hfb Hu A. pose proof (tx_wframe _ _ (al_frame _ _ _ A)) as W. pose proof Ha as [H1 H2 H3 H4 H5].
  assert (U : used_mono s s1) by (intros b Hb Hub; rewrite (al_used _ _ _ A) by done; by rewrite Hub, orb_true_r).
  assert (Hne : fb <> 0) by (intros ->; congruence).
  assert (Hno : ~ is_bmap (k_sb s) fb) by (intros Hb; rewrite (H3 fb) in Hu; [done|done|by left]).
  split_and!; try done.
  - eapply alloc_ok_mono; [|exact W|exact U|done]. lia.
  - split; [rewrite (wf_sb _ _ W); lia|]. split; [apply (fs_block_w s); [done|]; split; [destruct H1; lia|intros Hl; rewrite (H3 fb) in Hu; [done|done|by right]]|].
    split; [by rewrite (wf_sb _ _ W)|]. rewrite (al_used _ _ _ A) by done. by rewrite bool_decide_eq_true_2.
  - intros b (Hb & _ & Hnb & Hub). assert (b <> fb) by congruence. split; [done|]. by apply (al_other _ _ _ A).
Qed.

(** One more block in the map. *)
Lemma file_map_add s s' ip ip' x bn fb :
  wframe s s' -> used_mono s s' -> file_map s ip x -> length (i_addrs ip') = 13%nat -> indirect ip' = indirect ip ->
  (forall bn', 0 <= bn' < MAXFILE -> faddr s' ip' bn' = if bn' =? bn then fb else faddr s ip bn') ->
  data_block s' fb -> fb <> x -> fb <> indirect ip' -> (forall bn', 0 <= bn' < MAXFILE -> faddr s ip bn' <> fb) -> file_map s' ip' x.
Proof.
  intros W U [H1 H2 H3 H4] Hl Ei E Hfb Hx Hi Hnew. split; [done|intros bn' Hb|intros b1 b2 Hb1 Hb2|].
  - rewrite E by done. destruct (bn' =? bn); [done|]. intros Hne. destruct (H2 bn' Hb Hne) as (? & ? & ?). rewrite Ei. split_and!; try done. by eapply data_block_mono.
  - rewrite !E by done. destruct (Z.eqb_spec b1 bn), (Z.eqb_spec b2 bn); [congruence| | |by apply H3].
    + intros _ E2. by destruct (Hnew b2 Hb2).
    + intros _ E2. by destruct (Hnew b1 Hb1).
  - rewrite Ei. intros Hne. destruct (H4 Hne). split; [|done]. by eapply data_block_mono.
Qed.

(** An empty indirect block for a file that has none. *)
Lemma file_map_indirect s s' ip ip' x :
  wframe s s' -> used_mono s s' -> file_map s ip x -> length (i_addrs ip') = 13%nat ->
  (forall bn', 0 <= bn' < MAXFILE -> faddr s' ip' bn' = faddr s ip bn') ->
  data_block s' (indirect ip') -> indirect ip' <> x -> (forall bn', 0 <= bn' < MAXFILE -> faddr s ip bn' <> indirect ip') -> file_map s' ip' x.
Proof.
  intros W U [H1 H2 H3 H4] Hl E Hi Hx Hnew. split; [done|intros bn' Hb|intros b1 b2 Hb1 Hb2|done]; rewrite !E by done.
  - intros Hne. destruct (H2 bn' Hb Hne) as (? & ? & ?). split_and!; [by eapply data_block_mono|done|by apply Hnew].
  - by apply H3.
Qed.

Lemma faddr_with_direct s ip k a bn : length (i_addrs ip) = 13%nat -> 0 <= k < NDIRECT -> 0 <= bn ->
  faddr s (with_addr k a ip) bn = if bn =? k then a else faddr s ip bn.
Proof.
  intros Hl Hk Hb. assert (HN : NDIRECT = 12) by done. unfold faddr. destruct (Z.ltb_spec bn NDIRECT) as [Hlt|Hge].
  - cbn [with_addr i_addrs set_i_addrs]. destruct (Z.eqb_spec bn k) as [->|Hne]; [by rewrite list_lookup_insert_eq by lia|by rewrite list_lookup_insert_ne by lia].
  - rewrite (proj2 (Z.eqb_neq bn k)) by lia. cbn zeta. fold (indirect (with_addr k a ip)). rewrite indirect_with by (done || lia).
    by rewrite (proj2 (Z.eqb_neq k NDIRECT)) by lia.
Qed.

(** What a run of [bmap] or [writei] leaves of the file and adds to it. *)
Record more (s s' : kstate) (i : nat) (ip ip' : inode) (x : Z) : Prop := {
  mo_frame : wframe s s';
  mo_used : used_mono s s';
  mo_alloc : alloc_ok s';
  mo_inodes : k_inodes s' = <[i := ip']> (k_inodes s);
  mo_ip : ip' = set_i_addrs (i_addrs ip') ip;
  mo_map : file_map s' ip' x;
  mo_keep : forall bn, 0 <= bn < MAXFILE -> faddr s ip bn <> 0 -> faddr s' ip' bn = faddr s ip bn
}.
(** The file's blocks and the inode's keep their contents. *)
Definition untouched (s s' : kstate) (ip : inode) (x : Z) : Prop :=
  blk s' x = blk s x /\ forall bn, 0 <= bn < MAXFILE -> faddr s ip bn <> 0 -> blk s' (faddr s ip bn) = blk s (faddr s ip bn).

Lemma more_trans s1 s2 s3 i a b c x : more s1 s2 i a b x -> more s2 s3 i b c x -> more s1 s3 i a c x.
Proof.
  intros [A1 A2 A3 A4 A5 A6 A7] [B1 B2 B3 B4 B5 B6 B7]. split; try done.
  - by etrans.
  - intros d Hd Hu. apply B2; [by rewrite (wf_sb _ _ A1)|by apply A2].
  - by rewrite B4, A4, list_insert_insert_eq.
  - rewrite B5, A5. by destruct a.
  - intros bn Hb Hne. rewrite B7; [by apply A7|done|by rewrite A7].
Qed.

(** How many blocks an indirect block takes from the transaction. *)
Definition slack (ip : inode) : Z := if indirect ip =? 0 then 2 else 0.

(** The inode table is none of it. *)
Lemma wframe_upd i a s s1 : wframe s s1 -> wframe s (upd_inode i a s1).
Proof. intros [H1 H2 H3]. by split. Qed.
Lemma alloc_ok_upd i a s : alloc_ok s -> alloc_ok (upd_inode i a s).
Proof. intros [H1 H2 H3 H4 H5]. by split. Qed.

Section Bmap.
Context (p : nat) (pr : proc).
Abbreviation pid := (p_pid pr).
Context (i : nat) (x : Z).

(** The file that [i] names, in a state that can allocate. *)
Record mappable (s : kstate) (ip : inode) : Prop := {
  mp_ip : k_inodes s !! i = Some ip;
  mp_dev : i_dev ip = ROOTDEV;
  mp_alloc : alloc_ok s;
  mp_x : data_block s x;
  mp_map : file_map s ip x
}.

Lemma more_mappable s s' ip ip' : mappable s ip -> more s s' i ip ip' x -> mappable s' ip'.
Proof.
  intros [H1 H2 H3 H4 H5] [M1 M2 M3 M4 M5 M6 M7]. split; try done; [|by rewrite M5|by eapply data_block_mono].
  rewrite M4. apply list_lookup_insert_eq. by eapply lookup_lt_Some.
Qed.

Lemma more_same s s' ip : mappable s ip -> wframe s s' -> used_mono s s' -> k_inodes s' = k_inodes s ->
  (indirect ip <> 0 -> blk s' (indirect ip) = blk s (indirect ip)) -> more s s' i ip ip x.
Proof.
  intros [H1 H2 H3 H4 H5] W U E B. split; try done; [|by rewrite E, list_insert_id|by destruct ip|by eapply file_map_mono|].
  - eapply alloc_ok_mono; [|done..]. destruct H4 as (? & _). lia.
  - intros bn _ _. by apply faddr_keep.
Qed.

Lemma used_mono_same s s' : k_sb s' = k_sb s -> same_blocks s s' -> used_mono s s'.
Proof. intros E B b _ Hu. by rewrite (used_same s). Qed.

Lemma set_addr_run k a ip s : k_inodes s !! i = Some ip -> set_addr i k a s = Ret tt (upd_inode i (with_addr k a ip) s).
Proof. intros H. unfold set_addr. by rewrite (mod_inode_run i ip). Qed.

(** A direct block that is missing. *)
Lemma bmap_direct n s ip bn : intx p pr [] n s -> 2 <= n -> mappable s ip -> 0 <= bn < NDIRECT -> faddr s ip bn = 0 ->
  exists a s' ip' m, bmap i bn s = Ret a s' /\ more s s' i ip ip' x /\ untouched s s' ip x /\ intx p pr [] m s' /\ n - 2 <= m /\ slack ip' = slack ip /\
    ((a <> 0 /\ faddr s' ip' bn = a /\ a ∈ lblocks (k_log s')) \/ (a = 0 /\ disk_full s')).
Proof.
  intros T Hn Hm Hbn H0. pose proof Hm as [Hi Hdev Ha Hx Hf]. pose proof Ha as [A1 A2 A3 A4 A5]. assert (HN : NDIRECT = 12) by done.
  assert (Hadr : i_addrs ip !! Z.to_nat bn = Some 0).
  { destruct (lookup_lt_is_Some_2 (i_addrs ip) (Z.to_nat bn)) as [a E]; [rewrite (fm_len _ _ _ Hf); lia|]. unfold faddr in H0.
    rewrite (proj2 (Z.ltb_lt bn NDIRECT)), E in H0 by lia. cbn in H0. by subst. }
  assert (Hstep : bmap i bn s = (addr ← balloc ROOTDEV; if addr =? 0 then mret 0 else set_addr i bn addr ;; mret addr) s).
  { unfold bmap. kstep_by get_inode_ok; [|exact Hi]. rewrite (proj2 (Z.ltb_lt bn NDIRECT)), Hadr by lia. cbn [need]. kstep. by rewrite Hdev. }
  destruct (balloc_cases p pr [] n s) as [(fb & s1 & B1 & B2 & B3 & R & Al & T1 & _)|(Hfull & s1 & R & B & T1 & W & Ei & _)]; try done.
  { intros y Hy. by apply not_elem_of_nil in Hy. }
  - destruct (alloc_facts s s1 fb Ha B1 B2 Al) as (W & U & Ha1 & Hfb & Hold).
    pose proof (frame_inodes _ _ (al_frame _ _ _ Al)) as Ei.
    assert (Hne : fb <> 0) by (destruct Hfb as (? & _); lia). set (ip' := with_addr bn fb ip). set (s' := upd_inode i ip' s1).
    assert (Hind : indirect ip' = indirect ip) by (unfold ip'; rewrite indirect_with by (apply Hf || lia); by rewrite (proj2 (Z.eqb_neq bn NDIRECT)) by lia).
    assert (Hin : indirect ip <> 0 -> blk s1 (indirect ip) = blk s (indirect ip)) by (intros Hz; by apply Hold, (fm_ind _ _ _ Hf)).
    assert (Hfa : forall bn', 0 <= bn' < MAXFILE -> faddr s' ip' bn' = if bn' =? bn then fb else faddr s ip bn').
    { intros bn' Hb'. unfold ip'. rewrite faddr_with_direct by (apply Hf || lia). destruct (bn' =? bn); [done|]. by apply (faddr_keep s s1). }
    assert (Hnew : forall bn', 0 <= bn' < MAXFILE -> faddr s ip bn' <> fb).
    { intros bn' Hb' E. destruct (fm_block _ _ _ Hf bn' Hb') as (Hd & _); [by rewrite E|]. by destruct (Hold _ Hd). }
    exists fb, s', ip', (n - 2). split_and!; try done; try lia.
    + rewrite Hstep. kstep_by R. rewrite (proj2 (Z.eqb_neq fb 0)) by done. kstep_by (set_addr_run bn fb ip); [done|by rewrite Ei].
    + split; [by apply wframe_upd|done|by apply alloc_ok_upd|cbn; by rewrite Ei|done| |].
      * apply (file_map_add s s' ip ip' x bn fb); try done; [by apply wframe_upd|cbn; rewrite length_insert; apply Hf|by apply not_eq_sym, Hold|].
        rewrite Hind. intros ->. destruct (Hold (indirect ip)) as [Hc _]; [by apply (fm_ind _ _ _ Hf)|done].
      * intros bn' Hb' Hne'. rewrite Hfa by done. destruct (Z.eqb_spec bn' bn) as [->|]; [congruence|done].
    + split; [by apply (Hold x)|]. intros bn' Hb' Hne'. by apply Hold, (fm_block _ _ _ Hf).
    + by apply (intx_inodes p pr).
    + unfold slack. by rewrite Hind.
    + left. split_and!; [done| |apply (al_log _ _ _ Al); tauto]. rewrite Hfa by (change MAXFILE with 268; lia). by rewrite Z.eqb_refl.
  - exists 0, s1, ip, n. split_and!; try done; try lia.
    + rewrite Hstep. by kstep_by R.
    + apply more_same; try done. apply used_mono_same; [apply W|done].
    + right. split; [done|]. intros b Hb. rewrite (wf_sb _ _ W) in Hb. rewrite (used_same s); [by apply Hfull|apply W|done].
Qed.
(** An array of zeros names no block. *)
Lemma ind_at_zero k : ind_at (replicate (Z.to_nat BSIZE) 0) k = 0.
Proof.
  unfold ind_at, get32, get_at. rewrite drop_replicate, take_replicate.
  assert (Hz : forall m, le_val (replicate m 0) = 0) by (induction m as [|m IH]; [done|change (0 + 256 * le_val (replicate m 0) = 0); by rewrite IH]). apply Hz.
Qed.

(** The indirect block of the file, allocated when there is none. *)
Definition get_indirect (ip : inode) : K Z :=
  if indirect ip =? 0 then
    addr ← balloc (i_dev ip);
    (if addr =? 0 then skip else set_addr i NDIRECT addr) ;;
    mret addr
  else mret (indirect ip).

Lemma get_indirect_ok n s ip : intx p pr [] n s -> 2 <= n -> mappable s ip ->
  exists a s' ip' m, get_indirect ip s = Ret a s' /\ more s s' i ip ip' x /\ untouched s s' ip x /\ intx p pr [] m s' /\ n - slack ip + slack ip' <= m /\
    (forall bn, 0 <= bn < MAXFILE -> faddr s' ip' bn = faddr s ip bn) /\ ((a <> 0 /\ a = indirect ip') \/ (a = 0 /\ disk_full s')).
Proof.
  intros T Hn Hm. pose proof Hm as [Hi Hdev Ha Hx Hf]. pose proof Ha as [A1 A2 A3 A4 A5]. assert (HN : NDIRECT = 12) by done.
  unfold get_indirect. destruct (Z.eqb_spec (indirect ip) 0) as [H0|Hne0].
  2: { exists (indirect ip), s, ip, n. split_and!; try done; [|lia|by left]. apply more_same; [done|reflexivity|by intros b|done|done]. }
  rewrite Hdev. destruct (balloc_cases p pr [] n s) as [(fb & s1 & B1 & B2 & B3 & R & Al & T1 & _)|(Hfull & s1 & R & B & T1 & W & Ei & _)]; try done.
  { intros y Hy. by apply not_elem_of_nil in Hy. }
  - destruct (alloc_facts s s1 fb Ha B1 B2 Al) as (W & U & Ha1 & Hfb & Hold). pose proof (frame_inodes _ _ (al_frame _ _ _ Al)) as Ei.
    assert (Hne : fb <> 0) by (destruct Hfb as (? & _); lia). set (ip' := with_addr NDIRECT fb ip). set (s' := upd_inode i ip' s1).
    assert (Hind : indirect ip' = fb) by (unfold ip'; rewrite indirect_with by (apply Hf || lia); by rewrite Z.eqb_refl).
    assert (Hfa : forall bn', 0 <= bn' < MAXFILE -> faddr s' ip' bn' = faddr s ip bn').
    { intros bn' Hb'. unfold faddr. destruct (Z.ltb_spec bn' NDIRECT); [unfold ip', with_addr; cbn [i_addrs set_i_addrs]; by rewrite list_lookup_insert_ne by lia|].
      cbn zeta. fold (indirect ip') (indirect ip). rewrite Hind, H0, (proj2 (Z.eqb_neq fb 0)) by done. change (blk s' fb) with (blk s1 fb).
      by rewrite (al_zero _ _ _ Al), ind_at_zero. }
    exists fb, s', ip', (n - 2). split_and!.
    + kstep_by R. rewrite (proj2 (Z.eqb_neq fb 0)) by done. kstep_by (set_addr_run NDIRECT fb ip); [done|by rewrite Ei].
    + split; [by apply wframe_upd|done|by apply alloc_ok_upd|cbn; by rewrite Ei|done| |intros; by apply Hfa].
      apply (file_map_indirect s s' ip ip' x); rewrite ?Hind; try done; [by apply wframe_upd|cbn; rewrite length_insert; apply Hf|by apply not_eq_sym, Hold|].
      intros bn' Hb' E. destruct (fm_block _ _ _ Hf bn' Hb') as (Hd & _); [by rewrite E|]. by destruct (Hold _ Hd).
    + split; [by apply (Hold x)|]. intros bn' Hb' Hne'. by apply Hold, (fm_block _ _ _ Hf).
    + by apply (intx_inodes p pr).
    + unfold slack. rewrite Hind, H0, (proj2 (Z.eqb_neq fb 0)) by done. change (0 =? 0) with true. cbv iota. lia.
    + done.
    + by left.
  - exists 0, s1, ip, n. split_and!; try done; try lia.
    + by kstep_by R.
    + apply more_same; try done. apply used_mono_same; [apply W|done].
    + intros bn _. by apply faddr_keep.
    + right. split; [done|]. intros b Hb. rewrite (wf_sb _ _ W) in Hb. rewrite (used_same s); [by apply Hfull|apply W|done].
Qed.
(** What [bmap] does with the indirect block [a] held in buffer [bp]. *)
Definition get_entry (bn : Z) (bp : nat) (addr : Z) : K Z :=
  if addr =? 0 then
    addr ← balloc ROOTDEV;
    (if negb (addr =? 0) then
       edit_buf bp (put32 (4 * Z.to_nat bn) addr) ;;
       log_write bp
     else skip) ;;
    mret addr
  else mret addr.

Lemma bmap_unfold s ip bn : k_inodes s !! i = Some ip -> i_dev ip = ROOTDEV -> length (i_addrs ip) = 13%nat -> NDIRECT <= bn < MAXFILE ->
  bmap i bn s = (addr ← get_indirect ip; if addr =? 0 then mret 0 else
    bp ← bread ROOTDEV addr; bf ← get_buf bp; addr ← get_entry (bn - NDIRECT) bp (ind_at (b_data bf) (bn - NDIRECT)); brelse bp ;; mret addr) s.
Proof.
  intros Hi Hdev Hl Hbn. unfold bmap. kstep_by get_inode_ok; [|exact Hi]. rewrite (proj2 (Z.ltb_ge bn NDIRECT)) by lia. cbn zeta.
  rewrite (proj2 (Z.ltb_lt (bn - NDIRECT) NINDIRECT)) by (unfold MAXFILE in Hbn; lia).
  destruct (lookup_lt_is_Some_2 (i_addrs ip) (Z.to_nat NDIRECT)) as [a E]; [change NDIRECT with 12; lia|]. rewrite E. cbn [need]. kstep.
  unfold get_indirect, get_entry, indirect. rewrite E. cbn [default from_option id]. by rewrite Hdev.
Qed.

(** The map after entry [k] of the indirect block has been set. *)
Lemma faddr_put s s' ip k fb bn : indirect ip <> 0 -> length (blk s (indirect ip)) = Z.to_nat BSIZE -> blk s' (indirect ip) = put32 (4 * Z.to_nat k) fb (blk s (indirect ip)) ->
  0 <= k < NINDIRECT -> 0 <= fb < 2 ^ 31 -> 0 <= bn < MAXFILE -> faddr s' ip bn = if bn =? NDIRECT + k then fb else faddr s ip bn.
Proof.
  intros Hne Hl B Hk Hfb Hbn. assert (HN : NINDIRECT = 256) by done. assert (HB : BSIZE = 1024) by done. unfold faddr. destruct (Z.ltb_spec bn NDIRECT); [by rewrite (proj2 (Z.eqb_neq bn (NDIRECT + k))) by lia|].
  cbn zeta. fold (indirect ip). rewrite (proj2 (Z.eqb_neq (indirect ip) 0)), B by done. unfold ind_at.
  destruct (Z.eqb_spec bn (NDIRECT + k)) as [->|Hn].
  - replace (NDIRECT + k - NDIRECT) with k by lia. rewrite get32_put32 by (rewrite Hl; lia). apply u32_small. lia.
  - apply get32_put32_ne; [rewrite Hl; lia|lia].
Qed.

(** A missing entry of the indirect block. *)
Lemma bmap_entry n s ip bn : intx p pr [] n s -> 3 <= n -> mappable s ip -> indirect ip <> 0 -> NDIRECT <= bn < MAXFILE -> faddr s ip bn = 0 ->
  exists a s' m, (bp ← bread ROOTDEV (indirect ip); bf ← get_buf bp; addr ← get_entry (bn - NDIRECT) bp (ind_at (b_data bf) (bn - NDIRECT)); brelse bp ;; mret addr) s = Ret a s' /\
    more s s' i ip ip x /\ untouched s s' ip x /\ intx p pr [] m s' /\ n - 3 <= m /\
    ((a <> 0 /\ faddr s' ip bn = a /\ a ∈ lblocks (k_log s')) \/ (a = 0 /\ disk_full s')).
Proof.
  intros T Hn Hm Hi0 Hbn H0. pose proof Hm as [Hi Hdev Ha Hx Hf]. pose proof Ha as [A1 A2 A3 A4 A5]. set (y := indirect ip) in *.
  destruct (fm_ind _ _ _ Hf Hi0) as [Hyd Hyx]. fold y in Hyd, Hyx. pose proof Hyd as (Hy1 & Hy2 & Hy3 & Hy4).
  destruct (tx_bread p pr [] n s y T ltac:(apply not_elem_of_nil) ltac:(cbn; lia)) as (bp & s1 & R1 & T1 & O1 & B1 & F1 & L1 & _).
  destruct (tx_get p pr _ _ _ _ _ T1 O1) as (bf & Hg & Hd & _). pose proof (tx_wframe _ _ F1) as W1. pose proof (wf_sb _ _ W1) as E1.
  assert (Hz : ind_at (b_data bf) (bn - NDIRECT) = 0).
  { rewrite Hd, B1. unfold faddr in H0. rewrite (proj2 (Z.ltb_ge bn NDIRECT)) in H0 by lia. cbn zeta in H0. fold (indirect ip) in H0. fold y in H0. by rewrite (proj2 (Z.eqb_neq y 0)) in H0. }
  destruct (tx_bio _ _ _ _ _ T) as [o Ho]. pose proof (blk_size s o y Ho) as Hbs.
  assert (Ha1 : alloc_ok s1) by (eapply alloc_ok_mono; [|exact W1|by apply used_mono_same|done]; lia).
  destruct (balloc_cases p pr [y] n s1) as [(fb & s2 & C1 & C2 & C3 & R2 & Al & T2 & O2)|(Hfull & s2 & R2 & B2 & T2 & W2 & Ei2 & O2 & _)]; try apply Ha1; try done.
  { lia. } { intros b Hb. destruct (ao_free _ Ha1 b Hb) as [? _]. split; [done|]. intros ->%list_elem_of_singleton. by rewrite E1 in Hb. }
  { intros b ->%list_elem_of_singleton. by rewrite (used_same s). }
  - destruct (alloc_facts s1 s2 fb Ha1 C1 C2 Al) as (W2 & U2 & Ha2 & Hfb & Hold).
    assert (U1 : used_mono s s1) by (by apply used_mono_same).
    assert (Hold' : forall b, data_block s b -> b <> fb /\ blk s2 b = blk s b).
    { intros b Hb. rewrite <- (B1 b). apply Hold. by eapply data_block_mono. }
    destruct (tx_edit p pr [y] (n - 2) s2 bp y (put32 (4 * Z.to_nat (bn - NDIRECT)) fb)) as (s3 & R3 & T3 & O3 & B3 & F3 & L3 & _).
    { done. } { lia. } { by left. } { apply O2; [by left|done]. } { eapply fs_block_w; [exact W2|]. by eapply fs_block_w. }
    { rewrite (proj2 (Hold' y Hyd)). apply put32_ok; [|done]. change NDIRECT with 12 in *. change MAXFILE with 268 in *. change BSIZE with 1024. lia. }
    destruct (tx_brelse p pr [] _ s3 bp y T3 O3) as (s4 & R4 & T4 & B4 & F4 & L4 & _).
    assert (W24 : wframe s2 s4) by (etrans; [exact (tx_wframe _ _ F3)|exact (tx_wframe _ _ F4)]). assert (W : wframe s s4) by (etrans; [exact W1|by etrans]).
    assert (Bo : forall b, b <> y -> blk s4 b = blk s2 b) by (intros b Hb; by rewrite B4, B3, (proj2 (Z.eqb_neq b y))).
    assert (U24 : used_mono s2 s4).
    { intros b Hb Hu. rewrite (used_blocks s2 s4); [done|apply W24| |done]. intros c Hc. apply Bo. intros ->. by rewrite (wf_sb _ _ W2), E1 in Hc. }
    assert (U : used_mono s s4) by (intros b Hb Hu; apply U24; [by rewrite (wf_sb _ _ W2), E1|]; apply U2; [by rewrite E1|]; by apply U1).
    assert (By : blk s4 y = put32 (4 * Z.to_nat (bn - NDIRECT)) fb (blk s y)) by (rewrite B4, B3, Z.eqb_refl; by rewrite (proj2 (Hold' y Hyd))).
    assert (Hfb4 : data_block s4 fb) by (exact (data_block_mono s2 s4 fb W24 U24 Hfb)).
    assert (Hfa : forall bn', 0 <= bn' < MAXFILE -> faddr s4 ip bn' = if bn' =? bn then fb else faddr s ip bn').
    { intros bn' Hb'. rewrite (faddr_put s s4 ip (bn - NDIRECT) fb bn' Hi0 (proj1 Hbs) By); try done; [by replace (NDIRECT + (bn - NDIRECT)) with bn by lia| |].
      - unfold MAXFILE in Hbn. lia. - destruct Hfb4 as (? & (? & _) & _). lia. }
    assert (Hnew : forall bn', 0 <= bn' < MAXFILE -> faddr s ip bn' <> fb).
    { intros bn' Hb' E. destruct (fm_block _ _ _ Hf bn' Hb') as (Hdb & _); [|by destruct (Hold' _ Hdb)]. rewrite E. destruct Hfb as (? & _). lia. }
    exists fb, s4, (n - 3). split_and!; try lia.
    + assert (Hne : fb <> 0) by (destruct Hfb as (? & _); lia).
      assert (Re : get_entry (bn - NDIRECT) bp 0 s1 = Ret fb s3).
      { unfold get_entry. change (0 =? 0) with true. cbv iota. kstep_by R2. rewrite (proj2 (Z.eqb_neq fb 0)) by done. cbn [negb]. by kstep_by R3. }
      kstep_by R1. kstep_by Hg. rewrite Hz. kstep_by Re. by kstep_by R4.
    + split; try done.
      * eapply alloc_ok_mono; [|exact W24|exact U24|done]. rewrite (wf_sb _ _ W2), E1. lia.
      * rewrite (frame_inodes _ _ F4), (frame_inodes _ _ F3), (frame_inodes _ _ (al_frame _ _ _ Al)), (frame_inodes _ _ F1). by rewrite list_insert_id.
      * by destruct ip.
      * apply (file_map_add s s4 ip ip x bn fb); try done; [apply Hf|by apply not_eq_sym, Hold'|by apply not_eq_sym, Hold'].
      * intros bn' Hb' Hne'. rewrite Hfa by done. destruct (Z.eqb_spec bn' bn) as [->|]; [congruence|done].
    + split; [rewrite Bo by (by apply not_eq_sym); by apply Hold'|]. intros bn' Hb' Hne'. destruct (fm_block _ _ _ Hf bn' Hb' Hne') as (Hdb & _ & Hny).
      rewrite Bo by done. by apply Hold'.
    + eapply tx_weaken; [exact T4|]. unfold left_after. destruct (decide _); lia.
    + left. split_and!.
      * destruct Hfb as (? & _). lia.
      * rewrite Hfa by (change NDIRECT with 12 in *; lia). by rewrite Z.eqb_refl.
      * rewrite L4, L3. left. apply (al_log _ _ _ Al). tauto.
  - destruct (tx_brelse p pr [] n s2 bp y T2) as (s3 & R3 & T3 & B3 & F3 & L3 & _); [apply O2; [by left|done]|].
    assert (W3 : wframe s s3) by (etrans; [exact W1|etrans; [exact W2|by apply tx_wframe]]).
    assert (Bs : same_blocks s s3) by (intros b; by rewrite B3, B2, B1).
    exists 0, s3, n. split_and!; try done; try lia.
    + assert (Re : get_entry (bn - NDIRECT) bp 0 s1 = Ret 0 s2) by (unfold get_entry; change (0 =? 0) with true; cbv iota; by kstep_by R2).
      kstep_by R1. kstep_by Hg. rewrite Hz. kstep_by Re. by kstep_by R3.
    + apply more_same; try done; [by apply used_mono_same; [apply W3|]|]. rewrite (frame_inodes _ _ F3), Ei2. by apply frame_inodes.
    + right. split; [done|]. intros b Hb. rewrite (wf_sb _ _ W3) in Hb. rewrite (used_same s); [|apply W3|done]. rewrite <- (used_same s s1) by done. apply Hfull. by rewrite E1.
Qed.
(** [bmap]: the disk block of any block of the file, allocated when there is none; 0 only on a full disk. *)
Lemma bmap_ok n s ip bn : intx p pr [] n s -> 3 + slack ip <= n -> mappable s ip -> 0 <= bn < MAXFILE ->
  exists a s' ip' m, bmap i bn s = Ret a s' /\ more s s' i ip ip' x /\ untouched s s' ip x /\ intx p pr [] m s' /\ n - 3 - slack ip + slack ip' <= m /\
    ((a <> 0 /\ faddr s' ip' bn = a /\ (a ∈ lblocks (k_log s') \/ n - slack ip + slack ip' <= m)) \/ (a = 0 /\ disk_full s')).
Proof.
  intros T Hn Hm Hbn. pose proof Hm as [Hi Hdev Ha Hx Hf]. assert (Hsl : forall j, 0 <= slack j <= 2) by (intros j; unfold slack; destruct (_ =? 0); lia).
  pose proof (Hsl ip). destruct (decide (faddr s ip bn = 0)) as [H0|Hne].
  2: { destruct (bmap_hit p pr n s i ip bn T Hi Hdev (fm_len _ _ _ Hf) Hbn Hne) as (s' & R & [T' B F _]). pose proof (tx_wframe _ _ F) as W.
       exists (faddr s ip bn), s', ip, n. split_and!; try done; try lia.
       - apply more_same; try done; [apply used_mono_same; [apply W|done]|by apply frame_inodes].
       - left. split_and!; [done|by apply faddr_same|right; lia]. }
  destruct (decide (bn < NDIRECT)) as [Hlt|Hge].
  { destruct (bmap_direct n s ip bn T ltac:(lia) Hm ltac:(lia) H0) as (a & s' & ip' & m & R & M & Ut & T' & Hm' & Es & Hr).
    exists a, s', ip', m. split_and!; try done; [lia|]. destruct Hr as [(? & ? & ?)|?]; [left; by split_and!; [..|left]|by right]. }
  rewrite (bmap_unfold s ip bn) by (done || apply Hf || lia).
  destruct (get_indirect_ok n s ip T ltac:(lia) Hm) as (a1 & s1 & ip1 & m1 & R1 & M1 & [Ux1 Ut1] & T1 & Hm1 & Hfa & Hr1). pose proof (Hsl ip1).
  destruct Hr1 as [[Ha1 ->]|[-> Hfull]].
  - destruct (bmap_entry m1 s1 ip1 bn T1 ltac:(lia)) as (a & s' & m & R & M & [Ux Ut] & T' & Hm' & Hr); try done; [by eapply more_mappable|lia|by rewrite Hfa|].
    exists a, s', ip1, m. split_and!; try done; [|by eapply more_trans| |lia|].
    + kstep_by R1. by rewrite (proj2 (Z.eqb_neq _ 0)).
    + split; [congruence|]. intros bn' Hb' Hne'. rewrite <- Ut1 by done. rewrite <- (Hfa bn' Hb'). apply Ut; [done|]. by rewrite Hfa.
    + destruct Hr as [(? & ? & ?)|?]; [left; by split_and!; [..|left]|by right].
  - exists 0, s1, ip1, m1. split_and!; try done; [by kstep_by R1|lia|by right].
Qed.
End Bmap.
