(* ===== verification/FsWrite.v ===== *)
(** * Writing files

    [writei] on any file: the bytes written replace those in their range, blocks
    the file does not have yet are allocated and recorded in its map, the size grows to
    cover what was written, and the inode goes to disk. *)

From stdpp Require Import base list gmap strings.
From Stdlib Require Import ZArith Lia.
From S2P Require Import Prelude Mem Riscv State Sched Bio Bcache Log Commit LogOps Fs FsTx FsAlloc FsFile FsInode FsDinode FsBmap.
Open Scope Z_scope.

(** The [w] bytes of [bs] from [tot] on are in the file from [off] on; the others are as they were, where the file had
    blocks. *)
Definition written (s s' : kstate) (ip ip' : inode) (bs : list Z) (tot off w : Z) : Prop :=
  forall k, 0 <= k < MAXFILE * BSIZE ->
    if decide (off <= k < off + w) then faddr s' ip' (k / BSIZE) <> 0 /\ fbyte s' ip' k = default 0 (bs !! Z.to_nat (tot + k - off))
    else faddr s ip (k / BSIZE) <> 0 -> fbyte s' ip' k = fbyte s ip k.

Lemma block_of_byte k : 0 <= k < MAXFILE * BSIZE -> 0 <= k / BSIZE < MAXFILE.
Proof. change (MAXFILE * BSIZE) with 274432. change MAXFILE with 268. change BSIZE with 1024. intros H. divlia. Qed.

Lemma written_trans s1 s2 s3 i a b c x bs tot off w v :
  more s1 s2 i a b x -> more s2 s3 i b c x -> 0 <= w -> 0 <= v ->
  written s1 s2 a b bs tot off w -> written s2 s3 b c bs (tot + w) (off + w) v -> written s1 s3 a c bs tot off (w + v).
Proof.
  intros M1 M2 Hw Hv W1 W2 k Hk. specialize (W1 k Hk). specialize (W2 k Hk). pose proof (block_of_byte k Hk) as Hb.
  destruct (decide (off <= k < off + (w + v))) as [Hin|Hout].
  - destruct (decide (off <= k < off + w)) as [H1|H1].
    + rewrite decide_False in W2 by lia. destruct W1 as [Hf Hv1]. split; [rewrite (mo_keep _ _ _ _ _ _ M2); done|by rewrite W2].
    + rewrite decide_True in W2 by lia. destruct W2 as [Hf Hv2]. split; [done|]. rewrite Hv2. do 2 f_equal. lia.
  - rewrite decide_False in W1 by lia. rewrite decide_False in W2 by lia. intros Hne. rewrite W2; [by apply W1|].
    by rewrite (mo_keep _ _ _ _ _ _ M1).
Qed.

(** Blocks that keep their contents keep the file's bytes. *)
Lemma written_none s s' i ip ip' x bs tot off : more s s' i ip ip' x -> untouched s s' ip x -> written s s' ip ip' bs tot off 0.
Proof.
  intros M [_ Ut] k Hk. pose proof (block_of_byte k Hk) as Hb. rewrite decide_False by lia. intros Hne. unfold fbyte.
  by rewrite (mo_keep _ _ _ _ _ _ M), Ut.
Qed.

(** Overwriting one piece of a block the file has. *)
Lemma written_put s s' i ip x bs tot off m :
  let y := faddr s ip (off / BSIZE) in
  more s s' i ip ip x -> y <> 0 -> 0 <= off -> off + m <= MAXFILE * BSIZE -> 0 < m -> off mod BSIZE + m <= BSIZE -> 0 <= tot -> tot + m <= Z.of_nat (length bs) ->
  length (blk s y) = Z.to_nat BSIZE -> file_map s ip x ->
  set_block s s' y (put_at (Z.to_nat (off mod BSIZE)) (get_at bs (Z.to_nat tot) (Z.to_nat m)) (blk s y)) -> written s s' ip ip bs tot off m.
Proof.
  intros y M Hy Hoff Hend Hm Hfit Htot Hbs Hlen Hf Hset k Hk. assert (HB : BSIZE = 1024) by done.
  pose proof (Z.mod_pos_bound off BSIZE ltac:(done)). pose proof (Z.mod_pos_bound k BSIZE ltac:(done)). pose proof (block_of_byte k Hk) as Hb.
  assert (Hd : length (get_at bs (Z.to_nat tot) (Z.to_nat m)) = Z.to_nat m) by (apply length_get_at; lia).
  assert (Hbo : 0 <= off / BSIZE < MAXFILE) by (apply block_of_byte; lia).
  destruct (decide (off <= k < off + m)) as [Hin|Hout].
  - assert (E : k / BSIZE = off / BSIZE) by (rewrite HB in *; divlia). rewrite E. fold y. split.
    { rewrite (mo_keep _ _ _ _ _ _ M); done. }
    unfold fbyte. rewrite E, (mo_keep _ _ _ _ _ _ M) by done. fold y. rewrite Hset, Z.eqb_refl, lookup_put_at by (rewrite Hd; lia).
    rewrite decide_True by (rewrite Hd, HB in *; divlia). rewrite get_at_lookup by (rewrite HB in *; divlia). do 2 f_equal. rewrite HB in *. divlia.
  - intros Hne. unfold fbyte. rewrite (mo_keep _ _ _ _ _ _ M) by done. rewrite Hset. destruct (Z.eqb_spec (faddr s ip (k / BSIZE)) y) as [E|]; [|done].
    apply (fm_inj _ _ _ Hf) in E; [|done..]. rewrite lookup_put_at by (rewrite Hd; lia). rewrite decide_False by (rewrite Hd, HB in *; divlia).
    unfold y. by rewrite E.
Qed.

Section Write.
Context (p : nat) (pr : proc).
Abbreviation pid := (p_pid pr).
Context (i : nat) (x : Z).

(** The bytes come from a local variable. *)
Definition from_local (bs : list Z) (tot m : Z) : K (Z * list Z) := mret (0, get_at bs (Z.to_nat tot) (Z.to_nat m)).

(** Storing a piece in a block the file has. *)
Lemma put_piece n s ip y f : intx p pr [] n s -> 1 <= n -> mappable i x s ip -> (exists bn, 0 <= bn < MAXFILE /\ faddr s ip bn = y) -> y <> 0 -> is_block (f (blk s y)) ->
  exists bp s1 s2 s3 s4, bread ROOTDEV y s = Ret bp s1 /\ edit_buf bp f s1 = Ret tt s2 /\ log_write bp s2 = Ret tt s3 /\ brelse bp s3 = Ret tt s4 /\
    intx p pr [] (left_after (k_log s) y n) s4 /\ set_block s s4 y (f (blk s y)) /\ more s s4 i ip ip x /\ blk s4 x = blk s x.
Proof.
  intros T Hn Hm (bn & Hbn & Hy) Hy0 Hblk. pose proof Hm as [Hi Hdev Ha Hx Hf]. destruct (fm_block _ _ _ Hf bn Hbn) as (Hdb & Hyx & Hyi); [by rewrite Hy|].
  rewrite Hy in Hdb, Hyx, Hyi. destruct Hdb as (_ & Hfs & Hnb & _).
  destruct (tx_bread p pr [] n s y T ltac:(apply not_elem_of_nil) ltac:(cbn; lia)) as (j & s1 & R1 & T1 & O1 & B1 & F1 & L1 & _).
  destruct (tx_edit p pr [y] n s1 j y f) as (s3 & R3 & T3 & O3 & B3 & F3 & L3 & _); try done; [by left|by eapply fs_block_frame|by rewrite B1|].
  destruct (tx_brelse p pr [] _ s3 j y T3 O3) as (s4 & R4 & T4 & B4 & F4 & L4 & _). apply bind_inv_Ret in R3 as ([] & s2 & Ra & Rb).
  assert (Bs : set_block s s4 y (f (blk s y))) by (intros b; rewrite B4, B3; destruct (b =? y); by rewrite B1).
  assert (F : tx_frame s s4) by (by repeat (etrans; [eassumption|])).
  exists j, s1, s2, s3, s4. rewrite L1 in T4. split_and!; try done.
  - apply more_same; [done|by apply tx_wframe| |by apply frame_inodes|].
    + intros b Hb Hu. rewrite (used_blocks s s4); [done|by apply frame_sb| |done]. intros c Hc. rewrite Bs, (proj2 (Z.eqb_neq c y)); [done|]. by intros ->.
    + intros _. by rewrite Bs, (proj2 (Z.eqb_neq (indirect ip) y)) by (by apply not_eq_sym).
  - by rewrite Bs, (proj2 (Z.eqb_neq x y)) by (by apply not_eq_sym).
Qed.

(** One turn of the loop: a piece is stored, in a block just allocated if the file had none there; or the disk is full. *)
Lemma writei_turn n s ip bs N tot off :
  intx p pr [] n s -> 4 + slack ip <= n -> mappable i x s ip -> length bs = Z.to_nat N -> bytes bs -> N <= MAXFILE * BSIZE ->
  0 <= tot < N -> 0 <= off -> off + (N - tot) <= MAXFILE * BSIZE ->
  let m := piece N tot off in
  0 < m <= N - tot /\ off mod BSIZE + m <= BSIZE /\
  exists r s' ip', writei_step (from_local bs) i N (tot, off) s = Ret r s' /\ more s s' i ip ip' x /\ blk s' x = blk s x /\
    intx p pr [] (n - 3 - slack ip + slack ip') s' /\
    ((r = inl (tot + m, off + m) /\ written s s' ip ip' bs tot off m) \/ (r = inr (tot, off) /\ disk_full s' /\ written s s' ip ip' bs tot off 0)).
Proof.
  intros T Hn Hm Hlen Hbs HN Htot Hoff Hend m. assert (HB : BSIZE = 1024) by done. assert (HM : MAXFILE * BSIZE = 274432) by done.
  pose proof (Z.mod_pos_bound off BSIZE ltac:(done)) as Hmod. assert (Hmb : 0 < m <= N - tot /\ off mod BSIZE + m <= BSIZE) by (unfold m, piece; lia).
  split; [lia|]. split; [lia|]. assert (Hbo : 0 <= off / BSIZE < MAXFILE) by (apply block_of_byte; lia).
  destruct (bmap_ok p pr i x n s ip (off / BSIZE)) as (a & s1 & ip1 & n1 & R1 & M1 & Ut & T1 & Hn1 & Hr); try done; [lia|].
  assert (Hsl : 0 <= slack ip1) by (unfold slack; destruct (_ =? 0); lia).
  pose proof (written_none s s1 i ip ip1 x bs tot off M1 Ut) as W0. pose proof (more_mappable i x _ _ _ _ Hm M1) as Hm1.
  unfold writei_step. rewrite (proj2 (Z.ltb_lt tot N)) by lia. destruct Hr as [(Ha & Hfa & Hlog)|[-> Hfull]].
  2: { exists (inr (tot, off)), s1, ip1. split_and!; [by kstep_by R1|done|by apply Ut|by eapply tx_weaken; [exact T1|lia]|]. right. by split_and!. }
  destruct (tx_bio _ _ _ _ _ T1) as [o Ho]. destruct (blk_size s1 o a Ho) as [Hbl Hbb].
  assert (Hd : length (get_at bs (Z.to_nat tot) (Z.to_nat m)) = Z.to_nat m) by (apply length_get_at; lia).
  destruct (put_piece n1 s1 ip1 a (put_at (Z.to_nat (off mod BSIZE)) (get_at bs (Z.to_nat tot) (Z.to_nat m)))) as (bp & s2 & s3 & s4 & s5 & R2 & R3 & R4 & R5 & T5 & B5 & M5 & X5); try done; try lia.
  { by exists (off / BSIZE). }
  { split; [by rewrite length_put_at|]. apply put_at_bytes; [rewrite Hbl, Hd; lia| |done]. apply Forall_take. by apply Forall_drop. }
  exists (inl (tot + m, off + m)), s5, ip1. split_and!.
  - kstep_by R1. rewrite (proj2 (Z.eqb_neq a 0)) by done. kstep_by get_inode_ok; [|apply (mp_ip _ _ _ _ Hm1)]. rewrite (mp_dev _ _ _ _ Hm1). kstep_by R2.
    fold m. unfold from_local. kstep. kstep_by R3. cbn [Z.eqb]. kstep_by R4. kstep_by R5. rewrite !u32_small by lia. done.
  - by eapply more_trans.
  - rewrite X5. apply Ut.
  - eapply tx_weaken; [exact T5|]. unfold left_after. destruct (decide _); [lia|]. destruct Hlog; [done|lia].
  - left. split; [done|]. replace m with (0 + m) by lia. eapply (written_trans s s1 s5 i ip ip1 ip1 x); try done; try lia.
    rewrite !Z.add_0_r. apply (written_put s1 s5 i ip1 x); rewrite ?Hfa; try done; try lia. apply Hm1.
Qed.
(** The blocks that remain to be written. *)
Definition nblocks (rem off : Z) : Z := if rem =? 0 then 0 else (off mod BSIZE + rem + BSIZE - 1) / BSIZE.

Lemma nblocks_next N tot off : 0 <= tot < N -> let m := piece N tot off in
  1 <= nblocks (N - tot) off /\ nblocks (N - (tot + m)) (off + m) = nblocks (N - tot) off - 1.
Proof.
  intros Ht m. assert (HB : BSIZE = 1024) by done. pose proof (Z.mod_pos_bound off BSIZE ltac:(done)) as Hmod. unfold nblocks.
  rewrite (proj2 (Z.eqb_neq (N - tot) 0)) by lia. split; [rewrite HB in *; divlia|]. unfold m, piece.
  destruct (Z.eqb_spec (N - (tot + Z.min (N - tot) (BSIZE - off mod BSIZE))) 0); rewrite HB in *; divlia.
Qed.

(** The loop writes all the bytes, or those for which there was room on the disk; each block takes at most three from the
    transaction (the bitmap's, itself and the indirect block), and the indirect block two. *)
Lemma writei_loop bs N m : forall n s ip tot off fuel,
  intx p pr [] n s -> 3 * nblocks (N - tot) off + slack ip + 1 <= n -> mappable i x s ip -> length bs = Z.to_nat N -> bytes bs -> N <= MAXFILE * BSIZE ->
  0 <= tot <= N -> 0 <= off -> off + (N - tot) <= MAXFILE * BSIZE -> N - tot = Z.of_nat m -> (m < fuel)%nat ->
  exists r s' ip', loop fuel (writei_step (from_local bs) i N) (tot, off) s = Ret (tot + r, off + r) s' /\ 0 <= r <= N - tot /\
    (r = N - tot \/ disk_full s') /\ more s s' i ip ip' x /\ blk s' x = blk s x /\ intx p pr [] 1 s' /\ written s s' ip ip' bs tot off r.
Proof.
  induction (lt_wf m) as [m _ IH]. intros n s ip tot off [|fuel] T Hn Hm Hlen Hbs HN Htot Hoff Hend Hrem Hfu; [lia|].
  assert (Hsl : forall ip, 0 <= slack ip) by (intros ip0; unfold slack; destruct (_ =? 0); lia). pose proof (Hsl ip).
  destruct (decide (tot = N)) as [->|Hne].
  { assert (M : more s s i ip ip x) by (apply more_same; [done|reflexivity|by intros b|done|done]).
    assert (Hnb : nblocks (N - N) off = 0) by (unfold nblocks; by rewrite Z.sub_diag).
    exists 0, s, ip. rewrite !Z.add_0_r. split_and!; try done; try lia.
    - apply loop_break. unfold writei_step. by rewrite (proj2 (Z.ltb_ge N N)) by lia.
    - eapply tx_weaken; [exact T|lia].
    - eapply written_none; [exact M|done]. }
  destruct (nblocks_next N tot off ltac:(lia)) as [H1 Hnb]. set (k := piece N tot off) in *.
  destruct (writei_turn n s ip bs N tot off) as (Hk & Hfit & r & s1 & ip1 & R & M & X & T1 & Hr); try done; try lia. fold k in Hk, Hfit, Hr.
  pose proof (Hsl ip1). destruct Hr as [[-> W]|(-> & Hfull & W)].
  - destruct (IH (m - Z.to_nat k)%nat ltac:(lia) (n - 3 - slack ip + slack ip1) s1 ip1 (tot + k) (off + k) fuel) as (r & s' & ip' & R' & Hr & Hall & M' & X' & T' & W'); try done; try lia.
    { by eapply more_mappable. }
    exists (k + r), s', ip'. rewrite !Z.add_assoc. split_and!; try done; try lia; [by rewrite (loop_continue _ _ _ _ _ _ R)| |by eapply more_trans|congruence|].
    + destruct Hall; [left; lia|by right].
    + eapply written_trans; [exact M|exact M'|lia|lia|done|done].
  - exists 0, s1, ip1. rewrite !Z.add_0_r. split_and!; try done; try lia; [by apply loop_break|by right|eapply tx_weaken; [exact T1|lia]].
Qed.

(** Storing the size and the inode. *)
Lemma write_inode s ip z : intx p pr [] 1 s -> mappable i x s ip -> x = IBLOCK (i_inum ip) (k_sb s) -> 0 <= i_inum ip ->
  let ip' := set_i_size z ip in
  exists s', iupdate i (upd_inode i ip' s) = Ret tt s' /\ k_inodes s' = <[i := ip']> (k_inodes s) /\ intx p pr [] 0 s' /\
    set_block s s' x (put_dinode ip' (blk s x)) /\ (disk_full s -> disk_full s') /\ mappable i x s' ip' /\
    (forall bn, faddr s' ip' bn = faddr s ip bn).
Proof.
  intros T Hm Ex Hin ip'. pose proof Hm as [Hi Hdev Ha Hx Hf]. pose proof Hx as (Hlt & Hfs & Hnb & _).
  pose proof (lookup_lt_Some _ _ _ Hi) as Hlen.
  destruct (iupdate_ok p pr 1 (upd_inode i ip' s) i ip') as (s' & R & T' & B & F & _); try done.
  { by apply intx_inodes. } { by apply lookup_upd_inode. } { apply Hf. }
  { change (fs_block s (IBLOCK (i_inum ip) (k_sb s))). by rewrite <- Ex. }
  change (IBLOCK (i_inum ip') (k_sb (upd_inode i ip' s))) with (IBLOCK (i_inum ip) (k_sb s)) in T', B. rewrite <- Ex in T', B.
  assert (B' : set_block s s' x (put_dinode ip' (blk s x))) by done.
  assert (Es : k_sb s' = k_sb s) by (by rewrite (frame_sb _ _ F)).
  assert (Ei : k_inodes s' = <[i := ip']> (k_inodes s)) by (by rewrite (frame_inodes _ _ F)).
  assert (W : wframe s s') by (destruct (tx_wframe _ _ F) as [W1 W2 W3]; by split).
  assert (U : forall b, 0 <= b < sb_size (k_sb s) -> used s' b = used s b).
  { apply used_blocks; [done|]. intros b Hb. rewrite B', (proj2 (Z.eqb_neq b x)); [done|]. by intros ->. }
  assert (Hind : indirect ip' <> 0 -> blk s' (indirect ip') = blk s (indirect ip')).
  { intros Hne. rewrite B', (proj2 (Z.eqb_neq _ x)); [done|]. by apply (fm_ind _ _ _ Hf). }
  assert (Um : used_mono s s') by (intros b Hb Hu; by rewrite U).
  exists s'. split_and!; try done.
  - eapply tx_weaken; [exact T'|]. unfold left_after. destruct (decide _); lia.
  - intros Hfull b Hb. rewrite Es in Hb. rewrite U by done. by apply Hfull.
  - split; [rewrite Ei; by apply list_lookup_insert_eq|done|eapply alloc_ok_mono; [|done..]; lia|by eapply data_block_mono|].
    apply (file_map_mono s); try done. by destruct Hf.
  - intros bn. by apply (faddr_keep s s' ip').
Qed.

(** The whole of [writei], when the range is within reach. *)
Lemma writei_ok n s ip bs off :
  let N := Z.of_nat (length bs) in
  intx p pr [] n s -> 3 * nblocks N off + slack ip + 1 <= n -> mappable i x s ip -> x = IBLOCK (i_inum ip) (k_sb s) -> 0 <= i_inum ip ->
  bytes bs -> 0 <= off <= i_size ip -> off + N <= MAXFILE * BSIZE ->
  exists r s' ip', writei_local i bs off s = Ret r s' /\ 0 <= r <= N /\ (r = N \/ disk_full s') /\ intx p pr [] 0 s' /\
    k_inodes s' = <[i := ip']> (k_inodes s) /\ ip' = set_i_size (Z.max (i_size ip) (off + r)) (set_i_addrs (i_addrs ip') ip) /\
    mappable i x s' ip' /\ blk s' x = put_dinode ip' (blk s x) /\ written s s' ip ip' bs 0 off r /\
    (forall bn, 0 <= bn < MAXFILE -> faddr s ip bn <> 0 -> faddr s' ip' bn = faddr s ip bn).
Proof.
  intros N T Hn Hm Ex Hin Hbs Hoff Hend. change (MAXFILE * BSIZE) with 274432 in Hend.
  destruct (writei_loop bs N (Z.to_nat N) n s ip 0 off (S (Z.to_nat N))) as (r & s1 & ip1 & R1 & Hr & Hall & M & X & T1 & W);
    rewrite ?Z.sub_0_r in *; try done; try (change (MAXFILE * BSIZE) with 274432; lia); try lia.
  rewrite Z.add_0_l in R1. pose proof (more_mappable i x _ _ _ _ Hm M) as Hm1. pose proof M as [Wf _ _ Ei Eip _ Keep].
  set (z := Z.max (i_size ip) (off + r)). set (ip' := set_i_size z ip1).
  assert (Es : i_size ip1 = i_size ip) by (by rewrite Eip). assert (En : i_inum ip1 = i_inum ip) by (by rewrite Eip).
  assert (Hsize : ((if i_size ip1 <? off + r then mod_inode i (set_i_size (off + r)) else skip) : K unit) s1 = Ret tt (upd_inode i ip' s1)).
  { unfold ip', z. rewrite Es. destruct (Z.ltb_spec (i_size ip) (off + r)).
    - rewrite (mod_inode_run i ip1) by apply Hm1. by rewrite Z.max_r by lia.
    - rewrite Z.max_l by lia. unfold skip, mret, m_ret. f_equal. rewrite <- Es.
      assert (set_i_size (i_size ip1) ip1 = ip1) as -> by (by destruct ip1). unfold upd_inode. rewrite list_insert_id by apply Hm1. by destruct s1. }
  destruct (write_inode s1 ip1 z) as (s' & R' & Ei' & T' & B' & Hfull & Hm' & Hfa); try done; [by rewrite En, (wf_sb _ _ Wf)|by rewrite En|].
  fold ip' in R', Ei', B', Hm', Hfa.
  exists r, s', ip'. split_and!; try done; try lia.
  - unfold writei_local, writei_gen. kstep_by get_inode_ok; [|apply Hm]. fold N.
    rewrite (proj2 (Z.ltb_ge (i_size ip) off)), (u32_small (off + N)), (proj2 (Z.ltb_ge (off + N) off)) by lia. cbn [orb].
    rewrite (proj2 (Z.ltb_ge (MAXFILE * BSIZE) (off + N))) by (change (MAXFILE * BSIZE) with 274432; lia).
    kstep_by R1. kstep_by get_inode_ok; [|apply Hm1]. kstep_by Hsize. kstep_by R'. done.
  - destruct Hall; [by left|right; by apply Hfull].
  - by rewrite Ei', Ei, list_insert_insert_eq.
  - unfold ip'. rewrite Eip at 1. done.
  - by rewrite B', Z.eqb_refl, X.
  - intros k Hk. specialize (W k Hk). pose proof (block_of_byte k Hk) as Hb. pose proof (mp_map _ _ _ _ Hm1) as Hf1.
    assert (E : faddr s1 ip1 (k / BSIZE) <> 0 -> fbyte s' ip' k = fbyte s1 ip1 k).
    { intros Hne. unfold fbyte. rewrite Hfa, B', (proj2 (Z.eqb_neq _ x)); [done|]. by apply (fm_block _ _ _ Hf1). }
    destruct (decide (off <= k < off + r)); [|intros Hne].
    + destruct W as [Hne W]. rewrite Hfa. split; [done|]. by rewrite E.
    + rewrite E; [by apply W|by rewrite Keep].
  - intros bn Hb Hne. rewrite Hfa. by apply Keep.
Qed.

(** The size covers what was written and no more: every block below it is there. *)
Lemma written_file s s' ip ip' bs off r :
  file_ok s ip -> mappable i x s' ip' -> written s s' ip ip' bs 0 off r -> 0 <= off <= i_size ip -> 0 <= r -> off + r <= MAXFILE * BSIZE ->
  i_size ip' = Z.max (i_size ip) (off + r) -> (forall bn, 0 <= bn < MAXFILE -> faddr s ip bn <> 0 -> faddr s' ip' bn = faddr s ip bn) -> file_ok s' ip'.
Proof.
  intros Hok Hm W Hoff Hr Hend Hsz Keep. pose proof (fo_size _ _ Hok) as Hs. assert (HB : BSIZE = 1024) by done.
  split; [apply Hm|apply (mp_map _ _ _ _ Hm)|lia|]. intros bn Hb Hlt. rewrite Hsz in Hlt.
  assert (HM : 0 <= bn < MAXFILE) by (change (MAXFILE * BSIZE) with 274432 in *; change MAXFILE with 268; rewrite HB in *; lia).
  destruct (decide (bn * BSIZE < i_size ip)) as [H1|H1].
  - pose proof (fo_mapped _ _ Hok bn Hb H1). by rewrite Keep.
  - pose proof (W (bn * BSIZE)) as Wb. rewrite Z.div_mul, decide_True in Wb by lia. apply Wb. lia.
Qed.

(** C10: Writing a file and reading it back.  [writei] of the [N] bytes [bs] at [off] refuses, changing nothing, an
    offset beyond the end of the file and a range that exceeds the largest file or wraps around.  Otherwise it stores
    the bytes at the offset, in blocks the file has and in blocks it allocates, direct or indirect, and records in the
    file's map, whose blocks stay marked in use and distinct; it writes all the bytes, or on a disk with no free block
    left those for which there was room, and returns their number.  The size grows to cover them, the file's other
    bytes are as they were, the inode is in its block, and [readi] of the range returns exactly the bytes written.
    It takes from the transaction at most three blocks for each block of the range, two for the indirect block if there
    is none yet, and the inode's. *)
Theorem writei_readi n s ip bs off :
  let N := Z.of_nat (length bs) in
  intx p pr [] n s -> mappable i x s ip -> file_ok s ip -> x = IBLOCK (i_inum ip) (k_sb s) -> 0 <= i_inum ip ->
  bytes bs -> 0 <= off < 2 ^ 32 -> N < 2 ^ 32 ->
  if (i_size ip <? off) || (MAXFILE * BSIZE <? off + N) then writei_local i bs off s = Ret (-1) s
  else 3 * nblocks N off + slack ip + 1 <= n ->
  exists r s' ip' s'', writei_local i bs off s = Ret r s' /\ 0 <= r <= N /\ (r = N \/ disk_full s') /\
    k_inodes s' = <[i := ip']> (k_inodes s) /\ ip' = set_i_size (Z.max (i_size ip) (off + r)) (set_i_addrs (i_addrs ip') ip) /\
    mappable i x s' ip' /\ file_ok s' ip' /\ blk s' x = put_dinode ip' (blk s x) /\
    (forall k, 0 <= k < i_size ip -> ~ (off <= k < off + r) -> fbyte s' ip' k = fbyte s ip k) /\
    readi_local i off r s' = Ret (r, take (Z.to_nat r) bs) s''.
Proof.
  intros N T Hm Hok Ex Hin Hbs Hoff HN. pose proof (fo_size _ _ Hok) as Hs. change (MAXFILE * BSIZE) with 274432 in *.
  destruct (Z.ltb_spec (i_size ip) off) as [Hbig|Hsm]; cbn [orb].
  { unfold writei_local, writei_gen. kstep_by get_inode_ok; [|apply Hm]. by rewrite (proj2 (Z.ltb_lt _ _)). }
  destruct (Z.ltb_spec 274432 (off + N)) as [Hov|Hfit].
  { unfold writei_local, writei_gen. kstep_by get_inode_ok; [|apply Hm]. fold N. rewrite (proj2 (Z.ltb_ge _ _)) by lia. cbn [orb].
    destruct (Z.ltb_spec (u32 (off + N)) off); [done|]. rewrite u32_small in * by (unfold u32 in *; vdivlia).
    by rewrite (proj2 (Z.ltb_lt _ _)). }
  intros Hn. destruct (writei_ok n s ip bs off) as (r & s' & ip' & R & Hr & Hall & T' & Ei & Eip & Hm' & X & W & Keep); try done; try lia. fold N in Hr, Hall.
  assert (Hsz : i_size ip' = Z.max (i_size ip) (off + r)) by (by rewrite Eip).
  assert (Hok' : file_ok s' ip') by (eapply written_file; try done; change (MAXFILE * BSIZE) with 274432; lia).
  destruct (readi_local_ok p pr _ s' i ip' off r T' (mp_ip _ _ _ _ Hm') Hok' ltac:(lia) ltac:(lia)) as (s'' & R' & _).
  exists r, s', ip', s''. split_and!; try done; try lia.
  - intros k Hk Hout. specialize (W k). rewrite decide_False in W by done. apply W; [change (MAXFILE * BSIZE) with 274432; lia|].
    apply (fo_mapped _ _ Hok); change BSIZE with 1024; divlia.
  - rewrite R'. assert (read_count (i_size ip') off r = r) as ->.
    { unfold read_count. rewrite Hsz, (proj2 (Z.ltb_ge _ _)), (proj2 (Z.leb_gt (2 ^ 32) _)) by lia. cbn [orb]. lia. }
    do 2 f_equal. apply list_eq. intros j. destruct (decide (j < Z.to_nat r)%nat) as [Hj|Hj].
    + unfold fbytes. rewrite list_lookup_fmap, lookup_seq_lt, lookup_take_lt by lia. cbn.
      specialize (W (off + Z.of_nat j)). rewrite decide_True in W by lia. destruct W as [_ ->]; [change (MAXFILE * BSIZE) with 274432; lia|].
      destruct (lookup_lt_is_Some_2 bs j) as [b Hb]; [lia|]. replace (Z.to_nat (0 + (off + Z.of_nat j) - off)) with j by lia. by rewrite Hb.
    + rewrite !lookup_ge_None_2; [done|rewrite length_take; lia|rewrite length_fbytes; lia].
Qed.
End Write.
