(* ===== verification/FsDir.v ===== *)
(** * Directories and paths

    [dirlookup] against the list of a directory's entries, [skipelem] against
    the list of a path's elements. *)

From stdpp Require Import base list gmap strings.
From Stdlib Require Import ZArith Lia.
From S2P Require Import Prelude Mem KString Riscv State Sched Bio Bcache Log Commit LogOps Fs FsTx FsAlloc FsFile FsInode.
Open Scope Z_scope.

(** ** Directory entries *)

(** Entry [k]: its 16 bytes. *)
Definition dirent (s : kstate) (dp : inode) (k : Z) : list Z := fbytes s dp (16 * k) 16.
Definition nentries (dp : inode) : Z := i_size dp / 16.

(** A name is at most DIRSIZ characters, or up to a 0. *)
Definition same_name (a b : list Z) : Prop := take (Z.to_nat DIRSIZ) (cstr a) = take (Z.to_nat DIRSIZ) (cstr b).
#[global] Instance same_name_dec a b : Decision (same_name a b).
Proof. unfold same_name. apply _. Defined.

Definition names (s : kstate) (dp : inode) (name : list Z) (k : Z) : Prop :=
  de_inum (dirent s dp k) <> 0 /\ same_name name (de_name (dirent s dp k)).
#[global] Instance names_dec s dp name k : Decision (names s dp name k).
Proof. unfold names. apply _. Defined.

Record dir_ok (s : kstate) (dp : inode) : Prop := {
  dk_file : file_ok s dp;
  dk_whole : i_size dp mod 16 = 0
}.

Lemma dirent_same s s' dp k : same_blocks s s' -> dirent s' dp k = dirent s dp k.
Proof. apply fbytes_same. Qed.

Lemma names_same s s' dp name k : same_blocks s s' -> names s' dp name k <-> names s dp name k.
Proof. intros B. unfold names. by rewrite (dirent_same s s'). Qed.

Lemma dir_ok_same s s' dp : same_blocks s s' -> dir_ok s dp -> dir_ok s' dp.
Proof. intros B [H1 H2]. split; [by eapply file_ok_same|done]. Qed.

(** Where a lookup that finds entry [k] ends: with one more reference to the
    entry's inode, or in a panic when the inode table is full. *)
Definition dir_hit (s' : kstate) (dp : inode) (inum k : Z) (o : out kstate (option (nat * Z))) : Prop :=
  (exists i ip, o = Ret (Some (i, 16 * k)) (upd_inode i ip s') /\ entry_for (i_dev dp) inum ip /\
     itable_ok (<[i := ip]> (k_inodes s')) /\ refs_plus (k_inodes s') (<[i := ip]> (k_inodes s')) (i_dev dp) inum 1) \/
  (refs (k_inodes s') (i_dev dp) inum = 0 /\ Forall (fun ip => 0 < i_ref ip) (k_inodes s') /\
   exists s'', o = Stop (SPanic "iget: no inodes") s'').

Section Dir.
Context (p : nat) (pr : proc).

(** Reading one entry. *)
Lemma read_dirent n s d dp k :
  intx p pr [] n s -> k_inodes s !! d = Some dp -> dir_ok s dp -> 0 <= k < nentries dp ->
  exists s', readi_local d (16 * k) sizeof_dirent s = Ret (16, dirent s dp k) s' /\ looked p pr n s s'.
Proof.
  intros T Hd [Hf Hw] Hk. unfold nentries in Hk. pose proof (fo_size _ _ Hf) as Hsz. change (MAXFILE * BSIZE) with 274432 in Hsz.
  assert (H16 : 16 * k + 16 <= i_size dp) by divlia.
  destruct (readi_local_ok p pr n s d dp (16 * k) 16 T Hd Hf ltac:(lia) ltac:(lia)) as (s' & R & L).
  exists s'. split; [|done]. unfold sizeof_dirent. rewrite R. unfold read_count.
  rewrite (proj2 (Z.ltb_ge _ _)), (proj2 (Z.leb_gt (2 ^ 32) _)) by lia. cbn [orb]. by rewrite Z.min_l by lia.
Qed.

Lemma fbyte_byte n s ip k : intx p pr [] n s -> 0 <= fbyte s ip k < 256.
Proof.
  intros T. destruct (tx_bio _ _ _ _ _ T) as [o Ho]. unfold fbyte. destruct (blk_size s o (faddr s ip (k / BSIZE)) Ho) as [_ Hb].
  destruct (blk s _ !! Z.to_nat (k mod BSIZE)) as [b|] eqn:E; [|done]. exact (Forall_lookup_1 _ _ _ _ Hb E).
Qed.

Lemma dirent_bytes n s dp k : intx p pr [] n s -> bytes (dirent s dp k).
Proof. intros T. apply Forall_fmap, Forall_forall. intros j _. by apply (fbyte_byte n). Qed.

(** One turn of the search. *)
Lemma dir_step n s d dp name k :
  intx p pr [] n s -> k_inodes s !! d = Some dp -> dir_ok s dp -> bytes name -> 0 <= k < nentries dp ->
  exists s', looked p pr n s s' /\ dirlookup_step d name (16 * k) s =
    if decide (names s dp name k)
    then ((i ← iget (i_dev dp) (de_inum (dirent s dp k)); mret (inr (Some (i, 16 * k)))) : K (Z + option (nat * Z))) s'
    else Ret (inl (16 * (k + 1))) s'.
Proof.
  intros T Hd Hok Hname Hk. destruct (read_dirent n s d dp k T Hd Hok Hk) as (s1 & R1 & L1).
  pose proof (fo_size _ _ (dk_file _ _ Hok)) as Hsz. change (MAXFILE * BSIZE) with 274432 in Hsz.
  assert (Hlt : 16 * k < i_size dp) by (unfold nentries in Hk; divlia).
  assert (Hcmp : (namecmp name (de_name (dirent s dp k)) =? 0) = bool_decide (same_name name (de_name (dirent s dp k)))).
  { apply eq_true_iff_eq. rewrite Z.eqb_eq, bool_decide_eq_true. apply strncmp_zero; [done|]. apply Forall_drop. by apply (dirent_bytes n). }
  exists s1. split; [done|]. unfold dirlookup_step. kstep_by get_inode_ok; [|exact Hd]. rewrite (proj2 (Z.ltb_lt _ _)) by lia.
  kstep_by R1. change (negb (16 =? sizeof_dirent)) with false. cbv iota. unfold sizeof_dirent. rewrite u32_small, Hcmp by lia.
  replace (16 * (k + 1)) with (16 * k + 16) by lia. unfold names.
  destruct (Z.eqb_spec (de_inum (dirent s dp k)) 0) as [E|E]; [by rewrite decide_False by (by intros [? _])|].
  destruct (decide (same_name name (de_name (dirent s dp k)))) as [Hs|Hs].
  - by rewrite bool_decide_true, decide_True.
  - rewrite bool_decide_false, decide_False by naive_solver. done.
Qed.

Lemma dirlookup_loop n d dp name m : bytes name -> forall s k fuel,
  intx p pr [] n s -> k_inodes s !! d = Some dp -> dir_ok s dp -> itable_ok (k_inodes s) -> 0 <= k ->
  nentries dp - k = Z.of_nat m -> (m < fuel)%nat ->
  let o := loop fuel (dirlookup_step d name) (16 * k) s in
  (exists k' s', k <= k' < nentries dp /\ names s dp name k' /\ (forall j, k <= j < k' -> ~ names s dp name j) /\
     looked p pr n s s' /\ dir_hit s' dp (de_inum (dirent s dp k')) k' o) \/
  ((forall j, k <= j < nentries dp -> ~ names s dp name j) /\ exists s', o = Ret None s' /\ looked p pr n s s').
Proof.
  intros Hname. induction m as [|m IH]; intros s k [|fuel] T Hd Hok Hit Hk Hm Hfu o; try lia.
  { right. split; [lia|]. exists s. split; [|by split]. apply loop_break. unfold dirlookup_step. kstep_by get_inode_ok; [|exact Hd].
    destruct Hok as [Hf Hw]. unfold nentries in Hm. rewrite (proj2 (Z.ltb_ge _ _)) by divlia. done. }
  destruct (dir_step n s d dp name k) as (s1 & L1 & Hstep); try done; [lia|].
  pose proof L1 as [T1 B1 F1 _]. pose proof (frame_inodes _ _ F1) as Ei.
  destruct (decide (names s dp name k)) as [Hyes|Hno].
  - left. exists k, s1. split_and!; try done; try lia. unfold o.
    destruct (iget_counts s1 (i_dev dp) (de_inum (dirent s dp k))) as [(i & ip & R & He & Hi & Hr)|(Hz & Hall & s2 & R)].
    { by rewrite Ei. } { rewrite (env_held _ _ _ (tx_env _ _ _ _ _ T1)). apply not_elem_of_nil. }
    + left. exists i, ip. split_and!; try done; try apply He. apply loop_break. rewrite Hstep. by kstep_by R.
    + right. split_and!; try done. exists s2. apply loop_stop. rewrite Hstep. by apply bind_Stop.
  - unfold o. rewrite (loop_continue _ _ _ _ _ _ Hstep).
    assert (Hall : forall j, k <= j -> (k + 1 <= j -> ~ names s1 dp name j) -> ~ names s dp name j).
    { intros j Hj Hn. destruct (decide (j = k)) as [->|]; [done|]. rewrite <- (names_same s s1) by done. apply Hn. lia. }
    destruct (IH s1 (k + 1) fuel T1) as [(k' & s' & H1 & H2 & H3 & H4 & H5)|(H1 & s' & H2 & H3)];
      try lia; [by rewrite Ei|by eapply dir_ok_same|by rewrite Ei|left|right].
    + exists k', s'. rewrite (dirent_same s s1) in H5 by done. rewrite (names_same s s1) in H2 by done. split_and!; [lia|lia|exact H2| | |exact H5].
      * intros j Hj. apply Hall; [lia|]. intros. apply H3. lia.
      * by eapply looked_trans.
    + split; [|exists s'; split; [done|by eapply looked_trans]]. intros j Hj. apply Hall; [lia|]. intros. apply H1. lia.
Qed.

(** C34: [dirlookup] returns the inode and offset of the first entry in use with the given name, taking one reference
    to it, and nothing when no entry has the name; no block changes.  It gives up only when the inode is no directory
    or the inode table is full. *)
Theorem dirlookup_spec n s d dp name :
  intx p pr [] n s -> k_inodes s !! d = Some dp -> dir_ok s dp -> itable_ok (k_inodes s) -> bytes name ->
  (i_type dp = T_DIR ->
   (exists k s', 0 <= k < nentries dp /\ names s dp name k /\ (forall j, 0 <= j < k -> ~ names s dp name j) /\
      looked p pr n s s' /\ dir_hit s' dp (de_inum (dirent s dp k)) k (dirlookup d name s)) \/
   ((forall j, 0 <= j < nentries dp -> ~ names s dp name j) /\
    exists s', dirlookup d name s = Ret None s' /\ looked p pr n s s')) /\
  (i_type dp <> T_DIR -> dirlookup d name s = Stop (SPanic "dirlookup not DIR") s).
Proof.
  intros T Hd Hok Hit Hn. split; intros Hty.
  - assert (E : dirlookup d name s = loop (S (S (Z.to_nat (i_size dp / sizeof_dirent)))) (dirlookup_step d name) (16 * 0) s).
    { unfold dirlookup. kstep_by get_inode_ok; [|exact Hd]. by rewrite Hty. }
    rewrite E. pose proof (fo_size _ _ (dk_file _ _ Hok)) as Hsz.
    apply (dirlookup_loop n d dp name (Z.to_nat (nentries dp))); try done; unfold nentries, sizeof_dirent; divlia.
  - unfold dirlookup. kstep_by get_inode_ok; [|exact Hd]. by rewrite (proj2 (Z.eqb_neq _ _)).
Qed.
End Dir.

(** ** Paths *)

(** The pieces of a path between slashes, and its elements: the pieces that are not empty. *)
Fixpoint pieces (path : list Z) : list (list Z) :=
  match path with
  | [] => [[]]
  | c :: p => if c =? 47 then [] :: pieces p
              else match pieces p with e :: r => (c :: e) :: r | [] => [[c]] end
  end.
Definition elems (path : list Z) : list (list Z) := filter (fun e => e <> []) (pieces path).

Lemma elems_slash p : elems (47 :: p) = elems p.
Proof. done. Qed.

Lemma elems_skip p : elems (skip_slashes p) = elems p.
Proof. induction p as [|c p IH]; [done|]. cbn [skip_slashes]. destruct (Z.eqb_spec c 47) as [->|]; [by rewrite elems_slash|done]. Qed.

Lemma skip_hd p : hd0 (skip_slashes p) <> 47.
Proof. induction p as [|c p IH]; [done|]. cbn. by destruct (Z.eqb_spec c 47). Qed.

Lemma skip_suffix p : exists q, p = q ++ skip_slashes p.
Proof.
  induction p as [|c p [q IH]]; [by exists []|]. cbn. destruct (c =? 47); [exists (c :: q); by rewrite IH at 1|by exists []].
Qed.

Lemma skip_length p : (length (skip_slashes p) <= length p)%nat.
Proof. destruct (skip_suffix p) as [q E]. rewrite E at 2. rewrite length_app. lia. Qed.

Lemma take_elem_spec p e r :
  Forall (fun c => c <> 0) p -> take_elem p = (e, r) ->
  p = e ++ r /\ pieces p = e :: match r with [] => [] | _ :: r => pieces r end /\ (r = [] \/ hd0 r = 47).
Proof.
  revert e r. induction p as [|c p IH]; intros e r Hz H; [cbn in H; simplify_eq; auto|].
  apply Forall_cons in Hz as [Hc Hz]. cbn in H |- *. rewrite (proj2 (Z.eqb_neq c 0)), orb_false_r in H by done.
  destruct (Z.eqb_spec c 47) as [->|Hne]; [simplify_eq; split_and!; [done..|by right]|].
  destruct (take_elem p) as [e' r'] eqn:E. simplify_eq. destruct (IH e' r Hz eq_refl) as (H1 & -> & H3).
  split_and!; [by rewrite H1|done|done].
Qed.

Lemma elems_take p e r :
  Forall (fun c => c <> 0) p -> take_elem p = (e, r) -> hd0 p <> 0 -> hd0 p <> 47 ->
  p = e ++ r /\ e <> [] /\ elems p = e :: elems (skip_slashes r).
Proof.
  intros Hz H H0 H47. destruct (take_elem_spec p e r Hz H) as (Ha & Hp & Hr).
  assert (Hne : e <> []). { intros ->. cbn in Ha. subst r. destruct Hr as [->|]; done. }
  split_and!; [done|done|]. unfold elems at 1. rewrite Hp, filter_cons_True by done. f_equal. rewrite elems_skip.
  destruct Hr as [->|Hr]; [done|]. destruct r as [|c r]; [done|]. cbn in Hr. by subst c.
Qed.

Lemma elems_nil p : Forall (fun c => c <> 0) p -> hd0 p <> 47 -> elems p = [] <-> p = [].
Proof.
  intros Hz Hh. split; [|by intros ->]. destruct p as [|c p]; [done|]. destruct (take_elem (c :: p)) as [e r] eqn:E.
  destruct (elems_take _ e r Hz E) as (_ & _ & ->); [by apply Forall_cons in Hz as [? _]|done|done].
Qed.

Lemma put_at_0 bs d : (length bs <= length d)%nat -> put_at 0 bs d = bs ++ drop (length bs) d.
Proof.
  intros H. apply list_eq. intros i. rewrite lookup_put_at by lia. rewrite Nat.sub_0_r. destruct (decide _) as [Hi|Hi].
  - by rewrite lookup_app_l by lia.
  - rewrite lookup_app_r by lia. rewrite lookup_drop. f_equal. lia.
Qed.

(** C35: [skipelem] splits a path into its elements: it stores the first one, cut to DIRSIZ characters, and returns the
    rest without leading slashes, which is empty exactly after the last element; with no element left it returns 0.
    The rest is shorter than the path, so following a path ends. *)
Theorem skipelem_spec path name :
  Forall (fun c => c <> 0) path -> length name = Z.to_nat DIRSIZ ->
  match elems path with
  | [] => skipelem path name = None
  | e :: es => exists rest name', skipelem path name = Some (rest, name') /\ elems rest = es /\ same_name name' e /\
      length name' = Z.to_nat DIRSIZ /\ (rest = [] <-> es = []) /\ hd0 rest <> 47 /\ (length rest < length path)%nat
  end.
Proof.
  intros Hz Hl. rewrite <- (elems_skip path). pose proof (skip_hd path) as Hh. unfold skipelem.
  destruct (skip_suffix path) as [q Hq]. set (t := skip_slashes path) in *.
  assert (Hzt : Forall (fun c => c <> 0) t) by (rewrite Hq in Hz; by apply Forall_app in Hz as [_ ?]).
  destruct t as [|c t0] eqn:Et; [done|]. destruct (Z.eqb_spec (hd0 (c :: t0)) 0) as [E0|E0].
  { by apply Forall_cons in Hzt as [? _]. }
  destruct (take_elem (c :: t0)) as [e r] eqn:E. destruct (elems_take _ e r Hzt E E0 Hh) as (Ha & Hne & ->).
  assert (Hze : Forall (fun c => c <> 0) e /\ Forall (fun c => c <> 0) r) by (rewrite Ha in Hzt; by apply Forall_app in Hzt).
  destruct Hze as [Hze Hzr]. change (Z.to_nat DIRSIZ) with 14%nat in *. unfold same_name. change (Z.to_nat DIRSIZ) with 14%nat.
  eexists _, _. split; [reflexivity|]. split_and!; [done| | | |apply skip_hd|].
  - rewrite (cstr_id e Hze). destruct (Z.leb_spec DIRSIZ (Z.of_nat (length e))) as [Hg|Hg]; change DIRSIZ with 14 in Hg.
    + assert (put_at 0 (take 14 e) name = take 14 e) as ->.
      { rewrite put_at_0, drop_ge, app_nil_r; rewrite ?length_take; try done; lia. }
      rewrite cstr_id by (by apply Forall_take). by rewrite take_take.
    + rewrite put_at_0 by (rewrite length_app; cbn; lia). rewrite <- app_assoc. cbn [app]. by rewrite cstr_app0.
  - by destruct (DIRSIZ <=? _); rewrite length_put_at.
  - rewrite elems_nil; [done| |apply skip_hd]. destruct (skip_suffix r) as [q' E']. rewrite E' in Hzr. by apply Forall_app in Hzr as [_ ?].
  - rewrite Hq, Ha, !length_app. pose proof (skip_length r). destruct e; [done|]. cbn. lia.
Qed.

Lemma skipelem_spec_witness :
  let path := [47; 47; 97; 47; 47; 98; 98] in let name := replicate 14 1 in
  elems path = [[97]; [98; 98]] /\
  match elems path with
  | [] => skipelem path name = None
  | e :: es => exists rest name', skipelem path name = Some (rest, name') /\ elems rest = es /\ same_name name' e /\
      length name' = Z.to_nat DIRSIZ /\ (rest = [] <-> es = []) /\ hd0 rest <> 47 /\ (length rest < length path)%nat
  end.
Proof.
  intros path name. split; [by vm_compute|]. apply (skipelem_spec path name); [|reflexivity].
  repeat constructor; discriminate.
Defined.
