(* ===== verification/FsProps.v ===== *)
(** * The file system: the properties

    The block allocator, inodes and file contents on a small disk: the layout
    mkfs gives a disk of 2000 blocks, inside a transaction. *)

From stdpp Require Import base list gmap strings.
From Stdlib Require Import ZArith Lia.
From S2P Require Import Prelude Mem Riscv State Sched Bio Bcache Log Commit LogOps LogProps Uart Format Printf.
From S2P Require Import Fs FsTx FsAlloc FsFile FsInode FsDinode FsBmap FsWrite FsDir.
Open Scope Z_scope.

(** ** The sample disk *)

#[local] Opaque boot_bufs.

Definition sample_log : log := mk_log 2 30 1 false ROOTDEV (mk_logheader 0 (replicate 30 0)).
Definition fs_sample (D : gmap Z (list Z)) : kstate := set_k_log sample_log (set_k_sb sample_sb (set_k_disk D fs_boot)).

Definition disk_ok (D : gmap Z (list Z)) : Prop := map_Forall (fun _ d => is_block d) D.

Lemma sample_log_wf : log_wf sample_log.
Proof.
  split; try done; cbn; try lia.
  - apply NoDup_nil_2.
  - intros b H. by apply not_elem_of_nil in H.
Qed.

Lemma fs_sample_tx D n : disk_ok D -> 0 <= n <= 28 -> intx 0 init_proc [] n (fs_sample D).
Proof.
  intros HD Hn. split.
  - split; try done. cbn. lia.
  - exists boot_order. apply bio_ok_log, boot_bio; [done|]. intros bn d H. by apply (HD bn).
  - apply sample_log_wf.
  - done.
  - lia.
  - change (lh_n (lg_lh (k_log (fs_sample D)))) with 0. change (lg_size (k_log (fs_sample D))) with 30. unfold NBUF. lia.
  - intros bn. unfold ref. cbn [fs_sample k_bufs set_k_log set_k_sb set_k_disk fs_boot set_k_bufs]. by rewrite boot_cached.
  - intros bn _. unfold blk. cbn [fs_sample k_bufs set_k_log set_k_sb set_k_disk fs_boot set_k_bufs]. by rewrite boot_cached.
  - intros bn _. unfold lockedby. cbn [fs_sample k_bufs set_k_log set_k_sb set_k_disk fs_boot set_k_bufs]. by rewrite boot_cached.
  - apply NoDup_nil_2.
  - change (free_bufs (fs_sample D)) with (free_bufs fs_boot). rewrite free_boot. unfold NBUF. cbn. lia.
Qed.

Lemma fs_sample_blk D bn : blk (fs_sample D) bn = disk_get D bn.
Proof. unfold blk. cbn [fs_sample k_bufs set_k_log set_k_sb set_k_disk fs_boot set_k_bufs]. by rewrite boot_cached. Qed.

(** ** The block allocator *)

(** C21: [balloc] marks the lowest-numbered free block as in use, zeroes it, and changes no other block's mark or
    contents; on a full disk it reports that, returns 0 and changes no block. *)
Theorem balloc_spec p pr n s :
  intx p pr [] n s -> 2 <= n -> bmap_wf (k_sb s) -> bmap_free [] s -> meta_used s -> k_panicked s = false ->
  (exists fb s', 0 <= fb < sb_size (k_sb s) /\ used s fb = false /\ (forall b, 0 <= b < fb -> used s b = true) /\
     balloc ROOTDEV s = Ret fb s' /\ allocated s s' fb /\ intx p pr [] (n - 2) s') \/
  ((forall b, 0 <= b < sb_size (k_sb s) -> used s b = true) /\
   exists s', balloc ROOTDEV s = Ret 0 s' /\ same_blocks s s' /\
     ut_out (k_uart s') = ut_out (k_uart s) ++ chars "balloc: out of blocks" ++ [10]).
Proof.
  intros T Hn Hw Hbf Hm Hp. destruct (balloc_cases p pr [] n s) as [(fb & s' & H1 & H2 & H3 & R & A & T' & _)|(Hf & s' & R & B & _ & _ & _ & _ & O)]; try done.
  - intros y Hy. by apply not_elem_of_nil in Hy.
  - left. by exists fb, s'.
  - right. split; [done|]. by exists s'.
Qed.

(** A disk whose first 48 blocks are in use. *)
Definition sample_bitmap (m : nat) : list Z := replicate m 255 ++ replicate (1024 - m) 0.
Definition sample_disk (m : nat) : gmap Z (list Z) := {[45 := sample_bitmap m]}.

Lemma sample_bitmap_ok m : (m <= 1024)%nat -> is_block (sample_bitmap m).
Proof.
  intros Hm. split.
  - unfold sample_bitmap. rewrite length_app, !length_replicate. change BSIZE with 1024. lia.
  - apply Forall_app. split; apply Forall_replicate; lia.
Qed.

Lemma sample_disk_ok m : (m <= 1024)%nat -> disk_ok (sample_disk m).
Proof. intros Hm. apply map_Forall_singleton. by apply sample_bitmap_ok. Qed.

Lemma sample_bmap_wf : bmap_wf sample_sb.
Proof. split; vm_compute; done. Qed.

Lemma sample_is_bmap bn : is_bmap sample_sb bn -> bn = 45.
Proof.
  intros (b & Hb & ->). change (sb_size sample_sb) with 2000 in Hb. rewrite BBLOCK_eq; [|apply sample_bmap_wf|done].
  rewrite Z.div_small by (change BPB with 8192; lia). done.
Qed.

Lemma sample_bmap_free D : bmap_free [] (fs_sample D).
Proof.
  intros bn ->%sample_is_bmap. split; [|apply not_elem_of_nil]. split; [lia|]. unfold in_log. cbn. lia.
Qed.

Lemma sample_used D m b : D !! 45 = Some (sample_bitmap m) -> 0 <= b < 2000 -> used (fs_sample D) b = bit_set (sample_bitmap m) b.
Proof.
  intros HD Hb. unfold used. rewrite fs_sample_blk. change (k_sb (fs_sample D)) with sample_sb.
  rewrite (sample_is_bmap (BBLOCK b sample_sb)) by (by exists b). unfold disk_get. rewrite HD. cbn [default from_option id].
  by rewrite Z.mod_small by (change BPB with 8192; lia).
Qed.

Lemma sample_meta D m : D !! 45 = Some (sample_bitmap m) -> forallb (bit_set (sample_bitmap m)) (seqZ 0 46) = true -> meta_used (fs_sample D).
Proof.
  intros HD Hall b Hb Hm. change (sb_size _) with 2000 in Hb. rewrite (sample_used D m) by done.
  apply (proj1 (forallb_forall _ _) Hall). apply list_elem_of_In, elem_of_seqZ. destruct Hm as [->%sample_is_bmap|Hl]; [lia|]. unfold in_log in Hl. cbn in Hl. lia.
Qed.

Lemma balloc_spec_witness :
  let s := fs_sample (sample_disk 6) in
  (exists fb s', 0 <= fb < 2000 /\ used s fb = false /\ (forall b, 0 <= b < fb -> used s b = true) /\
     balloc ROOTDEV s = Ret fb s' /\ allocated s s' fb /\ intx 0 init_proc [] 8 s') \/
  ((forall b, 0 <= b < 2000 -> used s b = true) /\
   exists s', balloc ROOTDEV s = Ret 0 s' /\ same_blocks s s' /\
     ut_out (k_uart s') = ut_out (k_uart s) ++ chars "balloc: out of blocks" ++ [10]).
Proof.
  intros s. apply (balloc_spec 0 init_proc 10 s).
  - apply fs_sample_tx; [apply sample_disk_ok|]; lia.
  - lia.
  - apply sample_bmap_wf.
  - apply sample_bmap_free.
  - by apply (sample_meta _ 6).
  - reflexivity.
Defined.

(** [bfree] clears the mark of exactly the given block and changes no other block, and panics when the block is
    not in use. *)
Theorem bfree_spec p pr n s b :
  intx p pr [] n s -> 1 <= n -> bmap_wf (k_sb s) -> bmap_free [] s -> 0 <= b < sb_size (k_sb s) ->
  exists s', if used s b then bfree ROOTDEV b s = Ret tt s' /\ freed s s' b
             else bfree ROOTDEV b s = Stop (SPanic "freeing free block") s'.
Proof.
  intros T Hn Hw Hbf Hb. destruct (used s b) eqn:Hu.
  - destruct (bfree_ok p pr [] n s b) as (s' & R & _ & F & _); try done. by exists s'.
  - destruct (bfree_panic p pr [] n s b) as (s' & R); try done. by exists s'.
Qed.

Lemma bfree_spec_witness :
  let s := fs_sample (sample_disk 6) in used s 46 = true /\
  exists s', if used s 46 then bfree ROOTDEV 46 s = Ret tt s' /\ freed s s' 46
             else bfree ROOTDEV 46 s = Stop (SPanic "freeing free block") s'.
Proof.
  intros s. split; [unfold s; rewrite (sample_used _ 6) by (done || lia); by vm_compute|]. apply (bfree_spec 0 init_proc 10 s).
  - apply fs_sample_tx; [apply sample_disk_ok|]; lia.
  - lia.
  - apply sample_bmap_wf.
  - apply sample_bmap_free.
  - change (sb_size (k_sb s)) with 2000. lia.
Defined.

(** ** Inodes *)

(** C19: The inode table counts references.  Getting an inode returns the one entry it has, or makes one, and adds one
    reference to that inode and none to any other; [idup] adds one, [iput] takes one away (here while others remain or
    links exist, so the file stays).  No inode ever has two entries.  [iget] gives up only when the inode has no entry
    and every entry is in use. *)
Theorem inode_references s :
  itable_ok (k_inodes s) -> L_itable ∉ k_held s ->
  (forall dev inum,
     (exists i ip, iget dev inum s = Ret i (upd_inode i ip s) /\ entry_for dev inum ip /\
        itable_ok (<[i := ip]> (k_inodes s)) /\ refs_plus (k_inodes s) (<[i := ip]> (k_inodes s)) dev inum 1) \/
     (refs (k_inodes s) dev inum = 0 /\ Forall (fun ip => 0 < i_ref ip) (k_inodes s) /\
      exists s', iget dev inum s = Stop (SPanic "iget: no inodes") s')) /\
  (forall i a, k_inodes s !! i = Some a -> 0 < i_ref a ->
     exists s', idup i s = Ret i s' /\ itable_ok (k_inodes s') /\
       refs_plus (k_inodes s) (k_inodes s') (i_dev a) (i_inum a) 1) /\
  (forall i a, k_inodes s !! i = Some a -> 0 < i_ref a -> (i_ref a =? 1) && i_valid a && (i_nlink a =? 0) = false ->
     exists s', iput i s = Ret tt s' /\ itable_ok (k_inodes s') /\
       refs_plus (k_inodes s) (k_inodes s') (i_dev a) (i_inum a) (-1)).
Proof.
  intros Hok Hh. split_and!.
  - intros dev inum. by apply iget_counts.
  - intros i a Ha Hr. destruct (idup_counts s i a Hok Hh Ha Hr) as (s' & R & _ & H1 & H2). by exists s'.
  - intros i a Ha Hr Hc. destruct (iput_counts s i a Hok Hh Ha Hr Hc) as (s' & R & _ & H1 & H2). by exists s'.
Qed.

(** A file of 1500 bytes in blocks 46 and 47, and a directory with three entries, one of them unused. *)
Definition sample_file : inode := mk_inode ROOTDEV 5 1 sleeplock0 true T_FILE 0 0 1 1500 (46 :: 47 :: replicate 11 0).
Definition sample_dir : inode := mk_inode ROOTDEV 1 1 (mk_sleeplock true 1) true T_DIR 0 0 1 48 (48 :: replicate 12 0).
Definition sample_name (l : list Z) : list Z := l ++ replicate (14 - length l) 0.
Definition sample_entries : list Z :=
  ([1; 0] ++ sample_name [46]) ++ ([0; 0] ++ sample_name [97]) ++ ([5; 0] ++ sample_name [97]).
Definition sample_blocks : gmap Z (list Z) :=
  {[45 := sample_bitmap 7; 46 := replicate 1024 7; 48 := sample_entries ++ replicate 976 0]}.
Definition file_sample : kstate :=
  set_k_inodes (sample_file :: sample_dir :: replicate 48 inode0) (fs_sample sample_blocks).

Lemma sample_blocks_ok : disk_ok sample_blocks.
Proof.
  apply map_Forall_insert_2; [by apply sample_bitmap_ok; lia|]. apply map_Forall_insert_2; [split; [done|apply Forall_replicate; lia]|].
  apply map_Forall_singleton. split; [done|]. apply Forall_app. split; [|apply Forall_replicate; lia].
  repeat constructor; vm_compute; done.
Qed.

Lemma file_sample_tx n : 0 <= n <= 28 -> intx 0 init_proc [] n file_sample.
Proof. intros Hn. apply intx_inodes, fs_sample_tx; [apply sample_blocks_ok|done]. Qed.

Lemma file_sample_table : itable_ok (k_inodes file_sample).
Proof.
  assert (Hfree : forall j c, k_inodes file_sample !! j = Some c -> 0 < i_ref c -> (j = 0%nat /\ c = sample_file) \/ (j = 1%nat /\ c = sample_dir)).
  { intros [|[|j]] c H Hc; [left|right|]; try by (cbn in H; simplify_eq).
    change (replicate 48 inode0 !! j = Some c) in H. apply lookup_replicate in H as [-> _]. cbn in Hc. lia. }
  split; [done| |].
  - apply Forall_cons; split; [done|]. apply Forall_cons; split; [done|]. by apply Forall_replicate.
  - intros i j a b Ha Hb Hr (He1 & He2 & He3).
    destruct (Hfree i a Ha Hr) as [[-> ->]|[-> ->]], (Hfree j b Hb He1) as [[-> ->]|[-> ->]]; done.
Qed.

Lemma inode_references_witness :
  let s := file_sample in
  (forall dev inum,
     (exists i ip, iget dev inum s = Ret i (upd_inode i ip s) /\ entry_for dev inum ip /\
        itable_ok (<[i := ip]> (k_inodes s)) /\ refs_plus (k_inodes s) (<[i := ip]> (k_inodes s)) dev inum 1) \/
     (refs (k_inodes s) dev inum = 0 /\ Forall (fun ip => 0 < i_ref ip) (k_inodes s) /\
      exists s', iget dev inum s = Stop (SPanic "iget: no inodes") s')) /\
  (exists s', idup 0 s = Ret 0%nat s' /\ itable_ok (k_inodes s') /\ refs_plus (k_inodes s) (k_inodes s') ROOTDEV 5 1) /\
  (exists s', iput 0 s = Ret tt s' /\ itable_ok (k_inodes s') /\ refs_plus (k_inodes s) (k_inodes s') ROOTDEV 5 (-1)).
Proof.
  intros s. destruct (inode_references s file_sample_table) as (H1 & H2 & H3); [apply not_elem_of_nil|].
  split_and!; [exact H1|by apply (H2 0%nat sample_file)|by apply (H3 0%nat sample_file)].
Defined.

(** ** Files *)

(** [readi] returns the file's bytes from the offset on, as many as asked for or as there are before the end of the
    file, and none when the offset is beyond the end or the range wraps around; no block changes. *)
Theorem readi_spec p pr n s i ip off cnt :
  intx p pr [] n s -> k_inodes s !! i = Some ip -> file_ok s ip -> 0 <= off < 2 ^ 32 -> 0 <= cnt < 2 ^ 32 ->
  let k := if (i_size ip <? off) || (2 ^ 32 <=? off + cnt) then 0 else Z.min cnt (i_size ip - off) in
  exists s', readi_local i off cnt s = Ret (k, fbytes s ip off (Z.to_nat k)) s' /\ same_blocks s s' /\ intx p pr [] n s'.
Proof.
  intros T Hi Hf Ho Hc k. destruct (readi_local_ok p pr n s i ip off cnt T Hi Hf Ho Hc) as (s' & R & [T' B' _ _]). by exists s'.
Qed.

Lemma file_sample_ok : file_ok file_sample sample_file.
Proof.
  split; [done..|]. intros bn H0 Hb. cbn [sample_file i_size] in Hb. change BSIZE with 1024 in Hb.
  assert (bn = 0 \/ bn = 1) as [->| ->] by lia; done.
Qed.

Lemma readi_spec_witness :
  exists s', readi_local 0 1000 100 file_sample = Ret (100, fbytes file_sample sample_file 1000 100) s' /\
    same_blocks file_sample s' /\ intx 0 init_proc [] 10 s'.
Proof.
  apply (readi_spec 0 init_proc 10 file_sample 0 sample_file 1000 100).
  - apply file_sample_tx. lia.
  - reflexivity.
  - apply file_sample_ok.
  - lia.
  - lia.
Defined.

Lemma file_sample_block x : 32 <= x < 2 ^ 31 -> fs_block file_sample x.
Proof. intros Hx. split; [lia|]. unfold in_log. cbn. lia. Qed.

Lemma file_sample_used b : 0 <= b < 56 -> used file_sample b = true.
Proof.
  assert (Hall : forallb (bit_set (sample_bitmap 7)) (seqZ 0 56) = true) by (by vm_compute).
  intros Hb. change (used file_sample b) with (used (fs_sample sample_blocks) b). rewrite (sample_used _ 7) by (done || lia).
  apply (proj1 (forallb_forall _ _) Hall). apply list_elem_of_In, elem_of_seqZ. lia.
Qed.

Lemma file_sample_alloc : alloc_ok file_sample.
Proof.
  assert (Hall : forallb (bit_set (sample_bitmap 7)) (seqZ 0 46) = true) by (by vm_compute).
  split; [apply sample_bmap_wf|exact (sample_bmap_free sample_blocks)|exact (sample_meta sample_blocks 7 eq_refl Hall)|apply file_sample_used; lia|reflexivity].
Qed.

Lemma file_sample_data b : b ∈ [32; 46; 47] -> data_block file_sample b.
Proof.
  intros Hb. assert (Hr : 32 <= b < 48 /\ b <> 45) by (rewrite !elem_of_cons, elem_of_nil in Hb; lia).
  split; [change (sb_size _) with 2000; lia|]. split; [apply file_sample_block; lia|]. split; [intros ->%sample_is_bmap; lia|apply file_sample_used; lia].
Qed.

(** The file has its two blocks and no others. *)
Lemma file_sample_addr bn : 0 <= bn -> faddr file_sample sample_file bn = if bn =? 0 then 46 else if bn =? 1 then 47 else 0.
Proof.
  intros Hb. unfold faddr. destruct (Z.ltb_spec bn NDIRECT) as [Hlt|Hge]; change NDIRECT with 12 in *.
  - assert (E : forall k, (k < 12)%nat -> default 0 (i_addrs sample_file !! k) = if (k =? 0)%nat then 46 else if (k =? 1)%nat then 47 else 0).
    { intros [|[|k]] Hk; [done..|]. change (i_addrs sample_file !! S (S k)) with (replicate 11 0 !! k). by rewrite lookup_replicate_2 by lia. }
    rewrite E by lia. destruct (Z.eqb_spec bn 0) as [->|]; [done|]. destruct (Z.eqb_spec bn 1) as [->|]; [done|].
    by rewrite (proj2 (Nat.eqb_neq _ 0)), (proj2 (Nat.eqb_neq _ 1)) by lia.
  - rewrite (proj2 (Z.eqb_neq bn 0)), (proj2 (Z.eqb_neq bn 1)) by lia. done.
Qed.

Lemma file_sample_map : mappable 0 32 file_sample sample_file.
Proof.
  split; [done|done|apply file_sample_alloc|apply file_sample_data; set_solver|]. split; [done| | |done].
  - intros bn Hb. rewrite file_sample_addr by lia. change (indirect sample_file) with 0.
    destruct (bn =? 0); [|destruct (bn =? 1)]; try done; (split; [apply file_sample_data; set_solver|done]).
  - intros bn bn' Hb Hb'. rewrite !file_sample_addr by lia. destruct (Z.eqb_spec bn 0), (Z.eqb_spec bn' 0), (Z.eqb_spec bn 1), (Z.eqb_spec bn' 1); lia.
Qed.

Lemma writei_readi_witness :
  let s := file_sample in let bs := replicate 3000 9 in
  exists r s' ip' s'', writei_local 0 bs 1400 s = Ret r s' /\ 0 <= r <= 3000 /\ (r = 3000 \/ disk_full s') /\
    k_inodes s' = <[0%nat := ip']> (k_inodes s) /\ ip' = set_i_size (Z.max (i_size sample_file) (1400 + r)) (set_i_addrs (i_addrs ip') sample_file) /\
    mappable 0 32 s' ip' /\ file_ok s' ip' /\ blk s' 32 = put_dinode ip' (blk s 32) /\
    (forall k, 0 <= k < i_size sample_file -> ~ (1400 <= k < 1400 + r) -> fbyte s' ip' k = fbyte s sample_file k) /\
    readi_local 0 1400 r s' = Ret (r, take (Z.to_nat r) bs) s''.
Proof.
  intros s bs. assert (HN : Z.of_nat (length bs) = 3000) by (unfold bs; by rewrite length_replicate).
  pose proof (writei_readi 0 init_proc 0 32 20 s sample_file bs 1400) as H. cbv zeta in H. rewrite HN in H. apply H.
  - apply file_sample_tx. lia.
  - apply file_sample_map.
  - apply file_sample_ok.
  - reflexivity.
  - cbn. lia.
  - apply Forall_replicate. lia.
  - lia.
  - lia.
  - vm_compute. done.
Defined.

Lemma sample_file_dinode : dinode_ok sample_file.
Proof.
  split; cbn [sample_file i_type i_major i_minor i_nlink i_size i_addrs]; try (unfold T_FILE; lia); [done|].
  apply Forall_cons; split; [lia|]. apply Forall_cons; split; [lia|]. apply Forall_replicate. lia.
Qed.

Lemma inode_roundtrip_witness :
  let s := file_sample in
  exists s1 s2 ip', iupdate 0 s = Ret tt s1 /\ (forall b, b <> IBLOCK 5 sample_sb -> blk s1 b = blk s b) /\
    ilock (Some 0%nat) (upd_inode 0 (recycled ROOTDEV 5 inode0) s1) = Ret tt s2 /\ k_inodes s2 !! 0%nat = Some ip' /\
    same_file sample_file ip' /\ same_blocks s1 s2.
Proof.
  intros s. apply (inode_roundtrip 0 init_proc 10 s 0 sample_file (recycled ROOTDEV 5 inode0)).
  - apply file_sample_tx. lia.
  - lia.
  - reflexivity.
  - reflexivity.
  - cbn. lia.
  - apply sample_file_dinode.
  - discriminate.
  - apply file_sample_block. vm_compute. done.
  - split_and!; reflexivity.
  - reflexivity.
  - reflexivity.
Defined.

Lemma sample_dir_ok : dir_ok file_sample sample_dir.
Proof.
  split; [|done]. split; [done..|]. intros bn H0 Hb. cbn [sample_dir i_size] in Hb. change BSIZE with 1024 in Hb.
  assert (bn = 0) as -> by lia. done.
Qed.

Lemma dirlookup_spec_witness :
  let s := file_sample in let name := sample_name [97] in
  (i_type sample_dir = T_DIR ->
   (exists k s', 0 <= k < nentries sample_dir /\ names s sample_dir name k /\
      (forall j, 0 <= j < k -> ~ names s sample_dir name j) /\
      looked 0 init_proc 10 s s' /\ dir_hit s' sample_dir (de_inum (dirent s sample_dir k)) k (dirlookup 1 name s)) \/
   ((forall j, 0 <= j < nentries sample_dir -> ~ names s sample_dir name j) /\
    exists s', dirlookup 1 name s = Ret None s' /\ looked 0 init_proc 10 s s')) /\
  (i_type sample_dir <> T_DIR -> dirlookup 1 name s = Stop (SPanic "dirlookup not DIR") s).
Proof.
  intros s name. apply (dirlookup_spec 0 init_proc 10 s 1 sample_dir name).
  - apply file_sample_tx. lia.
  - reflexivity.
  - apply sample_dir_ok.
  - apply file_sample_table.
  - repeat constructor; lia.
Defined.
