(* ===== verification/Usys.v ===== *)
(** * User programs and their system calls

    A program of user/ is a tree: it computes, makes a system call and goes on
    with the reply, exits, faults (C leaves what it does undefined), or returns a
    value to its caller.  [run] gives it a
    kernel, the class [Kernel]; what a program needs to know of the kernel is a
    class of its own, such as [Stdio]. *)

From stdpp Require Import base list gmap strings.
From Stdlib Require Import ZArith Lia.
From S2P Require Import Prelude.
Open Scope Z_scope.

(** ** user/user.h: system calls *)

(** An argument of a call made with addresses of the program's choosing: a
    number or an address as it is, a string or an array of pointers the program
    has in its memory. *)
Inductive rarg := RNum (v : Z) | RStr (s : list Z) | RVec (l : list (Z + list Z)).

Inductive call :=
| CRead (fd n : Z) | CWrite (fd : Z) (bs : list Z) | COpen (path : list Z) (mode : Z) | CClose (fd : Z) | CFstat (fd : Z)
| CDup (fd : Z) | CPipe | CFork | CExec (path : list Z) (argv : list (list Z)) | CWait | CKill (pid : Z) | CChdir (path : list Z)
| CMkdir (path : list Z) | CMknod (path : list Z) (major minor : Z) | CLink (old new : list Z) | CUnlink (path : list Z)
| CSleep (n : Z) | CSbrk (n : Z) | CGetpid | CPgpte (va : Z) | CKpgtbl | CPgaccess (start_va numpages : Z)
| CRaw (num : Z) (args : list rarg)   (** call number [num] with these register arguments *)
| CLoad (addr : Z) | CStore (addr v : Z).

(** The value returned, the bytes stored through a pointer argument, and for
    [pipe], [fstat], [wait] (the status) and [pgaccess] (the mask) the numbers
    stored.  [CLoad] and [CStore] are accesses to a byte of the program's own
    memory that may trap: the reply has the byte in [r_nums], or nothing there if
    the kernel stops the process, whose status is then -1. *)
Record reply := mk_reply { r_val : Z; r_bytes : list Z; r_nums : list Z }.
Definition val (v : Z) : reply := mk_reply v [] [].

(** ** Programs *)

Inductive prog (A : Type) :=
| PRet (a : A)
| PExit (status : Z)
| PFuel
| PFault
| PSys (c : call) (k : reply -> prog A).
Arguments PRet {A} a.
Arguments PExit {A} status.
Arguments PFuel {A}.
Arguments PFault {A}.
Arguments PSys {A} c k.

Fixpoint pbind {A B} (f : A -> prog B) (p : prog A) : prog B :=
  match p with
  | PRet a => f a
  | PExit n => PExit n
  | PFuel => PFuel
  | PFault => PFault
  | PSys c k => PSys c (fun r => pbind f (k r))
  end.
#[global] Instance prog_ret : MRet prog := fun A a => PRet a.
#[global] Instance prog_bind : MBind prog := fun A B f p => pbind f p.

Definition sys (c : call) : prog reply := PSys c PRet.
Definition sysv (c : call) : prog Z := PSys c (fun r => PRet (r_val r)).
Definition exit {A} (status : Z) : prog A := PExit status.
Definition load (addr : Z) : prog Z := r ← sys (CLoad addr); match r_nums r with [v] => mret v | _ => exit (-1) end.
Definition store (addr v : Z) : prog unit := r ← sys (CStore addr v); match r_nums r with [_] => mret tt | _ => exit (-1) end.

(** C loops, as in [Prelude.v]. *)
Fixpoint ploop {A B} (fuel : nat) (step : A -> prog (A + B)) (a : A) : prog B :=
  match fuel with
  | O => PFuel
  | S n => r ← step a; match r with inl a' => ploop n step a' | inr b => mret b end
  end.
Fixpoint pfor_each {A} (l : list A) (body : A -> prog unit) : prog unit :=
  match l with
  | [] => mret tt
  | x :: l' => body x ;; pfor_each l' body
  end.

(** ** Running *)

Class Kernel := { World : Type; kcall : call -> World -> reply * World }.

Inductive result (A : Type) := Val (a : A) | Exited (status : Z) | OutOfFuel | Faulted.
Arguments Val {A} a.
Arguments Exited {A} status.
Arguments OutOfFuel {A}.
Arguments Faulted {A}.

Fixpoint run `{Kernel} {A} (p : prog A) (w : World) : result A * World :=
  match p with
  | PRet a => (Val a, w)
  | PExit n => (Exited n, w)
  | PFuel => (OutOfFuel, w)
  | PFault => (Faulted, w)
  | PSys c k => let (r, w') := kcall c w in run (k r) w'
  end.

Section Run.
Context `{Kernel}.

Lemma run_bind {A B} (f : A -> prog B) p w a w' : run p w = (Val a, w') -> run (mbind f p) w = run (f a) w'.
Proof.
  revert w. induction p as [x|n| | |c k IH]; intros w E; cbn in *; try done; [by simplify_eq|].
  destruct (kcall c w) as [r w1]. by apply IH.
Qed.

Lemma run_bind_exit {A B} (f : A -> prog B) p w n w' : run p w = (Exited n, w') -> run (mbind f p) w = (Exited n, w').
Proof.
  revert w. induction p as [x|m| | |c k IH]; intros w E; cbn in *; try done; [by simplify_eq|].
  destruct (kcall c w) as [r w1]. by apply IH.
Qed.

Lemma run_sys c w r w' : kcall c w = (r, w') -> run (sys c) w = (Val r, w').
Proof. intros E. cbn. by rewrite E. Qed.

Lemma run_sysv c w r w' : kcall c w = (r, w') -> run (sysv c) w = (Val (r_val r), w').
Proof. intros E. cbn. by rewrite E. Qed.

Lemma ploop_continue {A B} n (step : A -> prog (A + B)) a w a' w' :
  run (step a) w = (Val (inl a'), w') -> run (ploop (S n) step a) w = run (ploop n step a') w'.
Proof. intros E. cbn [ploop]. by rewrite (run_bind _ _ _ _ _ E). Qed.

Lemma ploop_break {A B} n (step : A -> prog (A + B)) a w b w' :
  run (step a) w = (Val (inr b), w') -> run (ploop (S n) step a) w = (Val b, w').
Proof. intros E. cbn [ploop]. by rewrite (run_bind _ _ _ _ _ E). Qed.

Lemma ploop_exit {A B} n (step : A -> prog (A + B)) a w m w' :
  run (step a) w = (Exited m, w') -> run (ploop (S n) step a) w = (Exited m, w').
Proof. intros E. cbn [ploop]. by apply run_bind_exit. Qed.
End Run.

(** One operation of a program's run. *)
Ltac pstep_by H := erewrite run_bind; [|eapply H]; cbn beta iota.

(** ** Reading and writing

    What read and write promise on a file that is only read and one that is only
    written: a read returns some of what is left, nothing only at the end or when
    asked for nothing; a
    write appends all its bytes. *)
Class Stdio `{Kernel} := {
  input : World -> Z -> list Z;
  output : World -> Z -> list Z;
  read_ok : forall w fd n, 0 <= n -> exists k w',
    kcall (CRead fd n) w = (mk_reply (Z.of_nat k) (take k (input w fd)) [], w') /\
    (k <= length (input w fd))%nat /\ Z.of_nat k <= n /\ (0 < n -> input w fd <> [] -> (0 < k)%nat) /\
    (forall fd', input w' fd' = if decide (fd' = fd) then drop k (input w fd) else input w fd') /\
    (forall fd', output w' fd' = output w fd');
  write_ok : forall w fd bs, exists w',
    kcall (CWrite fd bs) w = (val (Z.of_nat (length bs)), w') /\
    (forall fd', input w' fd' = input w fd') /\
    (forall fd', output w' fd' = if decide (fd' = fd) then output w fd ++ bs else output w fd')
}.

(** A kernel with one input file for every descriptor and one output file per
    descriptor, which hands out [chunk] bytes at a time. *)
Record tape := mk_tape { t_in : gmap Z (list Z); t_out : gmap Z (list Z); t_chunk : nat }.
Definition tape_in (w : tape) (fd : Z) : list Z := default [] (t_in w !! fd).
Definition tape_out (w : tape) (fd : Z) : list Z := default [] (t_out w !! fd).

Definition tape_call (c : call) (w : tape) : reply * tape :=
  match c with
  | CRead fd n =>
      let k := Nat.min (Nat.min (S (t_chunk w)) (Z.to_nat n)) (length (tape_in w fd)) in
      (mk_reply (Z.of_nat k) (take k (tape_in w fd)) [], mk_tape (<[fd := drop k (tape_in w fd)]> (t_in w)) (t_out w) (t_chunk w))
  | CWrite fd bs => (val (Z.of_nat (length bs)), mk_tape (t_in w) (<[fd := tape_out w fd ++ bs]> (t_out w)) (t_chunk w))
  | COpen path mode => (val 3, w)
  | _ => (val 0, w)
  end.

Instance tape_kernel : Kernel := { World := tape; kcall := tape_call }.

#[refine] Instance tape_stdio : Stdio := { input := tape_in; output := tape_out }.
Proof.
  - intros w fd n Hn. eexists _, _. split; [reflexivity|]. split_and!; [lia|lia| | |done].
    + intros Hn' Hne. destruct (tape_in w fd) as [|b l]; [done|]. cbn [length]. lia.
    + intros fd'. unfold tape_in at 1. cbn [t_in]. rewrite lookup_insert. repeat case_decide; subst; done.
  - intros w fd bs. eexists. split; [reflexivity|]. split; [done|].
    intros fd'. unfold tape_out at 1. cbn [t_out]. rewrite lookup_insert. repeat case_decide; subst; done.
Defined.

(** A kernel with such files in a part [tp] of its state. *)
#[refine] Definition stdio_of {K : Kernel} (tp : World -> tape) (up : World -> tape -> World)
    (Htp : forall w t, tp (up w t) = t)
    (Hr : forall w fd n, kcall (CRead fd n) w = let (r, t) := tape_call (CRead fd n) (tp w) in (r, up w t))
    (Hw : forall w fd bs, kcall (CWrite fd bs) w = let (r, t) := tape_call (CWrite fd bs) (tp w) in (r, up w t)) : Stdio :=
  {| input w := tape_in (tp w); output w := tape_out (tp w) |}.
Proof.
  - intros w fd n Hn. destruct (@read_ok _ tape_stdio (tp w) fd n Hn) as (k & t & R & H). exists k, (up w t).
    rewrite Hr, Htp. change tape_call with (@kcall tape_kernel). by rewrite R.
  - intros w fd bs. destruct (@write_ok _ tape_stdio (tp w) fd bs) as (t & R & H). exists (up w t).
    rewrite Hw, Htp. change tape_call with (@kcall tape_kernel). by rewrite R.
Defined.
