(* ===== verification/Ulib.v ===== *)
(** * user/ulib.c

    The user library.  The [str*] functions work on the characters from the
    pointer on, the [mem*] functions on memory; [gets], [stat] and the wrapper
    around [main] make system calls. *)

From stdpp Require Import base list gmap strings.
From Stdlib Require Import ZArith Lia.
From S2P Require Import Prelude Mem KString Riscv State Kalloc Vm PtRep Uvm Uspace CopyUser VmProps Format Usys.
Open Scope Z_scope.

Module Ulib.

(** ** user/printf.c: printing to a descriptor *)

Definition putc (fd c : Z) : prog unit := sys (CWrite fd [c]) ;; mret tt.
Definition fprintf (fd : Z) (fmt : list Z) (args : list arg) : prog unit :=
  match UPrintf.vprintf fmt args with
  | Some out => pfor_each out (putc fd)
  | None => PFault
  end.
Definition printf (fmt : list Z) (args : list arg) : prog unit := fprintf 1 fmt args.

(** ** user/ulib.c *)

Definition start (main : prog Z) : prog Z := main ;; exit 0.

(** The bytes written, the NUL included. *)
Fixpoint strcpy (t : list Z) : list Z :=
  match t with
  | [] => [0]
  | c :: t' => if c =? 0 then [0] else c :: strcpy t'
  end.

Fixpoint strcmp (p q : list Z) : Z :=
  match p with
  | c :: p' => if negb (c =? 0) && (c =? hd0 q) then strcmp p' (tail q) else u8 c - u8 (hd0 q)
  | [] => u8 0 - u8 (hd0 q)
  end.

Fixpoint strlen (s : list Z) : Z :=
  match s with
  | [] => 0
  | c :: s' => if c =? 0 then 0 else 1 + strlen s'
  end.

(** [for(i = 0; i < n; i++) cdst[i] = c;] *)
Definition memset (m : mem) (dst c n : Z) : mem := memset_loop m dst c (Z.to_nat n) 0.

(** How far from [s] the character is. *)
Fixpoint strchr (s : list Z) (c : Z) : option nat :=
  match s with
  | [] => None
  | x :: s' => if x =? 0 then None else if x =? c then Some O else S <$> strchr s' c
  end.

(** One turn of [gets]' loop; [i] characters are in [buf]. *)
Definition gets_step (max : Z) (buf : list Z) : prog (list Z + list Z) :=
  let i := Z.of_nat (length buf) in
  if i + 1 <? max then
    r ← sys (CRead 0 1);
    if r_val r <? 1 then mret (inr buf) else
    let c := hd0 (r_bytes r) in
    let buf := buf ++ [c] in
    if (c =? 10) || (c =? 13) then mret (inr buf) else mret (inl buf)
  else mret (inr buf).
(** The string in [buf]. *)
Definition gets (max : Z) : prog (list Z) := ploop (S (Z.to_nat max)) (gets_step max) [].

(** The fields of [struct stat] that [fstat] stores: dev, ino, type, nlink, size. *)
Definition stat (n : list Z) : prog (Z * list Z) :=
  fd ← sysv (COpen n 0);
  if fd <? 0 then mret (-1, []) else
  r ← sys (CFstat fd);
  sys (CClose fd) ;;
  mret (r_val r, r_nums r).

(** [n] is an [int]; overflow wraps on the machine. *)
Fixpoint atoi_loop (s : list Z) (n : Z) : Z :=
  match s with
  | c :: s' => if (48 <=? c) && (c <=? 57) then atoi_loop s' (s32 (n * 10 + c - 48)) else n
  | [] => n
  end.
Definition atoi (s : list Z) : Z := atoi_loop s 0.

(** Copies upwards or downwards by the order of the pointers alone. *)
Definition memmove (m : mem) (vdst vsrc n : Z) : mem :=
  if vdst <? vsrc then memmove_up m vdst vsrc (Z.to_nat n)
  else memmove_down m (vdst + n) (vsrc + n) (Z.to_nat n).

Fixpoint memcmp (m : mem) (s1 s2 : Z) (n : nat) : Z :=
  match n with
  | O => 0
  | S n => if negb (mget m s1 =? mget m s2) then mget m s1 - mget m s2 else memcmp m (s1 + 1) (s2 + 1) n
  end.

Definition memcpy (m : mem) (dst src n : Z) : mem := memmove m dst src n.

(** kernel/memlayout.h: a page shared with the kernel, [struct usyscall] at its start. *)
Definition USYSCALL : Z := TRAPFRAME - PGSIZE.
(** [u->pid]: what user code reads through its page table; [None] is a page fault. *)
Definition ugetpid (m : mem) (t : ptree) : option Z := bs ← ubytes m t USYSCALL 4; Some (s32 (le_val bs)).

(** ** Properties *)

(** The user library's [memmove], which picks its direction by the order of the pointers, and the kernel's, which
    looks for an overlap, leave the same memory for every overlap. *)
Theorem memmove_equiv m dst src n x :
  0 <= n -> mget (memmove m dst src n) x = mget (KString.memmove m dst src n) x.
Proof.
  intros Hn. rewrite mget_memmove by done. unfold memmove. destruct (Z.ltb_spec dst src).
  - by rewrite mget_memmove_up, Z2Nat.id by lia.
  - rewrite mget_memmove_down, Z2Nat.id by lia. replace (dst + n - n) with dst by lia.
    by replace (src + n + (x - (dst + n))) with (src + (x - dst)) by lia.
Qed.

Lemma memmove_equiv_witness :
  mget (memmove (mset ∅ 5 65) 6 5 3) 6 = mget (KString.memmove (mset ∅ 5 65) 6 5 3) 6 /\ mget (memmove (mset ∅ 5 65) 6 5 3) 6 = 65.
Proof. split; [apply (memmove_equiv (mset ∅ 5 65) 6 5 3 6); lia|by vm_compute]. Defined.

(** No page is mapped at USYSCALL in a process whose memory ends below it (the kernel maps none): [ugetpid] faults. *)
Theorem ugetpid_faults {L : Layout} `{!LayoutOk L} s root A sz :
  as_ok s root A -> um_cov (a_um A) sz -> sz <= USYSCALL -> ugetpid (k_mem s) (a_tree A) = None.
Proof.
  intros Hok Hc Hsz. unfold ugetpid. rewrite ubyte_None; [done| |lia]. change (PGROUNDDOWN USYSCALL) with USYSCALL.
  pose proof (as_pte _ _ _ Hok USYSCALL ltac:(unfold USYSCALL; vlia) eq_refl) as Hp.
  destruct (a_um A !! USYSCALL) as [x|] eqn:E.
  - destruct (proj1 (Hc USYSCALL)) as [? _]; [by eexists|lia].
  - unfold uaddr. by rewrite Hp, andb_false_r.
Qed.

Lemma ugetpid_faults_witness : exists t, ugetpid (k_mem grown) t = None.
Proof.
  destruct grown_ok as (t & l & um & Hok & Hc & _). exists t.
  apply (ugetpid_faults (L := xv6_layout) grown (pg 0) (mk_aspace t l um []) 4096 Hok Hc). by vm_compute.
Defined.

Lemma strchr_Some s c i : strchr s c = Some i ->
  s !! i = Some c /\ c <> 0 /\ Forall (fun x => x <> 0 /\ x <> c) (take i s).
Proof.
  revert i. induction s as [|x s IH]; intros i H; [done|]. cbn in H.
  destruct (Z.eqb_spec x 0); [done|]. destruct (Z.eqb_spec x c) as [->|Hne]; [by simplify_eq|].
  apply fmap_Some in H as (j & Hj & ->). destruct (IH j Hj) as (H1 & H2 & H3). split_and!; [done|done|]. by constructor.
Qed.

Lemma strchr_None s c : strchr s c = None -> Forall (fun x => x <> 0) s -> Forall (fun x => x <> c) s.
Proof.
  induction s as [|x s IH]; intros H Hz; [done|]. apply Forall_cons in Hz as [Hx Hz]. cbn in H.
  rewrite (proj2 (Z.eqb_neq x 0)) in H by done. destruct (Z.eqb_spec x c); [done|]. apply fmap_None in H. constructor; auto.
Qed.

Lemma run_fprintf `{Kernel} {IO : Stdio} fd fmt args out w :
  UPrintf.vprintf fmt args = Some out ->
  exists w', run (fprintf fd fmt args) w = (Val tt, w') /\ (forall f, input w' f = input w f) /\
    (forall f, output w' f = if decide (f = fd) then output w fd ++ out else output w f).
Proof.
  intros E. unfold fprintf. rewrite E. clear E. revert w. induction out as [|c out IH]; intros w.
  - exists w. split_and!; [done|done|]. intros f. case_decide; [subst; by rewrite app_nil_r|done].
  - destruct (write_ok w fd [c]) as (w1 & R1 & I1 & O1). destruct (IH w1) as (w2 & R2 & I2 & O2). exists w2. split_and!.
    + cbn [pfor_each]. rewrite (run_bind _ _ w tt w1); [done|]. unfold putc. by pstep_by (run_sys _ _ _ _ R1).
    + intros f. by rewrite I2, I1.
    + intros f. rewrite O2, !O1. rewrite (decide_True (P := fd = fd)) by done. case_decide; [by rewrite <- app_assoc|done].
Qed.
End Ulib.
