(* ===== verification/Grep.v ===== *)
(** * user/grep.c

    The matcher against the language of the pattern, and the line-by-line
    search.  A string is the list of its characters, without the NUL. *)

From stdpp Require Import base list gmap strings.
From Stdlib Require Import ZArith Lia.
From S2P Require Import Prelude KString Format Usys Ulib.
Open Scope Z_scope.

Module Grep.

(** ** The matcher *)

Section Star.
(** [matchhere(re, .)] *)
Variable here : list Z -> bool.
Fixpoint matchstar (c : Z) (text : list Z) : bool :=
  if here text then true else
  match text with
  | [] => false
  | t :: text' => if (t =? c) || (c =? 46) then matchstar c text' else false
  end.
End Star.

Fixpoint matchhere (re text : list Z) : bool :=
  match re with
  | [] => true
  | c :: re1 =>
      let one :=
        if (c =? 36) && bool_decide (re1 = []) then bool_decide (text = []) else
        match text with
        | t :: text' => if (c =? 46) || (c =? t) then matchhere re1 text' else false
        | [] => false
        end in
      match re1 with
      | s :: re2 => if s =? 42 then matchstar (matchhere re2) c text else one
      | [] => one
      end
  end.

(** [do { if(matchhere(re, text)) return 1; } while( *text++ != 0);] *)
Fixpoint match_from (re text : list Z) : bool :=
  if matchhere re text then true else
  match text with [] => false | _ :: text' => match_from re text' end.

Definition match_ (re text : list Z) : bool :=
  if hd0 re =? 94 then matchhere (tail re) text else match_from re text.

(** ** The language of a pattern *)

(** One character, or any number of one; the character [.] stands for any. *)
Inductive atom := One (c : Z) | Many (c : Z).
Definition fits (c t : Z) : Prop := c = 46 \/ c = t.

(** A pattern without [^] is a sequence of atoms, perhaps with [$] at its end. *)
Fixpoint parse (re : list Z) : list atom * bool :=
  match re with
  | [] => ([], false)
  | c :: re1 =>
      let one := if (c =? 36) && bool_decide (re1 = []) then ([], true) else let (l, e) := parse re1 in (One c :: l, e) in
      match re1 with
      | s :: re2 => if s =? 42 then let (l, e) := parse re2 in (Many c :: l, e) else one
      | [] => one
      end
  end.

Fixpoint lang (l : list atom) (u : list Z) : Prop :=
  match l with
  | [] => u = []
  | One c :: l => exists t u', u = t :: u' /\ fits c t /\ lang l u'
  | Many c :: l => exists v w, u = v ++ w /\ Forall (fits c) v /\ lang l w
  end.

(** [text] begins with a match of the pattern. *)
Definition begins (p : list atom * bool) (text : list Z) : Prop :=
  exists u v, text = u ++ v /\ lang p.1 u /\ (p.2 = true -> v = []).

Lemma begins_nil e text : begins ([], e) text <-> (e = true -> text = []).
Proof.
  split.
  - intros (u & v & -> & -> & He). done.
  - intros He. exists [], text. done.
Qed.

Lemma begins_one c l e text :
  begins (One c :: l, e) text <-> exists t text', text = t :: text' /\ fits c t /\ begins (l, e) text'.
Proof.
  split.
  - intros (u & v & -> & (t & u' & -> & Hf & Hl) & He). exists t, (u' ++ v). split_and!; [done|done|]. by exists u', v.
  - intros (t & text' & -> & Hf & u & v & -> & Hl & He). exists (t :: u), v. split_and!; [done| |done]. by exists t, u.
Qed.

Lemma begins_many c l e text :
  begins (Many c :: l, e) text <-> exists v w, text = v ++ w /\ Forall (fits c) v /\ begins (l, e) w.
Proof.
  split.
  - intros (u & r & -> & (v & w & -> & Hf & Hl) & He). exists v, (w ++ r). rewrite app_assoc. split_and!; [done|done|]. by exists w, r.
  - intros (v & w & -> & Hf & u & r & -> & Hl & He). exists (v ++ u), r. rewrite app_assoc. split_and!; [done| |done]. by exists v, u.
Qed.

Lemma matchstar_spec here (Q : list Z -> Prop) c text :
  (forall t, here t = true <-> Q t) ->
  matchstar here c text = true <-> exists v w, text = v ++ w /\ Forall (fits c) v /\ Q w.
Proof.
  intros Hq. induction text as [|t text IH]; cbn [matchstar].
  - destruct (here []) eqn:E.
    + split; [|done]. intros _. exists [], []. split_and!; [done..|by apply Hq].
    + split; [done|]. intros (v & w & Hvw & _ & Hw). symmetry in Hvw. apply app_nil in Hvw as [-> ->]. apply Hq in Hw. congruence.
  - destruct (here (t :: text)) eqn:E.
    + split; [|done]. intros _. exists [], (t :: text). split_and!; [done..|by apply Hq].
    + split.
      * destruct ((t =? c) || (c =? 46)) eqn:Ef; [|done]. intros (v & w & -> & Hf & Hw)%IH. exists (t :: v), w. split_and!; [done| |done].
        constructor; [|done]. unfold fits. apply orb_true_iff in Ef as [->%Z.eqb_eq| ->%Z.eqb_eq]; auto.
      * intros ([|a v] & w & Hvw & Hf & Hw); cbn in Hvw; [subst w; apply Hq in Hw; congruence|]. simplify_eq.
        apply Forall_cons in Hf as [Ha Hf]. assert ((a =? c) || (c =? 46) = true) as ->.
        { apply orb_true_iff. rewrite !Z.eqb_eq. destruct Ha as [->| ->]; auto. }
        apply IH. by exists v, w.
Qed.

(** [matchhere] accepts exactly the texts that begin with a word of the pattern (the whole text, after a final [$]). *)
Lemma matchhere_begins n : forall re text, (length re <= n)%nat -> matchhere re text = true <-> begins (parse re) text.
Proof.
  induction n as [|n IH]; intros re text Hn; destruct re as [|c re1]; try (cbn in Hn; lia); try (cbn; rewrite begins_nil; done).
  assert (Hone : (if (c =? 36) && bool_decide (re1 = []) then bool_decide (text = []) else
      match text with t :: text' => if (c =? 46) || (c =? t) then matchhere re1 text' else false | [] => false end) = true <->
    begins (if (c =? 36) && bool_decide (re1 = []) then ([], true) else let (l, e) := parse re1 in (One c :: l, e)) text).
  { destruct ((c =? 36) && bool_decide (re1 = [])).
    - rewrite bool_decide_eq_true, begins_nil. naive_solver.
    - destruct (parse re1) as [l e] eqn:Ep. rewrite begins_one. destruct text as [|t text]; [naive_solver|].
      specialize (IH re1 text ltac:(cbn in Hn; lia)). rewrite Ep in IH. destruct ((c =? 46) || (c =? t)) eqn:Ef.
      + rewrite IH. apply orb_true_iff in Ef. rewrite !Z.eqb_eq in Ef. split; [|naive_solver]. intros Hb. by exists t, text.
      + split; [done|]. intros (t' & text' & [= <- <-] & Hf & _). apply orb_false_iff in Ef as [H1%Z.eqb_neq H2%Z.eqb_neq]. by destruct Hf. }
  cbn [matchhere parse]. destruct re1 as [|s re2]; [exact Hone|]. destruct (s =? 42); [|exact Hone].
  rewrite (matchstar_spec (matchhere re2) (begins (parse re2))) by (intros t; apply IH; cbn in Hn; lia).
  destruct (parse re2) as [l e]. by rewrite begins_many.
Qed.

(** What a pattern means: some part of the text, or its beginning after [^], is matched. *)
Definition matches (re text : list Z) : Prop :=
  if hd0 re =? 94 then begins (parse (tail re)) text
  else exists a b, text = a ++ b /\ begins (parse re) b.

Lemma match_from_spec re text :
  match_from re text = true <-> exists a b, text = a ++ b /\ begins (parse re) b.
Proof.
  induction text as [|t text IH]; cbn [match_from].
  - destruct (matchhere re []) eqn:E.
    + split; [|done]. intros _. exists [], []. split; [done|]. by apply (matchhere_begins (length re)).
    + split; [done|]. intros (a & b & Hab & Hb). symmetry in Hab. apply app_nil in Hab as [-> ->].
      apply (matchhere_begins (length re)) in Hb; [congruence|done].
  - destruct (matchhere re (t :: text)) eqn:E.
    + split; [|done]. intros _. exists [], (t :: text). split; [done|]. by apply (matchhere_begins (length re)).
    + rewrite IH. split; intros (a & b & Hab & Hb).
      * exists (t :: a), b. by rewrite Hab.
      * destruct a as [|x a]; cbn in Hab; [|simplify_eq; eauto]. subst b. apply (matchhere_begins (length re)) in Hb; [congruence|done].
Qed.

(** C22: grep's matcher is equivalent to the meaning of its patterns: [match] accepts exactly the texts some part of
    which (the beginning, after [^]; up to the end, before [$]) is a word of the pattern, where [.] stands for any
    character and [c*] for any number of [c]. *)
Theorem match_correct re text : match_ re text = true <-> matches re text.
Proof.
  unfold match_, matches. destruct (hd0 re =? 94); [by apply (matchhere_begins (length (tail re)))|apply match_from_spec].
Qed.


(** ** Searching a file *)

Definition BUFSIZE : Z := 1024.

(** [while((q = strchr(p, '\n')) != 0)]: the lines in the buffer; what is left of it. *)
Definition grep_line (pattern p : list Z) : prog (list Z + list Z) :=
  match Ulib.strchr p 10 with
  | Some q =>
      (if match_ pattern (take q p) then sys (CWrite 1 (take (S q) p)) ;; mret tt else mret tt) ;;
      mret (inl (drop (S q) p))
  | None => mret (inr p)
  end.

(** [buf] is what is in the buffer, its first [m] characters. *)
Definition grep_step (pattern : list Z) (fd : Z) (buf : list Z) : prog (list Z + unit) :=
  let m := Z.of_nat (length buf) in
  r ← sys (CRead fd (BUFSIZE - m - 1));
  if 0 <? r_val r then
    let buf := buf ++ take (Z.to_nat (r_val r)) (r_bytes r) in
    p ← ploop (S (length buf)) (grep_line pattern) buf;
    mret (inl p)
  else mret (inr tt).
Definition grep (fuel : nat) (pattern : list Z) (fd : Z) : prog unit := ploop fuel (grep_step pattern fd) [].

Definition main (fuel : nat) (argv : list (list Z)) : prog unit :=
  if (length argv <=? 1)%nat then Ulib.fprintf 2 (chars "usage: grep pattern [file ...]" ++ [10]) [] ;; exit 1 else
  let pattern := default [] (argv !! 1%nat) in
  if (length argv <=? 2)%nat then grep fuel pattern 0 ;; exit 0 else
  pfor_each (drop 2 argv) (fun name =>
    fd ← sysv (COpen name 0);
    if fd <? 0 then Ulib.printf (chars "grep: cannot open %s" ++ [10]) [AStr (Some name)] ;; exit 1 else
    grep fuel pattern fd ;;
    sys (CClose fd) ;;
    mret tt) ;;
  exit 0.

(** *** The lines of a file *)

(** The complete lines, and what follows the last newline. *)
Fixpoint lines (d : list Z) : list (list Z) * list Z :=
  match d with
  | [] => ([], [])
  | c :: d' =>
      let (ls, r) := lines d' in
      if c =? 10 then ([] :: ls, r) else
      match ls with
      | l :: ls' => ((c :: l) :: ls', r)
      | [] => ([], c :: r)
      end
  end.

(** What grep should print of them. *)
Definition selected (pattern : list Z) (ls : list (list Z)) : list Z :=
  ls ≫= (fun l => if match_ pattern l then l ++ [10] else []).

Lemma lines_plain x d :
  Forall (fun c => c <> 10) x ->
  lines (x ++ d) = match lines d with (l :: ls, r) => ((x ++ l) :: ls, r) | ([], r) => ([], x ++ r) end.
Proof.
  induction 1 as [|c x Hc Hx IH]; cbn [app lines]; [by destruct (lines d) as [[|l ls] r]|].
  rewrite IH, (proj2 (Z.eqb_neq c 10)) by done. by destruct (lines d) as [[|l ls] r].
Qed.

Lemma lines_line x d : Forall (fun c => c <> 10) x -> lines (x ++ 10 :: d) = let (ls, r) := lines d in (x :: ls, r).
Proof. intros Hx. rewrite lines_plain by done. cbn [lines]. destruct (lines d) as [ls r]. cbn. by rewrite app_nil_r. Qed.

Lemma lines_rest d : Forall (fun c => c <> 10) (lines d).2.
Proof.
  induction d as [|c d IH]; cbn [lines]; [done|]. destruct (lines d) as [[|l ls] r]; cbn in IH;
    destruct (Z.eqb_spec c 10); cbn; try done. by constructor.
Qed.

Lemma lines_app x d : lines (x ++ d) = let (l1, r1) := lines x in let (l2, r2) := lines (r1 ++ d) in (l1 ++ l2, r2).
Proof.
  induction x as [|c x IH]; cbn [app lines]; [by destruct (lines d)|]. rewrite IH. pose proof (lines_rest x) as Hr.
  destruct (lines x) as [l1 r1]. cbn in Hr. destruct (lines (r1 ++ d)) as [l2 r2] eqn:E.
  destruct (Z.eqb_spec c 10) as [->|Hc]; [by rewrite E|]. destruct l1 as [|l l1]; cbn [app]; [|by rewrite E].
  cbn [app lines]. rewrite E, (proj2 (Z.eqb_neq c 10)) by done. by destruct l2.
Qed.

Lemma lines_nul d : Forall (fun c => c <> 0) d -> Forall (fun c => c <> 0) (lines d).2.
Proof.
  induction 1 as [|c d Hc Hd IH]; cbn [lines]; [done|]. destruct (lines d) as [[|l ls] r]; cbn in IH;
    destruct (Z.eqb_spec c 10); cbn; try done. by constructor.
Qed.

Section Search.
Context `{Kernel} {IO : Stdio}.
Variables (pattern : list Z) (fd : Z).

(** *** The lines in the buffer *)

Lemma run_grep_lines m : forall p w fuel,
  (length p <= m)%nat -> (m < fuel)%nat -> Forall (fun c => c <> 0) p ->
  let (ls, r) := lines p in
  exists w', run (ploop fuel (grep_line pattern) p) w = (Val r, w') /\
    (forall f, input w' f = input w f) /\
    (forall f, output w' f = if decide (f = 1) then output w 1 ++ selected pattern ls else output w f).
Proof.
  induction m as [|m IH]; intros p w [|fuel] Hm Hf Hz; try lia.
  { destruct p; [|cbn in Hm; lia]. cbn [lines]. exists w. split_and!; [by apply ploop_break|done|].
    intros f. case_decide; [subst; by rewrite app_nil_r|done]. }
  destruct (Ulib.strchr p 10) as [q|] eqn:Eq.
  - destruct (Ulib.strchr_Some _ _ _ Eq) as (Hq & _ & Hno). pose proof (take_drop_middle p q 10 Hq) as Ep.
    assert (Hx : Forall (fun c => c <> 10) (take q p)) by (eapply Forall_impl; [exact Hno|]; by intros ? []).
    assert (El : lines p = let (ls, r) := lines (drop (S q) p) in (take q p :: ls, r)) by (rewrite <- Ep at 1; by apply lines_line).
    rewrite El. pose proof (lookup_lt_Some _ _ _ Hq) as Hlt.
    set (out := if match_ pattern (take q p) then take q p ++ [10] else []).
    assert (Hstep : exists w1, run (grep_line pattern p) w = (Val (inl (drop (S q) p)), w1) /\ (forall f, input w1 f = input w f) /\
      (forall f, output w1 f = if decide (f = 1) then output w 1 ++ out else output w f)).
    { unfold grep_line, out. rewrite Eq. destruct (match_ pattern (take q p)).
      - destruct (write_ok w 1 (take (S q) p)) as (w1 & R & Hi & Ho). exists w1. split_and!; [|done|].
        + cbn. by rewrite R.
        + intros f. rewrite Ho. by rewrite (take_S_r _ _ _ Hq).
      - exists w. split_and!; [done|done|]. intros f. case_decide; [subst; by rewrite app_nil_r|done]. }
    destruct Hstep as (w1 & R1 & I1 & O1).
    assert (Hlen : (length (drop (S q) p) <= m)%nat) by (rewrite length_drop; lia).
    specialize (IH (drop (S q) p) w1 fuel Hlen ltac:(lia) ltac:(by apply Forall_drop)).
    destruct (lines (drop (S q) p)) as [ls r]. destruct IH as (w' & R & I & O). exists w'. split_and!.
    + by rewrite (ploop_continue _ _ _ _ _ _ R1).
    + intros f. by rewrite I, I1.
    + intros f. rewrite O, !O1. rewrite !(decide_True (P := 1 = 1)) by done. case_decide; [|done]. by rewrite <- app_assoc.
  - pose proof (Ulib.strchr_None _ _ Eq Hz) as Hx. pose proof (lines_plain p [] Hx) as El. rewrite app_nil_r in El. cbn in El.
    rewrite app_nil_r in El. rewrite El. exists w. split_and!; [|done|].
    + apply ploop_break. unfold grep_line. by rewrite Eq.
    + intros f. case_decide; [subst; by rewrite app_nil_r|done].
Qed.

(** *** The whole file *)

(** No NUL, and lines that leave room in the buffer for one more character. *)
Definition short (p : list (list Z) * list Z) : Prop :=
  Forall (fun l => Z.of_nat (length l) <= BUFSIZE - 2) p.1 /\ Z.of_nat (length p.2) <= BUFSIZE - 2.
Definition text (d : list Z) : Prop := Forall (fun c => c <> 0) d /\ short (lines d).

Lemma text_buf buf d : Forall (fun c => c <> 10) buf -> text (buf ++ d) -> Z.of_nat (length buf) <= BUFSIZE - 2.
Proof.
  intros Hb [_ Hs]. rewrite lines_plain in Hs by done. destruct (lines d) as [[|l ls] r]; destruct Hs as [Hl Hr]; cbn in Hl, Hr.
  - rewrite length_app in Hr. lia.
  - apply Forall_cons in Hl as [Hl _]. rewrite length_app in Hl. lia.
Qed.

Lemma text_rest x d : text (x ++ d) -> text ((lines x).2 ++ d).
Proof.
  intros [Hz Hs]. rewrite lines_app in Hs. apply Forall_app in Hz as [Hzx Hzd]. pose proof (lines_nul x Hzx) as Hr.
  destruct (lines x) as [l1 r1]. unfold text. cbn [snd] in Hr |- *. destruct (lines (r1 ++ d)) as [l2 r2].
  destruct Hs as [Hl Hs]. split; [by apply Forall_app|]. split; [|done]. by apply Forall_app in Hl as [_ ?].
Qed.

Lemma selected_app l1 l2 : selected pattern (l1 ++ l2) = selected pattern l1 ++ selected pattern l2.
Proof. unfold selected. by rewrite bind_app. Qed.

Lemma run_grep_step buf w :
  Forall (fun c => c <> 10) buf -> text (buf ++ input w fd) -> input w fd <> [] ->
  exists k w', (0 < k <= length (input w fd))%nat /\
    run (grep_step pattern fd buf) w = (Val (inl (lines (buf ++ take k (input w fd))).2), w') /\
    (forall f, input w' f = if decide (f = fd) then drop k (input w fd) else input w f) /\
    (forall f, output w' f = if decide (f = 1) then output w 1 ++ selected pattern (lines (buf ++ take k (input w fd))).1 else output w f).
Proof.
  intros Hb Ht Hne. pose proof (text_buf _ _ Hb Ht) as Hlen.
  destruct (read_ok w fd (BUFSIZE - Z.of_nat (length buf) - 1) ltac:(lia)) as (k & w1 & R1 & Hk & _ & Hpos & I1 & O1).
  specialize (Hpos ltac:(lia) Hne). set (d := take k (input w fd)) in *.
  assert (Hz : Forall (fun c => c <> 0) (buf ++ d)).
  { destruct Ht as [Hz _]. apply Forall_app in Hz as [? ?]. apply Forall_app; split; [done|by apply Forall_take]. }
  pose proof (run_grep_lines (length (buf ++ d)) (buf ++ d) w1 (S (length (buf ++ d))) ltac:(lia) ltac:(lia) Hz) as Hrun.
  destruct (lines (buf ++ d)) as [ls r] eqn:El. destruct Hrun as (w2 & R2 & I2 & O2).
  exists k, w2. fold d. rewrite El. split; [lia|]. split_and!.
  - unfold grep_step. pstep_by (run_sys _ _ _ _ R1). cbn [r_val r_bytes]. rewrite (proj2 (Z.ltb_lt 0 (Z.of_nat k))) by lia.
    rewrite Nat2Z.id, (take_ge d k) by (unfold d; rewrite length_take; lia). cbv zeta.
    rewrite (run_bind _ _ _ _ _ R2). done.
  - intros f. by rewrite I2, I1.
  - intros f. rewrite O2, !O1. by cbn [fst].
Qed.

Lemma run_grep_eof buf w n :
  Forall (fun c => c <> 10) buf -> text (buf ++ []) -> input w fd = [] ->
  exists w', run (ploop (S n) (grep_step pattern fd) buf) w = (Val tt, w') /\ input w' fd = [] /\
    (forall f, output w' f = if decide (f = 1) then output w 1 ++ selected pattern (lines (buf ++ [])).1 else output w f).
Proof.
  intros Hb Ht Ein. pose proof (text_buf _ _ Hb Ht) as Hlen.
  destruct (read_ok w fd (BUFSIZE - Z.of_nat (length buf) - 1) ltac:(lia)) as (k & w1 & R1 & Hk & _ & _ & I1 & O1).
  rewrite Ein in Hk. cbn in Hk. replace k with O in * by lia. exists w1. split_and!.
  - apply ploop_break. unfold grep_step. by pstep_by (run_sys _ _ _ _ R1).
  - by rewrite I1, decide_True, Ein by done.
  - intros f. rewrite O1, lines_plain by done. cbn. case_decide; [subst; by rewrite app_nil_r|done].
Qed.

Lemma run_grep_loop m : forall buf w fuel,
  (length (input w fd) <= m)%nat -> (m < fuel)%nat -> Forall (fun c => c <> 10) buf -> text (buf ++ input w fd) ->
  exists w', run (ploop fuel (grep_step pattern fd) buf) w = (Val tt, w') /\ input w' fd = [] /\
    (forall f, output w' f = if decide (f = 1) then output w 1 ++ selected pattern (lines (buf ++ input w fd)).1 else output w f).
Proof.
  induction m as [|m IH]; intros buf w [|fuel] Hm Hf Hb Ht; try lia.
  { destruct (input w fd) as [|c d] eqn:Ein; [|cbn in Hm; lia]. by apply run_grep_eof. }
  destruct (input w fd) as [|c d] eqn:Ein; [by apply run_grep_eof|].
  destruct (run_grep_step buf w Hb) as (k & w1 & Hk & R1 & I1 & O1); [by rewrite Ein|by rewrite Ein|].
  assert (Hin : input w1 fd = drop k (c :: d)) by (by rewrite I1, decide_True, Ein by done).
  rewrite Ein in *.
  assert (Hsplit : buf ++ c :: d = (buf ++ take k (c :: d)) ++ drop k (c :: d)) by (by rewrite <- app_assoc, take_drop).
  destruct (IH (lines (buf ++ take k (c :: d))).2 w1 fuel) as (w2 & R2 & I2 & O2).
  - rewrite Hin, length_drop. lia.
  - lia.
  - apply lines_rest.
  - rewrite Hin. apply text_rest. by rewrite <- Hsplit.
  - exists w2. split_and!; [by rewrite (ploop_continue _ _ _ _ _ _ R1)|done|].
    intros f. rewrite O2, !O1, Hin, Hsplit, (lines_app (buf ++ take k (c :: d))). rewrite (decide_True (P := 1 = 1)) by done.
    destruct (lines (buf ++ take k (c :: d))) as [l1 r1]. cbn [fst snd]. destruct (lines (r1 ++ drop k (c :: d))) as [l2 r2].
    cbn [fst]. case_decide; [by rewrite selected_app, <- app_assoc|done].
Qed.

(** C23: grep on a text file whose lines fit its buffer reads all of it and writes to descriptor 1 exactly the complete
    lines that match, in order, however the reads are cut up; nothing else is written. *)
Theorem grep_correct w fuel :
  text (input w fd) -> (length (input w fd) < fuel)%nat ->
  exists w', run (grep fuel pattern fd) w = (Val tt, w') /\ input w' fd = [] /\
    (forall f, output w' f = if decide (f = 1) then output w 1 ++ selected pattern (lines (input w fd)).1 else output w f).
Proof. intros Ht Hf. by apply (run_grep_loop (length (input w fd)) []). Qed.

(** *** A line that fills the buffer *)

Lemma run_grep_full m : forall buf x d w fuel,
  (length x <= m)%nat -> (m < fuel)%nat -> input w fd = x ++ d -> Z.of_nat (length buf + length x) = BUFSIZE - 1 ->
  Forall (fun c => c <> 10 /\ c <> 0) (buf ++ x) ->
  exists w', run (ploop fuel (grep_step pattern fd) buf) w = (Val tt, w') /\ input w' fd = d /\ (forall f, output w' f = output w f).
Proof.
  induction m as [|m IH]; intros buf x d w [|fuel] Hm Hf Hin Hlen Hx; try lia.
  all: destruct (read_ok w fd (BUFSIZE - Z.of_nat (length buf) - 1) ltac:(lia)) as (k & w1 & R1 & Hk & Hkn & Hpos & I1 & O1).
  all: destruct x as [|c x]; [|try (cbn in Hm; lia)].
  1, 2: cbn in Hlen; replace k with O in * by lia; exists w1; split_and!;
    [apply ploop_break; unfold grep_step; by pstep_by (run_sys _ _ _ _ R1)|by rewrite I1, decide_True, Hin by done|done].
  assert (Hk0 : (0 < k <= S (length x))%nat).
  { split; [apply Hpos; [cbn in Hlen; lia|by rewrite Hin]|cbn in Hlen; lia]. }
  assert (Et : take k (input w fd) = take k (c :: x)) by (rewrite Hin, take_app_le by (cbn; lia); done).
  assert (Hx' : Forall (fun c => c <> 10 /\ c <> 0) ((buf ++ take k (c :: x)) ++ drop k (c :: x))) by (by rewrite <- app_assoc, take_drop).
  pose proof Hx' as Hb. apply Forall_app in Hb as [Hb _]. rewrite Et in R1.
  pose proof (run_grep_lines (length (buf ++ take k (c :: x))) (buf ++ take k (c :: x)) w1 _ ltac:(lia) (Nat.lt_succ_diag_r _)
    ltac:(eapply Forall_impl; [exact Hb|]; by intros ? [])) as Hrun.
  pose proof (lines_plain (buf ++ take k (c :: x)) [] ltac:(eapply Forall_impl; [exact Hb|]; by intros ? [])) as El.
  rewrite !app_nil_r in El. rewrite El in Hrun. cbn in Hrun. rewrite app_nil_r in Hrun. destruct Hrun as (w2 & R2 & I2 & O2).
  destruct (IH (buf ++ take k (c :: x)) (drop k (c :: x)) d w2 fuel) as (w3 & R3 & I3 & O3).
  - rewrite length_drop. cbn in Hm |- *. lia.
  - lia.
  - rewrite I2, I1, decide_True, Hin by done. by rewrite drop_app_le by (cbn; lia).
  - rewrite length_app, length_take, length_drop. cbn in Hlen |- *. lia.
  - done.
  - exists w3. split_and!; [|done|].
    + erewrite ploop_continue; [exact R3|]. unfold grep_step. pstep_by (run_sys _ _ _ _ R1). cbn [r_val r_bytes].
      rewrite (proj2 (Z.ltb_lt 0 (Z.of_nat k))), Nat2Z.id, take_take, Nat.min_id by lia. cbv zeta.
      by rewrite (run_bind _ _ _ _ _ R2).
    + intros f. rewrite O3, O2, !O1. case_decide; [subst; by rewrite app_nil_r|done].
Qed.

(** A line of more than 1022 characters fills the buffer before its newline is seen: grep then asks for no bytes,
    takes the empty read for the end of the file and returns with the rest of the file unread and nothing printed. *)
Theorem grep_long_line w fuel x d :
  input w fd = x ++ d -> Z.of_nat (length x) = BUFSIZE - 1 -> Forall (fun c => c <> 10 /\ c <> 0) x -> (length x < fuel)%nat ->
  exists w', run (grep fuel pattern fd) w = (Val tt, w') /\ input w' fd = d /\ (forall f, output w' f = output w f).
Proof. intros Hin Hlen Hx Hf. by apply (run_grep_full (length x) [] x). Qed.
End Search.

(** Two lines, one with an a, read three bytes at a time. *)
Definition grep_sample : @World tape_kernel := mk_tape {[0 := chars "cab" ++ [10] ++ chars "dog" ++ [10] ++ chars "a"]} ∅ 2.

Lemma grep_correct_witness : exists w', run (grep 20 (chars "a") 0) grep_sample = (Val tt, w') /\ output w' 1 = chars "cab" ++ [10].
Proof.
  destruct (grep_correct (chars "a") 0 grep_sample 20) as (w' & R & _ & O); [|apply Nat.ltb_lt; by vm_compute|].
  - split; [by repeat constructor|split; [repeat constructor; by vm_compute|by vm_compute]].
  - exists w'. split; [exact R|]. rewrite O. by vm_compute.
Defined.

(** 1023 characters, then a line that matches. *)
Definition long_sample : @World tape_kernel := mk_tape {[0 := replicate 1023 98 ++ chars "a" ++ [10] ++ chars "a" ++ [10]]} ∅ 500.

Lemma grep_long_line_witness : exists w', run (grep 2000 (chars "a") 0) long_sample = (Val tt, w') /\ output w' 1 = [].
Proof.
  destruct (grep_long_line (chars "a") 0 long_sample 2000 (replicate 1023 98) (chars "a" ++ [10] ++ chars "a" ++ [10])) as (w' & R & _ & O).
  - by vm_compute.
  - by vm_compute.
  - by apply Forall_replicate.
  - rewrite length_replicate. lia.
  - exists w'. split; [exact R|]. rewrite O. by vm_compute.
Defined.
End Grep.
