(* ===== verification/Uprogs.v ===== *)
(** * The small user programs

    user/cat.c, wc.c, echo.c, rm.c, mkdir.c, ln.c, kill.c, zombie.c, init.c and
    ls.c, a Module each.  [argv] is the list of arguments, the program's name
    first. *)

From stdpp Require Import base list gmap strings.
From Stdlib Require Import ZArith Lia.
From S2P Require Import Prelude Mem KString Format Usys Ulib.
Open Scope Z_scope.

Import Ulib (fprintf, printf).

Definition nl : list Z := [10].

(** ** user/cat.c *)
Module Cat.
Definition cat_step (fd : Z) (_ : unit) : prog (unit + Z) :=
  r ← sys (CRead fd 512);
  let n := r_val r in
  if 0 <? n then
    wn ← sysv (CWrite 1 (take (Z.to_nat n) (r_bytes r)));
    if negb (wn =? n) then fprintf 2 (chars "cat: write error" ++ nl) [] ;; exit 1 else
    mret (inl tt)
  else mret (inr n).
Definition cat (fuel : nat) (fd : Z) : prog unit :=
  n ← ploop fuel (cat_step fd) tt;
  if n <? 0 then fprintf 2 (chars "cat: read error" ++ nl) [] ;; exit 1 else mret tt.

Definition main (fuel : nat) (argv : list (list Z)) : prog unit :=
  if (length argv <=? 1)%nat then cat fuel 0 ;; exit 0 else
  pfor_each (drop 1 argv) (fun name =>
    fd ← sysv (COpen name 0);
    if fd <? 0 then fprintf 2 (chars "cat: cannot open %s" ++ nl) [AStr (Some name)] ;; exit 1 else
    cat fuel fd ;;
    sys (CClose fd) ;;
    mret tt) ;;
  exit 0.
End Cat.

(** ** user/wc.c *)
Module Wc.
Record counts := mk_counts { l : Z; w : Z; c : Z; inword : bool }.

Definition wc_char (st : counts) (b : Z) : counts :=
  let c' := s32 (c st + 1) in
  let l' := if b =? 10 then s32 (l st + 1) else l st in
  match Ulib.strchr [32; 13; 9; 10; 11] b with
  | Some _ => mk_counts l' (w st) c' false
  | None => if negb (inword st) then mk_counts l' (s32 (w st + 1)) c' true else mk_counts l' (w st) c' (inword st)
  end.
Definition wc_step (fd : Z) (st : counts) : prog (counts + Z * counts) :=
  r ← sys (CRead fd 512);
  let n := r_val r in
  if 0 <? n then mret (inl (foldl wc_char st (take (Z.to_nat n) (r_bytes r)))) else mret (inr (n, st)).
Definition wc (fuel : nat) (fd : Z) (name : list Z) : prog unit :=
  '(n, st) ← ploop fuel (wc_step fd) (mk_counts 0 0 0 false);
  if n <? 0 then printf (chars "wc: read error" ++ nl) [] ;; exit 1 else
  printf (chars "%d %d %d %s" ++ nl) [ANum (l st); ANum (w st); ANum (c st); AStr (Some name)].

Definition main (fuel : nat) (argv : list (list Z)) : prog unit :=
  if (length argv <=? 1)%nat then wc fuel 0 [] ;; exit 0 else
  pfor_each (drop 1 argv) (fun name =>
    fd ← sysv (COpen name 0);
    if fd <? 0 then printf (chars "wc: cannot open %s" ++ nl) [AStr (Some name)] ;; exit 1 else
    wc fuel fd name ;;
    sys (CClose fd) ;;
    mret tt) ;;
  exit 0.
End Wc.

(** ** user/echo.c *)
Module Echo.
Fixpoint words (args : list (list Z)) : prog unit :=
  match args with
  | [] => mret tt
  | a :: args' =>
      sys (CWrite 1 (take (Z.to_nat (Ulib.strlen a)) a)) ;;
      sys (CWrite 1 (match args' with [] => nl | _ => [32] end)) ;;
      words args'
  end.
Definition main (argv : list (list Z)) : prog unit := words (drop 1 argv) ;; exit 0.
End Echo.

(** ** user/rm.c, mkdir.c, ln.c, kill.c, zombie.c *)
Module Rm.
Fixpoint remove (files : list (list Z)) : prog unit :=
  match files with
  | [] => mret tt
  | f :: files' =>
      r ← sysv (CUnlink f);
      if r <? 0 then fprintf 2 (chars "rm: %s failed to delete" ++ nl) [AStr (Some f)] else remove files'
  end.
Definition main (argv : list (list Z)) : prog unit :=
  if (length argv <? 2)%nat then fprintf 2 (chars "Usage: rm files..." ++ nl) [] ;; exit 1 else
  remove (drop 1 argv) ;; exit 0.
End Rm.

Module Mkdir.
Fixpoint create (files : list (list Z)) : prog unit :=
  match files with
  | [] => mret tt
  | f :: files' =>
      r ← sysv (CMkdir f);
      if r <? 0 then fprintf 2 (chars "mkdir: %s failed to create" ++ nl) [AStr (Some f)] else create files'
  end.
Definition main (argv : list (list Z)) : prog unit :=
  if (length argv <? 2)%nat then fprintf 2 (chars "Usage: mkdir files..." ++ nl) [] ;; exit 1 else
  create (drop 1 argv) ;; exit 0.
End Mkdir.

Module Ln.
Definition main (argv : list (list Z)) : prog unit :=
  match argv with
  | [_; old; new] =>
      r ← sysv (CLink old new);
      (if r <? 0 then fprintf 2 (chars "link %s %s: failed" ++ nl) [AStr (Some old); AStr (Some new)] else mret tt) ;;
      exit 0
  | _ => fprintf 2 (chars "Usage: ln old new" ++ nl) [] ;; exit 1
  end.
End Ln.

Module Kill.
Definition main (argv : list (list Z)) : prog unit :=
  if (length argv <? 2)%nat then fprintf 2 (chars "usage: kill pid..." ++ nl) [] ;; exit 1 else
  pfor_each (drop 1 argv) (fun a => sys (CKill (Ulib.atoi a)) ;; mret tt) ;; exit 0.
End Kill.

Module Zombie.
Definition main : prog unit :=
  pid ← sysv CFork;
  (if 0 <? pid then sys (CSleep 5) ;; mret tt else mret tt) ;;
  exit 0.
End Zombie.

(** ** user/init.c *)
Module Init.
(** [for(;;) wpid = wait(0)], until the shell, [pid], exits. *)
Definition reap_step (pid : Z) (_ : unit) : prog (unit + unit) :=
  wpid ← sysv CWait;
  if wpid =? pid then mret (inr tt)
  else if wpid <? 0 then printf (chars "init: wait returned an error" ++ nl) [] ;; exit 1
  else mret (inl tt).
Definition init_step (fuel : nat) (_ : unit) : prog (unit + unit) :=
  printf (chars "init: starting sh" ++ nl) [] ;;
  pid ← sysv CFork;
  if pid <? 0 then printf (chars "init: fork failed" ++ nl) [] ;; exit 1
  else if pid =? 0 then
    sys (CExec (chars "sh") [chars "sh"]) ;;
    printf (chars "init: exec sh failed" ++ nl) [] ;;
    exit 1
  else
    ploop fuel (reap_step pid) tt ;;
    mret (inl tt).
Definition main (fuel : nat) : prog unit :=
  fd ← sysv (COpen (chars "console") 2);
  (if fd <? 0 then
    sys (CMknod (chars "console") 1 0) ;;
    sys (COpen (chars "console") 2) ;;
    mret tt
  else mret tt) ;;
  sys (CDup 0) ;;
  sys (CDup 0) ;;
  ploop fuel (init_step fuel) tt.
End Init.

(** ** user/ls.c *)
Module Ls.
Definition DIRSIZ : nat := 14.

(** [for(p = path+strlen(path); p >= path && *p != '/'; p--); p++;]: the index. *)
Fixpoint after_slash (path : list Z) (p : nat) : nat :=
  if nth0 path p =? 47 then S p else match p with O => O | S p' => after_slash path p' end.
Definition fmtname (path : list Z) : list Z :=
  let p := drop (after_slash path (length path)) path in
  if (DIRSIZ <=? length p)%nat then p else p ++ replicate (DIRSIZ - length p) 32.

Definition st_line (name st : list Z) : prog unit :=
  printf (chars "%s %d %d %d" ++ nl) [AStr (Some (fmtname name)); ANum (nth0 st 2); ANum (nth0 st 1); ANum (s32 (nth0 st 4))].

(** One entry of the directory; [buf] starts with [path] and a slash. *)
Definition ls_entry (path : list Z) (fd : Z) (_ : unit) : prog (unit + unit) :=
  r ← sys (CRead fd 16);
  if negb (r_val r =? 16) then mret (inr tt) else
  let inum := le_val (take 2 (r_bytes r)) in
  if inum =? 0 then mret (inl tt) else
  let buf := cstr (path ++ [47] ++ drop 2 (r_bytes r)) in
  '(e, st) ← Ulib.stat buf;
  if e <? 0 then printf (chars "ls: cannot stat %s" ++ nl) [AStr (Some buf)] ;; mret (inl tt) else
  st_line buf st ;; mret (inl tt).

Definition ls (fuel : nat) (path : list Z) : prog unit :=
  fd ← sysv (COpen path 0);
  if fd <? 0 then fprintf 2 (chars "ls: cannot open %s" ++ nl) [AStr (Some path)] else
  r ← sys (CFstat fd);
  if r_val r <? 0 then
    fprintf 2 (chars "ls: cannot stat %s" ++ nl) [AStr (Some path)] ;;
    sys (CClose fd) ;;
    mret tt
  else
  let st := r_nums r in
  let type := nth0 st 2 in
  (if (type =? 3) || (type =? 2) then st_line path st
   else if type =? 1 then
     if (512 <? length path + 1 + DIRSIZ + 1)%nat then printf (chars "ls: path too long" ++ nl) []
     else ploop fuel (ls_entry path fd) tt
   else mret tt) ;;
  sys (CClose fd) ;;
  mret tt.

Definition main (fuel : nat) (argv : list (list Z)) : prog unit :=
  if (length argv <? 2)%nat then ls fuel (chars ".") ;; exit 0 else
  pfor_each (drop 1 argv) (ls fuel) ;; exit 0.
End Ls.

(** ** Properties *)

Section Reading.
Context `{Kernel} {IO : Stdio}.
Variable fd : Z.

(** cat and wc read until a read returns nothing.  A loop whose turn does [f] with
    the bytes of one read and [out] to descriptor 1 does it with all of them. *)
Lemma read_loop {A B} (step : A -> prog (A + B)) (fin : A -> B) (f : A -> list Z -> A) (out : list Z -> list Z) :
  (forall a x y, f (f a x) y = f a (x ++ y)) -> (forall x y, out (x ++ y) = out x ++ out y) -> out [] = [] -> (forall a, f a [] = a) ->
  (forall a w, exists k w', (k <= length (input w fd))%nat /\ (input w fd <> [] -> (0 < k)%nat) /\
     run (step a) w = (Val (if decide (k = 0)%nat then inr (fin a) else inl (f a (take k (input w fd)))), w') /\
     input w' fd = drop k (input w fd) /\
     (forall g, output w' g = if decide (g = 1) then output w 1 ++ out (take k (input w fd)) else output w g)) ->
  forall m a w fuel, (length (input w fd) <= m)%nat -> (m < fuel)%nat ->
  exists w', run (ploop fuel step a) w = (Val (fin (f a (input w fd))), w') /\ input w' fd = [] /\
    (forall g, output w' g = if decide (g = 1) then output w 1 ++ out (input w fd) else output w g).
Proof.
  intros Hf Hout Hout0 Hf0 Hstep. induction m as [|m IH]; intros a w [|fuel] Hm Hlt; try lia.
  all: destruct (Hstep a w) as (k & w1 & Hk & Hpos & R1 & I1 & O1).
  all: case_decide as Hk0; [subst k; destruct (input w fd) as [|b d]; [|exfalso; by apply (Nat.lt_irrefl 0), Hpos]|try lia].
  1, 2: exists w1; rewrite Hf0; split_and!; [by apply ploop_break|done|]; intros g; rewrite O1; cbn; by rewrite Hout0.
  destruct (IH (f a (take k (input w fd))) w1 fuel) as (w2 & R2 & I2 & O2); [rewrite I1, length_drop; lia|lia|].
  exists w2. split_and!; [|done|].
  - rewrite (ploop_continue _ _ _ _ _ _ R1), R2, I1, Hf. by rewrite take_drop.
  - intros g. rewrite O2, !O1, I1, (decide_True (P := 1 = 1)) by done. case_decide; [|done].
    by rewrite <- app_assoc, <- Hout, take_drop.
Qed.

(** Cat copies what it reads to descriptor 1, all of it and nothing else, however the reads are cut up, and reaches the end of the file. *)
Theorem cat_copies w fuel :
  (length (input w fd) < fuel)%nat ->
  exists w', run (Cat.cat fuel fd) w = (Val tt, w') /\ input w' fd = [] /\
    (forall g, output w' g = if decide (g = 1) then output w 1 ++ input w fd else output w g).
Proof.
  intros Hf.
  destruct (read_loop (Cat.cat_step fd) (fun _ => 0) (fun a _ => a) (fun x => x)) with (m := length (input w fd)) (a := tt) (w := w) (fuel := fuel)
    as (w' & R & I & O); try done.
  - intros [] v. destruct (read_ok v fd 512 ltac:(lia)) as (k & w1 & R1 & Hk & _ & Hpos & I1 & O1).
    exists k. destruct (decide (k = 0)%nat) as [->|Hk0].
    + exists w1. split_and!; [lia|by apply Hpos|unfold Cat.cat_step; by pstep_by (run_sys _ _ _ _ R1)|by rewrite I1, decide_True by done|].
      intros g. rewrite O1. cbn. case_decide; [subst; by rewrite app_nil_r|done].
    + destruct (write_ok w1 1 (take k (input v fd))) as (w2 & R2 & I2 & O2). exists w2. split_and!; [lia|by apply Hpos| | |].
      * unfold Cat.cat_step. pstep_by (run_sys _ _ _ _ R1). cbn [r_val r_bytes].
        rewrite (proj2 (Z.ltb_lt 0 (Z.of_nat k))), Nat2Z.id, take_take, Nat.min_id by lia.
        pstep_by (run_sysv _ _ _ _ R2). cbn [r_val val]. by rewrite length_take, Nat.min_l, Z.eqb_refl by lia.
      * by rewrite I2, I1, decide_True by done.
      * intros g. by rewrite O2, !O1.
  - exists w'. split_and!; [|done|done]. unfold Cat.cat. by pstep_by R.
Qed.

(** *** wc *)

Definition blank (c : Z) : bool := (c =? 32) || (c =? 13) || (c =? 9) || (c =? 10) || (c =? 11).

Definition starts_word (d : list Z) : bool := match d with c :: _ => negb (blank c) | [] => false end.
(** The maximal runs of characters that are not blank. *)
Fixpoint words_of (d : list Z) : list (list Z) :=
  match d with
  | [] => []
  | c :: d' =>
      let ws := words_of d' in
      if blank c then ws else
      if starts_word d' then match ws with w :: ws' => (c :: w) :: ws' | [] => [[c]] end else [c] :: ws
  end.
Definition newlines (d : list Z) : nat := length (filter (fun c => c = 10) d).

Lemma strchr_blank c : Ulib.strchr [32; 13; 9; 10; 11] c = None <-> blank c = false.
Proof.
  unfold blank. rewrite !(Z.eqb_sym c). cbn -[Z.eqb].
  repeat match goal with |- context[?a =? 0] => change (a =? 0) with false; cbv iota end.
  repeat match goal with |- context[?a =? c] => destruct (Z.eqb_spec a c); [split; intros; by simplify_eq/=|] end. done.
Qed.

Lemma words_of_cons c d :
  length (words_of (c :: d)) = if blank c then length (words_of d) else if starts_word d then length (words_of d) else S (length (words_of d)).
Proof.
  cbn [words_of]. destruct (blank c); [done|]. destruct d as [|x d]; [done|]. destruct (starts_word (x :: d)) eqn:Ex; [|done].
  destruct (words_of (x :: d)) eqn:E; [|done]. exfalso. cbn in E, Ex. destruct (blank x); [done|].
  destruct (starts_word d); [|done]. by destruct (words_of d).
Qed.

Definition counted (L W C : Z) (b : bool) : Wc.counts := Wc.mk_counts (s32 L) (s32 W) (s32 C) b.
Definition ends_word (b : bool) (d : list Z) : bool := match last d with Some c => negb (blank c) | None => b end.

Lemma wc_char_spec L W C b c :
  Wc.wc_char (counted L W C b) c =
  counted (L + if c =? 10 then 1 else 0) (W + if blank c || b then 0 else 1) (C + 1) (negb (blank c)).
Proof.
  unfold Wc.wc_char, counted. cbn [Wc.l Wc.w Wc.c Wc.inword]. rewrite !s32_add_l. destruct (Ulib.strchr _ c) as [i|] eqn:E.
  - assert (Hb : blank c = true) by (apply not_false_iff_true; intros Hb; apply strchr_blank in Hb; congruence).
    rewrite Hb. cbn. rewrite Z.add_0_r. destruct (c =? 10); [done|]. by rewrite Z.add_0_r.
  - apply strchr_blank in E. rewrite E. cbn. destruct b, (c =? 10); cbn; by rewrite ?Z.add_0_r.
Qed.

Lemma wc_fold_spec d : forall L W C b,
  foldl Wc.wc_char (counted L W C b) d =
  counted (L + Z.of_nat (newlines d)) (W + Z.of_nat (length (words_of d)) - if b && starts_word d then 1 else 0) (C + Z.of_nat (length d)) (ends_word b d).
Proof.
  induction d as [|c d IH]; intros L W C b.
  - cbn. rewrite andb_false_r. f_equal; lia.
  - cbn [foldl]. rewrite wc_char_spec, IH, words_of_cons. unfold newlines. rewrite filter_cons. unfold ends_word. rewrite last_cons.
    cbn [length starts_word]. f_equal; [|..|by destruct (last d)].
    + destruct (Z.eqb_spec c 10); case_decide; try done; cbn [length]; lia.
    + destruct (blank c), b, (starts_word d); cbn; lia.
    + lia.
Qed.

Lemma wc_format a b c name :
  UPrintf.vprintf (chars "%d %d %d %s" ++ nl) [ANum a; ANum b; ANum c; AStr (Some name)] =
  seq_out (UPrintf.printint (s32 a) 10 true) (seq_out (Some [32]) (seq_out (UPrintf.printint (s32 b) 10 true)
    (seq_out (Some [32]) (seq_out (UPrintf.printint (s32 c) 10 true) (seq_out (Some [32]) (seq_out (Some name) (seq_out (Some [10]) (Some [])))))))).
Proof. reflexivity. Qed.

(** Wc prints the number of newlines, of words (maximal runs of characters that are not blank) and of characters of
    the whole file, as 32-bit numbers, and the name; a word cut by the end of a read is counted once. *)
Theorem wc_counts w fuel name :
  (length (input w fd) < fuel)%nat ->
  exists w' tl tw tc, run (Wc.wc fuel fd name) w = (Val tt, w') /\
    parse_int 10 tl = s32 (Z.of_nat (newlines (input w fd))) /\ parse_int 10 tw = s32 (Z.of_nat (length (words_of (input w fd)))) /\
    parse_int 10 tc = s32 (Z.of_nat (length (input w fd))) /\
    (forall g, output w' g = if decide (g = 1) then output w 1 ++ tl ++ [32] ++ tw ++ [32] ++ tc ++ [32] ++ name ++ [10] else output w g).
Proof.
  intros Hf.
  destruct (read_loop (Wc.wc_step fd) (fun a => (0, a)) (foldl Wc.wc_char) (fun _ => [])) with (m := length (input w fd))
    (a := counted 0 0 0 false) (w := w) (fuel := fuel) as (w1 & R & I & O); try done.
  - intros. by rewrite foldl_app.
  - intros a v. destruct (read_ok v fd 512 ltac:(lia)) as (k & v1 & R1 & Hk & _ & Hpos & I1 & O1). exists k, v1.
    split_and!; [lia|by apply Hpos| |by rewrite I1, decide_True by done|].
    + unfold Wc.wc_step. pstep_by (run_sys _ _ _ _ R1). cbn [r_val r_bytes]. case_decide; [by subst|].
      by rewrite (proj2 (Z.ltb_lt 0 (Z.of_nat k))), Nat2Z.id, take_take, Nat.min_id by lia.
    + intros g. rewrite O1. case_decide; [subst; by rewrite app_nil_r|done].
  - rewrite wc_fold_spec in R. cbn [andb] in R. rewrite Z.sub_0_r, !Z.add_0_l in R.
    destruct (uprintint_ok (s32 (s32 (Z.of_nat (newlines (input w fd))))) (s32_range _)) as (tl & El & Pl).
    destruct (uprintint_ok (s32 (s32 (Z.of_nat (length (words_of (input w fd)))))) (s32_range _)) as (tw & Ew & Pw).
    destruct (uprintint_ok (s32 (s32 (Z.of_nat (length (input w fd))))) (s32_range _)) as (tc & Ec & Pc).
    rewrite (s32_small (s32 _) (s32_range _)) in Pl. rewrite (s32_small (s32 _) (s32_range _)) in Pw.
    rewrite (s32_small (s32 _) (s32_range _)) in Pc.
    destruct (Ulib.run_fprintf 1 (chars "%d %d %d %s" ++ nl) [ANum (s32 (Z.of_nat (newlines (input w fd))));
      ANum (s32 (Z.of_nat (length (words_of (input w fd))))); ANum (s32 (Z.of_nat (length (input w fd)))); AStr (Some name)]
      (tl ++ [32] ++ tw ++ [32] ++ tc ++ [32] ++ name ++ [10]) w1) as (w2 & R2 & I2 & O2).
    + by rewrite wc_format, El, Ew, Ec.
    + exists w2, tl, tw, tc. split_and!; try done.
      * unfold Wc.wc. pstep_by R. exact R2.
      * intros g. rewrite O2, !O. cbn. rewrite (decide_True (P := 1 = 1)), app_nil_r by done. by case_decide.
Qed.
End Reading.

(** Ten characters, read four at a time: the second read ends inside a word. *)
Definition words_sample : @World tape_kernel := mk_tape {[0 := chars "ab cde" ++ [10] ++ chars " fg"]} ∅ 3.

Lemma cat_copies_witness : exists w', run (Cat.cat 20 0) words_sample = (Val tt, w') /\ output w' 1 = chars "ab cde" ++ [10] ++ chars " fg".
Proof.
  destruct (cat_copies 0 words_sample 20) as (w' & R & _ & O); [apply Nat.ltb_lt; by vm_compute|].
  exists w'. split; [exact R|]. rewrite O. by vm_compute.
Defined.

Lemma wc_counts_witness : exists w' tl tw tc,
  run (Wc.wc 20 0 (chars "f")) words_sample = (Val tt, w') /\ parse_int 10 tl = 1 /\ parse_int 10 tw = 3 /\ parse_int 10 tc = 10 /\
  output w' 1 = tl ++ [32] ++ tw ++ [32] ++ tc ++ [32; 102; 10].
Proof.
  destruct (wc_counts 0 words_sample 20 (chars "f")) as (w' & tl & tw & tc & R & Pl & Pw & Pc & O); [apply Nat.ltb_lt; by vm_compute|].
  exists w', tl, tw, tc. split_and!; [exact R|by rewrite Pl; vm_compute|by rewrite Pw; vm_compute|by rewrite Pc; vm_compute|exact (O 1)].
Defined.
