(* ===== verification/Sh.v ===== *)
(** * user/sh.c: the shell

    The parser works on the line buffer with [char *] pointers, here offsets into
    the buffer; the tree it builds holds the offsets of each word's start and end,
    and [nulterminate] cuts the words out of the buffer in place.  [runcmd] runs
    the tree by forking.  The proofs are in ShParse.v and ShRun.v. *)

From stdpp Require Import base list gmap strings.
From Stdlib Require Import ZArith Lia.
From S2P Require Import Prelude KString Format Usys Ulib.
Open Scope Z_scope.

Module Sh.
Import Ulib (fprintf).

Definition MAXARGS : nat := 10.

(** [struct cmd] and its five variants; [argv] and [eargv] are one list of pairs. *)
Inductive cmd :=
| EXEC (argv : list (nat * nat))
| REDIR (c : cmd) (file efile : nat) (mode fd : Z)
| PIPE (l r : cmd)
| LIST (l r : cmd)
| BACK (c : cmd).

Definition panic {A} (s : list Z) : prog A := fprintf 2 (chars "%s" ++ [10]) [AStr (Some s)] ;; exit 1.
Definition fork1 : prog Z := pid ← sysv CFork; if pid =? -1 then panic (chars "fork") else mret pid.

(** ** Running a command *)

Definition str (buf : list Z) (q : nat) : list Z := cstr (drop q buf).

Fixpoint runcmd (buf : list Z) (c : cmd) : prog unit :=
  match c with
  | EXEC [] => exit 1
  | EXEC (((a0, _) :: _) as argv) =>
      sys (CExec (str buf a0) (map (fun a => str buf a.1) argv)) ;;
      fprintf 2 (chars "exec %s failed" ++ [10]) [AStr (Some (str buf a0))] ;;
      exit 0
  | REDIR c file _ mode fd =>
      sys (CClose fd) ;;
      e ← sysv (COpen (str buf file) mode);
      if e <? 0 then fprintf 2 (chars "open %s failed" ++ [10]) [AStr (Some (str buf file))] ;; exit 1 else
      runcmd buf c
  | LIST l r =>
      pid ← fork1;
      if pid =? 0 then runcmd buf l else
      sys CWait ;;
      runcmd buf r
  | PIPE l r =>
      p ← sys CPipe;
      if r_val p <? 0 then panic (chars "pipe") else
      let p0 := nth0 (r_nums p) 0 in
      let p1 := nth0 (r_nums p) 1 in
      pid ← fork1;
      if pid =? 0 then
        sys (CClose 1) ;; sys (CDup p1) ;; sys (CClose p0) ;; sys (CClose p1) ;;
        runcmd buf l
      else
      pid ← fork1;
      if pid =? 0 then
        sys (CClose 0) ;; sys (CDup p0) ;; sys (CClose p0) ;; sys (CClose p1) ;;
        runcmd buf r
      else
      sys (CClose p0) ;; sys (CClose p1) ;;
      sys CWait ;; sys CWait ;;
      exit 0
  | BACK c =>
      pid ← fork1;
      if pid =? 0 then runcmd buf c else
      exit 0
  end.

(** ** Tokens *)

Definition whitespace : list Z := [32; 9; 13; 10; 11].
Definition symbols : list Z := chars "<|>&;()".
Definition mem (s : list Z) (c : Z) : bool := match Ulib.strchr s c with Some _ => true | None => false end.

Section Parser.
Variables (buf : list Z) (es : nat).

(** [while(s < es && p( *s)) s++]; [n] is [es - s]. *)
Fixpoint skip (p : Z -> bool) (n s : nat) : nat :=
  match n with
  | O => s
  | S n => if p (nth0 buf s) then skip p n (S s) else s
  end.
Definition skip_ws (s : nat) : nat := skip (mem whitespace) (es - s) s.

(** The token's kind, its start [q] and end [eq], and the new [*ps]. *)
Definition gettoken (s : nat) : Z * nat * nat * nat :=
  let s := skip_ws s in
  let q := s in
  let c := nth0 buf s in
  let '(ret, s) :=
    if c =? 0 then (c, s)
    else if mem (chars "|();&<") c then (c, S s)
    else if c =? 62 then if nth0 buf (S s) =? 62 then (43, S (S s)) else (c, S s)
    else (97, skip (fun c => negb (mem whitespace c) && negb (mem symbols c)) (es - s) s) in
  let eq := s in
  (ret, q, eq, skip_ws s).

Definition peek (s : nat) (toks : list Z) : bool * nat :=
  let s := skip_ws s in
  (negb (nth0 buf s =? 0) && mem toks (nth0 buf s), s).

(** ** The parser *)

Definition O_CREATE : Z := 0x200.
Definition O_TRUNC : Z := 0x400.
Definition O_WRONLY : Z := 1.

Definition parseredirs_step (st : cmd * nat) : prog (cmd * nat + cmd * nat) :=
  let '(c, s) := st in
  let '(b, s) := peek s (chars "<>") in
  if negb b then mret (inr (c, s)) else
  let '(tok, _, _, s) := gettoken s in
  let '(tok', q, eq, s) := gettoken s in
  if negb (tok' =? 97) then panic (chars "missing file for redirection") else
  if tok =? 60 then mret (inl (REDIR c q eq 0 0, s))
  else if tok =? 62 then mret (inl (REDIR c q eq (Z.lor (Z.lor O_WRONLY O_CREATE) O_TRUNC) 1, s))
  else if tok =? 43 then mret (inl (REDIR c q eq (Z.lor O_WRONLY O_CREATE) 1, s))
  else mret (inl (c, s)).
Definition parseredirs (c : cmd) (s : nat) : prog (cmd * nat) := ploop (S es) parseredirs_step (c, s).

(** [cmd->argv[argc] = q]: [cmd] is the execcmd inside the redirections of [ret]. *)
Fixpoint addarg (c : cmd) (q eq : nat) : cmd :=
  match c with
  | EXEC argv => EXEC (argv ++ [(q, eq)])
  | REDIR c file efile mode fd => REDIR (addarg c q eq) file efile mode fd
  | c => c
  end.

Definition parseexec_step (st : nat * cmd * nat) : prog (nat * cmd * nat + cmd * nat) :=
  let '(argc, ret, s) := st in
  let '(b, s) := peek s (chars "|)&;") in
  if b then mret (inr (ret, s)) else
  let '(tok, q, eq, s) := gettoken s in
  if tok =? 0 then mret (inr (ret, s)) else
  if negb (tok =? 97) then panic (chars "syntax") else
  let ret := addarg ret q eq in
  let argc := S argc in
  if (MAXARGS <=? argc)%nat then panic (chars "too many args") else
  '(ret, s) ← parseredirs ret s;
  mret (inl (argc, ret, s)).

(** [while(peek(ps, es, "&"))] of [parseline]. *)
Definition parseback_step (st : cmd * nat) : prog (cmd * nat + cmd * nat) :=
  let '(c, s) := st in
  let '(b, s) := peek s (chars "&") in
  if negb b then mret (inr (c, s)) else
  let '(_, _, _, s) := gettoken s in
  mret (inl (BACK c, s)).

Fixpoint parseline (n : nat) (s : nat) : prog (cmd * nat) :=
  match n with
  | O => PFuel
  | S n =>
      '(c, s) ← parsepipe n s;
      '(c, s) ← ploop (S es) parseback_step (c, s);
      let '(b, s) := peek s (chars ";") in
      if b then
        let '(_, _, _, s) := gettoken s in
        '(r, s) ← parseline n s;
        mret (LIST c r, s)
      else mret (c, s)
  end
with parsepipe (n : nat) (s : nat) : prog (cmd * nat) :=
  match n with
  | O => PFuel
  | S n =>
      '(c, s) ← parseexec n s;
      let '(b, s) := peek s (chars "|") in
      if b then
        let '(_, _, _, s) := gettoken s in
        '(r, s) ← parsepipe n s;
        mret (PIPE c r, s)
      else mret (c, s)
  end
with parseexec (n : nat) (s : nat) : prog (cmd * nat) :=
  match n with
  | O => PFuel
  | S n =>
      let '(b, s) := peek s (chars "(") in
      if b then parseblock n s else
      '(ret, s) ← parseredirs (EXEC []) s;
      ploop (S es) parseexec_step (O, ret, s)
  end
with parseblock (n : nat) (s : nat) : prog (cmd * nat) :=
  match n with
  | O => PFuel
  | S n =>
      let '(b, s) := peek s (chars "(") in
      if negb b then panic (chars "parseblock") else
      let '(_, _, _, s) := gettoken s in
      '(c, s) ← parseline n s;
      let '(b, s) := peek s (chars ")") in
      if negb b then panic (chars "syntax - missing )") else
      let '(_, _, _, s) := gettoken s in
      parseredirs c s
  end.
End Parser.

(** The buffer with the words of the tree cut out. *)
Fixpoint nulterminate (c : cmd) (buf : list Z) : list Z :=
  match c with
  | EXEC argv => foldl (fun b a => <[a.2 := 0]> b) buf argv
  | REDIR c _ efile _ _ => <[efile := 0]> (nulterminate c buf)
  | PIPE l r | LIST l r => nulterminate r (nulterminate l buf)
  | BACK c => nulterminate c buf
  end.

Definition parsecmd (buf : list Z) : prog (cmd * list Z) :=
  let es := Z.to_nat (Ulib.strlen buf) in
  '(c, s) ← parseline buf es (4 * es + 4) 0;
  let '(_, s) := peek buf es s [] in
  if negb (s =? es)%nat then
    fprintf 2 (chars "leftovers: %s" ++ [10]) [AStr (Some (str buf s))] ;;
    panic (chars "syntax")
  else mret (c, nulterminate c buf).

(** ** The main loop *)

Definition nbuf : Z := 100.

(** The buffer, and whether there was a line. *)
Definition getcmd : prog (option (list Z)) :=
  sys (CWrite 2 (chars "$ ")) ;;
  l ← Ulib.gets nbuf;
  let buf := l ++ replicate (Z.to_nat nbuf - length l) 0 in
  mret (if nth0 buf 0 =? 0 then None else Some buf).

(** [while((fd = open("console", O_RDWR)) >= 0)] *)
Definition console_step (_ : unit) : prog (unit + unit) :=
  fd ← sysv (COpen (chars "console") 2);
  if fd <? 0 then mret (inr tt) else
  if 3 <=? fd then sys (CClose fd) ;; mret (inr tt) else mret (inl tt).

Definition main_step (_ : unit) : prog (unit + unit) :=
  l ← getcmd;
  match l with
  | None => mret (inr tt)
  | Some buf =>
      if (nth0 buf 0 =? 99) && (nth0 buf 1 =? 100) && (nth0 buf 2 =? 32) then
        let buf := <[Z.to_nat (Ulib.strlen buf - 1) := 0]> buf in
        r ← sysv (CChdir (str buf 3));
        (if r <? 0 then fprintf 2 (chars "cannot cd %s" ++ [10]) [AStr (Some (str buf 3))] else mret tt) ;;
        mret (inl tt)
      else
        pid ← fork1;
        if pid =? 0 then '(c, buf) ← parsecmd buf; runcmd buf c ;; mret (inr tt) else
        sys CWait ;;
        mret (inl tt)
  end.

Definition main (fuel : nat) : prog unit :=
  ploop fuel console_step tt ;;
  ploop fuel main_step tt ;;
  exit 0.
End Sh.
