(* ===== verification/ShParse.v ===== *)
(** * The shell's parser accepts the grammar of commands, and builds its trees

    The reference is a tokeniser on the list of characters and a context-free
    grammar on its tokens, written without lookahead or offsets. *)

From stdpp Require Import base list gmap strings.
From Stdlib Require Import ZArith Lia.
From S2P Require Import Prelude KString Format Usys Ulib Sh.
Open Scope Z_scope.

Module ShParse.
Import Sh.

(** ** Tokens *)

(** [Sym 43], a plus, stands for [>>]. *)
Inductive tok := Sym (c : Z) | Word (w : list Z).

Definition wordch (c : Z) : bool := negb (mem whitespace c) && negb (mem symbols c).
Definition starts (p : Z -> bool) (d : list Z) : bool := match d with c :: _ => p c | [] => false end.

Fixpoint lex (d : list Z) : list tok :=
  match d with
  | [] => []
  | c :: d' =>
      let ts := lex d' in
      if mem whitespace c then ts
      else if c =? 62 then match d' with x :: d'' => if x =? 62 then Sym 43 :: lex d'' else Sym 62 :: ts | [] => [Sym 62] end
      else if mem symbols c then Sym c :: ts
      else if starts wordch d' then match ts with Word w :: ts' => Word (c :: w) :: ts' | _ => [] end
      else Word [c] :: ts
  end.

(** ** The grammar *)

(** Commands with their words, and the redirections [<], [>] and [>>]. *)
Inductive scmd :=
| SExec (argv : list (list Z))
| SRedir (c : scmd) (file : list Z) (mode fd : Z)
| SPipe (l r : scmd)
| SList (l r : scmd)
| SBack (c : scmd).

Inductive redir : Z -> Z -> Z -> Prop :=
| redir_in : redir 60 0 0
| redir_out : redir 62 0x601 1
| redir_app : redir 43 0x201 1.

(** A command and redirections after it. *)
Inductive redirs (c : scmd) : list tok -> scmd -> Prop :=
| redirs_none : redirs c [] c
| redirs_more k mode fd f ts d : redir k mode fd -> redirs (SRedir c f mode fd) ts d -> redirs c (Sym k :: Word f :: ts) d.

(** An argument goes to the command inside the redirections. *)
Fixpoint sarg (c : scmd) (w : list Z) : scmd :=
  match c with
  | SExec argv => SExec (argv ++ [w])
  | SRedir c f mode fd => SRedir (sarg c w) f mode fd
  | c => c
  end.

(** Words and redirections in any order, [n] words at most. *)
Inductive simple : nat -> scmd -> list tok -> scmd -> Prop :=
| simple_none n c : simple n c [] c
| simple_word n c w ts d : simple n (sarg c w) ts d -> simple (S n) c (Word w :: ts) d
| simple_redir n c k mode fd f ts d : redir k mode fd -> simple n (SRedir c f mode fd) ts d -> simple n c (Sym k :: Word f :: ts) d.

Fixpoint backs (n : nat) (c : scmd) : scmd := match n with O => c | S n => backs n (SBack c) end.

(** [|] 124, [&] 38, [;] 59, parentheses 40 and 41. *)
Inductive line : list tok -> scmd -> Prop :=
| line_end p c n : pipe p c -> line (p ++ replicate n (Sym 38)) (backs n c)
| line_more p c n ts d : pipe p c -> line ts d -> line (p ++ replicate n (Sym 38) ++ Sym 59 :: ts) (SList (backs n c) d)
with pipe : list tok -> scmd -> Prop :=
| pipe_end e c : exec e c -> pipe e c
| pipe_more e c ts d : exec e c -> pipe ts d -> pipe (e ++ Sym 124 :: ts) (SPipe c d)
with exec : list tok -> scmd -> Prop :=
| exec_block ts c rs d : line ts c -> redirs c rs d -> exec (Sym 40 :: ts ++ Sym 41 :: rs) d
| exec_simple ts d : simple (MAXARGS - 1) (SExec []) ts d -> exec ts d.

Scheme line_ind' := Induction for line Sort Prop
with pipe_ind' := Induction for pipe Sort Prop
with exec_ind' := Induction for exec Sort Prop.
Combined Scheme grammar_ind from line_ind', pipe_ind', exec_ind'.

(** The words of a tree in the buffer. *)
Fixpoint words (word : nat * nat -> list Z) (c : cmd) : scmd :=
  match c with
  | EXEC argv => SExec (map word argv)
  | REDIR c q eq mode fd => SRedir (words word c) (word (q, eq)) mode fd
  | PIPE l r => SPipe (words word l) (words word r)
  | LIST l r => SList (words word l) (words word r)
  | BACK c => SBack (words word c)
  end.

(** ** Characters *)

Lemma mem_elem s c : Forall (fun x => x <> 0) s -> mem s c = bool_decide (c ∈ s).
Proof.
  intros Hs. unfold mem. destruct (Ulib.strchr s c) as [i|] eqn:E; symmetry.
  - destruct (Ulib.strchr_Some _ _ _ E) as (Hi & _). apply bool_decide_eq_true. by eapply list_elem_of_lookup_2.
  - pose proof (Ulib.strchr_None _ _ E Hs) as Hn. apply bool_decide_eq_false. rewrite Forall_forall in Hn. intros Hc. by apply (Hn c).
Qed.

Lemma mem_sub s1 s2 c : Forall (fun x => mem s2 x = true) s1 -> mem s1 c = true -> mem s2 c = true.
Proof.
  intros Hs. unfold mem at 1. destruct (Ulib.strchr s1 c) as [i|] eqn:E; [|done]. intros _.
  destruct (Ulib.strchr_Some _ _ _ E) as (Hi & _). by apply (Forall_lookup_1 _ _ _ _ Hs Hi).
Qed.

(** The blanks and the symbols are different characters. *)
Lemma ws_not_sym c : mem whitespace c = true -> mem symbols c = false.
Proof.
  intros H. unfold mem in H. destruct (Ulib.strchr whitespace c) as [i|] eqn:E; [|done].
  destruct (Ulib.strchr_Some _ _ _ E) as (Hi & _). unfold whitespace in Hi. by do 5 (destruct i as [|i]; [by simplify_eq/=|]).
Qed.

Lemma strlen_app0 l r : Forall (fun c => c <> 0) l -> Ulib.strlen (l ++ 0 :: r) = Z.of_nat (length l).
Proof. induction 1 as [|c l Hc Hl IH]; [done|]. cbn [app Ulib.strlen length]. rewrite (proj2 (Z.eqb_neq c 0) Hc), IH. lia. Qed.

(** ** The tokeniser *)

Lemma lex_ws x d : Forall (fun c => mem whitespace c = true) x -> lex (x ++ d) = lex d.
Proof. induction 1 as [|c x Hc Hx IH]; [done|]. cbn [app lex]. by rewrite Hc. Qed.

Lemma wordch_62 c : wordch c = true -> (c =? 62) = false.
Proof. intros H. destruct (Z.eqb_spec c 62); [subst; by vm_compute in H|done]. Qed.

Lemma lex_word c x d :
  wordch c = true -> Forall (fun c => wordch c = true) x -> starts wordch d = false -> lex (c :: x ++ d) = Word (c :: x) :: lex d.
Proof.
  intros Hc Hx Hd. revert c Hc. induction Hx as [|b x Hb Hx IH]; intros c Hc; pose proof (wordch_62 c Hc) as Hg;
    unfold wordch in Hc; apply andb_true_iff in Hc as [H1 H2]; rewrite negb_true_iff in H1, H2.
  - cbn [app lex]. by rewrite H1, Hg, H2, Hd.
  - cbn [app]. change (lex (c :: b :: x ++ d)) with (let ts := lex (b :: x ++ d) in
      if mem whitespace c then ts else if c =? 62 then if b =? 62 then Sym 43 :: lex (x ++ d) else Sym 62 :: ts
      else if mem symbols c then Sym c :: ts
      else if wordch b then match ts with Word w :: ts' => Word (c :: w) :: ts' | _ => [] end else Word [c] :: ts).
    rewrite (IH b Hb). cbv zeta. by rewrite H1, Hg, H2, Hb.
Qed.

Lemma span (p : Z -> bool) d : exists x y, d = x ++ y /\ Forall (fun c => p c = true) x /\ starts p y = false.
Proof.
  induction d as [|c d (x & y & -> & Hx & Hy)]; [by exists [], []|]. destruct (p c) eqn:E; [|by exists [], (c :: x ++ y)].
  exists (c :: x), y. split_and!; [done|by constructor|done].
Qed.

Definition peeks (toks : list Z) (ts : list tok) : bool :=
  match ts with Sym c :: _ => mem toks (if c =? 43 then 62 else c) | _ => false end.

Lemma lex_peeks toks c d :
  Forall (fun c => mem symbols c = true) toks -> mem whitespace c = false -> peeks toks (lex (c :: d)) = mem toks c /\ lex (c :: d) <> [].
Proof.
  intros Ht Hw. destruct (mem symbols c) eqn:Es.
  - cbn [lex]. rewrite Hw, Es. destruct (Z.eqb_spec c 62) as [->|].
    + destruct d as [|x d]; [done|]. by destruct (x =? 62).
    + cbn. destruct (Z.eqb_spec c 43); [subst; by vm_compute in Es|done].
  - destruct (span wordch d) as (x & y & -> & Hx & Hy).
    rewrite lex_word; [|by unfold wordch; rewrite Hw, Es|done|done]. split; [|done]. cbn. symmetry.
    apply not_true_iff_false. intros Hm. by rewrite (mem_sub _ _ _ Ht Hm) in Es.
Qed.

Lemma lex_length d : (length (lex d) <= length d)%nat.
Proof.
  cut (forall n d, (length d <= n)%nat -> (length (lex d) <= length d)%nat); [intros H; by apply (H (length d))|].
  clear d. induction n as [|n IH]; intros [|c d] Hn; cbn [length] in Hn |- *; try (cbn; lia).
  pose proof (IH d ltac:(lia)). cbn [lex]. destruct (mem whitespace c); [lia|]. destruct (c =? 62).
  - destruct d as [|x d]; [done|]. pose proof (IH d ltac:(cbn in Hn; lia)). destruct (x =? 62); cbn [length] in *; lia.
  - destruct (mem symbols c); [cbn; lia|]. destruct (starts wordch d); [|cbn; lia]. destruct (lex d) as [|[]]; cbn in *; lia.
Qed.

(** ** The equations of the parser *)

Lemma parseline_S buf es n s : parseline buf es (S n) s =
  ('(c, s) ← parsepipe buf es n s;
   '(c, s) ← ploop (S es) (parseback_step buf es) (c, s);
   let '(b, s) := peek buf es s (chars ";") in
   if b then let '(_, _, _, s) := gettoken buf es s in '(r, s) ← parseline buf es n s; mret (LIST c r, s) else mret (c, s)).
Proof. reflexivity. Qed.
Lemma parsepipe_S buf es n s : parsepipe buf es (S n) s =
  ('(c, s) ← parseexec buf es n s;
   let '(b, s) := peek buf es s (chars "|") in
   if b then let '(_, _, _, s) := gettoken buf es s in '(r, s) ← parsepipe buf es n s; mret (PIPE c r, s) else mret (c, s)).
Proof. reflexivity. Qed.
Lemma parseexec_S buf es n s : parseexec buf es (S n) s =
  (let '(b, s) := peek buf es s (chars "(") in
   if b then parseblock buf es n s else
   '(ret, s) ← parseredirs buf es (EXEC []) s; ploop (S es) (parseexec_step buf es) (O, ret, s)).
Proof. reflexivity. Qed.
Lemma parseblock_S buf es n s : parseblock buf es (S n) s =
  (let '(b, s) := peek buf es s (chars "(") in
   if negb b then panic (chars "parseblock") else
   let '(_, _, _, s) := gettoken buf es s in
   '(c, s) ← parseline buf es n s;
   let '(b, s) := peek buf es s (chars ")") in
   if negb b then panic (chars "syntax - missing )") else
   let '(_, _, _, s) := gettoken buf es s in
   parseredirs buf es c s).
Proof. reflexivity. Qed.

(** ** Offsets into the buffer *)

Section Pos.
Variables (text rest : list Z).
Hypothesis Htext : Forall (fun c => c <> 0) text.
Let buf : list Z := text ++ 0 :: rest.
Let es : nat := length text.

(** [s] is in the line and [ts] are the tokens after it. *)
Definition at_ (s : nat) (ts : list tok) : Prop := (s <= es)%nat /\ lex (drop s text) = ts.

(** [q] to [eq] is a word, and what follows is not part of one. *)
Definition word_at (a : nat * nat) : Prop :=
  (a.1 < a.2 <= es)%nat /\ Forall (fun c => wordch c = true) (take (a.2 - a.1) (drop a.1 text)) /\ starts wordch (drop a.2 text) = false.
Definition slice (a : nat * nat) : list Z := take (a.2 - a.1) (drop a.1 text).

Lemma nth0_text s c d : drop s text = c :: d -> nth0 buf s = c /\ (s < es)%nat /\ drop (S s) text = d.
Proof.
  intros E. assert (Hs : text !! s = Some c) by (pose proof (lookup_drop text s 0) as H; rewrite E, Nat.add_0_r in H; by rewrite <- H).
  split_and!; [|by eapply lookup_lt_Some|].
  - unfold nth0, buf. rewrite lookup_app_l by (by eapply lookup_lt_Some). by rewrite Hs.
  - rewrite <- Nat.add_1_r, <- drop_drop, E. done.
Qed.

Lemma nth0_end : nth0 buf es = 0.
Proof. unfold nth0, buf, es. by rewrite lookup_app_r, Nat.sub_diag. Qed.

Lemma text_nonzero s c d : drop s text = c :: d -> c <> 0.
Proof. intros E. pose proof (Forall_drop _ s _ Htext) as H. rewrite E in H. by apply Forall_cons in H as [? _]. Qed.

Lemma skip_spec p n : forall s, (s + n = es)%nat ->
  exists x y, drop s text = x ++ y /\ Forall (fun c => p c = true) x /\ starts p y = false /\
    skip buf p n s = (s + length x)%nat /\ (s + length x <= es)%nat /\ drop (s + length x) text = y.
Proof.
  induction n as [|n IH]; intros s Hs.
  - exists [], []. assert (E : drop s text = []) by (apply drop_ge; unfold es in Hs; lia). cbn. rewrite Nat.add_0_r, E. split_and!; auto; lia.
  - destruct (drop s text) as [|c d] eqn:E.
    { apply (f_equal length) in E. rewrite length_drop in E. cbn in E. unfold es in Hs. lia. }
    destruct (nth0_text _ _ _ E) as (Hc & Hlt & Hd). cbn [skip]. rewrite Hc. destruct (p c) eqn:Ep.
    + destruct (IH (S s) ltac:(lia)) as (x & y & Ex & Hx & Hy & Hk & Hle & Hdrop). rewrite Hd in Ex.
      exists (c :: x), y. cbn [length app]. rewrite <- Nat.add_succ_comm. split_and!; auto; first [by rewrite Ex|by constructor].
    + exists [], (c :: d). rewrite Nat.add_0_r. split_and!; auto; lia.
Qed.

Lemma skip_ws_spec s ts : at_ s ts ->
  at_ (skip_ws buf es s) ts /\ starts (mem whitespace) (drop (skip_ws buf es s) text) = false.
Proof.
  intros [Hs Hl]. destruct (skip_spec (mem whitespace) (es - s) s ltac:(lia)) as (x & y & Ex & Hx & Hy & Hk & Hle & Hd).
  unfold skip_ws. rewrite Hk, Hd. split; [|done]. split; [done|]. rewrite Hd, <- Hl, Ex. by rewrite lex_ws.
Qed.

(** The first token, at an offset that is not blank. *)
Lemma lex_cases s : (s <= es)%nat -> starts (mem whitespace) (drop s text) = false ->
  (s = es /\ lex (drop s text) = [] /\ nth0 buf s = 0) \/
  (exists c d, drop s text = c :: d /\ nth0 buf s = c /\ c <> 0 /\ (s < es)%nat /\ drop (S s) text = d /\ mem whitespace c = false).
Proof.
  intros Hs Hw. destruct (drop s text) as [|c d] eqn:E; [left|right].
  - apply (f_equal length) in E as El. rewrite length_drop in El. cbn in El. assert (s = es) as -> by (unfold es; unfold es in Hs; lia).
    by rewrite nth0_end.
  - destruct (nth0_text _ _ _ E) as (Hc & Hlt & Hd). exists c, d. split_and!; auto. by eapply text_nonzero.
Qed.

Lemma sym_kind c : mem symbols c = true -> c <> 62 -> mem (chars "|();&<") c = true.
Proof.
  rewrite !mem_elem by (repeat constructor; done). rewrite !bool_decide_eq_true. intros H Hne.
  assert (E : c ∈ chars "|();&<>") by (revert H; unfold symbols; cbn; set_solver). revert E. cbn. set_solver.
Qed.

Lemma peek_spec s ts toks :
  at_ s ts -> Forall (fun c => mem symbols c = true) toks ->
  exists s', peek buf es s toks = (peeks toks ts, s') /\ at_ s' ts /\ (s' = es <-> ts = []).
Proof.
  intros Hat Ht. destruct (skip_ws_spec s ts Hat) as [[Hle Hlex] Hw]. unfold peek. set (s' := skip_ws buf es s) in *.
  exists s'. destruct (lex_cases s' Hle Hw) as [(E & El & En)|(c & d & E & En & Hnz & Hlt & Hd & Hc)].
  - rewrite Hlex in El. rewrite En, El. by split_and!; [|split; [|by rewrite Hlex]|].
  - rewrite En, (proj2 (Z.eqb_neq c 0) Hnz). cbn [negb andb]. destruct (lex_peeks toks c d Ht Hc) as [Hp Hne].
    rewrite <- E, Hlex in Hp, Hne. rewrite Hp. split_and!; [done|done|]. split; [lia|done].
Qed.

Lemma gettoken_end s : at_ s [] -> exists q eq s', gettoken buf es s = (0, q, eq, s') /\ at_ s' [].
Proof.
  intros Hat. destruct (skip_ws_spec s [] Hat) as [[Hle Hlex] Hw]. unfold gettoken. cbv zeta. set (s' := skip_ws buf es s) in *.
  destruct (lex_cases s' Hle Hw) as [(E & El & En)|(c & d & E & En & Hnz & Hlt & Hd & Hc)].
  - rewrite En. cbn. eexists _, _, _. split; [done|]. by apply skip_ws_spec.
  - destruct (lex_peeks [] c d ltac:(constructor) Hc) as [_ Hne]. by rewrite <- E, Hlex in Hne.
Qed.

Definition kind (t : tok) : Z := match t with Sym c => c | Word _ => 97 end.
Definition is_word (t : tok) (a : nat * nat) : Prop := match t with Word w => word_at a /\ slice a = w | Sym c => c <> 97 /\ c <> 0 end.

Lemma at_skip s ts : (s <= es)%nat -> lex (drop s text) = ts -> at_ (skip_ws buf es s) ts.
Proof. intros Hs Hl. by apply skip_ws_spec. Qed.

Lemma gettoken_spec s t ts : at_ s (t :: ts) ->
  exists q eq s', gettoken buf es s = (kind t, q, eq, s') /\ at_ s' ts /\ is_word t (q, eq).
Proof.
  intros Hat. destruct (skip_ws_spec s _ Hat) as [[Hle Hlex] Hw]. unfold gettoken. cbv zeta. set (s' := skip_ws buf es s) in *.
  destruct (lex_cases s' Hle Hw) as [(E & El & En)|(c & d & E & En & Hnz & Hlt & Hd & Hc)]; [by rewrite Hlex in El|].
  rewrite En, (proj2 (Z.eqb_neq c 0) Hnz). rewrite E in Hlex. cbn [lex] in Hlex. rewrite Hc in Hlex.
  destruct (Z.eqb_spec c 62) as [->|Hne].
  - change (mem (chars "|();&<") 62) with false. cbv iota. change (62 =? 62) with true. cbv iota.
    destruct d as [|x d].
    + assert (S s' = es) by (apply (f_equal length) in Hd; rewrite length_drop in Hd; cbn in Hd; unfold es in *; lia).
      replace (S s') with es by lia. rewrite nth0_end. simplify_eq. eexists _, _, _. split; [done|].
      split; [apply at_skip; [lia|by rewrite drop_ge by (unfold es; lia)]|done].
    + destruct (nth0_text _ _ _ Hd) as (-> & Hlt' & Hd'). destruct (x =? 62); simplify_eq; eexists _, _, _; (split; [done|]).
      * split; [by apply at_skip; [lia|]|done].
      * split; [by apply at_skip; [lia|rewrite Hd]|done].
  - destruct (mem symbols c) eqn:Es.
    + rewrite (sym_kind c Es Hne). simplify_eq. eexists _, _, _. split; [done|]. split; [by apply at_skip; [lia|]|].
      cbn. split; [|done]. intros E97. rewrite E97 in Es. by vm_compute in Es.
    + assert (Hm : mem (chars "|();&<") c = false).
      { apply not_true_iff_false. intros Hm. rewrite (mem_sub (chars "|();&<") symbols c ltac:(by repeat constructor) Hm) in Es. done. }
      rewrite Hm. destruct (skip_spec wordch (es - s') s' ltac:(lia)) as (w & y & Ew & Hwd & Hy & Hk & Hle' & Hd').
      change (fun c => negb (mem whitespace c) && negb (mem symbols c)) with wordch. rewrite Hk.
      assert (Hwc : wordch c = true) by (unfold wordch; by rewrite Hc, Es).
      rewrite E in Ew. destruct w as [|b w]; [cbn in Ew; subst y; cbn in Hy; congruence|]. cbn [app] in Ew. injection Ew as <- Ew.
      assert (Hl : Word (c :: w) :: lex y = t :: ts).
      { rewrite <- (lex_word c w y), <- Ew by (done || by apply Forall_cons in Hwd as [_ ?]). cbn [lex]. by rewrite Hc, (proj2 (Z.eqb_neq c 62) Hne), Es. }
      injection Hl as <- <-. eexists _, _, _. split; [done|]. split; [by apply at_skip; [lia|rewrite Hd']|]. cbn [is_word].
      assert (Et : take (s' + length (c :: w) - s') (drop s' text) = c :: w).
      { rewrite E, Ew. replace (s' + length (c :: w) - s')%nat with (length (c :: w)) by lia. exact (take_app_length (c :: w) y). }
      unfold word_at, slice. cbn [fst snd]. rewrite Et, Hd'. split; [|done]. split_and!; try done; cbn [length] in *; lia.
Qed.

(** ** What the parsing functions do *)

#[local] Abbreviation W := (words slice).
Fixpoint wordy (c : cmd) : Prop :=
  match c with
  | EXEC argv => Forall word_at argv
  | REDIR c q eq _ _ => wordy c /\ word_at (q, eq)
  | PIPE l r | LIST l r => wordy l /\ wordy r
  | BACK c => wordy c
  end.

(** The program writes a message to descriptor 2 and exits with status 1. *)
Inductive dies {A} : prog A -> Prop :=
| dies_exit : dies (PExit 1)
| dies_write bs k : (forall r, dies (k r)) -> dies (PSys (CWrite 2 bs) k).

Lemma dies_bind {A B} (p : prog A) (f : A -> prog B) : dies p -> dies (p ≫= f).
Proof. induction 1; constructor; auto. Qed.

Lemma dies_fprintf {A} fmt args out (p : prog A) : UPrintf.vprintf fmt args = Some out -> dies p -> dies (Ulib.fprintf 2 fmt args ;; p).
Proof.
  intros E Hp. unfold Ulib.fprintf. rewrite E. clear E. induction out as [|c out IH]; [done|]. cbn. constructor. intros _. exact IH.
Qed.

Lemma dies_panic {A} s : dies (panic (A := A) s).
Proof. by eapply (dies_fprintf _ _ (s ++ [10])); [|constructor]. Qed.

(** [p] returns a value that satisfies [P], or dies. *)
Definition good {A} (p : prog A) (P : A -> Prop) : Prop := dies p \/ exists a, p = mret a /\ P a.

Lemma good_ret {A} (a : A) (P : A -> Prop) : P a -> good (mret a) P.
Proof. intros H. right. by exists a. Qed.
Lemma good_panic {A} s (P : A -> Prop) : good (panic s) P.
Proof. left. apply dies_panic. Qed.
Lemma good_bind {A B} (p : prog A) (f : A -> prog B) P Q : good p P -> (forall a, P a -> good (f a) Q) -> good (p ≫= f) Q.
Proof. intros [H|(a & -> & H)] Hf; [left; by apply dies_bind|]. by apply Hf. Qed.

Lemma ret_bind {A B} (a : A) (f : A -> prog B) : mret a ≫= f = f a.
Proof. reflexivity. Qed.
Lemma bind_ret_inv {A B} (f : A -> prog B) p b : p ≫= f = mret b -> exists a, p = mret a /\ f a = mret b.
Proof. destruct p; cbn; intros H; try done. by exists a. Qed.

(** *** Redirections *)

Lemma redir_toks ts : peeks (chars "<>") ts = true -> exists k mode fd ts', ts = Sym k :: ts' /\ redir k mode fd.
Proof.
  destruct ts as [|[c|w] ts]; [done| |done]. cbn -[mem]. intros H. destruct (Z.eqb_spec c 43) as [->|Hc].
  - eexists _, _, _, _. split; [done|constructor].
  - rewrite mem_elem in H by (repeat constructor; done). apply bool_decide_eq_true in H. cbn in H.
    rewrite !elem_of_cons, elem_of_nil in H. destruct H as [->|[->|[]]]; eexists _, _, _, _; (split; [done|constructor]).
Qed.
Lemma redir_peeks k mode fd ts : redir k mode fd -> peeks (chars "<>") (Sym k :: ts) = true.
Proof. by destruct 1. Qed.

Lemma syms_ok toks : forallb (mem symbols) toks = true -> Forall (fun c => mem symbols c = true) toks.
Proof. intros H. apply Forall_forall. rewrite forallb_forall in H. intros x Hx. apply H. by apply list_elem_of_In. Qed.

Ltac peek_as s Hat b s' :=
  let E := fresh "Ep" in let H := fresh Hat in let Hes := fresh "Hes" in
  destruct (peek_spec s _ b Hat) as (s' & E & H & Hes); [by apply syms_ok|]; rewrite E; cbv iota beta.

Lemma redirs_step_end c s ts : at_ s ts -> peeks (chars "<>") ts = false ->
  exists s', parseredirs_step buf es (c, s) = mret (inr (c, s')) /\ at_ s' ts.
Proof. intros Hat Hp. unfold parseredirs_step. peek_as s Hat (chars "<>") s'. rewrite Hp. by exists s'. Qed.

Lemma redirs_step_more c s k mode fd f ts : at_ s (Sym k :: Word f :: ts) -> redir k mode fd ->
  exists q eq s', parseredirs_step buf es (c, s) = mret (inl (REDIR c q eq mode fd, s')) /\ at_ s' ts /\ word_at (q, eq) /\ slice (q, eq) = f.
Proof.
  intros Hat Hr. unfold parseredirs_step. peek_as s Hat (chars "<>") s1. rewrite (redir_peeks _ _ _ _ Hr). cbn [negb].
  destruct (gettoken_spec _ _ _ Hat0) as (q1 & eq1 & s2 & -> & Hat2 & _). destruct (gettoken_spec _ _ _ Hat2) as (q & eq & s3 & -> & Hat3 & Hw & Hsl).
  exists q, eq, s3. split; [|done]. by destruct Hr.
Qed.

Lemma redirs_step_bad c s k mode fd ts : at_ s (Sym k :: ts) -> redir k mode fd -> (forall f ts', ts <> Word f :: ts') ->
  dies (parseredirs_step buf es (c, s)).
Proof.
  intros Hat Hr Hno. unfold parseredirs_step. peek_as s Hat (chars "<>") s1. rewrite (redir_peeks _ _ _ _ Hr). cbn [negb].
  destruct (gettoken_spec _ _ _ Hat0) as (q1 & eq1 & s2 & -> & Hat2 & _). destruct ts as [|[c'|f] ts]; [| |by destruct (Hno f ts)].
  - destruct (gettoken_end _ Hat2) as (q & eq & s3 & -> & _). apply dies_panic.
  - destruct (gettoken_spec _ _ _ Hat2) as (q & eq & s3 & -> & _ & Hk & _). cbn [kind]. rewrite (proj2 (Z.eqb_neq c' 97) Hk). apply dies_panic.
Qed.

Lemma redirs_sound n : forall c s ts, at_ s ts -> wordy c -> (length ts < n)%nat ->
  good (ploop n (parseredirs_step buf es) (c, s)) (fun '(c', s') => exists pre ts',
    ts = pre ++ ts' /\ redirs (W c) pre (W c') /\ at_ s' ts' /\ wordy c' /\ peeks (chars "<>") ts' = false).
Proof.
  induction n as [|n IH]; intros c s ts Hat Hc Hn; [lia|]. cbn [ploop]. destruct (peeks (chars "<>") ts) eqn:Hp.
  - destruct (redir_toks ts Hp) as (k & mode & fd & ts1 & -> & Hr). destruct ts1 as [|[c1|f] ts2].
    1, 2: left; apply dies_bind; eapply redirs_step_bad; by eauto.
    destruct (redirs_step_more c s k mode fd f ts2 Hat Hr) as (q & eq & s' & -> & Hat' & Hw & Hsl).
    eapply good_bind; [by apply (good_ret _ (fun r => r = inl (REDIR c q eq mode fd, s')))|]. intros _ ->.
    specialize (IH (REDIR c q eq mode fd) s' ts2 Hat' (conj Hc Hw) ltac:(cbn in Hn; lia)).
    destruct IH as [IH|([c' s''] & -> & pre & ts' & -> & Hrs & IH)]; [by left|]. right. eexists. split; [done|].
    exists (Sym k :: Word f :: pre), ts'. split_and!; [done| |apply IH..]. eapply redirs_more; [done|]. cbn [words] in Hrs. by rewrite Hsl in Hrs.
  - destruct (redirs_step_end c s ts Hat Hp) as (s' & -> & Hat'). apply good_ret. exists [], ts. split_and!; try done. constructor.
Qed.

Lemma redirs_complete c0 pre d : redirs c0 pre d -> forall n c s r, c0 = W c -> at_ s (pre ++ r) -> wordy c -> peeks (chars "<>") r = false ->
  (length pre < n)%nat -> exists c' s', ploop n (parseredirs_step buf es) (c, s) = mret (c', s') /\ W c' = d /\ at_ s' r /\ wordy c'.
Proof.
  induction 1 as [c0|c0 k mode fd f ts d Hr Hrs IH]; intros [|n] c s r -> Hat Hc Hp Hn; try lia; cbn [ploop].
  - destruct (redirs_step_end c s r Hat Hp) as (s' & -> & Hat'). by exists c, s'.
  - destruct (redirs_step_more c s k mode fd f (ts ++ r) Hat Hr) as (q & eq & s' & -> & Hat' & Hw & Hsl).
    destruct (IH n (REDIR c q eq mode fd) s' r) as (c' & s'' & E & H); [cbn [words]; by rewrite Hsl|done|done|done|cbn in Hn; lia|].
    exists c', s''. split; [|done]. exact E.
Qed.

(** Enough turns for any loop: there are no more tokens than characters. *)
Lemma at_length s ts : at_ s ts -> (length ts < S es)%nat.
Proof. intros [Hs <-]. pose proof (lex_length (drop s text)) as H. rewrite length_drop in H. unfold es. lia. Qed.

(** *** Simple commands *)

Lemma words_addarg c q eq : W (addarg c q eq) = sarg (W c) (slice (q, eq)).
Proof. induction c; cbn [addarg words sarg]; [by rewrite map_app|by rewrite IHc|done..]. Qed.
Lemma wordy_addarg c q eq : wordy c -> word_at (q, eq) -> wordy (addarg c q eq).
Proof.
  induction c; cbn [addarg wordy]; intros Hc Hw; try done; [apply Forall_app; split; [done|by constructor]|]. destruct Hc. auto.
Qed.

Lemma simple_redirs n c pre c' ts d : redirs c pre c' -> simple n c' ts d -> simple n c (pre ++ ts) d.
Proof. induction 1; intros Hs; [done|]. cbn. econstructor; [done|]. auto. Qed.

(** What stops a simple command. *)
Definition ends_exec (r : list tok) : Prop := r = [] \/ peeks (chars "|)&;") r = true.

Lemma exec_step_end argc c s r : at_ s r -> ends_exec r -> exists s', parseexec_step buf es (argc, c, s) = mret (inr (c, s')) /\ at_ s' r.
Proof.
  intros Hat He. unfold parseexec_step. peek_as s Hat (chars "|)&;") s1. destruct He as [->|Hp].
  - cbn [peeks]. destruct (gettoken_end _ Hat0) as (q & eq & s2 & -> & Hat2). by exists s2.
  - rewrite Hp. by exists s1.
Qed.

Lemma exec_step_word argc c s w ts : at_ s (Word w :: ts) -> exists q eq s', word_at (q, eq) /\ slice (q, eq) = w /\ at_ s' ts /\
  parseexec_step buf es (argc, c, s) =
  if (MAXARGS <=? S argc)%nat then panic (chars "too many args") else
  '(ret, s) ← parseredirs buf es (addarg c q eq) s'; mret (inl (S argc, ret, s)).
Proof.
  intros Hat. unfold parseexec_step. peek_as s Hat (chars "|)&;") s1. cbn [peeks].
  destruct (gettoken_spec _ _ _ Hat0) as (q & eq & s2 & -> & Hat2 & Hw & Hsl). by exists q, eq, s2.
Qed.

Lemma exec_step_bad argc c s k ts : at_ s (Sym k :: ts) -> peeks (chars "|)&;") (Sym k :: ts) = false -> dies (parseexec_step buf es (argc, c, s)).
Proof.
  intros Hat Hp. unfold parseexec_step. peek_as s Hat (chars "|)&;") s1. rewrite Hp.
  destruct (gettoken_spec _ _ _ Hat0) as (q & eq & s2 & -> & _ & Hk & Hz). cbn [kind].
  rewrite (proj2 (Z.eqb_neq k 0) Hz), (proj2 (Z.eqb_neq k 97) Hk). apply dies_panic.
Qed.

Lemma exec_loop_sound n : forall argc c s ts, at_ s ts -> wordy c -> (argc < MAXARGS)%nat -> (length ts < n)%nat ->
  good (ploop n (parseexec_step buf es) (argc, c, s)) (fun '(c', s') => exists pre ts',
    ts = pre ++ ts' /\ simple (MAXARGS - 1 - argc) (W c) pre (W c') /\ at_ s' ts' /\ wordy c').
Proof.
  induction n as [|n IH]; intros argc c s ts Hat Hc Hargc Hn; [lia|]. cbn [ploop].
  destruct (decide (ends_exec ts)) as [He|He].
  - destruct (exec_step_end argc c s ts Hat He) as (s' & -> & Hat'). apply good_ret. exists [], ts. split_and!; try done. constructor.
  - destruct ts as [|[k|w] ts]; [by destruct He; left| |].
    { left. apply dies_bind. apply (exec_step_bad argc c s k ts Hat). apply not_true_iff_false. intros Hp. apply He. by right. }
    destruct (exec_step_word argc c s w ts Hat) as (q & eq & s' & Hw & Hsl & Hat' & ->).
    destruct (Nat.leb_spec MAXARGS (S argc)) as [Hm|Hm]; [left; apply dies_bind, dies_panic|].
    destruct (redirs_sound (S es) (addarg c q eq) s' ts Hat' (wordy_addarg _ _ _ Hc Hw) (at_length _ _ Hat'))
      as [Hd|([c' s''] & E & pre & ts' & -> & Hrs & Hat'' & Hc' & _)]; unfold parseredirs.
    + left. by do 2 apply dies_bind.
    + rewrite E. cbn [length] in Hn. rewrite length_app in Hn.
      destruct (IH (S argc) c' s'' ts' Hat'' Hc' Hm ltac:(lia)) as [Hd|([c2 s2] & E2 & pre2 & ts2 & -> & Hs & Hat2 & Hc2)]; [by left|].
      right. exists (c2, s2). split; [exact E2|]. exists (Word w :: pre ++ pre2), ts2. split_and!; [cbn; by rewrite <- app_assoc| |done|done].
      replace (MAXARGS - 1 - argc)%nat with (S (MAXARGS - 1 - S argc)) by lia. constructor. rewrite words_addarg, Hsl in Hrs.
      by eapply simple_redirs.
Qed.

(** The redirections before the first word. *)
Lemma simple_split n c pre d : simple n c pre d -> exists r1 c' pre', pre = r1 ++ pre' /\ redirs c r1 c' /\ simple n c' pre' d /\
  (pre' = [] /\ c' = d \/ exists m w ts, n = S m /\ pre' = Word w :: ts /\ simple m (sarg c' w) ts d).
Proof.
  induction 1 as [n c|n c w ts d Hs _|n c k mode fd f ts d Hr Hs (r1 & c' & pre' & -> & Hrs & Hs' & Hcase)].
  - exists [], c, []. split_and!; [done|constructor|constructor|by left].
  - exists [], c, (Word w :: ts). split_and!; [done|constructor|by constructor|]. right. by eexists _, _, _.
  - exists (Sym k :: Word f :: r1), c', pre'. split_and!; [done|by econstructor|done|done].
Qed.

Lemma ends_exec_redir r : ends_exec r -> peeks (chars "<>") r = false.
Proof.
  intros [->|H]; [done|]. apply not_true_iff_false. intros Hp. destruct (redir_toks r Hp) as (k & mode & fd & ts & -> & Hr).
  by destruct Hr.
Qed.

Lemma exec_loop_complete m : forall n argc c s pre d r,
  (length pre <= m)%nat -> simple (MAXARGS - 1 - argc) (W c) pre d -> at_ s (pre ++ r) -> wordy c -> ends_exec r -> (argc < MAXARGS)%nat ->
  (length pre < n)%nat ->
  exists c' s', ('(ret, s) ← parseredirs buf es c s; ploop n (parseexec_step buf es) (argc, ret, s)) = mret (c', s') /\
    W c' = d /\ at_ s' r /\ wordy c'.
Proof.
  induction m as [|m IH]; intros n argc c s pre d r Hm Hs Hat Hc He Hargc Hn.
  all: destruct (simple_split _ _ _ _ Hs) as (r1 & d1 & pre' & -> & Hrs & Hs' & Hcase); rewrite length_app in Hm, Hn.
  all: rewrite <- app_assoc in Hat.
  all: assert (Hp : peeks (chars "<>") (pre' ++ r) = false)
    by (destruct Hcase as [[-> _]|(? & ? & ? & _ & -> & _)]; [by apply ends_exec_redir|done]).
  all: destruct (redirs_complete (W c) r1 d1 Hrs (S es) c s (pre' ++ r) eq_refl Hat Hc Hp) as (c1 & s1 & E1 & Hd1 & Hat1 & Hc1);
    [pose proof (at_length _ _ Hat) as Hl; rewrite length_app in Hl; lia|].
  all: unfold parseredirs at 1; rewrite E1; cbn [mbind prog_bind pbind mret prog_ret].
  all: destruct n as [|n]; [lia|]; destruct Hcase as [[-> ->]|(k & w & ts & Ek & -> & Hs2)]; cbn [ploop].
  1, 3: destruct (exec_step_end argc c1 s1 r Hat1 He) as (s2 & -> & Hat2); by exists c1, s2.
  { cbn in Hm. lia. }
  destruct (exec_step_word argc c1 s1 w (ts ++ r) Hat1) as (q & eq & s2 & Hw & Hsl & Hat2 & ->).
  rewrite (proj2 (Nat.leb_gt MAXARGS (S argc))) by lia. cbn [length] in Hm, Hn.
  destruct (IH n (S argc) (addarg c1 q eq) s2 ts d r) as (c3 & s3 & E3 & H3); [lia| |done|by apply wordy_addarg|done|lia|lia|].
  { rewrite words_addarg, Hsl, Hd1. by replace (MAXARGS - 1 - S argc)%nat with k by lia. }
  exists c3, s3. split; [|done]. destruct (bind_ret_inv _ _ _ E3) as ([c2 s2'] & E2 & <-). by rewrite E2.
Qed.

(** *** Background *)

Lemma back_step_end c s ts : at_ s ts -> peeks (chars "&") ts = false -> exists s', parseback_step buf es (c, s) = mret (inr (c, s')) /\ at_ s' ts.
Proof. intros Hat Hp. unfold parseback_step. peek_as s Hat (chars "&") s'. rewrite Hp. by exists s'. Qed.

Lemma back_step_more c s ts : at_ s (Sym 38 :: ts) -> exists s', parseback_step buf es (c, s) = mret (inl (BACK c, s')) /\ at_ s' ts.
Proof.
  intros Hat. unfold parseback_step. peek_as s Hat (chars "&") s1. change (peeks (chars "&") (Sym 38 :: ts)) with true. cbn [negb].
  destruct (gettoken_spec _ _ _ Hat0) as (q & eq & s2 & -> & Hat2 & _). by exists s2.
Qed.

(** One symbol. *)
Lemma sym_toks k ts : (k =? 43) = false -> k <> 62 -> k <> 0 -> peeks [k] ts = true -> exists ts', ts = Sym k :: ts'.
Proof.
  intros Hk Hk' Hz. destruct ts as [|[c|w] ts]; [done| |done]. cbn -[mem]. rewrite mem_elem by (by repeat constructor). intros H.
  apply bool_decide_eq_true, list_elem_of_singleton in H. destruct (c =? 43); [by subst|]. subst. by exists ts.
Qed.

Lemma backs_sound n : forall c s ts, at_ s ts -> wordy c -> (length ts < n)%nat ->
  exists c' s' m ts', ploop n (parseback_step buf es) (c, s) = mret (c', s') /\ ts = replicate m (Sym 38) ++ ts' /\
    W c' = backs m (W c) /\ at_ s' ts' /\ wordy c'.
Proof.
  induction n as [|n IH]; intros c s ts Hat Hc Hn; [lia|]. cbn [ploop]. destruct (peeks (chars "&") ts) eqn:Hp.
  - destruct (sym_toks 38 ts eq_refl ltac:(done) ltac:(done) Hp) as (ts1 & ->).
    destruct (back_step_more c s ts1 Hat) as (s1 & -> & Hat1).
    destruct (IH (BACK c) s1 ts1 Hat1 Hc ltac:(cbn in Hn; lia)) as (c' & s' & m & ts' & E & -> & Hw & H). exists c', s', (S m), ts'. by split_and!; [exact E| |exact Hw|apply H..].
  - destruct (back_step_end c s ts Hat Hp) as (s1 & -> & Hat1). by exists c, s1, O, ts.
Qed.

Lemma backs_complete m : forall n c s r, at_ s (replicate m (Sym 38) ++ r) -> wordy c -> peeks (chars "&") r = false -> (m < n)%nat ->
  exists c' s', ploop n (parseback_step buf es) (c, s) = mret (c', s') /\ W c' = backs m (W c) /\ at_ s' r /\ wordy c'.
Proof.
  induction m as [|m IH]; intros [|n] c s r Hat Hc Hp Hn; try lia; cbn [ploop].
  - destruct (back_step_end c s r Hat Hp) as (s1 & -> & Hat1). by exists c, s1.
  - destruct (back_step_more c s (replicate m (Sym 38) ++ r) Hat) as (s1 & -> & Hat1).
    destruct (IH n (BACK c) s1 r Hat1 Hc Hp ltac:(lia)) as (c' & s' & E & H). exists c', s'. by split; [exact E|].
Qed.

(** *** Lines *)

Definition post (G : list tok -> scmd -> Prop) (ts : list tok) (r : cmd * nat) : Prop :=
  exists pre ts', ts = pre ++ ts' /\ G pre (W r.1) /\ at_ r.2 ts' /\ wordy r.1.

(** Four levels of calls for every token. *)
Lemma parse_sound n :
  (forall s ts, at_ s ts -> (4 * length ts + 4 <= n)%nat -> good (parseline buf es n s) (post line ts)) /\
  (forall s ts, at_ s ts -> (4 * length ts + 3 <= n)%nat -> good (parsepipe buf es n s) (post pipe ts)) /\
  (forall s ts, at_ s ts -> (4 * length ts + 2 <= n)%nat -> good (parseexec buf es n s) (post exec ts)) /\
  (forall s ts, at_ s (Sym 40 :: ts) -> (4 * length ts + 5 <= n)%nat -> good (parseblock buf es n s) (post exec (Sym 40 :: ts))).
Proof.
  induction n as [|n (IHl & IHp & IHe & IHb)]; [split_and!; intros; lia|]. split_and!; intros s ts Hat Hn.
  - rewrite parseline_S. eapply good_bind; [apply (IHp s ts Hat ltac:(lia))|]. intros [c s1] (pre & ts1 & -> & Hg & Hat1 & Hc).
    cbn [fst snd] in *. rewrite length_app in Hn.
    destruct (backs_sound (S es) c s1 ts1 Hat1 Hc (at_length _ _ Hat1)) as (c2 & s2 & m & ts2 & -> & -> & Hw & Hat2 & Hc2).
    cbn [mbind prog_bind pbind mret prog_ret]. peek_as s2 Hat2 (chars ";") s3. destruct (peeks (chars ";") ts2) eqn:Hp.
    + destruct (sym_toks 59 ts2 eq_refl ltac:(done) ltac:(done) Hp) as (ts3 & ->).
      destruct (gettoken_spec _ _ _ Hat0) as (q & eq & s4 & -> & Hat4 & _). rewrite length_app in Hn. cbn [length] in Hn.
      eapply good_bind; [apply (IHl s4 ts3 Hat4 ltac:(lia))|]. intros [d s5] (pre5 & ts5 & -> & Hg5 & Hat5 & Hc5). cbn [fst snd] in *.
      apply good_ret. exists (pre ++ replicate m (Sym 38) ++ Sym 59 :: pre5), ts5. cbn [fst snd words]. rewrite Hw.
      split_and!; [by rewrite <- !app_assoc|by apply line_more|done|done].
    + apply good_ret. exists (pre ++ replicate m (Sym 38)), ts2. cbn [fst snd]. rewrite Hw, <- app_assoc. by split_and!; [|apply line_end|..].
  - rewrite parsepipe_S. eapply good_bind; [apply (IHe s ts Hat ltac:(lia))|]. intros [c s1] (pre & ts1 & -> & Hg & Hat1 & Hc).
    cbn [fst snd] in *. rewrite length_app in Hn. peek_as s1 Hat1 (chars "|") s2. destruct (peeks (chars "|") ts1) eqn:Hp.
    + destruct (sym_toks 124 ts1 eq_refl ltac:(done) ltac:(done) Hp) as (ts2 & ->).
      destruct (gettoken_spec _ _ _ Hat0) as (q & eq & s3 & -> & Hat3 & _). cbn [length] in Hn.
      eapply good_bind; [apply (IHp s3 ts2 Hat3 ltac:(lia))|]. intros [d s5] (pre5 & ts5 & -> & Hg5 & Hat5 & Hc5). cbn [fst snd] in *.
      apply good_ret. exists (pre ++ Sym 124 :: pre5), ts5. by split_and!; [rewrite <- app_assoc|apply pipe_more|..].
    + apply good_ret. exists pre, ts1. by split_and!; [|apply pipe_end|..].
  - rewrite parseexec_S. peek_as s Hat (chars "(") s1. destruct (peeks (chars "(") ts) eqn:Hp.
    + destruct (sym_toks 40 ts eq_refl ltac:(done) ltac:(done) Hp) as (ts2 & ->). apply (IHb s1 ts2 Hat0). cbn [length] in Hn. lia.
    + eapply good_bind; [by apply (redirs_sound (S es) (EXEC []) s1 ts Hat0 ltac:(constructor) (at_length _ _ Hat0))|].
      intros [c s2] (pre & ts2 & -> & Hrs & Hat2 & Hc & _).
      destruct (exec_loop_sound (S es) 0 c s2 ts2 Hat2 Hc ltac:(unfold MAXARGS; lia) (at_length _ _ Hat2))
        as [Hd|([c3 s3] & -> & pre3 & ts3 & -> & Hs & H3)]; [by left|].
      apply good_ret. exists (pre ++ pre3), ts3. split_and!; [by rewrite <- app_assoc| |apply H3..].
      apply exec_simple. by eapply simple_redirs.
  - rewrite parseblock_S. peek_as s Hat (chars "(") s1. change (peeks (chars "(") (Sym 40 :: ts)) with true. cbn [negb].
    destruct (gettoken_spec _ _ _ Hat0) as (q & eq & s2 & -> & Hat2 & _).
    eapply good_bind; [apply (IHl s2 ts Hat2 ltac:(lia))|]. intros [c s3] (pre & ts3 & -> & Hg & Hat3 & Hc). cbn [fst snd] in *.
    peek_as s3 Hat3 (chars ")") s4. destruct (peeks (chars ")") ts3) eqn:Hp; [|apply good_panic]. cbn [negb].
    destruct (sym_toks 41 ts3 eq_refl ltac:(done) ltac:(done) Hp) as (ts4 & ->).
    destruct (gettoken_spec _ _ _ Hat1) as (q5 & eq5 & s5 & -> & Hat5 & _).
    destruct (redirs_sound (S es) c s5 ts4 Hat5 Hc (at_length _ _ Hat5)) as [Hd|([c6 s6] & E & pre6 & ts6 & -> & Hrs & Hat6 & Hc6 & _)];
      [by left|]. unfold parseredirs. rewrite E. apply good_ret. exists (Sym 40 :: pre ++ Sym 41 :: pre6), ts6.
    split_and!; [cbn; by rewrite <- app_assoc|by eapply exec_block|done|done].
Qed.

Definition ends_pipe (r : list tok) : Prop := r = [] \/ peeks (chars ")&;") r = true.
Definition ends_line (r : list tok) : Prop := r = [] \/ exists r', r = Sym 41 :: r'.

Lemma ends_pipe_exec r : ends_pipe r -> ends_exec r /\ peeks (chars "|") r = false.
Proof.
  intros [->|H]; [split; [by left|done]|]. destruct r as [|[c|w] r]; [done| |done]. unfold ends_exec. cbn -[mem] in H |- *.
  rewrite mem_elem in H by (by repeat constructor). apply bool_decide_eq_true in H. cbn in H. rewrite !elem_of_cons, elem_of_nil in H.
  destruct H as [->|[->|[->|[]]]]; (split; [by right|done]).
Qed.

Lemma ends_line_pipe r m : ends_line r -> ends_pipe (replicate m (Sym 38) ++ r) /\ peeks (chars "&") r = false /\ peeks (chars ";") r = false.
Proof. intros [->|[r' ->]]; destruct m; (split; [first [by left|by right]|done]). Qed.

Lemma simple_first n c ts d r : simple n c ts d -> ends_exec r -> peeks (chars "(") (ts ++ r) = false.
Proof.
  destruct 1 as [| |? ? ? ? ? ? ? ? []]; intros He; [|done..]. destruct He as [->|H]; [done|]. apply not_true_iff_false. intros Hp.
  destruct (sym_toks 40 r eq_refl ltac:(done) ltac:(done) Hp) as (ts2 & ->). by vm_compute in H.
Qed.

Definition parses (P : nat -> nat -> prog (cmd * nat)) (k : nat) (ends : list tok -> Prop) (ts : list tok) (d : scmd) : Prop :=
  forall n s r, at_ s (ts ++ r) -> ends r -> (4 * length (ts ++ r) + k <= n)%nat ->
  exists c s', P n s = mret (c, s') /\ W c = d /\ at_ s' r /\ wordy c.

Lemma parse_complete :
  (forall ts d, line ts d -> parses (parseline buf es) 4 ends_line ts d) /\
  (forall ts d, pipe ts d -> parses (parsepipe buf es) 3 ends_pipe ts d) /\
  (forall ts d, exec ts d -> parses (parseexec buf es) 2 ends_exec ts d).
Proof.
  apply grammar_ind.
  - intros p c m _ IH [|n] s r Hat He Hn; [lia|]. rewrite <- app_assoc in Hat, Hn. destruct (ends_line_pipe r m He) as (Hp & Ha & Hs).
    destruct (IH n s _ Hat Hp ltac:(lia)) as (c1 & s1 & E1 & <- & Hat1 & Hc1).
    destruct (backs_complete m (S es) c1 s1 r Hat1 Hc1 Ha) as (c2 & s2 & E2 & Hw & Hat2 & Hc2).
    { pose proof (at_length _ _ Hat1) as Hl. rewrite length_app, length_replicate in Hl. lia. }
    rewrite parseline_S. rewrite E1, ret_bind. rewrite E2, ret_bind.
    peek_as s2 Hat2 (chars ";") s3. rewrite Hs. by exists c2, s3.
  - intros p c m ts d _ IHp _ IHl [|n] s r Hat He Hn; [lia|]. rewrite <- !app_assoc in Hat, Hn. cbn [app] in Hat, Hn.
    destruct (IHp n s _ Hat ltac:(right; by destruct m) ltac:(lia)) as (c1 & s1 & E1 & <- & Hat1 & Hc1).
    destruct (backs_complete m (S es) c1 s1 _ Hat1 Hc1 eq_refl) as (c2 & s2 & E2 & Hw & Hat2 & Hc2).
    { pose proof (at_length _ _ Hat1) as Hl. rewrite length_app, length_replicate in Hl. lia. }
    rewrite parseline_S. rewrite E1, ret_bind. rewrite E2, ret_bind.
    peek_as s2 Hat2 (chars ";") s3. change (peeks (chars ";") (Sym 59 :: ts ++ r)) with true. cbv iota.
    destruct (gettoken_spec _ _ _ Hat0) as (q & eq & s4 & -> & Hat4 & _).
    destruct (IHl n s4 r Hat4 He) as (c5 & s5 & E5 & <- & Hat5 & Hc5); [rewrite !length_app in Hn; cbn [length] in Hn; rewrite length_app in *; lia|].
    rewrite E5. exists (LIST c2 c5), s5. split_and!; [done|cbn [words]; by rewrite Hw|done|done].
  - intros e c _ IH [|n] s r Hat He Hn; [lia|]. destruct (ends_pipe_exec r He) as [He' Hp].
    destruct (IH n s r Hat He' ltac:(lia)) as (c1 & s1 & E1 & <- & Hat1 & Hc1). rewrite parsepipe_S. rewrite E1, ret_bind.
    peek_as s1 Hat1 (chars "|") s3. rewrite Hp. by exists c1, s3.
  - intros e c ts d _ IHe _ IHp [|n] s r Hat He Hn; [lia|]. rewrite <- app_assoc in Hat, Hn. cbn [app] in Hat, Hn.
    destruct (IHe n s _ Hat ltac:(by right) ltac:(lia)) as (c1 & s1 & E1 & <- & Hat1 & Hc1). rewrite parsepipe_S. rewrite E1, ret_bind.
    peek_as s1 Hat1 (chars "|") s3. change (peeks (chars "|") (Sym 124 :: ts ++ r)) with true. cbv iota.
    destruct (gettoken_spec _ _ _ Hat0) as (q & eq & s4 & -> & Hat4 & _).
    destruct (IHp n s4 r Hat4 He) as (c5 & s5 & E5 & <- & Hat5 & Hc5); [rewrite !length_app in Hn; cbn [length] in Hn; rewrite length_app in *; lia|].
    rewrite E5. by exists (PIPE c1 c5), s5.
  - intros ts c rs d _ IH Hrs [|[|n]] s r Hat He Hn; [cbn in Hn; lia|cbn in Hn; lia|]. cbn [app] in Hat, Hn. rewrite <- app_assoc in Hat, Hn.
    cbn [app] in Hat, Hn. rewrite parseexec_S. peek_as s Hat (chars "(") s1. cbn [peeks].
    change (mem (chars "(") (if 40 =? 43 then 62 else 40)) with true. cbv iota. rewrite parseblock_S.
    peek_as s1 Hat0 (chars "(") s2. change (peeks (chars "(") (Sym 40 :: ts ++ Sym 41 :: rs ++ r)) with true. cbn [negb].
    destruct (gettoken_spec _ _ _ Hat1) as (q & eq & s3 & -> & Hat3 & _).
    destruct (IH n s3 _ Hat3 ltac:(right; by eexists) ltac:(cbn in Hn |- *; lia)) as (c4 & s4 & E1 & <- & Hat4 & Hc4). rewrite E1, ret_bind.
    peek_as s4 Hat4 (chars ")") s5. change (peeks (chars ")") (Sym 41 :: rs ++ r)) with true. cbn [negb].
    destruct (gettoken_spec _ _ _ Hat2) as (q6 & eq6 & s6 & -> & Hat6 & _).
    apply (redirs_complete (W c4) rs d Hrs (S es) c4 s6 r eq_refl Hat6 Hc4 (ends_exec_redir r He)).
    pose proof (at_length _ _ Hat6) as Hl. rewrite length_app in Hl. lia.
  - intros ts d Hs [|n] s r Hat He Hn; [lia|]. rewrite parseexec_S. peek_as s Hat (chars "(") s1. rewrite (simple_first _ _ _ _ _ Hs He).
    apply (exec_loop_complete (length ts) (S es) 0 (EXEC []) s1 ts d r); try done; [constructor|unfold MAXARGS; lia|].
    pose proof (at_length _ _ Hat) as Hl. rewrite length_app in Hl. lia.
Qed.

(** *** The words in the buffer *)

Fixpoint ends (c : cmd) : list nat :=
  match c with
  | EXEC argv => argv.*2
  | REDIR c _ eq _ _ => ends c ++ [eq]
  | PIPE l r | LIST l r => ends l ++ ends r
  | BACK c => ends c
  end.
Definition cut (b : list Z) (l : list nat) : list Z := foldl (fun b e => <[e := 0]> b) b l.

Lemma nulterminate_cut c : forall b, nulterminate c b = cut b (ends c).
Proof.
  unfold cut. induction c as [argv|c IH| | |]; intros b; cbn [nulterminate ends]; rewrite ?foldl_app, <- ?IHc1, <- ?IHc2, <- ?IH; auto.
  revert b. induction argv as [|a argv IH]; intros b; [done|]. cbn. apply IH.
Qed.

Lemma cut_lookup l : forall b i, cut b l !! i = if decide (i ∈ l) then (fun _ => 0) <$> b !! i else b !! i.
Proof.
  unfold cut. induction l as [|e l IH]; intros b i; cbn [foldl]; [by rewrite decide_False by apply not_elem_of_nil|]. rewrite IH.
  destruct (decide (i = e)) as [->|Hne].
  - rewrite (decide_True (P := e ∈ e :: l)) by apply list_elem_of_here.
    destruct (b !! e) as [x|] eqn:E; cbn.
    + rewrite list_lookup_insert_eq by (by eapply lookup_lt_Some). by case_decide.
    + rewrite list_insert_ge, E by (by apply lookup_ge_None). by case_decide.
  - rewrite list_lookup_insert_ne by done. destruct (decide (i ∈ l)); [rewrite decide_True by (by apply list_elem_of_further)|rewrite decide_False by (rewrite not_elem_of_cons; done)]; done.
Qed.

Lemma buf_lookup i : (i < es)%nat -> buf !! i = text !! i.
Proof. intros Hi. unfold buf. by rewrite lookup_app_l. Qed.

(** Ends of words are not inside words. *)
Lemma cut_word l a : Forall (fun e => starts wordch (drop e text) = false) l -> word_at a -> a.2 ∈ l -> str (cut buf l) a.1 = slice a.
Proof.
  destruct a as [q eq]. intros Hl (Hlt & Hw & Hend) Hin. cbn [fst snd] in *. unfold str.
  assert (Hlen : length (cut buf l) = length buf).
  { unfold cut. clear Hl Hin. generalize buf. induction l as [|e l IH]; intros b; [done|]. cbn. rewrite IH. by rewrite length_insert. }
  assert (Hbl : length buf = S (es + length rest)) by (unfold buf, es; rewrite length_app; cbn; lia).
  assert (Et : take (eq - q) (drop q (cut buf l)) = slice (q, eq)).
  { unfold slice. cbn [fst snd]. apply list_eq. intros j. destruct (decide (j < eq - q)%nat) as [Hj|Hj].
    - rewrite !lookup_take_lt, !lookup_drop, cut_lookup, buf_lookup by lia. rewrite decide_False; [done|]. intros Hq.
      rewrite Forall_forall in Hl. specialize (Hl _ Hq). destruct (text !! (q + j)%nat) as [c|] eqn:Ec.
      + rewrite (drop_S _ _ _ Ec) in Hl. cbn in Hl. rewrite Forall_lookup in Hw. rewrite (Hw j c) in Hl; [done|].
        by rewrite lookup_take_lt, lookup_drop by lia.
      + apply lookup_ge_None in Ec. unfold es in Hlt. lia.
    - rewrite !lookup_take_ge by lia. done. }
  assert (Ed : exists y, drop eq (cut buf l) = 0 :: y).
  { assert (E0 : cut buf l !! eq = Some 0).
    { rewrite cut_lookup, decide_True by done. destruct (lookup_lt_is_Some_2 buf eq ltac:(lia)) as [x ->]. done. }
    exists (drop (S eq) (cut buf l)). by rewrite (drop_S _ _ _ E0). }
  destruct Ed as [y Ed]. rewrite <- (take_drop (eq - q) (drop q (cut buf l))), Et, drop_drop. replace (q + (eq - q))%nat with eq by lia.
  rewrite Ed. apply cstr_app0. unfold slice. cbn [fst snd]. by apply Forall_take, Forall_drop.
Qed.

Lemma wordy_ends c : wordy c -> Forall (fun e => starts wordch (drop e text) = false) (ends c).
Proof.
  induction c; cbn [wordy ends].
  - intros H. apply Forall_fmap. eapply Forall_impl; [exact H|]. by intros a (_ & _ & ?).
  - intros [Hc (_ & _ & Hw)]. apply Forall_app. split; [auto|by constructor].
  - intros []. apply Forall_app. auto.
  - intros []. apply Forall_app. auto.
  - auto.
Qed.

Lemma words_cut l c : Forall (fun e => starts wordch (drop e text) = false) l -> wordy c -> (forall e, e ∈ ends c -> e ∈ l) ->
  words (fun a => str (cut buf l) a.1) c = W c.
Proof.
  intros Hl. induction c as [argv|c IH q eq mode fd|c1 IH1 c2 IH2|c1 IH1 c2 IH2|c IH]; cbn [wordy ends words]; intros Hw Hin.
  - f_equal. apply map_ext_in. intros a Ha. apply list_elem_of_In in Ha. rewrite Forall_forall in Hw.
    apply cut_word; auto. apply Hin, list_elem_of_fmap. by exists a.
  - destruct Hw as [Hc Hw]. rewrite IH; [|done|intros; apply Hin; set_solver]. rewrite <- (cut_word l (q, eq)); [done|done|done|apply Hin; set_solver].
  - destruct Hw. rewrite IH1, IH2; try done; intros; apply Hin; set_solver.
  - destruct Hw. rewrite IH1, IH2; try done; intros; apply Hin; set_solver.
  - by rewrite IH.
Qed.

Lemma strlen_buf : Z.to_nat (Ulib.strlen buf) = es.
Proof.
  unfold buf. rewrite strlen_app0 by done. apply Nat2Z.id.
Qed.

Lemma at_start : at_ 0 (lex text).
Proof. split; [lia|]. by rewrite drop_0. Qed.

Lemma fuel_start : (4 * length (lex text ++ []) + 4 <= 4 * es + 4)%nat.
Proof. pose proof (at_length _ _ at_start). rewrite app_nil_r. lia. Qed.

(** The tree of a line in the grammar. *)
Lemma parsecmd_accepts d : line (lex text) d ->
  exists c, parsecmd buf = mret (c, nulterminate c buf) /\ words (fun a => str (nulterminate c buf) a.1) c = d.
Proof.
  intros Hd. destruct (proj1 parse_complete _ _ Hd (4 * es + 4)%nat 0%nat []) as (c & s & E & Hw & Hat & Hc);
    [rewrite app_nil_r; apply at_start|by left|apply fuel_start|].
  exists c. split.
  - unfold parsecmd. rewrite strlen_buf, E, ret_bind. peek_as s Hat (@nil Z) s1. by rewrite (proj2 (Nat.eqb_eq s1 es)) by (by apply Hes).
  - rewrite nulterminate_cut, words_cut; auto using wordy_ends.
Qed.

(** The other lines, and only they, are refused. *)
Lemma parsecmd_cases : dies (parsecmd buf) \/ exists c, parsecmd buf = mret (c, nulterminate c buf) /\ line (lex text) (W c) /\ wordy c.
Proof.
  pose proof fuel_start as Hf. rewrite app_nil_r in Hf.
  destruct (proj1 (parse_sound (4 * es + 4)) 0%nat (lex text) at_start Hf) as [Hd|([c s] & E & pre & ts & El & Hg & Hat & Hc)];
    unfold parsecmd; rewrite strlen_buf.
  - left. by apply dies_bind.
  - cbn [fst snd] in *. rewrite E, ret_bind. peek_as s Hat (@nil Z) s1. destruct (Nat.eqb_spec s1 es) as [->|Hne]; cbn [negb].
    + right. assert (ts = []) as -> by (by apply Hes). rewrite app_nil_r in El. subst pre. eauto.
    + left. eapply (dies_fprintf _ _ (chars "leftovers: " ++ str buf s1 ++ [10])); [reflexivity|apply dies_panic].
Qed.
End Pos.

(** C12: The shell's parser, on any NUL-terminated line: it returns a tree exactly when the line's tokens form a command of
    the grammar, the words it leaves in the buffer are those of the only such command, and on any other line it writes
    a message to descriptor 2 and exits with status 1; it always ends. *)
Theorem parsecmd_correct text rest :
  Forall (fun c => c <> 0) text ->
  match parsecmd (text ++ 0 :: rest) with
  | PRet (c, b) => forall d, line (lex text) d <-> d = words (fun a => str b a.1) c
  | p => dies p /\ forall d, ~ line (lex text) d
  end.
Proof.
  intros Ht. pose proof (fun d => parsecmd_accepts text rest Ht d) as Hacc.
  destruct (parsecmd_cases text rest Ht) as [Hd|(c & E & Hg & Hc)].
  - destruct Hd as [|bs k Hk]; (split; [by constructor|]); intros d Hg; destruct (Hacc d Hg) as (c & E & _); done.
  - rewrite E. cbn. intros d. split.
    + intros Hl. destruct (Hacc d Hl) as (c' & E' & <-). rewrite E in E'. by simplify_eq/=.
    + intros ->. rewrite nulterminate_cut, words_cut; auto using wordy_ends.
Qed.

(** A pipeline with a redirection, run in the background, and a line with one parenthesis. *)
Lemma parsecmd_correct_witness :
  (exists c b, parsecmd (chars "cat <a b|wc& ;ls" ++ [10] ++ [0]) = PRet (c, b) /\
    line (lex (chars "cat <a b|wc& ;ls" ++ [10])) (words (fun a => str b a.1) c)) /\
  (forall d, ~ line (lex (chars "(ls" ++ [10])) d).
Proof.
  split.
  - pose proof (parsecmd_correct (chars "cat <a b|wc& ;ls" ++ [10]) []) as H. rewrite <- app_assoc in H. cbn [app] in H.
    destruct (parsecmd (chars "cat <a b|wc& ;ls" ++ [10] ++ [0])) as [[c b]| | | |] eqn:E; [|by vm_compute in E..].
    exists c, b. split; [done|]. cbn [app] in E. rewrite E in H. apply H; [by repeat constructor|done].
  - pose proof (parsecmd_correct (chars "(ls" ++ [10]) []) as H.
    destruct (parsecmd ((chars "(ls" ++ [10]) ++ [0])) as [[c b]| | | |] eqn:E; [by vm_compute in E|..]; apply H; by repeat constructor.
Defined.
End ShParse.
