(* ===== verification/ShRun.v ===== *)
(** * What the shell runs, and with which descriptors

    [acts] follows a process and its children through fork, wait, exec and the calls
    that change the descriptor table, as the kernel answers them when it does not
    run out of processes or descriptors: what a process does is a list of actions, and a
    child is such a list.  The reference, [plan], is defined on the command of the
    grammar. *)

From stdpp Require Import base list gmap strings.
From Stdlib Require Import ZArith Lia.
From S2P Require Import Prelude KString Format Usys Ulib Sh ShParse.
Open Scope Z_scope.

Module ShRun.
Import Sh ShParse.

(** What a descriptor refers to: something inherited, an opened file, an end of the n-th pipe. *)
Inductive obj := Given (n : nat) | File (path : list Z) (mode : Z) | PipeR (n : nat) | PipeW (n : nat).
Definition fdtable : Type := list (option obj).
(** What a process does: start a child, wait for one (with the descriptors it holds meanwhile), become a program, given
    by its path, its arguments and its descriptors. *)
#[warnings="-register-all"] Inductive act := AFork (child : list act) | AWait (t : fdtable) | AExec (path : list Z) (argv : list (list Z)) (t : fdtable).

(** The lowest descriptor that is free, as the kernel's [fdalloc]. *)
Fixpoint lowest (t : fdtable) : option nat :=
  match t with
  | [] => None
  | None :: _ => Some O
  | Some _ :: t' => S <$> lowest t'
  end.
Definition alloc (t : fdtable) (o : obj) : option (nat * fdtable) := fd ← lowest t; Some (fd, <[fd := Some o]> t).
Definition get (t : fdtable) (fd : Z) : option obj := mjoin (t !! Z.to_nat fd).

Section Acts.
(** The files that can be opened. *)
Variable can_open : list Z -> bool.

Fixpoint acts {A} (p : prog A) (t : fdtable) (next : nat) : list act * nat :=
  match p with
  | PRet _ | PExit _ | PFuel | PFault => ([], next)
  | PSys c k =>
      match c with
      | CFork =>
          let (e1, n1) := acts (k (val 0)) t next in
          let (e2, n2) := acts (k (val 1)) t n1 in
          (AFork e1 :: e2, n2)
      | CWait => let (e, n) := acts (k (val 1)) t next in (AWait t :: e, n)
      | CExec path argv => ([AExec path argv t], next)
      | CClose fd => acts (k (val 0)) (<[Z.to_nat fd := None]> t) next
      | COpen path mode =>
          if can_open path then
            match alloc t (File path mode) with
            | Some (fd, t) => acts (k (val (Z.of_nat fd))) t next
            | None => acts (k (val (-1))) t next
            end
          else acts (k (val (-1))) t next
      | CDup fd =>
          match get t fd ≫= alloc t with
          | Some (fd, t) => acts (k (val (Z.of_nat fd))) t next
          | None => acts (k (val (-1))) t next
          end
      | CPipe =>
          match alloc t (PipeR next) ≫= (fun '(r, t) => '(w, t) ← alloc t (PipeW next); Some (r, w, t)) with
          | Some (r, w, t) => acts (k (mk_reply 0 [] [Z.of_nat r; Z.of_nat w])) t (S next)
          | None => acts (k (val (-1))) t next
          end
      | _ => acts (k (val 0)) t next
      end
  end.

(** ** The plan of a command *)

(** Three descriptors and no other. *)
Definition three (i o e : obj) : fdtable := [Some i; Some o; Some e] ++ replicate 13 None.

(** A pipeline is two children at once, the pipe between them, and the wait for both by a process that holds no end of
    the pipe; a list is a child for the left side, the wait for it, and then the right side; a background command is
    a child that is not waited for. *)
Fixpoint plan (c : scmd) (i o e : obj) (next : nat) : list act * nat :=
  match c with
  | SExec [] => ([], next)
  | SExec (a :: args) => ([AExec a (a :: args) (three i o e)], next)
  | SRedir c f mode fd =>
      if can_open f then if fd =? 0 then plan c (File f mode) o e next else plan c i (File f mode) e next else ([], next)
  | SPipe l r =>
      let (e1, n1) := plan l i (PipeW next) e (S next) in
      let (e2, n2) := plan r (PipeR next) o e n1 in
      ([AFork e1; AFork e2; AWait (three i o e); AWait (three i o e)], n2)
  | SList l r =>
      let (e1, n1) := plan l i o e next in
      let (e2, n2) := plan r i o e n1 in
      (AFork e1 :: AWait (three i o e) :: e2, n2)
  | SBack c => let (e1, n1) := plan c i o e next in ([AFork e1], n1)
  end.

(** ** The run follows the plan *)

Fixpoint std_redirs (c : scmd) : Prop :=
  match c with
  | SExec _ => True
  | SRedir c _ _ fd => (fd = 0 \/ fd = 1) /\ std_redirs c
  | SPipe l r | SList l r => std_redirs l /\ std_redirs r
  | SBack c => std_redirs c
  end.

Lemma acts_fprintf {A} fmt args out (p : prog A) t n :
  UPrintf.vprintf fmt args = Some out -> acts (Ulib.fprintf 2 fmt args ;; p) t n = acts p t n.
Proof. intros E. unfold Ulib.fprintf. rewrite E. clear E. induction out as [|c out IH]; [done|]. exact IH. Qed.

#[local] Arguments str : simpl never.
#[local] Arguments chars : simpl never.
#[local] Arguments Ulib.fprintf : simpl never.

Lemma runcmd_plan b c : std_redirs (words (fun a => str b a.1) c) -> forall i o e next,
  acts (runcmd b c) (three i o e) next = plan (words (fun a => str b a.1) c) i o e next.
Proof.
  induction c as [argv|c IH q eq mode fd|l IHl r IHr|l IHl r IHr|c IH]; cbn [words std_redirs]; intros Hs i o e next.
  - by destruct argv as [|[q eq] argv].
  - destruct Hs as [Hfd Hs]. cbn [runcmd plan]. cbn -[runcmd]. destruct (can_open (str b q)) eqn:Eo.
    + destruct Hfd as [-> | ->]; exact (IH Hs _ _ e next).
    + exact (acts_fprintf (chars "open %s failed" ++ [10]) [AStr (Some (str b q))] (chars "open " ++ str b q ++ chars " failed" ++ [10]) (exit 1) _ _ eq_refl).
  - destruct Hs as [Hl Hr]. transitivity (
      let (e1, n1) := acts (runcmd b l) (three i (PipeW next) e) (S next) in
      let (e2, n2) := (let (e2, n2) := acts (runcmd b r) (three (PipeR next) o e) n1 in ([AFork e2; AWait (three i o e); AWait (three i o e)], n2)) in
      (AFork e1 :: e2, n2)); [reflexivity|].
    rewrite (IHl Hl). cbn [plan]. destruct (plan _ i (PipeW next) e (S next)) as [e1 n1].
    rewrite (IHr Hr). by destruct (plan _ (PipeR next) o e n1) as [e2 n2].
  - destruct Hs as [Hl Hr]. transitivity (
      let (e1, n1) := acts (runcmd b l) (three i o e) next in
      let (e2, n2) := (let (e2, n2) := acts (runcmd b r) (three i o e) n1 in (AWait (three i o e) :: e2, n2)) in (AFork e1 :: e2, n2)); [reflexivity|].
    rewrite (IHl Hl). cbn [plan]. destruct (plan _ i o e next) as [e1 n1]. rewrite (IHr Hr). by destruct (plan _ i o e n1).
  - transitivity (let (e1, n1) := acts (runcmd b c) (three i o e) next in ([AFork e1], n1)); [reflexivity|].
    by rewrite (IH Hs).
Qed.

Lemma grammar_redirs :
  (forall ts d, line ts d -> std_redirs d) /\ (forall ts d, pipe ts d -> std_redirs d) /\ (forall ts d, exec ts d -> std_redirs d).
Proof.
  assert (Hb : forall n c, std_redirs c -> std_redirs (backs n c)) by (induction n; cbn; auto).
  assert (Hr : forall c ts d, redirs c ts d -> std_redirs c -> std_redirs d).
  { induction 1 as [|c k mode fd f ts d Hk _ IH]; intros Hc; [done|]. apply IH. split; [|done]. destruct Hk; auto. }
  assert (Ha : forall c w, std_redirs c -> std_redirs (sarg c w)) by (induction c; cbn; intros w Hc; try done; destruct Hc; auto).
  assert (Hs : forall n c ts d, simple n c ts d -> std_redirs c -> std_redirs d).
  { induction 1 as [|n c w ts d _ IH|n c k mode fd f ts d Hk _ IH]; intros Hc; [done|auto|]. apply IH. split; [|done]. destruct Hk; auto. }
  apply grammar_ind; cbn; intros; eauto. by eapply Hs.
Qed.

Lemma acts_bind_ret {A B} (a : A) (f : A -> prog B) t n : acts (mret a ≫= f) t n = acts (f a) t n.
Proof. reflexivity. Qed.

(** C13: A line that is a command of the grammar makes the shell do exactly what the command says.  It starts the
    programs of the command, with their arguments and, for each, three descriptors and no other: the shell's own, the
    files of its redirections, and the ends of the pipes between commands (so no program holds a pipe open that it
    does not use).  The left side of a list is waited for before the right side is run; the two sides of a pipeline
    run at once and are both waited for, by a process that has closed the pipe; a background command is not waited for. *)
Theorem shell_runs text rest d i o e next :
  Forall (fun c => c <> 0) text -> line (lex text) d ->
  acts ('(c, b) ← parsecmd (text ++ 0 :: rest); runcmd b c) (three i o e) next = plan d i o e next.
Proof.
  intros Ht Hd. destruct (parsecmd_accepts text rest Ht d Hd) as (c & E & Hw). rewrite E, acts_bind_ret, <- Hw.
  apply runcmd_plan. rewrite Hw. by apply (proj1 grammar_redirs (lex text)).
Qed.
End Acts.

(** [cat <a|wc]: cat reads the file and writes the pipe, wc reads the pipe. *)
Lemma shell_runs_witness :
  acts (fun _ => true) ('(c, b) ← parsecmd (chars "cat <a|wc" ++ [0]); runcmd b c) (three (Given 0) (Given 1) (Given 2)) 0 =
  ([AFork [AExec (chars "cat") [chars "cat"] (three (File (chars "a") 0) (PipeW 0) (Given 2))];
    AFork [AExec (chars "wc") [chars "wc"] (three (PipeR 0) (Given 1) (Given 2))];
    AWait (three (Given 0) (Given 1) (Given 2)); AWait (three (Given 0) (Given 1) (Given 2))], 1%nat).
Proof.
  apply (shell_runs (fun _ => true) (chars "cat <a|wc") [] (SPipe (SRedir (SExec [chars "cat"]) (chars "a") 0 0) (SExec [chars "wc"])) (Given 0) (Given 1) (Given 2) 0).
  - by repeat constructor.
  - change (lex (chars "cat <a|wc")) with (([Word (chars "cat"); Sym 60; Word (chars "a")] ++ Sym 124 :: [Word (chars "wc")]) ++ replicate 0 (Sym 38)).
    apply (line_end _ _ 0), pipe_more; [|apply pipe_end]; apply exec_simple; repeat econstructor.
Defined.
End ShRun.
