(* ===== verification/Umalloc.v ===== *)
(** * user/umalloc.c: the allocator

    The program's memory holds the headers: the next block of the free list at 0,
    the size in units of 16 bytes at 8.  The free list is a ring through the
    static header [base], in order of addresses; [freep] is where the last
    operation left it.  A heap is described by its free blocks [F] and the blocks
    [U] in use, each an address and a size in units. *)

From stdpp Require Import base list gmap strings sorting.
From Stdlib Require Import ZArith Lia.
From S2P Require Import Prelude Mem KString Usys.
Open Scope Z_scope.

Module Umalloc.

(** [sizeof(Header)] *)
Definition HS : Z := 16.
Record heap := mk_heap { h_mem : mem; h_freep : Z }.

Definition ptr (m : mem) (p : Z) : Z := load64 m p.
Definition size (m : mem) (p : Z) : Z := load32 m (p + 8).
Definition set_ptr (m : mem) (p v : Z) : mem := store64 m p v.
Definition set_size (m : mem) (p v : Z) : mem := store32 m (p + 8) v.

(** ** Operations *)

(** The [for] loop of [free]: the block after which [bp] goes. *)
Fixpoint free_loop (fuel : nat) (m : mem) (bp p : Z) : option Z :=
  match fuel with
  | O => None
  | S fuel =>
      if (p <? bp) && (bp <? ptr m p) then Some p
      else if (ptr m p <=? p) && ((p <? bp) || (bp <? ptr m p)) then Some p
      else free_loop fuel m bp (ptr m p)
  end.

Definition free (fuel : nat) (h : heap) (ap : Z) : prog heap :=
  let m := h_mem h in
  let bp := ap - HS in
  match free_loop fuel m bp (h_freep h) with
  | None => PFuel
  | Some p =>
      let m :=
        if bp + HS * size m bp =? ptr m p then
          let m := set_size m bp (size m bp + size m (ptr m p)) in
          set_ptr m bp (ptr m (ptr m p))
        else set_ptr m bp (ptr m p) in
      let m :=
        if p + HS * size m p =? bp then
          let m := set_size m p (size m p + size m bp) in
          set_ptr m p (ptr m bp)
        else set_ptr m p bp in
      mret (mk_heap m p)
  end.

(** The heap and [freep], 0 when there is no memory.  The argument of [sbrk] is an [int]. *)
Definition morecore (fuel : nat) (h : heap) (nu : Z) : prog (heap * Z) :=
  let nu := if nu <? 4096 then 4096 else nu in
  p ← sysv (CSbrk (s32 (nu * HS)));
  if p =? -1 then mret (h, 0) else
  let h := mk_heap (set_size (h_mem h) p nu) (h_freep h) in
  h ← free fuel h (p + HS);
  mret (h, h_freep h).

(** One turn of [malloc]'s loop. *)
Definition malloc_step (fuel : nat) (nunits : Z) (st : heap * Z * Z) : prog (heap * Z * Z + heap * Z) :=
  let '(h, prevp, p) := st in
  let m := h_mem h in
  if nunits <=? size m p then
    let '(m, p) :=
      if size m p =? nunits then (set_ptr m prevp (ptr m p), p)
      else
        let m := set_size m p (size m p - nunits) in
        let p := p + HS * size m p in
        (set_size m p nunits, p) in
    mret (inr (mk_heap m prevp, p + HS))
  else
  if p =? h_freep h then
    '(h, p) ← morecore fuel h nunits;
    if p =? 0 then mret (inr (h, 0)) else
    mret (inl (h, p, ptr (h_mem h) p))
  else mret (inl (h, p, ptr m p)).

Definition nunits_of (nbytes : Z) : Z := u32 ((nbytes + HS - 1) / HS + 1).

Section Base.
(** The address of the static header. *)
Variable base : Z.

Definition malloc (fuel : nat) (h : heap) (nbytes : Z) : prog (heap * Z) :=
  let nunits := nunits_of nbytes in
  let h := if h_freep h =? 0 then mk_heap (set_size (set_ptr (h_mem h) base base) base 0) base else h in
  let prevp := h_freep h in
  ploop fuel (malloc_step fuel nunits) (h, prevp, ptr (h_mem h) prevp).

(** ** The heap *)

(** What [sbrk] promises: when the kernel has the memory ([grows]) it adds it at the break, otherwise it fails and
    changes nothing. *)
Class Sbrk `{Kernel} := {
  break_ : World -> Z;
  grows : World -> Z -> bool;
  sbrk_ok : forall w n, 0 < n < 2 ^ 31 -> exists w',
    if grows w n then kcall (CSbrk n) w = (val (break_ w), w') /\ break_ w' = break_ w + n /\ break_ w' <= 2 ^ 36
    else kcall (CSbrk n) w = (val (-1), w') /\ break_ w' = break_ w
}.

(** The headers of [l], the last one's next block being [next]. *)
Definition first (l : list (Z * Z)) (next : Z) : Z := match l with (a, _) :: _ => a | [] => next end.
Fixpoint chain (m : mem) (l : list (Z * Z)) (next : Z) : Prop :=
  match l with
  | [] => True
  | (a, n) :: l' => size m a = n /\ ptr m a = first l' next /\ chain m l' next
  end.

(** Blocks in order, none empty, between [lo] and [hi]. *)
Fixpoint sorted (lo hi : Z) (l : list (Z * Z)) : Prop :=
  match l with
  | [] => lo <= hi
  | (a, n) :: l' => lo <= a /\ 0 < n /\ sorted (a + HS * n) hi l'
  end.

Definition disj (u v : Z * Z) : Prop := u.1 + HS * u.2 <= v.1 \/ v.1 + HS * v.2 <= u.1.
Fixpoint sep (U : list (Z * Z)) : Prop :=
  match U with
  | [] => True
  | u :: U' => Forall (disj u) U' /\ sep U'
  end.

Definition used_ok (brk : Z) (m : mem) (F : list (Z * Z)) (u : Z * Z) : Prop :=
  0 < u.2 /\ base + HS <= u.1 /\ u.1 + HS * u.2 <= brk /\ size m u.1 = u.2 /\ Forall (disj u) F.

(** The bytes of the blocks of [l]. *)
Definition inside (u : Z * Z) (x : Z) : Prop := u.1 <= x < u.1 + HS * u.2.
Definition covers (l : list (Z * Z)) (x : Z) : Prop := Exists (fun u => inside u x) l.
(** No block ends where another one starts. *)
Definition gaps (l : list (Z * Z)) : Prop := forall u v, u ∈ l -> v ∈ l -> u.1 + HS * u.2 <> v.1.

(** The free list of a heap. *)
Record ring_ok (brk : Z) (h : heap) (F : list (Z * Z)) : Prop := {
  ro_base : 0 < base;
  ro_brk : brk <= 2 ^ 36;
  ro_freep : h_freep h ∈ base :: F.*1;
  ro_chain : chain (h_mem h) ((base, 0) :: F) base;
  ro_sorted : sorted (base + HS) brk F;
  ro_gaps : gaps F
}.

Record heap_ok (brk : Z) (h : heap) (F U : list (Z * Z)) : Prop := {
  ho_ring : ring_ok brk h F;
  ho_used : Forall (used_ok brk (h_mem h) F) U;
  ho_sep : sep U
}.

(** Before the first call. *)
Definition fresh (brk : Z) (h : heap) : Prop := 0 < base /\ base + HS <= brk <= 2 ^ 36 /\ h_freep h = 0.

(** ** Lists of blocks *)

Lemma sorted_app lo hi l1 l2 : sorted lo hi (l1 ++ l2) <-> exists mid, sorted lo mid l1 /\ sorted mid hi l2.
Proof.
  revert lo. induction l1 as [|[a n] l1 IH]; intros lo; cbn [app sorted].
  - split; [intros H; exists lo; split; [lia|done]|]. intros (mid & Hle & H). destruct l2 as [|[a n] l2]; cbn in *; [lia|].
    destruct H as (? & ? & ?). split_and!; [lia|done|done].
  - rewrite IH. split; [intros (? & ? & mid & ?); exists mid; tauto|]. intros (mid & (? & ? & ?) & ?). split_and!; [done|done|]. by exists mid.
Qed.

Lemma sorted_weaken lo lo' hi l : lo' <= lo -> sorted lo hi l -> sorted lo' hi l.
Proof. destruct l as [|[a n] l]; cbn; [lia|]. intros ? (? & ? & ?). split_and!; [lia|done|done]. Qed.

Lemma sorted_le lo hi l : sorted lo hi l -> lo <= hi.
Proof. revert lo. induction l as [|[a n] l IH]; intros lo; cbn; [done|]. intros (? & ? & H%IH). unfold HS in *. lia. Qed.

Lemma sorted_in lo hi l a n : sorted lo hi l -> (a, n) ∈ l -> lo <= a /\ 0 < n /\ a + HS * n <= hi.
Proof.
  revert lo. induction l as [|[b k] l IH]; intros lo Hs Hin; [by apply not_elem_of_nil in Hin|]. destruct Hs as (H1 & H2 & H3).
  apply elem_of_cons in Hin as [[= -> ->]|Hin].
  - apply sorted_le in H3. lia.
  - destruct (IH _ H3 Hin) as (? & ? & ?). unfold HS in *. lia.
Qed.

Lemma chain_app m l1 l2 next : chain m (l1 ++ l2) next <-> chain m l1 (first l2 next) /\ chain m l2 next.
Proof.
  induction l1 as [|[a n] l1 IH]; cbn [app chain]; [tauto|]. rewrite IH. destruct l1 as [|[b k] l1]; cbn [app first]; tauto.
Qed.

Lemma chain_in m l next a n : chain m l next -> (a, n) ∈ l -> size m a = n.
Proof.
  induction l as [|[b k] l IH]; intros Hc Hin; [by apply not_elem_of_nil in Hin|]. destruct Hc as (H1 & _ & H3).
  apply elem_of_cons in Hin as [[= -> ->]|Hin]; auto.
Qed.

(** Only the headers matter. *)
Definition same_header (m m' : mem) (a : Z) : Prop := ptr m' a = ptr m a /\ size m' a = size m a.

Lemma chain_frame m m' l next : (forall a n, (a, n) ∈ l -> same_header m m' a) -> chain m l next -> chain m' l next.
Proof.
  induction l as [|[a n] l IH]; intros Hs Hc; [done|]. destruct Hc as (H1 & H2 & H3). destruct (Hs a n ltac:(apply list_elem_of_here)) as [E1 E2].
  cbn. rewrite E1, E2. split_and!; [done|done|]. apply IH; [|done]. intros b k Hin. eapply Hs. by apply list_elem_of_further.
Qed.

Lemma sep_app l1 l2 : sep (l1 ++ l2) <-> sep l1 /\ sep l2 /\ Forall (fun u => Forall (disj u) l2) l1.
Proof.
  induction l1 as [|u l1 IH]; cbn [app sep].
  - split; [intros; split_and!; auto; constructor|tauto].
  - rewrite IH, Forall_app, Forall_cons. tauto.
Qed.

Lemma covers_app l1 l2 x : covers (l1 ++ l2) x <-> covers l1 x \/ covers l2 x.
Proof. apply Exists_app. Qed.
Lemma covers_cons u l x : covers (u :: l) x <-> inside u x \/ covers l x.
Proof. apply Exists_cons. Qed.
Lemma inside_join p k b s x : p + HS * k = b -> 0 <= k -> 0 <= s -> inside (p, k + s) x <-> inside (p, k) x \/ inside (b, s) x.
Proof. intros <- Hk Hs. unfold inside, HS. cbn [fst snd]. lia. Qed.

Lemma gaps_sub l l' : (forall u, u ∈ l' -> u ∈ l) -> gaps l -> gaps l'.
Proof. intros H G u v Hu Hv. auto. Qed.
(** A list with one block more. *)
Lemma gaps_insert l1 u l2 : gaps (l1 ++ l2) -> (forall v, v ∈ l1 ++ l2 -> u.1 + HS * u.2 <> v.1 /\ v.1 + HS * v.2 <> u.1) -> 0 < u.2 -> gaps (l1 ++ u :: l2).
Proof.
  intros G H Hu v w. rewrite !elem_of_app, !elem_of_cons. specialize (G v w). pose proof (H v) as Hv. pose proof (H w) as Hw.
  rewrite !elem_of_app in *. intros [Hv1|[->|Hv2]] [Hw1|[->|Hw2]]; try (apply G; tauto); try (apply Hv; tauto); try (apply Hw; tauto). unfold HS. lia.
Qed.

(** ** Headers in memory *)

Lemma ptr_set_ptr m p v : 0 <= v < 2 ^ 64 -> ptr (set_ptr m p v) p = v.
Proof. intros Hv. unfold ptr, set_ptr. rewrite load64_store64. by apply u64_small. Qed.
Lemma size_set_size m p v : 0 <= v < 2 ^ 32 -> size (set_size m p v) p = v.
Proof. intros Hv. unfold size, set_size. rewrite load_store. by apply Z.mod_small. Qed.
Lemma size_set_ptr m p v q : p = q \/ p + 16 <= q \/ q + 16 <= p -> size (set_ptr m p v) q = size m q.
Proof. intros H. unfold size, set_ptr. apply load_store_disjoint. lia. Qed.
Lemma ptr_set_size m p v q : p = q \/ p + 16 <= q \/ q + 16 <= p -> ptr (set_size m p v) q = ptr m q.
Proof. intros H. unfold ptr, set_size. apply load_store_disjoint. lia. Qed.
Lemma ptr_set_ptr_ne m p v q : p + 16 <= q \/ q + 16 <= p -> ptr (set_ptr m p v) q = ptr m q.
Proof. intros H. unfold ptr, set_ptr. apply load_store_disjoint. lia. Qed.
Lemma size_set_size_ne m p v q : p + 16 <= q \/ q + 16 <= p -> size (set_size m p v) q = size m q.
Proof. intros H. unfold size, set_size. apply load_store_disjoint. lia. Qed.
Lemma mget_set_ptr m p v x : x < p \/ p + 16 <= x -> mget (set_ptr m p v) x = mget m x.
Proof. intros H. apply mget_store. lia. Qed.
Lemma mget_set_size m p v x : x < p \/ p + 16 <= x -> mget (set_size m p v) x = mget m x.
Proof. intros H. apply mget_store. lia. Qed.
Lemma size_range m p : 0 <= size m p < 2 ^ 32.
Proof. apply load_range. Qed.

(** ** Where free puts a block *)

Lemma sorted_split b n lo hi F : 0 < n -> lo <= b -> b + HS * n <= hi -> sorted lo hi F -> Forall (disj (b, n)) F ->
  exists F1 F2, F = F1 ++ F2 /\ sorted lo b F1 /\ sorted (b + HS * n) hi F2.
Proof.
  intros Hn. revert lo. induction F as [|[a k] F IH]; intros lo Hlo Hhi Hs Hd; [by exists [], []|].
  destruct Hs as (H1 & H2 & H3). apply Forall_cons in Hd as [Hd1 Hd]. unfold disj in Hd1. cbn [fst snd] in Hd1.
  destruct (Z.le_gt_cases (b + HS * n) a) as [Hle|Hgt].
  - exists [], ((a, k) :: F). by split_and!.
  - destruct (IH (a + HS * k)) as (F1 & F2 & -> & Hs1 & Hs2); [lia|done|done|done|]. exists ((a, k) :: F1), F2. by split_and!.
Qed.

(** In a stretch of the ring before [bp] the loop goes on to its last block, [p]. *)
Lemma free_loop_before m b p k F2 next f Y : chain m (Y ++ (p, k) :: F2) next -> StronglySorted Z.lt (Y ++ [(p, k)]).*1 -> p < b ->
  match F2 with (c, _) :: _ => b < c | [] => next <= p end ->
  free_loop (length Y + S f) m b (first (Y ++ [(p, k)]) 0) = Some p.
Proof.
  intros Hc Hs Hp HF. revert Hc Hs. induction Y as [|[a j] Y IH]; intros Hc Hs.
  - destruct Hc as (_ & Ep & _). cbn. rewrite Ep, (proj2 (Z.ltb_lt p b) Hp). destruct F2 as [|[c i] F2]; cbn [first andb].
    + destruct (b <? next); [done|]. cbn. by rewrite (proj2 (Z.leb_le next p) HF).
    + by rewrite (proj2 (Z.ltb_lt b c) HF).
  - destruct Hc as (_ & Ea & Hc). change (StronglySorted Z.lt (a :: (Y ++ [(p, k)]).*1)) in Hs.
    apply StronglySorted_inv in Hs as [Hs Hall]. specialize (IH Hc Hs).
    assert (Hnext : a < ptr m a <= p).
    { rewrite Ea. destruct Y as [|[c i] Y]; [cbn in Hall; apply Forall_cons in Hall as [? _]; cbn; lia|].
      change (StronglySorted Z.lt (c :: (Y ++ [(p, k)]).*1)) in Hs. change (Forall (Z.lt a) (c :: (Y ++ [(p, k)]).*1)) in Hall.
      apply Forall_cons in Hall as [? _]. apply StronglySorted_inv in Hs as [_ Hs]. rewrite Forall_forall in Hs.
      assert (c < p) by (apply Hs; rewrite fmap_app; apply elem_of_app; right; apply list_elem_of_here). cbn. lia. }
    cbn [length Nat.add first app free_loop]. rewrite (proj2 (Z.ltb_ge b (ptr m a))), andb_false_r by lia.
    rewrite (proj2 (Z.leb_gt (ptr m a) a)) by lia. cbn [andb]. rewrite Ea. destruct Y as [|[c i] Y]; exact IH.
Qed.

(** After [bp] it goes round to [base]. *)
Lemma free_loop_after m b f Y : base < b -> chain m Y base -> StronglySorted Z.lt Y.*1 -> Forall (fun a => b < a) Y.*1 -> Y <> [] ->
  free_loop (length Y + f) m b (first Y 0) = free_loop f m b base.
Proof.
  intros Hb. induction Y as [|[a j] Y IH]; intros Hc Hs Hall Hne; [done|]. destruct Hc as (_ & Ea & Hc). cbn in Hs, Hall.
  apply StronglySorted_inv in Hs as [Hs Hlt]. apply Forall_cons in Hall as [Ha Hall]. cbn beta in Ha.
  cbn [length Nat.add first free_loop]. rewrite (proj2 (Z.ltb_ge a b)) by lia. cbn [andb orb]. rewrite Ea. destruct Y as [|[c i] Y].
  - cbn [first]. rewrite (proj2 (Z.ltb_ge b base)), andb_false_r by lia. done.
  - cbn [first] in *. apply Forall_cons in Hlt as [Hlt _]. cbn in Hlt. rewrite (proj2 (Z.leb_gt c a)) by lia. cbn [andb]. by apply IH.
Qed.

Lemma sorted_asc lo hi F : sorted lo hi F -> StronglySorted Z.lt F.*1 /\ Forall (fun a => lo <= a < hi) F.*1.
Proof.
  revert lo. induction F as [|[a n] F IH]; intros lo Hs; cbn; [split; constructor|]. destruct Hs as (H1 & H2 & H3).
  destruct (IH _ H3) as [Hss Hall]. pose proof (sorted_le _ _ _ H3). unfold HS in *. split; constructor; try done.
  - eapply Forall_impl; [exact Hall|]. cbn. lia.
  - lia.
  - eapply Forall_impl; [exact Hall|]. cbn. lia.
Qed.

(** The ring cut at [bp]: [p] is the last block before it. *)
Record cut_at (brk : Z) (m : mem) (F : list (Z * Z)) (b n : Z) (G : list (Z * Z)) (p k : Z) (F2 : list (Z * Z)) : Prop := {
  ca_ring : (base, 0) :: F = G ++ (p, k) :: F2;
  ca_chain : chain m (G ++ (p, k) :: F2) base;
  ca_lo : base + HS <= b;
  ca_last : p + HS * k <= b;
  ca_base : G = [] /\ p = base /\ k = 0 \/ exists F1, G = (base, 0) :: F1 /\ sorted (base + HS) p F1 /\ 0 < k;
  ca_after : sorted (b + HS * n) brk F2
}.

Lemma ring_cut brk m F b n : 0 < n -> base + HS <= b -> b + HS * n <= brk -> chain m ((base, 0) :: F) base -> sorted (base + HS) brk F ->
  Forall (disj (b, n)) F -> exists G p k F2, cut_at brk m F b n G p k F2.
Proof.
  intros Hn Hlo Hhi Hc Hs Hd. destruct (sorted_split b n _ _ F Hn Hlo Hhi Hs Hd) as (F1 & F2 & -> & Hs1 & Hs2).
  destruct (exists_last (l := (base, 0) :: F1) ltac:(done)) as (G & [p k] & E).
  assert (Er : (base, 0) :: F1 ++ F2 = G ++ (p, k) :: F2).
  { change ((base, 0) :: F1 ++ F2) with (((base, 0) :: F1) ++ F2). rewrite E, <- app_assoc. done. }
  exists G, p, k, F2. split; [done|by rewrite <- Er|done| | |done].
  - destruct G as [|g G]; simplify_eq/=; [unfold HS in *; lia|]. apply sorted_app in Hs1 as (mid & _ & H1 & H2 & H3). cbn in H3. unfold HS in *. lia.
  - destruct G as [|g G]; simplify_eq/=; [by left|right]. exists G. apply sorted_app in Hs1 as (mid & Hs1 & H1 & H2 & _).
    split_and!; [done| |done]. rewrite <- (app_nil_r G). apply sorted_app. exists mid. split; [done|]. cbn. lia.
Qed.

Lemma cut_asc brk m F b n G p k F2 : 0 < n -> cut_at brk m F b n G p k F2 ->
  StronglySorted Z.lt (G ++ [(p, k)]).*1 /\ base <= p < b /\ StronglySorted Z.lt F2.*1 /\ Forall (fun a => b < a) F2.*1.
Proof.
  intros Hn [_ _ Hlo Hl Hb Ha]. destruct (sorted_asc _ _ _ Ha) as [Hs2 Hf2].
  assert (HF2 : Forall (fun a => b < a) F2.*1) by (eapply Forall_impl; [exact Hf2|]; cbn; unfold HS; lia).
  destruct Hb as [(-> & -> & ->)|(F1 & -> & Hs1 & Hk)].
  - split_and!; try done; [repeat constructor|unfold HS in *; lia..].
  - pose proof (sorted_le _ _ _ Hs1). assert (Hs : sorted (base + HS) (p + HS * k) (F1 ++ [(p, k)])).
    { apply sorted_app. exists p. split; [done|]. cbn. unfold HS in *. lia. }
    destruct (sorted_asc _ _ _ Hs) as [H1 H2]. split_and!; try done; [|unfold HS in *; lia..].
    constructor; [done|]. eapply Forall_impl; [exact H2|]. cbn. unfold HS. lia.
Qed.

(** *** The loop of free ends, at [p] *)
Lemma free_loop_spec brk m F b n G p k F2 q fuel : 0 < n -> cut_at brk m F b n G p k F2 -> q ∈ base :: F.*1 -> (S (length F) < fuel)%nat ->
  free_loop fuel m b q = Some p.
Proof.
  intros Hn Hcut Hq Hf. destruct (cut_asc _ _ _ _ _ _ _ _ _ Hn Hcut) as (Hs1 & Hp & Hs2 & HF2). destruct Hcut as [Er Hc Hlo Hl Hb Ha].
  assert (HF : match F2 with (c, _) :: _ => b < c | [] => base <= p end).
  { destruct F2 as [|[c j] F2]; [lia|]. by apply Forall_cons in HF2 as [? _]. }
  assert (Hlen : length F = (length G + length F2)%nat).
  { apply (f_equal length) in Er. rewrite length_app in Er. cbn in Er. lia. }
  change (base :: F.*1) with (((base, 0) :: F).*1) in Hq. rewrite Er, fmap_app in Hq. cbn [fmap list_fmap] in Hq.
  apply chain_app in Hc as Hc'. destruct Hc' as [Hc1 Hc2].
  assert (Hbefore : forall X Y f, G = X ++ Y -> (length Y < f)%nat -> free_loop f m b (first (Y ++ [(p, k)]) 0) = Some p).
  { intros X Y f -> Hlt. replace f with (length Y + S (f - S (length Y)))%nat by lia. rewrite <- app_assoc in Hc. apply chain_app in Hc as [_ Hc].
    apply (free_loop_before m b p k F2 base); try done; [|lia]. rewrite <- app_assoc, fmap_app in Hs1. by apply StronglySorted_app_1_r in Hs1. }
  apply elem_of_app in Hq as [Hq|Hq].
  - apply list_elem_of_fmap in Hq as ([q' j] & -> & Hq). apply list_elem_of_split in Hq as (X & Y & E). cbn [fst].
    apply (Hbefore X ((q', j) :: Y)); [done|]. rewrite E, length_app in Hlen. cbn [length] in *. lia.
  - apply elem_of_cons in Hq as [->|Hq]; [apply (Hbefore G []); [by rewrite app_nil_r|cbn; lia]|].
    apply list_elem_of_fmap in Hq as ([q' j] & -> & Hq). apply list_elem_of_split in Hq as (X & Y & E). cbn [fst].
    rewrite E in Hc2, Hs2, HF2. apply (chain_app m ((p, k) :: X)) in Hc2 as [_ Hc2]. rewrite fmap_app in Hs2, HF2. apply Forall_app in HF2 as [_ HF2].
    rewrite E, length_app in Hlen. cbn [length] in Hlen.
    replace fuel with (length ((q', j) :: Y) + (fuel - length ((q', j) :: Y)))%nat by (cbn [length]; lia).
    rewrite (free_loop_after m b _ ((q', j) :: Y)); [|unfold HS in *; lia|done|by apply StronglySorted_app_1_r in Hs2|done|done].
    replace base with (first (G ++ [(p, k)]) 0); [apply (Hbefore [] G); [done|cbn [length]; lia]|].
    destruct G as [|[g ?] G]; by simplify_eq/=.
Qed.

(** *** Joining the block with the next one *)

Definition join_next (m : mem) (bp p : Z) : mem :=
  if bp + HS * size m bp =? ptr m p then
    let m := set_size m bp (size m bp + size m (ptr m p)) in
    set_ptr m bp (ptr m (ptr m p))
  else set_ptr m bp (ptr m p).
Definition join_prev (m : mem) (bp p : Z) : mem :=
  if p + HS * size m p =? bp then
    let m := set_size m p (size m p + size m bp) in
    set_ptr m p (ptr m bp)
  else set_ptr m p bp.

Lemma free_unfold fuel h b p : free_loop fuel (h_mem h) b (h_freep h) = Some p ->
  free fuel h (b + HS) = mret (mk_heap (join_prev (join_next (h_mem h) b p) b p) p).
Proof. intros E. unfold free. replace (b + HS - HS) with b by lia. rewrite E. reflexivity. Qed.

Lemma join_next_out m b p x : x < b \/ b + HS <= x -> mget (join_next m b p) x = mget m x.
Proof.
  intros Hx. unfold join_next, HS in *. destruct (_ =? _); cbv zeta; rewrite mget_set_ptr by lia; [|done]. apply mget_set_size. lia.
Qed.
Lemma join_prev_out m b p x : x < p \/ p + HS <= x -> mget (join_prev m b p) x = mget m x.
Proof.
  intros Hx. unfold join_prev, HS in *. destruct (_ =? _); cbv zeta; rewrite mget_set_ptr by lia; [|done]. apply mget_set_size. lia.
Qed.

Lemma header_out m m' a : (forall x, a <= x < a + HS -> mget m' x = mget m x) -> same_header m m' a.
Proof. intros H. unfold HS in *. split; unfold ptr, size; apply load_ext; intros i Hi; apply H; lia. Qed.

Lemma cut_sep brk m F b n G p k F2 : cut_at brk m F b n G p k F2 -> p + HS <= b /\ (forall a i, (a, i) ∈ G -> a + HS <= p).
Proof.
  intros [_ _ Hlo Hl [(-> & -> & ->)|(F1 & -> & Hs1 & Hk)] _]; unfold HS in *; (split; [lia|]); intros a i Hin.
  - by apply not_elem_of_nil in Hin.
  - pose proof (sorted_le _ _ _ Hs1) as Hle. apply elem_of_cons in Hin as [[= -> ->]|Hin]; [lia|].
    destruct (sorted_in _ _ _ _ _ Hs1 Hin) as (? & ? & ?). unfold HS in *. lia.
Qed.

Definition apart (u : Z * Z) (F F' : list (Z * Z)) (b n : Z) : Prop := 0 < u.2 -> disj u (b, n) -> Forall (disj u) F -> Forall (disj u) F'.

Lemma join_next_spec brk m F b n G p k F2 :
  0 < base -> brk <= 2 ^ 36 -> 0 < n -> b + HS * n <= brk -> size m b = n -> cut_at brk m F b n G p k F2 ->
  exists s R, chain (join_next m b p) ((b, s) :: R) base /\ sorted b brk ((b, s) :: R) /\ (forall u, apart u F2 ((b, s) :: R) b n) /\
    n <= s /\ (length R <= length F2)%nat /\ (forall x, covers ((b, s) :: R) x <-> covers F2 x \/ inside (b, n) x) /\ (gaps F2 -> gaps ((b, s) :: R)).
Proof.
  intros Hb0 Hbrk Hn Hhi Hsz Hcut. pose proof (cut_asc _ _ _ _ _ _ _ _ _ Hn Hcut) as (_ & Hp & _).
  destruct (cut_sep _ _ _ _ _ _ _ _ _ Hcut) as [Hpb _]. destruct Hcut as [_ Hc Hlo Hl _ Ha].
  apply chain_app in Hc as [_ (_ & Ep & Hc2)]. unfold join_next. rewrite Hsz, Ep. destruct F2 as [|[c j] F2]; cbn [first].
  - unfold HS in *. rewrite (proj2 (Z.eqb_neq (b + 16 * n) base)) by lia. exists n, []. cbn. rewrite size_set_ptr, ptr_set_ptr by lia.
    unfold HS. split_and!; try done; try lia; [intros u _ Hd _; by constructor|intros x; rewrite covers_cons; tauto|].
    intros _. apply (gaps_insert [] _ []); [intros u v Hu; by apply not_elem_of_nil in Hu|intros v Hv; by apply not_elem_of_nil in Hv|done].
  - destruct Ha as (Hc & Hj & Ha). destruct Hc2 as (Ecj & Ecp & Hc2). pose proof (sorted_le _ _ _ Ha) as Hle. unfold HS in *.
    assert (Hf : 0 <= first F2 base < 2 ^ 64).
    { destruct F2 as [|[d i] F2]; cbn; [lia|]. destruct Ha as (? & ? & Ha). apply sorted_le in Ha. unfold HS in *. lia. }
    assert (Hframe : forall m', (forall x, x < b \/ b + 16 <= x -> mget m' x = mget m x) -> chain m' ((c, j) :: F2) base).
    { intros m' Hm. apply (chain_frame m); [|done]. intros a i Hin. apply header_out. intros x Hx. apply Hm.
      destruct (sorted_in (b + 16 * n) brk ((c, j) :: F2) a i) as (? & _); [done|done|]. lia. }
    destruct (Z.eqb_spec (b + 16 * n) c) as [<-|Hne].
    + exists (n + j), F2. cbv zeta. rewrite Ecj, (ptr_set_size m b _ p), Ep by lia. cbn [first]. rewrite ptr_set_size, Ecp by lia.
      cbn [chain]. rewrite size_set_ptr, size_set_size, ptr_set_ptr by lia.
      split; [split_and!; [done|done|]|split; [cbn; unfold HS; split_and!; [lia|lia|]|split; [|split; [lia|split; [cbn; lia|split]]]]].
      * apply Hframe. intros x Hx. rewrite mget_set_ptr by lia. by apply mget_set_size.
      * by replace (b + 16 * (n + j)) with (b + 16 * n + 16 * j) by lia.
      * intros u Hu Hd HF. apply Forall_cons in HF as [Hd2 HF]. constructor; [|done]. unfold disj, HS in *. cbn [fst snd] in *. lia.
      * intros x. rewrite !covers_cons, (inside_join b n (b + 16 * n) j) by (unfold HS; lia). tauto.
      * intros Gp. apply (gaps_insert [] _ F2); [by eapply gaps_sub; [|exact Gp]; intros u; rewrite elem_of_cons; auto| |cbn; lia].
        intros [a i] Hv. destruct (sorted_in _ _ _ _ _ Ha Hv) as (? & ? & ?). specialize (Gp (b + 16 * n, j) (a, i)). unfold HS in *. cbn [fst snd] in *.
        split; [|lia]. rewrite !elem_of_cons in Gp. specialize (Gp (or_introl eq_refl) (or_intror Hv)). lia.
    + exists n, ((c, j) :: F2). split; [|split; [|split; [intros u _ Hd HF; by constructor|split; [lia|split; [done|split]]]]].
      * cbn [chain first]. rewrite size_set_ptr, ptr_set_ptr by lia. split; [done|split; [done|]]. apply Hframe. intros x Hx. by apply mget_set_ptr.
      * cbn. unfold HS. split_and!; try done; lia.
      * intros x. rewrite !covers_cons. tauto.
      * intros Gp. apply (gaps_insert [] _ ((c, j) :: F2)); [done| |done]. intros [a i] Hv.
        assert (Hv' : (a, i) = (c, j) \/ c + 16 * j <= a /\ 0 < i).
        { apply elem_of_cons in Hv as [?|Hv]; [by left|right]. destruct (sorted_in _ _ _ _ _ Ha Hv) as (? & ? & ?). unfold HS in *. lia. }
        unfold HS. cbn [fst snd]. destruct Hv' as [[= -> ->]|?]; lia.
Qed.

(** *** Joining it with the one before *)

Lemma join_prev_spec brk m G p k b s R :
  0 < base -> brk <= 2 ^ 36 -> p + HS <= b -> (forall a i, (a, i) ∈ G -> a + HS <= p) -> p + HS * k <= b ->
  (G = [] /\ p = base /\ k = 0 \/ exists F1, G = (base, 0) :: F1 /\ sorted (base + HS) p F1 /\ 0 < k) ->
  chain m G p -> size m p = k -> chain m ((b, s) :: R) base -> sorted b brk ((b, s) :: R) ->
  exists F', (base, 0) :: F' = G ++ (p, if p + HS * k =? b then k + s else k) :: (if p + HS * k =? b then R else (b, s) :: R) /\
    chain (join_prev m b p) ((base, 0) :: F') base /\ sorted (base + HS) brk F' /\ p ∈ base :: F'.*1.
Proof.
  intros Hb0 Hbrk Hpb HG Hpk Hbase HcG Hsz Hc Hs. set (L := G ++ (p, _) :: _).
  assert (HL : exists F', (base, 0) :: F' = L /\ sorted (base + HS) brk F').
  { unfold L. pose proof Hs as (H1 & H2 & H3). destruct Hbase as [(-> & -> & ->)|(F1 & -> & HF1 & Hk)]; unfold HS in *.
    - rewrite (proj2 (Z.eqb_neq (base + 16 * 0) b)) by lia. exists ((b, s) :: R). split; [done|]. cbn. unfold HS. split; [lia|by split].
    - destruct (Z.eqb_spec (p + 16 * k) b) as [<-|Hne]; eexists; (split; [reflexivity|]); apply sorted_app; exists p; (split; [done|]); cbn; unfold HS.
      + replace (p + 16 * (k + s)) with (p + 16 * k + 16 * s) by lia. split; [lia|split; [lia|done]].
      + split; [lia|split; [lia|split; [lia|by split]]]. }
  destruct HL as (F' & EF & HsF). exists F'. rewrite EF. split; [done|split; [|split; [done|]]].
  - unfold L, join_prev. rewrite Hsz. pose proof Hc as (Eb & Ebp & HcR). pose proof Hs as (_ & Hs0 & HsR). pose proof (sorted_le _ _ _ HsR) as Hle.
    assert (Hframe : forall m', (forall x, x < p \/ p + 16 <= x -> mget m' x = mget m x) -> chain m' G p /\ chain m' ((b, s) :: R) base).
    { clear -Hs HcG Hc Hpb HG. intros m' Hm. split; (eapply chain_frame; [|eassumption]); intros a i Hin; apply header_out; intros x Hx; apply Hm; unfold HS in *.
      - specialize (HG a i Hin). lia.
      - destruct (sorted_in _ _ _ _ _ Hs Hin) as (? & _). lia. }
    assert (Hp0 : base <= p /\ 0 <= k) by (destruct Hbase as [(_ & -> & ->)|(F1 & _ & HF1%sorted_le & Hk)]; unfold HS in *; lia).
    assert (Hf : 0 <= first R base < 2 ^ 64).
    { destruct R as [|[d i] R]; cbn; [unfold HS in *; lia|]. destruct HsR as (? & ? & HsR). apply sorted_le in HsR. unfold HS in *. lia. }
    unfold HS in *. destruct (Z.eqb_spec (p + 16 * k) b) as [E|E]; apply chain_app; cbv zeta.
    + rewrite Eb, ptr_set_size, Ebp by lia. set (m' := set_ptr _ p _).
      destruct (Hframe m') as [HG' (_ & _ & HR')]; [intros x Hx; unfold m'; rewrite mget_set_ptr by lia; by apply mget_set_size|].
      split; [done|]. cbn [chain]. unfold m' at 1 2. rewrite size_set_ptr, size_set_size, ptr_set_ptr by lia. by split.
    + destruct (Hframe (set_ptr m p b)) as [HG' Hb']; [intros x Hx; by apply mget_set_ptr|]. split; [done|]. cbn [chain first].
      rewrite size_set_ptr, ptr_set_ptr by lia. split; [done|split; [done|]]. exact Hb'.
  - change (base :: F'.*1) with (((base, 0) :: F').*1). rewrite EF. unfold L. rewrite fmap_app. apply elem_of_app. right. apply list_elem_of_here.
Qed.

(** The joined list has the bytes of its parts, and no two of its blocks touch. *)
Lemma joined_covers F1 p k b s R x : 0 <= k -> 0 <= s ->
  covers (F1 ++ (p, if p + HS * k =? b then k + s else k) :: (if p + HS * k =? b then R else (b, s) :: R)) x <->
  covers (F1 ++ [(p, k)]) x \/ covers ((b, s) :: R) x.
Proof.
  intros Hk Hs. destruct (Z.eqb_spec (p + HS * k) b) as [E|]; rewrite !covers_app, !covers_cons; [rewrite (inside_join p k b s) by done|];
    unfold covers; rewrite Exists_nil; tauto.
Qed.

Lemma joined_gaps lo brk F1 p k b s R :
  sorted lo p F1 -> 0 < k -> p + HS * k <= b -> sorted b brk ((b, s) :: R) -> gaps (F1 ++ [(p, k)]) -> gaps ((b, s) :: R) ->
  gaps (F1 ++ (p, if p + HS * k =? b then k + s else k) :: (if p + HS * k =? b then R else (b, s) :: R)).
Proof.
  intros H1 Hk Hb HR G1 G2.
  assert (HF1 : forall v, v ∈ F1 -> 0 < v.2 /\ v.1 + HS * v.2 <= p /\ v.1 + HS * v.2 <> p).
  { intros [a i] Hv. destruct (sorted_in _ _ _ _ _ H1 Hv) as (? & ? & ?). split; [done|split; [done|]].
    apply (G1 (a, i) (p, k)); rewrite elem_of_app, ?list_elem_of_singleton; auto. }
  assert (HR' : forall v, v ∈ (b, s) :: R -> 0 < v.2 /\ b <= v.1).
  { intros [a i] Hv. destruct (sorted_in _ _ _ _ _ HR Hv) as (? & ? & ?). by split. }
  assert (HRs : forall v, v ∈ R -> b + HS * s <= v.1 /\ b + HS * s <> v.1).
  { intros [a i] Hv. destruct HR as (_ & _ & HR). destruct (sorted_in _ _ _ _ _ HR Hv) as (? & ? & ?). split; [done|].
    apply (G2 (b, s) (a, i)); rewrite elem_of_cons; auto. }
  assert (Hs : 0 < s) by (apply (HR' (b, s)); apply list_elem_of_here).
  assert (Hx : forall l, (forall v, v ∈ l -> v ∈ (b, s) :: R) -> gaps (F1 ++ l)).
  { intros l Hl u v. rewrite !elem_of_app. intros [Hu|Hu] [Hv|Hv].
    - apply G1; rewrite elem_of_app; auto.
    - destruct (HF1 _ Hu) as (? & ? & ?), (HR' v) as [? ?]; [auto|]. unfold HS in *. lia.
    - destruct (HF1 _ Hv) as (? & ? & ?), (HR' u) as [? ?]; [auto|]. unfold HS in *. lia.
    - apply G2; auto. }
  destruct (Z.eqb_spec (p + HS * k) b) as [E|E]; (apply gaps_insert; [apply Hx; intros v; rewrite ?elem_of_cons; tauto| |cbn; lia]);
    intros v; rewrite elem_of_app; (intros [Hv|Hv]; [destruct (HF1 _ Hv) as (? & ? & ?)|]).
  1, 3: unfold HS in *; cbn [fst snd]; lia.
  - destruct (HRs _ Hv), (HR' v) as [? ?]; [rewrite elem_of_cons; auto|]. unfold HS in *; cbn [fst snd]; lia.
  - destruct (HR' _ Hv). unfold HS in *; cbn [fst snd]; lia.
Qed.

(** ** free *)

(** A block away from [b] and the free list is away from the new free list, and keeps its bytes. *)
Definition keeps (F F' : list (Z * Z)) (m m' : mem) (b n : Z) (u : Z * Z) : Prop :=
  0 < u.2 -> base + HS <= u.1 -> disj u (b, n) -> Forall (disj u) F ->
  Forall (disj u) F' /\ (forall x, u.1 <= x < u.1 + HS * u.2 -> mget m' x = mget m x).

Lemma free_ring brk h F b n fuel :
  ring_ok brk h F -> 0 < n -> base + HS <= b -> b + HS * n <= brk -> size (h_mem h) b = n -> Forall (disj (b, n)) F -> (S (length F) < fuel)%nat ->
  exists h' F', free fuel h (b + HS) = mret h' /\ ring_ok brk h' F' /\ (forall u, keeps F F' (h_mem h) (h_mem h') b n u) /\
    (exists a k, (a, k) ∈ F' /\ n <= k) /\ (length F' <= S (length F))%nat /\ (forall x, covers F' x <-> covers F x \/ inside (b, n) x).
Proof.
  intros [Hb0 Hbrk Hfp Hc Hs Hgp] Hn Hlo Hhi Hsz Hd Hf. destruct (ring_cut _ _ _ _ _ Hn Hlo Hhi Hc Hs Hd) as (G & p & k & F2 & Hcut).
  rewrite (free_unfold _ _ _ _ (free_loop_spec _ _ _ _ _ _ _ _ _ _ _ Hn Hcut Hfp Hf)).
  destruct (join_next_spec _ _ _ _ _ _ _ _ _ Hb0 Hbrk Hn Hhi Hsz Hcut) as (s & R & Hc1 & Hs1 & Hap & Hns & HR & Hcov & Hgn).
  destruct (cut_sep _ _ _ _ _ _ _ _ _ Hcut) as [Hpb HG].
  destruct Hcut as [Er Hcr _ Hl Hbase Ha]. apply chain_app in Hcr as [HcG (Ek & _ & _)]. cbn [first] in HcG.
  set (m1 := join_next (h_mem h) b p) in *.
  assert (Hm1 : forall a, a + HS <= b -> same_header (h_mem h) m1 a).
  { intros a Ha'. apply header_out. intros x Hx. apply join_next_out. lia. }
  destruct (join_prev_spec brk m1 G p k b s R) as (F' & EF & Hc2 & Hs2 & Hp2); try done.
  { eapply chain_frame; [|exact HcG]. intros a i Hin. apply Hm1. specialize (HG a i Hin). unfold HS in *. lia. }
  { destruct (Hm1 p) as [_ ->]; [unfold HS in *; lia|done]. }
  assert (Hs0 : 0 < s) by (by destruct Hs1 as (_ & ? & _)).
  assert (Hnew : gaps F' /\ forall x, covers F' x <-> covers F x \/ inside (b, n) x).
  { clear -Er EF Hbase Hs1 Hgp Hcov Hgn Hl Hlo Hs0. destruct Hbase as [(-> & -> & ->)|(F1 & -> & HF1 & Hk)].
    - rewrite (proj2 (Z.eqb_neq (base + HS * 0) b)) in EF by (unfold HS in *; lia). cbn in EF, Er. simplify_eq. auto.
    - cbn in Er, EF. injection Er as ->. injection EF as ->. split; [|intros x].
      + eapply joined_gaps; eauto; [|apply Hgn]; (eapply gaps_sub; [|exact Hgp]; intros u; rewrite !elem_of_app, !elem_of_cons, ?elem_of_nil; tauto).
      + rewrite joined_covers, Hcov, !covers_app, !covers_cons by lia. unfold covers. rewrite Exists_nil. tauto. }
  destruct Hnew as [Hgp' Hcov'].
  eexists _, F'. split; [reflexivity|]. split; [by split|]. cbn [h_mem].
  assert (Hlen : (length F = length G + length F2)%nat) by (apply (f_equal length) in Er; rewrite length_app in Er; cbn in Er; lia).
  assert (Hlen' : (length F' <= S (length F))%nat) by (apply (f_equal length) in EF; rewrite length_app in EF; destruct (_ =? _); cbn in EF; lia).
  assert (Hframe : forall u, 0 < u.2 -> disj u (b, n) -> u.1 + HS * u.2 <= p \/ p + HS <= u.1 ->
    forall x, u.1 <= x < u.1 + HS * u.2 -> mget (join_prev m1 b p) x = mget (h_mem h) x).
  { intros u Hu Hdb Hdp x Hx. unfold disj, HS in *. cbn [fst snd] in *. rewrite join_prev_out by (unfold HS; lia). apply join_next_out. unfold HS. lia. }
  destruct Hbase as [(-> & -> & ->)|(F1 & -> & HF1 & Hk)].
  - rewrite (proj2 (Z.eqb_neq (base + HS * 0) b)) in EF by (unfold HS in *; lia). cbn in EF, Er. simplify_eq.
    split; [|split; [exists b, s; split; [apply list_elem_of_here|done]|done]].
    intros u Hu Hub Hdb HdF. split; [by apply Hap|]. apply Hframe; try done. by right.
  - cbn in Er, EF. injection Er as ->. injection EF as ->. split; [|split; [|done]].
    + intros u Hu Hub Hdb HdF. apply Forall_app in HdF as [HdF1 HdF2]. apply Forall_cons in HdF2 as [Hdp HdF2].
      specialize (Hap u Hu Hdb HdF2). apply Forall_cons in Hap as [Hdbs HdR]. split.
      * apply Forall_app. split; [done|]. destruct (Z.eqb_spec (p + HS * k) b); [|by rewrite !Forall_cons]. constructor; [|done].
        unfold disj, HS in *. cbn [fst snd] in *. lia.
      * apply Hframe; try done. unfold disj, HS in *. cbn [fst snd] in *. lia.
    + destruct (Z.eqb_spec (p + HS * k) b); [exists p, (k + s)|exists b, s]; (split; [rewrite elem_of_app, !elem_of_cons; tauto|lia]).
Qed.

(** C15: free returns a block in use to the free list: the list is again a ring in order of addresses whose blocks overlap
    neither each other nor a block still in use, it holds exactly the bytes it held before and the block's, and no two of
    its blocks touch (the block has been joined with the neighbours it touches); the other blocks in use keep their bytes,
    and the search always ends. *)
Theorem free_spec brk h F U1 U2 b n fuel :
  heap_ok brk h F (U1 ++ (b, n) :: U2) -> (S (length F) < fuel)%nat ->
  exists h' F', free fuel h (b + HS) = mret h' /\ heap_ok brk h' F' (U1 ++ U2) /\
    (forall x, covers F' x <-> covers F x \/ inside (b, n) x) /\ gaps F' /\
    (forall u x, u ∈ U1 ++ U2 -> u.1 <= x < u.1 + HS * u.2 -> mget (h_mem h') x = mget (h_mem h) x).
Proof.
  intros [Hring Hu Hsep] Hf. apply Forall_app in Hu as [Hu1 Hu]. apply Forall_cons in Hu as [(Hn & Hlo & Hhi & Hsz & Hd) Hu2].
  cbn [fst snd] in *. destruct (free_ring brk h F b n fuel) as (h' & F' & E & Hring' & Hk & _ & _ & Hcov); try done.
  exists h', F'. split; [done|]. apply sep_app in Hsep as (Hs1 & (Hb2 & Hs2) & H12).
  assert (Hnew : Forall (fun u => disj u (b, n)) (U1 ++ U2)).
  { apply Forall_app. split.
    - eapply Forall_impl; [exact H12|]. cbn. by intros u [? _]%Forall_cons.
    - eapply Forall_impl; [exact Hb2|]. unfold disj. cbn. intros u. tauto. }
  assert (Hall : Forall (used_ok brk (h_mem h) F) (U1 ++ U2)) by (by apply Forall_app).
  assert (Hkeep : forall u, u ∈ U1 ++ U2 -> used_ok brk (h_mem h) F u /\ Forall (disj u) F' /\ (forall x, u.1 <= x < u.1 + HS * u.2 -> mget (h_mem h') x = mget (h_mem h) x)).
  { intros u Hin. rewrite Forall_forall in Hnew, Hall. specialize (Hall u Hin). destruct Hall as (? & ? & ? & ? & ?).
    split; [done|]. apply Hk; auto. }
  split; [|split; [done|split; [by apply (ro_gaps _ _ _ Hring')|intros u x Hin; by apply Hkeep]]].
  split; try done.
  - apply Forall_forall. intros u Hin. destruct (Hkeep u Hin) as ((? & ? & ? & Hsu & ?) & HF' & Hm). split_and!; try done.
    rewrite <- Hsu. apply header_out. intros x Hx. apply Hm. unfold HS in *. lia.
  - apply sep_app. split_and!; try done. eapply Forall_impl; [exact H12|]. cbn. by intros u [_ ?]%Forall_cons.
Qed.

(** ** malloc *)

Definition take_block (h : heap) (nunits prevp p : Z) : heap * Z :=
  let m := h_mem h in
  let '(m, p) :=
    if size m p =? nunits then (set_ptr m prevp (ptr m p), p)
    else
      let m := set_size m p (size m p - nunits) in
      let p := p + HS * size m p in
      (set_size m p nunits, p) in
  (mk_heap m prevp, p + HS).

(** [p] follows [q] in the ring [L]. *)
Definition follows (L : list (Z * Z)) (q p : Z) : Prop :=
  (exists X j s Y, L = X ++ (q, j) :: (p, s) :: Y) \/ (p = base /\ exists X j, L = X ++ [(q, j)]).

Lemma follows_ptr m L q i : chain m L base -> (q, i) ∈ L -> follows L q (ptr m q).
Proof.
  intros Hc Hin. apply list_elem_of_split in Hin as (X & Y & ->). apply chain_app in Hc as [_ (_ & -> & _)].
  destruct Y as [|[p s] Y]; [right|left]; cbn; eauto 10.
Qed.

Lemma step_fits fuel nu h prevp p : nu <= size (h_mem h) p -> malloc_step fuel nu (h, prevp, p) = mret (inr (take_block h nu prevp p)).
Proof.
  intros H. unfold malloc_step, take_block. rewrite (proj2 (Z.leb_le nu _) H). cbv zeta. by destruct (size (h_mem h) p =? nu).
Qed.
Lemma step_next fuel nu h prevp p : size (h_mem h) p < nu -> p <> h_freep h -> malloc_step fuel nu (h, prevp, p) = mret (inl (h, p, ptr (h_mem h) p)).
Proof. intros H Hp. unfold malloc_step. by rewrite (proj2 (Z.leb_gt nu _) H), (proj2 (Z.eqb_neq p _) Hp). Qed.

(** Round the ring to [freep]: a block that fits is taken, or none fits. *)
Lemma search fuel nu h L V : chain (h_mem h) L base ->
  forall prevp n, follows L prevp (first V 0) -> chain (h_mem h) V (ptr (h_mem h) (h_freep h)) -> (forall x, x ∈ V -> x ∈ L) ->
  (exists V' j, V = V' ++ [(h_freep h, j)] /\ h_freep h ∉ V'.*1) -> (length V <= n)%nat ->
  (exists q p s, (p, s) ∈ V /\ nu <= s /\ follows L q p /\
     ploop n (malloc_step fuel nu) (h, prevp, first V 0) = mret (take_block h nu q p)) \/
  (Forall (fun x => x.2 < nu) V /\ exists q n', (n < n' + length V)%nat /\
     ploop n (malloc_step fuel nu) (h, prevp, first V 0) = ploop n' (malloc_step fuel nu) (h, q, h_freep h) /\ (0 < n')%nat).
Proof.
  intros HL. induction V as [|[p s] V IH]; intros prevp n Hf Hc Hin (V' & j & EV & Hnot) Hn; [by destruct V'|].
  destruct n as [|n]; [cbn in Hn; lia|]. destruct Hc as (Es & Ep & Hc). cbn [first] in *.
  destruct (Z.le_gt_cases nu s) as [Hfit|Hbig].
  { left. exists prevp, p, s. split_and!; [apply list_elem_of_here|done|done|]. cbn [ploop]. by rewrite step_fits by (by rewrite Es). }
  destruct V' as [|[p' s'] V'].
  { right. cbn in EV. simplify_eq. split; [by repeat constructor|]. exists prevp, (S n). split_and!; [cbn; lia|done|lia]. }
  cbn [app] in EV. injection EV as <- <- ->. rewrite fmap_cons, not_elem_of_cons in Hnot. destruct Hnot as [Hne Hnot]. cbn [fst] in Hne.
  assert (Hstep : ploop (S n) (malloc_step fuel nu) (h, prevp, p) = ploop n (malloc_step fuel nu) (h, p, first (V' ++ [(h_freep h, j)]) 0)).
  { cbn [ploop]. rewrite step_next by (done || by rewrite Es). rewrite Ep. by destruct V'. }
  rewrite Hstep. destruct (IH p n) as [(q & p1 & s1 & H1 & H2 & H3 & H4)|(H1 & q & n' & H2 & H3 & H4)]; try done.
  - replace (first (V' ++ [(h_freep h, j)]) 0) with (ptr (h_mem h) p) by (rewrite Ep; by destruct V').
    eapply follows_ptr; [done|]. apply Hin, list_elem_of_here.
  - intros x Hx. apply Hin. by apply list_elem_of_further.
  - by exists V', j.
  - cbn in Hn. lia.
  - left. exists q, p1, s1. split_and!; try done. by apply list_elem_of_further.
  - right. split; [by constructor|]. exists q, n'. split_and!; try done. cbn [length]. lia.
Qed.

Lemma asc_NoDup l : StronglySorted Z.lt l -> NoDup l.
Proof.
  induction 1 as [|a l Hs IH Hall]; constructor; [|done]. intros Hin. rewrite Forall_forall in Hall. specialize (Hall _ Hin). lia.
Qed.

(** The ring from the block after [freep] round to [freep]. *)
Lemma ring_walk brk h F : ring_ok brk h F ->
  exists V, chain (h_mem h) V (ptr (h_mem h) (h_freep h)) /\ (forall x, x ∈ V <-> x ∈ (base, 0) :: F) /\ length V = S (length F) /\
    (exists V' j, V = V' ++ [(h_freep h, j)] /\ h_freep h ∉ V'.*1) /\ first V 0 = ptr (h_mem h) (h_freep h) /\
    follows ((base, 0) :: F) (h_freep h) (first V 0).
Proof.
  intros [Hb0 Hbrk Hfp Hc Hs]. destruct (sorted_asc _ _ _ Hs) as [Hss Hall].
  assert (Hnd : NoDup ((base, 0) :: F).*1).
  { apply NoDup_cons. split.
    - intros Hin. rewrite Forall_forall in Hall. specialize (Hall _ Hin). cbn in Hall. unfold HS in *. lia.
    - by apply asc_NoDup. }
  change (base :: F.*1) with (((base, 0) :: F).*1) in Hfp. apply list_elem_of_fmap in Hfp as ([q j] & Eq & Hin). cbn in Eq.
  pose proof (follows_ptr _ _ q j Hc Hin) as Hfol. apply list_elem_of_split in Hin as (A & B & EL). rewrite EL in Hc, Hnd |- *. rewrite EL in Hfol.
  apply chain_app in Hc as [HcA (Ej & Ep & HcB)]. rewrite <- Eq in *. exists (B ++ A ++ [(h_freep h, j)]).
  assert (Ebase : first (A ++ [(h_freep h, j)]) 0 = base) by (destruct A as [|[a i] A]; by simplify_eq/=).
  assert (Efirst : first (B ++ A ++ [(h_freep h, j)]) 0 = ptr (h_mem h) (h_freep h)).
  { rewrite Ep. destruct B as [|[b i] B]; [exact Ebase|done]. }
  split_and!.
  - apply chain_app. split.
    + replace (first (A ++ [(h_freep h, j)]) _) with base; [done|]. rewrite <- Ebase. by destruct A.
    + apply chain_app. split; [done|]. by split.
  - intros x. rewrite !elem_of_app, !elem_of_cons, elem_of_nil. tauto.
  - apply (f_equal length) in EL. rewrite !length_app in *. cbn in *. lia.
  - exists (B ++ A), j. split; [by rewrite app_assoc|]. rewrite !fmap_app, fmap_cons in *. cbn [fst] in Hnd. apply NoDup_app in Hnd as (_ & HA & HB).
    apply NoDup_cons in HB as [HB _]. rewrite elem_of_app. intros [?|H]; [done|]. eapply HA; [exact H|]. apply list_elem_of_here.
  - done.
  - by rewrite Efirst.
Qed.

(** *** Taking a block *)

Lemma ring_gap hi F X q j Z : sorted (base + HS) hi F -> (base, 0) :: F = X ++ (q, j) :: Z ->
  (forall a i, (a, i) ∈ X -> a + HS <= q) /\ (forall a i, (a, i) ∈ Z -> q + HS <= a).
Proof.
  intros Hs E. destruct X as [|x X]; simplify_eq/=.
  - split; [intros a i Hin; by apply not_elem_of_nil in Hin|]. intros a i Hin. apply (sorted_in _ _ _ _ _ Hs Hin).
  - apply sorted_app in Hs as (mid & H1 & H2 & H3 & H4). pose proof (sorted_le _ _ _ H1). split; intros a i Hin.
    + apply elem_of_cons in Hin as [[= -> ->]|Hin]; [unfold HS in *; lia|]. destruct (sorted_in _ _ _ _ _ H1 Hin) as (? & ? & ?). unfold HS in *. lia.
    + destruct (sorted_in _ _ _ _ _ H4 Hin) as (? & ? & ?). unfold HS in *. lia.
Qed.

Lemma sorted_disj lo hi A b n B u : sorted lo hi (A ++ (b, n) :: B) -> b <= u.1 -> u.1 + HS * u.2 <= b + HS * n -> Forall (disj u) (A ++ B).
Proof.
  intros Hs H1 H2. apply sorted_app in Hs as (mid & HA & Hm & Hn & HB). apply Forall_app. split; apply Forall_forall; intros [a i] Hin.
  - destruct (sorted_in _ _ _ _ _ HA Hin) as (? & ? & ?). right. cbn. lia.
  - destruct (sorted_in _ _ _ _ _ HB Hin) as (? & ? & ?). left. cbn. lia.
Qed.

Lemma sorted_remove lo hi A b n B : sorted lo hi (A ++ (b, n) :: B) -> sorted lo hi (A ++ B).
Proof.
  intros (mid & HA & Hm & Hn & HB)%sorted_app. apply sorted_app. exists mid. split; [done|].
  eapply sorted_weaken; [|exact HB]. unfold HS. lia.
Qed.
Lemma sorted_shrink lo hi A b n k B : 0 < k <= n -> sorted lo hi (A ++ (b, n) :: B) -> sorted lo hi (A ++ (b, k) :: B).
Proof.
  intros Hk (mid & HA & Hm & Hn & HB)%sorted_app. apply sorted_app. exists mid. split; [done|]. cbn. split; [lia|split; [lia|]].
  eapply sorted_weaken; [|exact HB]. unfold HS. lia.
Qed.

(** The block's place in the ring. *)
Lemma take_place F prevp p s m : chain m ((base, 0) :: F) base -> (p, s) ∈ (base, 0) :: F -> 0 < s -> follows ((base, 0) :: F) prevp p ->
  p <> base -> exists X j A Y, (base, 0) :: A = X ++ [(prevp, j)] /\ F = A ++ (p, s) :: Y.
Proof.
  intros Hc Hin Hs [(X & j & s' & Y & EL)|[-> _]] Hp; [|done].
  assert (s' = s) as ->.
  { rewrite <- (chain_in _ _ _ _ _ Hc Hin). rewrite EL in Hc. symmetry. apply (chain_in _ _ _ _ _ Hc). apply elem_of_app. right.
    apply list_elem_of_further, list_elem_of_here. }
  destruct X as [|x X]; simplify_eq/=; [by exists [], 0, [], Y|]. exists ((base, 0) :: X), j, (X ++ [(prevp, j)]), Y. by rewrite <- app_assoc.
Qed.

Lemma first_range lo hi l : 0 <= base < 2 ^ 36 -> 0 <= lo -> hi <= 2 ^ 36 -> sorted lo hi l -> 0 <= first l base < 2 ^ 64.
Proof. intros Hb Hlo Hhi Hs. destruct l as [|[a n] l]; cbn; [lia|]. destruct Hs as (? & ? & Hs%sorted_le). unfold HS in *. lia. Qed.

Lemma ring_prev A X prevp j Y : (base, 0) :: A = X ++ [(prevp, j)] ->
  (base, 0) :: A ++ Y = X ++ (prevp, j) :: Y /\ prevp ∈ base :: (A ++ Y).*1.
Proof.
  intros EA. change ((base, 0) :: A ++ Y) with (((base, 0) :: A) ++ Y). rewrite EA, <- app_assoc. split; [done|].
  change (base :: (A ++ Y).*1) with ((((base, 0) :: A) ++ Y).*1). rewrite EA, !fmap_app, !elem_of_app. left. right. apply list_elem_of_here.
Qed.

Lemma take_exact brk h A X prevp j p s Y : ring_ok brk h (A ++ (p, s) :: Y) -> (base, 0) :: A = X ++ [(prevp, j)] ->
  ring_ok brk (mk_heap (set_ptr (h_mem h) prevp (ptr (h_mem h) p)) prevp) (A ++ Y).
Proof.
  intros [Hb0 Hbrk Hfp Hc Hs Hgp] EA. destruct (ring_prev A X prevp j ((p, s) :: Y) EA) as [EL _]. destruct (ring_prev A X prevp j Y EA) as [EL' Hin].
  destruct (ring_gap _ _ _ _ _ _ Hs EL) as [HX HY]. pose proof (sorted_remove _ _ _ _ _ _ Hs) as Hs'. rewrite EL in Hc.
  apply chain_app in Hc as [HcX (Ej & _ & _ & Ep & HcY)].
  assert (Hsame : forall a, a + HS <= prevp \/ prevp + HS <= a -> same_header (h_mem h) (set_ptr (h_mem h) prevp (ptr (h_mem h) p)) a).
  { intros a Ha. unfold HS in *. split; [apply ptr_set_ptr_ne; lia|apply size_set_ptr; lia]. }
  split; cbn [h_mem h_freep]; try done; [|eapply gaps_sub; [|exact Hgp]; intros u; rewrite !elem_of_app, elem_of_cons; tauto].
  rewrite EL'. apply chain_app. cbn [first] in HcX |- *. split; [|split; [|split]].
  - eapply chain_frame; [|exact HcX]. intros a i Ha. apply Hsame. left. by eapply HX.
  - rewrite <- Ej. apply size_set_ptr. by left.
  - rewrite ptr_set_ptr, Ep; [done|]. rewrite Ep. apply sorted_app in Hs as (mid & HA & Hm & Hn & HsY).
    pose proof (sorted_le _ _ _ HA). pose proof (sorted_le _ _ _ HsY). eapply first_range; [| |exact Hbrk|exact HsY]; unfold HS in *; lia.
  - eapply chain_frame; [|exact HcY]. intros a i Ha. apply Hsame. right. eapply HY. by apply list_elem_of_further.
Qed.

Lemma gaps_shrink lo hi A p s Y k : sorted lo hi (A ++ (p, s) :: Y) -> 0 < k < s -> gaps (A ++ (p, s) :: Y) -> gaps (A ++ (p, k) :: Y).
Proof.
  intros Hs Hk G. apply gaps_insert; [eapply gaps_sub; [|exact G]; intros u; rewrite !elem_of_app, elem_of_cons; tauto| |cbn; lia].
  pose proof (sorted_disj _ _ _ _ _ _ (p, s) Hs ltac:(cbn; lia) ltac:(cbn; lia)) as Hd. intros v Hv. rewrite Forall_forall in Hd. specialize (Hd v Hv).
  assert (v ∈ A ++ (p, s) :: Y) as Hv' by (rewrite elem_of_app, elem_of_cons in *; tauto).
  pose proof (G v (p, s) Hv' ltac:(rewrite elem_of_app, elem_of_cons; auto)) as Hvp. destruct v as [a i]. destruct (sorted_in _ _ _ _ _ Hs Hv') as (_ & ? & _).
  unfold disj, HS in *. cbn [fst snd] in *. lia.
Qed.

Lemma take_split brk h A X prevp j p s Y nu : ring_ok brk h (A ++ (p, s) :: Y) -> (base, 0) :: A = X ++ [(prevp, j)] -> 0 < nu < s -> base + HS <= p ->
  ring_ok brk (mk_heap (set_size (set_size (h_mem h) p (s - nu)) (p + HS * (s - nu)) nu) prevp) (A ++ (p, s - nu) :: Y).
Proof.
  intros [Hb0 Hbrk Hfp Hc Hs Hgp] EA Hnu Hbp. destruct (ring_prev A X prevp j ((p, s) :: Y) EA) as [EL _].
  destruct (ring_prev A X prevp j ((p, s - nu) :: Y) EA) as [EL' Hin].
  assert (EL2 : (base, 0) :: A ++ (p, s) :: Y = (X ++ [(prevp, j)]) ++ (p, s) :: Y) by (by rewrite EL, <- app_assoc).
  destruct (ring_gap _ _ _ _ _ _ Hs EL2) as [HX _]. pose proof Hs as (mid & HA & Hm & Hn & HsY)%sorted_app. pose proof (sorted_le _ _ _ HsY).
  rewrite EL2 in Hc. apply chain_app in Hc as [HcX (Es & Ep & HcY)].
  set (m' := set_size _ _ nu).
  assert (Hsame : forall a, a + HS <= p \/ p + HS * s <= a -> same_header (h_mem h) m' a).
  { intros a Ha. unfold m', HS in *. split; [by rewrite !ptr_set_size by lia|by rewrite !size_set_size_ne by lia]. }
  split; cbn [h_mem h_freep]; try done; [|apply (sorted_shrink _ _ _ _ s); [lia|done]|eapply gaps_shrink; [exact Hs|lia|done]].
  change ((base, 0) :: A ++ (p, s - nu) :: Y) with (((base, 0) :: A) ++ (p, s - nu) :: Y). rewrite EA. apply chain_app. cbn [first] in HcX |- *.
  split; [|split; [|split]].
  - eapply chain_frame; [|exact HcX]. intros a i Ha. apply Hsame. left. by eapply HX.
  - unfold m', HS in *. rewrite size_set_size_ne, size_set_size by lia. done.
  - rewrite <- Ep. unfold m', HS in *. by rewrite !ptr_set_size by lia.
  - eapply chain_frame; [|exact HcY]. intros a i Ha. apply Hsame. right. apply (sorted_in _ _ _ _ _ HsY Ha).
Qed.

Lemma header_apart hi F q j u : sorted (base + HS) hi F -> (q, j) ∈ (base, 0) :: F -> Forall (disj u) F -> base + HS <= u.1 -> 0 < u.2 ->
  u.1 + HS * u.2 <= q \/ q + HS <= u.1.
Proof.
  intros Hs Hin Hd Hu Hu2. apply elem_of_cons in Hin as [[= -> ->]|Hin]; [by right|]. destruct (sorted_in _ _ _ _ _ Hs Hin) as (_ & ? & _).
  rewrite Forall_forall in Hd. specialize (Hd _ Hin). unfold disj, HS in *. cbn [fst snd] in *. lia.
Qed.

Lemma take_block_spec brk h F nu prevp p s : ring_ok brk h F -> follows ((base, 0) :: F) prevp p -> (p, s) ∈ (base, 0) :: F -> 0 < nu <= s ->
  exists h' F' q, take_block h nu prevp p = (h', q + HS) /\ ring_ok brk h' F' /\ size (h_mem h') q = nu /\ base + HS <= q /\ q + HS * nu <= brk /\
    Forall (disj (q, nu)) F' /\ (forall x, covers F' x \/ inside (q, nu) x <-> covers F x) /\
    (forall u, 0 < u.2 -> base + HS <= u.1 -> Forall (disj u) F -> disj u (q, nu) /\ Forall (disj u) F' /\
       (forall x, u.1 <= x < u.1 + HS * u.2 -> mget (h_mem h') x = mget (h_mem h) x)).
Proof.
  intros Hring Hfol Hin Hnu. pose proof Hring as [Hb0 Hbrk Hfp Hc Hs _].
  assert (Hps : size (h_mem h) p = s) by (by eapply chain_in).
  assert (HF : (p, s) ∈ F) by (apply elem_of_cons in Hin as [[= -> ->]|?]; [lia|done]). destruct (sorted_in _ _ _ _ _ Hs HF) as (Hp & _ & Hps2).
  destruct (take_place F prevp p s _ Hc Hin ltac:(lia) Hfol ltac:(unfold HS in *; lia)) as (X & j & A & Y & EA & ->).
  unfold take_block. rewrite Hps. destruct (Z.eqb_spec s nu) as [->|Hne]; cbv zeta.
  - exists (mk_heap (set_ptr (h_mem h) prevp (ptr (h_mem h) p)) prevp), (A ++ Y), p. split; [done|]. split; [by eapply take_exact|].
    destruct (ring_prev A X prevp j ((p, nu) :: Y) EA) as [EL _]. destruct (ring_gap _ _ _ _ _ _ Hs EL) as [HX HY].
    assert (Hpp : prevp + HS <= p) by (apply (HY p nu), list_elem_of_here). cbn [h_mem].
    split; [rewrite <- Hps; apply size_set_ptr; unfold HS in *; lia|]. split; [done|split; [done|]].
    split; [eapply sorted_disj; [exact Hs|cbn; lia|cbn; lia]|].
    split; [intros x; rewrite !covers_app, covers_cons; tauto|]. intros u Hu Hub HdF. apply Forall_app in HdF as [HdA HdY].
    apply Forall_cons in HdY as [Hd HdY]. split; [done|]. split; [by apply Forall_app|]. intros x Hx.
    apply mget_set_ptr. destruct (header_apart brk (A ++ (p, nu) :: Y) prevp j u) as [?|?]; try done; [|by apply Forall_app; split; [|constructor]|unfold HS in *; lia..].
    rewrite EL. apply elem_of_app. right. apply list_elem_of_here.
  - assert (Hsz : size (set_size (h_mem h) p (s - nu)) p = s - nu) by (apply size_set_size; unfold HS in *; lia). rewrite Hsz.
    eexists _, (A ++ (p, s - nu) :: Y), (p + HS * (s - nu)). split; [done|]. split; [eapply take_split; (done || lia)|]. cbn [h_mem].
    split; [apply size_set_size; unfold HS in *; lia|]. split; [unfold HS in *; lia|split; [unfold HS in *; lia|]].
    pose proof (sorted_disj _ _ _ _ _ _ (p + HS * (s - nu), nu) Hs ltac:(cbn; unfold HS; lia) ltac:(cbn; unfold HS; lia)) as HdAY.
    apply Forall_app in HdAY as [HdA HdY]. split; [apply Forall_app; split; [done|]; constructor; [right; cbn; lia|done]|].
    split; [intros x; rewrite !covers_app, !covers_cons; pose proof (inside_join p (s - nu) _ nu x eq_refl ltac:(lia) ltac:(lia)) as E;
      replace (s - nu + nu) with s in E by lia; tauto|].
    intros u Hu Hub HdF. apply Forall_app in HdF as [HuA HuY]. apply Forall_cons in HuY as [Hd HuY]. unfold disj, HS in Hd. cbn [fst snd] in Hd.
    split; [unfold disj, HS; cbn [fst snd]; lia|]. split; [apply Forall_app; split; [done|]; constructor; [unfold disj, HS; cbn [fst snd]; lia|done]|].
    intros x Hx. unfold HS in *. rewrite !mget_set_size by lia. done.
Qed.

(** *** More memory *)

Section Run.
Context `{Kernel} {SB : Sbrk}.

Lemma sorted_grow lo hi hi' l : hi <= hi' -> sorted lo hi l -> sorted lo hi' l.
Proof. revert lo. induction l as [|[a n] l IH]; intros lo Hle; cbn; [lia|]. intros (? & ? & ?). auto. Qed.

Lemma morecore_spec w h F nu fuel :
  ring_ok (break_ w) h F -> base + HS <= break_ w -> 0 < nu -> nu * HS < 2 ^ 31 -> (S (length F) < fuel)%nat ->
  exists w', if grows w (HS * Z.max 4096 nu)
    then exists h' F', run (morecore fuel h nu) w = (Val (h', h_freep h'), w') /\ break_ w' = break_ w + HS * Z.max 4096 nu /\ ring_ok (break_ w') h' F' /\
      (length F' <= S (length F))%nat /\ (exists a k, (a, k) ∈ F' /\ nu <= k) /\ (forall x, covers F' x <-> covers F x \/ break_ w <= x < break_ w') /\
      (forall u, 0 < u.2 -> base + HS <= u.1 -> u.1 + HS * u.2 <= break_ w -> Forall (disj u) F ->
         Forall (disj u) F' /\ (forall x, u.1 <= x < u.1 + HS * u.2 -> mget (h_mem h') x = mget (h_mem h) x))
    else run (morecore fuel h nu) w = (Val (h, 0), w') /\ break_ w' = break_ w.
Proof.
  intros Hring Hbw Hnu Hmax Hf. unfold morecore. set (nu' := if nu <? 4096 then 4096 else nu).
  assert (Hn' : nu' = Z.max 4096 nu /\ s32 (nu' * HS) = HS * nu' /\ 0 < HS * nu' < 2 ^ 31).
  { unfold nu', HS in *. rewrite s32_small by (destruct (Z.ltb_spec nu 4096); lia). destruct (Z.ltb_spec nu 4096); lia. }
  destruct Hn' as (<- & Es & Hn'). rewrite Es. destruct (sbrk_ok w (HS * nu') Hn') as (w' & Hw). exists w'.
  destruct (grows w (HS * nu')); [destruct Hw as (R & Hb & Hlim)|destruct Hw as [R Hb]; split; [by pstep_by (run_sysv _ _ _ _ R)|done]].
  set (h1 := mk_heap (set_size (h_mem h) (break_ w) nu') (h_freep h)).
  destruct Hring as [Hb0 Hbrk Hfp Hc Hs Hgp].
  assert (Hout : forall x, x < break_ w -> mget (h_mem h1) x = mget (h_mem h) x) by (intros x Hx; apply mget_set_size; lia).
  destruct (free_ring (break_ w') h1 F (break_ w) nu' fuel) as (h' & F' & E & Hring' & Hk & (a & k & Hin & Hka) & Hlen & Hcov); try done.
  - split; try done; [|eapply sorted_grow; [|exact Hs]; unfold HS in *; lia]. apply (chain_frame (h_mem h)); [|done]. intros a n Ha.
    apply header_out. intros x Hx. apply Hout. apply elem_of_cons in Ha as [[= -> ->]|Ha]; [unfold HS in *; lia|].
    destruct (sorted_in _ _ _ _ _ Hs Ha) as (? & ? & ?). unfold HS in *. lia.
  - unfold HS in *. lia.
  - unfold HS in *. lia.
  - apply size_set_size. unfold HS in *. lia.
  - apply Forall_forall. intros [a n] Ha. destruct (sorted_in _ _ _ _ _ Hs Ha) as (? & ? & ?). right. cbn. lia.
  - exists h', F'. split; [|split; [done|split; [done|split; [done|split; [|split]]]]].
    + pstep_by (run_sysv _ _ _ _ R). cbn [r_val val]. rewrite (proj2 (Z.eqb_neq (break_ w) (-1))) by (unfold HS in *; lia). fold h1. by rewrite E.
    + exists a, k. split; [done|]. etrans; [|exact Hka]. unfold nu'. destruct (Z.ltb_spec nu 4096); lia.
    + intros x. rewrite Hcov. unfold inside. cbn [fst snd]. by rewrite Hb.
    + intros u Hu Hub Hue Hd. destruct (Hk u) as [HF' Hm]; try done; [left; cbn; lia|]. split; [done|]. intros x Hx. rewrite Hm by done. apply Hout. lia.
Qed.

(** *** The whole search *)

(** A new block [q] of [nu] units taken from a heap with the free list [F] that ended at [hi]. *)
Definition gave (nu hi : Z) (h : heap) (F : list (Z * Z)) (hi' : Z) (h' : heap) (F' : list (Z * Z)) (q : Z) : Prop :=
  ring_ok hi' h' F' /\ size (h_mem h') q = nu /\ base + HS <= q /\ q + HS * nu <= hi' /\ Forall (disj (q, nu)) F' /\
  (forall x, covers F' x \/ inside (q, nu) x <-> covers F x \/ hi <= x < hi') /\
  (forall u, 0 < u.2 -> base + HS <= u.1 -> u.1 + HS * u.2 <= hi -> Forall (disj u) F -> disj u (q, nu) /\ Forall (disj u) F' /\
     (forall x, u.1 <= x < u.1 + HS * u.2 -> mget (h_mem h') x = mget (h_mem h) x)).

Lemma malloc_search w h F nu fuel n : ring_ok (break_ w) h F -> 0 < nu -> (S (length F) <= n)%nat ->
  let p := h_freep h in
  (Exists (fun x => nu <= x.2) F /\ exists h' F' q, run (ploop n (malloc_step fuel nu) (h, p, ptr (h_mem h) p)) w = (Val (h', q + HS), w) /\
     gave nu (break_ w) h F (break_ w) h' F' q) \/
  (Forall (fun x => x.2 < nu) ((base, 0) :: F) /\ exists q n', (n < S n' + S (length F))%nat /\
     ploop n (malloc_step fuel nu) (h, p, ptr (h_mem h) p) = ploop (S n') (malloc_step fuel nu) (h, q, p)).
Proof.
  intros Hring Hnu Hn p. destruct (ring_walk _ _ _ Hring) as (V & Hc & HV & Hlen & Hlast & Hfirst & Hfol). fold p in Hfirst. rewrite <- Hfirst.
  destruct (search fuel nu h ((base, 0) :: F) V (ro_chain _ _ _ Hring) p n) as [(q & b & s & Hin & Hfit & Hf & E)|(Hno & q & n' & Hn' & E & Hpos)]; try done.
  - intros x. apply HV.
  - lia.
  - left. destruct (take_block_spec _ _ _ nu q b s Hring Hf) as (h' & F' & b' & E' & Hr & H1 & H2 & H3 & H4 & Hcv & H5); [by apply HV|lia|].
    split; [|exists h', F', b'; split; [by rewrite E, E'|]].
    + apply HV in Hin. apply elem_of_cons in Hin as [[= -> ->]|Hin]; [lia|]. apply Exists_exists. by exists (b, s).
    + split; [done|]. split; [done|]. split; [done|]. split; [done|]. split; [done|]. split; [intros x; rewrite Hcv; split; [by left|intros [?|?]; [done|lia]]|]. intros u ? ? _ ?. by apply H5.
  - right. split; [apply Forall_forall; intros x Hx; rewrite Forall_forall in Hno; by apply Hno, HV|].
    destruct n' as [|n']; [lia|]. exists q, n'. split; [lia|done].
Qed.

(** No free block has [nu] units and the kernel has no memory for them; a free block has them and the break stays, or none
    has and the break moves. *)
Definition exhausted (w : World) (F : list (Z * Z)) (nu : Z) : Prop := Forall (fun b => b.2 < nu) F /\ grows w (HS * Z.max 4096 nu) = false.
Definition grown (w : World) (F : list (Z * Z)) (nu : Z) (w' : World) : Prop :=
  (Exists (fun b => nu <= b.2) F /\ break_ w' = break_ w) \/
  (Forall (fun b => b.2 < nu) F /\ grows w (HS * Z.max 4096 nu) = true /\ break_ w' = break_ w + HS * Z.max 4096 nu).

Lemma malloc_loop w h F nu fuel :
  ring_ok (break_ w) h F -> base + HS <= break_ w -> 0 < nu -> nu * HS < 2 ^ 31 -> (2 * length F + 4 < fuel)%nat ->
  exists w' h' r, run (ploop fuel (malloc_step fuel nu) (h, h_freep h, ptr (h_mem h) (h_freep h))) w = (Val (h', r), w') /\ break_ w <= break_ w' /\
    ((r = 0 /\ h' = h /\ exhausted w F nu /\ break_ w' = break_ w) \/
     exists F' q, r = q + HS /\ gave nu (break_ w) h F (break_ w') h' F' q /\ grown w F nu w').
Proof.
  intros Hring Hbw Hnu Hmax Hf.
  destruct (malloc_search w h F nu fuel fuel Hring Hnu ltac:(lia)) as [(Hex & h' & F' & q & R & Hg)|(Hno & q & n & Hn & E)].
  { exists w, h', (q + HS). split; [done|]. split; [lia|]. right. exists F', q. split; [done|split; [done|by left]]. }
  rewrite E. set (p := h_freep h) in *.
  assert (Hsz : size (h_mem h) p < nu).
  { pose proof (ro_freep _ _ _ Hring) as Hin. change (base :: F.*1) with (((base, 0) :: F).*1) in Hin.
    apply list_elem_of_fmap in Hin as ([a k] & Ea & Hin). cbn in Ea. fold p in Ea. subst a. rewrite (chain_in _ _ _ _ _ (ro_chain _ _ _ Hring) Hin).
    rewrite Forall_forall in Hno. apply (Hno _ Hin). }
  assert (Estep : malloc_step fuel nu (h, q, p) = ('(h, p) ← morecore fuel h nu; if p =? 0 then mret (inr (h, 0)) else mret (inl (h, p, ptr (h_mem h) p)))).
  { unfold malloc_step. rewrite (proj2 (Z.leb_gt nu _) Hsz). fold p. by rewrite Z.eqb_refl. }
  assert (HnoF : Forall (fun x => x.2 < nu) F) by (by apply Forall_cons in Hno as [_ ?]).
  destruct (morecore_spec w h F nu fuel Hring Hbw Hnu Hmax ltac:(lia)) as (w1 & Hw). destruct (grows w (HS * Z.max 4096 nu)) eqn:Eg;
    [destruct Hw as (h1 & F1 & R & Hb & Hring1 & Hlen & (a & k & Hin & Hk) & Hcov & Hkeep)|destruct Hw as [R Hb]].
  2: { exists w1, h, 0. split; [|split; [lia|left; by split_and!]]. apply ploop_break. rewrite Estep. by pstep_by R. }
  - assert (Hp1 : h_freep h1 <> 0).
    { pose proof (ro_base _ _ _ Hring1) as Hb0. pose proof (ro_freep _ _ _ Hring1) as Hin1. apply elem_of_cons in Hin1 as [->|Hin1]; [lia|].
      destruct (sorted_asc _ _ _ (ro_sorted _ _ _ Hring1)) as [_ Hall]. rewrite Forall_forall in Hall. specialize (Hall _ Hin1). cbn in Hall. unfold HS in *. lia. }
    rewrite (ploop_continue _ _ _ _ (h1, h_freep h1, ptr (h_mem h1) (h_freep h1)) w1); [|rewrite Estep; pstep_by R; by rewrite (proj2 (Z.eqb_neq _ 0) Hp1)].
    destruct (malloc_search w1 h1 F1 nu fuel n Hring1 Hnu ltac:(lia)) as [(_ & h' & F' & b & R' & Hr & H1 & H2 & H3 & H4 & Hcv & H5)|(Hno1 & _)].
    + exists w1, h', (b + HS). split; [done|]. split; [unfold HS in *; lia|]. right. exists F', b. split; [done|]. split; [|right; by split_and!]. split; [done|]. split; [done|]. split; [done|].
      split; [done|]. split; [done|]. split; [intros x; rewrite Hcv, Hcov; split; [intros [?|?]; [done|lia]|by left]|]. intros u Hu Hub Hue Hd. destruct (Hkeep u Hu Hub Hue Hd) as [Hd1 Hm1].
      destruct (H5 u Hu Hub ltac:(unfold HS in *; lia) Hd1) as (? & ? & Hm2). split; [done|]. split; [done|]. intros x Hx. by rewrite Hm2, Hm1.
    + exfalso. rewrite Forall_forall in Hno1. specialize (Hno1 (a, k) ltac:(by apply list_elem_of_further)). cbn in Hno1. lia.
Qed.

Lemma nunits_of_spec nbytes : 0 <= nbytes <= 2 ^ 31 - 32 ->
  0 < nunits_of nbytes /\ nunits_of nbytes * HS < 2 ^ 31 /\ nbytes <= HS * (nunits_of nbytes - 1).
Proof.
  intros Hn. unfold nunits_of, HS. pose proof (Z.div_mod (nbytes + 16 - 1) 16 ltac:(lia)). pose proof (Z.mod_pos_bound (nbytes + 16 - 1) 16 ltac:(lia)).
  rewrite u32_small by lia. lia.
Qed.

(** The first call makes the ring of [base] alone. *)
Lemma start_ring w h F : (fresh (break_ w) h /\ F = []) \/ ring_ok (break_ w) h F ->
  ring_ok (break_ w) (if h_freep h =? 0 then mk_heap (set_size (set_ptr (h_mem h) base base) base 0) base else h) F /\
  (forall x, x < base \/ base + HS <= x -> mget (h_mem (if h_freep h =? 0 then mk_heap (set_size (set_ptr (h_mem h) base base) base 0) base else h)) x = mget (h_mem h) x).
Proof.
  intros [[(Hb0 & Hbw & ->) ->]|Hring].
  - change (0 =? 0) with true. cbv iota. split.
    + split; cbn [h_mem h_freep]; [done|lia|apply list_elem_of_here| |cbn; lia|intros u v Hu; by apply not_elem_of_nil in Hu]. cbn [chain first].
      rewrite size_set_size, ptr_set_size, ptr_set_ptr by (unfold HS in *; lia). done.
    + intros x Hx. cbn [Z.eqb h_mem]. unfold HS in *. rewrite mget_set_size, mget_set_ptr by lia. done.
  - rewrite (proj2 (Z.eqb_neq (h_freep h) 0)); [done|]. destruct Hring as [Hb0 _ Hfp _ Hs _]. destruct (sorted_asc _ _ _ Hs) as [_ Hall].
    apply elem_of_cons in Hfp as [->|Hin]; [lia|]. rewrite Forall_forall in Hall. specialize (Hall _ Hin). cbn in Hall. unfold HS in *. lia.
Qed.

(** C14: malloc on any heap, the first time or later: it returns 0, exactly when no free block is large enough and the
    kernel has no memory for the units it asks for, and then leaves the heap as it was; otherwise a block with room for
    the bytes asked for that overlaps no other block in use and no free block, taken from a free block when one fits and
    from new memory only when none does.  The free list is again a ring in order of addresses, and together with the
    new block it has exactly the bytes the free list had and those the break has moved over: none is lost.  The blocks in
    use keep their bytes, and the search always ends. *)
Theorem malloc_spec w h F U nbytes fuel :
  (fresh (break_ w) h /\ F = [] /\ U = []) \/ heap_ok (break_ w) h F U -> base + HS <= break_ w ->
  0 <= nbytes <= 2 ^ 31 - 32 -> (2 * length F + 4 < fuel)%nat ->
  exists w' h' r, run (malloc fuel h nbytes) w = (Val (h', r), w') /\
    (r = 0 /\ exhausted w F (nunits_of nbytes) /\ break_ w' = break_ w /\ heap_ok (break_ w') h' F U \/
     exists F' q, r = q + HS /\ grown w F (nunits_of nbytes) w' /\ nbytes <= HS * (nunits_of nbytes - 1) /\
       heap_ok (break_ w') h' F' ((q, nunits_of nbytes) :: U) /\
       (forall x, covers F' x \/ inside (q, nunits_of nbytes) x <-> covers F x \/ break_ w <= x < break_ w')) /\
    (forall u x, u ∈ U -> u.1 <= x < u.1 + HS * u.2 -> mget (h_mem h') x = mget (h_mem h) x).
Proof.
  intros Hstart Hbw Hnb Hf. destruct (nunits_of_spec nbytes Hnb) as (Hnu & Hmax & Hroom).
  destruct (start_ring w h F) as [Hring Hout]; [destruct Hstart as [(? & ? & _)|[? _ _]]; auto|]. unfold malloc. set (h0 := if _ =? 0 then _ else h) in *.
  assert (Hused : forall u, u ∈ U -> used_ok (break_ w) (h_mem h) F u).
  { destruct Hstart as [(_ & _ & ->)|[_ HU _]]; [intros u Hu; by apply not_elem_of_nil in Hu|]. by apply Forall_forall. }
  assert (Hsep : sep U) by (destruct Hstart as [(_ & _ & ->)|[_ _ ?]]; done).
  assert (H0 : forall u x, u ∈ U -> u.1 <= x < u.1 + HS * u.2 -> mget (h_mem h0) x = mget (h_mem h) x).
  { intros u x Hu Hx. destruct (Hused u Hu) as (? & ? & _). apply Hout. lia. }
  destruct (malloc_loop w h0 F (nunits_of nbytes) fuel Hring Hbw Hnu Hmax Hf) as (w' & h' & r & R & Hb & Hcase). exists w', h', r. split; [done|].
  assert (Hkeep : forall F' m', (forall u, u ∈ U -> Forall (disj u) F' /\ (forall x, u.1 <= x < u.1 + HS * u.2 -> mget m' x = mget (h_mem h) x)) ->
    Forall (used_ok (break_ w') m' F') U).
  { intros F' m' HU. apply Forall_forall. intros u Hu. destruct (Hused u Hu) as (? & ? & ? & Hsz & _). destruct (HU u Hu) as [Hd Hm].
    split; [done|]. split; [done|]. split; [lia|]. split; [|done]. rewrite <- Hsz. apply header_out. intros x Hx. apply Hm. unfold HS in *. lia. }
  destruct Hcase as [(-> & -> & Hex & Eb)|(F' & q & -> & (Hr & Hsz & Hlo & Hhi & HdF & Hcv & Hg) & Hgr)].
  - split; [left; split; [done|split; [done|split; [done|]]]|done]. split; [by rewrite Eb| |done]. apply Hkeep. intros u Hu. split; [by apply Hused|]. intros x. by apply H0.
  - assert (HgU : forall u, u ∈ U -> disj u (q, nunits_of nbytes) /\ Forall (disj u) F' /\ (forall x, u.1 <= x < u.1 + HS * u.2 -> mget (h_mem h') x = mget (h_mem h) x)).
    { intros u Hu. destruct (Hused u Hu) as (? & ? & ? & _ & Hd). destruct (Hg u) as (? & ? & Hm); try done. split_and!; try done. intros x Hx. rewrite Hm by done. by eapply H0. }
    split; [right; exists F', q|intros u x Hu; by apply HgU]. split; [done|split; [done|split; [done|split; [|done]]]]. split; [done| |].
    + constructor; [by split_and!|]. apply Hkeep. intros u Hu. apply (HgU u Hu).
    + split; [|done]. apply Forall_forall. intros u Hu. destruct (HgU u Hu) as (Hd & _). unfold disj in *. cbn [fst snd] in *. tauto.
Qed.

(** From 2^31 - 31 bytes on, what [morecore] asks [sbrk] for has become a negative [int]: the process shrinks. *)
Lemma morecore_negative fuel h nu : 2 ^ 31 <= nu * HS < 2 ^ 32 -> exists k, morecore fuel h nu = PSys (CSbrk (nu * HS - 2 ^ 32)) k.
Proof.
  intros Hn. unfold morecore. rewrite (proj2 (Z.ltb_ge nu 4096)) by (unfold HS in *; lia).
  replace (nu * HS - 2 ^ 32) with (s32 (nu * HS)); [by eexists|]. unfold s32, signed. rewrite Z.mod_small by lia.
  by rewrite (proj2 (Z.ltb_ge (nu * HS) (2 ^ (32 - 1)))) by (change (2 ^ (32 - 1)) with (2 ^ 31); lia).
Qed.
End Run.
End Base.

(** ** Examples *)

(** A kernel with a mebibyte for the heap. *)
Definition brk_call (c : call) (w : Z) : reply * Z :=
  match c with
  | CSbrk n => if (0 <? n) && (w + n <=? 2 ^ 20) then (val w, w + n) else (val (-1), w)
  | _ => (val 0, w)
  end.
Definition brk_kernel : Kernel := {| World := Z; kcall := brk_call |}.
Definition brk_sbrk : @Sbrk brk_kernel.
Proof.
  refine {| break_ := (fun w : @World brk_kernel => w) : @World brk_kernel -> Z; grows := (fun w n => w + n <=? 2 ^ 20) : @World brk_kernel -> Z -> bool |}.
  intros w n Hn. cbn [kcall brk_kernel brk_call].
  rewrite (proj2 (Z.ltb_lt 0 n)) by lia. cbn [andb]. destruct (Z.leb_spec (w + n) (2 ^ 20)); eexists; (split; [reflexivity|lia]).
Defined.

(** A free block of two units at 64 and one of three in use after it. *)
Definition sample_heap : heap :=
  mk_heap (set_size (set_size (set_ptr (set_size (set_ptr ∅ 16 64) 16 0) 64 16) 64 2) 96 3) 16.

Lemma free_spec_witness : exists h' F', free 5 sample_heap 112 = mret h' /\ heap_ok 16 200 h' F' [].
Proof.
  destruct (free_spec 16 200 sample_heap [(64, 2)] [] [] 96 3 5) as (h' & F' & E & Hok & _); [|cbn; lia|by exists h', F'].
  split; [split| |]; cbn [app].
  - lia.
  - lia.
  - apply list_elem_of_here.
  - by vm_compute.
  - cbn. unfold HS. lia.
  - intros u v ->%list_elem_of_singleton ->%list_elem_of_singleton. by vm_compute.
  - constructor; [|constructor]. unfold used_ok, disj, HS. cbn [fst snd]. split; [lia|]. split; [lia|]. split; [lia|]. split; [by vm_compute|].
    constructor; [right; cbn; lia|constructor].
  - by split.
Defined.

(** The first call of a program. *)
Lemma malloc_spec_witness : exists w' h' r, run (H := brk_kernel) (malloc 16 9 (mk_heap ∅ 0) 100) 4096 = (Val (h', r), w') /\
  exists F' q, r = q + HS /\ heap_ok 16 w' h' F' [(q, 8)].
Proof.
  destruct (malloc_spec 16 (SB := brk_sbrk) 4096 (mk_heap ∅ 0) [] [] 100 9) as (w' & h' & r & R & Hcase & _).
  - left. split; [|done]. unfold fresh, HS. cbn. lia.
  - unfold HS. cbn. lia.
  - lia.
  - cbn. lia.
  - exists w', h', r. split; [exact R|]. destruct Hcase as [(_ & (_ & Hg) & _)|(F' & q & Er & _ & _ & Hok & _)].
    + exfalso. cbn in Hg. vm_compute in Hg. discriminate Hg.
    + exists F', q. split; [exact Er|exact Hok].
Defined.
End Umalloc.
