(* ===== verification/Utest.v ===== *)
(** * Test programs of user/: the random numbers of grind.c, forktest.c, stressfs.c *)

From stdpp Require Import base list gmap strings.
From Stdlib Require Import ZArith Lia.
From S2P Require Import Prelude Mem KString Format Usys Ulib.
Open Scope Z_scope.

(** ** user/grind.c: the random number generator *)
Module Grind.

(** The new value of [*ctx], an unsigned long, and the int returned. *)
Definition do_rand (ctx : Z) : Z * Z :=
  let x := s64 (ctx mod 2147483646 + 1) in
  let hi := Z.quot x 127773 in
  let lo := Z.rem x 127773 in
  let x := s64 (s64 (16807 * lo) - s64 (2836 * hi)) in
  let x := if x <? 0 then s64 (x + 2147483647) else x in
  let x := s64 (x - 1) in
  (u64 x, s32 x).
Definition rand (rand_next : Z) : Z * Z := do_rand rand_next.

(** Schrage's decomposition never gives a multiple of the modulus. *)
Lemma schrage_nonzero hi lo : 0 <= lo < 127773 -> 0 <= hi <= 16807 -> 127773 * hi + lo <> 0 -> 127773 * hi + lo <> 2147483647 -> 16807 * lo - 2836 * hi <> 0.
Proof.
  intros Hlo Hhi H0 HM E. assert (Hd : (16807 | hi)).
  { apply (Z.gauss 16807 2836 hi); [exists lo; lia|done]. }
  destruct Hd as [k ->]. assert (k = 0 \/ k = 1) as [->| ->] by lia; lia.
Qed.

(** [do_rand] computes Park and Miller's generator without leaving 64 bits: with [x] the state moved into 1 .. 2^31 - 2, it
    returns and keeps [7^5 * x mod (2^31 - 1)], moved back to 0 .. 2^31 - 3; in particular the state never gets stuck at a multiple
    of the modulus. *)
Theorem do_rand_correct ctx : 0 <= ctx < 2 ^ 64 -> let x := ctx mod (2 ^ 31 - 2) + 1 in let y := (7 ^ 5 * x) mod (2 ^ 31 - 1) - 1 in
  do_rand ctx = (y, y) /\ 0 <= y <= 2 ^ 31 - 3.
Proof.
  intros Hc x y. pose proof (Z.mod_pos_bound ctx (2 ^ 31 - 2) ltac:(lia)) as Hx. fold x in Hx.
  assert (Hy : y = (16807 * x) mod 2147483647 - 1) by done. set (hi := x / 127773). set (lo := x mod 127773).
  pose proof (Z.div_mod x 127773 ltac:(lia)) as Edm. fold hi lo in Edm. pose proof (Z.mod_pos_bound x 127773 ltac:(lia)) as Hlo. fold lo in Hlo.
  assert (Hhi : 0 <= hi <= 16807) by lia. pose proof (schrage_nonzero hi lo Hlo Hhi ltac:(lia) ltac:(lia)) as Hnz.
  assert (E : (16807 * x) mod 2147483647 = if 16807 * lo - 2836 * hi <? 0 then 16807 * lo - 2836 * hi + 2147483647 else 16807 * lo - 2836 * hi).
  { symmetry. destruct (Z.ltb_spec (16807 * lo - 2836 * hi) 0); apply (Z.mod_unique_pos _ _ (if 16807 * lo - 2836 * hi <? 0 then hi - 1 else hi));
      destruct (Z.ltb_spec (16807 * lo - 2836 * hi) 0); lia. }
  rewrite E in Hy. unfold do_rand. change 2147483646 with (2 ^ 31 - 2). fold x. rewrite (s64_small x) by lia.
  rewrite Z.quot_div_nonneg, Z.rem_mod_nonneg by lia. fold hi lo. rewrite !(s64_small (16807 * lo)), !(s64_small (2836 * hi)), !(s64_small (_ - 2836 * hi)) by lia.
  destruct (Z.ltb_spec (16807 * lo - 2836 * hi) 0).
  - rewrite (s64_small (_ + _)), (s64_small (_ - 1)), u64_small, s32_small by lia. split; [by rewrite Hy|lia].
  - rewrite (s64_small (_ - 1)), u64_small, s32_small by lia. split; [by rewrite Hy|lia].
Qed.

Lemma do_rand_correct_witness : do_rand 1 = (33613, 33613).
Proof. destruct (do_rand_correct 1 ltac:(lia)) as [E _]. exact E. Defined.
End Grind.

(** ** user/forktest.c *)
Module Forktest.
Import Ulib.
Definition N : nat := 1000.
Definition nl : list Z := [10].
Definition print (s : list Z) : prog unit := sys (CWrite 1 s) ;; mret tt.

(** [for(n=0; n<N; n++)]: the count when the loop ends. *)
Definition fork_step (n : nat) : prog (nat + nat) :=
  if (n <? N)%nat then
    pid ← sysv CFork;
    if pid <? 0 then mret (inr n)
    else if pid =? 0 then exit 0
    else mret (inl (S n))
  else mret (inr n).
(** [for(; n > 0; n--)] *)
Definition wait_step (n : nat) : prog (nat + unit) :=
  match n with
  | O => mret (inr tt)
  | S n' =>
      r ← sysv CWait;
      if r <? 0 then print (chars "wait stopped early" ++ nl) ;; exit 1
      else mret (inl n')
  end.
Definition forktest : prog unit :=
  print (chars "fork test" ++ nl) ;;
  n ← ploop (S N) fork_step O;
  if (n =? N)%nat then print (chars "fork claimed to work N times!" ++ nl) ;; exit 1 else
  ploop (S n) wait_step n ;;
  r ← sysv CWait;
  if negb (r =? -1) then print (chars "wait got too many" ++ nl) ;; exit 1 else
  print (chars "fork test OK" ++ nl).
Definition main : prog unit := forktest ;; exit 0.

(** What fork and wait promise the parent: a process while there are some, an
    error after that; a child while there are some, -1 after that. *)
Class Forks `{Stdio} := {
  slots : World -> nat;
  children : World -> nat;
  fork_ok : forall w, exists v w', kcall CFork w = (val v, w') /\ (forall fd, output w' fd = output w fd) /\
    match slots w with
    | O => v = -1 /\ slots w' = O /\ children w' = children w
    | S k => 0 < v /\ slots w' = k /\ children w' = S (children w)
    end;
  wait_ok : forall w, exists v w', kcall CWait w = (val v, w') /\ (forall fd, output w' fd = output w fd) /\
    match children w with
    | O => v = -1 /\ slots w' = slots w /\ children w' = O
    | S k => 0 < v /\ slots w' = S (slots w) /\ children w' = k
    end;
  write_forks : forall w fd bs r w', kcall (CWrite fd bs) w = (r, w') -> slots w' = slots w /\ children w' = children w
}.

Section Test.
Context `{Forks}.

Lemma run_print s w : exists w', run (print s) w = (Val tt, w') /\ output w' 1 = output w 1 ++ s /\ slots w' = slots w /\ children w' = children w.
Proof.
  destruct (write_ok w 1 s) as (w' & R & _ & O'). destruct (write_forks _ _ _ _ _ R) as [F1 F2]. exists w'.
  split; [unfold print; by pstep_by (run_sys _ _ _ _ R)|]. by rewrite O', decide_True.
Qed.

Lemma fork_loop k : forall w n fuel, slots w = k -> (n + k < N)%nat -> (k < fuel)%nat ->
  exists w', run (ploop fuel fork_step n) w = (Val (n + k)%nat, w') /\ output w' 1 = output w 1 /\ slots w' = O /\ children w' = (children w + k)%nat.
Proof.
  induction k as [|k IH]; intros w n [|fuel] Hs Hn Hf; try lia; destruct (fork_ok w) as (v & w1 & R & Ho & Hv); rewrite Hs in Hv; destruct Hv as (Hv & Hs1 & Hc1).
  - exists w1. rewrite Ho, Nat.add_0_r, Hc1, Nat.add_0_r. split; [|done]. apply ploop_break. unfold fork_step. rewrite (proj2 (Nat.ltb_lt n N)) by lia.
    pstep_by (run_sysv _ _ _ _ R). by rewrite Hv.
  - destruct (IH w1 (S n) fuel Hs1 ltac:(lia) ltac:(lia)) as (w2 & R2 & Ho2 & Hs2 & Hc2). exists w2. rewrite Ho2, Ho, Hc2, Hc1.
    split; [|split; [done|split; [done|lia]]]. erewrite ploop_continue; [rewrite R2; do 2 f_equal; lia|].
    unfold fork_step. rewrite (proj2 (Nat.ltb_lt n N)) by lia. pstep_by (run_sysv _ _ _ _ R). cbn [val r_val].
    rewrite (proj2 (Z.ltb_ge v 0)), (proj2 (Z.eqb_neq v 0)) by lia. done.
Qed.

Lemma wait_loop n : forall w fuel, children w = n -> (n < fuel)%nat ->
  exists w', run (ploop fuel wait_step n) w = (Val tt, w') /\ output w' 1 = output w 1 /\ slots w' = (slots w + n)%nat /\ children w' = O.
Proof.
  induction n as [|n IH]; intros w [|fuel] Hc Hf; try lia.
  - exists w. rewrite Nat.add_0_r. split; [by apply ploop_break|done].
  - destruct (wait_ok w) as (v & w1 & R & Ho & Hv). rewrite Hc in Hv. destruct Hv as (Hv & Hs1 & Hc1).
    destruct (IH w1 fuel Hc1 ltac:(lia)) as (w2 & R2 & Ho2 & Hs2 & Hc2). exists w2. rewrite Ho2, Ho, Hs2, Hs1.
    split; [|split; [done|split; [lia|done]]]. erewrite ploop_continue; [exact R2|]. unfold wait_step. pstep_by (run_sysv _ _ _ _ R). cbn [val r_val].
    rewrite (proj2 (Z.ltb_ge v 0)) by lia. done.
Qed.

(** C38: on a kernel with fewer than 1000 free processes forktest ends, with status 0 and the line that says the test passed: it
    forks until there are no processes, waits for every child and finds no child more, and gives all the processes back. *)
Theorem forktest_passes w : (slots w < N)%nat -> children w = O ->
  exists w', run main w = (Exited 0, w') /\ output w' 1 = output w 1 ++ chars "fork test" ++ nl ++ chars "fork test OK" ++ nl /\ slots w' = slots w /\ children w' = O.
Proof.
  intros Hs Hc. destruct (run_print (chars "fork test" ++ nl) w) as (w1 & R1 & O1 & S1 & C1).
  destruct (fork_loop (slots w) w1 O (S N) S1 ltac:(lia) ltac:(lia)) as (w2 & R2 & O2 & S2 & C2). rewrite Nat.add_0_l in R2. rewrite C1, Hc, Nat.add_0_l in C2.
  destruct (wait_loop (slots w) w2 (S (slots w)) C2 ltac:(lia)) as (w3 & R3 & O3 & S3 & C3).
  destruct (wait_ok w3) as (v & w4 & R4 & Ho & Hv). rewrite C3 in Hv. destruct Hv as (-> & S4 & C4).
  destruct (run_print (chars "fork test OK" ++ nl) w4) as (w5 & R5 & O5 & S5 & C5). exists w5. split; [|split; [|split]].
  - unfold main. assert (R : run forktest w = (Val tt, w5)).
    { unfold forktest. pstep_by R1. pstep_by R2. rewrite (proj2 (Nat.eqb_neq (slots w) N)) by lia. pstep_by R3. pstep_by (run_sysv _ _ _ _ R4). exact R5. }
    by pstep_by R.
  - rewrite O5, Ho, O3, O2, O1. by rewrite <- !app_assoc.
  - rewrite S5, S4, S3, S2. lia.
  - congruence.
Qed.
End Test.

(** A kernel with a process table of [fst] free slots and [snd] children. *)
Record table := mk_table { tb_tape : tape; tb_slots : nat; tb_children : nat }.
Definition table_call (c : call) (w : table) : reply * table :=
  match c with
  | CFork => match tb_slots w with O => (val (-1), w) | S k => (val 7, mk_table (tb_tape w) k (S (tb_children w))) end
  | CWait => match tb_children w with O => (val (-1), w) | S k => (val 7, mk_table (tb_tape w) (S (tb_slots w)) k) end
  | c => let (r, t) := tape_call c (tb_tape w) in (r, mk_table t (tb_slots w) (tb_children w))
  end.
Instance table_kernel : Kernel := { World := table; kcall := table_call }.

Instance table_stdio : Stdio (H := table_kernel) :=
  stdio_of (K := table_kernel) tb_tape (fun w t => mk_table t (tb_slots w) (tb_children w)) (fun _ _ => eq_refl) (fun _ _ _ => eq_refl) (fun _ _ _ => eq_refl).

#[refine] Instance table_forks : Forks (H := table_kernel) := { slots := tb_slots; children := tb_children }.
Proof.
  - intros [t [|k] c]; eexists _, _; (split; [reflexivity|]); done.
  - intros [t k [|c]]; eexists _, _; (split; [reflexivity|]); done.
  - intros w fd bs r w' E. cbn in E. by simplify_eq.
Defined.

Lemma forktest_passes_witness : exists w', run (H := table_kernel) main (mk_table (mk_tape ∅ ∅ 0) 61 0) = (Exited 0, w') /\ tb_slots w' = 61%nat.
Proof.
  destruct (@forktest_passes table_kernel table_stdio table_forks (mk_table (mk_tape ∅ ∅ 0) 61 0)) as (w' & R & _ & S' & _).
  - cbn. unfold N. lia.
  - done.
  - exists w'. split; [exact R|exact S'].
Defined.
End Forktest.

(** ** user/stressfs.c *)
Module Stressfs.
Import Ulib.
(** [for(i = 0; i < 4; i++) if(fork() > 0) break;] *)
Definition fork_step (i : Z) : prog (Z + Z) :=
  if i <? 4 then pid ← sysv CFork; if 0 <? pid then mret (inr i) else mret (inl (i + 1)) else mret (inr i).
Definition main : prog unit :=
  printf (chars "stressfs starting" ++ [10]) [] ;;
  let data := replicate 512 97 in
  i ← ploop 5 fork_step 0;
  printf (chars "write %d" ++ [10]) [ANum i] ;;
  let path := chars "stressfs" ++ [48 + i] in
  fd ← sysv (COpen path 514);
  pfor_each (seq 0 20) (fun _ => sys (CWrite fd data) ;; mret tt) ;;
  sys (CClose fd) ;;
  printf (chars "read" ++ [10]) [] ;;
  fd ← sysv (COpen path 0);
  pfor_each (seq 0 20) (fun _ => sys (CRead fd 512) ;; mret tt) ;;
  sys (CClose fd) ;;
  sys CWait ;;
  exit 0.
End Stressfs.
