(* ===== verification/Tests.v ===== *)
(** * user/usertests.c: the tests

    Every test is a program that exits with 1, after a message, when a system
    call does not do what it should, and returns or exits with 0 otherwise; the
    parameter is the name it puts in the messages.  The global [buf] is a value
    where a test uses what is in it.  Reading a variable that no call has set is
    [PFault]; endless loops have a bound, [fuel]. *)

From stdpp Require Import base list gmap strings.
From Stdlib Require Import ZArith Lia.
From S2P Require Import Prelude Mem KString Riscv State Format Usys Ulib Umalloc.
Open Scope Z_scope.

(** ** The calls, as the tests write them *)

Definition O_RDONLY : Z := 0.
Definition O_WRONLY : Z := 1.
Definition O_RDWR : Z := 2.
Definition O_CREATE : Z := 0x200.
Definition O_TRUNC : Z := 0x400.
Definition BUFSZ : Z := (MAXOPBLOCKS + 2) * BSIZE.

Definition ln (s : string) : list Z := chars s ++ [10].
Definition printf (fmt : list Z) (args : list arg) : prog unit := Ulib.printf fmt args.
(** [if(b){ printf(fmt, args); exit(1); }] *)
Definition failif (b : bool) (fmt : list Z) (args : list arg) : prog unit := if b then printf fmt args ;; exit 1 else mret tt.
(** A string argument of [printf]. *)
Definition str (s : list Z) : arg := AStr (Some s).

Definition open_ (path : list Z) (mode : Z) : prog Z := sysv (COpen path mode).
Definition open (path : string) (mode : Z) : prog Z := open_ (chars path) mode.
Definition close (fd : Z) : prog unit := sys (CClose fd) ;; mret tt.
Definition read (fd n : Z) : prog reply := sys (CRead fd n).
Definition write (fd : Z) (bs : list Z) : prog Z := sysv (CWrite fd bs).
Definition unlink_ (path : list Z) : prog Z := sysv (CUnlink path).
Definition unlink (path : string) : prog Z := unlink_ (chars path).
Definition mkdir (path : string) : prog Z := sysv (CMkdir (chars path)).
Definition chdir (path : string) : prog Z := sysv (CChdir (chars path)).
Definition link (old new : string) : prog Z := sysv (CLink (chars old) (chars new)).
Definition fork : prog Z := sysv CFork.
Definition getpid : prog Z := sysv CGetpid.
Definition kill (pid : Z) : prog unit := sys (CKill pid) ;; mret tt.
Definition sleep (n : Z) : prog unit := sys (CSleep n) ;; mret tt.
(** The result as the pointer it is. *)
Definition sbrk (n : Z) : prog Z := v ← sysv (CSbrk (s32 n)); mret (u64 v).
Definition SBRK_ERROR : Z := 0xffffffffffffffff.
(** [wait(0)] *)
Definition wait0 : prog Z := sysv CWait.
(** [wait(&st)]: the result and what is in [st] after it; [old] is what was there. *)
Definition wait (old : option Z) : prog (Z * option Z) :=
  r ← sys CWait; mret (r_val r, match r_nums r with [st] => Some st | _ => old end).
(** The value of a variable. *)
Definition value (v : option Z) : prog Z := match v with Some v => mret v | None => PFault end.
(** [pipe(fds)] *)
Definition pipe : prog (Z * list Z) := r ← sys CPipe; mret (r_val r, r_nums r).
Definition fds_of (fds : list Z) : prog (Z * Z) := match fds with [a; b] => mret (a, b) | _ => PFault end.
(** [for(;;);] *)
Definition spin {A} (fuel : nat) : prog A := ploop fuel (fun _ : unit => mret (inl tt)) tt.
(** A loop over a list with a variable that lives on. *)
Fixpoint pfold {A B} (l : list A) (b : B) (f : A -> B -> prog B) : prog B :=
  match l with
  | [] => mret b
  | x :: l' => b ← f x b; pfold l' b f
  end.
(** Calls with addresses of the test's choosing. *)
Definition SYS_pipe : Z := 4.
Definition SYS_read : Z := 5.
Definition SYS_exec : Z := 7.
Definition SYS_open : Z := 15.
Definition SYS_write : Z := 16.
Definition SYS_unlink : Z := 18.
Definition SYS_link : Z := 19.
Definition raw (num : Z) (args : list rarg) : prog Z := sysv (CRaw num args).

(** ** Pointers to nowhere *)

Definition copyin (s : list Z) : prog unit :=
  pfor_each [0x80000000; 0x3fffffe000; 0x3ffffff000; 0x4000000000; 0xffffffffffffffff] (fun addr =>
    fd ← open "copyin1" (Z.lor O_CREATE O_WRONLY);
    failif (fd <? 0) (ln "open(copyin1) failed") [] ;;
    n ← raw SYS_write [RNum fd; RNum addr; RNum 8192];
    failif (0 <=? n) (ln "write(fd, %p, 8192) returned %d, not -1") [ANum addr; ANum n] ;;
    close fd ;;
    unlink "copyin1" ;;
    n ← raw SYS_write [RNum 1; RNum addr; RNum 8192];
    failif (0 <? n) (ln "write(1, %p, 8192) returned %d, not -1 or 0") [ANum addr; ANum n] ;;
    '(r, fds) ← pipe;
    failif (r <? 0) (ln "pipe() failed") [] ;;
    '(fd0, fd1) ← fds_of fds;
    n ← raw SYS_write [RNum fd1; RNum addr; RNum 8192];
    failif (0 <? n) (ln "write(pipe, %p, 8192) returned %d, not -1 or 0") [ANum addr; ANum n] ;;
    close fd0 ;;
    close fd1).

Definition copyout (s : list Z) : prog unit :=
  pfor_each [0; 0x80000000; 0x3fffffe000; 0x3ffffff000; 0x4000000000; 0xffffffffffffffff] (fun addr =>
    fd ← open "README" 0;
    failif (fd <? 0) (ln "open(README) failed") [] ;;
    n ← raw SYS_read [RNum fd; RNum addr; RNum 8192];
    failif (0 <? n) (ln "read(fd, %p, 8192) returned %d, not -1 or 0") [ANum addr; ANum n] ;;
    close fd ;;
    '(r, fds) ← pipe;
    failif (r <? 0) (ln "pipe() failed") [] ;;
    '(fd0, fd1) ← fds_of fds;
    n ← write fd1 (chars "x");
    failif (negb (n =? 1)) (ln "pipe write failed") [] ;;
    n ← raw SYS_read [RNum fd0; RNum addr; RNum 8192];
    failif (0 <? n) (ln "read(pipe, %p, 8192) returned %d, not -1 or 0") [ANum addr; ANum n] ;;
    close fd0 ;;
    close fd1).

Definition copyinstr1 (s : list Z) : prog unit :=
  pfor_each [0x80000000; 0x3fffffe000; 0x3ffffff000; 0x4000000000; 0xffffffffffffffff] (fun addr =>
    fd ← raw SYS_open [RNum addr; RNum (Z.lor O_CREATE O_WRONLY)];
    failif (0 <=? fd) (ln "open(%p) returned %d, not -1") [ANum addr; ANum fd]).

Definition copyinstr2 (s : list Z) : prog unit :=
  let b := replicate (Z.to_nat MAXPATH) 120 in
  ret ← unlink_ b;
  failif (negb (ret =? -1)) (ln "unlink(%s) returned %d, not -1") [str b; ANum ret] ;;
  fd ← open_ b (Z.lor O_CREATE O_WRONLY);
  failif (negb (fd =? -1)) (ln "open(%s) returned %d, not -1") [str b; ANum fd] ;;
  ret ← sysv (CLink b b);
  failif (negb (ret =? -1)) (ln "link(%s, %s) returned %d, not -1") [str b; str b; ANum ret] ;;
  ret ← sysv (CExec b [chars "xx"]);
  failif (negb (ret =? -1)) (ln "exec(%s) returned %d, not -1") [str b; ANum fd] ;;
  pid ← fork;
  failif (pid <? 0) (ln "fork failed") [] ;;
  (if pid =? 0 then
     let big := replicate (Z.to_nat PGSIZE) 120 in
     ret ← sysv (CExec (chars "echo") [big; big; big]);
     failif (negb (ret =? -1)) (ln "exec(echo, BIG) returned %d, not -1") [ANum fd] ;;
     exit 747
   else mret tt) ;;
  '(_, st) ← wait (Some 0);
  st ← value st;
  failif (negb (st =? 747)) (ln "exec(echo, BIG) succeeded, should have failed") [].

(** [printf("%s", p)] of a string that is in the program's memory. *)
Definition print_from (fuel : nat) (p : Z) : prog unit :=
  ploop fuel (fun p => c ← load p; if c =? 0 then mret (inr tt) else Ulib.putc 1 c ;; mret (inl (u64 (p + 1)))) p.

Definition copyinstr3 (fuel : nat) (s : list Z) : prog unit :=
  sbrk 8192 ;;
  top ← sbrk 0;
  (if negb (top mod PGSIZE =? 0) then sbrk (PGSIZE - top mod PGSIZE) ;; mret tt else mret tt) ;;
  top ← sbrk 0;
  failif (negb (top mod PGSIZE =? 0)) (ln "oops") [] ;;
  let b := u64 (top - 1) in
  store b 120 ;;
  ret ← raw SYS_unlink [RNum b];
  (if negb (ret =? -1) then
     printf (chars "unlink(") [] ;; print_from fuel b ;; printf (ln ") returned %d, not -1") [ANum ret] ;; exit 1
   else mret tt) ;;
  fd ← raw SYS_open [RNum b; RNum (Z.lor O_CREATE O_WRONLY)];
  (if negb (fd =? -1) then
     printf (chars "open(") [] ;; print_from fuel b ;; printf (ln ") returned %d, not -1") [ANum fd] ;; exit 1
   else mret tt) ;;
  ret ← raw SYS_link [RNum b; RNum b];
  (if negb (ret =? -1) then
     printf (chars "link(") [] ;; print_from fuel b ;; printf (chars ", ") [] ;; print_from fuel b ;;
     printf (ln ") returned %d, not -1") [ANum ret] ;; exit 1
   else mret tt) ;;
  ret ← raw SYS_exec [RNum b; RVec [inr (chars "xx")]];
  (if negb (ret =? -1) then
     printf (chars "exec(") [] ;; print_from fuel b ;; printf (ln ") returned %d, not -1") [ANum fd] ;; exit 1
   else mret tt).

Definition rwsbrk (s : list Z) : prog unit :=
  a ← sbrk 8192;
  failif (a =? SBRK_ERROR) (ln "sbrk(rwsbrk) failed") [] ;;
  r ← sbrk (-8192);
  failif (r =? SBRK_ERROR) (ln "sbrk(rwsbrk) shrink failed") [] ;;
  fd ← open "rwsbrk" (Z.lor O_CREATE O_WRONLY);
  failif (fd <? 0) (ln "open(rwsbrk) failed") [] ;;
  n ← raw SYS_write [RNum fd; RNum (u64 (a + 4096)); RNum 1024];
  failif (0 <=? n) (ln "write(fd, %p, 1024) returned %d, not -1") [ANum (u64 (a + 4096)); ANum n] ;;
  close fd ;;
  unlink "rwsbrk" ;;
  fd ← open "README" O_RDONLY;
  failif (fd <? 0) (ln "open(rwsbrk) failed") [] ;;
  n ← raw SYS_read [RNum fd; RNum (u64 (a + 4096)); RNum 10];
  failif (0 <=? n) (ln "read(fd, %p, 10) returned %d, not -1") [ANum (u64 (a + 4096)); ANum n] ;;
  close fd ;;
  exit 0.

(** [argv[0] = 0] ends the array; [big] is the address of nothing. *)
Definition pgbug (s : list Z) : prog unit :=
  let big := 0xeaeb0b5b00002f5e in
  raw SYS_exec [RNum big; RVec []] ;;
  raw SYS_pipe [RNum big] ;;
  exit 0.

Definition badarg (s : list Z) : prog unit :=
  pfor_each (seq 0 (Z.to_nat 50000)) (fun _ => raw SYS_exec [RStr (chars "echo"); RVec [inl 0xffffffff]] ;; mret tt) ;;
  exit 0.

Definition validatetest (s : list Z) : prog unit :=
  let hi := 1100 * 1024 in
  pfor_each (seqZ 0 (hi / PGSIZE + 1)) (fun i =>
    r ← raw SYS_link [RStr (chars "nosuchfile"); RNum (i * PGSIZE)];
    failif (negb (r =? -1)) (ln "%s: link should not succeed") [str s]).

Definition argptest (s : list Z) : prog unit :=
  fd ← open "init" O_RDONLY;
  failif (fd <? 0) (ln "%s: open failed") [str s] ;;
  top ← sbrk 0;
  raw SYS_read [RNum fd; RNum (u64 (top - 1)); RNum (-1)] ;;
  close fd.

(** [sp] is the stack pointer of the child. *)
Definition stacktest (sp : Z) (s : list Z) : prog unit :=
  pid ← fork;
  (if pid =? 0 then
     let sp := u64 (sp - USERSTACK * PGSIZE) in
     c ← load sp;
     printf (ln "%s: stacktest: read below stack %d") [str s; ANum c] ;;
     exit 1
   else failif (pid <? 0) (ln "%s: fork failed") [str s]) ;;
  '(_, xstatus) ← wait None;
  xstatus ← value xstatus;
  if xstatus =? -1 then exit 0 else exit xstatus.

(** The store of an int traps at its first byte. *)
Definition nowrite (s : list Z) : prog unit :=
  pfold [0; 0x80000000; 0x3fffffe000; 0x3ffffff000; 0x4000000000; 0xffffffffffffffff] None (fun addr xstatus =>
    pid ← fork;
    (if pid =? 0 then
       store addr 10 ;; store (u64 (addr + 1)) 0 ;; store (u64 (addr + 2)) 0 ;; store (u64 (addr + 3)) 0 ;;
       printf (ln "%s: write to %p did not fail!") [str s; ANum addr] ;;
       exit 0
     else failif (pid <? 0) (ln "%s: fork failed") [str s]) ;;
    '(_, xstatus) ← wait xstatus;
    st ← value xstatus;
    (if st =? 0 then exit 1 else mret tt) ;;
    mret xstatus) ;;
  exit 0.

(** ** Memory *)

(** [heap] is [malloc]'s, empty at the start; [base] is where its static header is. *)
Definition mem (fuel : nat) (base : Z) (heap : Umalloc.heap) (s : list Z) : prog unit :=
  pid ← fork;
  if pid =? 0 then
    '(h, m1) ← ploop fuel (fun '(h, m1) =>
      '(h, m2) ← Umalloc.malloc base fuel h 10001;
      if m2 =? 0 then mret (inr (h, m1)) else
      mret (inl (Umalloc.mk_heap (store64 (Umalloc.h_mem h) m2 m1) (Umalloc.h_freep h), m2))) (heap, 0);
    h ← ploop fuel (fun '(h, m1) =>
      if m1 =? 0 then mret (inr h) else
      let m2 := load64 (Umalloc.h_mem h) m1 in
      h ← Umalloc.free fuel h m1;
      mret (inl (h, m2))) (h, m1);
    '(h, m1) ← Umalloc.malloc base fuel h (1024 * 20);
    failif (m1 =? 0) (ln "%s: couldn't allocate mem?!!") [str s] ;;
    Umalloc.free fuel h m1 ;;
    exit 0
  else
    '(_, xstatus) ← wait None;
    xstatus ← value xstatus;
    if xstatus =? -1 then exit 0 else exit xstatus.

Definition sbrkbasic (s : list Z) : prog unit :=
  let TOOMUCH := 1024 * 1024 * 1024 in
  pid ← fork;
  failif (pid <? 0) (ln "fork failed in sbrkbasic") [] ;;
  (if pid =? 0 then
     a ← sbrk TOOMUCH;
     (if a =? SBRK_ERROR then exit 0 else mret tt) ;;
     pfor_each (seqZ 0 (TOOMUCH / 4096)) (fun i => store (u64 (a + i * 4096)) 99) ;;
     exit 1
   else mret tt) ;;
  '(_, xstatus) ← wait None;
  st ← value xstatus;
  failif (st =? 1) (ln "%s: too much memory allocated!") [str s] ;;
  a ← sbrk 0;
  a ← pfold (seqZ 0 5000) a (fun i a =>
    b ← sbrk 1;
    failif (negb (b =? a)) (ln "%s: sbrk test failed %d %p %p") [str s; ANum i; ANum a; ANum b] ;;
    store b 1 ;;
    mret (u64 (b + 1)));
  pid ← fork;
  failif (pid <? 0) (ln "%s: sbrk test fork failed") [str s] ;;
  sbrk 1 ;;
  c ← sbrk 1;
  failif (negb (c =? u64 (a + 1))) (ln "%s: sbrk test failed post-fork") [str s] ;;
  (if pid =? 0 then exit 0 else mret tt) ;;
  '(_, xstatus) ← wait xstatus;
  xstatus ← value xstatus;
  exit xstatus.

Definition sbrkmuch (s : list Z) : prog unit :=
  let BIG := 100 * 1024 * 1024 in
  oldbrk ← sbrk 0;
  a ← sbrk 0;
  let amt := u64 (BIG - a) in
  p ← sbrk amt;
  failif (negb (p =? a)) (ln "%s: sbrk test failed to grow big address space; enough phys mem?") [str s] ;;
  eee ← sbrk 0;
  pfor_each (seqZ 0 ((eee - a + 4095) / 4096)) (fun i => store (u64 (a + i * 4096)) 1) ;;
  let lastaddr := BIG - 1 in
  store lastaddr 99 ;;
  a ← sbrk 0;
  c ← sbrk (- PGSIZE);
  failif (c =? SBRK_ERROR) (ln "%s: sbrk could not deallocate") [str s] ;;
  c ← sbrk 0;
  failif (negb (c =? u64 (a - PGSIZE))) (ln "%s: sbrk deallocation produced wrong address, a %p c %p") [str s; ANum a; ANum c] ;;
  a ← sbrk 0;
  c ← sbrk PGSIZE;
  bad ← (if negb (c =? a) then mret true else x ← sbrk 0; mret (negb (x =? u64 (a + PGSIZE))));
  failif bad (ln "%s: sbrk re-allocation failed, a %p c %p") [str s; ANum a; ANum c] ;;
  x ← load lastaddr;
  failif (x =? 99) (ln "%s: sbrk de-allocation didn't really deallocate") [str s] ;;
  a ← sbrk 0;
  x ← sbrk 0;
  c ← sbrk (- (x - oldbrk));
  failif (negb (c =? a)) (ln "%s: sbrk downsize failed, a %p c %p") [str s; ANum a; ANum c].

Definition kernmem (s : list Z) : prog unit :=
  pfor_each (seqZ 0 40) (fun i =>
    let a := KERNBASE + i * 50000 in
    pid ← fork;
    failif (pid <? 0) (ln "%s: fork failed") [str s] ;;
    (if pid =? 0 then
       x ← load a;
       printf (ln "%s: oops could read %p = %x") [str s; ANum a; ANum x] ;;
       exit 1
     else mret tt) ;;
    '(_, xstatus) ← wait None;
    xstatus ← value xstatus;
    if negb (xstatus =? -1) then exit 1 else mret tt).

(** [a <<= 1] is 0 after 26 turns. *)
Definition MAXVAplus (s : list Z) : prog unit :=
  pfor_each (seqZ 0 26) (fun i =>
    let a := Z.shiftl MAXVA i in
    pid ← fork;
    failif (pid <? 0) (ln "%s: fork failed") [str s] ;;
    (if pid =? 0 then
       store a 99 ;;
       printf (ln "%s: oops wrote %p") [str s; ANum a] ;;
       exit 1
     else mret tt) ;;
    '(_, xstatus) ← wait None;
    xstatus ← value xstatus;
    if negb (xstatus =? -1) then exit 1 else mret tt).

Definition sbrkfail (fuel : nat) (s : list Z) : prog unit :=
  let BIG := 100 * 1024 * 1024 in
  '(r, fds) ← pipe;
  failif (negb (r =? 0)) (ln "%s: pipe() failed") [str s] ;;
  '(fd0, fd1) ← fds_of fds;
  pids ← pfold (seqZ 0 10) [] (fun _ pids =>
    pid ← fork;
    (if pid =? 0 then
       x ← sbrk 0;
       sbrk (u64 (BIG - x)) ;;
       write fd1 (chars "x") ;;
       ploop fuel (fun _ : unit => sleep 1000 ;; mret (inl tt)) tt
     else mret tt) ;;
    (if negb (pid =? -1) then read fd0 1 ;; mret tt else mret tt) ;;
    mret (pids ++ [pid]));
  c ← sbrk PGSIZE;
  pfor_each pids (fun pid => if pid =? -1 then mret tt else kill pid ;; wait0 ;; mret tt) ;;
  failif (c =? SBRK_ERROR) (ln "%s: failed sbrk leaked memory") [str s] ;;
  pid ← fork;
  failif (pid <? 0) (ln "%s: fork failed") [str s] ;;
  (if pid =? 0 then
     a ← sbrk 0;
     sbrk (10 * BIG) ;;
     n ← pfold (seqZ 0 (10 * BIG / PGSIZE)) 0 (fun i n => x ← load (u64 (a + i * PGSIZE)); mret (s32 (n + x)));
     printf (ln "%s: allocate a lot of memory succeeded %d") [str s; ANum n] ;;
     exit 1
   else mret tt) ;;
  '(_, xstatus) ← wait None;
  xstatus ← value xstatus;
  if negb (xstatus =? -1) && negb (xstatus =? 2) then exit 1 else mret tt.

Definition sbrkarg (s : list Z) : prog unit :=
  a ← sbrk PGSIZE;
  fd ← open "sbrk" (Z.lor O_CREATE O_WRONLY);
  unlink "sbrk" ;;
  failif (fd <? 0) (ln "%s: open sbrk failed") [str s] ;;
  n ← raw SYS_write [RNum fd; RNum a; RNum PGSIZE];
  failif (n <? 0) (ln "%s: write sbrk failed") [str s] ;;
  close fd ;;
  a ← sbrk PGSIZE;
  r ← raw SYS_pipe [RNum a];
  failif (negb (r =? 0)) (ln "%s: pipe() failed") [str s].

(** [uninit] is the address of the array. *)
Definition bsstest (uninit : Z) (s : list Z) : prog unit :=
  pfor_each (seqZ 0 10000) (fun i =>
    x ← load (u64 (uninit + i));
    failif (negb (x =? 0)) (ln "%s: bss test failed") [str s]).

Definition sbrkbugs (s : list Z) : prog unit :=
  pid ← fork;
  failif (pid <? 0) (ln "fork failed") [] ;;
  (if pid =? 0 then
     sz ← sbrk 0;
     let sz := s32 sz in
     sbrk (- sz) ;;
     exit 0
   else mret tt) ;;
  wait0 ;;
  pid ← fork;
  failif (pid <? 0) (ln "fork failed") [] ;;
  (if pid =? 0 then
     sz ← sbrk 0;
     let sz := s32 sz in
     sbrk (- (sz - 3500)) ;;
     exit 0
   else mret tt) ;;
  wait0 ;;
  pid ← fork;
  failif (pid <? 0) (ln "fork failed") [] ;;
  (if pid =? 0 then
     x ← sbrk 0;
     sbrk (u64 (10 * 4096 + 2048 - x)) ;;
     sbrk (-10) ;;
     exit 0
   else mret tt) ;;
  wait0 ;;
  exit 0.

Definition sbrklast (s : list Z) : prog unit :=
  top ← sbrk 0;
  (if negb (top mod 4096 =? 0) then sbrk (4096 - top mod 4096) ;; mret tt else mret tt) ;;
  sbrk 4096 ;;
  sbrk 10 ;;
  sbrk (-20) ;;
  top ← sbrk 0;
  let p := u64 (top - 64) in
  store p 120 ;;
  store (u64 (p + 1)) 0 ;;
  fd ← raw SYS_open [RNum p; RNum (Z.lor O_RDWR O_CREATE)];
  raw SYS_write [RNum fd; RNum p; RNum 1] ;;
  close fd ;;
  fd ← raw SYS_open [RNum p; RNum O_RDWR];
  store p 0 ;;
  raw SYS_read [RNum fd; RNum p; RNum 1] ;;
  c ← load p;
  if negb (c =? 120) then exit 1 else mret tt.

Definition sbrk8000 (s : list Z) : prog unit :=
  sbrk 0x80000004 ;;
  top ← sbrk 0;
  c ← load (u64 (top - 1));
  store (u64 (top - 1)) (u8 (c + 1)).

Definition execout (fuel : nat) (s : list Z) : prog unit :=
  pfor_each (seq 0 15) (fun avail =>
    pid ← fork;
    failif (pid <? 0) (ln "fork failed") [] ;;
    if pid =? 0 then
      ploop fuel (fun _ : unit =>
        a ← sbrk 4096;
        if a =? SBRK_ERROR then mret (inr tt) else
        store (u64 (a + 4096 - 1)) 1 ;; mret (inl tt)) tt ;;
      pfor_each (seq 0 avail) (fun _ => sbrk (-4096) ;; mret tt) ;;
      close 1 ;;
      sys (CExec (chars "echo") [chars "echo"; chars "x"]) ;;
      exit 0
    else wait0 ;; mret tt) ;;
  exit 0.
