(* ===== verification/TestsFs.v ===== *)
(** * user/usertests.c: the tests of files and directories *)

From stdpp Require Import base list gmap strings.
From Stdlib Require Import ZArith Lia.
From S2P Require Import Prelude Mem KString Riscv State Fs Format Usys Ulib Tests.
Open Scope Z_scope.

Section TestsFs.
Context {U : Uninit}.

(** ** Truncation *)

Definition truncate1 (s : list Z) : prog unit :=
  unlink "truncfile" ;;
  fd1 ← open "truncfile" (Z.lor (Z.lor O_CREATE O_WRONLY) O_TRUNC);
  write fd1 (chars "abcd") ;;
  close fd1 ;;
  fd2 ← open "truncfile" O_RDONLY;
  r ← read fd2 32;
  failif (negb (r_val r =? 4)) (ln "%s: read %d bytes, wanted 4") [str s; ANum (r_val r)] ;;
  fd1 ← open "truncfile" (Z.lor O_WRONLY O_TRUNC);
  fd3 ← open "truncfile" O_RDONLY;
  r ← read fd3 32;
  (if negb (r_val r =? 0) then
     printf (ln "aaa fd3=%d") [ANum fd3] ;; printf (ln "%s: read %d bytes, wanted 0") [str s; ANum (r_val r)] ;; exit 1
   else mret tt) ;;
  r ← read fd2 32;
  (if negb (r_val r =? 0) then
     printf (ln "bbb fd2=%d") [ANum fd2] ;; printf (ln "%s: read %d bytes, wanted 0") [str s; ANum (r_val r)] ;; exit 1
   else mret tt) ;;
  write fd1 (chars "abcdef") ;;
  r ← read fd3 32;
  failif (negb (r_val r =? 6)) (ln "%s: read %d bytes, wanted 6") [str s; ANum (r_val r)] ;;
  r ← read fd2 32;
  failif (negb (r_val r =? 2)) (ln "%s: read %d bytes, wanted 2") [str s; ANum (r_val r)] ;;
  unlink "truncfile" ;;
  close fd1 ;;
  close fd2 ;;
  close fd3.

Definition truncate2 (s : list Z) : prog unit :=
  unlink "truncfile" ;;
  fd1 ← open "truncfile" (Z.lor (Z.lor O_CREATE O_TRUNC) O_WRONLY);
  write fd1 (chars "abcd") ;;
  fd2 ← open "truncfile" (Z.lor O_TRUNC O_WRONLY);
  n ← write fd1 (chars "x");
  failif (negb (n =? -1)) (ln "%s: write returned %d, expected -1") [str s; ANum n] ;;
  unlink "truncfile" ;;
  close fd1 ;;
  close fd2.

Definition truncate3 (s : list Z) : prog unit :=
  fd ← open "truncfile" (Z.lor (Z.lor O_CREATE O_TRUNC) O_WRONLY);
  close fd ;;
  pid ← fork;
  failif (pid <? 0) (ln "%s: fork failed") [str s] ;;
  (if pid =? 0 then
     pfor_each (seq 0 100) (fun _ =>
       fd ← open "truncfile" O_WRONLY;
       failif (fd <? 0) (ln "%s: open failed") [str s] ;;
       n ← write fd (chars "1234567890");
       failif (negb (n =? 10)) (ln "%s: write got %d, expected 10") [str s; ANum n] ;;
       close fd ;;
       fd ← open "truncfile" O_RDONLY;
       read fd 32 ;;
       close fd) ;;
     exit 0
   else mret tt) ;;
  pfor_each (seq 0 150) (fun _ =>
    fd ← open "truncfile" (Z.lor (Z.lor O_CREATE O_WRONLY) O_TRUNC);
    failif (fd <? 0) (ln "%s: open failed") [str s] ;;
    n ← write fd (chars "xxx");
    failif (negb (n =? 3)) (ln "%s: write got %d, expected 3") [str s; ANum n] ;;
    close fd) ;;
  '(_, xstatus) ← wait None;
  unlink "truncfile" ;;
  xstatus ← value xstatus;
  exit xstatus.

(** ** The last reference to a directory *)

Definition iputtest (s : list Z) : prog unit :=
  r ← mkdir "iputdir"; failif (r <? 0) (ln "%s: mkdir failed") [str s] ;;
  r ← chdir "iputdir"; failif (r <? 0) (ln "%s: chdir iputdir failed") [str s] ;;
  r ← unlink "../iputdir"; failif (r <? 0) (ln "%s: unlink ../iputdir failed") [str s] ;;
  r ← chdir "/"; failif (r <? 0) (ln "%s: chdir / failed") [str s].

Definition exitiputtest (s : list Z) : prog unit :=
  pid ← fork;
  failif (pid <? 0) (ln "%s: fork failed") [str s] ;;
  (if pid =? 0 then
     r ← mkdir "iputdir"; failif (r <? 0) (ln "%s: mkdir failed") [str s] ;;
     r ← chdir "iputdir"; failif (r <? 0) (ln "%s: child chdir failed") [str s] ;;
     r ← unlink "../iputdir"; failif (r <? 0) (ln "%s: unlink ../iputdir failed") [str s] ;;
     exit 0
   else mret tt) ;;
  '(_, xstatus) ← wait None;
  xstatus ← value xstatus;
  exit xstatus.

Definition openiputtest (s : list Z) : prog unit :=
  r ← mkdir "oidir"; failif (r <? 0) (ln "%s: mkdir oidir failed") [str s] ;;
  pid ← fork;
  failif (pid <? 0) (ln "%s: fork failed") [str s] ;;
  (if pid =? 0 then
     fd ← open "oidir" O_RDWR;
     failif (0 <=? fd) (ln "%s: open directory for write succeeded") [str s] ;;
     exit 0
   else mret tt) ;;
  sleep 1 ;;
  r ← unlink "oidir"; failif (negb (r =? 0)) (ln "%s: unlink failed") [str s] ;;
  '(_, xstatus) ← wait None;
  xstatus ← value xstatus;
  exit xstatus.

(** ** Simple tests *)

Definition opentest (s : list Z) : prog unit :=
  fd ← open "echo" 0;
  failif (fd <? 0) (ln "%s: open echo failed!") [str s] ;;
  close fd ;;
  fd ← open "doesnotexist" 0;
  failif (0 <=? fd) (ln "%s: open doesnotexist succeeded!") [str s].

Definition writetest (s : list Z) : prog unit :=
  let N := 100 in let SZ := 10 in
  fd ← open "small" (Z.lor O_CREATE O_RDWR);
  failif (fd <? 0) (ln "%s: error: creat small failed!") [str s] ;;
  pfor_each (seqZ 0 N) (fun i =>
    r ← write fd (chars "aaaaaaaaaa");
    failif (negb (r =? SZ)) (ln "%s: error: write aa %d new file failed") [str s; ANum i] ;;
    r ← write fd (chars "bbbbbbbbbb");
    failif (negb (r =? SZ)) (ln "%s: error: write bb %d new file failed") [str s; ANum i]) ;;
  close fd ;;
  fd ← open "small" O_RDONLY;
  failif (fd <? 0) (ln "%s: error: open small failed!") [str s] ;;
  r ← read fd (N * SZ * 2);
  failif (negb (r_val r =? N * SZ * 2)) (ln "%s: read failed") [str s] ;;
  close fd ;;
  r ← unlink "small"; failif (r <? 0) (ln "%s: unlink small failed") [str s].

Definition writebig (fuel : nat) (s : list Z) : prog unit :=
  fd ← open "big" (Z.lor O_CREATE O_RDWR);
  failif (fd <? 0) (ln "%s: error: creat big failed!") [str s] ;;
  pfor_each (seqZ 0 MAXFILE) (fun i =>
    r ← write fd (le_bytes 4 i ++ replicate (Z.to_nat (BSIZE - 4)) 0);
    failif (negb (r =? BSIZE)) (ln "%s: error: write big file failed i=%d") [str s; ANum i]) ;;
  close fd ;;
  fd ← open "big" O_RDONLY;
  failif (fd <? 0) (ln "%s: error: open big failed!") [str s] ;;
  ploop fuel (fun n =>
    r ← read fd BSIZE;
    let i := r_val r in
    if i =? 0 then
      failif (negb (n =? MAXFILE)) (chars "%s: read only %d blocks from big") [str s; ANum n] ;;
      mret (inr tt)
    else
    failif (negb (i =? BSIZE)) (ln "%s: read failed %d") [str s; ANum i] ;;
    let v := s32 (le_val (take 4 (r_bytes r))) in
    failif (negb (v =? n)) (ln "%s: read content of block %d is %d") [str s; ANum n; ANum v] ;;
    mret (inl (n + 1))) 0 ;;
  close fd ;;
  r ← unlink "big"; failif (r <? 0) (ln "%s: unlink big failed") [str s].

Definition createtest (s : list Z) : prog unit :=
  let N := 52 in
  pfor_each (seqZ 0 N) (fun i => fd ← open_ [97; 48 + i] (Z.lor O_CREATE O_RDWR); close fd) ;;
  pfor_each (seqZ 0 N) (fun i => unlink_ [97; 48 + i] ;; mret tt).

Definition dirtest (s : list Z) : prog unit :=
  r ← mkdir "dir0"; failif (r <? 0) (ln "%s: mkdir failed") [str s] ;;
  r ← chdir "dir0"; failif (r <? 0) (ln "%s: chdir dir0 failed") [str s] ;;
  r ← chdir ".."; failif (r <? 0) (ln "%s: chdir .. failed") [str s] ;;
  r ← unlink "dir0"; failif (r <? 0) (ln "%s: unlink dir0 failed") [str s].

Definition exectest (s : list Z) : prog unit :=
  unlink "echo-ok" ;;
  pid ← fork;
  failif (pid <? 0) (ln "%s: fork failed") [str s] ;;
  (if pid =? 0 then
     close 1 ;;
     fd ← open "echo-ok" (Z.lor O_CREATE O_WRONLY);
     failif (fd <? 0) (ln "%s: create failed") [str s] ;;
     failif (negb (fd =? 1)) (ln "%s: wrong fd") [str s] ;;
     r ← sysv (CExec (chars "echo") [chars "echo"; chars "OK"]);
     failif (r <? 0) (ln "%s: exec echo failed") [str s]
   else mret tt) ;;
  '(r, xstatus) ← wait None;
  (if negb (r =? pid) then printf (ln "%s: wait failed!") [str s] else mret tt) ;;
  xstatus ← value xstatus;
  (if negb (xstatus =? 0) then exit xstatus else mret tt) ;;
  fd ← open "echo-ok" O_RDONLY;
  failif (fd <? 0) (ln "%s: open failed") [str s] ;;
  r ← read fd 2;
  failif (negb (r_val r =? 2)) (ln "%s: read failed") [str s] ;;
  unlink "echo-ok" ;;
  if decide (take 2 (r_bytes r) = chars "OK") then exit 0
  else printf (ln "%s: wrong output") [str s] ;; exit 1.

(** ** Several processes and one file system *)

(** [buf] keeps what an earlier read left in it. *)
Definition overwrite (r : reply) (buf : list Z) : list Z := r_bytes r ++ drop (length (r_bytes r)) buf.
Definition count (c : Z) (l : list Z) : Z := Z.of_nat (length (filter (fun x => x = c) l)).

Definition sharedfd (fuel : nat) (s : list Z) : prog unit :=
  let N := 1000 in let SZ := 10 in
  unlink "sharedfd" ;;
  fd ← open "sharedfd" (Z.lor O_CREATE O_RDWR);
  failif (fd <? 0) (chars "%s: cannot open sharedfd for writing") [str s] ;;
  pid ← fork;
  let buf := replicate (Z.to_nat SZ) (if pid =? 0 then 99 else 112) in
  pfor_each (seqZ 0 N) (fun _ =>
    r ← write fd buf;
    failif (negb (r =? SZ)) (ln "%s: write sharedfd failed") [str s]) ;;
  (if pid =? 0 then exit 0
   else
     '(_, xstatus) ← wait None;
     xstatus ← value xstatus;
     if negb (xstatus =? 0) then exit xstatus else mret tt) ;;
  close fd ;;
  fd ← open "sharedfd" 0;
  failif (fd <? 0) (ln "%s: cannot open sharedfd for reading") [str s] ;;
  '(nc, np) ← ploop fuel (fun '(buf, nc, np) =>
    r ← read fd SZ;
    if r_val r <=? 0 then mret (inr (nc, np)) else
    let buf := overwrite r buf in
    mret (inl (buf, nc + count 99 buf, np + count 112 buf))) (buf, 0, 0);
  close fd ;;
  unlink "sharedfd" ;;
  if (nc =? N * SZ) && (np =? N * SZ) then exit 0
  else printf (ln "%s: nc/np test fails") [str s] ;; exit 1.

Definition fourfiles (fuel : nat) (s : list Z) : prog unit :=
  let N := 12 in let NCHILD := 4 in let SZ := 500 in
  let fname pi := [102; 48 + pi] in
  pfor_each (seqZ 0 NCHILD) (fun pi =>
    unlink_ (fname pi) ;;
    pid ← fork;
    failif (pid <? 0) (ln "%s: fork failed") [str s] ;;
    if pid =? 0 then
      fd ← open_ (fname pi) (Z.lor O_CREATE O_RDWR);
      failif (fd <? 0) (ln "%s: create failed") [str s] ;;
      pfor_each (seqZ 0 N) (fun _ =>
        n ← write fd (replicate (Z.to_nat SZ) (48 + pi));
        failif (negb (n =? SZ)) (ln "write failed %d") [ANum n]) ;;
      exit 0
    else mret tt) ;;
  pfold (seqZ 0 NCHILD) None (fun _ xstatus =>
    '(_, xstatus) ← wait xstatus;
    st ← value xstatus;
    (if negb (st =? 0) then exit st else mret tt) ;;
    mret xstatus) ;;
  pfor_each (seqZ 0 NCHILD) (fun i =>
    fd ← open_ (fname i) 0;
    total ← ploop fuel (fun total =>
      r ← read fd BUFSZ;
      let n := r_val r in
      if n <=? 0 then mret (inr total) else
      pfor_each (take (Z.to_nat n) (r_bytes r)) (fun c => failif (negb (c =? 48 + i)) (ln "%s: wrong char") [str s]) ;;
      mret (inl (total + n))) 0;
    close fd ;;
    failif (negb (total =? N * SZ)) (ln "wrong length %d") [ANum total] ;;
    unlink_ (fname i) ;;
    mret tt).

Definition createdelete (s : list Z) : prog unit :=
  let N := 20 in let NCHILD := 4 in
  let name pi i := [112 + pi; 48 + i] in
  pfor_each (seqZ 0 NCHILD) (fun pi =>
    pid ← fork;
    failif (pid <? 0) (ln "%s: fork failed") [str s] ;;
    if pid =? 0 then
      pfor_each (seqZ 0 N) (fun i =>
        fd ← open_ (name pi i) (Z.lor O_CREATE O_RDWR);
        failif (fd <? 0) (ln "%s: create failed") [str s] ;;
        close fd ;;
        if (0 <? i) && (i mod 2 =? 0) then
          r ← unlink_ (name pi (i / 2));
          failif (r <? 0) (ln "%s: unlink failed") [str s]
        else mret tt) ;;
      exit 0
    else mret tt) ;;
  pfold (seqZ 0 NCHILD) None (fun _ xstatus =>
    '(_, xstatus) ← wait xstatus;
    st ← value xstatus;
    (if negb (st =? 0) then exit 1 else mret tt) ;;
    mret xstatus) ;;
  pfor_each (seqZ 0 N) (fun i => pfor_each (seqZ 0 NCHILD) (fun pi =>
    fd ← open_ (name pi i) 0;
    (if ((i =? 0) || (N / 2 <=? i)) && (fd <? 0) then
       printf (ln "%s: oops createdelete %s didn't exist") [str s; str (name pi i)] ;; exit 1
     else failif ((1 <=? i) && (i <? N / 2) && (0 <=? fd)) (ln "%s: oops createdelete %s did exist") [str s; str (name pi i)]) ;;
    if 0 <=? fd then close fd else mret tt)) ;;
  pfor_each (seqZ 0 N) (fun i => pfor_each (seqZ 0 NCHILD) (fun pi => unlink_ (name pi i) ;; mret tt)).

Definition unlinkread (s : list Z) : prog unit :=
  let SZ := 5 in
  fd ← open "unlinkread" (Z.lor O_CREATE O_RDWR);
  failif (fd <? 0) (ln "%s: create unlinkread failed") [str s] ;;
  write fd (chars "hello") ;;
  close fd ;;
  fd ← open "unlinkread" O_RDWR;
  failif (fd <? 0) (ln "%s: open unlinkread failed") [str s] ;;
  r ← unlink "unlinkread"; failif (negb (r =? 0)) (ln "%s: unlink unlinkread failed") [str s] ;;
  fd1 ← open "unlinkread" (Z.lor O_CREATE O_RDWR);
  write fd1 (chars "yyy") ;;
  close fd1 ;;
  r ← read fd BUFSZ;
  failif (negb (r_val r =? SZ)) (chars "%s: unlinkread read failed") [str s] ;;
  let buf := overwrite r (replicate (Z.to_nat BUFSZ) 0) in
  failif (negb (hd0 buf =? 104)) (ln "%s: unlinkread wrong data") [str s] ;;
  r ← write fd (take 10 buf);
  failif (negb (r =? 10)) (ln "%s: unlinkread write failed") [str s] ;;
  close fd ;;
  unlink "unlinkread" ;;
  mret tt.

Definition linktest (s : list Z) : prog unit :=
  let SZ := 5 in
  unlink "lf1" ;;
  unlink "lf2" ;;
  fd ← open "lf1" (Z.lor O_CREATE O_RDWR);
  failif (fd <? 0) (ln "%s: create lf1 failed") [str s] ;;
  r ← write fd (chars "hello"); failif (negb (r =? SZ)) (ln "%s: write lf1 failed") [str s] ;;
  close fd ;;
  r ← link "lf1" "lf2"; failif (r <? 0) (ln "%s: link lf1 lf2 failed") [str s] ;;
  unlink "lf1" ;;
  r ← open "lf1" 0; failif (0 <=? r) (ln "%s: unlinked lf1 but it is still there!") [str s] ;;
  fd ← open "lf2" 0;
  failif (fd <? 0) (ln "%s: open lf2 failed") [str s] ;;
  r ← read fd BUFSZ; failif (negb (r_val r =? SZ)) (ln "%s: read lf2 failed") [str s] ;;
  close fd ;;
  r ← link "lf2" "lf2"; failif (0 <=? r) (ln "%s: link lf2 lf2 succeeded! oops") [str s] ;;
  unlink "lf2" ;;
  r ← link "lf2" "lf1"; failif (0 <=? r) (ln "%s: link non-existent succeeded! oops") [str s] ;;
  r ← link "." "lf1"; failif (0 <=? r) (ln "%s: link . lf1 succeeded! oops") [str s].

(** [de] is the entry last read: the bytes of its number and its name. *)
Definition concreate (fuel : nat) (s : list Z) : prog unit :=
  let N := 40 in
  let file i := [67; 48 + i] in
  pfor_each (seqZ 0 N) (fun i =>
    unlink_ (file i) ;;
    pid ← fork;
    (if negb (pid =? 0) && (i mod 3 =? 1) then sysv (CLink (chars "C0") (file i)) ;; mret tt
     else if (pid =? 0) && (i mod 5 =? 1) then sysv (CLink (chars "C0") (file i)) ;; mret tt
     else
       fd ← open_ (file i) (Z.lor O_CREATE O_RDWR);
       failif (fd <? 0) (ln "concreate create %s failed") [str (file i)] ;;
       close fd) ;;
    if pid =? 0 then exit 0
    else
      '(_, xstatus) ← wait None;
      xstatus ← value xstatus;
      if negb (xstatus =? 0) then exit 1 else mret tt) ;;
  fd ← open "." 0;
  n ← ploop fuel (fun '(de, fa, n) =>
    r ← read fd 16;
    if r_val r <=? 0 then mret (inr n) else
    let de := overwrite r de in
    let name := drop 2 de in
    if le_val (take 2 de) =? 0 then mret (inl (de, fa, n)) else
    if (nth0 name 0 =? 67) && (nth0 name 2 =? 0) then
      let i := nth0 name 1 - 48 in
      failif ((i <? 0) || (N <=? i)) (ln "%s: concreate weird file %s") [str s; str (cstr name)] ;;
      failif (negb (nth0 fa (Z.to_nat i) =? 0)) (ln "%s: concreate duplicate file %s") [str s; str (cstr name)] ;;
      mret (inl (de, <[Z.to_nat i := 1]> fa, n + 1))
    else mret (inl (de, fa, n))) (uninit 16, replicate (Z.to_nat N) 0, 0);
  close fd ;;
  failif (negb (n =? N)) (ln "%s: concreate not enough files in directory listing") [str s] ;;
  pfor_each (seqZ 0 N) (fun i =>
    pid ← fork;
    failif (pid <? 0) (ln "%s: fork failed") [str s] ;;
    (if ((i mod 3 =? 0) && (pid =? 0)) || ((i mod 3 =? 1) && negb (pid =? 0)) then
       pfor_each (seq 0 6) (fun _ => fd ← open_ (file i) 0; close fd)
     else pfor_each (seq 0 6) (fun _ => unlink_ (file i) ;; mret tt)) ;;
    if pid =? 0 then exit 0 else wait0 ;; mret tt).

Definition linkunlink (s : list Z) : prog unit :=
  unlink "x" ;;
  pid ← fork;
  failif (pid <? 0) (ln "%s: fork failed") [str s] ;;
  pfold (seq 0 100) (if negb (pid =? 0) then 1 else 97) (fun _ x =>
    let x := u32 (x * 1103515245 + 12345) in
    (if x mod 3 =? 0 then fd ← open "x" (Z.lor O_RDWR O_CREATE); close fd
     else if x mod 3 =? 1 then link "cat" "x" ;; mret tt
     else unlink "x" ;; mret tt) ;;
    mret x) ;;
  if negb (pid =? 0) then wait0 ;; mret tt else exit 0.

(** ** Directories *)

Definition subdir (s : list Z) : prog unit :=
  let must_zero (r : Z) (m : string) := failif (negb (r =? 0)) (ln m) [str s] in
  let must_not_zero (r : Z) (m : string) := failif (r =? 0) (ln m) [str s] in
  let must_fail (r : Z) (m : string) := failif (0 <=? r) (ln m) [str s] in
  let must_open (r : Z) (m : string) := failif (r <? 0) (ln m) [str s] in
  unlink "ff" ;;
  r ← mkdir "dd"; must_zero r "%s: mkdir dd failed" ;;
  fd ← open "dd/ff" (Z.lor O_CREATE O_RDWR); must_open fd "%s: create dd/ff failed" ;;
  write fd (chars "ff") ;;
  close fd ;;
  r ← unlink "dd"; must_fail r "%s: unlink dd (non-empty dir) succeeded!" ;;
  r ← mkdir "/dd/dd"; must_zero r "%s: subdir mkdir dd/dd failed" ;;
  fd ← open "dd/dd/ff" (Z.lor O_CREATE O_RDWR); must_open fd "%s: create dd/dd/ff failed" ;;
  write fd (chars "FF") ;;
  close fd ;;
  fd ← open "dd/dd/../ff" 0; must_open fd "%s: open dd/dd/../ff failed" ;;
  r ← read fd BUFSZ;
  failif (negb (r_val r =? 2) || negb (hd0 (r_bytes r) =? 102)) (ln "%s: dd/dd/../ff wrong content") [str s] ;;
  close fd ;;
  r ← link "dd/dd/ff" "dd/dd/ffff"; must_zero r "%s: link dd/dd/ff dd/dd/ffff failed" ;;
  r ← unlink "dd/dd/ff"; must_zero r "%s: unlink dd/dd/ff failed" ;;
  r ← open "dd/dd/ff" O_RDONLY; must_fail r "%s: open (unlinked) dd/dd/ff succeeded" ;;
  r ← chdir "dd"; must_zero r "%s: chdir dd failed" ;;
  r ← chdir "dd/../../dd"; must_zero r "%s: chdir dd/../../dd failed" ;;
  r ← chdir "dd/../../../dd"; must_zero r "%s: chdir dd/../../../dd failed" ;;
  r ← chdir "./.."; must_zero r "%s: chdir ./.. failed" ;;
  fd ← open "dd/dd/ffff" 0; must_open fd "%s: open dd/dd/ffff failed" ;;
  r ← read fd BUFSZ; failif (negb (r_val r =? 2)) (ln "%s: read dd/dd/ffff wrong len") [str s] ;;
  close fd ;;
  r ← open "dd/dd/ff" O_RDONLY; must_fail r "%s: open (unlinked) dd/dd/ff succeeded!" ;;
  r ← open "dd/ff/ff" (Z.lor O_CREATE O_RDWR); must_fail r "%s: create dd/ff/ff succeeded!" ;;
  r ← open "dd/xx/ff" (Z.lor O_CREATE O_RDWR); must_fail r "%s: create dd/xx/ff succeeded!" ;;
  r ← open "dd" O_CREATE; must_fail r "%s: create dd succeeded!" ;;
  r ← open "dd" O_RDWR; must_fail r "%s: open dd rdwr succeeded!" ;;
  r ← open "dd" O_WRONLY; must_fail r "%s: open dd wronly succeeded!" ;;
  r ← link "dd/ff/ff" "dd/dd/xx"; must_not_zero r "%s: link dd/ff/ff dd/dd/xx succeeded!" ;;
  r ← link "dd/xx/ff" "dd/dd/xx"; must_not_zero r "%s: link dd/xx/ff dd/dd/xx succeeded!" ;;
  r ← link "dd/ff" "dd/dd/ffff"; must_not_zero r "%s: link dd/ff dd/dd/ffff succeeded!" ;;
  r ← mkdir "dd/ff/ff"; must_not_zero r "%s: mkdir dd/ff/ff succeeded!" ;;
  r ← mkdir "dd/xx/ff"; must_not_zero r "%s: mkdir dd/xx/ff succeeded!" ;;
  r ← mkdir "dd/dd/ffff"; must_not_zero r "%s: mkdir dd/dd/ffff succeeded!" ;;
  r ← unlink "dd/xx/ff"; must_not_zero r "%s: unlink dd/xx/ff succeeded!" ;;
  r ← unlink "dd/ff/ff"; must_not_zero r "%s: unlink dd/ff/ff succeeded!" ;;
  r ← chdir "dd/ff"; must_not_zero r "%s: chdir dd/ff succeeded!" ;;
  r ← chdir "dd/xx"; must_not_zero r "%s: chdir dd/xx succeeded!" ;;
  r ← unlink "dd/dd/ffff"; must_zero r "%s: unlink dd/dd/ff failed" ;;
  r ← unlink "dd/ff"; must_zero r "%s: unlink dd/ff failed" ;;
  r ← unlink "dd"; must_not_zero r "%s: unlink non-empty dd succeeded!" ;;
  r ← unlink "dd/dd"; must_open r "%s: unlink dd/dd failed" ;;
  r ← unlink "dd"; must_open r "%s: unlink dd failed".

Definition fourteen (s : list Z) : prog unit :=
  r ← mkdir "12345678901234"; failif (negb (r =? 0)) (ln "%s: mkdir 12345678901234 failed") [str s] ;;
  r ← mkdir "12345678901234/123456789012345"; failif (negb (r =? 0)) (ln "%s: mkdir 12345678901234/123456789012345 failed") [str s] ;;
  fd ← open "123456789012345/123456789012345/123456789012345" O_CREATE;
  failif (fd <? 0) (ln "%s: create 123456789012345/123456789012345/123456789012345 failed") [str s] ;;
  close fd ;;
  fd ← open "12345678901234/12345678901234/12345678901234" 0;
  failif (fd <? 0) (ln "%s: open 12345678901234/12345678901234/12345678901234 failed") [str s] ;;
  close fd ;;
  r ← mkdir "12345678901234/12345678901234"; failif (r =? 0) (ln "%s: mkdir 12345678901234/12345678901234 succeeded!") [str s] ;;
  r ← mkdir "123456789012345/12345678901234"; failif (r =? 0) (ln "%s: mkdir 12345678901234/123456789012345 succeeded!") [str s] ;;
  unlink "123456789012345/12345678901234" ;;
  unlink "12345678901234/12345678901234" ;;
  unlink "12345678901234/12345678901234/12345678901234" ;;
  unlink "123456789012345/123456789012345/123456789012345" ;;
  unlink "12345678901234/123456789012345" ;;
  unlink "12345678901234" ;;
  mret tt.

Definition rmdot (s : list Z) : prog unit :=
  r ← mkdir "dots"; failif (negb (r =? 0)) (ln "%s: mkdir dots failed") [str s] ;;
  r ← chdir "dots"; failif (negb (r =? 0)) (ln "%s: chdir dots failed") [str s] ;;
  r ← unlink "."; failif (r =? 0) (ln "%s: rm . worked!") [str s] ;;
  r ← unlink ".."; failif (r =? 0) (ln "%s: rm .. worked!") [str s] ;;
  r ← chdir "/"; failif (negb (r =? 0)) (ln "%s: chdir / failed") [str s] ;;
  r ← unlink "dots/."; failif (r =? 0) (ln "%s: unlink dots/. worked!") [str s] ;;
  r ← unlink "dots/.."; failif (r =? 0) (ln "%s: unlink dots/.. worked!") [str s] ;;
  r ← unlink "dots"; failif (negb (r =? 0)) (ln "%s: unlink dots failed!") [str s].

Definition dirfile (s : list Z) : prog unit :=
  fd ← open "dirfile" O_CREATE; failif (fd <? 0) (ln "%s: create dirfile failed") [str s] ;;
  close fd ;;
  r ← chdir "dirfile"; failif (r =? 0) (ln "%s: chdir dirfile succeeded!") [str s] ;;
  fd ← open "dirfile/xx" 0; failif (0 <=? fd) (ln "%s: create dirfile/xx succeeded!") [str s] ;;
  fd ← open "dirfile/xx" O_CREATE; failif (0 <=? fd) (ln "%s: create dirfile/xx succeeded!") [str s] ;;
  r ← mkdir "dirfile/xx"; failif (r =? 0) (ln "%s: mkdir dirfile/xx succeeded!") [str s] ;;
  r ← unlink "dirfile/xx"; failif (r =? 0) (ln "%s: unlink dirfile/xx succeeded!") [str s] ;;
  r ← link "README" "dirfile/xx"; failif (r =? 0) (ln "%s: link to dirfile/xx succeeded!") [str s] ;;
  r ← unlink "dirfile"; failif (negb (r =? 0)) (ln "%s: unlink dirfile failed!") [str s] ;;
  fd ← open "." O_RDWR; failif (0 <=? fd) (ln "%s: open . for writing succeeded!") [str s] ;;
  fd ← open "." 0;
  r ← write fd (chars "x"); failif (0 <? r) (ln "%s: write . succeeded!") [str s] ;;
  close fd.

Definition iref (s : list Z) : prog unit :=
  pfor_each (seq 0 (S NINODE)) (fun _ =>
    r ← mkdir "irefd"; failif (negb (r =? 0)) (ln "%s: mkdir irefd failed") [str s] ;;
    r ← chdir "irefd"; failif (negb (r =? 0)) (ln "%s: chdir irefd failed") [str s] ;;
    sysv (CMkdir []) ;;
    sysv (CLink (chars "README") []) ;;
    fd ← open_ [] O_CREATE;
    (if 0 <=? fd then close fd else mret tt) ;;
    fd ← open "xx" O_CREATE;
    (if 0 <=? fd then close fd else mret tt) ;;
    unlink "xx" ;;
    mret tt) ;;
  pfor_each (seq 0 (S NINODE)) (fun _ => chdir ".." ;; unlink "irefd" ;; mret tt) ;;
  chdir "/" ;;
  mret tt.

Definition bigdir (s : list Z) : prog unit :=
  let N := 500 in
  let name i := [120; 48 + i / 64; 48 + i mod 64] in
  unlink "bd" ;;
  fd ← open "bd" O_CREATE; failif (fd <? 0) (ln "%s: bigdir create failed") [str s] ;;
  close fd ;;
  pfor_each (seqZ 0 N) (fun i =>
    r ← sysv (CLink (chars "bd") (name i));
    failif (negb (r =? 0)) (ln "%s: bigdir i=%d link(bd, %s) failed") [str s; ANum i; str (name i)]) ;;
  unlink "bd" ;;
  pfor_each (seqZ 0 N) (fun i =>
    r ← unlink_ (name i);
    failif (negb (r =? 0)) (chars "%s: bigdir unlink failed") [str s]).

(** ** Many and large files *)

Definition bigwrite (s : list Z) : prog unit :=
  unlink "bigwrite" ;;
  pfor_each ((fun k => 499 + 471 * k) <$> seqZ 0 (((MAXOPBLOCKS + 2) * BSIZE - 499 + 470) / 471)) (fun sz =>
    fd ← open "bigwrite" (Z.lor O_CREATE O_RDWR);
    failif (fd <? 0) (ln "%s: cannot create bigwrite") [str s] ;;
    pfor_each (seq 0 2) (fun _ =>
      cc ← write fd (replicate (Z.to_nat sz) 0);
      failif (negb (cc =? sz)) (ln "%s: write(%d) ret %d") [str s; ANum sz; ANum cc]) ;;
    close fd ;;
    unlink "bigwrite" ;;
    mret tt).

Definition bigfile (fuel : nat) (s : list Z) : prog unit :=
  let N := 20 in let SZ := 600 in
  unlink "bigfile.dat" ;;
  fd ← open "bigfile.dat" (Z.lor O_CREATE O_RDWR);
  failif (fd <? 0) (chars "%s: cannot create bigfile") [str s] ;;
  pfor_each (seqZ 0 N) (fun i =>
    r ← write fd (replicate (Z.to_nat SZ) i);
    failif (negb (r =? SZ)) (ln "%s: write bigfile failed") [str s]) ;;
  close fd ;;
  fd ← open "bigfile.dat" 0;
  failif (fd <? 0) (ln "%s: cannot open bigfile") [str s] ;;
  total ← ploop fuel (fun '(i, total) =>
    r ← read fd (SZ / 2);
    let cc := r_val r in
    failif (cc <? 0) (ln "%s: read bigfile failed") [str s] ;;
    if cc =? 0 then mret (inr total) else
    failif (negb (cc =? SZ / 2)) (ln "%s: short read bigfile") [str s] ;;
    failif (negb (nth0 (r_bytes r) 0 =? i / 2) || negb (nth0 (r_bytes r) (Z.to_nat (SZ / 2 - 1)) =? i / 2)) (ln "%s: read bigfile wrong data") [str s] ;;
    mret (inl (i + 1, total + cc))) (0, 0);
  close fd ;;
  failif (negb (total =? N * SZ)) (ln "%s: read bigfile wrong total") [str s] ;;
  unlink "bigfile.dat" ;;
  mret tt.

Definition bigargtest (s : list Z) : prog unit :=
  unlink "bigarg-ok" ;;
  pid ← fork;
  (if pid =? 0 then
     let big := replicate 399 32 in
     sys (CExec (chars "echo") (replicate (Z.to_nat (MAXARG - 1)) big)) ;;
     fd ← open "bigarg-ok" O_CREATE;
     close fd ;;
     exit 0
   else failif (pid <? 0) (ln "%s: bigargtest: fork failed") [str s]) ;;
  '(_, xstatus) ← wait None;
  xstatus ← value xstatus;
  (if negb (xstatus =? 0) then exit xstatus else mret tt) ;;
  fd ← open "bigarg-ok" 0;
  failif (fd <? 0) (ln "%s: bigarg test failed!") [str s] ;;
  close fd.

(** [fsfull] is in none of the tables. *)
Definition fsfull (fuel : nat) : prog unit :=
  let name n := [102; 48 + Z.quot n 1000; 48 + Z.quot (Z.rem n 1000) 100; 48 + Z.quot (Z.rem n 100) 10; 48 + Z.rem n 10] in
  printf (ln "fsfull test") [] ;;
  nfiles ← ploop fuel (fun nfiles =>
    printf (ln "writing %s") [str (name nfiles)] ;;
    fd ← open_ (name nfiles) (Z.lor O_CREATE O_RDWR);
    if fd <? 0 then printf (ln "open %s failed") [str (name nfiles)] ;; mret (inr nfiles) else
    total ← ploop fuel (fun total =>
      cc ← write fd (replicate (Z.to_nat BSIZE) 0);
      if cc <? BSIZE then mret (inr total) else mret (inl (total + cc))) 0;
    printf (ln "wrote %d bytes") [ANum total] ;;
    close fd ;;
    if total =? 0 then mret (inr nfiles) else mret (inl (nfiles + 1))) 0;
  ploop fuel (fun nfiles => if 0 <=? nfiles then unlink_ (name nfiles) ;; mret (inl (nfiles - 1)) else mret (inr tt)) nfiles ;;
  printf (ln "fsfull test finished") [].

Definition manywrites (s : list Z) : prog unit :=
  let nchildren := 4 in let howmany := 30 in
  pfor_each (seqZ 0 nchildren) (fun ci =>
    pid ← fork;
    failif (pid <? 0) (ln "fork failed") [] ;;
    if pid =? 0 then
      let name := [98; 97 + ci] in
      unlink_ name ;;
      pfor_each (seqZ 0 howmany) (fun _ =>
        pfor_each (seqZ 0 (ci + 1)) (fun _ =>
          fd ← open_ name (Z.lor O_CREATE O_RDWR);
          failif (fd <? 0) (ln "%s: cannot create %s") [str s; str name] ;;
          let sz := BUFSZ in
          cc ← write fd (replicate (Z.to_nat sz) 0);
          failif (negb (cc =? sz)) (ln "%s: write(%d) ret %d") [str s; ANum sz; ANum cc] ;;
          close fd) ;;
        unlink_ name ;;
        mret tt) ;;
      unlink_ name ;;
      exit 0
    else mret tt) ;;
  pfor_each (seqZ 0 nchildren) (fun _ =>
    '(_, st) ← wait (Some 0);
    st ← value st;
    if negb (st =? 0) then exit st else mret tt) ;;
  exit 0.

Definition badwrite (s : list Z) : prog unit :=
  let assumed_free := 600 in
  unlink "junk" ;;
  pfor_each (seqZ 0 assumed_free) (fun _ =>
    fd ← open "junk" (Z.lor O_CREATE O_WRONLY);
    failif (fd <? 0) (ln "open junk failed") [] ;;
    raw SYS_write [RNum fd; RNum 0xffffffffff; RNum 1] ;;
    close fd ;;
    unlink "junk" ;;
    mret tt) ;;
  fd ← open "junk" (Z.lor O_CREATE O_WRONLY);
  failif (fd <? 0) (ln "open junk failed") [] ;;
  r ← write fd (chars "x"); failif (negb (r =? 1)) (ln "write failed") [] ;;
  close fd ;;
  unlink "junk" ;;
  exit 0.

(** The block written is a local array that nothing has set. *)
Definition diskfull (s : list Z) : prog unit :=
  let big fi := [98; 105; 103; 48 + fi] in
  let zz i := [122; 122; 48 + i / 32; 48 + i mod 32] in
  unlink "diskfulldir" ;;
  ploop 80 (fun fi =>
    if 48 + fi <? 127 then
      unlink_ (big fi) ;;
      fd ← open_ (big fi) (Z.lor (Z.lor O_CREATE O_RDWR) O_TRUNC);
      if fd <? 0 then printf (ln "%s: could not create file %s") [str s; str (big fi)] ;; mret (inr tt) else
      full ← ploop (S (Z.to_nat MAXFILE)) (fun i =>
        if i <? MAXFILE then
          r ← write fd (uninit (Z.to_nat BSIZE));
          if negb (r =? BSIZE) then close fd ;; mret (inr true) else mret (inl (i + 1))
        else mret (inr false)) 0;
      close fd ;;
      if full : bool then mret (inr tt) else mret (inl (fi + 1))
    else mret (inr tt)) 0 ;;
  let nzz := 128 in
  ploop 129 (fun i =>
    if i <? nzz then
      unlink_ (zz i) ;;
      fd ← open_ (zz i) (Z.lor (Z.lor O_CREATE O_RDWR) O_TRUNC);
      if fd <? 0 then mret (inr tt) else close fd ;; mret (inl (i + 1))
    else mret (inr tt)) 0 ;;
  r ← mkdir "diskfulldir";
  (if r =? 0 then printf (ln "%s: mkdir(diskfulldir) unexpectedly succeeded!") [str s] else mret tt) ;;
  unlink "diskfulldir" ;;
  pfor_each (seqZ 0 nzz) (fun i => unlink_ (zz i) ;; mret tt) ;;
  pfor_each (seqZ 0 79) (fun i => unlink_ (big i) ;; mret tt).

Definition outofinodes (s : list Z) : prog unit :=
  let nzz := 32 * 32 in
  let zz i := [122; 122; 48 + i / 32; 48 + i mod 32] in
  ploop (S (Z.to_nat nzz)) (fun i =>
    if i <? nzz then
      unlink_ (zz i) ;;
      fd ← open_ (zz i) (Z.lor (Z.lor O_CREATE O_RDWR) O_TRUNC);
      if fd <? 0 then mret (inr tt) else close fd ;; mret (inl (i + 1))
    else mret (inr tt)) 0 ;;
  pfor_each (seqZ 0 nzz) (fun i => unlink_ (zz i) ;; mret tt).
End TestsFs.
