(* ===== verification/TestsProc.v ===== *)
(** * user/usertests.c: the tests of processes and pipes *)

From stdpp Require Import base list gmap strings.
From Stdlib Require Import ZArith Lia.
From S2P Require Import Prelude Mem KString Riscv State Format Usys Ulib Utest Tests.
Open Scope Z_scope.


(** The parent gives up, without an error, when the bytes are wrong. *)
Definition pipe1 (fuel : nat) (s : list Z) : prog unit :=
  let N := 5 in let SZ := 1033 in
  '(r, fds) ← pipe;
  failif (negb (r =? 0)) (ln "%s: pipe() failed") [str s] ;;
  pid ← fork;
  '(fd0, fd1) ← fds_of fds;
  if pid =? 0 then
    close fd0 ;;
    pfold (seqZ 0 N) 0 (fun _ sq =>
      r ← write fd1 ((fun i => u8 (sq + i)) <$> seqZ 0 SZ);
      failif (negb (r =? SZ)) (ln "%s: pipe1 oops 1") [str s] ;;
      mret (sq + SZ)) ;;
    exit 0
  else if 0 <? pid then
    close fd1 ;;
    res ← ploop fuel (fun '(sq, total, cc) =>
      r ← read fd0 cc;
      let n := r_val r in
      if n <=? 0 then mret (inr (Some total)) else
      if decide (take (Z.to_nat n) (r_bytes r) = ((fun i => u8 (sq + i)) <$> seqZ 0 n)) then
        let cc := cc * 2 in
        mret (inl (sq + n, total + n, if BUFSZ <? cc then BUFSZ else cc))
      else printf (ln "%s: pipe1 oops 2") [str s] ;; mret (inr None)) (0, 0, 1);
    match res with
    | None => mret tt
    | Some total =>
        failif (negb (total =? N * SZ)) (ln "%s: pipe1 oops 3 total %d") [str s; ANum total] ;;
        close fd0 ;;
        '(_, xstatus) ← wait None;
        xstatus ← value xstatus;
        exit xstatus
    end
  else printf (ln "%s: fork() failed") [str s] ;; exit 1.

Definition killstatus (fuel : nat) (s : list Z) : prog unit :=
  pfold (seq 0 100) None (fun _ xst =>
    pid1 ← fork;
    failif (pid1 <? 0) (ln "%s: fork failed") [str s] ;;
    (if pid1 =? 0 then
       ploop fuel (fun _ : unit => getpid ;; mret (inl tt : unit + unit)) tt ;;
       exit 0
     else mret tt) ;;
    sleep 1 ;;
    kill pid1 ;;
    '(_, xst) ← wait xst;
    v ← value xst;
    failif (negb (v =? -1)) (ln "%s: status should be -1") [str s] ;;
    mret xst) ;;
  exit 0.

Definition preempt (fuel : nat) (s : list Z) : prog unit :=
  pid1 ← fork;
  failif (pid1 <? 0) (chars "%s: fork failed") [str s] ;;
  (if pid1 =? 0 then spin fuel else mret tt) ;;
  pid2 ← fork;
  failif (pid2 <? 0) (ln "%s: fork failed") [str s] ;;
  (if pid2 =? 0 then spin fuel else mret tt) ;;
  '(_, pfds) ← pipe;
  pid3 ← fork;
  failif (pid3 <? 0) (ln "%s: fork failed") [str s] ;;
  '(p0, p1) ← fds_of pfds;
  (if pid3 =? 0 then
     close p0 ;;
     r ← write p1 (chars "x");
     (if negb (r =? 1) then printf (chars "%s: preempt write error") [str s] else mret tt) ;;
     close p1 ;;
     spin fuel
   else mret tt) ;;
  close p1 ;;
  r ← read p0 BUFSZ;
  if negb (r_val r =? 1) then printf (chars "%s: preempt read error") [str s] else
  close p0 ;;
  printf (chars "kill... ") [] ;;
  kill pid1 ;;
  kill pid2 ;;
  kill pid3 ;;
  printf (chars "wait... ") [] ;;
  wait0 ;;
  wait0 ;;
  wait0 ;;
  mret tt.

Definition exitwait (s : list Z) : prog unit :=
  pfor_each (seqZ 0 100) (fun i =>
    pid ← fork;
    failif (pid <? 0) (ln "%s: fork failed") [str s] ;;
    if negb (pid =? 0) then
      '(r, xstate) ← wait None;
      failif (negb (r =? pid)) (ln "%s: wait wrong pid") [str s] ;;
      xstate ← value xstate;
      failif (negb (i =? xstate)) (ln "%s: wait wrong exit status") [str s]
    else exit i).

Definition reparent (s : list Z) : prog unit :=
  master_pid ← getpid;
  pfor_each (seq 0 200) (fun _ =>
    pid ← fork;
    failif (pid <? 0) (ln "%s: fork failed") [str s] ;;
    if negb (pid =? 0) then
      r ← wait0;
      failif (negb (r =? pid)) (ln "%s: wait wrong pid") [str s]
    else
      pid2 ← fork;
      (if pid2 <? 0 then kill master_pid ;; exit 1 else mret tt) ;;
      exit 0) ;;
  exit 0.

Definition twochildren (s : list Z) : prog unit :=
  pfor_each (seq 0 1000) (fun _ =>
    pid1 ← fork;
    failif (pid1 <? 0) (ln "%s: fork failed") [str s] ;;
    if pid1 =? 0 then exit 0
    else
      pid2 ← fork;
      failif (pid2 <? 0) (ln "%s: fork failed") [str s] ;;
      if pid2 =? 0 then exit 0 else wait0 ;; wait0 ;; mret tt).

Definition forkfork (s : list Z) : prog unit :=
  let N := 2%nat in
  pfor_each (seq 0 N) (fun _ =>
    pid ← fork;
    failif (pid <? 0) (chars "%s: fork failed") [str s] ;;
    if pid =? 0 then
      pfor_each (seq 0 200) (fun _ =>
        pid1 ← fork;
        (if pid1 <? 0 then exit 1 else mret tt) ;;
        (if pid1 =? 0 then exit 0 else mret tt) ;;
        wait0 ;;
        mret tt) ;;
      exit 0
    else mret tt) ;;
  pfold (seq 0 N) None (fun _ xstatus =>
    '(_, xstatus) ← wait xstatus;
    v ← value xstatus;
    failif (negb (v =? 0)) (chars "%s: fork in child failed") [str s] ;;
    mret xstatus) ;;
  mret tt.

Definition forkforkfork (fuel : nat) (s : list Z) : prog unit :=
  unlink "stopforking" ;;
  pid ← fork;
  failif (pid <? 0) (chars "%s: fork failed") [str s] ;;
  (if pid =? 0 then
     ploop fuel (fun _ : unit =>
       fd ← open "stopforking" 0;
       (if 0 <=? fd then exit 0 else mret tt) ;;
       r ← fork;
       (if r <? 0 then fd ← open "stopforking" (Z.lor O_CREATE O_RDWR); close fd else mret tt) ;;
       mret (inl tt : unit + unit)) tt ;;
     exit 0
   else mret tt) ;;
  sleep 20 ;;
  fd ← open "stopforking" (Z.lor O_CREATE O_RDWR);
  close fd ;;
  wait0 ;;
  sleep 10.

Definition reparent2 (s : list Z) : prog unit :=
  pfor_each (seq 0 800) (fun _ =>
    pid1 ← fork;
    failif (pid1 <? 0) (ln "fork failed") [] ;;
    (if pid1 =? 0 then fork ;; fork ;; exit 0 else mret tt) ;;
    wait0 ;;
    mret tt) ;;
  exit 0.

Definition forktest (s : list Z) : prog unit :=
  let N := 1000%nat in
  n ← ploop (S N) (fun n =>
    if (n <? N)%nat then
      pid ← fork;
      if pid <? 0 then mret (inr n) else
      if pid =? 0 then exit 0 else mret (inl (S n))
    else mret (inr n)) O;
  failif (n =? 0)%nat (ln "%s: no fork at all!") [str s] ;;
  failif (n =? N)%nat (ln "%s: fork claimed to work 1000 times!") [str s] ;;
  pfor_each (seq 0 n) (fun _ => r ← wait0; failif (r <? 0) (ln "%s: wait stopped early") [str s]) ;;
  r ← wait0;
  failif (negb (r =? -1)) (ln "%s: wait got too many") [str s].
