(* ===== verification/GrindGo.v ===== *)
(** * user/grind.c: the loop of random system calls

    Two processes make one of 23 groups of calls after the other, chosen by the
    generator of [Utest.Grind]. *)

From stdpp Require Import base list gmap strings.
From Stdlib Require Import ZArith Lia.
From S2P Require Import Prelude Mem KString Riscv State Fs Format Usys Ulib Utest Tests TestsFs.
Open Scope Z_scope.

(** What lives from one turn to the next: [fd], the static [buf], [rand_next] and [iters]. *)
Record grind := mk_grind { g_fd : Z; g_buf : list Z; g_rand : Z; g_iters : Z }.
Definition set_fd (fd : Z) (g : grind) : grind := mk_grind fd (g_buf g) (g_rand g) (g_iters g).
Definition set_buf (buf : list Z) (g : grind) : grind := mk_grind (g_fd g) buf (g_rand g) (g_iters g).

(** [close(open(path, O_CREATE|O_RDWR))] *)
Definition touch (path : string) : prog unit := fd ← open path (Z.lor O_CREATE O_RDWR); close fd.
(** [pid = fork()]: the child does [child] and exits, the parent goes on with its pid. *)
Definition fork_child (child : prog unit) : prog Z :=
  pid ← fork;
  if pid =? 0 then child ;; exit 0
  else failif (pid <? 0) (ln "grind: fork failed") [] ;; mret pid.

(** [what == 17] *)
Definition go_kill : prog unit :=
  pid ← fork_child (touch "a");
  r ← chdir "../grindir/..";
  failif (negb (r =? 0)) (ln "grind: chdir failed") [] ;;
  kill pid ;;
  wait0 ;;
  mret tt.

(** [what == 19] *)
Definition go_pipe : prog unit :=
  '(r, fds) ← pipe;
  failif (r <? 0) (ln "grind: pipe failed") [] ;;
  '(fd0, fd1) ← fds_of fds;
  fork_child (
    fork ;;
    fork ;;
    r ← write fd1 (chars "x");
    (if negb (r =? 1) then printf (ln "grind: pipe write failed") [] else mret tt) ;;
    r ← read fd0 1;
    if negb (r_val r =? 1) then printf (ln "grind: pipe read failed") [] else mret tt) ;;
  close fd0 ;;
  close fd1 ;;
  wait0 ;;
  mret tt.

(** [what == 20] *)
Definition go_cwd : prog unit :=
  fork_child (
    unlink "a" ;;
    mkdir "a" ;;
    chdir "a" ;;
    unlink "../a" ;;
    open "x" (Z.lor O_CREATE O_RDWR) ;;
    unlink "x" ;;
    mret tt) ;;
  wait0 ;;
  mret tt.

(** [what == 21] *)
Definition go_stat : prog unit :=
  unlink "c" ;;
  fd1 ← open "c" (Z.lor O_CREATE O_RDWR);
  failif (fd1 <? 0) (ln "grind: create c failed") [] ;;
  r ← write fd1 (chars "x");
  failif (negb (r =? 1)) (ln "grind: write c failed") [] ;;
  r ← sys (CFstat fd1);
  failif (negb (r_val r =? 0)) (ln "grind: fstat failed") [] ;;
  match r_nums r with
  | [dev; ino; type; nlink; size] =>
      failif (negb (size =? 1)) (ln "grind: fstat reports wrong size %d") [ANum (s32 size)] ;;
      failif (200 <? ino) (ln "grind: fstat reports crazy i-number %d") [ANum ino] ;;
      close fd1 ;;
      unlink "c" ;;
      mret tt
  | _ => PFault
  end.

(** [if(dup(fd) != want){ ...; exit(code); }] *)
Definition dup_to (fd want code : Z) : prog unit :=
  r ← sysv (CDup fd);
  if negb (r =? want) then Ulib.fprintf 2 (ln "grind: dup failed") [] ;; exit code else mret tt.
(** One byte into [buf[i]]. *)
Definition read_byte (fd : Z) (i : nat) (buf : list Z) : prog (list Z) :=
  r ← read fd 1; mret (if 0 <? r_val r then <[i := hd0 (r_bytes r)]> buf else buf).

(** [what == 22]: echo hi | cat *)
Definition go_pipeline : prog unit :=
  let quit msg code := Ulib.fprintf 2 (ln msg) [] ;; exit code : prog unit in
  '(r, aa) ← pipe;
  (if r <? 0 then quit "grind: pipe failed"%string 1 else mret tt) ;;
  '(r, bb) ← pipe;
  (if r <? 0 then quit "grind: pipe failed"%string 1 else mret tt) ;;
  '(aa0, aa1) ← fds_of aa;
  '(bb0, bb1) ← fds_of bb;
  pid1 ← fork;
  (if pid1 =? 0 then
     close bb0 ;;
     close bb1 ;;
     close aa0 ;;
     close 1 ;;
     dup_to aa1 1 1 ;;
     close aa1 ;;
     sysv (CExec (chars "grindir/../echo") [chars "echo"; chars "hi"]) ;;
     quit "grind: echo: not found"%string 2
   else if pid1 <? 0 then quit "grind: fork failed"%string 3 else mret tt) ;;
  pid2 ← fork;
  (if pid2 =? 0 then
     close aa1 ;;
     close bb0 ;;
     close 0 ;;
     dup_to aa0 0 4 ;;
     close aa0 ;;
     close 1 ;;
     dup_to bb1 1 5 ;;
     close bb1 ;;
     sysv (CExec (chars "/cat") [chars "cat"]) ;;
     quit "grind: cat: not found"%string 6
   else if pid2 <? 0 then quit "grind: fork failed"%string 7 else mret tt) ;;
  close aa0 ;;
  close aa1 ;;
  close bb1 ;;
  buf ← read_byte bb0 0 [0; 0; 0; 0];
  buf ← read_byte bb0 1 buf;
  buf ← read_byte bb0 2 buf;
  close bb0 ;;
  '(_, st1) ← wait None;
  '(_, st2) ← wait None;
  st1 ← value st1;
  st2 ← value st2;
  failif (negb (st1 =? 0) || negb (st2 =? 0) || negb (Ulib.strcmp buf (ln "hi" ++ [0]) =? 0))
    (chars "grind: exec pipeline failed %d %d " ++ [34] ++ chars "%s" ++ [34; 10]) [ANum st1; ANum st2; str (Ulib.strcpy buf)].

(** The calls of turn [what], an int; nothing for 0. *)
Definition go_what (break0 what : Z) (g : grind) : prog grind :=
  let rw := Z.lor O_CREATE O_RDWR in
  let keep (p : prog unit) := p ;; mret g in
  match what with
  | 1 => keep (touch "grindir/../a")
  | 2 => keep (touch "grindir/../grindir/../b")
  | 3 => keep (unlink "grindir/../a" ;; mret tt)
  | 4 => keep (
      r ← chdir "grindir";
      failif (negb (r =? 0)) (ln "grind: chdir grindir failed") [] ;;
      unlink "../b" ;;
      chdir "/" ;;
      mret tt)
  | 5 => close (g_fd g) ;; fd ← open "/grindir/../a" rw; mret (set_fd fd g)
  | 6 => close (g_fd g) ;; fd ← open "/./grindir/./../b" rw; mret (set_fd fd g)
  | 7 => keep (write (g_fd g) (g_buf g) ;; mret tt)
  | 8 => r ← read (g_fd g) 999; mret (set_buf (overwrite r (g_buf g)) g)
  | 9 => keep (mkdir "grindir/../a" ;; touch "a/../a/./a" ;; unlink "a/a" ;; mret tt)
  | 10 => keep (mkdir "/../b" ;; touch "grindir/../b/b" ;; unlink "b/b" ;; mret tt)
  | 11 => keep (unlink "b" ;; link "../grindir/./../a" "../b" ;; mret tt)
  | 12 => keep (unlink "../grindir/../a" ;; link ".././b" "/grindir/../a" ;; mret tt)
  | 13 => keep (fork_child (mret tt) ;; wait0 ;; mret tt)
  | 14 => keep (fork_child (fork ;; fork ;; mret tt) ;; wait0 ;; mret tt)
  | 15 => keep (sbrk 6011 ;; mret tt)
  | 16 => keep (
      top ← sbrk 0;
      if break0 <? top then top ← sbrk 0; sbrk (- (top - break0)) ;; mret tt else mret tt)
  | 17 => keep go_kill
  | 18 => keep (fork_child (pid ← getpid; kill pid) ;; wait0 ;; mret tt)
  | 19 => keep go_pipe
  | 20 => keep go_cwd
  | 21 => keep go_stat
  | 22 => keep go_pipeline
  | _ => mret g
  end.

(** One turn of [while(1)]. *)
Definition go_step (which_child break0 : Z) (g : grind) : prog (grind + unit) :=
  let iters := u64 (g_iters g + 1) in
  (if iters mod 500 =? 0 then write 1 (if which_child =? 0 then chars "A" else chars "B") ;; mret tt else mret tt) ;;
  let '(next, r) := Grind.rand (g_rand g) in
  g ← go_what break0 (Z.rem r 23) (mk_grind (g_fd g) (g_buf g) next iters);
  mret (inl g).

Definition go (fuel : nat) (rand_next which_child : Z) : prog unit :=
  break0 ← sbrk 0;
  mkdir "grindir" ;;
  r ← chdir "grindir";
  failif (negb (r =? 0)) (ln "grind: chdir grindir failed") [] ;;
  chdir "/" ;;
  ploop fuel (go_step which_child break0) (mk_grind (-1) (replicate 999 0) rand_next 0).

Definition iter (fuel : nat) (rand_next : Z) : prog unit :=
  unlink "a" ;;
  unlink "b" ;;
  pid1 ← fork;
  failif (pid1 <? 0) (ln "grind: fork failed") [] ;;
  (if pid1 =? 0 then go fuel (Z.lxor rand_next 31) 0 ;; exit 0 else mret tt) ;;
  pid2 ← fork;
  failif (pid2 <? 0) (ln "grind: fork failed") [] ;;
  (if pid2 =? 0 then go fuel (Z.lxor rand_next 7177) 1 ;; exit 0 else mret tt) ;;
  '(_, st1) ← wait (Some (-1));
  st1 ← value st1;
  (if negb (st1 =? 0) then kill pid1 ;; kill pid2 else mret tt) ;;
  wait (Some (-1)) ;;
  exit 0.

(** [main] starts with [rand_next] 1. *)
Definition grind_main (fuel : nat) : prog unit :=
  ploop fuel (fun rand_next =>
    pid ← fork;
    (if pid =? 0 then iter fuel rand_next ;; exit 0 else mret tt) ;;
    (if 0 <? pid then wait0 ;; mret tt else mret tt) ;;
    sleep 20 ;;
    mret (inl (u64 (rand_next + 1)))) 1.
