(* ===== verification/Pgtbltest.v ===== *)
(** * user/pgtbltest.c

    The program that tests the page-table system calls, and that it cannot pass on
    a kernel that, as this one does, gives every user page a frame of its own. *)

From stdpp Require Import base list gmap strings.
From Stdlib Require Import ZArith Lia.
From S2P Require Import Prelude Mem KString Riscv State Kalloc Vm PtRep Uvm Uspace Format Usys Ulib Tests.
Open Scope Z_scope.

Module Pgtbltest.

Definition N : Z := 8 * 2 ^ 20.
Definition SUPERPGSIZE : Z := 2 * 2 ^ 20.
Definition SUPERPGROUNDUP (sz : Z) : Z := Z.land (u64 (sz + SUPERPGSIZE - 1)) (u64 (Z.lnot (SUPERPGSIZE - 1))).

(** [testname] is the test that runs. *)
Definition err (testname why : list Z) : prog unit :=
  pid ← getpid;
  printf (ln "pgtbltest: %s failed: %s, pid=%d") [str testname; str why; ANum pid] ;;
  exit 1.

(** The mask is what the kernel stores; a call that succeeds stores it. *)
Definition pgaccess_test : prog unit :=
  let start_va := 0x400000 in let numpages := 10 in
  printf (ln "pgaccess() test" ++ [10]) [] ;;
  printf (ln "va: %lu") [ANum start_va] ;;
  printf (ln "num of pages: %d") [ANum numpages] ;;
  r ← sys (CPgaccess start_va numpages);
  failif (r_val r <? 0) (ln "pgaccess failed!") [] ;;
  match r_nums r with
  | [mask] =>
      printf (ln "Accessed bitmask: 0x%lx") [ANum mask] ;;
      printf (ln "pgaccess(): OK") []
  | _ => PFault
  end.

(** [(pte_t) pgpte(va)] *)
Definition pgpte (va : Z) : prog Z := v ← sysv (CPgpte va); mret (u64 v).

Definition print_pte (va : Z) : prog unit :=
  pte ← pgpte va;
  printf (ln "va 0x%lx pte 0x%lx pa 0x%lx perm 0x%lx") [ANum va; ANum pte; ANum (PTE2PA pte); ANum (PTE_FLAGS pte)].

Definition print_pgtbl : prog unit :=
  printf (ln "print_pgtbl starting") [] ;;
  pfor_each (seqZ 0 10) (fun i => print_pte (i * PGSIZE)) ;;
  let top := MAXVA / PGSIZE in
  pfor_each (seqZ (top - 10) 10) (fun i => print_pte (i * PGSIZE)) ;;
  printf (ln "print_pgtbl: OK") [].

(** An [int] in the program's memory. *)
Definition load_int (addr : Z) : prog Z :=
  b0 ← load addr; b1 ← load (addr + 1); b2 ← load (addr + 2); b3 ← load (addr + 3);
  mret (s32 (le_val [b0; b1; b2; b3])).
Definition store_int (addr v : Z) : prog unit :=
  pfor_each (seqZ 0 4) (fun i => store (addr + i) (u8 (Z.shiftr v (8 * i)))).

(** [ulib.c]: the [pid] of the [struct usyscall] at USYSCALL. *)
Definition ugetpid : prog Z := load_int Ulib.USYSCALL.

Definition ugetpid_test : prog unit :=
  printf (ln "ugetpid_test starting") [] ;;
  pfor_each (seq 0 64) (fun _ =>
    ret ← fork;
    if negb (ret =? 0) then
      '(_, ret) ← wait (Some ret);
      ret ← value ret;
      if negb (ret =? 0) then exit 1 else mret tt
    else
      pid ← getpid;
      upid ← ugetpid;
      (if negb (pid =? upid) then err (chars "ugetpid_test") (chars "missmatched PID") else mret tt) ;;
      exit 0) ;;
  printf (ln "ugetpid_test: OK") [].

Definition print_kpgtbl : prog unit :=
  printf (ln "print_kpgtbl starting") [] ;;
  sys CKpgtbl ;;
  printf (ln "print_kpgtbl: OK") [].

(** One page of [supercheck]: what its PTE is, [last_pte] the one before. *)
Definition check_pte (testname : list Z) (p last_pte : Z) : prog Z :=
  pte ← pgpte p;
  (if pte =? 0 then err testname (chars "no pte") else mret tt) ;;
  (if negb (last_pte =? 0) && negb (pte =? last_pte) then err testname (chars "pte different") else mret tt) ;;
  (if (Z.land pte PTE_V =? 0) || (Z.land pte PTE_R =? 0) || (Z.land pte PTE_W =? 0) then err testname (chars "pte wrong") else mret tt) ;;
  mret pte.

(** [for(int i = 0; i < 512; i += PGSIZE)]: its only value is 0. *)
Definition steps : list Z := filter (fun i => i < 512) ((fun k => k * PGSIZE) <$> seqZ 0 512).

Definition supercheck (testname : list Z) (s : Z) : prog unit :=
  pfold ((fun k => u64 (s + k * PGSIZE)) <$> seqZ 0 512) 0 (check_pte testname) ;;
  pfor_each steps (fun i => store_int (s + i) i) ;;
  pfor_each steps (fun i =>
    v ← load_int (s + i);
    if negb (v =? i) then err testname (chars "wrong value") else mret tt).

Definition superpg_test : prog unit :=
  printf (ln "superpg_test starting") [] ;;
  let testname := chars "superpg_test" in
  end_ ← sbrk N;
  (if (end_ =? 0) || (end_ =? 0xffffffffffffffff) then err testname (chars "sbrk failed") else mret tt) ;;
  let s := SUPERPGROUNDUP end_ in
  supercheck testname s ;;
  pid ← fork;
  (if pid <? 0 then err testname (chars "fork")
   else if pid =? 0 then supercheck testname s ;; exit 0
   else
     '(_, status) ← wait None;
     status ← value status;
     if negb (status =? 0) then exit 0 else mret tt) ;;
  printf (ln "superpg_test: OK") [].

Definition main : prog unit :=
  print_pgtbl ;;
  pgaccess_test ;;
  superpg_test ;;
  printf (ln "pgtbltest lap: all tests succeeded") [] ;;
  exit 0.

(** ** The kernel's page tables *)

(** Two user pages of a process have different PTEs, in the 32 bits [sys_pgpte] returns too. *)
Lemma user_ptes_differ {L : Layout} `{!LayoutOk L} s root A va va' :
  as_ok s root A -> 0 <= va < TRAPFRAME -> 0 <= va' < TRAPFRAME -> va mod PGSIZE = 0 -> va' mod PGSIZE = 0 -> va <> va' ->
  has (pte_at (k_mem s) (a_tree A) va) PTE_V = true -> has (pte_at (k_mem s) (a_tree A) va') PTE_V = true ->
  s32 (pte_at (k_mem s) (a_tree A) va) <> s32 (pte_at (k_mem s) (a_tree A) va').
Proof.
  intros Hok Hva Hva' Ha Ha' Hne V V'. pose proof (as_pte _ _ _ Hok va Hva Ha) as Hp. pose proof (as_pte _ _ _ Hok va' Hva' Ha') as Hp'.
  destruct (a_um A !! va) as [[pa f]|] eqn:E; [|congruence]. destruct (a_um A !! va') as [[pa' f']|] eqn:E'; [|congruence].
  destruct (as_dom _ _ _ Hok _ _ _ E) as (_ & _ & Hf & _), (as_dom _ _ _ Hok _ _ _ E') as (_ & _ & Hf' & _).
  destruct (as_slot _ _ _ _ _ _ Hok E) as (_ & _ & _ & _ & Hpa), (as_slot _ _ _ _ _ _ Hok E') as (_ & _ & _ & _ & Hpa').
  assert (pa <> pa').
  { intros ->. pose proof (as_nodup _ _ _ Hok) as Hnd. unfold a_pages in Hnd. apply NoDup_app in Hnd as (_ & _ & Hnd). apply NoDup_app in Hnd as (_ & _ & Hnd).
    apply NoDup_app in Hnd as (_ & _ & Hnd). rewrite (um_pages_delete _ _ _ _ E) in Hnd. apply NoDup_cons in Hnd as [Hn _].
    apply Hn, elem_um_pages. exists va', f'. by rewrite lookup_delete_ne. }
  destruct (page_ok_56 _ Hpa) as [B M], (page_ok_56 _ Hpa') as [B' M']. destruct Hpa as [_ [_ Hr]], Hpa' as [_ [_ Hr']].
  rewrite Hp, Hp', !pte_eq by done. unfold PHYSTOP, KERNBASE, PGSIZE in *. rewrite !s32_small by vdivlia. vdivlia.
Qed.

(** ** The test on such a kernel *)

(** What the calls promise: [pgpte] the PTE of the page, which no other user page has; [sbrk] the old size of a memory that
    stays below the trap frame, or an error; [pgaccess] stores the mask unless it fails. *)
Class Pages `{Stdio} := {
  pte : World -> Z -> Z;
  pte_range : forall w va, 0 <= pte w va < 2 ^ 31;
  pgpte_ok : forall w va, kcall (CPgpte va) w = (val (pte w va), w);
  own_frames : forall w va va', 0 <= va < TRAPFRAME -> 0 <= va' < TRAPFRAME -> va mod PGSIZE = 0 -> va' mod PGSIZE = 0 -> va <> va' ->
    has (pte w va) PTE_V = true -> has (pte w va') PTE_V = true -> pte w va <> pte w va';
  sbrk_ok : forall w n, 0 < n -> exists v w', kcall (CSbrk n) w = (val v, w') /\ (v = -1 \/ 0 <= v /\ v + n <= TRAPFRAME);
  pgaccess_ok : forall w va n r w', kcall (CPgaccess va n) w = (r, w') -> r_val r < 0 \/ exists mask, r_nums r = [mask]
}.

Section Test.
Context `{Pages}.

(** A program that exits with status 1, or returns a value as [P] says. *)
Definition fails_or {A} (p : prog A) (w : World) (P : A -> World -> Prop) : Prop :=
  exists w', run p w = (Exited 1, w') \/ exists a, run p w = (Val a, w') /\ P a w'.

Lemma fails_or_ret {A} (a : A) w (P : A -> World -> Prop) : P a w -> fails_or (mret a) w P.
Proof. intros HP. exists w. right. by exists a. Qed.

Lemma fails_or_bind {A B} (p : prog A) (f : A -> prog B) w Q P :
  fails_or p w Q -> (forall a w', Q a w' -> fails_or (f a) w' P) -> fails_or (mbind f p) w P.
Proof.
  intros (w1 & [R | (a & R & HQ)]) Hf.
  - exists w1. left. by apply run_bind_exit.
  - destruct (Hf a w1 HQ) as (w2 & HR). exists w2. by rewrite (run_bind _ _ _ _ _ R).
Qed.

Lemma fails_or_printf fmt args w : args_ok (S (length fmt)) false fmt args = true -> fails_or (printf fmt args) w (fun _ _ => True).
Proof.
  intros Ha. destruct (vprintf_total _ _ _ _ Ha) as [out E]. destruct (Ulib.run_fprintf 1 fmt args out w E) as (w' & R & _). exists w'. right. by exists tt.
Qed.

Lemma fails_or_exit {A} w (P : A -> World -> Prop) : fails_or (exit 1) w P.
Proof. exists w. by left. Qed.

Lemma fails_or_err testname why w P : fails_or (err testname why) w P.
Proof.
  unfold err. destruct (kcall CGetpid w) as [r w1] eqn:E. eapply (fails_or_bind _ _ _ (fun _ _ => True)).
  - exists w1. right. exists (r_val r). split; [by apply run_sysv|done].
  - intros pid w2 _. eapply fails_or_bind; [by apply fails_or_printf|]. intros. apply fails_or_exit.
Qed.

Lemma fails_or_failif b fmt args w : args_ok (S (length fmt)) false fmt args = true -> fails_or (failif b fmt args) w (fun _ w' => b = false).
Proof.
  intros Ha. unfold failif. destruct b; [|by apply fails_or_ret]. eapply fails_or_bind; [by apply fails_or_printf|]. intros. apply fails_or_exit.
Qed.

Lemma fails_or_check (b : bool) testname why w : fails_or (if b then err testname why else mret tt) w (fun _ w' => b = false /\ w' = w).
Proof. destruct b; [apply fails_or_err|by apply fails_or_ret]. Qed.

Lemma fails_or_for {A} (l : list A) body w : (forall x w, fails_or (body x) w (fun _ _ => True)) -> fails_or (pfor_each l body) w (fun _ _ => True).
Proof.
  intros Hb. revert w. induction l as [|x l IH]; intros w; cbn [pfor_each]; [by apply fails_or_ret|]. eapply fails_or_bind; [apply Hb|]. intros. apply IH.
Qed.

Lemma run_pgpte va w : run (pgpte va) w = (Val (pte w va), w).
Proof. unfold pgpte. pstep_by (run_sysv _ _ _ _ (pgpte_ok w va)). cbn [val r_val]. pose proof (pte_range w va). by rewrite u64_small by lia. Qed.

Lemma fails_or_pgpte va w : fails_or (pgpte va) w (fun v w' => v = pte w va /\ w' = w).
Proof. exists w. right. exists (pte w va). by rewrite run_pgpte. Qed.

(** A page that passes has a valid PTE, the same as the page before it if there is one. *)
Lemma check_pte_fails testname p last_pte w :
  fails_or (check_pte testname p last_pte) w (fun v w' => w' = w /\ v = pte w p /\ v <> 0 /\ has v PTE_V = true /\ (last_pte <> 0 -> v = last_pte)).
Proof.
  unfold check_pte. eapply fails_or_bind; [apply fails_or_pgpte|]. intros v w1 [-> ->].
  eapply fails_or_bind; [apply fails_or_check|]. intros _ w2 [E1 ->].
  eapply fails_or_bind; [apply fails_or_check|]. intros _ w3 [E2 ->].
  eapply fails_or_bind; [apply fails_or_check|]. intros _ w4 [E3 ->]. apply fails_or_ret.
  apply orb_false_iff in E3 as [E3 _]. apply orb_false_iff in E3 as [E3 _]. apply Z.eqb_neq in E1.
  split_and!; [done|done|done|unfold has; by rewrite E3|]. intros Hl. apply (proj2 (Z.eqb_neq _ _)) in Hl. rewrite Hl in E2. by apply negb_false_iff, Z.eqb_eq in E2.
Qed.

Lemma supercheck_fails testname s w P : 0 <= s -> s + 2 * PGSIZE <= TRAPFRAME -> s mod PGSIZE = 0 -> fails_or (supercheck testname s) w P.
Proof.
  intros Hs Ht Ha. unfold supercheck. eapply (fails_or_bind _ _ _ (fun _ _ => False)); [|done].
  rewrite (seqZ_cons 0 512), (seqZ_cons _ (Z.pred 512)) by lia. cbn [fmap list_fmap pfold].
  rewrite (u64_small (s + 0 * PGSIZE)), (u64_small (s + Z.succ 0 * PGSIZE)) by vlia.
  eapply fails_or_bind; [apply check_pte_fails|]. intros v w1 (-> & -> & N1 & V1 & _).
  eapply fails_or_bind; [apply check_pte_fails|]. intros v w2 (-> & -> & N2 & V2 & E). exfalso.
  refine (own_frames w _ _ _ _ _ _ _ V1 V2 (eq_sym (E N1))); vdivlia.
Qed.

Lemma superpg_bounds e : 0 <= e -> e + N <= TRAPFRAME -> let s := SUPERPGROUNDUP e in 0 <= s /\ s + 2 * PGSIZE <= TRAPFRAME /\ s mod PGSIZE = 0.
Proof.
  intros He Ht. cbv zeta. unfold SUPERPGROUNDUP, SUPERPGSIZE, N in *. rewrite u64_small by vlia.
  replace (u64 (Z.lnot (2 * 2 ^ 20 - 1))) with (Z.ldiff (Z.ones 64) (Z.ones 21)) by reflexivity.
  assert (E : Z.land (e + 2 * 2 ^ 20 - 1) (Z.ldiff (Z.ones 64) (Z.ones 21)) = (e + 2097151) / 2097152 * 2097152).
  { replace (e + 2 * 2 ^ 20 - 1) with (e + 2097151) by lia. rewrite Z.ldiff_land, Z.land_assoc, Z.land_ones, Z.mod_small by vlia.
    change (Z.ones 21) with (2 ^ 21 - 1). by rewrite land_mask_down by lia. }
  rewrite E. vdivlia.
Qed.

Lemma superpg_fails w P : fails_or superpg_test w P.
Proof.
  unfold superpg_test. eapply fails_or_bind; [by apply fails_or_printf|]. intros _ w1 _.
  eapply (fails_or_bind _ _ _ (fun e _ => e = 0xffffffffffffffff \/ 0 <= e /\ e + N <= TRAPFRAME)).
  { destruct (sbrk_ok w1 N ltac:(unfold N; lia)) as (v & w2 & R & Hv). exists w2. right. exists (u64 v). split.
    - unfold sbrk. change (s32 N) with N. by pstep_by (run_sysv _ _ _ _ R).
    - destruct Hv as [-> | Hv]; [by left|]. right. rewrite u64_small; [done|unfold N in Hv; vlia]. }
  intros e w2 He. eapply fails_or_bind; [apply fails_or_check|]. intros _ w3 [E ->]. apply orb_false_iff in E as [_ E]. apply Z.eqb_neq in E.
  destruct He as [?|[He1 He2]]; [done|]. destruct (superpg_bounds e He1 He2) as (B1 & B2 & B3).
  eapply (fails_or_bind _ _ _ (fun _ _ => False)); [by apply supercheck_fails|done].
Qed.

Lemma print_pte_runs va w : fails_or (print_pte va) w (fun _ _ => True).
Proof. unfold print_pte. eapply fails_or_bind; [apply fails_or_pgpte|]. intros v w1 _. by apply fails_or_printf. Qed.

Lemma print_pgtbl_runs w : fails_or print_pgtbl w (fun _ _ => True).
Proof.
  unfold print_pgtbl. eapply fails_or_bind; [by apply fails_or_printf|]. intros _ w1 _.
  eapply fails_or_bind; [apply fails_or_for; intros; apply print_pte_runs|]. intros _ w2 _.
  eapply fails_or_bind; [apply fails_or_for; intros; apply print_pte_runs|]. intros _ w3 _. by apply fails_or_printf.
Qed.

Lemma pgaccess_runs w : fails_or pgaccess_test w (fun _ _ => True).
Proof.
  unfold pgaccess_test. do 3 (eapply fails_or_bind; [by apply fails_or_printf|]; intros _ ? _).
  match goal with |- fails_or _ ?w3 _ => destruct (kcall (CPgaccess 0x400000 10) w3) as [r w4] eqn:R end.
  eapply (fails_or_bind _ _ _ (fun r' _ => r' = r)); [exists w4; right; exists r; split; [by apply run_sys|done]|]. intros ? w5 ->.
  eapply fails_or_bind; [by apply fails_or_failif|]. intros ? w6 E. apply Z.ltb_ge in E.
  destruct (pgaccess_ok _ _ _ _ _ R) as [?|[mask Em]]; [lia|]. rewrite Em. eapply fails_or_bind; [by apply fails_or_printf|]. intros _ w7 _. by apply fails_or_printf.
Qed.

(** C40: pgtbltest cannot pass on a kernel in which every user page has a PTE of its own, as it has in this kernel ([user_ptes_differ]):
    [supercheck] asks for 512 pages with one PTE, a superpage, so on every run, whatever [sbrk] and [pgaccess] return, the program
    ends with status 1 and never says that all tests succeeded. *)
Theorem pgtbltest_fails w : exists w', run main w = (Exited 1, w').
Proof.
  assert (Hf : fails_or main w (fun _ _ => False)).
  { unfold main. eapply fails_or_bind; [apply print_pgtbl_runs|]. intros _ w1 _. eapply fails_or_bind; [apply pgaccess_runs|]. intros _ w2 _.
    eapply (fails_or_bind _ _ _ (fun _ _ => False)); [apply superpg_fails|done]. }
  destruct Hf as (w' & [R|(? & _ & [])]). by exists w'.
Qed.

End Test.

(** A kernel with a page table that maps page [k] to frame [k + 1], and a break. *)
Definition own_pte (va : Z) : Z := if (0 <=? va) && (va <? 2 ^ 32) then (va / PGSIZE + 1) * 2 ^ 10 + 23 else 0.
Record paged := mk_paged { pg_tape : tape; pg_break : Z }.
Definition paged_call (c : call) (w : paged) : reply * paged :=
  match c with
  | CPgpte va => (val (own_pte va), w)
  | CSbrk n =>
      let b := Z.max 0 (pg_break w) in
      if b + n <=? TRAPFRAME then (val b, mk_paged (pg_tape w) (b + n)) else (val (-1), w)
  | CPgaccess _ _ => (mk_reply 0 [] [5], w)
  | c => let (r, t) := tape_call c (pg_tape w) in (r, mk_paged t (pg_break w))
  end.
Instance paged_kernel : Kernel := { World := paged; kcall := paged_call }.

Instance paged_stdio : Stdio (H := paged_kernel) :=
  stdio_of (K := paged_kernel) pg_tape (fun w t => mk_paged t (pg_break w)) (fun _ _ => eq_refl) (fun _ _ _ => eq_refl) (fun _ _ _ => eq_refl).

#[refine] Instance paged_pages : Pages (H := paged_kernel) := { pte w va := own_pte va }.
Proof.
  - intros w va. unfold own_pte. destruct (Z.leb_spec 0 va), (Z.ltb_spec va (2 ^ 32)); cbn [andb]; vdivlia.
  - done.
  - intros w va va' _ _ Ha Ha' Hne V V' E. revert V V' E. unfold own_pte.
    destruct (Z.leb_spec 0 va), (Z.ltb_spec va (2 ^ 32)); cbn [andb]; [|done..].
    destruct (Z.leb_spec 0 va'), (Z.ltb_spec va' (2 ^ 32)); cbn [andb]; [|done..]. intros _ _ E. vdivlia.
  - intros w n Hn. cbn [kcall paged_kernel paged_call]. set (b := Z.max 0 (pg_break w)). destruct (Z.leb_spec (b + n) TRAPFRAME); eexists _, _; (split; [reflexivity|]); lia.
  - intros w va n r w' E. cbn in E. simplify_eq. right. by exists 5.
Defined.

Lemma pgtbltest_fails_witness : exists w', run (H := paged_kernel) main (mk_paged (mk_tape ∅ ∅ 0) 0) = (Exited 1, w').
Proof. exact (@pgtbltest_fails paged_kernel paged_stdio paged_pages (mk_paged (mk_tape ∅ ∅ 0) 0)). Defined.
End Pgtbltest.
