(* ===== verification/Usertests.v ===== *)
(** * user/usertests.c: the driver

    The two tables of tests, and the code that runs each test in a process of its
    own and counts the free pages before and after. *)

From stdpp Require Import base list gmap strings.
From Stdlib Require Import ZArith Lia.
From S2P Require Import Prelude Mem KString Riscv State Fs Format Usys Ulib Umalloc Tests TestsFs TestsProc.
Open Scope Z_scope.

Module Usertests.

(** [struct test] *)
Record test := mk_test { t_f : list Z -> prog unit; t_s : list Z }.

Section Tables.
Context {U : Uninit}.
(** The bound of the endless loops; where [malloc] keeps its header, and its heap; a stack pointer; the address of an array. *)
Variable fuel : nat.
Variable base : Z.
Variable heap : Umalloc.heap.
Variable sp : Z.
Variable uninit_array : Z.

(** The entry with no name that ends the table is the end of the list. *)
Definition quicktests : list test := (fun '(f, s) => mk_test f (chars s)) <$>
  [(copyin, "copyin"%string); (copyout, "copyout"%string); (copyinstr1, "copyinstr1"%string); (copyinstr2, "copyinstr2"%string);
   (copyinstr3 fuel, "copyinstr3"%string); (rwsbrk, "rwsbrk"%string); (truncate1, "truncate1"%string); (truncate2, "truncate2"%string);
   (truncate3, "truncate3"%string); (openiputtest, "openiput"%string); (exitiputtest, "exitiput"%string); (iputtest, "iput"%string);
   (opentest, "opentest"%string); (writetest, "writetest"%string); (writebig fuel, "writebig"%string); (createtest, "createtest"%string);
   (dirtest, "dirtest"%string); (exectest, "exectest"%string); (pipe1 fuel, "pipe1"%string); (killstatus fuel, "killstatus"%string);
   (preempt fuel, "preempt"%string); (exitwait, "exitwait"%string); (reparent, "reparent"%string); (twochildren, "twochildren"%string);
   (forkfork, "forkfork"%string); (forkforkfork fuel, "forkforkfork"%string); (reparent2, "reparent2"%string); (mem fuel base heap, "mem"%string);
   (sharedfd fuel, "sharedfd"%string); (fourfiles fuel, "fourfiles"%string); (createdelete, "createdelete"%string); (unlinkread, "unlinkread"%string);
   (linktest, "linktest"%string); (concreate fuel, "concreate"%string); (linkunlink, "linkunlink"%string); (subdir, "subdir"%string);
   (bigwrite, "bigwrite"%string); (bigfile fuel, "bigfile"%string); (fourteen, "fourteen"%string); (rmdot, "rmdot"%string);
   (dirfile, "dirfile"%string); (iref, "iref"%string); (forktest, "forktest"%string); (sbrkbasic, "sbrkbasic"%string);
   (sbrkmuch, "sbrkmuch"%string); (kernmem, "kernmem"%string); (MAXVAplus, "MAXVAplus"%string); (sbrkfail fuel, "sbrkfail"%string);
   (sbrkarg, "sbrkarg"%string); (validatetest, "validatetest"%string); (bsstest uninit_array, "bsstest"%string); (bigargtest, "bigargtest"%string);
   (argptest, "argptest"%string); (stacktest sp, "stacktest"%string); (nowrite, "nowrite"%string); (pgbug, "pgbug"%string);
   (sbrkbugs, "sbrkbugs"%string); (sbrklast, "sbrklast"%string); (sbrk8000, "sbrk8000"%string); (badarg, "badarg"%string)].

Definition slowtests : list test := (fun '(f, s) => mk_test f (chars s)) <$>
  [(bigdir, "bigdir"%string); (manywrites, "manywrites"%string); (badwrite, "badwrite"%string); (execout fuel, "execout"%string);
   (diskfull, "diskfull"%string); (outofinodes, "outofinodes"%string)].

Definition run (f : list Z -> prog unit) (s : list Z) : prog bool :=
  printf (chars "test %s: ") [str s] ;;
  pid ← fork;
  failif (pid <? 0) (ln "runtest: fork error") [] ;;
  if pid =? 0 then f s ;; exit 0
  else
    '(_, xstatus) ← wait None;
    xstatus ← value xstatus;
    (if negb (xstatus =? 0) then printf (ln "FAILED") [] else printf (ln "OK") []) ;;
    mret (xstatus =? 0).

(** [(justone == 0) || strcmp(t->s, justone) == 0] *)
Definition selected (justone : option (list Z)) (t : test) : bool :=
  match justone with None => true | Some j => Ulib.strcmp (t_s t) j =? 0 end.

Fixpoint runtests (tests : list test) (justone : option (list Z)) (continuous : Z) : prog Z :=
  match tests with
  | [] => mret 0
  | t :: tests =>
      if selected justone t then
        ok ← run (t_f t) (t_s t);
        if negb ok && negb (continuous =? 2) then printf (ln "SOME TESTS FAILED") [] ;; mret 1
        else runtests tests justone continuous
      else runtests tests justone continuous
  end.

(** One page of the child: an 'x' for it, or the end. *)
Definition countfree_page (fd1 : Z) (_ : unit) : prog (unit + unit) :=
  a ← sbrk 4096;
  if a =? 0xffffffffffffffff then mret (inr tt) else
  store (a + 4096 - 1) 1 ;;
  r ← write fd1 (chars "x");
  failif (negb (r =? 1)) (ln "write() failed in countfree()") [] ;;
  mret (inl tt).
Definition countfree_child (fd0 fd1 : Z) : prog Z :=
  close fd0 ;;
  ploop fuel (countfree_page fd1) tt ;;
  exit 0.
(** One byte of the parent's loop; [n] is an int. *)
Definition countfree_read (fd0 n : Z) : prog (Z + Z) :=
  r ← read fd0 1;
  failif (r_val r <? 0) (ln "read() failed in countfree()") [] ;;
  if r_val r =? 0 then mret (inr n) else mret (inl (s32 (n + 1))).
Definition countfree_parent (fd0 fd1 : Z) : prog Z :=
  close fd1 ;;
  n ← ploop fuel (countfree_read fd0) 0;
  close fd0 ;;
  wait0 ;;
  mret n.
Definition countfree : prog Z :=
  '(r, fds) ← pipe;
  failif (r <? 0) (ln "pipe() failed in countfree()") [] ;;
  pid ← fork;
  failif (pid <? 0) (ln "fork failed in countfree()") [] ;;
  '(fd0, fd1) ← fds_of fds;
  if pid =? 0 then countfree_child fd0 fd1 else countfree_parent fd0 fd1.

(** [do { ... } while(continuous)] *)
Definition drivetests_step (quick : bool) (continuous : Z) (justone : option (list Z)) (_ : unit) : prog (unit + Z) :=
  let again := if continuous =? 0 then inr 0 else inl tt in
  printf (ln "usertests starting") [] ;;
  free0 ← countfree;
  r ← runtests quicktests justone continuous;
  if negb (r =? 0) && negb (continuous =? 2) then mret (inr 1) else
  r ← (if quick then mret 0
       else
         (match justone with None => printf (ln "usertests slow tests starting") [] | _ => mret tt end) ;;
         runtests slowtests justone continuous);
  if negb (r =? 0) && negb (continuous =? 2) then mret (inr 1) else
  free1 ← countfree;
  if free1 <? free0 then
    printf (ln "FAILED -- lost some free pages %d (out of %d)") [ANum free1; ANum free0] ;;
    if negb (continuous =? 2) then mret (inr 1) else mret again
  else mret again.
Definition drivetests (quick : bool) (continuous : Z) (justone : option (list Z)) : prog Z :=
  ploop fuel (drivetests_step quick continuous justone) tt.

Definition go (quick : bool) (continuous : Z) (justone : option (list Z)) : prog unit :=
  r ← drivetests quick continuous justone;
  (if negb (r =? 0) then exit 1 else mret tt) ;;
  printf (ln "ALL TESTS PASSED") [] ;;
  exit 0.
Definition usage {A} : prog A := printf (ln "Usage: usertests [-c] [-C] [-q] [testname]") [] ;; exit 1.
Definition main (argv : list (list Z)) : prog unit :=
  match argv with
  | [_; a] =>
      if Ulib.strcmp a (chars "-q") =? 0 then go true 0 None
      else if Ulib.strcmp a (chars "-c") =? 0 then go false 1 None
      else if Ulib.strcmp a (chars "-C") =? 0 then go false 2 None
      else if negb (hd0 a =? 45) then go false 0 (Some a)
      else usage
  | _ :: _ :: _ => usage
  | _ => go false 0 None
  end.
End Tables.

(** ** What the driver reports *)

(** The process that forks and waits: [fate] are the statuses with which the children it will make exit, [waiting] those of the
    children it has not waited for.  The output is what this process writes. *)
Class Children `{Stdio} := {
  fate : World -> list Z;
  waiting : World -> list Z;
  fork_child : forall w st rest, fate w = st :: rest -> exists pid w', 0 < pid /\ kcall CFork w = (val pid, w') /\
    fate w' = rest /\ waiting w' = waiting w ++ [st] /\ (forall fd, output w' fd = output w fd);
  wait_child : forall w st rest, waiting w = st :: rest -> exists pid w', kcall CWait w = (mk_reply pid [] [st], w') /\
    fate w' = fate w /\ waiting w' = rest /\ (forall fd, output w' fd = output w fd);
  write_children : forall w fd bs r w', kcall (CWrite fd bs) w = (r, w') -> fate w' = fate w /\ waiting w' = waiting w
}.

(** The lines for the tests run and their statuses: all of them with [-C], up to the first failure otherwise. *)
Fixpoint report (continuous : Z) (l : list (test * Z)) : list Z :=
  match l with
  | [] => []
  | (t, st) :: l =>
      chars "test " ++ t_s t ++ chars ": " ++
      if st =? 0 then ln "OK" ++ report continuous l
      else ln "FAILED" ++ if continuous =? 2 then report continuous l else ln "SOME TESTS FAILED"
  end.

Section Report.
Context `{Children}.

Lemma run_puts fmt args out w : UPrintf.vprintf fmt args = Some out -> exists w', Usys.run (printf fmt args) w = (Val tt, w') /\
  output w' 1 = output w 1 ++ out /\ fate w' = fate w /\ waiting w' = waiting w.
Proof.
  intros E. unfold printf, Ulib.printf, Ulib.fprintf. rewrite E. clear E. revert w. induction out as [|c out IH]; intros w.
  - exists w. by rewrite app_nil_r.
  - destruct (write_ok w 1 [c]) as (w1 & R1 & _ & O1). destruct (write_children _ _ _ _ _ R1) as [F1 W1].
    destruct (IH w1) as (w2 & R2 & O2 & F2 & W2). exists w2. split.
    + cbn [pfor_each]. rewrite (run_bind _ _ w tt w1); [done|]. unfold Ulib.putc. by pstep_by (run_sys _ _ _ _ R1).
    + rewrite O2, O1, F2, W2, decide_True by done. by rewrite <- app_assoc.
Qed.

Lemma run_test f s w st rest : fate w = st :: rest -> waiting w = [] -> exists w', Usys.run (run f s) w = (Val (st =? 0), w') /\
  output w' 1 = output w 1 ++ chars "test " ++ s ++ chars ": " ++ (if st =? 0 then ln "OK" else ln "FAILED") /\ fate w' = rest /\ waiting w' = [].
Proof.
  intros Hf Hw. assert (E : UPrintf.vprintf (chars "test %s: ") [str s] = Some (chars "test " ++ s ++ chars ": ")) by reflexivity.
  destruct (run_puts _ _ _ w E) as (w1 & R1 & O1 & F1 & W1). rewrite Hf in F1. rewrite Hw in W1.
  destruct (fork_child w1 st rest F1) as (pid & w2 & Hp & R2 & F2 & W2 & O2). rewrite W1 in W2.
  destruct (wait_child w2 st [] W2) as (p & w3 & R3 & F3 & W3 & O3).
  destruct (run_puts (if st =? 0 then ln "OK" else ln "FAILED") [] (if st =? 0 then ln "OK" else ln "FAILED") w3) as (w4 & R4 & O4 & F4 & W4); [by destruct (st =? 0)|].
  exists w4. split; [|rewrite O4, O3, O2, O1, F4, F3, F2, W4, W3, <- !app_assoc; done].
  unfold run. pstep_by R1. pstep_by (run_sysv _ _ _ _ R2). cbn [val r_val]. unfold failif.
  rewrite (proj2 (Z.ltb_ge pid 0)), (proj2 (Z.eqb_neq pid 0)) by lia.
  change (mret tt ≫= ?f) with (f tt). cbn beta.
  assert (RW : Usys.run (wait None) w2 = (Val (p, Some st), w3)) by (unfold wait; by pstep_by (run_sys _ _ _ _ R3)).
  pstep_by RW. unfold value. change (mret st ≫= ?f) with (f st). cbn beta.
  replace (if negb (st =? 0) then _ else _) with (printf (if st =? 0 then ln "OK" else ln "FAILED") []) by (by destruct (st =? 0)).
  by pstep_by R4.
Qed.

(** C39: with one status for every test selected, the driver's result is 0 exactly when all of them are 0 or it was told to go on ([-C]),
    and what it prints is the report of the tests in the order of the table. *)
Theorem runtests_spec tests justone continuous w :
  let sel := filter (fun t => selected justone t = true) tests in
  let sts := take (length sel) (fate w) in
  (length sel <= length (fate w))%nat -> waiting w = [] ->
  exists r w', Usys.run (runtests tests justone continuous) w = (Val r, w') /\
    r = (if decide (continuous = 2 \/ Forall (fun st => st = 0) sts) then 0 else 1) /\
    output w' 1 = output w 1 ++ report continuous (zip sel sts).
Proof.
  revert w. induction tests as [|t tests IH]; intros w sel sts Hl Hw.
  - exists 0, w. subst sel sts. cbn. rewrite app_nil_r. split; [done|]. rewrite decide_True; [done|]. right. constructor.
  - subst sel sts. rewrite filter_cons in *. cbn [runtests]. destruct (selected justone t);
      [destruct (decide (true = true)); [|done]|destruct (decide (false = true)); [done|by apply IH]].
    cbn [length] in *. destruct (fate w) as [|st rest] eqn:Hf; [cbn in Hl; lia|]. cbn [length] in Hl.
    destruct (run_test (t_f t) (t_s t) w st rest Hf Hw) as (w1 & R1 & O1 & F1 & W1). cbn [firstn zip zip_with report].
    destruct (IH w1 ltac:(rewrite F1; lia) W1) as (r & w2 & R2 & Er & O2). rewrite F1 in Er, O2. pstep_by R1.
    destruct (Z.eqb_spec st 0) as [->|Hst]; cbn [negb andb].
    + exists r, w2. split; [done|]. rewrite O2, O1, <- !app_assoc. split; [|done]. rewrite Er. apply decide_ext. rewrite Forall_cons. naive_solver.
    + destruct (Z.eqb_spec continuous 2) as [->|Hc]; cbn [negb].
      * exists r, w2. split; [done|]. rewrite O2, O1, <- !app_assoc. split; [|done]. rewrite Er. by rewrite !decide_True by auto.
      * destruct (run_puts (ln "SOME TESTS FAILED") [] (ln "SOME TESTS FAILED") w1 eq_refl) as (w3 & R3 & O3 & _). exists 1, w3.
        split; [by pstep_by R3|]. rewrite O3, O1, <- !app_assoc. split; [|done]. rewrite decide_False; [done|]. rewrite Forall_cons. naive_solver.
Qed.
End Report.

(** ** Counting the free pages *)

(** Memory that can grow by [avail] pages, and that the process can write. *)
Class Grows `{Stdio} := {
  avail : World -> nat;
  brk : World -> Z;
  grow_ok : forall w, exists v w', kcall (CSbrk 4096) w = (val v, w') /\ (forall fd, output w' fd = output w fd) /\
    match avail w with
    | O => v = -1 /\ avail w' = O
    | S n => v = brk w /\ 0 <= v < 2 ^ 38 /\ brk w' = v + 4096 /\ avail w' = n
    end;
  store_in : forall w a v, brk w - 4096 <= a < brk w -> exists w', kcall (CStore a v) w = (mk_reply 0 [] [v], w') /\
    (forall fd, output w' fd = output w fd) /\ avail w' = avail w;
  write_grows : forall w fd bs r w', kcall (CWrite fd bs) w = (r, w') -> avail w' = avail w;
  close_ok : forall w fd, exists r w', kcall (CClose fd) w = (r, w') /\ avail w' = avail w /\
    (forall fd', fd' <> fd -> input w' fd' = input w fd' /\ output w' fd' = output w fd')
}.

Section Countfree.
Context `{Grows}.

Lemma run_close fd w : exists w', Usys.run (close fd) w = (Val tt, w') /\ avail w' = avail w /\
  (forall fd', fd' <> fd -> input w' fd' = input w fd' /\ output w' fd' = output w fd').
Proof. destruct (close_ok w fd) as (r & w' & R & H'). exists w'. split; [unfold close; by pstep_by (run_sys _ _ _ _ R)|done]. Qed.

Lemma run_sbrk w v w' : kcall (CSbrk 4096) w = (val v, w') -> Usys.run (sbrk 4096) w = (Val (u64 v), w').
Proof. intros R. unfold sbrk. change (s32 4096) with 4096. by pstep_by (run_sysv _ _ _ _ R). Qed.

Lemma child_loop fd n : forall w fuel, avail w = n -> (n < fuel)%nat ->
  exists w', Usys.run (ploop fuel (countfree_page fd) tt) w = (Val tt, w') /\ output w' fd = output w fd ++ replicate n 120.
Proof.
  induction n as [|n IH]; intros w [|fuel] Ha Hf; try lia; destruct (grow_ok w) as (v & w1 & R1 & O1 & Hv); rewrite Ha in Hv.
  - exists w1. rewrite O1, app_nil_r. split; [|done]. apply ploop_break. unfold countfree_page. pstep_by (run_sbrk _ _ _ R1). by destruct Hv as [-> _].
  - destruct Hv as (-> & Hr & Hb & Ha1). destruct (store_in w1 (brk w + 4096 - 1) 1) as (w2 & R2 & O2 & A2); [lia|].
    destruct (write_ok w2 fd (chars "x")) as (w3 & R3 & _ & O3). pose proof (write_grows _ _ _ _ _ R3) as A3.
    destruct (IH w3 fuel ltac:(congruence) ltac:(lia)) as (w4 & R4 & O4). exists w4. rewrite O4, O3, decide_True, O2, O1, <- app_assoc by done.
    split; [|done]. rewrite <- R4. apply ploop_continue. unfold countfree_page. pstep_by (run_sbrk _ _ _ R1). rewrite u64_small by lia.
    rewrite (proj2 (Z.eqb_neq (brk w) _)) by lia. assert (RS : Usys.run (store (brk w + 4096 - 1) 1) w1 = (Val tt, w2)).
    { unfold store. by pstep_by (run_sys _ _ _ _ R2). }
    pstep_by RS. by pstep_by (run_sysv _ _ _ _ R3).
Qed.

Lemma parent_loop fd n : forall w fuel k, input w fd = replicate n 120 -> (n < fuel)%nat -> 0 <= k -> k + Z.of_nat n < 2 ^ 31 ->
  exists w', Usys.run (ploop fuel (countfree_read fd) k) w = (Val (k + Z.of_nat n), w').
Proof.
  induction n as [|n IH]; intros w [|fuel] k Hi Hf H0' Hk; try lia; destruct (read_ok w fd 1 ltac:(lia)) as (m & w1 & R1 & L1 & B1 & P1 & I1 & _); rewrite Hi in *.
  - cbn in L1. assert (m = O) as -> by lia. exists w1. rewrite Z.add_0_r. apply ploop_break. unfold countfree_read. by pstep_by (run_sys _ _ _ _ R1).
  - assert (m = 1%nat) as -> by (specialize (P1 ltac:(lia) ltac:(done)); lia). specialize (I1 fd). rewrite decide_True in I1 by done.
    destruct (IH w1 fuel (k + 1) I1 ltac:(lia) ltac:(lia) ltac:(lia)) as (w2 & R2). exists w2.
    replace (k + Z.of_nat (S n)) with (k + 1 + Z.of_nat n) by lia. rewrite <- R2. apply ploop_continue. unfold countfree_read.
    pstep_by (run_sys _ _ _ _ R1). by rewrite s32_small by lia.
Qed.

(** [countfree] counts the pages that [sbrk] can give: its child exits with 0 after one byte per page, and its parent, which reads from the
    pipe what the child wrote to it, returns that number. *)
Theorem countfree_counts wc wp fd0 fd1 fuel : fd0 <> fd1 -> output wc fd1 = [] -> (avail wc < fuel)%nat -> Z.of_nat (avail wc) < 2 ^ 31 ->
  exists wc', Usys.run (countfree_child fuel fd0 fd1) wc = (Exited 0, wc') /\
    (input wp fd0 = output wc' fd1 -> exists wp', Usys.run (countfree_parent fuel fd0 fd1) wp = (Val (Z.of_nat (avail wc)), wp')).
Proof.
  intros Hne Ho Hf Hb. destruct (run_close fd0 wc) as (w1 & R1 & A1 & C1). destruct (child_loop fd1 (avail wc) w1 fuel A1 Hf) as (w2 & R2 & O2). exists w2. split.
  { unfold countfree_child. pstep_by R1. by pstep_by R2. }
  rewrite O2, (proj2 (C1 fd1 ltac:(done))), Ho. cbn [app]. intros Hi. destruct (run_close fd1 wp) as (p1 & S1 & _ & D1).
  destruct (parent_loop fd0 (avail wc) p1 fuel 0) as (p2 & S2); [by rewrite (proj1 (D1 fd0 Hne))|lia|lia|lia|].
  destruct (run_close fd0 p2) as (p3 & S3 & _). destruct (kcall CWait p3) as [r p4] eqn:S4. exists p4.
  unfold countfree_parent. pstep_by S1. pstep_by S2. pstep_by S3. by pstep_by (run_sysv _ _ _ _ S4).
Qed.
End Countfree.

(** A kernel for both: the statuses of the children to come and of those not waited for, and the pages left. *)
Record bench := mk_bench { bn_tape : tape; bn_fate : list Z; bn_waiting : list Z; bn_avail : nat; bn_brk : Z }.
Definition bench_avail (w : bench) : nat := if decide (0 <= bn_brk w /\ bn_brk w + 4096 * Z.of_nat (bn_avail w) <= 2 ^ 37) then bn_avail w else O.
Definition bench_call (c : call) (w : bench) : reply * bench :=
  match c, w with
  | CFork, mk_bench t (st :: f) ws n b => (val 7, mk_bench t f (ws ++ [st]) n b)
  | CWait, mk_bench t f (st :: ws) n b => (mk_reply 7 [] [st], mk_bench t f ws n b)
  | CSbrk k, mk_bench t f ws _ b => match bench_avail w with O => (val (-1), w) | S n => (val b, mk_bench t f ws n (b + k)) end
  | CStore _ v, _ => (mk_reply 0 [] [v], w)
  | c, mk_bench t f ws n b => let (r, t) := tape_call c t in (r, mk_bench t f ws n b)
  end.
Instance bench_kernel : Kernel := { World := bench; kcall := bench_call }.
Instance bench_stdio : Stdio (H := bench_kernel).
Proof.
  refine (stdio_of (K := bench_kernel) bn_tape (fun w t => mk_bench t (bn_fate w) (bn_waiting w) (bn_avail w) (bn_brk w)) _ _ _); by destruct w.
Defined.

#[refine] Instance bench_children : Children (H := bench_kernel) := { fate := bn_fate; waiting := bn_waiting }.
Proof.
  - intros [t f ws n b] st rest E. cbn in E. subst. by eexists 7, _.
  - intros [t f ws n b] st rest E. cbn in E. subst. by eexists 7, _.
  - intros [t f ws n b] fd bs r w' E. cbn in E. by simplify_eq.
Defined.

#[refine] Instance bench_grows : Grows (H := bench_kernel) := { avail := bench_avail; brk := bn_brk }.
Proof.
  - intros [t f ws n b]. cbn [kcall bench_kernel bench_call]. unfold bench_avail at 1 2. cbn [bn_brk bn_avail]. case_decide as Hb; [destruct n as [|n]|].
    + eexists _, _. split; [reflexivity|]. split; [done|]. split; [done|]. unfold bench_avail. cbn. by case_decide.
    + eexists _, _. split; [reflexivity|]. split; [done|]. unfold bench_avail. cbn [bn_brk bn_avail].
      split; [done|]. split; [lia|]. split; [done|]. rewrite decide_True by lia. done.
    + eexists _, _. split; [reflexivity|]. split; [done|]. split; [done|]. unfold bench_avail. cbn [bn_brk bn_avail]. by rewrite decide_False.
  - intros [t f ws n b] a v _. by eexists _.
  - intros [t f ws n b] fd bs r w' E. cbn in E. by simplify_eq.
  - intros [t f ws n b] fd. by eexists _, _.
Defined.

Definition three : list test := [mk_test (fun _ => mret tt) (chars "a"); mk_test (fun _ => exit 1) (chars "b"); mk_test (fun _ => mret tt) (chars "c")].
Lemma runtests_spec_witness : exists w', Usys.run (H := bench_kernel) (runtests three None 0) (mk_bench (mk_tape ∅ ∅ 0) [0; 1; 0] [] 0 0) = (Val 1, w').
Proof.
  destruct (@runtests_spec bench_kernel bench_stdio bench_children three None 0 (mk_bench (mk_tape ∅ ∅ 0) [0; 1; 0] [] 0 0)) as (r & w' & R & E & _).
  - vm_compute. lia.
  - done.
  - exists w'. rewrite decide_False in E; [by rewrite E in R|]. intros [?|F]; [done|]. apply Forall_cons in F as [_ F]. by apply Forall_cons in F as [F _].
Defined.

Lemma countfree_counts_witness : exists wp', Usys.run (H := bench_kernel) (countfree_parent 4 3 4) (mk_bench (mk_tape {[3 := chars "xxx"]} ∅ 0) [] [0] 0 0) = (Val 3, wp').
Proof.
  destruct (@countfree_counts bench_kernel bench_stdio bench_grows (mk_bench (mk_tape ∅ ∅ 0) [] [] 3 8192) (mk_bench (mk_tape {[3 := chars "xxx"]} ∅ 0) [] [0] 0 0) 3 4 4)
    as (wc' & R & Hp); [done|done|vm_compute; lia|vm_compute; done|].
  apply Hp. assert (E : wc' = (Usys.run (H := bench_kernel) (countfree_child 4 3 4) (mk_bench (mk_tape ∅ ∅ 0) [] [] 3 8192)).2) by (by rewrite R).
  rewrite E. vm_compute. reflexivity.
Defined.

End Usertests.
