(* ===== verification/Mkfs.v ===== *)
(** * mkfs/mkfs.c: the initial file system

    The image is a map from sectors to their bytes; a sector outside it cannot be
    read.  [die] and a failing [assert] stop the program.  The host's files are a
    parameter: what [open] and [read] give for a path. *)

From stdpp Require Import base list gmap strings.
From Stdlib Require Import ZArith Lia.
From S2P Require Import Prelude Mem KString Format State Bio Log Fs.
Open Scope Z_scope.

Module Mkfs.

(** ** Layout *)

Definition NINODES : Z := 200.
Definition nbitmap : Z := FSSIZE / BPB + 1.
Definition ninodeblocks : Z := NINODES / IPB + 1.
Definition nlog : Z := LOGSIZE.
Definition nmeta : Z := 2 + nlog + ninodeblocks + nbitmap.
Definition nblocks : Z := FSSIZE - nmeta.

(** Bytes [a[0]], [a[1]], ... of the result, on a little-endian host. *)
Definition xshort (x : Z) : Z := le_val [u8 x; u8 (Z.shiftr x 8)].
Definition xint (x : Z) : Z := le_val [u8 x; u8 (Z.shiftr x 8); u8 (Z.shiftr x 16); u8 (Z.shiftr x 24)].

Definition sb : superblock :=
  mk_superblock FSMAGIC (xint FSSIZE) (xint nblocks) (xint NINODES) (xint nlog) (xint 2) (xint (2 + nlog)) (xint (2 + nlog + ninodeblocks)).
Definition sb_bytes (sb : superblock) : list Z :=
  le_bytes 4 (sb_magic sb) ++ le_bytes 4 (sb_size sb) ++ le_bytes 4 (sb_nblocks sb) ++ le_bytes 4 (sb_ninodes sb) ++
  le_bytes 4 (sb_nlog sb) ++ le_bytes 4 (sb_logstart sb) ++ le_bytes 4 (sb_inodestart sb) ++ le_bytes 4 (sb_bmapstart sb).

(** ** State *)

Record st := mk_st { img : gmap Z (list Z); freeinode : Z; freeblock : Z }.
Definition set_img (v : gmap Z (list Z)) (s : st) : st := mk_st v (freeinode s) (freeblock s).
Definition die {A} (what : string) : M st A := panic what.
Definition assert (b : bool) : M st unit := if b then mret tt else panic "assert".
Definition take_inode : M st Z := fun s => Ret (freeinode s) (mk_st (img s) (u32 (freeinode s + 1)) (freeblock s)).
Definition take_block : M st Z := fun s => Ret (freeblock s) (mk_st (img s) (freeinode s) (u32 (freeblock s + 1))).

Definition zeroes : list Z := replicate (Z.to_nat BSIZE) 0.

(** ** Sectors and inodes *)

Definition wsect (sec : Z) (buf : list Z) : M st unit := modify (fun s => set_img (<[sec := buf]> (img s)) s).
Definition rsect (sec : Z) : M st (list Z) :=
  s ← gets img;
  match s !! sec with Some d => mret d | None => die "read" end.

Record dinode := mk_dinode { d_type : Z; d_major : Z; d_minor : Z; d_nlink : Z; d_size : Z; d_addrs : list Z }.
Definition bytes_of (d : dinode) : list Z :=
  le_bytes 2 (d_type d) ++ le_bytes 2 (d_major d) ++ le_bytes 2 (d_minor d) ++ le_bytes 2 (d_nlink d) ++
  le_bytes 4 (d_size d) ++ concat (le_bytes 4 <$> d_addrs d).
Definition dinode_at (d : list Z) (o : nat) : dinode :=
  mk_dinode (di_type d o) (di_major d o) (di_minor d o) (di_nlink d o) (di_size d o) (di_addrs d o).

Definition winode (inum : Z) (ip : dinode) : M st unit :=
  let bn := IBLOCK inum sb in
  buf ← rsect bn;
  wsect bn (put_at (dip_off inum) (bytes_of ip) buf).
Definition rinode (inum : Z) : M st dinode :=
  let bn := IBLOCK inum sb in
  buf ← rsect bn;
  mret (dinode_at buf (dip_off inum)).

Definition ialloc (type : Z) : M st Z :=
  inum ← take_inode;
  winode inum (mk_dinode (xshort type) 0 0 (xshort 1) (xint 0) (replicate 13 0)) ;;
  mret inum.

(** [buf[i/8] = buf[i/8] | (0x1 << (i%8))] *)
Definition mark (buf : list Z) (i : nat) : list Z :=
  alter (fun x => u8 (Z.lor x (Z.shiftl 1 (Z.of_nat i mod 8)))) (Z.to_nat (Z.of_nat i / 8)) buf.
Definition balloc (used : Z) : M st unit :=
  assert (used <? BPB) ;;
  wsect (sb_bmapstart sb) (foldl mark zeroes (seq 0 (Z.to_nat used))).

(** ** Appending to a file *)

(** Entry [i] of the indirect block [a], allocated when there is none. *)
Definition indirect_slot (a i : Z) : M st Z :=
  indirect ← rsect a;
  indirect ← (if ind_at indirect i =? 0 then
                b ← take_block;
                let indirect := put32 (4 * Z.to_nat i) (xint b) indirect in
                wsect a indirect ;;
                mret indirect
              else mret indirect);
  mret (xint (ind_at indirect i)).

(** The block of the file that holds [fbn], allocated when there is none. *)
Definition iappend_block (fbn : Z) (din : dinode) : M st (dinode * Z) :=
  if fbn <? NDIRECT then
    din ← (if xint (default 0 (d_addrs din !! Z.to_nat fbn)) =? 0 then
             b ← take_block;
             mret (mk_dinode (d_type din) (d_major din) (d_minor din) (d_nlink din) (d_size din) (<[Z.to_nat fbn := xint b]> (d_addrs din)))
           else mret din);
    mret (din, xint (default 0 (d_addrs din !! Z.to_nat fbn)))
  else
    din ← (if xint (default 0 (d_addrs din !! Z.to_nat NDIRECT)) =? 0 then
             b ← take_block;
             mret (mk_dinode (d_type din) (d_major din) (d_minor din) (d_nlink din) (d_size din) (<[Z.to_nat NDIRECT := xint b]> (d_addrs din)))
           else mret din);
    x ← indirect_slot (xint (default 0 (d_addrs din !! Z.to_nat NDIRECT))) (fbn - NDIRECT);
    mret (din, x).

(** One turn of the loop; [p] is what is left to append. *)
Definition iappend_step (x : dinode * Z * list Z) : M st (dinode * Z * list Z + dinode * Z) :=
  let '(din, off, p) := x in
  let n := Z.of_nat (length p) in
  if negb (0 <? n) then mret (inr (din, off)) else
  let fbn := off / BSIZE in
  assert (fbn <? MAXFILE) ;;
  '(din, b) ← iappend_block fbn din;
  let n1 := Z.min n ((fbn + 1) * BSIZE - off) in
  buf ← rsect b;
  wsect b (put_at (Z.to_nat (off - fbn * BSIZE)) (take (Z.to_nat n1) p) buf) ;;
  mret (inl (din, u32 (off + n1), drop (Z.to_nat n1) p)).

Definition iappend (inum : Z) (p : list Z) : M st unit :=
  din ← rinode inum;
  '(din, off) ← loop (S (length p)) iappend_step (din, xint (d_size din), p);
  winode inum (mk_dinode (d_type din) (d_major din) (d_minor din) (d_nlink din) (xint off) (d_addrs din)).

(** ** The program *)

(** [strncpy(de.name, name, DIRSIZ)] into a zeroed entry; [strcpy] for [.] and [..]. *)
Definition dirent_of (inum : Z) (name : list Z) : list Z :=
  le_bytes 2 (xshort inum) ++ take 14 (name ++ replicate 14 0).

(** Without a leading [user/] and a leading underscore. *)
Definition shortname (path : list Z) : list Z :=
  if strncmp path (chars "user/") 5 =? 0 then drop 5 path else path.
Definition filename (short : list Z) : list Z := match short with 95 :: n => n | _ => short end.

Section Host.
(** The contents of the host's files, [None] for one that cannot be opened. *)
Variable host : list Z -> option (list Z).

(** [while((cc = read(fd, buf, sizeof(buf))) > 0) iappend(inum, buf, cc);] *)
Definition copy_step (inum : Z) (rest : list Z) : M st (list Z + unit) :=
  let buf := take (Z.to_nat BSIZE) rest in
  if (0 <? length buf)%nat then iappend inum buf ;; mret (inl (drop (Z.to_nat BSIZE) rest)) else mret (inr tt).

Definition add_file (rootino : Z) (path : list Z) : M st unit :=
  let short := shortname path in
  assert (negb (existsb (Z.eqb 47) short)) ;;
  match host path with
  | None => die "open"
  | Some contents =>
      let name := filename short in
      assert (length name <=? 14)%nat ;;
      inum ← ialloc T_FILE;
      iappend rootino (dirent_of inum name) ;;
      loop (S (length contents)) (copy_step inum) contents
  end.

Definition build (files : list (list Z)) : M st unit :=
  modify (fun s => mk_st (img s) 1 nmeta) ;;
  for_each (seqZ 0 FSSIZE) (fun i => wsect i zeroes) ;;
  wsect 1 (put_at 0 (sb_bytes sb) zeroes) ;;
  rootino ← ialloc T_DIR;
  assert (rootino =? ROOTINO) ;;
  iappend rootino (dirent_of rootino [46]) ;;
  iappend rootino (dirent_of rootino [46; 46]) ;;
  for_each files (add_file rootino) ;;
  din ← rinode rootino;
  let off := xint (d_size din) in
  let off := u32 ((off / BSIZE + 1) * BSIZE) in
  winode rootino (mk_dinode (d_type din) (d_major din) (d_minor din) (d_nlink din) (xint off) (d_addrs din)) ;;
  used ← gets freeblock;
  balloc used.

(** [argv[1]] is the image, [argv[2]], [argv[3]], ... are the files to put in it. *)
Definition main (can_create : list Z -> bool) (argv : list (list Z)) : M st unit :=
  match drop 1 argv with
  | [] => die "Usage: mkfs fs.img files..."
  | image :: files =>
      assert (BSIZE mod 64 =? 0) ;;
      assert (BSIZE mod 16 =? 0) ;;
      if negb (can_create image) then die "open" else build files
  end.
End Host.
End Mkfs.
