(* ===== verification/MkfsProps.v ===== *)
(** * The image that mkfs builds

    The files of the image, as lists of bytes, and where mkfs puts them: every
    file owns its data blocks and its indirect block, blocks are handed out in
    order, and the rest of the disk is zero. *)

From stdpp Require Import base list gmap strings.
From Stdlib Require Import ZArith Lia.
From S2P Require Import Prelude Mem KString Format State Bio Log Commit Fs FsDinode Mkfs.
Open Scope Z_scope.

Module MkfsProps.
Import Mkfs.

(** ** Files *)

(** The type, the contents, the data blocks in order and the indirect block (0 for none). *)
Record file := mk_file { f_type : Z; f_data : list Z; f_blocks : list Z; f_ind : Z }.

Definition owns (f : file) : list Z := f_blocks f ++ if f_ind f =? 0 then [] else [f_ind f].
Definition addrs (f : file) : list Z := take 12 (f_blocks f ++ replicate 12 0) ++ [f_ind f].
Definition entries (f : file) : list Z := drop 12 (f_blocks f) ++ replicate (268 - length (f_blocks f)) 0.
Definition din (f : file) : dinode := mk_dinode (f_type f) 0 0 1 (Z.of_nat (length (f_data f))) (addrs f).

(** The blocks hold the contents, and zeroes after them. *)
Record file_ok (D : gmap Z (list Z)) (f : file) : Prop := {
  fk_data : concat ((fun b => default [] (D !! b)) <$> f_blocks f) = f_data f ++ replicate (1024 * length (f_blocks f) - length (f_data f)) 0;
  fk_max : (length (f_blocks f) <= 268)%nat;
  fk_ind : f_ind f <> 0 <-> (12 < length (f_blocks f))%nat;
  fk_entries : f_ind f <> 0 -> D !! f_ind f = Some (concat (le_bytes 4 <$> entries f))
}.

(** No block more than the contents need. *)
Definition tight (f : file) : Prop := (1024 * length (f_blocks f) < length (f_data f) + 1024)%nat.

(** The data part of the image. *)
Record data_ok (s : st) (fs : list file) : Prop := {
  dk_img : forall b, 0 <= b < FSSIZE -> exists d, img s !! b = Some d /\ is_block d;
  dk_free : nmeta <= freeblock s <= FSSIZE;
  dk_zero : forall b, freeblock s <= b < FSSIZE -> img s !! b = Some zeroes;
  dk_owns : Forall (fun b => nmeta <= b < freeblock s) (concat (owns <$> fs));
  dk_nodup : NoDup (concat (owns <$> fs));
  dk_files : Forall (file_ok (img s)) fs
}.

(** The inodes: file [i] of the list has number [i + 1]. *)
Definition inodes_ok (s : st) (fs : list file) : Prop :=
  forall i f, fs !! i = Some f -> forall d, img s !! IBLOCK (Z.of_nat i + 1) sb = Some d -> dinode_at d (dip_off (Z.of_nat i + 1)) = din f.

(** How many blocks a file of [n] bytes takes. *)
Definition nblk (n : nat) : nat := (n + 1023) / 1024.
Definition needs (n : nat) : nat := nblk n + if (12 <? nblk n)%nat then 1 else 0.

(** ** Byte order *)

Lemma xint_id x : 0 <= x < 2 ^ 32 -> xint x = x.
Proof.
  intros Hx. unfold xint, le_val, u8. rewrite !Z.shiftr_div_pow2 by lia. change (2 ^ 8) with 256. change (2 ^ 16) with 65536. change (2 ^ 24) with 16777216.
  divlia.
Qed.
Lemma xshort_id x : 0 <= x < 2 ^ 16 -> xshort x = x.
Proof. intros Hx. unfold xshort, le_val, u8. rewrite !Z.shiftr_div_pow2 by lia. change (2 ^ 8) with 256. divlia. Qed.

(** ** Putting bytes in lists *)

Lemma put_at_app_r k bs a d : (k + length bs <= length d)%nat -> put_at (length a + k) bs (a ++ d) = a ++ put_at k bs d.
Proof.
  intros Hk. apply list_eq. intros i. rewrite lookup_put_at by (rewrite length_app; lia). destruct (decide (i < length a)%nat).
  - rewrite decide_False by lia. by rewrite !lookup_app_l by lia.
  - rewrite !lookup_app_r by lia. rewrite lookup_put_at by lia. case_decide; case_decide; try lia; [f_equal; lia|done].
Qed.
Lemma put_at_app_l k bs a d : (k + length bs <= length a)%nat -> put_at k bs (a ++ d) = put_at k bs a ++ d.
Proof.
  intros Hk. apply list_eq. intros i. rewrite lookup_put_at by (rewrite length_app; lia). destruct (decide (i < length a)%nat).
  - rewrite !lookup_app_l by (rewrite ?length_put_at; lia). rewrite lookup_put_at by lia. by case_decide.
  - rewrite decide_False, !lookup_app_r by (rewrite ?length_put_at; lia). by rewrite length_put_at.
Qed.
Lemma put_at_zero bs d : length bs = length d -> put_at 0 bs d = bs.
Proof.
  intros Hl. apply list_eq. intros i. rewrite lookup_put_at by lia. case_decide; [f_equal; lia|]. rewrite !lookup_ge_None_2 by lia. done.
Qed.
(** Appending over zeroes. *)
Lemma put_at_append c bs k : (length bs <= k)%nat -> put_at (length c) bs (c ++ replicate k 0) = (c ++ bs) ++ replicate (k - length bs) 0.
Proof.
  intros Hk. rewrite <- (Nat.add_0_r (length c)), put_at_app_r by (rewrite length_replicate; lia).
  replace (replicate k 0) with (replicate (length bs) 0 ++ replicate (k - length bs) 0) by (rewrite <- replicate_add; f_equal; lia).
  rewrite put_at_app_l, put_at_zero by (rewrite length_replicate; lia). by rewrite app_assoc.
Qed.

(** A word of an array of words. *)
Lemma put32_words l j x : (j < length l)%nat -> put32 (4 * j) x (concat (le_bytes 4 <$> l)) = concat (le_bytes 4 <$> <[j := x]> l).
Proof.
  revert j. induction l as [|y l IH]; intros j Hj; [cbn in Hj; lia|]. unfold put32 in *. destruct j as [|j].
  - change (<[O := x]> (y :: l)) with (x :: l). rewrite !fmap_cons. cbn [concat]. rewrite Nat.mul_0_r, put_at_app_l, put_at_zero by (rewrite !length_le_bytes; lia). done.
  - change (<[S j := x]> (y :: l)) with (y :: <[j := x]> l). rewrite !fmap_cons. cbn [concat]. rewrite <- (IH j) by (cbn in Hj; lia).
    replace (4 * S j)%nat with (length (le_bytes 4 y) + 4 * j)%nat by (rewrite length_le_bytes; lia).
    apply put_at_app_r. rewrite length_le_bytes, length_concat4. cbn in Hj. lia.
Qed.
Lemma ind_at_words l j x : l !! j = Some x -> 0 <= x < 2 ^ 32 -> ind_at (concat (le_bytes 4 <$> l)) (Z.of_nat j) = x.
Proof. intros Hj Hx. unfold ind_at, get32. rewrite Nat2Z.id, (get_concat4 _ _ _ Hj). by apply u32_le. Qed.

Lemma concat_length (D : Z -> list Z) l : (forall x, x ∈ l -> length (D x) = 1024%nat) -> length (concat (D <$> l)) = (1024 * length l)%nat.
Proof.
  induction l as [|z l IH]; intros HD; [done|]. rewrite fmap_cons. cbn [concat]. rewrite length_app, IH, HD; [cbn [length]; lia|apply list_elem_of_here|].
  intros x Hx. apply HD. by apply list_elem_of_further.
Qed.

(** One block of a sequence of blocks. *)
Lemma concat_put (D : Z -> list Z) l j b r bs : NoDup l -> l !! j = Some b -> (forall x, x ∈ l -> length (D x) = 1024%nat) -> (r + length bs <= 1024)%nat ->
  concat ((fun x => if x =? b then put_at r bs (D b) else D x) <$> l) = put_at (1024 * j + r) bs (concat (D <$> l)).
Proof.
  revert j. induction l as [|y l IH]; intros j Hnd Hj HD Hr; [done|]. apply NoDup_cons in Hnd as [Hy Hnd]. cbn [fmap list_fmap concat].
  assert (Hly : length (D y) = 1024%nat) by (apply HD, list_elem_of_here).
  assert (HDl : forall x, x ∈ l -> length (D x) = 1024%nat) by (intros x Hx; apply HD; by apply list_elem_of_further).
  destruct j as [|j].
  - cbn in Hj. simplify_eq. rewrite Z.eqb_refl, Nat.mul_0_r, Nat.add_0_l, put_at_app_l by lia. f_equal. f_equal.
    apply list_fmap_ext. intros i x Hx. destruct (Z.eqb_spec x b) as [->|]; [|done]. destruct Hy. by eapply list_elem_of_lookup_2.
  - cbn in Hj. destruct (Z.eqb_spec y b) as [->|]; [destruct Hy; by eapply list_elem_of_lookup_2|]. rewrite (IH j) by done.
    replace (1024 * S j + r)%nat with (length (D y) + (1024 * j + r))%nat by lia. symmetry. apply put_at_app_r.
    rewrite (concat_length D l HDl). apply lookup_lt_Some in Hj. lia.
Qed.

(** ** Changing one file *)

Lemma file_ok_ext (D D' : gmap Z (list Z)) f : (forall b, b ∈ owns f -> D' !! b = D !! b) -> file_ok D f -> file_ok D' f.
Proof.
  intros HD [H1 H2 H3 H4]. split; [|done|done|].
  - rewrite <- H1. f_equal. apply list_fmap_ext. intros i b Hb. rewrite HD; [done|]. unfold owns. apply elem_of_app. left. by eapply list_elem_of_lookup_2.
  - intros Hne. rewrite HD; [by apply H4|]. unfold owns. rewrite (proj2 (Z.eqb_neq _ _) Hne). apply elem_of_app. right. apply list_elem_of_here.
Qed.

Lemma concat_owns fs i f : fs !! i = Some f -> concat (owns <$> fs) ≡ₚ owns f ++ concat (owns <$> (take i fs ++ drop (S i) fs)).
Proof.
  intros Hi. rewrite <- (take_drop_middle fs i f Hi) at 1. rewrite !fmap_app, fmap_cons, !concat_app. cbn [concat].
  rewrite !app_assoc. by rewrite (Permutation_app_comm (concat (owns <$> take i fs))).
Qed.

Lemma owns_update fs i f f' new : fs !! i = Some f -> owns f' ≡ₚ new ++ owns f -> concat (owns <$> <[i := f']> fs) ≡ₚ new ++ concat (owns <$> fs).
Proof.
  intros Hi Ho. pose proof (lookup_lt_Some _ _ _ Hi) as Hlt. rewrite (concat_owns _ i f' (list_lookup_insert_eq _ _ _ Hlt)), (concat_owns fs i f Hi), Ho.
  rewrite take_insert_ge, drop_insert_lt by lia. by rewrite app_assoc.
Qed.

Lemma owns_range s fs i f b : data_ok s fs -> fs !! i = Some f -> b ∈ owns f -> nmeta <= b < freeblock s.
Proof.
  intros Hok Hi Hb. pose proof (dk_owns _ _ Hok) as H. rewrite (concat_owns fs i f Hi) in H. apply Forall_app in H as [H _].
  rewrite Forall_forall in H. by apply H.
Qed.

Lemma owns_other s fs i f j g b : data_ok s fs -> fs !! i = Some f -> fs !! j = Some g -> i <> j -> b ∈ owns f -> b ∉ owns g.
Proof.
  intros Hok Hi Hj Hne Hb Hg. pose proof (dk_nodup _ _ Hok) as Hnd. rewrite (concat_owns fs i f Hi) in Hnd. apply NoDup_app in Hnd as (_ & Hnd & _).
  apply (Hnd b Hb). apply list_elem_of_In, in_concat. exists (owns g). split; [|by apply list_elem_of_In]. apply list_elem_of_In, list_elem_of_fmap. exists g. split; [done|].
  destruct (decide (j < i)%nat); apply elem_of_app; [left|right]; apply list_elem_of_lookup.
  - exists j. by rewrite lookup_take_lt.
  - exists (j - S i)%nat. rewrite lookup_drop. by replace (S i + (j - S i))%nat with j by lia.
Qed.

(** File [i] becomes [f'], with the blocks [new] more; only its blocks change. *)
Lemma data_update s s' fs i f f' new :
  data_ok s fs -> fs !! i = Some f -> owns f' ≡ₚ new ++ owns f -> NoDup new -> Forall (fun b => freeblock s <= b < freeblock s') new ->
  freeblock s <= freeblock s' <= FSSIZE -> (forall b, b ∉ owns f' -> img s' !! b = img s !! b) ->
  (forall b, b ∈ owns f' -> exists d, img s' !! b = Some d /\ is_block d) -> file_ok (img s') f' -> data_ok s' (<[i := f']> fs).
Proof.
  intros Hok Hi Ho Hnd Hnew Hfree Hout Hin Hf'. pose proof (owns_update fs i f f' new Hi Ho) as Hall. pose proof Hok as Hok0. destruct Hok as [Himg Hfr Hz Hr Hn Hfs].
  assert (Hr' : Forall (fun b => nmeta <= b < freeblock s') (concat (owns <$> <[i := f']> fs))).
  { rewrite Hall. apply Forall_app. split; [eapply Forall_impl; [exact Hnew|]; cbn; lia|eapply Forall_impl; [exact Hr|]; cbn; lia]. }
  assert (Hown : forall b, b ∈ owns f' -> b < freeblock s').
  { intros b Hb. rewrite (concat_owns _ i f' (list_lookup_insert_eq _ _ _ (lookup_lt_Some _ _ _ Hi))) in Hr'. apply Forall_app in Hr' as [H _].
    rewrite Forall_forall in H. by apply H. }
  split.
  - intros b Hb. destruct (decide (b ∈ owns f')) as [Hbo|Hbo]; [by apply Hin|]. rewrite Hout by done. by apply Himg.
  - lia.
  - intros b Hb. rewrite Hout; [apply Hz; lia|]. intros Hbo%Hown. lia.
  - done.
  - rewrite Hall. apply NoDup_app. split; [done|]. split; [|done]. intros b Hb Hb'. rewrite Forall_forall in Hnew, Hr. specialize (Hnew b Hb). specialize (Hr b Hb'). cbn in *. lia.
  - apply Forall_lookup. intros j g Hj. destruct (decide (i = j)) as [<-|Hne].
    + rewrite list_lookup_insert_eq in Hj by (by eapply lookup_lt_Some). by simplify_eq.
    + rewrite list_lookup_insert_ne in Hj by done. eapply file_ok_ext; [|exact (Forall_lookup_1 _ _ _ _ Hfs Hj)]. intros b Hb. apply Hout. rewrite Ho. rewrite elem_of_app. intros [Hbn|Hbo].
      * pose proof (owns_range _ _ _ _ _ Hok0 Hj Hb). rewrite Forall_forall in Hnew. specialize (Hnew b Hbn). cbn in Hnew. lia.
      * by apply (owns_other _ _ i f j g b Hok0).
Qed.

(** ** The block for the next bytes *)

Definition with_addrs (d : dinode) (l : list Z) : dinode := mk_dinode (d_type d) (d_major d) (d_minor d) (d_nlink d) (d_size d) l.

Lemma addrs_direct f k : (k < 12)%nat -> addrs f !! k = Some (default 0 (f_blocks f !! k)).
Proof.
  intros Hk. unfold addrs. rewrite lookup_app_l by (rewrite length_take, length_app, length_replicate; lia). rewrite lookup_take_lt by lia.
  destruct (f_blocks f !! k) as [b|] eqn:E.
  - by rewrite (lookup_app_l_Some _ _ _ _ E).
  - apply lookup_ge_None in E. rewrite lookup_app_r by lia. cbn [default]. apply lookup_replicate. split; [done|lia].
Qed.
Lemma addrs_ind f : addrs f !! 12%nat = Some (f_ind f).
Proof.
  unfold addrs. rewrite lookup_app_r by (rewrite length_take, length_app, length_replicate; lia).
  by rewrite length_take, length_app, length_replicate, Nat.min_l by lia.
Qed.

Lemma addrs_snoc f b k : length (f_blocks f) = k -> (k < 12)%nat ->
  <[k := b]> (addrs f) = addrs (mk_file (f_type f) (f_data f) (f_blocks f ++ [b]) (f_ind f)).
Proof.
  intros Hl Hk. unfold addrs. cbn [f_blocks f_ind]. rewrite insert_app_l by (rewrite length_take, length_app, length_replicate; lia). f_equal.
  rewrite !take_app_ge by (rewrite ?length_app; cbn; lia). rewrite length_app, Hl. cbn [length]. rewrite !take_replicate.
  rewrite <- (Nat.add_0_r k), <- Hl at 1. rewrite insert_app_r, <- app_assoc. f_equal.
  replace ((12 - k) `min` 12)%nat with (S ((12 - (k + 1)) `min` 12)) by lia. done.
Qed.

Lemma nmeta_pos : nmeta = 46.
Proof. reflexivity. Qed.

Lemma rsect_ok s b d : img s !! b = Some d -> rsect b s = Ret d s.
Proof. intros E. unfold rsect. mred. by rewrite E. Qed.

Lemma wsect_ok s b d : wsect b d s = Ret tt (set_img (<[b := d]> (img s)) s).
Proof. reflexivity. Qed.
Lemma take_block_ok s : 0 <= freeblock s < FSSIZE -> take_block s = Ret (freeblock s) (mk_st (img s) (freeinode s) (freeblock s + 1)).
Proof. intros H. unfold take_block. change FSSIZE with 2000 in H. by rewrite u32_small by lia. Qed.

Lemma slot_old s a l j b : img s !! a = Some (concat (le_bytes 4 <$> l)) -> l !! j = Some b -> 0 < b < 2 ^ 32 ->
  indirect_slot a (Z.of_nat j) s = Ret b s.
Proof.
  intros Ha Hj Hb. unfold indirect_slot. kstep_by rsect_ok; [|exact Ha]. rewrite (ind_at_words _ _ b), (proj2 (Z.eqb_neq b 0)) by (done || lia).
  kstep_by (eq_refl (Ret (concat (le_bytes 4 <$> l)) s)). by rewrite (ind_at_words _ _ b), xint_id by (done || lia).
Qed.
Lemma slot_new s a l j : img s !! a = Some (concat (le_bytes 4 <$> l)) -> l !! j = Some 0 -> 0 < freeblock s < FSSIZE ->
  indirect_slot a (Z.of_nat j) s =
  Ret (freeblock s) (mk_st (<[a := concat (le_bytes 4 <$> <[j := freeblock s]> l)]> (img s)) (freeinode s) (freeblock s + 1)).
Proof.
  intros Ha Hj Hb. pose proof (lookup_lt_Some _ _ _ Hj) as Hlt. change FSSIZE with 2000 in *. unfold indirect_slot. kstep_by rsect_ok; [|exact Ha].
  rewrite (ind_at_words _ _ 0) by (done || lia). cbn [Z.eqb].
  erewrite bind_Ret; [|kstep_by take_block_ok; [|change FSSIZE with 2000; lia]; kstep_by wsect_ok; reflexivity]. cbn beta iota.
  rewrite Nat2Z.id, (xint_id (freeblock s)), put32_words by lia.
  by rewrite (ind_at_words _ _ (freeblock s)), xint_id by (rewrite ?list_lookup_insert_eq by done; done || lia).
Qed.

Lemma block_old s fs i f k b d : data_ok s fs -> fs !! i = Some f -> f_blocks f !! k = Some b -> d_addrs d = addrs f ->
  iappend_block (Z.of_nat k) d s = Ret (d, b) s.
Proof.
  intros Hok Hi Hk Hd. pose proof (dk_free _ _ Hok) as Hfree. pose proof nmeta_pos as Hm.
  assert (Hrange : forall x, x ∈ owns f -> 46 <= x < 2000) by (intros x Hx; pose proof (owns_range _ _ _ _ _ Hok Hi Hx); change FSSIZE with 2000 in *; lia).
  assert (Hb : 46 <= b < 2000) by (apply Hrange; unfold owns; apply elem_of_app; left; by eapply list_elem_of_lookup_2).
  pose proof (Forall_lookup_1 _ _ _ _ (dk_files _ _ Hok) Hi) as [_ Hmax Hind Hent]. unfold iappend_block. change NDIRECT with 12.
  destruct (Z.ltb_spec (Z.of_nat k) 12) as [Hlt|Hge].
  - assert (Ha : xint (default 0 (d_addrs d !! Z.to_nat (Z.of_nat k))) = b).
    { rewrite Nat2Z.id, Hd, (addrs_direct f k), Hk by lia. apply xint_id. lia. }
    rewrite Ha, (proj2 (Z.eqb_neq b 0)) by lia. kstep_by (eq_refl (Ret d s)). by rewrite Ha.
  - pose proof (lookup_lt_Some _ _ _ Hk) as Hlk. assert (Hne : f_ind f <> 0) by (apply Hind; lia).
    assert (Hir : 46 <= f_ind f < 2000) by (apply Hrange; unfold owns; rewrite (proj2 (Z.eqb_neq _ _) Hne); apply elem_of_app; right; apply list_elem_of_here).
    assert (Ha : xint (default 0 (d_addrs d !! Z.to_nat 12)) = f_ind f).
    { change (Z.to_nat 12) with 12%nat. rewrite Hd, addrs_ind. apply xint_id. cbn. lia. }
    rewrite Ha, (proj2 (Z.eqb_neq _ _) Hne). kstep_by (eq_refl (Ret d s)). rewrite Ha. replace (Z.of_nat k - 12) with (Z.of_nat (k - 12)) by lia.
    kstep_by (slot_old s (f_ind f) (entries f) (k - 12) b); [done|by apply Hent| |lia]. unfold entries. rewrite lookup_app_l by (rewrite length_drop; lia).
    rewrite lookup_drop. by replace (12 + (k - 12))%nat with k by lia.
Qed.

Lemma block_length s fs i f b : data_ok s fs -> fs !! i = Some f -> b ∈ owns f -> exists d, img s !! b = Some d /\ is_block d.
Proof.
  intros Hok Hi Hb. apply (dk_img _ _ Hok). pose proof (owns_range _ _ _ _ _ Hok Hi Hb). pose proof (dk_free _ _ Hok). pose proof nmeta_pos. lia.
Qed.

Lemma data_length s fs i f : data_ok s fs -> fs !! i = Some f -> (length (f_data f) <= 1024 * length (f_blocks f))%nat.
Proof.
  intros Hok Hi. pose proof (fk_data _ _ (Forall_lookup_1 _ _ _ _ (dk_files _ _ Hok) Hi)) as H. apply (f_equal length) in H.
  rewrite concat_length, length_app, length_replicate in H; [lia|]. intros b Hb.
  destruct (block_length s fs i f b Hok Hi) as (d & -> & Hd & _); [unfold owns; apply elem_of_app; by left|]. exact Hd.
Qed.

(** One more block of zeroes. *)
Lemma data_snoc (D D' : gmap Z (list Z)) f b : file_ok D f -> (length (f_data f) <= 1024 * length (f_blocks f))%nat -> (forall x, x ∈ f_blocks f -> D' !! x = D !! x) ->
  D' !! b = Some zeroes ->
  concat ((fun b => default [] (D' !! b)) <$> (f_blocks f ++ [b])) = f_data f ++ replicate (1024 * length (f_blocks f ++ [b]) - length (f_data f)) 0.
Proof.
  intros Hf Hlen HD Hb. rewrite fmap_app, concat_app. cbn [fmap list_fmap concat]. rewrite Hb, app_nil_r. change (default [] (Some zeroes)) with zeroes.
  replace (concat ((fun b => default [] (D' !! b)) <$> f_blocks f)) with (concat ((fun b => default [] (D !! b)) <$> f_blocks f)).
  - rewrite (fk_data _ _ Hf), <- app_assoc. f_equal. unfold zeroes. change (Z.to_nat BSIZE) with 1024%nat. rewrite <- replicate_add. f_equal.
    rewrite length_app. cbn [length]. lia.
  - f_equal. apply list_fmap_ext. intros i x Hx. rewrite HD; [done|]. by eapply list_elem_of_lookup_2.
Qed.

Definition grown (f : file) (b ind : Z) : file := mk_file (f_type f) (f_data f) (f_blocks f ++ [b]) ind.

(** The state after a block more, [nb] of them taken. *)
Definition block_post (s : st) (fs : list file) (i : nat) (f : file) (d : dinode) (nb : Z) : Prop :=
  exists b ind s', iappend_block (Z.of_nat (length (f_blocks f))) d s = Ret (with_addrs d (addrs (grown f b ind)), b) s' /\
    data_ok s' (<[i := grown f b ind]> fs) /\ freeblock s' = freeblock s + nb /\ freeinode s' = freeinode s /\
    (forall x, x < nmeta -> img s' !! x = img s !! x).

Lemma block_direct s fs i f d : data_ok s fs -> fs !! i = Some f -> (length (f_blocks f) < 12)%nat -> d_addrs d = addrs f -> freeblock s < FSSIZE ->
  block_post s fs i f d 1.
Proof.
  intros Hok Hi Hk Hd Hfree. pose proof (Forall_lookup_1 _ _ _ _ (dk_files _ _ Hok) Hi) as Hf. pose proof (dk_free _ _ Hok) as Hfr. pose proof nmeta_pos as Hm.
  assert (Hind : f_ind f = 0) by (destruct (decide (f_ind f = 0)) as [|Hne]; [done|apply (fk_ind _ _ Hf) in Hne; lia]).
  change FSSIZE with 2000 in *. unfold block_post. set (k := length (f_blocks f)) in *. exists (freeblock s), 0, (mk_st (img s) (freeinode s) (freeblock s + 1)).
  assert (Ea : addrs (grown f (freeblock s) 0) = <[k := freeblock s]> (addrs f)) by (unfold grown; rewrite <- Hind; symmetry; by apply addrs_snoc).
  split; [|split; [|done]].
  - unfold iappend_block. change NDIRECT with 12. rewrite (proj2 (Z.ltb_lt (Z.of_nat k) 12)) by lia.
    assert (Hz : xint (default 0 (d_addrs d !! Z.to_nat (Z.of_nat k))) = 0).
    { rewrite Nat2Z.id, Hd, (addrs_direct f k), lookup_ge_None_2 by (unfold k in *; lia). by apply xint_id. }
    rewrite Hz. cbn [Z.eqb]. erewrite bind_Ret; [|kstep_by take_block_ok; [|change FSSIZE with 2000; lia]; reflexivity]. cbn beta iota.
    cbn [d_addrs]. rewrite Nat2Z.id, xint_id by lia. rewrite Hd, <- Ea. unfold with_addrs.
    rewrite (addrs_direct _ k) by lia. cbn [f_blocks grown]. unfold k. rewrite lookup_app_r, Nat.sub_diag by lia. cbn [lookup list_lookup default]. unfold id.
    by rewrite xint_id by lia.
  - apply (data_update s _ fs i f _ [freeblock s]); try done; cbn [img freeblock].
    + unfold owns, grown. cbn [f_blocks f_ind]. rewrite Hind. cbn. rewrite !app_nil_r. by rewrite Permutation_app_comm.
    + apply NoDup_singleton.
    + constructor; [lia|constructor].
    + change FSSIZE with 2000. lia.
    + unfold owns, grown. cbn [f_blocks f_ind]. cbn [Z.eqb]. rewrite app_nil_r. intros b Hb. apply elem_of_app in Hb as [Hb|Hb%list_elem_of_singleton].
      * apply (block_length s fs i f b Hok Hi). unfold owns. apply elem_of_app. by left.
      * subst. apply (dk_img _ _ Hok). change FSSIZE with 2000. lia.
    + split; cbn [grown f_blocks f_data f_ind].
      * apply (data_snoc (img s)); [done|by eapply data_length|done|]. apply (dk_zero _ _ Hok). change FSSIZE with 2000. lia.
      * rewrite length_app. cbn. unfold k in *. lia.
      * rewrite length_app. cbn. unfold k in *. lia.
      * done.
Qed.

Lemma zeroes_words : zeroes = concat (le_bytes 4 <$> replicate 256 0).
Proof. by vm_compute. Qed.

Lemma words_block l : length l = 256%nat -> is_block (concat (le_bytes 4 <$> l)).
Proof. intros Hl. split; [rewrite length_concat4, Hl; done|apply bytes_concat4]. Qed.

Lemma entries_snoc f b ind : (12 <= length (f_blocks f) < 268)%nat ->
  entries (grown f b ind) = <[(length (f_blocks f) - 12)%nat := b]> (entries f) /\ length (entries f) = 256%nat.
Proof.
  intros Hk. unfold entries, grown. cbn [f_blocks]. split; [|rewrite length_app, length_drop, length_replicate; lia].
  rewrite drop_app_le, length_app by lia. cbn [length]. rewrite <- (Nat.add_0_r (_ - 12)), <- (length_drop (f_blocks f) 12), insert_app_r, <- app_assoc. f_equal.
  by replace (268 - length (f_blocks f))%nat with (S (268 - (length (f_blocks f) + 1))) by lia.
Qed.

Lemma addrs_far f b ind : (12 <= length (f_blocks f))%nat -> addrs (grown f b ind) = <[12%nat := ind]> (addrs f).
Proof.
  intros Hk. unfold addrs, grown. cbn [f_blocks f_ind].
  assert (Hl : length (take 12 (f_blocks f ++ replicate 12 0)) = 12%nat) by (rewrite length_take, length_app, length_replicate; lia).
  rewrite insert_app_r_alt, Hl by lia. cbn [Nat.sub insert list_insert]. by rewrite <- app_assoc, !(take_app_le (f_blocks f)) by lia.
Qed.

Lemma block_more s fs i f d : data_ok s fs -> fs !! i = Some f -> (12 < length (f_blocks f) < 268)%nat -> d_addrs d = addrs f -> freeblock s < FSSIZE ->
  block_post s fs i f d 1.
Proof.
  intros Hok Hi Hk Hd Hfree. pose proof (Forall_lookup_1 _ _ _ _ (dk_files _ _ Hok) Hi) as Hf. pose proof (dk_free _ _ Hok) as Hfr. pose proof nmeta_pos as Hm.
  assert (Hne : f_ind f <> 0) by (apply (fk_ind _ _ Hf); lia). pose proof (fk_entries _ _ Hf Hne) as Hent.
  assert (Hio : f_ind f ∈ owns f) by (unfold owns; rewrite (proj2 (Z.eqb_neq _ _) Hne); apply elem_of_app; right; apply list_elem_of_here).
  pose proof (owns_range _ _ _ _ _ Hok Hi Hio) as Hir. destruct (entries_snoc f (freeblock s) (f_ind f) ltac:(lia)) as [He Hle].
  assert (Hbi : f_ind f ∉ f_blocks f).
  { pose proof (dk_nodup _ _ Hok) as Hnd. rewrite (concat_owns fs i f Hi) in Hnd. apply NoDup_app in Hnd as [Hnd _]. unfold owns in Hnd.
    rewrite (proj2 (Z.eqb_neq _ _) Hne) in Hnd. apply NoDup_app in Hnd as (_ & Hnd & _). intros Hb. apply (Hnd _ Hb). apply list_elem_of_here. }
  set (k := length (f_blocks f)) in *. set (I := concat (le_bytes 4 <$> entries (grown f (freeblock s) (f_ind f)))).
  exists (freeblock s), (f_ind f), (mk_st (<[f_ind f := I]> (img s)) (freeinode s) (freeblock s + 1)).
  assert (Ea : addrs (grown f (freeblock s) (f_ind f)) = addrs f) by (rewrite addrs_far by (unfold k in *; lia); apply list_insert_id, addrs_ind).
  split; [|split; [|split; [done|split; [done|]]]].
  - fold k. unfold iappend_block. change NDIRECT with 12. change FSSIZE with 2000 in *. rewrite (proj2 (Z.ltb_ge (Z.of_nat k) 12)) by lia.
    assert (Ha : xint (default 0 (d_addrs d !! Z.to_nat 12)) = f_ind f) by (change (Z.to_nat 12) with 12%nat; rewrite Hd, addrs_ind; apply xint_id; cbn; lia).
    rewrite Ha, (proj2 (Z.eqb_neq _ _) Hne). kstep_by (eq_refl (Ret d s)). rewrite Ha. replace (Z.of_nat k - 12) with (Z.of_nat (k - 12)) by lia.
    kstep_by (slot_new s (f_ind f) (entries f) (k - 12)); [|exact Hent| |change FSSIZE with 2000; lia].
    + unfold I. rewrite He, Ea, <- Hd. by destruct d.
    + unfold entries. rewrite lookup_app_r by (rewrite length_drop; unfold k; lia). apply lookup_replicate. rewrite length_drop. unfold k in *. split; [done|lia].
  - assert (Hog : owns (grown f (freeblock s) (f_ind f)) = f_blocks f ++ [freeblock s; f_ind f]).
    { unfold owns, grown. cbn [f_blocks f_ind]. rewrite (proj2 (Z.eqb_neq _ _) Hne), <- app_assoc. done. }
    assert (Hof : owns f = f_blocks f ++ [f_ind f]) by (unfold owns; by rewrite (proj2 (Z.eqb_neq _ _) Hne)).
    apply (data_update s _ fs i f _ [freeblock s]); try done; cbn [img freeblock].
    + rewrite Hog, Hof. by rewrite (Permutation_app_comm (f_blocks f) [freeblock s; f_ind f]), (Permutation_app_comm (f_blocks f) [f_ind f]).
    + apply NoDup_singleton.
    + constructor; [lia|constructor].
    + change FSSIZE with 2000 in *. lia.
    + intros b Hb. rewrite Hog, elem_of_app in Hb. apply lookup_insert_ne. intros <-. apply Hb. right. apply list_elem_of_further, list_elem_of_here.
    + intros b Hb. destruct (decide (b = f_ind f)) as [->|Hbne].
      * rewrite lookup_insert_eq. eexists. split; [done|]. apply words_block. rewrite He. by rewrite length_insert.
      * rewrite lookup_insert_ne by done. rewrite Hog, elem_of_app, !elem_of_cons, elem_of_nil in Hb. destruct Hb as [Hb|[->|[->|[]]]]; [| |done].
        -- apply (block_length s fs i f b Hok Hi). rewrite Hof. apply elem_of_app. by left.
        -- apply (dk_img _ _ Hok). lia.
    + split; cbn [grown f_blocks f_data f_ind].
      * apply (data_snoc (img s)); [done|by eapply data_length| |].
        -- intros x Hx. apply lookup_insert_ne. by intros <-.
        -- rewrite lookup_insert_ne by lia. apply (dk_zero _ _ Hok). lia.
      * rewrite length_app. cbn. unfold k in *. lia.
      * rewrite length_app. cbn. unfold k in *. lia.
      * intros _. by rewrite lookup_insert_eq.
  - intros x Hx. cbn [img]. apply lookup_insert_ne. lia.
Qed.

Lemma block_first s fs i f d : data_ok s fs -> fs !! i = Some f -> length (f_blocks f) = 12%nat -> d_addrs d = addrs f -> freeblock s + 1 < FSSIZE ->
  block_post s fs i f d 2.
Proof.
  intros Hok Hi Hk Hd Hfree. pose proof (Forall_lookup_1 _ _ _ _ (dk_files _ _ Hok) Hi) as Hf. pose proof (dk_free _ _ Hok) as Hfr. pose proof nmeta_pos as Hm.
  assert (Hind : f_ind f = 0) by (destruct (decide (f_ind f = 0)) as [|Hne]; [done|apply (fk_ind _ _ Hf) in Hne; lia]).
  change FSSIZE with 2000 in *. set (a := freeblock s) in *. set (g := grown f (a + 1) a).
  pose proof (dk_zero _ _ Hok a ltac:(change FSSIZE with 2000; unfold a; lia)) as Hza. rewrite zeroes_words in Hza.
  destruct (entries_snoc f (a + 1) a ltac:(lia)) as [He Hle]. rewrite Hk in He. change (12 - 12)%nat with O in He.
  assert (Hent : entries f = replicate 256 0) by (unfold entries; rewrite drop_ge, Hk by lia; done).
  exists (a + 1), a, (mk_st (<[a := concat (le_bytes 4 <$> entries g)]> (img s)) (freeinode s) (a + 1 + 1)). fold g.
  assert (Ea : addrs g = <[12%nat := a]> (addrs f)) by (apply addrs_far; lia).
  assert (Hog : owns g = f_blocks f ++ [a + 1; a]) by (unfold owns, g, grown; cbn [f_blocks f_ind]; rewrite (proj2 (Z.eqb_neq a 0)), <- app_assoc by lia; done).
  assert (Hof : owns f = f_blocks f) by (unfold owns; rewrite Hind; apply app_nil_r).
  assert (Hnot : a ∉ f_blocks f) by (intros Hb; rewrite <- Hof in Hb; pose proof (owns_range _ _ _ _ _ Hok Hi Hb); lia).
  split; [|split; [|split; [cbn; lia|split; [done|]]]].
  - rewrite Hk. unfold iappend_block. change NDIRECT with 12. rewrite (proj2 (Z.ltb_ge (Z.of_nat 12) 12)) by lia. change (Z.to_nat 12) with 12%nat.
    rewrite Hd, addrs_ind, Hind. change (xint (default 0 (Some 0))) with 0. cbn [Z.eqb].
    erewrite bind_Ret; [|kstep_by take_block_ok; [|change FSSIZE with 2000; lia]; reflexivity]. cbn beta iota. cbn [d_addrs]. fold a.
    rewrite (xint_id a) by lia. rewrite <- Ea. unfold g. rewrite addrs_ind. cbn [default grown f_ind]. unfold id. rewrite xint_id by lia.
    change (Z.of_nat 12 - 12) with (Z.of_nat 0).
    kstep_by (slot_new (mk_st (img s) (freeinode s) (a + 1)) a (entries f) 0); [|cbn [img]; by rewrite Hza, Hent|by rewrite Hent|cbn [freeblock]; change FSSIZE with 2000; lia].
    cbn [freeblock freeinode img]. rewrite <- He. by unfold with_addrs.
  - apply (data_update s _ fs i f _ [a + 1; a]); try done; cbn [img freeblock]; fold a.
    + rewrite Hog, Hof. by rewrite Permutation_app_comm.
    + apply NoDup_cons. split; [rewrite list_elem_of_singleton; lia|apply NoDup_singleton].
    + constructor; [lia|constructor; [lia|constructor]].
    + change FSSIZE with 2000. lia.
    + intros b Hb. rewrite Hog, elem_of_app in Hb. apply lookup_insert_ne. intros <-. apply Hb. right. apply list_elem_of_further, list_elem_of_here.
    + intros b Hb. destruct (decide (b = a)) as [->|Hbne].
      * rewrite lookup_insert_eq. eexists. split; [done|]. apply words_block. unfold g. rewrite He. by rewrite length_insert.
      * rewrite lookup_insert_ne by done. rewrite Hog, elem_of_app, !elem_of_cons, elem_of_nil in Hb. destruct Hb as [Hb|[->|[->|[]]]]; [| |done].
        -- apply (block_length s fs i f b Hok Hi). by rewrite Hof.
        -- apply (dk_img _ _ Hok). change FSSIZE with 2000. lia.
    + split; cbn [g grown f_blocks f_data f_ind].
      * apply (data_snoc (img s)); [done|by eapply data_length| |].
        -- intros x Hx. apply lookup_insert_ne. by intros <-.
        -- rewrite lookup_insert_ne by lia. apply (dk_zero _ _ Hok). change FSSIZE with 2000. lia.
      * rewrite length_app. cbn. lia.
      * rewrite length_app. cbn. lia.
      * intros _. by rewrite lookup_insert_eq.
  - intros x Hx. cbn [img]. apply lookup_insert_ne. lia.
Qed.

Definition cost (k : nat) : Z := if (k =? 12)%nat then 2 else 1.

Lemma block_new s fs i f d : data_ok s fs -> fs !! i = Some f -> (length (f_blocks f) < 268)%nat -> d_addrs d = addrs f ->
  freeblock s + cost (length (f_blocks f)) <= FSSIZE -> block_post s fs i f d (cost (length (f_blocks f))).
Proof.
  intros Hok Hi Hk Hd Hfree. unfold cost in *. destruct (Nat.eqb_spec (length (f_blocks f)) 12).
  - apply block_first; (done || lia).
  - destruct (decide (length (f_blocks f) < 12)%nat); [apply block_direct|apply block_more]; (done || lia).
Qed.

(** ** Writing into a block *)

Definition appended (f : file) (bs : list Z) : file := mk_file (f_type f) (f_data f ++ bs) (f_blocks f) (f_ind f).

Lemma write_ok s fs i f k b r bs old : data_ok s fs -> fs !! i = Some f -> f_blocks f !! k = Some b -> (1024 * k + r = length (f_data f))%nat ->
  (r + length bs <= 1024)%nat -> bytes bs -> img s !! b = Some old -> data_ok (set_img (<[b := put_at r bs old]> (img s)) s) (<[i := appended f bs]> fs).
Proof.
  intros Hok Hi Hk Hr Hbs Hbb Hold. pose proof (Forall_lookup_1 _ _ _ _ (dk_files _ _ Hok) Hi) as Hf. pose proof (lookup_lt_Some _ _ _ Hk) as Hlt.
  assert (Hbo : b ∈ owns f) by (unfold owns; apply elem_of_app; left; by eapply list_elem_of_lookup_2).
  destruct (block_length s fs i f b Hok Hi Hbo) as (d & Ed & Hd1 & Hd2). rewrite Ed in Hold. injection Hold as ->. change (Z.to_nat BSIZE) with 1024%nat in Hd1.
  assert (Hnd : NoDup (owns f)) by (pose proof (dk_nodup _ _ Hok) as H; rewrite (concat_owns fs i f Hi) in H; by apply NoDup_app in H as [? _]).
  apply (data_update s _ fs i f _ []); cbn [img freeblock set_img]; try done.
  - constructor.
  - pose proof (dk_free _ _ Hok). lia.
  - intros x Hx. apply lookup_insert_ne. by intros <-.
  - intros x Hx. destruct (decide (x = b)) as [->|Hne].
    + rewrite lookup_insert_eq. eexists. split; [done|]. split; [by rewrite length_put_at|]. apply put_at_bytes; [lia|done|done].
    + rewrite lookup_insert_ne by done. by apply (block_length s fs i f x Hok Hi).
  - destruct Hf as [H1 H2 H3 H4]. split; cbn [appended f_blocks f_data f_ind]; [|done|done|].
    + transitivity (concat ((fun x => if x =? b then put_at r bs (default [] (img s !! b)) else default [] (img s !! x)) <$> f_blocks f)).
      { f_equal. apply list_fmap_ext. intros j x _. destruct (Z.eqb_spec x b) as [->|Hne]; [by rewrite lookup_insert_eq, Ed|by rewrite lookup_insert_ne]. }
      rewrite (concat_put (fun x => default [] (img s !! x)) (f_blocks f) k b r bs); [|by apply NoDup_app in Hnd as [? _]|done| |done].
      * rewrite H1, Hr, put_at_append by lia. f_equal. f_equal. rewrite length_app. lia.
      * intros x Hx. destruct (block_length s fs i f x Hok Hi) as (dx & -> & Hdx & _); [unfold owns; apply elem_of_app; by left|]. exact Hdx.
    + intros Hne. rewrite lookup_insert_ne; [by apply H4|]. intros ->. unfold owns in Hnd. rewrite (proj2 (Z.eqb_neq _ _) Hne) in Hnd.
      apply NoDup_app in Hnd as (_ & Hnd & _). apply (Hnd (f_ind f)); [by eapply list_elem_of_lookup_2|apply list_elem_of_here].
Qed.

(** ** One turn of iappend *)

(** What the loop of [iappend] keeps: the file so far and the inode in memory. *)
Record loop_ok (s0 : st) (fs : list file) (i : nat) (d0 : dinode) (s : st) (f : file) (d : dinode) (off : Z) : Prop := {
  lp_data : data_ok s (<[i := f]> fs);
  lp_tight : tight f;
  lp_din : d = with_addrs d0 (addrs f);
  lp_off : off = Z.of_nat (length (f_data f));
  lp_inode : freeinode s = freeinode s0;
  lp_meta : forall x, x < nmeta -> img s !! x = img s0 !! x
}.

Lemma insert_twice {A} (l : list A) i x y : <[i := x]> (<[i := y]> l) = <[i := x]> l.
Proof. apply list_insert_insert_eq. Qed.

Lemma nblk_blocks f : tight f -> (length (f_data f) <= 1024 * length (f_blocks f))%nat -> length (f_blocks f) = nblk (length (f_data f)).
Proof.
  intros Ht Hl. unfold tight in Ht. unfold nblk. apply Nat.div_unique with (length (f_data f) + 1023 - 1024 * length (f_blocks f))%nat; lia.
Qed.

Lemma needs_new L n : (L mod 1024 = 0)%nat -> (0 < n <= 1024)%nat ->
  nblk L = (L / 1024)%nat /\ Z.of_nat (needs (L + n)) = Z.of_nat (needs L) + cost (nblk L).
Proof.
  intros Hr Hn. pose proof (Nat.div_mod_eq L 1024) as HL.
  assert (E1 : nblk L = (L / 1024)%nat) by (symmetry; unfold nblk; apply Nat.div_unique with 1023%nat; lia).
  assert (E2 : nblk (L + n) = S (L / 1024)) by (symmetry; unfold nblk; apply Nat.div_unique with (n - 1)%nat; lia).
  split; [done|]. unfold needs, cost. rewrite E1, E2. destruct (Nat.eqb_spec (L / 1024) 12), (Nat.ltb_spec 12 (L / 1024)), (Nat.ltb_spec 12 (S (L / 1024))); lia.
Qed.
Lemma needs_old L n : (L mod 1024 <> 0)%nat -> (L mod 1024 + n <= 1024)%nat -> nblk L = S (L / 1024) /\ needs (L + n) = needs L.
Proof.
  intros Hr Hn. pose proof (Nat.div_mod_eq L 1024) as HL.
  assert (E1 : nblk L = S (L / 1024)) by (symmetry; unfold nblk; apply Nat.div_unique with (L mod 1024 - 1)%nat; lia).
  assert (E2 : nblk (L + n) = S (L / 1024)) by (symmetry; unfold nblk; apply Nat.div_unique with (L mod 1024 + n - 1)%nat; lia).
  split; [done|]. unfold needs. by rewrite E1, E2.
Qed.
Lemma needs_mono L L' : (L <= L')%nat -> (needs L <= needs L')%nat.
Proof.
  intros H. assert (nblk L <= nblk L')%nat by (unfold nblk; apply Nat.Div0.div_le_mono; lia). unfold needs.
  destruct (Nat.ltb_spec 12 (nblk L)), (Nat.ltb_spec 12 (nblk L')); lia.
Qed.

(** The block the next bytes go to, at index [k] of the file. *)
Lemma step_block s0 fs i d0 s f d off n :
  (i < length fs)%nat -> loop_ok s0 fs i d0 s f d off -> (0 < n)%nat -> (length (f_data f) mod 1024 + n <= 1024)%nat -> (length (f_data f) + n <= 268 * 1024)%nat ->
  freeblock s + Z.of_nat (needs (length (f_data f) + n)) - Z.of_nat (needs (length (f_data f))) <= FSSIZE ->
  exists b f1 s1, iappend_block (off / BSIZE) d s = Ret (with_addrs d0 (addrs f1), b) s1 /\ data_ok s1 (<[i := f1]> fs) /\
    f_type f1 = f_type f /\ f_data f1 = f_data f /\ f_blocks f1 !! (length (f_data f) / 1024)%nat = Some b /\ length (f_blocks f1) = S (length (f_data f) / 1024) /\
    freeblock s1 = freeblock s + Z.of_nat (needs (length (f_data f) + n)) - Z.of_nat (needs (length (f_data f))) /\ freeinode s1 = freeinode s /\
    (forall x, x < nmeta -> img s1 !! x = img s !! x).
Proof.
  intros Hil [Hok Ht -> -> _ _] Hn Hr Hmax Hbud. set (L := length (f_data f)) in *. pose proof (list_lookup_insert_eq fs i f Hil) as Hi.
  pose proof (nblk_blocks f Ht (data_length _ _ _ _ Hok Hi)) as Hnb. fold L in Hnb. pose proof (Nat.div_mod_eq L 1024) as HL.
  assert (Efbn : Z.of_nat L / BSIZE = Z.of_nat (L / 1024)) by (change BSIZE with (Z.of_nat 1024); by rewrite Nat2Z.inj_div). rewrite Efbn.
  destruct (decide (L mod 1024 = 0)%nat) as [Hz|Hz].
  - destruct (needs_new L n Hz ltac:(lia)) as [Ek Hc]. rewrite Ek in Hnb, Hc. rewrite Hc in Hbud |- *.
    destruct (block_new s _ i f (with_addrs d0 (addrs f)) Hok Hi) as (b & ind & s1 & R & Hok1 & Hf & Hi1 & Hm); [lia|done|rewrite Hnb; lia|].
    rewrite Hnb in R, Hf. exists b, (grown f b ind), s1. split; [exact R|]. rewrite insert_twice in Hok1. cbn [grown f_type f_data f_blocks].
    split_and!; try done; [rewrite lookup_app_r, Hnb, Nat.sub_diag by lia; done|rewrite length_app, Hnb; cbn; lia|lia].
  - destruct (needs_old L n Hz Hr) as [Ek Hc]. rewrite Ek in Hnb. rewrite Hc in *.
    destruct (lookup_lt_is_Some_2 (f_blocks f) (L / 1024) ltac:(lia)) as [b Hb]. exists b, f, s.
    split; [apply (block_old s (<[i := f]> fs) i f _ b (with_addrs d0 (addrs f)) Hok Hi Hb eq_refl)|]. split_and!; try done; lia.
Qed.

Lemma step_spec s0 fs i d0 s f d off p :
  (i < length fs)%nat -> loop_ok s0 fs i d0 s f d off -> p <> [] -> bytes p -> (length (f_data f) + length p <= 268 * 1024)%nat ->
  freeblock s + Z.of_nat (needs (length (f_data f) + length p)) - Z.of_nat (needs (length (f_data f))) <= FSSIZE ->
  exists n s' f' d', (0 < n <= length p)%nat /\
    iappend_step (d, off, p) s = Ret (inl (d', Z.of_nat (length (f_data f) + n), drop n p)) s' /\
    loop_ok s0 fs i d0 s' f' d' (Z.of_nat (length (f_data f) + n)) /\ f_type f' = f_type f /\ f_data f' = f_data f ++ take n p /\
    freeblock s' = freeblock s + Z.of_nat (needs (length (f_data f) + n)) - Z.of_nat (needs (length (f_data f))).
Proof.
  intros Hil Hlp Hp Hbp Hmax Hbud. set (L := length (f_data f)) in *. pose proof (Nat.div_mod_eq L 1024) as HL. pose proof (Nat.mod_upper_bound L 1024 ltac:(lia)) as Hmod.
  assert (Hlen : (0 < length p)%nat) by (destruct p; [done|cbn; lia]). set (n := Nat.min (length p) (1024 - L mod 1024)).
  assert (Hn : (0 < n <= length p)%nat /\ (L mod 1024 + n <= 1024)%nat) by (unfold n; lia). destruct Hn as [Hn Hr].
  pose proof (needs_mono (L + n) (L + length p) ltac:(lia)) as Hmono.
  destruct (step_block s0 fs i d0 s f d off n Hil Hlp ltac:(lia) Hr ltac:(lia) ltac:(fold L; lia)) as (b & f1 & s1 & R1 & Hok1 & Hty & Hda & Hb & Hbl & Hf1 & Hi1 & Hm1).
  fold L in R1, Hda, Hb, Hbl, Hf1. pose proof (list_lookup_insert_eq fs i f1 Hil) as Hi.
  destruct (block_length s1 _ i f1 b Hok1 Hi) as (old & Hold & _); [unfold owns; apply elem_of_app; left; by eapply list_elem_of_lookup_2|].
  assert (Hrb : (1024 * (L / 1024) + L mod 1024 = length (f_data f1))%nat) by (rewrite Hda; fold L; lia).
  pose proof (write_ok s1 _ i f1 _ b (L mod 1024) (take n p) old Hok1 Hi Hb Hrb ltac:(rewrite length_take; lia) ltac:(by apply Forall_take) Hold) as Hok2.
  rewrite insert_twice in Hok2. pose proof (lp_off _ _ _ _ _ _ _ _ Hlp) as Hoff. fold L in Hoff.
  assert (HB : BSIZE = 1024) by reflexivity. assert (Efbn : off / BSIZE = Z.of_nat (L / 1024)) by (rewrite Hoff, HB; change 1024 with (Z.of_nat 1024); by rewrite Nat2Z.inj_div).
  assert (Er : off - off / BSIZE * BSIZE = Z.of_nat (L mod 1024)) by (rewrite Efbn, Hoff, HB; lia).
  assert (En : Z.min (Z.of_nat (length p)) ((off / BSIZE + 1) * BSIZE - off) = Z.of_nat n) by (rewrite Efbn, Hoff, HB; unfold n; lia).
  exists n, (set_img (<[b := put_at (L mod 1024) (take n p) old]> (img s1)) s1), (appended f1 (take n p)), (with_addrs d0 (addrs f1)). split; [done|]. split; [|split; [|split; [done|split; [cbn; by rewrite Hda|exact Hf1]]]].
  - unfold iappend_step. rewrite (proj2 (Z.ltb_lt 0 (Z.of_nat (length p)))) by lia. cbn [negb].
    erewrite bind_Ret; [|unfold assert; rewrite (proj2 (Z.ltb_lt (off / BSIZE) MAXFILE)) by (rewrite Efbn; change MAXFILE with 268; lia); reflexivity].
    cbn beta iota. kstep_by R1. kstep_by rsect_ok; [|exact Hold]. rewrite Er, En, !Nat2Z.id. kstep_by wsect_ok. rewrite Hoff, u32_small by lia.
    by rewrite Nat2Z.inj_add.
  - split; try done.
    + unfold tight, appended. cbn [f_data f_blocks]. rewrite length_app, length_take, Hbl, Hda. fold L. lia.
    + cbn [appended f_data]. rewrite Hda, length_app, length_take. fold L. f_equal. lia.
    + cbn [set_img freeinode]. rewrite Hi1. apply (lp_inode _ _ _ _ _ _ _ _ Hlp).
    + intros x Hx. cbn [set_img img]. assert (Hbr : nmeta <= b).
      { apply (owns_range s1 _ i f1 b Hok1 Hi). unfold owns. apply elem_of_app. left. by eapply list_elem_of_lookup_2. }
      rewrite lookup_insert_ne, Hm1 by (done || lia). by apply (lp_meta _ _ _ _ _ _ _ _ Hlp).
Qed.

Lemma loop_spec fs i d0 s0 m : forall s f d off p fuel,
  (i < length fs)%nat -> loop_ok s0 fs i d0 s f d off -> (length p <= m)%nat -> (m < fuel)%nat -> bytes p -> (length (f_data f) + length p <= 268 * 1024)%nat ->
  freeblock s + Z.of_nat (needs (length (f_data f) + length p)) - Z.of_nat (needs (length (f_data f))) <= FSSIZE ->
  exists s' f' d' off', loop fuel iappend_step (d, off, p) s = Ret (d', off') s' /\ loop_ok s0 fs i d0 s' f' d' off' /\ f_type f' = f_type f /\
    f_data f' = f_data f ++ p /\ freeblock s' = freeblock s + Z.of_nat (needs (length (f_data f) + length p)) - Z.of_nat (needs (length (f_data f))).
Proof.
  induction m as [|m IH]; intros s f d off p [|fuel] Hil Hlp Hm Hfu Hbp Hmax Hbud; try lia.
  all: destruct (decide (p = [])) as [->|Hne]; [exists s, f, d, off; rewrite app_nil_r, Nat.add_0_r; split_and!; first [done|by apply loop_break|lia]|].
  { destruct p; [done|cbn in Hm; lia]. }
  destruct (step_spec s0 fs i d0 s f d off p Hil Hlp Hne Hbp Hmax Hbud) as (n & s1 & f1 & d1 & Hn & R1 & Hlp1 & Ht1 & Hd1 & Hf1).
  assert (Hlen1 : length (f_data f1) = (length (f_data f) + n)%nat) by (rewrite Hd1, length_app, length_take; lia).
  assert (Hlenp : (length (f_data f1) + length (drop n p) = length (f_data f) + length p)%nat) by (rewrite Hlen1, length_drop; lia).
  destruct (IH s1 f1 d1 _ (drop n p) fuel Hil Hlp1) as (s2 & f2 & d2 & off2 & R2 & Hlp2 & Ht2 & Hd2 & Hf2).
  - rewrite length_drop. lia.
  - lia.
  - by apply Forall_drop.
  - lia.
  - rewrite Hlenp, Hlen1. lia.
  - exists s2, f2, d2, off2. split; [by rewrite (loop_continue _ _ _ _ _ _ R1)|]. split_and!; [done|congruence| |rewrite Hf2, Hlenp, Hlen1; lia].
    by rewrite Hd2, Hd1, <- app_assoc, take_drop.
Qed.

(** ** The inodes *)

Record image_ok (s : st) (fs : list file) : Prop := {
  im_data : data_ok s fs;
  im_inodes : inodes_ok s fs;
  im_tight : Forall tight fs;
  im_type : Forall (fun f => 0 <= f_type f < 2 ^ 15) fs;
  im_free : freeinode s = Z.of_nat (length fs) + 1;
  im_max : (length fs <= 207)%nat;
  im_sb : img s !! 1 = Some (put_at 0 (sb_bytes sb) zeroes);
  im_log : img s !! 2 = Some zeroes
}.

Lemma IBLOCK_eq i : (i < 207)%nat -> IBLOCK (Z.of_nat i + 1) sb = (Z.of_nat i + 1) / 16 + 32 /\ 32 <= IBLOCK (Z.of_nat i + 1) sb < 45.
Proof.
  intros Hi. assert (E : IBLOCK (Z.of_nat i + 1) sb = (Z.of_nat i + 1) / 16 + 32).
  { unfold IBLOCK. change (sb_inodestart sb) with 32. change IPB with 16. apply u32_small. divlia. }
  rewrite E. split; [done|]. divlia.
Qed.

Definition as_inode (inum : Z) (d : dinode) : inode :=
  mk_inode ROOTDEV inum 0 sleeplock0 false (d_type d) (d_major d) (d_minor d) (d_nlink d) (d_size d) (d_addrs d).

Lemma dip_off_bound i : (dip_off i + 64 <= 1024)%nat.
Proof. unfold dip_off. change IPB with 16. pose proof (Z.mod_pos_bound i 16 ltac:(lia)). lia. Qed.

Lemma dinode_put d buf inum : dinode_ok (as_inode inum d) -> length buf = 1024%nat -> dinode_at (put_at (dip_off inum) (bytes_of d) buf) (dip_off inum) = d.
Proof.
  intros Hd Hl. pose proof (dip_off_bound inum) as Ho. destruct (load_put (as_inode inum d) (as_inode inum d) buf Hd eq_refl) as (H1 & H2 & H3 & H4 & H5 & H6); [cbn [as_inode i_inum]; lia|].
  rewrite put_dinode_eq in H1, H2, H3, H4, H5, H6 by (apply Hd || (cbn [as_inode i_inum]; lia)).
  change (dinode_bytes (as_inode inum d)) with (bytes_of d) in *. cbn [as_inode i_inum i_type i_major i_minor i_nlink i_size i_addrs load_dinode
    set_i_addrs set_i_size set_i_nlink set_i_minor set_i_major set_i_type] in *. unfold dinode_at. rewrite H1, H2, H3, H4, H5, H6. by destruct d.
Qed.

Lemma dinode_other d buf o o' : length (bytes_of d) = 64%nat -> (o + 64 <= length buf)%nat -> (o' + 64 <= o \/ o + 64 <= o')%nat ->
  dinode_at (put_at o (bytes_of d) buf) o' = dinode_at buf o'.
Proof.
  intros Hl Ho Hd. unfold dinode_at, di_type, di_major, di_minor, di_nlink, di_size, di_addrs, get16, get32.
  rewrite !get_put_other by lia. f_equal. apply list_fmap_ext. intros j x Hj. apply lookup_seq in Hj as [-> Hj]. rewrite get_put_other by lia. done.
Qed.

Lemma din_ok s fs i f : data_ok s fs -> fs !! i = Some f -> 0 <= f_type f < 2 ^ 15 -> dinode_ok (as_inode (Z.of_nat i + 1) (din f)) /\ length (bytes_of (din f)) = 64%nat.
Proof.
  intros Hok Hi Hty. pose proof (data_length _ _ _ _ Hok Hi) as Hlen. pose proof (fk_max _ _ (Forall_lookup_1 _ _ _ _ (dk_files _ _ Hok) Hi)) as Hmax.
  assert (Hla : length (addrs f) = 13%nat) by (unfold addrs; rewrite length_app, length_take, length_app, length_replicate; cbn [length]; lia).
  assert (Hok' : dinode_ok (as_inode (Z.of_nat i + 1) (din f))).
  { split; cbn [as_inode din i_type i_major i_minor i_nlink i_size i_addrs d_type d_major d_minor d_nlink d_size d_addrs]; try done; try lia.
    assert (Hown : forall b, b ∈ owns f -> 0 <= b < 2 ^ 32).
    { intros b Hb. pose proof (owns_range _ _ _ _ _ Hok Hi Hb). pose proof (dk_free _ _ Hok). pose proof nmeta_pos. change FSSIZE with 2000 in *. lia. }
    apply Forall_forall. intros b Hb. unfold addrs in Hb. apply elem_of_app in Hb as [Hb|Hb%list_elem_of_singleton].
    - apply elem_of_take in Hb as (j & Hb & _). apply list_elem_of_lookup_2 in Hb. apply elem_of_app in Hb as [Hb|Hb].
      + apply Hown. unfold owns. apply elem_of_app. by left.
      + apply elem_of_replicate in Hb as [-> _]. lia.
    - subst b. destruct (decide (f_ind f = 0)) as [->|Hne]; [lia|]. apply Hown. unfold owns. rewrite (proj2 (Z.eqb_neq _ _) Hne). apply elem_of_app. right. apply list_elem_of_here. }
  split; [done|]. apply (length_dinode (as_inode 0 (din f))). exact Hla.
Qed.
End MkfsProps.
