(* ===== verification/MkfsImage.v ===== *)
(** * mkfs: the whole image, and the kernel on it *)

From stdpp Require Import base list gmap strings.
From Stdlib Require Import ZArith Lia.
From S2P Require Import Prelude Mem KString Format State Bio Log Commit Bcache Fs FsTx FsAlloc FsFile FsDinode FsProps Mkfs MkfsProps.
Open Scope Z_scope.

Module MkfsImage.
Import Mkfs MkfsProps.

(** ** Writing an inode *)

Lemma data_meta s fs b d : data_ok s fs -> 0 <= b < nmeta -> is_block d -> data_ok (set_img (<[b := d]> (img s)) s) fs.
Proof.
  intros [H1 H2 H3 H4 H5 H6] Hb Hd. assert (Hne : forall x, nmeta <= x -> <[b := d]> (img s) !! x = img s !! x) by (intros x Hx; apply lookup_insert_ne; lia).
  split; cbn [set_img img freeblock]; try done.
  - intros x Hx. destruct (decide (x = b)) as [->|]; [rewrite lookup_insert_eq; eauto|]. rewrite lookup_insert_ne by done. auto.
  - intros x Hx. rewrite Hne by lia. by apply H3.
  - apply Forall_lookup. intros j f Hj. eapply file_ok_ext; [|exact (Forall_lookup_1 _ _ _ _ H6 Hj)]. intros x Hx. apply Hne.
    rewrite (concat_owns fs j f Hj) in H4. apply Forall_app in H4 as [H4 _]. rewrite Forall_forall in H4. apply (H4 x Hx).
Qed.

Lemma iblock_ok s fs i : data_ok s fs -> (i < 207)%nat -> exists d, img s !! IBLOCK (Z.of_nat i + 1) sb = Some d /\ is_block d.
Proof. intros Hok Hi. apply (dk_img _ _ Hok). destruct (IBLOCK_eq i Hi) as [_ ?]. change FSSIZE with 2000. lia. Qed.

(** The inodes of the list but for [i]. *)
Definition inodes_but (i : nat) (s : st) (fs : list file) : Prop :=
  forall j f, j <> i -> fs !! j = Some f -> forall d, img s !! IBLOCK (Z.of_nat j + 1) sb = Some d -> dinode_at d (dip_off (Z.of_nat j + 1)) = din f.

Lemma same_slot i j : IBLOCK (Z.of_nat i + 1) sb = IBLOCK (Z.of_nat j + 1) sb -> (i < 207)%nat -> (j < 207)%nat -> i <> j ->
  (dip_off (Z.of_nat i + 1) + 64 <= dip_off (Z.of_nat j + 1) \/ dip_off (Z.of_nat j + 1) + 64 <= dip_off (Z.of_nat i + 1))%nat.
Proof.
  intros E Hi Hj Hne. destruct (IBLOCK_eq i Hi) as [Ei _], (IBLOCK_eq j Hj) as [Ej _]. rewrite Ei, Ej in E. unfold dip_off. change IPB with 16.
  pose proof (Z.mod_pos_bound (Z.of_nat i + 1) 16 ltac:(lia)). pose proof (Z.mod_pos_bound (Z.of_nat j + 1) 16 ltac:(lia)).
  pose proof (Z.div_mod (Z.of_nat i + 1) 16 ltac:(lia)). pose proof (Z.div_mod (Z.of_nat j + 1) 16 ltac:(lia)). lia.
Qed.

Lemma winode_spec s fs i f : data_ok s fs -> (length fs <= 207)%nat -> fs !! i = Some f -> 0 <= f_type f < 2 ^ 15 -> inodes_but i s fs ->
  exists s', winode (Z.of_nat i + 1) (din f) s = Ret tt s' /\ data_ok s' fs /\ inodes_ok s' fs /\ freeblock s' = freeblock s /\ freeinode s' = freeinode s /\
    (forall b, 0 <= b < 32 -> img s' !! b = img s !! b).
Proof.
  intros Hok Hmax Hi Hty Hbut. pose proof (lookup_lt_Some _ _ _ Hi) as Hlt. destruct (iblock_ok s fs i Hok ltac:(lia)) as (d & Ed & Hd1 & Hd2).
  destruct (IBLOCK_eq i ltac:(lia)) as [Eb Hb]. destruct (din_ok s fs i f Hok Hi Hty) as [Hdok Hl64]. pose proof (dip_off_bound (Z.of_nat i + 1)) as Ho.
  change (Z.to_nat BSIZE) with 1024%nat in Hd1. set (bn := IBLOCK (Z.of_nat i + 1) sb) in *.
  set (d' := put_at (dip_off (Z.of_nat i + 1)) (bytes_of (din f)) d). exists (set_img (<[bn := d']> (img s)) s).
  assert (Hd' : is_block d').
  { split; [unfold d'; by rewrite length_put_at|]. apply put_at_bytes; [lia| |done]. change (bytes_of (din f)) with (dinode_bytes (as_inode 0 (din f))).
    unfold dinode_bytes. repeat (apply Forall_app; split); try apply le_bytes_bytes. apply bytes_concat4. }
  split; [unfold winode; kstep_by rsect_ok; [|exact Ed]; reflexivity|]. split; [apply data_meta; [done| |done]; pose proof nmeta_pos; lia|].
  split; [|split; [done|split; [done|]]].
  - intros j g Hj dj Hdj. cbn [set_img img] in Hdj. destruct (decide (j = i)) as [->|Hne].
    + rewrite lookup_insert_eq in Hdj. injection Hdj as <-. rewrite Hi in Hj. injection Hj as <-. by apply dinode_put.
    + pose proof (lookup_lt_Some _ _ _ Hj) as Hltj. destruct (decide (IBLOCK (Z.of_nat j + 1) sb = bn)) as [Ej|Ej].
      * rewrite Ej, lookup_insert_eq in Hdj. injection Hdj as <-. unfold d'. rewrite dinode_other; [|done|lia|apply same_slot; try lia; done].
        apply (Hbut j g Hne Hj). by rewrite Ej.
      * rewrite lookup_insert_ne in Hdj by done. by apply (Hbut j g Hne Hj).
  - intros b Hb'. cbn [set_img img]. apply lookup_insert_ne. lia.
Qed.

(** ** iappend and ialloc *)

Lemma iappend_ok s fs i f p :
  image_ok s fs -> fs !! i = Some f -> bytes p -> (length (f_data f) + length p <= 268 * 1024)%nat ->
  freeblock s + Z.of_nat (needs (length (f_data f) + length p)) - Z.of_nat (needs (length (f_data f))) <= FSSIZE ->
  exists s' f', iappend (Z.of_nat i + 1) p s = Ret tt s' /\ image_ok s' (<[i := f']> fs) /\ f_type f' = f_type f /\ f_data f' = f_data f ++ p /\
    freeblock s' = freeblock s + Z.of_nat (needs (length (f_data f) + length p)) - Z.of_nat (needs (length (f_data f))).
Proof.
  intros [Hok Hin Ht Hty Hfr Hmax Hsb Hlg] Hi Hbp Hlen Hbud. pose proof (lookup_lt_Some _ _ _ Hi) as Hlt.
  destruct (iblock_ok s fs i Hok ltac:(lia)) as (d & Ed & _). pose proof (Hin i f Hi d Ed) as Hdin. pose proof (Forall_lookup_1 _ _ _ _ Hty Hi) as Htf. cbn in Htf.
  assert (Hlp : loop_ok s fs i (din f) s f (din f) (Z.of_nat (length (f_data f)))).
  { split; try done; [by rewrite list_insert_id|exact (Forall_lookup_1 _ _ _ _ Ht Hi)]. }
  destruct (loop_spec fs i (din f) s (length p) s f (din f) _ p (S (length p)) Hlt Hlp ltac:(lia) ltac:(lia) Hbp Hlen Hbud)
    as (s1 & f' & d' & off' & R & [Hok1 Ht1 -> -> Hi1 Hm1] & Hty1 & Hd1 & Hf1).
  pose proof (list_lookup_insert_eq fs i f' Hlt) as Hi'.
  destruct (winode_spec s1 (<[i := f']> fs) i f' Hok1) as (s2 & R2 & Hok2 & Hin2 & Hf2 & Hi2 & Hsb2); [by rewrite length_insert|done|by rewrite Hty1| |].
  { intros j g Hne Hj dj Hdj. rewrite list_lookup_insert_ne in Hj by done. apply (Hin j g Hj). rewrite <- Hdj. symmetry. apply Hm1.
    pose proof (lookup_lt_Some _ _ _ Hj). destruct (IBLOCK_eq j ltac:(lia)) as [_ ?]. pose proof nmeta_pos. lia. }
  exists s2, f'. split_and!; try done; [| |congruence].
  - unfold iappend. erewrite bind_Ret; [|unfold rinode; kstep_by rsect_ok; [|exact Ed]; rewrite Hdin; reflexivity]. cbn beta iota. cbn [din d_size].
    rewrite xint_id by lia. kstep_by R. rewrite xint_id by (rewrite Hd1, length_app; lia). rewrite <- R2. unfold din. by rewrite Hty1.
  - split; try done.
    + apply Forall_insert; done.
    + apply Forall_insert; [done|by rewrite Hty1].
    + by rewrite Hi2, Hi1, length_insert.
    + by rewrite length_insert.
    + rewrite Hsb2, Hm1; [done| |lia]. pose proof nmeta_pos. lia.
    + rewrite Hsb2, Hm1; [done| |lia]. pose proof nmeta_pos. lia.
Qed.

Definition empty (type : Z) : file := mk_file type [] [] 0.

Lemma data_empty s fs type : data_ok s fs -> data_ok s (fs ++ [empty type]).
Proof.
  intros [H1 H2 H3 H4 H5 H6]. assert (E : concat (owns <$> (fs ++ [empty type])) = concat (owns <$> fs)).
  { rewrite fmap_app, concat_app. cbn. by rewrite app_nil_r. }
  split; rewrite ?E; try done. apply Forall_app. split; [done|]. constructor; [|constructor]. split; cbn; [done|lia|lia|done].
Qed.

Lemma data_ext s s' fs : img s' = img s -> freeblock s' = freeblock s -> data_ok s fs -> data_ok s' fs.
Proof. intros Ei Ef [H1 H2 H3 H4 H5 H6]. split; rewrite ?Ei, ?Ef; done. Qed.

Lemma ialloc_ok s fs type : image_ok s fs -> (length fs < 207)%nat -> 0 <= type < 2 ^ 15 ->
  exists s', ialloc type s = Ret (Z.of_nat (length fs) + 1) s' /\ image_ok s' (fs ++ [empty type]) /\ freeblock s' = freeblock s.
Proof.
  intros [Hok Hin Ht Hty Hfr Hmax Hsb Hlg] Hlt Htype. set (s1 := mk_st (img s) (freeinode s + 1) (freeblock s)).
  assert (Hi : (fs ++ [empty type]) !! length fs = Some (empty type)) by (by rewrite lookup_app_r, Nat.sub_diag by lia).
  destruct (winode_spec s1 (fs ++ [empty type]) (length fs) (empty type)) as (s2 & R2 & Hok2 & Hin2 & Hf2 & Hi2 & Hsb2); try done.
  { apply data_empty. by apply (data_ext s). }
  { rewrite length_app. cbn. lia. }
  { intros j g Hne Hj dj Hdj. assert (Hj' : fs !! j = Some g).
    { apply lookup_app_Some in Hj as [Hj|[Hle Hj]]; [done|]. apply list_lookup_singleton_Some in Hj as [Hj _]. lia. }
    by apply (Hin j g Hj'). }
  exists s2. split_and!; [| |done].
  - unfold ialloc. erewrite bind_Ret; [|unfold take_inode; rewrite u32_small by lia; reflexivity]. cbn beta iota. fold s1. rewrite Hfr.
    replace (mk_dinode (xshort type) 0 0 (xshort 1) (xint 0) (replicate 13 0)) with (din (empty type)); [by kstep_by R2|].
    unfold din, empty. cbn. by rewrite xshort_id by lia.
  - split; try done.
    + apply Forall_app. split; [done|]. constructor; [|constructor]. unfold tight. cbn. lia.
    + apply Forall_app. split; [done|]. by constructor.
    + rewrite Hi2, length_app. cbn. lia.
    + rewrite length_app. cbn. lia.
    + by rewrite Hsb2 by lia.
    + by rewrite Hsb2 by lia.
Qed.

(** ** The files of an image *)

(** A file by its type and contents. *)
Definition view (f : file) : Z * list Z := (f_type f, f_data f).
Definition total (l : list (Z * list Z)) : Z := foldr (fun x n => Z.of_nat (needs (length x.2)) + n) 0 l.

(** [l] are the files, and the blocks in use are those they need. *)
Record holds (s : st) (fs : list file) (l : list (Z * list Z)) : Prop := {
  hd_image : image_ok s fs;
  hd_view : view <$> fs = l;
  hd_total : freeblock s = nmeta + total l
}.

Lemma total_cons x l : total (x :: l) = Z.of_nat (needs (length x.2)) + total l.
Proof. reflexivity. Qed.
Lemma total_app l1 l2 : total (l1 ++ l2) = total l1 + total l2.
Proof. induction l1 as [|x l1 IH]; [done|]. cbn [app]. rewrite !total_cons, IH. lia. Qed.
Lemma total_nonneg l : 0 <= total l.
Proof. induction l as [|x l IH]; [done|]. rewrite total_cons. lia. Qed.

Lemma total_insert l i x y : l !! i = Some x -> total (<[i := y]> l) = total l - Z.of_nat (needs (length x.2)) + Z.of_nat (needs (length y.2)).
Proof.
  intros Hi. pose proof (lookup_lt_Some _ _ _ Hi). rewrite insert_take_drop by done. rewrite <- (take_drop_middle l i x Hi) at 3.
  rewrite !total_app, !total_cons. lia.
Qed.

Lemma append_holds s fs l i t c p : holds s fs l -> l !! i = Some (t, c) -> bytes p -> (length c + length p <= 268 * 1024)%nat ->
  nmeta + total (<[i := (t, c ++ p)]> l) <= FSSIZE ->
  exists s' fs', iappend (Z.of_nat i + 1) p s = Ret tt s' /\ holds s' fs' (<[i := (t, c ++ p)]> l).
Proof.
  intros [Him Hv Htot] Hi Hp Hlen Hbud. rewrite <- Hv, list_lookup_fmap in Hi. apply fmap_Some in Hi as (f & Hi & [= -> ->]).
  assert (Hli : l !! i = Some (view f)) by (rewrite <- Hv, list_lookup_fmap, Hi; done).
  rewrite (total_insert _ _ _ _ Hli) in Hbud. cbn [snd view] in Hbud. rewrite length_app in Hbud.
  destruct (iappend_ok s fs i f p Him Hi Hp Hlen ltac:(lia)) as (s' & f' & R & Him' & Hty & Hda & Hf). exists s', (<[i := f']> fs). split; [done|].
  split; [done| |].
  - rewrite list_fmap_insert, Hv. unfold view at 1. by rewrite Hty, Hda.
  - rewrite (total_insert _ _ _ _ Hli), Hf, Htot. cbn [snd view]. rewrite length_app. lia.
Qed.

Lemma ialloc_holds s fs l type : holds s fs l -> (length l < 207)%nat -> 0 <= type < 2 ^ 15 ->
  exists s' fs', ialloc type s = Ret (Z.of_nat (length l) + 1) s' /\ holds s' fs' (l ++ [(type, [])]).
Proof.
  intros [Him Hv Htot] Hlt Hty. rewrite <- Hv, length_fmap in Hlt |- *. destruct (ialloc_ok s fs type Him Hlt Hty) as (s' & R & Him' & Hf).
  exists s', (fs ++ [empty type]). split; [done|]. split; [done|by rewrite fmap_app|]. rewrite Hf, Htot, total_app, <- Hv, total_cons. cbn [snd length]. change (needs 0) with O. change (total []) with 0. lia.
Qed.

(** The reading loop of main. *)
Lemma copy_holds m : forall s fs l i t c rest fuel, holds s fs l -> l !! i = Some (t, c) -> bytes rest -> (length rest <= m)%nat -> (m < fuel)%nat ->
  (length c + length rest <= 268 * 1024)%nat -> nmeta + total (<[i := (t, c ++ rest)]> l) <= FSSIZE ->
  exists s' fs', loop fuel (copy_step (Z.of_nat i + 1)) rest s = Ret tt s' /\ holds s' fs' (<[i := (t, c ++ rest)]> l).
Proof.
  induction m as [|m IH]; intros s fs l i t c rest [|fuel] Hh Hi Hb Hm Hf Hlen Hbud; try lia.
  all: destruct (decide (rest = [])) as [->|Hne]; [exists s, fs; rewrite app_nil_r, list_insert_id by done; split; [by apply loop_break|done]|].
  { destruct rest; [done|cbn in Hm; lia]. }
  change (Z.to_nat BSIZE) with 1024%nat in *. set (p := take 1024 rest). set (q := drop 1024 rest).
  assert (Hpq : rest = p ++ q) by (symmetry; apply take_drop). assert (Hp : (0 < length p)%nat) by (unfold p; rewrite length_take; destruct rest; [done|cbn [length]; lia]).
  rewrite Hpq, app_assoc in Hbud. rewrite Hpq, length_app in Hlen, Hm.
  assert (Hbud1 : nmeta + total (<[i := (t, c ++ p)]> l) <= FSSIZE).
  { rewrite (total_insert _ _ _ _ Hi) in Hbud. rewrite (total_insert _ _ _ _ Hi). cbn [snd] in *. pose proof (needs_mono (length (c ++ p)) (length ((c ++ p) ++ q)) ltac:(rewrite (length_app _ q); lia)). lia. }
  destruct (append_holds s fs l i t c p Hh Hi ltac:(by apply Forall_take) ltac:(lia) Hbud1) as (s1 & fs1 & R1 & Hh1).
  assert (Hi1 : <[i := (t, c ++ p)]> l !! i = Some (t, c ++ p)) by (apply list_lookup_insert_eq; by eapply lookup_lt_Some).
  destruct (IH s1 fs1 _ i t (c ++ p) q fuel Hh1 Hi1) as (s2 & fs2 & R2 & Hh2); [by apply Forall_drop|lia|lia|rewrite length_app; lia|by rewrite insert_twice|].
  exists s2, fs2. rewrite insert_twice in Hh2. split; [|by rewrite Hpq, app_assoc].
  erewrite loop_continue; [exact R2|]. unfold copy_step. change (Z.to_nat BSIZE) with 1024%nat. fold p q. rewrite (proj2 (Nat.ltb_lt 0 (length p)) Hp). by kstep_by R1.
Qed.

(** ** The whole program *)

Section Host.
Variable host : list Z -> option (list Z).

(** A file more: its name goes into the root directory, the first file. *)
Definition add_view (l : list (Z * list Z)) (path : list Z) : list (Z * list Z) :=
  match l with
  | (t, R) :: rest => (t, R ++ dirent_of (Z.of_nat (length l) + 1) (filename (shortname path))) :: rest ++ [(T_FILE, default [] (host path))]
  | [] => []
  end.
Definition root0 : list (Z * list Z) := [(T_DIR, dirent_of 1 [46] ++ dirent_of 1 [46; 46])].
Definition planned (files : list (list Z)) : list (Z * list Z) := foldl add_view root0 files.

(** A file mkfs can add: it opens, it is not too long, and neither is its name. *)
Record good_path (path : list Z) : Prop := {
  gp_open : exists c, host path = Some c /\ bytes c /\ (length c <= 268 * 1024)%nat;
  gp_slash : existsb (Z.eqb 47) (shortname path) = false;
  gp_name : (length (filename (shortname path)) <= 14)%nat;
  gp_bytes : bytes (filename (shortname path))
}.

Lemma dirent_of_length inum name : length (dirent_of inum name) = 16%nat.
Proof. unfold dirent_of. rewrite length_app, length_le_bytes, length_take, length_app, length_replicate. lia. Qed.
Lemma dirent_of_bytes inum name : bytes name -> bytes (dirent_of inum name).
Proof.
  intros Hn. unfold dirent_of. apply Forall_app. split; [apply le_bytes_bytes|]. apply Forall_take, Forall_app. split; [done|]. apply Forall_replicate. lia.
Qed.

Lemma planned_total l path : total l <= total (add_view l path).
Proof.
  destruct l as [|[t R] rest]; [done|]. unfold add_view. rewrite !total_cons, total_app. cbn [snd].
  pose proof (needs_mono (length R) (length (R ++ dirent_of (Z.of_nat (length ((t, R) :: rest)) + 1) (filename (shortname path)))) ltac:(rewrite length_app; lia)).
  pose proof (total_nonneg [(T_FILE, default [] (host path))]). lia.
Qed.

Lemma fold_total files : forall l, total l <= total (foldl add_view l files).
Proof. induction files as [|f files IH]; intros l; [done|]. cbn [foldl]. pose proof (planned_total l f). specialize (IH (add_view l f)). lia. Qed.

Lemma fold_length files : forall l, l <> [] -> length (foldl add_view l files) = (length l + length files)%nat.
Proof.
  induction files as [|f files IH]; intros l Hl; cbn [foldl length]; [lia|]. destruct l as [|[t R] rest]; [done|]. rewrite IH by done. cbn [add_view length]. rewrite length_app. cbn. lia.
Qed.

Lemma add_file_holds s fs t R rest path : let l := (t, R) :: rest in
  holds s fs l -> good_path path -> (length l < 207)%nat -> (length R + 16 <= 268 * 1024)%nat -> nmeta + total (add_view l path) <= FSSIZE ->
  exists s' fs', add_file host 1 path s = Ret tt s' /\ holds s' fs' (add_view l path).
Proof.
  intros l Hh [(c & Ec & Hcb & Hcl) Hsl Hnl Hnb] Hlt HR Hbud. set (de := dirent_of (Z.of_nat (length l) + 1) (filename (shortname path))).
  assert (Eadd : add_view l path = (t, R ++ de) :: rest ++ [(T_FILE, c)]) by (unfold add_view, l; by rewrite Ec). rewrite Eadd in *.
  destruct (ialloc_holds s fs l T_FILE Hh Hlt ltac:(done)) as (s1 & fs1 & R1 & Hh1).
  destruct (append_holds s1 fs1 (l ++ [(T_FILE, [])]) 0 t R de Hh1 eq_refl) as (s2 & fs2 & R2 & Hh2).
  { by apply dirent_of_bytes. } { unfold de. rewrite dirent_of_length. lia. }
  { unfold l. cbn [app]. change (<[O := (t, R ++ de)]> ((t, R) :: rest ++ [(T_FILE, [])])) with ((t, R ++ de) :: rest ++ [(T_FILE, [])]).
    rewrite !total_cons, !total_app, !total_cons in *. cbn [snd length] in *. change (needs 0) with O. lia. }
  change (<[O := (t, R ++ de)]> (l ++ [(T_FILE, [])])) with ((t, R ++ de) :: rest ++ [(T_FILE, [])]) in Hh2.
  assert (Hi : ((t, R ++ de) :: rest ++ [(T_FILE, [])]) !! length l = Some (T_FILE, [])).
  { change ((rest ++ [(T_FILE, @nil Z)]) !! length rest = Some (T_FILE, [])). by rewrite lookup_app_r, Nat.sub_diag by lia. }
  assert (Eins : <[length l := (T_FILE, [] ++ c)]> ((t, R ++ de) :: rest ++ [(T_FILE, [])]) = (t, R ++ de) :: rest ++ [(T_FILE, c)]).
  { unfold l. cbn [length]. change (<[S (length rest) := (T_FILE, [] ++ c)]> ((t, R ++ de) :: rest ++ [(T_FILE, [])])) with
      ((t, R ++ de) :: <[length rest := (T_FILE, c)]> (rest ++ [(T_FILE, [])])). f_equal. by rewrite insert_app_r_alt, Nat.sub_diag by lia. }
  destruct (copy_holds (length c) s2 fs2 _ (length l) T_FILE [] c (S (length c)) Hh2 Hi Hcb ltac:(lia) ltac:(lia) ltac:(cbn [length]; lia)) as (s3 & fs3 & R3 & Hh3); [by rewrite Eins|].
  rewrite Eins in Hh3. exists s3, fs3. split; [|done].
  unfold add_file. rewrite Hsl. kstep_by (eq_refl (Ret tt s)). rewrite Ec. rewrite (proj2 (Nat.leb_le _ 14) Hnl). kstep_by (eq_refl (Ret tt s)).
  kstep_by R1. change 1 with (Z.of_nat 0 + 1) at 1. fold de. kstep_by R2. exact R3.
Qed.

Lemma files_hold files : forall s fs t R rest, let l := (t, R) :: rest in
  holds s fs l -> length R = (16 * (length rest + 2))%nat -> Forall good_path files -> (length l + length files <= 207)%nat ->
  nmeta + total (foldl add_view l files) <= FSSIZE ->
  exists s' fs', for_each files (add_file host 1) s = Ret tt s' /\ holds s' fs' (foldl add_view l files).
Proof.
  induction files as [|path files IH]; intros s fs t R rest l Hh HR Hg Hlen Hbud; [by exists s, fs|].
  apply Forall_cons in Hg as [Hp Hg]. cbn [foldl length] in *. pose proof (fold_total files (add_view l path)) as Hmono.
  destruct (add_file_holds s fs t R rest path Hh Hp) as (s1 & fs1 & R1 & Hh1); [fold l; lia|unfold l in Hlen; cbn [length] in Hlen; lia|fold l; lia|]. fold l in Hh1.
  destruct (IH s1 fs1 t (R ++ dirent_of (Z.of_nat (length l) + 1) (filename (shortname path))) (rest ++ [(T_FILE, default [] (host path))])) as (s2 & fs2 & R2 & Hh2); try done.
  - rewrite !length_app, dirent_of_length, HR. cbn [length]. lia.
  - unfold l in Hlen. cbn [length] in *. rewrite length_app. cbn [length]. lia.
  - exists s2, fs2. split; [|done]. cbn [for_each]. by kstep_by R1.
Qed.

(** *** The start *)

Lemma zero_sectors n : forall a s, exists s', for_each (seqZ a (Z.of_nat n)) (fun i => wsect i zeroes) s = Ret tt s' /\
  freeinode s' = freeinode s /\ freeblock s' = freeblock s /\
  (forall b, img s' !! b = if decide (a <= b < a + Z.of_nat n) then Some zeroes else img s !! b).
Proof.
  induction n as [|n IH]; intros a s.
  - exists s. split_and!; try done. intros b. by rewrite decide_False by lia.
  - rewrite Nat2Z.inj_succ, seqZ_cons by lia. cbn [for_each]. rewrite Z.pred_succ.
    destruct (IH (Z.succ a) (set_img (<[a := zeroes]> (img s)) s)) as (s' & R & Hi & Hf & Hb). exists s'. split; [by kstep_by wsect_ok|]. split_and!; try done.
    intros b. rewrite Hb. cbn [set_img img]. destruct (decide (b = a)) as [->|Hne].
    + rewrite decide_False, decide_True, lookup_insert_eq by lia. done.
    + rewrite lookup_insert_ne by done. repeat case_decide; try done; lia.
Qed.

Lemma sb_block : is_block (put_at 0 (sb_bytes sb) zeroes) /\ sb_of_bytes (put_at 0 (sb_bytes sb) zeroes) = sb.
Proof.
  split; [|by vm_compute]. split; [by rewrite length_put_at|]. apply put_at_bytes; [by apply Nat.leb_le; vm_compute| |apply Forall_replicate; lia].
  unfold sb_bytes. repeat (apply Forall_app; split); apply le_bytes_bytes.
Qed.

Lemma start_holds s : exists s' fs', (modify (fun s => mk_st (img s) 1 nmeta) ;; for_each (seqZ 0 FSSIZE) (fun i => wsect i zeroes) ;;
  wsect 1 (put_at 0 (sb_bytes sb) zeroes)) s = Ret tt s' /\ holds s' fs' [].
Proof.
  destruct (zero_sectors (Z.to_nat FSSIZE) 0 (mk_st (img s) 1 nmeta)) as (s1 & R & Hi & Hf & Hb). rewrite Z2Nat.id in R, Hb by done. cbn [freeinode freeblock] in Hi, Hf.
  destruct sb_block as [Hsb _]. pose proof nmeta_pos as Hm. exists (set_img (<[1 := put_at 0 (sb_bytes sb) zeroes]> (img s1)) s1), []. split.
  - kstep_by (eq_refl (Ret tt (mk_st (img s) 1 nmeta))). kstep_by R. reflexivity.
  - split; [|done|exact Hf]. split; cbn [set_img img freeinode freeblock length]; try done; [|lia|apply lookup_insert_eq|rewrite lookup_insert_ne, Hb by lia; by rewrite decide_True by (change FSSIZE with 2000; lia)].
    split; cbn [set_img img freeinode freeblock].
    + intros b Hr. destruct (decide (b = 1)) as [->|Hne]; [rewrite lookup_insert_eq; eauto|]. rewrite lookup_insert_ne, Hb, decide_True by lia.
      exists zeroes. split; [done|apply zero_block].
    + rewrite Hf. change FSSIZE with 2000. lia.
    + intros b Hr. rewrite lookup_insert_ne, Hb, decide_True by lia. done.
    + constructor.
    + constructor.
    + constructor.
Qed.

(** *** The bitmap *)

Lemma mark_set_bit buf i : bytes buf -> mark buf i = set_bit (Z.of_nat i) buf.
Proof.
  intros Hb. unfold mark, set_bit. apply list_eq. intros j. destruct (decide (j = Z.to_nat (Z.of_nat i / 8))) as [->|Hne].
  - rewrite !list_lookup_alter_eq. destruct (buf !! Z.to_nat (Z.of_nat i / 8)) as [x|] eqn:E; [|done]. cbn. f_equal. apply u8_small.
    pose proof (Forall_lookup_1 _ _ _ _ Hb E) as Hx. pose proof (Z.mod_pos_bound (Z.of_nat i) 8 ltac:(lia)). by apply lor_bit_byte.
  - by rewrite !list_lookup_alter_ne.
Qed.

Lemma bitmap_block n : is_block (foldl mark zeroes (seq 0 n)).
Proof.
  induction n as [|n IH]; [apply zero_block|]. rewrite seq_S, foldl_app. cbn [foldl]. rewrite mark_set_bit by apply IH. by apply set_bit_block.
Qed.

(** The first [n] bits and no other. *)
Lemma bitmap_bits n b : Z.of_nat n <= 8192 -> 0 <= b < 8192 -> bit_set (foldl mark zeroes (seq 0 n)) b = (b <? Z.of_nat n).
Proof.
  intros Hn Hb. induction n as [|n IH].
  - rewrite bit_set_testbit by lia. unfold zeroes. cbn [foldl seq]. rewrite (proj2 (Z.ltb_ge b (Z.of_nat 0))) by lia.
    destruct (replicate (Z.to_nat BSIZE) 0 !! Z.to_nat (b / 8)) as [x|] eqn:E; [|apply Z.testbit_0_l]. apply lookup_replicate in E as [-> _]. apply Z.testbit_0_l.
  - rewrite seq_S, foldl_app. cbn [foldl Nat.add]. destruct (bitmap_block n) as [Hl Hby]. rewrite mark_set_bit by done.
    rewrite set_bit_spec, IH by (rewrite ?Hl; change (Z.to_nat BSIZE) with 1024%nat; lia). rewrite Nat2Z.inj_succ.
    destruct (Z.ltb_spec b (Z.of_nat n)), (Z.ltb_spec b (Z.succ (Z.of_nat n))), (bool_decide_reflect (Z.of_nat n = b)); try done; lia.
Qed.

(** *** The end *)

(** The root directory's size is rounded up: zeroes after its entries. *)
Definition padded (R : list Z) : list Z := R ++ replicate (1024 - length R mod 1024) 0.
Definition pad_root (l : list (Z * list Z)) : list (Z * list Z) := match l with (t, R) :: rest => (t, padded R) :: rest | [] => [] end.

Lemma padded_length R : length (padded R) = (1024 * (length R / 1024 + 1))%nat.
Proof.
  unfold padded. rewrite length_app, length_replicate. pose proof (Nat.div_mod_eq (length R) 1024). pose proof (Nat.mod_upper_bound (length R) 1024 ltac:(lia)). lia.
Qed.

Lemma data_padded s fs f : data_ok s fs -> fs !! 0%nat = Some f -> tight f -> (length (f_data f) mod 1024 <> 0)%nat ->
  let f' := mk_file (f_type f) (padded (f_data f)) (f_blocks f) (f_ind f) in data_ok s (<[O := f']> fs) /\ tight f' /\ length (f_blocks f) = (length (f_data f) / 1024 + 1)%nat.
Proof.
  intros Hok Hi Ht Hmod f'. pose proof (nblk_blocks f Ht (data_length _ _ _ _ Hok Hi)) as Hnb.
  destruct (needs_old (length (f_data f)) 0 Hmod ltac:(pose proof (Nat.mod_upper_bound (length (f_data f)) 1024); lia)) as [Ek _]. rewrite Ek in Hnb.
  pose proof (padded_length (f_data f)) as Hpl. split; [|split; [unfold tight; cbn [f' f_blocks f_data]; lia|lia]].
  apply (data_update s s fs 0 f f' []); try done; [constructor|pose proof (dk_free _ _ Hok); lia|intros b Hb; by apply (block_length s fs 0 f b Hok Hi)|].
  destruct (Forall_lookup_1 _ _ _ _ (dk_files _ _ Hok) Hi) as [H1 H2 H3 H4]. split; cbn [f' f_blocks f_data f_ind]; try done.
  rewrite H1, Hpl, Hnb. unfold padded. rewrite <- app_assoc, <- replicate_add. f_equal. f_equal.
  pose proof (Nat.div_mod_eq (length (f_data f)) 1024). pose proof (Nat.mod_upper_bound (length (f_data f)) 1024 ltac:(lia)). lia.
Qed.

Lemma finish_holds s fs t R rest : let l := (t, R) :: rest in
  holds s fs l -> (length R mod 1024 <> 0)%nat -> (length R <= 16 * 208)%nat ->
  exists s' fs', (din ← rinode 1; let off := xint (d_size din) in let off := u32 ((off / BSIZE + 1) * BSIZE) in
     winode 1 (mk_dinode (d_type din) (d_major din) (d_minor din) (d_nlink din) (xint off) (d_addrs din)) ;; used ← gets freeblock; balloc used) s = Ret tt s' /\
    image_ok s' fs' /\ view <$> fs' = pad_root l /\ freeblock s' = nmeta + total l /\
    img s' !! 45 = Some (foldl mark zeroes (seq 0 (Z.to_nat (nmeta + total l)))).
Proof.
  intros l [[Hok Hin Ht Hty Hfr Hmax Hsb Hlg] Hv Htot] Hmod HR. destruct fs as [|f fs]; [done|]. rewrite fmap_cons in Hv. injection Hv as Et ER Hv.
  assert (Hi : (f :: fs) !! 0%nat = Some f) by done. rewrite <- ER in Hmod, HR. pose proof (Forall_lookup_1 _ _ _ _ Ht Hi) as Htf.
  pose proof (Forall_lookup_1 _ _ _ _ Hty Hi) as Htyf. cbn in Htyf. destruct (data_padded s (f :: fs) f Hok Hi Htf Hmod) as (Hok1 & Ht1 & Hlb).
  set (f' := mk_file (f_type f) (padded (f_data f)) (f_blocks f) (f_ind f)) in *. change (<[O := f']> (f :: fs)) with (f' :: fs) in Hok1.
  destruct (iblock_ok s (f :: fs) 0 Hok ltac:(lia)) as (d & Ed & _). pose proof (Hin 0%nat f Hi d Ed) as Hdin.
  destruct (winode_spec s (f' :: fs) 0 f' Hok1 Hmax eq_refl Htyf) as (s1 & R1 & Hok2 & Hin2 & Hf2 & Hi2 & Hsb2).
  { intros [|j] g Hne Hj dj Hdj; [done|]. by apply (Hin (S j) g Hj). }
  change (Z.of_nat 0 + 1) with 1 in *. pose proof nmeta_pos as Hm. pose proof (dk_free _ _ Hok) as Hfree. change FSSIZE with 2000 in Hfree.
  set (B := foldl mark zeroes (seq 0 (Z.to_nat (freeblock s)))). pose proof (bitmap_block (Z.to_nat (freeblock s))) as HB. fold B in HB.
  exists (set_img (<[45 := B]> (img s1)) s1), (f' :: fs).
  assert (Hoff : u32 ((Z.of_nat (length (f_data f)) / BSIZE + 1) * BSIZE) = Z.of_nat (length (f_data f'))).
  { cbn [f' f_data]. rewrite padded_length. change BSIZE with (Z.of_nat 1024). rewrite <- Nat2Z.inj_div, u32_small; [lia|]. pose proof (Nat.Div0.div_le_mono _ _ 1024 HR).
    change (16 * 208 / 1024)%nat with 3%nat in *. lia. }
  split_and!; [| | |cbn [set_img freeblock]; congruence|].
  - erewrite bind_Ret; [|unfold rinode; kstep_by rsect_ok; [|exact Ed]; rewrite Hdin; reflexivity]. cbn beta iota. cbn [din d_size d_type d_major d_minor d_nlink d_addrs].
    rewrite (xint_id (Z.of_nat (length (f_data f)))) by lia. rewrite Hoff, xint_id by (rewrite <- Hoff; apply u32_range).
    replace (mk_dinode (f_type f) 0 0 1 (Z.of_nat (length (f_data f'))) (addrs f)) with (din f') by done. kstep_by R1. kstep_by (eq_refl (Ret (freeblock s1) s1)).
    unfold balloc. erewrite bind_Ret; [|unfold assert; rewrite (proj2 (Z.ltb_lt (freeblock s1) BPB)) by (rewrite Hf2; change BPB with 8192; lia); reflexivity].
    cbn beta iota. rewrite Hf2. reflexivity.
  - split; cbn [set_img img freeinode freeblock]; try done.
    + apply data_meta; [done|lia|done].
    + intros j g Hj dj Hdj. cbn [set_img img] in Hdj. pose proof (lookup_lt_Some _ _ _ Hj) as Hlj. destruct (IBLOCK_eq j) as [_ ?]; [cbn [length] in *; lia|].
      rewrite lookup_insert_ne in Hdj by lia. by apply (Hin2 j g Hj).
    + apply Forall_cons. split; [done|]. by apply Forall_cons in Ht as [_ ?].
    + apply Forall_cons. split; [done|]. by apply Forall_cons in Hty as [_ ?].
    + by rewrite Hi2.
    + rewrite lookup_insert_ne, Hsb2 by lia. done.
    + rewrite lookup_insert_ne, Hsb2 by lia. done.
  - rewrite fmap_cons, Hv. unfold l, pad_root, view. cbn [f' f_type f_data]. by rewrite Et, ER.
  - cbn [set_img img]. rewrite lookup_insert_eq. unfold B. by rewrite Htot.
Qed.

(** The first file of the plan is the root directory: two entries and one for every file. *)
Lemma planned_root files : exists R rest, planned files = (T_DIR, R) :: rest /\ length R = (16 * (length files + 2))%nat.
Proof.
  unfold planned, root0. set (R0 := dirent_of 1 [46] ++ dirent_of 1 [46; 46]). assert (H0 : length R0 = 32%nat) by done. clearbody R0.
  assert (H : forall R rest, exists R' rest', foldl add_view ((T_DIR, R) :: rest) files = (T_DIR, R') :: rest' /\ length R' = (length R + 16 * length files)%nat).
  { induction files as [|f files IH]; intros R rest; cbn [foldl length]; [eauto with lia|]. cbn [add_view].
    destruct (IH (R ++ dirent_of (Z.of_nat (length ((T_DIR, R) :: rest)) + 1) (filename (shortname f))) (rest ++ [(T_FILE, default [] (host f))])) as (R' & rest' & E & Hl).
    exists R', rest'. split; [done|]. rewrite Hl, length_app, dirent_of_length. lia. }
  destruct (H R0 []) as (R' & rest' & E & Hl). exists R', rest'. split; [done|]. lia.
Qed.

Lemma build_holds files s : Forall good_path files -> (length files <= 206)%nat -> ((length files + 2) mod 64 <> 0)%nat ->
  nmeta + total (planned files) <= FSSIZE ->
  exists s' fs, build host files s = Ret tt s' /\ image_ok s' fs /\ view <$> fs = pad_root (planned files) /\ freeblock s' = nmeta + total (planned files) /\
    img s' !! 45 = Some (foldl mark zeroes (seq 0 (Z.to_nat (nmeta + total (planned files))))).
Proof.
  intros Hg Hn Hmod Hbud. destruct (start_holds s) as (s1 & fs1 & R1 & Hh1). apply bind_inv_Ret in R1 as ([] & sa & Ra & R1). apply bind_inv_Ret in R1 as ([] & sb1 & Rb & R1).
  destruct (ialloc_holds s1 fs1 [] T_DIR Hh1 ltac:(cbn; lia) ltac:(done)) as (s2 & fs2 & R2 & Hh2). cbn [app length] in R2, Hh2. change (Z.of_nat 0 + 1) with 1 in R2.
  assert (Hroot : nmeta + total root0 <= FSSIZE) by (by apply Z.leb_le; vm_compute).
  destruct (append_holds s2 fs2 _ 0 T_DIR [] (dirent_of 1 [46]) Hh2 eq_refl) as (s3 & fs3 & R3 & Hh3).
  { apply dirent_of_bytes. repeat constructor; lia. } { rewrite dirent_of_length. cbn [length]. lia. } { by apply Z.leb_le; vm_compute. }
  destruct (append_holds s3 fs3 _ 0 T_DIR (dirent_of 1 [46]) (dirent_of 1 [46; 46]) Hh3 eq_refl) as (s4 & fs4 & R4 & Hh4).
  { apply dirent_of_bytes. repeat constructor; lia. } { rewrite !dirent_of_length. lia. } { exact Hroot. }
  destruct (files_hold files s4 fs4 T_DIR (dirent_of 1 [46] ++ dirent_of 1 [46; 46]) [] Hh4 eq_refl Hg) as (s5 & fs5 & R5 & Hh5); [cbn [length]; lia|exact Hbud|].
  change (holds s5 fs5 (planned files)) in Hh5. destruct (planned_root files) as (R & rest & EP & HR). rewrite EP in *.
  destruct (finish_holds s5 fs5 T_DIR R rest Hh5) as (s6 & fs6 & R6 & Hrest).
  { rewrite HR. change 1024%nat with (16 * 64)%nat. rewrite Nat.Div0.mul_mod_distr_l. lia. } { lia. }
  exists s6, fs6. split; [|exact Hrest]. change (Z.of_nat 0 + 1) with 1 in R3, R4.
  unfold build. kstep_by Ra. kstep_by Rb. kstep_by R1. kstep_by R2. kstep_by (eq_refl (Ret tt s2)). kstep_by R3. kstep_by R4. kstep_by R5. exact R6.
Qed.
End Host.

(** ** The kernel on the image *)

Lemma concat_lookup (D : Z -> list Z) l j : (forall x, x ∈ l -> length (D x) = 1024%nat) ->
  concat (D <$> l) !! j = l !! (j / 1024)%nat ≫= fun b => D b !! (j mod 1024)%nat.
Proof.
  revert j. induction l as [|y l IH]; intros j HD; [done|]. rewrite fmap_cons. cbn [concat]. pose proof (HD y (list_elem_of_here y l)) as Hy.
  destruct (decide (j < 1024)%nat) as [Hj|Hj].
  - rewrite lookup_app_l, Nat.div_small, Nat.mod_small by lia. done.
  - rewrite lookup_app_r, Hy, IH by (try lia; intros x Hx; apply HD; by apply list_elem_of_further).
    assert (Ed : (j / 1024)%nat = S ((j - 1024) / 1024)).
    { replace j with (j - 1024 + 1 * 1024)%nat at 1 by lia. rewrite Nat.div_add by lia. lia. }
    assert (Em : (j mod 1024 = (j - 1024) mod 1024)%nat).
    { replace j with (j - 1024 + 1 * 1024)%nat at 1 by lia. by rewrite Nat.Div0.mod_add. }
    by rewrite Ed, Em.
Qed.

Section Mounted.
Context (s : st) (fs : list file) (ks : kstate).
Hypothesis Him : image_ok s fs.
Hypothesis Hblk : forall b, 0 <= b < FSSIZE -> img s !! b = Some (blk ks b).
Hypothesis Hsb : k_sb ks = sb.
Context (i : nat) (f : file) (ip0 : inode).
Hypothesis Hi : fs !! i = Some f.
Hypothesis Hinum : i_inum ip0 = Z.of_nat i + 1.

Abbreviation ip := (load_dinode (blk ks (IBLOCK (i_inum ip0) (k_sb ks))) ip0).

Lemma own_block b : b ∈ owns f -> nmeta <= b < FSSIZE /\ img s !! b = Some (blk ks b).
Proof.
  intros Hb. pose proof (owns_range s fs i f b (im_data _ _ Him) Hi Hb). pose proof (dk_free _ _ (im_data _ _ Him)). split; [lia|]. apply Hblk. pose proof nmeta_pos. lia.
Qed.

Lemma mounted_inode : i_type ip = f_type f /\ i_nlink ip = 1 /\ i_size ip = Z.of_nat (length (f_data f)) /\ i_addrs ip = addrs f /\ i_dev ip = i_dev ip0.
Proof.
  rewrite Hsb, Hinum. pose proof (lookup_lt_Some _ _ _ Hi) as Hlt. pose proof (im_max _ _ Him) as Hm. assert (Hi207 : (i < 207)%nat) by lia. destruct (IBLOCK_eq i Hi207) as [_ Hb].
  pose proof (im_inodes _ _ Him i f Hi _ (Hblk (IBLOCK (Z.of_nat i + 1) sb) ltac:(change FSSIZE with 2000; lia))) as Hd.
  unfold load_dinode. rewrite Hinum. cbn [i_type i_nlink i_size i_addrs i_dev set_i_addrs set_i_size set_i_nlink set_i_minor set_i_major set_i_type].
  unfold dinode_at, din in Hd. injection Hd as H1 H2 H3 H4 H5 H6. done.
Qed.

Lemma mounted_faddr n b : f_blocks f !! n = Some b -> faddr ks ip (Z.of_nat n) = b.
Proof.
  intros Hn. destruct mounted_inode as (_ & _ & _ & Ha & _). destruct (Forall_lookup_1 _ _ _ _ (dk_files _ _ (im_data _ _ Him)) Hi) as [_ H2 H3 H4].
  pose proof (lookup_lt_Some _ _ _ Hn) as Hlt. unfold faddr. rewrite Ha. change NDIRECT with 12. unfold addrs.
  assert (Hl : length (take 12 (f_blocks f ++ replicate 12 0)) = 12%nat) by (rewrite length_take, length_app, length_replicate; lia).
  destruct (Z.ltb_spec (Z.of_nat n) 12).
  - rewrite Nat2Z.id, lookup_app_l, lookup_take_lt, lookup_app_l, Hn by lia. done.
  - assert (Hne : f_ind f <> 0) by (apply H3; lia). change (Z.to_nat 12) with 12%nat. rewrite lookup_app_r, Hl, Nat.sub_diag by lia. cbn [lookup list_lookup default from_option id].
    rewrite (proj2 (Z.eqb_neq _ _) Hne). assert (Ho : f_ind f ∈ owns f).
    { unfold owns. rewrite (proj2 (Z.eqb_neq _ _) Hne). apply elem_of_app. right. apply list_elem_of_here. }
    destruct (own_block _ Ho) as [_ Eb]. rewrite (H4 Hne) in Eb. injection Eb as <-. replace (Z.of_nat n - 12) with (Z.of_nat (n - 12)) by lia.
    apply ind_at_words.
    + unfold entries. rewrite lookup_app_l by (rewrite length_drop; lia). rewrite lookup_drop. replace (12 + (n - 12))%nat with n by lia. done.
    + assert (b ∈ owns f) by (unfold owns; apply elem_of_app; left; by eapply list_elem_of_lookup_2).
      destruct (own_block b) as [[Hb1 Hb2] _]; [done|]. pose proof nmeta_pos. change FSSIZE with 2000 in Hb2. lia.
Qed.

Lemma mounted_bytes : fbytes ks ip 0 (length (f_data f)) = f_data f.
Proof.
  destruct (Forall_lookup_1 _ _ _ _ (dk_files _ _ (im_data _ _ Him)) Hi) as [H1 _ _ _]. apply list_eq. intros j. destruct (decide (j < length (f_data f))%nat) as [Hj|Hj].
  2: { rewrite !lookup_ge_None_2 by (rewrite ?length_fbytes; lia). done. }
  unfold fbytes. rewrite list_lookup_fmap, lookup_seq_lt by done. cbn [fmap option_fmap option_map]. destruct (lookup_lt_is_Some_2 _ _ Hj) as [x Hx]. rewrite Hx. f_equal.
  assert (Hc : concat ((fun b => default [] (img s !! b)) <$> f_blocks f) !! j = Some x) by (rewrite H1; by apply lookup_app_l_Some).
  rewrite concat_lookup in Hc.
  2: { intros b Hb. destruct (block_length s fs i f b (im_data _ _ Him) Hi) as (d & -> & [Hd _]); [unfold owns; apply elem_of_app; by left|]. exact Hd. }
  destruct (f_blocks f !! (j / 1024)%nat) as [b|] eqn:Eb; [|done]. cbn [mbind option_bind] in Hc. unfold fbyte. cbn [Nat.add]. rewrite Z.add_0_l. change BSIZE with (Z.of_nat 1024).
  rewrite <- Nat2Z.inj_div, <- Nat2Z.inj_mod, Nat2Z.id, (mounted_faddr _ _ Eb).
  destruct (own_block b) as [_ E]; [unfold owns; apply elem_of_app; left; by eapply list_elem_of_lookup_2|]. rewrite E in Hc. cbn [default from_option id] in Hc. by rewrite Hc.
Qed.

Lemma mounted_ok : i_dev ip0 = ROOTDEV -> FsFile.file_ok ks ip.
Proof.
  intros Hd. destruct mounted_inode as (_ & _ & Hs & Ha & Hdev). pose proof (data_length _ _ _ _ (im_data _ _ Him) Hi) as Hlen.
  destruct (Forall_lookup_1 _ _ _ _ (dk_files _ _ (im_data _ _ Him)) Hi) as [_ H2 _ _]. split.
  - by rewrite Hdev.
  - rewrite Ha. unfold addrs. rewrite length_app, length_take, length_app, length_replicate. cbn [length]. lia.
  - rewrite Hs. change (MAXFILE * BSIZE) with (268 * 1024). lia.
  - intros bn Hb Hlt. rewrite Hs in Hlt. change BSIZE with 1024 in Hlt. rewrite <- (Z2Nat.id bn Hb).
    destruct (lookup_lt_is_Some_2 (f_blocks f) (Z.to_nat bn)) as [b Eb]; [lia|]. rewrite (mounted_faddr _ _ Eb).
    destruct (own_block b) as [[? _] _]; [unfold owns; apply elem_of_app; left; by eapply list_elem_of_lookup_2|]. pose proof nmeta_pos. lia.
Qed.
End Mounted.

(** C2: mkfs builds the disk it was asked for.  When every host file can be opened and has a name and a size that fit, and the
    files fit in the inodes and the blocks of the disk, mkfs ends normally; a kernel that sees the image reads the superblock mkfs
    wrote, an empty log, a bitmap in which exactly the metadata and the blocks of the files are in use, and, for every inode, a
    well-formed file with the type, the size and byte for byte the contents that were asked for: the root directory first
    (entries for dot, dot-dot and the files, padded to whole blocks), then the files in the order given. *)
Theorem mkfs_image host can_create prog image files s :
  can_create image = true -> Forall (good_path host) files -> (length files <= 206)%nat -> ((length files + 2) mod 64 <> 0)%nat ->
  nmeta + total (planned host files) <= FSSIZE ->
  exists s', main host can_create (prog :: image :: files) s = Ret tt s' /\
    (forall b, 0 <= b < FSSIZE -> exists d, img s' !! b = Some d /\ is_block d) /\
    forall ks, (forall b, 0 <= b < FSSIZE -> img s' !! b = Some (blk ks b)) ->
      sb_of_bytes (blk ks 1) = sb /\ blk ks 2 = zeroes /\
      (k_sb ks = sb_of_bytes (blk ks 1) -> (forall b, 0 <= b < FSSIZE -> used ks b = (b <? nmeta + total (planned host files))) /\
      forall i t c ip0, pad_root (planned host files) !! i = Some (t, c) -> i_dev ip0 = ROOTDEV -> i_inum ip0 = Z.of_nat i + 1 ->
        let ip := load_dinode (blk ks (IBLOCK (i_inum ip0) (k_sb ks))) ip0 in
        i_type ip = t /\ i_nlink ip = 1 /\ i_size ip = Z.of_nat (length c) /\ FsFile.file_ok ks ip /\ fbytes ks ip 0 (length c) = c).
Proof.
  intros Hcc Hg Hn Hmod Hbud. destruct (build_holds host files s Hg Hn Hmod Hbud) as (s' & fs & R & Him & Hv & Hf & Hbm). exists s'. split; [|split].
  - unfold main. cbn [drop]. kstep_by (eq_refl (Ret tt s)). kstep_by (eq_refl (Ret tt s)). by rewrite Hcc.
  - apply (dk_img _ _ (im_data _ _ Him)).
  - intros ks Hblk. assert (Esb1 : sb_of_bytes (blk ks 1) = sb).
    { pose proof (Hblk 1 ltac:(by vm_compute)) as E. rewrite (im_sb _ _ Him) in E. injection E as <-. apply sb_block. }
    split; [done|]. split; [pose proof (Hblk 2 ltac:(by vm_compute)) as E; rewrite (im_log _ _ Him) in E; by injection E as <-|].
    rewrite Esb1. intros Esb. split.
    + intros b Hb. unfold used. rewrite Esb. change FSSIZE with 2000 in Hb, Hbud. assert (EB : BBLOCK b sb = 45).
      { rewrite BBLOCK_eq; [|split; by vm_compute|done]. rewrite Z.div_small by (change BPB with 8192; lia). done. }
      rewrite EB, Z.mod_small by (change BPB with 8192; lia). pose proof (Hblk 45 ltac:(by vm_compute)) as E. rewrite Hbm in E. injection E as <-.
      pose proof nmeta_pos. pose proof (total_nonneg (planned host files)). rewrite bitmap_bits, Z2Nat.id by lia. done.
    + intros i t c ip0 Hi Hd Hinum ip. rewrite <- Hv, list_lookup_fmap in Hi. apply fmap_Some in Hi as (f & Hi & [= -> ->]).
      destruct (mounted_inode s' fs ks Him Hblk Esb i f ip0 Hi Hinum) as (H1 & H2 & H3 & _). split_and!; try done.
      * by apply (mounted_ok s' fs ks Him Hblk Esb i f ip0 Hi Hinum).
      * by apply (mounted_bytes s' fs ks Him Hblk Esb i f ip0 Hi Hinum).
Qed.

(** A host with one program, of two blocks. *)
Definition sample_prog : list Z := replicate (Z.to_nat 1500) 7.
Definition sample_host (path : list Z) : option (list Z) := if bool_decide (path = chars "user/_init") then Some sample_prog else None.

Lemma sample_path : good_path sample_host (chars "user/_init").
Proof.
  split; [|done|by apply Nat.leb_le; vm_compute|].
  - exists sample_prog. split; [by vm_compute|]. split; [apply Forall_replicate; lia|]. unfold sample_prog. rewrite length_replicate. lia.
  - repeat constructor; vm_compute; done.
Qed.

Lemma mkfs_image_witness :
  exists s', main sample_host (fun _ => true) [chars "mkfs"; chars "fs.img"; chars "user/_init"] (mk_st ∅ 0 0) = Ret tt s' /\
    let ks := fs_sample (img s') in used ks 48 = true /\ used ks 49 = false /\
    forall ip0, i_dev ip0 = ROOTDEV -> i_inum ip0 = 2 ->
      fbytes ks (load_dinode (blk ks (IBLOCK 2 (k_sb ks))) ip0) 0 (length sample_prog) = sample_prog.
Proof.
  destruct (mkfs_image sample_host (fun _ => true) (chars "mkfs") (chars "fs.img") [chars "user/_init"] (mk_st ∅ 0 0)) as (s' & R & Himg & H).
  - done.
  - constructor; [apply sample_path|constructor].
  - cbn. lia.
  - done.
  - by apply Z.leb_le; vm_compute.
  - exists s'. split; [exact R|]. cbn zeta.
    assert (Hblk : forall b, 0 <= b < FSSIZE -> img s' !! b = Some (blk (fs_sample (img s')) b)).
    { intros b Hb. destruct (Himg b Hb) as (d & Hd & _). rewrite fs_sample_blk. unfold disk_get. by rewrite Hd. }
    destruct (H (fs_sample (img s')) Hblk) as (Esb & _ & Hks). destruct Hks as [Hu Hf]; [by rewrite Esb|].
    change FSSIZE with 2000 in Hu. assert (Et : nmeta + total (planned sample_host [chars "user/_init"]) = 49) by (by vm_compute). rewrite Et in Hu.
    split; [apply (Hu 48); lia|]. split; [apply (Hu 49); lia|].
    intros ip0 Hd Hi. destruct (Hf 1%nat T_FILE sample_prog ip0) as (_ & _ & _ & _ & Hb); [reflexivity|done|done|]. rewrite Hi in Hb. exact Hb.
Defined.
End MkfsImage.
